(* ===== verification/_CoqProject ===== *)
-Q . S2P
Prelude.v
RilDef.v
BitStream.v
Text.v
Base64.v
Gsm7.v
Ussd.v
Icc.v
SimRecords.v
CdmaSms.v
Sms.v
SmsData.v
Timers.v
WaitList.v
Network.v
Rcm.v
Layout.v
Handler.v
RilData.v
RilDataTheorems.v
Uplmn.v
UplmnTheorems.v
MccTable.v
CallPackets.v
Call.v
CallTheorems.v
CallTotal.v
CallHandlers.v
SimPackets.v
SimPin.v
SimPinTheorems.v
SimIo.v
SimCardPackets.v
SimPhoneBook.v
SimCard.v
SimTheorems.v
SimAutoPin.v
SimStatusTheorems.v
SimIoTheorems.v
SimCardTheorems.v
SimPhoneBookTheorems.v
NetState.v
Pdp.v
PdpTheorems.v
PsBuilder.v
PsBuilderTheorems.v
Ps.v
PsProofs.v
PsTheorems.v
PsAdapter.v
PsAdapterTheorems.v
Service.v
ServiceProofs.v
ServiceTheorems.v
ServiceSpec.v
ServiceDrain.v
ServiceFindings.v
SimEngine.v
Context.v
ContextTheorems.v
