(* ===== verification/Prelude.v ===== *)
(** * The RIL daemon of the Samsung SLSI vendor tree

    This library models [src/telephony/exynos-ril/sitril/], the C++ daemon that
    stands between the Android telephony framework and the modem (the radio
    interface layer, RIL).  File names below are relative to that directory.

    ** The program

    The framework calls [RilContextWrapper::OnRequest] with a request.  The
    context parses it, looks up the service that handles it and the message it
    becomes, and puts the message on the queue of that service.  Each service
    has a monitor thread that sleeps in [select] on a pipe; a byte in the pipe
    tells it which queue to look at.  It handles one request at a time: the
    service's handler builds a packet and sends it to the modem under a token,
    and the history remembers which service waits for the token.  A frame of
    the modem comes to [ProcessModemData], which finds the service by the token
    (or, for an indication, by its identifier), and the service's handler
    completes the request.  A request that is not answered in time is completed
    by its timer.  Changes of modem, radio, data calls and registration are
    broadcast to all services as system messages.  The handlers convert between
    the structures of the framework and the packets of the modem: calls, short
    messages, USSD, data calls, the card and its files, operator names, network
    codes, access families.

    ** The model

    - [Prelude] (this file): undefined behaviour as a value ([res], with [UB]
      for an access outside an object or through a dead pointer), integers of
      fixed width, arrays with checked accesses, loops with fuel, shared lemmas
      and tactics.
    - [RilDef]: constants of [constdef.h] and [ril.h] that several files use.
    - [Layout]: packed structures seen as their fields, with the lemmas that read
      and write a field; [Handler]: the monad of the handlers of a service, with
      the rules for running one and for what holds at its end.
    - [RilData], [RilDataTheorems]: the data of requests and answers
      ([core/rildata.cpp], [fw/requestdata.cpp]).
    - [BitStream], [Text], [Base64], [Gsm7], [Ussd]: the conversions of
      [util/] ([bitwiseiostream.cpp], [textutils.cpp], [util.cpp]) and the USSD
      messages of the call builder and adapter.
    - [Icc], [SimRecords]: SIM file contents ([util/iccUtil.cpp]) and the
      operator name resolved from SIM records ([simRecord/]).
    - [CdmaSms], [Sms], [SmsData]: the short message classes of [fw/] and the
      handlers of [core/service/smsservice.cpp] that use them.
    - [Network], [NetState]: radio technologies, access families, network codes
      ([util/networkutils.cpp]) and the registration state
      ([core/servicestate.cpp]).
    - [Uplmn], [UplmnTheorems]: the list of the preferred networks
      ([core/service/uplmnselector.cpp]); [MccTable]: countries and the lengths
      of their network codes.
    - [CallPackets], [Call]: the call service ([core/service/cscservice.cpp],
      [core/service/calldata.cpp], [fw/callreqdata.cpp]) with its packets
      ([protocol/sit/protocolcallbuilder.cpp], [protocolcalladapter.cpp] and
      those of the sound).  [CallTheorems] has the numbers of the calls and the
      list that is told, [CallTotal] which handlers come to an end, and
      [CallHandlers] the rest of its theorems.
    - [SimPackets], [SimPin], [SimIo], [SimCardPackets], [SimPhoneBook],
      [SimCard]: the SIM service ([core/service/simservice.cpp]) with its packets
      ([protocolsimbuilder.cpp], [protocolsimadapter.cpp]) and data
      ([fw/simdata.cpp], [fw/simdatabuilder.cpp]): PIN codes and locks, files,
      commands and channels, the phone book, slots.  Its theorems are in
      [SimPinTheorems], [SimTheorems], [SimAutoPin], [SimStatusTheorems],
      [SimIoTheorems], [SimCardTheorems] and [SimPhoneBookTheorems].
    - [Pdp]: access point settings, the contexts of data calls and the
      responses built from them ([core/service/apnsetting.cpp],
      [core/service/pdpcontext.cpp], [fw/psdatabuilder.cpp]); its theorems are
      in [PdpTheorems].
    - [Ps]: the packet data service ([core/service/psservice.cpp]), every
      request, answer, list and timeout as a step; [PsProofs] has its invariant
      and the specification of each handler.
    - [PsBuilder], [PsAdapter]: the packets of packet data
      ([protocolpsbuilder.cpp], [protocolpsadapter.cpp]) and the handlers of its
      indications; their theorems are in [PsBuilderTheorems] and
      [PsAdapterTheorems].
    - [Rcm]: the headers of modem frames, the buffers that carry them, and the
      loop that writes them to the channel.
    - [Timers], [WaitList]: the timer list ([core/timerlist.cpp]), tokens and
      the request history ([core/tokengen.cpp], [core/waitlist.cpp]).
    - [Service]: the request engine every service runs on
      ([core/service.cpp], [core/servicemonitorrunnable.cpp]).  Its handlers are
      the class [ServiceHandlers]; what the engine relies on is the class
      [HandlerContract] of [ServiceProofs].
    - [SimEngine]: the SIM service in the engine, both states in one process.
    - [Context]: the context with its services, routing and states
      ([rilcontextwrapper.cpp], [core/servicemgr.cpp]).

    An object is a record with the source's field names, a method a function
    from state to state with the source's name.  What the code reads from
    outside (system properties, uninitialised cells, the clock, the outcome of
    system calls) is an argument.

    ** What is shown

    Each theorem states its conditions; where they matter, a lemma next to it
    shows what the code does without them.

    - The request engine ([ServiceTheorems], [ServiceSpec], [ServiceDrain]):
      for every service whose handlers keep the contract, and every
      interleaving of rounds, timeouts and senders that are not interrupted
      between enqueueing and notifying, no deleted message
      is touched; every request is answered once or still pending; no wake-up
      is lost; the engine refines a small abstract machine, the request desk;
      and a service whose handlers answer at most once and neither postpone nor
      restart their timer drains its queue.  [ServiceFindings] has the race of
      the interrupted sender.
    - The context ([ContextTheorems]): every run of a context whose routes have
      their services, on frames of at least a header and on identifiers and
      indices inside its tables, is free of
      undefined behaviour and keeps each service in a state it could reach
      alone; a response reaches the service that asked, once, as long as the
      history has the record of its token; services are told
      exactly the changes of modem state, registration and data calls.
    - Packet data ([PsTheorems]): in every run of events that are acceptable in
      the state they find ([event_ok]: the side of the modem and the kernel) the
      service stays inside its
      tables, a request is answered at once or sent, its answer ends it or
      leaves a setup waiting for its router advertisement, and its timeout ends
      it with no context left half way; success is reported only for a
      connected context; and, while no context waits for an advertisement, a
      list of different calls leaves each context as its own
      call says.  The last section of the file shows what happens without
      the assumptions.  [PsBuilderTheorems] and [PsAdapterTheorems] show that the packets carry
      the contexts, read back field by field, and which list frames are read
      behind their end.
    - Calls ([CallTheorems], [CallHandlers]): for lists of well-formed voice and
      video calls for which the table has places, the numbers the framework is given
      follow the calls of the modem, the list is told call by call, and a request to
      hang up reaches the call that was told until the next list or end of a call.
      Every request has one outcome, unless the text of a tone is missing; every
      answer whose bytes are there ends its request once ([CallTotal] says which
      bytes a handler reads); and the tables of the service stay in bounds in
      every run whose handlers come to an end.
    - The card: a kept PIN comes back ([SimPinTheorems]), is one a user entered,
      and is not tried again when it failed ([SimAutoPin]); the status of a card
      with at most eight applications, the
      description of a file, commands, slots and phone book entries come over as
      well-formed frames say; a request whose handler ends has one reaction, but
      for the exceptions [SimTheorems] lists; and in the
      engine ([SimEngine]) every run is safe that takes none of the requests
      that are answered and fail as well, each of which uses freed memory.
    - Round trips and bounds of the conversions: each encoder with its decoder,
      with the exact conditions under which a buffer is left, and the behaviour
      on truncated, empty and oversized input.
    - [ServiceFindings] and the lemmas named in the manifest's findings: places
      where the code does less than it means to.

    ** Bounds and fuel

    A counted loop is [for_up] with the source's bound.  A loop that ends on a
    condition is [loop] with fuel computed from the size of its input (the
    length of the message or buffer plus one, since every round advances the
    index); the theorem about the function shows the result for that fuel, so
    running out ([OutOfFuel]) is excluded there.  The monitor loop has no fuel:
    its rounds are steps of a transition system, and [monitor_drains] bounds
    their number.

    ** What is not modelled

    - Asynchronous requests of a service: they run on a thread of their own; the
      context counts them.
    - The network service beyond operator names, preferred networks and the
      registration state, and the services that build one packet for one
      request (supplementary services, IMS, miscellaneous, audio, GPS,
      broadcast, wireless LAN), with their packets and request data.  The engine
      theorems hold for each that keeps the contract.
    - The SIM toolkit ([stk/]): its classes leave members uninitialised and copy
      with lengths they do not check, so nearly every path of a model would be
      undefined behaviour.
    - The virtual SIM, which drives sockets of another process; logging, system
      properties and carrier files; threads, device files and netlink sockets,
      whose outcomes are arguments here; and the interface to the framework
      ([libril]), generated glue.
    - Camera, NFC, neural network and hardware services of the tree: separate
      programs. *)
From stdpp Require Export base option list numbers strings.
From Stdlib Require Export ZArith Lia ZifyNat ZifyBool.

#[global] Open Scope Z_scope.

(** let [lia] reason about [/] and [mod] by constants *)
Ltac Zify.zify_post_hook ::= Z.to_euclidean_division_equations.

(** ** Outcomes of C++ code

    [Ok a] is a normal return.  [UB] is undefined behaviour of the abstract
    machine: an access outside the object a pointer points into, a null
    dereference, or [std::string] built from a null pointer.  [OutOfFuel] is
    the model's own outcome for a loop that was given too few iterations;
    every use of fuel comes with a theorem that excludes it. *)
Inductive res (A : Type) : Type :=
| Ok (a : A)
| UB
| OutOfFuel.
Arguments Ok {A} a.
Arguments UB {A}.
Arguments OutOfFuel {A}.

#[export] Instance res_ret : MRet res := @Ok.
#[export] Instance res_bind : MBind res := λ A B f r,
  match r with Ok a => f a | UB => UB | OutOfFuel => OutOfFuel end.
#[export] Instance res_fmap : FMap res := λ A B f r,
  match r with Ok a => Ok (f a) | UB => UB | OutOfFuel => OutOfFuel end.

#[export] Instance res_eq_dec {A} `{EqDecision A} : EqDecision (res A).
Proof. solve_decision. Defined.

Definition is_ok {A} (r : res A) : bool :=
  match r with Ok _ => true | _ => false end.

(** ** Machine integers *)
Definition u8 (z : Z) : Z := z mod 2 ^ 8.
Definition u16 (z : Z) : Z := z mod 2 ^ 16.
Definition u32 (z : Z) : Z := z mod 2 ^ 32.
Definition i32 (z : Z) : Z := (z + 2 ^ 31) mod 2 ^ 32 - 2 ^ 31.
Definition i16 (z : Z) : Z := (z + 2 ^ 15) mod 2 ^ 16 - 2 ^ 15.

Definition is_byte (b : Z) : Prop := 0 <= b < 256.
#[export] Instance is_byte_dec b : Decision (is_byte b).
Proof. unfold is_byte. apply _. Defined.
(** closed decidable goals by evaluation *)
Ltac by_eval := apply (bool_decide_eq_true_1 _); vm_compute; reflexivity.

Abbreviation bytes_ok := (Forall is_byte).
Definition lenZ {A} (b : list A) : Z := Z.of_nat (length b).

(** the bytes of a string literal *)
Definition str (s : string) : list Z := (λ a, Z.of_N (Ascii.N_of_ascii a)) <$> String.list_ascii_of_string s.

(** ** Bounds-checked memory

    A C array (or a heap block) is a list of cells.  Reading or writing past
    either end is [UB]. *)
Section mem.
Context {A : Type}.

Definition rd (b : list A) (i : Z) : res A :=
  if i <? 0 then UB
  else match b !! Z.to_nat i with Some v => Ok v | None => UB end.

Definition wr (b : list A) (i : Z) (v : A) : res (list A) :=
  if (0 <=? i) && (i <? lenZ b) then Ok (<[Z.to_nat i := v]> b) else UB.

(** the source side of [memcpy(dst, b + off, n)] *)
Definition rdn (b : list A) (off n : Z) : res (list A) :=
  if (0 <=? off) && (0 <=? n) && (off + n <=? lenZ b)
  then Ok (take (Z.to_nat n) (drop (Z.to_nat off) b)) else UB.

(** the destination side: overwrite [b] from [off] with the cells of [src] *)
Definition wrn (b : list A) (off : Z) (src : list A) : res (list A) :=
  if (0 <=? off) && (off + lenZ src <=? lenZ b)
  then Ok (take (Z.to_nat off) b ++ src ++ drop (Z.to_nat off + length src) b)
  else UB.

(** [memset]/zero-initialised arrays *)
Definition fill (n : Z) (v : A) : list A := replicate (Z.to_nat n) v.
End mem.

Declare Scope mem_scope.
Delimit Scope mem_scope with mem.
Notation "b .[ i ]" := (rd b i) (at level 1, left associativity, format "b .[ i ]") : mem_scope.
Notation "b .[ i <- v ]" := (wr b i v) (at level 1, left associativity, format "b .[ i  <-  v ]") : mem_scope.
#[global] Open Scope mem_scope.

(** ** Loops *)

(** [for (i = lo; i < lo + n; i++) s = body(i, s);] *)
Fixpoint for_up {S} (n : nat) (i : Z) (body : Z → S → res S) (s : S) : res S :=
  match n with
  | O => Ok s
  | Datatypes.S n' => s' ← body i s; for_up n' (i + 1) body s'
  end.

(** A step of a loop with [break]/[return] in its body. *)
Inductive ctl (S R : Type) : Type := Next (s : S) | Stop (r : R).
Arguments Next {S R} s.
Arguments Stop {S R} r.

(** [while (true)] with fuel; [Stop] leaves the loop. *)
Fixpoint loop {S R} (fuel : nat) (step : S → res (ctl S R)) (s : S) : res R :=
  match fuel with
  | O => OutOfFuel
  | Datatypes.S f => c ← step s; match c with Next s' => loop f step s' | Stop r => Ok r end
  end.

(** ** Automation *)
Create HintDb cmem.
Create Rewrite HintDb cmem.

(** case analysis on the integer comparisons of the goal *)
Ltac cmp_cases :=
  repeat match goal with
  | |- context [?a <? ?b] => destruct (Z.ltb_spec a b)
  | |- context [?a <=? ?b] => destruct (Z.leb_spec a b)
  | |- context [?a =? ?b] => destruct (Z.eqb_spec a b)
  end; cbn [andb orb negb] in *; try lia; try done.

Ltac cmp_cases_in H :=
  repeat match type of H with
  | context [?a <? ?b] => destruct (Z.ltb_spec a b)
  | context [?a <=? ?b] => destruct (Z.leb_spec a b)
  | context [?a =? ?b] => destruct (Z.eqb_spec a b)
  end; cbn [andb orb negb] in H; try lia; try done.

(** [Forall] over an explicit list of integers or pairs *)
Ltac forall_list :=
  repeat first [apply Forall_nil_2 | apply Forall_cons_2; [cbn [fst snd]; unfold is_byte in *; lia|]].

(** run one monadic step whose value is known *)
Ltac bind_step E := rewrite E; cbn [mbind res_bind].

Lemma bind_ok {A B} (r : res A) (f : A → res B) b :
  r ≫= f = Ok b → ∃ a, r = Ok a ∧ f a = Ok b.
Proof. destruct r; cbn; [eauto | discriminate..]. Qed.

Lemma bind_eq {A B} (r : res A) a (f : A → res B) :
  r = Ok a → r ≫= f = f a.
Proof. by intros ->. Qed.

Lemma bind_assoc {A B C} (r : res A) (f : A → res B) (g : B → res C) :
  (r ≫= f) ≫= g = r ≫= λ a, f a ≫= g.
Proof. by destruct r. Qed.

(** peel the binds of a successful computation *)
Ltac res_inv :=
  repeat match goal with
  | H : mbind _ _ = Ok _ |- _ => apply bind_ok in H as (? & ? & H)
  | H : Ok _ = Ok _ |- _ => injection H as ?; subst
  | H : UB = Ok _ |- _ => discriminate H
  | H : OutOfFuel = Ok _ |- _ => discriminate H
  end.

(** ** Facts about bytes: exhaustive checking over the 256 values *)
Lemma byte_forall (P : Z → bool) :
  forallb P (seqZ 0 256) = true → ∀ b, is_byte b → P b = true.
Proof.
  intros H b Hb. rewrite forallb_forall in H. apply H.
  apply list_elem_of_In, elem_of_seqZ. unfold is_byte in Hb. lia.
Qed.

Lemma small_forall (n : Z) (P : Z → bool) :
  forallb P (seqZ 0 n) = true → ∀ b, 0 <= b < n → P b = true.
Proof.
  intros H b Hb. rewrite forallb_forall in H. apply H.
  apply list_elem_of_In, elem_of_seqZ. lia.
Qed.

Lemma small_forall2 (n m : Z) (P : Z → Z → bool) :
  forallb (λ a, forallb (P a) (seqZ 0 m)) (seqZ 0 n) = true →
  ∀ a b, 0 <= a < n → 0 <= b < m → P a b = true.
Proof. intros H a b Ha Hb. by apply (small_forall m (P a)), Hb; apply (small_forall n _ H). Qed.

Lemma u8_id b : is_byte b → u8 b = b.
Proof. unfold is_byte, u8. intros. by rewrite Z.mod_small. Qed.
Lemma u8_byte z : is_byte (u8 z).
Proof. unfold u8, is_byte. apply Z.mod_pos_bound. lia. Qed.
Lemma u16_range z : 0 <= u16 z < 65536.
Proof. unfold u16. apply Z.mod_pos_bound. lia. Qed.
Lemma u16_id z : 0 <= z < 65536 → u16 z = z.
Proof. intros. unfold u16. by rewrite Z.mod_small. Qed.
Lemma u32_id z : 0 <= z < 2 ^ 32 → u32 z = z.
Proof. intros. unfold u32. by rewrite Z.mod_small. Qed.
Lemma u32_range z : 0 <= u32 z < 2 ^ 32.
Proof. unfold u32. apply Z.mod_pos_bound. lia. Qed.
Lemma i32_id z : - 2 ^ 31 <= z < 2 ^ 31 → i32 z = z.
Proof. intros. unfold i32. rewrite Z.mod_small; lia. Qed.

Lemma land_ones_byte z k : 0 <= k <= 8 → 0 <= Z.land z (Z.ones k) < 2 ^ k.
Proof. intros. rewrite Z.land_ones by lia. apply Z.mod_pos_bound. apply Z.pow_pos_nonneg; lia. Qed.

(** induction over a list two elements at a time *)
Lemma pairs_ind {A} (P : list A → Prop) :
  P [] → (∀ x, P [x]) → (∀ x y l, P l → P (x :: y :: l)) → ∀ l, P l.
Proof. intros H0 H1 H2. fix IH 1. intros [|x [|y l]]; [done|apply H1|apply H2, IH]. Qed.

(** ** Ranges of bit operations *)
Lemma lt_pow2_testbit a k :
  0 <= k → 0 <= a → (∀ j, k <= j → Z.testbit a j = false) → a < 2 ^ k.
Proof.
  intros Hk Ha H. destruct (decide (a = 0)) as [->|]; [apply Z.pow_pos_nonneg; lia|].
  apply Z.log2_lt_pow2; [lia|]. destruct (Z.lt_ge_cases (Z.log2 a) k) as [|Hge]; [done|].
  specialize (H _ Hge). rewrite Z.bit_log2 in H by lia. done.
Qed.

Lemma testbit_high a k j : 0 <= a < 2 ^ k → k <= j → Z.testbit a j = false.
Proof.
  intros [Ha Hlt] Hj. destruct (decide (a = 0)) as [->|]; [apply Z.bits_0|].
  apply Z.bits_above_log2; [done|]. apply Z.log2_lt_pow2 in Hlt; lia.
Qed.

Lemma lor_range a b k : 0 <= k → 0 <= a < 2 ^ k → 0 <= b < 2 ^ k → 0 <= Z.lor a b < 2 ^ k.
Proof.
  intros Hk Ha Hb. split; [apply Z.lor_nonneg; lia|].
  apply lt_pow2_testbit; [done|apply Z.lor_nonneg; lia|].
  intros j Hj. by rewrite Z.lor_spec, !(testbit_high _ k).
Qed.

Lemma land_range_l a b k : 0 <= k → 0 <= a < 2 ^ k → 0 <= Z.land a b < 2 ^ k.
Proof.
  intros Hk Ha. assert (0 <= Z.land a b) by (apply Z.land_nonneg; lia).
  split; [done|]. apply lt_pow2_testbit; [done..|].
  intros j Hj. by rewrite Z.land_spec, (testbit_high a k).
Qed.

Lemma land_range_r a b k : 0 <= k → 0 <= b < 2 ^ k → 0 <= Z.land a b < 2 ^ k.
Proof. rewrite Z.land_comm. apply land_range_l. Qed.

Lemma shiftr_range a n k : 0 <= n → 0 <= a < 2 ^ k → 0 <= Z.shiftr a n < 2 ^ k.
Proof.
  intros Hn [Ha Hk]. rewrite Z.shiftr_div_pow2 by done.
  assert (0 < 2 ^ n) by (apply Z.pow_pos_nonneg; lia).
  split; [apply Z.div_pos; lia|]. apply Z.le_lt_trans with a; [|done].
  apply Z.div_le_upper_bound; [done|nia].
Qed.

Lemma shiftr_range_sub a n k : 0 <= n <= k → 0 <= a < 2 ^ k → 0 <= Z.shiftr a n < 2 ^ (k - n).
Proof.
  intros Hn [Ha Hk]. rewrite Z.shiftr_div_pow2 by lia.
  assert (0 < 2 ^ n) by (apply Z.pow_pos_nonneg; lia).
  split; [apply Z.div_pos; lia|]. apply Z.div_lt_upper_bound; [done|].
  rewrite <- Z.pow_add_r by lia. by replace (n + (k - n)) with k by lia.
Qed.

Lemma shiftl_range a n k : 0 <= n → 0 <= k → 0 <= a < 2 ^ k → 0 <= Z.shiftl a n < 2 ^ (k + n).
Proof.
  intros Hn Hk [Ha Hlt]. rewrite Z.shiftl_mul_pow2, Z.pow_add_r by done.
  assert (0 < 2 ^ n) by (apply Z.pow_pos_nonneg; lia). nia.
Qed.

(** [lor] of cells without common bits is their sum *)
Lemma lor_add a b k : 0 <= k → 0 <= b < 2 ^ k → Z.lor (a * 2 ^ k) b = a * 2 ^ k + b.
Proof.
  intros Hk Hb. rewrite <- Z.shiftl_mul_pow2 by done.
  assert (Z.land (Z.shiftl a k) b = 0) as Hl.
  { apply Z.bits_inj'. intros j Hj. rewrite Z.land_spec, Z.bits_0.
    destruct (Z_lt_ge_dec j k); [by rewrite Z.shiftl_spec_low|].
    by rewrite (testbit_high b k), andb_false_r by lia. }
  rewrite Z.add_nocarry_lxor by done. by rewrite Z.lxor_lor.
Qed.

(** ** Lemmas about memory *)
Section mem_lemmas.
Context {A : Type}.
Implicit Types b src : list A.

Lemma lenZ_nonneg b : 0 <= lenZ b.
Proof. unfold lenZ. lia. Qed.
Lemma lenZ_app b b' : lenZ (b ++ b') = lenZ b + lenZ b'.
Proof. unfold lenZ. rewrite length_app. lia. Qed.
Lemma lenZ_cons x b : lenZ (x :: b) = 1 + lenZ b.
Proof. unfold lenZ. cbn. lia. Qed.
Lemma lenZ_nil : lenZ (@nil A) = 0.
Proof. done. Qed.
Lemma lenZ_fill n (v : A) : 0 <= n → lenZ (fill n v) = n.
Proof. unfold lenZ, fill. rewrite length_replicate. lia. Qed.

Lemma rd_ok b i : 0 <= i < lenZ b → ∃ v, b.[i] = Ok v ∧ b !! Z.to_nat i = Some v.
Proof.
  unfold rd, lenZ. intros. cmp_cases.
  destruct (lookup_lt_is_Some_2 b (Z.to_nat i)) as [v ->]; [lia|eauto].
Qed.
Lemma rd_lookup b i v : 0 <= i → b !! Z.to_nat i = Some v → b.[i] = Ok v.
Proof. unfold rd. intros ? ->. cmp_cases. Qed.
Lemma rd_inv b i v : b.[i] = Ok v → 0 <= i < lenZ b ∧ b !! Z.to_nat i = Some v.
Proof.
  unfold rd, lenZ. intros H. cmp_cases_in H.
  destruct (b !! Z.to_nat i) eqn:E; [|done]. injection H as ->.
  apply lookup_lt_Some in E as ?. split; [lia|done].
Qed.
Lemma rd_oob b i : i < 0 ∨ lenZ b <= i → b.[i] = UB.
Proof.
  unfold rd, lenZ. intros [?|?]; cmp_cases.
  by rewrite lookup_ge_None_2 by lia.
Qed.
Lemma rd_app_l b b' i : i < lenZ b → (b ++ b').[i] = b.[i].
Proof.
  unfold rd, lenZ. intros. cmp_cases.
  by rewrite lookup_app_l by lia.
Qed.
Lemma rd_app_r b b' i : lenZ b <= i → (b ++ b').[i] = b'.[i - lenZ b].
Proof.
  unfold rd, lenZ. intros. cmp_cases. rewrite lookup_app_r by lia.
  by replace (Z.to_nat i - length b)%nat with (Z.to_nat (i - Z.of_nat (length b))) by lia.
Qed.
Lemma rd_cons_0 x b : (x :: b).[0] = Ok x.
Proof. done. Qed.
Lemma rd_cons_S x b i : 0 < i → (x :: b).[i] = b.[i - 1].
Proof.
  intros. change (x :: b) with ([x] ++ b). rewrite rd_app_r; [done|].
  unfold lenZ; cbn; lia.
Qed.

Lemma wr_ok b i v : 0 <= i < lenZ b → b.[i <- v] = Ok (<[Z.to_nat i := v]> b).
Proof. unfold wr. intros. cmp_cases. Qed.
Lemma wr_oob b i v : i < 0 ∨ lenZ b <= i → b.[i <- v] = UB.
Proof. unfold wr. intros [?|?]; cmp_cases. Qed.
Lemma wr_inv b i v b' :
  b.[i <- v] = Ok b' → 0 <= i < lenZ b ∧ b' = <[Z.to_nat i := v]> b.
Proof. unfold wr. intros H. cmp_cases_in H. by injection H as <-. Qed.
Lemma lenZ_insert b i (v : A) : lenZ (<[i := v]> b) = lenZ b.
Proof. unfold lenZ. by rewrite length_insert. Qed.

(** writing the cell that follows a prefix *)
Lemma wr_snoc b x r v : (b ++ x :: r).[lenZ b <- v] = Ok (b ++ v :: r).
Proof.
  rewrite wr_ok by (rewrite lenZ_app, lenZ_cons; pose proof (lenZ_nonneg b); pose proof (lenZ_nonneg r); lia).
  unfold lenZ. rewrite Nat2Z.id.
  by replace (length b) with (length b + 0)%nat by lia; rewrite insert_app_r.
Qed.
Lemma rd_snoc b x r : (b ++ x :: r).[lenZ b] = Ok x.
Proof. rewrite rd_app_r by lia. by rewrite Z.sub_diag. Qed.

Lemma rdn_ok b off n :
  0 <= off → 0 <= n → off + n <= lenZ b →
  rdn b off n = Ok (take (Z.to_nat n) (drop (Z.to_nat off) b)).
Proof. unfold rdn. intros. cmp_cases. Qed.
Lemma rdn_inv b off n r :
  rdn b off n = Ok r →
  0 <= off ∧ 0 <= n ∧ off + n <= lenZ b ∧ r = take (Z.to_nat n) (drop (Z.to_nat off) b).
Proof. unfold rdn. intros H. cmp_cases_in H. by injection H as <-. Qed.
Lemma rdn_oob b off n : 0 <= off → lenZ b < off + n → rdn b off n = UB.
Proof. unfold rdn. intros. cmp_cases. Qed.
Lemma rdn_mid b m r : rdn (b ++ m ++ r) (lenZ b) (lenZ m) = Ok m.
Proof.
  rewrite rdn_ok; [| unfold lenZ; rewrite ?length_app; lia..].
  unfold lenZ. rewrite !Nat2Z.id, drop_app_length, take_app_length. done.
Qed.
Lemma lenZ_rdn b off n r : rdn b off n = Ok r → lenZ r = n.
Proof.
  intros (?&?&?&->)%rdn_inv. unfold lenZ in *. rewrite length_take, length_drop. lia.
Qed.

Lemma wrn_ok b off src :
  0 <= off → off + lenZ src <= lenZ b →
  wrn b off src = Ok (take (Z.to_nat off) b ++ src ++ drop (Z.to_nat off + length src) b).
Proof. unfold wrn. intros. cmp_cases. Qed.
Lemma wrn_inv b off src b' :
  wrn b off src = Ok b' → 0 <= off ∧ off + lenZ src <= lenZ b ∧
  b' = take (Z.to_nat off) b ++ src ++ drop (Z.to_nat off + length src) b.
Proof. unfold wrn. intros H. cmp_cases_in H. by injection H as <-. Qed.
Lemma wrn_oob b off src : lenZ b < off + lenZ src → wrn b off src = UB.
Proof. unfold wrn. intros. cmp_cases. Qed.
Lemma lenZ_wrn b off src b' : wrn b off src = Ok b' → lenZ b' = lenZ b.
Proof.
  intros (?&?&->)%wrn_inv. unfold lenZ in *.
  rewrite !length_app, length_take, length_drop. lia.
Qed.
(** writing a block right after a prefix *)
Lemma wrn_mid b old r src :
  length src = length old → wrn (b ++ old ++ r) (lenZ b) src = Ok (b ++ src ++ r).
Proof.
  intros Hl. rewrite wrn_ok by (unfold lenZ; rewrite ?length_app; lia).
  unfold lenZ. rewrite Nat2Z.id, take_app_length, Hl.
  rewrite drop_app_ge, (drop_app_ge old) by lia.
  by replace (length b + length old - length b - length old)%nat with O by lia.
Qed.
(** writing right after a prefix, into a tail that is long enough *)
Lemma wrn_app b r src :
  lenZ src <= lenZ r → wrn (b ++ r) (lenZ b) src = Ok (b ++ src ++ drop (length src) r).
Proof.
  intros Hl. unfold lenZ in Hl. rewrite wrn_ok by (unfold lenZ; rewrite ?length_app; lia).
  unfold lenZ. rewrite Nat2Z.id, take_app_length, drop_app_ge by lia.
  by replace (length b + length src - length b)%nat with (length src) by lia.
Qed.
Lemma wr_app b r v :
  0 < lenZ r → (b ++ r).[lenZ b <- v] = Ok (b ++ v :: drop 1 r).
Proof. destruct r as [|x r]; [done|]. intros _. apply wr_snoc. Qed.
(** the same with the offset given by an equation *)
Lemma wrn_at b r src off :
  lenZ b = off → lenZ src <= lenZ r → wrn (b ++ r) off src = Ok (b ++ src ++ drop (length src) r).
Proof. intros <-. apply wrn_app. Qed.
Lemma wr_at b r v off :
  lenZ b = off → 0 < lenZ r → (b ++ r).[off <- v] = Ok (b ++ v :: drop 1 r).
Proof. intros <-. apply wr_app. Qed.
Lemma rd_at b x r off : lenZ b = off → (b ++ x :: r).[off] = Ok x.
Proof. intros <-. apply rd_snoc. Qed.
Lemma take_S_snoc b (i : nat) x : b !! i = Some x → take (S i) b = take i b ++ [x].
Proof. apply take_S_r. Qed.
Lemma take_Z_snoc b i x :
  0 <= i → b !! Z.to_nat i = Some x → take (Z.to_nat (i + 1)) b = take (Z.to_nat i) b ++ [x].
Proof. intros. replace (Z.to_nat (i + 1)) with (S (Z.to_nat i)) by lia. by apply take_S_r. Qed.
Lemma take_lenZ b i : 0 <= i <= lenZ b → lenZ (take (Z.to_nat i) b) = i.
Proof. unfold lenZ. rewrite length_take. lia. Qed.
Lemma take_full b n : lenZ b <= n → take (Z.to_nat n) b = b.
Proof. unfold lenZ. intros. apply take_ge. lia. Qed.
End mem_lemmas.

(** ** Hoare-style rules for the loops *)
Lemma for_up_inv {S} (I : Z → S → Prop) n lo (body : Z → S → res S) s :
  I lo s →
  (∀ i s, lo <= i < lo + Z.of_nat n → I i s → ∃ s', body i s = Ok s' ∧ I (i + 1) s') →
  ∃ s', for_up n lo body s = Ok s' ∧ I (lo + Z.of_nat n) s'.
Proof.
  revert lo s. induction n as [|n IH]; intros lo s HI Hb; cbn [for_up].
  - exists s. by rewrite Z.add_0_r.
  - destruct (Hb lo s) as (s' & -> & HI'); [lia|done|]. cbn.
    destruct (IH (lo + 1) s' HI') as (s'' & -> & HI'').
    { intros i t Hi. apply Hb. lia. }
    exists s''. split; [done|]. by replace (lo + Z.of_nat (Datatypes.S n)) with (lo + 1 + Z.of_nat n) by lia.
Qed.

(** the partial-correctness form: [I] holds after every run that returns *)
Lemma for_up_ok_inv {S} (I : Z → S → Prop) n lo (body : Z → S → res S) s s' :
  I lo s →
  (∀ i s s', lo <= i < lo + Z.of_nat n → I i s → body i s = Ok s' → I (i + 1) s') →
  for_up n lo body s = Ok s' → I (lo + Z.of_nat n) s'.
Proof.
  revert lo s. induction n as [|n IH]; intros lo s HI Hb H; cbn [for_up] in H.
  - injection H as <-. by rewrite Z.add_0_r.
  - apply bind_ok in H as (t & Et & H).
    replace (lo + Z.of_nat (Datatypes.S n)) with (lo + 1 + Z.of_nat n) by lia.
    eapply IH; [|intros i u u' Hi; apply Hb; lia|done]. eapply Hb; [|done..]. lia.
Qed.

Lemma for_up_ext {S} n lo (f g : Z → S → res S) s :
  (∀ i s, lo <= i < lo + Z.of_nat n → f i s = g i s) → for_up n lo f s = for_up n lo g s.
Proof.
  revert lo s. induction n as [|n IH]; intros lo s H; cbn; [done|].
  rewrite H by lia. destruct (g lo s); cbn; [|done..]. apply IH. intros. apply H. lia.
Qed.

Lemma for_up_app {S} n m lo (body : Z → S → res S) s :
  for_up (n + m) lo body s = for_up n lo body s ≫= for_up m (lo + Z.of_nat n) body.
Proof.
  revert lo s. induction n as [|n IH]; intros lo s; cbn.
  - by rewrite Z.add_0_r.
  - destruct (body lo s); cbn; [|done..]. rewrite IH.
    by replace (lo + 1 + Z.of_nat n) with (lo + Z.of_nat (Datatypes.S n)) by lia.
Qed.

Lemma loop_total {S R} (m : S → nat) (I : S → Prop) (Q : R → Prop) step fuel s :
  (∀ s, I s → ∃ c, step s = Ok c ∧
      match c with Next s' => I s' ∧ (m s' < m s)%nat | Stop r => Q r end) →
  I s → (m s < fuel)%nat → ∃ r, loop fuel step s = Ok r ∧ Q r.
Proof.
  intros Hs. revert s. induction fuel as [|f IH]; intros s HI Hm; [lia|]. cbn.
  destruct (Hs s HI) as ([s'|r] & -> & Hc); cbn.
  - destruct Hc. apply IH; [done|lia].
  - eauto.
Qed.

(** [for] loops need no fuel *)
Lemma for_up_fuel {S} n lo (body : Z → S → res S) s :
  (∀ i s, body i s ≠ OutOfFuel) → for_up n lo body s ≠ OutOfFuel.
Proof.
  intros Hb. revert lo s. induction n as [|n IH]; intros lo s; cbn; [done|].
  specialize (Hb lo s). destruct (body lo s); cbn; [apply IH|done..].
Qed.
Lemma rd_fuel {A} (b : list A) i : b.[i] ≠ OutOfFuel.
Proof. unfold rd. destruct (_ <? _); [done|]. by destruct (_ !! _). Qed.
Lemma wr_fuel {A} (b : list A) i v : b.[i <- v] ≠ OutOfFuel.
Proof. unfold wr. by destruct (_ && _). Qed.
Lemma bind_fuel {A B} (r : res A) (f : A → res B) :
  r ≠ OutOfFuel → (∀ a, f a ≠ OutOfFuel) → r ≫= f ≠ OutOfFuel.
Proof. intros Hr Hf. destruct r; [apply Hf|done..]. Qed.
Lemma not_ok_UB {A} (r : res A) : is_ok r ≠ true → r ≠ OutOfFuel → r = UB.
Proof. by destruct r. Qed.

(** more fuel does not change a result *)
Lemma loop_mono {S R} (step : S → res (ctl S R)) f f' s r :
  loop f step s = Ok r → (f <= f')%nat → loop f' step s = Ok r.
Proof.
  revert f' s. induction f as [|f IH]; intros f' s H Hf; [done|].
  destruct f' as [|f']; [lia|]. cbn in *. apply bind_ok in H as ([s'|r'] & -> & H); cbn; [|done].
  apply IH; [done|lia].
Qed.

#[export] Hint Rewrite @lenZ_app @lenZ_cons @lenZ_nil @lenZ_insert : cmem.
#[export] Hint Resolve rd_fuel wr_fuel bind_fuel for_up_fuel : cmem.
#[export] Hint Resolve u8_byte u16_range u32_range lenZ_nonneg : cmem.
