(* ===== verification/RilDef.v ===== *)
(** Constants several components share: [constdef.h], and the error codes, radio
    states and card states of [ril.h]. *)
From S2P Require Import Prelude.

Definition MAX_DATA_CALL_SIZE : Z := 4.
Definition MAX_PLMN_LEN : Z := 6.
Definition MAX_IMSI_LEN : Z := 15.

Definition RIL_E_SUCCESS : Z := 0.
Definition RIL_E_RADIO_NOT_AVAILABLE : Z := 1.
Definition RIL_E_GENERIC_FAILURE : Z := 2.
Definition RIL_E_REQUEST_NOT_SUPPORTED : Z := 6.
Definition RIL_E_NO_SUCH_ELEMENT : Z := 17.
Definition RIL_E_INTERNAL_ERR : Z := 38.
Definition RIL_E_MODEM_ERR : Z := 40.
Definition RIL_E_INVALID_STATE : Z := 41.
Definition RIL_E_INVALID_ARGUMENTS : Z := 44.
Definition RIL_E_INVALID_CALL_ID : Z := 47.

Definition RADIO_TECH_GPRS : Z := 1.
Definition RADIO_STATE_OFF : Z := 0.
Definition RADIO_STATE_UNAVAILABLE : Z := 1.
Definition RADIO_STATE_ON : Z := 10.
Definition RIL_CARDSTATE_ABSENT : Z := 0.
Definition RIL_CARDSTATE_PRESENT : Z := 1.
Definition RIL_CARDSTATE_ERROR : Z := 2.
