(* ===== verification/BitStream.v ===== *)
(** Bit streams over a byte buffer: [util/bitwiseiostream.cpp].

    [CBitwiseInputStream] and [CBitwiseOutputStream] read and write fields of
    up to eight bits, most significant bit first.  The reader and the writer
    are related to an abstract bit array ([bit], [field]). *)
From S2P Require Import Prelude.

(** ** The two streams

    [m_pbBuf] is [None] for the null pointer; a non-null pointer is the memory
    from the pointed-to cell to the end of its object. *)
Record CBitwiseInputStream := InStream {
  in_m_pbBuf : option (list Z);
  in_m_uPos : Z;
  in_m_uEnd : Z
}.

Record CBitwiseOutputStream := OutStream {
  out_m_pbBuf : option (list Z);
  out_m_uPos : Z;
  out_m_uEnd : Z
}.

Definition newInputStream (buf : option (list Z)) (len : Z) : CBitwiseInputStream :=
  match buf with
  | Some b => if negb (len =? 0)
              then InStream (Some b) 0 (u16 (Z.shiftl len 3)) else InStream None 0 0
  | None => InStream None 0 0
  end.

Definition newOutputStream (buf : option (list Z)) (len : Z) : CBitwiseOutputStream :=
  match buf with
  | Some b => if negb (len =? 0)
              then OutStream (Some b) 0 (u16 (Z.shiftl len 3)) else OutStream None 0 0
  | None => OutStream None 0 0
  end.

(** [ptr[i]] through a possibly null pointer *)
Definition deref (p : option (list Z)) (i : Z) : res Z :=
  match p with Some b => b.[i] | None => UB end.
Definition deref_or (p : option (list Z)) (i v : Z) : res (option (list Z)) :=
  match p with
  | Some b => x ← b.[i]; b' ← b.[i <- u8 (Z.lor x v)]; Ok (Some b')
  | None => UB
  end.

Definition Read (s : CBitwiseInputStream) (bits : Z) : res (Z * CBitwiseInputStream) :=
  let index := u16 (Z.shiftr (in_m_uPos s) 3) in
  let offset := u16 (16 - Z.land (in_m_uPos s) 7 - bits) in
  if (8 <? bits) || (in_m_uEnd s <? in_m_uPos s + bits) then Ok (0, s)
  else
    b0 ← deref (in_m_pbBuf s) index;
    let data := u16 (Z.shiftl (Z.land b0 255) 8) in
    data ← (if offset <? 8
            then b1 ← deref (in_m_pbBuf s) (index + 1); Ok (u16 (Z.lor data (Z.land b1 255)))
            else Ok data);
    let data := u16 (Z.shiftr data offset) in
    let data := u16 (Z.land data (Z.shiftr 65535 (16 - bits))) in
    Ok (u8 (Z.land data 255),
        InStream (in_m_pbBuf s) (u16 (in_m_uPos s + bits)) (in_m_uEnd s)).

Definition Write (s : CBitwiseOutputStream) (bits data : Z) : res CBitwiseOutputStream :=
  let temp := u16 data in
  if (8 <? bits) || (out_m_uEnd s <? out_m_uPos s + bits) then Ok s
  else
    let temp := u16 (Z.land temp (Z.shiftr 65535 (16 - bits))) in
    let index := u16 (Z.shiftr (out_m_uPos s) 3) in
    let offset := u16 (16 - Z.land (out_m_uPos s) 7 - bits) in
    let temp := u16 (Z.shiftl temp offset) in
    p ← deref_or (out_m_pbBuf s) index (Z.shiftr temp 8);
    p ← (if offset <? 8 then deref_or p (index + 1) (Z.land temp 255) else Ok p);
    Ok (OutStream p (u16 (out_m_uPos s + bits)) (out_m_uEnd s)).

Definition GetArrayIndex (s : CBitwiseOutputStream) : Z := u8 (Z.shiftr (out_m_uPos s) 3).

(** ** The abstract bit array *)

(** bit [k] of the buffer, counted from the top bit of its first byte *)
Definition bit (b : list Z) (k : Z) : bool :=
  match b !! Z.to_nat (k / 8) with
  | Some x => Z.testbit x (7 - k mod 8)
  | None => false
  end.

(** the [n] bits from [pos] on are the low [n] bits of [v], top bit first *)
Definition field (b : list Z) (pos n v : Z) : Prop :=
  ∀ j, 0 <= j < n → bit b (pos + n - 1 - j) = Z.testbit v j.

Definition zero_from (b : list Z) (pos : Z) : Prop :=
  ∀ k, pos <= k → bit b k = false.

(** a sequence of fields (width, value) laid out from [pos] *)
Fixpoint fields (b : list Z) (pos : Z) (l : list (Z * Z)) : Prop :=
  match l with
  | [] => True
  | (n, v) :: l' => field b pos n v ∧ fields b (pos + n) l'
  end.

Definition width (l : list (Z * Z)) : Z := foldr (λ f acc, f.1 + acc) 0 l.
Definition widths_ok (l : list (Z * Z)) : Prop := Forall (λ f, 1 <= f.1 <= 8) l.

Fixpoint read_all (s : CBitwiseInputStream) (ns : list Z) : res (list Z * CBitwiseInputStream) :=
  match ns with
  | [] => Ok ([], s)
  | n :: ns' => '(v, s) ← Read s n; '(vs, s) ← read_all s ns'; Ok (v :: vs, s)
  end.
Fixpoint write_all (s : CBitwiseOutputStream) (l : list (Z * Z)) : res CBitwiseOutputStream :=
  match l with
  | [] => Ok s
  | (n, v) :: l' => s ← Write s n v; write_all s l'
  end.

(** a reader (writer) over a buffer [b] at bit position [pos] *)
Definition in_at (b : list Z) (len pos : Z) : CBitwiseInputStream := InStream (Some b) pos (8 * len).
Definition out_at (b : list Z) (len pos : Z) : CBitwiseOutputStream := OutStream (Some b) pos (8 * len).

(** ** Reading *)

Lemma mask_ones n : 0 <= n <= 16 → Z.shiftr 65535 (16 - n) = Z.ones n.
Proof.
  intros Hn. change 65535 with (Z.ones 16).
  apply Z.bits_inj'. intros j Hj. rewrite Z.shiftr_spec by done.
  destruct (decide (j < n)).
  - rewrite !Z.ones_spec_low by lia. done.
  - rewrite !Z.ones_spec_high by lia. done.
Qed.

(** a bit of the two-byte window that holds a field *)
Lemma window_bit b0 b1 t :
  is_byte b1 → 0 <= t →
  Z.testbit (Z.lor (Z.shiftl b0 8) b1) t = if t <? 8 then Z.testbit b1 t else Z.testbit b0 (t - 8).
Proof.
  intros Hb Ht. rewrite Z.lor_spec, Z.shiftl_spec by done.
  destruct (Z.ltb_spec t 8).
  - by rewrite Z.testbit_neg_r by lia.
  - rewrite (testbit_high b1 8), orb_false_r; [done|unfold is_byte in Hb; lia|done].
Qed.

Lemma bit_lookup b x p r :
  0 <= p → 0 <= r < 8 → b !! Z.to_nat p = Some x → bit b (8 * p + r) = Z.testbit x (7 - r).
Proof.
  intros Hp Hr H. unfold bit.
  replace ((8 * p + r) / 8) with p by lia. rewrite H. f_equal. lia.
Qed.

Lemma bytes_ok_lookup b i x : bytes_ok b → b !! i = Some x → is_byte x.
Proof. intros H Hi. by apply (Forall_lookup_1 _ _ _ _ H Hi). Qed.

Lemma read_two b len pos n :
  bytes_ok b → 1 <= n <= 8 → 0 <= pos → 8 * len < 65536 → len <= lenZ b → pos + n <= 8 * len →
  ∃ x y, is_byte x ∧ is_byte y ∧ b !! Z.to_nat (pos / 8) = Some x ∧
    (8 < pos mod 8 + n → b !! Z.to_nat (pos / 8 + 1) = Some y) ∧
    Read (in_at b len pos) n =
      Ok (Z.land (Z.shiftr (Z.lor (Z.shiftl x 8) y) (16 - pos mod 8 - n)) (Z.ones n), in_at b len (pos + n)).
Proof.
  intros Hok Hn Hpos Hlen Hb Hend. unfold lenZ in Hb.
  destruct (rd_ok b (pos / 8)) as (x & Hx & Lx); [unfold lenZ; lia|].
  assert (is_byte x) as Bx by eauto using bytes_ok_lookup.
  unfold Read, in_at; cbn [in_m_uPos in_m_uEnd in_m_pbBuf deref].
  destruct (Z.ltb_spec 8 n); [lia|]. destruct (Z.ltb_spec (8 * len) (pos + n)); [lia|]. cbn [orb].
  rewrite (Z.shiftr_div_pow2 pos) by lia. change (2 ^ 3) with 8.
  change 7 with (Z.ones 3). rewrite (Z.land_ones pos) by lia. change (2 ^ 3) with 8.
  rewrite (u16_id (pos / 8)), (u16_id (16 - pos mod 8 - n)), (u16_id (pos + n)) by lia.
  rewrite Hx. cbn [mbind res_bind].
  change 255 with (Z.ones 8). rewrite (Z.land_ones x) by lia. change (2 ^ 8) with 256.
  rewrite (Z.mod_small x) by (unfold is_byte in *; lia).
  assert (0 <= Z.shiftl x 8 < 2 ^ 16) as Hsx by (apply (shiftl_range x 8 8); unfold is_byte in *; lia).
  rewrite mask_ones, (u16_id (Z.shiftl x 8)) by lia.
  assert (∀ w, 0 <= w < 2 ^ 16 →
    u8 (Z.land (u16 (Z.land (u16 (Z.shiftr w (16 - pos mod 8 - n))) (Z.ones n))) (Z.ones 8)) =
    Z.land (Z.shiftr w (16 - pos mod 8 - n)) (Z.ones n)) as Hfin.
  { intros w Hw. rewrite (u16_id (Z.shiftr _ _)) by (apply (shiftr_range w _ 16); lia).
    pose proof (land_ones_byte (Z.shiftr w (16 - pos mod 8 - n)) n ltac:(lia)) as Hr.
    assert (2 ^ n <= 256) by (change 256 with (2 ^ 8); apply Z.pow_le_mono_r; lia).
    rewrite u16_id, (Z.land_ones _ 8), Z.mod_small by lia. apply u8_id. unfold is_byte. lia. }
  destruct (Z.ltb_spec (16 - pos mod 8 - n) 8).
  - destruct (rd_ok b (pos / 8 + 1)) as (y & Hy & Ly); [unfold lenZ; lia|].
    assert (is_byte y) as By by eauto using bytes_ok_lookup.
    rewrite Hy. cbn [mbind res_bind]. rewrite (Z.land_ones y) by lia. change (2 ^ 8) with 256.
    rewrite (Z.mod_small y) by (unfold is_byte in *; lia).
    exists x, y. do 4 (split; [by intros|]).
    rewrite (u16_id (Z.lor _ _)) by (apply (lor_range _ _ 16); unfold is_byte in *; lia).
    rewrite Hfin by (apply lor_range; unfold is_byte in *; lia). done.
  - exists x, 0. split; [done|]. split; [by unfold is_byte|]. split; [done|]. split; [lia|]. cbn [mbind res_bind].
    rewrite Hfin by done. by rewrite Z.lor_0_r.
Qed.

(** reading a field returns the value the bit array holds there *)
Lemma Read_field b len pos n :
  bytes_ok b → 1 <= n <= 8 → 0 <= pos → 8 * len < 65536 → len <= lenZ b → pos + n <= 8 * len →
  ∃ v, Read (in_at b len pos) n = Ok (v, in_at b len (pos + n)) ∧ 0 <= v < 2 ^ n ∧ field b pos n v.
Proof.
  intros Hok Hn Hpos Hlen Hb Hend.
  destruct (read_two b len pos n) as (x & y & Bx & By & Lx & Ly & ->); [done..|].
  eexists. split; [done|]. split; [apply land_ones_byte; lia|].
  intros j Hj. rewrite Z.land_spec, Z.ones_spec_low, andb_true_r by lia.
  rewrite Z.shiftr_spec, window_bit by (done || lia).
  set (p := pos mod 8 + n - 1 - j).
  replace (j + (16 - pos mod 8 - n)) with (15 - p) by lia.
  replace (pos + n - 1 - j) with (8 * (pos / 8) + p) by lia.
  destruct (Z.ltb_spec (15 - p) 8).
  - replace (8 * (pos / 8) + p) with (8 * (pos / 8 + 1) + (p - 8)) by lia.
    rewrite (bit_lookup b y) by (try apply Ly; lia). f_equal. lia.
  - rewrite (bit_lookup b x) by (try done; lia). f_equal. lia.
Qed.

Lemma field_inj b pos n v w : 0 <= n → field b pos n v → field b pos n w → v mod 2 ^ n = w mod 2 ^ n.
Proof.
  intros Hn Hv Hw. apply Z.bits_inj'. intros j Hj.
  destruct (decide (j < n)).
  - rewrite !Z.mod_pow2_bits_low by lia. by rewrite <- Hv, <- Hw by lia.
  - by rewrite !Z.mod_pow2_bits_high by lia.
Qed.

Lemma read_all_fields b len pos l :
  bytes_ok b → widths_ok l → 0 <= pos → 8 * len < 65536 → len <= lenZ b →
  pos + width l <= 8 * len → fields b pos l →
  read_all (in_at b len pos) l.*1 = Ok ((λ f, f.2 mod 2 ^ f.1) <$> l, in_at b len (pos + width l)).
Proof.
  intros Hok Hw Hpos Hlen Hb. revert pos Hpos.
  induction l as [|[n v] l IH]; intros pos Hpos Hend Hf; cbn.
  - by rewrite Z.add_0_r.
  - apply Forall_cons_1 in Hw as [Hn Hw]. cbn in Hn, Hend, Hf. destruct Hf as [Hf Hf'].
    assert (0 <= width l) by (clear -Hw; induction Hw; cbn in *; unfold width in *; lia).
    unfold width in *. destruct (Read_field b len pos n) as (u & -> & Hu & Hfu); [done || lia..|].
    cbn. rewrite IH by (done || lia). cbn. rewrite <- (Z.mod_small u (2 ^ n)) by done.
    rewrite (field_inj b pos n u v) by (done || lia). by rewrite Z.add_assoc.
Qed.

(** ** Writing *)
Lemma bit_insert b i x k :
  0 <= k → (i < length b)%nat →
  bit (<[i := x]> b) k = if decide (Z.to_nat (k / 8) = i) then Z.testbit x (7 - k mod 8) else bit b k.
Proof.
  intros Hk Hi. unfold bit. destruct (decide _) as [->|Hne].
  - by rewrite list_lookup_insert_eq.
  - by rewrite list_lookup_insert_ne by done.
Qed.

Lemma deref_or_ok b i v :
  bytes_ok b → 0 <= i < lenZ b → is_byte v →
  ∃ b', deref_or (Some b) i v = Ok (Some b') ∧ bytes_ok b' ∧ lenZ b' = lenZ b ∧
    ∀ k, 0 <= k → bit b' k = bit b k || ((k / 8 =? i) && Z.testbit v (7 - k mod 8)).
Proof.
  intros Hok Hi Hv. cbn [deref_or]. destruct (rd_ok b i Hi) as (x & -> & Lx). cbn.
  assert (is_byte x) as Bx by eauto using bytes_ok_lookup.
  assert (is_byte (Z.lor x v)) as Blor by (apply (lor_range x v 8); unfold is_byte in *; lia).
  rewrite wr_ok by done. cbn. eexists. split; [done|]. split; [|split].
  - by apply Forall_insert, u8_byte.
  - apply lenZ_insert.
  - intros k Hk. rewrite bit_insert by (unfold lenZ in Hi; lia || done).
    rewrite u8_id by done. destruct (decide _) as [E|E].
    + replace (k / 8 =? i) with true by lia. unfold bit. rewrite E, Lx, Z.lor_spec. done.
    + replace (k / 8 =? i) with false by lia. by rewrite andb_false_l, orb_false_r.
Qed.

(** the bits a field contributes at its place in the two-byte window *)
Lemma Write_bits b len pos n v :
  bytes_ok b → 1 <= n <= 8 → 0 <= pos → 8 * len < 65536 → len <= lenZ b → pos + n <= 8 * len → is_byte v →
  ∃ b', Write (out_at b len pos) n v = Ok (out_at b' len (pos + n)) ∧ bytes_ok b' ∧ lenZ b' = lenZ b ∧
    ∀ k, 0 <= k → bit b' k = bit b k ||
      ((pos <=? k) && (k <? pos + n) && Z.testbit v (pos + n - 1 - k)).
Proof.
  intros Hok Hn Hpos Hlen Hb Hend Hv.
  unfold Write, out_at; cbn [out_m_uPos out_m_uEnd out_m_pbBuf].
  destruct (Z.ltb_spec 8 n); [lia|]. destruct (Z.ltb_spec (8 * len) (pos + n)); [lia|]. cbn [orb].
  rewrite (Z.shiftr_div_pow2 pos) by lia. change (2 ^ 3) with 8.
  replace (Z.land pos 7) with (pos mod 8) by (symmetry; apply (Z.land_ones pos 3); lia).
  rewrite mask_ones by lia.
  rewrite (u16_id (pos / 8)), (u16_id (16 - pos mod 8 - n)), (u16_id (pos + n)) by lia.
  rewrite (u16_id v) by (unfold is_byte in *; lia).
  pose proof (land_ones_byte v n ltac:(lia)) as Hm.
  set (m := Z.land v (Z.ones n)) in *. set (off := 16 - pos mod 8 - n).
  assert (2 ^ n <= 256) by (change 256 with (2 ^ 8); apply Z.pow_le_mono_r; lia).
  rewrite (u16_id m) by lia.
  assert (0 <= Z.shiftl m off < 2 ^ 16) as Ht.
  { pose proof (shiftl_range m off n) as Hs. replace (n + off) with (16 - pos mod 8) in Hs by lia.
    assert (2 ^ (16 - pos mod 8) <= 2 ^ 16) by (apply Z.pow_le_mono_r; lia). lia. }
  rewrite (u16_id (Z.shiftl m off)) by done. set (t := Z.shiftl m off) in *.
  assert (∀ j, 0 <= j → Z.testbit t j = (off <=? j) && (j <? off + n) && Z.testbit v (j - off)) as Hbit.
  { intros j Hj. unfold t, m. rewrite Z.shiftl_spec by done.
    destruct (Z.leb_spec off j); [|by rewrite Z.testbit_neg_r by lia].
    rewrite Z.land_spec. destruct (Z.ltb_spec j (off + n)); cbn [andb].
    - by rewrite Z.ones_spec_low, andb_true_r by lia.
    - by rewrite Z.ones_spec_high, andb_false_r by lia. }
  assert (is_byte (Z.shiftr t 8)) as Bhi by (apply (shiftr_range_sub t 8 16); lia).
  assert (is_byte (Z.land t 255)) as Blo by (apply (land_range_r t 255 8); lia).
  destruct (deref_or_ok b (pos / 8) (Z.shiftr t 8)) as (b1 & -> & Hok1 & Hl1 & Hb1); [done|lia|done|].
  cbn [mbind res_bind].
  assert (∀ k, 0 <= k → k / 8 = pos / 8 →
     Z.testbit (Z.shiftr t 8) (7 - k mod 8) = (pos <=? k) && (k <? pos + n) && Z.testbit v (pos + n - 1 - k)) as Hhi.
  { intros k Hk Hkp. rewrite Z.shiftr_spec, Hbit by lia.
    replace (7 - k mod 8 + 8 - off) with (pos + n - 1 - k) by lia. f_equal.
    destruct (Z.leb_spec off (7 - k mod 8 + 8)), (Z.ltb_spec (7 - k mod 8 + 8) (off + n)),
      (Z.leb_spec pos k), (Z.ltb_spec k (pos + n)); cbn; lia. }
  destruct (Z.ltb_spec off 8).
  - destruct (deref_or_ok b1 (pos / 8 + 1) (Z.land t 255)) as (b2 & -> & Hok2 & Hl2 & Hb2); [done|lia|done|].
    cbn. eexists. split; [done|]. split; [done|]. split; [lia|]. intros k Hk.
    rewrite Hb2, Hb1 by done. rewrite <- orb_assoc. f_equal.
    destruct (Z.eqb_spec (k / 8) (pos / 8)) as [E|E].
    { rewrite Hhi by done. replace (k / 8 =? pos / 8 + 1) with false by lia. by rewrite orb_false_r. }
    cbn [andb orb]. destruct (Z.eqb_spec (k / 8) (pos / 8 + 1)) as [E'|E']; cbn [andb].
    + change 255 with (Z.ones 8). rewrite Z.land_spec, Z.ones_spec_low, andb_true_r, Hbit by lia.
      replace (7 - k mod 8 - off) with (pos + n - 1 - k) by lia. f_equal.
      destruct (Z.leb_spec off (7 - k mod 8)), (Z.ltb_spec (7 - k mod 8) (off + n)),
        (Z.leb_spec pos k), (Z.ltb_spec k (pos + n)); cbn; lia.
    + destruct (Z.leb_spec pos k), (Z.ltb_spec k (pos + n)); cbn; done || lia.
  - cbn. eexists. split; [done|]. split; [done|]. split; [lia|]. intros k Hk.
    rewrite Hb1 by done. f_equal. destruct (Z.eqb_spec (k / 8) (pos / 8)) as [E|E]; cbn [andb].
    + by rewrite Hhi.
    + destruct (Z.leb_spec pos k), (Z.ltb_spec k (pos + n)); cbn; done || lia.
Qed.

Lemma width_nonneg l : widths_ok l → 0 <= width l.
Proof. induction 1; unfold width in *; cbn in *; lia. Qed.

Lemma fields_ext b b' pos l :
  widths_ok l → (∀ k, pos <= k < pos + width l → bit b' k = bit b k) →
  fields b pos l → fields b' pos l.
Proof.
  intros Hw. revert pos. induction Hw as [|[n v] l Hn Hw IH]; intros pos He; [done|].
  cbn in *. pose proof (width_nonneg l Hw). unfold width in *. intros [Hf Hr]. split.
  - intros j Hj. rewrite <- Hf by done. apply He. lia.
  - apply IH; [|done]. intros k Hk. apply He. lia.
Qed.

(** writing fields into a zeroed tail lays them out one after the other *)
Lemma write_all_fields b len pos l :
  bytes_ok b → widths_ok l → Forall (λ f, is_byte f.2) l → 0 <= pos → 8 * len < 65536 →
  len <= lenZ b → pos + width l <= 8 * len → zero_from b pos →
  ∃ b', write_all (out_at b len pos) l = Ok (out_at b' len (pos + width l)) ∧
    bytes_ok b' ∧ lenZ b' = lenZ b ∧ fields b' pos l ∧ zero_from b' (pos + width l) ∧
    (∀ k, 0 <= k < pos → bit b' k = bit b k).
Proof.
  intros Hok Hw. revert b pos Hok.
  induction Hw as [|[n v] l Hn Hw IH]; intros b pos Hok Hv Hpos Hlen Hb Hend Hz; cbn.
  { exists b. rewrite Z.add_0_r. done. }
  apply Forall_cons_1 in Hv as [Hv Hvs]. cbn in *.
  pose proof (width_nonneg l Hw). unfold width in *.
  destruct (Write_bits b len pos n v) as (b1 & -> & Hok1 & Hl1 & Hb1); [done || lia..|]. cbn.
  assert (zero_from b1 (pos + n)) as Hz1.
  { intros k Hk. rewrite Hb1, Hz by lia. by replace (k <? pos + n) with false by lia; rewrite andb_false_r. }
  destruct (IH b1 (pos + n)) as (b2 & -> & Hok2 & Hl2 & Hf2 & Hz2 & Hb2); [done || lia..|].
  exists b2. rewrite Z.add_assoc. do 3 (split; [done || lia|]). split; [split|split; [done|]].
  - intros j Hj. rewrite Hb2, Hb1, Hz by lia.
    replace (pos <=? pos + n - 1 - j) with true by lia.
    replace (pos + n - 1 - j <? pos + n) with true by lia. cbn. f_equal. lia.
  - done.
  - intros k Hk. rewrite Hb2, Hb1 by lia.
    replace (pos <=? k) with false by lia. by rewrite orb_false_r.
Qed.

Lemma zero_from_fill len : zero_from (fill len 0) 0.
Proof.
  intros k Hk. unfold bit, fill. destruct (_ !! _) eqn:E; [|done].
  apply lookup_replicate in E as [-> _]. apply Z.bits_0.
Qed.

Lemma bytes_ok_fill n v : is_byte v → bytes_ok (fill n v).
Proof. intros. unfold fill. by apply Forall_replicate. Qed.

Lemma newInputStream_eq b len :
  0 < len <= 255 → newInputStream (Some b) len = in_at b len 0.
Proof.
  intros. unfold newInputStream, in_at. cmp_cases. cbn [negb].
  by rewrite Z.shiftl_mul_pow2, u16_id, Z.mul_comm by lia.
Qed.
Lemma newOutputStream_eq b len :
  0 < len <= 255 → newOutputStream (Some b) len = out_at b len 0.
Proof.
  intros. unfold newOutputStream, out_at. cmp_cases. cbn [negb].
  by rewrite Z.shiftl_mul_pow2, u16_id, Z.mul_comm by lia.
Qed.

(** ** Well-formed readers *)
Definition in_wf (s : CBitwiseInputStream) : Prop :=
  match in_m_pbBuf s with
  | None => in_m_uPos s = 0 ∧ in_m_uEnd s = 0
  | Some b => ∃ len, s = in_at b len (in_m_uPos s) ∧ bytes_ok b ∧ 0 < len <= 255 ∧
                     len <= lenZ b ∧ 0 <= in_m_uPos s <= 8 * len
  end.

(** ** Properties *)

(** Fields written one after the other into a zeroed buffer are read
    back by the input stream, each reduced to its width: the two streams are
    inverse to each other for every layout of fields of 1 to 8 bits. *)
Theorem bitstream_roundtrip (len : Z) (l : list (Z * Z))
  (Hlen : 0 < len <= 255) (Hw : widths_ok l) (Hv : Forall (λ f, is_byte f.2) l)
  (Hfit : width l <= 8 * len) :
  ∃ b s, write_all (newOutputStream (Some (fill len 0)) len) l = Ok (out_at b len (width l)) ∧
    lenZ b = len ∧
    read_all (newInputStream (Some b) len) l.*1 = Ok ((λ f, f.2 mod 2 ^ f.1) <$> l, s).
Proof.
  rewrite newOutputStream_eq by done.
  assert (lenZ (fill len 0) = len) as Hf by (apply lenZ_fill; lia).
  destruct (write_all_fields (fill len 0) len 0 l) as (b & -> & Hok & Hl & Hfs & _);
    [try done; try lia..|].
  { apply bytes_ok_fill. unfold is_byte. lia. }
  { apply zero_from_fill. }
  exists b, (in_at b len (width l)). split; [done|]. split; [lia|].
  rewrite newInputStream_eq by done. apply (read_all_fields b len 0 l); try done; lia.
Qed.

Lemma bitstream_roundtrip_witness :
  ∃ b s, write_all (newOutputStream (Some (fill 4 0)) 4) [(1, 1); (1, 0); (3, 5); (8, 171); (4, 9)]
           = Ok (out_at b 4 17) ∧ lenZ b = 4 ∧
    read_all (newInputStream (Some b) 4) [1; 1; 3; 8; 4] = Ok ([1; 0; 5; 171; 9], s).
Proof.
  refine (bitstream_roundtrip 4 [(1, 1); (1, 0); (3, 5); (8, 171); (4, 9)] _ _ _ _);
    unfold widths_ok, is_byte, width; repeat constructor; cbn; lia.
Defined.

(** [Read] on a well-formed stream never touches memory outside the
    buffer when it is asked for at least one bit: either the request is too
    wide or runs past the end, and it returns 0 leaving the stream as it was,
    or it returns the next field and advances by exactly its width. *)
Theorem Read_safe (s : CBitwiseInputStream) (bits : Z) (Hs : in_wf s) (Hbits : 1 <= bits) :
  ∃ v s', Read s bits = Ok (v, s') ∧ in_wf s' ∧ 0 <= v < 2 ^ bits ∧
    (8 < bits ∨ in_m_uEnd s < in_m_uPos s + bits → v = 0 ∧ s' = s) ∧
    (bits <= 8 → in_m_uPos s + bits <= in_m_uEnd s →
       in_m_uPos s' = in_m_uPos s + bits ∧
       ∀ b, in_m_pbBuf s = Some b → field b (in_m_uPos s) bits v).
Proof.
  assert (0 < 2 ^ bits) by (apply Z.pow_pos_nonneg; lia).
  destruct s as [[b|] pos e]; unfold in_wf in *; cbn in *.
  - destruct Hs as (len & [= ->] & Hok & Hlen & Hb & Hpos).
    destruct (decide (8 < bits ∨ 8 * len < pos + bits)) as [Hbad|Hgood].
    + exists 0, (in_at b len pos). split.
      { unfold Read, in_at; cbn. destruct (Z.ltb_spec 8 bits), (Z.ltb_spec (8 * len) (pos + bits)); cbn; done || lia. }
      cbn. split; [by exists len|]. split; [lia|]. split; [done|lia].
    + destruct (Read_field b len pos bits) as (v & E & Hv & Hf); [done || lia..|].
      unfold in_at in E. rewrite E. eexists v, _. split; [done|]. cbn.
      split; [exists len; repeat split; lia || done|]. split; [lia|]. split; [lia|].
      intros _ _. split; [done|]. by intros ? [= <-].
  - destruct Hs as [-> ->]. exists 0, (InStream None 0 0). unfold Read; cbn.
    destruct (Z.ltb_spec 8 bits), (Z.ltb_spec 0 (0 + bits)); cbn; try lia.
    all: split; [done|]; split; [done|]; split; [lia|]; split; [done|lia].
Qed.

Lemma Read_safe_witness :
  ∃ v s', Read (newInputStream (Some [171; 205]) 2) 4 = Ok (v, s') ∧ in_wf s' ∧ 0 <= v < 2 ^ 4 ∧
    (8 < 4 ∨ 16 < 0 + 4 → v = 0 ∧ s' = newInputStream (Some [171; 205]) 2) ∧
    (4 <= 8 → 0 + 4 <= 16 → in_m_uPos s' = 0 + 4 ∧
       ∀ b, Some [171; 205] = Some b → field b 0 4 v).
Proof.
  refine (Read_safe (newInputStream (Some [171; 205]) 2) 4 _ _); [|lia].
  exists 2. unfold is_byte, lenZ; cbn. repeat split; try lia; repeat constructor; lia.
Defined.

(** A request for zero bits at the end of the buffer passes the guard and
    reads the cell one past it. *)
Lemma Read_zero_bits_at_end (b : list Z) (len : Z) :
  lenZ b = len → 0 < len <= 255 → Read (in_at b len (8 * len)) 0 = UB.
Proof.
  intros Hb Hlen. unfold Read, in_at; cbn [in_m_uPos in_m_uEnd in_m_pbBuf deref].
  rewrite Z.add_0_r, Z.ltb_irrefl. cbn [orb Z.ltb Z.compare].
  rewrite (Z.shiftr_div_pow2 (8 * len)) by lia. change (2 ^ 3) with 8.
  rewrite (Z.mul_comm 8), Z.div_mul, (u16_id len) by lia.
  by rewrite (rd_oob b len) by lia.
Qed.
