(* ===== verification/Text.v ===== *)
(** C strings and the text conversions of [util/textutils.cpp] and the first
    part of [util/util.cpp]: digit tests, hexadecimal and BCD conversions.

    A C string is the list of its bytes before the terminating NUL; a possibly
    null [char *] is an [option].  Output buffers are modelled with their size,
    so that the terminators and the truncation of [snprintf] are visible.
    [char] is unsigned, as on the ARM targets of this code. *)
From S2P Require Import Prelude.

(** ** C strings *)

(** the C string stored in a buffer: the bytes before the first NUL *)
Fixpoint cstr (b : list Z) : list Z :=
  match b with
  | [] => []
  | c :: b' => if c =? 0 then [] else c :: cstr b'
  end.

(** no NUL inside *)
Abbreviation nonul := (Forall (λ c : Z, c ≠ 0)).

(** [snprintf(buf + off, size, "%s", s)] *)
Definition snprintf (buf : list Z) (off size : Z) (s : list Z) : res (list Z) :=
  if size =? 0 then Ok buf else wrn buf off (take (Z.to_nat (size - 1)) s ++ [0]).

(** ** TextUtils *)

Definition IsEmpty (s : option (list Z)) : bool :=
  match s with None => true | Some [] => true | Some _ => false end.

Definition SIZE_MAX : Z := 65535.

(** [strncmp(l, r, n) == 0] *)
Definition strneq (l r : list Z) (n : Z) : bool :=
  bool_decide (take (Z.to_nat n) l = take (Z.to_nat n) r).

Definition Equals (l r : option (list Z)) : bool :=
  if IsEmpty l && IsEmpty r then true
  else match l, r with
  | Some l, Some r => strneq l r SIZE_MAX
  | _, _ => false
  end.

Definition is_digit (ch : Z) : bool := (48 <=? ch) && (ch <=? 57).

Definition IsDigitsOnly (s : option (list Z)) : bool :=
  if IsEmpty s then false
  else match s with Some s => forallb is_digit s | None => false end.

Definition digits_value (s : list Z) : Z := foldl (λ acc c, 10 * acc + (c - 48)) 0 s.

Definition INT_MAX : Z := 2147483647.

(** [atoi] is undefined when the value is out of range *)
Definition ParseInt (s : option (list Z)) : res Z :=
  if IsDigitsOnly s then
    match s with
    | Some s => if digits_value s <=? INT_MAX then Ok (digits_value s) else UB
    | None => Ok INT_MAX
    end
  else Ok INT_MAX.

(** the string [*dest] is set to, with the result; [dest] is not null *)
Definition DupString (src : option (list Z)) (allowEmpty : bool) : bool * option (list Z) :=
  if IsEmpty src && negb allowEmpty then (false, None)
  else (true, Some (match src with Some s => s | None => [] end)).

(** ** Hexadecimal *)

Definition HEX_CHARS : list Z := str "0123456789ABCDEF".
Definition hex_char (v : Z) : Z := nth (Z.to_nat v) HEX_CHARS 0.
(** [printf("%02X")] of a byte *)
Definition hex2 (b : Z) : list Z := [hex_char (Z.land (Z.shiftr b 4) 15); hex_char (Z.land b 15)].
Definition hex_of (data : list Z) : list Z := data ≫= hex2.

(** the buffer [*hex] points to; [new] does not return null *)
Definition ConvertToHexString (data : list Z) (len : Z) : res (list Z) :=
  let buflen := len * 2 in
  r ← for_up (Z.to_nat len) 0
        (λ i '(hex, n), d ← data.[i]; hex ← snprintf hex n (buflen - n) (hex2 d); Ok (hex, n + 2))
        (fill (buflen + 1) 0, 0);
  Ok r.1.

Definition HexCharToInt (c : Z) : Z :=
  if (48 <=? c) && (c <=? 57) then u8 (c - 48)
  else if (65 <=? c) && (c <=? 70) then u8 (c - 65 + 10)
  else if (97 <=? c) && (c <=? 102) then u8 (c - 97 + 10)
  else 0.

(** [ConvertToRaw(char *, char *, int)]: the buffer afterwards and the length *)
Definition ConvertToRaw (hexStr : option (list Z)) (buf : option (list Z)) (bufSize : Z)
  : res (option (list Z) * Z) :=
  if IsEmpty hexStr then Ok (buf, 0)
  else match buf, hexStr with
  | Some b, Some h =>
    if bufSize <=? 0 then Ok (buf, 0)
    else
      let hexLen := lenZ h in
      if negb (hexLen mod 2 =? 0) || (bufSize <? hexLen / 2) then Ok (buf, 0)
      else
        b ← for_up (Z.to_nat (hexLen / 2)) 0
              (λ k b, hi ← (h ++ [0]).[2 * k]; lo ← (h ++ [0]).[2 * k + 1];
                      b.[k <- u8 (Z.lor (Z.shiftl (HexCharToInt hi) 4) (HexCharToInt lo))]) b;
        Ok (Some b, hexLen / 2)
  | _, _ => Ok (buf, 0)
  end.

Definition HexChar2Value (ch : Z) : Z :=
  if (48 <=? ch) && (ch <=? 57) then ch - 48
  else if (97 <=? ch) && (ch <=? 102) then ch - 97 + 10
  else if (65 <=? ch) && (ch <=? 70) then ch - 65 + 10
  else -1.

(** the output buffer afterwards and the result *)
Definition Value2HexString (pszHexStrOut pHexDecIn : option (list Z)) (nLength : Z)
  : res (option (list Z) * Z) :=
  match pszHexStrOut, pHexDecIn with
  | Some out, Some inp =>
    if 0 <? nLength then
      r ← for_up (Z.to_nat nLength) 0
            (λ i '(out, off), d ← inp.[i]; out ← snprintf out off 3 (hex2 d); Ok (out, off + 2))
            (out, 0);
      out ← r.1.[r.2 <- 0];
      Ok (Some out, r.2)
    else Ok (pszHexStrOut, -1)
  | _, _ => Ok (pszHexStrOut, -1)
  end.

(** one source character; the state is the output buffer and [nDstIdx] *)
Definition hex2value_step (s : list Z) (i : Z) (st : list Z * Z) : res (list Z * Z) :=
  c ← s.[i];
  let '(out, d) := st in
  if (i =? 0) || (i mod 2 =? 0)
  then out ← out.[d <- Z.land (Z.shiftl (HexChar2Value c) 4) 240]; Ok (out, d)
  else x ← out.[d]; out ← out.[d <- u8 (Z.lor x (Z.land (HexChar2Value c) 15))]; Ok (out, d + 1).

Definition HexString2Value (pHexDecOut pszHexStrIn : option (list Z)) : res (option (list Z) * Z) :=
  match pszHexStrIn, pHexDecOut with
  | Some s, Some out =>
    r ← for_up (length s) 0 (hex2value_step s) (out, 0);
    let n := lenZ s in
    Ok (Some r.1, if negb (n =? 0) && (n mod 2 =? 1) then r.2 + 1 else r.2)
  | _, _ => Ok (pHexDecOut, 0)
  end.

(** ** BCD digits *)

(** the characters the loop of [bcdToString] stores *)
Fixpoint bcdToString (src : list Z) : list Z :=
  match src with
  | [] => []
  | b :: src' =>
    let v := Z.land b 15 in
    let w := Z.land (Z.shiftr b 4) 15 in
    if 9 <? v then []
    else (48 + v) ::
      (if w =? 15 then bcdToString src'
       else if 9 <? w then []
       else (48 + w) :: bcdToString src')
  end.

Definition bchToString (src : list Z) : list Z :=
  src ≫= λ b, [hex_char (Z.land b 15); hex_char (Z.land (Z.shiftr b 4) 15)].

(** ** Lemmas on hexadecimal digits *)

Lemma hex2_spec b : is_byte b →
  ∃ h l, hex2 b = [h; l] ∧ h ≠ 0 ∧ l ≠ 0 ∧
    HexChar2Value h = b / 16 ∧ HexChar2Value l = b mod 16 ∧
    HexCharToInt h = b / 16 ∧ HexCharToInt l = b mod 16 ∧
    0 <= h < 128 ∧ 0 <= l < 128.
Proof.
  intros Hb. exists (hex_char (Z.land (Z.shiftr b 4) 15)), (hex_char (Z.land b 15)). split; [done|].
  revert b Hb. assert (∀ b, is_byte b →
    let h := hex_char (Z.land (Z.shiftr b 4) 15) in let l := hex_char (Z.land b 15) in
    negb (h =? 0) && negb (l =? 0) && (HexChar2Value h =? b / 16) && (HexChar2Value l =? b mod 16) &&
    (HexCharToInt h =? b / 16) && (HexCharToInt l =? b mod 16) &&
    (0 <=? h) && (h <? 128) && (0 <=? l) && (l <? 128) = true) as H.
  { intros b Hb. by apply (byte_forall (λ b,
      let h := hex_char (Z.land (Z.shiftr b 4) 15) in let l := hex_char (Z.land b 15) in
      negb (h =? 0) && negb (l =? 0) && (HexChar2Value h =? b / 16) && (HexChar2Value l =? b mod 16) &&
      (HexCharToInt h =? b / 16) && (HexCharToInt l =? b mod 16) &&
      (0 <=? h) && (h <? 128) && (0 <=? l) && (l <? 128))). }
  intros b Hb. specialize (H b Hb). cbv zeta in H. lia.
Qed.

Lemma length_hex2 b : length (hex2 b) = 2%nat.
Proof. done. Qed.
Lemma hex_of_app l k : hex_of (l ++ k) = hex_of l ++ hex_of k.
Proof. apply bind_app. Qed.
Lemma length_hex_of l : length (hex_of l) = (2 * length l)%nat.
Proof. unfold hex_of. induction l as [|x l IH]; [done|]. rewrite bind_cons, length_app, IH. cbn. lia. Qed.
Lemma lenZ_hex_of l : lenZ (hex_of l) = 2 * lenZ l.
Proof. unfold lenZ. rewrite length_hex_of. lia. Qed.
Lemma nonul_hex_of l : bytes_ok l → nonul (hex_of l).
Proof.
  unfold hex_of. induction 1 as [|b l Hb Hl IH]; [done|]. rewrite bind_cons. apply Forall_app. split; [|done].
  destruct (hex2_spec b Hb) as (h & l' & -> & ? & ? & _). by repeat constructor.
Qed.

Lemma cstr_app s r : nonul s → cstr (s ++ 0 :: r) = s.
Proof. induction 1; cbn; [done|]. cmp_cases. by f_equal. Qed.
Lemma cstr_id s : nonul s → cstr s = s.
Proof. induction 1; cbn; [done|]. cmp_cases. by f_equal. Qed.
Lemma cstr_nonul b : nonul (cstr b).
Proof. induction b as [|c b IH]; cbn; [done|]. cmp_cases. by constructor. Qed.
Lemma cstr_app_prefix s r : nonul s → cstr (s ++ r) = s ++ cstr r.
Proof. induction 1; cbn; [done|]. cmp_cases. by f_equal. Qed.

(** ** [Value2HexString] *)

Lemma value2hex_loop inp out n :
  0 <= n <= lenZ inp → bytes_ok inp → 2 * n + 1 <= lenZ out →
  ∃ rest, for_up (Z.to_nat n) 0
            (λ i '(out, off), d ← inp.[i]; out ← snprintf out off 3 (hex2 d); Ok (out, off + 2)) (out, 0)
    = Ok (hex_of (take (Z.to_nat n) inp) ++ rest, 2 * n) ∧ 2 * n + lenZ rest = lenZ out.
Proof.
  intros Hn Hok Hout.
  destruct (for_up_inv (λ i st, st.2 = 2 * i ∧
     ∃ rest, st.1 = hex_of (take (Z.to_nat i) inp) ++ rest ∧ 2 * i + lenZ rest = lenZ out) (Z.to_nat n) 0
     (λ i '(out, off), d ← inp.[i]; out ← snprintf out off 3 (hex2 d); Ok (out, off + 2)) (out, 0))
     as ([o k] & -> & Hk & rest & Ho & Hl).
  - split; [done|]. by exists out.
  - intros i [o k] Hi (Hk & rest & Ho & Hl). cbn in Hk, Ho. subst k o.
    destruct (rd_ok inp i) as (d & -> & Ld); [lia|]. cbn [mbind res_bind].
    unfold snprintf. cbn [Z.eqb Z.to_nat]. change (take _ (hex2 d)) with (hex2 d).
    assert (lenZ (hex_of (take (Z.to_nat i) inp)) = 2 * i) as Hp by (rewrite lenZ_hex_of, take_lenZ; lia).
    rewrite wrn_at by (done || (change (lenZ (hex2 d ++ [0])) with 3; lia)). cbn [mbind res_bind].
    eexists. split; [done|]. cbn [fst snd]. split; [lia|]. eexists. split.
    + rewrite (take_Z_snoc _ _ d), hex_of_app by (done || lia).
      change (hex_of [d]) with (hex2 d). rewrite <- !app_assoc. cbn. done.
    + unfold lenZ in *. cbn [length]. rewrite length_drop. cbn. lia.
  - exists rest. cbn in Hk, Ho. subst. rewrite Z2Nat.id, Z.add_0_l in * by lia. done.
Qed.

Lemma Value2HexString_ok inp out n :
  0 < n <= lenZ inp → bytes_ok inp → 2 * n + 1 <= lenZ out →
  ∃ rest, Value2HexString (Some out) (Some inp) n =
            Ok (Some (hex_of (take (Z.to_nat n) inp) ++ 0 :: rest), 2 * n) ∧
          2 * n + 1 + lenZ rest = lenZ out.
Proof.
  intros Hn Hok Hout. unfold Value2HexString. cmp_cases.
  destruct (value2hex_loop inp out n) as (rest & -> & Hl); [done || lia..|]. cbn.
  rewrite wr_at by (rewrite ?lenZ_hex_of, ?take_lenZ; lia).
  cbn. eexists. split; [done|].
  destruct rest; cbn in *; unfold lenZ in *; cbn in *; [lia|]. rewrite ?drop_0. lia.
Qed.

(** ** [HexString2Value] *)

Lemma nibble_hi b : is_byte b → Z.land (Z.shiftl (b / 16) 4) 240 = 16 * (b / 16).
Proof.
  intros Hb. apply Z.eqb_eq. revert b Hb.
  apply (byte_forall (λ b, Z.land (Z.shiftl (b / 16) 4) 240 =? 16 * (b / 16))). reflexivity.
Qed.
Lemma nibble_join b : is_byte b → u8 (Z.lor (16 * (b / 16)) (Z.land (b mod 16) 15)) = b.
Proof.
  intros Hb. apply Z.eqb_eq. revert b Hb.
  apply (byte_forall (λ b, u8 (Z.lor (16 * (b / 16)) (Z.land (b mod 16) 15)) =? b)). reflexivity.
Qed.

Lemma hex2value_pair data k b st :
  0 <= k → bytes_ok data → data !! Z.to_nat k = Some b →
  lenZ st.1 > k → st.2 = k →
  for_up 2 (2 * k) (hex2value_step (hex_of data)) st = Ok (<[Z.to_nat k := b]> st.1, k + 1).
Proof.
  intros Hk Hok Hb Hl Hd. destruct st as [out d]; cbn in Hl, Hd; subst d.
  assert (is_byte b) as Bb by (by eapply Forall_lookup_1).
  destruct (hex2_spec b Bb) as (h & l & Eh & _ & _ & Vh & Vl & _).
  assert (Z.to_nat k < length data)%nat as Hlt by (by eapply lookup_lt_Some).
  assert (hex_of data = hex_of (take (Z.to_nat k) data) ++ h :: l :: hex_of (drop (S (Z.to_nat k)) data)) as ->.
  { rewrite <- (take_drop_middle data _ b Hb) at 1. rewrite hex_of_app.
    change (hex_of (b :: ?x)) with (hex2 b ++ hex_of x). by rewrite Eh. }
  set (p := hex_of (take (Z.to_nat k) data)).
  assert (lenZ p = 2 * k) as Hp by (unfold p; rewrite lenZ_hex_of, take_lenZ; unfold lenZ; lia).
  cbn [for_up]. unfold hex2value_step at 2. rewrite rd_at by done. cbn [mbind res_bind].
  replace ((2 * k =? 0) || (2 * k mod 2 =? 0)) with true
    by (symmetry; apply orb_true_iff; right; lia).
  rewrite Vh, nibble_hi, wr_ok by (done || lia). cbn [mbind res_bind].
  unfold hex2value_step. rewrite rd_app_r, Hp by lia. replace (2 * k + 1 - 2 * k) with 1 by lia.
  rewrite rd_cons_S by lia. change (1 - 1) with 0. rewrite rd_cons_0. cbn [mbind res_bind].
  replace ((2 * k + 1 =? 0) || ((2 * k + 1) mod 2 =? 0)) with false
    by (symmetry; apply orb_false_iff; lia).
  rewrite (rd_lookup _ _ (16 * (b / 16))) by (try apply list_lookup_insert_eq; unfold lenZ in *; lia).
  cbn [mbind res_bind]. rewrite wr_ok by (rewrite lenZ_insert; lia). cbn [mbind res_bind].
  by rewrite Vl, nibble_join, list_insert_insert_eq.
Qed.

Lemma take_insert_snoc (out data : list Z) k b :
  0 <= k → lenZ out > k → data !! Z.to_nat k = Some b →
  take (Z.to_nat k) out = take (Z.to_nat k) data →
  take (Z.to_nat (k + 1)) (<[Z.to_nat k := b]> out) = take (Z.to_nat (k + 1)) data.
Proof.
  intros Hk Hl Hb Ht. rewrite !(take_Z_snoc _ _ b); try done.
  - rewrite take_insert_ge by lia. by rewrite Ht.
  - apply list_lookup_insert_eq. unfold lenZ in Hl. lia.
Qed.

(** decoding the first [k] pairs *)
Lemma hex2value_pairs data out (k : nat) :
  bytes_ok data → (k <= length data)%nat → lenZ data <= lenZ out →
  ∃ out', for_up (2 * k) 0 (hex2value_step (hex_of data)) (out, 0) = Ok (out', Z.of_nat k) ∧
    take k out' = take k data ∧ drop k out' = drop k out ∧ lenZ out' = lenZ out.
Proof.
  intros Hok. induction k as [|k IH]; intros Hk Hl.
  - exists out. by rewrite !take_0.
  - destruct IH as (o & E & Ht & Hd & Hlo); [lia|done|].
    replace (2 * S k)%nat with (2 * k + 2)%nat by lia. rewrite for_up_app, E. cbn [mbind res_bind].
    destruct (lookup_lt_is_Some_2 data k) as [b Hb]; [lia|].
    replace (0 + Z.of_nat (2 * k)) with (2 * Z.of_nat k) by lia.
    unfold lenZ in *.
    rewrite (hex2value_pair data (Z.of_nat k) b) by (rewrite ?Nat2Z.id; cbn; done || unfold lenZ; lia).
    cbn [fst]. rewrite Nat2Z.id. eexists. split; [f_equal; f_equal; lia|].
    replace (S k) with (Z.to_nat (Z.of_nat k + 1)) at 1 2 by lia. split; [|split].
    + pose proof (take_insert_snoc o data (Z.of_nat k) b) as Hs. rewrite Nat2Z.id in Hs.
      apply Hs; unfold lenZ; try done; lia.
    + rewrite drop_insert_lt by lia. rewrite <- (Nat.add_1_r k), <- !drop_drop. by rewrite Hd.
    + rewrite length_insert. lia.
Qed.

Lemma HexString2Value_hex_of data out :
  bytes_ok data → lenZ data <= lenZ out →
  HexString2Value (Some out) (Some (hex_of data)) =
    Ok (Some (data ++ drop (length data) out), lenZ data).
Proof.
  intros Hok Hl. unfold HexString2Value. rewrite length_hex_of.
  destruct (hex2value_pairs data out (length data)) as (o & -> & Ht & Hd & Hlo); [done|lia|done|].
  cbn [mbind res_bind fst snd]. rewrite lenZ_hex_of.
  replace (2 * lenZ data mod 2 =? 1) with false by lia. rewrite andb_false_r.
  by rewrite <- (take_drop (length data) o), Ht, Hd, firstn_all.
Qed.

(** ** Properties *)

(** [Value2HexString] followed by [HexString2Value] gives back the
    bytes: the printed string has two digits per byte and a terminator, and
    decoding it into a buffer of at least the original size restores the data
    and leaves the rest of the buffer alone. *)
Theorem hex_roundtrip (data out dst : list Z)
  (Hok : bytes_ok data) (Hne : 0 < lenZ data) (Hout : 2 * lenZ data + 1 <= lenZ out)
  (Hdst : lenZ data <= lenZ dst) :
  ∃ out', Value2HexString (Some out) (Some data) (lenZ data) = Ok (Some out', 2 * lenZ data) ∧
    HexString2Value (Some dst) (Some (cstr out')) = Ok (Some (data ++ drop (length data) dst), lenZ data).
Proof.
  destruct (Value2HexString_ok data out (lenZ data)) as (rest & -> & _); [lia|done..|].
  eexists. split; [done|]. rewrite take_full by lia.
  rewrite cstr_app by (by apply nonul_hex_of). by apply HexString2Value_hex_of.
Qed.

Lemma hex_roundtrip_witness :
  ∃ out', Value2HexString (Some (fill 5 0)) (Some [171; 7]) 2 = Ok (Some out', 4) ∧
    HexString2Value (Some [9; 9; 9]) (Some (cstr out')) = Ok (Some ([171; 7] ++ [9]), 2).
Proof.
  refine (hex_roundtrip [171; 7] (fill 5 0) [9; 9; 9] _ _ _ _); by_eval.
Defined.

(** [Value2HexString] needs exactly [2 * nLength + 1] cells of output:
    with fewer it writes past the end of the buffer. *)
Theorem Value2HexString_bounds (data out : list Z) (n : Z)
  (Hok : bytes_ok data) (Hn : 0 < n <= lenZ data) :
  is_ok (Value2HexString (Some out) (Some data) n) = true ↔ 2 * n + 1 <= lenZ out.
Proof.
  split.
  - intros H. destruct (Z_le_gt_dec (2 * n + 1) (lenZ out)) as [|Hgt]; [done|exfalso].
    unfold Value2HexString in H. cmp_cases_in H.
    set (body := λ i '(out, off), d ← data.[i]; out ← snprintf out off 3 (hex2 d); Ok (out, off + 2)) in H.
    destruct (for_up (Z.to_nat n) 0 body (out, 0)) as [[o k]| |] eqn:E; try done.
    assert (∀ m lo st st', for_up m lo body st = Ok st' →
      lenZ st'.1 = lenZ st.1 ∧ st'.2 = st.2 + 2 * Z.of_nat m ∧
      ((0 < m)%nat → st.2 + 2 * Z.of_nat m + 1 <= lenZ st.1)) as Hinv.
    { induction m as [|m IH]; intros lo [o1 k1] st' Hf; cbn [for_up] in Hf.
      - injection Hf as <-. cbn. lia.
      - apply bind_ok in Hf as (st2 & Hb & Hf). unfold body in Hb. res_inv. clear H.
        unfold snprintf in *. cbn [Z.eqb Z.to_nat] in *.
        match goal with Hw : wrn _ _ _ = Ok _ |- _ =>
          pose proof (lenZ_wrn _ _ _ _ Hw) as Hl; destruct (wrn_inv _ _ _ _ Hw) as (_ & Hx & _) end.
        change (lenZ (take _ _ ++ [0])) with 3 in Hx. cbn in *. apply IH in Hf as (Hf1 & Hf2 & Hf3). cbn in *. lia. }
    apply Hinv in E as (_ & _ & E). cbn in E. lia.
  - intros Hout. destruct (Value2HexString_ok data out n) as (rest & -> & _); done.
Qed.

Lemma Value2HexString_bounds_witness :
  is_ok (Value2HexString (Some (fill 4 0)) (Some [171; 7]) 2) = true ↔ 2 * 2 + 1 <= lenZ (fill 4 0).
Proof.
  refine (Value2HexString_bounds [171; 7] (fill 4 0) 2 _ _); by_eval.
Defined.

(** the loop of [ConvertToHexString], while the size left exceeds two digits *)
Lemma tohex_loop data len m :
  bytes_ok data → 0 < len <= lenZ data → (Z.of_nat m < len) →
  ∃ rest, for_up m 0
        (λ i '(hex, n), d ← data.[i]; hex ← snprintf hex n (len * 2 - n) (hex2 d); Ok (hex, n + 2))
        (fill (len * 2 + 1) 0, 0) = Ok (hex_of (take m data) ++ rest, 2 * Z.of_nat m) ∧
     2 * Z.of_nat m + lenZ rest = 2 * len + 1.
Proof.
  intros Hok Hlen Hm.
  destruct (for_up_inv (λ i st, st.2 = 2 * i ∧
     ∃ rest, st.1 = hex_of (take (Z.to_nat i) data) ++ rest ∧ 2 * i + lenZ rest = 2 * len + 1) m 0
     (λ i '(hex, n), d ← data.[i]; hex ← snprintf hex n (len * 2 - n) (hex2 d); Ok (hex, n + 2))
     (fill (len * 2 + 1) 0, 0)) as ([o k] & -> & Hk & rest & Ho & Hl).
  - split; [done|]. exists (fill (len * 2 + 1) 0). split; [done|]. rewrite lenZ_fill; lia.
  - intros i [o k] Hi (Hk & rest & Ho & Hl). cbn [fst snd] in Hk, Ho. subst k o.
    destruct (rd_ok data i) as (d & -> & Ld); [lia|]. cbn [mbind res_bind].
    unfold snprintf. destruct (Z.eqb_spec (len * 2 - 2 * i) 0); [lia|].
    rewrite (take_ge (hex2 d)) by (rewrite length_hex2; lia).
    rewrite wrn_at by (rewrite ?lenZ_hex_of, ?take_lenZ; try change (lenZ (hex2 d ++ [0])) with 3; lia).
    cbn [mbind res_bind]. eexists. split; [done|]. cbn [fst snd]. split; [lia|]. eexists. split.
    + rewrite (take_Z_snoc _ _ d), hex_of_app by (done || lia).
      change (hex_of [d]) with (hex2 d). by rewrite <- !app_assoc.
    + unfold lenZ in *. cbn [length app]. rewrite length_drop. cbn. lia.
  - exists rest. cbn in Hk, Ho. subst. rewrite ?Z.add_0_l, ?Nat2Z.id in *. done.
Qed.

(** [ConvertToHexString] always ends normally, but the string it leaves
    is the hexadecimal form of the bytes without its last digit: the last
    [snprintf] is given two cells, room for one digit and the terminator. *)
Theorem ConvertToHexString_truncates (data : list Z) (len : Z)
  (Hok : bytes_ok data) (Hlen : 0 < len <= lenZ data) :
  ∃ hex, ConvertToHexString data len = Ok hex ∧
    cstr hex = take (Z.to_nat (2 * len - 1)) (hex_of (take (Z.to_nat len) data)).
Proof.
  unfold ConvertToHexString. set (m := Z.to_nat (len - 1)).
  replace (Z.to_nat len) with (m + 1)%nat by lia. rewrite for_up_app.
  destruct (tohex_loop data len m) as (rest & -> & Hl); [done..|lia|]. cbn [mbind res_bind for_up].
  destruct (rd_ok data (0 + Z.of_nat m)) as (d & -> & Ld); [lia|]. cbn [mbind res_bind].
  assert (is_byte d) as Bd by (by eapply Forall_lookup_1).
  unfold snprintf. replace (len * 2 - 2 * Z.of_nat m) with 2 by lia. cbn [Z.eqb].
  destruct (hex2_spec d Bd) as (h & l & Ed & Hh & _). rewrite Ed.
  change (take (Z.to_nat (2 - 1)) [h; l] ++ [0]) with [h; 0].
  assert (lenZ (hex_of (take m data)) = 2 * Z.of_nat m) as Hp
    by (rewrite lenZ_hex_of; unfold lenZ in *; rewrite length_take; lia).
  rewrite wrn_at by (done || (change (lenZ [h; 0]) with 2; lia)). cbn [mbind res_bind fst].
  eexists. split; [done|]. change ([h; 0] ++ ?r) with (h :: 0 :: r).
  assert (nonul (hex_of (take m data))) as Hn by (apply nonul_hex_of; by apply Forall_take).
  rewrite (cons_middle h), app_assoc, cstr_app by (apply Forall_app; split; [done|by repeat constructor]).
  assert (take (m + 1) data = take m data ++ [d]) as ->.
  { rewrite Nat.add_1_r. apply take_S_r. rewrite <- Ld. f_equal. lia. }
  rewrite hex_of_app. change (hex_of [d]) with (hex2 d). rewrite Ed.
  rewrite take_app_ge by (unfold lenZ in Hp; lia).
  replace (Z.to_nat (2 * len - 1) - length (hex_of (take m data)))%nat with 1%nat by (unfold lenZ in Hp; lia).
  done.
Qed.

Lemma ConvertToHexString_truncates_witness :
  ∃ hex, ConvertToHexString [145; 40] 2 = Ok hex ∧
    cstr hex = take (Z.to_nat (2 * 2 - 1)) (hex_of (take (Z.to_nat 2) [145; 40])).
Proof. refine (ConvertToHexString_truncates [145; 40] 2 _ _); by_eval. Defined.

(** ** [ConvertToRaw] *)

Lemma raw_join b : is_byte b → u8 (Z.lor (Z.shiftl (b / 16) 4) (b mod 16)) = b.
Proof.
  intros Hb. apply Z.eqb_eq. revert b Hb.
  apply (byte_forall (λ b, u8 (Z.lor (Z.shiftl (b / 16) 4) (b mod 16)) =? b)). reflexivity.
Qed.

Lemma hex_of_lookup data k b :
  data !! k = Some b →
  ∃ p r, hex_of data = p ++ hex2 b ++ r ∧ length p = (2 * k)%nat.
Proof.
  intros Hb. exists (hex_of (take k data)), (hex_of (drop (S k) data)). split.
  - rewrite <- (take_drop_middle data _ b Hb) at 1. rewrite hex_of_app. done.
  - rewrite length_hex_of, length_take. apply lookup_lt_Some in Hb. lia.
Qed.

Lemma ConvertToRaw_hex data b size :
  bytes_ok data → 0 < lenZ data → lenZ data <= size → size <= lenZ b →
  ConvertToRaw (Some (hex_of data)) (Some b) size = Ok (Some (data ++ drop (length data) b), lenZ data).
Proof.
  intros Hok Hne Hs Hb. unfold ConvertToRaw.
  destruct data as [|x0 data0] eqn:Ed; [done|]. rewrite <- Ed in *. clear x0 data0 Ed.
  assert (IsEmpty (Some (hex_of data)) = false) as ->.
  { pose proof (lenZ_hex_of data). destruct (hex_of data); [|done]. rewrite lenZ_nil in *. lia. }
  rewrite lenZ_hex_of, (Z.mul_comm 2), Z.div_mul, Z.mod_mul by lia.
  destruct (Z.leb_spec size 0); [lia|]. cbn [Z.eqb negb orb].
  destruct (Z.ltb_spec size (lenZ data)); [lia|].
  destruct (for_up_inv (λ i o, ∃ r, o = take (Z.to_nat i) data ++ r ∧ i + lenZ r = lenZ b ∧
      r = drop (Z.to_nat i) b)
    (Z.to_nat (lenZ data)) 0
    (λ k b, hi ← (hex_of data ++ [0]).[2 * k]; lo ← (hex_of data ++ [0]).[2 * k + 1];
       b.[k <- u8 (Z.lor (Z.shiftl (HexCharToInt hi) 4) (HexCharToInt lo))]) b)
    as (o & -> & r & -> & _ & ->).
  - exists b. done.
  - intros i o Hi (r & -> & Hl & ->).
    destruct (lookup_lt_is_Some_2 data (Z.to_nat i)) as [x Hx]; [unfold lenZ in *; lia|].
    assert (is_byte x) as Bx by (by eapply Forall_lookup_1).
    destruct (hex_of_lookup data _ x Hx) as (p & q & -> & Hp).
    destruct (hex2_spec x Bx) as (hh & ll & -> & _ & _ & _ & _ & Vh & Vl & _).
    rewrite <- !app_assoc. cbn [app].
    rewrite (rd_at p _ _ (2 * i)) by (unfold lenZ; lia). cbn [mbind res_bind].
    replace (p ++ hh :: ll :: q ++ [0]) with ((p ++ [hh]) ++ ll :: q ++ [0]) by (by rewrite <- app_assoc).
    rewrite rd_at by (rewrite lenZ_app; unfold lenZ; cbn; lia).
    cbn [mbind res_bind]. rewrite Vh, Vl, raw_join by done.
    rewrite wr_at by (rewrite ?take_lenZ; unfold lenZ in *; lia).
    eexists. split; [done|]. exists (drop (Z.to_nat (i + 1)) b).
    rewrite (take_Z_snoc data i x), <- app_assoc by (done || lia). cbn [app].
    rewrite drop_drop. replace (Z.to_nat i + 1)%nat with (Z.to_nat (i + 1)) by lia.
    split; [done|]. split; [|done]. unfold lenZ in *. rewrite length_drop in *. lia.
  - cbn [mbind res_bind]. rewrite Z.add_0_l, Z2Nat.id, take_full by (apply lenZ_nonneg || lia).
    unfold lenZ. by rewrite Nat2Z.id.
Qed.

(** [ConvertToRaw] decodes an even-length hexadecimal string that fits the
    given size and leaves the rest of the buffer; every other argument makes it
    return 0 with the buffer unchanged. *)
Theorem ConvertToRaw_spec (hexStr buf : option (list Z)) (size : Z) :
  (∀ data b, hexStr = Some (hex_of data) → buf = Some b → bytes_ok data → 0 < lenZ data →
     lenZ data <= size → size <= lenZ b →
     ConvertToRaw hexStr buf size = Ok (Some (data ++ drop (length data) b), lenZ data)) ∧
  (IsEmpty hexStr = true ∨ buf = None ∨ size <= 0 ∨
   (∃ h, hexStr = Some h ∧ (lenZ h mod 2 = 1 ∨ size < lenZ h / 2)) →
     ConvertToRaw hexStr buf size = Ok (buf, 0)).
Proof.
  split.
  - intros data b -> -> Hok Hne Hs Hb. by apply ConvertToRaw_hex.
  - intros H. unfold ConvertToRaw. destruct (IsEmpty hexStr) eqn:E; [done|].
    destruct buf as [b|], hexStr as [h|]; try done.
    destruct H as [?|[?|[?|(h' & [= <-] & H)]]]; try done; cmp_cases; cbn [negb orb]; try done.
Qed.

(** ** BCD *)

(** digits packed low nibble first, an odd count filled with 0xF *)
Fixpoint bcd_pack (ds : list Z) : list Z :=
  match ds with
  | [] => []
  | [d] => [Z.lor 240 d]
  | d :: e :: ds' => Z.lor (Z.shiftl e 4) d :: bcd_pack ds'
  end.

Lemma bcd_cell2 d e : 0 <= d < 10 → 0 <= e < 10 →
  let b := Z.lor (Z.shiftl e 4) d in Z.land b 15 = d ∧ Z.land (Z.shiftr b 4) 15 = e ∧ is_byte b.
Proof.
  intros Hd He. pose proof (small_forall2 10 10 (λ d e, let b := Z.lor (Z.shiftl e 4) d in
    (Z.land b 15 =? d) && (Z.land (Z.shiftr b 4) 15 =? e) && (0 <=? b) && (b <? 256)) eq_refl d e Hd He).
  cbv beta zeta in *. unfold is_byte. lia.
Qed.
Lemma bcd_cell1 d : 0 <= d < 10 →
  Z.land (Z.lor 240 d) 15 = d ∧ Z.land (Z.shiftr (Z.lor 240 d) 4) 15 = 15.
Proof.
  intros Hd. pose proof (small_forall 10 (λ d,
    (Z.land (Z.lor 240 d) 15 =? d) && (Z.land (Z.shiftr (Z.lor 240 d) 4) 15 =? 15)) eq_refl d Hd).
  cbv beta in *. lia.
Qed.

(** [bcdToString] decodes every packed digit string, of even or odd
    length, to its characters. *)
Theorem bcd_roundtrip (ds : list Z) (Hds : Forall (λ d, 0 <= d < 10) ds) :
  bcdToString (bcd_pack ds) = (λ d, 48 + d) <$> ds.
Proof.
  induction ds as [ds IH] using (induction_ltof1 _ (@length Z)). unfold ltof in IH.
  destruct ds as [|d [|e ds]]; [done| |].
  - apply Forall_cons_1 in Hds as [Hd _]. destruct (bcd_cell1 d Hd) as [E1 E2].
    cbn [bcd_pack bcdToString]. rewrite E1, E2. by cmp_cases.
  - apply Forall_cons_1 in Hds as [Hd Hds]. apply Forall_cons_1 in Hds as [He Hds].
    destruct (bcd_cell2 d e Hd He) as (E1 & E2 & _).
    cbn [bcd_pack bcdToString]. rewrite E1, E2. cmp_cases. rewrite IH by (done || cbn; lia). done.
Qed.

Lemma bcd_roundtrip_witness : bcdToString (bcd_pack [4; 5; 0; 0; 8]) = (λ d, 48 + d) <$> [4; 5; 0; 0; 8].
Proof. refine (bcd_roundtrip [4; 5; 0; 0; 8] _); by_eval. Defined.
