(* ===== verification/Base64.v ===== *)
(** Base64 ([Base64_Encode] and [Base64_Decode] of [util/util.cpp]).

    The encoder's loop runs while more than three bytes remain, so a last full
    group of three bytes is never encoded: [Base64_Encode_spec] gives its exact
    output in both cases, [base64_roundtrip] the round trip where it encodes
    everything, and [Base64_Decode_full_group] what happens otherwise. *)
From S2P Require Import Prelude Text.

Definition Base64EncodeTable : list Z :=
  str "ABCDEFGHIJKLMNOPQRSTUVWXYZabcdefghijklmnopqrstuvwxyz0123456789+/".
Definition Base64Padding : Z := 61.
Definition b64 (v : Z) : Z := nth (Z.to_nat v) Base64EncodeTable 0.

(** the four characters of a full group *)
Definition b64_group (s0 s1 s2 : Z) : list Z :=
  [ b64 (Z.shiftr s0 2);
    b64 (Z.lor (Z.shiftl (Z.land s0 3) 4) (Z.shiftr s1 4));
    b64 (Z.lor (Z.shiftl (Z.land s1 15) 2) (Z.shiftr s2 6));
    b64 (Z.land s2 63) ].

(** the loop [for (i = 0; i < nSrcLength - 3; i += 3)]: the characters stored
    and the bytes [pSrc] is left at *)
Fixpoint b64_loop (src : list Z) : list Z * list Z :=
  match src with
  | s0 :: s1 :: s2 :: ((_ :: _) as rest) =>
      let '(out, rem) := b64_loop rest in (b64_group s0 s1 s2 ++ out, rem)
  | _ => ([], src)
  end.

(** the NUL-terminated string the function returns *)
Definition Base64_Encode (src : list Z) : res (list Z) :=
  let nSrcLength := lenZ src in
  let nEncodeLength := 4 * (nSrcLength / 3) + (if nSrcLength mod 3 =? 0 then 0 else 4) in
  let '(out, pSrc) := b64_loop src in
  tail ← (if nSrcLength mod 3 =? 1 then
            s0 ← pSrc.[0];
            Ok [b64 (Z.shiftr s0 2); b64 (Z.shiftl (Z.land s0 3) 4)]
          else if nSrcLength mod 3 =? 2 then
            s0 ← pSrc.[0]; s1 ← pSrc.[1];
            Ok [b64 (Z.shiftr s0 2);
                b64 (Z.lor (Z.shiftl (Z.land s0 3) 4) (Z.shiftr s1 4));
                b64 (Z.shiftl (Z.land s1 15) 2)]
          else Ok []);
  let s := out ++ tail in
  Ok (s ++ fill (nEncodeLength - lenZ s) Base64Padding).

Definition Base64DecodeTable : list Z := [
  -1; -1; -1; -1; -1; -1; -1; -1; -1; -1; -1; -1; -1; -1; -1; -1;
  -1; -1; -1; -1; -1; -1; -1; -1; -1; -1; -1; -1; -1; -1; -1; -1;
  -1; -1; -1; -1; -1; -1; -1; -1; -1; -1; -1; 62; -1; -1; -1; 63;
  52; 53; 54; 55; 56; 57; 58; 59; 60; 61; -1; -1; -1; -1; -1; -1;
  -1;  0;  1;  2;  3;  4;  5;  6;  7;  8;  9; 10; 11; 12; 13; 14;
  15; 16; 17; 18; 19; 20; 21; 22; 23; 24; 25; -1; -1; -1; -1; -1;
  -1; 26; 27; 28; 29; 30; 31; 32; 33; 34; 35; 36; 37; 38; 39; 40;
  41; 42; 43; 44; 45; 46; 47; 48; 49; 50; 51; -1; -1; -1; -1; -1] ++ replicate 128 (-1).

(** [nDstIdx], [nPrevDecode], [cCombined] and the buffer: the buffer is the
    [nDstIdx] bytes stored so far followed by zeros, so only the stored prefix is kept. *)
Record b64_state := B64State { b64_dst : list Z; b64_prev : Z; b64_comb : Z }.

Definition b64_step (nLength i c : Z) (st : b64_state) : res b64_state :=
  nDecode ← Base64DecodeTable.[c];
  if nDecode =? -1 then Ok st
  else if negb (i =? 0) && (0 <? i mod 4) then
    let p := b64_prev st in
    let comb :=
      if i mod 4 =? 1 then u8 (Z.lor (Z.shiftl (Z.land p 63) 2) (Z.shiftr (Z.land nDecode 48) 4))
      else if i mod 4 =? 2 then u8 (Z.lor (Z.shiftl (Z.land p 15) 4) (Z.shiftr (Z.land nDecode 60) 2))
      else u8 (Z.lor (Z.shiftl (Z.land p 3) 6) (Z.land nDecode 63)) in
    Ok (B64State (if lenZ (b64_dst st) <? nLength then b64_dst st ++ [comb] else b64_dst st) nDecode comb)
  else Ok (B64State (b64_dst st) nDecode (b64_comb st)).

Fixpoint b64_decode_loop (nLength i : Z) (s : list Z) (st : b64_state) : res b64_state :=
  match s with
  | [] => Ok st
  | c :: s' => st ← b64_step nLength i c st; b64_decode_loop nLength (i + 1) s' st
  end.

Definition count_eq (s : list Z) : Z := lenZ (filter (.= Base64Padding) s).

(** the [nLength] bytes of the new buffer and the result.  The terminator is
    stored at index [nLength], before the buffer when that is -1; below -1 the
    allocation itself fails. *)
Definition Base64_Decode (pBase64 : list Z) : res (list Z * Z) :=
  let nLength := 3 * (lenZ pBase64 / 4) - count_eq pBase64 in
  if nLength <? 0 then UB
  else
    st ← b64_decode_loop nLength 0 pBase64 (B64State [] 0 0);
    Ok (b64_dst st ++ fill (nLength - lenZ (b64_dst st)) 0, nLength).

(** ** The standard encoding *)

Fixpoint b64_ref (src : list Z) : list Z :=
  match src with
  | [] => []
  | [s0] => [b64 (Z.shiftr s0 2); b64 (Z.shiftl (Z.land s0 3) 4); Base64Padding; Base64Padding]
  | [s0; s1] => [b64 (Z.shiftr s0 2); b64 (Z.lor (Z.shiftl (Z.land s0 3) 4) (Z.shiftr s1 4));
                 b64 (Z.shiftl (Z.land s1 15) 2); Base64Padding]
  | s0 :: s1 :: s2 :: rest => b64_group s0 s1 s2 ++ b64_ref rest
  end.

(** ** Sextets *)

Lemma b64_table v : 0 <= v < 64 → Base64DecodeTable.[b64 v] = Ok v ∧ b64 v ≠ Base64Padding.
Proof.
  intros Hv.
  pose proof (small_forall 64 (λ v, match Base64DecodeTable.[b64 v] with Ok w => w =? v | _ => false end
    && negb (b64 v =? 61)) eq_refl v Hv) as E. cbv beta in E.
  destruct (Base64DecodeTable.[b64 v]) as [w| |]; try done. unfold Base64Padding. split; [f_equal|]; lia.
Qed.

Section sextets.
Context (s0 s1 s2 : Z).
Context (B0 : is_byte s0) (B1 : is_byte s1) (B2 : is_byte s2).

Lemma d0_range : 0 <= Z.shiftr s0 2 < 64.
Proof. pose proof (byte_forall (λ b, (0 <=? Z.shiftr b 2) && (Z.shiftr b 2 <? 64)) eq_refl s0 B0) as H. cbv beta in H. lia. Qed.
Lemma d3_range : 0 <= Z.land s2 63 < 64.
Proof. apply (land_range_r s2 63 6); lia. Qed.

Lemma d1_spec :
  let d := Z.lor (Z.shiftl (Z.land s0 3) 4) (Z.shiftr s1 4) in
  0 <= d < 64 ∧ Z.land d 15 = Z.shiftr s1 4 ∧ Z.shiftr (Z.land d 48) 4 = Z.land s0 3.
Proof.
  pose proof (small_forall2 256 256 (λ s0 s1,
    let d := Z.lor (Z.shiftl (Z.land s0 3) 4) (Z.shiftr s1 4) in
    (0 <=? d) && (d <? 64) && (Z.land d 15 =? Z.shiftr s1 4) && (Z.shiftr (Z.land d 48) 4 =? Z.land s0 3))
    ltac:(vm_compute; reflexivity) s0 s1 B0 B1) as H. cbv beta zeta in *. lia.
Qed.
Lemma d2_spec :
  let d := Z.lor (Z.shiftl (Z.land s1 15) 2) (Z.shiftr s2 6) in
  0 <= d < 64 ∧ Z.land d 3 = Z.shiftr s2 6 ∧ Z.shiftr (Z.land d 60) 2 = Z.land s1 15.
Proof.
  pose proof (small_forall2 256 256 (λ s1 s2,
    let d := Z.lor (Z.shiftl (Z.land s1 15) 2) (Z.shiftr s2 6) in
    (0 <=? d) && (d <? 64) && (Z.land d 3 =? Z.shiftr s2 6) && (Z.shiftr (Z.land d 60) 2 =? Z.land s1 15))
    ltac:(vm_compute; reflexivity) s1 s2 B1 B2) as H. cbv beta zeta in *. lia.
Qed.
Lemma join0 : u8 (Z.lor (Z.shiftl (Z.land (Z.shiftr s0 2) 63) 2) (Z.land s0 3)) = s0.
Proof. apply Z.eqb_eq. by apply (byte_forall (λ b, u8 (Z.lor (Z.shiftl (Z.land (Z.shiftr b 2) 63) 2) (Z.land b 3)) =? b)). Qed.
Lemma join1 : u8 (Z.lor (Z.shiftl (Z.shiftr s1 4) 4) (Z.land s1 15)) = s1.
Proof. apply Z.eqb_eq. by apply (byte_forall (λ b, u8 (Z.lor (Z.shiftl (Z.shiftr b 4) 4) (Z.land b 15)) =? b)). Qed.
Lemma join2 : u8 (Z.lor (Z.shiftl (Z.shiftr s2 6) 6) (Z.land (Z.land s2 63) 63)) = s2.
Proof. apply Z.eqb_eq. by apply (byte_forall (λ b, u8 (Z.lor (Z.shiftl (Z.shiftr b 6) 6) (Z.land (Z.land b 63) 63)) =? b)). Qed.
End sextets.

(** ** Decoding one character *)

Lemma take_push (nL : Z) (acc : list Z) x :
  0 <= nL →
  (if lenZ (take (Z.to_nat nL) acc) <? nL then take (Z.to_nat nL) acc ++ [x] else take (Z.to_nat nL) acc)
  = take (Z.to_nat nL) (acc ++ [x]).
Proof.
  intros H. unfold lenZ. rewrite length_take.
  destruct (Z.ltb_spec (Z.of_nat (Z.to_nat nL `min` length acc)) nL).
  - rewrite !take_ge by (rewrite ?length_app; cbn; lia). done.
  - by rewrite take_app_le by lia.
Qed.

Lemma b64_step_first nL i v dst p c :
  0 <= v < 64 → i mod 4 = 0 → b64_step nL i (b64 v) (B64State dst p c) = Ok (B64State dst v c).
Proof.
  intros Hv Hi. unfold b64_step. destruct (b64_table v Hv) as [-> _]. cbn [mbind res_bind].
  destruct (Z.eqb_spec v (-1)); [lia|]. rewrite Hi. cbn [Z.ltb Z.compare]. by rewrite andb_false_r.
Qed.

Lemma b64_step_next nL i v acc p c :
  0 <= nL → 0 <= v < 64 → 0 < i → i mod 4 ≠ 0 →
  ∃ x, b64_step nL i (b64 v) (B64State (take (Z.to_nat nL) acc) p c) =
         Ok (B64State (take (Z.to_nat nL) (acc ++ [x])) v x) ∧
    (i mod 4 = 1 → x = u8 (Z.lor (Z.shiftl (Z.land p 63) 2) (Z.shiftr (Z.land v 48) 4))) ∧
    (i mod 4 = 2 → x = u8 (Z.lor (Z.shiftl (Z.land p 15) 4) (Z.shiftr (Z.land v 60) 2))) ∧
    (i mod 4 = 3 → x = u8 (Z.lor (Z.shiftl (Z.land p 3) 6) (Z.land v 63))).
Proof.
  intros HnL Hv Hi Hm. unfold b64_step. destruct (b64_table v Hv) as [-> _]. cbn [mbind res_bind b64_dst b64_prev b64_comb].
  destruct (Z.eqb_spec v (-1)); [lia|]. destruct (Z.eqb_spec i 0); [lia|].
  destruct (Z.ltb_spec 0 (i mod 4)); [|lia]. cbn [negb andb]. rewrite take_push by done.
  eexists. split; [done|].
  destruct (Z.eqb_spec (i mod 4) 1), (Z.eqb_spec (i mod 4) 2); (split; [|split]); intros; done || lia.
Qed.

Lemma b64_step_pad nL i st : b64_step nL i Base64Padding st = Ok st.
Proof. reflexivity. Qed.

Lemma b64_pads nL i k st : b64_decode_loop nL i (replicate k Base64Padding) st = Ok st.
Proof. revert i. induction k as [|k IH]; intros i; [done|]. cbn [replicate b64_decode_loop]. rewrite b64_step_pad. apply IH. Qed.

(** ** Decoding the standard encoding *)

Lemma list_ind3 (P : list Z → Prop) :
  P [] → (∀ a, P [a]) → (∀ a b, P [a; b]) → (∀ a b c l, P l → P (a :: b :: c :: l)) → ∀ l, P l.
Proof.
  intros H0 H1 H2 H3. assert (∀ n l, (length l <= n)%nat → P l) as H.
  { induction n as [|n IH]; intros l Hl; [by destruct l; cbn in *; try lia|].
    destruct l as [|a [|b [|c l]]]; auto. apply H3, IH. cbn in *. lia. }
  intros l. by apply (H (length l)).
Qed.

Ltac b64_next :=
  match goal with
  | |- context [b64_step ?nL ?i (b64 ?v) (B64State (take _ ?acc) ?p ?c)] =>
      let x := fresh "x" in let E := fresh "E" in let F := fresh "F" in
      destruct (b64_step_next nL i v acc p c) as (x & E & F); [lia..|];
      rewrite E; clear E; cbn [mbind res_bind]
  end.

Lemma decode_group nL i s0 s1 s2 rest acc p c :
  0 <= nL → 0 <= i → i mod 4 = 0 → is_byte s0 → is_byte s1 → is_byte s2 →
  b64_decode_loop nL i (b64_group s0 s1 s2 ++ rest) (B64State (take (Z.to_nat nL) acc) p c) =
  b64_decode_loop nL (i + 4) rest (B64State (take (Z.to_nat nL) (acc ++ [s0; s1; s2])) (Z.land s2 63) s2).
Proof.
  intros HnL Hi Hm B0 B1 B2.
  pose proof (d0_range s0 B0). pose proof (d1_spec s0 s1 B0 B1) as (R1 & L1 & H1).
  pose proof (d2_spec s1 s2 B1 B2) as (R2 & L2 & H2). pose proof (d3_range s2).
  unfold b64_group. cbn [app b64_decode_loop]. rewrite b64_step_first by done. cbn [mbind res_bind].
  b64_next. b64_next. b64_next.
  replace (i + 1 + 1 + 1 + 1) with (i + 4) by lia.
  assert (x = s0) as ->. { rewrite (proj1 F), H1 by lia. by apply join0. }
  assert (x0 = s1) as ->. { rewrite (proj1 (proj2 F0)), L1, H2 by lia. by apply join1. }
  assert (x1 = s2) as ->. { rewrite (proj2 (proj2 F1)), L2 by lia. by apply join2. }
  by rewrite <- !app_assoc.
Qed.

Lemma decode_ref nL i src rest acc p c :
  0 <= nL → 0 <= i → i mod 4 = 0 → bytes_ok src → (rest = [] ∨ lenZ src mod 3 = 0) →
  ∃ p' c', b64_decode_loop nL i (b64_ref src ++ rest) (B64State (take (Z.to_nat nL) acc) p c) =
    b64_decode_loop nL (i + lenZ (b64_ref src)) rest (B64State (take (Z.to_nat nL) (acc ++ src)) p' c').
Proof.
  intros HnL. revert i acc p c. induction src as [|s0|s0 s1|s0 s1 s2 src IH] using list_ind3;
    intros i acc p c Hi Hm Hok Hr.
  - exists p, c. rewrite app_nil_r. cbn [b64_ref app]. by rewrite lenZ_nil, Z.add_0_r.
  - destruct Hr as [->|Hr]; [|done]. apply Forall_cons_1 in Hok as [B0 _].
    assert (is_byte 0) as Bz by done.
    pose proof (d0_range s0 B0). pose proof (d1_spec s0 0 B0 Bz) as (R1 & _ & H1).
    rewrite Z.shiftr_0_l, Z.lor_0_r in *. unfold b64_ref. cbn [app b64_decode_loop].
    rewrite b64_step_first by done. cbn [mbind res_bind]. b64_next. rewrite !b64_step_pad. cbn [mbind res_bind].
    assert (x = s0) as -> by (rewrite (proj1 F), H1 by lia; by apply join0). eauto.
  - destruct Hr as [->|Hr]; [|done]. apply Forall_cons_1 in Hok as [B0 Hok]. apply Forall_cons_1 in Hok as [B1 _].
    assert (is_byte 0) as Bz by done.
    pose proof (d0_range s0 B0). pose proof (d1_spec s0 s1 B0 B1) as (R1 & L1 & H1).
    pose proof (d2_spec s1 0 B1 Bz) as (R2 & _ & H2).
    rewrite Z.shiftr_0_l, Z.lor_0_r in *. unfold b64_ref. cbn [app b64_decode_loop].
    rewrite b64_step_first by done. cbn [mbind res_bind]. b64_next. b64_next. rewrite b64_step_pad. cbn [mbind res_bind].
    assert (x = s0) as -> by (rewrite (proj1 F), H1 by lia; by apply join0).
    assert (x0 = s1) as -> by (rewrite (proj1 (proj2 F0)), L1, H2 by lia; by apply join1).
    rewrite <- app_assoc. eauto.
  - apply Forall_cons_1 in Hok as [B0 Hok]. apply Forall_cons_1 in Hok as [B1 Hok].
    apply Forall_cons_1 in Hok as [B2 Hok].
    cbn [b64_ref]. rewrite <- app_assoc, decode_group by done.
    destruct (IH (i + 4) (acc ++ [s0; s1; s2]) (Z.land s2 63) s2) as (p' & c' & E); try done; try lia.
    { destruct Hr as [->|Hr]; [by left|right]. rewrite !lenZ_cons in Hr. lia. }
    exists p', c'. rewrite E, <- app_assoc. cbn [app]. f_equal.
    rewrite lenZ_app. change (lenZ (b64_group s0 s1 s2)) with 4. lia.
Qed.

(** ** The encoder against the standard *)

Lemma b64_loop_cons a b c d src :
  b64_loop (a :: b :: c :: d :: src) =
    let '(out, rem) := b64_loop (d :: src) in (b64_group a b c ++ out, rem).
Proof. done. Qed.

Lemma b64_loop_spec q src :
  (q * 3 < length src <= q * 3 + 3)%nat →
  ∃ rem, b64_loop src = (b64_ref (take (q * 3) src), rem) ∧ src = take (q * 3) src ++ rem.
Proof.
  revert src. induction q as [|q IH]; intros src Hl.
  - exists src. destruct src as [|? [|? [|? [|? ?]]]]; cbn in *; try done; lia.
  - destruct src as [|a [|b [|c [|d src]]]]; cbn in Hl; try lia.
    destruct (IH (d :: src)) as (rem & E & Hs); [cbn; lia|].
    exists rem. change (S q * 3)%nat with (S (S (S (q * 3)))). rewrite b64_loop_cons, E.
    split; [done|]. change (take (S (S (S (q * 3)))) (a :: b :: c :: d :: src))
      with (a :: b :: c :: take (q * 3) (d :: src)). cbn [app]. do 3 f_equal. done.
Qed.

Lemma b64_ref_app q src rem :
  length src = (q * 3)%nat → b64_ref (src ++ rem) = b64_ref src ++ b64_ref rem.
Proof.
  revert src. induction q as [|q IH]; intros src Hl; [by destruct src|].
  destruct src as [|a [|b [|c src]]]; cbn in Hl; try lia. cbn [app b64_ref].
  rewrite IH by lia. by rewrite app_assoc.
Qed.

Lemma lenZ_b64_ref src : lenZ (b64_ref src) = 4 * ((lenZ src + 2) / 3).
Proof.
  induction src as [|s0|s0 s1|s0 s1 s2 src IH] using list_ind3; try done.
  cbn [b64_ref]. rewrite lenZ_app, IH, !lenZ_cons. change (lenZ (b64_group s0 s1 s2)) with 4. lia.
Qed.

Lemma count_eq_app a b : count_eq (a ++ b) = count_eq a + count_eq b.
Proof. unfold count_eq. by rewrite filter_app, lenZ_app. Qed.
Lemma count_eq_cons c l : count_eq (c :: l) = (if c =? 61 then 1 else 0) + count_eq l.
Proof.
  unfold count_eq, Base64Padding. rewrite filter_cons.
  destruct (decide (c = 61)), (Z.eqb_spec c 61); try done. by rewrite lenZ_cons.
Qed.
Lemma count_eq_b64 v l : 0 <= v < 64 → count_eq (b64 v :: l) = count_eq l.
Proof.
  intros Hv. rewrite count_eq_cons. destruct (b64_table v Hv) as [_ H].
  destruct (Z.eqb_spec (b64 v) 61); [done|lia].
Qed.

Lemma count_eq_ref src : bytes_ok src → count_eq (b64_ref src) = (3 - lenZ src mod 3) mod 3.
Proof.
  induction src as [|s0|s0 s1|s0 s1 s2 src IH] using list_ind3; intros Hok; [done| | |].
  - apply Forall_cons_1 in Hok as [B0 _]. cbn [b64_ref].
    pose proof (d0_range s0 B0). destruct (d1_spec s0 0 B0 ltac:(done)) as (R1 & _).
    rewrite Z.shiftr_0_l, Z.lor_0_r in R1. by rewrite !count_eq_b64.
  - apply Forall_cons_1 in Hok as [B0 Hok]. apply Forall_cons_1 in Hok as [B1 _]. cbn [b64_ref].
    pose proof (d0_range s0 B0). destruct (d1_spec s0 s1 B0 B1) as (R1 & _).
    destruct (d2_spec s1 0 B1 ltac:(done)) as (R2 & _).
    rewrite Z.shiftr_0_l, Z.lor_0_r in R2. by rewrite !count_eq_b64.
  - apply Forall_cons_1 in Hok as [B0 Hok]. apply Forall_cons_1 in Hok as [B1 Hok].
    apply Forall_cons_1 in Hok as [B2 Hok]. cbn [b64_ref b64_group app].
    pose proof (d0_range s0 B0). destruct (d1_spec s0 s1 B0 B1) as (R1 & _).
    destruct (d2_spec s1 s2 B1 B2) as (R2 & _). pose proof (d3_range s2).
    rewrite !count_eq_b64, IH, !lenZ_cons by done. lia.
Qed.

Lemma Base64_Encode_partial src :
  lenZ src mod 3 ≠ 0 → Base64_Encode src = Ok (b64_ref src).
Proof.
  intros Hm. unfold Base64_Encode. set (q := (length src / 3)%nat).
  destruct (b64_loop_spec q src) as (rem & -> & Hs); [unfold lenZ, q in *; lia|].
  assert (length (take (q * 3) src) = (q * 3)%nat) as Hq by (rewrite length_take; unfold q; lia).
  assert (lenZ rem = lenZ src mod 3) as Hrem.
  { apply (f_equal length) in Hs. rewrite length_app, Hq in Hs. unfold lenZ in *. unfold q in *. lia. }
  replace (b64_ref src) with (b64_ref (take (q * 3) src) ++ b64_ref rem)
    by (rewrite <- (b64_ref_app q), <- Hs; done).
  assert (lenZ (b64_ref (take (q * 3) src)) = 4 * (lenZ src / 3)) as Hl.
  { rewrite lenZ_b64_ref. unfold lenZ. rewrite Hq. unfold q. lia. }
  destruct rem as [|s0 [|s1 [|s2 rem]]]; rewrite ?lenZ_cons, ?lenZ_nil in Hrem;
    [lia| | |pose proof (lenZ_nonneg rem); lia];
    destruct (Z.eqb_spec (lenZ src mod 3) 0), (Z.eqb_spec (lenZ src mod 3) 1),
      (Z.eqb_spec (lenZ src mod 3) 2); try lia; rewrite ?rd_cons_0; cbn [mbind res_bind].
  - rewrite <- app_assoc. do 2 f_equal. rewrite lenZ_app, Hl, !lenZ_cons, lenZ_nil.
    by replace (4 * (lenZ src / 3) + 4 - (4 * (lenZ src / 3) + (1 + (1 + 0)))) with 2 by lia.
  - change ([s0; s1].[1]) with (Ok s1). cbn [mbind res_bind].
    rewrite <- app_assoc. do 2 f_equal. rewrite lenZ_app, Hl, !lenZ_cons, lenZ_nil.
    by replace (4 * (lenZ src / 3) + 4 - (4 * (lenZ src / 3) + (1 + (1 + (1 + 0))))) with 1 by lia.
Qed.

Lemma Base64_Encode_full k src :
  length src = (k * 3 + 3)%nat →
  Base64_Encode src = Ok (b64_ref (take (k * 3) src) ++ replicate 4 Base64Padding).
Proof.
  intros Hl. unfold Base64_Encode.
  destruct (b64_loop_spec k src) as (rem & -> & Hs); [lia|].
  replace (lenZ src mod 3) with 0 by (unfold lenZ; lia). cbn [Z.eqb mbind res_bind].
  rewrite app_nil_r. do 2 f_equal. unfold fill. f_equal.
  rewrite lenZ_b64_ref. unfold lenZ. rewrite length_take. lia.
Qed.

Lemma Base64_Decode_ref src pad :
  bytes_ok src → (pad = [] ∨ (lenZ src mod 3 = 0 ∧ pad = replicate 4 Base64Padding)) →
  let nL := 3 * (lenZ (b64_ref src ++ pad) / 4) - count_eq (b64_ref src ++ pad) in
  0 <= nL → nL <= lenZ src →
  Base64_Decode (b64_ref src ++ pad) = Ok (take (Z.to_nat nL) src, nL).
Proof.
  intros Hok Hpad nL HnL Hle. unfold Base64_Decode. fold nL.
  destruct (Z.ltb_spec nL 0); [lia|].
  pose proof (decode_ref nL 0 src pad [] 0 0) as H0. rewrite take_nil in H0.
  destruct H0 as (p & c & ->); try done; [destruct Hpad as [?|[? _]]; auto|]. cbn [app].
  assert (∀ st, b64_decode_loop nL (0 + lenZ (b64_ref src)) pad st = Ok st) as ->.
  { intros st. destruct Hpad as [->|[_ ->]]; [done|apply b64_pads]. }
  cbn [mbind res_bind b64_dst]. rewrite take_lenZ by lia. rewrite Z.sub_diag.
  by rewrite app_nil_r.
Qed.

(** ** Properties *)

(** The encoder is the standard Base64 encoding exactly when the length of
    its argument is not a multiple of three.  When it is, the last group of
    three bytes is not encoded: four padding characters stand in its place. *)
Theorem Base64_Encode_spec (src : list Z) :
  (lenZ src mod 3 ≠ 0 → Base64_Encode src = Ok (b64_ref src)) ∧
  (∀ k, length src = (k * 3 + 3)%nat →
     Base64_Encode src = Ok (b64_ref (take (k * 3) src) ++ replicate 4 Base64Padding)).
Proof. split; [apply Base64_Encode_partial|intros k; apply Base64_Encode_full]. Qed.

(** Decoding what the encoder produced gives back the bytes, for every
    byte string whose length is not a multiple of three. *)
Theorem base64_roundtrip (src : list Z) (Hok : bytes_ok src) (Hm : lenZ src mod 3 ≠ 0) :
  Base64_Encode src ≫= Base64_Decode = Ok (src, lenZ src).
Proof.
  rewrite Base64_Encode_partial by done. cbn [mbind res_bind].
  rewrite <- (app_nil_r (b64_ref src)).
  assert (3 * (lenZ (b64_ref src ++ []) / 4) - count_eq (b64_ref src ++ []) = lenZ src) as E.
  { rewrite app_nil_r, lenZ_b64_ref, count_eq_ref by done. lia. }
  rewrite Base64_Decode_ref; rewrite ?E; try done; [|by left|apply lenZ_nonneg].
  by rewrite take_full by lia.
Qed.

Lemma base64_roundtrip_witness : Base64_Encode [1; 2; 253; 254; 255] ≫= Base64_Decode = Ok ([1; 2; 253; 254; 255], 5).
Proof. refine (base64_roundtrip [1; 2; 253; 254; 255] _ _); by_eval. Defined.

(** For a length that is a multiple of three the round trip loses the last
    four bytes, and for exactly three bytes the decoder writes its terminator
    before the start of its buffer. *)
Theorem Base64_Decode_full_group (src : list Z) (k : nat)
  (Hok : bytes_ok src) (Hl : length src = (k * 3 + 3)%nat) :
  Base64_Encode src ≫= Base64_Decode =
    (if (k =? 0)%nat then UB else Ok (take (k * 3 - 1) src, lenZ src - 4)).
Proof.
  rewrite (Base64_Encode_full k) by done. cbn [mbind res_bind].
  destruct (Nat.eqb_spec k 0) as [->|Hk]; [done|].
  assert (lenZ (take (k * 3) src) = Z.of_nat (k * 3)) as Ht by (unfold lenZ; rewrite length_take; lia).
  assert (3 * (lenZ (b64_ref (take (k * 3) src) ++ replicate 4 Base64Padding) / 4)
      - count_eq (b64_ref (take (k * 3) src) ++ replicate 4 Base64Padding) = lenZ src - 4) as E.
  { rewrite lenZ_app, count_eq_app, lenZ_b64_ref, count_eq_ref, Ht by (by apply Forall_take).
    change (lenZ (replicate 4 Base64Padding)) with 4. change (count_eq (replicate 4 Base64Padding)) with 4.
    unfold lenZ. lia. }
  rewrite Base64_Decode_ref; rewrite ?E.
  - rewrite take_take. do 3 f_equal. unfold lenZ. lia.
  - by apply Forall_take.
  - right. split; [|done]. lia.
  - unfold lenZ in *. lia.
  - unfold lenZ in *. lia.
Qed.

Lemma Base64_Decode_full_group_witness :
  Base64_Encode [1; 2; 3; 4; 5; 6] ≫= Base64_Decode = Ok (take (1 * 3 - 1) [1; 2; 3; 4; 5; 6], lenZ [1; 2; 3; 4; 5; 6] - 4).
Proof. refine (Base64_Decode_full_group [1; 2; 3; 4; 5; 6] 1 _ _); [by_eval|reflexivity]. Defined.
