(* ===== verification/Gsm7.v ===== *)
(** The GSM 03.38 seven-bit alphabet: [packing_gsm7bit], [unpacking_gsm7bit],
    the character tables [gsm0338_def_map.dat]/[gsm0338_ext_map.dat],
    [convertAsciiToGsm7bitBasicCharSet] and [ConvertGsm7bitToUcs2] of
    [util/util.cpp].

    [packing_gsm7bit] is a loop that sometimes advances its source index twice;
    it is modelled with [loop] and enough fuel ([src_len + 1]).  The two
    [std::map]s are [gmap]s built by inserting the tables in order, an insert
    of a key that is present being ignored, as [std::map::insert] does. *)
From stdpp Require Import gmap.
From S2P Require Import Prelude.

(** ** Packing *)

(** one round of the loop; the state is [src_idx], [dest_idx] and [dest] *)
Definition pack_step (src : list Z) (src_len : Z) (st : Z * Z * list Z)
  : res (ctl (Z * Z * list Z) (Z * list Z)) :=
  let '(src_idx, dest_idx, dest) := st in
  if src_idx <? src_len then
    let src_idx := if src_idx mod 8 =? 7 then src_idx + 1 else src_idx in
    let shift := src_idx mod 8 in
    v ← src.[src_idx];
    dest ← dest.[dest_idx <- Z.shiftr v shift];
    dest ← (if src_idx + 1 <? src_len
            then v1 ← src.[src_idx + 1]; d ← dest.[dest_idx];
                 dest.[dest_idx <- u8 (Z.lor d (Z.land (Z.shiftl v1 (7 - shift)) 255))]
            else Ok dest);
    Ok (Next (src_idx + 1, dest_idx + 1, dest))
  else Ok (Stop (dest_idx, dest)).

(** [dest] afterwards and the result *)
Definition packing_gsm7bit (src : list Z) (src_len : Z) (dest : list Z) : res (list Z * Z) :=
  let enc_len := if Z.rem src_len 8 =? 0 then Z.quot (src_len * 7) 8
                 else Z.quot (src_len * 7) 8 + 1 in
  r ← loop (Z.to_nat src_len + 1) (pack_step src src_len) (0, 0, dest);
  let '(dest_idx, dest) := r in
  dest ← (if Z.rem src_len 8 =? 7
          then d ← dest.[dest_idx - 1]; dest.[dest_idx - 1 <- Z.lor d 26]
          else Ok dest);
  Ok (dest, enc_len).

(** ** Unpacking *)

(** one round; the state is [dest] and [dest_idx] *)
Definition unpack_step (src : list Z) (src_idx : Z) (st : list Z * Z) : res (list Z * Z) :=
  let '(dest, dest_idx) := st in
  let shift := src_idx mod 7 in
  v ← src.[src_idx];
  d ← dest.[dest_idx];
  dest ← dest.[dest_idx <- Z.lor d (Z.land (Z.shiftl v shift) 127)];
  let down_shift_count := 7 - shift in
  dest ← dest.[dest_idx + 1 <- Z.shiftr v down_shift_count];
  let dest_idx := if down_shift_count =? 1 then dest_idx + 1 else dest_idx in
  Ok (dest, dest_idx + 1).

Definition unpacking_gsm7bit (src : list Z) (src_len : Z) (dest : list Z) : res (list Z * Z) :=
  for_up (Z.to_nat src_len) 0 (unpack_step src) (dest, 0).

(** ** Characters *)

(** the cells [gsm7[id++] = ...] writes for one ASCII character *)
Definition ascii_to_gsm7 (c : Z) : list Z :=
  if c =? 64 then [0]
  else if c =? 36 then [2]
  else if c =? 94 then [27; 20]
  else if c =? 123 then [27; 40]
  else if c =? 125 then [27; 41]
  else if c =? 92 then [27; 47]
  else if c =? 91 then [27; 60]
  else if c =? 126 then [27; 61]
  else if c =? 93 then [27; 62]
  else if c =? 124 then [27; 64]
  else [c].

(** [gsm7] afterwards and the result [id] *)
Definition convertAsciiToGsm7bitBasicCharSet (ascii : list Z) (len : Z) (gsm7 : list Z)
  : res (list Z * Z) :=
  for_up (Z.to_nat len) 0
    (λ i '(gsm7, id), c ← ascii.[i]; gsm7 ← wrn gsm7 id (ascii_to_gsm7 c);
                      Ok (gsm7, id + lenZ (ascii_to_gsm7 c)))
    (gsm7, 0).

Definition Gsm7bitDefToUcs2 : list (Z * Z) :=
  [
   (0x00, 0x0040); (0x01, 0x00A3); (0x02, 0x0024); (0x03, 0x00A5); (0x04, 0x00E8); (0x05, 0x00E9); (0x06, 0x00F9); (0x07, 0x00EC);
   (0x08, 0x00F2); (0x09, 0x00E7); (0x0A, 0x000A); (0x0B, 0x00D8); (0x0C, 0x00F8); (0x0D, 0x000D); (0x0E, 0x00C5); (0x0F, 0x00E5);
   (0x10, 0x0394); (0x11, 0x005F); (0x12, 0x03A6); (0x13, 0x0393); (0x14, 0x039B); (0x15, 0x03A9); (0x16, 0x03A0); (0x17, 0x03A8);
   (0x18, 0x03A3); (0x19, 0x0398); (0x1A, 0x039E); (0x1B, 0x00A0); (0x1C, 0x00C6); (0x1D, 0x00E6); (0x1E, 0x00DF); (0x1F, 0x00C9);
   (0x20, 0x0020); (0x21, 0x0021); (0x22, 0x0022); (0x23, 0x0023); (0x24, 0x00A4); (0x25, 0x0025); (0x26, 0x0026); (0x27, 0x0027);
   (0x28, 0x0028); (0x29, 0x0029); (0x2A, 0x002A); (0x2B, 0x002B); (0x2C, 0x002C); (0x2D, 0x002D); (0x2E, 0x002E); (0x2F, 0x002F);
   (0x30, 0x0030); (0x31, 0x0031); (0x32, 0x0032); (0x33, 0x0033); (0x34, 0x0034); (0x35, 0x0035); (0x36, 0x0036); (0x37, 0x0037);
   (0x38, 0x0038); (0x39, 0x0039); (0x3A, 0x003A); (0x3B, 0x003B); (0x3C, 0x003C); (0x3D, 0x003D); (0x3E, 0x003E); (0x3F, 0x003F);
   (0x40, 0x00A1); (0x41, 0x0041); (0x42, 0x0042); (0x43, 0x0043); (0x44, 0x0044); (0x45, 0x0045); (0x46, 0x0046); (0x47, 0x0047);
   (0x48, 0x0048); (0x49, 0x0049); (0x4A, 0x004A); (0x4B, 0x004B); (0x4C, 0x004C); (0x4D, 0x004D); (0x4E, 0x004E); (0x4F, 0x004F);
   (0x50, 0x0050); (0x51, 0x0051); (0x52, 0x0052); (0x53, 0x0053); (0x54, 0x0054); (0x55, 0x0055); (0x56, 0x0056); (0x57, 0x0057);
   (0x58, 0x0058); (0x59, 0x0059); (0x5A, 0x005A); (0x5B, 0x00C4); (0x5C, 0x00D6); (0x5D, 0x00D1); (0x5E, 0x00DC); (0x5F, 0x00A7);
   (0x60, 0x00BF); (0x61, 0x0061); (0x62, 0x0062); (0x63, 0x0063); (0x64, 0x0064); (0x65, 0x0065); (0x66, 0x0066); (0x67, 0x0067);
   (0x68, 0x0068); (0x69, 0x0069); (0x6A, 0x006A); (0x6B, 0x006B); (0x6C, 0x006C); (0x6D, 0x006D); (0x6E, 0x006E); (0x6F, 0x006F);
   (0x70, 0x0070); (0x71, 0x0071); (0x72, 0x0072); (0x73, 0x0073); (0x74, 0x0074); (0x75, 0x0075); (0x76, 0x0076); (0x77, 0x0077);
   (0x78, 0x0078); (0x79, 0x0079); (0x7A, 0x007A); (0x7B, 0x00E4); (0x7C, 0x00F6); (0x7D, 0x00F1); (0x7E, 0x00FC); (0x7F, 0x00E0)
  ].
Definition Gsm7bitExtToUcs2 : list (Z * Z) :=
  [
   (0x0A, 0x000C); (0x14, 0x005E); (0x28, 0x007B); (0x29, 0x007D); (0x2F, 0x005C); (0x3C, 0x005B); (0x3D, 0x007E); (0x3E, 0x005D);
   (0x40, 0x007C); (0x65, 0x20AC)
  ].

(** [InitGsm7bitUcs2Map]: inserting in order, the first entry of a key stays *)
Definition map_insert (m : gmap Z Z) (e : Z * Z) : gmap Z Z :=
  match m !! e.1 with Some _ => m | None => <[e.1 := e.2]> m end.
Definition Gsm0338DefMap : gmap Z Z := Eval vm_compute in foldl map_insert ∅ Gsm7bitDefToUcs2.
Definition Gsm0338ExtMap : gmap Z Z := Eval vm_compute in foldl map_insert ∅ Gsm7bitExtToUcs2.

Definition ReplacmenteOfInvalidCode : Z := 32.

(** one round; the state is [i], [dst] and [dst_idx] *)
Definition gsm7_step (src : list Z) (len : Z) (st : Z * list Z * Z)
  : res (ctl (Z * list Z * Z) (list Z * Z)) :=
  let '(i, dst, dst_idx) := st in
  if i <? len then
    v ← src.[i];
    if (v =? 27) && (i + 1 <? len) then
      w ← src.[i + 1];
      match Gsm0338ExtMap !! w with
      | Some u => dst ← dst.[dst_idx <- u]; Ok (Next (i + 2, dst, dst_idx + 1))
      | None => dst ← dst.[dst_idx <- 32]; Ok (Next (i + 1, dst, dst_idx + 1))
      end
    else
      match Gsm0338DefMap !! v with
      | Some u => dst ← dst.[dst_idx <- u]; Ok (Next (i + 1, dst, dst_idx + 1))
      | None => dst ← dst.[dst_idx <- ReplacmenteOfInvalidCode]; Ok (Next (i + 1, dst, dst_idx + 1))
      end
  else Ok (Stop (dst, dst_idx)).

Definition ConvertGsm7bitToUcs2 (src : list Z) (len : Z) (dst : list Z) : res (list Z * Z) :=
  loop (Z.to_nat len + 1) (gsm7_step src len) (0, dst, 0).

(** ** Bit layout

    A list of [w]-bit cells as a bit sequence, least significant bit first. *)
Definition nthZ (l : list Z) (i : Z) : Z := default 0 (l !! Z.to_nat i).
Definition lsb (w : Z) (l : list Z) (i : Z) : bool := Z.testbit (nthZ l (i / w)) (i mod w).

Definition is_septet (c : Z) : Prop := 0 <= c < 128.
#[export] Instance is_septet_dec c : Decision (is_septet c).
Proof. unfold is_septet. apply _. Defined.

(** the septets packing stores: seven left-over bits are filled with a CR *)
Definition with_cr (s : list Z) : list Z := if lenZ s mod 8 =? 7 then s ++ [13] else s.

Definition enc_len (n : Z) : Z := (7 * n + 7) / 8.

(** the byte at index [j] of the packed form *)
Definition packed_byte (s : list Z) (j : Z) : Z :=
  let k := j + j / 7 in let r := j mod 7 in
  Z.lor (Z.shiftr (nthZ s k) r) (Z.land (Z.shiftl (nthZ s (k + 1)) (7 - r)) 255).

(** the septet at index [k] of the unpacked form *)
Definition unpacked (b : list Z) (k : Z) : Z :=
  let i := k - k / 8 in let r := k mod 8 in
  Z.lor (if r =? 0 then 0 else Z.shiftr (nthZ b (i - 1)) (8 - r))
        (if r =? 7 then 0 else Z.land (Z.shiftl (nthZ b i) r) 127).

Lemma nthZ_lookup l i v : l !! Z.to_nat i = Some v → nthZ l i = v.
Proof. unfold nthZ. by intros ->. Qed.
Lemma nthZ_rd l i : 0 <= i < lenZ l → l.[i] = Ok (nthZ l i).
Proof. intros (v & -> & E)%rd_ok. by rewrite (nthZ_lookup _ _ _ E). Qed.
Lemma nthZ_oob l i : lenZ l <= i → nthZ l i = 0.
Proof. unfold nthZ, lenZ. intros. by rewrite lookup_ge_None_2 by lia. Qed.
Lemma nthZ_app_l l r i : 0 <= i < lenZ l → nthZ (l ++ r) i = nthZ l i.
Proof. unfold nthZ, lenZ. intros. by rewrite lookup_app_l by lia. Qed.
Lemma nthZ_Forall (P : Z → Prop) l i : Forall P l → P 0 → P (nthZ l i).
Proof.
  intros H H0. unfold nthZ. destruct (l !! Z.to_nat i) eqn:E; [|done]. by eapply Forall_lookup_1.
Qed.
Lemma nthZ_insert l i j v :
  0 <= i < lenZ l → 0 <= j → nthZ (<[Z.to_nat i := v]> l) j = if j =? i then v else nthZ l j.
Proof.
  unfold nthZ, lenZ. intros. cmp_cases; subst.
  - by rewrite list_lookup_insert_eq by lia.
  - by rewrite list_lookup_insert_ne by lia.
Qed.

(** ** [packing_gsm7bit] *)
Section pack.
Context (s rest : list Z) (Hs : Forall is_septet s).
Context (Hrest : lenZ s mod 8 = 0 → 0 < lenZ rest).

(** the state before a round: [d] bytes have been stored *)
Definition pack_inv (size : Z) (st : Z * Z * list Z) : Prop :=
  let '(i, d, dest) := st in let n := lenZ s in
  0 <= i ∧ 0 <= d ∧ lenZ dest = size ∧
  (if i mod 8 =? 7 then i + 1 else i) = d + d / 7 ∧ (i <= n ∨ i = n + 1 ∧ n mod 8 = 0) ∧
  ∀ j, 0 <= j < d → j < enc_len n → nthZ dest j = packed_byte s j.

Lemma septet_byte k : is_byte (nthZ s k).
Proof.
  destruct (nthZ_Forall _ s k Hs) as [? ?]; [done|]. unfold is_byte. lia.
Qed.

Lemma packed_cell a b r : is_septet a → is_septet b → 0 <= r < 7 →
  u8 (Z.lor (Z.shiftr a r) (Z.land (Z.shiftl b (7 - r)) 255)) =
  Z.lor (Z.shiftr a r) (Z.land (Z.shiftl b (7 - r)) 255).
Proof.
  unfold is_septet. intros Ha Hb Hr. apply u8_id. unfold is_byte. change 256 with (2 ^ 8).
  apply lor_range; [lia|apply shiftr_range; lia|apply land_range_r; lia].
Qed.

Lemma pack_step_inv size st :
  7 * lenZ s / 8 + 1 <= size → pack_inv size st →
  ∃ c, pack_step (s ++ rest) (lenZ s) st = Ok c ∧
    match c with
    | Next st' => pack_inv size st' ∧ (Z.to_nat (lenZ s - st'.1.1) < Z.to_nat (lenZ s - st.1.1))%nat
    | Stop (d, dest) => lenZ dest = size ∧
        (∀ j, 0 <= j < enc_len (lenZ s) → nthZ dest j = packed_byte s j) ∧
        (lenZ s mod 8 = 7 → d = enc_len (lenZ s))
    end.
Proof.
  destruct st as [[i d] dest]. intros Hsize (Hi & Hd & Hl & Hid & Hin & Hb).
  pose proof (lenZ_nonneg rest) as Hrest0. unfold pack_step. destruct (Z.ltb_spec i (lenZ s)).
  - set (k := if i mod 8 =? 7 then i + 1 else i) in *.
    assert (i <= k <= i + 1 ∧ k mod 8 < 7 ∧ (k < lenZ s ∨ k = lenZ s ∧ lenZ s mod 8 = 0)) as (Hk1 & Hk2 & Hk3)
      by (unfold k; cmp_cases).
    assert (k < lenZ s + lenZ rest) as Hk4 by (destruct Hk3 as [|[? ?%Hrest]]; lia).
    assert (k mod 8 = d mod 7) as Hr by lia.
    assert (d < size) as Hds by lia. clearbody k.
    rewrite (nthZ_rd _ k) by (rewrite lenZ_app; lia). cbn [mbind res_bind].
    rewrite wr_ok by lia. cbn [mbind res_bind].
    destruct (Z.ltb_spec (k + 1) (lenZ s)).
    + rewrite (nthZ_rd _ (k + 1)) by (rewrite lenZ_app; lia). cbn [mbind res_bind].
      rewrite (nthZ_rd _ d) by (rewrite lenZ_insert; lia). cbn [mbind res_bind].
      rewrite nthZ_insert, Z.eqb_refl by lia.
      rewrite wr_ok by (rewrite lenZ_insert; lia). cbn [mbind res_bind].
      rewrite list_insert_insert_eq, !nthZ_app_l by lia.
      rewrite packed_cell by (try apply nthZ_Forall; done || lia).
      eexists. split; [done|]. split; [|cbn; lia].
      cbn. rewrite lenZ_insert. split_and!; [lia..| |lia|].
      { cmp_cases. }
      intros j Hj Hje. rewrite nthZ_insert by lia. cmp_cases.
      * subst j. unfold packed_byte. by rewrite <- Hr, <- Hid.
      * apply Hb; lia.
    + eexists. split; [done|]. split; [|cbn; lia].
      cbn. rewrite lenZ_insert. split_and!; [lia..| |lia|].
      { cmp_cases. }
      intros j Hj Hje. rewrite nthZ_insert by lia. cmp_cases.
      * subst j. unfold packed_byte, enc_len in *. rewrite <- Hr, <- Hid.
        rewrite (nthZ_oob s (k + 1)) by lia. rewrite Z.shiftl_0_l, Z.land_0_l, Z.lor_0_r.
        by rewrite nthZ_app_l by lia.
      * apply Hb; lia.
  - eexists. split; [done|]. cbn beta iota. split; [done|]. unfold enc_len in *. split.
    + intros j Hj. apply Hb; [|lia]. cmp_cases_in Hid.
    + intros. cmp_cases_in Hid.
Qed.

Lemma enc_len_quot :
  (if Z.rem (lenZ s) 8 =? 0 then Z.quot (lenZ s * 7) 8 else Z.quot (lenZ s * 7) 8 + 1) = enc_len (lenZ s).
Proof. pose proof (lenZ_nonneg s). unfold enc_len. cmp_cases. Qed.

Lemma packed_byte_cr j : 0 <= j < enc_len (lenZ s) →
  packed_byte (with_cr s) j =
    if (lenZ s mod 8 =? 7) && (j =? enc_len (lenZ s) - 1) then Z.lor (packed_byte s j) 26 else packed_byte s j.
Proof.
  unfold with_cr. intros Hj. destruct (Z.eqb_spec (lenZ s mod 8) 7) as [E|]; [|done]. cbn [andb].
  unfold packed_byte. destruct (Z.eqb_spec j (enc_len (lenZ s) - 1)) as [->|Hne]; unfold enc_len in *.
  - set (k := (7 * lenZ s + 7) / 8 - 1 + ((7 * lenZ s + 7) / 8 - 1) / 7).
    assert (k + 1 = lenZ s) as Ek by lia. clearbody k. rewrite Ek.
    replace (((7 * lenZ s + 7) / 8 - 1) mod 7) with 6 by lia.
    rewrite nthZ_app_l by lia. rewrite (nthZ_oob s (lenZ s)) by lia.
    replace (nthZ (s ++ [13]) (lenZ s)) with 13; [by rewrite <- Z.lor_assoc|].
    symmetry. apply nthZ_lookup. unfold lenZ. by rewrite Nat2Z.id, list_lookup_middle.
  - pose proof (lenZ_nonneg s). rewrite !nthZ_app_l by lia. done.
Qed.

Lemma packing_ok dest :
  7 * lenZ s / 8 + 1 <= lenZ dest →
  ∃ dest', packing_gsm7bit (s ++ rest) (lenZ s) dest = Ok (dest', enc_len (lenZ s)) ∧
    lenZ dest' = lenZ dest ∧
    ∀ j, 0 <= j < enc_len (lenZ s) → nthZ dest' j = packed_byte (with_cr s) j.
Proof.
  intros Hd. pose proof (lenZ_nonneg s) as Hn. unfold packing_gsm7bit. rewrite enc_len_quot.
  destruct (loop_total (λ st, Z.to_nat (lenZ s - st.1.1)) (pack_inv (lenZ dest)) (λ r,
      lenZ r.2 = lenZ dest ∧
      (∀ j, 0 <= j < enc_len (lenZ s) → nthZ r.2 j = packed_byte s j) ∧
      (lenZ s mod 8 = 7 → r.1 = enc_len (lenZ s)))
    (pack_step (s ++ rest) (lenZ s)) (Z.to_nat (lenZ s) + 1) (0, 0, dest)) as ([d o] & -> & Hl & Hb & Hd7).
  { intros st Hst. destruct (pack_step_inv (lenZ dest) st) as (c & E & Hc); [done..|].
    exists c. split; [done|]. by destruct c as [|[??]]. }
  { split_and!; try done; lia. }
  { cbn [fst]. lia. }
  cbn [fst snd mbind res_bind] in *. replace (Z.rem (lenZ s) 8) with (lenZ s mod 8) by lia.
  destruct (Z.eqb_spec (lenZ s mod 8) 7) as [E|E].
  - rewrite (Hd7 E). assert (0 <= enc_len (lenZ s) - 1 < lenZ o) as Hlast by (unfold enc_len in *; lia).
    rewrite nthZ_rd by done. cbn [mbind res_bind]. rewrite wr_ok by done. cbn [mbind res_bind].
    eexists. split; [done|]. split; [by rewrite lenZ_insert|].
    intros j Hj. rewrite nthZ_insert, packed_byte_cr, E by lia. cbn [Z.eqb Pos.eqb andb].
    cmp_cases; [subst j; by rewrite Hb|by apply Hb].
  - cbn [mbind res_bind]. eexists. split; [done|]. split; [done|]. intros j Hj.
    rewrite packed_byte_cr, Hb by done. cmp_cases.
Qed.
End pack.

Lemma septet_bit c t : is_septet c → 7 <= t → Z.testbit c t = false.
Proof. intros. apply (testbit_high c 7); [done|lia]. Qed.

Lemma with_cr_septets s : Forall is_septet s → Forall is_septet (with_cr s).
Proof.
  unfold with_cr. intros. destruct (_ =? _); [|done]. apply Forall_app. split; [done|]. by repeat constructor.
Qed.

(** the packed form holds the bits of the septets one after the other *)
Lemma packed_bit s j m : Forall is_septet s → 0 <= j → 0 <= m < 8 →
  Z.testbit (packed_byte s j) m = lsb 7 s (8 * j + m).
Proof.
  intros Hs Hj Hm. unfold packed_byte, lsb.
  rewrite Z.lor_spec, Z.shiftr_spec, Z.land_spec, Z.shiftl_spec by lia.
  change 255 with (Z.ones 8). rewrite Z.ones_spec_low, andb_true_r by lia.
  destruct (Z_lt_ge_dec (m + j mod 7) 7).
  - rewrite (Z.testbit_neg_r _ (m - (7 - j mod 7))), orb_false_r by lia.
    replace ((8 * j + m) / 7) with (j + j / 7) by lia. by replace ((8 * j + m) mod 7) with (m + j mod 7) by lia.
  - rewrite septet_bit by (try apply nthZ_Forall; done || lia).
    replace ((8 * j + m) / 7) with (j + j / 7 + 1) by lia.
    by replace ((8 * j + m) mod 7) with (m - (7 - j mod 7)) by lia.
Qed.

Lemma packed_is_byte s j : Forall is_septet s → 0 <= j → is_byte (packed_byte s j).
Proof.
  intros Hs Hj. unfold packed_byte, is_byte. change 256 with (2 ^ 8).
  assert (is_septet (nthZ s (j + j / 7))) as [? ?] by (by apply nthZ_Forall).
  apply lor_range; [lia|apply shiftr_range; lia|apply land_range_r; lia].
Qed.

(** ** [unpacking_gsm7bit] *)
Section unpack.
Context (src dest0 : list Z) (m : Z) (Hm : 0 <= m <= lenZ src) (Hsrc : bytes_ok src).
Context (Hzero : Forall (λ c, c = 0) dest0).

(** after [i] bytes; cells beyond the one after [d] are as they were *)
Definition unpack_inv (i : Z) (st : list Z * Z) : Prop :=
  let '(dest, d) := st in
  d = i + i / 7 ∧ lenZ dest = lenZ dest0 ∧
  (∀ k, 0 <= k < d → nthZ dest k = unpacked src k) ∧
  nthZ dest d = (if i mod 7 =? 0 then 0 else Z.shiftr (nthZ src (i - 1)) (8 - i mod 7)) ∧
  ∀ k, d < k → nthZ dest k = 0.

Lemma unpack_step_inv i st :
  0 <= i < m → m + (m - 1) / 7 < lenZ dest0 → unpack_inv i st →
  ∃ st', unpack_step src i st = Ok st' ∧ unpack_inv (i + 1) st'.
Proof.
  destruct st as [dest d]. intros Hi Hd (-> & Hl & Hb & Hc & Hz). unfold unpack_step.
  set (d := i + i / 7) in *. assert (0 <= d ∧ d + 1 < lenZ dest) as Hd1 by (unfold d; lia).
  rewrite nthZ_rd by lia. cbn [mbind res_bind]. rewrite nthZ_rd by lia. cbn [mbind res_bind].
  rewrite wr_ok by lia. cbn [mbind res_bind]. rewrite wr_ok by (rewrite lenZ_insert; lia). cbn [mbind res_bind].
  eexists. split; [done|]. cbn. rewrite !lenZ_insert.
  assert (unpacked src d = Z.lor (nthZ dest d) (Z.land (nthZ src i ≪ (i mod 7)) 127)) as Eu.
  { unfold unpacked. rewrite Hc. replace (d - d / 8) with i by (unfold d; lia).
    replace (d mod 8) with (i mod 7) by (unfold d; lia). destruct (Z.eqb_spec (i mod 7) 7); [lia|done]. }
  assert (i mod 7 = 6 → unpacked src (d + 1) = Z.shiftr (nthZ src i) 1) as Eu7.
  { intros E. unfold unpacked. replace (d + 1 - (d + 1) / 8 - 1) with i by (unfold d; lia).
    replace ((d + 1) mod 8) with 7 by (unfold d; lia). by rewrite Z.lor_0_r. }
  split_and!; [| done | | |].
  - unfold d. cmp_cases.
  - intros k Hk. rewrite !nthZ_insert by (rewrite ?lenZ_insert; unfold d in *; cmp_cases_in Hk).
    destruct (Z.eqb_spec k (d + 1)) as [->|]; [|destruct (Z.eqb_spec k d) as [->|]].
    + destruct (Z.eqb_spec (7 - i mod 7) 1); [|lia]. rewrite Eu7 by lia.
      by replace (7 - i mod 7) with 1 by lia.
    + done.
    + apply Hb. cmp_cases_in Hk.
  - destruct (Z.eqb_spec (7 - i mod 7) 1) as [E|E].
    + rewrite !nthZ_insert by (rewrite ?lenZ_insert; lia).
      replace ((i + 1) mod 7) with 0 by lia. cmp_cases. rewrite Hz; lia.
    + rewrite !nthZ_insert by (rewrite ?lenZ_insert; lia). rewrite Z.eqb_refl.
      replace ((i + 1) mod 7) with (i mod 7 + 1) by lia.
      destruct (Z.eqb_spec (i mod 7 + 1) 0); [lia|].
      replace (i + 1 - 1) with i by lia. by replace (8 - (i mod 7 + 1)) with (7 - i mod 7) by lia.
  - intros k Hk. assert (d + 1 < k) by cmp_cases_in Hk.
    rewrite !nthZ_insert by (rewrite ?lenZ_insert; lia). cmp_cases. apply Hz. lia.
Qed.

Lemma unpacking_ok :
  (0 < m → m + (m - 1) / 7 < lenZ dest0) →
  ∃ dest, unpacking_gsm7bit src m dest0 = Ok (dest, m + m / 7) ∧ lenZ dest = lenZ dest0 ∧
    (∀ k, 0 <= k < m + m / 7 → nthZ dest k = unpacked src k) ∧
    (∀ k, m + m / 7 < k → nthZ dest k = 0).
Proof.
  intros Hd. unfold unpacking_gsm7bit.
  destruct (for_up_inv unpack_inv (Z.to_nat m) 0 (unpack_step src) (dest0, 0)) as ([o d] & E & HI).
  - split_and!; try done; try lia.
    + by apply nthZ_Forall.
    + intros. by apply nthZ_Forall.
  - intros i st Hi. apply unpack_step_inv; lia.
  - rewrite Z.add_0_l, Z2Nat.id in HI by lia. destruct HI as (-> & Hl & Hb & _ & Hz). eauto.
Qed.

(** a septet of the unpacked form is seven consecutive bits of the bytes *)
Lemma unpacked_bit k t : 0 <= k → 0 <= t < 7 → Z.testbit (unpacked src k) t = lsb 8 src (7 * k + t).
Proof.
  intros Hk Ht. unfold unpacked, lsb.
  assert (∀ i, is_byte (nthZ src i)) as Hbyte by (intros; by apply nthZ_Forall).
  rewrite Z.lor_spec. set (r := k mod 8). set (i := k - k / 8).
  destruct (Z_lt_ge_dec t r) as [Hr|Hr].
  - replace ((7 * k + t) / 8) with (i - 1) by (unfold i, r in *; lia).
    replace ((7 * k + t) mod 8) with (t + (8 - r)) by (unfold i, r in *; lia).
    destruct (Z.eqb_spec r 0); [lia|]. rewrite Z.shiftr_spec by lia.
    destruct (Z.eqb_spec r 7); [by rewrite Z.bits_0, orb_false_r|].
    rewrite Z.land_spec, Z.shiftl_spec, (Z.testbit_neg_r _ (t - r)) by lia. by rewrite orb_false_r.
  - replace ((7 * k + t) / 8) with i by (unfold i, r in *; lia).
    replace ((7 * k + t) mod 8) with (t - r) by (unfold i, r in *; lia).
    destruct (Z.eqb_spec r 7); [lia|].
    rewrite Z.land_spec, Z.shiftl_spec by lia. change 127 with (Z.ones 7).
    rewrite Z.ones_spec_low, andb_true_r by lia. destruct (Z.eqb_spec r 0); [by rewrite Z.bits_0|].
    rewrite Z.shiftr_spec by lia. rewrite (testbit_high _ 8); [done|apply Hbyte|lia].
Qed.

Lemma unpacked_septet k : 0 <= k → is_septet (unpacked src k).
Proof.
  intros Hk. unfold unpacked, is_septet. change 128 with (2 ^ 7).
  apply lor_range; [lia| |].
  - destruct (Z.eqb_spec (k mod 8) 0); [done|].
    assert (is_byte (nthZ src (k - k / 8 - 1))) as [H1 H2] by (by apply nthZ_Forall).
    pose proof (shiftr_range_sub (nthZ src (k - k / 8 - 1)) (8 - k mod 8) 8) as Hs.
    replace (8 - (8 - k mod 8)) with (k mod 8) in Hs by lia. specialize (Hs ltac:(lia) ltac:(done)).
    pose proof (Z.pow_le_mono_r 2 (k mod 8) 7). lia.
  - destruct (Z.eqb_spec (k mod 8) 7); [done|]. apply land_range_r; lia.
Qed.
End unpack.

(** unpacking inverts packing, septet by septet *)
Lemma unpacked_packed c p n k :
  Forall is_septet c → bytes_ok p → (∀ j, 0 <= j < n → nthZ p j = packed_byte c j) →
  0 <= k → 7 * k + 7 <= 8 * n → unpacked p k = nthZ c k.
Proof.
  intros Hc Hpb Hp Hk Hn. apply Z.bits_inj'. intros t Ht. destruct (Z_lt_ge_dec t 7).
  - rewrite unpacked_bit by (done || lia). unfold lsb. rewrite Hp by lia.
    rewrite packed_bit by (done || lia). unfold lsb.
    replace (8 * ((7 * k + t) / 8) + (7 * k + t) mod 8) with (7 * k + t) by lia.
    f_equal; [f_equal|]; lia.
  - rewrite !septet_bit; try done; try lia; [by apply nthZ_Forall|]. apply unpacked_septet; [done|lia].
Qed.

Lemma unpacking_app p r m dest :
  m <= lenZ p → unpacking_gsm7bit (p ++ r) m dest = unpacking_gsm7bit p m dest.
Proof.
  intros Hm. apply for_up_ext. intros i [o d] Hi. unfold unpack_step. rewrite rd_app_l by lia. done.
Qed.

Lemma pack_unpack (s rest dest : list Z) (size : Z)
  (Hs : Forall is_septet s) (Hrest : lenZ s mod 8 = 0 → 0 < lenZ rest)
  (Hdest : 7 * lenZ s / 8 + 1 <= lenZ dest) (Hsize : lenZ s + 1 <= size) :
  ∃ packed out, packing_gsm7bit (s ++ rest) (lenZ s) dest = Ok (packed, enc_len (lenZ s)) ∧
    unpacking_gsm7bit (take (Z.to_nat (enc_len (lenZ s))) packed) (enc_len (lenZ s)) (fill size 0) =
      Ok (out, lenZ (with_cr s)) ∧
    take (length (with_cr s)) out = with_cr s ∧ lenZ packed = lenZ dest ∧ lenZ out = size.
Proof.
  destruct (packing_ok s rest Hs Hrest dest Hdest) as (o & E & Hl & Hb).
  pose proof (with_cr_septets s Hs) as Hcr. pose proof (lenZ_nonneg s) as Hn.
  set (enc := enc_len (lenZ s)) in *. assert (0 <= enc <= lenZ o) as He by (unfold enc, enc_len; lia).
  assert (lenZ (with_cr s) = enc + enc / 7) as Hcl.
  { unfold with_cr, enc, enc_len. cmp_cases. rewrite lenZ_app. change (lenZ [13]) with 1. lia. }
  set (p := take (Z.to_nat enc) o).
  assert (∀ j, 0 <= j < enc → nthZ p j = packed_byte (with_cr s) j) as Hp.
  { intros j Hj. unfold p, nthZ. rewrite lookup_take_lt by lia. by apply Hb. }
  assert (bytes_ok p) as Hpb.
  { apply Forall_lookup_2. intros k x Hk. rewrite <- (nthZ_lookup p (Z.of_nat k) x) by (by rewrite Nat2Z.id).
    apply lookup_lt_Some in Hk as Hlt. unfold p in Hlt. rewrite length_take in Hlt.
    rewrite Hp by lia. apply packed_is_byte; [done|lia]. }
  assert (lenZ p = enc) as Hpl by (by apply take_lenZ).
  destruct (unpacking_ok p (fill size 0) enc) as (q & Eq & Hql & Hq & _); [lia|by apply Forall_replicate|..].
  { intros. rewrite lenZ_fill by lia. unfold enc, enc_len in *. lia. }
  exists o, q. split; [done|]. rewrite Hcl. split; [done|].
  rewrite lenZ_fill in Hql by lia.
  assert (Z.to_nat (lenZ (with_cr s)) = length (with_cr s)) as Hcn by (unfold lenZ; lia).
  split_and!; [|done..]. apply list_eq_same_length with (length (with_cr s)); [done|..].
  { rewrite length_take. unfold lenZ in *. unfold enc, enc_len in *. lia. }
  intros k x y Hk Hx Hy. rewrite lookup_take_lt in Hx by done.
  rewrite <- (nthZ_lookup q (Z.of_nat k) x), <- (nthZ_lookup (with_cr s) (Z.of_nat k) y) by (by rewrite Nat2Z.id).
  assert (0 <= Z.of_nat k < enc + enc / 7) as Hkr by (rewrite <- Hcl; unfold lenZ; lia).
  rewrite Hq by done. apply unpacked_packed with enc; done || lia.
Qed.

(** [unpacking_gsm7bit] of [m] bytes stays inside its buffers exactly when
    the source has [m] cells and the destination one more cell than the last
    septet started, [m + (m - 1) / 7 + 1]. *)
Lemma unpacking_bounds (src dest : list Z) (m : Z) :
  0 < m →
  is_ok (unpacking_gsm7bit src m dest) = true ↔ m <= lenZ src ∧ m + (m - 1) / 7 < lenZ dest.
Proof.
  set (I := λ (i : Z) (st : list Z * Z), st.2 = i + i / 7 ∧ lenZ st.1 = lenZ dest).
  intros Hm. split.
  - intros H. unfold unpacking_gsm7bit in H. replace (Z.to_nat m) with (Z.to_nat (m - 1) + 1)%nat in H by lia.
    rewrite for_up_app in H. destruct (for_up _ _ _ (dest, 0)) as [st| |] eqn:E; try done.
    apply (for_up_ok_inv I) in E as [Ed El]; [|done|].
    + destruct st as [o d]. cbn [mbind res_bind for_up fst snd] in *. unfold unpack_step in H.
      rewrite Z.add_0_l, Z2Nat.id in * by lia.
      destruct (src.[m - 1]) eqn:E1; try done. destruct (o.[d]) eqn:E2; try done. cbn [mbind res_bind] in H.
      destruct (wr o _ _) as [o'| |] eqn:E3; try done. cbn [mbind res_bind] in H.
      destruct (wr o' _ _) eqn:E4; try done.
      apply rd_inv in E1 as [? _]. apply wr_inv in E3 as [_ ->]. apply wr_inv in E4 as [H4 _].
      rewrite lenZ_insert in H4. lia.
    + intros i [o d] [o' d'] Hi [Hd Hl] Hs. unfold unpack_step in Hs. cbn [fst snd] in *.
      apply bind_ok in Hs as (v & _ & Hs). apply bind_ok in Hs as (w & _ & Hs).
      apply bind_ok in Hs as (o1 & [_ ->]%wr_inv & Hs). apply bind_ok in Hs as (o2 & [_ ->]%wr_inv & Hs).
      injection Hs as <- <-. split; cbn [fst snd]; [cmp_cases|by rewrite !lenZ_insert].
  - intros [Hs Hd]. unfold unpacking_gsm7bit.
    destruct (for_up_inv I (Z.to_nat m) 0 (unpack_step src) (dest, 0)) as (st & -> & _); [done| |done].
    intros i [o d] Hi [Hdd Hl]. cbn [fst snd] in *. unfold unpack_step.
    rewrite nthZ_rd by lia. cbn [mbind res_bind]. rewrite nthZ_rd by lia. cbn [mbind res_bind].
    rewrite wr_ok by lia. cbn [mbind res_bind]. rewrite wr_ok by (rewrite lenZ_insert; lia).
    eexists. split; [done|]. split; cbn [fst snd]; [cmp_cases|by rewrite !lenZ_insert].
Qed.

Lemma unpacking_UB src dest m :
  0 < m → lenZ src < m ∨ lenZ dest <= m + (m - 1) / 7 → unpacking_gsm7bit src m dest = UB.
Proof.
  intros Hm H. apply not_ok_UB; [rewrite unpacking_bounds by done; lia|].
  apply for_up_fuel. intros i [o d]. unfold unpack_step. auto 20 with cmem.
Qed.

(** ** Properties *)

(** [packing_gsm7bit] stores the septets as one bit sequence, seven bits
    each, least significant first, in [ceil (7 n / 8)] bytes; seven left-over
    bits hold a CR.  It needs one cell of [dest] more than it reports and, for a
    multiple of eight septets, one cell of [src] after the last. *)
Theorem packing_layout (s rest dest : list Z)
  (Hs : Forall is_septet s) (Hrest : lenZ s mod 8 = 0 → 0 < lenZ rest)
  (Hdest : 7 * lenZ s / 8 + 1 <= lenZ dest) :
  ∃ dest', packing_gsm7bit (s ++ rest) (lenZ s) dest = Ok (dest', enc_len (lenZ s)) ∧
    lenZ dest' = lenZ dest ∧ bytes_ok (take (Z.to_nat (enc_len (lenZ s))) dest') ∧
    ∀ i, 0 <= i < 8 * enc_len (lenZ s) → lsb 8 dest' i = lsb 7 (with_cr s) i.
Proof.
  destruct (packing_ok s rest Hs Hrest dest Hdest) as (o & E & Hl & Hb).
  pose proof (with_cr_septets s Hs) as Hcr. exists o. split_and!; [done..| |].
  - apply Forall_lookup_2. intros k x (Hk & Hlt)%lookup_take_Some.
    rewrite <- (nthZ_lookup o (Z.of_nat k) x) by (by rewrite Nat2Z.id).
    rewrite Hb by lia. apply packed_is_byte; [done|lia].
  - intros i Hi. unfold lsb at 1. rewrite Hb by lia. rewrite packed_bit by (done || lia).
    f_equal. lia.
Qed.

Lemma packing_layout_witness :
  ∃ dest', packing_gsm7bit (str "Hello12" ++ []) 7 (fill 9 0) = Ok (dest', enc_len 7) ∧
    lenZ dest' = lenZ (fill 9 0) ∧ bytes_ok (take (Z.to_nat (enc_len 7)) dest') ∧
    ∀ i, 0 <= i < 8 * enc_len 7 → lsb 8 dest' i = lsb 7 (with_cr (str "Hello12")) i.
Proof.
  refine (packing_layout (str "Hello12") [] (fill 9 0) _ _ _); [by_eval| |by_eval].
  intros H. discriminate H.
Defined.

(** Unpacking what [packing_gsm7bit] produced gives the septets back,
    followed by a CR when their number is 7 modulo 8. *)
Theorem gsm7_roundtrip (s rest dest : list Z) (size : Z)
  (Hs : Forall is_septet s) (Hrest : lenZ s mod 8 = 0 → 0 < lenZ rest)
  (Hdest : 7 * lenZ s / 8 + 1 <= lenZ dest) (Hsize : lenZ s + 1 <= size) :
  ∃ packed out, packing_gsm7bit (s ++ rest) (lenZ s) dest = Ok (packed, enc_len (lenZ s)) ∧
    unpacking_gsm7bit (take (Z.to_nat (enc_len (lenZ s))) packed) (enc_len (lenZ s)) (fill size 0) =
      Ok (out, lenZ (with_cr s)) ∧
    take (length (with_cr s)) out = with_cr s.
Proof.
  destruct (pack_unpack s rest dest size) as (p & o & E1 & E2 & E3 & _); [done..|]. eauto.
Qed.

Lemma gsm7_roundtrip_witness :
  ∃ packed out, packing_gsm7bit (str "Hello123" ++ [0]) 8 (fill 8 0) = Ok (packed, enc_len 8) ∧
    unpacking_gsm7bit (take (Z.to_nat (enc_len 8)) packed) (enc_len 8) (fill 9 0) =
      Ok (out, lenZ (with_cr (str "Hello123"))) ∧
    take (length (with_cr (str "Hello123"))) out = with_cr (str "Hello123").
Proof. refine (gsm7_roundtrip (str "Hello123") [0] (fill 8 0) 9 _ _ _ _); by_eval. Defined.

(** packing exactly eight septets from an array of eight reads past it *)
Lemma packing_reads_past_end : packing_gsm7bit (str "Hello123") 8 (fill 9 0) = UB.
Proof. reflexivity. Qed.

(** ** Characters *)

(** the default-table character of a septet *)
Definition gsm7_default (v : Z) : Z := default ReplacmenteOfInvalidCode (Gsm0338DefMap !! v).

(** the text a sequence of septets stands for *)
Fixpoint gsm7_text (s : list Z) : list Z :=
  match s with
  | [] => []
  | v :: s' =>
    if v =? 27 then
      match s' with
      | [] => [gsm7_default v]
      | w :: s'' =>
        match Gsm0338ExtMap !! w with
        | Some u => u :: gsm7_text s''
        | None => 32 :: gsm7_text s'
        end
      end
    else gsm7_default v :: gsm7_text s'
  end.

Section text.
Context (src : list Z) (len : Z) (dst0 : list Z).
Context (Hlen : 0 <= len <= lenZ src) (Hdst : len <= lenZ dst0).

Local Abbreviation s := (take (Z.to_nat len) src).

Definition text_inv (st : Z * list Z * Z) : Prop :=
  let '(i, dst, k) := st in
  0 <= i <= len ∧ ∃ pre, dst = pre ++ drop (length pre) dst0 ∧ k = lenZ pre ∧ lenZ pre <= i ∧
    gsm7_text s = pre ++ gsm7_text (drop (Z.to_nat i) s).

Lemma src_at i : 0 <= i < len →
  ∃ v, src.[i] = Ok v ∧ drop (Z.to_nat i) s = v :: drop (Z.to_nat (i + 1)) s.
Proof.
  intros Hi. destruct (rd_ok src i) as (v & E & Hv); [lia|]. exists v. split; [done|].
  replace (Z.to_nat (i + 1)) with (S (Z.to_nat i)) by lia. apply drop_S.
  rewrite lookup_take_lt by lia. done.
Qed.

(** one stored character *)
Lemma text_store i k pre j u :
  0 <= i < len → i < j <= len → lenZ pre <= i → k = lenZ pre →
  gsm7_text s = pre ++ u :: gsm7_text (drop (Z.to_nat j) s) →
  ∃ dst, (pre ++ drop (length pre) dst0).[k <- u] = Ok dst ∧ text_inv (j, dst, k + 1).
Proof.
  intros Hi Hj Hp -> Ht. unfold lenZ in *. eexists. split.
  - apply wr_app. unfold lenZ. rewrite length_drop. lia.
  - split; [lia|]. exists (pre ++ [u]). rewrite <- !app_assoc, length_app, drop_drop. cbn.
    split_and!; [done| |unfold lenZ; rewrite length_app; cbn; lia|done].
    unfold lenZ. rewrite length_app. cbn. lia.
Qed.

Lemma gsm7_step_inv st : text_inv st → ∃ c, gsm7_step src len st = Ok c ∧
  match c with
  | Next st' => text_inv st' ∧ (Z.to_nat (len - st'.1.1) < Z.to_nat (len - st.1.1))%nat
  | Stop (dst, k) => dst = gsm7_text s ++ drop (length (gsm7_text s)) dst0 ∧
      k = lenZ (gsm7_text s) ∧ lenZ (gsm7_text s) <= len
  end.
Proof.
  destruct st as [[i dst] k]. intros (Hi & pre & -> & Hk & Hp & Ht). unfold gsm7_step.
  destruct (Z.ltb_spec i len) as [Hlt|].
  - destruct (src_at i) as (v & -> & Ev); [lia|]. cbn [mbind res_bind]. rewrite Ev in Ht. cbn [gsm7_text] in Ht.
    destruct (v =? 27) eqn:Hv; cbn [andb].
    + destruct (Z.ltb_spec (i + 1) len) as [Hlt1|].
      * destruct (src_at (i + 1)) as (w & -> & Ew); [lia|]. cbn [mbind res_bind]. rewrite Ew in Ht.
        destruct (Gsm0338ExtMap !! w) as [u|].
        -- destruct (text_store i k pre (i + 2) u) as (d & -> & HI); try done; try lia.
           { rewrite Ht. replace (i + 1 + 1) with (i + 2) by lia. done. }
           eexists. split; [done|]. split; [done|cbn; lia].
        -- rewrite <- Ew in Ht. destruct (text_store i k pre (i + 1) 32) as (d & -> & HI); try done; try lia.
           eexists. split; [done|]. split; [done|cbn; lia].
      * assert (drop (Z.to_nat (i + 1)) s = []) as En by (apply drop_ge; rewrite length_take; lia).
        rewrite En in Ht. destruct (text_store i k pre (i + 1) 160) as (d & E & HI); try done; try lia.
        { rewrite En. apply Z.eqb_eq in Hv as ->. done. }
        apply Z.eqb_eq in Hv as ->. change (Gsm0338DefMap !! 27) with (Some 160). cbn iota. rewrite E.
        eexists. split; [done|]. split; [done|cbn; lia].
    + destruct (text_store i k pre (i + 1) (gsm7_default v)) as (d & E & HI); try done; try lia.
      unfold gsm7_default in E. destruct (Gsm0338DefMap !! v); cbn [default from_option id] in E; rewrite E;
        (eexists; split; [done|]; split; [done|cbn; lia]).
  - eexists. split; [done|]. cbn beta iota. rewrite drop_ge in Ht by (rewrite length_take; lia).
    rewrite app_nil_r in Ht. rewrite Ht. split_and!; [done..|lia].
Qed.

Lemma ConvertGsm7bitToUcs2_ok :
  ConvertGsm7bitToUcs2 src len dst0 =
    Ok (gsm7_text s ++ drop (length (gsm7_text s)) dst0, lenZ (gsm7_text s)) ∧
  lenZ (gsm7_text s) <= len.
Proof.
  unfold ConvertGsm7bitToUcs2.
  destruct (loop_total (λ st, Z.to_nat (len - st.1.1)) text_inv (λ r,
      (r.1 = gsm7_text s ++ drop (length (gsm7_text s)) dst0 ∧ r.2 = lenZ (gsm7_text s)) ∧
      lenZ (gsm7_text s) <= len) (gsm7_step src len) (Z.to_nat len + 1) (0, dst0, 0))
    as ([d k] & -> & [E1 E2] & Hl).
  - intros st Hst. destruct (gsm7_step_inv st Hst) as (c & E & Hc). exists c. split; [done|].
    destruct c as [|[d' k']]; [done|]. cbn [fst snd]. destruct Hc as (?&?&?). done.
  - split; [lia|]. exists []. done.
  - cbn. lia.
  - cbn in *. by subst.
Qed.
End text.

(** the ASCII characters the conversion carries over *)
Definition gsm7_ascii (c : Z) : bool :=
  (c =? 10) || (c =? 13) || ((32 <=? c) && (c <=? 126) && negb (c =? 95) && negb (c =? 96)).

Lemma gsm7_ascii_small c : gsm7_ascii c = true → 0 <= c < 128.
Proof. unfold gsm7_ascii. intros. lia. Qed.

Lemma gsm7_text_ascii c r : gsm7_ascii c = true → gsm7_text (ascii_to_gsm7 c ++ r) = c :: gsm7_text r.
Proof.
  intros Hc. pose proof (small_forall 128 (λ c, implb (gsm7_ascii c)
    match ascii_to_gsm7 c with
    | [g] => negb (g =? 27) && (gsm7_default g =? c)
    | [e; g] => (e =? 27) && bool_decide (Gsm0338ExtMap !! g = Some c)
    | _ => false
    end) eq_refl c (gsm7_ascii_small c Hc)) as H. cbv beta in H. rewrite Hc in H. cbn [implb] in H.
  destruct (ascii_to_gsm7 c) as [|e [|g [|? ?]]]; try done; cbn [app gsm7_text].
  - apply andb_prop in H as [H1 H2]. apply negb_true_iff in H1. rewrite H1. f_equal. lia.
  - apply andb_prop in H as [H1 H2]. rewrite H1. by rewrite (bool_decide_eq_true_1 _ H2).
Qed.

Lemma ascii_to_gsm7_septets c : gsm7_ascii c = true → Forall is_septet (ascii_to_gsm7 c) ∧ 0 < lenZ (ascii_to_gsm7 c).
Proof.
  intros Hc. pose proof (small_forall 128 (λ c, implb (gsm7_ascii c)
    (bool_decide (Forall is_septet (ascii_to_gsm7 c)) && (0 <? lenZ (ascii_to_gsm7 c)))) eq_refl c
    (gsm7_ascii_small c Hc)) as H. cbv beta in H. rewrite Hc in H. cbn [implb] in H.
  apply andb_prop in H as [H1 H2]. apply bool_decide_eq_true_1 in H1. split; [done|lia].
Qed.

(** the septets of an ASCII text *)
Definition ascii_septets (t : list Z) : list Z := t ≫= ascii_to_gsm7.

Lemma gsm7_text_ascii_septets t :
  Forall (λ c, gsm7_ascii c = true) t → gsm7_text (ascii_septets t) = t.
Proof. induction 1; [done|]. unfold ascii_septets. cbn [mbind list_bind]. rewrite gsm7_text_ascii by done. by f_equal. Qed.

Lemma ascii_septets_ok t :
  Forall (λ c, gsm7_ascii c = true) t → Forall is_septet (ascii_septets t) ∧ lenZ t <= lenZ (ascii_septets t).
Proof.
  induction 1 as [|c t Hc Ht [IH1 IH2]]; [done|]. unfold ascii_septets in *. cbn [mbind list_bind].
  destruct (ascii_to_gsm7_septets c Hc). rewrite lenZ_cons, lenZ_app. split; [by apply Forall_app|lia].
Qed.

Lemma convertAscii_ok t rest gsm7 :
  lenZ (ascii_septets t) <= lenZ gsm7 →
  convertAsciiToGsm7bitBasicCharSet (t ++ rest) (lenZ t) gsm7 =
    Ok (ascii_septets t ++ drop (length (ascii_septets t)) gsm7, lenZ (ascii_septets t)).
Proof.
  intros Hl. unfold convertAsciiToGsm7bitBasicCharSet.
  destruct (for_up_inv (λ i st, st.1 = ascii_septets (take (Z.to_nat i) t) ++
      drop (length (ascii_septets (take (Z.to_nat i) t))) gsm7 ∧
      st.2 = lenZ (ascii_septets (take (Z.to_nat i) t)))
    (Z.to_nat (lenZ t)) 0 (λ i '(gsm7, id), c ← (t ++ rest).[i]; gsm7 ← wrn gsm7 id (ascii_to_gsm7 c);
                      Ok (gsm7, id + lenZ (ascii_to_gsm7 c))) (gsm7, 0)) as ([o k] & -> & E1 & E2).
  - done.
  - intros i [o k] Hi [E1 E2]. cbn [fst snd] in *. subst o k.
    rewrite rd_app_l by lia. destruct (rd_ok t i) as (c & -> & Ec); [lia|]. cbn [mbind res_bind].
    pose proof (take_Z_snoc t i c ltac:(lia) Ec) as Ht.
    assert (ascii_septets (take (Z.to_nat (i + 1)) t) = ascii_septets (take (Z.to_nat i) t) ++ ascii_to_gsm7 c) as Es.
    { unfold ascii_septets. rewrite Ht, bind_app. f_equal. cbn. by rewrite app_nil_r. }
    assert (lenZ (ascii_septets (take (Z.to_nat (i + 1)) t)) <= lenZ gsm7) as Hg.
    { etrans; [|exact Hl]. unfold ascii_septets. rewrite <- (take_drop (Z.to_nat (i + 1)) t) at 2.
      rewrite bind_app, lenZ_app. pose proof (lenZ_nonneg (drop (Z.to_nat (i + 1)) t ≫= ascii_to_gsm7)). lia. }
    rewrite Es in *. unfold lenZ in Hg. rewrite length_app in Hg.
    rewrite wrn_app by (unfold lenZ; rewrite length_drop; lia). cbn [mbind res_bind].
    eexists. split; [done|]. cbn [fst snd]. by rewrite <- app_assoc, drop_drop, length_app, lenZ_app.
  - cbn [fst snd] in *. rewrite Z.add_0_l, take_full in * by lia. by subst.
Qed.

(** [ConvertGsm7bitToUcs2] of the [len] septets of a buffer stores the text
    they stand for, with the escape sequences of the extension table, and
    never more characters than septets. *)
Theorem ConvertGsm7bitToUcs2_spec (src dst : list Z) (len : Z)
  (Hlen : 0 <= len <= lenZ src) (Hdst : len <= lenZ dst) :
  let text := gsm7_text (take (Z.to_nat len) src) in
  ConvertGsm7bitToUcs2 src len dst = Ok (text ++ drop (length text) dst, lenZ text) ∧ lenZ text <= len.
Proof. by apply ConvertGsm7bitToUcs2_ok. Qed.

Lemma ConvertGsm7bitToUcs2_spec_witness :
  let text := gsm7_text (take (Z.to_nat 4) [27; 101; 27; 7; 9]) in
  ConvertGsm7bitToUcs2 [27; 101; 27; 7; 9] 4 (fill 5 0) = Ok (text ++ drop (length text) (fill 5 0), lenZ text) ∧
  lenZ text <= 4.
Proof. refine (ConvertGsm7bitToUcs2_spec [27; 101; 27; 7; 9] (fill 5 0) 4 _ _); by_eval. Defined.

(** an underscore becomes the section sign *)
Lemma underscore_lost : gsm7_text (ascii_to_gsm7 95) = [167].
Proof. reflexivity. Qed.
