(* ===== verification/Ussd.v ===== *)
(** USSD text of [util/util.cpp] ([GetUssdDcs], the UTF-8 and hexadecimal
    conversions, [DecodingUssd]) and the USSD messages built from it:
    [ProtocolCallBuilder::BuildSendUssd] ([protocol/sit/protocolcallbuilder.cpp])
    and [ProtocolUssdIndAdapter::GetDecodedUssd]
    ([protocol/sit/protocolcalladapter.cpp]).

    A possibly null pointer is an [option]; [block] gives the cells it points
    to, none for a null pointer, so that any access through it is [UB].  A [UCS2] array is a list of
    16-bit units; [BeByteStream2LeUcs2], which stores each unit as two bytes of
    a little-endian host, stores the unit. *)
From stdpp Require Import gmap.
From S2P Require Import Prelude Text Gsm7.

Inductive DcsType :=
| RIL_DCS_GSM7BIT_DA | RIL_DCS_8BIT_DATA | RIL_DCS_UCS2 | RIL_DCS_RESERVED | RIL_DCS_EUC_KR
| RIL_DCS_GSM7BIT_DATA | RIL_DCS_UNSPECIFIED.
#[export] Instance DcsType_eq_dec : EqDecision DcsType.
Proof. solve_decision. Defined.

(** the character set of bits 3 and 2 *)
Definition dcs_charset (Octet : Z) (data8 : DcsType) : DcsType :=
  if Z.land Octet 12 =? 0 then RIL_DCS_GSM7BIT_DA
  else if Z.land Octet 12 =? 4 then data8
  else if Z.land Octet 12 =? 8 then RIL_DCS_UCS2
  else RIL_DCS_RESERVED.

Definition GetUssdDcs (Octet : Z) : DcsType :=
  match Z.land Octet 240 with
  | 0 => RIL_DCS_GSM7BIT_DA
  | 16 =>
    if Z.land Octet 15 =? 0 then RIL_DCS_GSM7BIT_DA
    else if Z.land Octet 15 =? 1 then RIL_DCS_UCS2
    else RIL_DCS_RESERVED
  | 32 => RIL_DCS_GSM7BIT_DA
  | 48 => RIL_DCS_GSM7BIT_DA
  | 64 | 80 | 96 | 112 => dcs_charset Octet RIL_DCS_8BIT_DATA
  | 128 => RIL_DCS_RESERVED
  | 144 => dcs_charset Octet RIL_DCS_EUC_KR
  | 160 | 176 | 192 => RIL_DCS_RESERVED
  | 208 => RIL_DCS_UNSPECIFIED
  | 224 => RIL_DCS_UNSPECIFIED
  | 240 => if Z.land Octet 4 =? 0 then RIL_DCS_GSM7BIT_DATA else RIL_DCS_8BIT_DATA
  | _ => RIL_DCS_UNSPECIFIED
  end.

(** the cells behind a pointer *)
Definition block {A} (p : option (list A)) : list A := default [] p.
Definition is_null {A} (p : option (list A)) : bool := match p with None => true | _ => false end.

(** subtraction in [size_t] *)
Definition size_sub (a b : Z) : Z := (a - b) mod 2 ^ 64.

(** The conversions return the cells of [dst] afterwards and the result. *)
Definition Convert8bitdataToUTF8 (src : option (list Z)) (len : Z) (dst : option (list Z)) (dst_size : Z)
  : res (list Z * Z) :=
  if is_null src || is_null dst || (len =? 0) || (dst_size =? 0) then Ok (block dst, 0)
  else if len <? dst_size then
    b ← rdn (block src) 0 len; d ← wrn (block dst) 0 b; Ok (d, len)
  else Ok (block dst, 0).

(** [snprintf("%02x")] *)
Definition hex2_lower (b : Z) : list Z :=
  (λ v, if v <? 10 then 48 + v else 87 + v) <$> [Z.land (Z.shiftr b 4) 15; Z.land b 15].

Definition ConvertToHexString (src : option (list Z)) (len : Z) (dst : option (list Z)) (dst_size : Z)
  : res (list Z * Z) :=
  let dec_len := u32 (len * 2) in
  if is_null src || is_null dst || (len =? 0) || (dst_size =? 0) then Ok (block dst, 0)
  else if size_sub dst_size 1 <=? dec_len then Ok (block dst, 0)
  else
    r ← for_up (Z.to_nat len) 0
          (λ i '(dst, dst_idx), c ← (block src).[i]; dst ← wrn dst dst_idx (hex2_lower c);
                                Ok (dst, dst_idx + 2))
          (block dst, 0);
    Ok (r.1, dec_len).

Definition BeByteStream2LeUcs2 (src : option (list Z)) (len : Z) (dst : option (list Z)) (dst_size : Z)
  : res (list Z * Z) :=
  if is_null src || is_null dst || (len =? 0) || (dst_size =? 0) then Ok (block dst, 0)
  else if negb (len mod 2 =? 0) then Ok (block dst, 0)
  else
    d ← for_up (Z.to_nat (len / 2)) 0
          (λ k d, hi ← (block src).[2 * k]; lo ← (block src).[2 * k + 1];
                  d.[k <- Z.lor (Z.shiftl hi 8) lo])
          (block dst);
    Ok (d, len / 2).

(** the bytes stored for one unit *)
Definition utf8_cells (u : Z) : list Z :=
  if u <=? 127 then [u]
  else if u <=? 2047 then
    [Z.lor 192 (Z.shiftr u 6); Z.lor 128 (Z.land u 63)]
  else
    [Z.lor 224 (Z.shiftr u 12); Z.lor 128 (Z.land (Z.shiftr u 6) 63); Z.lor 128 (Z.land u 63)].

(** one round; the state is [i], [dst] and [utf_idx] *)
Definition utf8_step (src : list Z) (len dst_size : Z) (st : Z * list Z * Z)
  : res (ctl (Z * list Z * Z) (list Z * Z)) :=
  let '(i, dst, utf_idx) := st in
  if i <? len then
    if size_sub dst_size 3 <=? utf_idx then Ok (Stop (dst, utf_idx))
    else
      u ← src.[i];
      dst ← wrn dst utf_idx (utf8_cells u);
      Ok (Next (i + 1, dst, utf_idx + lenZ (utf8_cells u)))
  else Ok (Stop (dst, utf_idx)).

Definition ConvertUcs2ToUtf8 (src : list Z) (len : Z) (dst : list Z) (dst_size : Z) : res (list Z * Z) :=
  loop (Z.to_nat len + 1) (utf8_step src len dst_size) (0, dst, 0).

Definition MAX_USSD_DATA_LEN : Z := 182.

Definition DecodingUssd (dcs : Z) (src : option (list Z)) (len : Z) (dst : option (list Z)) (dst_size : Z)
  : res (list Z * Z) :=
  match GetUssdDcs dcs with
  | RIL_DCS_EUC_KR => ConvertToHexString src len dst dst_size
  | RIL_DCS_8BIT_DATA => Convert8bitdataToUTF8 src len dst dst_size
  | RIL_DCS_UCS2 =>
    r ← BeByteStream2LeUcs2 src len (Some (fill MAX_USSD_DATA_LEN 0)) (2 * MAX_USSD_DATA_LEN);
    ConvertUcs2ToUtf8 r.1 r.2 (block dst) dst_size
  | RIL_DCS_GSM7BIT_DA | RIL_DCS_RESERVED =>
    g ← unpacking_gsm7bit (block src) len (fill MAX_USSD_DATA_LEN 0);
    r ← ConvertGsm7bitToUcs2 g.1 g.2 (fill MAX_USSD_DATA_LEN 0);
    ConvertUcs2ToUtf8 r.1 r.2 (block dst) dst_size
  | RIL_DCS_GSM7BIT_DATA => ConvertToHexString src len dst dst_size
  | RIL_DCS_UNSPECIFIED => Ok (block dst, 0)
  end.

(** ** Messages *)

(** the USSD part of [sit_ss_send_ussd_req] *)
Record sit_ss_send_ussd_req := {
  ussd_type : Z;
  dcs : Z;
  ussd_len : Z;
  ussd : list Z
}.

(** the USSD part of [sit_ss_ussd_ind] *)
Record sit_ss_ussd_ind := {
  ind_status : Z;
  ind_dcs : Z;
  ind_ussd_len : Z;
  ind_ussd : list Z
}.

Definition SIT_SS_USSD_USER_INITIATED : Z := 0.
Definition SIT_SS_USSD_USER_RESPONSE : Z := 1.

(** [text] is the C string [ussd]; the message without its header *)
Definition BuildSendUssd (text : list Z) (user_initiated : bool) : res sit_ss_send_ussd_req :=
  g ← convertAsciiToGsm7bitBasicCharSet (text ++ [0]) (lenZ text) (fill MAX_USSD_DATA_LEN 0);
  e ← packing_gsm7bit g.1 g.2 (fill MAX_USSD_DATA_LEN 0);
  let encodedLen := Z.min e.2 MAX_USSD_DATA_LEN in
  b ← rdn e.1 0 encodedLen;
  u ← wrn (fill MAX_USSD_DATA_LEN 0) 0 b;
  Ok {| ussd_type := if user_initiated then SIT_SS_USSD_USER_INITIATED else SIT_SS_USSD_USER_RESPONSE;
        dcs := 15; ussd_len := u8 encodedLen; ussd := u |}.

(** the hexadecimal form of an already encoded text; [ussdData] is not initialised *)
Definition BuildSendEncodedUssd (d : Z) (encodedUssd uninit : list Z) (user_initiated : bool)
  : res sit_ss_send_ussd_req :=
  h ← HexString2Value (Some uninit) (Some encodedUssd);
  let ussdLen := h.2 in
  b ← rdn (block h.1) 0 ussdLen;
  u ← wrn (fill MAX_USSD_DATA_LEN 0) 0 b;
  Ok {| ussd_type := if user_initiated then SIT_SS_USSD_USER_INITIATED else SIT_SS_USSD_USER_RESPONSE;
        dcs := d; ussd_len := u8 ussdLen; ussd := u |}.

(** the cells of [decodedUssd], the output [dcs] and the result *)
Definition GetDecodedUssd (rsp : sit_ss_ussd_ind) (decodedUssd : option (list Z)) (buf_size dcs0 : Z)
  : res (list Z * Z * Z) :=
  match decodedUssd with
  | Some _ =>
    r ← DecodingUssd (ind_dcs rsp) (Some (ind_ussd rsp)) (ind_ussd_len rsp) decodedUssd buf_size;
    Ok (r.1, ind_dcs rsp, r.2)
  | None => Ok ([], dcs0, 0)
  end.

(** ** UTF-8

    A reference encoder, and a strict decoder of the one-, two- and three-byte
    forms. *)
Definition utf8 (u : Z) : list Z :=
  if u <? 128 then [u]
  else if u <? 2048 then [192 + u / 64; 128 + u mod 64]
  else [224 + u / 4096; 128 + (u / 64) mod 64; 128 + u mod 64].

Definition utf8_string (us : list Z) : list Z := us ≫= utf8.

Definition is_cont (c : Z) : bool := (128 <=? c) && (c <? 192).

Fixpoint utf8_decode (b : list Z) : option (list Z) :=
  match b with
  | [] => Some []
  | c :: b1 =>
    if c <? 128 then ((cons c) <$> utf8_decode b1)
    else match b1 with
    | [] => None
    | c1 :: b2 =>
      if negb (is_cont c1) then None
      else if (194 <=? c) && (c <? 224) then ((cons ((c - 192) * 64 + (c1 - 128))) <$> utf8_decode b2)
      else match b2 with
      | [] => None
      | c2 :: b3 =>
        let u := (c - 224) * 4096 + (c1 - 128) * 64 + (c2 - 128) in
        if is_cont c2 && (224 <=? c) && (c <? 240) && (2048 <=? u) then ((cons u) <$> utf8_decode b3)
        else None
      end
    end
  end.

Definition is_u16 (u : Z) : Prop := 0 <= u < 65536.
#[export] Instance is_u16_dec u : Decision (is_u16 u).
Proof. unfold is_u16. apply _. Defined.

Lemma utf8_decode_cons u r : is_u16 u → utf8_decode (utf8 u ++ r) = cons u <$> utf8_decode r.
Proof.
  unfold is_u16, utf8. intros Hu. destruct (Z.ltb_spec u 128) as [H1|H1]; [|destruct (Z.ltb_spec u 2048) as [H2|H2]];
    cbn [app utf8_decode].
  - by destruct (Z.ltb_spec u 128); [|lia].
  - assert ((192 + u / 64 <? 128) = false) as -> by lia.
    assert (is_cont (128 + u mod 64) = true) as -> by (unfold is_cont; lia). cbn [negb].
    assert ((194 <=? 192 + u / 64) && (192 + u / 64 <? 224) = true) as -> by lia.
    do 2 f_equal. lia.
  - assert ((224 + u / 4096 <? 128) = false) as -> by lia.
    assert (is_cont (128 + (u / 64) mod 64) = true) as -> by (unfold is_cont; lia). cbn [negb].
    assert ((194 <=? 224 + u / 4096) && (224 + u / 4096 <? 224) = false) as -> by lia.
    assert (is_cont (128 + u mod 64) = true) as -> by (unfold is_cont; lia).
    set (v := (224 + u / 4096 - 224) * 4096 + (128 + (u / 64) mod 64 - 128) * 64 + (128 + u mod 64 - 128)).
    assert (v = u) as -> by (unfold v; lia).
    by assert (true && (224 <=? 224 + u / 4096) && (224 + u / 4096 <? 240) && (2048 <=? u) = true) as -> by lia.
Qed.

Lemma utf8_decode_string us : Forall is_u16 us → utf8_decode (utf8_string us) = Some us.
Proof.
  induction 1 as [|u us Hu Hus IH]; [done|]. unfold utf8_string in *. cbn [mbind list_bind].
  rewrite utf8_decode_cons by done. by rewrite IH.
Qed.

Lemma utf8_cells_utf8 u : is_u16 u → utf8_cells u = utf8 u.
Proof.
  unfold is_u16, utf8_cells, utf8. intros Hu.
  assert (∀ x, 0 <= x < 64 → Z.lor 128 x = 128 + x) as H128 by (intros; by apply (lor_add 2 x 6)).
  assert (∀ x, Z.land x 63 = x mod 64) as H63 by (intros; apply (Z.land_ones x 6); lia).
  rewrite !Z.shiftr_div_pow2 by lia. change (2 ^ 6) with 64. change (2 ^ 12) with 4096. rewrite !H63.
  replace (u <=? 127) with (u <? 128) by lia. replace (u <=? 2047) with (u <? 2048) by lia.
  destruct (Z.ltb_spec u 128); [done|]. rewrite !H128 by lia.
  destruct (Z.ltb_spec u 2048).
  - f_equal. apply (lor_add 6 (u / 64) 5); lia.
  - f_equal. apply (lor_add 14 (u / 4096) 4); lia.
Qed.

Lemma lenZ_utf8 u : 1 <= lenZ (utf8 u) <= 3.
Proof. unfold utf8. by destruct (u <? 128); [|destruct (u <? 2048)]. Qed.

Lemma utf8_string_app us vs : utf8_string (us ++ vs) = utf8_string us ++ utf8_string vs.
Proof. apply bind_app. Qed.

Section utf8_loop.
Context (src dst0 : list Z) (len dst_size : Z).
Context (Hsrc : Forall is_u16 src) (Hlen : 0 <= len <= lenZ src).
Context (Hsize : 3 <= dst_size < 2 ^ 64) (Hdst : dst_size <= lenZ dst0).

Definition utf8_inv (st : Z * list Z * Z) : Prop :=
  let '(i, dst, k) := st in let out := utf8_string (take (Z.to_nat i) src) in
  0 <= i <= len ∧ dst = out ++ drop (length out) dst0 ∧ k = lenZ out ∧ k < dst_size.

Definition utf8_result (r : list Z * Z) : Prop :=
  ∃ i, utf8_inv (i, r.1, r.2) ∧ (i = len ∨ dst_size - 3 <= r.2).

Lemma utf8_step_inv st : utf8_inv st → ∃ c, utf8_step src len dst_size st = Ok c ∧
  match c with
  | Next st' => utf8_inv st' ∧ (Z.to_nat (len - st'.1.1) < Z.to_nat (len - st.1.1))%nat
  | Stop r => utf8_result r
  end.
Proof.
  destruct st as [[i dst] k]. intros (Hi & -> & -> & Hk). unfold utf8_step.
  assert (size_sub dst_size 3 = dst_size - 3) as -> by (unfold size_sub; apply Z.mod_small; lia).
  set (out := utf8_string (take (Z.to_nat i) src)) in *.
  destruct (Z.ltb_spec i len); [destruct (Z.leb_spec (dst_size - 3) (lenZ out))|].
  - eexists. split; [done|]. exists i. cbn [fst snd]. split; [done|by right].
  - destruct (rd_ok src i) as (u & -> & Hu); [lia|]. cbn [mbind res_bind].
    assert (is_u16 u) as Hu16 by (by eapply Forall_lookup_1). rewrite utf8_cells_utf8 by done.
    pose proof (lenZ_utf8 u) as Hu3. pose proof (lenZ_nonneg out).
    rewrite wrn_app by (unfold lenZ in *; rewrite length_drop; lia). cbn [mbind res_bind].
    eexists. split; [done|]. split; [|cbn; lia]. unfold utf8_inv.
    assert (utf8_string (take (Z.to_nat (i + 1)) src) = out ++ utf8 u) as ->.
    { rewrite (take_Z_snoc src i u), utf8_string_app by (done || lia). f_equal. cbn. apply app_nil_r. }
    rewrite drop_drop, <- app_assoc, length_app, lenZ_app. split_and!; done || lia.
  - eexists. split; [done|]. exists i. cbn [fst snd]. split; [done|left; lia].
Qed.

Lemma ConvertUcs2ToUtf8_ok : ∃ r, ConvertUcs2ToUtf8 src len dst0 dst_size = Ok r ∧ utf8_result r.
Proof.
  apply (loop_total (λ st, Z.to_nat (len - st.1.1)) utf8_inv); [apply utf8_step_inv| |cbn; lia].
  cbn. split_and!; done || lia.
Qed.
End utf8_loop.

(** [ConvertUcs2ToUtf8] stores the UTF-8 form of a prefix of its input,
    the whole input unless fewer than three cells plus the terminator's were
    left; the result is smaller than [dst_size], strict decoding gives the
    prefix back and the cells behind it are untouched. *)
Theorem ConvertUcs2ToUtf8_spec (src dst : list Z) (len dst_size : Z)
  (Hsrc : Forall is_u16 src) (Hlen : 0 <= len <= lenZ src)
  (Hsize : 3 <= dst_size < 2 ^ 64) (Hdst : dst_size <= lenZ dst) :
  ∃ i dst' r, ConvertUcs2ToUtf8 src len dst dst_size = Ok (dst', r) ∧
    0 <= i <= len ∧ 0 <= r < dst_size ∧ (i = len ∨ dst_size - 3 <= r) ∧
    utf8_decode (take (Z.to_nat r) dst') = Some (take (Z.to_nat i) src) ∧
    drop (Z.to_nat r) dst' = drop (Z.to_nat r) dst.
Proof.
  destruct (ConvertUcs2ToUtf8_ok src dst len dst_size) as ([d r] & E & i & (Hi & Hd & Hr & Hs) & He); [done..|].
  cbn [fst snd] in *. exists i, d, r. split; [done|]. set (out := utf8_string (take (Z.to_nat i) src)) in *.
  pose proof (lenZ_nonneg out). subst r d. unfold lenZ. rewrite Nat2Z.id, take_app_length, drop_app_length.
  split_and!; try done; try (unfold lenZ in *; lia).
  apply utf8_decode_string. by apply Forall_take.
Qed.

Lemma ConvertUcs2ToUtf8_spec_witness :
  ∃ i dst' r, ConvertUcs2ToUtf8 [72; 233; 8364; 33] 4 (fill 9 1) 9 = Ok (dst', r) ∧
    0 <= i <= 4 ∧ 0 <= r < 9 ∧ (i = 4 ∨ 9 - 3 <= r) ∧
    utf8_decode (take (Z.to_nat r) dst') = Some (take (Z.to_nat i) [72; 233; 8364; 33]) ∧
    drop (Z.to_nat r) dst' = drop (Z.to_nat r) (fill 9 1).
Proof. refine (ConvertUcs2ToUtf8_spec [72; 233; 8364; 33] (fill 9 1) 4 9 _ _ _ _); by_eval. Defined.

(** a buffer of fewer than three bytes is not protected: [dst_size - 3] wraps *)
Lemma ConvertUcs2ToUtf8_small : ConvertUcs2ToUtf8 [8364] 1 (fill 2 0) 2 = UB.
Proof. reflexivity. Qed.

(** ** [DecodingUssd] *)

Lemma gsm7_maps_u16 :
  map_Forall (λ _, is_u16) Gsm0338DefMap ∧ map_Forall (λ _, is_u16) Gsm0338ExtMap.
Proof. split; by_eval. Qed.

Lemma gsm7_default_u16 v : is_u16 (gsm7_default v).
Proof.
  unfold gsm7_default. destruct (Gsm0338DefMap !! v) eqn:E; [|done]. exact (proj1 gsm7_maps_u16 _ _ E).
Qed.

Lemma gsm7_text_u16 s : Forall is_u16 (gsm7_text s).
Proof.
  induction s as [s IH] using (induction_ltof1 _ (@length Z)). unfold ltof in IH.
  pose proof gsm7_default_u16 as Hd.
  destruct s as [|v s']; [constructor|]. cbn [gsm7_text]. destruct (v =? 27).
  - destruct s' as [|w s'']; [by constructor|].
    destruct (Gsm0338ExtMap !! w) eqn:E.
    + constructor; [exact (proj2 gsm7_maps_u16 _ _ E)|apply IH; cbn; lia].
    + constructor; [done|apply IH; cbn; lia].
  - constructor; [done|apply IH; cbn; lia].
Qed.

(** the UTF-8 conversion of characters stored in a larger array *)
Lemma utf8_of_text text rest dst dst_size :
  Forall is_u16 text → 3 <= dst_size < 2 ^ 64 → dst_size <= lenZ dst →
  ∃ r, ConvertUcs2ToUtf8 (text ++ rest) (lenZ text) dst dst_size = Ok r ∧
    utf8_result text dst (lenZ text) dst_size r.
Proof.
  intros Ht Hs Hd. destruct (ConvertUcs2ToUtf8_ok text dst (lenZ text) dst_size) as (r & E & Hr);
    [done|pose proof (lenZ_nonneg text); lia|done..|].
  exists r. split; [|done]. rewrite <- E. unfold ConvertUcs2ToUtf8. generalize (0, dst, 0).
  induction (Z.to_nat (lenZ text) + 1)%nat as [|f IH]; intros st; [done|]. cbn [loop].
  assert (utf8_step (text ++ rest) (lenZ text) dst_size st = utf8_step text (lenZ text) dst_size st) as ->.
  { destruct st as [[i d] k]. unfold utf8_step. cmp_cases. by rewrite rd_app_l. }
  destruct (utf8_step _ _ _ st) as [[s'|r']| |]; [|done..]. apply IH.
Qed.

Lemma utf8_result_bounds text dst len dst_size r :
  3 <= dst_size <= lenZ dst → utf8_result text dst len dst_size r → 0 <= r.2 < dst_size ∧ lenZ r.1 = lenZ dst.
Proof.
  intros Hs (i & (Hi & -> & -> & Hk) & _). set (out := utf8_string _) in *. pose proof (lenZ_nonneg out).
  split; [lia|]. unfold lenZ in *. rewrite length_app, length_drop. lia.
Qed.

(** the septets of a packed text, as [DecodingUssd] sees them *)
Lemma DecodingUssd_gsm7 dcs src len dst dst_size :
  GetUssdDcs dcs = RIL_DCS_GSM7BIT_DA ∨ GetUssdDcs dcs = RIL_DCS_RESERVED →
  0 <= len <= 159 → len <= lenZ src →
  3 <= dst_size < 2 ^ 64 → dst_size <= lenZ dst →
  ∃ g r, unpacking_gsm7bit src len (fill MAX_USSD_DATA_LEN 0) = Ok (g, len + len / 7) ∧
    DecodingUssd dcs (Some src) len (Some dst) dst_size = Ok r ∧
    let text := gsm7_text (take (Z.to_nat (len + len / 7)) g) in
    utf8_result text dst (lenZ text) dst_size r.
Proof.
  intros Hdcs Hlen Hsrc Hs Hd.
  assert (lenZ (fill MAX_USSD_DATA_LEN 0) = 182) as Hf by done.
  destruct (unpacking_ok src (fill MAX_USSD_DATA_LEN 0) len) as (g & E & Hg & _); [lia|by apply Forall_replicate|lia|].
  exists g. set (text := gsm7_text (take (Z.to_nat (len + len / 7)) g)).
  destruct (ConvertGsm7bitToUcs2_ok g (len + len / 7) (fill MAX_USSD_DATA_LEN 0)) as [E1 E2]; [lia..|].
  fold text in E1, E2.
  destruct (utf8_of_text text (drop (length text) (fill MAX_USSD_DATA_LEN 0)) dst dst_size) as (r & E3 & Hr);
    [apply gsm7_text_u16|done..|].
  exists r. split_and!; [done| |done]. unfold DecodingUssd, block. cbn [default from_option id].
  destruct Hdcs as [-> | ->]; rewrite E; cbn [mbind res_bind fst snd];
    rewrite E1; cbn [mbind res_bind fst snd]; done.
Qed.

(** one unit of [BeByteStream2LeUcs2] *)
Abbreviation be_step := (λ src k d, hi ← rd src (2 * k); lo ← rd src (2 * k + 1); wr d k (Z.lor (Z.shiftl hi 8) lo)).

Lemma be_loop_ok src d0 n :
  bytes_ok src → 2 * Z.of_nat n <= lenZ src → Z.of_nat n <= lenZ d0 →
  ∃ d, for_up n 0 (be_step src) d0 = Ok d ∧ lenZ d = lenZ d0 ∧ (Forall is_u16 d0 → Forall is_u16 d).
Proof.
  intros Hb Hs Hd. destruct (for_up_inv (λ k d, lenZ d = lenZ d0 ∧ (Forall is_u16 d0 → Forall is_u16 d)) n 0
    (be_step src) d0) as (d & -> & Hl & HF); [done| |eauto].
  intros k d Hk [Hl HF]. destruct (rd_ok src (2 * k)) as (hi & -> & Hhi); [lia|]. cbn [mbind res_bind].
  destruct (rd_ok src (2 * k + 1)) as (lo & -> & Hlo); [lia|]. cbn [mbind res_bind].
  rewrite wr_ok by lia. eexists. split; [done|]. rewrite lenZ_insert. split; [done|]. intros H0.
  apply Forall_insert; [by apply HF|]. unfold is_u16. change 65536 with (2 ^ 16).
  assert (is_byte hi) as ? by (by eapply Forall_lookup_1). assert (is_byte lo) as ? by (by eapply Forall_lookup_1).
  unfold is_byte in *. apply lor_range; [lia| |lia]. apply (shiftl_range hi 8 8); lia.
Qed.

Lemma BeByteStream_ok src len d0 dst_size :
  bytes_ok src → 0 <= len <= lenZ src → (len mod 2 = 0 → len / 2 <= lenZ d0) →
  ∃ d n, BeByteStream2LeUcs2 (Some src) len (Some d0) dst_size = Ok (d, n) ∧
    0 <= n <= len / 2 ∧ lenZ d = lenZ d0 ∧ (Forall is_u16 d0 → Forall is_u16 d) ∧ n <= lenZ d.
Proof.
  intros Hb Hlen Hd. unfold BeByteStream2LeUcs2, block. cbn [is_null orb default from_option id].
  pose proof (lenZ_nonneg d0). destruct ((len =? 0) || (dst_size =? 0)); [exists d0, 0; split_and!; done || lia|].
  destruct (Z.eqb_spec (len mod 2) 0) as [E|]; cbn [negb]; [|exists d0, 0; split_and!; done || lia].
  destruct (be_loop_ok src d0 (Z.to_nat (len / 2))) as (d & -> & Hl & HF); [done|lia..|].
  cbn [mbind res_bind]. exists d, (len / 2). split_and!; done || lia.
Qed.

(** which lengths each character set can decode *)
Definition decodable (t : DcsType) (len : Z) : Prop :=
  match t with
  | RIL_DCS_GSM7BIT_DA | RIL_DCS_RESERVED => len <= 159
  | RIL_DCS_UCS2 => len <= 365 ∨ len mod 2 = 1
  | _ => True
  end.

Lemma ToHexString_ok src len dst dst_size :
  0 <= len <= lenZ src → len < 2 ^ 31 → 0 < dst_size < 2 ^ 64 → dst_size <= lenZ dst →
  ∃ out r, ConvertToHexString (Some src) len (Some dst) dst_size = Ok (out, r) ∧
    0 <= r < dst_size ∧ lenZ out = lenZ dst.
Proof.
  intros Hlen Hl31 Hs Hd. unfold ConvertToHexString, block. cbn [is_null orb default from_option id].
  destruct ((len =? 0) || (dst_size =? 0)); [exists dst, 0; split_and!; done || lia|].
  rewrite u32_id by lia. assert (size_sub dst_size 1 = dst_size - 1) as -> by (unfold size_sub; apply Z.mod_small; lia).
  destruct (Z.leb_spec (dst_size - 1) (len * 2)); [exists dst, 0; split_and!; done || lia|].
  destruct (for_up_inv (λ i st, st.2 = 2 * i ∧ lenZ st.1 = lenZ dst) (Z.to_nat len) 0
    (λ i '(dst, dst_idx), c ← src.[i]; dst ← wrn dst dst_idx (hex2_lower c); Ok (dst, dst_idx + 2)) (dst, 0))
    as ([o k] & -> & _ & Ho); [done| |].
  - intros i [o k] Hi [Hk Ho]. cbn [fst snd] in *. destruct (rd_ok src i) as (c & -> & _); [lia|]. cbn [mbind res_bind].
    assert (∃ o', wrn o k (hex2_lower c) = Ok o') as [o' E].
    { rewrite wrn_ok; [eauto|lia|]. change (lenZ (hex2_lower c)) with 2. lia. }
    rewrite E. apply lenZ_wrn in E. cbn [mbind res_bind]. eexists. split; [done|]. cbn [fst snd]. lia.
  - exists o, (len * 2). cbn [mbind res_bind fst snd] in *. split_and!; done || lia.
Qed.

(** the 183rd unit does not fit *)
Lemma be_overrun src len size :
  bytes_ok src → 365 < len <= lenZ src → len mod 2 = 0 → size ≠ 0 →
  BeByteStream2LeUcs2 (Some src) len (Some (fill MAX_USSD_DATA_LEN 0)) size = UB.
Proof.
  intros Hb Hlen Hm Hs. assert (lenZ (fill MAX_USSD_DATA_LEN 0) = 182) as Hf by done.
  unfold BeByteStream2LeUcs2, block. cbn [is_null orb default from_option id].
  destruct (Z.eqb_spec len 0); [lia|]. destruct (Z.eqb_spec size 0); [done|]. cbn [orb].
  rewrite Hm. cbn [Z.eqb negb]. replace (Z.to_nat (len / 2)) with (182 + (1 + Z.to_nat (len / 2 - 183)))%nat by lia.
  rewrite for_up_app. destruct (be_loop_ok src (fill MAX_USSD_DATA_LEN 0) 182) as (d & -> & Hd & _); [done|lia..|].
  cbn [mbind res_bind Nat.add for_up]. change (0 + Z.of_nat 182) with 182.
  destruct (rd_ok src (2 * 182)) as (hi & -> & _); [lia|]. cbn [mbind res_bind].
  destruct (rd_ok src (2 * 182 + 1)) as (lo & -> & _); [lia|]. cbn [mbind res_bind].
  by rewrite wr_oob by lia.
Qed.

(** [DecodingUssd] of a message of [len] bytes writes inside the caller's
    buffer and returns less than its size for every coding; its own 182-cell
    arrays are overrun exactly by a 7-bit message longer than 159 bytes or a
    UCS-2 message longer than 365 bytes. *)
Theorem DecodingUssd_bounds (dcs : Z) (src dst : list Z) (len dst_size : Z)
  (Hsrc : bytes_ok src) (Hlen : 0 <= len <= lenZ src) (Hl31 : len < 2 ^ 31)
  (Hsize : 3 <= dst_size < 2 ^ 64) (Hdst : dst_size <= lenZ dst) :
  (decodable (GetUssdDcs dcs) len →
     ∃ out r, DecodingUssd dcs (Some src) len (Some dst) dst_size = Ok (out, r) ∧
       0 <= r < dst_size ∧ lenZ out = lenZ dst) ∧
  (¬ decodable (GetUssdDcs dcs) len → DecodingUssd dcs (Some src) len (Some dst) dst_size = UB).
Proof.
  split; intros Hdec.
  - destruct (decide (GetUssdDcs dcs = RIL_DCS_GSM7BIT_DA ∨ GetUssdDcs dcs = RIL_DCS_RESERVED)) as [Hg|Hg].
    + assert (len <= 159) by (by destruct Hg as [E|E]; rewrite E in Hdec).
      destruct (DecodingUssd_gsm7 dcs src len dst dst_size) as (g & [o r] & _ & -> & Hr); try done; try lia.
      apply utf8_result_bounds in Hr; [|lia]. eauto.
    + unfold DecodingUssd. destruct (GetUssdDcs dcs) eqn:Ed; try (exfalso; apply Hg; by (left + right)); cbn [decodable] in Hdec.
      * unfold Convert8bitdataToUTF8, block. cbn [is_null orb default from_option id].
        destruct ((len =? 0) || (dst_size =? 0)); [exists dst, 0; split_and!; done || lia|].
        destruct (Z.ltb_spec len dst_size); [|exists dst, 0; split_and!; done || lia].
        rewrite rdn_ok by lia. cbn [mbind res_bind]. rewrite drop_0.
        rewrite wrn_ok by (rewrite ?take_lenZ; lia). cbn [mbind res_bind].
        eexists _, len. split; [done|]. split; [lia|]. unfold lenZ in *. cbn [Z.to_nat].
        rewrite take_0, !length_app, length_drop, length_take. cbn [length]. lia.
      * destruct (BeByteStream_ok src len (fill MAX_USSD_DATA_LEN 0) (2 * MAX_USSD_DATA_LEN))
          as (u & n & -> & Hn & Hu & HF & Hnu); [done|lia|change (lenZ (fill MAX_USSD_DATA_LEN 0)) with 182; lia|].
        cbn [mbind res_bind fst snd]. unfold block. cbn [default from_option id].
        destruct (ConvertUcs2ToUtf8_ok u dst n dst_size) as ([o r] & -> & Hr); [|lia|done|done|].
        { apply HF. by apply Forall_replicate. }
        apply utf8_result_bounds in Hr; [|lia]. eauto.
      * apply ToHexString_ok; lia.
      * apply ToHexString_ok; lia.
      * exists dst, 0. split_and!; done || lia.
  - unfold DecodingUssd. destruct (GetUssdDcs dcs) eqn:Ed; cbn [decodable] in Hdec; try (exfalso; by apply Hdec).
    + unfold block. cbn [default from_option id]. rewrite unpacking_UB; [done|lia|]. change (lenZ (fill MAX_USSD_DATA_LEN 0)) with 182. lia.
    + by rewrite be_overrun by (done || lia).
    + unfold block. cbn [default from_option id]. rewrite unpacking_UB; [done|lia|]. change (lenZ (fill MAX_USSD_DATA_LEN 0)) with 182. lia.
Qed.

Lemma DecodingUssd_bounds_witness :
  (decodable (GetUssdDcs 15) 160 →
     ∃ out r, DecodingUssd 15 (Some (fill 160 65)) 160 (Some (fill 200 0)) 200 = Ok (out, r) ∧
       0 <= r < 200 ∧ lenZ out = lenZ (fill 200 0)) ∧
  (¬ decodable (GetUssdDcs 15) 160 → DecodingUssd 15 (Some (fill 160 65)) 160 (Some (fill 200 0)) 200 = UB).
Proof. refine (DecodingUssd_bounds 15 (fill 160 65) (fill 200 0) 160 200 _ _ _ _ _); by_eval. Defined.

(** ** Sending and decoding *)

(** a CR is appended when seven bits of the last byte are left over *)
Definition with_cr_text (t : list Z) : list Z :=
  if lenZ (ascii_septets t) mod 8 =? 7 then t ++ [13] else t.

Lemma gsm7_text_with_cr t :
  Forall (λ c, gsm7_ascii c = true) t → gsm7_text (with_cr (ascii_septets t)) = with_cr_text t.
Proof.
  intros Ht. unfold with_cr, with_cr_text. destruct (_ =? 7); [|by apply gsm7_text_ascii_septets].
  replace (ascii_septets t ++ [13]) with (ascii_septets (t ++ [13]))
    by (unfold ascii_septets; by rewrite bind_app).
  apply gsm7_text_ascii_septets. apply Forall_app. split; [done|]. by repeat constructor.
Qed.

Lemma with_cr_text_ascii t :
  Forall (λ c, gsm7_ascii c = true) t → Forall (λ c, gsm7_ascii c = true) (with_cr_text t).
Proof.
  intros Ht. unfold with_cr_text. destruct (_ =? 7); [|done]. apply Forall_app. split; [done|]. by repeat constructor.
Qed.

Lemma utf8_string_ascii t : Forall (λ c, gsm7_ascii c = true) t → utf8_string t = t.
Proof.
  induction 1 as [|c t Hc Ht IH]; [done|]. unfold utf8_string in *. cbn [mbind list_bind].
  rewrite IH. apply gsm7_ascii_small in Hc. unfold utf8. by cmp_cases.
Qed.

Lemma BuildSendUssd_ok text b :
  Forall (λ c, gsm7_ascii c = true) text → lenZ (ascii_septets text) <= 181 →
  ∃ packed, BuildSendUssd text b = Ok
      {| ussd_type := if b then SIT_SS_USSD_USER_INITIATED else SIT_SS_USSD_USER_RESPONSE;
         dcs := 15; ussd_len := enc_len (lenZ (ascii_septets text));
         ussd := packed ++ drop (length packed) (fill MAX_USSD_DATA_LEN 0) |} ∧
    lenZ packed = enc_len (lenZ (ascii_septets text)) ∧
    ∃ out, unpacking_gsm7bit packed (lenZ packed) (fill MAX_USSD_DATA_LEN 0) = Ok (out, lenZ (with_cr (ascii_septets text))) ∧
      take (length (with_cr (ascii_septets text))) out = with_cr (ascii_septets text).
Proof.
  intros Ht Hn. destruct (ascii_septets_ok text Ht) as [Hs _]. set (s := ascii_septets text) in *.
  pose proof (lenZ_nonneg s). assert (lenZ (fill MAX_USSD_DATA_LEN 0) = 182) as Hf by done.
  unfold BuildSendUssd. rewrite convertAscii_ok by (fold s; lia). fold s. cbn [mbind res_bind fst snd].
  destruct (pack_unpack s (drop (length s) (fill MAX_USSD_DATA_LEN 0)) (fill MAX_USSD_DATA_LEN 0) 182)
    as (p & out & -> & E2 & E3 & Hp & Ho); [done| |lia..|].
  { intros _. unfold lenZ in *. rewrite length_drop. lia. }
  cbn [mbind res_bind fst snd]. set (n := enc_len (lenZ s)) in *.
  assert (0 <= n <= 159) as Hn159 by (unfold n, enc_len; lia).
  rewrite Z.min_l by (unfold MAX_USSD_DATA_LEN; lia). rewrite rdn_ok by lia. cbn [mbind res_bind]. rewrite drop_0.
  set (q := take (Z.to_nat n) p) in *. assert (lenZ q = n) as Hq by (apply take_lenZ; lia).
  rewrite (wrn_at [] (fill MAX_USSD_DATA_LEN 0)) by (done || lia). cbn [mbind res_bind app].
  exists q. rewrite (u8_id n) by (unfold is_byte; lia). split; [done|]. split; [done|]. rewrite Hq. eauto.
Qed.

(** A text of ASCII characters that GSM 03.38 has, other than the
    underscore, survives: what [BuildSendUssd] puts into its message,
    [GetDecodedUssd] decodes to the same text (followed by a CR when its
    septets number 7 modulo 8), for every text of up to 181 septets and every
    buffer with three cells to spare. *)
Theorem ussd_roundtrip (text dst : list Z) (b : bool) (status dcs0 : Z)
  (Htext : Forall (λ c, gsm7_ascii c = true) text) (Hlen : lenZ (ascii_septets text) <= 181)
  (Hdst : lenZ text + 4 <= lenZ dst) (Hdst64 : lenZ dst < 2 ^ 64) :
  ∃ m, BuildSendUssd text b = Ok m ∧
    let ind := {| ind_status := status; ind_dcs := dcs m; ind_ussd_len := ussd_len m; ind_ussd := ussd m |} in
    GetDecodedUssd ind (Some dst) (lenZ dst) dcs0 =
      Ok (with_cr_text text ++ drop (length (with_cr_text text)) dst, 15, lenZ (with_cr_text text)).
Proof.
  destruct (BuildSendUssd_ok text b Htext Hlen) as (p & E & Hp & out & Eu & Eo).
  eexists. split; [exact E|]. unfold GetDecodedUssd. cbn [ind_dcs ind_ussd ind_ussd_len dcs ussd ussd_len].
  pose proof (lenZ_nonneg (ascii_septets text)) as Hn. set (n := enc_len (lenZ (ascii_septets text))) in *.
  pose proof (lenZ_nonneg text). pose proof (lenZ_nonneg (drop (length p) (fill MAX_USSD_DATA_LEN 0))).
  destruct (DecodingUssd_gsm7 15 (p ++ drop (length p) (fill MAX_USSD_DATA_LEN 0)) n dst (lenZ dst))
    as (g & [o r] & Eg & -> & Hr); [by left|unfold n, enc_len; lia|rewrite lenZ_app; lia|lia..|].
  rewrite unpacking_app in Eg by lia. rewrite Hp in Eu. rewrite Eu in Eg. injection Eg as <- Ed.
  cbn [mbind res_bind fst snd]. rewrite <- Ed in Hr. unfold lenZ in Hr at 1 2. rewrite Nat2Z.id, Eo in Hr.
  rewrite gsm7_text_with_cr in Hr by done. set (t := with_cr_text text) in *.
  assert (lenZ t <= lenZ text + 1) as Htl.
  { unfold t, with_cr_text. destruct (_ =? 7); [rewrite lenZ_app; change (lenZ [13]) with 1|]; lia. }
  destruct Hr as (i & (Hi & Eo' & Er & _) & He). cbn [fst snd] in *. subst o r.
  assert (utf8_string (take (Z.to_nat i) t) = take (Z.to_nat i) t) as Eu8.
  { apply utf8_string_ascii, Forall_take. by apply with_cr_text_ascii. }
  rewrite Eu8 in *. fold (lenZ t) in Hi, He. rewrite take_lenZ in He by lia.
  by rewrite take_full by lia.
Qed.

Lemma ussd_roundtrip_witness :
  let text := str "*100{1}#" in
  ∃ m, BuildSendUssd text true = Ok m ∧
    let ind := {| ind_status := 0; ind_dcs := dcs m; ind_ussd_len := ussd_len m; ind_ussd := ussd m |} in
    GetDecodedUssd ind (Some (fill 20 0)) (lenZ (fill 20 0)) 0 =
      Ok (with_cr_text text ++ drop (length (with_cr_text text)) (fill 20 0), 15, lenZ (with_cr_text text)).
Proof. refine (ussd_roundtrip (str "*100{1}#") (fill 20 0) true 0 0 _ _ _ _); by_eval. Defined.
