(* ===== verification/Icc.v ===== *)
(** SIM file contents, [util/iccUtil.cpp]: BER-TLV objects ([SimTlv]), PLMN
    codes, big-endian integers and network names ([IccUtil]), with
    [DecodingNetworkNameFromSIM] of [util/util.cpp].

    A [String] built from a null [char *], which [bcdPlmnToString] returns for a
    record that is too short, is [UB]. *)
From S2P Require Import Prelude RilDef Text Gsm7 Ussd.

(** ** [SimTlv] *)

Record SimTlv := {
  mRecord : option (list Z);
  mTlvLength : Z;
  mCurOffset : Z;
  mCurDataOffset : Z;
  mCurDataLength : Z;
  mHasValidTlvObject : bool
}.

(** [SimTlv::SimTlv()] *)
Definition SimTlv_init : SimTlv :=
  {| mRecord := None; mTlvLength := 0; mCurOffset := 0; mCurDataOffset := 0; mCurDataLength := 0;
     mHasValidTlvObject := false |}.

Definition set_offset (t : SimTlv) (o : Z) : SimTlv :=
  {| mRecord := mRecord t; mTlvLength := mTlvLength t; mCurOffset := o;
     mCurDataOffset := mCurDataOffset t; mCurDataLength := mCurDataLength t;
     mHasValidTlvObject := mHasValidTlvObject t |}.
Definition set_data (t : SimTlv) (len off : Z) : SimTlv :=
  {| mRecord := mRecord t; mTlvLength := mTlvLength t; mCurOffset := mCurOffset t;
     mCurDataOffset := off; mCurDataLength := len; mHasValidTlvObject := mHasValidTlvObject t |}.
Definition set_valid (t : SimTlv) (v : bool) : SimTlv :=
  {| mRecord := mRecord t; mTlvLength := mTlvLength t; mCurOffset := mCurOffset t;
     mCurDataOffset := mCurDataOffset t; mCurDataLength := mCurDataLength t; mHasValidTlvObject := v |}.

(** the last test of [parseCurrentTlvObject] *)
Definition data_fits (t : SimTlv) : SimTlv * bool :=
  if mTlvLength t <? mCurDataLength t + mCurDataOffset t then (t, false) else (t, true).

(** the object after the call, with the returned value *)
Definition parseCurrentTlvObject (t : SimTlv) : res (SimTlv * bool) :=
  let rec := block (mRecord t) in
  let cur := mCurOffset t in
  if mTlvLength t <=? cur then Ok (t, false)
  else
    tag ← rec.[cur];
    if (tag =? 0) || (Z.land tag 255 =? 255) then Ok (t, false)
    else if cur + 1 <? mTlvLength t then
      l ← rec.[cur + 1];
      if Z.land l 255 <? 128 then Ok (data_fits (set_data t (Z.land l 255) (cur + 2)))
      else if Z.land l 255 =? 129 then
        if cur + 2 <? mTlvLength t then
          l2 ← rec.[cur + 2];
          Ok (data_fits (set_data t (Z.land l2 255) (cur + 3)))
        else Ok (t, false)
      else Ok (t, false)
    else Ok (t, false).

(** [SimTlv::SimTlv(record, offset, length)] *)
Definition newSimTlv (record : option (list Z)) (offset length : Z) : res SimTlv :=
  match record with
  | Some rec =>
    if 0 <? length then
      copy ← rdn rec offset length;
      let t := {| mRecord := Some copy; mTlvLength := length; mCurOffset := 0; mCurDataOffset := 0;
                  mCurDataLength := 0; mHasValidTlvObject := false |} in
      r ← parseCurrentTlvObject t;
      Ok (set_valid r.1 r.2)
    else Ok SimTlv_init
  | None => Ok SimTlv_init
  end.

Definition nextObject (t : SimTlv) : res (SimTlv * bool) :=
  if negb (mHasValidTlvObject t) then Ok (t, false)
  else
    r ← parseCurrentTlvObject (set_offset t (mCurDataOffset t + mCurDataLength t));
    Ok (set_valid r.1 r.2, r.2).

Definition isValidObject (t : SimTlv) : bool := mHasValidTlvObject t.

Definition getTag (t : SimTlv) : res Z :=
  if negb (mHasValidTlvObject t) then Ok 0
  else v ← (block (mRecord t)).[mCurOffset t]; Ok (Z.land v 255).

Definition getData (t : SimTlv) : res (option (list Z)) :=
  if negb (mHasValidTlvObject t) then Ok None
  else if mCurDataLength t <=? 0 then Ok None
  else d ← rdn (block (mRecord t)) (mCurDataOffset t) (mCurDataLength t); Ok (Some d).

Definition getDataLength (t : SimTlv) : Z := mCurDataLength t.

(** ** [IccUtil] *)

Definition hexCharToInt (ch : Z) : Z :=
  if (48 <=? ch) && (ch <=? 57) then ch - 48
  else if (97 <=? ch) && (ch <=? 102) then ch - 97 + 10
  else if (65 <=? ch) && (ch <=? 70) then ch - 65 + 10
  else -1.


(** the state of the loop is [buf] and [j]; once [j] reaches the bound the
    loop is over *)
Definition bytesToHexString (data : option (list Z)) (length : Z) : res (list Z) :=
  match data with
  | None => UB
  | Some data =>
    r ← for_up (Z.to_nat length) 0
          (λ i '(buf, j),
             if j <? MAX_PLMN_LEN then
               v ← data.[i];
               buf ← buf.[j <- hex_char (Z.land 15 (Z.shiftr v 4))];
               buf ← buf.[j + 1 <- hex_char (Z.land 15 v)];
               Ok (buf, j + 2)
             else Ok (buf, j))
          (fill (length * 2) 0, 0);
    rdn r.1 0 r.2
  end.

(** [for (i = ret.size() - 1; i >= 0; --i) if (ret.at(i) == 'F') ret.erase(i); else break;] *)
Fixpoint strip_F (rev : list Z) : list Z :=
  match rev with
  | c :: r => if c =? 70 then strip_F r else rev
  | [] => []
  end.

Definition bcdPlmnToString (data : list Z) (offset length : Z) : res (list Z) :=
  if length <? offset + 3 then UB
  else
    d0 ← data.[0 + offset]; d1 ← data.[1 + offset]; d2 ← data.[2 + offset];
    let trans := [u8 (Z.lor (Z.shiftl d0 4) (Z.land (Z.shiftr d0 4) 15));
                  u8 (Z.lor (Z.shiftl d1 4) (Z.land d2 15));
                  u8 (Z.lor (Z.land d2 240) (Z.land (Z.shiftr d1 4) 15))] in
    ret ← bytesToHexString (Some trans) 3;
    Ok (reverse (strip_F (reverse ret))).

Definition bytesToInt (src : list Z) (srcLength offset length : Z) : res Z :=
  if 4 <? length then Ok 0
  else if (offset <? 0) || (length <? 0) || (srcLength <? offset + length) then Ok 0
  else
    result ← for_up (Z.to_nat length) 0
               (λ i result, b ← src.[offset + i]; Ok (i32 (Z.lor (Z.shiftl result 8) (Z.land b 255)))) 0;
    if result <? 0 then Ok 0 else Ok result.

Definition MAX_FULL_NAME_LEN : Z := 64.

(** the 16-bit units a little-endian host sees in an array of bytes *)
Fixpoint le_units (b : list Z) : list Z :=
  match b with
  | lo :: hi :: b' => Z.lor (Z.shiftl hi 8) lo :: le_units b'
  | _ => []
  end.

(** [uninit] is what the second half of [Ucs2] holds, which [memset] does not
    reach; the result is [dst] afterwards and the returned length *)
Definition DecodingNetworkNameFromSIM (uninit : list Z) (type : Z) (src : option (list Z))
    (srcLen countSeptets : Z) (dst : option (list Z)) (dstLen : Z) : res (list Z * Z) :=
  if is_null src || is_null dst || (srcLen <? 0) then Ok (block dst, 0)
  else if type =? 0 then
    r ← unpacking_gsm7bit (block src) srcLen (block dst);
    if countSeptets <? r.2 then
      d ← r.1.[countSeptets <- 0]; Ok (d, countSeptets)
    else Ok r
  else if type =? 1 then
    let Ucs2Len := if MAX_FULL_NAME_LEN - 1 <? srcLen then MAX_FULL_NAME_LEN - 1 else srcLen in
    b ← rdn (block src) 0 Ucs2Len;
    Ucs2 ← wrn (fill MAX_FULL_NAME_LEN 0 ++ uninit) 0 b;
    ConvertUcs2ToUtf8 (le_units Ucs2) Ucs2Len (block dst) dstLen
  else Ok (block dst, 0).

Definition networkNameToString (uninit data : list Z) (offset length : Z) : res (list Z) :=
  let dstBuff := fill MAX_FULL_NAME_LEN 0 in
  d ← data.[offset];
  if negb (Z.land d 128 =? 128) || (length <? 1) then Ok []
  else
    let unusedBits := Z.land d 7 in
    let countSeptets := Z.quot ((length - 1) * 8 - unusedBits) 7 in
    let name := drop (Z.to_nat (offset + 1)) data in
    let decode type :=
      r ← DecodingNetworkNameFromSIM uninit type (Some name) (length - 1) countSeptets (Some dstBuff)
            MAX_FULL_NAME_LEN;
      if 0 <? r.2 then rdn r.1 0 r.2 else Ok [] in
    match Z.land (Z.shiftr d 4) 7 with
    | 0 => decode 0
    | 1 => decode 1
    | _ => Ok []
    end.

(** ** TLV objects: a reference encoder *)

Definition tlv_header (tag n : Z) : list Z := if n <? 128 then [tag; n] else [tag; 129; n].
Definition tlv_enc (o : Z * list Z) : list Z := tlv_header o.1 (lenZ o.2) ++ o.2.
Definition tlv_ok (o : Z * list Z) : Prop := 0 < o.1 < 255 ∧ lenZ o.2 < 256 ∧ bytes_ok o.2.
#[export] Instance tlv_ok_dec o : Decision (tlv_ok o).
Proof. unfold tlv_ok. apply _. Defined.

(** reading every object, as the clients of [SimTlv] do one by one *)
Fixpoint all_objects (fuel : nat) (t : SimTlv) : res (list (Z * list Z)) :=
  match fuel with
  | O => OutOfFuel
  | S fuel' =>
    if isValidObject t then
      tag ← getTag t; d ← getData t;
      r ← nextObject t;
      rest ← all_objects fuel' r.1;
      Ok ((tag, default [] d) :: rest)
    else Ok []
  end.

Definition SimTlv_objects (rec : list Z) : res (list (Z * list Z)) :=
  t ← newSimTlv (Some rec) 0 (lenZ rec); all_objects (S (length rec)) t.

(** ** Invariant *)

Definition tlv_wf (t : SimTlv) : Prop :=
  lenZ (block (mRecord t)) = mTlvLength t ∧ bytes_ok (block (mRecord t)) ∧
  0 <= mCurOffset t ∧ 0 <= mCurDataOffset t ∧ 0 <= mCurDataLength t ∧
  (mHasValidTlvObject t = true →
     mCurOffset t + 2 <= mCurDataOffset t ∧ mCurDataOffset t + mCurDataLength t <= mTlvLength t).

Lemma land_255 b : is_byte b → Z.land b 255 = b.
Proof. intros [? ?]. change 255 with (Z.ones 8). rewrite Z.land_ones by lia. by apply Z.mod_small. Qed.

Lemma parse_wf t :
  tlv_wf (set_valid t false) → ∃ t' v, parseCurrentTlvObject t = Ok (t', v) ∧ tlv_wf (set_valid t' v) ∧
    mCurOffset t' = mCurOffset t ∧ mTlvLength t' = mTlvLength t.
Proof.
  intros Hwf. pose proof Hwf as (Hl & Hb & Ho & Hd & Hn & _).
  cbn [set_valid mRecord mTlvLength mCurOffset mCurDataOffset mCurDataLength] in Hl, Hb, Ho, Hd, Hn.
  unfold parseCurrentTlvObject. cbv zeta.
  assert (∀ n o, 0 <= n → mCurOffset t + 2 <= o →
    ∃ t' v, Ok (data_fits (set_data t n o)) = Ok (t', v) ∧ tlv_wf (set_valid t' v) ∧
      mCurOffset t' = mCurOffset t ∧ mTlvLength t' = mTlvLength t) as Hfits.
  { intros n o Hn0 Ho2. unfold data_fits. cbn.
    destruct (Z.ltb_spec (mTlvLength t) (n + o)); eexists _, _; (split; [done|]);
      unfold tlv_wf; split_and!; try done; cbn; intros; lia. }
  destruct (Z.leb_spec (mTlvLength t) (mCurOffset t)); [by exists t, false|].
  destruct (rd_ok (block (mRecord t)) (mCurOffset t)) as (tag & -> & _); [lia|]. cbn [mbind res_bind].
  destruct (_ || _); [by exists t, false|]. destruct (Z.ltb_spec (mCurOffset t + 1) (mTlvLength t)); [|by exists t, false].
  destruct (rd_ok (block (mRecord t)) (mCurOffset t + 1)) as (l & -> & El); [lia|]. cbn [mbind res_bind].
  assert (is_byte l) as Bl by (by eapply Forall_lookup_1). rewrite (land_255 l) by done. unfold is_byte in Bl.
  destruct (l <? 128); [apply Hfits; lia|]. destruct (l =? 129); [|by exists t, false].
  destruct (Z.ltb_spec (mCurOffset t + 2) (mTlvLength t)); [|by exists t, false].
  destruct (rd_ok (block (mRecord t)) (mCurOffset t + 2)) as (l2 & -> & El2); [lia|]. cbn [mbind res_bind].
  assert (is_byte l2) as Bl2 by (by eapply Forall_lookup_1). rewrite (land_255 l2) by done. unfold is_byte in Bl2.
  apply Hfits; lia.
Qed.

Lemma newSimTlv_wf rec off len :
  bytes_ok rec → 0 <= off → off + len <= lenZ rec →
  ∃ t, newSimTlv (Some rec) off len = Ok t ∧ tlv_wf t.
Proof.
  intros Hb Ho Hl. unfold newSimTlv. destruct (Z.ltb_spec 0 len); [|by exists SimTlv_init].
  rewrite rdn_ok by lia. cbn [mbind res_bind].
  match goal with |- context [parseCurrentTlvObject ?t] => destruct (parse_wf t) as (t' & v & -> & Hwf & _) end.
  - split_and!; try done; cbn; [rewrite take_lenZ; [done|]|by apply Forall_take, Forall_drop].
    unfold lenZ in *. rewrite length_drop. lia.
  - by exists (set_valid t' v).
Qed.

Lemma nextObject_wf t :
  tlv_wf t → ∃ t' v, nextObject t = Ok (t', v) ∧ tlv_wf t' ∧ v = mHasValidTlvObject t' ∧
    (v = true → mCurOffset t + 2 <= mCurOffset t') ∧ mTlvLength t' = mTlvLength t.
Proof.
  intros Hwf. unfold nextObject. destruct (mHasValidTlvObject t) eqn:Ev; cbn [negb].
  - destruct Hwf as (Hl & Hb & Ho & Hd & Hn & Hv). specialize (Hv Ev).
    destruct (parse_wf (set_offset t (mCurDataOffset t + mCurDataLength t))) as (t' & v & -> & Hwf & Ho' & Hl').
    { unfold tlv_wf. split_and!; try done; cbn; lia. }
    cbn [mbind res_bind fst snd]. eexists _, _. split; [done|]. split_and!; try done. cbn in *. lia.
  - exists t, false. by rewrite Ev.
Qed.

Lemma object_readable t :
  tlv_wf t → ∃ tag d, getTag t = Ok tag ∧ getData t = Ok d ∧
    (mHasValidTlvObject t = true → 0 < mCurDataLength t → ∃ data, d = Some data ∧ lenZ data = getDataLength t).
Proof.
  intros (Hl & Hb & Ho & Hd & Hn & Hv). unfold getTag, getData.
  destruct (mHasValidTlvObject t) eqn:Ev; cbn [negb]; [|exists 0, None; done]. specialize (Hv eq_refl).
  destruct (rd_ok (block (mRecord t)) (mCurOffset t)) as (tag & -> & _); [lia|]. cbn [mbind res_bind].
  destruct (Z.leb_spec (mCurDataLength t) 0); [eexists _, None; split_and!; done || (intros; lia)|].
  rewrite rdn_ok by lia. cbn [mbind res_bind]. eexists _, _. split_and!; [done..|]. intros _ _. eexists. split; [done|].
  rewrite take_lenZ; [done|]. unfold lenZ in *. rewrite length_drop. lia.
Qed.

(** ** Encoded objects *)

(** the state in which the object [o] behind [p] is the current one *)
Definition at_obj (p : list Z) (o : Z * list Z) (r : list Z) : SimTlv :=
  let rec := p ++ tlv_enc o ++ r in
  {| mRecord := Some rec; mTlvLength := lenZ rec; mCurOffset := lenZ p;
     mCurDataOffset := lenZ p + lenZ (tlv_header o.1 (lenZ o.2)); mCurDataLength := lenZ o.2;
     mHasValidTlvObject := true |}.

(** the end of the objects of a record: nothing, or the filler 0x00 or 0xFF *)
Definition tlv_end (r : list Z) : Prop :=
  match r with [] => True | c :: _ => c = 0 ∨ c = 255 end.

Lemma parse_enc t p o r :
  tlv_ok o → mRecord t = Some (p ++ tlv_enc o ++ r) → mTlvLength t = lenZ (p ++ tlv_enc o ++ r) →
  mCurOffset t = lenZ p →
  parseCurrentTlvObject t = Ok (set_data t (lenZ o.2) (lenZ p + lenZ (tlv_header o.1 (lenZ o.2))), true).
Proof.
  destruct o as [tag d]. intros (Ht & Hd & Hb) Hrec Hlen Ho. cbn [fst snd] in *.
  unfold parseCurrentTlvObject. cbv zeta. rewrite Hrec, Hlen, Ho. unfold block. cbn [default from_option id].
  pose proof (lenZ_nonneg r). pose proof (lenZ_nonneg d). pose proof (lenZ_nonneg p).
  unfold tlv_enc, tlv_header. cbn [fst snd].
  assert (∀ h, lenZ (p ++ (h ++ d) ++ r) = lenZ p + lenZ h + lenZ d + lenZ r) as Hl
    by (intros; rewrite !lenZ_app; lia).
  destruct (Z.ltb_spec (lenZ d) 128) as [H128|H128]; rewrite Hl; cbn [app].
  - change (lenZ [tag; lenZ d]) with 2. destruct (Z.leb_spec (lenZ p + 2 + lenZ d + lenZ r) (lenZ p)); [lia|].
    rewrite rd_snoc. cbn [mbind res_bind]. rewrite land_255 by (unfold is_byte; lia).
    assert ((tag =? 0) || (tag =? 255) = false) as -> by lia.
    destruct (Z.ltb_spec (lenZ p + 1) (lenZ p + 2 + lenZ d + lenZ r)); [|lia].
    rewrite cons_middle, app_assoc, (rd_at _ _ _ (lenZ p + 1)) by (rewrite lenZ_app; change (lenZ [tag]) with 1; lia). cbn [mbind res_bind].
    rewrite land_255 by (unfold is_byte; lia). destruct (Z.ltb_spec (lenZ d) 128); [|lia].
    unfold data_fits. cbn [set_data mTlvLength mCurDataLength mCurDataOffset]. rewrite Hlen.
    unfold tlv_enc, tlv_header. cbn [fst snd]. destruct (Z.ltb_spec (lenZ d) 128); [|lia].
    rewrite Hl. change (lenZ [tag; lenZ d]) with 2. by destruct (Z.ltb_spec (lenZ p + 2 + lenZ d + lenZ r) (lenZ d + (lenZ p + 2))); [lia|].
  - change (lenZ [tag; 129; lenZ d]) with 3. destruct (Z.leb_spec (lenZ p + 3 + lenZ d + lenZ r) (lenZ p)); [lia|].
    rewrite rd_snoc. cbn [mbind res_bind]. rewrite land_255 by (unfold is_byte; lia).
    assert ((tag =? 0) || (tag =? 255) = false) as -> by lia.
    destruct (Z.ltb_spec (lenZ p + 1) (lenZ p + 3 + lenZ d + lenZ r)); [|lia].
    rewrite cons_middle, app_assoc, (rd_at _ _ _ (lenZ p + 1)) by (rewrite lenZ_app; change (lenZ [tag]) with 1; lia). cbn [mbind res_bind].
    change (Z.land 129 255) with 129. cbn [Z.ltb Z.eqb Z.compare Pos.compare Pos.compare_cont Pos.eqb].
    destruct (Z.ltb_spec (lenZ p + 2) (lenZ p + 3 + lenZ d + lenZ r)); [|lia].
    rewrite (cons_middle 129), app_assoc, rd_at by (rewrite !lenZ_app; change (lenZ [tag]) with 1; change (lenZ [129]) with 1; lia).
    cbn [mbind res_bind]. rewrite land_255 by (unfold is_byte; lia).
    unfold data_fits. cbn [set_data mTlvLength mCurDataLength mCurDataOffset]. rewrite Hlen.
    unfold tlv_enc, tlv_header. cbn [fst snd]. destruct (Z.ltb_spec (lenZ d) 128); [lia|].
    rewrite Hl. change (lenZ [tag; 129; lenZ d]) with 3.
    by destruct (Z.ltb_spec (lenZ p + 3 + lenZ d + lenZ r) (lenZ d + (lenZ p + 3))); [lia|].
Qed.

Lemma parse_end t p r :
  tlv_end r → mRecord t = Some (p ++ r) → mTlvLength t = lenZ (p ++ r) → mCurOffset t = lenZ p →
  parseCurrentTlvObject t = Ok (t, false).
Proof.
  intros Hr Hrec Hlen Ho. unfold parseCurrentTlvObject. cbv zeta. rewrite Hrec, Hlen, Ho.
  unfold block. cbn [default from_option id]. rewrite lenZ_app. destruct r as [|c r].
  - change (lenZ []) with 0. by destruct (Z.leb_spec (lenZ p + 0) (lenZ p)); [|lia].
  - pose proof (lenZ_nonneg r). rewrite lenZ_cons. destruct (Z.leb_spec (lenZ p + (1 + lenZ r)) (lenZ p)); [lia|].
    rewrite rd_snoc. cbn [mbind res_bind]. by destruct Hr as [-> | ->].
Qed.

Lemma object_at p o r : tlv_ok o →
  getTag (at_obj p o r) = Ok o.1 ∧ default [] <$> getData (at_obj p o r) = Ok o.2.
Proof.
  destruct o as [tag d]. intros (Ht & Hd & Hb). cbn [fst snd] in *. unfold getTag, getData, at_obj, block.
  cbn [mHasValidTlvObject mRecord mCurOffset mCurDataOffset mCurDataLength default from_option id negb fst snd].
  unfold tlv_enc. cbn [fst snd]. split.
  - unfold tlv_header. destruct (_ <? _); cbn [app]; rewrite rd_snoc; cbn [mbind res_bind];
      by rewrite land_255 by (unfold is_byte; lia).
  - destruct (Z.leb_spec (lenZ d) 0).
    + destruct d; [done|]. rewrite lenZ_cons in *. pose proof (lenZ_nonneg d). lia.
    + rewrite <- !app_assoc, (app_assoc p), <- lenZ_app, rdn_mid. done.
Qed.

Lemma next_at p o r : tlv_ok o →
  (∀ o' r', tlv_ok o' → r = tlv_enc o' ++ r' →
     nextObject (at_obj p o r) = Ok (at_obj (p ++ tlv_enc o) o' r', true)) ∧
  (tlv_end r → ∃ t', nextObject (at_obj p o r) = Ok (t', false) ∧ mHasValidTlvObject t' = false).
Proof.
  intros Hok. unfold nextObject. cbn [at_obj mHasValidTlvObject negb].
  assert (lenZ (p ++ tlv_enc o) = lenZ p + lenZ (tlv_header o.1 (lenZ o.2)) + lenZ o.2) as Hl
    by (unfold tlv_enc; rewrite !lenZ_app; lia).
  split.
  - intros o' r' Hok' ->. rewrite (parse_enc _ (p ++ tlv_enc o) o' r'); [|done|cbn|cbn|by rewrite Hl].
    + cbn [mbind res_bind fst snd]. unfold at_obj, set_valid, set_data, set_offset.
      cbn [mRecord mTlvLength mCurOffset mCurDataOffset mCurDataLength]. by rewrite <- Hl, <- app_assoc.
    + by rewrite <- app_assoc.
    + by rewrite <- app_assoc.
  - intros Hr. rewrite (parse_end _ (p ++ tlv_enc o) r); [|done|cbn|cbn|by rewrite Hl].
    + cbn [mbind res_bind fst snd]. eexists. done.
    + by rewrite <- app_assoc.
    + by rewrite <- app_assoc.
Qed.

Lemma all_objects_enc fuel objs p o r :
  Forall tlv_ok (o :: objs) → tlv_end r → (length objs + 2 <= fuel)%nat →
  all_objects fuel (at_obj p o ((objs ≫= tlv_enc) ++ r)) = Ok (o :: objs).
Proof.
  revert fuel p o. induction objs as [|o' objs IH]; intros fuel p o Hok Hr Hf;
    apply Forall_cons_1 in Hok as [Ho Hok]; destruct fuel as [|fuel]; cbn [length] in Hf; try lia; cbn [all_objects].
  - cbn [isValidObject at_obj mHasValidTlvObject mbind list_bind app]. unfold isValidObject. cbn [at_obj mHasValidTlvObject].
    destruct (object_at p o r Ho) as [-> Ed]. cbn [mbind res_bind].
    destruct (getData (at_obj p o r)) as [d| |]; try done. cbn [mbind res_bind].
    destruct (next_at p o r Ho) as [_ Hend]. destruct (Hend Hr) as (t' & -> & Ht'). cbn [mbind res_bind fst].
    destruct fuel; [lia|]. cbn [all_objects]. unfold isValidObject. rewrite Ht'. cbn [mbind res_bind].
    injection Ed as Ed. rewrite Ed. by destruct o.
  - apply Forall_cons_1 in Hok as Hok'. destruct Hok' as [Ho' _].
    cbn [mbind list_bind]. rewrite <- app_assoc. unfold isValidObject. cbn [at_obj mHasValidTlvObject].
    destruct (object_at p o (tlv_enc o' ++ (objs ≫= tlv_enc) ++ r) Ho) as [-> Ed]. cbn [mbind res_bind].
    destruct (getData _) as [d| |]; try done. cbn [mbind res_bind].
    destruct (next_at p o (tlv_enc o' ++ (objs ≫= tlv_enc) ++ r) Ho) as [Hn _].
    rewrite (Hn o' _ Ho' eq_refl). cbn [mbind res_bind fst]. rewrite IH by (done || cbn; lia). cbn [mbind res_bind].
    injection Ed as Ed. rewrite Ed. by destruct o.
Qed.

Lemma newSimTlv_enc o r :
  tlv_ok o → newSimTlv (Some (tlv_enc o ++ r)) 0 (lenZ (tlv_enc o ++ r)) = Ok (at_obj [] o r).
Proof.
  intros Ho. unfold newSimTlv. destruct (Z.ltb_spec 0 (lenZ (tlv_enc o ++ r))) as [|H].
  - rewrite rdn_ok by lia. cbn [mbind res_bind]. rewrite drop_0, take_full by lia.
    by rewrite (parse_enc _ [] o r) by done.
  - exfalso. revert H. pose proof (lenZ_nonneg o.2). pose proof (lenZ_nonneg r).
    rewrite lenZ_app. unfold tlv_enc, tlv_header. rewrite lenZ_app.
    destruct (_ <? _); rewrite !lenZ_cons, lenZ_nil; lia.
Qed.

Lemma newSimTlv_end r :
  tlv_end r → ∃ t, newSimTlv (Some r) 0 (lenZ r) = Ok t ∧ mHasValidTlvObject t = false.
Proof.
  intros Hr. unfold newSimTlv. destruct (Z.ltb_spec 0 (lenZ r)); [|by exists SimTlv_init].
  rewrite rdn_ok by lia. cbn [mbind res_bind]. rewrite drop_0, take_full by lia.
  rewrite (parse_end _ [] r) by done. cbn [mbind res_bind fst snd]. eexists. done.
Qed.

Lemma length_tlv_enc o : (2 <= length (tlv_enc o))%nat.
Proof. unfold tlv_enc, tlv_header. rewrite length_app. destruct (_ <? _); cbn [length]; lia. Qed.

Lemma length_objs_enc (objs : list (Z * list Z)) : (length objs <= length (objs ≫= tlv_enc))%nat.
Proof.
  induction objs as [|o objs IH]; [done|]. cbn [mbind list_bind]. rewrite length_app.
  pose proof (length_tlv_enc o). cbn [length]. lia.
Qed.

(** ** PLMN codes *)

Lemma swap_nibbles d : is_byte d →
  u8 (Z.lor (Z.shiftl d 4) (Z.land (Z.shiftr d 4) 15)) = 16 * (d mod 16) + d / 16.
Proof.
  intros Hd. apply Z.eqb_eq. revert d Hd.
  by apply (byte_forall (λ d, u8 (Z.lor (Z.shiftl d 4) (Z.land (Z.shiftr d 4) 15)) =? 16 * (d mod 16) + d / 16)).
Qed.

Lemma low_nibbles d e : is_byte d → is_byte e →
  u8 (Z.lor (Z.shiftl d 4) (Z.land e 15)) = 16 * (d mod 16) + e mod 16.
Proof.
  unfold is_byte. intros Hd He. change 15 with (Z.ones 4). rewrite Z.land_ones, Z.shiftl_mul_pow2 by lia.
  rewrite lor_add by lia. unfold u8. change (2 ^ 4) with 16. change (2 ^ 8) with 256. lia.
Qed.

Lemma high_nibbles d e : is_byte d → is_byte e →
  u8 (Z.lor (Z.land d 240) (Z.land (Z.shiftr e 4) 15)) = 16 * (d / 16) + e / 16.
Proof.
  intros Hd He.
  assert (Z.land d 240 = d / 16 * 2 ^ 4) as ->.
  { apply Z.eqb_eq. revert d Hd. by apply (byte_forall (λ d, Z.land d 240 =? d / 16 * 2 ^ 4)). }
  unfold is_byte in *. change 15 with (Z.ones 4). rewrite Z.land_ones, Z.shiftr_div_pow2 by lia.
  change (2 ^ 4) with 16. rewrite Z.mod_small by lia. 
  pose proof (lor_add (d / 16) (e / 16) 4) as Hor. change (2 ^ 4) with 16 in Hor. rewrite Hor by lia.
  rewrite u8_id; unfold is_byte; lia.
Qed.

Lemma nibble_chars a b : 0 <= a < 16 → 0 <= b < 16 →
  Z.land 15 (Z.shiftr (16 * a + b) 4) = a ∧ Z.land 15 (16 * a + b) = b.
Proof.
  intros Ha Hb. pose proof (small_forall2 16 16 (λ a b,
    (Z.land 15 (Z.shiftr (16 * a + b) 4) =? a) && (Z.land 15 (16 * a + b) =? b)) eq_refl a b Ha Hb).
  cbv beta in *. lia.
Qed.

(** the six nibbles in transmission order *)
Definition plmn_nibbles (d0 d1 d2 : Z) : list Z :=
  [d0 mod 16; d0 / 16; d1 mod 16; d2 mod 16; d2 / 16; d1 / 16].

Lemma bytesToHexString_3 a b c :
  bytesToHexString (Some [a; b; c]) 3 =
    Ok ([a; b; c] ≫= λ v, [hex_char (Z.land 15 (Z.shiftr v 4)); hex_char (Z.land 15 v)]).
Proof. reflexivity. Qed.

Lemma bcdPlmn_ok data offset length d0 d1 d2 :
  bytes_ok data → 0 <= offset → offset + 3 <= length →
  data.[0 + offset] = Ok d0 → data.[1 + offset] = Ok d1 → data.[2 + offset] = Ok d2 →
  bcdPlmnToString data offset length =
    Ok (reverse (strip_F (reverse (hex_char <$> plmn_nibbles d0 d1 d2)))).
Proof.
  intros Hb Ho Hl E0 E1 E2. unfold bcdPlmnToString. destruct (Z.ltb_spec length (offset + 3)); [lia|].
  rewrite E0, E1, E2. cbn [mbind res_bind].
  apply rd_inv in E0 as [_ E0], E1 as [_ E1], E2 as [_ E2].
  assert (is_byte d0) as B0 by (by eapply Forall_lookup_1).
  assert (is_byte d1) as B1 by (by eapply Forall_lookup_1).
  assert (is_byte d2) as B2 by (by eapply Forall_lookup_1).
  rewrite swap_nibbles, low_nibbles, high_nibbles by done. unfold is_byte in *.
  rewrite bytesToHexString_3. cbn [mbind res_bind fmap list_fmap list_bind app].
  destruct (nibble_chars (d0 mod 16) (d0 / 16)) as [-> ->]; [lia..|].
  destruct (nibble_chars (d1 mod 16) (d2 mod 16)) as [F1 F2]; [lia..|].
  destruct (nibble_chars (d2 / 16) (d1 / 16)) as [F3 F4]; [lia..|].
  rewrite F1, F2, F3, F4. done.
Qed.

(** the coding of 3GPP TS 24.008: an MCC of three and an MNC of two or three digits *)
Definition plmn_bytes (mcc : Z * Z * Z) (mnc : Z * Z) (mnc3 : option Z) : list Z :=
  let '(m1, m2, m3) := mcc in let '(n1, n2) := mnc in
  [16 * m2 + m1; 16 * default 15 mnc3 + m3; 16 * n2 + n1].
Definition plmn_digits (mcc : Z * Z * Z) (mnc : Z * Z) (mnc3 : option Z) : list Z :=
  let '(m1, m2, m3) := mcc in let '(n1, n2) := mnc in
  (λ d, 48 + d) <$> [m1; m2; m3; n1; n2] ++ option_list mnc3.

Lemma hex_char_F d : 0 <= d < 15 → hex_char d ≠ 70.
Proof.
  intros Hd. pose proof (small_forall 15 (λ d, negb (hex_char d =? 70)) eq_refl d Hd). cbv beta in *. lia.
Qed.

Lemma hexCharToInt_hex_char d : 0 <= d < 16 → hexCharToInt (hex_char d) = d.
Proof.
  intros Hd. pose proof (small_forall 16 (λ d, hexCharToInt (hex_char d) =? d) eq_refl d Hd). cbv beta in *. lia.
Qed.

Lemma hex_char_digit d : 0 <= d < 10 → hex_char d = 48 + d.
Proof.
  intros Hd. pose proof (small_forall 10 (λ d, hex_char d =? 48 + d) eq_refl d Hd). cbv beta in *. lia.
Qed.

(** the characters of a code whose digits may be the wild card 0xD *)
Lemma plmn_hex_chars m1 m2 m3 n1 n2 mnc3 :
  Forall (λ d, 0 <= d < 15) ([m1; m2; m3; n1; n2] ++ option_list mnc3) →
  reverse (strip_F (reverse (hex_char <$>
    plmn_nibbles (16 * m2 + m1) (16 * default 15 mnc3 + m3) (16 * n2 + n1)))) =
  hex_char <$> [m1; m2; m3; n1; n2] ++ option_list mnc3.
Proof.
  intros Hd. repeat (apply Forall_cons_1 in Hd as [? Hd]). unfold plmn_nibbles.
  replace ((16 * m2 + m1) mod 16) with m1 by lia. replace ((16 * m2 + m1) / 16) with m2 by lia.
  replace ((16 * n2 + n1) mod 16) with n1 by lia. replace ((16 * n2 + n1) / 16) with n2 by lia.
  replace ((16 * default 15 mnc3 + m3) mod 16) with m3 by lia.
  replace ((16 * default 15 mnc3 + m3) / 16) with (default 15 mnc3) by lia.
  destruct mnc3 as [n3|]; cbn [default from_option id option_list fmap list_fmap app] in *.
  - apply Forall_cons_1 in Hd as [? _]. rewrite !reverse_cons, reverse_nil. cbn [app strip_F].
    pose proof (hex_char_F n3). destruct (Z.eqb_spec (hex_char n3) 70); [lia|]. done.
  - change (hex_char 15) with 70. rewrite !reverse_cons, reverse_nil. cbn [app strip_F].
    pose proof (hex_char_F n2).
    destruct (Z.eqb_spec 70 70); [|lia]. destruct (Z.eqb_spec (hex_char n2) 70); [lia|]. done.
Qed.

Lemma plmn_chars m1 m2 m3 n1 n2 mnc3 :
  Forall (λ d, 0 <= d < 10) ([m1; m2; m3; n1; n2] ++ option_list mnc3) →
  reverse (strip_F (reverse (hex_char <$>
    plmn_nibbles (16 * m2 + m1) (16 * default 15 mnc3 + m3) (16 * n2 + n1)))) =
  plmn_digits (m1, m2, m3) (n1, n2) mnc3.
Proof.
  intros Hd. rewrite plmn_hex_chars by (eapply Forall_impl; [exact Hd|]; cbn; intros; lia).
  unfold plmn_digits. apply list_fmap_ext. intros i d Hi. apply hex_char_digit. by eapply Forall_lookup_1 in Hd.
Qed.

(** ** Network names *)

(** the part of [networkNameToString] for a name in the GSM alphabet *)
Lemma networkName_gsm uninit hd name len d :
  0 <= d < 256 → Z.land d 128 = 128 → Z.land (Z.shiftr d 4) 7 = 0 → 1 <= len →
  networkNameToString uninit (hd ++ d :: name) (lenZ hd) len =
    (r ← DecodingNetworkNameFromSIM uninit 0 (Some name) (len - 1) (Z.quot ((len - 1) * 8 - Z.land d 7) 7)
            (Some (fill MAX_FULL_NAME_LEN 0)) MAX_FULL_NAME_LEN;
     if 0 <? r.2 then rdn r.1 0 r.2 else Ok []).
Proof.
  intros Hd H128 H0 Hl. unfold networkNameToString. rewrite rd_snoc. cbn [mbind res_bind].
  rewrite H128, H0. destruct (Z.ltb_spec len 1); [lia|]. cbn [Z.eqb Pos.eqb negb orb].
  replace (drop (Z.to_nat (lenZ hd + 1)) (hd ++ d :: name)) with name; [done|].
  replace (Z.to_nat (lenZ hd + 1)) with (length hd + 1)%nat by (unfold lenZ; lia).
  by rewrite drop_app_add.
Qed.

Lemma land_7 d : 0 <= d → 0 <= Z.land d 7 < 8.
Proof. intros. change 7 with (Z.ones 3). apply (land_ones_byte d 3). lia. Qed.

(** ** Properties *)

(** Iterating with [nextObject] is safe for every record: each call
    returns, keeps the current object inside the record, moves forward by at
    least the two bytes of a header whenever it reports an object, and the tag
    and data of the current object can always be read. *)
Theorem SimTlv_iteration (t : SimTlv) (Hwf : tlv_wf t) :
  (∃ t' v, nextObject t = Ok (t', v) ∧ tlv_wf t' ∧ v = isValidObject t' ∧ mTlvLength t' = mTlvLength t ∧
     (v = true → mCurOffset t + 2 <= mCurOffset t' < mTlvLength t)) ∧
  (∃ tag d, getTag t = Ok tag ∧ getData t = Ok d ∧
     (isValidObject t = true → 0 < getDataLength t → ∃ data, d = Some data ∧ lenZ data = getDataLength t)).
Proof.
  split; [|by apply object_readable].
  destruct (nextObject_wf t Hwf) as (t' & v & E & Hwf' & Hv & Hadv & Hlen). exists t', v.
  split_and!; try done. intros Ev. destruct Hwf' as (_ & _ & _ & _ & Hn & Hb).
  rewrite Ev in Hv. specialize (Hb (eq_sym Hv)). specialize (Hadv Ev). lia.
Qed.

Lemma SimTlv_iteration_witness :
  let t := at_obj [] (67, [1; 2]) [69; 1; 9] in
  (∃ t' v, nextObject t = Ok (t', v) ∧ tlv_wf t' ∧ v = isValidObject t' ∧ mTlvLength t' = mTlvLength t ∧
     (v = true → mCurOffset t + 2 <= mCurOffset t' < mTlvLength t)) ∧
  (∃ tag d, getTag t = Ok tag ∧ getData t = Ok d ∧
     (isValidObject t = true → 0 < getDataLength t → ∃ data, d = Some data ∧ lenZ data = getDataLength t)).
Proof.
  refine (SimTlv_iteration (at_obj [] (67, [1; 2]) [69; 1; 9]) _).
  split_and!; [by_eval..|]. intros _. by_eval.
Defined.

(** Every sequence of TLV objects, with the one-byte or the 0x81 form of
    the length, is read back object by object, up to the end of the record or
    its filler. *)
Theorem SimTlv_roundtrip (objs : list (Z * list Z)) (r : list Z)
  (Hobjs : Forall tlv_ok objs) (Hr : tlv_end r) :
  SimTlv_objects ((objs ≫= tlv_enc) ++ r) = Ok objs.
Proof.
  unfold SimTlv_objects. destruct objs as [|o objs]; cbn [mbind list_bind app].
  - destruct (newSimTlv_end r Hr) as (t & -> & Ht). cbn [mbind res_bind all_objects].
    unfold isValidObject. by rewrite Ht.
  - apply Forall_cons_1 in Hobjs as Ho. destruct Ho as [Ho _]. rewrite <- app_assoc, newSimTlv_enc by done.
    cbn [mbind res_bind]. apply all_objects_enc; [done..|].
    rewrite !length_app. pose proof (length_objs_enc objs). pose proof (length_tlv_enc o). lia.
Qed.

Lemma SimTlv_roundtrip_witness :
  SimTlv_objects (([(67, [128; 65]); (69, []); (128, fill 200 7)] ≫= tlv_enc) ++ [255; 255]) =
    Ok [(67, [128; 65]); (69, []); (128, fill 200 7)].
Proof. refine (SimTlv_roundtrip [(67, [128; 65]); (69, []); (128, fill 200 7)] [255; 255] _ _); [by_eval|by right]. Defined.

(** A PLMN code of three MCC digits and two or three MNC digits is decoded
    to its digits wherever it stands in a record. *)
Theorem plmn_roundtrip (p r : list Z) (m1 m2 m3 n1 n2 : Z) (mnc3 : option Z) (length : Z)
  (Hd : Forall (λ d, 0 <= d < 10) ([m1; m2; m3; n1; n2] ++ option_list mnc3))
  (Hb : bytes_ok (p ++ r)) (Hl : lenZ p + 3 <= length) :
  bcdPlmnToString (p ++ plmn_bytes (m1, m2, m3) (n1, n2) mnc3 ++ r) (lenZ p) length =
    Ok (plmn_digits (m1, m2, m3) (n1, n2) mnc3).
Proof.
  rewrite <- plmn_chars by done. pose proof (lenZ_nonneg p). unfold plmn_bytes. cbn [app].
  apply Forall_app in Hb as [Hp Hr].
  repeat (apply Forall_cons_1 in Hd as [? Hd]).
  assert (0 <= default 15 mnc3 < 16) as Hn3
    by (destruct mnc3; cbn in *; [apply Forall_cons_1 in Hd as [? _]; lia|lia]).
  apply bcdPlmn_ok; [|done..| | |].
  - apply Forall_app. split; [done|]. repeat (constructor; [unfold is_byte; lia|]). done.
  - apply rd_at. lia.
  - rewrite cons_middle, app_assoc. apply rd_at. rewrite lenZ_app. change (lenZ [_]) with 1. lia.
  - change (?a :: ?b :: ?c :: r) with ([a; b] ++ c :: r). rewrite app_assoc. apply rd_at.
    rewrite lenZ_app. change (lenZ [_; _]) with 2. lia.
Qed.

Lemma plmn_roundtrip_witness :
  bcdPlmnToString ([7] ++ plmn_bytes (4, 5, 0) (0, 8) None ++ [0; 1]) (lenZ [7]) 8 =
    Ok (plmn_digits (4, 5, 0) (0, 8) None).
Proof. refine (plmn_roundtrip [7] [0; 1] 4 5 0 0 8 None 8 _ _ _); by_eval. Defined.

(** A network name of up to 63 septets in the GSM alphabet, packed by
    [packing_gsm7bit] behind a coding octet that gives the number of spare bits,
    is returned by [networkNameToString] septet for septet. *)
Theorem networkName_roundtrip (uninit hd s rest dest : list Z)
  (Hs : Forall is_septet s) (Hn : 0 < lenZ s <= 63) (Hrest : lenZ s mod 8 = 0 → 0 < lenZ rest)
  (Hdest : 7 * lenZ s / 8 + 1 <= lenZ dest) :
  let n := enc_len (lenZ s) in
  ∃ packed, packing_gsm7bit (s ++ rest) (lenZ s) dest = Ok (packed, n) ∧
    networkNameToString uninit (hd ++ (128 + (8 * n - 7 * lenZ s)) :: take (Z.to_nat n) packed) (lenZ hd) (1 + n) = Ok s.
Proof.
  intros n. destruct (pack_unpack s rest dest 64) as (p & o & E & Eu & Eo & Hp & Ho); [done..|lia|].
  exists p. split; [done|]. fold n in Eu.
  assert (0 <= 8 * n - 7 * lenZ s < 8) as Hspare by (unfold n, enc_len; lia).
  set (sp := 8 * n - 7 * lenZ s) in *.
  pose proof (small_forall 8 (λ x, (Z.land (128 + x) 128 =? 128) && (Z.land (Z.shiftr (128 + x) 4) 7 =? 0) &&
    (Z.land (128 + x) 7 =? x)) eq_refl sp Hspare) as Hbits. cbv beta in Hbits.
  rewrite networkName_gsm by (unfold n, enc_len in *; lia).
  replace (Z.land (128 + sp) 7) with sp by lia.
  replace (Z.quot ((1 + n - 1) * 8 - sp) 7) with (lenZ s) by (unfold sp, n, enc_len; lia).
  replace (1 + n - 1) with n by lia. unfold DecodingNetworkNameFromSIM, block.
  cbn [is_null orb default from_option id]. destruct (Z.ltb_spec n 0); [unfold n, enc_len in *; lia|].
  cbn [Z.eqb]. change MAX_FULL_NAME_LEN with 64. rewrite Eu. cbn [mbind res_bind fst snd].
  assert (∀ l : list Z, lenZ l = 64 → take (length s) l = s → rdn l 0 (lenZ s) = Ok s) as Hrd.
  { intros l Hl Ht. rewrite rdn_ok by lia. rewrite drop_0. unfold lenZ. by rewrite Nat2Z.id, Ht. }
  unfold with_cr in *. destruct (lenZ s mod 8 =? 7).
  - rewrite lenZ_app. change (lenZ [13]) with 1. destruct (Z.ltb_spec (lenZ s) (lenZ s + 1)); [|lia].
    rewrite wr_ok by lia. cbn [mbind res_bind fst snd]. destruct (Z.ltb_spec 0 (lenZ s)); [|lia].
    apply Hrd; [by rewrite lenZ_insert|]. unfold lenZ. rewrite Nat2Z.id, take_insert_ge by lia.
    rewrite length_app in Eo. apply (f_equal (take (length s))) in Eo.
    rewrite take_take, take_app_length in Eo. by replace (length s `min` (length s + length [13%Z]))%nat with (length s) in Eo by lia.
  - destruct (Z.ltb_spec (lenZ s) (lenZ s)); [lia|]. cbn [mbind res_bind fst snd].
    destruct (Z.ltb_spec 0 (lenZ s)); [|lia]. by apply Hrd.
Qed.

Lemma networkName_roundtrip_witness :
  let s := str "Hello12" in let n := enc_len (lenZ s) in
  ∃ packed, packing_gsm7bit (s ++ []) (lenZ s) (fill 7 0) = Ok (packed, n) ∧
    networkNameToString [] ([5; 5] ++ (128 + (8 * n - 7 * lenZ s)) :: take (Z.to_nat n) packed) (lenZ [5; 5]) (1 + n) = Ok s.
Proof.
  refine (networkName_roundtrip [] [5; 5] (str "Hello12") [] (fill 7 0) _ _ _ _); [by_eval..| |by_eval].
  intros H. discriminate H.
Defined.

(** Which names in the GSM alphabet [networkNameToString] can handle: not
    more than 56 packed bytes, the size of its buffer, and not a lone coding
    octet that claims seven spare bits, whose septet count is -1.  Every other
    name makes it write outside its buffer. *)
Theorem networkName_bounds (uninit hd name : list Z) (d len : Z)
  (Hd : 0 <= d < 256) (H128 : Z.land d 128 = 128) (Hgsm : Z.land (Z.shiftr d 4) 7 = 0)
  (Hlen : 1 <= len) (Hname : len - 1 <= lenZ name) :
  (len <= 57 ∧ (1 < len ∨ Z.land d 7 ≠ 7) →
     ∃ s, networkNameToString uninit (hd ++ d :: name) (lenZ hd) len = Ok s ∧ lenZ s <= 64) ∧
  (¬ (len <= 57 ∧ (1 < len ∨ Z.land d 7 ≠ 7)) →
     networkNameToString uninit (hd ++ d :: name) (lenZ hd) len = UB).
Proof.
  rewrite networkName_gsm by done. pose proof (land_7 d ltac:(lia)) as H7. set (u := Z.land d 7) in *.
  assert (lenZ (fill MAX_FULL_NAME_LEN 0) = 64) as Hf by done.
  unfold DecodingNetworkNameFromSIM, block. cbn [is_null orb default from_option id].
  destruct (Z.ltb_spec (len - 1) 0); [lia|]. cbn [Z.eqb]. split; intros Hc.
  - destruct (unpacking_ok name (fill MAX_FULL_NAME_LEN 0) (len - 1)) as (o & -> & Ho & _);
      [lia|by apply Forall_replicate|lia|]. cbn [mbind res_bind fst snd].
    set (dec := len - 1 + (len - 1) / 7) in *. set (c := Z.quot ((len - 1) * 8 - u) 7) in *.
    assert (0 <= c) by (unfold c; lia). assert (0 <= dec <= 64) by (unfold dec; lia).
    destruct (Z.ltb_spec c dec).
    + rewrite wr_ok by lia. cbn [mbind res_bind fst snd]. destruct (0 <? c); [|by exists []].
      rewrite rdn_ok by (rewrite ?lenZ_insert; lia). eexists. split; [done|]. rewrite take_lenZ; [lia|].
      rewrite drop_0, lenZ_insert. lia.
    + cbn [mbind res_bind fst snd]. destruct (0 <? dec); [|by exists []].
      rewrite rdn_ok by lia. eexists. split; [done|]. rewrite take_lenZ; [lia|]. rewrite drop_0. lia.
  - destruct (Z_le_gt_dec len 57).
    + assert (len = 1 ∧ u = 7) as [-> ->] by lia. done.
    + rewrite unpacking_UB; [done|lia|lia].
Qed.

Lemma networkName_bounds_witness :
  (1 <= 57 ∧ (1 < 1 ∨ Z.land 135 7 ≠ 7) →
     ∃ s, networkNameToString [] ([] ++ 135 :: []) (@lenZ Z []) 1 = Ok s ∧ lenZ s <= 64) ∧
  (¬ (1 <= 57 ∧ (1 < 1 ∨ Z.land 135 7 ≠ 7)) →
     networkNameToString [] ([] ++ 135 :: []) (@lenZ Z []) 1 = UB).
Proof. refine (networkName_bounds [] [] [] 135 1 _ _ _ _ _); by_eval. Defined.

(** a name coded in UCS2 is not decoded: the octets of "AB" give two other
    characters and two NULs *)
Lemma ucs2_name_not_decoded c :
  networkNameToString (fill 64 c) [144; 0; 65; 0; 66] 0 5 = Ok (utf8_string [16640; 16896; 0; 0]).
Proof. reflexivity. Qed.
