(* ===== verification/SimRecords.v ===== *)
(** The operator-name files of the SIM, [simRecord/]: [PnnRecord] and
    [PnnRecords], [OplRecord] and [OplRecords], [EonsResolver], and the handler
    [NetworkService::OnSimFileInfo] that feeds them.

    A [vector] of record pointers is the list of the records, since every
    pointer pushed is not null; [new] does not return null.  An operator code
    and a name are byte lists.  [uninit] is passed on to
    [networkNameToString]. *)
From S2P Require Import Prelude RilDef Text Gsm7 Ussd Icc.

(** ** PNN *)

Record PnnRecord := { mFullName : list Z; mShortName : list Z; mAddInfo : list Z }.

Definition TAG_FULL_NAME_IEI : Z := 67.
Definition TAG_SHORT_NAME_IEI : Z := 69.
Definition TAG_ADDL_INFO : Z := 128.

(** the name in the current object when it has the given tag *)
Definition name_object (uninit : list Z) (t : SimTlv) (tag : Z) : res (list Z) :=
  if isValidObject t then
    tg ← getTag t;
    if tg =? tag then
      d ← getData t;
      match d with
      | Some tlvData => networkNameToString uninit tlvData 0 (getDataLength t)
      | None => Ok []
      end
    else Ok []
  else Ok [].

Definition newPnnRecord (uninit : list Z) (record : option (list Z)) (len : Z) : res PnnRecord :=
  tlv ← newSimTlv record 0 len;
  full ← name_object uninit tlv TAG_FULL_NAME_IEI;
  n1 ← nextObject tlv;
  short ← name_object uninit n1.1 TAG_SHORT_NAME_IEI;
  n2 ← nextObject n1.1;
  add ← name_object uninit n2.1 TAG_ADDL_INFO;
  Ok {| mFullName := full; mShortName := short; mAddInfo := add |}.

(** [PnnRecords::PnnRecords(records, recordSize, numRecords)] *)
Definition newPnnRecords (uninit : list Z) (records : list (option (list Z))) (recordSize numRecords : Z)
  : res (list PnnRecord) :=
  for_up (Z.to_nat numRecords) 0
    (λ i mRecords,
       record ← records.[i];
       pnnRecord ← newPnnRecord uninit record recordSize;
       if IsEmpty (Some (mFullName pnnRecord)) then Ok mRecords
       else Ok (mRecords ++ [pnnRecord]))
    [].

Definition getNameFromPnnRecord (mRecords : list PnnRecord) (recordNumber : Z) : res (list Z) :=
  if (recordNumber <? 1) || (lenZ mRecords <? recordNumber) then Ok []
  else record ← mRecords.[recordNumber - 1]; Ok (mFullName record).

(** the loop keeps the last name it read *)
Fixpoint homePnn (mRecords : list PnnRecord) (fullName : list Z) : list Z :=
  match mRecords with
  | [] => fullName
  | record :: r => if 0 <? lenZ (mFullName record) then mFullName record else homePnn r (mFullName record)
  end.
Definition getHomePnn (mRecords : list PnnRecord) : list Z := homePnn mRecords [].

(** ** OPL *)

Record OplRecord := { mPlmn : list Z; mLac1 : Z; mLac2 : Z; mPnnRecordNumber : Z }.

(** [OplRecord::getPlmn(record, offset, len)] *)
Definition decodePlmn (record : list Z) (offset len : Z) : res (list Z) :=
  plmnCode ← bcdPlmnToString record offset len;
  for_up (Z.to_nat MAX_PLMN_LEN) 0
    (λ i plmn,
       if i <? lenZ plmnCode then c ← plmnCode.[i]; plmn.[i <- hexCharToInt c]
       else plmn.[i <- 0])
    (fill MAX_PLMN_LEN 0).

Definition plmnOffset : Z := 0.
Definition lacOffset : Z := 3.
Definition pnnRecordNumberOffset : Z := 7.

Definition newOplRecord (record : option (list Z)) (len : Z) : res OplRecord :=
  let rec := block record in
  plmn ← decodePlmn rec plmnOffset len;
  lac1 ← bytesToInt rec len lacOffset 2;
  lac2 ← bytesToInt rec len (lacOffset + 2) 2;
  number ← bytesToInt rec len pnnRecordNumberOffset 1;
  Ok {| mPlmn := plmn; mLac1 := lac1; mLac2 := lac2; mPnnRecordNumber := number |}.

Definition isPlmnEmpty (r : OplRecord) : bool := forallb (λ d, d =? 0) (mPlmn r).

Definition newOplRecords (records : list (option (list Z))) (recordSize numRecords : Z)
  : res (list OplRecord) :=
  for_up (Z.to_nat numRecords) 0
    (λ i mRecords,
       record ← records.[i];
       oplRecord ← newOplRecord record recordSize;
       if isPlmnEmpty oplRecord then Ok mRecords
       else Ok (mRecords ++ [oplRecord]))
    [].

Definition wildCardDigit : Z := 13.

Definition matchPlmn (simPlmn bcchPlmn : list Z) : res bool :=
  for_up (Z.to_nat MAX_PLMN_LEN) 0
    (λ i m, b ← bcchPlmn.[i]; s ← simPlmn.[i]; Ok (m && ((b =? s) || (s =? wildCardDigit)))) true.

(** the search loop of [getMatchingPnnRecord] *)
Fixpoint search_opl (mRecords : list OplRecord) (bcchPlmn : list Z) (lac : Z) (useLac : bool) : res Z :=
  match mRecords with
  | [] => Ok 0
  | record :: r =>
    m ← matchPlmn (mPlmn record) bcchPlmn;
    if m && (negb useLac || ((mLac1 record <=? lac) && (lac <=? mLac2 record)))
    then Ok (mPnnRecordNumber record)
    else search_opl r bcchPlmn lac useLac
  end.

Definition getMatchingPnnRecord (mRecords : list OplRecord) (operatorPlmn : list Z) (lac : Z) (useLac : bool)
  : res Z :=
  let length := lenZ operatorPlmn in
  if length <? 1 then Ok 0
  else if useLac && (lac =? -1) then Ok 0
  else if negb (length =? 5) && negb (length =? 6) then Ok 0
  else
    bcchPlmn ← for_up (Z.to_nat length) 0
                 (λ i plmn, c ← operatorPlmn.[i]; plmn.[i <- c - 48]) (fill MAX_PLMN_LEN 0);
    search_opl mRecords bcchPlmn lac useLac.

(** ** [EonsResolver] *)

Inductive EonsControlState := EF_INITING | EF_PRESENT | EF_ABSENT.
Inductive EonsState := EONS_INITING | EONS_DISABLED | EONS_PNN_PRESENT | EONS_PNN_AND_OPL_PRESENT.

Record EonsResolver := {
  mPnnDataState : EonsControlState;
  mOplDataState : EonsControlState;
  mpOplRecords : option (list OplRecord);
  mpPnnRecords : option (list PnnRecord)
}.

(** [reset], which the constructor calls *)
Definition reset : EonsResolver :=
  {| mPnnDataState := EF_INITING; mOplDataState := EF_INITING; mpOplRecords := None; mpPnnRecords := None |}.

Definition setOplData (e : EonsResolver) (records : list (option (list Z))) (recordSize numRecords : Z)
  : res EonsResolver :=
  r ← newOplRecords records recordSize numRecords;
  Ok {| mPnnDataState := mPnnDataState e;
        mOplDataState := if 0 <? lenZ r then EF_PRESENT else mOplDataState e;
        mpOplRecords := Some r; mpPnnRecords := mpPnnRecords e |}.

Definition resetOplData (e : EonsResolver) : EonsResolver :=
  {| mPnnDataState := mPnnDataState e; mOplDataState := EF_ABSENT;
     mpOplRecords := None; mpPnnRecords := mpPnnRecords e |}.

Definition setPnnData (uninit : list Z) (e : EonsResolver) (records : list (option (list Z)))
    (recordSize numRecords : Z) : res EonsResolver :=
  r ← newPnnRecords uninit records recordSize numRecords;
  Ok {| mPnnDataState := if 0 <? lenZ r then EF_PRESENT else mPnnDataState e;
        mOplDataState := mOplDataState e;
        mpOplRecords := mpOplRecords e; mpPnnRecords := Some r |}.

Definition resetPnnData (e : EonsResolver) : EonsResolver :=
  {| mPnnDataState := EF_ABSENT; mOplDataState := mOplDataState e;
     mpOplRecords := mpOplRecords e; mpPnnRecords := None |}.

Definition getEonsState (e : EonsResolver) : EonsState :=
  match mPnnDataState e, mOplDataState e with
  | EF_INITING, _ | _, EF_INITING => EONS_INITING
  | EF_PRESENT, EF_PRESENT => EONS_PNN_AND_OPL_PRESENT
  | EF_PRESENT, EF_ABSENT => EONS_PNN_PRESENT
  | EF_ABSENT, _ => EONS_DISABLED
  end.

(** a call through a pointer *)
Definition call {A B} (p : option A) (f : A → res B) : res B := match p with Some a => f a | None => UB end.

Definition updateEonsFromOplAndPnn (e : EonsResolver) (regOperator : list Z) (lac : Z) : res (list Z) :=
  pnnRecord ← call (mpOplRecords e) (λ r, getMatchingPnnRecord r regOperator lac true);
  call (mpPnnRecords e) (λ r, getNameFromPnnRecord r pnnRecord).

Definition updateEonsIfHplmn (e : EonsResolver) (regOperator simOperator : list Z) : res (list Z) :=
  if lenZ regOperator <? 1 then Ok []
  else if (0 <? lenZ simOperator) && bool_decide (simOperator = regOperator)
  then call (mpPnnRecords e) (λ r, getNameFromPnnRecord r 1)
  else Ok [].

Definition updateEons (e : EonsResolver) (regOperator : list Z) (lac : Z) (simOperator : list Z) : res (list Z) :=
  match getEonsState e with
  | EONS_PNN_AND_OPL_PRESENT => updateEonsFromOplAndPnn e regOperator lac
  | EONS_PNN_PRESENT => updateEonsIfHplmn e regOperator simOperator
  | _ => Ok []
  end.

Definition getEonsForAvailableNetworks (e : EonsResolver) (availOperator : list Z) : res (list Z) :=
  match getEonsState e with
  | EONS_PNN_AND_OPL_PRESENT =>
    pnnRecord ← call (mpOplRecords e) (λ r, getMatchingPnnRecord r availOperator (-1) false);
    call (mpPnnRecords e) (λ r, getNameFromPnnRecord r pnnRecord)
  | _ => Ok []
  end.

(** [NetworkService::OnSimFileInfo]: the file with its records *)
Inductive SimFile := NET_SIM_EF_PNN | NET_SIM_EF_OPL | OTHER_FILE.

Definition OnSimFileInfo (uninit : list Z) (e : EonsResolver) (simFileId : SimFile)
    (simFileData : list (option (list Z))) (recordLen numOfRecord : Z) : res EonsResolver :=
  match simFileId with
  | NET_SIM_EF_PNN =>
    let e := resetPnnData e in
    if 0 <? numOfRecord then setPnnData uninit e simFileData recordLen numOfRecord else Ok e
  | NET_SIM_EF_OPL =>
    let e := resetOplData e in
    if 0 <? numOfRecord then setOplData e simFileData recordLen numOfRecord else Ok e
  | OTHER_FILE => Ok e
  end.

(** [NetworkService::updateOperatorNameFromEonsResolver] *)
Inductive EonsUse := EONS_RESOLVER_REG_OPERATOR | EONS_RESOLVER_AVAILABLE_NETWORK | OTHER_USE.
Definition updateOperatorNameFromEonsResolver (e : EonsResolver) (operatorNumeric simOperator : list Z)
    (lac : Z) (useType : EonsUse) : res (list Z) :=
  match useType with
  | EONS_RESOLVER_REG_OPERATOR => updateEons e operatorNumeric lac simOperator
  | EONS_RESOLVER_AVAILABLE_NETWORK => getEonsForAvailableNetworks e operatorNumeric
  | OTHER_USE => Ok []
  end.

(** ** Record contents *)

(** filling an array cell by cell *)
Lemma fill_cells {A} (dst : list A) (f : Z → A → Prop) (body : Z → list A → res (list A)) :
  (∀ i d, 0 <= i < lenZ dst → lenZ d = lenZ dst → ∃ v, body i d = Ok (<[Z.to_nat i := v]> d) ∧ f i v) →
  ∃ d, for_up (length dst) 0 body dst = Ok d ∧ lenZ d = lenZ dst ∧
    ∀ i v, d !! i = Some v → f (Z.of_nat i) v.
Proof.
  intros Hb. destruct (for_up_inv (λ i d, lenZ d = lenZ dst ∧
      ∀ j v, 0 <= j < i → d !! Z.to_nat j = Some v → f j v) (length dst) 0 body dst) as (d & E & Hl & Hf).
  - split; [done|]. lia.
  - intros i d Hi [Hl Hf]. destruct (Hb i d) as (v & -> & Hv); [unfold lenZ; lia|done|].
    eexists. split; [done|]. split; [by rewrite lenZ_insert|]. intros j w Hj.
    destruct (decide (j = i)) as [->|].
    + rewrite list_lookup_insert_eq by (unfold lenZ in *; lia). by intros [= <-].
    + rewrite list_lookup_insert_ne by lia. apply Hf. lia.
  - exists d. split; [done|]. split; [done|]. intros i v Hi. apply Hf; [|by rewrite Nat2Z.id].
    apply lookup_lt_Some in Hi. unfold lenZ in Hl. lia.
Qed.

Lemma decodePlmn_length rec off len plmn : decodePlmn rec off len = Ok plmn → lenZ plmn = 6.
Proof.
  unfold decodePlmn. intros (code & _ & H)%bind_ok.
  apply (for_up_ok_inv (λ _ p, lenZ p = 6)) in H; [done|done|].
  intros i p p' _ Hp Hb. cbv beta in Hb. destruct (i <? lenZ code).
  - apply bind_ok in Hb as (c & _ & [_ ->]%wr_inv). by rewrite lenZ_insert.
  - apply wr_inv in Hb as [_ ->]. by rewrite lenZ_insert.
Qed.

Lemma decodePlmn_ok rec off len code :
  bcdPlmnToString rec off len = Ok code → lenZ code <= 6 →
  decodePlmn rec off len = Ok ((hexCharToInt <$> code) ++ fill (6 - lenZ code) 0).
Proof.
  intros E Hl. unfold decodePlmn. rewrite E. cbn [mbind res_bind].
  destruct (fill_cells (fill MAX_PLMN_LEN 0) (λ i v, v = if i <? lenZ code then hexCharToInt (nthZ code i) else 0)
    (λ i plmn, if i <? lenZ code then c ← code.[i]; plmn.[i <- hexCharToInt c] else plmn.[i <- 0])) as (d & Ed & Hd & Hv).
  - change (lenZ (fill MAX_PLMN_LEN 0)) with 6. intros i d Hi Hd. destruct (Z.ltb_spec i (lenZ code)).
    + rewrite nthZ_rd by lia. cbn [mbind res_bind]. rewrite wr_ok by lia. eauto.
    + rewrite wr_ok by lia. eauto.
  - change (Z.to_nat MAX_PLMN_LEN) with (length (fill MAX_PLMN_LEN 0)). rewrite Ed. f_equal.
    change (lenZ (fill MAX_PLMN_LEN 0)) with 6 in Hd. pose proof (lenZ_nonneg code).
    apply list_eq_same_length with 6%nat; [| |].
    + rewrite length_app, length_fmap. unfold fill, lenZ in *. rewrite length_replicate. lia.
    + unfold lenZ in Hd. lia.
    + intros i x y Hi Hx Hy. apply Hv in Hx as ->. destruct (Z.ltb_spec (Z.of_nat i) (lenZ code)).
      * rewrite lookup_app_l in Hy by (rewrite length_fmap; unfold lenZ in *; lia).
        rewrite list_lookup_fmap in Hy. apply fmap_Some in Hy as (c & Hc & ->).
        by rewrite (nthZ_lookup code (Z.of_nat i) c) by (by rewrite Nat2Z.id).
      * rewrite lookup_app_r in Hy by (rewrite length_fmap; unfold lenZ in *; lia).
        unfold fill in Hy. by apply lookup_replicate in Hy as [-> _].
Qed.

Lemma bytesToInt_2 p r len off hi lo :
  is_byte hi → is_byte lo → lenZ p = off → off + 2 <= len →
  bytesToInt (p ++ hi :: lo :: r) len off 2 = Ok (256 * hi + lo).
Proof.
  intros Hhi Hlo Hp Hl. pose proof (lenZ_nonneg p). unfold bytesToInt. change (4 <? 2) with false. cbn iota.
  assert ((off <? 0) || (2 <? 0) || (len <? off + 2) = false) as -> by lia.
  change (Z.to_nat 2) with 2%nat. cbn [for_up]. rewrite Z.add_0_r, (rd_at _ _ _ off) by done. cbn [mbind res_bind].
  rewrite cons_middle, app_assoc, (rd_at _ _ _ (off + (0 + 1))) by (rewrite lenZ_app; change (lenZ [hi]) with 1; lia).
  cbn [mbind res_bind]. rewrite !land_255 by done. rewrite Z.shiftl_0_l, Z.lor_0_l.
  unfold is_byte in *. rewrite (i32_id hi) by lia. rewrite Z.shiftl_mul_pow2, (lor_add hi lo 8) by lia.
  rewrite i32_id by lia. destruct (Z.ltb_spec (hi * 2 ^ 8 + lo) 0); [lia|]. f_equal. lia.
Qed.

Lemma bytesToInt_1 p r len off b :
  is_byte b → lenZ p = off → off + 1 <= len → bytesToInt (p ++ b :: r) len off 1 = Ok b.
Proof.
  intros Hb Hp Hl. pose proof (lenZ_nonneg p). unfold bytesToInt. change (4 <? 1) with false. cbn iota.
  assert ((off <? 0) || (1 <? 0) || (len <? off + 1) = false) as -> by lia.
  change (Z.to_nat 1) with 1%nat. cbn [for_up]. rewrite Z.add_0_r, (rd_at _ _ _ off) by done. cbn [mbind res_bind].
  rewrite land_255 by done. rewrite Z.shiftl_0_l, Z.lor_0_l. unfold is_byte in *. rewrite i32_id by lia.
  by destruct (Z.ltb_spec b 0); [lia|].
Qed.

Lemma hex_digits_back l :
  Forall (λ d, 0 <= d < 16) l → hexCharToInt <$> (hex_char <$> l) = l.
Proof. induction 1 as [|d l Hd Hl IH]; [done|]. by rewrite !fmap_cons, hexCharToInt_hex_char, IH. Qed.

(** an EF_OPL record: PLMN, location area range, PNN record number *)
Definition opl_bytes (mcc : Z * Z * Z) (mnc : Z * Z) (mnc3 : option Z) (lac1 lac2 n : Z) : list Z :=
  plmn_bytes mcc mnc mnc3 ++ [lac1 / 256; lac1 mod 256; lac2 / 256; lac2 mod 256; n].

(** [OplRecord] decodes every EF_OPL record: the digits of the PLMN, which
    may be the wild card, with 0 for a missing third MNC digit, the two ends of
    the range of location areas and the PNN record number. *)
Theorem OplRecord_spec (m1 m2 m3 n1 n2 : Z) (mnc3 : option Z) (lac1 lac2 n : Z) (r : list Z) (len : Z)
  (Hd : Forall (λ d, 0 <= d < 15) ([m1; m2; m3; n1; n2] ++ option_list mnc3))
  (H1 : 0 <= lac1 < 65536) (H2 : 0 <= lac2 < 65536) (Hn : is_byte n) (Hr : bytes_ok r) (Hlen : 8 <= len) :
  newOplRecord (Some (opl_bytes (m1, m2, m3) (n1, n2) mnc3 lac1 lac2 n ++ r)) len =
    Ok {| mPlmn := [m1; m2; m3; n1; n2; default 0 mnc3]; mLac1 := lac1; mLac2 := lac2; mPnnRecordNumber := n |}.
Proof.
  pose proof Hd as Hd'. repeat (apply Forall_cons_1 in Hd' as [? Hd']).
  assert (0 <= default 15 mnc3 < 16) as Hn3
    by (destruct mnc3; cbn in *; [apply Forall_cons_1 in Hd' as [? _]; lia|lia]).
  set (b0 := 16 * m2 + m1). set (b1 := 16 * default 15 mnc3 + m3). set (b2 := 16 * n2 + n1).
  set (rec := [b0; b1; b2; lac1 / 256; lac1 mod 256; lac2 / 256; lac2 mod 256; n] ++ r).
  assert (bytes_ok rec) as Hrec.
  { apply Forall_app. split; [|done]. unfold b0, b1, b2. repeat (constructor; [unfold is_byte in *; lia|]). done. }
  unfold newOplRecord, block. cbn [default from_option id]. change (opl_bytes _ _ _ _ _ _ ++ r) with rec.
  rewrite (decodePlmn_ok rec plmnOffset len (hex_char <$> [m1; m2; m3; n1; n2] ++ option_list mnc3)).
  2: { rewrite <- plmn_hex_chars by done. apply bcdPlmn_ok; try done. unfold plmnOffset; lia. }
  2: { by destruct mnc3. }
  cbn [mbind res_bind]. unfold lacOffset, pnnRecordNumberOffset.
  assert (bytesToInt rec len 3 2 = Ok (256 * (lac1 / 256) + lac1 mod 256)) as ->.
  { refine (bytesToInt_2 [b0; b1; b2] ([lac2 / 256; lac2 mod 256; n] ++ r) _ _ _ _ _ _ _ _); unfold is_byte; done || lia. }
  cbn [mbind res_bind]. assert (bytesToInt rec len (3 + 2) 2 = Ok (256 * (lac2 / 256) + lac2 mod 256)) as ->.
  { refine (bytesToInt_2 [b0; b1; b2; lac1 / 256; lac1 mod 256] (n :: r) _ _ _ _ _ _ _ _); unfold is_byte; done || lia. }
  cbn [mbind res_bind]. assert (bytesToInt rec len 7 1 = Ok n) as ->.
  { refine (bytesToInt_1 [b0; b1; b2; lac1 / 256; lac1 mod 256; lac2 / 256; lac2 mod 256] r _ _ _ _ _ _); done || lia. }
  cbn [mbind res_bind]. do 2 f_equal.
  - rewrite hex_digits_back by (eapply Forall_impl; [exact Hd|]; cbn; intros; lia). by destruct mnc3.
  - lia.
  - lia.
Qed.

Lemma OplRecord_spec_witness :
  newOplRecord (Some (opl_bytes (4, 5, 0) (0, 13) None 1 65534 2 ++ [255])) 9 =
    Ok {| mPlmn := [4; 5; 0; 0; 13; default 0 None]; mLac1 := 1; mLac2 := 65534; mPnnRecordNumber := 2 |}.
Proof. refine (OplRecord_spec 4 5 0 0 13 None 1 65534 2 [255] 9 _ _ _ _ _ _); by_eval. Defined.

(** ** Matching *)

(** a digit of a record matches the same digit; the wild card matches all *)
Definition plmn_matches (simPlmn bcchPlmn : list Z) : bool :=
  forallb (λ p, (p.2 =? p.1) || (p.1 =? wildCardDigit)) (zip simPlmn bcchPlmn).

Definition opl_matches (bcchPlmn : list Z) (lac : Z) (useLac : bool) (r : OplRecord) : bool :=
  plmn_matches (mPlmn r) bcchPlmn && (negb useLac || ((mLac1 r <=? lac) && (lac <=? mLac2 r))).

Definition opl_wf (r : OplRecord) : Prop := lenZ (mPlmn r) = 6.
#[export] Instance opl_wf_dec r : Decision (opl_wf r).
Proof. unfold opl_wf. apply _. Defined.

(** the digits of an operator code, with 0 for a missing sixth *)
Definition operator_digits (op : list Z) : list Z := take 6 (((λ c, c - 48) <$> op) ++ [0]).

Lemma list_of_6 {A} (l : list A) : lenZ l = 6 → ∃ a b c d e f, l = [a; b; c; d; e; f].
Proof.
  unfold lenZ. intros H. do 6 (destruct l as [|? l]; [cbn in H; lia|]). destruct l; [eauto 10|cbn in H; lia].
Qed.

Lemma matchPlmn_ok simPlmn bcchPlmn :
  lenZ simPlmn = 6 → lenZ bcchPlmn = 6 → matchPlmn simPlmn bcchPlmn = Ok (plmn_matches simPlmn bcchPlmn).
Proof.
  intros (a & b & c & d & e & f & ->)%list_of_6 (a' & b' & c' & d' & e' & f' & ->)%list_of_6.
  set (m := λ x y : Z, (y =? x) || (x =? wildCardDigit)).
  transitivity (Ok (true && m a a' && m b b' && m c c' && m d d' && m e e' && m f f')); [reflexivity|].
  unfold plmn_matches. cbn [zip zip_with forallb fst snd]. fold (m a a') (m b b') (m c c') (m d d') (m e e') (m f f').
  by rewrite andb_true_r, !andb_assoc.
Qed.

Lemma search_opl_ok mRecords bcchPlmn lac useLac :
  Forall opl_wf mRecords → lenZ bcchPlmn = 6 →
  search_opl mRecords bcchPlmn lac useLac =
    Ok (match List.find (opl_matches bcchPlmn lac useLac) mRecords with
        | Some r => mPnnRecordNumber r | None => 0 end).
Proof.
  intros Hr Hb. induction Hr as [|r rs Hw Hr IH]; [done|]. cbn [search_opl List.find].
  rewrite matchPlmn_ok by done. cbn [mbind res_bind]. fold (opl_matches bcchPlmn lac useLac r).
  by destruct (opl_matches bcchPlmn lac useLac r).
Qed.

Lemma operator_digits_ok op :
  lenZ op = 5 ∨ lenZ op = 6 →
  for_up (Z.to_nat (lenZ op)) 0 (λ i plmn, c ← op.[i]; plmn.[i <- c - 48]) (fill MAX_PLMN_LEN 0) =
    Ok (operator_digits op) ∧ lenZ (operator_digits op) = 6.
Proof.
  unfold operator_digits. intros [H|H].
  - unfold lenZ in H. do 5 (destruct op as [|? op]; [cbn in H; lia|]). by destruct op; [|cbn in H; lia].
  - by apply list_of_6 in H as (a & b & c & d & e & f & ->).
Qed.

(** [getMatchingPnnRecord] returns the PNN record number of the first OPL
    record whose PLMN matches the operator, wild cards included, and whose range
    holds the location area when one is asked for; and 0 when there is none or
    the request is invalid. *)
Theorem getMatchingPnnRecord_spec (mRecords : list OplRecord) (op : list Z) (lac : Z) (useLac : bool)
  (Hwf : Forall opl_wf mRecords) :
  getMatchingPnnRecord mRecords op lac useLac =
    Ok (if (useLac && (lac =? -1)) || negb ((lenZ op =? 5) || (lenZ op =? 6)) then 0
        else match List.find (opl_matches (operator_digits op) lac useLac) mRecords with
             | Some r => mPnnRecordNumber r | None => 0 end).
Proof.
  unfold getMatchingPnnRecord. pose proof (lenZ_nonneg op). rewrite <- negb_orb.
  destruct (Z.ltb_spec (lenZ op) 1).
  - assert (((lenZ op =? 5) || (lenZ op =? 6)) = false) as -> by lia. by rewrite orb_true_r.
  - destruct (useLac && (lac =? -1)); [done|]. cbn [orb].
    destruct ((lenZ op =? 5) || (lenZ op =? 6)) eqn:E; [|done]. cbn [negb].
    destruct (operator_digits_ok op) as [-> ?]; [lia|]. cbn [mbind res_bind]. by apply search_opl_ok.
Qed.

Lemma getMatchingPnnRecord_spec_witness :
  let rs := [{| mPlmn := [4; 5; 0; 0; 13; 0]; mLac1 := 0; mLac2 := 10; mPnnRecordNumber := 1 |};
             {| mPlmn := [4; 5; 0; 0; 8; 0]; mLac1 := 0; mLac2 := 65534; mPnnRecordNumber := 2 |}] in
  getMatchingPnnRecord rs (str "45008") 77 true =
    Ok (if (true && (77 =? -1)) || negb ((lenZ (str "45008") =? 5) || (lenZ (str "45008") =? 6)) then 0
        else match List.find (opl_matches (operator_digits (str "45008")) 77 true) rs with
             | Some r => mPnnRecordNumber r | None => 0 end).
Proof. refine (getMatchingPnnRecord_spec _ (str "45008") 77 true _); by_eval. Defined.

(** ** Lists of records *)

Lemma newOplRecord_wf record len r : newOplRecord record len = Ok r → opl_wf r.
Proof. unfold newOplRecord. intros H. res_inv. unfold opl_wf. cbn. by eapply decodePlmn_length. Qed.

Lemma newOplRecords_wf records size n rs : newOplRecords records size n = Ok rs → Forall opl_wf rs.
Proof.
  unfold newOplRecords. intros H. apply (for_up_ok_inv (λ _ rs, Forall opl_wf rs)) in H; [done|done|].
  intros i a b _ Ha Hb. apply bind_ok in Hb as (rec & _ & Hb). apply bind_ok in Hb as (r & Hr & Hb).
  apply newOplRecord_wf in Hr. destruct (isPlmnEmpty r); injection Hb as <-; [done|].
  apply Forall_app. split; [done|]. by constructor.
Qed.

(** what the two loops keep: the records that are not empty, in order *)
Lemma keep_records {R P} (records : list R) (n : nat) (parse : R → res P) (skip : P → bool) (ps : list P) :
  Forall2 (λ r p, parse r = Ok p) records ps → length records = n →
  for_up n 0 (λ i acc, r ← records.[i]; p ← parse r; if skip p then Ok acc else Ok (acc ++ [p])) [] =
    Ok (base.filter (λ p, skip p = false) ps).
Proof.
  intros Hps Hn. apply Forall2_length in Hps as Hl.
  destruct (for_up_inv (λ i acc, acc = base.filter (λ p, skip p = false) (take (Z.to_nat i) ps)) n 0
    (λ i acc, r ← records.[i]; p ← parse r; if skip p then Ok acc else Ok (acc ++ [p])) []) as (acc & -> & ->).
  - done.
  - intros i acc Hi ->. destruct (rd_ok records i) as (r & -> & Er); [unfold lenZ; lia|]. cbn [mbind res_bind].
    destruct (Forall2_lookup_l _ _ _ _ _ Hps Er) as (p & Ep & ->). cbn [mbind res_bind].
    rewrite (take_Z_snoc ps i p), filter_app by (done || lia).
    destruct (skip p) eqn:Es; (eexists; split; [done|]).
    + by rewrite filter_cons_False, filter_nil, app_nil_r by (by rewrite Es).
    + by rewrite filter_cons_True, filter_nil by done.
  - f_equal. rewrite take_ge by lia. done.
Qed.

(** ** The resolver *)

(** the states the resolver goes through *)
Inductive eons_reachable (uninit : list Z) : EonsResolver → Prop :=
| reach_reset : eons_reachable uninit reset
| reach_file e f data len n e' :
    eons_reachable uninit e → OnSimFileInfo uninit e f data len n = Ok e' → eons_reachable uninit e'.

(** data that is marked present is there *)
Definition eons_wf (e : EonsResolver) : Prop :=
  (mPnnDataState e = EF_PRESENT → is_Some (mpPnnRecords e)) ∧
  (mOplDataState e = EF_PRESENT → is_Some (mpOplRecords e)) ∧
  (∀ r, mpOplRecords e = Some r → Forall opl_wf r).

Lemma eons_reachable_wf uninit e : eons_reachable uninit e → eons_wf e.
Proof.
  induction 1 as [|e f data len n e' Hr (Hp & Ho & Hw) H]; [done|].
  unfold OnSimFileInfo, setPnnData, setOplData in H. destruct f; destruct (0 <? n);
    res_inv; unfold eons_wf; cbn; split_and!; try done; try eauto.
  - intros r [= <-]. by eapply newOplRecords_wf.
Qed.

Lemma getName_ok rs n :
  getNameFromPnnRecord rs n =
    Ok (if 1 <=? n then match rs !! Z.to_nat (n - 1) with Some r => mFullName r | None => [] end else []).
Proof.
  unfold getNameFromPnnRecord. destruct (Z.ltb_spec n 1); destruct (Z.leb_spec 1 n); try lia; [done|]. cbn [orb].
  destruct (Z.ltb_spec (lenZ rs) n).
  - rewrite lookup_ge_None_2; [done|]. unfold lenZ in *. lia.
  - destruct (rd_ok rs (n - 1)) as (r & -> & ->); [lia|]. done.
Qed.

Lemma getMatching_total rs op lac u : Forall opl_wf rs → ∃ n, getMatchingPnnRecord rs op lac u = Ok n.
Proof.
  intros Hw. unfold getMatchingPnnRecord. destruct (lenZ op <? 1); [eauto|]. destruct (u && (lac =? -1)); [eauto|].
  rewrite <- negb_orb. destruct ((lenZ op =? 5) || (lenZ op =? 6)) eqn:E; cbn [negb]; [|eauto].
  destruct (operator_digits_ok op) as [-> ?]; [lia|]. cbn [mbind res_bind]. rewrite search_opl_ok by done. eauto.
Qed.

(** In every state that SIM file indications lead to, a name query of
    either kind returns: the resolver never follows a null record table, and
    never reads outside a record. *)
Theorem eons_query_safe (uninit : list Z) (e : EonsResolver) (op sim : list Z) (lac : Z) (use : EonsUse)
  (Hreach : eons_reachable uninit e) :
  ∃ name, updateOperatorNameFromEonsResolver e op sim lac use = Ok name.
Proof.
  apply eons_reachable_wf in Hreach as (Hp & Ho & Hw). destruct e as [ps os opl pnn]. cbn in *.
  assert (∀ l u, ps = EF_PRESENT → os = EF_PRESENT →
    ∃ name, (n ← call opl (λ r, getMatchingPnnRecord r op l u); call pnn (λ r, getNameFromPnnRecord r n)) = Ok name) as Hboth.
  { intros l u E1 E2. destruct (Hp E1) as [p ->], (Ho E2) as [o ->]. cbn [call].
    destruct (getMatching_total o op l u) as (n & ->); [by apply Hw|]. cbn [mbind res_bind].
    rewrite getName_ok. eauto. }
  destruct use; cbn [updateOperatorNameFromEonsResolver]; [| |eauto].
  - unfold updateEons, getEonsState. cbn [mPnnDataState mOplDataState].
    destruct ps, os; try (by exists []); [by apply Hboth|].
    unfold updateEonsIfHplmn. destruct (lenZ op <? 1); [eauto|]. destruct (_ && _); [|eauto].
    destruct (Hp eq_refl) as [p ->]. cbn [call mpPnnRecords]. rewrite getName_ok. eauto.
  - unfold getEonsForAvailableNetworks, getEonsState. cbn [mPnnDataState mOplDataState].
    destruct ps, os; try (by exists []). by apply Hboth.
Qed.

Lemma eons_query_safe_witness :
  ∃ name, updateOperatorNameFromEonsResolver reset (str "45008") [] 1 EONS_RESOLVER_REG_OPERATOR = Ok name.
Proof. refine (eons_query_safe [] reset (str "45008") [] 1 EONS_RESOLVER_REG_OPERATOR _); apply reach_reset. Defined.

(** the records the tables keep *)
Definition named (ps : list PnnRecord) : list PnnRecord :=
  base.filter (λ p, IsEmpty (Some (mFullName p)) = false) ps.
Definition used (os : list OplRecord) : list OplRecord :=
  base.filter (λ o, isPlmnEmpty o = false) os.

(** the name of the [n]-th kept record, counted from 1 *)
Definition pnn_name (ps : list PnnRecord) (n : Z) : list Z :=
  if 1 <=? n then match named ps !! Z.to_nat (n - 1) with Some r => mFullName r | None => [] end else [].

(** C39: After the indications of EF_PNN and EF_OPL, of records that can be parsed and some of
    which are in use, the name of an operator of five or six digits that is registered
    in a known location is found by the first matching OPL
    record: with the number [n] in it, it is the name of the [n]-th of those PNN
    records that have a full name.  The records without one are not counted, so this
    is the [n]-th record of EF_PNN only if none before it is empty
    ([empty_record_shifts]); without a matching record there is no name. *)
Theorem eons_registered_name (uninit : list Z) (pnn opl : list (option (list Z))) (plen olen : Z)
  (ps : list PnnRecord) (os : list OplRecord) (op sim : list Z) (lac : Z)
  (Hp : Forall2 (λ r p, newPnnRecord uninit r plen = Ok p) pnn ps)
  (Ho : Forall2 (λ r o, newOplRecord r olen = Ok o) opl os)
  (Hne : named ps ≠ [] ∧ used os ≠ []) (Hop : lenZ op = 5 ∨ lenZ op = 6) (Hlac : lac ≠ -1) :
  ∃ e1 e2, OnSimFileInfo uninit reset NET_SIM_EF_PNN pnn plen (lenZ pnn) = Ok e1 ∧
    OnSimFileInfo uninit e1 NET_SIM_EF_OPL opl olen (lenZ opl) = Ok e2 ∧
    updateOperatorNameFromEonsResolver e2 op sim lac EONS_RESOLVER_REG_OPERATOR =
      Ok (match List.find (opl_matches (operator_digits op) lac true) (used os) with
          | Some r => pnn_name ps (mPnnRecordNumber r) | None => [] end).
Proof.
  destruct Hne as [Hn1 Hn2].
  assert (newPnnRecords uninit pnn plen (lenZ pnn) = Ok (named ps)) as Ep.
  { apply (keep_records pnn _ (λ r, newPnnRecord uninit r plen) (λ p, IsEmpty (Some (mFullName p)))); [done|].
    unfold lenZ. lia. }
  assert (newOplRecords opl olen (lenZ opl) = Ok (used os)) as Eo.
  { apply (keep_records opl _ (λ r, newOplRecord r olen) isPlmnEmpty); [done|]. unfold lenZ. lia. }
  assert (Forall opl_wf (used os)) as Hw by (by eapply newOplRecords_wf).
  apply Forall2_length in Hp as Lp, Ho as Lo.
  assert (0 < lenZ pnn) as Hpl by (destruct pnn, ps; try done; rewrite lenZ_cons; pose proof (lenZ_nonneg pnn); lia).
  assert (0 < lenZ opl) as Hol by (destruct opl, os; try done; rewrite lenZ_cons; pose proof (lenZ_nonneg opl); lia).
  assert (∀ A (l : list A), l ≠ [] → (0 <? lenZ l) = true) as Hpos.
  { intros A [|x l] Hl; [done|]. rewrite lenZ_cons. pose proof (lenZ_nonneg l). lia. }
  unfold OnSimFileInfo. destruct (Z.ltb_spec 0 (lenZ pnn)); [|lia]. unfold setPnnData. rewrite Ep. cbn [mbind res_bind].
  rewrite Hpos by done. eexists _, _. split; [done|].
  destruct (Z.ltb_spec 0 (lenZ opl)); [|lia]. unfold setOplData. rewrite Eo. cbn [mbind res_bind].
  rewrite Hpos by done. split; [done|].
  unfold updateOperatorNameFromEonsResolver, updateEons, updateEonsFromOplAndPnn. cbn [getEonsState call
    mPnnDataState mOplDataState mpOplRecords mpPnnRecords resetOplData resetPnnData].
  unfold getEonsState. cbn [mPnnDataState mOplDataState resetOplData call mpOplRecords mpPnnRecords].
  unfold getMatchingPnnRecord. destruct (Z.ltb_spec (lenZ op) 1); [lia|].
  destruct (Z.eqb_spec lac (-1)); [done|]. cbn [andb]. rewrite <- negb_orb.
  assert (((lenZ op =? 5) || (lenZ op =? 6)) = true) as -> by lia. cbn [negb].
  destruct (operator_digits_ok op) as [-> ?]; [lia|]. cbn [mbind res_bind]. rewrite search_opl_ok by done.
  cbn [mbind res_bind]. rewrite getName_ok. f_equal.
  destruct (List.find _ _); done.
Qed.

Lemma eons_registered_name_witness :
  let pnn := [Some [67; 2; 129; 65]; Some [67; 2; 129; 66]] in
  let opl := [Some (opl_bytes (4, 5, 0) (0, 8) None 0 65534 2)] in
  let ps := [{| mFullName := str "A"; mShortName := []; mAddInfo := [] |};
             {| mFullName := str "B"; mShortName := []; mAddInfo := [] |}] in
  let os := [{| mPlmn := [4; 5; 0; 0; 8; 0]; mLac1 := 0; mLac2 := 65534; mPnnRecordNumber := 2 |}] in
  ∃ e1 e2, OnSimFileInfo [] reset NET_SIM_EF_PNN pnn 4 (lenZ pnn) = Ok e1 ∧
    OnSimFileInfo [] e1 NET_SIM_EF_OPL opl 8 (lenZ opl) = Ok e2 ∧
    updateOperatorNameFromEonsResolver e2 (str "45008") [] 7 EONS_RESOLVER_REG_OPERATOR =
      Ok (match List.find (opl_matches (operator_digits (str "45008")) 7 true) (used os) with
          | Some r => pnn_name ps (mPnnRecordNumber r) | None => [] end).
Proof.
  intros pnn opl ps os. refine (eons_registered_name [] pnn opl 4 8 ps os (str "45008") [] 7 _ _ _ _ _).
  - by repeat constructor.
  - by repeat constructor.
  - split; vm_compute; discriminate.
  - by left.
  - discriminate.
Defined.

(** the record number of an OPL record counts the records of EF_PNN, an empty
    first one included; the table does not *)
Lemma empty_record_shifts :
  let ps := [{| mFullName := []; mShortName := []; mAddInfo := [] |};
             {| mFullName := str "B"; mShortName := []; mAddInfo := [] |}] in
  pnn_name ps 2 = [] ∧ pnn_name ps 1 = str "B".
Proof. by vm_compute. Qed.
