(* ===== verification/CdmaSms.v ===== *)
(** CDMA SMS transport layer messages, [fw/cdmasmsdata.cpp]: [CCdmaSmsMessage]
    with the two conversions between [RIL_CDMA_SMS_Message] and the message of
    3GPP2 C.S0015, and the request data classes built on it.

    A [do { ... } while (1)] loop is a [loop] with fuel; each round advances the
    index, so that the message length bounds the number of rounds.  The system
    property read by [ConstructTransportLayerMsg] is the argument
    [no_brr_reply]. *)
From S2P Require Import Prelude BitStream.

(** ** Data *)

Definition RIL_CDMA_SMS_ADDRESS_MAX : Z := 36.
Definition RIL_CDMA_SMS_SUBADDRESS_MAX : Z := 36.
Definition RIL_CDMA_SMS_BEARER_DATA_MAX : Z := 255.
Definition MAX_CDMA_SMS_MSG_SIZE : Z := 348.

Definition TRANSPORT_LAYER_MESSAGE_TYPE_POINT_TO_POINT : Z := 0.
Definition TRANSPORT_LAYER_MESSAGE_TYPE_BROADCAST : Z := 1.
Definition PARAMETER_TELESERVICE_IDENTIFIER : Z := 0.
Definition PARAMETER_SERVICE_CATEGORY : Z := 1.
Definition PARAMETER_ORIGINATING_ADDRESS : Z := 2.
Definition PARAMETER_ORIGINATING_SUBADDRESS : Z := 3.
Definition PARAMETER_DESTINATION_ADDRESS : Z := 4.
Definition PARAMETER_DESTINATION_SUBADDRESS : Z := 5.
Definition PARAMETER_BEARER_REPLY_OPTION : Z := 6.
Definition PARAMETER_CAUSE_CODES : Z := 7.
Definition PARAMETER_BEARER_DATA : Z := 8.
Definition PARAMETER_LENGTH_TELESERVICE_IDENTIFIER : Z := 2.
Definition PARAMETER_LENGTH_SERVICE_CATEGORY : Z := 2.
Definition PARAMETER_LENGTH_BEARER_REPLY_OPTION : Z := 1.
Definition MESSAGE_TYPE_DELIVER : Z := 1.
Definition MESSAGE_TYPE_SUBMIT : Z := 2.
Definition SUBPARAM_MESSAGE_IDENTIFIER : Z := 0.
Definition RIL_CDMA_SMS_DIGIT_MODE_8_BIT : Z := 1.
Definition RIL_CDMA_SMS_NUMBER_MODE_NOT_DATA_NETWORK : Z := 0.

Record RIL_CDMA_SMS_Address := {
  digit_mode : Z; number_mode : Z; number_type : Z; number_plan : Z;
  number_of_digits : Z; digits : list Z
}.
Record RIL_CDMA_SMS_Subaddress := {
  subaddressType : Z; odd : Z; sub_number_of_digits : Z; sub_digits : list Z
}.
Record RIL_CDMA_SMS_Message := {
  uTeleserviceID : Z; bIsServicePresent : Z; uServicecategory : Z;
  sAddress : RIL_CDMA_SMS_Address; sSubAddress : RIL_CDMA_SMS_Subaddress;
  uBearerDataLen : Z; aBearerData : list Z
}.

(** [memset(m_ptRcsm, 0, ...)] *)
Definition zero_address : RIL_CDMA_SMS_Address :=
  {| digit_mode := 0; number_mode := 0; number_type := 0; number_plan := 0; number_of_digits := 0;
     digits := fill RIL_CDMA_SMS_ADDRESS_MAX 0 |}.
Definition zero_subaddress : RIL_CDMA_SMS_Subaddress :=
  {| subaddressType := 0; odd := 0; sub_number_of_digits := 0; sub_digits := fill RIL_CDMA_SMS_SUBADDRESS_MAX 0 |}.
Definition zero_message : RIL_CDMA_SMS_Message :=
  {| uTeleserviceID := 0; bIsServicePresent := 0; uServicecategory := 0; sAddress := zero_address;
     sSubAddress := zero_subaddress; uBearerDataLen := 0; aBearerData := fill RIL_CDMA_SMS_BEARER_DATA_MAX 0 |}.

Definition with_teleservice (m : RIL_CDMA_SMS_Message) (v : Z) : RIL_CDMA_SMS_Message :=
  {| uTeleserviceID := v; bIsServicePresent := bIsServicePresent m; uServicecategory := uServicecategory m;
     sAddress := sAddress m; sSubAddress := sSubAddress m; uBearerDataLen := uBearerDataLen m; aBearerData := aBearerData m |}.
Definition with_category (m : RIL_CDMA_SMS_Message) (v : Z) : RIL_CDMA_SMS_Message :=
  {| uTeleserviceID := uTeleserviceID m; bIsServicePresent := 1; uServicecategory := v;
     sAddress := sAddress m; sSubAddress := sSubAddress m; uBearerDataLen := uBearerDataLen m; aBearerData := aBearerData m |}.
Definition with_address (m : RIL_CDMA_SMS_Message) (a : RIL_CDMA_SMS_Address) : RIL_CDMA_SMS_Message :=
  {| uTeleserviceID := uTeleserviceID m; bIsServicePresent := bIsServicePresent m; uServicecategory := uServicecategory m;
     sAddress := a; sSubAddress := sSubAddress m; uBearerDataLen := uBearerDataLen m; aBearerData := aBearerData m |}.
Definition with_subaddress (m : RIL_CDMA_SMS_Message) (a : RIL_CDMA_SMS_Subaddress) : RIL_CDMA_SMS_Message :=
  {| uTeleserviceID := uTeleserviceID m; bIsServicePresent := bIsServicePresent m; uServicecategory := uServicecategory m;
     sAddress := sAddress m; sSubAddress := a; uBearerDataLen := uBearerDataLen m; aBearerData := aBearerData m |}.
Definition with_bearer (m : RIL_CDMA_SMS_Message) (n : Z) (d : list Z) : RIL_CDMA_SMS_Message :=
  {| uTeleserviceID := uTeleserviceID m; bIsServicePresent := bIsServicePresent m; uServicecategory := uServicecategory m;
     sAddress := sAddress m; sSubAddress := sSubAddress m; uBearerDataLen := n; aBearerData := d |}.

(** ** Building a transport layer message *)

(** the loop of [GetSubparameterDataFromBearerData]; a hit is the length and
    the index of the data in [aBearerData] *)
Definition subparam_step (bearer : list Z) (bearerLen subparam index : Z) : res (ctl Z (option (Z * Z))) :=
  if index + 2 <? bearerLen then
    id ← bearer.[index];
    len ← bearer.[index + 1];
    if id =? subparam then Ok (Stop (Some (len, index + 2)))
    else Ok (Next (u16 (index + 2 + len)))
  else Ok (Stop None).

Definition GetSubparameterDataFromBearerData (m : RIL_CDMA_SMS_Message) (subparam : Z) : res (option (Z * Z)) :=
  let bearerLen := u8 (Z.min (uBearerDataLen m) RIL_CDMA_SMS_BEARER_DATA_MAX) in
  loop 256 (subparam_step (aBearerData m) bearerLen subparam) 0.

(** [msg[index++] = v] *)
Definition put (v : Z) (st : list Z * Z) : res (list Z * Z) :=
  msg ← st.1.[st.2 <- v]; Ok (msg, u16 (st.2 + 1)).
(** [memcpy(&msg[index], src, n); index += n] *)
Definition put_n (src : list Z) (n : Z) (st : list Z * Z) : res (list Z * Z) :=
  b ← rdn src 0 n; msg ← wrn st.1 st.2 b; Ok (msg, u16 (st.2 + n)).
(** the cells behind the stream's pointer *)
Definition stream_cells (s : CBitwiseOutputStream) : list Z := default [] (out_m_pbBuf s).

(** [for (i = 0; i < n; i++) bwOutData->Write(w, digits[i]);] *)
Definition write_digits (w n : Z) (digits : list Z) (s : CBitwiseOutputStream) : res CBitwiseOutputStream :=
  for_up (Z.to_nat n) 0 (λ i s, d ← digits.[i]; Write s w (u8 d)) s.

(** the address parameter: its cells and [addressLen] *)
Definition build_address (a : RIL_CDMA_SMS_Address) : res (list Z * Z) :=
  let address := fill (RIL_CDMA_SMS_ADDRESS_MAX + 3) 0 in
  let s := newOutputStream (Some address) (RIL_CDMA_SMS_ADDRESS_MAX + 3) in
  let digitLen := u8 (Z.min (number_of_digits a) RIL_CDMA_SMS_ADDRESS_MAX) in
  s ← Write s 1 (u8 (digit_mode a));
  s ← Write s 1 (u8 (number_mode a));
  s ← (if digit_mode a =? RIL_CDMA_SMS_DIGIT_MODE_8_BIT then
         s ← Write s 3 (u8 (number_type a));
         if number_mode a =? RIL_CDMA_SMS_NUMBER_MODE_NOT_DATA_NETWORK
         then Write s 4 (u8 (number_plan a)) else Ok s
       else Ok s);
  s ← Write s 8 digitLen;
  s ← (if digit_mode a =? RIL_CDMA_SMS_DIGIT_MODE_8_BIT then write_digits 8 digitLen (digits a) s
       else write_digits 4 digitLen (digits a) s);
  Ok (stream_cells s, u8 (GetArrayIndex s + 1)).

Definition build_subaddress (a : RIL_CDMA_SMS_Subaddress) (digitLen : Z) : res (list Z * Z) :=
  let subAddress := fill (RIL_CDMA_SMS_SUBADDRESS_MAX + 2) 0 in
  let s := newOutputStream (Some subAddress) (RIL_CDMA_SMS_SUBADDRESS_MAX + 2) in
  s ← Write s 3 (u8 (subaddressType a));
  s ← Write s 1 (u8 (odd a));
  s ← Write s 8 digitLen;
  s ← write_digits 8 digitLen (sub_digits a) s;
  Ok (stream_cells s, u8 (GetArrayIndex s + 1)).

Definition message_type (m : RIL_CDMA_SMS_Message) : res Z :=
  sp ← GetSubparameterDataFromBearerData m SUBPARAM_MESSAGE_IDENTIFIER;
  match sp with
  | None => Ok MESSAGE_TYPE_SUBMIT
  | Some (subParamLen, index) =>
    if subParamLen =? 0 then Ok MESSAGE_TYPE_SUBMIT
    else
      b ← (aBearerData m).[index];
      let messageType := Z.land (Z.shiftr b 4) 15 in
      Ok (if negb (messageType =? MESSAGE_TYPE_DELIVER) && negb (messageType =? MESSAGE_TYPE_SUBMIT)
          then MESSAGE_TYPE_SUBMIT else messageType)
  end.

(** the cells of [m_pbMsg]; [m_uMsgLen] is their number *)
Definition ConstructTransportLayerMsg (no_brr_reply : bool) (m : RIL_CDMA_SMS_Message) : res (list Z) :=
  messageType ← message_type m;
  st ← put TRANSPORT_LAYER_MESSAGE_TYPE_POINT_TO_POINT (fill MAX_CDMA_SMS_MSG_SIZE 0, 0);
  st ← put PARAMETER_TELESERVICE_IDENTIFIER st;
  st ← put PARAMETER_LENGTH_TELESERVICE_IDENTIFIER st;
  let t := u16 (uTeleserviceID m) in
  st ← put (u8 (Z.land (Z.shiftr t 8) 255)) st;
  st ← put (u8 (Z.land t 255)) st;
  st ← (if negb (uServicecategory m =? 0) then
          st ← put PARAMETER_SERVICE_CATEGORY st;
          st ← put PARAMETER_LENGTH_SERVICE_CATEGORY st;
          let c := u16 (uServicecategory m) in
          st ← put (u8 (Z.land (Z.shiftr c 8) 255)) st;
          put (u8 (Z.land c 255)) st
        else Ok st);
  a ← build_address (sAddress m);
  st ← put (if messageType =? MESSAGE_TYPE_SUBMIT then PARAMETER_DESTINATION_ADDRESS
            else PARAMETER_ORIGINATING_ADDRESS) st;
  st ← put a.2 st;
  st ← put_n a.1 a.2 st;
  let digitLen := u8 (Z.min (sub_number_of_digits (sSubAddress m)) RIL_CDMA_SMS_SUBADDRESS_MAX) in
  st ← (if negb (digitLen =? 0) then
          s ← build_subaddress (sSubAddress m) digitLen;
          st ← put (if messageType =? MESSAGE_TYPE_SUBMIT then PARAMETER_DESTINATION_SUBADDRESS
                    else PARAMETER_ORIGINATING_SUBADDRESS) st;
          st ← put s.2 st;
          put_n s.1 s.2 st
        else Ok st);
  st ← (if negb no_brr_reply then
          st ← put PARAMETER_BEARER_REPLY_OPTION st;
          st ← put PARAMETER_LENGTH_BEARER_REPLY_OPTION st;
          put 0 st
        else Ok st);
  let bearerLen := u8 (Z.min (uBearerDataLen m) RIL_CDMA_SMS_BEARER_DATA_MAX) in
  st ← put PARAMETER_BEARER_DATA st;
  st ← put bearerLen st;
  b ← rdn (aBearerData m) 0 bearerLen;
  msg ← wrn st.1 st.2 b;
  rdn msg 0 (u16 (st.2 + bearerLen)).

(** ** Reading a transport layer message *)

(** [for (i = 0; i < n; i++) digits[i] = bwInData->Read(w);] *)
Definition read_digits (w n : Z) (digits : list Z) (s : CBitwiseInputStream) : res (list Z * CBitwiseInputStream) :=
  for_up (Z.to_nat n) 0 (λ i '(digits, s), '(v, s) ← Read s w; digits ← digits.[i <- v]; Ok (digits, s)) (digits, s).

Definition read_address (a : RIL_CDMA_SMS_Address) (s : CBitwiseInputStream) : res RIL_CDMA_SMS_Address :=
  '(dm, s) ← Read s 1;
  '(nm, s) ← Read s 1;
  '(nt, np, s) ← (if dm =? RIL_CDMA_SMS_DIGIT_MODE_8_BIT then
                    '(nt, s) ← Read s 3;
                    if nm =? RIL_CDMA_SMS_NUMBER_MODE_NOT_DATA_NETWORK
                    then '(np, s) ← Read s 4; Ok (nt, np, s) else Ok (nt, number_plan a, s)
                  else Ok (number_type a, number_plan a, s));
  '(n, s) ← Read s 8;
  '(ds, s) ← (if dm =? RIL_CDMA_SMS_DIGIT_MODE_8_BIT then read_digits 8 n (digits a) s
              else read_digits 4 n (digits a) s);
  Ok {| digit_mode := dm; number_mode := nm; number_type := nt; number_plan := np; number_of_digits := n; digits := ds |}.

Definition read_subaddress (a : RIL_CDMA_SMS_Subaddress) (s : CBitwiseInputStream) : res RIL_CDMA_SMS_Subaddress :=
  '(ty, s) ← Read s 3;
  '(od, s) ← Read s 1;
  '(n, s) ← Read s 8;
  '(ds, s) ← read_digits 8 n (sub_digits a) s;
  Ok {| subaddressType := ty; odd := od; sub_number_of_digits := n; sub_digits := ds |}.

(** the [switch] over [parameterId]; [index] is where its data starts *)
Definition read_parameter (msg : list Z) (parameterId parameterLen index : Z) (m : RIL_CDMA_SMS_Message)
  : res RIL_CDMA_SMS_Message :=
  let id := parameterId in
  if id =? PARAMETER_TELESERVICE_IDENTIFIER then
    h ← msg.[index]; l ← msg.[index + 1];
    Ok (with_teleservice m (Z.lor (Z.land (Z.shiftl h 8) 65280) l))
  else if id =? PARAMETER_SERVICE_CATEGORY then
    h ← msg.[index]; l ← msg.[index + 1];
    Ok (with_category m (Z.lor (Z.land (Z.shiftl h 8) 65280) l))
  else if (id =? PARAMETER_DESTINATION_ADDRESS) || (id =? PARAMETER_ORIGINATING_ADDRESS) then
    a ← read_address (sAddress m) (newInputStream (Some (drop (Z.to_nat index) msg)) parameterLen);
    Ok (with_address m a)
  else if (id =? PARAMETER_DESTINATION_SUBADDRESS) || (id =? PARAMETER_ORIGINATING_SUBADDRESS) then
    a ← read_subaddress (sSubAddress m) (newInputStream (Some (drop (Z.to_nat index) msg)) parameterLen);
    Ok (with_subaddress m a)
  else if id =? PARAMETER_BEARER_DATA then
    b ← rdn msg index parameterLen;
    d ← wrn (aBearerData m) 0 b;
    Ok (with_bearer m parameterLen d)
  else Ok m.

(** one round; the state is [index] and [*m_ptRcsm] *)
Definition parse_step (msg : list Z) (m_uMsgLen : Z) (st : Z * RIL_CDMA_SMS_Message)
  : res (ctl (Z * RIL_CDMA_SMS_Message) RIL_CDMA_SMS_Message) :=
  let '(index, m) := st in
  if m_uMsgLen <=? index then Ok (Stop m)
  else
    parameterId ← msg.[index];
    let index := u16 (index + 1) in
    if m_uMsgLen <=? index then Ok (Stop m)
    else
      parameterLen ← msg.[index];
      let index := u16 (index + 1) in
      if parameterLen =? 0 then Ok (Next (index, m))
      else if m_uMsgLen <? index + parameterLen then Ok (Stop m)
      else
        m ← read_parameter msg parameterId parameterLen index m;
        Ok (Next (u16 (index + parameterLen), m)).

(** the result and [*m_ptRcsm] *)
Definition ConstructRilCdmaSmsMsg (msg : list Z) (m_uMsgLen : Z) : res (Z * RIL_CDMA_SMS_Message) :=
  t ← msg.[0];
  if negb (t =? TRANSPORT_LAYER_MESSAGE_TYPE_POINT_TO_POINT) && negb (t =? TRANSPORT_LAYER_MESSAGE_TYPE_BROADCAST)
  then Ok (-1, zero_message)
  else m ← loop (Z.to_nat m_uMsgLen + 1) (parse_step msg m_uMsgLen) (1, zero_message); Ok (0, m).

(** ** [CCdmaSmsMessage] *)

Record CCdmaSmsMessage := {
  m_pbMsg : option (list Z);
  m_uMsgLen : Z;
  m_ptRcsm : option RIL_CDMA_SMS_Message
}.
Definition no_message : CCdmaSmsMessage := {| m_pbMsg := None; m_uMsgLen := 0; m_ptRcsm := None |}.

(** [CCdmaSmsMessage(BYTE *msg, INT16 len)] *)
Definition newFromTransport (msg : option (list Z)) (len : Z) : res CCdmaSmsMessage :=
  match msg with
  | None => Ok no_message
  | Some msg =>
    if len =? 0 then Ok no_message
    else
      let n := if MAX_CDMA_SMS_MSG_SIZE <? len then MAX_CDMA_SMS_MSG_SIZE else u16 len in
      copy ← rdn msg 0 n;
      r ← ConstructRilCdmaSmsMsg copy n;
      Ok {| m_pbMsg := Some copy; m_uMsgLen := n; m_ptRcsm := Some r.2 |}
  end.

(** [CCdmaSmsMessage(RIL_CDMA_SMS_Message *rcsm)] *)
Definition newFromRil (no_brr_reply : bool) (rcsm : option RIL_CDMA_SMS_Message) : res CCdmaSmsMessage :=
  match rcsm with
  | None => Ok no_message
  | Some m =>
    msg ← ConstructTransportLayerMsg no_brr_reply m;
    Ok {| m_pbMsg := Some msg; m_uMsgLen := lenZ msg; m_ptRcsm := Some m |}
  end.

(** the copy constructor *)
Definition copyMessage (csm : CCdmaSmsMessage) : res CCdmaSmsMessage :=
  match m_ptRcsm csm with
  | Some m =>
    if 0 <? m_uMsgLen csm then
      msg ← rdn (default [] (m_pbMsg csm)) 0 (m_uMsgLen csm);
      Ok {| m_pbMsg := Some msg; m_uMsgLen := m_uMsgLen csm; m_ptRcsm := Some m |}
    else Ok no_message
  | None => Ok no_message
  end.

(** ** Request data

    [data] is the request's payload, [None] for a null pointer; an [encode]
    returns its result and the new [m_pCCsm]. *)

Definition CdmaSmsRequestData_encode (nb : bool) (data : option RIL_CDMA_SMS_Message) (datalen : Z)
    (m_pCCsm : option CCdmaSmsMessage) : res (Z * option CCdmaSmsMessage) :=
  match data with
  | None => Ok (-1, m_pCCsm)
  | Some m => if datalen =? 0 then Ok (-1, m_pCCsm) else c ← newFromRil nb (Some m); Ok (0, Some c)
  end.
Definition GetMessage (m_pCCsm : option CCdmaSmsMessage) : option (list Z) := c ← m_pCCsm; m_pbMsg c.
Definition GetMessageLength (m_pCCsm : option CCdmaSmsMessage) : Z :=
  match m_pCCsm with Some c => m_uMsgLen c | None => 0 end.

(** the result, [m_uErrClass] and [m_uErrCode] *)
Definition CdmaSmsAckRequestData_encode (data : option (list Z)) (datalen : Z) (st : Z * Z) : res (Z * (Z * Z)) :=
  match data with
  | None => Ok (-1, st)
  | Some d => if datalen =? 0 then Ok (-1, st) else c ← d.[0]; e ← d.[0 + 1]; Ok (0, (u8 c, u8 e))
  end.

Definition RIL_RUIM_STATUS_RECEIVED_UNREAD : Z := 0.
Definition RIL_RUIM_STATUS_RECEIVED_READ : Z := 1.
Definition RIL_RUIM_STATUS_STORED_UNSENT : Z := 2.
Definition RIL_RUIM_STATUS_STORED_SENT : Z := 3.

Definition ruim_status (status : Z) : Z :=
  if status =? 0 then RIL_RUIM_STATUS_RECEIVED_UNREAD
  else if status =? 1 then RIL_RUIM_STATUS_RECEIVED_READ
  else if status =? 2 then RIL_RUIM_STATUS_STORED_UNSENT
  else if status =? 3 then RIL_RUIM_STATUS_STORED_SENT
  else RIL_RUIM_STATUS_RECEIVED_UNREAD.

(** [data] is a [RIL_CDMA_SMS_WriteArgs]: its status and its message *)
Definition CdmaSmsWriteToRuim_encode (nb : bool) (data : option (Z * RIL_CDMA_SMS_Message)) (datalen : Z)
    (m_uStatus : Z) (m_pCCsm : option CCdmaSmsMessage) : res (Z * Z * option CCdmaSmsMessage) :=
  match data with
  | None => Ok (-1, m_uStatus, m_pCCsm)
  | Some (status, m) =>
    if datalen =? 0 then Ok (-1, m_uStatus, m_pCCsm)
    else c ← newFromRil nb (Some m); Ok (0, ruim_status status, Some c)
  end.

(** ** Address fields *)

(** the bit fields of the address parameter *)
Definition digit_width (a : RIL_CDMA_SMS_Address) : Z :=
  if digit_mode a =? RIL_CDMA_SMS_DIGIT_MODE_8_BIT then 8 else 4.
Definition address_fields (a : RIL_CDMA_SMS_Address) : list (Z * Z) :=
  [(1, digit_mode a); (1, number_mode a)] ++
  (if digit_mode a =? RIL_CDMA_SMS_DIGIT_MODE_8_BIT then
     (3, number_type a) ::
     (if number_mode a =? RIL_CDMA_SMS_NUMBER_MODE_NOT_DATA_NETWORK then [(4, number_plan a)] else [])
   else []) ++
  [(8, number_of_digits a)] ++
  ((λ d, (digit_width a, d)) <$> take (Z.to_nat (number_of_digits a)) (digits a)).

Definition subaddress_fields (a : RIL_CDMA_SMS_Subaddress) : list (Z * Z) :=
  [(3, subaddressType a); (1, odd a); (8, sub_number_of_digits a)] ++
  ((λ d, (8, d)) <$> take (Z.to_nat (sub_number_of_digits a)) (sub_digits a)).

(** the values of the fields are in range, unused fields and digits are zero *)
Definition addr_wf (a : RIL_CDMA_SMS_Address) : Prop :=
  0 <= digit_mode a < 2 ∧ 0 <= number_mode a < 2 ∧ 0 <= number_type a < 8 ∧ 0 <= number_plan a < 16 ∧
  0 <= number_of_digits a <= 36 ∧ lenZ (digits a) = 36 ∧
  Forall (λ d, 0 <= d < 2 ^ digit_width a) (digits a) ∧
  drop (Z.to_nat (number_of_digits a)) (digits a) = fill (36 - number_of_digits a) 0 ∧
  (digit_mode a = 0 → number_type a = 0) ∧ (digit_mode a = 0 ∨ number_mode a = 1 → number_plan a = 0).

Definition sub_wf (a : RIL_CDMA_SMS_Subaddress) : Prop :=
  0 <= subaddressType a < 8 ∧ 0 <= odd a < 2 ∧ 0 <= sub_number_of_digits a <= 36 ∧ lenZ (sub_digits a) = 36 ∧
  bytes_ok (sub_digits a) ∧
  drop (Z.to_nat (sub_number_of_digits a)) (sub_digits a) = fill (36 - sub_number_of_digits a) 0 ∧
  (sub_number_of_digits a = 0 → a = zero_subaddress).

Lemma write_all_app s l k : write_all s (l ++ k) = write_all s l ≫= λ s, write_all s k.
Proof. revert s. induction l as [|[n v] l IH]; intros s; [done|]. cbn. destruct (Write s n v); cbn; [apply IH|done..]. Qed.

Lemma read_all_app s l k :
  read_all s (l ++ k) = '(vs, s) ← read_all s l; '(ws, s) ← read_all s k; Ok (vs ++ ws, s).
Proof.
  revert s. induction l as [|n l IH]; intros s; cbn.
  - destruct (read_all s k) as [[? ?]| |]; done.
  - destruct (Read s n) as [[v s']| |]; cbn; [|done..]. rewrite IH.
    destruct (read_all s' l) as [[vs s'']| |]; cbn; [|done..].
    by destruct (read_all s'' k) as [[? ?]| |].
Qed.

(** the digit loops are sequences of fields *)
Lemma write_digits_fields w n ds s :
  0 <= n <= lenZ ds → bytes_ok ds →
  write_digits w n ds s = write_all s ((λ d, (w, d)) <$> take (Z.to_nat n) ds).
Proof.
  intros Hn Hb. unfold write_digits.
  assert (∀ k m s, (k + m <= length ds)%nat →
    for_up m (Z.of_nat k) (λ i s, d ← ds.[i]; Write s w (u8 d)) s =
    write_all s ((λ d, (w, d)) <$> take m (drop k ds))) as Hk.
  { intros k m. revert k. induction m as [|m IH]; intros k s' Hkm; [done|]. cbn [for_up].
    destruct (lookup_lt_is_Some_2 ds k) as [d Hd]; [lia|].
    rewrite (rd_lookup ds (Z.of_nat k) d) by (rewrite ?Nat2Z.id; done || lia). cbn [mbind res_bind].
    rewrite u8_id by (by eapply Forall_lookup_1).
    rewrite (drop_S _ _ _ Hd), firstn_cons, fmap_cons. cbn [write_all].
    destruct (Write s' w d); cbn [mbind res_bind]; [|done..].
    replace (Z.of_nat k + 1) with (Z.of_nat (S k)) by lia. apply IH. lia. }
  specialize (Hk 0%nat (Z.to_nat n) s). rewrite drop_0 in Hk. apply Hk. unfold lenZ in Hn. lia.
Qed.

Lemma read_digits_fields w n vs s s' :
  read_all s (replicate (length vs) w) = Ok (vs, s') → lenZ vs = n → 0 <= n <= 36 →
  read_digits w n (fill 36 0) s = Ok (vs ++ fill (36 - n) 0, s').
Proof.
  intros H Hn Hr. unfold read_digits.
  assert (∀ vs k pre s, read_all s (replicate (length vs) w) = Ok (vs, s') → k = lenZ pre →
    (length pre + length vs <= 36)%nat →
    for_up (length vs) k (λ i '(digits, s), '(v, s) ← Read s w; digits ← digits.[i <- v]; Ok (digits, s))
      (pre ++ fill (36 - k) 0, s) = Ok (pre ++ vs ++ fill (36 - k - lenZ vs) 0, s')) as Hk.
  { clear. intros vs. induction vs as [|v vs IH]; intros k pre s H -> Hl; cbn [length replicate read_all for_up] in *.
    - injection H as <-. by replace (36 - lenZ pre - @lenZ Z []) with (36 - lenZ pre) by (change (@lenZ Z []) with 0; lia).
    - apply bind_ok in H as ([v' s1] & -> & H). apply bind_ok in H as ([vs' s2] & H & [= <- <- <-]).
      cbn [mbind res_bind]. replace (fill (36 - lenZ pre) 0) with (0 :: fill (36 - (lenZ pre + 1)) 0).
      2: { unfold fill, lenZ. replace (Z.to_nat (36 - Z.of_nat (length pre)))
             with (S (Z.to_nat (36 - (Z.of_nat (length pre) + 1)))) by lia. done. }
      rewrite wr_snoc. cbn [mbind res_bind]. rewrite cons_middle, app_assoc.
      rewrite (IH (lenZ pre + 1) (pre ++ [v']) s1 H) by (rewrite ?lenZ_app, ?length_app; cbn; done || lia).
      rewrite lenZ_cons, <- app_assoc. cbn [app].
      by replace (36 - (lenZ pre + 1) - lenZ vs') with (36 - lenZ pre - (1 + lenZ vs')) by lia. }
  specialize (Hk vs 0 [] s H eq_refl). cbn [app length] in Hk. rewrite Z.sub_0_r, Hn in Hk.
  replace (Z.to_nat n) with (length vs) by (unfold lenZ in Hn; lia). apply Hk. unfold lenZ in Hn. lia.
Qed.

Lemma width_app l k : width (l ++ k) = width l + width k.
Proof. unfold width. induction l as [|f l IH]; cbn; [done|]. lia. Qed.
Lemma width_digits w l : width ((λ d, (w, d)) <$> l) = w * lenZ l.
Proof.
  induction l as [|d l IH]; [change (@lenZ Z []) with 0; cbn; lia|]. rewrite fmap_cons, lenZ_cons. unfold width in *. cbn. lia.
Qed.
Lemma lenZ_take n (l : list Z) : 0 <= n <= lenZ l → lenZ (take (Z.to_nat n) l) = n.
Proof. apply take_lenZ. Qed.

(** number of bits and of bytes of the address parameter *)
Definition addr_bits (a : RIL_CDMA_SMS_Address) : Z :=
  (if digit_mode a =? 1 then if number_mode a =? 0 then 17 else 13 else 10) + digit_width a * number_of_digits a.
Definition addr_len (a : RIL_CDMA_SMS_Address) : Z := addr_bits a / 8 + 1.
Definition sub_len (a : RIL_CDMA_SMS_Subaddress) : Z := sub_number_of_digits a + 2.

Lemma address_fields_ok a : addr_wf a →
  widths_ok (address_fields a) ∧ Forall (λ f, is_byte f.2) (address_fields a) ∧
  width (address_fields a) = addr_bits a ∧ 0 < addr_bits a ∧ addr_bits a < 8 * addr_len a ∧ 0 < addr_len a <= 39 ∧
  (λ f, f.2 mod 2 ^ f.1) <$> address_fields a = (address_fields a).*2.
Proof.
  intros (Hdm & Hnm & Hnt & Hnp & Hn & Hl & Hd & _).
  assert (digit_width a = 8 ∨ digit_width a = 4) as Hw by (unfold digit_width; destruct (_ =? _); auto).
  assert (lenZ (take (Z.to_nat (number_of_digits a)) (digits a)) = number_of_digits a) as Hlt by (apply take_lenZ; lia).
  pose proof (Forall_take _ (Z.to_nat (number_of_digits a)) _ Hd) as Hdt.
  set (ds := take _ (digits a)) in *. set (w := digit_width a) in *.
  assert (widths_ok ((λ d, (w, d)) <$> ds)) as Hdw by (apply Forall_fmap, Forall_true; cbn; lia).
  assert (Forall (λ f : Z * Z, is_byte f.2) ((λ d, (w, d)) <$> ds)) as Hdb.
  { apply Forall_fmap. eapply Forall_impl; [exact Hdt|]. cbn. unfold is_byte. intros d Hd8.
    destruct Hw as [E|E]; rewrite E in Hd8; lia. }
  assert ((λ f : Z * Z, f.2 mod 2 ^ f.1) <$> ((λ d, (w, d)) <$> ds) = ((λ d, (w, d)) <$> ds).*2) as Hdm2.
  { rewrite <- !list_fmap_compose. apply list_fmap_ext. intros i d Hi. cbn. apply Z.mod_small. by eapply Forall_lookup_1 in Hdt. }
  unfold address_fields. fold ds w. unfold addr_len, addr_bits. fold w.
  unfold RIL_CDMA_SMS_DIGIT_MODE_8_BIT, RIL_CDMA_SMS_NUMBER_MODE_NOT_DATA_NETWORK.
  assert (w = if digit_mode a =? 1 then 8 else 4) as Ew by done. clearbody ds w.
  unfold widths_ok in *. rewrite !Forall_app, !width_app, width_digits, Hlt, !fmap_app, Hdm2.
  destruct (digit_mode a =? 1); [destruct (number_mode a =? 0)|]; subst w; unfold width; cbn [foldr fst snd];
    repeat match goal with |- _ ∧ _ => split end; try done; try lia;
    try (by forall_list);
    cbn [fmap list_fmap fst snd app]; rewrite ?(Z.mod_small (digit_mode a)), ?(Z.mod_small (number_mode a)),
      ?(Z.mod_small (number_type a)), ?(Z.mod_small (number_plan a)), ?(Z.mod_small (number_of_digits a)) by (cbn; lia); done.
Qed.

Lemma sub_fields_ok a : sub_wf a →
  widths_ok (subaddress_fields a) ∧ Forall (λ f, is_byte f.2) (subaddress_fields a) ∧
  width (subaddress_fields a) = 12 + 8 * sub_number_of_digits a ∧ 0 < sub_len a <= 38 ∧
  (λ f, f.2 mod 2 ^ f.1) <$> subaddress_fields a = (subaddress_fields a).*2.
Proof.
  intros (Hty & Hod & Hn & Hl & Hd & _).
  assert (lenZ (take (Z.to_nat (sub_number_of_digits a)) (sub_digits a)) = sub_number_of_digits a) as Hlt by (apply take_lenZ; lia).
  pose proof (Forall_take _ (Z.to_nat (sub_number_of_digits a)) _ Hd) as Hdt.
  unfold subaddress_fields, widths_ok, sub_len. set (ds := take _ (sub_digits a)) in *.
  rewrite !Forall_app, width_app, width_digits, Hlt, !fmap_app. unfold width. cbn [foldr fst snd].
  repeat match goal with |- _ ∧ _ => split end; try lia; try (by forall_list).
  - apply Forall_fmap, Forall_true. cbn. lia.
  - by apply Forall_fmap.
  - f_equal.
    + cbn [fmap list_fmap fst snd]. rewrite (Z.mod_small (subaddressType a)), (Z.mod_small (odd a)),
        (Z.mod_small (sub_number_of_digits a)) by (cbn; lia). done.
    + rewrite <- !list_fmap_compose. apply list_fmap_ext. intros i d Hi. cbn. apply Z.mod_small.
      by eapply Forall_lookup_1 in Hdt.
Qed.

(** writing a list of fields into a zeroed array *)
Lemma write_fields_ok n l :
  0 < n <= 255 → widths_ok l → Forall (λ f, is_byte f.2) l → width l <= 8 * n →
  ∃ b, write_all (newOutputStream (Some (fill n 0)) n) l = Ok (out_at b n (width l)) ∧
    bytes_ok b ∧ lenZ b = n ∧ fields b 0 l.
Proof.
  intros Hn Hw Hv Hfit. rewrite newOutputStream_eq by done.
  assert (lenZ (fill n 0) = n) as Hf by (apply lenZ_fill; lia).
  destruct (write_all_fields (fill n 0) n 0 l) as (b & -> & Hok & Hl & Hfs & _); try done; try lia.
  { apply bytes_ok_fill. unfold is_byte. lia. }
  { apply zero_from_fill. }
  exists b. split_and!; try done. lia.
Qed.

Lemma build_address_ok a : addr_wf a →
  ∃ b, build_address a = Ok (b, addr_len a) ∧ bytes_ok b ∧ lenZ b = 39 ∧ fields b 0 (address_fields a).
Proof.
  intros Hwf. destruct (address_fields_ok a Hwf) as (Hw & Hb & Hwd & Hpos & Hlen & Hlen39 & _).
  destruct (write_fields_ok 39 (address_fields a)) as (b & E & Hok & Hl & Hf); [lia|done..|lia|].
  exists b. split; [|done]. destruct Hwf as (Hdm & Hnm & Hnt & Hnp & Hn & Hdl & Hd & _).
  unfold build_address. change (RIL_CDMA_SMS_ADDRESS_MAX + 3) with 39. set (s0 := newOutputStream _ 39) in *.
  rewrite Z.min_l by (unfold RIL_CDMA_SMS_ADDRESS_MAX; lia).
  rewrite !u8_id by (unfold is_byte; lia).
  assert (bytes_ok (digits a)) as Hdb.
  { eapply Forall_impl; [exact Hd|]. intros d. unfold is_byte, digit_width. destruct (_ =? _); cbn; lia. }
  enough (write_all s0 (address_fields a) ≫= (λ s, Ok (stream_cells s, u8 (GetArrayIndex s + 1))) = Ok (b, addr_len a)) as <-.
  { unfold address_fields, digit_width. rewrite write_all_app. cbn [write_all]. rewrite !bind_assoc.
    destruct (Write s0 1 (digit_mode a)) as [s1| |]; cbn [mbind res_bind]; [|done..].
    destruct (Write s1 1 (number_mode a)) as [s2| |]; cbn [mbind res_bind]; [|done..].
    destruct (digit_mode a =? _); [destruct (number_mode a =? _)|]; cbn [app write_all mbind res_bind];
      repeat (match goal with |- context [Write ?s ?n ?v] => destruct (Write s n v) end; cbn [mbind res_bind]; [|done..]);
      by rewrite write_digits_fields by (done || lia). }
  rewrite E, Hwd. cbn [mbind res_bind]. unfold stream_cells, GetArrayIndex, out_at. cbn [out_m_pbBuf out_m_uPos default from_option id].
  rewrite Z.shiftr_div_pow2 by lia. change (2 ^ 3) with 8. unfold addr_len in *.
  rewrite (u8_id (addr_bits a / 8)) by (unfold is_byte; lia). by rewrite u8_id by (unfold is_byte; lia).
Qed.

Lemma build_subaddress_ok a : sub_wf a →
  ∃ b, build_subaddress a (sub_number_of_digits a) = Ok (b, sub_len a) ∧ bytes_ok b ∧ lenZ b = 38 ∧
    fields b 0 (subaddress_fields a).
Proof.
  intros Hwf. destruct (sub_fields_ok a Hwf) as (Hw & Hb & Hwd & Hlen & _).
  unfold sub_len in Hlen.
  destruct (write_fields_ok 38 (subaddress_fields a)) as (b & E & Hok & Hl & Hf); [lia|done..|lia|].
  exists b. split; [|done]. destruct Hwf as (Hty & Hod & Hn & Hdl & Hd & _).
  unfold build_subaddress. change (RIL_CDMA_SMS_SUBADDRESS_MAX + 2) with 38. set (s0 := newOutputStream _ 38) in *.
  rewrite !u8_id by (unfold is_byte; lia).
  enough (write_all s0 (subaddress_fields a) ≫= (λ s, Ok (stream_cells s, u8 (GetArrayIndex s + 1))) = Ok (b, sub_len a)) as <-.
  { unfold subaddress_fields. rewrite write_all_app. cbn [write_all].
    repeat (match goal with |- context [Write ?s ?n ?v] => destruct (Write s n v) end; cbn [mbind res_bind]; [|done..]).
    by rewrite write_digits_fields by (done || lia). }
  rewrite E, Hwd. cbn [mbind res_bind]. unfold stream_cells, GetArrayIndex, out_at. cbn [out_m_pbBuf out_m_uPos default from_option id].
  rewrite Z.shiftr_div_pow2 by lia. change (2 ^ 3) with 8.
  replace ((12 + 8 * sub_number_of_digits a) / 8) with (sub_number_of_digits a + 1) by lia.
  rewrite (u8_id (sub_number_of_digits a + 1)) by (unfold is_byte; lia).
  rewrite u8_id by (unfold is_byte; lia). unfold sub_len. do 2 f_equal. lia.
Qed.

(** ** Reading an address *)

Lemma read_all_cons_inv s n ns v vs s' :
  read_all s (n :: ns) = Ok (v :: vs, s') → ∃ s1, Read s n = Ok (v, s1) ∧ read_all s1 ns = Ok (vs, s').
Proof.
  cbn [read_all]. intros ([v' s1] & E & H)%bind_ok. apply bind_ok in H as ([vs' s2] & E2 & [= <- <- <-]). eauto.
Qed.

(** peel one field off a hypothesis about [read_all] and run it in the goal *)
Ltac read_field H :=
  let s := fresh "s" in let E := fresh "E" in
  apply read_all_cons_inv in H as (s & E & H); rewrite E; cbn [mbind res_bind]; clear E.

(** [l] read from the start of the [n] bytes at [c] *)
Lemma read_fields_ok c n l :
  bytes_ok c → widths_ok l → 0 < n <= 255 → n <= lenZ c → width l <= 8 * n → fields c 0 l →
  (λ f, f.2 mod 2 ^ f.1) <$> l = l.*2 →
  ∃ s, read_all (newInputStream (Some c) n) l.*1 = Ok (l.*2, s).
Proof.
  intros Hc Hw Hn Hnc Hfit Hf Hm. rewrite newInputStream_eq by done. rewrite <- Hm. eexists.
  apply (read_all_fields c n 0 l); done || lia.
Qed.

Lemma fmap_digits_1 (w : Z) (l : list Z) : ((λ d : Z, (w, d)) <$> l).*1 = replicate (length l) w.
Proof. induction l as [|d l IH]; [done|]. cbn in *. by f_equal. Qed.
Lemma fmap_digits_2 (w : Z) (l : list Z) : ((λ d : Z, (w, d)) <$> l).*2 = l.
Proof. induction l as [|d l IH]; [done|]. cbn in *. by f_equal. Qed.

Lemma digits_split n (ds : list Z) :
  drop (Z.to_nat n) ds = fill (36 - n) 0 → take (Z.to_nat n) ds ++ fill (36 - n) 0 = ds.
Proof. intros <-. apply take_drop. Qed.

Lemma read_address_ok a c n :
  addr_wf a → bytes_ok c → addr_len a <= n <= 255 → n <= lenZ c → fields c 0 (address_fields a) →
  read_address zero_address (newInputStream (Some c) n) = Ok a.
Proof.
  intros Hwf Hc Hn Hnc Hf. destruct (address_fields_ok a Hwf) as (Hw & Hb & Hwd & Hpos & Hlen & Hlen39 & Hm).
  destruct (read_fields_ok c n (address_fields a)) as (s & Hr); try done; try lia.
  destruct Hwf as (Hdm & Hnm & Hnt & Hnp & Hnd & Hdl & Hd & Hdz & Hz1 & Hz2).
  set (s0 := newInputStream _ n) in *.
  assert (lenZ (take (Z.to_nat (number_of_digits a)) (digits a)) = number_of_digits a) as Hlt by (apply take_lenZ; lia).
  unfold address_fields, digit_width in Hr. rewrite !fmap_app, fmap_digits_1, fmap_digits_2 in Hr. cbn [fmap list_fmap fst snd app] in Hr.
  unfold read_address. read_field Hr. read_field Hr.
  unfold RIL_CDMA_SMS_DIGIT_MODE_8_BIT, RIL_CDMA_SMS_NUMBER_MODE_NOT_DATA_NETWORK in *.
  destruct (Z.eqb_spec (digit_mode a) 1) as [E1|E1]; [destruct (Z.eqb_spec (number_mode a) 0) as [E2|E2]|];
    cbn [fmap list_fmap fst snd app] in Hr.
  - do 3 read_field Hr. change (digits zero_address) with (fill 36 0).
    rewrite (read_digits_fields _ _ _ _ _ Hr) by done. cbn [mbind res_bind].
    rewrite digits_split by done. by destruct a.
  - do 2 read_field Hr. change (digits zero_address) with (fill 36 0).
    rewrite (read_digits_fields _ _ _ _ _ Hr) by done. cbn [mbind res_bind].
    rewrite digits_split by done. specialize (Hz2 ltac:(lia)). clear - Hz2. destruct a. cbn in *. by subst.
  - cbn [mbind res_bind]. read_field Hr. change (digits zero_address) with (fill 36 0).
    rewrite (read_digits_fields _ _ _ _ _ Hr) by done. cbn [mbind res_bind].
    rewrite digits_split by done. specialize (Hz1 ltac:(lia)). specialize (Hz2 ltac:(lia)).
    clear - Hz1 Hz2. destruct a. cbn in *. by subst.
Qed.

Lemma read_subaddress_ok a c n :
  sub_wf a → bytes_ok c → sub_len a <= n <= 255 → n <= lenZ c → fields c 0 (subaddress_fields a) →
  read_subaddress zero_subaddress (newInputStream (Some c) n) = Ok a.
Proof.
  intros Hwf Hc Hn Hnc Hf. destruct (sub_fields_ok a Hwf) as (Hw & Hb & Hwd & Hlen & Hm).
  destruct (read_fields_ok c n (subaddress_fields a)) as (s & Hr); try done; try (unfold sub_len in *; lia).
  destruct Hwf as (Hty & Hod & Hnd & Hdl & Hd & Hdz & _).
  set (s0 := newInputStream _ n) in *.
  assert (lenZ (take (Z.to_nat (sub_number_of_digits a)) (sub_digits a)) = sub_number_of_digits a) as Hlt by (apply take_lenZ; lia).
  unfold subaddress_fields in Hr. rewrite !fmap_app, fmap_digits_1, fmap_digits_2 in Hr. cbn [fmap list_fmap fst snd app] in Hr.
  unfold read_subaddress. do 3 read_field Hr. change (sub_digits zero_subaddress) with (fill 36 0).
  rewrite (read_digits_fields _ _ _ _ _ Hr) by done. cbn [mbind res_bind].
  rewrite digits_split by done. by destruct a.
Qed.

(** ** Building a message *)

(** the state after [p] has been stored *)
Definition st_of (p : list Z) : list Z * Z := (p ++ fill (MAX_CDMA_SMS_MSG_SIZE - lenZ p) 0, lenZ p).
Definition fits (p l : list Z) : bool := lenZ p + lenZ l <=? MAX_CDMA_SMS_MSG_SIZE.
(** storing [l] behind [p]; what the rest of the function makes of it *)
Definition stored (l p : list Z) : res (list Z * Z) := if fits p l then Ok (st_of (p ++ l)) else UB.
Definition finished (l p : list Z) : res (list Z) := if fits p l then Ok (p ++ l) else UB.

Lemma wrn_st p l :
  lenZ p <= MAX_CDMA_SMS_MSG_SIZE →
  wrn (st_of p).1 (st_of p).2 l =
    if fits p l then Ok (st_of (p ++ l)).1 else UB.
Proof.
  intros Hp. unfold st_of, fits. cbn [fst snd]. pose proof (lenZ_nonneg l). destruct (Z.leb_spec (lenZ p + lenZ l) MAX_CDMA_SMS_MSG_SIZE).
  - rewrite wrn_app by (rewrite lenZ_fill; lia). rewrite <- app_assoc, lenZ_app. do 3 f_equal.
    unfold fill, lenZ. rewrite drop_replicate. f_equal. lia.
  - apply wrn_oob. rewrite lenZ_app, lenZ_fill; lia.
Qed.

Lemma put_st v p : lenZ p <= MAX_CDMA_SMS_MSG_SIZE → put v (st_of p) = stored [v] p.
Proof.
  intros Hp. unfold put, stored, fits, st_of. cbn [fst snd]. change (lenZ [v]) with 1. unfold MAX_CDMA_SMS_MSG_SIZE in *.
  destruct (Z.leb_spec (lenZ p + 1) 348).
  - rewrite wr_at by (rewrite ?lenZ_fill; done || lia). cbn [mbind res_bind].
    pose proof (lenZ_nonneg p). rewrite u16_id by lia. rewrite <- app_assoc, lenZ_app. change (lenZ [v]) with 1. cbn [app].
    do 4 f_equal. unfold fill. rewrite drop_replicate. do 2 f_equal. lia.
  - rewrite wr_oob; [done|]. rewrite lenZ_app, lenZ_fill; lia.
Qed.

Lemma put_n_st src n p :
  lenZ p <= MAX_CDMA_SMS_MSG_SIZE → 0 <= n <= lenZ src → put_n src n (st_of p) = stored (take (Z.to_nat n) src) p.
Proof.
  intros Hp Hn. unfold put_n, stored. rewrite rdn_ok by lia. cbn [mbind res_bind]. rewrite drop_0, wrn_st by done.
  assert (lenZ (take (Z.to_nat n) src) = n) as Hl by (apply take_lenZ; lia).
  unfold fits. rewrite Hl. destruct (Z.leb_spec (lenZ p + n) MAX_CDMA_SMS_MSG_SIZE); [|done]. cbn [mbind res_bind].
  unfold st_of. cbn [fst snd]. rewrite !lenZ_app, Hl. pose proof (lenZ_nonneg p). unfold MAX_CDMA_SMS_MSG_SIZE in *.
  by rewrite u16_id by lia.
Qed.

(** one more piece of the message, then the rest of it *)
Lemma finish_bind f k l l' p :
  f (st_of p) = stored l p →
  (lenZ (p ++ l) <= MAX_CDMA_SMS_MSG_SIZE → k (st_of (p ++ l)) = finished l' (p ++ l)) →
  (f (st_of p) ≫= k) = finished (l ++ l') p.
Proof.
  intros -> Hk. unfold stored, finished, fits. rewrite !lenZ_app in *. pose proof (lenZ_nonneg l').
  destruct (Z.leb_spec (lenZ p + lenZ l) MAX_CDMA_SMS_MSG_SIZE).
  - cbn [mbind res_bind]. rewrite Hk by lia. unfold finished, fits. rewrite lenZ_app, <- app_assoc, Z.add_assoc. done.
  - cbn [mbind res_bind]. destruct (Z.leb_spec (lenZ p + (lenZ l + lenZ l')) MAX_CDMA_SMS_MSG_SIZE); [lia|done].
Qed.

Lemma stored_bind f g l l' p :
  f (st_of p) = stored l p →
  (lenZ (p ++ l) <= MAX_CDMA_SMS_MSG_SIZE → g (st_of (p ++ l)) = stored l' (p ++ l)) →
  (f (st_of p) ≫= g) = stored (l ++ l') p.
Proof.
  intros -> Hg. unfold stored, fits. rewrite !lenZ_app in *. pose proof (lenZ_nonneg l').
  destruct (Z.leb_spec (lenZ p + lenZ l) MAX_CDMA_SMS_MSG_SIZE).
  - cbn [mbind res_bind]. rewrite Hg by lia. unfold stored, fits. rewrite lenZ_app, <- app_assoc, Z.add_assoc. done.
  - cbn [mbind res_bind]. destruct (Z.leb_spec (lenZ p + (lenZ l + lenZ l')) MAX_CDMA_SMS_MSG_SIZE); [lia|done].
Qed.

Lemma stored_nil p : lenZ p <= MAX_CDMA_SMS_MSG_SIZE → Ok (st_of p) = stored [] p.
Proof.
  intros. unfold stored, fits. change (@lenZ Z []) with 0. rewrite Z.add_0_r, app_nil_r. by cmp_cases.
Qed.

(** a parameter: identifier, length, data *)
Definition param (id : Z) (d : list Z) : list Z := [id; lenZ d] ++ d.
Definition be16 (v : Z) : list Z := [v / 256; v mod 256].

(** the parameters, for the address cells [ab] and the subaddress cells [sb] *)
Definition message_params (no_brr_reply : bool) (mt : Z) (m : RIL_CDMA_SMS_Message) (ab sb : list Z) : list (Z * list Z) :=
  [(PARAMETER_TELESERVICE_IDENTIFIER, be16 (uTeleserviceID m))] ++
  (if uServicecategory m =? 0 then [] else [(PARAMETER_SERVICE_CATEGORY, be16 (uServicecategory m))]) ++
  [(if mt =? MESSAGE_TYPE_SUBMIT then PARAMETER_DESTINATION_ADDRESS else PARAMETER_ORIGINATING_ADDRESS, ab)] ++
  (if sub_number_of_digits (sSubAddress m) =? 0 then []
   else [(if mt =? MESSAGE_TYPE_SUBMIT then PARAMETER_DESTINATION_SUBADDRESS else PARAMETER_ORIGINATING_SUBADDRESS, sb)]) ++
  (if no_brr_reply then [] else [(PARAMETER_BEARER_REPLY_OPTION, [0])]) ++
  [(PARAMETER_BEARER_DATA, take (Z.to_nat (uBearerDataLen m)) (aBearerData m))].
Definition message_bytes (ps : list (Z * list Z)) : list Z :=
  [TRANSPORT_LAYER_MESSAGE_TYPE_POINT_TO_POINT] ++ (ps ≫= λ p, param p.1 p.2).

Definition msg_wf (m : RIL_CDMA_SMS_Message) : Prop :=
  0 <= uTeleserviceID m < 65536 ∧ 0 <= uServicecategory m < 65536 ∧
  bIsServicePresent m = (if uServicecategory m =? 0 then 0 else 1) ∧
  addr_wf (sAddress m) ∧ sub_wf (sSubAddress m) ∧ 0 <= uBearerDataLen m <= 255 ∧
  lenZ (aBearerData m) = 255 ∧ bytes_ok (aBearerData m) ∧
  drop (Z.to_nat (uBearerDataLen m)) (aBearerData m) = fill (255 - uBearerDataLen m) 0.

Lemma be16_cells v : 0 <= v < 65536 →
  be16 v = [u8 (Z.land (Z.shiftr (u16 v) 8) 255); u8 (Z.land (u16 v) 255)].
Proof.
  intros Hv. rewrite u16_id by done. unfold be16, u8. change 255 with (Z.ones 8). rewrite !Z.land_ones, Z.shiftr_div_pow2 by lia.
  change (2 ^ 8) with 256. f_equal; [|f_equal]; lia.
Qed.

Lemma bit_take b n k : 0 <= k < 8 * n → n <= lenZ b → bit (take (Z.to_nat n) b) k = bit b k.
Proof. intros Hk Hn. unfold bit. by rewrite lookup_take_lt by lia. Qed.
Lemma bit_app b r k : 0 <= k < 8 * lenZ b → bit (b ++ r) k = bit b k.
Proof. intros Hk. unfold bit, lenZ in *. by rewrite lookup_app_l by lia. Qed.

Lemma fields_take b n l : widths_ok l → fields b 0 l → width l <= 8 * n → n <= lenZ b → fields (take (Z.to_nat n) b) 0 l.
Proof. intros Hw Hf Hl Hn. apply (fields_ext b); [done| |done]. intros k Hk. apply bit_take; lia. Qed.
Lemma fields_app b r l : widths_ok l → fields b 0 l → width l <= 8 * lenZ b → fields (b ++ r) 0 l.
Proof. intros Hw Hf Hl. apply (fields_ext b); [done| |done]. intros k Hk. apply bit_app; lia. Qed.

Lemma message_type_ok m :
  0 <= uBearerDataLen m <= 255 → lenZ (aBearerData m) = 255 → bytes_ok (aBearerData m) →
  ∃ mt, message_type m = Ok mt ∧ (mt = MESSAGE_TYPE_DELIVER ∨ mt = MESSAGE_TYPE_SUBMIT).
Proof.
  intros Hn Hl Hb. unfold message_type, GetSubparameterDataFromBearerData.
  rewrite Z.min_l, u8_id by (unfold is_byte, RIL_CDMA_SMS_BEARER_DATA_MAX; lia).
  destruct (loop_total (λ i, Z.to_nat (255 - i)) (λ i, 0 <= i) (λ r, ∀ n i, r = Some (n, i) → 0 <= i < 255)
    (subparam_step (aBearerData m) (uBearerDataLen m) SUBPARAM_MESSAGE_IDENTIFIER) 256 0) as (r & -> & Hr); [|done|lia|].
  - intros i Hi. unfold subparam_step. destruct (Z.ltb_spec (i + 2) (uBearerDataLen m)); [|eexists; split; [done|]; by intros].
    destruct (rd_ok (aBearerData m) i) as (id & -> & _); [lia|]. cbn [mbind res_bind].
    destruct (rd_ok (aBearerData m) (i + 1)) as (len & -> & Hlen); [lia|]. cbn [mbind res_bind].
    assert (is_byte len) as Bl by (by eapply Forall_lookup_1). unfold is_byte in Bl.
    destruct (id =? _); (eexists; split; [done|]); cbn beta iota.
    + intros n j [= <- <-]. lia.
    + rewrite u16_id by lia. lia.
  - cbn [mbind res_bind]. destruct r as [[n i]|]; [|eauto]. destruct (n =? 0); [eauto|].
    specialize (Hr n i eq_refl). destruct (rd_ok (aBearerData m) i) as (b & -> & _); [lia|]. cbn [mbind res_bind].
    set (t := Z.land (Z.shiftr b 4) 15). exists (if negb (t =? MESSAGE_TYPE_DELIVER) && negb (t =? MESSAGE_TYPE_SUBMIT)
      then MESSAGE_TYPE_SUBMIT else t). split; [done|].
    destruct (Z.eqb_spec t MESSAGE_TYPE_DELIVER); [by left|]. destruct (Z.eqb_spec t MESSAGE_TYPE_SUBMIT); by right.
Qed.

(** number of bytes of the message *)
Definition transport_size (no_brr_reply : bool) (m : RIL_CDMA_SMS_Message) : Z :=
  5 + (if uServicecategory m =? 0 then 0 else 4) + (2 + addr_len (sAddress m)) +
  (if sub_number_of_digits (sSubAddress m) =? 0 then 0 else 2 + sub_len (sSubAddress m)) +
  (if no_brr_reply then 0 else 3) + (2 + uBearerDataLen m).

Lemma last_piece src n q :
  lenZ q <= MAX_CDMA_SMS_MSG_SIZE → 0 <= n <= lenZ src → n <= 255 →
  (b ← rdn src 0 n; msg ← wrn (st_of q).1 (st_of q).2 b; rdn msg 0 (u16 ((st_of q).2 + n))) =
    finished (take (Z.to_nat n) src) q.
Proof.
  intros Hq Hn H255. rewrite rdn_ok by lia. cbn [mbind res_bind]. rewrite drop_0, wrn_st by done.
  assert (lenZ (take (Z.to_nat n) src) = n) as Hl by (apply take_lenZ; lia).
  unfold finished, fits. rewrite Hl. destruct (Z.leb_spec (lenZ q + n) MAX_CDMA_SMS_MSG_SIZE); [|done]. cbn [mbind res_bind].
  unfold st_of. cbn [fst snd]. pose proof (lenZ_nonneg q). unfold MAX_CDMA_SMS_MSG_SIZE in *. rewrite u16_id by lia.
  rewrite rdn_ok; [|lia..|rewrite !lenZ_app, Hl, lenZ_fill; lia]. rewrite drop_0, take_app_le.
  - rewrite take_full; [done|]. rewrite lenZ_app. lia.
  - rewrite length_app. unfold lenZ in *. lia.
Qed.

(** the message as the sequence of the stores that make it *)
Lemma message_bytes_chain nb mt m ab sb a_len s_len :
  0 <= uTeleserviceID m < 65536 → 0 <= uServicecategory m < 65536 → lenZ ab = a_len → lenZ sb = s_len →
  0 <= uBearerDataLen m <= lenZ (aBearerData m) →
  let hi v := u8 (Z.land (Z.shiftr (u16 v) 8) 255) in let lo v := u8 (Z.land (u16 v) 255) in
  message_bytes (message_params nb mt m ab sb) =
    [TRANSPORT_LAYER_MESSAGE_TYPE_POINT_TO_POINT] ++ [PARAMETER_TELESERVICE_IDENTIFIER] ++
    [PARAMETER_LENGTH_TELESERVICE_IDENTIFIER] ++ [hi (uTeleserviceID m)] ++ [lo (uTeleserviceID m)] ++
    (if uServicecategory m =? 0 then []
     else [PARAMETER_SERVICE_CATEGORY] ++ [PARAMETER_LENGTH_SERVICE_CATEGORY] ++ [hi (uServicecategory m)] ++
          [lo (uServicecategory m)]) ++
    [if mt =? MESSAGE_TYPE_SUBMIT then PARAMETER_DESTINATION_ADDRESS else PARAMETER_ORIGINATING_ADDRESS] ++
    [a_len] ++ ab ++
    (if sub_number_of_digits (sSubAddress m) =? 0 then []
     else [if mt =? MESSAGE_TYPE_SUBMIT then PARAMETER_DESTINATION_SUBADDRESS else PARAMETER_ORIGINATING_SUBADDRESS] ++
          [s_len] ++ sb) ++
    (if nb then [] else [PARAMETER_BEARER_REPLY_OPTION] ++ [PARAMETER_LENGTH_BEARER_REPLY_OPTION] ++ [0]) ++
    [PARAMETER_BEARER_DATA] ++ [uBearerDataLen m] ++ take (Z.to_nat (uBearerDataLen m)) (aBearerData m).
Proof.
  intros Ht Hc Ha Hs Hb hi lo. unfold message_bytes, message_params, param.
  assert (∀ v, 0 <= v < 65536 → be16 v = [hi v; lo v]) as H16 by (intros; by apply be16_cells).
  rewrite H16, !bind_app by done. cbn [mbind list_bind fst snd app]. rewrite Ha, take_lenZ by lia.
  destruct (uServicecategory m =? 0); [|rewrite H16 by done]; destruct (sub_number_of_digits (sSubAddress m) =? 0);
    destruct nb; cbn [mbind list_bind fst snd app]; rewrite ?Hs, ?app_nil_r; do 6 f_equal; rewrite <- ?app_assoc; done.
Qed.

(** run one store of the message *)
Ltac emit :=
  cbn [mbind res_bind fst snd]; rewrite ?bind_assoc;
  lazymatch goal with
  | |- put ?v _ ≫= _ = _ => refine (finish_bind (put v) _ [v] _ _ (put_st _ _ _) _)
  | |- put_n ?src ?n _ ≫= _ = _ => refine (finish_bind (put_n src n) _ _ _ _ (put_n_st _ _ _ _ _) _)
  end;
  [try done; try lia..|];
  let H := fresh "H" in intros H;
  match type of H with lenZ ?q <= _ => let p := fresh "p" in set (p := q) in *; clearbody p end.

Lemma construct_ok nb m : msg_wf m →
  ∃ mt ab sb, (mt = MESSAGE_TYPE_DELIVER ∨ mt = MESSAGE_TYPE_SUBMIT) ∧
    bytes_ok ab ∧ lenZ ab = addr_len (sAddress m) ∧ fields ab 0 (address_fields (sAddress m)) ∧
    bytes_ok sb ∧ lenZ sb = sub_len (sSubAddress m) ∧ fields sb 0 (subaddress_fields (sSubAddress m)) ∧
    ConstructTransportLayerMsg nb m = finished (message_bytes (message_params nb mt m ab sb)) [].
Proof.
  intros (Ht & Hc & _ & Ha & Hs & Hn & Hbl & Hb & _).
  destruct (message_type_ok m Hn Hbl Hb) as (mt & Emt & Hmt).
  destruct (build_address_ok _ Ha) as (ac & Ea & Hac & Hacl & Haf).
  destruct (address_fields_ok _ Ha) as (Haw & _ & Hawd & Hpos & Halen & Hal & _).
  destruct (build_subaddress_ok _ Hs) as (sc & Es & Hsc & Hscl & Hsf).
  destruct (sub_fields_ok _ Hs) as (Hsw & _ & Hswd & Hsl & _).
  exists mt, (take (Z.to_nat (addr_len (sAddress m))) ac), (take (Z.to_nat (sub_len (sSubAddress m))) sc).
  split; [done|]. split; [by apply Forall_take|]. split; [apply take_lenZ; lia|].
  split; [apply fields_take; done || lia|]. split; [by apply Forall_take|]. split; [apply take_lenZ; lia|].
  split; [apply fields_take; try done; unfold sub_len in *; lia|].
  assert (0 <= sub_number_of_digits (sSubAddress m) <= 36) as Hsn by apply Hs.
  unfold ConstructTransportLayerMsg. rewrite Emt, Ea. cbn [mbind res_bind fst snd].
  rewrite !Z.min_l by (unfold RIL_CDMA_SMS_SUBADDRESS_MAX, RIL_CDMA_SMS_BEARER_DATA_MAX; lia).
  rewrite (u8_id (sub_number_of_digits _)), (u8_id (uBearerDataLen m)) by (unfold is_byte; lia).
  change (fill MAX_CDMA_SMS_MSG_SIZE 0, 0) with (st_of []).
  rewrite (message_bytes_chain nb mt m _ _ (addr_len (sAddress m)) (sub_len (sSubAddress m))) by (rewrite ?take_lenZ; (done || lia)).
  emit. do 4 emit.
  destruct (Z.eqb_spec (uServicecategory m) 0); cbn [negb]; rewrite <- ?app_assoc, ?app_nil_l; [|do 4 emit];
    (do 3 emit);
    (destruct (Z.eqb_spec (sub_number_of_digits (sSubAddress m)) 0); cbn [negb]; rewrite ?Es, <- ?app_assoc, ?app_nil_l; cbn [fst snd];
      [|do 3 emit]);
    (destruct nb; cbn [negb mbind res_bind]; rewrite <- ?app_assoc, ?app_nil_l; [|do 3 emit]);
    (do 2 emit); cbn [mbind res_bind fst snd]; apply last_piece; done || lia.
Qed.

Lemma lenZ_param id d : lenZ (param id d) = 2 + lenZ d.
Proof. unfold param. rewrite lenZ_app. done. Qed.

Lemma message_bytes_size nb mt m ab sb :
  lenZ ab = addr_len (sAddress m) → lenZ sb = sub_len (sSubAddress m) →
  0 <= uBearerDataLen m <= lenZ (aBearerData m) →
  lenZ (message_bytes (message_params nb mt m ab sb)) = transport_size nb m.
Proof.
  intros Ha Hs Hb. unfold message_bytes, message_params, transport_size. rewrite lenZ_app, !bind_app, !lenZ_app.
  change (lenZ [TRANSPORT_LAYER_MESSAGE_TYPE_POINT_TO_POINT]) with 1.
  destruct (uServicecategory m =? 0); destruct (sub_number_of_digits (sSubAddress m) =? 0); destruct nb;
    cbn [mbind list_bind fst snd app]; rewrite ?app_nil_r, !lenZ_param, ?Ha, ?Hs, take_lenZ by lia;
    change (@lenZ Z []) with 0; change (lenZ [0]) with 1; unfold be16; rewrite ?lenZ_cons; change (@lenZ Z []) with 0; lia.
Qed.

(** ** Parsing a message *)

(** from index [i] on, the message fills [m] up to [m'] *)
Definition parses (msg : list Z) (i : Z) (m m' : RIL_CDMA_SMS_Message) : Prop :=
  ∀ fuel, (Z.to_nat (lenZ msg - i) < fuel)%nat → loop fuel (parse_step msg (lenZ msg)) (i, m) = Ok m'.

Lemma parses_end msg i m : lenZ msg <= i → parses msg i m m.
Proof. intros Hi [|fuel] Hf; [lia|]. cbn [loop parse_step]. by destruct (Z.leb_spec (lenZ msg) i); [|lia]. Qed.

Lemma parses_param p id d r m m1 m' :
  let msg := p ++ param id d ++ r in
  lenZ msg <= MAX_CDMA_SMS_MSG_SIZE →
  (if lenZ d =? 0 then m1 = m else read_parameter msg id (lenZ d) (lenZ p + 2) m = Ok m1) →
  parses msg (lenZ p + (2 + lenZ d)) m1 m' → parses msg (lenZ p) m m'.
Proof.
  intros msg Hmax Hr Hp [|fuel] Hf; [lia|]. pose proof (lenZ_nonneg p). pose proof (lenZ_nonneg d). pose proof (lenZ_nonneg r).
  assert (lenZ msg = lenZ p + (2 + lenZ d) + lenZ r) as Hl by (unfold msg; rewrite !lenZ_app, lenZ_param; lia).
  assert (msg.[lenZ p] = Ok id) as E1 by (unfold msg, param; rewrite <- app_assoc; apply rd_snoc).
  assert (msg.[lenZ p + 1] = Ok (lenZ d)) as E2.
  { unfold msg, param. rewrite <- app_assoc. cbn [app]. rewrite cons_middle, app_assoc. apply rd_at.
    rewrite lenZ_app. change (lenZ [id]) with 1. lia. }
  clearbody msg. unfold MAX_CDMA_SMS_MSG_SIZE in *. cbn [loop].
  enough (parse_step msg (lenZ msg) (lenZ p, m) = Ok (Next (lenZ p + (2 + lenZ d), m1))) as ->
    by (cbn [mbind res_bind]; apply Hp; lia).
  unfold parse_step. destruct (Z.leb_spec (lenZ msg) (lenZ p)); [lia|]. rewrite E1. cbn [mbind res_bind].
  rewrite !(u16_id (lenZ p + 1)) by lia. destruct (Z.leb_spec (lenZ msg) (lenZ p + 1)); [lia|]. rewrite E2.
  cbn [mbind res_bind]. rewrite u16_id by lia. replace (lenZ p + 1 + 1) with (lenZ p + 2) by lia.
  destruct (Z.eqb_spec (lenZ d) 0) as [E|E].
  - subst m1. by replace (lenZ p + (2 + lenZ d)) with (lenZ p + 2) by lia.
  - destruct (Z.ltb_spec (lenZ msg) (lenZ p + 2 + lenZ d)); [lia|]. rewrite Hr. cbn [mbind res_bind].
    rewrite u16_id by lia. by rewrite <- Z.add_assoc.
Qed.

(** what one parameter does to the message under construction *)
Definition reads (id : Z) (d : list Z) (m m1 : RIL_CDMA_SMS_Message) : Prop :=
  ∀ p r, bytes_ok d → bytes_ok r → read_parameter (p ++ param id d ++ r) id (lenZ d) (lenZ p + 2) m = Ok m1.

Inductive parse_all : list (Z * list Z) → RIL_CDMA_SMS_Message → RIL_CDMA_SMS_Message → Prop :=
| parse_nil m : parse_all [] m m
| parse_cons id d ps m m1 m' :
    (if lenZ d =? 0 then m1 = m else reads id d m m1) → parse_all ps m1 m' → parse_all ((id, d) :: ps) m m'.

Lemma bytes_params ps :
  Forall (λ q, is_byte q.1 ∧ lenZ q.2 < 256 ∧ bytes_ok q.2) ps → bytes_ok (ps ≫= λ q, param q.1 q.2).
Proof.
  induction 1 as [|[i e] ps (Hi & He & Hb) Hps IH]; [done|]. cbn in *. pose proof (lenZ_nonneg e).
  apply Forall_cons. split; [done|]. apply Forall_cons. split; [unfold is_byte; lia|]. by apply Forall_app.
Qed.

Lemma parse_all_ok ps m m' p :
  parse_all ps m m' → Forall (λ q, is_byte q.1 ∧ lenZ q.2 < 256 ∧ bytes_ok q.2) ps →
  let msg := p ++ (ps ≫= λ q, param q.1 q.2) in
  lenZ msg <= MAX_CDMA_SMS_MSG_SIZE → parses msg (lenZ p) m m'.
Proof.
  intros Hp. revert p. induction Hp as [m|id d ps m m1 m' Hr Hps IH]; intros p Hok.
  - intros msg Hmax. apply parses_end. unfold msg. cbn. rewrite app_nil_r. lia.
  - apply Forall_cons_1 in Hok as [(Hid & Hd & Hdb) Hok]. cbn [mbind list_bind fst snd] in *.
    intros Hmax. apply parses_param with m1; [done| |].
    + destruct (lenZ d =? 0); [done|]. apply Hr; [done|].
      by apply bytes_params.
    + specialize (IH (p ++ param id d) Hok). rewrite <- app_assoc, !lenZ_app, lenZ_param in IH. apply IH.
      by rewrite !lenZ_app, lenZ_param in *.
Qed.

Lemma drop_param p id d r : drop (Z.to_nat (lenZ p + 2)) (p ++ param id d ++ r) = d ++ r.
Proof.
  replace (Z.to_nat (lenZ p + 2)) with (length p + 2)%nat by (unfold lenZ; lia). rewrite drop_app_add. done.
Qed.

Lemma rd_param p id d r i x : d !! i = Some x → (p ++ param id d ++ r).[lenZ p + 2 + Z.of_nat i] = Ok x.
Proof.
  intros Hx. apply rd_lookup; [pose proof (lenZ_nonneg p); lia|].
  replace (Z.to_nat (lenZ p + 2 + Z.of_nat i)) with (length p + 2 + i)%nat by (unfold lenZ; lia).
  rewrite <- Nat.add_assoc, lookup_app_r by lia.
  replace (length p + (2 + i) - length p)%nat with (2 + i)%nat by lia. unfold param. cbn [app].
  change ((d ++ r) !! i = Some x). rewrite lookup_app_l; [done|]. by apply lookup_lt_Some in Hx.
Qed.

Lemma be16_value v : 0 <= v < 65536 → Z.lor (Z.land (Z.shiftl (v / 256) 8) 65280) (v mod 256) = v.
Proof.
  intros Hv. rewrite Z.shiftl_mul_pow2 by lia.
  assert (Z.land (v / 256 * 2 ^ 8) 65280 = v / 256 * 2 ^ 8) as ->.
  { apply Z.eqb_eq. pose proof (byte_forall (λ h, Z.land (h * 2 ^ 8) 65280 =? h * 2 ^ 8) eq_refl (v / 256)) as H.
    apply H. unfold is_byte. lia. }
  rewrite (lor_add (v / 256) (v mod 256) 8) by lia. lia.
Qed.

Lemma reads_teleservice v m : 0 <= v < 65536 → reads PARAMETER_TELESERVICE_IDENTIFIER (be16 v) m (with_teleservice m v).
Proof.
  intros Hv p r _ _. unfold read_parameter. cbn [Z.eqb PARAMETER_TELESERVICE_IDENTIFIER].
  rewrite <- (Z.add_0_r (lenZ p + 2)) at 1. rewrite (rd_param p _ (be16 v) r 0 (v / 256)) by done. cbn [mbind res_bind].
  rewrite (rd_param p _ (be16 v) r 1 (v mod 256)) by done. cbn [mbind res_bind]. by rewrite be16_value.
Qed.
Lemma reads_category v m : 0 <= v < 65536 → reads PARAMETER_SERVICE_CATEGORY (be16 v) m (with_category m v).
Proof.
  intros Hv p r _ _. unfold read_parameter. cbn [Z.eqb PARAMETER_TELESERVICE_IDENTIFIER PARAMETER_SERVICE_CATEGORY Pos.eqb].
  rewrite <- (Z.add_0_r (lenZ p + 2)) at 1. rewrite (rd_param p _ (be16 v) r 0 (v / 256)) by done. cbn [mbind res_bind].
  rewrite (rd_param p _ (be16 v) r 1 (v mod 256)) by done. cbn [mbind res_bind]. by rewrite be16_value.
Qed.

Lemma reads_address mt a ab m :
  addr_wf a → lenZ ab = addr_len a → fields ab 0 (address_fields a) → sAddress m = zero_address →
  reads (if mt =? MESSAGE_TYPE_SUBMIT then PARAMETER_DESTINATION_ADDRESS else PARAMETER_ORIGINATING_ADDRESS) ab m (with_address m a).
Proof.
  intros Ha Hl Hf Hz p r Hb Hr. destruct (address_fields_ok a Ha) as (Hw & _ & Hwd & _ & Hlen & Hlen39 & _).
  pose proof (lenZ_nonneg r).
  assert (∀ i, i = PARAMETER_DESTINATION_ADDRESS ∨ i = PARAMETER_ORIGINATING_ADDRESS →
    read_parameter (p ++ param i ab ++ r) i (lenZ ab) (lenZ p + 2) m = Ok (with_address m a)) as Hi.
  { intros i Hi. unfold read_parameter. rewrite drop_param, Hz, (read_address_ok a); try done; try (rewrite ?lenZ_app; lia).
    - by destruct Hi as [-> | ->].
    - by apply Forall_app.
    - apply fields_app; done || lia. }
  apply Hi. destruct (_ =? _); auto.
Qed.
Lemma reads_subaddress mt a sb m :
  sub_wf a → lenZ sb = sub_len a → fields sb 0 (subaddress_fields a) → sSubAddress m = zero_subaddress →
  reads (if mt =? MESSAGE_TYPE_SUBMIT then PARAMETER_DESTINATION_SUBADDRESS else PARAMETER_ORIGINATING_SUBADDRESS) sb m
    (with_subaddress m a).
Proof.
  intros Ha Hl Hf Hz p r Hb Hr. destruct (sub_fields_ok a Ha) as (Hw & _ & Hwd & Hlen & _).
  pose proof (lenZ_nonneg r).
  assert (∀ i, i = PARAMETER_DESTINATION_SUBADDRESS ∨ i = PARAMETER_ORIGINATING_SUBADDRESS →
    read_parameter (p ++ param i sb ++ r) i (lenZ sb) (lenZ p + 2) m = Ok (with_subaddress m a)) as Hi.
  { intros i Hi. unfold read_parameter. rewrite drop_param, Hz, (read_subaddress_ok a); try done; try (rewrite ?lenZ_app; lia).
    - by destruct Hi as [-> | ->].
    - by apply Forall_app.
    - apply fields_app; try done. unfold sub_len in *. lia. }
  apply Hi. destruct (_ =? _); auto.
Qed.
Lemma reads_reply m : reads PARAMETER_BEARER_REPLY_OPTION [0] m m.
Proof. by intros p r _ _. Qed.
Lemma reads_bearer d m :
  lenZ d <= 255 → aBearerData m = fill 255 0 →
  reads PARAMETER_BEARER_DATA d m (with_bearer m (lenZ d) (d ++ fill (255 - lenZ d) 0)).
Proof.
  intros Hd Hz p r _ _. unfold read_parameter.
  cbn [Z.eqb orb Pos.eqb PARAMETER_BEARER_DATA PARAMETER_TELESERVICE_IDENTIFIER PARAMETER_SERVICE_CATEGORY PARAMETER_DESTINATION_ADDRESS
    PARAMETER_ORIGINATING_ADDRESS PARAMETER_DESTINATION_SUBADDRESS PARAMETER_ORIGINATING_SUBADDRESS].
  pose proof (lenZ_nonneg p). pose proof (lenZ_nonneg d). pose proof (lenZ_nonneg r).
  rewrite rdn_ok by (rewrite ?lenZ_app, ?lenZ_param; lia). rewrite drop_param. cbn [mbind res_bind].
  assert (take (Z.to_nat (lenZ d)) (d ++ r) = d) as -> by (unfold lenZ; by rewrite Nat2Z.id, take_app_length).
  rewrite Hz.
  rewrite (wrn_at [] (fill 255 0)) by (rewrite ?lenZ_fill; done || lia). cbn [mbind res_bind app].
  do 3 f_equal. unfold fill, lenZ. rewrite drop_replicate. f_equal. lia.
Qed.

Lemma parse_all_app ps qs m m1 m' : parse_all ps m m1 → parse_all qs m1 m' → parse_all (ps ++ qs) m m'.
Proof. induction 1; intros Hq; [done|]. cbn [app]. econstructor; eauto. Qed.
Lemma parse_one id d m m1 : 0 < lenZ d → reads id d m m1 → parse_all [(id, d)] m m1.
Proof. intros Hd Hr. econstructor; [|constructor]. by destruct (Z.eqb_spec (lenZ d) 0); [lia|]. Qed.

Lemma parse_opt (b : bool) ps m m1 :
  parse_all ps m m1 → parse_all (if b then [] else ps) m (if b then m else m1).
Proof. destruct b; [constructor|done]. Qed.
Lemma parse_bearer d m :
  lenZ d <= 255 → aBearerData m = fill 255 0 → uBearerDataLen m = 0 →
  parse_all [(PARAMETER_BEARER_DATA, d)] m (with_bearer m (lenZ d) (d ++ fill (255 - lenZ d) 0)).
Proof.
  intros Hd Hz Hn. destruct (Z.eqb_spec (lenZ d) 0) as [E|E].
  - econstructor; [|constructor]. rewrite E. cbn [Z.eqb]. destruct d; [|unfold lenZ in E; cbn in E; lia].
    destruct m. cbn in *. by subst.
  - apply parse_one; [pose proof (lenZ_nonneg d); lia|]. by apply reads_bearer.
Qed.

(** the message with its parameters stored one after the other *)
Definition with_all (m : RIL_CDMA_SMS_Message) : RIL_CDMA_SMS_Message :=
  let m1 := with_teleservice zero_message (uTeleserviceID m) in
  let m2 := if uServicecategory m =? 0 then m1 else with_category m1 (uServicecategory m) in
  let m3 := with_address m2 (sAddress m) in
  let m4 := if sub_number_of_digits (sSubAddress m) =? 0 then m3 else with_subaddress m3 (sSubAddress m) in
  with_bearer m4 (uBearerDataLen m) (aBearerData m).

Lemma with_all_id m : msg_wf m → with_all m = m.
Proof.
  intros (_ & _ & Hp & _ & (_ & _ & _ & _ & _ & _ & Hs0) & _). unfold with_all.
  destruct (Z.eqb_spec (uServicecategory m) 0) as [E|E], (Z.eqb_spec (sub_number_of_digits (sSubAddress m)) 0) as [E'|E'];
    try specialize (Hs0 E'); clear - Hp E E' Hs0; destruct m; cbn in *; by subst.
Qed.

(** the parameters of [m] fill an empty message up to [m] *)
Lemma parse_message nb mt m ab sb :
  msg_wf m → lenZ ab = addr_len (sAddress m) → fields ab 0 (address_fields (sAddress m)) →
  lenZ sb = sub_len (sSubAddress m) → fields sb 0 (subaddress_fields (sSubAddress m)) →
  parse_all (message_params nb mt m ab sb) zero_message m.
Proof.
  intros Hwf Hal Haf Hsl Hsf. rewrite <- (with_all_id m) at 2 by done. unfold with_all.
  destruct Hwf as (Ht & Hc & Hp & Ha & Hs & Hn & Hbl & Hb & Hz). unfold message_params.
  destruct (address_fields_ok _ Ha) as (_ & _ & _ & _ & _ & Hal39 & _).
  destruct (sub_fields_ok _ Hs) as (_ & _ & _ & Hsl38 & _).
  eapply parse_all_app; [apply parse_one; [done|by apply reads_teleservice]|].
  eapply parse_all_app; [apply parse_opt, parse_one; [done|by apply reads_category]|].
  eapply parse_all_app.
  { apply parse_one; [lia|]. apply reads_address; try done. by destruct (_ =? _). }
  eapply parse_all_app.
  { apply parse_opt, parse_one; [lia|]. apply reads_subaddress; try done. by destruct (_ =? 0). }
  set (m4 := if sub_number_of_digits _ =? 0 then _ else _).
  assert (aBearerData m4 = fill 255 0 ∧ uBearerDataLen m4 = 0) as [Hz4 Hn4].
  { unfold m4. by destruct (sub_number_of_digits _ =? 0), (uServicecategory m =? 0). }
  clearbody m4. eapply parse_all_app with m4.
  { destruct nb; [constructor|]. apply parse_one; [done|apply reads_reply]. }
  pose proof (parse_bearer (take (Z.to_nat (uBearerDataLen m)) (aBearerData m)) m4) as Hbd.
  rewrite !take_lenZ, <- Hz, take_drop in Hbd by lia. apply Hbd; done || lia.
Qed.

Lemma message_params_bytes nb mt m ab sb :
  msg_wf m → bytes_ok ab → lenZ ab = addr_len (sAddress m) → bytes_ok sb → lenZ sb = sub_len (sSubAddress m) →
  Forall (λ q, is_byte q.1 ∧ lenZ q.2 < 256 ∧ bytes_ok q.2) (message_params nb mt m ab sb).
Proof.
  intros (Ht & Hc & Hp & Ha & Hs & Hn & Hbl & Hb & Hz) Hab Hal Hsb Hsl.
  destruct (address_fields_ok _ Ha) as (_ & _ & _ & _ & _ & Hal39 & _).
  destruct (sub_fields_ok _ Hs) as (_ & _ & _ & Hsl38 & _).
  assert (∀ v, 0 <= v < 65536 → bytes_ok (be16 v)) as H16 by (intros v Hv; unfold be16; forall_list).
  pose proof (Forall_take _ (Z.to_nat (uBearerDataLen m)) _ Hb) as Hbt.
  unfold message_params. rewrite !Forall_app.
  destruct (uServicecategory m =? 0), (sub_number_of_digits (sSubAddress m) =? 0), nb, (mt =? MESSAGE_TYPE_SUBMIT);
    split_and!; repeat constructor; cbn [fst snd]; rewrite ?take_lenZ by lia; try done; try lia; try (by apply H16).
Qed.

(** ** Every loop ends *)

Lemma Read_fuel s n : Read s n ≠ OutOfFuel.
Proof.
  assert (∀ p i, deref p i ≠ OutOfFuel) as Hd by (intros [b|] i; [apply rd_fuel|done]).
  unfold Read. destruct (_ || _); [done|]. apply bind_fuel; [done|]. intros b0. cbv zeta. apply bind_fuel; [|done].
  destruct (_ <? _); [|done]. by apply bind_fuel.
Qed.
Lemma read_digits_fuel w n ds s : read_digits w n ds s ≠ OutOfFuel.
Proof.
  apply for_up_fuel. intros i [d s']. apply bind_fuel; [apply Read_fuel|]. intros [v s'']. by apply bind_fuel; [apply wr_fuel|].
Qed.

Ltac no_fuel :=
  repeat first
    [ done | apply rd_fuel | apply wr_fuel | apply Read_fuel | apply read_digits_fuel
    | match goal with |- (if ?b then _ else _) ≠ _ => destruct b end
    | match goal with |- mbind _ _ ≠ _ => apply bind_fuel; [|intros ?] end
    | match goal with |- (let '(_, _) := ?p in _) ≠ _ => destruct p end
    | match goal with |- (let _ := _ in _) ≠ _ => cbv zeta end
    | match goal with |- context [rdn ?a ?b ?c] => unfold rdn end
    | match goal with |- context [wrn ?a ?b ?c] => unfold wrn end ].

Lemma read_parameter_fuel msg id n i m : read_parameter msg id n i m ≠ OutOfFuel.
Proof. unfold read_parameter, read_address, read_subaddress. no_fuel. Qed.

Lemma loop_terminates {S R} (m : S → nat) (I : S → Prop) (step : S → res (ctl S R)) fuel s :
  (∀ s, I s → step s ≠ OutOfFuel ∧ ∀ s', step s = Ok (Next s') → I s' ∧ (m s' < m s)%nat) →
  I s → (m s < fuel)%nat → loop fuel step s ≠ OutOfFuel.
Proof.
  intros Hs. revert s. induction fuel as [|f IH]; intros s HI Hm; [lia|]. cbn [loop].
  destruct (Hs s HI) as [Hf Hn]. destruct (step s) as [[s'|r]| |]; cbn [mbind res_bind]; try done.
  destruct (Hn s' eq_refl). apply IH; [done|lia].
Qed.

(** ** Properties *)

(** a well-formed CDMA SMS message whose transport form fits the buffer survives the two conversions.  The
    object built from the [RIL_CDMA_SMS_Message] holds a byte string of the size computed by [transport_size], and
    the object built from that byte string, parsed parameter by parameter, is the same object. *)
Theorem cdma_roundtrip (nb : bool) (m : RIL_CDMA_SMS_Message) (Hm : msg_wf m)
    (Hfit : transport_size nb m <= MAX_CDMA_SMS_MSG_SIZE) :
  ∃ b, bytes_ok b ∧
    let o := {| m_pbMsg := Some b; m_uMsgLen := transport_size nb m; m_ptRcsm := Some m |} in
    newFromRil nb (Some m) = Ok o ∧ newFromTransport (Some b) (transport_size nb m) = Ok o.
Proof.
  destruct (construct_ok nb m Hm) as (mt & ab & sb & Hmt & Hab & Hal & Haf & Hsb & Hsl & Hsf & E).
  pose proof (message_params_bytes nb mt m ab sb Hm Hab Hal Hsb Hsl) as Hpb.
  pose proof (parse_message nb mt m ab sb Hm Hal Haf Hsl Hsf) as Hp.
  pose proof (message_bytes_size nb mt m ab sb Hal Hsl) as Hsize. rewrite <- Hsize in *
    by (destruct Hm as (_&_&_&_&_&?&?&_); lia). clear Hsize.
  unfold finished, fits in E. change (lenZ [] + ?n) with n in E.
  destruct (Z.leb_spec (lenZ (message_bytes (message_params nb mt m ab sb))) MAX_CDMA_SMS_MSG_SIZE); [|lia].
  set (ps := message_params nb mt m ab sb) in *. exists (message_bytes ps). split.
  { apply Forall_cons. split; [by_eval|]. by apply bytes_params. }
  split; [cbn [newFromRil]; by rewrite E|]. pose proof (lenZ_nonneg (ps ≫= λ q, param q.1 q.2)).
  assert (1 <= lenZ (message_bytes ps)) by (unfold message_bytes; rewrite lenZ_app; change (lenZ [_]) with 1; lia).
  pose proof (parse_all_ok ps zero_message m [0] Hp Hpb) as Hrun. cbv zeta in Hrun.
  change ([0] ++ _) with (message_bytes ps) in Hrun. specialize (Hrun ltac:(done)).
  unfold parses in Hrun. change (lenZ [0]) with 1 in Hrun.
  unfold newFromTransport. destruct (Z.eqb_spec (lenZ (message_bytes ps)) 0); [lia|].
  destruct (Z.ltb_spec MAX_CDMA_SMS_MSG_SIZE (lenZ (message_bytes ps))); [lia|].
  unfold MAX_CDMA_SMS_MSG_SIZE in *. rewrite u16_id, rdn_ok by lia. cbn [mbind res_bind].
  change (Z.to_nat 0) with 0%nat. rewrite drop_0, take_full by lia.
  unfold ConstructRilCdmaSmsMsg. change ((message_bytes ps).[0]) with (Ok 0). cbn [mbind res_bind].
  by rewrite (Hrun (Z.to_nat (lenZ (message_bytes ps)) + 1)%nat) by lia.
Qed.

(** how large the transport form gets.  For a well-formed message, [ConstructTransportLayerMsg] produces exactly
    [transport_size] bytes when that is at most 348, and otherwise writes past its stack array [msg]; sizes up to
    350 occur, two more than the 348 of [MAX_CDMA_SMS_MSG_SIZE]. *)
Theorem construct_bounds (nb : bool) (m : RIL_CDMA_SMS_Message) (Hm : msg_wf m) :
  (if transport_size nb m <=? MAX_CDMA_SMS_MSG_SIZE
   then ∃ b, ConstructTransportLayerMsg nb m = Ok b ∧ lenZ b = transport_size nb m
   else ConstructTransportLayerMsg nb m = UB) ∧
  transport_size nb m <= 350.
Proof.
  destruct (construct_ok nb m Hm) as (mt & ab & sb & Hmt & Hab & Hal & Haf & Hsb & Hsl & Hsf & ->).
  pose proof (message_bytes_size nb mt m ab sb Hal Hsl) as Hsize. destruct Hm as (_ & _ & _ & Ha & Hs & Hn & Hl & _).
  specialize (Hsize ltac:(lia)). destruct (address_fields_ok _ Ha) as (_ & _ & _ & _ & _ & Hal39 & _).
  destruct (sub_fields_ok _ Hs) as (_ & _ & _ & Hsl38 & _). split.
  - unfold finished, fits. change (lenZ [] + ?n) with n. rewrite Hsize. destruct (_ <=? _); [|done]. eauto.
  - unfold transport_size. destruct (uServicecategory m =? 0), (sub_number_of_digits (sSubAddress m) =? 0), nb; lia.
Qed.

(** C40: parsing a transport layer message ends.  On every byte string of 1 to 348 bytes the [do ... while (1)] of
    [ConstructRilCdmaSmsMsg] stops within as many rounds as there are bytes: each round moves the index forward,
    also the one that skips a parameter of length zero.  A message on which a read or a write is out of bounds counts
    as ended here ([address_digits_overrun] and [teleservice_reads_past_end] are such messages): only that the loop
    does not go on for ever is stated. *)
Theorem parse_terminates (msg : list Z) (Hb : bytes_ok msg) (Hl : 0 < lenZ msg <= MAX_CDMA_SMS_MSG_SIZE) :
  ConstructRilCdmaSmsMsg msg (lenZ msg) ≠ OutOfFuel.
Proof.
  unfold MAX_CDMA_SMS_MSG_SIZE in *. unfold ConstructRilCdmaSmsMsg. apply bind_fuel; [apply rd_fuel|]. intros t.
  destruct (_ && _); [done|]. apply bind_fuel; [|done].
  apply (loop_terminates (λ st, Z.to_nat (lenZ msg - st.1)) (λ st, 0 <= st.1)); [|done|cbn [fst]; lia].
  intros [i m] Hi. cbn [fst] in *. unfold parse_step. destruct (Z.leb_spec (lenZ msg) i); [done|].
  destruct (rd_ok msg i) as (id & -> & _); [lia|]. cbn [mbind res_bind]. rewrite (u16_id (i + 1)) by lia.
  destruct (Z.leb_spec (lenZ msg) (i + 1)); [done|].
  destruct (rd_ok msg (i + 1)) as (len & -> & Hlen); [lia|]. cbn [mbind res_bind]. rewrite u16_id by lia.
  assert (is_byte len) as Blen by (by eapply Forall_lookup_1). unfold is_byte in Blen.
  destruct (Z.eqb_spec len 0).
  { split; [done|]. intros s' [= <-]. cbn [fst]. lia. }
  destruct (Z.ltb_spec (lenZ msg) (i + 1 + 1 + len)); [done|]. rewrite u16_id by lia. split.
  - by apply bind_fuel; [apply read_parameter_fuel|].
  - intros s' (m' & _ & [= <-])%bind_ok. cbn [fst]. lia.
Qed.

(** ** Witnesses and small facts *)

Definition sample_address : RIL_CDMA_SMS_Address :=
  {| digit_mode := 0; number_mode := 0; number_type := 0; number_plan := 0; number_of_digits := 3;
     digits := [5; 6; 7] ++ fill 33 0 |}.
Definition sample_message : RIL_CDMA_SMS_Message :=
  {| uTeleserviceID := 4098; bIsServicePresent := 0; uServicecategory := 0; sAddress := sample_address;
     sSubAddress := zero_subaddress; uBearerDataLen := 5; aBearerData := [0; 3; 32; 0; 16] ++ fill 250 0 |}.
Lemma sample_wf : msg_wf sample_message.
Proof. unfold msg_wf, addr_wf, sub_wf. split_and!; try by_eval; try done. Defined.

Lemma cdma_roundtrip_witness :
  ∃ b, bytes_ok b ∧
    let o := {| m_pbMsg := Some b; m_uMsgLen := 20; m_ptRcsm := Some sample_message |} in
    newFromRil false (Some sample_message) = Ok o ∧ newFromTransport (Some b) 20 = Ok o.
Proof. refine (cdma_roundtrip false sample_message sample_wf _). by_eval. Defined.

(** the largest message of the MT form the header describes *)
Definition large_message : RIL_CDMA_SMS_Message :=
  {| uTeleserviceID := 4098; bIsServicePresent := 1; uServicecategory := 1;
     sAddress := {| digit_mode := 1; number_mode := 0; number_type := 1; number_plan := 1; number_of_digits := 36;
                    digits := fill 36 49 |};
     sSubAddress := {| subaddressType := 0; odd := 0; sub_number_of_digits := 36; sub_digits := fill 36 49 |};
     uBearerDataLen := 255; aBearerData := fill 255 1 |}.
Lemma large_wf : msg_wf large_message.
Proof. unfold msg_wf, addr_wf, sub_wf. split_and!; try by_eval; try done. Defined.

Lemma construct_bounds_witness :
  ConstructTransportLayerMsg false large_message = UB ∧ 350 <= 350.
Proof. exact (construct_bounds false large_message large_wf). Defined.

Lemma parse_terminates_witness : ConstructRilCdmaSmsMsg [0; 9; 0; 9; 0; 8; 1; 7] 8 ≠ OutOfFuel.
Proof. refine (parse_terminates [0; 9; 0; 9; 0; 8; 1; 7] _ _); by_eval. Defined.

(** a received address may claim more digits than [digits] has room for *)
Lemma address_digits_overrun :
  ConstructRilCdmaSmsMsg ([0; 4; 40; 9; 64] ++ fill 38 0) 43 = UB.
Proof. reflexivity. Qed.

(** a teleservice parameter of length 1 at the end of the message is read past the end *)
Lemma teleservice_reads_past_end : ConstructRilCdmaSmsMsg [0; 0; 1; 16] 4 = UB.
Proof. reflexivity. Qed.

(** the cells of a [RIL_CDMA_SMS_Ack]: two [int]s, low byte first *)
Definition ack_cells (cls cause : Z) : list Z :=
  [cls mod 256; cls / 256 mod 256; cls / 65536 mod 256; cls / 16777216 mod 256;
   cause mod 256; cause / 256 mod 256; cause / 65536 mod 256; cause / 16777216 mod 256].
(** the cause code the request carries never reaches [m_uErrCode] *)
Lemma ack_cause_lost cls cause st :
  0 <= cls < 256 → CdmaSmsAckRequestData_encode (Some (ack_cells cls cause)) 8 st = Ok (0, (cls, 0)).
Proof.
  intros Hc. change (Ok (0, (u8 (cls mod 256), u8 (cls / 256 mod 256))) = Ok (0, (cls, 0))).
  rewrite Z.mod_small, (Z.div_small cls) by lia. by rewrite u8_id.
Qed.
