(* ===== verification/Sms.v ===== *)
(** GSM SMS: the service center number conversions of [util/sms_util.cpp], and
    the PDU, service center, message, parser and broadcast configuration
    classes of [fw/smsdata.cpp].

    The [RIL_REQUEST_SET_SMSC_ADDRESS] and [GET_SMSC_ADDRESS] handlers of
    [core/service/smsservice.cpp] are modelled up to the bytes they hand to the
    message builder and the text they hand to the completion callback. *)
From S2P Require Import Prelude Text.

Definition MAX_GSM_SMS_SERVICE_CENTER_ADDR : Z := 12.
Definition MAX_GSM_SMS_TPDU_SIZE : Z := 244.
Definition RIL_TOA_UNKNOWN : Z := 129.
Definition RIL_TOA_INTERNATIONAL : Z := 145.

(** ** Service center numbers *)

(** [strncpy(dst, src, n)]; a negative [n] is a huge [size_t] *)
Definition strncpy (dst src : list Z) (n : Z) : res (list Z) :=
  if n <? 0 then UB
  else
    let s := take (Z.to_nat n) (cstr src) in
    if (lenZ s <? n) && (lenZ (cstr src) =? lenZ src) then UB
    else wrn dst 0 (s ++ fill (n - lenZ s) 0).

(** one round of the BCD loop; the state is [buf], [i], [j] and [len] *)
Definition bcd_step (tpdu : list Z) (tpduLen : Z) (st : list Z * Z * Z * Z)
  : res (ctl (list Z * Z * Z * Z) (list Z * Z)) :=
  let '(buf, i, j, len) := st in
  if tpduLen <=? j then Ok (Stop (buf, len))
  else
    c ← tpdu.[j];
    buf ← buf.[i <- Z.land c 15 + 48];
    if Z.shiftr c 4 =? 15 then Ok (Stop (buf, len - 1))
    else
      buf ← buf.[i + 1 <- Z.land (Z.shiftr c 4) 15 + 48];
      Ok (Next (buf, i + 2, j + 1, len)).

(** the result and the destination buffer *)
Definition ConvertSmscBcdToNumber (tpdu : list Z) (tpduLen : Z) (smsc : list Z) (smscLen : Z) : res (Z * list Z) :=
  if tpduLen <=? 0 then Ok (-1, smsc)
  else
    let len := (tpduLen - 1) * 2 in
    let buf := fill (MAX_GSM_SMS_SERVICE_CENTER_ADDR * 2) 0 in
    t ← tpdu.[1];
    st ← (if t =? RIL_TOA_INTERNATIONAL then buf ← buf.[0 <- 43]; Ok (buf, 1, 2, len - 1)
          else if t =? RIL_TOA_UNKNOWN then Ok (buf, 0, 2, len - 1)
          else Ok (buf, 0, 1, len));
    '(buf, len) ← loop (Z.to_nat tpduLen + 1) (bcd_step tpdu tpduLen) st;
    if smscLen <? len then Ok (-1, smsc)
    else smsc ← strncpy smsc buf len; Ok (len, smsc).

(** one character; the state is [buf] and [j] *)
Definition number_step (smsc : list Z) (insert_point i : Z) (st : list Z * Z) : res (list Z * Z) :=
  c ← smsc.[i];
  if i mod 2 =? insert_point then buf ← (st.1).[st.2 <- Z.land c 15]; Ok (buf, st.2)
  else x ← (st.1).[st.2]; buf ← (st.1).[st.2 <- Z.lor x (Z.land (Z.shiftl c 4) 240)]; Ok (buf, st.2 + 1).

(** [smsc] holds the terminator too *)
Definition ConvertSmscNumberToBcd (smsc : list Z) (smscLen : Z) (tpdu : list Z) (tpduLen : Z) : res (Z * list Z) :=
  if smscLen <=? 0 then Ok (-1, tpdu)
  else
    let buf := fill MAX_GSM_SMS_SERVICE_CENTER_ADDR 0 in
    c ← smsc.[0];
    '(buf, i, insert_point) ←
      (if c =? 43 then buf ← buf.[1 <- RIL_TOA_INTERNATIONAL]; Ok (buf, 1, 1)
       else buf ← buf.[1 <- RIL_TOA_UNKNOWN]; Ok (buf, 0, 0));
    '(buf, j) ← for_up (Z.to_nat (smscLen - i)) i (number_step smsc insert_point) (buf, 2);
    let i := Z.max i smscLen in
    '(buf, j) ←
      (if (negb (insert_point =? 0) && (i mod 2 =? 0)) || ((insert_point =? 0) && (i mod 2 =? 1))
       then x ← buf.[j]; buf ← buf.[j <- Z.lor x 240]; Ok (buf, j + 1)
       else Ok (buf, j));
    buf ← buf.[0 <- u8 (j - 1)];
    if tpduLen <? j then Ok (-1, tpdu)
    else b ← rdn buf 0 j; tpdu ← wrn tpdu 0 b; Ok (j, tpdu).

Definition IsSmscLenValid (smsc : list Z) (smscLen : Z) : res bool :=
  let maxLen := (MAX_GSM_SMS_SERVICE_CENTER_ADDR - 2) * 2 in
  c ← smsc.[0];
  let maxLen := if c =? 43 then maxLen + 1 else maxLen in
  Ok (negb (maxLen <? smscLen)).

(** [DoSetSmscAddress]: the PDU handed to [BuildSmscAddress], with its length;
    [None] when the request is refused *)
Definition DoSetSmscAddress (sca : option (list Z)) : res (option (Z * list Z)) :=
  match sca with
  | None => Ok None
  | Some s =>
    let cells := s ++ [0] in
    ok ← IsSmscLenValid cells (lenZ s);
    if negb ok then Ok None
    else
      r ← ConvertSmscNumberToBcd cells (lenZ s) (fill MAX_GSM_SMS_SERVICE_CENTER_ADDR 0) MAX_GSM_SMS_SERVICE_CENTER_ADDR;
      Ok (if r.1 <? 0 then None else Some r)
  end.

(** [OnGetSmscAddressDone] for a successful response with PDU [smscPdu]: the
    buffer [sca] and the length handed to [OnRequestComplete] *)
Definition OnGetSmscAddressDone (smscPdu : option (list Z)) (smscPduLen : Z) : res (list Z * Z) :=
  let sca := fill (MAX_GSM_SMS_SERVICE_CENTER_ADDR * 2) 0 in
  match smscPdu with
  | None => Ok (sca, 0)
  | Some p => r ← ConvertSmscBcdToNumber p smscPduLen sca (MAX_GSM_SMS_SERVICE_CENTER_ADDR * 2); Ok (r.2, r.1)
  end.

Example set_smsc : DoSetSmscAddress (Some (str "+8210123")) = Ok (Some (6, [5; 145; 40; 1; 33; 243] ++ fill 6 0)).
Proof. reflexivity. Qed.
Example get_smsc : OnGetSmscAddressDone (Some ([5; 145; 40; 1; 33; 243] ++ fill 6 0)) 6 = Ok (str "+8210123" ++ fill 16 0, 8).
Proof. reflexivity. Qed.
Example get_smsc_n : OnGetSmscAddressDone (Some ([5; 129; 40; 1; 33; 243] ++ fill 6 0)) 6 = Ok (str "8210123" ++ fill 17 0, 8).
Proof. reflexivity. Qed.

(** ** Lemmas on the number conversions *)

Definition nibbles (s : list Z) : list Z := (λ c, Z.land c 15) <$> s.

(** the cells after the characters [cs]: the last one is half filled when
    their number is odd *)
Fixpoint half_pack (cs : list Z) : list Z :=
  match cs with
  | [] => []
  | [c] => [Z.land c 15]
  | c :: e :: cs' => Z.lor (Z.land c 15) (Z.land (Z.shiftl e 4) 240) :: half_pack cs'
  end.

Lemma half_cell c e : Z.lor (Z.land c 15) (Z.land (Z.shiftl e 4) 240) = Z.lor (Z.shiftl (Z.land e 15) 4) (Z.land c 15).
Proof.
  rewrite Z.lor_comm. f_equal. change 240 with (Z.shiftl 15 4). by rewrite <- Z.shiftl_land.
Qed.

Lemma half_pack_even cs : lenZ cs mod 2 = 0 → half_pack cs = bcd_pack (nibbles cs).
Proof.
  induction cs as [|c|c e cs IH] using pairs_ind; intros H; [done..|]. cbn [half_pack nibbles fmap list_fmap bcd_pack].
  rewrite half_cell, IH; [done|]. rewrite !lenZ_cons in H. lia.
Qed.
Lemma half_pack_odd cs : lenZ cs mod 2 = 1 →
  ∃ q x, half_pack cs = q ++ [x] ∧ bcd_pack (nibbles cs) = q ++ [Z.lor x 240] ∧ lenZ q = lenZ cs / 2.
Proof.
  induction cs as [|c|c e cs IH] using pairs_ind; intros H; [done| |].
  - exists [], (Z.land c 15). cbn [half_pack nibbles fmap list_fmap bcd_pack app]. by rewrite Z.lor_comm.
  - destruct IH as (q & x & E1 & E2 & Hq); [rewrite !lenZ_cons in H; lia|].
    exists (Z.lor (Z.land c 15) (Z.land (Z.shiftl e 4) 240) :: q), x.
    cbn [half_pack nibbles fmap list_fmap bcd_pack app]. fold (nibbles cs). rewrite E1, E2, half_cell, !lenZ_cons. split_and!; [done..|lia].
Qed.

Lemma lenZ_half_pack cs : lenZ (half_pack cs) = (lenZ cs + 1) / 2.
Proof.
  induction cs as [|c|c e cs IH] using pairs_ind; [done..|]. cbn [half_pack]. rewrite !lenZ_cons, IH. lia.
Qed.
Lemma lenZ_bcd_pack ds : lenZ (bcd_pack ds) = (lenZ ds + 1) / 2.
Proof.
  induction ds as [|d|d e ds IH] using pairs_ind; [done..|]. cbn [bcd_pack]. rewrite !lenZ_cons, IH. lia.
Qed.

Lemma drop_fill n k (v : Z) : drop k (fill n v) = fill (n - Z.of_nat k) v.
Proof. unfold fill. rewrite drop_replicate. f_equal. lia. Qed.

Lemma number_step_lo ip pre c t b r :
  lenZ pre mod 2 = ip → 0 < r →
  number_step (pre ++ c :: t) ip (lenZ pre) (b ++ fill r 0, lenZ b) = Ok (b ++ Z.land c 15 :: fill (r - 1) 0, lenZ b).
Proof.
  intros Hp Hr. unfold number_step. rewrite rd_snoc. cbn [mbind res_bind fst snd].
  rewrite Hp, Z.eqb_refl, wr_app by (rewrite lenZ_fill; lia). cbn [mbind res_bind]. by rewrite drop_fill.
Qed.
Lemma number_step_hi ip pre c t b x u :
  lenZ pre mod 2 ≠ ip →
  number_step (pre ++ c :: t) ip (lenZ pre) (b ++ x :: u, lenZ b) =
    Ok (b ++ Z.lor x (Z.land (Z.shiftl c 4) 240) :: u, lenZ b + 1).
Proof.
  intros Hp. unfold number_step. rewrite rd_snoc. cbn [mbind res_bind fst snd].
  destruct (Z.eqb_spec (lenZ pre mod 2) ip); [done|]. rewrite rd_snoc. cbn [mbind res_bind].
  by rewrite wr_snoc.
Qed.

(** the character loop of [ConvertSmscNumberToBcd] *)
Lemma number_loop ip cs : ∀ pre post b r,
  0 <= ip < 2 → lenZ pre mod 2 = ip → lenZ (half_pack cs) <= r →
  for_up (length cs) (lenZ pre) (number_step (pre ++ cs ++ post) ip) (b ++ fill r 0, lenZ b) =
    Ok (b ++ half_pack cs ++ fill (r - lenZ (half_pack cs)) 0, lenZ b + lenZ cs / 2).
Proof.
  induction cs as [|c|c e cs IH] using pairs_ind; intros pre post b r Hip Hpre Hr; rewrite lenZ_half_pack in *.
  - change (@lenZ Z []) with 0. cbn [length for_up half_pack app]. change ((0 + 1) / 2) with 0. change (0 / 2) with 0.
    by rewrite Z.sub_0_r, Z.add_0_r.
  - change (lenZ [c]) with 1 in *. change ((1 + 1) / 2) with 1 in *. change (1 / 2) with 0.
    cbn [length for_up half_pack app]. rewrite number_step_lo by (done || lia). cbn [mbind res_bind]. by rewrite Z.add_0_r.
  - rewrite !lenZ_cons in *. pose proof (lenZ_nonneg cs). cbn [length for_up app].
    rewrite number_step_lo by (done || lia). cbn [mbind res_bind].
    assert (lenZ (pre ++ [c]) = lenZ pre + 1) as Hp1 by (by rewrite lenZ_app).
    rewrite cons_middle, app_assoc, <- Hp1, number_step_hi by lia. cbn [mbind res_bind].
    set (x := Z.lor _ _). rewrite (cons_middle x b), (app_assoc b), (cons_middle e), (app_assoc (pre ++ [c])).
    replace (lenZ (pre ++ [c]) + 1) with (lenZ ((pre ++ [c]) ++ [e])) by (by rewrite (lenZ_app _ [e])).
    replace (lenZ b + 1) with (lenZ (b ++ [x])) by (by rewrite lenZ_app).
    rewrite IH; rewrite ?lenZ_half_pack, ?(lenZ_app _ [e]), ?(lenZ_app _ [x]); change (lenZ [e]) with 1; change (lenZ [x]) with 1;
      try done; try lia.
    cbn [half_pack]. fold x. rewrite <- app_assoc. cbn [app]. f_equal. f_equal; [|lia]. do 4 f_equal. lia.
Qed.

(** the type of number and the characters after an initial plus sign *)
Definition smsc_split (s : list Z) : Z * list Z :=
  match s with
  | c :: t => if c =? 43 then (RIL_TOA_INTERNATIONAL, t) else (RIL_TOA_UNKNOWN, s)
  | [] => (RIL_TOA_UNKNOWN, [])
  end.
(** the service center address: length, type of number, BCD digits *)
Definition smsc_pdu (s : list Z) : list Z :=
  let p := bcd_pack (nibbles (smsc_split s).2) in [1 + lenZ p; (smsc_split s).1] ++ p.

Lemma lenZ_nibbles s : lenZ (nibbles s) = lenZ s.
Proof. unfold lenZ, nibbles. by rewrite length_fmap. Qed.

(** from the character loop on *)
Lemma number_finish pre cs toa ip n :
  lenZ pre = ip → 0 <= ip < 2 → lenZ cs <= 20 → n = ip + lenZ cs →
  ('(buf, j) ← for_up (Z.to_nat (n - ip)) ip (number_step (pre ++ cs ++ [0]) ip) ([0; toa] ++ fill 10 0, 2);
   '(buf, j) ←
      (if (negb (ip =? 0) && (Z.max ip n mod 2 =? 0)) || ((ip =? 0) && (Z.max ip n mod 2 =? 1))
       then x ← buf.[j]; buf ← buf.[j <- Z.lor x 240]; Ok (buf, j + 1) else Ok (buf, j));
   buf ← buf.[0 <- u8 (j - 1)];
   if 12 <? j then Ok (-1, fill 12 0)
   else b ← rdn buf 0 j; tpdu ← wrn (fill 12 0) 0 b; Ok (j, tpdu)) =
  let p := bcd_pack (nibbles cs) in Ok (2 + lenZ p, [1 + lenZ p; toa] ++ p ++ fill (10 - lenZ p) 0).
Proof.
  intros Hpre Hip Hcs ->. pose proof (lenZ_nonneg cs). rewrite Z.add_simpl_l, Z.max_r by lia.
  replace (Z.to_nat (lenZ cs)) with (length cs) by (unfold lenZ; lia).
  change ([0; toa] ++ fill 10 0, 2) with ([0; toa] ++ fill 10 0, lenZ [0; toa]). rewrite <- Hpre at 1.
  assert (lenZ (half_pack cs) <= 10) by (rewrite lenZ_half_pack; lia).
  rewrite number_loop by (rewrite ?Hpre; done || lia). cbn [mbind res_bind].
  set (p := bcd_pack (nibbles cs)).
  assert (lenZ p = (lenZ cs + 1) / 2) as Hp by (unfold p; by rewrite lenZ_bcd_pack, lenZ_nibbles).
  assert (∀ j : Z, j = 2 + lenZ p →
    (buf ← ([0; toa] ++ p ++ fill (10 - lenZ p) 0).[0 <- u8 (j - 1)];
     if 12 <? j then Ok (-1, fill 12 0) else b ← rdn buf 0 j; tpdu ← wrn (fill 12 0) 0 b; Ok (j, tpdu)) =
    Ok (2 + lenZ p, [1 + lenZ p; toa] ++ p ++ fill (10 - lenZ p) 0)) as Hfin.
  { intros j ->. change (([0; toa] ++ ?r).[0 <- ?v]) with (Ok (v :: toa :: r)). cbn [mbind res_bind].
    rewrite u8_id by (unfold is_byte; lia). destruct (Z.ltb_spec 12 (2 + lenZ p)); [lia|].
    replace (2 + lenZ p - 1) with (1 + lenZ p) by lia. set (b := [1 + lenZ p; toa] ++ p).
    assert (lenZ b = 2 + lenZ p) as Hb by (unfold b; by rewrite lenZ_app).
    change (1 + lenZ p :: toa :: p ++ fill (10 - lenZ p) 0) with ([] ++ b ++ fill (10 - lenZ p) 0).
    replace (rdn ([] ++ b ++ fill (10 - lenZ p) 0) 0 (2 + lenZ p)) with (Ok b) by (rewrite <- Hb; symmetry; apply (rdn_mid [])).
    cbn [mbind res_bind].
    rewrite (wrn_at [] (fill 12 0)) by (rewrite ?lenZ_fill; done || lia). cbn [mbind res_bind app].
    rewrite drop_fill. change (Z.of_nat (length b)) with (lenZ b). rewrite Hb.
    by replace (12 - (2 + lenZ p)) with (10 - lenZ p) by lia. }
  destruct (Z.eq_dec (lenZ cs mod 2) 0) as [E|E].
  - assert ((negb (ip =? 0) && ((ip + lenZ cs) mod 2 =? 0)) || ((ip =? 0) && ((ip + lenZ cs) mod 2 =? 1)) = false) as -> by lia.
    cbn [mbind res_bind]. rewrite half_pack_even by done. fold p. apply Hfin. change (lenZ [0; toa]) with 2. lia.
  - assert ((negb (ip =? 0) && ((ip + lenZ cs) mod 2 =? 0)) || ((ip =? 0) && ((ip + lenZ cs) mod 2 =? 1)) = true) as -> by lia.
    destruct (half_pack_odd cs) as (q & x & -> & Eq & Hq); [lia|]. fold p in Eq.
    assert (lenZ ([0; toa] ++ q) = lenZ [0; toa] + lenZ cs / 2) as Hl by (rewrite lenZ_app; lia).
    replace ([0; toa] ++ (q ++ [x]) ++ fill (10 - lenZ (q ++ [x])) 0) with (([0; toa] ++ q) ++ x :: fill (10 - lenZ p) 0).
    2: { rewrite <- !app_assoc, lenZ_app. change (lenZ [x]) with 1. cbn [app]. do 6 f_equal. lia. }
    rewrite <- Hl, rd_snoc. cbn [mbind res_bind]. rewrite wr_snoc. cbn [mbind res_bind].
    rewrite cons_middle, (app_assoc ([0; toa] ++ q)), <- (app_assoc _ q), <- Eq, <- app_assoc, Hl.
    apply Hfin. change (lenZ [0; toa]) with 2. lia.
Qed.

Lemma number_to_bcd_ok s :
  s ≠ [] → lenZ (smsc_split s).2 <= 20 →
  ConvertSmscNumberToBcd (s ++ [0]) (lenZ s) (fill 12 0) 12 =
    Ok (1 + (1 + lenZ (bcd_pack (nibbles (smsc_split s).2))),
        smsc_pdu s ++ fill (10 - lenZ (bcd_pack (nibbles (smsc_split s).2))) 0).
Proof.
  intros Hne Hl. destruct s as [|c t]; [done|]. pose proof (lenZ_nonneg t).
  unfold ConvertSmscNumberToBcd. destruct (Z.leb_spec (lenZ (c :: t)) 0); [rewrite lenZ_cons in *; lia|].
  cbn [app]. rewrite rd_cons_0. cbn [mbind res_bind smsc_split] in *. unfold smsc_pdu. cbn [smsc_split].
  change MAX_GSM_SMS_SERVICE_CENTER_ADDR with 12. rewrite Z.add_assoc, <- app_assoc. change (1 + 1) with 2.
  destruct (Z.eqb_spec c 43) as [->|Hc]; cbn [fst snd] in *.
  - apply (number_finish [43] t RIL_TOA_INTERNATIONAL 1); rewrite ?lenZ_cons; done || lia.
  - apply (number_finish [] (c :: t) RIL_TOA_UNKNOWN 0); done || lia.
Qed.

(** what [DoSetSmscAddress] does with any text *)
Lemma set_smsc_ok s :
  DoSetSmscAddress (Some s) =
    Ok (if (lenZ s =? 0) || (20 <? lenZ (smsc_split s).2) then None
        else Some (lenZ (smsc_pdu s), smsc_pdu s ++ fill (12 - lenZ (smsc_pdu s)) 0)).
Proof.
  destruct s as [|c t]; [done|]. pose proof (lenZ_nonneg t). unfold DoSetSmscAddress, IsSmscLenValid.
  assert (((c :: t) ++ [0]).[0] = Ok c) as -> by done. cbn [mbind res_bind].
  change ((MAX_GSM_SMS_SERVICE_CENTER_ADDR - 2) * 2) with 20. change MAX_GSM_SMS_SERVICE_CENTER_ADDR with 12.
  assert (((if c =? 43 then 20 + 1 else 20) <? lenZ (c :: t)) = (20 <? lenZ (smsc_split (c :: t)).2)) as ->
    by (cbn [smsc_split]; destruct (c =? 43); cbn [snd]; rewrite ?lenZ_cons; lia).
  destruct (Z.eqb_spec (lenZ (c :: t)) 0); [rewrite lenZ_cons in *; lia|]. cbn [orb].
  rewrite negb_involutive. destruct (Z.ltb_spec 20 (lenZ (smsc_split (c :: t)).2)); [done|].
  rewrite number_to_bcd_ok by (done || lia). cbn [mbind res_bind fst].
  unfold smsc_pdu. set (p := bcd_pack _). pose proof (lenZ_nonneg p). destruct (Z.ltb_spec (1 + (1 + lenZ p)) 0); [lia|].
  rewrite lenZ_app, Z.add_assoc. change (lenZ [_; _]) with (1 + 1). by replace (12 - (1 + 1 + lenZ p)) with (10 - lenZ p) by lia.
Qed.

Lemma bcd_step_pair pre d e post b r n len :
  0 <= d < 10 → 0 <= e < 10 → lenZ pre < n → 2 <= r →
  bcd_step (pre ++ Z.lor (Z.shiftl e 4) d :: post) n (b ++ fill r 0, lenZ b, lenZ pre, len) =
    Ok (Next (b ++ [48 + d; 48 + e] ++ fill (r - 2) 0, lenZ b + 2, lenZ pre + 1, len)).
Proof.
  intros Hd He Hn Hr. destruct (bcd_cell2 d e Hd He) as (E1 & E2 & Hb). unfold bcd_step. cmp_cases.
  rewrite rd_snoc. cbn [mbind res_bind]. rewrite wr_app by (rewrite lenZ_fill; lia). cbn [mbind res_bind].
  assert (Z.shiftr (Z.lor (Z.shiftl e 4) d) 4 = e) as Ec.
  { apply Z.eqb_eq. exact (small_forall2 10 10 (λ d e, Z.shiftr (Z.lor (Z.shiftl e 4) d) 4 =? e) eq_refl d e Hd He). }
  destruct (Z.eqb_spec (Z.shiftr (Z.lor (Z.shiftl e 4) d) 4) 15); [lia|]. rewrite E1, E2, drop_fill, cons_middle, app_assoc.
  rewrite (wr_at _ _ _ (lenZ b + 1)) by (rewrite ?lenZ_app, ?lenZ_fill; done || lia). cbn [mbind res_bind].
  rewrite drop_fill, <- app_assoc, (Z.add_comm d), (Z.add_comm e). cbn [app].
  by replace (r - Z.of_nat 1 - Z.of_nat 1) with (r - 2) by lia.
Qed.
Lemma bcd_step_last pre d post b r n len :
  0 <= d < 10 → lenZ pre < n → 1 <= r →
  bcd_step (pre ++ Z.lor 240 d :: post) n (b ++ fill r 0, lenZ b, lenZ pre, len) =
    Ok (Stop (b ++ (48 + d) :: fill (r - 1) 0, len - 1)).
Proof.
  intros Hd Hn Hr. destruct (bcd_cell1 d Hd) as [E1 E2]. unfold bcd_step. cmp_cases.
  rewrite rd_snoc. cbn [mbind res_bind]. rewrite wr_app by (rewrite lenZ_fill; lia). cbn [mbind res_bind].
  assert (Z.shiftr (Z.lor 240 d) 4 = 15) as ->.
  { apply Z.eqb_eq. exact (small_forall 10 (λ d, Z.shiftr (Z.lor 240 d) 4 =? 15) eq_refl d Hd). }
  rewrite E1, drop_fill, (Z.add_comm d). done.
Qed.

(** the BCD loop on packed digits *)
Lemma bcd_loop ds : ∀ pre post b r fuel len n,
  Forall (λ d, 0 <= d < 10) ds → lenZ ds <= r → (length (bcd_pack ds) < fuel)%nat → n = lenZ pre + lenZ (bcd_pack ds) →
  loop fuel (bcd_step (pre ++ bcd_pack ds ++ post) n) (b ++ fill r 0, lenZ b, lenZ pre, len) =
    Ok (b ++ ((λ d, 48 + d) <$> ds) ++ fill (r - lenZ ds) 0, len - lenZ ds mod 2).
Proof.
  induction ds as [|d|d e ds IH] using pairs_ind; intros pre post b r fuel len n Hds Hr Hf Hn; (destruct fuel as [|fuel]; [lia|]).
  - cbn [loop bcd_pack] in *. change (@lenZ Z []) with 0 in *. unfold bcd_step. rewrite Hn, Z.add_0_r, Z.leb_refl.
    cbn [mbind res_bind]. by rewrite !Z.sub_0_r.
  - apply Forall_cons_1 in Hds as [Hd _]. cbn [loop bcd_pack app] in *. change (lenZ [_]) with 1 in *.
    rewrite bcd_step_last by (done || lia). done.
  - apply Forall_cons_1 in Hds as [Hd Hds]. apply Forall_cons_1 in Hds as [He Hds]. cbn [loop bcd_pack app] in *.
    rewrite !lenZ_cons in *. pose proof (lenZ_nonneg (bcd_pack ds)). pose proof (lenZ_nonneg ds).
    rewrite bcd_step_pair by (done || lia). cbn [mbind res_bind]. set (c := Z.lor _ d) in *.
    rewrite (app_assoc b), (cons_middle c pre), (app_assoc pre).
    replace (lenZ b + 2) with (lenZ (b ++ [48 + d; 48 + e])) by (by rewrite lenZ_app).
    replace (lenZ pre + 1) with (lenZ (pre ++ [c])) by (by rewrite lenZ_app).
    rewrite IH; [|done|lia|cbn in Hf; lia|rewrite lenZ_app; change (lenZ [c]) with 1; lia].
    rewrite !fmap_cons, <- !app_assoc. cbn [app]. do 2 f_equal; [do 5 f_equal; lia|lia].
Qed.

(** the text of a number *)
Definition number (plus : bool) (ds : list Z) : list Z := (if plus then [43] else []) ++ ((λ d, 48 + d) <$> ds).

Lemma nibbles_digits ds : Forall (λ d, 0 <= d < 10) ds → nibbles ((λ d, 48 + d) <$> ds) = ds.
Proof.
  unfold nibbles. induction 1 as [|d ds Hd Hds IH]; [done|]. rewrite !fmap_cons, IH. f_equal. apply Z.eqb_eq.
  exact (small_forall 10 (λ d, Z.land (48 + d) 15 =? d) eq_refl d Hd).
Qed.
Lemma nonul_number plus ds : Forall (λ d, 0 <= d < 10) ds → nonul (number plus ds).
Proof.
  intros H. unfold number. apply Forall_app. split; [by destruct plus; repeat constructor|].
  apply Forall_fmap. eapply Forall_impl; [exact H|]. cbn. lia.
Qed.
Lemma lenZ_chars ds : lenZ ((λ d, 48 + d) <$> ds) = lenZ ds.
Proof. unfold lenZ. by rewrite length_fmap. Qed.

Lemma split_number plus ds : plus = true ∨ ds ≠ [] → Forall (λ d, 0 <= d < 10) ds →
  smsc_split (number plus ds) = (if plus then RIL_TOA_INTERNATIONAL else RIL_TOA_UNKNOWN, (λ d, 48 + d) <$> ds).
Proof.
  unfold number, smsc_split. intros Hne Hds. destruct plus; [done|]. destruct ds as [|d ds]; [by destruct Hne|].
  apply Forall_cons_1 in Hds as [Hd _]. cbn [app fmap list_fmap]. destruct (Z.eqb_spec (48 + d) 43); [lia|done].
Qed.

(** copying a string, followed by some zero cells, into a zeroed array *)
Lemma strncpy_ok s k n N :
  nonul s → lenZ s <= n <= N → n <= lenZ s + k → 1 <= k →
  strncpy (fill N 0) (s ++ fill k 0) n = Ok (s ++ fill (N - lenZ s) 0).
Proof.
  intros Hs Hn Hk Hk1. pose proof (lenZ_nonneg s). unfold strncpy. destruct (Z.ltb_spec n 0); [lia|].
  assert (fill k 0 = 0 :: fill (k - 1) 0) as Ek by (unfold fill; replace (Z.to_nat k) with (S (Z.to_nat (k - 1))) by lia; done).
  assert (cstr (s ++ fill k 0) = s) as -> by (rewrite Ek; by apply cstr_app).
  rewrite take_ge by (unfold lenZ in *; lia). rewrite (lenZ_app s), lenZ_fill by lia.
  destruct (Z.eqb_spec (lenZ s) (lenZ s + k)); [lia|]. rewrite andb_false_r.
  rewrite (wrn_at [] (fill N 0)) by (rewrite ?lenZ_app, ?lenZ_fill; done || lia). f_equal. cbn [app].
  rewrite <- app_assoc, drop_fill, length_app. f_equal. unfold fill, lenZ in *. rewrite length_replicate, <- replicate_add. f_equal. lia.
Qed.

(** setting a service center number and reading it back.  For every number of at most 20 digits, with or without a
    plus sign, the PDU that [DoSetSmscAddress] builds is decoded by [OnGetSmscAddressDone] to the same text; the length
    reported with it is that of the text for an international number and one more for a national one. *)
Theorem smsc_roundtrip (plus : bool) (ds : list Z)
    (Hds : Forall (λ d, 0 <= d < 10) ds) (Hlen : lenZ ds <= 20) (Hne : plus = true ∨ ds ≠ []) :
  let s := number plus ds in
  ∃ n cells, DoSetSmscAddress (Some s) = Ok (Some (n, cells)) ∧
    OnGetSmscAddressDone (Some cells) n = Ok (s ++ fill (24 - lenZ s) 0, lenZ s + if plus then 0 else 1).
Proof.
  intros s. pose proof (split_number plus ds Hne Hds) as Hsp. fold s in Hsp. pose proof (lenZ_nonneg ds).
  assert (lenZ s = (if plus then 1 else 0) + lenZ ds) as Hls by (unfold s, number; rewrite lenZ_app, lenZ_chars; by destruct plus).
  assert (lenZ s ≠ 0) by (destruct plus; [lia|]; destruct Hne as [|Hne]; [done|]; destruct ds; [done|]; rewrite lenZ_cons in *;
    pose proof (lenZ_nonneg ds); lia).
  exists (lenZ (smsc_pdu s)), (smsc_pdu s ++ fill (12 - lenZ (smsc_pdu s)) 0). split.
  { rewrite set_smsc_ok, Hsp. cbn [snd]. rewrite lenZ_chars. destruct (Z.eqb_spec (lenZ s) 0); [lia|].
    by destruct (Z.ltb_spec 20 (lenZ ds)); [lia|]. }
  unfold smsc_pdu. rewrite Hsp. cbn [fst snd]. rewrite nibbles_digits by done. set (p := bcd_pack ds).
  assert (lenZ p = (lenZ ds + 1) / 2) as Hp by apply lenZ_bcd_pack.
  set (toa := if plus then RIL_TOA_INTERNATIONAL else RIL_TOA_UNKNOWN). rewrite lenZ_app. change (lenZ [_; _]) with 2.
  unfold OnGetSmscAddressDone, ConvertSmscBcdToNumber. destruct (Z.leb_spec (2 + lenZ p) 0); [lia|].
  change (MAX_GSM_SMS_SERVICE_CENTER_ADDR * 2) with 24.
  assert ((([1 + lenZ p; toa] ++ p) ++ fill (12 - (2 + lenZ p)) 0).[1] = Ok toa) as -> by done. cbn [mbind res_bind].
  assert ((if toa =? RIL_TOA_INTERNATIONAL then buf ← (fill 24 0).[0 <- 43]; Ok (buf, 1, 2, (2 + lenZ p - 1) * 2 - 1)
           else if toa =? RIL_TOA_UNKNOWN then Ok (fill 24 0, 0, 2, (2 + lenZ p - 1) * 2 - 1)
           else Ok (fill 24 0, 0, 1, (2 + lenZ p - 1) * 2)) =
          let b := if plus then [43] else [] in Ok (b ++ fill (24 - lenZ b) 0, lenZ b, lenZ [1 + lenZ p; toa], 2 * lenZ p + 1)) as ->.
  { unfold toa. destruct plus; cbn [Z.eqb Pos.eqb RIL_TOA_INTERNATIONAL RIL_TOA_UNKNOWN]; cbv zeta;
      replace ((2 + lenZ p - 1) * 2 - 1) with (2 * lenZ p + 1) by lia; done. }
  cbv zeta. cbn [mbind res_bind]. rewrite <- app_assoc.
  change p with (bcd_pack ds). rewrite bcd_loop; [|done|destruct plus; [change (lenZ [43]) with 1|change (@lenZ Z []) with 0]; lia|fold p; unfold lenZ in *; lia|done].
  fold p. cbn [mbind res_bind].
  rewrite app_assoc. fold (number plus ds) s. replace (2 * lenZ p + 1 - lenZ ds mod 2) with (lenZ ds + 1) by lia.
  destruct (Z.ltb_spec 24 (lenZ ds + 1)); [lia|].
  assert (lenZ (if plus then [43] else []) = if plus then 1 else 0) as -> by (by destruct plus).
  rewrite strncpy_ok; [|by apply nonul_number|destruct plus; lia..]. cbn [mbind res_bind fst snd].
  do 2 f_equal. destruct plus; lia.
Qed.

(** [DoSetSmscAddress] on any text is safe, whatever its length: the request is refused for an empty text and for
    more than 20 characters after an optional plus sign, and otherwise the twelve-byte PDU is the length byte, the type
    of number and the low nibbles of the characters packed two by two. *)
Theorem DoSetSmscAddress_spec (s : list Z) :
  DoSetSmscAddress (Some s) =
    Ok (if (lenZ s =? 0) || (20 <? lenZ (smsc_split s).2) then None
        else Some (lenZ (smsc_pdu s), smsc_pdu s ++ fill (12 - lenZ (smsc_pdu s)) 0)).
Proof. apply set_smsc_ok. Qed.

Lemma smsc_roundtrip_witness :
  let s := number true [8; 2; 1; 0; 1] in
  ∃ n cells, DoSetSmscAddress (Some s) = Ok (Some (n, cells)) ∧
    OnGetSmscAddressDone (Some cells) n = Ok (s ++ fill (24 - lenZ s) 0, lenZ s + 0).
Proof. refine (smsc_roundtrip true [8; 2; 1; 0; 1] _ _ _); try by_eval; by left. Defined.

(** the reported length of a national number counts one character too many *)
Lemma national_length : OnGetSmscAddressDone (Some ([4; 129; 33; 67; 245] ++ fill 7 0)) 5 = Ok (str "12345" ++ fill 19 0, 6).
Proof. reflexivity. Qed.
