(* ===== verification/SmsData.v ===== *)
(** The GSM SMS classes of [fw/smsdata.cpp] — [Pdu], [SmsCenter],
    [GsmSmsMessage], [SimSmsMessage], [PduParser], the acknowledgements and the
    broadcast configurations — with the new-SMS indication adapter and the
    handlers of [core/service/smsservice.cpp] that use them.

    A [char] array is the list of its cells; a lazily allocated [mHex] is an
    [option].  Cells that a constructor leaves uninitialised are an argument
    ([garbage]).  The static buffer of [GetRawByte] is an argument as well. *)
From S2P Require Import Prelude Text Sms.

(** ** [Pdu] *)

Record Pdu := { mData : list Z; mLen : Z; mHex : option (list Z) }.

Definition newPdu : Pdu := {| mData := fill MAX_GSM_SMS_TPDU_SIZE 0; mLen := 0; mHex := None |}.

(** [Pdu(char *data, int len)] *)
Definition newPduData (data : option (list Z)) (len : Z) : res Pdu :=
  match data with
  | Some d =>
    if (0 <? len) && (len <=? MAX_GSM_SMS_TPDU_SIZE) then
      b ← rdn d 0 len; m ← wrn (fill MAX_GSM_SMS_TPDU_SIZE 0) 0 b;
      Ok {| mData := m; mLen := len; mHex := None |}
    else Ok newPdu
  | None => Ok newPdu
  end.

(** [SetRawData] *)
Definition SetRawData (hexStr : option (list Z)) : res Pdu :=
  r ← ConvertToRaw hexStr (Some (fill MAX_GSM_SMS_TPDU_SIZE 0)) MAX_GSM_SMS_TPDU_SIZE;
  Ok {| mData := default [] r.1; mLen := r.2; mHex := None |}.
(** [Pdu(char *hexStr)] *)
Definition newPduHex (hexStr : option (list Z)) : res Pdu :=
  match hexStr with None => Ok newPdu | Some _ => SetRawData hexStr end.

(** the copy constructor *)
Definition copyPdu (p : Pdu) : Pdu := {| mData := mData p; mLen := mLen p; mHex := None |}.
(** [operator=] for two distinct objects *)
Definition assignPdu (p q : Pdu) : Pdu := {| mData := mData q; mLen := mLen q; mHex := None |}.

Definition PduToHexString (p : Pdu) : res (Pdu * list Z) :=
  match mHex p with
  | Some h => Ok (p, h)
  | None => h ← ConvertToHexString (mData p) (mLen p); Ok ({| mData := mData p; mLen := mLen p; mHex := Some h |}, h)
  end.

(** ** [SmsCenter] *)

Record SmsCenter := { mAddr : list Z; sc_mLen : Z; mType : Z; sc_mHex : option (list Z) }.

Definition newSmsCenter : SmsCenter :=
  {| mAddr := fill MAX_GSM_SMS_SERVICE_CENTER_ADDR 0; sc_mLen := 0; mType := 0; sc_mHex := None |}.
(** [SmsCenter(SmsCenter *smsc)] *)
Definition newSmsCenterCopy (smsc : option SmsCenter) : SmsCenter :=
  match smsc with
  | Some c => {| mAddr := mAddr c; sc_mLen := sc_mLen c; mType := 0; sc_mHex := None |}
  | None => {| mAddr := fill MAX_GSM_SMS_SERVICE_CENTER_ADDR 0; sc_mLen := 1; mType := 0; sc_mHex := None |}
  end.
(** [SmsCenter(char *smsc)] *)
Definition newSmsCenterHex (smsc : option (list Z)) : res SmsCenter :=
  let mAddr := fill MAX_GSM_SMS_SERVICE_CENTER_ADDR 0 in
  match smsc with
  | Some s =>
    if lenZ s <=? MAX_GSM_SMS_SERVICE_CENTER_ADDR * 2 then
      r ← ConvertToRaw smsc (Some mAddr) MAX_GSM_SMS_SERVICE_CENTER_ADDR;
      Ok {| mAddr := default [] r.1; sc_mLen := r.2; mType := 0; sc_mHex := None |}
    else Ok {| mAddr := mAddr; sc_mLen := 1; mType := 0; sc_mHex := None |}
  | None => Ok {| mAddr := mAddr; sc_mLen := 1; mType := 0; sc_mHex := None |}
  end.
(** [SmsCenter(char *smsc, int len)] *)
Definition newSmsCenterBytes (garbage smsc : list Z) (len : Z) : res SmsCenter :=
  if MAX_GSM_SMS_SERVICE_CENTER_ADDR <? len then
    Ok {| mAddr := fill MAX_GSM_SMS_SERVICE_CENTER_ADDR 0; sc_mLen := 1; mType := 0; sc_mHex := None |}
  else
    scaLen ← smsc.[0];
    let scaLen := if len - 1 <? scaLen then len - 1 else scaLen in
    let n := scaLen + 1 in
    b ← rdn smsc 0 n;
    m ← wrn garbage 0 b;
    Ok {| mAddr := m; sc_mLen := n; mType := 0; sc_mHex := None |}.

Definition SmsCenterToHexString (c : SmsCenter) : res (SmsCenter * list Z) :=
  match sc_mHex c with
  | Some h => Ok (c, h)
  | None => h ← ConvertToHexString (mAddr c) (sc_mLen c);
            Ok ({| mAddr := mAddr c; sc_mLen := sc_mLen c; mType := mType c; sc_mHex := Some h |}, h)
  end.
Definition UseRilSmsc (c : SmsCenter) : bool := sc_mLen c <=? 1.

(** ** [GsmSmsMessage] and [SimSmsMessage] *)

Record GsmSmsMessage := {
  msg_mHex : option (list Z); mPdu : option Pdu; mSimIndex : Z;
  mSmsc : option SmsCenter; mClass : Z; mMessageRef : Z
}.

Definition InitMessage : GsmSmsMessage :=
  {| msg_mHex := None; mPdu := None; mSimIndex := 65535; mSmsc := None; mClass := -1; mMessageRef := -1 |}.

(** [encode] with [p[0]] and [p[1]] *)
Definition GsmSmsMessage_encode (p0 p1 : option (list Z)) : res (Z * GsmSmsMessage) :=
  c ← newSmsCenterHex p0;
  p ← newPduHex p1;
  Ok (0, {| msg_mHex := None; mPdu := Some p; mSimIndex := 65535; mSmsc := Some c; mClass := -1; mMessageRef := -1 |}).

(** [GsmSmsMessage(GsmSmsMessage *msg)] *)
Definition copyMessage (garbage : list Z) (m : GsmSmsMessage) : res GsmSmsMessage :=
  c ← match mSmsc m with
      | Some c => c ← newSmsCenterBytes garbage (mAddr c) (sc_mLen c); Ok (Some c)
      | None => Ok None
      end;
  p ← match mPdu m with
      | Some p => p ← newPduData (Some (mData p)) (mLen p); Ok (Some p)
      | None => Ok None
      end;
  Ok {| msg_mHex := None; mPdu := p; mSimIndex := mSimIndex m; mSmsc := c; mClass := -1; mMessageRef := -1 |}.

(** the static buffer afterwards *)
Definition GetRawByte (data : list Z) (m : GsmSmsMessage) : res (list Z) :=
  match mSmsc m, mPdu m with
  | Some c, Some p =>
    a ← rdn (mAddr c) 0 (sc_mLen c); data ← wrn data 0 a;
    b ← rdn (mData p) 0 (mLen p); wrn data (sc_mLen c) b
  | _, _ => UB
  end.
Definition GetLength (m : GsmSmsMessage) : res Z :=
  match mSmsc m, mPdu m with Some c, Some p => Ok (sc_mLen c + mLen p) | _, _ => UB end.

(** the message, and [mHex] as it is returned *)
Definition MessageToHexString (m : GsmSmsMessage) : res (GsmSmsMessage * option (list Z)) :=
  match msg_mHex m with
  | Some h => Ok (m, Some h)
  | None =>
    match mSmsc m, mPdu m with
    | Some c, Some p =>
      '(c, smsc) ← SmsCenterToHexString c;
      '(p, pdu) ← PduToHexString p;
      let smscLen := lenZ (cstr smsc) in
      let pduLen := lenZ (cstr pdu) in
      h ← (if (smscLen <=? MAX_GSM_SMS_SERVICE_CENTER_ADDR * 2) && (pduLen <=? MAX_GSM_SMS_TPDU_SIZE * 2) then
             let size := smscLen + pduLen + 1 in
             h ← snprintf (fill size 0) 0 (size - 1) (cstr smsc ++ cstr pdu);
             Ok (Some h)
           else Ok None);
      Ok ({| msg_mHex := h; mPdu := Some p; mSimIndex := mSimIndex m; mSmsc := Some c; mClass := mClass m;
             mMessageRef := mMessageRef m |}, h)
    | _, _ => UB
    end
  end.

Definition MESSAGE_CLASS_0 : Z := 0.
Definition MESSAGE_CLASS_2 : Z := 2.

(** [SimSmsMessage]: the message and [mStatus] *)
Definition SimSmsMessage : Type := GsmSmsMessage * Z.
Definition newSimSmsMessage : SimSmsMessage := (InitMessage, -1).

(** [encode]; [data] is the [RIL_SMS_WriteArgs]: status, PDU text, service center text *)
Definition SimSmsMessage_encode (data : option (Z * option (list Z) * option (list Z))) (datalen : Z) (m : SimSmsMessage)
  : res (Z * SimSmsMessage) :=
  match data with
  | None => Ok (-1, m)
  | Some (status, pdu, smsc) =>
    if datalen =? 0 then Ok (-1, m)
    else
      p ← newPduHex pdu;
      c ← newSmsCenterHex smsc;
      Ok (0, ({| msg_mHex := msg_mHex m.1; mPdu := Some p; mSimIndex := mSimIndex m.1; mSmsc := Some c;
                 mClass := MESSAGE_CLASS_0; mMessageRef := mMessageRef m.1 |}, status))
  end.

(** [DoWriteSmsToSim]: the status, index and PDU handed to [BuildWriteSmsToSim] *)
Definition DoWriteSmsToSim (static_data : list Z) (m : SimSmsMessage) : res (Z * Z * list Z) :=
  n ← GetLength m.1;
  raw ← GetRawByte static_data m.1;
  pdu ← rdn raw 0 n;
  Ok (m.2, mSimIndex m.1, pdu).

(** ** [PduParser]

    The text a parser works on is the cells from the pointer on; [m_cPdu] is
    an offset into them. *)
Record PduParser := { m_cPdu : Z; m_scalen : Z; m_sca : list Z; m_smsclass : Z }.

Definition newPduParser (garbage : list Z) : res PduParser :=
  sca ← garbage.[0 <- 0]; Ok {| m_cPdu := 0; m_scalen := 0; m_sca := sca; m_smsclass := MESSAGE_CLASS_0 |}.

(** [(HexChar2Value(p[0]) << 4) | HexChar2Value(p[1])] *)
Definition hex_byte (pdu : list Z) (off : Z) : res Z :=
  h ← pdu.[off]; l ← pdu.[off + 1]; Ok (Z.lor (Z.shiftl (HexChar2Value h) 4) (HexChar2Value l)).

Definition GetScaLen (pdu : list Z) (p : PduParser) : res (Z * PduParser) :=
  n ← hex_byte pdu 0;
  Ok (n, {| m_cPdu := 0; m_scalen := n; m_sca := m_sca p; m_smsclass := m_smsclass p |}).

Definition GetSca (pdu : list Z) (p : PduParser) : res PduParser :=
  '(_, p) ← GetScaLen pdu p;
  b ← rdn pdu 0 ((m_scalen p + 1) * 2);
  sca ← wrn (m_sca p) 0 b;
  Ok {| m_cPdu := 0; m_scalen := m_scalen p; m_sca := sca; m_smsclass := m_smsclass p |}.

Definition GetSmsClass (pdu : list Z) (p : PduParser) : res (Z * PduParser) :=
  p ← GetSca pdu p;
  let c := (m_scalen p + 1) * 2 in
  let c := c + 2 in
  do_len ← hex_byte pdu c;
  let c := if Z.rem do_len 2 =? 0 then c + (do_len + 4) else c + (do_len + 5) in
  let c := c + 2 in
  v ← pdu.[c + 1];
  let cls := Z.land (HexChar2Value v) 3 in
  _ ← pdu.[c];
  Ok (cls, {| m_cPdu := c; m_scalen := m_scalen p; m_sca := m_sca p; m_smsclass := cls |}).

(** ** A new SMS from the modem *)

(** [ProtocolNewSmsIndAdapter]: [m_tpdu] and [m_len] *)
Definition TPDU_TEXT_SIZE : Z := MAX_GSM_SMS_TPDU_SIZE * 2 + 1.
Definition newSmsInd (tpdu : list Z) (tpdu_len : Z) : res (list Z * Z) :=
  for_up (Z.to_nat tpdu_len) 0
    (λ i '(m_tpdu, len),
       if len <? TPDU_TEXT_SIZE then
         d ← tpdu.[i]; m_tpdu ← snprintf m_tpdu len (TPDU_TEXT_SIZE - len - 1) (hex2 d); Ok (m_tpdu, len + 2)
       else Ok (m_tpdu, len))
    (fill TPDU_TEXT_SIZE 0, 0).
Definition GetPdu (m_tpdu : list Z) (m_len : Z) : res (option (list Z)) :=
  if m_len =? 0 then Ok None else c ← m_tpdu.[0]; Ok (if c =? 0 then None else Some m_tpdu).

(** what the handler does with the message *)
Inductive SmsEvent : Type :=
| WriteSmsToSim (m : SimSmsMessage)
| NewSms (pdu : list Z) (size : Z).

(** [OnIncomingNewSms]; [None] when the request data cannot be made *)
Definition OnIncomingNewSms (garbage tpdu : list Z) (tpdu_len : Z) : res (option SmsEvent) :=
  '(m_tpdu, m_len) ← newSmsInd tpdu tpdu_len;
  pdu ← GetPdu m_tpdu m_len;
  match pdu with
  | None => UB
  | Some pdu_tmp =>
    p ← newPduParser garbage;
    '(cls, p) ← GetSmsClass pdu_tmp p;
    if cls =? MESSAGE_CLASS_2 then
      '(n, _) ← GetScaLen pdu_tmp p;
      let sca_len := (n + 1) * 2 in
      b ← rdn pdu_tmp 0 sca_len;
      smsc ← wrn (fill (sca_len + 1) 0) 0 b;
      let text := cstr (drop (Z.to_nat sca_len) pdu_tmp) in
      '(r, m) ← SimSmsMessage_encode (Some (0, Some text, Some (cstr smsc))) 24 newSimSmsMessage;
      Ok (if r <? 0 then None else Some (WriteSmsToSim m))
    else Ok (Some (NewSms pdu_tmp m_len))
  end.

(** [DoSendSms]: the service center and the PDU handed to [BuildSendSms],
    with their lengths; [m_sca] and [m_scaLen] are the service's own *)
Definition DoSendSms (m_sca : list Z) (m_scaLen : Z) (m : GsmSmsMessage) : res (list Z * Z * list Z * Z) :=
  match mSmsc m, mPdu m with
  | Some c, Some p =>
    Ok (if UseRilSmsc c && negb (m_scaLen =? 0) then (m_sca, u8 m_scaLen, mData p, mLen p)
        else (mAddr c, u8 (sc_mLen c), mData p, mLen p))
  | _, _ => UB
  end.

(** ** Acknowledgements *)

(** [SmsAcknowledge::encode]: [mResult] and [mFailureCause] *)
Definition SmsAcknowledge_encode (data : list Z) : res (Z * Z) := r ← data.[0]; c ← data.[1]; Ok (r, c).
(** [SmsAcknowledgePdu::encode] with the texts [p[0]] and [p[1]] *)
Definition SmsAcknowledgePdu_encode (p0 p1 : option (list Z)) : res (Z * Pdu) :=
  match p0 with None => UB | Some s => r ← (s ++ [0]).[0]; p ← newPduHex p1; Ok (r, p) end.

(** ** Broadcast configurations

    [BroadcastSmsConfigs] (GSM) and [CCdmaBroadcastSmsConfigs] have the same
    code over their own configuration type [A]. *)
Section broadcast.
Context {A : Type}.

Definition MAX_BCST_INFO_NUM : Z := 50.

Record BroadcastSmsConfigs := {
  m_uNum : Z; m_ptRgbsci : option (list A);
  m_ptRgbsciPtrs : option (list Z) (** offsets into [m_ptRgbsci] *)
}.
Definition noConfigs : BroadcastSmsConfigs := {| m_uNum := 0; m_ptRgbsci := None; m_ptRgbsciPtrs := None |}.

Definition newConfigs (rgbsci : option (list A)) (num : Z) : res BroadcastSmsConfigs :=
  match rgbsci with
  | None => Ok noConfigs
  | Some c =>
    let n := if MAX_BCST_INFO_NUM <? num then MAX_BCST_INFO_NUM else num in
    b ← rdn c 0 n;
    Ok {| m_uNum := n; m_ptRgbsci := Some b; m_ptRgbsciPtrs := Some (seqZ 0 n) |}
  end.

Definition copyConfigs (bsc : BroadcastSmsConfigs) : res BroadcastSmsConfigs :=
  match m_ptRgbsci bsc with
  | Some c =>
    if 0 <? m_uNum bsc then
      b ← rdn c 0 (m_uNum bsc);
      Ok {| m_uNum := m_uNum bsc; m_ptRgbsci := Some b; m_ptRgbsciPtrs := Some (seqZ 0 (m_uNum bsc)) |}
    else Ok noConfigs
  | None => Ok noConfigs
  end.

(** [data] is the array of [datalen / sizeof(void * )] pointers; the array
    [rgbsci] is filled in order, [None] when a null pointer is met *)
Definition collect (data : list (option A)) (num : Z) : res (option (list A)) :=
  for_up (Z.to_nat num) 0
    (λ i acc, match acc with
              | None => Ok None
              | Some l => p ← data.[i]; Ok (match p with Some a => Some (l ++ [a]) | None => None end)
              end) (Some []).

Definition Broadcast_encode (data : option (list (option A))) (datalen : Z) (m_pCBcsc : option BroadcastSmsConfigs)
  : res (Z * option BroadcastSmsConfigs) :=
  match data with
  | None => Ok (-1, m_pCBcsc)
  | Some d =>
    if datalen =? 0 then Ok (-1, m_pCBcsc)
    else
      let num := datalen / 8 in
      c ← collect d num;
      match c with
      | None => Ok (-1, m_pCBcsc)
      | Some rgbsci => b ← newConfigs (Some rgbsci) (u8 num); Ok (0, Some b)
      end
  end.
Definition GetConfigsNumber (m_pCBcsc : option BroadcastSmsConfigs) : Z :=
  match m_pCBcsc with Some b => m_uNum b | None => 0 end.
Definition GetConfigsInfo (m_pCBcsc : option BroadcastSmsConfigs) : option (list A) := b ← m_pCBcsc; m_ptRgbsci b.
End broadcast.
Arguments BroadcastSmsConfigs A : clear implicits.

(** the GSM and CDMA configuration types *)
Record RIL_GSM_BroadcastSmsConfigInfo := {
  fromServiceId : Z; toServiceId : Z; fromCodeScheme : Z; toCodeScheme : Z; gsm_selected : Z
}.
Record RIL_CDMA_BroadcastSmsConfigInfo := { service_category : Z; language : Z; cdma_selected : Z }.

(** ** Text built from bytes *)

Lemma sms_for_up_hex tpdu n m :
  bytes_ok tpdu → 0 <= n <= lenZ tpdu → n <= 243 → m = Z.to_nat n →
  ∃ rest, for_up m 0
    (λ i '(m_tpdu, len),
       if len <? TPDU_TEXT_SIZE then
         d ← tpdu.[i]; m_tpdu ← snprintf m_tpdu len (TPDU_TEXT_SIZE - len - 1) (hex2 d); Ok (m_tpdu, len + 2)
       else Ok (m_tpdu, len))
    (fill TPDU_TEXT_SIZE 0, 0) = Ok (hex_of (take m tpdu) ++ rest, 2 * n) ∧ rest = fill (489 - 2 * n) 0.
Proof.
  intros Hok Hn Hmax ->.
  destruct (for_up_inv (λ i st, st.2 = 2 * i ∧ st.1 = hex_of (take (Z.to_nat i) tpdu) ++ fill (489 - 2 * i) 0)
    (Z.to_nat n) 0
     (λ i '(m_tpdu, len),
       if len <? TPDU_TEXT_SIZE then
         d ← tpdu.[i]; m_tpdu ← snprintf m_tpdu len (TPDU_TEXT_SIZE - len - 1) (hex2 d); Ok (m_tpdu, len + 2)
       else Ok (m_tpdu, len)) (fill TPDU_TEXT_SIZE 0, 0)) as ([o k] & -> & Hk & Ho).
  - done.
  - intros i [o k] Hi (Hk & Ho). cbn [fst snd] in Hk, Ho. subst k o. unfold TPDU_TEXT_SIZE, MAX_GSM_SMS_TPDU_SIZE.
    destruct (rd_ok tpdu i) as (d & -> & Ld); [lia|]. destruct (Z.ltb_spec (2 * i) (244 * 2 + 1)); [|lia]. cbn [mbind res_bind].
    unfold snprintf. destruct (Z.eqb_spec (244 * 2 + 1 - 2 * i - 1) 0); [lia|].
    rewrite (take_ge (hex2 d)) by (rewrite length_hex2; lia).
    rewrite wrn_at by (rewrite ?lenZ_hex_of, ?take_lenZ, ?lenZ_fill; try change (lenZ (hex2 d ++ [0])) with 3; lia).
    cbn [mbind res_bind]. eexists. split; [done|]. cbn [fst snd]. split; [lia|].
    rewrite (take_Z_snoc _ _ d), hex_of_app by (done || lia). change (hex_of [d]) with (hex2 d). rewrite <- !app_assoc.
    do 2 f_equal. rewrite drop_fill. change (Z.of_nat (length (hex2 d ++ [0]))) with 3.
    replace (489 - 2 * (i + 1)) with (1 + (489 - 2 * i - 3)) by lia. unfold fill at 2.
    by replace (Z.to_nat (1 + (489 - 2 * i - 3))) with (S (Z.to_nat (489 - 2 * i - 3))) by lia.
  - cbn [fst snd] in *. subst. rewrite ?Z.add_0_l, ?Z2Nat.id in * by lia. eauto.
Qed.

Lemma newSmsInd_ok tpdu n :
  bytes_ok tpdu → 0 <= n <= lenZ tpdu → n <= 243 →
  newSmsInd tpdu n = Ok (hex_of (take (Z.to_nat n) tpdu) ++ fill (489 - 2 * n) 0, 2 * n).
Proof. intros H1 H2 H3. by destruct (sms_for_up_hex tpdu n _ H1 H2 H3 eq_refl) as (rest & E & ->). Qed.

Lemma HexChar2Value_hi b : is_byte b → HexChar2Value (hex_char (Z.land (Z.shiftr b 4) 15)) = b / 16.
Proof. intros Hb. by destruct (hex2_spec b Hb) as (h & l & [= <- <-] & _ & _ & ? & _). Qed.
Lemma HexChar2Value_lo b : is_byte b → HexChar2Value (hex_char (Z.land b 15)) = b mod 16.
Proof. intros Hb. by destruct (hex2_spec b Hb) as (h & l & [= <- <-] & _ & _ & _ & ? & _). Qed.

(** the two characters of the byte that follows [a] *)
Lemma rd_hex a b r off t :
  t = a ++ b :: r → off = 2 * lenZ a →
  ∀ z, (hex_of t ++ z).[off] = Ok (hex_char (Z.land (Z.shiftr b 4) 15)) ∧
       (hex_of t ++ z).[off + 1] = Ok (hex_char (Z.land b 15)).
Proof.
  intros -> -> z. rewrite hex_of_app. change (hex_of (b :: r)) with (hex2 b ++ hex_of r). unfold hex2. cbn [app].
  rewrite <- app_assoc. cbn [app]. split.
  - apply rd_at. apply lenZ_hex_of.
  - rewrite cons_middle, app_assoc. apply rd_at. rewrite lenZ_app, lenZ_hex_of. done.
Qed.
Lemma hex_byte_ok a b r off t z :
  is_byte b → t = a ++ b :: r → off = 2 * lenZ a → hex_byte (hex_of t ++ z) off = Ok b.
Proof.
  intros Hb Ht Hoff. destruct (rd_hex a b r off t Ht Hoff z) as [E1 E2]. unfold hex_byte. rewrite E1, E2. cbn [mbind res_bind].
  rewrite HexChar2Value_hi, HexChar2Value_lo by done.
  unfold is_byte in Hb. rewrite Z.shiftl_mul_pow2, lor_add by lia. f_equal. lia.
Qed.

(** a deliver message: service center address, type, originating address,
    protocol identifier, coding scheme, and the rest *)
Definition sms_tpdu (sca : list Z) (ty dl toa : Z) (addr : list Z) (pid dcs : Z) (rest : list Z) : list Z :=
  (lenZ sca :: sca) ++ [ty; dl; toa] ++ addr ++ [pid; dcs] ++ rest.

Section tpdu.
Context (sca : list Z) (ty dl toa : Z) (addr : list Z) (pid dcs : Z) (rest : list Z).
Let t := sms_tpdu sca ty dl toa addr pid dcs rest.
Hypotheses (Ht : bytes_ok t) (Haddr : lenZ addr = (dl + 1) / 2).

Lemma tpdu_bytes : is_byte (lenZ sca) ∧ bytes_ok sca ∧ is_byte dl ∧ is_byte dcs.
Proof.
  unfold t, sms_tpdu in Ht. repeat (rewrite ?Forall_app, ?Forall_cons in Ht). by destruct_and!.
Qed.

Lemma GetScaLen_ok z p :
  GetScaLen (hex_of t ++ z) p = Ok (lenZ sca, {| m_cPdu := 0; m_scalen := lenZ sca; m_sca := m_sca p; m_smsclass := m_smsclass p |}).
Proof.
  destruct tpdu_bytes as (Hl & _). unfold GetScaLen.
  rewrite (hex_byte_ok [] (lenZ sca) (sca ++ [ty; dl; toa] ++ addr ++ [pid; dcs] ++ rest)) by done. done.
Qed.

Lemma lenZ_tpdu : lenZ t = 1 + lenZ sca + 3 + (dl + 1) / 2 + 2 + lenZ rest.
Proof.
  unfold t, sms_tpdu. rewrite !lenZ_app, lenZ_cons, Haddr. change (lenZ [_; _; _]) with 3. change (lenZ [_; _]) with 2. lia.
Qed.

Lemma GetSmsClass_ok z p :
  lenZ (m_sca p) = 24 →
  (lenZ sca <= 11 → ∃ p', GetSmsClass (hex_of t ++ z) p = Ok (Z.land dcs 3, p')) ∧
  (11 < lenZ sca → GetSmsClass (hex_of t ++ z) p = UB).
Proof.
  intros Hp. destruct tpdu_bytes as (Hl & Hsca & Hdl & Hdcs). pose proof (lenZ_nonneg sca). pose proof lenZ_tpdu as Hlen.
  pose proof (lenZ_nonneg rest). pose proof (lenZ_nonneg z). unfold is_byte in Hdl.
  assert (GetSca (hex_of t ++ z) p =
    b ← rdn (hex_of t ++ z) 0 ((lenZ sca + 1) * 2); s ← wrn (m_sca p) 0 b;
    Ok {| m_cPdu := 0; m_scalen := lenZ sca; m_sca := s; m_smsclass := m_smsclass p |}) as E
    by (unfold GetSca; rewrite GetScaLen_ok; done).
  unfold GetSmsClass. rewrite E. rewrite rdn_ok by (rewrite ?lenZ_app, ?lenZ_hex_of; lia). cbn [mbind res_bind].
  set (b := take _ _). assert (lenZ b = (lenZ sca + 1) * 2) as Hb.
  { unfold b. apply lenZ_rdn with (hex_of t ++ z) 0. apply rdn_ok; rewrite ?lenZ_app, ?lenZ_hex_of; lia. }
  split; intros Hs; [|by rewrite wrn_oob by lia]. rewrite wrn_ok by lia. cbn [mbind res_bind m_scalen m_sca].
  rewrite (hex_byte_ok ((lenZ sca :: sca) ++ [ty]) dl ([toa] ++ addr ++ [pid; dcs] ++ rest) ((lenZ sca + 1) * 2 + 2))
    by (first [done | unfold t, sms_tpdu; by rewrite <- !app_assoc | rewrite lenZ_app, lenZ_cons; change (lenZ [ty]) with 1; lia]).
  cbn [mbind res_bind].
  assert (t = ((lenZ sca :: sca) ++ [ty; dl; toa] ++ addr ++ [pid]) ++ dcs :: rest) as Et
    by (unfold t, sms_tpdu; by rewrite <- !app_assoc).
  set (c := (if Z.rem dl 2 =? 0 then _ else _) + 2).
  assert (c = 2 * lenZ ((lenZ sca :: sca) ++ [ty; dl; toa] ++ addr ++ [pid])) as Ec.
  { rewrite !lenZ_app, lenZ_cons, Haddr. unfold c. rewrite Z.rem_mod_nonneg by lia. change (lenZ [_; _; _]) with 3. change (lenZ [_]) with 1.
    destruct (Z.eqb_spec (dl mod 2) 0); lia. }
  destruct (rd_hex _ dcs rest c t Et Ec z) as [E1 E2]. rewrite E2, E1. cbn [mbind res_bind].
  rewrite HexChar2Value_lo by done. eexists. do 2 f_equal. change 3 with (Z.ones 2).
  rewrite !Z.land_ones by lia. unfold is_byte in Hdcs. change (2 ^ 2) with 4. lia.
Qed.
End tpdu.

(** ** Messages from text *)

(** the object for the service center bytes [s] *)
Definition center_of (s : list Z) : SmsCenter :=
  {| mAddr := s ++ drop (length s) (fill 12 0); sc_mLen := lenZ s; mType := 0; sc_mHex := None |}.
Definition pdu_of (p : list Z) : Pdu := {| mData := p ++ drop (length p) (fill 244 0); mLen := lenZ p; mHex := None |}.

Lemma newSmsCenterHex_ok s : bytes_ok s → 0 < lenZ s <= 12 → newSmsCenterHex (Some (hex_of s)) = Ok (center_of s).
Proof.
  intros Hs Hl. unfold newSmsCenterHex. change MAX_GSM_SMS_SERVICE_CENTER_ADDR with 12. rewrite lenZ_hex_of.
  destruct (Z.leb_spec (2 * lenZ s) (12 * 2)); [|lia]. rewrite ConvertToRaw_hex by (rewrite ?lenZ_fill; done || lia). done.
Qed.
Lemma newPduHex_ok p : bytes_ok p → 0 < lenZ p <= 244 → newPduHex (Some (hex_of p)) = Ok (pdu_of p).
Proof.
  intros Hp Hl. unfold newPduHex, SetRawData. change MAX_GSM_SMS_TPDU_SIZE with 244.
  rewrite ConvertToRaw_hex by (rewrite ?lenZ_fill; done || lia). done.
Qed.

(** [s] followed by filler, up to its length *)
Lemma rdn_prefix (s z : list Z) : rdn (s ++ z) 0 (lenZ s) = Ok s.
Proof. apply (rdn_mid []). Qed.
Lemma wrn_0 (r src : list Z) : lenZ src <= lenZ r → wrn r 0 src = Ok (src ++ drop (length src) r).
Proof. apply (wrn_at [] r src 0 eq_refl). Qed.

(** the message holds the service center address [s] and the PDU [p] *)
Definition holds (m : GsmSmsMessage) (s p : list Z) : Prop :=
  ∃ c q z z', mSmsc m = Some c ∧ mAddr c = s ++ z ∧ sc_mLen c = lenZ s ∧
    mPdu m = Some q ∧ mData q = p ++ z' ∧ mLen q = lenZ p.

Lemma raw_bytes m s p data :
  holds m s p → lenZ s <= 12 → lenZ p <= 244 → lenZ data = 256 →
  (n ← GetLength m; raw ← GetRawByte data m; rdn raw 0 n) = Ok (s ++ p).
Proof.
  intros (c & q & z & z' & Ec & Ea & El & Eq & Ed & Em) Hs Hp Hd. unfold GetLength, GetRawByte. rewrite Ec, Eq, Ea, El, Ed, Em.
  pose proof (lenZ_nonneg s). pose proof (lenZ_nonneg p). cbn [mbind res_bind].
  rewrite (rdn_prefix s). cbn [mbind res_bind]. rewrite (wrn_0 data) by lia. cbn [mbind res_bind].
  rewrite (rdn_prefix p). cbn [mbind res_bind]. rewrite wrn_app by (unfold lenZ in *; rewrite length_drop; lia).
  cbn [mbind res_bind]. rewrite app_assoc, <- lenZ_app. apply rdn_prefix.
Qed.

Lemma copy_holds garbage m s p :
  holds m s p → head s = Some (lenZ s - 1) → 0 < lenZ s <= 12 → 0 < lenZ p <= 244 → lenZ garbage = 12 →
  ∃ m', copyMessage garbage m = Ok m' ∧ holds m' s p.
Proof.
  intros (c & q & z & z' & Ec & Ea & El & Eq & Ed & Em) Hh Hs Hp Hg. unfold copyMessage. rewrite Ec, Eq, Ea, El, Ed, Em.
  unfold newSmsCenterBytes. change MAX_GSM_SMS_SERVICE_CENTER_ADDR with 12. destruct (Z.ltb_spec 12 (lenZ s)); [lia|].
  assert ((s ++ z).[0] = Ok (lenZ s - 1)) as -> by (destruct s; [done|]; cbn in Hh; by injection Hh as ->).
  cbn [mbind res_bind]. destruct (Z.ltb_spec (lenZ s - 1) (lenZ s - 1)); [lia|].
  rewrite Z.sub_add, (rdn_prefix s). cbn [mbind res_bind]. rewrite (wrn_0 garbage) by lia. cbn [mbind res_bind].
  unfold newPduData. destruct (Z.ltb_spec 0 (lenZ p)); [|lia]. change MAX_GSM_SMS_TPDU_SIZE with 244.
  destruct (Z.leb_spec (lenZ p) 244); [|lia]. cbn [andb]. rewrite (rdn_prefix p). cbn [mbind res_bind].
  rewrite wrn_0 by (rewrite lenZ_fill; lia). cbn [mbind res_bind]. eexists. split; [done|].
  eexists _, _, _, _. by split_and!.
Qed.

(** the characters after the first [n] bytes *)
Lemma drop_hex (t : list Z) n z : 0 <= n <= lenZ t →
  drop (Z.to_nat (2 * n)) (hex_of t ++ z) = hex_of (drop (Z.to_nat n) t) ++ z.
Proof.
  intros Hn. rewrite <- (take_drop (Z.to_nat n) t) at 1. rewrite hex_of_app, <- app_assoc.
  rewrite drop_app_ge; rewrite length_hex_of, length_take; unfold lenZ in *; [|lia].
  by replace (Z.to_nat (2 * n) - 2 * (Z.to_nat n `min` length t))%nat with O by lia.
Qed.

Lemma cstr_hex t k : bytes_ok t → 1 <= k → cstr (hex_of t ++ fill k 0) = hex_of t.
Proof.
  intros Ht Hk. assert (fill k 0 = 0 :: fill (k - 1) 0) as ->
    by (unfold fill; replace (Z.to_nat k) with (S (Z.to_nat (k - 1))) by lia; done).
  by apply cstr_app, nonul_hex_of.
Qed.

(** a request to write to the SIM, carried out *)
Lemma sim_write_ok s p data :
  bytes_ok s → bytes_ok p → 0 < lenZ s <= 12 → 0 < lenZ p <= 244 → lenZ data = 256 →
  ∃ m, SimSmsMessage_encode (Some (0, Some (hex_of p), Some (hex_of s))) 24 newSimSmsMessage = Ok (0, m) ∧
    DoWriteSmsToSim data m = Ok (0, 65535, s ++ p).
Proof.
  intros Bs Bp Hs Hp Hd. unfold SimSmsMessage_encode. cbn [Z.eqb]. rewrite newPduHex_ok, newSmsCenterHex_ok by (done || lia).
  cbn [mbind res_bind]. eexists. split; [done|]. unfold DoWriteSmsToSim. cbn [fst snd newSimSmsMessage].
  match goal with |- context [GetLength ?x] => set (m := x) end.
  assert (holds m s p) as Hm by (eexists _, _, _, _; by split_and!).
  pose proof (raw_bytes m s p data Hm ltac:(lia) ltac:(lia) Hd) as Hr. destruct (GetLength m) as [n| |]; try done.
  cbn [mbind res_bind] in *. destruct (GetRawByte data m) as [raw| |]; try done. cbn [mbind res_bind] in *. by rewrite Hr.
Qed.

(** an incoming SMS, end to end.  For a well-formed deliver message of at most 243 bytes (service center address of
    at most 11 bytes, then type, originating address, protocol identifier, coding scheme and the rest), the handler
    passes it on as its hexadecimal text, unless the two low bits of its coding scheme are those of class 2: then it
    issues a request to write a message to the SIM, and what [DoWriteSmsToSim] makes of that request is status 0, the
    default index and exactly the bytes received. *)
Theorem incoming_sms (garbage data pad sca addr rest : list Z) (ty dl toa pid dcs : Z) :
  let t := sms_tpdu sca ty dl toa addr pid dcs rest in
  bytes_ok t → lenZ addr = (dl + 1) / 2 → lenZ sca <= 11 → lenZ t <= 243 → bytes_ok pad →
  lenZ garbage = 24 → lenZ data = 256 →
  if Z.land dcs 3 =? MESSAGE_CLASS_2
  then ∃ m, OnIncomingNewSms garbage (t ++ pad) (lenZ t) = Ok (Some (WriteSmsToSim m)) ∧
       DoWriteSmsToSim data m = Ok (0, 65535, t)
  else OnIncomingNewSms garbage (t ++ pad) (lenZ t) = Ok (Some (NewSms (hex_of t ++ fill (489 - 2 * lenZ t) 0) (2 * lenZ t))).
Proof.
  intros t Ht Haddr Hsca Hlt Hpad Hg Hd. pose proof (lenZ_tpdu sca ty dl toa addr pid dcs rest Haddr) as Hlen. fold t in Hlen.
  pose proof (lenZ_nonneg sca). pose proof (lenZ_nonneg rest). pose proof (lenZ_nonneg addr).
  unfold OnIncomingNewSms. rewrite newSmsInd_ok by (rewrite ?Forall_app, ?lenZ_app; pose proof (lenZ_nonneg pad); done || lia).
  assert (take (Z.to_nat (lenZ t)) (t ++ pad) = t) as -> by (unfold lenZ; by rewrite Nat2Z.id, take_app_length).
  cbn [mbind res_bind]. set (z := fill (489 - 2 * lenZ t) 0). unfold GetPdu.
  destruct (Z.eqb_spec (2 * lenZ t) 0) as [|_]; [lia|].
  destruct (tpdu_bytes sca ty dl toa addr pid dcs rest Ht) as (Bl & Bs & _).
  destruct (rd_hex [] (lenZ sca) (sca ++ [ty; dl; toa] ++ addr ++ [pid; dcs] ++ rest) 0 t eq_refl eq_refl z) as [-> _].
  cbn [mbind res_bind]. destruct (hex2_spec _ Bl) as (h & l & [= E1 E2] & Hh & _). rewrite E1.
  destruct (Z.eqb_spec h 0) as [|_]; [done|]. unfold newPduParser. rewrite wr_ok by lia. cbn [mbind res_bind].
  set (p0 := {| m_cPdu := 0 |}).
  destruct (GetSmsClass_ok sca ty dl toa addr pid dcs rest Ht Haddr z p0) as [Hc _].
  { cbn [p0 m_sca]. by rewrite lenZ_insert. }
  fold t in Hc. destruct (Hc Hsca) as (p' & ->). cbn [mbind res_bind].
  destruct (Z.land dcs 3 =? MESSAGE_CLASS_2); [|done].
  rewrite (GetScaLen_ok sca ty dl toa addr pid dcs rest Ht). fold t. cbn [mbind res_bind].
  set (n := lenZ sca + 1). replace (n * 2) with (2 * n) by lia.
  set (s := take (Z.to_nat n) t). set (p := drop (Z.to_nat n) t).
  assert (t = s ++ p) as Et by (symmetry; apply take_drop).
  assert (lenZ s = n) as Hs by (apply take_lenZ; lia).
  assert (lenZ p = lenZ t - n) as Hp by (rewrite Et, lenZ_app, Hs; lia).
  assert (bytes_ok s ∧ bytes_ok p) as [Bs' Bp] by (rewrite Et in Ht; by apply Forall_app in Ht).
  assert (rdn (hex_of t ++ z) 0 (2 * n) = Ok (hex_of s)) as ->.
  { rewrite Et, hex_of_app, <- app_assoc, <- Hs, <- lenZ_hex_of. apply rdn_prefix. }
  cbn [mbind res_bind]. rewrite wrn_0 by (rewrite ?lenZ_fill, ?lenZ_hex_of; lia).
  cbn [mbind res_bind app]. rewrite drop_hex by lia. fold p. rewrite drop_fill.
  rewrite (cstr_hex s) by (try done; rewrite length_hex_of; unfold lenZ in *; lia).
  unfold z. rewrite (cstr_hex p) by (done || lia).
  destruct (sim_write_ok s p data) as (m & -> & E); [done..|lia|lia|done|]. exists m. split; [done|]. by rewrite E, <- Et.
Qed.

(** sending.  A request with the hexadecimal texts of a service center address [s] (1 to 12 bytes, or none at all)
    and of a PDU [p] (1 to 244 bytes) is encoded so that [GetRawByte] gives the bytes of both, [GetLength] their
    number, and [DoSendSms] passes them to the builder, with the service's own address instead when the request has no
    address or one of a single byte; a copy of the message keeps the bytes when the address carries its own length. *)
Theorem send_sms (s : option (list Z)) (p data garbage m_sca : list Z) (m_scaLen : Z)
    (Hp : bytes_ok p) (Hpl : 0 < lenZ p <= 244) (Hd : lenZ data = 256) (Hg : lenZ garbage = 12)
    (Hs : ∀ b, s = Some b → bytes_ok b ∧ 0 < lenZ b <= 12) :
  let sb := default [0] s in
  ∃ m, GsmSmsMessage_encode (hex_of <$> s) (Some (hex_of p)) = Ok (0, m) ∧
    (n ← GetLength m; raw ← GetRawByte data m; rdn raw 0 n) = Ok (sb ++ p) ∧
    (∃ z z', DoSendSms m_sca m_scaLen m = Ok (
      if (lenZ sb <=? 1) && negb (m_scaLen =? 0) then (m_sca, u8 m_scaLen, p ++ z, lenZ p)
      else (sb ++ z', lenZ sb, p ++ z, lenZ p))) ∧
    (head sb = Some (lenZ sb - 1) →
     ∃ m', copyMessage garbage m = Ok m' ∧ (n ← GetLength m'; raw ← GetRawByte data m'; rdn raw 0 n) = Ok (sb ++ p)).
Proof.
  intros sb. assert (bytes_ok sb ∧ 0 < lenZ sb <= 12) as [Hsb Hsl].
  { destruct s as [b|]; [by apply Hs|]. split; [unfold sb; cbn; by repeat constructor; unfold is_byte; lia|done]. }
  assert (newSmsCenterHex (hex_of <$> s) = Ok (center_of sb)) as Ec.
  { destruct s as [b|]; [by apply newSmsCenterHex_ok|done]. }
  unfold GsmSmsMessage_encode. rewrite Ec, newPduHex_ok by done. cbn [mbind res_bind]. eexists. split; [done|].
  match goal with |- context [GetLength ?x] => set (m := x) end. split; [|split].
  - apply raw_bytes; [eexists _, _, _, _; by split_and!|lia..].
  - eexists _, _. unfold DoSendSms. cbn [m mSmsc mPdu]. unfold UseRilSmsc, center_of, pdu_of. cbn [mAddr sc_mLen mData mLen].
    rewrite (u8_id (lenZ sb)) by (unfold is_byte; lia). done.
  - intros Hh. destruct (copy_holds garbage m sb p) as (m' & E & Hm'); try done; [eexists _, _, _, _; by split_and!|].
    exists m'. split; [done|]. apply raw_bytes; [done|lia..].
Qed.

(** ** Broadcast configurations *)

Lemma collect_ok {A} (cs : list A) : collect (Some <$> cs) (lenZ cs) = Ok (Some cs).
Proof.
  unfold collect, lenZ. rewrite Nat2Z.id.
  destruct (for_up_inv (λ i acc, acc = Some (take (Z.to_nat i) cs)) (length cs) 0
    (λ i acc, match acc with None => Ok None | Some l => p ← (Some <$> cs).[i];
      Ok (match p with Some a => Some (l ++ [a]) | None => None end) end) (Some [])) as (acc & -> & ->).
  - done.
  - intros i acc Hi ->. destruct (lookup_lt_is_Some_2 cs (Z.to_nat i)) as [c Hc]; [lia|].
    rewrite (rd_lookup _ _ (Some c)) by (rewrite ?list_lookup_fmap, ?Hc; done || lia). cbn [mbind res_bind].
    eexists. split; [done|]. by rewrite (take_Z_snoc _ _ c) by (done || lia).
  - rewrite Z.add_0_l, Nat2Z.id. by rewrite take_ge.
Qed.

Lemma collect_null {A} (d : list (option A)) : None ∈ d → collect d (lenZ d) = Ok None.
Proof.
  intros (k & Hk)%list_elem_of_lookup. unfold collect, lenZ. rewrite Nat2Z.id.
  destruct (for_up_inv (λ i acc, (Z.of_nat k < i → acc = None)) (length d) 0
    (λ i acc, match acc with None => Ok None | Some l => p ← d.[i];
      Ok (match p with Some a => Some (l ++ [a]) | None => None end) end) (Some [])) as (acc & -> & H).
  - lia.
  - intros i acc Hi H. destruct acc as [l|]; [|by eexists].
    destruct (rd_ok d i) as (p & -> & Hp); [unfold lenZ; lia|]. cbn [mbind res_bind]. eexists. split; [done|].
    intros Hlt. destruct (decide (Z.of_nat k < i)) as [Hk'|Hk']; [by specialize (H Hk')|].
    replace (Z.to_nat i) with k in Hp by lia. rewrite Hk in Hp. by injection Hp as <-.
  - rewrite H; [done|]. apply lookup_lt_Some in Hk. lia.
Qed.

(** storing broadcast configurations.  A request with [n] configurations stores the first [min (n mod 256) 50] of
    them, the pointer table points at them in order, and the number kept is theirs: up to 255 configurations the first
    fifty, but from 256 on the count has been narrowed to eight bits first.  A request with a null pointer among its
    configurations is refused and changes nothing. *)
Theorem Broadcast_encode_spec {A} (cs : list A) (d : list (option A)) (old : option (BroadcastSmsConfigs A))
    (Hn : 0 < lenZ cs) (Hd : None ∈ d) :
  let k := Z.min (lenZ cs mod 256) 50 in
  Broadcast_encode (Some (Some <$> cs)) (8 * lenZ cs) old =
    Ok (0, Some {| m_uNum := k; m_ptRgbsci := Some (take (Z.to_nat k) cs); m_ptRgbsciPtrs := Some (seqZ 0 k) |}) ∧
  Broadcast_encode (Some d) (8 * lenZ d) old = Ok (-1, old).
Proof.
  intros k. unfold Broadcast_encode. rewrite !(Z.mul_comm 8), !Z.div_mul, collect_ok, collect_null by (done || lia).
  cbn [mbind res_bind]. destruct (Z.eqb_spec (lenZ cs * 8) 0); [lia|]. split; [|by destruct (_ =? 0)].
  unfold newConfigs, MAX_BCST_INFO_NUM, u8. change (2 ^ 8) with 256.
  assert ((if 50 <? lenZ cs mod 256 then 50 else lenZ cs mod 256) = k) as -> by (unfold k; cmp_cases).
  rewrite rdn_ok; [done|lia|lia|]. unfold k. pose proof (Z.mod_le (lenZ cs) 256). lia.
Qed.

(** ** Witnesses and small facts *)

Lemma incoming_sms_witness :
  let t := sms_tpdu [145; 40] 4 11 145 [1; 0; 1; 2; 3; 244] 0 18 [7; 7] in
  ∃ m, OnIncomingNewSms (fill 24 9) (t ++ [1]) (lenZ t) = Ok (Some (WriteSmsToSim m)) ∧
    DoWriteSmsToSim (fill 256 9) m = Ok (0, 65535, t).
Proof.
  intros t. refine (incoming_sms (fill 24 9) (fill 256 9) [1] [145; 40] [1; 0; 1; 2; 3; 244] [7; 7] 4 11 145 0 18 _ _ _ _ _ _ _); by_eval.
Defined.

Lemma send_sms_witness :
  ∃ m, GsmSmsMessage_encode (Some (hex_of [2; 145; 40])) (Some (hex_of [1; 2])) = Ok (0, m) ∧
    (n ← GetLength m; raw ← GetRawByte (fill 256 9) m; rdn raw 0 n) = Ok ([2; 145; 40] ++ [1; 2]) ∧
    (∃ z z', DoSendSms [1; 2] 2 m = Ok ([2; 145; 40] ++ z', 3, [1; 2] ++ z, 2)) ∧
    (Some 2 = Some 2 →
     ∃ m', copyMessage (fill 12 9) m = Ok m' ∧
       (n ← GetLength m'; raw ← GetRawByte (fill 256 9) m'; rdn raw 0 n) = Ok ([2; 145; 40] ++ [1; 2])).
Proof.
  refine (send_sms (Some [2; 145; 40]) [1; 2] (fill 256 9) (fill 12 9) [1; 2] 2 _ _ _ _ _); try by_eval.
  intros b [= <-]. by_eval.
Defined.

Lemma Broadcast_encode_spec_witness :
  Broadcast_encode (Some (Some <$> [1; 2; 3])) 24 None =
    Ok (0, Some {| m_uNum := 3; m_ptRgbsci := Some [1; 2; 3]; m_ptRgbsciPtrs := Some (seqZ 0 3) |}) ∧
  Broadcast_encode (Some [Some 1; None]) 16 None = Ok (-1, None).
Proof. refine (Broadcast_encode_spec [1; 2; 3] [Some 1; None] None _ _); by_eval. Defined.

(** an indication without a PDU makes the handler read through a null pointer *)
Lemma empty_sms_null garbage tpdu : OnIncomingNewSms garbage tpdu 0 = UB.
Proof. done. Qed.

(** a coding scheme without a message class is still taken for class 2 *)
Lemma class_without_indicator :
  let t := sms_tpdu [] 4 0 145 [] 0 2 [] in
  ∃ m, OnIncomingNewSms (fill 24 0) t (lenZ t) = Ok (Some (WriteSmsToSim m)).
Proof. intros t. eexists. vm_compute. reflexivity. Qed.

(** a service center address longer than eleven bytes overruns [m_sca] *)
Lemma sca_overrun :
  let t := sms_tpdu (fill 12 1) 4 0 145 [] 0 0 [] in OnIncomingNewSms (fill 24 0) t (lenZ t) = UB.
Proof. reflexivity. Qed.

(** three digits are missing from the text of a message *)
Lemma message_text_truncated m :
  GsmSmsMessage_encode (Some (hex_of [2; 145; 40])) (Some (hex_of [17; 34])) = Ok (0, m) →
  ∃ m' h, MessageToHexString m = Ok (m', Some h) ∧ cstr h = str "02912" ++ str "11".
Proof. vm_compute. intros [= <-]. eexists _, _. split; [reflexivity|reflexivity]. Qed.

(** a PDU of 244 bytes loses its last digit in the indication adapter *)
Lemma long_tpdu_truncated :
  ∃ text, newSmsInd (fill 488 17) 244 = Ok (text, 488) ∧ lenZ (cstr text) = 487.
Proof. eexists. split; vm_compute; reflexivity. Qed.
