(* ===== verification/Timers.v ===== *)
(** The sorted timer list of [core/timerlist.cpp].

    A message is known by its address, a [Z].  [gettimeofday] is the argument
    [now].  [tv_sec] and [tv_usec] are [long]; [compare] returns an [int], so
    the difference it computes is narrowed. *)
From S2P Require Import Prelude.

Record timeval := { tv_sec : Z; tv_usec : Z }.
Record TimerEvent := { timeout : timeval; msg : option Z }.
#[export] Instance timeval_eq_dec : EqDecision timeval.
Proof. solve_decision. Defined.
#[export] Instance TimerEvent_eq_dec : EqDecision TimerEvent.
Proof. solve_decision. Defined.

Definition MAX_TIMEOUT : Z := 5 * 60 * 1000.

Definition compare (l r : timeval) : Z :=
  if tv_sec l =? tv_sec r then i32 (tv_usec l - tv_usec r) else i32 (tv_sec l - tv_sec r).

(** [add(timeval &, timeval &)]: the new [l] *)
Definition add (l r : timeval) : timeval :=
  let sec := tv_sec l + tv_sec r in
  let usec := tv_usec l + tv_usec r in
  if 1000000 <? usec then {| tv_sec := sec + 1; tv_usec := usec - 1000000 |}
  else {| tv_sec := sec; tv_usec := usec |}.

Definition add_millis (tv : timeval) (millis : Z) : timeval :=
  let usec := u32 (millis * 1000) in
  add tv {| tv_sec := usec / 1000000; tv_usec := usec mod 1000000 |}.

Definition sub (l r : timeval) : timeval :=
  if compare l r <=? 0 then {| tv_sec := 0; tv_usec := 0 |}
  else
    let sec := tv_sec l - tv_sec r in
    let usec := tv_usec l - tv_usec r in
    if usec <? 0 then {| tv_sec := sec - 1; tv_usec := usec + 1000000 |}
    else {| tv_sec := sec; tv_usec := usec |}.

(** ** [TimerList] *)

Definition no_event : TimerEvent := {| timeout := {| tv_sec := 0; tv_usec := 0 |}; msg := None |}.

Definition front (mList : list TimerEvent) : TimerEvent :=
  match mList with te :: _ => te | [] => no_event end.
Definition pop (mList : list TimerEvent) : TimerEvent * list TimerEvent :=
  match mList with te :: l => (te, l) | [] => (no_event, []) end.

(** the loop of [put] *)
Fixpoint insert_event (te : TimerEvent) (l : list TimerEvent) : list TimerEvent :=
  match l with
  | [] => [te]
  | cur :: l' => if 0 <? compare (timeout cur) (timeout te) then te :: cur :: l' else cur :: insert_event te l'
  end.

Definition put (now : timeval) (m : option Z) (millis : Z) (mList : list TimerEvent) : list TimerEvent :=
  let millis := if MAX_TIMEOUT <? millis then MAX_TIMEOUT else millis in
  insert_event {| timeout := add_millis now millis; msg := m |} mList.

Fixpoint erase (m : option Z) (l : list TimerEvent) : list TimerEvent :=
  match l with
  | [] => []
  | te :: l' => if decide (msg te = m) then l' else te :: erase m l'
  end.

(** ** Time in microseconds *)

Definition us (t : timeval) : Z := tv_sec t * 1000000 + tv_usec t.
(** a time the list can hold: one microsecond count is written in two ways,
    because [add] carries only above a million *)
Definition tv_ok (t : timeval) : Prop := 0 <= tv_sec t < 2 ^ 31 ∧ 0 <= tv_usec t <= 1000000.
(** a time of the system clock *)
Definition clock_ok (t : timeval) : Prop := 0 <= tv_sec t < 2 ^ 31 - 1000 ∧ 0 <= tv_usec t < 1000000.

#[export] Instance tv_ok_dec t : Decision (tv_ok t).
Proof. unfold tv_ok. apply _. Defined.
#[export] Instance clock_ok_dec t : Decision (clock_ok t).
Proof. unfold clock_ok. apply _. Defined.

Lemma compare_pos l r : tv_ok l → tv_ok r → 0 < compare l r → us r <= us l.
Proof. unfold tv_ok, compare, us. intros Hl Hr. destruct (Z.eqb_spec (tv_sec l) (tv_sec r)); rewrite i32_id; lia. Qed.
Lemma compare_nonpos l r : tv_ok l → tv_ok r → compare l r <= 0 → us l <= us r.
Proof. unfold tv_ok, compare, us. intros Hl Hr. destruct (Z.eqb_spec (tv_sec l) (tv_sec r)); rewrite i32_id; lia. Qed.

Lemma add_millis_us tv millis :
  clock_ok tv → 0 <= millis <= MAX_TIMEOUT → us (add_millis tv millis) = us tv + millis * 1000 ∧ tv_ok (add_millis tv millis).
Proof.
  unfold clock_ok, MAX_TIMEOUT. intros Htv Hm. unfold add_millis, add. rewrite u32_id by lia. cbn [tv_sec tv_usec].
  unfold us, tv_ok. destruct (Z.ltb_spec 1000000 (tv_usec tv + (millis * 1000) mod 1000000)); cbn [tv_sec tv_usec]; lia.
Qed.

Lemma sub_us l r : tv_ok l → tv_ok r → us (sub l r) = Z.max 0 (us l - us r).
Proof.
  intros Hl Hr. unfold sub. destruct (Z.leb_spec (compare l r) 0) as [H|H].
  - apply compare_nonpos in H; [|done..]. change (us {| tv_sec := 0; tv_usec := 0 |}) with 0. lia.
  - apply compare_pos in H; [|done..]. unfold us in *. destruct (Z.ltb_spec (tv_usec l - tv_usec r) 0); cbn [tv_sec tv_usec]; lia.
Qed.

(** ** Order of the list *)

Definition due (te : TimerEvent) : Z := us (timeout te).
Definition sorted (l : list TimerEvent) : Prop := ∀ i j a b, (i < j)%nat → l !! i = Some a → l !! j = Some b → due a <= due b.
Definition events_ok (l : list TimerEvent) : Prop := Forall (λ te, tv_ok (timeout te)) l.

Lemma sorted_cons te l : sorted (te :: l) ↔ Forall (λ b, due te <= due b) l ∧ sorted l.
Proof.
  split.
  - intros H. split; [apply Forall_lookup; intros j b Hj; by apply (H O (S j)); [lia|..]|].
    intros i j a b Hij Ha Hb. by apply (H (S i) (S j)); [lia|..].
  - intros [Hf H] [|i] [|j] a b Hij Ha Hb; try lia.
    + injection Ha as ->. by eapply Forall_lookup_1 in Hf.
    + by apply (H i j); [lia|..].
Qed.

Lemma insert_event_perm te l : insert_event te l ≡ₚ te :: l.
Proof. induction l as [|c l IH]; cbn; [done|]. destruct (0 <? _); [done|]. rewrite IH. apply Permutation_swap. Qed.

(** the list splits where the event goes: everything before it is due no later, everything after it no earlier *)
Lemma insert_event_split te l :
  events_ok l → tv_ok (timeout te) → sorted l →
  ∃ p r, l = p ++ r ∧ insert_event te l = p ++ te :: r ∧ Forall (λ b, due b <= due te) p ∧ Forall (λ b, due te <= due b) r.
Proof.
  intros Hl Hte. induction l as [|c l IH]; intros Hs; [by exists [], []|].
  apply Forall_cons_1 in Hl as [Hc Hl]. apply sorted_cons in Hs as [Hf Hs]. cbn [insert_event].
  destruct (Z.ltb_spec 0 (compare (timeout c) (timeout te))) as [H|H].
  - apply compare_pos in H; [|done..]. exists [], (c :: l). split_and!; try done. constructor; [done|].
    eapply Forall_impl; [exact Hf|]. unfold due in *. cbn. lia.
  - apply compare_nonpos in H; [|done..]. destruct (IH Hl Hs) as (p & r & -> & -> & Hp & Hr).
    exists (c :: p), r. split_and!; try done. by constructor.
Qed.

Lemma insert_event_sorted te l : events_ok l → tv_ok (timeout te) → sorted l → sorted (insert_event te l).
Proof.
  intros Hl Hte. induction l as [|c l IH]; intros Hs.
  - intros i j a b Hij Ha Hb. destruct i, j; cbn in *; try lia; done.
  - apply Forall_cons_1 in Hl as [Hc Hl]. apply sorted_cons in Hs as Hs'. destruct Hs' as [Hf Hs']. cbn [insert_event].
    destruct (Z.ltb_spec 0 (compare (timeout c) (timeout te))) as [H|H].
    + apply compare_pos in H; [|done..]. apply sorted_cons. split; [|done]. constructor; [done|].
      eapply Forall_impl; [exact Hf|]. unfold due in *. cbn. lia.
    + apply compare_nonpos in H; [|done..]. apply sorted_cons. split; [|by apply IH].
      rewrite insert_event_perm. by constructor.
Qed.

Lemma erase_sublist m l : erase m l `sublist_of` l.
Proof. induction l as [|te l IH]; cbn; [done|]. destruct (decide _); [by apply sublist_cons|by apply sublist_skip]. Qed.

Lemma put_split now m millis l :
  clock_ok now → 0 <= millis → events_ok l → sorted l →
  ∃ te p r, put now m millis l = p ++ te :: r ∧ l = p ++ r ∧ msg te = m ∧ tv_ok (timeout te) ∧
    due te = us now + 1000 * Z.min millis MAX_TIMEOUT ∧
    Forall (λ b, due b <= due te) p ∧ Forall (λ b, due te <= due b) r ∧ sorted (p ++ te :: r).
Proof.
  intros Hnow Hm Hl Hs. unfold put. set (ms := if MAX_TIMEOUT <? millis then MAX_TIMEOUT else millis).
  assert (ms = Z.min millis MAX_TIMEOUT ∧ 0 <= ms <= MAX_TIMEOUT) as [Ems Hms].
  { unfold ms. destruct (Z.ltb_spec MAX_TIMEOUT millis); unfold MAX_TIMEOUT in *; lia. }
  destruct (add_millis_us now ms Hnow Hms) as [Hus Hok]. set (te := {| timeout := add_millis now ms; msg := m |}).
  pose proof (insert_event_sorted te l Hl Hok Hs) as Hso.
  destruct (insert_event_split te l Hl Hok Hs) as (p & r & El & Ep & Hp & Hr). rewrite Ep in *.
  exists te, p, r. split_and!; try done. unfold due. cbn [te timeout]. rewrite Hus, <- Ems. lia.
Qed.

(** putting a timer.  On a sorted list and a clock time, [put] inserts exactly one event, for the message given and
    due [millis] milliseconds (at most five minutes) after [now], to the microsecond; every event before it is due no
    later and every event after it no earlier, the other events keep their order, and the list stays sorted. *)
Theorem put_spec (now : timeval) (m : option Z) (millis : Z) (l : list TimerEvent)
    (Hnow : clock_ok now) (Hm : 0 <= millis) (Hl : events_ok l) (Hs : sorted l) :
  ∃ te p r, put now m millis l = p ++ te :: r ∧ l = p ++ r ∧ msg te = m ∧
    due te = us now + 1000 * Z.min millis MAX_TIMEOUT ∧
    Forall (λ b, due b <= due te) p ∧ Forall (λ b, due te <= due b) r ∧ sorted (p ++ te :: r).
Proof. destruct (put_split now m millis l Hnow Hm Hl Hs) as (te & p & r & ?). exists te, p, r. tauto. Qed.

Lemma put_spec_witness :
  let now := {| tv_sec := 100; tv_usec := 5 |} in
  let l := put now (Some 1) 400000 (put now (Some 2) 10 []) in
  ∃ te p r, put now (Some 3) 500 l = p ++ te :: r ∧ l = p ++ r ∧ msg te = Some 3 ∧
    due te = us now + 1000 * Z.min 500 MAX_TIMEOUT ∧
    Forall (λ b, due b <= due te) p ∧ Forall (λ b, due te <= due b) r ∧ sorted (p ++ te :: r).
Proof.
  intros now l. refine (put_spec now (Some 3) 500 l _ _ _ _); try by_eval.
  intros [|[|i]] [|[|j]] a b Hij Ha Hb; vm_compute in Ha, Hb; try discriminate; try lia.
  injection Ha as <-. injection Hb as <-. vm_compute. discriminate.
Defined.

(** [add] carries only above a million, so a sum can hold a microsecond count
    of one million, which [sub] hands on: [select] rejects such a timeout *)
Lemma usec_one_million :
  let now := {| tv_sec := 7; tv_usec := 400000 |} in
  sub (add_millis now 600) {| tv_sec := 7; tv_usec := 0 |} = {| tv_sec := 0; tv_usec := 1000000 |}.
Proof. reflexivity. Qed.
