(* ===== verification/WaitList.v ===== *)
(** Tokens and the history of requests sent to the modem: [core/tokengen.cpp],
    [core/waitlist.cpp], and the operations of [rilcontextwrapper.cpp] that
    keep the history.

    The [std::map] of the history is a finite map; the lock that every
    operation takes makes it atomic, so an operation is a function of the
    state. *)
From stdpp Require Import gmap.
From S2P Require Import Prelude.

Definition TOKEN_INVALID : Z := 4294967295.
Definition MAX_INT : Z := 4294967295.

(** [TokenGen::GetNext]: the token, and [m_nToken] afterwards *)
Definition GetNext (m_nToken : Z) : Z * Z :=
  let n := u32 (m_nToken + 1) in (m_nToken, if n =? MAX_INT then 0 else n).

Record MessageHistoryRecord := {
  m_nToken : Z; m_nSrcServiceId : Z; m_nDestServiceId : Z; m_nResult : Z
}.
(** the default constructor; the identifiers are [UINT] *)
Definition newRecord : MessageHistoryRecord :=
  {| m_nToken := TOKEN_INVALID; m_nSrcServiceId := u32 (-1); m_nDestServiceId := u32 (-1); m_nResult := u32 (-1) |}.
Definition IsValid (r : MessageHistoryRecord) : bool := negb (m_nToken r =? TOKEN_INVALID).

Definition newInstance (nSrcServiceId nDestServiceId nToken nResult : Z) : MessageHistoryRecord :=
  if nToken =? TOKEN_INVALID then newRecord
  else {| m_nToken := nToken; m_nSrcServiceId := nSrcServiceId; m_nDestServiceId := nDestServiceId; m_nResult := nResult |}.

Record WaitList := { m_nSize : Z; m_history : gmap Z MessageHistoryRecord }.
Definition newWaitList : WaitList := {| m_nSize := 0; m_history := ∅ |}.

Definition Push (r : MessageHistoryRecord) (w : WaitList) : WaitList :=
  if m_nToken r =? TOKEN_INVALID then w
  else {| m_nSize := m_nSize w + 1; m_history := <[m_nToken r := r]> (m_history w) |}.

Definition Remove (nId : Z) (w : WaitList) : WaitList :=
  match m_history w !! nId with
  | Some _ => {| m_nSize := m_nSize w - 1; m_history := delete nId (m_history w) |}
  | None => w
  end.

Definition Clear (w : WaitList) : WaitList :=
  if 0 <? m_nSize w then {| m_nSize := 0; m_history := ∅ |} else w.

Definition Contains (nId : Z) (w : WaitList) : bool :=
  match m_history w !! nId with Some _ => true | None => false end.

Definition Find (nId : Z) (w : WaitList) : MessageHistoryRecord := default newRecord (m_history w !! nId).

(** ** [RilContextWrapper] *)

Definition RecordRequestHistory (src dest token result : Z) (w : WaitList) : WaitList :=
  let r := newInstance src dest token result in if IsValid r then Push r w else w.
Definition RemoveRequestHistory (token : Z) (w : WaitList) : WaitList := Remove token w.
Definition ClearGarbage (token : Z) (w : WaitList) : WaitList :=
  if token =? TOKEN_INVALID then w else RemoveRequestHistory token w.
Definition IsInRequestWaitHistory (token : Z) (w : WaitList) : bool := IsValid (Find token w).

(** [Send(ModemData *, UINT, UINT)]; [written] tells whether the channel took the data *)
Definition ContextSend (token dest result : Z) (written : bool) (w : WaitList) : Z * WaitList :=
  let w := RecordRequestHistory dest dest token result w in
  if written then (0, w) else (-1, RemoveRequestHistory token w).

(** the history part of [OnRequestTimeout] *)
Definition TimeoutHistory (token : Z) (w : WaitList) : WaitList :=
  if IsValid (Find token w) then RemoveRequestHistory token w else w.

(** ** Facts *)

(** records sit under their own token *)
Definition wl_ok (w : WaitList) : Prop :=
  (∀ t r, m_history w !! t = Some r → m_nToken r = t ∧ t ≠ TOKEN_INVALID) ∧ Z.of_nat (size (m_history w)) <= m_nSize w.

Lemma wl_ok_new : wl_ok newWaitList.
Proof. split; [intros t r; cbn; by rewrite lookup_empty|cbn; by rewrite map_size_empty]. Qed.

Lemma wl_ok_Push r w : wl_ok w → wl_ok (Push r w).
Proof.
  intros [H1 H2]. unfold Push. destruct (Z.eqb_spec (m_nToken r) TOKEN_INVALID) as [|Hr]; [done|]. split; cbn.
  - intros t r' Hl. rewrite lookup_insert_Some in Hl. destruct Hl as [[<- <-]|[_ Hl]]; [done|by apply H1].
  - rewrite map_size_insert. destruct (m_history w !! m_nToken r); cbn; lia.
Qed.

Lemma wl_ok_Remove t w : wl_ok w → wl_ok (Remove t w).
Proof.
  intros [H1 H2]. unfold Remove. destruct (m_history w !! t) as [r|] eqn:E; [|done]. split; cbn.
  - intros t' r' Hl. rewrite lookup_delete_Some in Hl. destruct Hl as [_ Hl]. by apply H1.
  - rewrite map_size_delete, E. cbn. assert (size (m_history w) ≠ 0%nat); [|lia].
    intros Hz. apply map_size_empty_inv in Hz. by rewrite Hz, lookup_empty in E.
Qed.

(** the life of a history record.  Whatever the history holds, sending a message with a valid token that the channel
    takes leaves a record for it, found with its service and result, until a timeout or [ClearGarbage] removes it;
    a send that fails leaves none; the other tokens keep their records; and [Clear] leaves no record in any history
    built by these operations, although [m_nSize] counts a token that is sent twice twice. *)
Theorem wait_list_lifecycle (w : WaitList) (token dest result : Z) (Hw : wl_ok w) (Ht : token ≠ TOKEN_INVALID) :
  let sent := (ContextSend token dest result true w).2 in
  wl_ok sent ∧
  Find token sent = {| m_nToken := token; m_nSrcServiceId := dest; m_nDestServiceId := dest; m_nResult := result |} ∧
  IsInRequestWaitHistory token sent = true ∧
  (∀ gone, gone = (ContextSend token dest result false w).2 ∨ gone = TimeoutHistory token sent ∨ gone = ClearGarbage token sent →
     IsInRequestWaitHistory token gone = false ∧ ∀ t, t ≠ token → Find t gone = Find t w) ∧
  m_history (Clear sent) = ∅.
Proof.
  intros sent. unfold ContextSend, RecordRequestHistory, newInstance in *. destruct (Z.eqb_spec token TOKEN_INVALID) as [|_]; [done|].
  set (r := {| m_nToken := token |}) in *. assert (IsValid r = true) as Hr by (unfold IsValid; cbn; by apply negb_true_iff, Z.eqb_neq).
  assert (sent = Push r w) as Es by (unfold sent; by rewrite Hr). clearbody sent. rewrite !Hr. cbn [snd].
  assert (wl_ok sent) as Hs by (rewrite Es; by apply wl_ok_Push).
  assert (m_history sent = <[token := r]> (m_history w)) as Eh.
  { rewrite Es. unfold Push. cbn [r m_nToken]. by destruct (Z.eqb_spec token TOKEN_INVALID). }
  assert (Find token sent = r) as Ef by (unfold Find; by rewrite Eh, lookup_insert_eq).
  assert (∀ g, g = Remove token sent → IsInRequestWaitHistory token g = false ∧ ∀ t, t ≠ token → Find t g = Find t w) as Hg.
  { intros g ->. unfold IsInRequestWaitHistory, Find, Remove. rewrite Eh, lookup_insert_eq. cbn [m_history]. split.
    - by rewrite lookup_delete_eq.
    - intros t Htt. by rewrite lookup_delete_ne, lookup_insert_ne. }
  split_and!; try done.
  - unfold IsInRequestWaitHistory. by rewrite Ef.
  - intros g [-> | [-> | -> ] ]; apply Hg; [by rewrite Es| |].
    + unfold TimeoutHistory. by rewrite Ef, Hr.
    + unfold ClearGarbage. by destruct (Z.eqb_spec token TOKEN_INVALID).
  - unfold Clear. destruct Hs as [_ Hsz]. destruct (Z.ltb_spec 0 (m_nSize sent)); [done|].
    assert (size (m_history sent) = 0%nat) as Hz by lia. by apply map_size_empty_inv in Hz.
Qed.

Lemma wait_list_lifecycle_witness :
  let sent := (ContextSend 7 3 90 true newWaitList).2 in
  wl_ok sent ∧
  Find 7 sent = {| m_nToken := 7; m_nSrcServiceId := 3; m_nDestServiceId := 3; m_nResult := 90 |} ∧
  IsInRequestWaitHistory 7 sent = true ∧
  (∀ gone, gone = (ContextSend 7 3 90 false newWaitList).2 ∨ gone = TimeoutHistory 7 sent ∨ gone = ClearGarbage 7 sent →
     IsInRequestWaitHistory 7 gone = false ∧ ∀ t, t ≠ 7 → Find t gone = Find t newWaitList) ∧
  m_history (Clear sent) = ∅.
Proof. refine (wait_list_lifecycle newWaitList 7 3 90 wl_ok_new _). by_eval. Defined.

(** the count drifts when a token is pushed again *)
Lemma size_drifts r : m_nToken r ≠ TOKEN_INVALID → m_nSize (Remove (m_nToken r) (Push r (Push r newWaitList))) = 1.
Proof.
  intros Hr. unfold Push. destruct (Z.eqb_spec (m_nToken r) TOKEN_INVALID); [done|]. unfold Remove. cbn.
  by rewrite lookup_insert_eq.
Qed.

(** a token is never the invalid one, and the counter stays in range *)
Lemma GetNext_valid n : 0 <= n < TOKEN_INVALID → (GetNext n).1 ≠ TOKEN_INVALID ∧ 0 <= (GetNext n).2 < TOKEN_INVALID.
Proof.
  unfold GetNext, TOKEN_INVALID, MAX_INT. intros Hn. cbn [fst snd]. rewrite u32_id by lia. split; [lia|].
  destruct (Z.eqb_spec (n + 1) 4294967295); lia.
Qed.
