(* ===== verification/Network.v ===== *)
(** Radio technologies, access families, preferred network types and the
    network codes of cells: [util/networkutils.cpp], the access family
    conversions of [protocol/sit/protocolbuilder.cpp] and
    [protocol/sit/protocoladapter.cpp], the network code functions of
    [protocol/sit/protocolnetadapter.cpp] and [ril_mnc.h].

    A radio access family is an [int] used as a bit set, one bit per radio
    technology; the modem numbers the bits in its own way.  The conversions of
    the cell structures of [networkutils.cpp], which copy field by field, are
    not modelled, apart from the choice they make for the signal strength. *)
From S2P Require Import Prelude RilDef Text.

(** ** Radio technologies *)
Definition RADIO_TECH_UNKNOWN : Z := 0.
Definition RADIO_TECH_EDGE : Z := 2.
Definition RADIO_TECH_UMTS : Z := 3.
Definition RADIO_TECH_IS95A : Z := 4.
Definition RADIO_TECH_IS95B : Z := 5.
Definition RADIO_TECH_1xRTT : Z := 6.
Definition RADIO_TECH_EVDO_0 : Z := 7.
Definition RADIO_TECH_EVDO_A : Z := 8.
Definition RADIO_TECH_HSDPA : Z := 9.
Definition RADIO_TECH_HSUPA : Z := 10.
Definition RADIO_TECH_HSPA : Z := 11.
Definition RADIO_TECH_EVDO_B : Z := 12.
Definition RADIO_TECH_EHRPD : Z := 13.
Definition RADIO_TECH_LTE : Z := 14.
Definition RADIO_TECH_HSPAP : Z := 15.
Definition RADIO_TECH_GSM : Z := 16.
Definition RADIO_TECH_TD_SCDMA : Z := 17.
Definition RADIO_TECH_IWLAN : Z := 18.
Definition RADIO_TECH_LTE_CA : Z := 19.
Definition RADIO_TECH_NR : Z := 20.

(** [1 << tech] *)
Definition RAF (tech : Z) : Z := Z.shiftl 1 tech.
(** the modem's [RAF_CP_*], by the number of the bit *)
Definition RAF_CP (bit : Z) : Z := Z.shiftl 1 bit.

(** a [switch] on integer constants: the first pair with the label *)
Fixpoint switch (x : Z) (cases : list (Z * Z)) (dflt : Z) : Z :=
  match cases with [] => dflt | (l, v) :: cs => if x =? l then v else switch x cs dflt end.

Definition RIL_CELL_INFO_TYPE_NONE : Z := 0.
Definition RIL_CELL_INFO_TYPE_GSM : Z := 1.
Definition RIL_CELL_INFO_TYPE_CDMA : Z := 2.
Definition RIL_CELL_INFO_TYPE_LTE : Z := 3.
Definition RIL_CELL_INFO_TYPE_WCDMA : Z := 4.
Definition RIL_CELL_INFO_TYPE_TD_SCDMA : Z := 5.
Definition RIL_CELL_INFO_TYPE_NR : Z := 6.

Definition getCellInfoTypeRadioTechnology (rat : Z) : Z :=
  switch rat [
    (RADIO_TECH_GPRS, RIL_CELL_INFO_TYPE_GSM); (RADIO_TECH_EDGE, RIL_CELL_INFO_TYPE_GSM); (RADIO_TECH_GSM, RIL_CELL_INFO_TYPE_GSM);
    (RADIO_TECH_UMTS, RIL_CELL_INFO_TYPE_WCDMA); (RADIO_TECH_HSDPA, RIL_CELL_INFO_TYPE_WCDMA); (RADIO_TECH_HSUPA, RIL_CELL_INFO_TYPE_WCDMA);
    (RADIO_TECH_HSPA, RIL_CELL_INFO_TYPE_WCDMA); (RADIO_TECH_HSPAP, RIL_CELL_INFO_TYPE_WCDMA);
    (RADIO_TECH_IS95A, RIL_CELL_INFO_TYPE_CDMA); (RADIO_TECH_IS95B, RIL_CELL_INFO_TYPE_CDMA); (RADIO_TECH_1xRTT, RIL_CELL_INFO_TYPE_CDMA);
    (RADIO_TECH_EVDO_0, RIL_CELL_INFO_TYPE_CDMA); (RADIO_TECH_EVDO_A, RIL_CELL_INFO_TYPE_CDMA); (RADIO_TECH_EVDO_B, RIL_CELL_INFO_TYPE_CDMA);
    (RADIO_TECH_EHRPD, RIL_CELL_INFO_TYPE_CDMA);
    (RADIO_TECH_LTE, RIL_CELL_INFO_TYPE_LTE); (RADIO_TECH_LTE_CA, RIL_CELL_INFO_TYPE_LTE);
    (RADIO_TECH_TD_SCDMA, RIL_CELL_INFO_TYPE_TD_SCDMA); (RADIO_TECH_NR, RIL_CELL_INFO_TYPE_NR)] RIL_CELL_INFO_TYPE_NONE.

(** ** Preferred network types *)

(** [NETWORK_TYPE_BITMAP_*] *)
Definition bits (l : list Z) : Z := foldr Z.lor 0 (RAF <$> l).
Definition BITMAP_GSM : Z := bits [RADIO_TECH_GPRS; RADIO_TECH_EDGE; RADIO_TECH_GSM].
Definition BITMAP_CDMA : Z := bits [RADIO_TECH_IS95A; RADIO_TECH_1xRTT].
Definition BITMAP_EVDO : Z := bits [RADIO_TECH_EVDO_0; RADIO_TECH_EVDO_A; RADIO_TECH_EVDO_B; RADIO_TECH_EHRPD].
Definition BITMAP_HS : Z := bits [RADIO_TECH_HSDPA; RADIO_TECH_HSUPA; RADIO_TECH_HSPA; RADIO_TECH_HSPAP].
Definition BITMAP_WCDMA : Z := Z.lor BITMAP_HS (RAF RADIO_TECH_UMTS).
Definition BITMAP_LTE : Z := bits [RADIO_TECH_LTE; RADIO_TECH_LTE_CA].
Definition BITMAP_NR : Z := RAF RADIO_TECH_NR.
Definition BITMAP_TDS_CDMA : Z := RAF RADIO_TECH_TD_SCDMA.
Definition BITMAP_GSM_WCDMA : Z := Z.lor BITMAP_GSM BITMAP_WCDMA.
Definition BITMAP_CDMA_EVDO_AUTO : Z := Z.lor BITMAP_CDMA BITMAP_EVDO.
Definition BITMAP_GSM_WCDMA_CDMA_EVDO_AUTO : Z := Z.lor BITMAP_GSM_WCDMA BITMAP_CDMA_EVDO_AUTO.
Definition BITMAP_LTE_CDMA_EVDO : Z := Z.lor BITMAP_LTE BITMAP_CDMA_EVDO_AUTO.
Definition BITMAP_LTE_GSM_WCDMA : Z := Z.lor BITMAP_LTE BITMAP_GSM_WCDMA.
Definition BITMAP_LTE_CMDA_EVDO_GSM_WCDMA : Z := Z.lor BITMAP_LTE_GSM_WCDMA BITMAP_LTE_CDMA_EVDO.
Definition BITMAP_LTE_WCDMA : Z := Z.lor BITMAP_LTE BITMAP_WCDMA.
Definition BITMAP_TD_SCDMA_WCDMA : Z := Z.lor BITMAP_WCDMA BITMAP_TDS_CDMA.
Definition BITMAP_TD_SCDMA_LTE : Z := Z.lor BITMAP_LTE BITMAP_TDS_CDMA.
Definition BITMAP_TD_SCDMA_GSM : Z := Z.lor BITMAP_GSM BITMAP_TDS_CDMA.
Definition BITMAP_TD_SCDMA_GSM_LTE : Z := Z.lor (Z.lor BITMAP_LTE BITMAP_GSM) BITMAP_TDS_CDMA.
Definition BITMAP_TD_SCDMA_GSM_WCDMA : Z := Z.lor BITMAP_GSM_WCDMA BITMAP_TDS_CDMA.
Definition BITMAP_TD_SCDMA_WCDMA_LTE : Z := Z.lor BITMAP_LTE_WCDMA BITMAP_TDS_CDMA.
Definition BITMAP_TD_SCDMA_GSM_WCDMA_LTE : Z := Z.lor BITMAP_LTE_GSM_WCDMA BITMAP_TDS_CDMA.
Definition BITMAP_TD_SCDMA_GSM_WCDMA_CDMA_EVDO_AUTO : Z := Z.lor BITMAP_GSM_WCDMA_CDMA_EVDO_AUTO BITMAP_TDS_CDMA.
Definition BITMAP_TD_SCDMA_LTE_CDMA_EVDO_GSM_WCDMA : Z := Z.lor BITMAP_LTE_CMDA_EVDO_GSM_WCDMA BITMAP_TDS_CDMA.
Definition BITMAP_NR_LTE_CDMA_EVDO_AUTO : Z := Z.lor BITMAP_LTE_CDMA_EVDO BITMAP_NR.
Definition BITMAP_NR_LTE_CDMA_GSM_WCDMA : Z := Z.lor BITMAP_LTE_GSM_WCDMA BITMAP_NR.
Definition BITMAP_NR_LTE_CMDA_EVDO_GSM_WCDMA : Z := Z.lor BITMAP_LTE_CMDA_EVDO_GSM_WCDMA BITMAP_NR.
Definition BITMAP_NR_LTE : Z := Z.lor BITMAP_LTE BITMAP_NR.
Definition BITMAP_NR_LTE_WCDMA : Z := Z.lor BITMAP_LTE_WCDMA BITMAP_NR.
Definition BITMAP_NR_TD_SCDMA_LTE : Z := Z.lor BITMAP_TD_SCDMA_LTE BITMAP_NR.
Definition BITMAP_NR_TD_SCDMA_LTE_GSM : Z := Z.lor BITMAP_TD_SCDMA_GSM_LTE BITMAP_NR.
Definition BITMAP_NR_TD_SCDMA_WCDMA_LTE : Z := Z.lor BITMAP_TD_SCDMA_WCDMA_LTE BITMAP_NR.
Definition BITMAP_NR_TD_SCDMA_GSM_WCDMA_LTE : Z := Z.lor BITMAP_TD_SCDMA_GSM_WCDMA_LTE BITMAP_NR.
Definition BITMAP_NR_TD_SCDMA_LTE_CDMA_EVDO_GSM_WCDMA : Z := Z.lor BITMAP_TD_SCDMA_LTE_CDMA_EVDO_GSM_WCDMA BITMAP_NR.

(** each step widens [newRaf] by a whole group that [raf] touches *)
Definition widen (raf group newRaf : Z) : Z := if 0 <? Z.land group raf then Z.lor group newRaf else newRaf.
Definition getAdjustedRaf (raf : Z) : Z :=
  let newRaf := 0 in
  let newRaf := widen raf BITMAP_GSM newRaf in
  let newRaf := widen raf BITMAP_WCDMA newRaf in
  let newRaf := widen raf BITMAP_CDMA newRaf in
  let newRaf := widen raf BITMAP_EVDO newRaf in
  let newRaf := widen raf BITMAP_LTE newRaf in
  let newRaf := widen raf BITMAP_NR newRaf in
  let newRaf := widen raf BITMAP_TDS_CDMA newRaf in
  newRaf.

Definition PREF_NET_TYPE_GSM_WCDMA : Z := 0.
Definition PREF_NET_TYPE_GSM_WCDMA_AUTO : Z := 3.
Definition PREF_NET_TYPE_LTE_GSM_WCDMA : Z := 9.

(** the [case]s of [getNetworkTypeFromRaf], the preferred network type by its number *)
Definition raf_cases : list (Z * Z) :=
  [(BITMAP_GSM_WCDMA, 0); (BITMAP_GSM, 1); (BITMAP_WCDMA, 2); (BITMAP_CDMA_EVDO_AUTO, 4); (BITMAP_LTE_CDMA_EVDO, 8);
   (BITMAP_CDMA, 5); (BITMAP_EVDO, 6); (BITMAP_GSM_WCDMA_CDMA_EVDO_AUTO, 7); (BITMAP_LTE_GSM_WCDMA, 9);
   (BITMAP_LTE_CMDA_EVDO_GSM_WCDMA, 10); (BITMAP_LTE, 11); (BITMAP_LTE_WCDMA, 12); (BITMAP_TDS_CDMA, 13);
   (BITMAP_TD_SCDMA_WCDMA, 14); (BITMAP_TD_SCDMA_LTE, 15); (BITMAP_TD_SCDMA_GSM, 16); (BITMAP_TD_SCDMA_GSM_LTE, 17);
   (BITMAP_TD_SCDMA_GSM_WCDMA, 18); (BITMAP_TD_SCDMA_WCDMA_LTE, 19); (BITMAP_TD_SCDMA_GSM_WCDMA_LTE, 20);
   (BITMAP_TD_SCDMA_GSM_WCDMA_CDMA_EVDO_AUTO, 21); (BITMAP_TD_SCDMA_LTE_CDMA_EVDO_GSM_WCDMA, 22);
   (BITMAP_NR, 23); (BITMAP_NR_LTE, 24); (BITMAP_NR_LTE_CDMA_EVDO_AUTO, 25); (BITMAP_NR_LTE_CDMA_GSM_WCDMA, 26);
   (BITMAP_NR_LTE_CMDA_EVDO_GSM_WCDMA, 27); (BITMAP_NR_LTE_WCDMA, 28); (BITMAP_NR_TD_SCDMA_LTE, 29);
   (BITMAP_NR_TD_SCDMA_LTE_GSM, 30); (BITMAP_NR_TD_SCDMA_WCDMA_LTE, 31); (BITMAP_NR_TD_SCDMA_GSM_WCDMA_LTE, 32);
   (BITMAP_NR_TD_SCDMA_LTE_CDMA_EVDO_GSM_WCDMA, 33)].
(** [debug] is a constant [true]: the last [return -1] is never reached *)
Definition getNetworkTypeFromRaf (raf : Z) : Z := switch (getAdjustedRaf raf) raf_cases PREF_NET_TYPE_LTE_GSM_WCDMA.

(** the [case]s of [getRafFromNetworkType] *)
Definition type_cases : list (Z * Z) :=
  [(0, BITMAP_GSM_WCDMA); (1, BITMAP_GSM); (2, BITMAP_WCDMA); (4, BITMAP_CDMA_EVDO_AUTO); (8, BITMAP_LTE_CDMA_EVDO);
   (9, BITMAP_LTE_GSM_WCDMA); (10, BITMAP_LTE_CMDA_EVDO_GSM_WCDMA); (11, BITMAP_LTE); (12, BITMAP_LTE_WCDMA);
   (5, BITMAP_CDMA); (6, BITMAP_EVDO); (7, BITMAP_GSM_WCDMA_CDMA_EVDO_AUTO); (13, BITMAP_TDS_CDMA);
   (14, BITMAP_TD_SCDMA_WCDMA); (15, BITMAP_TD_SCDMA_LTE); (16, Z.lor BITMAP_GSM BITMAP_TDS_CDMA);
   (17, BITMAP_TD_SCDMA_GSM_LTE); (18, BITMAP_TD_SCDMA_GSM_WCDMA); (19, BITMAP_TD_SCDMA_WCDMA_LTE);
   (20, BITMAP_TD_SCDMA_GSM_WCDMA_LTE); (21, BITMAP_TD_SCDMA_GSM_WCDMA_CDMA_EVDO_AUTO);
   (22, BITMAP_TD_SCDMA_LTE_CDMA_EVDO_GSM_WCDMA); (23, BITMAP_NR); (24, BITMAP_NR_LTE);
   (25, BITMAP_NR_LTE_CDMA_EVDO_AUTO); (26, BITMAP_NR_LTE_CDMA_GSM_WCDMA); (27, BITMAP_NR_LTE_CMDA_EVDO_GSM_WCDMA);
   (28, BITMAP_NR_LTE_WCDMA); (29, BITMAP_NR_TD_SCDMA_LTE); (30, BITMAP_NR_TD_SCDMA_LTE_GSM);
   (31, BITMAP_NR_TD_SCDMA_WCDMA_LTE); (32, BITMAP_NR_TD_SCDMA_GSM_WCDMA_LTE);
   (33, BITMAP_NR_TD_SCDMA_LTE_CDMA_EVDO_GSM_WCDMA)].
Definition getRafFromNetworkType (networkType : Z) : Z := switch networkType type_cases (-1).

(** ** Access networks *)
Definition ACCESS_NETWORK_UNKNOWN : Z := 0.
Definition ACCESS_NETWORK_GERAN : Z := 1.
Definition ACCESS_NETWORK_UTRAN : Z := 2.
Definition ACCESS_NETWORK_EUTRAN : Z := 3.
Definition ACCESS_NETWORK_CDMA2000 : Z := 4.
Definition ACCESS_NETWORK_IWLAN : Z := 5.

Definition getRadioTechnologyFromAccessNetwork (accessNetwork : Z) : Z :=
  switch accessNetwork [
    (ACCESS_NETWORK_UNKNOWN, RADIO_TECH_UNKNOWN); (ACCESS_NETWORK_GERAN, RADIO_TECH_GPRS); (ACCESS_NETWORK_UTRAN, RADIO_TECH_UMTS);
    (ACCESS_NETWORK_EUTRAN, RADIO_TECH_LTE); (ACCESS_NETWORK_CDMA2000, RADIO_TECH_1xRTT)] RADIO_TECH_UNKNOWN.

Definition getRadioTechnologyToAccessNetworkType (rat : Z) : Z :=
  switch rat [
    (RADIO_TECH_GPRS, ACCESS_NETWORK_UNKNOWN); (RADIO_TECH_EDGE, ACCESS_NETWORK_UNKNOWN); (RADIO_TECH_GSM, ACCESS_NETWORK_UNKNOWN);
    (RADIO_TECH_UMTS, ACCESS_NETWORK_UTRAN); (RADIO_TECH_HSDPA, ACCESS_NETWORK_UTRAN); (RADIO_TECH_HSPAP, ACCESS_NETWORK_UTRAN);
    (RADIO_TECH_HSUPA, ACCESS_NETWORK_UTRAN); (RADIO_TECH_HSPA, ACCESS_NETWORK_UTRAN); (RADIO_TECH_TD_SCDMA, ACCESS_NETWORK_UTRAN);
    (RADIO_TECH_IS95A, ACCESS_NETWORK_CDMA2000); (RADIO_TECH_IS95B, ACCESS_NETWORK_CDMA2000); (RADIO_TECH_1xRTT, ACCESS_NETWORK_CDMA2000);
    (RADIO_TECH_EVDO_0, ACCESS_NETWORK_CDMA2000); (RADIO_TECH_EVDO_A, ACCESS_NETWORK_CDMA2000); (RADIO_TECH_EVDO_B, ACCESS_NETWORK_CDMA2000);
    (RADIO_TECH_EHRPD, ACCESS_NETWORK_CDMA2000);
    (RADIO_TECH_LTE, ACCESS_NETWORK_EUTRAN); (RADIO_TECH_LTE_CA, ACCESS_NETWORK_EUTRAN);
    (RADIO_TECH_IWLAN, ACCESS_NETWORK_IWLAN); (RADIO_TECH_UNKNOWN, ACCESS_NETWORK_UNKNOWN)] ACCESS_NETWORK_UNKNOWN.

(** ** Registration states *)
Definition isInService (regState : Z) : bool := (regState =? 1) || (regState =? 5).
Definition isEmergencyOnly (regState : Z) : bool :=
  (regState =? 10) || (regState =? 12) || (regState =? 14) || (regState =? 13).

(** ** The modem's access families *)

(** [if ((raf & from) != 0) result |= to;] for each pair, in order *)
Definition convert_bits (table : list (Z * Z)) (raf : Z) : Z :=
  foldl (λ result '(from, to), if Z.land raf from =? 0 then result else Z.lor result to) 0 table.

Definition cp_bits : list (Z * Z) :=
  [(RADIO_TECH_UNKNOWN, 0); (RADIO_TECH_GPRS, 1); (RADIO_TECH_EDGE, 2); (RADIO_TECH_UMTS, 3); (RADIO_TECH_HSDPA, 4);
   (RADIO_TECH_HSUPA, 5); (RADIO_TECH_HSPA, 6); (RADIO_TECH_LTE, 7); (RADIO_TECH_HSPAP, 8); (RADIO_TECH_GSM, 9);
   (RADIO_TECH_TD_SCDMA, 10); (RADIO_TECH_IS95A, 11); (RADIO_TECH_IS95B, 12); (RADIO_TECH_1xRTT, 13); (RADIO_TECH_EVDO_0, 14);
   (RADIO_TECH_EVDO_A, 15); (RADIO_TECH_EVDO_B, 16); (RADIO_TECH_EHRPD, 17); (RADIO_TECH_NR, 18)].
Definition switchRafValueForCP (raf : Z) : Z := convert_bits ((λ '(t, c), (RAF t, RAF_CP c)) <$> cp_bits) raf.
Definition switchRafValueForFW (raf : Z) : Z := convert_bits ((λ '(t, c), (RAF_CP c, RAF t)) <$> cp_bits) raf.

(** ** Network codes *)

(** [atoi] of a string that starts with a digit *)
Fixpoint leading_digits (s : list Z) : list Z :=
  match s with [] => [] | c :: s => if is_digit c then c :: leading_digits s else [] end.
Definition atoi (s : list Z) : Z := digits_value (leading_digits s).

(** [ril::util::mnc]; [to_string] and ["%03.3u"] of a number below 1000 *)
Definition digits3 (n : Z) : list Z := [48 + n / 100; 48 + n / 10 mod 10; 48 + n mod 10].
Definition to_string (n : Z) : list Z := if n <? 10 then drop 2 (digits3 n) else if n <? 100 then drop 1 (digits3 n) else digits3 n.
Definition mnc_encode (mnc numDigits : Z) : Z :=
  if (999 <? mnc) || (mnc <? 0) then INT_MAX
  else if (numDigits =? 0) || (numDigits =? 2) || (numDigits =? 3) then Z.lor (Z.shiftl numDigits 28) mnc
  else INT_MAX.
Definition mnc_decode (mnc : Z) : list Z :=
  if (mnc =? INT_MAX) || (mnc <? 0) then []
  else
    let umnc := u32 mnc in
    let mncNumDigits := Z.land (Z.shiftr umnc 28) 15 in
    let umnc := Z.shiftr (u32 (Z.shiftl umnc 4)) 4 in
    if 999 <? umnc then []
    else if mncNumDigits =? 0 then to_string umnc
    else if mncNumDigits =? 2 then drop 1 (digits3 umnc)
    else if mncNumDigits =? 3 then digits3 umnc
    else [].

(** [plmn] points into the buffer [b] *)
Definition fetchMcc (b : list Z) : res Z :=
  let plmn := cstr b in
  if IsDigitsOnly (Some plmn)
  then
    let len := lenZ plmn in
    if (len =? 5) || (len =? 6)
    then m ← rdn b 0 3; Ok (atoi (cstr (m ++ [0])))
    else Ok INT_MAX
  else Ok INT_MAX.
(** [if (mncStr[2] == '#') mncStr[2] = 0;] *)
Definition cut_hash (m : list Z) : list Z :=
  match m with [a; b; c] => if c =? 35 then [a; b; 0] else m | _ => m end.
Definition fetchMnc (b : list Z) : res Z :=
  m ← rdn b 3 3;
  if IsDigitsOnly (Some (cstr (cut_hash m ++ [0])))
  then
    let len := lenZ (cstr b) in
    if (len =? 5) || (len =? 6)
    then m ← rdn b 3 (len - 3); Ok (mnc_encode (atoi (cstr (m ++ [0]))) (len - 3))
    else Ok INT_MAX
  else Ok INT_MAX.
(** the codes [CellIdentityBuilder::SetCellIdentity(numeric, ...)] fills in *)
Definition SetCellIdentity (numeric : list Z) : res (option (Z * Z)) :=
  if IsDigitsOnly (Some (cstr numeric))
  then
    mcc ← fetchMcc numeric;
    mnc ← fetchMnc numeric;
    Ok (Some (mcc, if (mcc =? 0) || (mcc =? INT_MAX) then INT_MAX else mnc))
  else Ok None.

(** the functions of the network adapter, on the six bytes of a cell record *)
Definition FetchMcc (plmn : list Z) : res Z :=
  m ← rdn plmn 0 3;
  if IsDigitsOnly (Some (cstr (m ++ [0]))) then Ok (atoi (cstr (m ++ [0]))) else Ok INT_MAX.
Definition FetchMnc (plmn : list Z) : res Z :=
  mcc ← FetchMcc plmn;
  if (mcc =? 0) || (mcc =? INT_MAX) then Ok INT_MAX
  else
    m ← rdn plmn 3 3;
    let mncStr := cstr (cut_hash m ++ [0]) in
    if IsDigitsOnly (Some mncStr) then Ok (mnc_encode (atoi mncStr) (lenZ mncStr)) else Ok INT_MAX.

(** ** Signal strength for old clients *)

(** [GW_SignalStrength]: the WCDMA value when it is valid, else the GSM one *)
Record GsmWcdmaStrength := { signalStrength : Z; bitErrorRate : Z }.
Definition convertSignalStrengthResult (wcdma gsm : GsmWcdmaStrength) : GsmWcdmaStrength :=
  {| signalStrength := if (signalStrength wcdma <? 0) || (31 <? signalStrength wcdma) then signalStrength gsm else signalStrength wcdma;
     bitErrorRate := if (bitErrorRate wcdma <? 0) || (7 <? bitErrorRate wcdma) then bitErrorRate gsm else bitErrorRate wcdma |}.

(** ** Facts *)

Lemma switch_in x cases d : switch x cases d = d ∨ (x, switch x cases d) ∈ cases.
Proof.
  induction cases as [|[l v] cs IH]; cbn; [by left|]. destruct (Z.eqb_spec x l) as [->|].
  - right. by left.
  - destruct IH; [by left|right; by right].
Qed.

(** *** Groups of access families *)
Definition groups : list Z := [BITMAP_GSM; BITMAP_WCDMA; BITMAP_CDMA; BITMAP_EVDO; BITMAP_LTE; BITMAP_NR; BITMAP_TDS_CDMA].
(** [raf] has a bit of the group *)
Definition touches (raf g : Z) : bool := negb (Z.land g raf =? 0).
(** the union of the groups that [raf] touches *)
Definition closure (raf : Z) : Z := foldr Z.lor 0 (filter (λ g, touches raf g = true) groups).

Definition masks (t : list bool) : list Z := snd <$> filter (λ p, p.1 = true) (zip t groups).
Lemma closure_masks raf : closure raf = foldr Z.lor 0 (masks (touches raf <$> groups)).
Proof.
  unfold closure, masks. f_equal. generalize groups. intros l. induction l as [|g l IH]; [done|].
  rewrite filter_cons. cbn [fmap list_fmap zip zip_with]. rewrite filter_cons. cbn [fst].
  destruct (decide (touches raf g = true)); cbn; by rewrite IH.
Qed.

Lemma widen_touches raf g n : 0 <= g → widen raf g n = if touches raf g then Z.lor g n else n.
Proof.
  intros Hg. unfold widen, touches. assert (0 <= Z.land g raf) by (apply Z.land_nonneg; by left).
  destruct (Z.ltb_spec 0 (Z.land g raf)), (Z.eqb_spec (Z.land g raf) 0); cbn; try done; lia.
Qed.
Lemma getAdjustedRaf_closure raf : getAdjustedRaf raf = closure raf.
Proof.
  rewrite closure_masks. unfold getAdjustedRaf. rewrite !widen_touches by (by vm_compute). unfold groups. cbn [fmap list_fmap].
  generalize (touches raf BITMAP_GSM) (touches raf BITMAP_WCDMA) (touches raf BITMAP_CDMA) (touches raf BITMAP_EVDO)
    (touches raf BITMAP_LTE) (touches raf BITMAP_NR) (touches raf BITMAP_TDS_CDMA).
  intros [] [] [] [] [] [] []; vm_compute; reflexivity.
Qed.

Lemma closure_cases (P : Z → bool) :
  forallb (λ a, forallb (λ b, forallb (λ c, forallb (λ d, forallb (λ e, forallb (λ f, forallb (λ g,
    P (foldr Z.lor 0 (masks [a; b; c; d; e; f; g]))) [true; false]) [true; false]) [true; false]) [true; false])
    [true; false]) [true; false]) [true; false] = true →
  ∀ raf, P (closure raf) = true.
Proof.
  intros H raf. rewrite closure_masks. unfold groups at 1. cbn [fmap list_fmap].
  assert (∀ Q b, forallb Q [true; false] = true → Q b = true) as Hb.
  { intros Q b. cbn. rewrite andb_true_r, andb_true_iff. by destruct b; intros []. }
  repeat match goal with |- context [touches raf ?g] => generalize (touches raf g) end. intros g f e d c b a.
  do 7 lazymatch type of H with forallb ?Q _ = true => eapply (Hb Q) in H; cbv beta in H end. exact H.
Qed.

Lemma testbit_unions l k : Z.testbit (foldr Z.lor 0 l) k = existsb (λ g, Z.testbit g k) l.
Proof. induction l as [|g l IH]; cbn; [apply Z.bits_0|]. by rewrite Z.lor_spec, IH. Qed.

(** *** Conversions bit by bit *)
Lemma convert_bits_spec (table : list (Z * Z)) raf k :
  Forall (λ p, 0 <= p.1 ∧ 0 <= p.2) table → 0 <= k →
  Z.testbit (convert_bits ((λ '(i, j), (Z.shiftl 1 i, Z.shiftl 1 j)) <$> table) raf) k
  = existsb (λ p, (p.2 =? k) && Z.testbit raf p.1) table.
Proof.
  intros Ht Hk. unfold convert_bits.
  assert (∀ r, Z.testbit (foldl (λ result '(from, to), if Z.land raf from =? 0 then result else Z.lor result to) r
      ((λ '(i, j), (Z.shiftl 1 i, Z.shiftl 1 j)) <$> table)) k
    = Z.testbit r k || existsb (λ p, (p.2 =? k) && Z.testbit raf p.1) table) as Hg; [|by rewrite Hg, Z.bits_0].
  induction Ht as [|[i j] table [Hi Hj] Ht IH]; intros r; cbn; [by rewrite orb_false_r|]. cbn in Hi, Hj.
  rewrite IH, orb_assoc. f_equal. rewrite !Z.shiftl_1_l.
  assert ((Z.land raf (2 ^ i) =? 0) = negb (Z.testbit raf i)) as ->.
  { destruct (Z.testbit raf i) eqn:E; cbn.
    - apply Z.eqb_neq. intros Hz. apply (f_equal (λ z, Z.testbit z i)) in Hz.
      by rewrite Z.land_spec, E, Z.pow2_bits_true, Z.bits_0 in Hz.
    - apply Z.eqb_eq, Z.bits_inj'. intros m Hm. rewrite Z.land_spec, Z.bits_0, Z.pow2_bits_eqb by done.
      destruct (Z.eqb_spec i m) as [<-|]; [by rewrite E|apply andb_false_r]. }
  destruct (Z.testbit raf i); cbn; [|by rewrite andb_false_r, orb_false_r].
  rewrite Z.lor_spec, Z.pow2_bits_eqb by done. by rewrite andb_true_r.
Qed.

Lemma cp_bits_range : Forall (λ p, 0 <= p.1 ∧ 0 <= p.2) cp_bits.
Proof. by_eval. Qed.

(** the bits that feed bit [k] *)
Definition techs_of (k : Z) : list Z := fst <$> filter (λ p, p.2 = k) cp_bits.
Definition cps_of (k : Z) : list Z := snd <$> filter (λ p, p.1 = k) cp_bits.

Lemma existsb_filter (f g : Z * Z → Z) (Q : Z → bool) k (l : list (Z * Z)) :
  existsb (λ p, (f p =? k) && Q (g p)) l = existsb Q (g <$> filter (λ p, f p = k) l).
Proof.
  induction l as [|p l IH]; [done|]. rewrite filter_cons. cbn [existsb]. rewrite IH.
  destruct (decide (f p = k)) as [->|Hn]; [by rewrite Z.eqb_refl|]. by rewrite (proj2 (Z.eqb_neq _ _) Hn).
Qed.
Lemma switchRafValueForCP_bit raf k : 0 <= k → Z.testbit (switchRafValueForCP raf) k = existsb (Z.testbit raf) (techs_of k).
Proof.
  intros Hk. unfold switchRafValueForCP, RAF, RAF_CP. rewrite convert_bits_spec by (done || exact cp_bits_range).
  apply (existsb_filter snd fst (Z.testbit raf)).
Qed.
Lemma switchRafValueForFW_bit raf k : 0 <= k → Z.testbit (switchRafValueForFW raf) k = existsb (Z.testbit raf) (cps_of k).
Proof.
  intros Hk. unfold switchRafValueForFW, RAF, RAF_CP.
  replace ((λ '(t, c), (Z.shiftl 1 c, Z.shiftl 1 t)) <$> cp_bits)
    with ((λ '(i, j), (Z.shiftl 1 i, Z.shiftl 1 j)) <$> ((λ p, (p.2, p.1)) <$> cp_bits)) by done.
  rewrite convert_bits_spec; [|by_eval|done]. unfold cps_of. rewrite <- (existsb_filter fst snd (Z.testbit raf)).
  generalize cp_bits. intros l. induction l as [|p l IH]; [done|]. cbn. by rewrite IH.
Qed.
Lemma filter_none {A} (P : A → Prop) `{∀ x, Decision (P x)} (l : list A) : Forall (λ x, ¬ P x) l → filter P l = [].
Proof. induction 1 as [|x l Hx Hl IH]; [done|]. rewrite filter_cons. by destruct (decide (P x)). Qed.
Lemma no_bits_above k : 21 <= k → techs_of k = [] ∧ cps_of k = [].
Proof.
  intros Hk. unfold techs_of, cps_of. assert (Forall (λ p, p.1 < 21 ∧ p.2 < 21) cp_bits) as Hc by by_eval.
  split; rewrite filter_none; try done; (eapply Forall_impl; [exact Hc|]); cbn; lia.
Qed.

(** the technologies the modem has a bit for *)
Definition CP_MASK : Z := bits (fst <$> cp_bits).

(** the bits of the word below [n], one by one *)
Lemma bits_below (n : nat) (a b : Z) :
  Forall (λ k, Z.testbit a k = Z.testbit b k) (seqZ 0 (Z.of_nat n)) →
  (∀ k, Z.of_nat n <= k → Z.testbit a k = Z.testbit b k) → a = b.
Proof.
  intros Hn Hr. apply Z.bits_inj'. intros k Hk. destruct (Z.lt_ge_cases k (Z.of_nat n)); [|by apply Hr].
  rewrite Forall_forall in Hn. apply Hn, elem_of_seqZ. lia.
Qed.
Ltac one_bit conv1 conv2 :=
  rewrite conv1 by done; match goal with |- existsb _ ?l = _ => let l' := eval vm_compute in l in change l with l' end;
  cbn [existsb]; rewrite ?conv2 by done; rewrite Z.land_spec;
  repeat match goal with |- context [existsb (Z.testbit ?r) (?f ?k)] =>
    let l' := eval vm_compute in (f k) in change (f k) with l'; cbn [existsb] end;
  match goal with |- _ = _ && Z.testbit ?m ?k => let b := eval vm_compute in (Z.testbit m k) in change (Z.testbit m k) with b end;
  rewrite ?orb_false_r, ?andb_true_r, ?andb_false_r; reflexivity.

(** the access families survive the trip to the modem and back.  Converting an access family of the framework to
    the modem's bits and back keeps exactly the technologies the modem has a bit for (all but IWLAN and LTE_CA),
    whatever other bits the word has; and each of the modem's nineteen bits comes back. *)
Theorem raf_cp_roundtrip (raf cp : Z) :
  switchRafValueForFW (switchRafValueForCP raf) = Z.land raf CP_MASK ∧
  switchRafValueForCP (switchRafValueForFW cp) = Z.land cp (Z.ones 19).
Proof.
  assert (∀ a m k : Z, 21 <= k → 0 <= m < 2 ^ 21 → Z.testbit (Z.land a m) k = false) as Ha.
  { intros a m k Hk Hm. by rewrite Z.land_spec, (testbit_high m 21), andb_false_r. }
  split; apply (bits_below 21); try (change (seqZ 0 _) with [0;1;2;3;4;5;6;7;8;9;10;11;12;13;14;15;16;17;18;19;20]).
  - repeat (apply Forall_cons; split; [one_bit switchRafValueForFW_bit switchRafValueForCP_bit|]). by apply Forall_nil.
  - intros k Hk. rewrite Ha by (done || by_eval). rewrite switchRafValueForFW_bit by lia. by destruct (no_bits_above k) as [_ ->].
  - repeat (apply Forall_cons; split; [one_bit switchRafValueForCP_bit switchRafValueForFW_bit|]). by apply Forall_nil.
  - intros k Hk. rewrite Ha by (done || by_eval). rewrite switchRafValueForCP_bit by lia. by destruct (no_bits_above k) as [-> _].
Qed.

(** a set of access families names the preferred network type it should.  Each group of families that the bit set
    touches is taken as a whole and nothing else is; the type returned is the one whose own families are that union;
    and when no type has that union the answer is LTE with GSM and WCDMA, the type the log message stands for.
    In particular every type other than 3 is recovered from its families. *)
Theorem network_type_of_raf (raf : Z) :
  let adjusted := getAdjustedRaf raf in
  (∀ k, Z.testbit adjusted k = existsb (λ g, touches raf g && Z.testbit g k) groups) ∧
  (getRafFromNetworkType (getNetworkTypeFromRaf raf) = adjusted ∨
   getNetworkTypeFromRaf raf = PREF_NET_TYPE_LTE_GSM_WCDMA ∧ ∀ nt, getRafFromNetworkType nt ≠ adjusted) ∧
  (∀ nt, getRafFromNetworkType nt = raf → raf ≠ -1 → getNetworkTypeFromRaf raf = nt).
Proof.
  intros adjusted. unfold adjusted, getNetworkTypeFromRaf. rewrite getAdjustedRaf_closure. split; [|split].
  - intros k. unfold closure. rewrite testbit_unions. induction groups as [|g l IH]; [done|].
    rewrite filter_cons. cbn [existsb]. destruct (decide (touches raf g = true)) as [Ht|Ht]; cbn [existsb].
    + by rewrite Ht, IH.
    + apply not_true_is_false in Ht. by rewrite Ht.
  - pose proof (closure_cases (λ a,
      let nt := switch a raf_cases PREF_NET_TYPE_LTE_GSM_WCDMA in
      (getRafFromNetworkType nt =? a)
      || (nt =? PREF_NET_TYPE_LTE_GSM_WCDMA) && negb (a =? -1) && forallb (λ p, negb (p.2 =? a)) type_cases)
      ltac:(vm_compute; reflexivity) raf) as Hc. cbv beta zeta in Hc.
    apply orb_true_iff in Hc as [Hc|Hc]; [left; by apply Z.eqb_eq|right].
    rewrite !andb_true_iff, Z.eqb_eq, negb_true_iff, Z.eqb_neq, forallb_forall in Hc. destruct Hc as [[Hn Hm] Hf].
    split; [done|]. intros nt Hnt. unfold getRafFromNetworkType in Hnt.
    destruct (switch_in nt type_cases (-1)) as [E|E]; [congruence|].
    apply list_elem_of_In, Hf in E. cbn [snd] in E. by rewrite Hnt, Z.eqb_refl in E.
  - intros nt Hnt Hr. unfold getRafFromNetworkType in Hnt. destruct (switch_in nt type_cases (-1)) as [E|E]; [congruence|].
    rewrite Hnt in E. rewrite <- getAdjustedRaf_closure.
    assert (Forall (λ p, switch (getAdjustedRaf p.2) raf_cases PREF_NET_TYPE_LTE_GSM_WCDMA = p.1) type_cases) as Hall by by_eval.
    rewrite Forall_forall in Hall. exact (Hall _ E).
Qed.

Lemma network_type_of_raf_witness :
  let raf := Z.lor (RAF RADIO_TECH_NR) (RAF RADIO_TECH_LTE) in
  (∀ k, Z.testbit (getAdjustedRaf raf) k = existsb (λ g, touches raf g && Z.testbit g k) groups) ∧
  getNetworkTypeFromRaf raf = 24 ∧ getNetworkTypeFromRaf BITMAP_NR_LTE = 24.
Proof.
  split; [exact (proj1 (network_type_of_raf (Z.lor (RAF RADIO_TECH_NR) (RAF RADIO_TECH_LTE))))|].
  split; [reflexivity|]. refine (proj2 (proj2 (network_type_of_raf BITMAP_NR_LTE)) 24 _ _); [reflexivity|by_eval].
Defined.

(** the automatic GSM/WCDMA mode, a type of its own in [ril.h] with a bit map of its own, has no families:
    its answer is [-1], all bits set *)
Lemma auto_mode_has_no_raf : getRafFromNetworkType PREF_NET_TYPE_GSM_WCDMA_AUTO = -1.
Proof. reflexivity. Qed.

(** a bit set of technologies no group contains (IS95B here) selects LTE with GSM and WCDMA *)
Lemma is95b_is_dropped : getNetworkTypeFromRaf (RAF RADIO_TECH_IS95B) = PREF_NET_TYPE_LTE_GSM_WCDMA.
Proof. reflexivity. Qed.

(** access networks come back from their technology, except GERAN *)
Lemma access_network_roundtrip an : 1 <= an <= 4 →
  getRadioTechnologyToAccessNetworkType (getRadioTechnologyFromAccessNetwork an)
  = if an =? ACCESS_NETWORK_GERAN then ACCESS_NETWORK_UNKNOWN else an.
Proof. intros H. assert (an ∈ [1; 2; 3; 4]) as Hin by (rewrite !elem_of_cons; lia). clear H. revert an Hin. apply Forall_forall. by_eval. Qed.

(** *** Network codes *)
Lemma digit_range c : is_digit c = true ↔ 48 <= c <= 57.
Proof. unfold is_digit. lia. Qed.

Lemma leading_digits_all s r :
  Forall (λ c, 48 <= c <= 57) s → match r with [] => True | c :: _ => is_digit c = false end → leading_digits (s ++ r) = s.
Proof.
  intros Hs Hr. induction Hs as [|c s Hc Hs IH]; cbn.
  - destruct r as [|c r]; [done|]. cbn. by rewrite Hr.
  - by rewrite (proj2 (digit_range c) Hc), IH.
Qed.

(** the digits of a number below 1000 *)
Lemma digits3_of a b c : 0 <= a <= 9 → 0 <= b <= 9 → 0 <= c <= 9 → digits3 (100 * a + 10 * b + c) = [48 + a; 48 + b; 48 + c].
Proof.
  intros. unfold digits3. repeat f_equal; lia.
Qed.
Lemma mnc_roundtrip n d : 0 <= n <= 999 → (d = 2 ∧ n <= 99 ∨ d = 3) →
  mnc_decode (mnc_encode n d) = if d =? 2 then drop 1 (digits3 n) else digits3 n.
Proof.
  intros Hn Hd.
  assert (forallb (λ n, (if n <=? 99 then bool_decide (mnc_decode (mnc_encode n 2) = drop 1 (digits3 n)) else true)
                        && bool_decide (mnc_decode (mnc_encode n 3) = digits3 n)) (seqZ 0 1000) = true) as Hall by (vm_compute; reflexivity).
  pose proof (small_forall 1000 _ Hall n ltac:(lia)) as Hb. cbv beta in Hb. apply andb_true_iff in Hb as [H2 H3].
  destruct Hd as [[-> Hd] | -> ]; cbn.
  - rewrite (proj2 (Z.leb_le n 99) Hd) in H2. by apply bool_decide_eq_true_1 in H2.
  - by apply bool_decide_eq_true_1 in H3.
Qed.

Abbreviation all_digits := (Forall (λ c : Z, 48 <= c <= 57)).
Lemma digits_nonul s : all_digits s → nonul s.
Proof. intros H. eapply Forall_impl; [exact H|]. cbn. lia. Qed.
Lemma IsDigitsOnly_digits s : all_digits s → s ≠ [] → IsDigitsOnly (Some s) = true.
Proof.
  intros Hs Hn. unfold IsDigitsOnly. destruct s; [done|]. cbn [IsEmpty]. rewrite forallb_forall.
  intros x Hx%list_elem_of_In. apply digit_range. rewrite Forall_forall in Hs. by apply Hs.
Qed.
Lemma atoi_digits s : all_digits s → atoi s = digits_value s.
Proof. intros Hs. unfold atoi. rewrite <- (app_nil_r s) at 1. by rewrite leading_digits_all. Qed.

(** a network code of two or three digits, as a number and back *)
Lemma mnc_of_digits mnc : all_digits mnc → length mnc = 2%nat ∨ length mnc = 3%nat →
  mnc_decode (mnc_encode (digits_value mnc) (lenZ mnc)) = mnc.
Proof.
  intros Hd Hl. destruct mnc as [|a [|b [|c [|x l]]]]; try (exfalso; cbn in Hl; lia).
  - apply Forall_cons in Hd as [Ha [Hb _]%Forall_cons]. unfold digits_value, lenZ. cbn [foldl length].
    replace (10 * (10 * 0 + (a - 48)) + (b - 48)) with (100 * 0 + 10 * (a - 48) + (b - 48)) by lia.
    rewrite mnc_roundtrip by lia. change (Z.of_nat 2 =? 2) with true. cbv iota. rewrite digits3_of by lia. cbn. repeat f_equal; lia.
  - apply Forall_cons in Hd as [Ha [Hb [Hc _]%Forall_cons]%Forall_cons]. unfold digits_value, lenZ. cbn [foldl length].
    replace (10 * (10 * (10 * 0 + (a - 48)) + (b - 48)) + (c - 48)) with (100 * (a - 48) + 10 * (b - 48) + (c - 48)) by lia.
    rewrite mnc_roundtrip by lia. change (Z.of_nat 3 =? 2) with false. cbv iota. rewrite digits3_of by lia. cbn. repeat f_equal; lia.
Qed.

Lemma rdn_head (a r : list Z) n : lenZ a = n → rdn (a ++ r) 0 n = Ok a.
Proof. intros <-. exact (rdn_mid [] a r). Qed.
Lemma rdn_tail (p a r : list Z) o n : lenZ p = o → lenZ a = n → rdn (p ++ a ++ r) o n = Ok a.
Proof. intros <- <-. apply rdn_mid. Qed.

Section plmn.
Variables mcc mnc r : list Z.
Hypothesis Hmcc : all_digits mcc.
Hypothesis Hmnc : all_digits mnc.
Hypothesis Lmcc : length mcc = 3%nat.
Hypothesis Lmnc : length mnc = 2%nat ∨ length mnc = 3%nat.

Lemma mcc_small : digits_value mcc < INT_MAX.
Proof.
  destruct mcc as [|a [|b [|c [|x l]]]]; try done. apply Forall_cons in Hmcc as [Ha [Hb [Hc _]%Forall_cons]%Forall_cons].
  unfold digits_value, INT_MAX. cbn [foldl]. lia.
Qed.
Lemma digits_cstr s t : all_digits s → cstr (s ++ 0 :: t) = s.
Proof. intros. by apply cstr_app, digits_nonul. Qed.
Lemma mcc_not_nil : mcc ≠ [].
Proof. by destruct mcc. Qed.
Lemma mnc_not_nil : mnc ≠ [].
Proof. destruct mnc; [cbn in Lmnc; lia|done]. Qed.
Lemma numeric_cstr : cstr (mcc ++ mnc ++ 0 :: r) = mcc ++ mnc.
Proof. rewrite app_assoc. apply digits_cstr. by apply Forall_app. Qed.
Lemma numeric_len : lenZ (mcc ++ mnc) = 3 + lenZ mnc ∧ (lenZ mnc = 2 ∨ lenZ mnc = 3).
Proof. unfold lenZ. rewrite length_app. lia. Qed.
Lemma numeric_len_ok : (lenZ (mcc ++ mnc) =? 5) || (lenZ (mcc ++ mnc) =? 6) = true.
Proof. pose proof numeric_len as [-> [-> | -> ] ]; done. Qed.
Lemma numeric_digits : IsDigitsOnly (Some (mcc ++ mnc)) = true.
Proof. apply IsDigitsOnly_digits; [by apply Forall_app|]. by destruct mcc. Qed.
Lemma atoi_buffer s : all_digits s → atoi (cstr (s ++ [0])) = digits_value s.
Proof. intros. by rewrite digits_cstr, atoi_digits. Qed.

Lemma fetchMcc_ok : fetchMcc (mcc ++ mnc ++ 0 :: r) = Ok (digits_value mcc).
Proof.
  unfold fetchMcc. rewrite numeric_cstr, numeric_digits, numeric_len_ok.
  rewrite rdn_head by (unfold lenZ; lia). cbn [mbind res_bind]. by rewrite atoi_buffer.
Qed.

(** the three bytes after the country code, and what is left of them when a '#' is cut off *)
Lemma after_mcc (t : list Z) : lenZ mnc + lenZ t >= 3 → Forall (λ c, c = 0 ∨ c = 35) (take 1 t) →
  ∃ m, rdn (mcc ++ mnc ++ t) 3 3 = Ok m ∧ cstr (cut_hash m ++ [0]) = mnc.
Proof.
  intros Ht Hz. pose proof (digits_nonul mnc Hmnc) as Hn.
  destruct mnc as [|a [|b [|c [|x l]]]]; try (exfalso; cbn in Lmnc; lia).
  - destruct t as [|z t]; [unfold lenZ in Ht; cbn in Ht; lia|]. exists [a; b; z].
    split; [apply (rdn_tail mcc [a; b; z] t); unfold lenZ; cbn; lia|]. apply Forall_cons in Hz as [Hz _].
    assert (cut_hash [a; b; z] = [a; b; 0]) as -> by (unfold cut_hash; destruct (Z.eqb_spec z 35), Hz; congruence).
    exact (cstr_app [a; b] [0] Hn).
  - exists [a; b; c]. split; [apply (rdn_tail mcc [a; b; c] t); unfold lenZ; cbn; lia|].
    apply Forall_cons in Hmnc as [Ha [Hb [Hc _]%Forall_cons]%Forall_cons].
    assert (cut_hash [a; b; c] = [a; b; c]) as -> by (unfold cut_hash; destruct (Z.eqb_spec c 35); [lia|done]).
    exact (cstr_app [a; b; c] [] Hn).
Qed.

Lemma fetchMnc_ok : fetchMnc (mcc ++ mnc ++ 0 :: r) = Ok (mnc_encode (digits_value mnc) (lenZ mnc)).
Proof.
  unfold fetchMnc. destruct (after_mcc (0 :: r)) as (m & -> & Em).
  { pose proof numeric_len as [_ [-> | -> ] ]; rewrite lenZ_cons; pose proof (lenZ_nonneg r); lia. }
  { cbn. by constructor; [left|]. }
  cbn [mbind res_bind]. rewrite Em, IsDigitsOnly_digits by (done || apply mnc_not_nil).
  rewrite numeric_cstr, numeric_len_ok. pose proof numeric_len as [-> _].
  rewrite (rdn_tail mcc mnc (0 :: r)) by (unfold lenZ; lia). cbn [mbind res_bind].
  rewrite atoi_buffer by done. by replace (3 + lenZ mnc - 3) with (lenZ mnc) by lia.
Qed.

Lemma FetchMcc_ok t : FetchMcc (mcc ++ t) = Ok (digits_value mcc).
Proof.
  unfold FetchMcc. rewrite rdn_head by (unfold lenZ; lia). cbn [mbind res_bind].
  rewrite digits_cstr, IsDigitsOnly_digits, atoi_digits by (done || apply mcc_not_nil). done.
Qed.
End plmn.

(** the codes of a network.  The PLMN of a network, three digits of country code and two or three of network code,
    gives the same two codes whether it comes as a string or, padded with '#', as the field of a cell record: the
    country code as a number and a network code that decodes to the digits it was made of, leading zeros included. *)
Theorem plmn_codes (mcc mnc r : list Z) (Hmcc : all_digits mcc) (Hmnc : all_digits mnc)
  (Lmcc : length mcc = 3%nat) (Lmnc : length mnc = 2%nat ∨ length mnc = 3%nat) (Hnz : digits_value mcc ≠ 0) :
  let numeric := mcc ++ mnc ++ 0 :: r in
  let field := mcc ++ mnc ++ (if bool_decide (length mnc = 2%nat) then [35] else []) in
  ∃ code, mnc_decode code = mnc ∧
    SetCellIdentity numeric = Ok (Some (digits_value mcc, code)) ∧
    FetchMcc field = Ok (digits_value mcc) ∧ FetchMnc field = Ok code.
Proof.
  intros numeric field. exists (mnc_encode (digits_value mnc) (lenZ mnc)). split; [by apply mnc_of_digits|].
  assert (digits_value mcc < INT_MAX) as Hlt by (by eapply mcc_small). set (v := digits_value mcc) in *.
  assert (∀ A (a b : A), (if (v =? 0) || (v =? INT_MAX) then a else b) = b) as Hif.
  { intros A a b. destruct (Z.eqb_spec v 0), (Z.eqb_spec v INT_MAX); cbn; try done; lia. }
  split; [|split].
  - unfold SetCellIdentity, numeric. rewrite numeric_cstr, numeric_digits by done.
    rewrite fetchMcc_ok, fetchMnc_ok by done. cbn [mbind res_bind]. fold v. by rewrite Hif.
  - by eapply FetchMcc_ok.
  - unfold FetchMnc, field. erewrite FetchMcc_ok by done. cbn [mbind res_bind]. fold v. rewrite Hif.
    assert (∃ m, rdn field 3 3 = Ok m ∧ cstr (cut_hash m ++ [0]) = mnc) as (m & Er & Em).
    { apply after_mcc; try done.
      - unfold lenZ. case_bool_decide; cbn; lia.
      - case_bool_decide; cbn; [by constructor; [right|]|done]. }
    unfold field in Er. rewrite Er.
    cbn [mbind res_bind]. rewrite Em, IsDigitsOnly_digits, atoi_digits by (done || by eapply mnc_not_nil). done.
Qed.

Lemma plmn_codes_witness :
  let numeric := str "310" ++ str "04" ++ 0 :: [7] in
  let field := str "310" ++ str "04" ++ (if bool_decide (length (str "04") = 2%nat) then [35] else []) in
  ∃ code, mnc_decode code = str "04" ∧
    SetCellIdentity numeric = Ok (Some (digits_value (str "310"), code)) ∧
    FetchMcc field = Ok (digits_value (str "310")) ∧ FetchMnc field = Ok code.
Proof. refine (plmn_codes (str "310") (str "04") [7] _ _ _ _ _); [by_eval|by_eval|reflexivity|by left|by_eval]. Defined.

(** a string that keeps the '#' is read as three digits: "310" "26#" becomes the network code 026 *)
Lemma fetchMnc_hash : (mnc_decode <$> fetchMnc (str "31026#" ++ [0])) = Ok (str "026")
  ∧ (mnc_decode <$> FetchMnc (str "31026#")) = Ok (str "26").
Proof. split; reflexivity. Qed.
