(* ===== verification/Rcm.v ===== *)
(** The frames exchanged with the modem: the packed headers of
    [protocol/sit/sitdef.h], their construction in
    [protocol/sit/protocolbuilder.cpp], the accessors of
    [protocol/sit/protocoladapter.cpp], the buffer class of
    [core/modemdata.cpp], and the write loop of [protocol/io/iochannel.cpp].

    A packet structure is the list of its bytes, the header first (the
    structures are packed and the target is little-endian).  The system call
    [write] is a list of its outcomes. *)
From S2P Require Import Prelude RilDef WaitList.

(** ** Headers *)
Definition RCM_TYPE_REQUEST : Z := 0.
Definition RCM_TYPE_RESPONSE : Z := 1.
Definition RCM_TYPE_INDICATION : Z := 2.
(** [sizeof] of the two packed headers *)
Definition sizeof_RCM_HEADER : Z := 12.
Definition sizeof_RCM_IND_HEADER : Z := 8.
(** offsets of the packed fields: type 0, id 2, length 4, token 6, error 10 *)
Definition off_type : Z := 0.
Definition off_id : Z := 2.
Definition off_length : Z := 4.
Definition off_token : Z := 6.
Definition off_error : Z := 10.

(** how an integer lies in memory, and back *)
Definition le16 (n : Z) : list Z := [n mod 256; n / 256 mod 256].
Definition le32 (n : Z) : list Z := [n mod 256; n / 256 mod 256; n / 65536 mod 256; n / 16777216 mod 256].
Definition rd16 (b : list Z) (off : Z) : res Z := x ← b.[off]; y ← b.[off + 1]; Ok (x + 256 * y).
Definition rd32 (b : list Z) (off : Z) : res Z := x ← rd16 b off; y ← rd16 b (off + 2); Ok (x + 65536 * y).

(** [ProtocolBuilder::InitRequestHeader(hdr, id, length, token)], [hdr] at the start of the packet [req] *)
Definition InitRequestHeaderToken (req : list Z) (id length token : Z) : res (list Z) :=
  req ← wrn req 0 (fill sizeof_RCM_HEADER 0);
  req ← req.[off_type <- RCM_TYPE_REQUEST];
  req ← wrn req off_id (le16 (Z.land id 65535));
  req ← wrn req off_length (le16 (Z.land length 65535));
  wrn req off_token (le32 token).
(** [InitRequestHeader(hdr, id, length)]: the token is the generator's next *)
Definition InitRequestHeader (m_nToken : Z) (req : list Z) (id length : Z) : res (list Z * Z) :=
  let '(token, m_nToken) := GetNext m_nToken in
  req ← InitRequestHeaderToken req id length token;
  Ok (req, m_nToken).
Definition InitIndRequestHeader (req : list Z) (id length : Z) : res (list Z) :=
  req ← wrn req 0 (fill sizeof_RCM_IND_HEADER 0);
  req ← req.[off_type <- RCM_TYPE_INDICATION];
  req ← wrn req off_id (le16 (Z.land id 65535));
  wrn req off_length (le16 (Z.land length 65535)).

Definition built (t : list Z * Z) : option (list Z) * Z := (Some t.1, t.2).
(** a packet that is only its header *)
Definition null_request (id m_nToken : Z) : res (option (list Z) * Z) := built <$> InitRequestHeader m_nToken (fill 12 0) id 12.

(** ** ModemData *)

(** [m_nLen] is the length of the block, 0 when there is none *)
Record ModemBuffer := { m_pRawData : option (list Z); m_bTx : bool }.
Definition m_nLen (d : ModemBuffer) : Z := match m_pRawData d with Some b => lenZ b | None => 0 end.
Definition Release (d : ModemBuffer) : ModemBuffer := {| m_pRawData := None; m_bTx := false |}.
Definition SetData (buf : option (list Z)) (len : Z) (tx : bool) (d : ModemBuffer) : res ModemBuffer :=
  let d := Release d in
  match buf with
  | Some b => if 0 <? len then raw ← rdn b 0 len; Ok {| m_pRawData := Some raw; m_bTx := tx |} else Ok d
  | None => Ok d
  end.
Definition newModemData (buf : option (list Z)) (len : Z) (tx : bool) : res ModemBuffer :=
  SetData buf len tx {| m_pRawData := None; m_bTx := tx |}.
(** the copy is made with the default argument [tx = true] *)
Definition Clone (d : ModemBuffer) : res ModemBuffer := newModemData (m_pRawData d) (m_nLen d) true.

(** ** ProtocolBaseAdapter, on the raw data of a [ModemData] *)
Section adapter.
Variable raw : option (list Z).

Definition GetType : res Z := match raw with Some b => t ← b.[off_type]; Ok (Z.land t 255) | None => Ok 0 end.
Definition GetId : res Z := match raw with Some b => i ← rd16 b off_id; Ok (Z.land i 65535) | None => Ok 0 end.
Definition GetLength : res Z := match raw with Some b => l ← rd16 b off_length; Ok (Z.land l 65535) | None => Ok 0 end.
Definition GetToken : res Z :=
  match raw with
  | Some b =>
    t ← b.[off_type];
    if (t =? RCM_TYPE_REQUEST) || (t =? RCM_TYPE_RESPONSE) then rd32 b off_token else Ok TOKEN_INVALID
  | None => Ok TOKEN_INVALID
  end.
(** the bytes after the header, [hdr] its size *)
Definition GetParameter (hdr : Z) : option (list Z) :=
  match raw with Some b => if hdr <? lenZ b then Some (drop (Z.to_nat hdr) b) else None | None => None end.
Definition GetParameterLength (hdr : Z) : Z :=
  match raw with Some b => if hdr <? lenZ b then lenZ b - hdr else 0 | None => 0 end.
Definition IsRequest : res bool := t ← GetType; Ok (t =? RCM_TYPE_REQUEST).
Definition IsResponse : res bool := t ← GetType; Ok ((t =? RCM_TYPE_RESPONSE) || (t =? RCM_TYPE_INDICATION)).
Definition IsUnsolicitedResponse : res bool := t ← GetType; Ok (t =? RCM_TYPE_INDICATION).
Definition IsSolicitedResponse : res bool := t ← GetType; Ok (t =? RCM_TYPE_RESPONSE).

Definition RCM_E_UNDEFINED_CMD : Z := 22.
Definition RCM_E_MAX : Z := 24.
Definition ConvertProtocolErrorCodeToRilErrorCode (errorCode : Z) : Z :=
  if (0 <=? errorCode) && (errorCode <? RCM_E_MAX)
  then if errorCode =? RCM_E_UNDEFINED_CMD then RIL_E_REQUEST_NOT_SUPPORTED else errorCode
  else RIL_E_GENERIC_FAILURE.
(** [ProtocolRespAdapter::GetErrorCode] *)
Definition GetErrorCode : res Z :=
  match raw with
  | Some b =>
    if sizeof_RCM_HEADER <=? lenZ b
    then
      t ← b.[off_type];
      if t =? RCM_TYPE_RESPONSE
      then e ← b.[off_error]; Ok (ConvertProtocolErrorCodeToRilErrorCode (Z.land e 255))
      else Ok RIL_E_GENERIC_FAILURE
    else Ok RIL_E_GENERIC_FAILURE
  | None => Ok RIL_E_GENERIC_FAILURE
  end.
End adapter.

(** what [f] reads of a frame with one of [ids] *)
Definition when_id {A} (ids : list Z) (out : A) (m_pModemData : option (list Z)) (f : list Z → res A) : res A :=
  match m_pModemData with Some raw => i ← rd16 raw off_id; if bool_decide (i ∈ ids) then f raw else Ok out | None => Ok out end.

(** ** IoChannel::Write *)

(** the outcomes of [write]: a count, interrupted or not ready, any other error *)
Inductive write_outcome := Wrote (n : Z) | Again | Failed.
(** what the device has got, and the result; [None]: the loop is still running
    when the outcomes end *)
Fixpoint Write_loop (outcomes : list write_outcome) (buf : list Z) (cur : Z) (sent : list Z) : res (list Z * option Z) :=
  if cur <? lenZ buf
  then
    match outcomes with
    | [] => Ok (sent, None)
    | Wrote n :: outcomes => chunk ← rdn buf cur n; Write_loop outcomes buf (cur + n) (sent ++ chunk)
    | Again :: outcomes => Write_loop outcomes buf cur sent
    | Failed :: _ => Ok (sent, Some (-1))
    end
  else Ok (sent, Some 0).
Definition Write (m_Fd : Z) (outcomes : list write_outcome) (buf : list Z) : res (list Z * option Z) :=
  if m_Fd <? 0 then Ok ([], Some (-1)) else Write_loop outcomes buf 0 [].

(** the tokens of [n] requests in a row *)
Fixpoint tokens (n : nat) (m_nToken : Z) : list Z :=
  match n with
  | O => []
  | S n => let '(token, m_nToken) := GetNext m_nToken in token :: tokens n m_nToken
  end.

(** ** Facts *)

Lemma lenZ_le16 n : lenZ (le16 n) = 2. Proof. done. Qed.
Lemma lenZ_le32 n : lenZ (le32 n) = 4. Proof. done. Qed.
Lemma land_16 n : Z.land n 65535 = n mod 65536.
Proof. change 65535 with (Z.ones 16). by rewrite Z.land_ones. Qed.

Lemma rd16_le16 p n r off : lenZ p = off → 0 <= n < 65536 → rd16 (p ++ le16 n ++ r) off = Ok n.
Proof.
  intros <- Hn. unfold rd16, le16. cbn [app]. rewrite rd_snoc. cbn [mbind res_bind].
  replace (p ++ n mod 256 :: n / 256 mod 256 :: r) with ((p ++ [n mod 256]) ++ n / 256 mod 256 :: r) by by rewrite <- app_assoc.
  rewrite rd_at by (rewrite lenZ_app; done). cbn [mbind res_bind]. f_equal. lia.
Qed.
Lemma rd32_le32 p n r off : lenZ p = off → 0 <= n < 2 ^ 32 → rd32 (p ++ le32 n ++ r) off = Ok n.
Proof.
  intros Hp Hn. unfold rd32.
  assert (le32 n ++ r = le16 (n mod 65536) ++ le16 (n / 65536) ++ r) as ->.
  { unfold le16, le32. assert (n mod 65536 mod 256 = n mod 256 ∧ n mod 65536 / 256 mod 256 = n / 256 mod 256) as [-> ->] by lia.
    by replace (n / 65536 / 256) with (n / 16777216) by lia. }
  assert (0 <= n mod 65536 < 65536 ∧ 0 <= n / 65536 < 65536) as [H1 H2].
  { split; [by apply Z.mod_pos_bound|]. split; [apply Z.div_pos; lia|apply Z.div_lt_upper_bound; lia]. }
  rewrite (rd16_le16 p _ _ off) by done. cbn [mbind res_bind]. rewrite app_assoc, rd16_le16; [|by rewrite lenZ_app, lenZ_le16, Hp|done].
  cbn [mbind res_bind]. f_equal. rewrite Z.add_comm. symmetry. apply Z.div_mod. lia.
Qed.

(** a request packet laid out *)
Definition request_bytes (id length token x y : Z) (body : list Z) : list Z :=
  [RCM_TYPE_REQUEST; 0] ++ le16 id ++ le16 length ++ le32 token ++ [x; y] ++ body.

Lemma InitRequestHeader_bytes hdr body id length token : lenZ hdr = sizeof_RCM_HEADER →
  InitRequestHeaderToken (hdr ++ body) id length token
  = Ok (request_bytes (id mod 65536) (length mod 65536) token 0 0 body).
Proof.
  intros Hh. unfold InitRequestHeaderToken. rewrite !land_16.
  assert (wrn (hdr ++ body) 0 (fill sizeof_RCM_HEADER 0) = Ok (fill sizeof_RCM_HEADER 0 ++ body)) as ->.
  { apply (wrn_mid [] hdr body). unfold lenZ, sizeof_RCM_HEADER in Hh. change (Datatypes.length (fill sizeof_RCM_HEADER 0)) with 12%nat. lia. }
  cbn [mbind res_bind]. pose proof (lenZ_nonneg body).
  assert (∀ l : list Z, 0 < lenZ (0 :: l ++ body)) as Hpos by (intros l; rewrite lenZ_cons; pose proof (lenZ_nonneg (l ++ body)); lia).
  change (fill sizeof_RCM_HEADER 0) with [0;0;0;0;0;0;0;0;0;0;0;0].
  etrans; [apply (bind_eq _ _ _ (wr_at [] _ RCM_TYPE_REQUEST off_type eq_refl (Hpos [0;0;0;0;0;0;0;0;0;0;0])))|].
  set (i := id mod 65536). set (l := length mod 65536).
  assert (∀ k l : list Z, (Datatypes.length k <= Datatypes.length l)%nat → lenZ k <= lenZ (l ++ body)) as Hfit
    by (intros k l' Hk; rewrite lenZ_app; unfold lenZ; lia).
  etrans; [apply (bind_eq _ _ _ (wrn_at [0; 0] _ (le16 i) off_id eq_refl (Hfit (le16 i) [0;0;0;0;0;0;0;0;0;0] ltac:(cbn; lia))))|].
  etrans; [apply (bind_eq _ _ _ (wrn_at ([0; 0] ++ le16 i) _ (le16 l) off_length eq_refl (Hfit (le16 l) [0;0;0;0;0;0;0;0] ltac:(cbn; lia))))|].
  exact (wrn_at ([0; 0] ++ le16 i ++ le16 l) _ (le32 token) off_token eq_refl (Hfit (le32 token) [0;0;0;0;0;0] ltac:(cbn; lia))).
Qed.

(** the fields of any frame of that shape *)
Lemma frame_fields t r0 id length token x y body :
  0 <= t < 256 → 0 <= id < 65536 → 0 <= length < 65536 → 0 <= token < 2 ^ 32 →
  let b := Some ([t; r0] ++ le16 id ++ le16 length ++ le32 token ++ [x; y] ++ body) in
  GetType b = Ok t ∧ GetId b = Ok id ∧ GetLength b = Ok length ∧
  GetToken b = Ok (if (t =? RCM_TYPE_REQUEST) || (t =? RCM_TYPE_RESPONSE) then token else TOKEN_INVALID).
Proof.
  intros Ht Hid Hl Htok b. unfold GetType, GetId, GetLength, GetToken, b.
  assert (Z.land t 255 = t) as Et by (change 255 with (Z.ones 8); rewrite Z.land_ones by lia; apply Z.mod_small; lia).
  split; [|split; [|split] ].
  - cbn [app]. rewrite rd_cons_0. cbn [mbind res_bind]. by rewrite Et.
  - rewrite rd16_le16 by done. cbn [mbind res_bind]. rewrite land_16. f_equal. by apply Z.mod_small.
  - rewrite !app_assoc, <- (app_assoc [t; r0]), <- !app_assoc. cbn [mbind res_bind].
    replace ([t; r0] ++ le16 id ++ le16 length ++ le32 token ++ [x; y] ++ body)
      with (([t; r0] ++ le16 id) ++ le16 length ++ le32 token ++ [x; y] ++ body) by by rewrite <- app_assoc.
    rewrite rd16_le16 by done. cbn [mbind res_bind]. rewrite land_16. f_equal. by apply Z.mod_small.
  - cbn [app]. rewrite rd_cons_0. cbn [mbind res_bind].
    replace (t :: r0 :: le16 id ++ le16 length ++ le32 token ++ x :: y :: body)
      with (([t; r0] ++ le16 id ++ le16 length) ++ le32 token ++ x :: y :: body) by by rewrite <- !app_assoc.
    destruct (_ || _); [|done]. rewrite rd32_le32 by done. done.
Qed.

Lemma frame_len t r0 id length token x y body :
  lenZ ([t; r0] ++ le16 id ++ le16 length ++ le32 token ++ [x; y] ++ body) = sizeof_RCM_HEADER + lenZ body.
Proof. rewrite !lenZ_app, !lenZ_le16, lenZ_le32. change (lenZ [t; r0]) with 2. change (lenZ [x; y]) with 2. unfold sizeof_RCM_HEADER. lia. Qed.

(** a request and its answer on the wire.  Whatever the packet structure held before, the header that the builder
    writes is read back by the adapter as a request with the same identifier and length modulo 65536 and the same
    token, the fields after it are untouched and are what [GetParameter] returns, and the frame the modem sends back with
    the type and the error code filled in is a solicited response with the same token and the RIL error of that code. *)
Theorem rcm_roundtrip (hdr body : list Z) (id length m_nToken error : Z)
  (Hh : lenZ hdr = sizeof_RCM_HEADER) (Ht : 0 <= m_nToken < TOKEN_INVALID) (He : is_byte error) :
  ∃ req, InitRequestHeader m_nToken (hdr ++ body) id length = Ok (req, (GetNext m_nToken).2) ∧
    lenZ req = lenZ (hdr ++ body) ∧
    GetType (Some req) = Ok RCM_TYPE_REQUEST ∧ GetId (Some req) = Ok (id mod 65536) ∧
    GetLength (Some req) = Ok (length mod 65536) ∧ GetToken (Some req) = Ok m_nToken ∧
    (body ≠ [] → GetParameter (Some req) sizeof_RCM_HEADER = Some body) ∧
    let rsp := <[Z.to_nat off_type := RCM_TYPE_RESPONSE]> (<[Z.to_nat off_error := error]> req) in
    IsSolicitedResponse (Some rsp) = Ok true ∧ GetToken (Some rsp) = Ok m_nToken ∧ GetId (Some rsp) = Ok (id mod 65536) ∧
    GetErrorCode (Some rsp) = Ok (ConvertProtocolErrorCodeToRilErrorCode error).
Proof.
  exists (request_bytes (id mod 65536) (length mod 65536) m_nToken 0 0 body).
  assert (0 <= id mod 65536 < 65536) as Hid by (apply Z.mod_pos_bound; lia).
  assert (0 <= length mod 65536 < 65536) as Hl by (apply Z.mod_pos_bound; lia).
  assert (0 <= m_nToken < 2 ^ 32) as Htok by (unfold TOKEN_INVALID in Ht; lia).
  pose proof (frame_fields RCM_TYPE_REQUEST 0 (id mod 65536) (length mod 65536) m_nToken 0 0 body ltac:(done) Hid Hl Htok)
    as (Hf1 & Hf2 & Hf3 & Hf4).
  pose proof (frame_fields RCM_TYPE_RESPONSE 0 (id mod 65536) (length mod 65536) m_nToken error 0 body ltac:(done) Hid Hl Htok)
    as (Hr1 & Hr2 & Hr3 & Hr4).
  split; [|split; [|split; [exact Hf1|split; [exact Hf2|split; [exact Hf3|split; [exact Hf4|split] ] ] ] ] ].
  - unfold InitRequestHeader. cbn [GetNext]. unfold GetNext. by rewrite InitRequestHeader_bytes.
  - unfold request_bytes. by rewrite frame_len, lenZ_app, Hh.
  - intros Hb. unfold GetParameter, request_bytes. rewrite frame_len. destruct body as [|z body]; [done|].
    rewrite lenZ_cons. pose proof (lenZ_nonneg body). by destruct (Z.ltb_spec sizeof_RCM_HEADER (sizeof_RCM_HEADER + (1 + lenZ body))); [|lia].
  - intros rsp. assert (rsp = [RCM_TYPE_RESPONSE; 0] ++ le16 (id mod 65536) ++ le16 (length mod 65536) ++ le32 m_nToken ++ [error; 0] ++ body)
      as -> by reflexivity.
    split; [|split; [exact Hr4|split; [exact Hr2|] ] ].
    + unfold IsSolicitedResponse. by rewrite Hr1.
    + unfold GetErrorCode. rewrite frame_len. pose proof (lenZ_nonneg body).
      rewrite (proj2 (Z.leb_le sizeof_RCM_HEADER (sizeof_RCM_HEADER + lenZ body))) by lia.
      etrans; [apply (bind_eq _ RCM_TYPE_RESPONSE); reflexivity|]. etrans; [apply (bind_eq _ error); reflexivity|].
      assert (Z.land error 255 = error) as ->; [|done]. change 255 with (Z.ones 8). rewrite Z.land_ones by lia.
      apply Z.mod_small. exact He.
Qed.

Lemma rcm_roundtrip_witness :
  ∃ req, InitRequestHeader 7 ([1; 2; 3; 4; 5; 6; 7; 8; 9; 10; 11; 12] ++ [65; 66]) 1805 14 = Ok (req, (GetNext 7).2) ∧
    lenZ req = lenZ ([1; 2; 3; 4; 5; 6; 7; 8; 9; 10; 11; 12] ++ [65; 66]) ∧
    GetType (Some req) = Ok RCM_TYPE_REQUEST ∧ GetId (Some req) = Ok (1805 mod 65536) ∧
    GetLength (Some req) = Ok (14 mod 65536) ∧ GetToken (Some req) = Ok 7 ∧
    ([65; 66] ≠ [] → GetParameter (Some req) sizeof_RCM_HEADER = Some [65; 66]) ∧
    let rsp := <[Z.to_nat off_type := RCM_TYPE_RESPONSE]> (<[Z.to_nat off_error := 22]> req) in
    IsSolicitedResponse (Some rsp) = Ok true ∧ GetToken (Some rsp) = Ok 7 ∧ GetId (Some rsp) = Ok (1805 mod 65536) ∧
    GetErrorCode (Some rsp) = Ok (ConvertProtocolErrorCodeToRilErrorCode 22).
Proof. refine (rcm_roundtrip [1; 2; 3; 4; 5; 6; 7; 8; 9; 10; 11; 12] [65; 66] 1805 14 7 22 _ _ _); by_eval. Defined.

(** reads of two and four bytes: in bounds or undefined *)
Lemma rd16_spec b off : 0 <= off → if off + 2 <=? lenZ b then is_ok (rd16 b off) = true else rd16 b off = UB.
Proof.
  intros Ho. unfold rd16. destruct (Z.leb_spec (off + 2) (lenZ b)) as [Hl|Hl].
  - destruct (rd_ok b off) as (x & -> & _); [lia|]. cbn [mbind res_bind]. destruct (rd_ok b (off + 1)) as (y & -> & _); [lia|]. done.
  - destruct (Z.lt_ge_cases off (lenZ b)).
    + destruct (rd_ok b off) as (x & -> & _); [lia|]. cbn [mbind res_bind]. rewrite rd_oob by lia. done.
    + rewrite (rd_oob b off) by lia. done.
Qed.
Lemma rd32_spec b off : 0 <= off → if off + 4 <=? lenZ b then is_ok (rd32 b off) = true else rd32 b off = UB.
Proof.
  intros Ho. unfold rd32. pose proof (rd16_spec b off Ho) as H1. pose proof (rd16_spec b (off + 2) ltac:(lia)) as H2.
  destruct (Z.leb_spec (off + 2) (lenZ b)), (Z.leb_spec (off + 2 + 2) (lenZ b)), (Z.leb_spec (off + 4) (lenZ b)); try lia.
  - destruct (rd16 b off), (rd16 b (off + 2)); try discriminate H1; try discriminate H2. done.
  - destruct (rd16 b off); try discriminate H1. cbn [mbind res_bind]. by rewrite H2.
  - by rewrite H1.
Qed.
Lemma is_ok_bind {A B} (r : res A) (f : A → B) : is_ok (x ← r; Ok (f x)) = is_ok r.
Proof. by destruct r. Qed.

(** which frames the accessors may read.  A frame as long as a request header is read without a fault by every
    accessor; a shorter frame (their own length check is commented out) is read past its end exactly when it has fewer
    than four bytes for the identifier, six for the length, and ten for the token of a request or a response, while
    the error code and the parameters are only read when they are there. *)
Theorem adapter_bounds (b : list Z) (Hb : b ≠ []) :
  is_ok (GetType (Some b)) = true ∧
  is_ok (GetId (Some b)) = (4 <=? lenZ b) ∧ is_ok (GetLength (Some b)) = (6 <=? lenZ b) ∧
  is_ok (GetToken (Some b)) = (10 <=? lenZ b) || negb (bool_decide (b.[0] = Ok RCM_TYPE_REQUEST) || bool_decide (b.[0] = Ok RCM_TYPE_RESPONSE)) ∧
  is_ok (GetErrorCode (Some b)) = true ∧
  (∀ hdr, 0 <= hdr → GetParameterLength (Some b) hdr = match GetParameter (Some b) hdr with Some p => lenZ p | None => 0 end).
Proof.
  destruct b as [|t b]; [done|]. clear Hb. unfold GetType, GetId, GetLength, GetToken, GetErrorCode, off_type. rewrite !rd_cons_0.
  cbn [mbind res_bind]. split; [done|]. rewrite !is_ok_bind.
  pose proof (rd16_spec (t :: b) off_id ltac:(done)) as H2. pose proof (rd16_spec (t :: b) off_length ltac:(done)) as H4.
  pose proof (rd32_spec (t :: b) off_token ltac:(done)) as H6.
  change (off_id + 2) with 4 in H2. change (off_length + 2) with 6 in H4. change (off_token + 4) with 10 in H6.
  split; [by destruct (4 <=? lenZ (t :: b)); [|rewrite H2]|]. split; [by destruct (6 <=? lenZ (t :: b)); [|rewrite H4]|]. split; [|split].
  - assert (∀ k, bool_decide (Ok t = Ok k :> res Z) = (t =? k)) as Hd.
    { intros k. destruct (Z.eqb_spec t k) as [->|]; [by apply bool_decide_eq_true_2|apply bool_decide_eq_false_2; congruence]. }
    rewrite !Hd. destruct ((t =? RCM_TYPE_REQUEST) || (t =? RCM_TYPE_RESPONSE)); cbn [negb]; rewrite ?orb_false_r, ?orb_true_r; [|done].
    by destruct (10 <=? lenZ (t :: b)); [|rewrite H6].
  - unfold sizeof_RCM_HEADER. destruct (Z.leb_spec 12 (lenZ (t :: b))); [|done]. destruct (t =? RCM_TYPE_RESPONSE); [|done].
    destruct (rd_ok (t :: b) off_error) as (e & -> & _); [unfold off_error; lia|]. done.
  - intros hdr Hh. unfold GetParameterLength, GetParameter. destruct (Z.ltb_spec hdr (lenZ (t :: b))); [|done].
    unfold lenZ in *. rewrite length_drop. lia.
Qed.

Lemma adapter_bounds_witness :
  is_ok (GetType (Some [1; 0; 5])) = true ∧ is_ok (GetId (Some [1; 0; 5])) = false ∧ is_ok (GetToken (Some [1; 0; 5])) = false ∧
  is_ok (GetToken (Some [2; 0; 5])) = true.
Proof.
  destruct (adapter_bounds [1; 0; 5]) as (H1 & H2 & _ & H4 & _); [done|].
  destruct (adapter_bounds [2; 0; 5]) as (_ & _ & _ & H8 & _); [done|].
  split; [exact H1|]. split; [exact H2|]. split; [exact H4|exact H8].
Defined.

(** *** Tokens *)
Lemma GetNext_next n : 0 <= n < TOKEN_INVALID → (GetNext n).2 = (n + 1) mod TOKEN_INVALID.
Proof.
  unfold GetNext, TOKEN_INVALID, MAX_INT. intros Hn. cbn [snd]. rewrite u32_id by lia.
  destruct (Z.eqb_spec (n + 1) 4294967295) as [->|]; [done|]. by rewrite Z.mod_small by lia.
Qed.
Lemma tokens_spec n m : 0 <= m < TOKEN_INVALID →
  tokens n m = (λ i, (m + Z.of_nat i) mod TOKEN_INVALID) <$> seq 0 n.
Proof.
  revert m. induction n as [|n IH]; intros m Hm; [done|].
  change (tokens (S n) m) with ((GetNext m).1 :: tokens n (GetNext m).2). destruct (GetNext_valid m Hm) as [_ Hn].
  rewrite IH, GetNext_next by done. cbn [seq]. rewrite fmap_cons. f_equal.
  - cbn. by rewrite Z.add_0_r, Z.mod_small.
  - rewrite <- fmap_S_seq, <- list_fmap_compose. apply list_fmap_ext. intros i x Hx. unfold compose.
    rewrite Z.add_mod_idemp_l by done. f_equal. lia.
Qed.

(** tokens tell requests apart.  As long as fewer than 2^32 - 1 requests are built, no two of them carry the same
    token, however the generator started and although its counter wraps around, and none carries the invalid token that
    the history of requests refuses. *)
Theorem tokens_distinct (n : nat) (m_nToken : Z) (Hm : 0 <= m_nToken < TOKEN_INVALID) (Hn : Z.of_nat n <= TOKEN_INVALID) :
  NoDup (tokens n m_nToken) ∧ Forall (λ t, 0 <= t < TOKEN_INVALID) (tokens n m_nToken).
Proof.
  rewrite tokens_spec by done. split.
  - apply NoDup_fmap_2_strong; [|apply NoDup_ListNoDup, seq_NoDup]. intros i j Hi Hj He.
    apply elem_of_seq in Hi, Hj. unfold TOKEN_INVALID in *.
    assert (((m_nToken + Z.of_nat i) - (m_nToken + Z.of_nat j)) mod 4294967295 = 0) as Hz.
    { rewrite Zminus_mod, He, Z.sub_diag. done. }
    apply Z.mod_divide in Hz as [k Hk]; [|done]. assert (k = 0) by lia. lia.
  - apply Forall_fmap, Forall_forall. intros i _. cbn. by apply Z.mod_pos_bound.
Qed.

Lemma tokens_distinct_witness :
  tokens 3 4294967293 = [4294967293; 4294967294; 0] ∧ NoDup (tokens 3 4294967293) ∧ Forall (λ t, 0 <= t < TOKEN_INVALID) (tokens 3 4294967293).
Proof. split; [reflexivity|]. apply (tokens_distinct 3 4294967293); by_eval. Defined.

(** *** The write loop *)

(** what [write] promises: it takes some of the bytes it is given *)
Fixpoint honest (outcomes : list write_outcome) (left : Z) : Prop :=
  match outcomes with
  | [] => True
  | Wrote n :: outcomes => 0 <= n <= left ∧ honest outcomes (left - n)
  | _ :: outcomes => honest outcomes left
  end.
Fixpoint taken (outcomes : list write_outcome) : Z :=
  match outcomes with [] => 0 | Wrote n :: outcomes => n + taken outcomes | _ :: outcomes => taken outcomes end.

Lemma Write_loop_spec outcomes buf cur :
  0 <= cur <= lenZ buf → honest outcomes (lenZ buf - cur) →
  ∃ k r, Write_loop outcomes buf cur (take (Z.to_nat cur) buf) = Ok (take (Z.to_nat k) buf, r) ∧ cur <= k <= lenZ buf ∧
    (r = Some 0 ↔ k = lenZ buf) ∧ (Failed ∉ outcomes → r ≠ Some (-1) ∧ (taken outcomes = lenZ buf - cur → r = Some 0)).
Proof.
  revert cur. induction outcomes as [|o outcomes IH]; intros cur Hc Hh; cbn [Write_loop].
  - destruct (Z.ltb_spec cur (lenZ buf)).
    + exists cur, None. split; [done|]. split; [lia|]. split; [by split; [done|lia]|]. intros _. split; [done|]. cbn. lia.
    + exists cur, (Some 0). split; [done|]. split; [lia|]. split; [by split; [lia|]|]. done.
  - destruct (Z.ltb_spec cur (lenZ buf)) as [Hl|Hl].
    2:{ exists cur, (Some 0). split; [done|]. split; [lia|]. split; [by split; [lia|]|]. done. }
    destruct o as [n| |]; cbn [honest taken] in *.
    + destruct Hh as [Hn Hh]. rewrite rdn_ok by lia. cbn [mbind res_bind].
      replace (take (Z.to_nat cur) buf ++ take (Z.to_nat n) (drop (Z.to_nat cur) buf)) with (take (Z.to_nat (cur + n)) buf).
      2:{ rewrite Z2Nat.inj_add by lia. by rewrite take_take_drop. }
      destruct (IH (cur + n)) as (k & r & -> & Hk & Hr & Hf); [lia|by replace (lenZ buf - (cur + n)) with (lenZ buf - cur - n) by lia|].
      exists k, r. split; [done|]. split; [lia|]. split; [done|]. intros Hnf. destruct Hf as [Hf1 Hf2]; [by intros ?; apply Hnf; right|].
      split; [done|]. intros Ht. apply Hf2. lia.
    + destruct (IH cur Hc Hh) as (k & r & -> & Hk & Hr & Hf). exists k, r. split; [done|]. split; [lia|]. split; [done|].
      intros Hnf. apply Hf. intros ?. apply Hnf. by right.
    + exists cur, (Some (-1)). split; [done|]. split; [lia|]. split; [by split; [done|lia]|]. intros Hnf. exfalso. apply Hnf. by left.
Qed.

(** writing to the modem.  However [write] cuts the packet up and whatever interruptions it reports, the device gets
    the bytes of the packet in order and nothing else; [Write] answers 0 exactly when it got all of them, and it does
    answer 0 once [write] has taken them all without another error. *)
Theorem Write_spec (m_Fd : Z) (outcomes : list write_outcome) (buf : list Z) (Hh : honest outcomes (lenZ buf)) :
  ∃ k r, Write m_Fd outcomes buf = Ok (take (Z.to_nat k) buf, r) ∧ 0 <= k <= lenZ buf ∧
    (0 <= m_Fd → (r = Some 0 ↔ k = lenZ buf) ∧ (Failed ∉ outcomes → taken outcomes = lenZ buf → r = Some 0)) ∧
    (m_Fd < 0 → r = Some (-1) ∧ k = 0).
Proof.
  unfold Write. pose proof (lenZ_nonneg buf). destruct (Z.ltb_spec m_Fd 0).
  - exists 0, (Some (-1)). split; [done|]. split; [lia|]. split; [lia|]. done.
  - destruct (Write_loop_spec outcomes buf 0) as (k & r & E & Hk & Hr & Hf); [lia|by rewrite Z.sub_0_r|].
    exists k, r. split; [exact E|]. split; [lia|]. split; [|lia]. intros _. split; [done|]. intros Hnf Ht.
    apply (proj2 (Hf Hnf)). lia.
Qed.

Lemma Write_spec_witness :
  ∃ k r, Write 3 [Wrote 2; Again; Wrote 0; Wrote 1] [65; 66; 67] = Ok (take (Z.to_nat k) [65; 66; 67], r) ∧ 0 <= k <= lenZ [65; 66; 67] ∧
    (0 <= 3 → (r = Some 0 ↔ k = lenZ [65; 66; 67]) ∧
       (Failed ∉ [Wrote 2; Again; Wrote 0; Wrote 1] → taken [Wrote 2; Again; Wrote 0; Wrote 1] = lenZ [65; 66; 67] → r = Some 0)) ∧
    (3 < 0 → r = Some (-1) ∧ k = 0).
Proof. refine (Write_spec 3 [Wrote 2; Again; Wrote 0; Wrote 1] [65; 66; 67] _). cbn. unfold lenZ. cbn. lia. Defined.

(** a copy of received data claims to have been sent *)
Lemma Clone_forgets_direction b : b ≠ [] →
  Clone {| m_pRawData := Some b; m_bTx := false |} = Ok {| m_pRawData := Some b; m_bTx := true |}.
Proof.
  intros Hb. unfold Clone, newModemData, SetData, m_nLen. cbn [m_pRawData]. destruct (Z.ltb_spec 0 (lenZ b)).
  - rewrite rdn_ok by lia. cbn [mbind res_bind]. rewrite drop_0, take_full by lia. done.
  - exfalso. apply Hb. destruct b; [done|]. rewrite lenZ_cons in *. pose proof (lenZ_nonneg b). lia.
Qed.
