(* ===== verification/Layout.v ===== *)
(** Packed structures: a packet seen as its fields one after the other.

    A field lies at the sum of the sizes before it; reading there gives the
    field and writing there changes it and nothing else.  The builders and the
    adapters of the packets are compared with the list of their fields by these
    lemmas. *)
From S2P Require Import Prelude Text WaitList Rcm.

(** ** Texts in fixed arrays *)

(** [strncpy(b + off, s, n)], [s] the characters of a text without its zero *)
Definition strncpy (b : list Z) (off : Z) (s : list Z) (n : Z) : res (list Z) :=
  wrn b off (take (Z.to_nat n) s ++ fill (n - lenZ s) 0).

(** ** Reading inside a block, and inside a sequence of fields *)

Lemma rdn_local {A} (pre b post : list A) p off n : lenZ pre = p → 0 <= off → 0 <= n → off + n <= lenZ b → rdn (pre ++ b ++ post) (p + off) n = rdn b off n.
Proof.
  intros <- Ho Hn Hb. unfold lenZ in *. rewrite !rdn_ok by (unfold lenZ; rewrite ?length_app; lia). f_equal.
  rewrite drop_app_ge by lia. replace (Z.to_nat (Z.of_nat (length pre) + off) - length pre)%nat with (Z.to_nat off) by lia.
  rewrite drop_app_le by lia. rewrite take_app_le; [done|]. rewrite length_drop. lia.
Qed.
Lemma rd_local {A} (pre b post : list A) p i : lenZ pre = p → 0 <= i < lenZ b → (pre ++ b ++ post).[p + i] = b.[i].
Proof.
  intros <- Hi. rewrite rd_app_r by lia. replace (lenZ pre + i - lenZ pre) with i by lia. by rewrite rd_app_l by lia.
Qed.
Lemma rd16_local pre b post p i : lenZ pre = p → 0 <= i → i + 2 <= lenZ b → rd16 (pre ++ b ++ post) (p + i) = rd16 b i.
Proof.
  intros Hp Hi Hb. unfold rd16. rewrite (rd_local pre b post p i) by lia.
  replace (p + i + 1) with (p + (i + 1)) by lia. by rewrite (rd_local pre b post p (i + 1)) by lia.
Qed.
Lemma rd32_local pre b post p i : lenZ pre = p → 0 <= i → i + 4 <= lenZ b → rd32 (pre ++ b ++ post) (p + i) = rd32 b i.
Proof.
  intros Hp Hi Hb. unfold rd32. rewrite (rd16_local pre b post p i) by lia.
  replace (p + i + 2) with (p + (i + 2)) by lia. by rewrite (rd16_local pre b post p (i + 2)) by lia.
Qed.

Definition size_of (fs : list (list Z)) : Z := foldr (λ x n, lenZ x + n) 0 fs.
Lemma lenZ_concat fs : lenZ (concat fs) = size_of fs.
Proof. induction fs as [|x fs IH]; cbn [concat size_of foldr]; [done|]. by rewrite lenZ_app, IH. Qed.
Lemma concat_at fs k x : fs !! k = Some x → concat fs = concat (take k fs) ++ x ++ concat (drop (S k) fs) ∧ lenZ (concat (take k fs)) = size_of (take k fs).
Proof.
  intros Hk. split; [|apply lenZ_concat]. rewrite <- (take_drop_middle fs k x Hk) at 1. by rewrite concat_app.
Qed.
Lemma rdn_chunk fs k x off o n : fs !! k = Some x → off = size_of (take k fs) + o → 0 <= o → 0 <= n → o + n <= lenZ x →
  rdn (concat fs) off n = Ok (take (Z.to_nat n) (drop (Z.to_nat o) x)).
Proof. intros Hk -> Ho Hn Hx. destruct (concat_at fs k x Hk) as [-> El]. rewrite (rdn_local _ x _ _ o n El) by lia. by apply rdn_ok. Qed.
Lemma rd_chunk fs k v off : fs !! k = Some [v] → off = size_of (take k fs) → (concat fs).[off] = Ok v.
Proof. intros Hk ->. destruct (concat_at fs k [v] Hk) as [-> El]. rewrite <- (Z.add_0_r (size_of _)). by rewrite (rd_local _ [v] _ _ 0 El). Qed.
Lemma rd16_chunk fs k n off : fs !! k = Some (le16 n) → off = size_of (take k fs) → 0 <= n < 65536 → rd16 (concat fs) off = Ok n.
Proof. intros Hk -> Hn. destruct (concat_at fs k _ Hk) as [-> El]. by apply rd16_le16. Qed.
Lemma rd32_chunk fs k n off : fs !! k = Some (le32 n) → off = size_of (take k fs) → 0 <= n < 2 ^ 32 → rd32 (concat fs) off = Ok n.
Proof. intros Hk -> Hn. destruct (concat_at fs k _ Hk) as [-> El]. by apply rd32_le32. Qed.

Lemma i16_u16 n : - 2 ^ 15 <= n < 2 ^ 15 → i16 (u16 n) = n.
Proof. unfold i16, u16. change (2 ^ 15) with 32768. change (2 ^ 16) with 65536. lia. Qed.
Lemma i32_u32 n : - 2 ^ 31 <= n < 2 ^ 31 → i32 (u32 n) = n.
Proof. unfold i32, u32. change (2 ^ 31) with 2147483648. change (2 ^ 32) with 4294967296. lia. Qed.
Lemma wrn_chunk fs k old x off : fs !! k = Some old → lenZ x = lenZ old → off = size_of (take k fs) → wrn (concat fs) off x = Ok (concat (<[k:=x]> fs)).
Proof.
  intros Hk Hx ->. destruct (concat_at fs k old Hk) as [E El]. rewrite E. rewrite (insert_take_drop fs k x) by by eapply lookup_lt_Some.
  rewrite concat_app. cbn [concat]. rewrite <- El. apply wrn_mid. unfold lenZ in Hx. lia.
Qed.
Lemma wr_chunk fs k old v off : fs !! k = Some [old] → off = size_of (take k fs) → (concat fs).[off <- v] = Ok (concat (<[k:=[v]]> fs)).
Proof.
  intros Hk ->. destruct (concat_at fs k [old] Hk) as [E El]. rewrite E. rewrite (insert_take_drop fs k [v]) by by eapply lookup_lt_Some.
  rewrite concat_app. cbn [concat]. rewrite <- El. rewrite (wr_at _ _ v _ eq_refl); [done|]. rewrite lenZ_app. pose proof (lenZ_nonneg (concat (drop (S k) fs))). change (lenZ [old]) with 1. lia.
Qed.

(** ** Texts *)

(** the field [strncpy] leaves in an array of [n] zeros, of which it may fill all but the last *)
Definition text (n : Z) (s : list Z) : list Z := take (Z.to_nat (n - 1)) s ++ fill (n - Z.min (lenZ s) (n - 1)) 0.
Lemma lenZ_text n s : 1 <= n → lenZ (text n s) = n.
Proof. intros Hn. unfold text, fill, lenZ. rewrite length_app, length_take, length_replicate. lia. Qed.
Lemma text_empty n : 1 <= n → text n [] = fill n 0.
Proof. intros Hn. unfold text. rewrite take_nil. change (lenZ []) with 0. by replace (n - Z.min 0 (n - 1)) with n by lia. Qed.
Lemma fill_snoc n : 0 <= n → fill n 0 ++ [0] = fill (n + 1) 0.
Proof. intros Hn. unfold fill. replace (Z.to_nat (n + 1)) with (Z.to_nat n + 1)%nat by lia. by rewrite replicate_add. Qed.
Lemma strncpy_chunk fs k old s n off : fs !! k = Some old → old = fill n 0 → 1 <= n → off = size_of (take k fs) →
  strncpy (concat fs) off s (n - 1) = Ok (concat (<[k:=text n s]> fs)).
Proof.
  intros Hk -> Hn ->. destruct (concat_at fs k _ Hk) as [E El]. rewrite E. rewrite (insert_take_drop fs k (text n s)) by by eapply lookup_lt_Some.
  rewrite concat_app. cbn [concat]. rewrite <- El. unfold strncpy.
  assert (fill n 0 = fill (n - 1) 0 ++ [0]) as -> by (rewrite fill_snoc by lia; f_equal; lia). rewrite <- app_assoc.
  rewrite wrn_mid; [|unfold fill, lenZ; rewrite length_app, length_take, !length_replicate; lia].
  unfold text. rewrite <- !app_assoc. do 3 f_equal. rewrite (app_assoc (fill _ 0)). f_equal.
  pose proof (lenZ_nonneg s). destruct (Z.le_ge_cases (lenZ s) (n - 1)).
  - rewrite Z.min_l, fill_snoc by lia. f_equal. lia.
  - rewrite Z.min_r by lia. replace (n - (n - 1)) with 1 by lia. unfold fill. replace (Z.to_nat (n - 1 - lenZ s)) with 0%nat by lia. done.
Qed.
(** it reads back as the text, cut *)
Lemma cstr_text n s : 1 <= n → nonul s → cstr (text n s) = take (Z.to_nat (n - 1)) s.
Proof.
  intros Hn Hs. unfold text. assert (0 < n - Z.min (lenZ s) (n - 1)) by lia. unfold fill.
  destruct (Z.to_nat (n - Z.min (lenZ s) (n - 1))) as [|m] eqn:E; [lia|]. cbn [replicate]. apply cstr_app. by apply Forall_take.
Qed.

(** a text, or bytes, at the start of an array of [n] zeros *)
Definition padded (n : Z) (s : list Z) : list Z := s ++ fill (n - lenZ s) 0.
Lemma lenZ_padded n s : lenZ s <= n → lenZ (padded n s) = n.
Proof. intros Hs. unfold padded. rewrite lenZ_app, lenZ_fill by lia. lia. Qed.
Lemma fill_split n (s : list Z) : lenZ s <= n → fill n 0 = fill (lenZ s) 0 ++ fill (n - lenZ s) 0.
Proof. intros Hs. pose proof (lenZ_nonneg s). unfold fill. rewrite <- replicate_add. f_equal. lia. Qed.
Lemma wrn_padded fs k s n off : fs !! k = Some (fill n 0) → lenZ s <= n → off = size_of (take k fs) →
  wrn (concat fs) off s = Ok (concat (<[k:=padded n s]> fs)).
Proof.
  intros Hk Hs ->. destruct (concat_at fs k _ Hk) as [E El]. rewrite E. rewrite (insert_take_drop fs k (padded n s)) by by eapply lookup_lt_Some.
  rewrite concat_app. cbn [concat]. rewrite <- El, (fill_split n s) by done. rewrite <- app_assoc. pose proof (lenZ_nonneg s).
  rewrite wrn_mid by (unfold fill; rewrite length_replicate; unfold lenZ; lia). unfold padded. by rewrite <- !app_assoc.
Qed.

(** ** The request header *)

Definition header_bytes (id length token : Z) : list Z := request_bytes (id mod 65536) (length mod 65536) token 0 0 [].
Lemma lenZ_header id length token : lenZ (header_bytes id length token) = sizeof_RCM_HEADER.
Proof. done. Qed.
Lemma header_chunk m_nToken h fs id length : lenZ h = sizeof_RCM_HEADER →
  InitRequestHeader m_nToken (concat (h :: fs)) id length = Ok (concat (header_bytes id length (GetNext m_nToken).1 :: fs), (GetNext m_nToken).2).
Proof.
  intros Hh. unfold InitRequestHeader. destruct (GetNext m_nToken) as [t m]. cbn [concat fst snd]. rewrite InitRequestHeader_bytes by done.
  cbn [mbind res_bind]. done.
Qed.

(** ** The header of an answer *)

Definition response_header (hdr : list Z) (e : Z) : Prop :=
  lenZ hdr = sizeof_RCM_HEADER ∧ hdr.[off_type] = Ok RCM_TYPE_RESPONSE ∧ hdr.[off_error] = Ok e.
Lemma response_code hdr e body : response_header hdr e → Rcm.GetErrorCode (Some (hdr ++ body)) = Ok (ConvertProtocolErrorCodeToRilErrorCode (Z.land e 255)).
Proof.
  intros (Hl & Ht & He). unfold Rcm.GetErrorCode. rewrite lenZ_app, Hl. pose proof (lenZ_nonneg body).
  rewrite (proj2 (Z.leb_le sizeof_RCM_HEADER (sizeof_RCM_HEADER + lenZ body))) by lia.
  rewrite !rd_app_l by (rewrite Hl; done). rewrite Ht. cbn [mbind res_bind]. rewrite Z.eqb_refl, He. done.
Qed.
