(* ===== verification/Handler.v ===== *)
(** Handlers of a service: a monad and its rules.

    A handler is given an environment [E], reads and changes the state [S] of
    its service and does things, [X], that are noted in order: packets, answers,
    indications.  What the code leaves undefined ends it ([UB]). *)
From stdpp Require Import base list.
From S2P Require Import Prelude.

Definition HM (E S X A : Type) : Type := E → S → res (A * S * list X).
Section monad.
Context {E S X : Type}.
#[export] Instance HM_ret : MRet (HM E S X) := λ A a e s, Ok (a, s, []).
#[export] Instance HM_bind : MBind (HM E S X) := λ A B f m e s,
  match m e s with
  | Ok (a, s, o) => match f a e s with Ok (b, s, o') => Ok (b, s, o ++ o') | UB => UB | OutOfFuel => OutOfFuel end
  | UB => UB
  | OutOfFuel => OutOfFuel
  end.
#[export] Instance HM_fmap : FMap (HM E S X) := λ A B f m, a ← m; mret (f a).
Definition lift {A} (r : res A) : HM E S X A := λ e s, match r with Ok a => Ok (a, s, []) | UB => UB | OutOfFuel => OutOfFuel end.
Definition gets {A} (f : S → A) : HM E S X A := λ e s, Ok (f s, s, []).
Definition asks {A} (f : E → A) : HM E S X A := λ e s, Ok (f e, s, []).
Definition modify (f : S → S) : HM E S X () := λ e s, Ok ((), f s, []).
Definition emit (a : X) : HM E S X () := λ e s, Ok ((), s, [a]).

(** the result of a handler that sends a packet *)
Definition ret_code (n : Z) : Z := if n <? 0 then -1 else 0.

(** ** What holds when a handler comes to an end *)

Definition ends {A} (m : HM E S X A) (Q : A → S → list X → Prop) (e : E) (s : S) : Prop := ∀ v s' o, m e s = Ok (v, s', o) → Q v s' o.
Section ends.
Context {A B : Type}.
Implicit Types (Q : A → S → list X → Prop).
Lemma ends_ret (a : A) Q e s : Q a s [] → ends (mret a) Q e s.
Proof. intros HQ v s' o H. by injection H as <- <- <-. Qed.
Lemma ends_bind (m : HM E S X B) (f : B → HM E S X A) Q e s : ends m (λ b s' o, ends (f b) (λ a s'' o', Q a s'' (o ++ o')) e s') e s → ends (m ≫= f) Q e s.
Proof.
  intros Hm v s' o H. unfold mbind, HM_bind in H. destruct (m e s) as [ [ [b s1] o1]| |] eqn:Em; [|done|done]. pose proof (Hm _ _ _ Em) as Hf.
  destruct (f b e s1) as [ [ [a s2] o2]| |] eqn:E2; [|done|done]. injection H as <- <- <-. by apply (Hf _ _ _ E2).
Qed.
Lemma ends_fmap (m : HM E S X B) (f : B → A) Q e s : ends m (λ b s' o, Q (f b) s' o) e s → ends (f <$> m) Q e s.
Proof. intros Hm. apply ends_bind. intros v s' o H. apply ends_ret. rewrite app_nil_r. by apply (Hm _ _ _ H). Qed.
Lemma ends_lift (r : res A) Q e s : (∀ a, r = Ok a → Q a s []) → ends (lift r) Q e s.
Proof. intros HQ v s' o H. unfold lift in H. destruct r as [a| |]; [|done|done]. injection H as <- <- <-. by apply HQ. Qed.
Lemma ends_gets (f : S → A) Q e s : Q (f s) s [] → ends (gets f) Q e s.
Proof. intros HQ v s' o H. by injection H as <- <- <-. Qed.
Lemma ends_asks (f : E → A) Q e s : Q (f e) s [] → ends (asks f) Q e s.
Proof. intros HQ v s' o H. by injection H as <- <- <-. Qed.
Lemma ends_if (b : bool) (m1 m2 : HM E S X A) Q e s : (b = true → ends m1 Q e s) → (b = false → ends m2 Q e s) → ends (if b then m1 else m2) Q e s.
Proof. destruct b; auto. Qed.
Lemma ends_weaken (m : HM E S X A) Q (Q' : A → S → list X → Prop) e s : ends m Q e s → (∀ v s' o, Q v s' o → Q' v s' o) → ends m Q' e s.
Proof. intros Hm HQ v s' o H. apply HQ. by apply Hm. Qed.
End ends.
Lemma ends_modify (f : S → S) Q e s : Q () (f s) [] → ends (modify f) Q e s.
Proof. intros HQ v s' o H. by injection H as <- <- <-. Qed.
Lemma ends_emit a Q e s : Q () s [a] → ends (emit a) Q e s.
Proof. intros HQ v s' o H. by injection H as <- <- <-. Qed.

(** ** Running a handler forwards *)

Section run.
Context {A B : Type}.
Lemma run_bind (m : HM E S X A) (f : A → HM E S X B) e s a s1 o1 b s2 o2 :
  m e s = Ok (a, s1, o1) → f a e s1 = Ok (b, s2, o2) → (m ≫= f) e s = Ok (b, s2, o1 ++ o2).
Proof. intros H1 H2. unfold mbind, HM_bind. by rewrite H1, H2. Qed.
Lemma run_skip (r : res (B * S * list X)) :
  match r with Ok (b, s, o) => Ok (b, s, [] ++ o) | UB => UB | OutOfFuel => OutOfFuel end = r.
Proof. by destruct r as [ [ [? ?] ?]| |]. Qed.
Lemma run_lift (r : res A) (f : A → HM E S X B) a e s : r = Ok a → (lift r ≫= f) e s = f a e s.
Proof. intros ->. unfold mbind, HM_bind, lift. apply run_skip. Qed.
Lemma run_gets (g : S → A) (f : A → HM E S X B) e s : (gets g ≫= f) e s = f (g s) e s.
Proof. apply run_skip. Qed.
Lemma run_asks (g : E → A) (f : A → HM E S X B) e s : (asks g ≫= f) e s = f (g e) e s.
Proof. apply run_skip. Qed.
Lemma run_ret (a : A) (f : A → HM E S X B) e s : (mret a ≫= f) e s = f a e s.
Proof. apply run_skip. Qed.
Lemma run_silent (m : HM E S X A) (f : A → HM E S X B) a s' e s : m e s = Ok (a, s', []) → (m ≫= f) e s = f a e s'.
Proof. intros H. unfold mbind, HM_bind. rewrite H. apply run_skip. Qed.
End run.
Lemma run_modify {B} g (f : () → HM E S X B) e s : (modify g ≫= f) e s = f () e (g s).
Proof. apply run_skip. Qed.
Lemma run_bind_zero (m : HM E S X Z) v e s s' o : m e s = Ok (v, s', o) → (m;; mret 0) e s = Ok (0, s', o).
Proof. intros H. unfold mbind, HM_bind. rewrite H. cbn. by rewrite app_nil_r. Qed.
(** ** Handlers that come to an end *)

Definition total {A} (m : HM E S X A) (e : E) (s : S) : Prop := ∃ v s' o, m e s = Ok (v, s', o).
Section total.
Context {A B : Type}.
Lemma total_ret (a : A) e s : total (mret a) e s.
Proof. by exists a, s, []. Qed.
Lemma total_gets (f : S → A) e s : total (gets f) e s.
Proof. by exists (f s), s, []. Qed.
Lemma total_lift (r : res A) e s : (∃ a, r = Ok a) → total (lift r) e s.
Proof. intros [a ->]. by exists a, s, []. Qed.
Lemma total_bind (m : HM E S X A) (f : A → HM E S X B) e s : total m e s → (∀ v s' o, m e s = Ok (v, s', o) → total (f v) e s') → total (m ≫= f) e s.
Proof.
  intros (v & s1 & o & Hm) Hf. destruct (Hf _ _ _ Hm) as (w & s2 & o' & H). exists w, s2, (o ++ o'). by apply (run_bind _ _ _ _ v s1).
Qed.
Lemma total_bind_lift (r : res A) (f : A → HM E S X B) e s : (∃ a, r = Ok a) → (∀ a, r = Ok a → total (f a) e s) → total (lift r ≫= f) e s.
Proof. intros [a ->] H. unfold total. rewrite (run_lift (Ok a) f a e s eq_refl). by apply H. Qed.
Lemma total_bind_gets (g : S → A) (f : A → HM E S X B) e s : total (f (g s)) e s → total (gets g ≫= f) e s.
Proof. unfold total. by rewrite run_gets. Qed.
Lemma total_bind_asks (g : E → A) (f : A → HM E S X B) e s : total (f (g e)) e s → total (asks g ≫= f) e s.
Proof. unfold total. by rewrite run_asks. Qed.
Lemma total_bind_ret (a : A) (f : A → HM E S X B) e s : total (f a) e s → total (mret a ≫= f) e s.
Proof. unfold total. by rewrite run_ret. Qed.
Lemma total_fmap (m : HM E S X A) (f : A → B) e s : total m e s → total (f <$> m) e s.
Proof. intros H. apply total_bind; [done|]. intros v s' o _. by exists (f v), s', []. Qed.
End total.
Lemma total_modify f e s : total (modify f) e s.
Proof. by exists (), (f s), []. Qed.
Lemma total_emit a e s : total (emit a) e s.
Proof. by exists (), s, [a]. Qed.
Lemma total_bind_modify {B} g (f : () → HM E S X B) e s : total (f ()) e (g s) → total (modify g ≫= f) e s.
Proof. unfold total. by rewrite run_modify. Qed.
(** the end of a handler and what holds at it *)
Lemma total_ends {A} (m : HM E S X A) Q e s : total m e s → ends m Q e s → ∃ v s' o, m e s = Ok (v, s', o) ∧ Q v s' o.
Proof. intros (v & s' & o & H) HQ. exists v, s', o. split; [done|]. by apply HQ. Qed.
End monad.

(** a step of a handler that comes to an end *)
Ltac total_step :=
  lazymatch goal with
  | |- total (if ?b then _ else _) _ _ => let E := fresh "Eb" in destruct b eqn:E
  | |- total (match ?x with _ => _ end) _ _ => let E := fresh "Em" in destruct x eqn:E
  | |- total (let _ := _ in _) _ _ => cbv zeta
  | |- total (gets _ ≫= _) _ _ => apply total_bind_gets
  | |- total (asks _ ≫= _) _ _ => apply total_bind_asks
  | |- total (mret _ ≫= _) _ _ => apply total_bind_ret
  | |- total (modify _ ≫= _) _ _ => apply total_bind_modify
  | |- total (lift _ ≫= _) _ _ => let H := fresh "Hr" in apply total_bind_lift; [|intros ? H]
  | |- total (mret _) _ _ => apply total_ret
  | |- total (gets _) _ _ => apply total_gets
  | |- total (modify _) _ _ => apply total_modify
  | |- total (emit _) _ _ => apply total_emit
  | |- total (lift _) _ _ => apply total_lift
  | |- total (_ <$> _) _ _ => apply total_fmap
  | |- total (_ ≫= _) _ _ => apply total_bind; [|intros ? ? ? _]
  end.

(** a step of a handler *)
Ltac handler_step :=
  lazymatch goal with
  | |- ends (if decide ?P then _ else _) _ _ _ => destruct (decide P)
  | |- ends (if ?b then _ else _) _ _ _ => let E := fresh "Eb" in destruct b eqn:E
  | |- ends (match ?x with _ => _ end) _ _ _ => let E := fresh "Em" in destruct x eqn:E
  | |- ends (mret _) _ _ _ => apply ends_ret
  | |- ends (_ <$> _) _ _ _ => apply ends_fmap
  | |- ends (lift _) _ _ _ => let H := fresh "Hr" in apply ends_lift; intros ? H; try discriminate H
  | |- ends (gets _) _ _ _ => apply ends_gets
  | |- ends (asks _) _ _ _ => apply ends_asks
  | |- ends (modify _) _ _ _ => apply ends_modify
  | |- ends (emit _) _ _ _ => apply ends_emit
  | |- ends (_ ≫= _) _ _ _ => apply ends_bind
  end; cbn [app].
