(* ===== verification/RilData.v ===== *)
(** The data of requests and answers: [core/rildata.cpp] and
    [fw/requestdata.cpp].

    A text is the list of its characters without the final zero, a pointer to
    one an option.  A clone that writes to the object it copies is a function to
    both.  [sizeof_ptr] is the size of a pointer of the platform. *)
From S2P Require Import Prelude RilDef Text WaitList Network Rcm.

(** ** Decimal texts *)

(** ["%d"] and [atoi] of the C library; [atoi] of a number that does not fit an [int] is undefined *)
Fixpoint digits_of (fuel : nat) (n : Z) : list Z :=
  match fuel with
  | O => []
  | S fuel => if n <? 10 then [48 + n] else digits_of fuel (n / 10) ++ [48 + n mod 10]
  end.
Definition dec (v : Z) : list Z := if v <? 0 then 45 :: digits_of 10 (- v) else digits_of 10 v.
Definition is_space (c : Z) : bool := (c =? 32) || ((9 <=? c) && (c <=? 13)).
Fixpoint skip_spaces (s : list Z) : list Z := match s with c :: t => if is_space c then skip_spaces t else s | [] => [] end.
Definition to_int (s : list Z) : res Z :=
  let s := skip_spaces s in
  let '(neg, s) := match s with 45 :: t => (true, t) | 43 :: t => (false, t) | _ => (false, s) end in
  let v := if neg : bool then - digits_value (leading_digits s) else digits_value (leading_digits s) in
  if (- 2 ^ 31 <=? v) && (v <? 2 ^ 31) then Ok v else UB.

(** ** RilDataString *)

Record RilDataString := { rds_string : option (list Z); rds_length : Z }.
Definition newRilDataString : RilDataString := {| rds_string := None; rds_length := 0 |}.
(** an empty text clears the string and keeps the length *)
Definition RilDataString_SetString (str : option (list Z)) (d : RilDataString) : RilDataString :=
  match str with
  | Some (c :: s) => {| rds_string := Some (c :: s); rds_length := lenZ (c :: s) + 1 |}
  | _ => {| rds_string := None; rds_length := rds_length d |}
  end.
(** [char buf[11]; snprintf(buf, sizeof(buf) - 1, "%d", value)] *)
Definition RilDataString_SetInt (value : Z) (d : RilDataString) : RilDataString := RilDataString_SetString (Some (take 9 (dec value))) d.
Definition RilDataString_Clone (d : RilDataString) : RilDataString := RilDataString_SetString (rds_string d) newRilDataString.

(** ** RilDataStrings *)

Definition RilDataStrings : Type := list (option (list Z)).
Definition newRilDataStrings (c : Z) : RilDataStrings := fill c None.
Definition SetStringLen (index : Z) (str : option (list Z)) (len : Z) (d : RilDataStrings) : res (bool * RilDataStrings) :=
  if (index <? 0) || (lenZ d <=? index) then Ok (false, d)
  else
    match str with
    | Some (c :: s) =>
      if len =? 0 then Ok (true, <[Z.to_nat index := None]> d)
      else if len <? 0 then UB
      else Ok (true, <[Z.to_nat index := Some (take (Z.to_nat len) (c :: s))]> d)
    | _ => Ok (true, <[Z.to_nat index := None]> d)
    end.
Definition SetString (index : Z) (str : option (list Z)) (d : RilDataStrings) : res (bool * RilDataStrings) :=
  SetStringLen index str (match str with Some s => lenZ s | None => 0 end) d.
(** [char buf[10]; len = snprintf(buf, sizeof(buf) - 1, "%d", value)]: the length is that of the whole number *)
Definition SetStringInt (index value : Z) (d : RilDataStrings) : res (bool * RilDataStrings) :=
  SetStringLen index (Some (take 8 (dec value))) (lenZ (dec value)) d.
Definition RilDataStrings_GetString (index : Z) (d : RilDataStrings) : option (list Z) :=
  if (index <? 0) || (lenZ d <=? index) then None else d !!! Z.to_nat index.
Definition RilDataStrings_Clone (d : RilDataStrings) : res RilDataStrings :=
  for_up (Z.to_nat (lenZ d)) 0 (λ i p, t ← SetString i (RilDataStrings_GetString i d) p; Ok t.2) (newRilDataStrings (lenZ d)).

(** ** RilDataInts *)

Definition RilDataInts : Type := list Z.
Definition newRilDataInts (c : Z) : RilDataInts := fill c 0.
Definition SetInt (index value : Z) (d : RilDataInts) : bool * RilDataInts :=
  if (index <? 0) || (lenZ d <=? index) then (false, d) else (true, <[Z.to_nat index := value]> d).
Definition RilDataInts_GetInt (index : Z) (d : RilDataInts) : res Z := d.[index].
Definition RilDataInts_Clone (d : RilDataInts) : res RilDataInts :=
  for_up (Z.to_nat (lenZ d)) 0 (λ i p, v ← RilDataInts_GetInt i d; Ok (SetInt i v p).2) (newRilDataInts (lenZ d)).

(** ** RilDataRaw *)

Record RilDataRaw := { rdr_data : option (list Z); rdr_size : Z }.
(** without data the block goes and its size stays *)
Definition SetData (pData : option (list Z)) (nSize : Z) (d : RilDataRaw) : res RilDataRaw :=
  match pData with
  | Some p => if 0 <? nSize then b ← rdn p 0 nSize; Ok {| rdr_data := Some b; rdr_size := nSize |} else Ok {| rdr_data := None; rdr_size := rdr_size d |}
  | None => Ok {| rdr_data := None; rdr_size := rdr_size d |}
  end.
Definition newRilDataRaw (pData : option (list Z)) (nSize : Z) : res RilDataRaw := SetData pData nSize {| rdr_data := None; rdr_size := 0 |}.
Definition RilDataRaw_Clone (d : RilDataRaw) : res RilDataRaw := newRilDataRaw (rdr_data d) (rdr_size d).

(** ** Requests *)

Definition INVALID_INT : Z := 0x7FFFFFFF.
Definition DECODE_REQUEST (id : Z) : Z := Z.land id 0xFFFFFF.
Definition DECODE_HAL (id : Z) : Z := Z.land (Z.shiftr id 24) 0xFF.
Definition ENCODE_REQUEST (id h : Z) : Z := Z.lor (Z.land id 0xFFFFFF) (Z.shiftl (Z.land h 0xFF) 24).
Record RequestData := { m_nReq : Z; mHalVer : Z; m_tok : Z; m_reqType : Z }.
Definition newRequestData (nReq tok type : Z) : RequestData :=
  {| m_nReq := DECODE_REQUEST nReq; mHalVer := DECODE_HAL nReq; m_tok := tok; m_reqType := type |}.
(** [Clone]: the constructor again, with the number that is already decoded *)
Definition RequestData_Clone (r : RequestData) : RequestData := newRequestData (m_nReq r) (m_tok r) (m_reqType r).

Record IntRequestData := { ird_base : RequestData; m_nInt : Z }.
Definition newIntRequestData (nReq tok type : Z) : IntRequestData := {| ird_base := newRequestData nReq tok type; m_nInt := INVALID_INT |}.
Definition IntRequestData_encode (data : option (list Z)) (datalen : Z) (r : IntRequestData) : res (Z * IntRequestData) :=
  match data with
  | Some b => if datalen =? 0 then Ok (-1, r) else v ← rd32 b 0; Ok (0, {| ird_base := ird_base r; m_nInt := i32 v |})
  | None => Ok (-1, r)
  end.
Definition IntRequestData_Clone (r : IntRequestData) : IntRequestData := {| ird_base := RequestData_Clone (ird_base r); m_nInt := m_nInt r |}.

Record IntsRequestData := { isrd_base : RequestData; m_pInts : option (list Z) }.
Definition newIntsRequestData (nReq tok type : Z) : IntsRequestData := {| isrd_base := newRequestData nReq tok type; m_pInts := None |}.
Definition IntsRequestData_encode (data : option (list Z)) (datalen : Z) (r : IntsRequestData) : res (Z * IntsRequestData) :=
  match data with
  | Some b =>
    if (0 <? datalen) && (datalen mod 4 =? 0)
    then ints ← for_up (Z.to_nat (datalen / 4)) 0 (λ i l, v ← rd32 b (4 * i); Ok (l ++ [i32 v])) [];
         Ok (0, {| isrd_base := isrd_base r; m_pInts := Some ints |})
    else Ok (-1, r)
  | None => Ok (-1, r)
  end.
(** [GetSize]; the copy of no integers is an empty array *)
Definition IntsRequestData_GetSize (r : IntsRequestData) : Z := match m_pInts r with Some l => lenZ l | None => 0 end.
Definition IntsRequestData_Clone (r : IntsRequestData) : IntsRequestData :=
  {| isrd_base := RequestData_Clone (isrd_base r); m_pInts := Some (default [] (m_pInts r)) |}.
Definition IntsRequestData_GetInt (index : Z) (r : IntsRequestData) : Z :=
  match m_pInts r with
  | Some l => if (0 <=? index) && (index <? lenZ l) then l !!! Z.to_nat index else INVALID_INT
  | None => INVALID_INT
  end.

Record StringRequestData := { srd_base : RequestData; m_szData : option (list Z) }.
Definition newStringRequestData (nReq tok type : Z) : StringRequestData := {| srd_base := newRequestData nReq tok type; m_szData := None |}.
Definition StringRequestData_encode (data : option (list Z)) (datalen : Z) (r : StringRequestData) : Z * StringRequestData :=
  match data with
  | Some (c :: s) => if datalen =? 0 then (0, r) else (0, {| srd_base := srd_base r; m_szData := Some (c :: s) |})
  | _ => (0, r)
  end.
(** [Clone]: the [memset] that should clear the copy clears the original, which is then copied: the copy and the original *)
Definition StringRequestData_Clone (r : StringRequestData) : StringRequestData * StringRequestData :=
  let base := RequestData_Clone (srd_base r) in
  match m_szData r with
  | Some _ => ({| srd_base := base; m_szData := Some [] |}, {| srd_base := srd_base r; m_szData := Some [] |})
  | None => ({| srd_base := base; m_szData := None |}, r)
  end.

Record StringsRequestData := { ssrd_base : RequestData; m_nStringCount : Z; m_ptrStrings : option (list (option (list Z))) }.
Definition newStringsRequestData (nReq tok type : Z) : StringsRequestData :=
  {| ssrd_base := newRequestData nReq tok type; m_nStringCount := -1; m_ptrStrings := None |}.
Section strings.
Variable sizeof_ptr : Z.
(** [data] is an array of pointers *)
Definition StringsRequestData_encode (data : option (list (option (list Z)))) (datalen : Z) (r : StringsRequestData) : res StringsRequestData :=
  match data with
  | Some p =>
    if datalen =? 0 then Ok r
    else
      let n := datalen / sizeof_ptr in
      l ← for_up (Z.to_nat n) 0 (λ i l, s ← p.[i]; Ok (l ++ [s])) [];
      Ok {| ssrd_base := ssrd_base r; m_nStringCount := n; m_ptrStrings := Some l |}
  | None => Ok r
  end.
Definition StringsRequestData_Clone (r : StringsRequestData) : res StringsRequestData :=
  StringsRequestData_encode (m_ptrStrings r) (u32 (m_nStringCount r * sizeof_ptr))
    (newStringsRequestData (m_nReq (ssrd_base r)) (m_tok (ssrd_base r)) (m_reqType (ssrd_base r))).
End strings.
Definition GetString (index : Z) (r : StringsRequestData) : option (list Z) :=
  match m_ptrStrings r with
  | Some l => if (0 <=? index) && (index <? m_nStringCount r) then l !!! Z.to_nat index else None
  | None => None
  end.

Record RawRequestData := { rrd_base : RequestData; m_pRawReq : option (list Z); m_nRawSize : Z }.
Definition RawRequestData_encode (data : option (list Z)) (datalen : Z) (r : RawRequestData) : res RawRequestData :=
  match data with
  | Some b => if 0 <? datalen then raw ← rdn b 0 datalen; Ok {| rrd_base := rrd_base r; m_pRawReq := Some raw; m_nRawSize := datalen |} else Ok r
  | None => Ok r
  end.
Definition RawRequestData_Clone (r : RawRequestData) : res RawRequestData :=
  RawRequestData_encode (m_pRawReq r) (m_nRawSize r) {| rrd_base := RequestData_Clone (rrd_base r); m_pRawReq := None; m_nRawSize := 0 |}.
