(* ===== verification/RilDataTheorems.v ===== *)
(** What the data of requests and answers keep: numbers as texts, arrays of
    texts, and copies. *)
From S2P Require Import Prelude RilDef Text Network Rcm RilData.

(** ** Numbers as texts *)

Lemma digits_of_S f n : digits_of (S f) n = if n <? 10 then [48 + n] else digits_of f (n / 10) ++ [48 + n mod 10].
Proof. done. Qed.
Lemma digits_of_spec f n : 0 <= n < 10 ^ Z.of_nat f → (0 < f)%nat →
  forallb is_digit (digits_of f n) = true ∧ digits_value (digits_of f n) = n ∧
  (∀ k, 1 <= k → lenZ (digits_of f n) <= k ↔ n < 10 ^ k) ∧ digits_of f n ≠ [].
Proof.
  revert n. induction f as [|f IH]; intros n Hn Hf; [lia|]. rewrite digits_of_S.
  destruct (Z.ltb_spec n 10) as [H|H].
  - split; [unfold is_digit; cbn; lia|]. split; [unfold digits_value; cbn; lia|]. split; [|done]. intros k Hk. change (lenZ [48 + n]) with 1.
    assert (10 ^ 1 <= 10 ^ k) by (apply Z.pow_le_mono_r; lia). lia.
  - assert (0 < f)%nat as Hf'. { destruct f; [change (10 ^ Z.of_nat 1) with 10 in Hn; lia|lia]. }
    assert (10 ^ Z.of_nat (S f) = 10 * 10 ^ Z.of_nat f) as Ep by (rewrite Nat2Z.inj_succ, Z.pow_succ_r; lia). rewrite Ep in Hn.
    destruct (IH (n / 10)) as (D & V & L & N); [|done|].
    { split; [apply Z.div_pos; lia|apply Z.div_lt_upper_bound; lia]. }
    pose proof (Z.mod_pos_bound n 10 ltac:(lia)). pose proof (Z.div_mod n 10 ltac:(lia)).
    split; [rewrite forallb_app, D; unfold is_digit; cbn; lia|]. split; [|split].
    + unfold digits_value in *. rewrite foldl_app, V. cbn [foldl]. lia.
    + intros k Hk. rewrite lenZ_app. change (lenZ [_]) with 1. destruct (Z.eq_dec k 1) as [->|Hk1].
      { pose proof (L 1 ltac:(lia)) as L1. change (10 ^ 1) with 10 in *. assert (0 < lenZ (digits_of f (n / 10))) by (destruct (digits_of f (n / 10)); [done|rewrite lenZ_cons; pose proof (lenZ_nonneg l); lia]). lia. }
      pose proof (L (k - 1) ltac:(lia)) as Lk. assert (10 ^ k = 10 * 10 ^ (k - 1)) as -> by (rewrite <- Z.pow_succ_r by lia; f_equal; lia).
      split; intros Hx.
      * assert (n / 10 < 10 ^ (k - 1)) by (apply Lk; lia). lia.
      * assert (n / 10 < 10 ^ (k - 1)) as Hd by (apply Z.div_lt_upper_bound; lia). apply Lk in Hd. lia.
    + by destruct (digits_of f (n / 10)).
Qed.
Lemma leading_all s : forallb is_digit s = true → leading_digits s = s.
Proof. induction s as [|c s IH]; [done|]. cbn. intros [-> H]%andb_true_iff. by rewrite IH. Qed.
Lemma digits_value_nonneg s : forallb is_digit s = true → 0 <= digits_value s < 10 ^ lenZ s.
Proof.
  induction s as [|c s IH] using rev_ind; [done|]. rewrite forallb_app. intros [H Hc]%andb_true_iff. cbn in Hc. unfold is_digit in Hc.
  unfold digits_value in *. rewrite foldl_app. cbn [foldl]. specialize (IH H). rewrite lenZ_app. change (lenZ [c]) with 1.
  rewrite Z.pow_add_r by (pose proof (lenZ_nonneg s); lia). change (10 ^ 1) with 10. lia.
Qed.
Lemma to_int_digits s : s ≠ [] → forallb is_digit s = true → to_int s = (let v := digits_value s in if (- 2 ^ 31 <=? v) && (v <? 2 ^ 31) then Ok v else UB).
Proof.
  intros Hs H. destruct s as [|c s]; [done|]. pose proof H as H'. cbn in H'. apply andb_true_iff in H' as [Hc _]. unfold is_digit in Hc. unfold to_int.
  assert (skip_spaces (c :: s) = c :: s) as -> by (cbn; unfold is_space; by replace ((c =? 32) || (9 <=? c) && (c <=? 13)) with false by lia).
  assert (∀ A (x y z : A), match c with 45 => x | 43 => y | _ => z end = z) as Hm.
  { intros A x y z. assert (48 <= c <= 57) as Hr by lia. destruct c as [|q|q]; try lia. do 6 (try destruct q as [q|q|]; try lia; try done). }
  rewrite Hm. by rewrite leading_all.
Qed.
Lemma to_int_minus s : s ≠ [] → forallb is_digit s = true → to_int (45 :: s) = (let v := - digits_value s in if (- 2 ^ 31 <=? v) && (v <? 2 ^ 31) then Ok v else UB).
Proof. intros Hs H. unfold to_int. cbn [skip_spaces]. change (is_space 45) with false. cbv iota. by rewrite leading_all. Qed.
Definition int_range (v : Z) : Prop := - 2 ^ 31 <= v < 2 ^ 31.
Lemma int_digits v : int_range v → 0 <= Z.abs v < 10 ^ Z.of_nat 10.
Proof. unfold int_range. change (2 ^ 31) with 2147483648. change (10 ^ Z.of_nat 10) with 10000000000. lia. Qed.
Lemma to_int_dec v : int_range v → to_int (dec v) = Ok v.
Proof.
  intros Hv. pose proof (int_digits v Hv) as Hd. unfold dec. destruct (Z.ltb_spec v 0).
  - destruct (digits_of_spec 10 (- v)) as (D & V & _ & N); [lia|lia|]. rewrite to_int_minus by done. cbv zeta. rewrite V, Z.opp_involutive.
    unfold int_range in Hv. by replace ((- 2 ^ 31 <=? v) && (v <? 2 ^ 31)) with true by lia.
  - destruct (digits_of_spec 10 v) as (D & V & _ & N); [lia|lia|]. rewrite to_int_digits by done. cbv zeta. rewrite V.
    unfold int_range in Hv. by replace ((- 2 ^ 31 <=? v) && (v <? 2 ^ 31)) with true by lia.
Qed.
Lemma dec_not_nil v : int_range v → dec v ≠ [].
Proof. intros Hv. unfold dec. destruct (Z.ltb_spec v 0); [done|]. pose proof (int_digits v Hv). by destruct (digits_of_spec 10 v) as (_ & _ & _ & ?); [lia|lia|]. Qed.
Lemma digits_take n s : forallb is_digit s = true → forallb is_digit (take n s) = true.
Proof. intros D. rewrite <- (take_drop n s), forallb_app in D. by apply andb_true_iff in D as [? _]. Qed.
(** the first [n] digits are the number only when they are all of it *)
Lemma cut_digits s v n : forallb is_digit s = true → digits_value s = v → (lenZ s <= n ↔ v < 10 ^ n) → 0 <= n →
  digits_value (take (Z.to_nat n) s) = v ↔ v < 10 ^ n.
Proof.
  intros D V L Hn. split; intros H.
  - pose proof (digits_value_nonneg _ (digits_take (Z.to_nat n) s D)) as Hb. rewrite H in Hb.
    assert (lenZ (take (Z.to_nat n) s) <= n) as Hm by (unfold lenZ; rewrite length_take; lia).
    assert (10 ^ lenZ (take (Z.to_nat n) s) <= 10 ^ n) by (apply Z.pow_le_mono_r; lia). lia.
  - rewrite take_ge; [done|]. apply L in H. unfold lenZ in H. lia.
Qed.
Lemma take_nonempty {A} n (s : list A) : s ≠ [] → (0 < n)%nat → take n s ≠ [].
Proof. intros Hs Hn. destruct s, n; done || lia. Qed.
(** the same for a number with its sign *)
Lemma cut_number n v : int_range v → 2 <= n → to_int (take (Z.to_nat n) (dec v)) = Ok v ↔ - 10 ^ (n - 1) < v < 10 ^ n.
Proof.
  intros Hv Hn. pose proof (int_digits v Hv) as Hd. assert (0 < 10 ^ (n - 1)) as P1 by (apply Z.pow_pos_nonneg; lia). assert (0 < 10 ^ n) as P2 by (apply Z.pow_pos_nonneg; lia).
  unfold dec. destruct (Z.ltb_spec v 0) as [H|H].
  - destruct (digits_of_spec 10 (- v)) as (D & V & L & N); [lia|lia|]. set (ds := digits_of 10 (- v)) in *.
    pose proof (cut_digits ds (- v) (n - 1) D V (L (n - 1) ltac:(lia)) ltac:(lia)) as C.
    replace (Z.to_nat n) with (S (Z.to_nat (n - 1))) by lia. cbn [take]. rewrite to_int_minus by (by apply digits_take || (apply take_nonempty; [done|lia])).
    cbv zeta. unfold int_range in Hv. destruct (Z.eq_dec (digits_value (take (Z.to_nat (n - 1)) ds)) (- v)) as [E|E].
    + rewrite E, Z.opp_involutive. replace ((- 2 ^ 31 <=? v) && (v <? 2 ^ 31)) with true by lia. split; [|done]. intros _. apply C in E. lia.
    + split; [|intros Hx; exfalso; apply E, C; lia]. destruct (_ && _); [|done]. intros [= Hx]. lia.
  - destruct (digits_of_spec 10 v) as (D & V & L & N); [lia|lia|]. set (ds := digits_of 10 v) in *.
    pose proof (cut_digits ds v n D V (L n ltac:(lia)) ltac:(lia)) as C.
    rewrite to_int_digits by (by apply digits_take || (apply take_nonempty; [done|lia])).
    cbv zeta. unfold int_range in Hv. destruct (Z.eq_dec (digits_value (take (Z.to_nat n) ds)) v) as [E|E].
    + rewrite E. replace ((- 2 ^ 31 <=? v) && (v <? 2 ^ 31)) with true by lia. split; [|done]. intros _. apply C in E. lia.
    + split; [|intros Hx; exfalso; apply E, C; lia]. destruct (_ && _); [|done]. intros [= Hx]. lia.
Qed.

(** ** Answers that are texts *)

Lemma SetString_at i s d : 0 <= i < lenZ d → SetString i s d = Ok (true, <[Z.to_nat i := match s with Some [] => None | _ => s end]> d).
Proof.
  intros Hi. unfold SetString, SetStringLen. replace ((i <? 0) || (lenZ d <=? i)) with false by lia. destruct s as [ [|c s]|]; [done| |done].
  rewrite lenZ_cons. pose proof (lenZ_nonneg s). replace (1 + lenZ s =? 0) with false by lia. replace (1 + lenZ s <? 0) with false by lia.
  rewrite take_ge; [done|]. unfold lenZ. cbn [length]. lia.
Qed.
Lemma SetStringInt_at i v d : int_range v → 0 <= i < lenZ d → SetStringInt i v d = Ok (true, <[Z.to_nat i := Some (take 8 (dec v))]> d).
Proof.
  intros Hv Hi. unfold SetStringInt, SetStringLen. replace ((i <? 0) || (lenZ d <=? i)) with false by lia.
  pose proof (dec_not_nil v Hv) as N. destruct (dec v) as [|c s] eqn:E; [done|]. cbn [take]. rewrite lenZ_cons. pose proof (lenZ_nonneg s).
  replace (1 + lenZ s =? 0) with false by lia. replace (1 + lenZ s <? 0) with false by lia. do 4 f_equal.
  rewrite take_ge; [done|]. unfold lenZ. cbn [length]. rewrite length_take. lia.
Qed.
Lemma GetString_insert i j x d : 0 <= i < lenZ d → RilDataStrings_GetString j (<[Z.to_nat i := x]> d) = if decide (j = i) then x else RilDataStrings_GetString j d.
Proof.
  intros Hi. unfold RilDataStrings_GetString, RilDataStrings in *. assert (lenZ (<[Z.to_nat i := x]> d) = lenZ d) as -> by (unfold lenZ; by rewrite length_insert).
  unfold lenZ in Hi. destruct (decide (j = i)) as [->|Hj].
  - replace ((i <? 0) || (lenZ d <=? i)) with false by (unfold lenZ; lia). rewrite list_lookup_total_insert_eq by lia. done.
  - destruct ((j <? 0) || (lenZ d <=? j)) eqn:E; [done|]. rewrite list_lookup_total_insert_ne by lia. done.
Qed.

(** C38: Numbers in an answer made of texts: a number put into such an answer is read
    back from its place, and from no other place, exactly when it has at most
    eight characters with its sign; every longer one is cut to eight and reads
    as another number. *)
Theorem answer_numbers i v (d : RilDataStrings) (Hv : int_range v) (Hi : 0 <= i < lenZ d) :
  ∃ d' t, SetStringInt i v d = Ok (true, d') ∧ RilDataStrings_GetString i d' = Some t ∧ t = take 8 (dec v) ∧
    (∀ j, j ≠ i → RilDataStrings_GetString j d' = RilDataStrings_GetString j d) ∧
    (to_int t = Ok v ↔ - 10 ^ 7 < v < 10 ^ 8).
Proof.
  eexists _, (take 8 (dec v)). split; [by apply SetStringInt_at|]. split; [rewrite GetString_insert by done; by rewrite decide_True|].
  split; [done|]. split; [|by apply (cut_number 8 v Hv)]. intros j Hj. rewrite GetString_insert by done. by rewrite decide_False.
Qed.
Lemma answer_numbers_witness : ∃ d' t, SetStringInt 1 123456789 (newRilDataStrings 3) = Ok (true, d') ∧ RilDataStrings_GetString 1 d' = Some t ∧ t = take 8 (dec 123456789) ∧
    (∀ j, j ≠ 1 → RilDataStrings_GetString j d' = RilDataStrings_GetString j (newRilDataStrings 3)) ∧
    (to_int t = Ok 123456789 ↔ - 10 ^ 7 < 123456789 < 10 ^ 8).
Proof. apply (answer_numbers 1 123456789 (newRilDataStrings 3)); [split; by_eval|by_eval]. Defined.
(** a signal strength of "not known" does not survive *)
Lemma int_max_cut : to_int (take 8 (dec INT_MAX)) = Ok 21474836 ∧ rds_string (RilDataString_SetInt INT_MAX newRilDataString) = Some (str "214748364").
Proof. split; vm_compute; reflexivity. Qed.

(** ** Copies *)

Lemma for_up_build {A} (f : Z → res A) (l : list A) n : lenZ l = Z.of_nat n → (∀ i x, l !! i = Some x → f (Z.of_nat i) = Ok x) →
  for_up n 0 (λ i r, v ← f i; Ok (r ++ [v])) [] = Ok l.
Proof.
  intros Hl Hf. destruct (for_up_inv (λ i r, r = take (Z.to_nat i) l) n 0 (λ i r, v ← f i; Ok (r ++ [v])) []) as (r & Er & Hr).
  - done.
  - intros i r Hi ->. destruct (lookup_lt_is_Some_2 l (Z.to_nat i)) as [x Hx]; [unfold lenZ in Hl; lia|]. exists (take (Z.to_nat (i + 1)) l).
    replace (Z.to_nat (i + 1)) with (S (Z.to_nat i)) by lia. rewrite (take_S_r _ _ x Hx). split; [|done].
    rewrite <- (Z2Nat.id i) at 1 by lia. by rewrite (Hf _ x Hx).
  - rewrite Er, Hr. f_equal. rewrite take_ge; [done|]. unfold lenZ in Hl. lia.
Qed.
Lemma decoded_again n : DECODE_REQUEST (DECODE_REQUEST n) = DECODE_REQUEST n.
Proof. unfold DECODE_REQUEST. by rewrite <- Z.land_assoc. Qed.
Lemma decoded_hal n : DECODE_HAL (DECODE_REQUEST n) = 0.
Proof.
  unfold DECODE_HAL, DECODE_REQUEST. change 0xFFFFFF with (Z.ones 24). rewrite Z.land_ones, Z.shiftr_div_pow2 by lia.
  rewrite Z.div_small; [done|]. apply Z.mod_pos_bound. lia.
Qed.
Lemma encoded_request id h : 0 <= id < 2 ^ 24 → 0 <= h < 256 → DECODE_REQUEST (ENCODE_REQUEST id h) = id ∧ DECODE_HAL (ENCODE_REQUEST id h) = h.
Proof.
  intros Hi Hh. unfold DECODE_REQUEST, DECODE_HAL, ENCODE_REQUEST. change 0xFFFFFF with (Z.ones 24). change 0xFF with (Z.ones 8).
  rewrite !(Z.land_ones id), !(Z.land_ones h) by lia. rewrite (Z.mod_small id), (Z.mod_small h) by lia.
  assert (Z.lor id (Z.shiftl h 24) = id + h * 2 ^ 24) as ->.
  { rewrite Z.shiftl_mul_pow2 by lia. symmetry. rewrite <- Z.lxor_lor; [apply Z.add_nocarry_lxor|]; apply Z.bits_inj'; intros k Hk;
    rewrite Z.land_spec, Z.bits_0; destruct (Z.lt_ge_cases k 24); [rewrite (Z.mul_pow2_bits_low h 24 k) by done; apply andb_false_r| |rewrite (Z.mul_pow2_bits_low h 24 k) by done; apply andb_false_r|];
    rewrite (testbit_high id 24 k) by done; done. }
  rewrite !Z.land_ones, Z.shiftr_div_pow2 by lia. split.
  - rewrite Z.mod_add by lia. by apply Z.mod_small.
  - rewrite Z.div_add by lia. rewrite Z.div_small by done. by apply Z.mod_small.
Qed.
(** what a copy of the base of a request keeps *)
Definition base_kept (r r' : RequestData) : Prop := m_nReq r' = m_nReq r ∧ m_tok r' = m_tok r ∧ m_reqType r' = m_reqType r.
Lemma base_clone nReq tok t : base_kept (newRequestData nReq tok t) (RequestData_Clone (newRequestData nReq tok t)) ∧ mHalVer (RequestData_Clone (newRequestData nReq tok t)) = 0.
Proof. unfold RequestData_Clone, base_kept. cbn. by rewrite decoded_again, decoded_hal. Qed.
(** the array of pointers that [encode] is given *)
Lemma strings_encoded ptr (p : list (option (list Z))) r : 0 < ptr → p ≠ [] → StringsRequestData_encode ptr (Some p) (lenZ p * ptr) r
  = Ok {| ssrd_base := ssrd_base r; m_nStringCount := lenZ p; m_ptrStrings := Some p |}.
Proof.
  intros Hp Hne. unfold StringsRequestData_encode. assert (0 < lenZ p) as Hl by (destruct p; [done|rewrite lenZ_cons; pose proof (lenZ_nonneg p); lia]).
  destruct (Z.eqb_spec (lenZ p * ptr) 0); [nia|]. rewrite Z.div_mul by lia. cbv zeta.
  etrans; [apply (bind_eq _ _ _ (for_up_build (λ i, p.[i]) p (Z.to_nat (lenZ p)) ltac:(lia) ltac:(intros i x Hx; apply rd_lookup; [lia|by rewrite Nat2Z.id])))|]. done.
Qed.
Lemma raw_encoded b r : b ≠ [] → RawRequestData_encode (Some b) (lenZ b) r = Ok {| rrd_base := rrd_base r; m_pRawReq := Some b; m_nRawSize := lenZ b |}.
Proof.
  intros Hb. unfold RawRequestData_encode. assert (0 < lenZ b) as Hl by (destruct b; [done|rewrite lenZ_cons; pose proof (lenZ_nonneg b); lia]).
  rewrite (proj2 (Z.ltb_lt _ _) Hl). rewrite rdn_ok by lia. cbn [mbind res_bind]. rewrite drop_0, take_ge; [done|]. unfold lenZ. lia.
Qed.

(** Copies of requests, as a message makes them when it goes to several services:
    the copy has the number, token and type of the request and, for one number,
    several numbers, several texts and raw bytes, exactly its data; but its HAL
    version is zero, and the copy of a request with a text is empty and empties
    the original too. *)
Theorem request_copies ptr id hal tok t n (ints : list Z) (p : list (option (list Z))) (b s : list Z)
  (Hid : 0 <= id < 2 ^ 24) (Hhal : 0 <= hal < 256) (Hptr : 0 < ptr) (Hp : p ≠ []) (Hfit : lenZ p * ptr < 2 ^ 32) (Hb : b ≠ []) (Hs : s ≠ []) :
  let nReq := ENCODE_REQUEST id hal in let r := newRequestData nReq tok t in
  mHalVer r = hal ∧ mHalVer (RequestData_Clone r) = 0 ∧ base_kept r (RequestData_Clone r) ∧ m_nReq r = id ∧
  m_nInt (IntRequestData_Clone {| ird_base := r; m_nInt := n |}) = n ∧
  (∀ i, IntsRequestData_GetInt i (IntsRequestData_Clone {| isrd_base := r; m_pInts := Some ints |}) = IntsRequestData_GetInt i {| isrd_base := r; m_pInts := Some ints |}) ∧
  (∃ q q', StringsRequestData_encode ptr (Some p) (lenZ p * ptr) (newStringsRequestData nReq tok t) = Ok q ∧ StringsRequestData_Clone ptr q = Ok q' ∧
     ∀ i, GetString i q = (if (0 <=? i) && (i <? lenZ p) then p !!! Z.to_nat i else None) ∧ GetString i q' = GetString i q) ∧
  (∃ q q', RawRequestData_encode (Some b) (lenZ b) {| rrd_base := r; m_pRawReq := None; m_nRawSize := 0 |} = Ok q ∧ RawRequestData_Clone q = Ok q' ∧
     m_pRawReq q = Some b ∧ m_pRawReq q' = Some b ∧ m_nRawSize q' = lenZ b) ∧
  (∃ q c o, StringRequestData_encode (Some s) (lenZ s + 1) (newStringRequestData nReq tok t) = (0, q) ∧ m_szData q = Some s ∧
     StringRequestData_Clone q = (c, o) ∧ m_szData c = Some [] ∧ m_szData o = Some []).
Proof.
  cbv zeta. destruct (encoded_request id hal Hid Hhal) as [E1 E2]. destruct (base_clone (ENCODE_REQUEST id hal) tok t) as [B1 B2].
  split; [exact E2|]. split; [exact B2|]. split; [exact B1|]. split; [exact E1|]. split; [done|]. split; [done|]. split; [|split].
  - rewrite strings_encoded by done. eexists _, _. split; [done|]. unfold StringsRequestData_Clone. cbn [m_ptrStrings m_nStringCount].
    pose proof (lenZ_nonneg p). rewrite u32_id by nia. rewrite strings_encoded by done. by split.
  - rewrite raw_encoded by done. eexists _, _. split; [done|]. unfold RawRequestData_Clone. cbn [m_pRawReq m_nRawSize]. by rewrite raw_encoded.
  - destruct s as [|c s]; [done|]. unfold StringRequestData_encode. pose proof (lenZ_nonneg (c :: s)). destruct (Z.eqb_spec (lenZ (c :: s) + 1) 0); [lia|]. by eexists _, _, _.
Qed.
Lemma request_copies_witness :
  mHalVer (newRequestData (ENCODE_REQUEST 27 0x14) 5 0) = 0x14 ∧ mHalVer (RequestData_Clone (newRequestData (ENCODE_REQUEST 27 0x14) 5 0)) = 0.
Proof.
  destruct (request_copies 8 27 0x14 5 0 1 [1; 2] [Some (str "a"); None] [1; 2; 3] (str "x")) as (H1 & H2 & _); [by_eval|by_eval|done..|].
  by split.
Defined.
