(* ===== verification/Uplmn.v ===== *)
(** The user's preferred networks: the table of [core/service/uplmnselector.cpp],
    the requests that set one and that list them in
    [core/service/networkservice.cpp], their packets in
    [protocol/sit/protocolnetbuilder.cpp] and
    [protocol/sit/protocolnetadapter.cpp], and the answer of
    [fw/netdatabuilder.cpp]. *)
From stdpp Require Import gmap.
From S2P Require Import Prelude RilDef Text WaitList Network Rcm Layout RilData.

Definition UPLMN_INDEX_INVALID : Z := 0x7FFFFFFF.
Definition UPLMN_INDEX_MAX : Z := 149.
Definition UPLMN_MODE_INVALID : Z := 0.
Definition UPLMN_MODE_ADD : Z := 1.
Definition UPLMN_MODE_EDIT : Z := 2.
Definition UPLMN_MODE_DELETE : Z := 3.
Definition UPLMN_ACT_BIT_UNKNOWN : Z := 0.
Definition UPLMN_ACT_BIT_ALL : Z := 15.
(** the text of at most six characters in the array of seven *)
Record PreferredPlmn := { pp_index : Z; pp_plmn : list Z; pp_act : Z }.
#[export] Instance PreferredPlmn_eq_dec : EqDecision PreferredPlmn.
Proof. solve_decision. Defined.

(** ** UplmnSelector *)

Definition IsValidUplmnAct (act : Z) : bool := Z.land act (Z.lnot UPLMN_ACT_BIT_ALL) =? 0.
Definition IsValidUplmnMode (mode : Z) : bool := (mode =? UPLMN_MODE_ADD) || (mode =? UPLMN_MODE_EDIT) || (mode =? UPLMN_MODE_DELETE).
Definition IsValidPlmn (plmn : option (list Z)) : bool :=
  match plmn with Some p => negb (IsEmpty plmn) && ((lenZ p =? 5) || (lenZ p =? 6)) | None => false end.
Definition IsValidIndex (index : Z) : bool := negb ((index <? 0) || (UPLMN_INDEX_MAX <? index) || (index =? UPLMN_INDEX_INVALID)).

Record UplmnSelector := {
  m_PreferredPlmn : gmap Z PreferredPlmn; m_Prepared : bool;
  m_OnTransaction : bool; m_TransactionMode : Z; m_TransactionPlmn : PreferredPlmn
}.
Definition no_plmn : PreferredPlmn := {| pp_index := UPLMN_INDEX_INVALID; pp_plmn := []; pp_act := 0 |}.
Definition newUplmnSelector : UplmnSelector :=
  {| m_PreferredPlmn := ∅; m_Prepared := false; m_OnTransaction := false; m_TransactionMode := UPLMN_MODE_INVALID;
     m_TransactionPlmn := {| pp_index := 0; pp_plmn := []; pp_act := 0 |} |}.
Definition set_table (m : gmap Z PreferredPlmn) (prepared : bool) (s : UplmnSelector) : UplmnSelector :=
  {| m_PreferredPlmn := m; m_Prepared := prepared; m_OnTransaction := m_OnTransaction s; m_TransactionMode := m_TransactionMode s;
     m_TransactionPlmn := m_TransactionPlmn s |}.
Definition set_transaction (on : bool) (p : PreferredPlmn) (s : UplmnSelector) : UplmnSelector :=
  {| m_PreferredPlmn := m_PreferredPlmn s; m_Prepared := m_Prepared s; m_OnTransaction := on; m_TransactionMode := m_TransactionMode s;
     m_TransactionPlmn := p |}.

Definition GetCount (s : UplmnSelector) : Z := if m_Prepared s then Z.of_nat (size (m_PreferredPlmn s)) else 0.
Definition IsExists (index : Z) (s : UplmnSelector) : bool :=
  if m_Prepared s then if (index <? 0) || (UPLMN_INDEX_MAX <? index) then false else bool_decide (is_Some (m_PreferredPlmn s !! index)) else false.
(** the checks [Set] and [Modify] share *)
Definition storable (p : PreferredPlmn) : bool :=
  negb (pp_index p =? UPLMN_INDEX_INVALID) && negb ((pp_index p <? 0) || (UPLMN_INDEX_MAX <? pp_index p)) && negb (IsEmpty (Some (pp_plmn p)))
  && IsValidUplmnAct (pp_act p).
Definition SetPlmn (p : PreferredPlmn) (s : UplmnSelector) : bool * UplmnSelector :=
  if storable p && negb (IsExists (pp_index p) s) then (true, set_table (<[pp_index p := p]> (m_PreferredPlmn s)) (m_Prepared s) s) else (false, s).
(** five digits end in a ['#'] on the SIM *)
Definition without_hash (t : list Z) : list Z := if bool_decide (t !! 5%nat = Some 35) then take 5 t else t.
Definition SetPlmnFields (index : Z) (plmn : option (list Z)) (act : Z) (s : UplmnSelector) : bool * UplmnSelector :=
  if IsEmpty plmn then (false, s)
  else SetPlmn {| pp_index := index; pp_plmn := without_hash (take (Z.to_nat MAX_PLMN_LEN) (default [] plmn)); pp_act := act |} s.
Definition count_step (f : PreferredPlmn → UplmnSelector → bool * UplmnSelector) (t : Z * UplmnSelector) (p : PreferredPlmn) : Z * UplmnSelector :=
  let '(b, s) := f p t.2 in ((if b : bool then t.1 + 1 else t.1), s).
(** [Set] and [Modify] of an array *)
Definition SetPlmns (l : option (list PreferredPlmn)) (s : UplmnSelector) : Z * UplmnSelector :=
  match l with
  | Some l => if UPLMN_INDEX_MAX <? lenZ l then (0, s) else foldl (count_step SetPlmn) (0, s) l
  | None => (0, s)
  end.
Definition ModifyPlmn (p : PreferredPlmn) (s : UplmnSelector) : bool * UplmnSelector :=
  if m_Prepared s && storable p && IsExists (pp_index p) s then (true, set_table (<[pp_index p := p]> (m_PreferredPlmn s)) (m_Prepared s) s) else (false, s).
Definition ModifyPlmns (l : option (list PreferredPlmn)) (s : UplmnSelector) : Z * UplmnSelector :=
  if negb (m_Prepared s) then (0, s)
  else match l with
       | Some l => if UPLMN_INDEX_MAX <? lenZ l then (0, s) else foldl (count_step ModifyPlmn) (0, s) l
       | None => (0, s)
       end.
Definition RemovePlmn (index : Z) (s : UplmnSelector) : UplmnSelector :=
  if m_Prepared s then set_table (delete index (m_PreferredPlmn s)) (m_Prepared s) s else s.
Definition GetPlmn (index : Z) (s : UplmnSelector) : PreferredPlmn :=
  match m_PreferredPlmn s !! index with Some p => if m_Prepared s then p else no_plmn | None => no_plmn end.
Definition IsEmptySelector (s : UplmnSelector) : bool := if m_Prepared s then bool_decide (m_PreferredPlmn s = ∅) else true.
Definition ClearPlmns (s : UplmnSelector) : UplmnSelector := set_table ∅ (m_Prepared s) s.
Definition GetList (s : UplmnSelector) : list PreferredPlmn :=
  if m_Prepared s then (λ i, GetPlmn i s) <$> filter (λ i, IsExists i s = true) (seqZ 0 (UPLMN_INDEX_MAX + 1)) else [].
(** [UPLMN_ALLOW_ALWAYS] is 1 *)
Definition Prepared (s : UplmnSelector) : bool := true.
Definition Prepare (s : UplmnSelector) : UplmnSelector := set_table (m_PreferredPlmn s) true s.
Definition ResetSelector (s : UplmnSelector) : UplmnSelector := set_table ∅ false s.
Definition ClearTransaction (s : UplmnSelector) : UplmnSelector := set_transaction false no_plmn s.
(** the mode is checked and not stored *)
Definition SetTransaction (mode index : Z) (plmn : option (list Z)) (act : Z) (s : UplmnSelector) : bool * UplmnSelector :=
  if IsValidUplmnMode mode && IsValidIndex index && IsValidPlmn plmn && IsValidUplmnAct act
  then (true, set_transaction true {| pp_index := index; pp_plmn := take (Z.to_nat MAX_PLMN_LEN) (default [] plmn); pp_act := act |} (ClearTransaction s))
  else (false, s).
Definition Commit (s : UplmnSelector) : UplmnSelector :=
  ClearTransaction
    (if m_OnTransaction s
     then if m_TransactionMode s =? UPLMN_MODE_ADD then (SetPlmn (m_TransactionPlmn s) s).2
          else if m_TransactionMode s =? UPLMN_MODE_EDIT then (ModifyPlmn (m_TransactionPlmn s) s).2
          else if m_TransactionMode s =? UPLMN_MODE_DELETE then RemovePlmn (pp_index (m_TransactionPlmn s)) s
          else s
     else s).
Definition Cancel (s : UplmnSelector) : UplmnSelector := ClearTransaction s.

(** ** The packets *)

Definition SIT_SET_UPLMN : Z := 0x714.
Definition SIT_GET_UPLMN : Z := 0x715.
(** [sit_net_set_uplmn_req]: mode 12, index 13, plmn 14, act 20 *)
Definition sizeof_set_uplmn_req : Z := 21.
Definition BuildSetUplmn (block : list Z) (m_nToken mode index : Z) (plmn : option (list Z)) (act : Z) : res (option (list Z) * Z) :=
  t ← InitRequestHeader m_nToken block SIT_SET_UPLMN sizeof_set_uplmn_req;
  let '(req, m_nToken) := t in
  if negb (IsValidUplmnMode mode) then Ok (None, m_nToken)
  else
    req ← req.[12 <- Z.land mode 255];
    if negb (IsValidIndex index) then Ok (None, m_nToken)
    else
      req ← req.[13 <- Z.land index 255];
      if (mode =? UPLMN_MODE_ADD) || (mode =? UPLMN_MODE_EDIT)
      then
        if negb (IsValidPlmn plmn) then Ok (None, m_nToken)
        else
          req ← wrn req 14 (fill 6 0);
          b ← rdn (default [] plmn ++ [0]) 0 MAX_PLMN_LEN;
          req ← wrn req 14 b;
          c ← req.[19];
          req ← (if c =? 0 then req.[19 <- 35] else Ok req);
          req ← req.[20 <- if IsValidUplmnAct act then Z.land act 255 else UPLMN_ACT_BIT_UNKNOWN];
          Ok (Some req, m_nToken)
      else if mode =? UPLMN_MODE_DELETE
      then req ← wrn req 14 (fill 6 0); req ← req.[20 <- 0]; Ok (Some req, m_nToken)
      else Ok (None, m_nToken).
Definition BuildGetUplmn (block : list Z) (m_nToken : Z) : res (list Z * Z) := InitRequestHeader m_nToken block SIT_GET_UPLMN 12.

Section adapter.
Variable m_pModemData : option (list Z).
(** [sit_net_get_uplmn_rsp]: plmn_list_num 12, then items of eight bytes: index, plmn, act *)
Definition GetSize : res Z :=
  match m_pModemData with
  | None => Ok 0
  | Some raw =>
    e ← Rcm.GetErrorCode m_pModemData;
    if negb (e =? RIL_E_SUCCESS) then Ok 0
    else
      i ← rd16 raw off_id;
      if negb (i =? SIT_GET_UPLMN) then Ok 0
      else n ← rd32 raw 12; Ok (if i32 n <? 0 then 0 else i32 n)
  end.
Definition GetPreferrecPlmn (index : Z) : res (option PreferredPlmn) :=
  if index <? 0 then Ok None
  else
    match m_pModemData with
    | None => Ok None
    | Some raw =>
      e ← Rcm.GetErrorCode m_pModemData;
      if negb (e =? RIL_E_SUCCESS) then Ok None
      else
        i ← rd16 raw off_id;
        if negb (i =? SIT_GET_UPLMN) then Ok None
        else
          n ← rd32 raw 12;
          if (index <? 0) || (i32 n <? index) then Ok None
          else
            let item := 16 + 8 * index in
            x ← raw.[item]; b ← rdn raw (item + 1) 6; a ← raw.[item + 7];
            Ok (Some {| pp_index := x; pp_plmn := cstr (without_hash b); pp_act := a |})
    end.
End adapter.
(** [NetworkDataUplmnListBuilder::Build] *)
Definition build_plmn (t : Z * RilDataStrings) (p : PreferredPlmn) : res (Z * RilDataStrings) :=
  let '(i, d) := t in
  r ← SetStringInt (i * 3 + 1) (pp_index p) d;
  r ← SetString (i * 3 + 2) (Some (pp_plmn p)) r.2;
  r ← SetStringInt (i * 3 + 3) (pp_act p) r.2;
  Ok (i + 1, r.2).
Fixpoint build_plmns (l : list PreferredPlmn) (t : Z * RilDataStrings) : res (Z * RilDataStrings) :=
  match l with [] => Ok t | p :: l => t ← build_plmn t p; build_plmns l t end.
Definition BuildUplmnList (mList : list PreferredPlmn) (maxNum : Z) : res RilDataStrings :=
  r ← SetStringInt 0 maxNum (newRilDataStrings (lenZ mList * 3 + 1));
  t ← build_plmns mList (0, r.2);
  Ok t.2.

(** ** The requests *)

Definition text_or (s : option (list Z)) (default : Z) : res Z := match s with Some (c :: t) => to_int (c :: t) | _ => Ok default end.
(** what the handler returns and the packet it sends; the modem's part of [SendRequest] is left out: a packet that is built is sent *)
Definition DoSetUplmn (block : list Z) (m_nToken : Z) (rildata : option StringsRequestData) : res (Z * option (list Z) * Z) :=
  match rildata with
  | None => Ok (-1, None, m_nToken)
  | Some r =>
    mode ← text_or (GetString 0 r) UPLMN_MODE_INVALID;
    index ← text_or (GetString 1 r) UPLMN_INDEX_INVALID;
    if IsValidUplmnMode mode && IsValidIndex index
    then
      t ← (if (mode =? UPLMN_MODE_ADD) || (mode =? UPLMN_MODE_EDIT)
           then act ← text_or (GetString 3 r) UPLMN_ACT_BIT_UNKNOWN; Ok (GetString 2 r, act)
           else Ok (None, UPLMN_ACT_BIT_UNKNOWN));
      let '(plmn, act) := t in
      if ((mode =? UPLMN_MODE_ADD) || (mode =? UPLMN_MODE_EDIT)) && negb (IsValidUplmnAct act) then Ok (-1, None, m_nToken)
      else
        t ← BuildSetUplmn block m_nToken mode index plmn act;
        let '(p, m_nToken) := t in
        Ok (match p with Some _ => 0 | None => -1 end, p, m_nToken)
    else Ok (-1, None, m_nToken)
  end.
(** the results of the request *)
Definition OnSetUplmnDone (m_pModemData : option (list Z)) (s : UplmnSelector) : res (Z * UplmnSelector) :=
  e ← Rcm.GetErrorCode m_pModemData;
  Ok (if e =? RIL_E_SUCCESS then (RIL_E_SUCCESS, s) else (RIL_E_GENERIC_FAILURE, Cancel s)).
Definition OnGetUplmnDone (m_pModemData : option (list Z)) (s : UplmnSelector) : res (Z * RilDataStrings * UplmnSelector) :=
  size ← GetSize m_pModemData;
  l ← for_up (Z.to_nat size) 0 (λ i l, o ← GetPreferrecPlmn m_pModemData i; Ok (match o with Some p => l ++ [p] | None => l end)) [];
  d ← BuildUplmnList l size;
  Ok (RIL_E_SUCCESS, d, Prepare (ResetSelector s)).
