(* ===== verification/UplmnTheorems.v ===== *)
(** The preferred networks: the table keeps its invariant, a request is sent
    exactly when its fields are good, and what is set is what a list answer
    gives back. *)
From stdpp Require Import gmap sorting.
From S2P Require Import Prelude RilDef Text WaitList Network Rcm Layout RilData RilDataTheorems Uplmn.

(** ** The table *)

(** every call of the selector that changes it *)
Inductive selector_op :=
| OpSet (p : PreferredPlmn) | OpSetFields (index : Z) (plmn : option (list Z)) (act : Z) | OpSetArray (l : option (list PreferredPlmn))
| OpModify (p : PreferredPlmn) | OpModifyArray (l : option (list PreferredPlmn)) | OpRemove (index : Z) | OpClear | OpPrepare | OpReset
| OpSetTransaction (mode index : Z) (plmn : option (list Z)) (act : Z) | OpCommit | OpCancel.
Definition do_op (o : selector_op) (s : UplmnSelector) : UplmnSelector :=
  match o with
  | OpSet p => (SetPlmn p s).2 | OpSetFields i t a => (SetPlmnFields i t a s).2 | OpSetArray l => (SetPlmns l s).2
  | OpModify p => (ModifyPlmn p s).2 | OpModifyArray l => (ModifyPlmns l s).2 | OpRemove i => RemovePlmn i s | OpClear => ClearPlmns s
  | OpPrepare => Prepare s | OpReset => ResetSelector s
  | OpSetTransaction m i t a => (SetTransaction m i t a s).2 | OpCommit => Commit s | OpCancel => Cancel s
  end.
Definition run_ops (l : list selector_op) : UplmnSelector := foldl (λ s o, do_op o s) newUplmnSelector l.

(** an entry lies at its own index and could be stored again; no mode is ever kept *)
Record selector_ok (s : UplmnSelector) : Prop := {
  ok_entries : map_Forall (λ i p, pp_index p = i ∧ storable p = true) (m_PreferredPlmn s);
  ok_mode : m_TransactionMode s = UPLMN_MODE_INVALID
}.
Lemma storable_spec p : storable p = true ↔ 0 <= pp_index p <= UPLMN_INDEX_MAX ∧ pp_plmn p ≠ [] ∧ IsValidUplmnAct (pp_act p) = true.
Proof.
  unfold storable, UPLMN_INDEX_INVALID, UPLMN_INDEX_MAX. rewrite !andb_true_iff, !negb_true_iff. destruct (pp_plmn p); cbn [IsEmpty]; split.
  - by intros (((?&?)&?)&?).
  - by intros (?&?&?).
  - intros (((?&?)&?)&?). split; [lia|]. by split.
  - intros (?&_&?). split; [|done]. split; [lia|done].
Qed.
Lemma table_ok m prepared s : selector_ok s → map_Forall (λ i p, pp_index p = i ∧ storable p = true) m → selector_ok (set_table m prepared s).
Proof. intros [H1 H2] Hm. by split. Qed.
Lemma transaction_ok on p s : selector_ok s → selector_ok (set_transaction on p s).
Proof. intros [H1 H2]. by split. Qed.
Lemma SetPlmn_ok p s : selector_ok s → selector_ok (SetPlmn p s).2.
Proof.
  intros H. unfold SetPlmn. destruct (storable p) eqn:Es; cbn [andb]; [|done]. destruct (negb _); [|done]. apply table_ok; [done|].
  apply map_Forall_insert_2; [done|]. apply H.
Qed.
Lemma ModifyPlmn_ok p s : selector_ok s → selector_ok (ModifyPlmn p s).2.
Proof.
  intros H. unfold ModifyPlmn. destruct (storable p) eqn:Es; [|by rewrite andb_false_r]. destruct (_ && _); [|done]. apply table_ok; [done|].
  apply map_Forall_insert_2; [done|]. apply H.
Qed.
Lemma count_ok f (l : list PreferredPlmn) t : (∀ p s, selector_ok s → selector_ok (f p s).2) → selector_ok t.2 → selector_ok (foldl (count_step f) t l).2.
Proof.
  intros Hf. revert t. induction l as [|p l IH]; intros [n s] H; [done|]. apply IH. unfold count_step. cbn [snd] in *. specialize (Hf p s H). by destruct (f p s).
Qed.
Lemma RemovePlmn_ok i s : selector_ok s → selector_ok (RemovePlmn i s).
Proof. intros H. unfold RemovePlmn. destruct (m_Prepared s); [|done]. apply table_ok; [done|]. by apply map_Forall_delete, H. Qed.
Lemma Commit_table s : selector_ok s → Commit s = ClearTransaction s.
Proof. intros [_ H]. unfold Commit. rewrite H. by destruct (m_OnTransaction s). Qed.
Lemma do_op_ok o s : selector_ok s → selector_ok (do_op o s).
Proof.
  intros H. destruct o as [p|i t a|l|p|l|i| | | |m i t a| |]; cbn [do_op].
  - by apply SetPlmn_ok.
  - unfold SetPlmnFields. destruct (IsEmpty t); [done|]. by apply SetPlmn_ok.
  - unfold SetPlmns. destruct l; [|done]. destruct (_ <? _); [done|]. apply count_ok; [apply SetPlmn_ok|done].
  - by apply ModifyPlmn_ok.
  - unfold ModifyPlmns. destruct (negb _); [done|]. destruct l; [|done]. destruct (_ <? _); [done|]. apply count_ok; [apply ModifyPlmn_ok|done].
  - by apply RemovePlmn_ok.
  - by apply table_ok, map_Forall_empty.
  - apply table_ok; [done|]. apply H.
  - by apply table_ok, map_Forall_empty.
  - unfold SetTransaction. destruct (_ && _); [|done]. by do 2 apply transaction_ok.
  - rewrite Commit_table by done. by apply transaction_ok.
  - by apply transaction_ok.
Qed.
Lemma run_ops_ok l : selector_ok (run_ops l).
Proof.
  unfold run_ops. assert (selector_ok newUplmnSelector) as H by by split; [apply map_Forall_empty|]. revert H. generalize newUplmnSelector.
  induction l as [|o l IH]; intros s H; [done|]. by apply IH, do_op_ok.
Qed.

(** ** The list *)

Definition indices (s : UplmnSelector) : list Z := filter (λ i, IsExists i s = true) (seqZ 0 (UPLMN_INDEX_MAX + 1)).
Lemma elem_of_indices i s : m_Prepared s = true → i ∈ indices s ↔ 0 <= i <= UPLMN_INDEX_MAX ∧ is_Some (m_PreferredPlmn s !! i).
Proof.
  intros Hp. unfold indices. rewrite list_elem_of_filter, elem_of_seqZ. unfold IsExists, UPLMN_INDEX_MAX. rewrite Hp. split.
  - intros [H Hi]. split; [lia|]. replace ((i <? 0) || (149 <? i)) with false in H by lia. by apply bool_decide_eq_true in H.
  - intros [Hi H]. split; [|lia]. replace ((i <? 0) || (149 <? i)) with false by lia. by apply bool_decide_eq_true.
Qed.
Lemma indices_sorted s : StronglySorted Z.lt (indices s).
Proof.
  unfold indices. assert (∀ n m, StronglySorted Z.lt (seqZ m (Z.of_nat n))) as H.
  { induction n as [|n IH]; intros m; [constructor|]. rewrite Nat2Z.inj_succ, seqZ_cons by lia. replace (Z.pred (Z.succ (Z.of_nat n))) with (Z.of_nat n) by lia.
    constructor; [done|]. apply Forall_forall. intros x Hx. apply elem_of_seqZ in Hx. lia. }
  specialize (H 150%nat 0). change (UPLMN_INDEX_MAX + 1) with (Z.of_nat 150). induction H as [|x l H IH Hx]; [constructor|].
  rewrite filter_cons. case_decide; [|done]. constructor; [done|]. apply Forall_forall. intros y Hy. apply list_elem_of_filter in Hy as [_ Hy].
  by eapply Forall_forall in Hx.
Qed.
Lemma indices_nodup s : NoDup (indices s).
Proof.
  pose proof (indices_sorted s) as H. induction H as [|x l H IH Hx]; constructor; [|done]. intros Hin. eapply Forall_forall in Hx; [|done]. lia.
Qed.
Lemma size_indices s : selector_ok s → m_Prepared s = true → size (m_PreferredPlmn s) = length (indices s).
Proof.
  intros Hs Hp. rewrite <- size_dom. transitivity (size (list_to_set (indices s) : gset Z)); [|by apply size_list_to_set, indices_nodup].
  f_equal. apply leibniz_equiv. intros i. rewrite elem_of_list_to_set, elem_of_indices, elem_of_dom by done.
  split; [|by intros [_ H] ]. intros [p Hi]. split; [|by exists p]. destruct (ok_entries s Hs i p Hi) as [<- H]. by apply storable_spec in H as [? _].
Qed.
Lemma IsValidUplmnAct_spec a : IsValidUplmnAct a = true ↔ 0 <= a <= UPLMN_ACT_BIT_ALL.
Proof.
  unfold IsValidUplmnAct, UPLMN_ACT_BIT_ALL. change 15 with (Z.ones 4). rewrite <- Z.ldiff_land, Z.ldiff_ones_r, Z.shiftl_mul_pow2, Z.shiftr_div_pow2 by done.
  change (Z.ones 4) with 15. change (2 ^ 4) with 16. rewrite Z.eqb_eq. lia.
Qed.
Lemma GetPlmn_at s i : selector_ok s → m_Prepared s = true → is_Some (m_PreferredPlmn s !! i) → m_PreferredPlmn s !! i = Some (GetPlmn i s) ∧ pp_index (GetPlmn i s) = i.
Proof. intros Hs Hp [p Hi]. unfold GetPlmn. rewrite Hi, Hp. split; [done|]. by destruct (ok_entries s Hs i p Hi). Qed.

(** The table of preferred networks, after any calls in any order: every entry lies
    at its own index between 0 and 149 and has a network code and a known access
    technology; the list has every entry once, in the order of the indices, and
    as many as are counted; and the end of a transaction changes no entry,
    whatever the transaction was to do. *)
Theorem selector_table (l : list selector_op) :
  let s := run_ops l in
  (∀ i p, m_PreferredPlmn s !! i = Some p → pp_index p = i ∧ 0 <= i <= UPLMN_INDEX_MAX ∧ pp_plmn p ≠ [] ∧ 0 <= pp_act p <= UPLMN_ACT_BIT_ALL) ∧
  GetCount s = lenZ (GetList s) ∧ StronglySorted Z.lt (pp_index <$> GetList s) ∧
  (∀ p, p ∈ GetList s ↔ m_Prepared s = true ∧ m_PreferredPlmn s !! pp_index p = Some p) ∧
  m_PreferredPlmn (Commit s) = m_PreferredPlmn s.
Proof.
  cbv zeta. pose proof (run_ops_ok l) as Hs. set (s := run_ops l) in *. clearbody s. split; [|split; [|split; [|split] ] ].
  - intros i p Hi. destruct (ok_entries s Hs i p Hi) as [E H]. split; [done|]. subst i. apply storable_spec in H as (? & ? & ?). by rewrite IsValidUplmnAct_spec in *.
  - unfold GetCount, GetList. destruct (m_Prepared s) eqn:Hp; [|done]. rewrite size_indices by done. unfold lenZ. by rewrite length_fmap.
  - unfold GetList. destruct (m_Prepared s) eqn:Hp; [|constructor]. fold (indices s). rewrite <- list_fmap_compose.
    assert (pp_index ∘ (λ i, GetPlmn i s) <$> indices s = id <$> indices s) as ->; [|rewrite list_fmap_id; apply indices_sorted].
    apply list_fmap_ext. intros k i Hi. cbn. apply list_elem_of_lookup_2, elem_of_indices in Hi as [_ Hi]; [|done]. by apply GetPlmn_at.
  - intros p. unfold GetList. destruct (m_Prepared s) eqn:Hp; [|by split; [intros ?%elem_of_nil|intros [? _] ] ].
    fold (indices s). rewrite list_elem_of_fmap. split.
    + intros (i & -> & Hi). apply elem_of_indices in Hi as [_ Hi]; [|done]. destruct (GetPlmn_at s i) as [H ->]; done.
    + intros [_ Hi]. exists (pp_index p). unfold GetPlmn. rewrite Hi, Hp. split; [done|]. apply elem_of_indices; [done|]. split; [|by exists p].
      destruct (ok_entries s Hs _ p Hi) as [_ H]. by apply storable_spec in H as [? _].
  - by rewrite Commit_table.
Qed.
(** a transaction that adds a network adds none *)
Example transaction_lost : let s := run_ops [OpPrepare; OpSetTransaction UPLMN_MODE_ADD 3 (Some (str "45005")) 8; OpCommit] in
  m_OnTransaction (run_ops [OpPrepare; OpSetTransaction UPLMN_MODE_ADD 3 (Some (str "45005")) 8]) = true ∧ GetList s = [].
Proof. split; vm_compute; reflexivity. Qed.

(** ** The request that sets one *)

Lemma IsValidUplmnMode_spec m : IsValidUplmnMode m = true ↔ 1 <= m <= 3.
Proof. unfold IsValidUplmnMode, UPLMN_MODE_ADD, UPLMN_MODE_EDIT, UPLMN_MODE_DELETE. lia. Qed.
Lemma IsValidIndex_spec i : IsValidIndex i = true ↔ 0 <= i <= UPLMN_INDEX_MAX.
Proof. unfold IsValidIndex, UPLMN_INDEX_MAX, UPLMN_INDEX_INVALID. lia. Qed.
(** the last of the six characters of five digits is a ['#'] *)
Definition plmn_field (p : list Z) : list Z := if lenZ p =? 5 then p ++ [35] else p.
Definition item_of (mode index : Z) (plmn : list Z) (act : Z) : list Z :=
  if mode =? UPLMN_MODE_DELETE then [Z.land index 255] ++ fill 6 0 ++ [0] else [Z.land index 255] ++ plmn_field plmn ++ [Z.land act 255].
Definition set_frame (token mode index : Z) (plmn : list Z) (act : Z) : list Z :=
  header_bytes SIT_SET_UPLMN sizeof_set_uplmn_req token ++ [Z.land mode 255] ++ item_of mode index plmn act.
Definition good_request (mode index : Z) (plmn : option (list Z)) (act : Z) : bool :=
  IsValidUplmnMode mode && IsValidIndex index && ((mode =? UPLMN_MODE_DELETE) || (IsValidPlmn plmn && IsValidUplmnAct act)).
Lemma list6 {A} (l : list A) : lenZ l = 6 → ∃ a b c d e f, l = [a; b; c; d; e; f].
Proof. unfold lenZ. intros H. destruct l as [|a [|b [|c [|d [|e [|f [|] ] ] ] ] ] ]; cbn in H; try lia. by repeat eexists. Qed.
Lemma list5 {A} (l : list A) : lenZ l = 5 → ∃ a b c d e, l = [a; b; c; d; e].
Proof. unfold lenZ. intros H. destruct l as [|a [|b [|c [|d [|e [|] ] ] ] ] ]; cbn in H; try lia. by repeat eexists. Qed.
Lemma block21 (l : list Z) : lenZ l = sizeof_set_uplmn_req → ∃ h m i p a, l = concat [h; [m]; [i]; p; [a] ] ∧ lenZ h = sizeof_RCM_HEADER ∧ lenZ p = 6.
Proof.
  intros Hl. unfold lenZ, sizeof_set_uplmn_req in Hl. exists (take 12 l), (l !!! 12%nat), (l !!! 13%nat), (take 6 (drop 14 l)), (l !!! 20%nat).
  cbn [concat]. split; [|split; unfold lenZ; rewrite length_take, ?length_drop; change sizeof_RCM_HEADER with 12; lia].
  do 21 (destruct l as [|? l]; [cbn in Hl; lia|]). by destruct l; [|cbn in Hl; lia].
Qed.
Ltac fields := cbn [take size_of foldr app]; change sizeof_RCM_HEADER with 12 in *; unfold lenZ, fill in *; rewrite ?length_app, ?length_replicate; cbn [length]; lia.
Ltac put_field k :=
  first [ match goal with |- context [wr (concat ?fs) ?off ?v] => rewrite (wr_chunk fs k _ v off eq_refl) by fields end
        | match goal with |- context [wrn (concat ?fs) ?off ?x] => rewrite (wrn_chunk fs k _ x off eq_refl) by (fields || reflexivity) end ];
  cbn [mbind res_bind insert list_insert].
(** the characters of a code and the ['#'] that may follow *)
Lemma fill_plmn h m i p0 a p : lenZ h = sizeof_RCM_HEADER → lenZ p0 = 6 → nonul p → IsValidPlmn (Some p) = true →
  (req ← wrn (concat [h; [m]; [i]; p0; [a] ]) 14 (fill 6 0); b ← rdn (p ++ [0]) 0 MAX_PLMN_LEN; req ← wrn req 14 b; c ← req.[19];
   if c =? 0 then req.[19 <- 35] else Ok req) = Ok (concat [h; [m]; [i]; plmn_field p; [a] ]).
Proof.
  intros Hh H0 Hp Hv. put_field 3%nat. unfold IsValidPlmn in Hv. apply andb_true_iff in Hv as [_ Hv]. unfold plmn_field, MAX_PLMN_LEN.
  assert (∀ x, lenZ x = 6 → (concat [h; [m]; [i]; x; [a] ]).[19] = x.[5]) as Hat.
  { intros x Hx. cbn [concat]. rewrite <- (rd_local (h ++ [m] ++ [i]) x ([a] ++ []) 14 5); [|rewrite lenZ_app, Hh; done|by rewrite Hx].
    by rewrite <- !app_assoc. }
  destruct (Z.eqb_spec (lenZ p) 5) as [H5|H5].
  - apply list5 in H5 as (b & c & d & e & f & ->). change (rdn _ 0 6) with (Ok [b; c; d; e; f; 0]). cbn [mbind res_bind]. put_field 3%nat.
    rewrite Hat by done. change ([b; c; d; e; f; 0].[5]) with (Ok 0). cbn [mbind res_bind Z.eqb]. cbn [concat].
    pose proof (wr_at (h ++ [m] ++ [i] ++ [b; c; d; e; f]) (0 :: [a] ++ []) 35 19) as W. rewrite <- !app_assoc in W. cbn [app] in *. rewrite W; [done| |done].
    rewrite lenZ_app, Hh. done.
  - assert (lenZ p = 6) as H6 by lia. apply list6 in H6 as (b & c & d & e & f & g & ->). change (rdn _ 0 6) with (Ok [b; c; d; e; f; g]). cbn [mbind res_bind]. put_field 3%nat.
    rewrite Hat by done. change ([b; c; d; e; f; g].[5]) with (Ok g). cbn [mbind res_bind]. do 5 apply Forall_inv_tail in Hp. apply Forall_inv in Hp. by rewrite (proj2 (Z.eqb_neq g 0)).
Qed.
Lemma BuildSetUplmn_spec block tok mode index plmn act : lenZ block = sizeof_set_uplmn_req → (∀ p, plmn = Some p → nonul p) →
  mode = UPLMN_MODE_DELETE ∨ IsValidUplmnAct act = true →
  BuildSetUplmn block tok mode index plmn act
  = Ok (if good_request mode index plmn act then Some (set_frame (GetNext tok).1 mode index (default [] plmn) act) else None, (GetNext tok).2).
Proof.
  intros Hb Hn Ha. apply block21 in Hb as (h & m & i & p0 & a & -> & Hh & H0). unfold BuildSetUplmn, good_request, set_frame, item_of. rewrite header_chunk by done. cbn [mbind res_bind].
  set (t := header_bytes _ _ _). assert (lenZ t = sizeof_RCM_HEADER) as Ht by done. clearbody t.
  destruct (IsValidUplmnMode mode) eqn:Em; cbn [negb andb]; [|done]. put_field 1%nat.
  destruct (IsValidIndex index) eqn:Ei; cbn [negb andb]; [|done]. put_field 2%nat.
  apply IsValidUplmnMode_spec in Em. unfold UPLMN_MODE_ADD, UPLMN_MODE_EDIT, UPLMN_MODE_DELETE in *.
  destruct (Z.eqb_spec mode 3) as [->|H3]; cbn [orb].
  - change (_ || _) with false. cbv iota. put_field 3%nat. put_field 4%nat. done.
  - replace ((mode =? 1) || (mode =? 2)) with true by lia. destruct Ha as [?|Ha]; [done|]. rewrite Ha, andb_true_r.
    destruct (IsValidPlmn plmn) eqn:Ep; cbn [negb]; [|done]. destruct plmn as [p|]; [|done]. cbn [from_option]; unfold id.
    pose proof (fill_plmn t (Z.land mode 255) (Z.land index 255) p0 a p Ht H0 (Hn p eq_refl) Ep) as F.
    apply bind_ok in F as (r1 & -> & F). cbn [mbind res_bind].
    apply bind_ok in F as (b & -> & F). cbn [mbind res_bind].
    apply bind_ok in F as (r2 & -> & F). cbn [mbind res_bind].
    apply bind_ok in F as (c & -> & F). cbn [mbind res_bind]. rewrite F. cbn [mbind res_bind].
    unfold IsValidPlmn in Ep. apply andb_true_iff in Ep as [_ Ep]. assert (lenZ (plmn_field p) = 6) as Hf.
    { unfold plmn_field. destruct (Z.eqb_spec (lenZ p) 5) as [E|]; [rewrite lenZ_app, E; done|lia]. }
    put_field 4%nat. done.
Qed.

(** the value a text of the request stands for: the number, or the default where there is none *)
Definition field_value (t : option (list Z)) (default v : Z) : Prop := match t with Some (c :: s) => to_int (c :: s) = Ok v | _ => v = default end.
Lemma text_or_value t d v : field_value t d v → text_or t d = Ok v.
Proof. unfold field_value, text_or. destruct t as [ [|c s]|]; [by intros ->|done|by intros ->]. Qed.
(** Setting a preferred network: a request with four texts is accepted exactly when
    the mode is one of the three, the index is between 0 and 149 and, to add or
    to change, the access technology is a set of the four known ones and the
    network has five or six digits; otherwise it fails with -1 and no packet is
    sent.  The packet of an accepted request is the mode and the entry, five
    digits followed by a hash sign, and an empty entry to delete. *)
Theorem set_uplmn_accepted block tok (r : StringsRequestData) mode index act :
  lenZ block = sizeof_set_uplmn_req → (∀ p, GetString 2 r = Some p → nonul p) →
  field_value (GetString 0 r) UPLMN_MODE_INVALID mode → field_value (GetString 1 r) UPLMN_INDEX_INVALID index → field_value (GetString 3 r) UPLMN_ACT_BIT_UNKNOWN act →
  ∃ ret packet tok', DoSetUplmn block tok (Some r) = Ok (ret, packet, tok') ∧
    (1 <= mode <= 3 ∧ 0 <= index <= 149 ∧ (mode = UPLMN_MODE_DELETE ∨ 0 <= act <= 15 ∧ ∃ p, GetString 2 r = Some p ∧ (lenZ p = 5 ∨ lenZ p = 6)) →
     ret = 0 ∧ packet = Some (set_frame (GetNext tok).1 mode index (default [] (GetString 2 r)) act)) ∧
    (¬ (1 <= mode <= 3 ∧ 0 <= index <= 149 ∧ (mode = UPLMN_MODE_DELETE ∨ 0 <= act <= 15 ∧ ∃ p, GetString 2 r = Some p ∧ (lenZ p = 5 ∨ lenZ p = 6))) →
     ret = -1 ∧ packet = None).
Proof.
  intros Hb Hn Hm%text_or_value Hi%text_or_value Ha%text_or_value. unfold DoSetUplmn. rewrite Hm. cbn [mbind res_bind]. rewrite Hi. cbn [mbind res_bind].
  pose proof (IsValidUplmnMode_spec mode) as Sm. pose proof (IsValidIndex_spec index) as Si. unfold UPLMN_INDEX_MAX in Si.
  destruct (IsValidUplmnMode mode) eqn:Em; cbn [andb].
  2: { eexists _, _, _. split; [done|]. split; [|done]. intros [H _]. by apply Sm in H. }
  destruct (IsValidIndex index) eqn:Ei.
  2: { eexists _, _, _. split; [done|]. split; [|done]. intros (_ & H & _). by apply Si in H. }
  assert (1 <= mode <= 3) as Hmode by by apply Sm. assert (0 <= index <= 149) as Hindex by by apply Si. clear Sm Si.
  pose proof (IsValidUplmnAct_spec act) as Sa. unfold UPLMN_ACT_BIT_ALL in Sa. unfold UPLMN_MODE_ADD, UPLMN_MODE_EDIT, UPLMN_MODE_DELETE in *.
  destruct (Z.eq_dec mode 3) as [->|H3].
  - change ((3 =? 1) || (3 =? 2)) with false. cbn [mbind res_bind andb]. rewrite BuildSetUplmn_spec by (done || by left). cbn [mbind res_bind].
    unfold good_request. rewrite Em, Ei. cbn. eexists _, _, _. split; [done|]. split; [done|]. intros H. exfalso. apply H. split; [lia|]. split; [lia|]. by left.
  - replace ((mode =? 1) || (mode =? 2)) with true by lia. rewrite Ha. cbn [mbind res_bind andb]. destruct (IsValidUplmnAct act) eqn:Ea; cbn [negb].
    2: { eexists _, _, _. split; [done|]. split; [|done]. intros (_ & _ & [?|[H _] ]); [done|by apply Sa in H]. }
    assert (0 <= act <= 15) as Hact by by apply Sa. rewrite BuildSetUplmn_spec by (done || by right). cbn [mbind res_bind].
    assert (good_request mode index (GetString 2 r) act = IsValidPlmn (GetString 2 r)) as ->.
    { unfold good_request, UPLMN_MODE_DELETE. rewrite Em, Ei, Ea, (proj2 (Z.eqb_neq mode 3)) by done. cbn [andb orb]. apply andb_true_r. }
    eexists _, _, _. split; [done|]. unfold IsValidPlmn. destruct (GetString 2 r) as [p|].
    2: { split; [|done]. intros (_ & _ & [?|(_ & p & ? & _)]); done. }
    assert (negb (IsEmpty (Some p)) && ((lenZ p =? 5) || (lenZ p =? 6)) = bool_decide (lenZ p = 5 ∨ lenZ p = 6)) as ->.
    { destruct p as [|c p]; cbn [IsEmpty negb andb]; [done|]. case_bool_decide; lia. }
    case_bool_decide as Hl; split.
    + done.
    + intros H. exfalso. apply H. split; [lia|]. split; [lia|]. right. split; [lia|]. by exists p.
    + intros (_ & _ & [?|(_ & q & [= <-] & ?)]); done.
    + done.
Qed.

(** ** The list of the modem *)

Record entry_wf (p : PreferredPlmn) : Prop := {
  wf_index : 0 <= pp_index p <= UPLMN_INDEX_MAX;
  wf_plmn : nonul (pp_plmn p) ∧ (lenZ (pp_plmn p) = 5 ∨ lenZ (pp_plmn p) = 6) ∧ pp_plmn p !! 5%nat ≠ Some 35;
  wf_act : 0 <= pp_act p <= UPLMN_ACT_BIT_ALL
}.
Definition item_bytes_of (p : PreferredPlmn) : list Z := item_of UPLMN_MODE_ADD (pp_index p) (pp_plmn p) (pp_act p).
Definition uplmn_frame (hdr : list Z) (l : list PreferredPlmn) : list Z := hdr ++ le32 (lenZ l) ++ concat (item_bytes_of <$> l).
Lemma entry_item p : entry_wf p → item_bytes_of p = [pp_index p] ++ plmn_field (pp_plmn p) ++ [pp_act p] ∧ lenZ (plmn_field (pp_plmn p)) = 6 ∧
  cstr (without_hash (plmn_field (pp_plmn p))) = pp_plmn p.
Proof.
  intros [Hi (Hn & Hl & Hh) Ha]. unfold UPLMN_INDEX_MAX, UPLMN_ACT_BIT_ALL in *. unfold item_bytes_of, item_of. change (UPLMN_MODE_ADD =? UPLMN_MODE_DELETE) with false. cbv iota.
  change 255 with (Z.ones 8). rewrite !Z.land_ones, !Z.mod_small by lia. split; [done|]. unfold plmn_field. destruct Hl as [H5|H6].
  - rewrite H5. cbn [Z.eqb Pos.eqb]. split; [by rewrite lenZ_app, H5|]. apply list5 in H5 as (a & b & c & d & e & E5). rewrite E5 in *. unfold without_hash.
    rewrite bool_decide_true by done. cbn [app take]. by apply cstr_id.
  - rewrite H6. cbn [Z.eqb Pos.eqb]. split; [done|]. unfold without_hash. rewrite bool_decide_false by done. by apply cstr_id.
Qed.
Lemma lenZ_items l : Forall entry_wf l → lenZ (concat (item_bytes_of <$> l)) = 8 * lenZ l.
Proof.
  induction 1 as [|p l Hp _ IH]; [done|]. rewrite fmap_cons. cbn [concat]. rewrite lenZ_app, IH, lenZ_cons. destruct (entry_item p Hp) as (-> & E & _).
  rewrite !lenZ_app, E. change (lenZ [_]) with 1. lia.
Qed.
Lemma uplmn_frame_at hdr l i p : lenZ hdr = sizeof_RCM_HEADER → Forall entry_wf l → l !! i = Some p →
  ∃ pre post, uplmn_frame hdr l = pre ++ item_bytes_of p ++ post ∧ lenZ pre = 16 + 8 * Z.of_nat i.
Proof.
  intros Hh Hw Hi. exists (hdr ++ le32 (lenZ l) ++ concat (item_bytes_of <$> take i l)), (concat (item_bytes_of <$> drop (S i) l)). split.
  - unfold uplmn_frame. rewrite <- (take_drop_middle l i p Hi) at 2. rewrite fmap_app, fmap_cons, concat_app. cbn [concat]. by rewrite <- !app_assoc.
  - rewrite !lenZ_app, lenZ_le32, Hh, lenZ_items by by apply Forall_take. unfold lenZ. rewrite length_take. apply lookup_lt_Some in Hi. change sizeof_RCM_HEADER with 12. lia.
Qed.
Section answer.
Context (hdr : list Z) (l : list PreferredPlmn) (Hh : response_header hdr RIL_E_SUCCESS) (Hid : rd16 hdr off_id = Ok SIT_GET_UPLMN).
Context (Hw : Forall entry_wf l) (Hl : lenZ l < 2 ^ 31).

Lemma uplmn_head : Rcm.GetErrorCode (Some (uplmn_frame hdr l)) = Ok RIL_E_SUCCESS ∧ rd16 (uplmn_frame hdr l) off_id = Ok SIT_GET_UPLMN ∧ rd32 (uplmn_frame hdr l) 12 = Ok (lenZ l).
Proof.
  pose proof (lenZ_nonneg l). assert (lenZ hdr = sizeof_RCM_HEADER) as Hp by apply Hh. unfold uplmn_frame. split; [by rewrite (response_code hdr _ _ Hh)|]. split.
  - pose proof (rd16_local [] hdr (le32 (lenZ l) ++ concat (item_bytes_of <$> l)) 0 off_id eq_refl ltac:(done) ltac:(by rewrite Hp)) as Hi. cbn [app] in Hi. change (0 + off_id) with off_id in Hi. by rewrite Hi.
  - by apply rd32_le32; [|lia].
Qed.
Lemma GetSize_frame : GetSize (Some (uplmn_frame hdr l)) = Ok (lenZ l).
Proof.
  pose proof (lenZ_nonneg l). destruct uplmn_head as (E & I & N). unfold GetSize. rewrite E. cbn [mbind res_bind]. change (negb _) with false at 1. cbv iota. rewrite I. cbn [mbind res_bind].
  change (negb _) with false at 1. cbv iota. rewrite N. cbn [mbind res_bind]. rewrite i32_id by lia. by replace (lenZ l <? 0) with false by lia.
Qed.
Lemma GetPreferrecPlmn_frame (i : nat) p : l !! i = Some p → GetPreferrecPlmn (Some (uplmn_frame hdr l)) (Z.of_nat i) = Ok (Some p).
Proof.
  intros Hi. pose proof (lookup_lt_Some _ _ _ Hi) as Hlt. destruct uplmn_head as (E & I & N). unfold GetPreferrecPlmn. replace (Z.of_nat i <? 0) with false by lia.
  rewrite E. cbn [mbind res_bind]. change (negb _) with false at 1. cbv iota. rewrite I. cbn [mbind res_bind]. change (negb _) with false at 1. cbv iota. rewrite N. cbn [mbind res_bind].
  assert (i32 (lenZ l) = lenZ l) as -> by (apply i32_id; unfold lenZ in *; lia). replace (false || (lenZ l <? Z.of_nat i)) with false by (unfold lenZ; lia). cbv zeta.
  destruct (uplmn_frame_at hdr l i p (proj1 Hh) Hw Hi) as (pre & post & -> & Hp). pose proof (proj1 (Forall_lookup _ l) Hw i p Hi) as Wp.
  destruct (entry_item p Wp) as (-> & E6 & Ep). set (f := plmn_field (pp_plmn p)) in *.
  assert (lenZ ([pp_index p] ++ f ++ [pp_act p]) = 8) as E8 by by rewrite !lenZ_app, E6.
  pose proof (rd_local pre _ post _ 0 Hp ltac:(by rewrite E8)) as R0. rewrite Z.add_0_r in R0. rewrite R0. change (([_] ++ _).[0]) with (Ok (pp_index p)). cbn [mbind res_bind].
  rewrite (rdn_local pre _ post _ 1 6 Hp) by (rewrite ?E8; done). change 1 with (1 + 0) at 1. rewrite (rdn_local [pp_index p] f [pp_act p] 1 0 6 eq_refl) by (rewrite ?E6; done).
  rewrite rdn_ok by (rewrite ?E6; done). cbn [mbind res_bind]. rewrite (rd_local pre _ post _ 7 Hp) by (by rewrite E8).
  rewrite app_assoc. rewrite rd_at by by rewrite lenZ_app, E6. cbn [mbind res_bind]. rewrite drop_0, take_ge by (unfold lenZ in E6; lia). rewrite Ep. by destruct p.
Qed.
Lemma all_entries : for_up (Z.to_nat (lenZ l)) 0 (λ i r, o ← GetPreferrecPlmn (Some (uplmn_frame hdr l)) i; Ok (match o with Some p => r ++ [p] | None => r end)) [] = Ok l.
Proof.
  transitivity (for_up (Z.to_nat (lenZ l)) 0 (λ i r, v ← (match l !! Z.to_nat i with Some p => Ok p | None => UB end); Ok (r ++ [v])) []).
  - apply for_up_ext. intros i r Hi. destruct (lookup_lt_is_Some_2 l (Z.to_nat i)) as [p Hp]; [unfold lenZ in Hi; lia|]. rewrite Hp.
    rewrite <- (Z2Nat.id i) at 1 by lia. by rewrite (GetPreferrecPlmn_frame _ p Hp).
  - apply for_up_build; [pose proof (lenZ_nonneg l); lia|]. intros i p Hi. by rewrite Nat2Z.id, Hi.
Qed.
End answer.

(** ** The answer *)

Lemma short_number v : 0 <= v < 10 ^ 8 → take 8 (dec v) = dec v.
Proof.
  intros Hv. unfold dec. replace (v <? 0) with false by lia. change (10 ^ 8) with 100000000 in Hv.
  destruct (digits_of_spec 10 v) as (_ & _ & L & _); [change (10 ^ Z.of_nat 10) with 10000000000; lia|lia|]. apply take_ge.
  assert (lenZ (digits_of 10 v) <= 8) by (apply L; [done|change (10 ^ 8) with 100000000; lia]). unfold lenZ in *. lia.
Qed.
Lemma put_at {A} (pre r : list A) x y i : lenZ pre = i → <[Z.to_nat i:=x]> (pre ++ y :: r) = pre ++ x :: r.
Proof. intros <-. unfold lenZ. rewrite Nat2Z.id, insert_app_r_alt by lia. by rewrite Nat.sub_diag. Qed.
Definition entry_texts (p : PreferredPlmn) : RilDataStrings := [Some (dec (pp_index p)); Some (pp_plmn p); Some (dec (pp_act p))].
Definition uplmn_answer (l : list PreferredPlmn) : RilDataStrings := Some (dec (lenZ l)) :: concat (entry_texts <$> l).
Lemma build_plmn_at pre r p k : lenZ pre = 3 * k + 1 → entry_wf p →
  build_plmn (k, pre ++ None :: None :: None :: r) p = Ok (k + 1, (pre ++ entry_texts p) ++ r).
Proof.
  intros Hk [Hi (Hn & Hl & _) Ha]. pose proof (lenZ_nonneg pre). pose proof (lenZ_nonneg r). unfold UPLMN_INDEX_MAX, UPLMN_ACT_BIT_ALL in *. unfold build_plmn.
  rewrite SetStringInt_at; [|by split; lia|rewrite lenZ_app, !lenZ_cons; lia]. cbn [mbind res_bind snd]. rewrite put_at, short_number by lia.
  rewrite SetString_at by (rewrite lenZ_app, !lenZ_cons; lia). cbn [mbind res_bind snd].
  replace (match pp_plmn p with [] => None | _ => Some (pp_plmn p) end) with (Some (pp_plmn p)) by (destruct (pp_plmn p); [unfold lenZ in Hl; cbn in Hl; lia|done]).
  assert (∀ (x y : option (list Z)) r, pre ++ x :: y :: r = (pre ++ [x]) ++ y :: r) as E1 by (intros; by rewrite <- app_assoc).
  assert (∀ (x y z : option (list Z)) r, pre ++ x :: y :: z :: r = (pre ++ [x; y]) ++ z :: r) as E2 by (intros; by rewrite <- app_assoc).
  rewrite E1, put_at by (rewrite lenZ_app; change (lenZ [_]) with 1; lia). rewrite <- app_assoc. cbn [app].
  rewrite SetStringInt_at; [|by split; lia|rewrite lenZ_app, !lenZ_cons; lia]. cbn [mbind res_bind snd].
  rewrite E2, put_at, short_number by (lia || (rewrite lenZ_app; change (lenZ [_; _]) with 2; lia)). by rewrite <- !app_assoc.
Qed.
Lemma build_plmns_at l pre k : lenZ pre = 3 * k + 1 → Forall entry_wf l →
  build_plmns l (k, pre ++ concat ((λ _, [None; None; None]) <$> l)) = Ok (k + lenZ l, pre ++ concat (entry_texts <$> l)).
Proof.
  intros Hk Hw. revert pre k Hk. induction Hw as [|p l Hp _ IH]; intros pre k Hk; [change (lenZ []) with 0; by rewrite Z.add_0_r|].
  rewrite !fmap_cons. cbn [concat app build_plmns]. rewrite (build_plmn_at pre _ p k Hk Hp). cbn [mbind res_bind].
  rewrite IH by (rewrite lenZ_app; change (lenZ (entry_texts p)) with 3; lia). rewrite <- app_assoc, lenZ_cons. do 2 f_equal. lia.
Qed.
Lemma empty_answer l : newRilDataStrings (lenZ l * 3 + 1) = None :: concat ((λ _ : PreferredPlmn, [None; None; None]) <$> l).
Proof.
  unfold newRilDataStrings, fill. replace (Z.to_nat (lenZ l * 3 + 1)) with (S (length l * 3)) by (unfold lenZ; lia). cbn [replicate]. f_equal.
  induction l as [|p l IH]; [done|]. rewrite fmap_cons. cbn. by rewrite IH.
Qed.
Lemma BuildUplmnList_spec l : Forall entry_wf l → lenZ l < 10 ^ 8 → BuildUplmnList l (lenZ l) = Ok (uplmn_answer l).
Proof.
  intros Hw Hl. pose proof (lenZ_nonneg l). unfold BuildUplmnList. rewrite empty_answer.
  assert (lenZ l < 100000000) by exact Hl. rewrite SetStringInt_at; [|by split; lia|rewrite lenZ_cons; match goal with |- context [lenZ ?x] => pose proof (lenZ_nonneg x) end; lia].
  cbn [mbind res_bind snd]. change (Z.to_nat 0) with 0%nat. cbn [insert list_insert]. rewrite short_number by lia.
  by etrans; [apply (bind_eq _ _ _ (build_plmns_at l [Some (dec (lenZ l))] 0 eq_refl Hw))|].
Qed.

(** C37: What is set is what is listed: the packet that adds an entry ends with the item the
    modem lists for it, and the answer to a list request whose frame has the
    items of any number of entries is the number and, for each entry in order,
    its index, its network code and its access technology as texts; the table is
    left prepared and empty. *)
Theorem uplmn_reads_back hdr l s :
  response_header hdr RIL_E_SUCCESS → rd16 hdr off_id = Ok SIT_GET_UPLMN → Forall entry_wf l → lenZ l < 10 ^ 8 →
  Forall (λ p, ∀ block tok, lenZ block = sizeof_set_uplmn_req → ∃ f tok',
    BuildSetUplmn block tok UPLMN_MODE_ADD (pp_index p) (Some (pp_plmn p)) (pp_act p) = Ok (Some f, tok') ∧ drop 13 f = item_bytes_of p) l ∧
  ∃ s', OnGetUplmnDone (Some (uplmn_frame hdr l)) s = Ok (RIL_E_SUCCESS, uplmn_answer l, s') ∧ m_PreferredPlmn s' = ∅ ∧ m_Prepared s' = true.
Proof.
  intros Hh Hid Hw Hl. split.
  - eapply Forall_impl; [done|]. intros p [Hi (Hn & Hp & _) Ha] block tok Hb. rewrite BuildSetUplmn_spec; [|done|by intros ? [= <-]|right; by apply IsValidUplmnAct_spec].
    unfold good_request. rewrite (proj2 (IsValidIndex_spec _) Hi), (proj2 (IsValidUplmnAct_spec _) Ha).
    assert (IsValidPlmn (Some (pp_plmn p)) = true) as -> by (unfold IsValidPlmn; destruct (pp_plmn p); cbn [IsEmpty negb andb] in *; [unfold lenZ in Hp; cbn in Hp|]; lia).
    cbn. eexists _, _. split; [done|]. reflexivity.
  - eexists. unfold OnGetUplmnDone. assert (lenZ l < 2 ^ 31) as Hl' by (change (2 ^ 31) with 2147483648; change (10 ^ 8) with 100000000 in Hl; lia).
    rewrite (GetSize_frame hdr l Hh Hid Hl'). cbn [mbind res_bind]. rewrite (all_entries hdr l Hh Hid Hw Hl'). cbn [mbind res_bind].
    rewrite BuildUplmnList_spec by done. by split.
Qed.

(** ** Witnesses and edges *)

Definition uplmn_header (e : Z) : list Z := [1; 0] ++ le16 SIT_GET_UPLMN ++ [0; 0; 7; 0; 0; 0; e; 0].
Definition sample_entries : list PreferredPlmn :=
  [{| pp_index := 0; pp_plmn := str "45005"; pp_act := 8 |}; {| pp_index := 149; pp_plmn := str "310260"; pp_act := 15 |}].
Lemma uplmn_reads_back_witness :
  Forall (λ p, ∀ block tok, lenZ block = sizeof_set_uplmn_req → ∃ f tok',
    BuildSetUplmn block tok UPLMN_MODE_ADD (pp_index p) (Some (pp_plmn p)) (pp_act p) = Ok (Some f, tok') ∧ drop 13 f = item_bytes_of p) sample_entries ∧
  ∃ s', OnGetUplmnDone (Some (uplmn_frame (uplmn_header 0) sample_entries)) newUplmnSelector = Ok (RIL_E_SUCCESS, uplmn_answer sample_entries, s') ∧
    m_PreferredPlmn s' = ∅ ∧ m_Prepared s' = true.
Proof.
  apply (uplmn_reads_back (uplmn_header 0) sample_entries newUplmnSelector); [repeat split; reflexivity|reflexivity| |reflexivity].
  apply Forall_cons_2; [|apply Forall_cons_2; [|constructor] ]; (split; [by_eval|split; [|split]|by_eval]);
    [by_eval|by left|by_eval|by_eval|by right|by_eval].
Defined.
Definition sample_set : StringsRequestData :=
  {| ssrd_base := newRequestData 0 1 0; m_nStringCount := 4; m_ptrStrings := Some [Some (str "1"); Some (str "7"); Some (str "45005"); Some (str "8")] |}.
Lemma set_uplmn_accepted_witness : ∃ ret packet tok', DoSetUplmn (fill 21 170) 5 (Some sample_set) = Ok (ret, packet, tok') ∧
    (1 <= 1 <= 3 ∧ 0 <= 7 <= 149 ∧ (1 = UPLMN_MODE_DELETE ∨ 0 <= 8 <= 15 ∧ ∃ p, GetString 2 sample_set = Some p ∧ (lenZ p = 5 ∨ lenZ p = 6)) →
     ret = 0 ∧ packet = Some (set_frame (GetNext 5).1 1 7 (default [] (GetString 2 sample_set)) 8)) ∧
    (¬ (1 <= 1 <= 3 ∧ 0 <= 7 <= 149 ∧ (1 = UPLMN_MODE_DELETE ∨ 0 <= 8 <= 15 ∧ ∃ p, GetString 2 sample_set = Some p ∧ (lenZ p = 5 ∨ lenZ p = 6))) →
     ret = -1 ∧ packet = None).
Proof. apply (set_uplmn_accepted (fill 21 170) 5 sample_set); [reflexivity|intros p [= <-]; by_eval|reflexivity|reflexivity|reflexivity]. Defined.

(** an answer with an error is told as a successful empty list *)
Lemma list_error_hidden s : ∃ s', OnGetUplmnDone (Some (uplmn_header 2)) s = Ok (RIL_E_SUCCESS, [Some (str "0")], s').
Proof. eexists. reflexivity. Qed.
(** the count of the frame is believed: with one item too few the one behind the frame is read *)
Lemma list_reads_behind_frame : OnGetUplmnDone (Some (uplmn_header 0 ++ le32 2 ++ item_bytes_of {| pp_index := 0; pp_plmn := str "45005"; pp_act := 8 |})) newUplmnSelector = UB.
Proof. vm_compute. reflexivity. Qed.
(** and the item after the last is still within the bound of the accessor *)
Lemma one_item_more : is_ok (GetPreferrecPlmn (Some (uplmn_frame (uplmn_header 0) [] ++ fill 8 0)) 0) = true.
Proof. vm_compute. reflexivity. Qed.
