(* ===== verification/MccTable.v ===== *)
(** Country codes and their networks: [core/service/mcctable.cpp].

    The table says how many digits the network part of a subscriber's number has
    in each country; lists of networks override it.  A text of the code may be
    absent. *)
From stdpp Require Import gmap.
From S2P Require Import Prelude RilDef Text Network Layout RilData.

(** ** The table *)

(** [new MccEntry(mcc, iso, smallestDigitsMcc, language)], in the order of the calls *)
Definition InitMccTable_1 : list (Z * list Z * Z * option (list Z)) := [
    (202, str "gr", 2, None); (204, str "nl", 2, Some (str "nl")); (206, str "be", 2, None); (208, str "fr", 2, Some (str "fr"));
    (212, str "mc", 2, None); (213, str "ad", 2, None); (214, str "es", 2, Some (str "es")); (216, str "hu", 2, None); (218, str "ba", 2, None);
    (219, str "hr", 2, None); (220, str "rs", 2, None); (222, str "it", 2, Some (str "it")); (225, str "va", 2, Some (str "it"));
    (226, str "ro", 2, None); (228, str "ch", 2, Some (str "de")); (230, str "cz", 2, Some (str "cs")); (231, str "sk", 2, None);
    (232, str "at", 2, Some (str "de")); (234, str "gb", 2, Some (str "en")); (235, str "gb", 2, Some (str "en")); (238, str "dk", 2, None);
    (240, str "se", 2, Some (str "sv")); (242, str "no", 2, None); (244, str "fi", 2, None); (246, str "lt", 2, None); (247, str "lv", 2, None);
    (248, str "ee", 2, None); (250, str "ru", 2, None); (255, str "ua", 2, None); (257, str "by", 2, None); (259, str "md", 2, None);
    (260, str "pl", 2, None); (262, str "de", 2, Some (str "de")); (266, str "gi", 2, None); (268, str "pt", 2, None); (270, str "lu", 2, None);
    (272, str "ie", 2, Some (str "en")); (274, str "is", 2, None); (276, str "al", 2, None); (278, str "mt", 2, None); (280, str "cy", 2, None);
    (282, str "ge", 2, None); (283, str "am", 2, None); (284, str "bg", 2, None); (286, str "tr", 2, None); (288, str "fo", 2, None);
    (289, str "ge", 2, None); (290, str "gl", 2, None); (292, str "sm", 2, None); (293, str "si", 2, None); (294, str "mk", 2, None);
    (295, str "li", 2, None); (297, str "me", 2, None); (302, str "ca", 3, Some (str "en")); (308, str "pm", 2, None);
    (310, str "us", 3, Some (str "en")); (311, str "us", 3, Some (str "en")); (312, str "us", 3, Some (str "en"));
    (313, str "us", 3, Some (str "en")); (314, str "us", 3, Some (str "en")); (315, str "us", 3, Some (str "en"));
    (316, str "us", 3, Some (str "en")); (330, str "pr", 2, None); (332, str "vi", 2, None); (334, str "mx", 3, None); (338, str "jm", 3, None);
    (340, str "gp", 2, None); (342, str "bb", 3, None); (344, str "ag", 3, None); (346, str "ky", 3, None); (348, str "vg", 3, None);
    (350, str "bm", 2, None); (352, str "gd", 2, None); (354, str "ms", 2, None); (356, str "kn", 2, None); (358, str "lc", 2, None);
    (360, str "vc", 2, None); (362, str "ai", 2, None); (363, str "aw", 2, None); (364, str "bs", 2, None); (365, str "ai", 3, None);
    (366, str "dm", 2, None); (368, str "cu", 2, None); (370, str "do", 2, None); (372, str "ht", 2, None); (374, str "tt", 2, None);
    (376, str "tc", 2, None); (400, str "az", 2, None); (401, str "kz", 2, None); (402, str "bt", 2, None); (404, str "in", 2, None);
    (405, str "in", 2, None); (410, str "pk", 2, None); (412, str "af", 2, None); (413, str "lk", 2, None); (414, str "mm", 2, None);
    (415, str "lb", 2, None); (416, str "jo", 2, None); (417, str "sy", 2, None); (418, str "iq", 2, None); (419, str "kw", 2, None);
    (420, str "sa", 2, None); (421, str "ye", 2, None); (422, str "om", 2, None); (423, str "ps", 2, None); (424, str "ae", 2, None);
    (425, str "il", 2, None); (426, str "bh", 2, None); (427, str "qa", 2, None); (428, str "mn", 2, None); (429, str "np", 2, None);
    (430, str "ae", 2, None); (431, str "ae", 2, None); (432, str "ir", 2, None); (434, str "uz", 2, None); (436, str "tj", 2, None);
    (437, str "kg", 2, None)].
Definition InitMccTable_2 : list (Z * list Z * Z * option (list Z)) := [
    (438, str "tm", 2, None); (440, str "jp", 2, Some (str "ja")); (441, str "jp", 2, Some (str "ja")); (450, str "kr", 2, Some (str "ko"));
    (452, str "vn", 2, None); (454, str "hk", 2, None); (455, str "mo", 2, None); (456, str "kh", 2, None); (457, str "la", 2, None);
    (460, str "cn", 2, Some (str "zh")); (461, str "cn", 2, Some (str "zh")); (466, str "tw", 2, None); (467, str "kp", 2, None);
    (470, str "bd", 2, None); (472, str "mv", 2, None); (502, str "my", 2, None); (505, str "au", 2, Some (str "en")); (510, str "id", 2, None);
    (514, str "tl", 2, None); (515, str "ph", 2, None); (520, str "th", 2, None); (525, str "sg", 2, Some (str "en")); (528, str "bn", 2, None);
    (530, str "nz", 2, Some (str "en")); (534, str "mp", 2, None); (535, str "gu", 2, None); (536, str "nr", 2, None); (537, str "pg", 2, None);
    (539, str "to", 2, None); (540, str "sb", 2, None); (541, str "vu", 2, None); (542, str "fj", 2, None); (543, str "wf", 2, None);
    (544, str "as", 2, None); (545, str "ki", 2, None); (546, str "nc", 2, None); (547, str "pf", 2, None); (548, str "ck", 2, None);
    (549, str "ws", 2, None); (550, str "fm", 2, None); (551, str "mh", 2, None); (552, str "pw", 2, None); (602, str "eg", 2, None);
    (603, str "dz", 2, None); (604, str "ma", 2, None); (605, str "tn", 2, None); (606, str "ly", 2, None); (607, str "gm", 2, None);
    (608, str "sn", 2, None); (609, str "mr", 2, None); (610, str "ml", 2, None); (611, str "gn", 2, None); (612, str "ci", 2, None);
    (613, str "bf", 2, None); (614, str "ne", 2, None); (615, str "tg", 2, None); (616, str "bj", 2, None); (617, str "mu", 2, None);
    (618, str "lr", 2, None); (619, str "sl", 2, None); (620, str "gh", 2, None); (621, str "ng", 2, None); (622, str "td", 2, None);
    (623, str "cf", 2, None); (624, str "cm", 2, None); (625, str "cv", 2, None); (626, str "st", 2, None); (627, str "gq", 2, None);
    (628, str "ga", 2, None); (629, str "cg", 2, None); (630, str "cg", 2, None); (631, str "ao", 2, None); (632, str "gw", 2, None);
    (633, str "sc", 2, None); (634, str "sd", 2, None); (635, str "rw", 2, None); (636, str "et", 2, None); (637, str "so", 2, None);
    (638, str "dj", 2, None); (639, str "ke", 2, None); (640, str "tz", 2, None); (641, str "ug", 2, None); (642, str "bi", 2, None);
    (643, str "mz", 2, None); (645, str "zm", 2, None); (646, str "mg", 2, None); (647, str "re", 2, None); (648, str "zw", 2, None);
    (649, str "na", 2, None); (650, str "mw", 2, None); (651, str "ls", 2, None); (652, str "bw", 2, None); (653, str "sz", 2, None);
    (654, str "km", 2, None); (655, str "za", 2, Some (str "en")); (657, str "er", 2, None); (702, str "bz", 2, None); (704, str "gt", 2, None);
    (706, str "sv", 2, None); (708, str "hn", 3, None); (710, str "ni", 2, None); (712, str "cr", 2, None); (714, str "pa", 2, None);
    (716, str "pe", 2, None); (722, str "ar", 3, None); (724, str "br", 2, None); (730, str "cl", 2, None); (732, str "co", 3, None);
    (734, str "ve", 2, None); (736, str "bo", 2, None); (738, str "gy", 2, None); (740, str "ec", 2, None); (742, str "gf", 2, None);
    (744, str "py", 2, None); (746, str "sr", 2, None); (748, str "uy", 2, None); (750, str "fk", 2, None)].
Definition MCCMNC_CODES_HAVING_3DIGITS_MNC : list (list Z) := [
    str "302370"; str "302720"; str "310260"; str "405025"; str "405026"; str "405027"; str "405028"; str "405029"; str "405030"; str "405031";
    str "405032"; str "405033"; str "405034"; str "405035"; str "405036"; str "405037"; str "405038"; str "405039"; str "405040"; str "405041";
    str "405042"; str "405043"; str "405044"; str "405045"; str "405046"; str "405047"; str "405750"; str "405751"; str "405752"; str "405753";
    str "405754"; str "405755"; str "405756"; str "405799"; str "405800"; str "405801"; str "405802"; str "405803"; str "405804"; str "405805";
    str "405806"; str "405807"; str "405808"; str "405809"; str "405810"; str "405811"; str "405812"; str "405813"; str "405814"; str "405815";
    str "405816"; str "405817"; str "405818"; str "405819"; str "405820"; str "405821"; str "405822"; str "405823"; str "405824"; str "405825";
    str "405826"; str "405827"; str "405828"; str "405829"; str "405830"; str "405831"; str "405832"; str "405833"; str "405834"; str "405835";
    str "405836"; str "405837"; str "405838"; str "405839"; str "405840"; str "405841"; str "405842"; str "405843"; str "405844"; str "405845";
    str "405846"; str "405847"; str "405848"; str "405849"; str "405850"; str "405851"; str "405852"; str "405853"; str "405854"; str "405855";
    str "405856"; str "405857"; str "405858"; str "405859"; str "405860"; str "405861"; str "405862"; str "405863"; str "405864"; str "405865";
    str "405866"; str "405867"; str "405868"; str "405869"; str "405870"; str "405871"; str "405872"; str "405873"; str "405874"; str "405875";
    str "405876"; str "405877"; str "405878"; str "405879"; str "405880"; str "405881"; str "405882"; str "405883"; str "405884"; str "405885";
    str "405886"; str "405908"; str "405909"; str "405910"; str "405911"; str "405912"; str "405913"; str "405914"; str "405915"; str "405916";
    str "405917"; str "405918"; str "405919"; str "405920"; str "405921"; str "405922"; str "405923"; str "405924"; str "405925"; str "405926";
    str "405927"; str "405928"; str "405929"; str "405930"; str "405931"; str "405932"; str "502142"; str "502143"; str "502145"; str "502146";
    str "502147"; str "502148"].
Definition MCCMNC_CODES_UNKNOWN : list (list Z) := [
    str "72499"].
Definition MCCMNC_CODES_USING_SPN_IN_REG_HOME : list (list Z) := [
    str "72234"; str "72236"; str "722341"; str "722310"; str "722320"; str "722330"; str "72403"; str "72405"; str "72406"; str "72410"; str "72411";
    str "72423"; str "26002"; str "52000"].
Definition MCCMNC_CODES_MVNO : list (list Z) := [
    str "72417"; str "72418"; str "72454"; str "73006"; str "73008"; str "73012"; str "73013"; str "73019"; str "732154"; str "74003"].
Definition MCC_CODES_CHECK_PLMN_MATCHING_FOR_SPN : list (list Z) := [
    str "724"].
Definition MCC_CODES_FOR_NITZ_PRIORITY : list (list Z) := [
    str "716"].
Definition MCCMNC_CODES_USING_SPN_IN_PLMN_SRCH : list (list Z) := [
    str "722310"; str "722320"; str "722330"; str "26002"; str "26003"].
Record MccEntry := { mcc : Z; iso : list Z; smallestDigitsMcc : Z; language : option (list Z) }.
Definition newMccEntry (r : Z * list Z * Z * option (list Z)) : MccEntry :=
  {| mcc := r.1.1.1; iso := r.1.1.2; smallestDigitsMcc := r.1.2; language := r.2 |}.
Definition AddEntry (entry : MccEntry) (m_mcctable : gmap Z MccEntry) : gmap Z MccEntry := <[mcc entry := entry]> m_mcctable.
(** [MccTable::MccTable] *)
Definition m_mcctable : gmap Z MccEntry := foldl (λ m r, AddEntry (newMccEntry r) m) ∅ (InitMccTable_1 ++ InitMccTable_2).
Definition InitEsmZeroFlagNetworkList : list (list Z) := [str "46000"; str "46002"; str "46007"; str "45008"].
Definition InitNotUsePnnOplOperator : list (list Z) := [str "334020"; str "722310"].

(** ** Countries *)

Definition GetEntryForMcc (mcc : Z) : option MccEntry := m_mcctable !! mcc.
Definition GetCountryCodeForMcc (mcc : Z) : option (list Z) := iso <$> GetEntryForMcc mcc.
Definition GetDefaultLanguageForMcc (mcc : Z) : option (list Z) := GetEntryForMcc mcc ≫= language.
Definition GetSmallestDigitsMccForMcc (mcc : Z) : Z := match GetEntryForMcc mcc with Some entry => smallestDigitsMcc entry | None => 2 end.
(** the overload for a text *)
Definition GetSmallestDigitsMccForMccText (mcc : list Z) : res Z :=
  if 3 <=? lenZ mcc then value ← to_int (take 3 mcc); Ok (GetSmallestDigitsMccForMcc value) else Ok 2.

(** ** Networks *)

(** [char carrier[n + 1] = { 0, }; strncpy(carrier, s, n)], looked up in a list *)
Definition listed (n : Z) (s : list Z) (codes : list (list Z)) : bool := bool_decide (take (Z.to_nat n) s ∈ codes).
Definition is_plmn (plmn : list Z) : bool := (lenZ plmn =? 5) || (lenZ plmn =? 6).
Definition plmn_listed (n : Z) (codes : list (list Z)) (plmn : option (list Z)) : bool :=
  match plmn with Some s => is_plmn s && listed n s codes | None => false end.
Definition GetSmallestDigitsMccForImsi (imsi : option (list Z)) : Z :=
  match imsi with
  | Some s => if (lenZ s <? 6) || (15 <? lenZ s) then -1 else if listed 6 s MCCMNC_CODES_HAVING_3DIGITS_MNC then 3 else -1
  | None => -1
  end.
Definition isUnknowNetwork (plmn : option (list Z)) : Z := if plmn_listed 6 MCCMNC_CODES_UNKNOWN plmn then 1 else -1.
Definition isMvnoNetwork (plmn : option (list Z)) : Z := if plmn_listed 6 MCCMNC_CODES_MVNO plmn then 1 else -1.
Definition isUsingSpnForOperatorNameInRegHome : option (list Z) → bool := plmn_listed 6 MCCMNC_CODES_USING_SPN_IN_REG_HOME.
Definition isNeedCheckPlmnMatcingForSpnUsing : option (list Z) → bool := plmn_listed 3 MCC_CODES_CHECK_PLMN_MATCHING_FOR_SPN.
Definition isNitzHasPriority (simPlmn netPlmn : option (list Z)) : bool :=
  if Equals simPlmn netPlmn then plmn_listed 3 MCC_CODES_FOR_NITZ_PRIORITY netPlmn else false.
Definition isUsingSpnForAvailablePlmnSrch : option (list Z) → bool := plmn_listed 6 MCCMNC_CODES_USING_SPN_IN_PLMN_SRCH.

(** ** The network of a subscriber *)

Definition MCC_LENGTH : Z := 3.
(** the buffer afterwards; nothing ends the text that is written into it *)
Definition FetchCarrierForImsi (imsi carrier : option (list Z)) (size : Z) : res (bool * option (list Z)) :=
  match carrier, imsi with
  | Some buf, Some s =>
    if (lenZ s <? 6) || (15 <? lenZ s) then Ok (false, carrier)
    else
      let mncLength := GetSmallestDigitsMccForImsi imsi in
      t ← (if mncLength <? 0
           then mcc ← to_int (take (Z.to_nat MCC_LENGTH) s);
                let mncLength := GetSmallestDigitsMccForMcc mcc in
                Ok (if size <? MCC_LENGTH + mncLength then None else Some mncLength)
           else Ok (Some mncLength));
      match t with
      | Some mncLength => buf ← strncpy buf 0 s (MCC_LENGTH + mncLength); Ok (true, Some buf)
      | None => Ok (false, carrier)
      end
  | _, _ => Ok (false, carrier)
  end.
Definition IsCarrierUsePnnOplForEons (carrier : option (list Z)) : bool :=
  match carrier with Some (c :: s) => bool_decide (c :: s ∉ InitNotUsePnnOplOperator) | _ => true end.
(** [buf] is the property [persist.vendor.ril.test.esmzeroflag] *)
Definition IsEsmFlagZeroOperator (m_EsmZeroOperator : list (list Z)) (buf : list Z) (carrier : option (list Z)) : bool :=
  match carrier with
  | Some (c :: s) =>
    if decide (buf = str "1") then true
    else if decide (buf = str "0") then false
    else bool_decide (c :: s ∈ m_EsmZeroOperator)
  | _ => false
  end.
Definition SetEsmFlagZeroOperator (carrier : option (list Z)) (m_EsmZeroOperator : list (list Z)) : list (list Z) :=
  match carrier with Some (c :: s) => m_EsmZeroOperator ++ [c :: s] | _ => m_EsmZeroOperator end.
