(* ===== verification/CallPackets.v ===== *)
(** Voice calls: the requests of the framework and the packets of the modem.
    [fw/callreqdata.cpp], [protocol/sit/protocolcallbuilder.cpp],
    [protocol/sit/protocolcalladapter.cpp], [protocol/sit/protocolsoundbuilder.cpp],
    [protocol/sit/protocolsoundadapter.cpp].

    The structures of [protocol/sit/sitdef.h] are packed; a field is read and
    written at its offset.  A [char] is not signed. *)
From stdpp Require Import gmap.
From S2P Require Import Prelude RilDef Text Ussd WaitList Network Rcm Layout RilData.

Definition SIT_GET_CURRENT_CALLS : Z := 0x0.
Definition SIT_DIAL : Z := 0x1.
Definition SIT_GET_LAST_CALL_FAIL_CAUSE : Z := 0x2.
Definition SIT_ANSWER : Z := 0x4.
Definition SIT_SEND_EXPLICIT_CALL_TRANSFER : Z := 0x7.
Definition SIT_HANGUP : Z := 0x8.
Definition SIT_IND_EMERGENCY_CALL_LIST : Z := 0xD.
Definition SIT_CALL_CONFIRM_FEATURE_SET_REQ : Z := 0xE.
Definition SIT_CALL_CONFIRM : Z := 0xF.
Definition SIT_SET_CDMA_VOICE_PRIVACY_MODE : Z := 0x11.
Definition SIT_GET_CDMA_VOICE_PRIVACY_MODE : Z := 0x12.
Definition SIT_CDMA_BURST_DTMF : Z := 0x15.
Definition SIT_IND_EMERGENCY_SUPPORT_RAT_MODE : Z := 0x18.
Definition SIT_EXIT_EMERGENCY_CB_MODE : Z := 0x1A.
Definition SIT_HANGUP_WAITING_OR_BACKGROUND : Z := 0x500.
Definition SIT_HANGUP_FORGROUND_RESUME_BACKGROUND : Z := 0x501.
Definition SIT_SWITCH_WAITING_OR_HOLDING_AND_ACTIVE : Z := 0x502.
Definition SIT_CONFERENCE : Z := 0x503.
Definition SIT_UDUB : Z := 0x504.
Definition SIT_SEPARATE_CONNECTION : Z := 0x50E.
Definition SIT_SET_CDMA_FLASH_INFO : Z := 0x514.
Definition SIT_SET_MUTE : Z := 0xA00.
Definition SIT_GET_MUTE : Z := 0xA01.
Definition SIT_IND_RINGBACK_TONE : Z := 0xA02.
Definition SIT_SWITCH_VOICE_CALL_AUDIO : Z := 0xA09.

Definition MAX_DIAL_NUM : Z := 82.
Definition MAX_DIAL_NAME : Z := 82.
Definition MAX_UUS_DATA_LEN : Z := 128.
Definition MAX_CALL_LIST_NUM : Z := 9.
Definition MAX_BURST_DTMF_LEN : Z := 32.
Definition MAX_BURST_DTMF_ON_OFF_LEN : Z := 255.
Definition MAX_FLASH_LEN : Z := 35.
Definition MAX_EMERGENCY_CALL_NUM : Z := 20.
Definition MAX_EMERGENCY_NUMBER_LEN : Z := 32.
Definition MAX_EMERGENCY_NUMBER_LIST_COUNT : Z := 20.
Definition MAX_NUMBER_OF_INFO_RECS : Z := 10.

(** ** The names of both sides *)

Definition RIL_CALL_ACTIVE : Z := 0.
Definition RIL_CALL_HOLDING : Z := 1.
Definition RIL_CALL_DIALING : Z := 2.
Definition RIL_CALL_ALERTING : Z := 3.
Definition RIL_CALL_INCOMING : Z := 4.
Definition RIL_CALL_WAITING : Z := 5.
Definition RIL_CALL_NAME_PRESENTATION_ALLOW : Z := 0.
Definition RIL_CALL_NAME_PRESENTATION_RESTRICT : Z := 1.
Definition RIL_CALL_NAME_PRESENTATION_UNKNOWN : Z := 2.
Definition RIL_CALL_NAME_PRESENTATION_PAYPHONE : Z := 3.
Definition CALL_TYPE_VOICE : Z := 0.
Definition CALL_TYPE_VIDEO : Z := 1.
Definition CALL_TYPE_EMERGENCY : Z := 2.
Definition CALL_TYPE_CDMA_VOICE : Z := 3.
Definition CALL_TYPE_CDMA_EMERGENCY : Z := 4.
Definition CLIR_DEFAULT : Z := 0.
Definition CLIR_INVOCATION : Z := 1.
Definition CLIR_SUPPRESSION : Z := 2.
Definition RIL_TOA_UNKNOWN : Z := 0x81.
Definition RIL_TOA_INTERNATIONAL : Z := 0x91.
Definition SIT_CALL_CALL_TYPE_VOICE : Z := 1.
Definition SIT_CALL_CALL_TYPE_DATA : Z := 2.
Definition SIT_CALL_CALL_TYPE_VIDEO : Z := 3.
Definition SIT_CALL_CALL_TYPE_EMERGENCY : Z := 4.
Definition SIT_CALL_CALL_TYPE_VOLTE : Z := 5.
Definition SIT_CALL_CALL_TYPE_CDMA_VOICE : Z := 10.
Definition SIT_CALL_CALL_TYPE_CDMA_OTASP : Z := 11.
Definition SIT_CALL_CALL_TYPE_CDMA_EMERGENCY : Z := 12.

Definition MAX_MATCH_TABLE : nat := 20.
Record sit_ril_match_table := { Index : Z; DefSitValue : Z; DefRilValue : Z; match_table : list (Z * Z) }.
(** the entries that are not written are zeros *)
Definition sit_ril_table (index : Z) (l : list (Z * Z)) : sit_ril_match_table :=
  {| Index := index; DefSitValue := -1; DefRilValue := -1; match_table := l ++ replicate (MAX_MATCH_TABLE - length l) (0, 0) |}.
Definition SIT_CALL_TB_IDX_STATE : Z := 0.
Definition SIT_CALL_TB_IDX_PRESENTATION : Z := 1.
Definition SIT_CALL_TB_IDX_UUS_TYPE : Z := 2.
Definition SIT_CALL_TB_IDX_UUS_DCS : Z := 3.
Definition SIT_CALL_TB_IDX_TYPE : Z := 4.
Definition SIT_CALL_TB_IDX_CLIR : Z := 5.
Definition SIT_CALL_TB_IDX_GET_CLIP_STATE : Z := 6.
Definition SIT_CALL_TB_IDX_SERVICE_CLASS_CF_SET : Z := 7.
Definition SIT_CALL_TB_IDX_SERVICE_CLASS_CF_GET : Z := 8.
Definition SIT_CALL_TB_IDX_SERVICE_STATUS_CALL_WAITING : Z := 9.
Definition SIT_CALL_TB_IDX_USSD_STATUS : Z := 10.
Definition SIT_CALL_TB_IDX_SSNOTI_TYPE : Z := 11.
Definition SIT_CALL_TB_IDX__MAX : Z := 12.
Definition SitRilValueTable : list sit_ril_match_table :=
  [sit_ril_table SIT_CALL_TB_IDX_STATE [(2, RIL_CALL_DIALING); (4, RIL_CALL_INCOMING); (5, RIL_CALL_WAITING); (3, RIL_CALL_ALERTING);
     (0, RIL_CALL_ACTIVE); (1, RIL_CALL_HOLDING)];
   sit_ril_table SIT_CALL_TB_IDX_PRESENTATION [(0, RIL_CALL_NAME_PRESENTATION_ALLOW); (1, RIL_CALL_NAME_PRESENTATION_RESTRICT);
     (2, RIL_CALL_NAME_PRESENTATION_UNKNOWN); (3, RIL_CALL_NAME_PRESENTATION_PAYPHONE)];
   sit_ril_table SIT_CALL_TB_IDX_UUS_TYPE [(0, 0); (1, 1); (2, 2); (3, 3); (4, 4); (5, 5); (6, 6)];
   sit_ril_table SIT_CALL_TB_IDX_UUS_DCS [(0, 0); (1, 1); (2, 2); (3, 3); (4, 4)];
   sit_ril_table SIT_CALL_TB_IDX_TYPE [(SIT_CALL_CALL_TYPE_VOICE, CALL_TYPE_VOICE); (SIT_CALL_CALL_TYPE_VIDEO, CALL_TYPE_VIDEO);
     (SIT_CALL_CALL_TYPE_EMERGENCY, CALL_TYPE_EMERGENCY); (SIT_CALL_CALL_TYPE_CDMA_VOICE, CALL_TYPE_CDMA_VOICE);
     (SIT_CALL_CALL_TYPE_CDMA_EMERGENCY, CALL_TYPE_CDMA_EMERGENCY)];
   sit_ril_table SIT_CALL_TB_IDX_CLIR [(0, CLIR_DEFAULT); (1, CLIR_INVOCATION); (2, CLIR_SUPPRESSION)];
   sit_ril_table SIT_CALL_TB_IDX_GET_CLIP_STATE [(0, 0); (1, 1); (2, 2)];
   sit_ril_table SIT_CALL_TB_IDX_SERVICE_CLASS_CF_SET [(0, 0); (1, 1); (2, 2); (3, 3); (4, 4)];
   sit_ril_table SIT_CALL_TB_IDX_SERVICE_CLASS_CF_GET [(0, 0); (1, 1)];
   sit_ril_table SIT_CALL_TB_IDX_SERVICE_STATUS_CALL_WAITING [(0, 0); (1, 1)];
   sit_ril_table SIT_CALL_TB_IDX_USSD_STATUS [(0, 0); (1, 1); (2, 2); (3, 3); (4, 4); (5, 5)];
   sit_ril_table SIT_CALL_TB_IDX_SSNOTI_TYPE [(0, 0); (1, 1)] ].
Definition RET_VALUE_SAME_AS_SIT_COMMAND : Z := -99.
Fixpoint RilVal (SitValue : Z) (l : list (Z * Z)) : option Z :=
  match l with [] => None | (sit, ril) :: l => if sit =? SitValue then Some ril else RilVal SitValue l end.
Fixpoint SitVal (RilValue : Z) (l : list (Z * Z)) : option Z :=
  match l with [] => None | (sit, ril) :: l => if ril =? RilValue then Some sit else SitVal RilValue l end.
Definition the_table (TableIndex : Z) : option sit_ril_match_table :=
  if (0 <=? TableIndex) && (TableIndex <? SIT_CALL_TB_IDX__MAX)
  then t ← SitRilValueTable !! Z.to_nat TableIndex; if Index t =? TableIndex then Some t else None
  else None.
Definition ConvertSitDefineToRilDefine (TableIndex SitValue : Z) : Z :=
  match the_table TableIndex with
  | Some t => match RilVal SitValue (match_table t) with
              | Some v => v
              | None => if DefRilValue t =? RET_VALUE_SAME_AS_SIT_COMMAND then SitValue else DefRilValue t
              end
  | None => -1
  end.
Definition ConvertRilDefineToSitDefine (TableIndex RilValue : Z) : Z :=
  match the_table TableIndex with
  | Some t => match SitVal RilValue (match_table t) with Some v => v | None => DefSitValue t end
  | None => -1
  end.

(** ** Requests *)

Record UusInfo := { m_uusType : Z; m_uusDcs : Z; m_uusLength : Z; m_uusData : list Z }.
Definition newUusInfo : UusInfo := {| m_uusType := 0; m_uusDcs := 0; m_uusLength := 0; m_uusData := fill MAX_UUS_DATA_LEN 0 |}.
(** [RIL_UUS_Info] and [RIL_Dial]: the pointers are what they point to; [d_callType] is there in a [RIL_Dial_Ext] *)
Definition sizeof_RIL_Dial : Z := 24.
Definition sizeof_RIL_Dial_Ext : Z := 32.
Record RIL_UUS_Info := { uusType : Z; uusDcs : Z; uusLength : Z; uusData : list Z }.
Record RIL_Dial := { d_address : list Z; d_clir : Z; d_uusInfo : option RIL_UUS_Info; d_callType : option Z }.
Record CallDialReqData := { m_number : list Z; m_clirType : Z; m_uusInfo : UusInfo; m_callType : Z; m_eccCategory : Z }.
Definition newCallDialReqData : CallDialReqData :=
  {| m_number := fill (MAX_DIAL_NUM + 1) 0; m_clirType := CLIR_DEFAULT; m_uusInfo := newUusInfo; m_callType := CALL_TYPE_VOICE; m_eccCategory := 0 |}.
(** the data of the UUS are copied whatever their length *)
Definition CallDialReqData_encode (data : option RIL_Dial) (datalen : Z) (r : CallDialReqData) : res (Z * CallDialReqData) :=
  match data with
  | None => Ok (-1, r)
  | Some dial =>
    if datalen =? 0 then Ok (-1, r)
    else
      number ← strncpy (m_number r) 0 (d_address dial) MAX_DIAL_NUM;
      uus ← (match d_uusInfo dial with
             | Some u => b ← rdn (uusData u) 0 (uusLength u); d ← wrn (m_uusData (m_uusInfo r)) 0 b;
                         Ok {| m_uusType := uusType u; m_uusDcs := uusDcs u; m_uusLength := uusLength u; m_uusData := d |}
             | None => Ok (m_uusInfo r)
             end);
      type ← (if datalen =? sizeof_RIL_Dial_Ext then match d_callType dial with Some t => Ok t | None => UB end else Ok CALL_TYPE_VOICE);
      Ok (0, {| m_number := number; m_clirType := d_clir dial; m_uusInfo := uus; m_callType := type;
                m_eccCategory := m_eccCategory r |})
  end.
Definition GetNumber (r : CallDialReqData) : list Z := cstr (m_number r).
(** [RIL_EmergencyDial] *)
Record RIL_EmergencyDial := { dialInfo : RIL_Dial; ed_categories : Z; ed_routing : Z }.
Definition sizeof_RIL_EmergencyDial : Z := 48.
Record CallEmergencyDialReqData := { edial : CallDialReqData; m_categories : Z; m_routing : Z }.
Definition CallEmergencyDialReqData_encode (data : option RIL_EmergencyDial) (datalen : Z) (r : CallEmergencyDialReqData)
  : res (Z * CallEmergencyDialReqData) :=
  match data with
  | None => Ok (-1, r)
  | Some d =>
    if (datalen =? 0) || (datalen <? sizeof_RIL_EmergencyDial) then Ok (-1, r)
    else
      t ← CallDialReqData_encode (Some (dialInfo d)) sizeof_RIL_Dial (edial r);
      if t.1 <? 0 then Ok (-1, {| edial := t.2; m_categories := m_categories r; m_routing := m_routing r |})
      else Ok (0, {| edial := t.2; m_categories := ed_categories d; m_routing := ed_routing d |})
  end.

(** ** The packets *)

Definition BuildGetCallList : Z → res (option (list Z) * Z) := null_request SIT_GET_CURRENT_CALLS.
Definition BuildAnswer : Z → res (option (list Z) * Z) := null_request SIT_ANSWER.
Definition BuildExplicitCallTransfer : Z → res (option (list Z) * Z) := null_request SIT_SEND_EXPLICIT_CALL_TRANSFER.
Definition BuildLastCallFailCause : Z → res (option (list Z) * Z) := null_request SIT_GET_LAST_CALL_FAIL_CAUSE.
Definition BuildCdmaQueryPreferredVoicePrivacyMode : Z → res (option (list Z) * Z) := null_request SIT_GET_CDMA_VOICE_PRIVACY_MODE.
Definition BuildHangupWaitingOrBackground : Z → res (option (list Z) * Z) := null_request SIT_HANGUP_WAITING_OR_BACKGROUND.
Definition BuildHangupForegroundResumeBackground : Z → res (option (list Z) * Z) := null_request SIT_HANGUP_FORGROUND_RESUME_BACKGROUND.
Definition BuildSwitchWaitingOrHoldingAndActive : Z → res (option (list Z) * Z) := null_request SIT_SWITCH_WAITING_OR_HOLDING_AND_ACTIVE.
Definition BuildConference : Z → res (option (list Z) * Z) := null_request SIT_CONFERENCE.
Definition BuildUdub : Z → res (option (list Z) * Z) := null_request SIT_UDUB.
Definition BuildSendCallConfirm : Z → res (option (list Z) * Z) := null_request SIT_CALL_CONFIRM.
Definition BuildExitEmergencyCbMode : Z → res (option (list Z) * Z) := null_request SIT_EXIT_EMERGENCY_CB_MODE.
Definition BuildGetMute : Z → res (option (list Z) * Z) := null_request SIT_GET_MUTE.
(** a packet of the header and a byte, and of the header and a number *)
Definition byte_request (id m_nToken v : Z) : res (option (list Z) * Z) :=
  t ← InitRequestHeader m_nToken (fill 13 0) id 13; req ← t.1.[12 <- Z.land v 255]; Ok (Some req, t.2).
Definition int_request (id m_nToken v : Z) : res (option (list Z) * Z) :=
  t ← InitRequestHeader m_nToken (fill 16 0) id 16; req ← wrn t.1 12 (le32 (u32 v)); Ok (Some req, t.2).
Definition BuildCdmaSetPreferredVoicePrivacyMode : Z → Z → res (option (list Z) * Z) := byte_request SIT_SET_CDMA_VOICE_PRIVACY_MODE.
Definition BuildSetCallConfirm : Z → Z → res (option (list Z) * Z) := byte_request SIT_CALL_CONFIRM_FEATURE_SET_REQ.
Definition BuildSwitchVoiceCallAudio : Z → Z → res (option (list Z) * Z) := byte_request SIT_SWITCH_VOICE_CALL_AUDIO.
Definition BuildSeparateConnection : Z → Z → res (option (list Z) * Z) := int_request SIT_SEPARATE_CONNECTION.
Definition BuildSetMute (m_nToken muteMode : Z) : res (option (list Z) * Z) := int_request SIT_SET_MUTE m_nToken (if muteMode =? 0 then 0 else 1).
Definition SIT_CALL_NUMBER_TYPE_INTERNATIONAL : Z := 0x10.
Definition SIT_CALL_NUMBER_TYPE_NATIONAL : Z := 0x20.
Definition SIT_CALL_NUMBER_PLAN_ISDN : Z := 1.
Definition number_type (number : list Z) : Z := if decide (take 1 number = str "+") then SIT_CALL_NUMBER_TYPE_INTERNATIONAL else SIT_CALL_NUMBER_TYPE_NATIONAL.
(** [sit_call_dial_req]: call_type 12, emergency_call_subtype 13, num_len 14, num 15, num_type 97, num_plan 98, clir 99, cug_call 100,
    cug_info_index 101, cug_info 102 *)
Definition sizeof_dial_req : Z := 103.
Definition BuildDial (m_nToken : Z) (number : list Z) (clir cType eccType : Z) : res (option (list Z) * Z) :=
  t ← InitRequestHeader m_nToken (fill sizeof_dial_req 0) SIT_DIAL sizeof_dial_req;
  req ← t.1.[12 <- Z.land (ConvertRilDefineToSitDefine SIT_CALL_TB_IDX_TYPE cType) 255];
  req ← req.[13 <- Z.land eccType 255];
  let num_len := Z.min (lenZ number) MAX_DIAL_NUM in
  req ← req.[14 <- num_len];
  num ← rdn number 0 num_len; req ← wrn req 15 num;
  req ← req.[97 <- number_type number]; req ← req.[98 <- SIT_CALL_NUMBER_PLAN_ISDN];
  req ← req.[99 <- Z.land (ConvertRilDefineToSitDefine SIT_CALL_TB_IDX_CLIR clir) 255];
  req ← req.[100 <- 0]; req ← req.[101 <- 0]; req ← req.[102 <- 0];
  Ok (Some req, t.2).
(** [sit_call_hangup_req]: index 12, call_type 16 *)
Definition SIT_CALL_HANGUP_CALL_TYPE_SINGLE : Z := 1.
Definition SIT_CALL_HANGUP_CALL_TYPE_MULTI : Z := 2.
Definition hangup_request (call_type m_nToken callId : Z) : res (option (list Z) * Z) :=
  t ← InitRequestHeader m_nToken (fill 20 0) SIT_HANGUP 20;
  req ← wrn t.1 12 (le32 (u32 callId)); req ← wrn req 16 (le32 call_type); Ok (Some req, t.2).
Definition BuildHangup : Z → Z → res (option (list Z) * Z) := hangup_request SIT_CALL_HANGUP_CALL_TYPE_SINGLE.
Definition BuildHangupMulti : Z → Z → res (option (list Z) * Z) := hangup_request SIT_CALL_HANGUP_CALL_TYPE_MULTI.
(** a length, cut to [max], and as many bytes; the text, with its zero, may be shorter than told *)
Definition put_counted (req : list Z) (off max len : Z) (s : option (list Z)) : res (list Z) :=
  let n := if max <=? len then max else len in
  req ← req.[off <- Z.land n 255];
  match s with Some s => b ← rdn (s ++ [0]) 0 n; wrn req (off + 1) b | None => Ok req end.
(** [sit_call_cdma_burst_dtmf_req]: dtmf_len 12, dtmf_digit 13, on_len 45, dtmf_on_length 46, off_len 301, dtmf_off_length 302 *)
Definition sizeof_burst_dtmf_req : Z := 557.
Definition BuildCdmaBurstDtmf (m_nToken dtmf_length : Z) (dtmf : option (list Z)) (on_len : Z) (on_length : option (list Z))
  (off_len : Z) (off_length : option (list Z)) : res (option (list Z) * Z) :=
  t ← InitRequestHeader m_nToken (fill sizeof_burst_dtmf_req 0) SIT_CDMA_BURST_DTMF sizeof_burst_dtmf_req;
  req ← put_counted t.1 12 MAX_BURST_DTMF_LEN dtmf_length dtmf;
  req ← put_counted req 45 MAX_BURST_DTMF_ON_OFF_LEN on_len on_length;
  req ← put_counted req 301 MAX_BURST_DTMF_ON_OFF_LEN off_len off_length;
  Ok (Some req, t.2).
(** [sit_ss_set_cdma_flash_info_req]: flash_len 12, flash 13 *)
Definition sizeof_flash_req : Z := 48.
Definition BuildCdmaFlash (m_nToken : Z) (flash : option (list Z)) : res (option (list Z) * Z) :=
  t ← InitRequestHeader m_nToken (fill sizeof_flash_req 0) SIT_SET_CDMA_FLASH_INFO sizeof_flash_req;
  req ← (match flash with Some s => put_counted t.1 12 MAX_FLASH_LEN (lenZ s) flash | None => Ok t.1 end);
  Ok (Some req, t.2).

(** ** The list of the calls *)

Record CallInfo := {
  m_state : Z; m_nIndex : Z; m_toa : Z; m_isMParty : bool; m_isMt : bool; m_isVoice : bool; m_isVideo : bool; m_isVoicePrivacy : bool;
  m_numPresent : Z; m_namePresent : Z; m_als : Z; ci_number : list Z; m_name : list Z; ci_uusInfo : UusInfo; m_audioQuality : Z }.
(** the cleared entry; the line, −1, is stored in a [char] *)
Definition newCallInfo : CallInfo :=
  {| m_state := RIL_CALL_ACTIVE; m_nIndex := -1; m_toa := -1; m_isMParty := false; m_isMt := false; m_isVoice := false; m_isVideo := false;
     m_isVoicePrivacy := false; m_numPresent := RIL_CALL_NAME_PRESENTATION_ALLOW; m_namePresent := RIL_CALL_NAME_PRESENTATION_ALLOW; m_als := 255;
     ci_number := fill (MAX_DIAL_NUM + 1) 0; m_name := fill (MAX_DIAL_NAME + 1) 0; ci_uusInfo := newUusInfo; m_audioQuality := 0 |}.
(** [sit_call_get_current_calls_rsp]: number 12, record 16; a record: state 0, index 1, type_of_address 5, is_mpty 9, is_mt 10, als 11, call_type 12,
    is_voice_privacy 13, num_len 14, num 15, number_presentation 97, name_len 101, name 102, name_presentation 184, name_dcs 188, uus_type 189,
    uus_dcs 193, uus_data_len 197, uus_data 198, SRVCCCall 326 *)
Definition sizeof_sit_call_info_type : Z := 327.
Definition rdi32 (raw : list Z) (off : Z) : res Z := n ← rd32 raw off; Ok (i32 n).
Definition GetCallNum (raw : list Z) : res Z := rdi32 raw 12.
(** an overflow of the product is undefined *)
Definition HasValidLength (raw : list Z) : res bool :=
  packet_len ← rd16 raw off_length;
  if packet_len <? 16 then Ok false
  else
    n ← GetCallNum raw;
    let expected := sizeof_sit_call_info_type * n + 16 in
    if (expected <? - 2 ^ 31) || (2 ^ 31 <=? expected) then UB else Ok (packet_len =? expected).
Definition is_voice_type (call_type : Z) : bool :=
  (call_type <=? SIT_CALL_CALL_TYPE_VOICE) || (call_type =? SIT_CALL_CALL_TYPE_EMERGENCY) || (call_type =? SIT_CALL_CALL_TYPE_VOLTE)
  || (call_type =? SIT_CALL_CALL_TYPE_CDMA_VOICE) || (call_type =? SIT_CALL_CALL_TYPE_CDMA_EMERGENCY).
Definition shown (presentation : Z) : bool :=
  (presentation =? RIL_CALL_NAME_PRESENTATION_ALLOW) || (presentation =? RIL_CALL_NAME_PRESENTATION_UNKNOWN).
Definition ConvertSitToUusInfo (raw : list Z) (at_ : Z) (u : UusInfo) : res UusInfo :=
  type ← rdi32 raw (at_ + 189); dcs ← rdi32 raw (at_ + 193); len ← raw.[at_ + 197];
  let n := Z.min len MAX_UUS_DATA_LEN in
  b ← rdn raw (at_ + 198) n; d ← wrn (m_uusData u) 0 b;
  Ok {| m_uusType := ConvertSitDefineToRilDefine SIT_CALL_TB_IDX_UUS_TYPE type; m_uusDcs := ConvertSitDefineToRilDefine SIT_CALL_TB_IDX_UUS_DCS dcs;
        m_uusLength := n; m_uusData := d |}.
(** the text of the number, and of the name: the lengths are those of the record unless the presentation hides it *)
Definition call_number (raw : list Z) (at_ num_len : Z) : res (list Z) :=
  b ← rdn raw (at_ + 15) (Z.min num_len MAX_DIAL_NUM); wrn (fill (MAX_DIAL_NUM + 1) 0) 0 b.
(** [decodedName] is not initialised; what is not written of it is not defined *)
Definition call_name (raw : list Z) (at_ name_len : Z) : res (list Z) :=
  dcs ← raw.[at_ + 188];
  r ← DecodingUssd dcs (Some (drop (Z.to_nat (at_ + 102)) raw)) name_len (Some (fill MAX_DIAL_NAME 0)) MAX_DIAL_NAME;
  b ← rdn r.1 0 (Z.min r.2 MAX_DIAL_NAME); wrn (fill (MAX_DIAL_NAME + 1) 0) 0 b.
(** The entry [index] of the frame into [c]: the result and what was filled in of the entry. *)
Definition GetCallInfo (raw : list Z) (c : CallInfo) (index : Z) : res (Z * CallInfo) :=
  number ← GetCallNum raw;
  if (index <? 0) || (MAX_CALL_LIST_NUM <=? index) || (number <=? index) then Ok (-2, c)
  else
    let at_ := 16 + sizeof_sit_call_info_type * index in
    state ← raw.[at_]; id ← rdi32 raw (at_ + 1); toa ← rdi32 raw (at_ + 5);
    is_mpty ← raw.[at_ + 9]; is_mt ← raw.[at_ + 10]; call_type ← raw.[at_ + 12];
    let c := {| m_state := ConvertSitDefineToRilDefine SIT_CALL_TB_IDX_STATE state; m_nIndex := id;
                m_toa := if toa =? RIL_TOA_INTERNATIONAL then RIL_TOA_INTERNATIONAL else RIL_TOA_UNKNOWN;
                m_isMParty := is_mpty =? 1; m_isMt := is_mt =? 1; m_isVoice := is_voice_type call_type;
                m_isVideo := call_type =? SIT_CALL_CALL_TYPE_VIDEO; m_isVoicePrivacy := m_isVoicePrivacy c; m_numPresent := m_numPresent c;
                m_namePresent := m_namePresent c; m_als := m_als c; ci_number := ci_number c; m_name := m_name c; ci_uusInfo := ci_uusInfo c;
                m_audioQuality := m_audioQuality c |} in
    if negb (m_isVoice c) && negb (m_isVideo c) then Ok (-3, c)
    else
      privacy ← raw.[at_ + 13];
      num_present ← rdi32 raw (at_ + 97); num_len ← raw.[at_ + 14];
      let num_present := ConvertSitDefineToRilDefine SIT_CALL_TB_IDX_PRESENTATION num_present in
      let num_len := if shown num_present then num_len else 0 in
      name_present ← rdi32 raw (at_ + 184); name_len ← raw.[at_ + 101];
      let name_present := ConvertSitDefineToRilDefine SIT_CALL_TB_IDX_PRESENTATION name_present in
      let name_len := if shown name_present then name_len else 0 in
      als ← raw.[at_ + 11];
      number ← (if 0 <? num_len then call_number raw at_ num_len else Ok (if shown num_present then ci_number c else fill (MAX_DIAL_NUM + 1) 0));
      name ← (if 0 <? name_len then call_name raw at_ name_len else Ok (if shown name_present then m_name c else fill (MAX_DIAL_NAME + 1) 0));
      uus ← ConvertSitToUusInfo raw at_ (ci_uusInfo c);
      Ok (0, {| m_state := m_state c; m_nIndex := m_nIndex c; m_toa := m_toa c; m_isMParty := m_isMParty c; m_isMt := m_isMt c; m_isVoice := m_isVoice c;
                m_isVideo := m_isVideo c; m_isVoicePrivacy := negb (privacy =? 0);
                m_numPresent := if 0 <? num_len then RIL_CALL_NAME_PRESENTATION_ALLOW else num_present;
                m_namePresent := if 0 <? name_len then RIL_CALL_NAME_PRESENTATION_ALLOW else name_present;
                m_als := als; ci_number := number; m_name := name; ci_uusInfo := uus; m_audioQuality := m_audioQuality c |}).

(** ** The other answers *)

(** the members are read without a look at the kind of the frame, or at its length *)
(** the reasons that have a name, with their numbers on both sides; another is told as it is *)
Definition CALL_FAIL_ERROR_UNSPECIFIED : Z := 0xFFFF.
Definition last_call_fail_causes : list (Z * Z) :=
  [(0x1, 1); (0x10, 16); (0x11, 17); (0x1F, 31); (0x22, 34); (0x44, 68); (0xF0, 240); (0xF1, 241); (0xF2, 242); (0xF3, 243);
   (0x3E8, 1000); (0x3E9, 1001); (0x3EA, 1002); (0x3EB, 1003); (0x3EC, 1004); (0x3ED, 1005); (0x3EE, 1006); (0x3EF, 1007); (0x3F0, 1008); (0x3F1, 1009);
   (0xFFFF, CALL_FAIL_ERROR_UNSPECIFIED)].
Definition GetLastCallFailCause (raw : list Z) : res Z := n ← rdi32 raw 12; Ok (default n (RilVal n last_call_fail_causes)).
Definition answer_byte (raw : list Z) : res Z := raw.[12].
(** [ProtocolSetCallConfirmRespAdapter::GetResult], [ProtocolSendCallConfirmRespAdapter::GetResult],
    [ProtocolGetPreferredVoicePrivacyModeAdapter::GetPreferredVoicePrivacyStatus] *)
Definition CallConfirm_GetResult : list Z → res Z := answer_byte.
Definition GetPreferredVoicePrivacyStatus : list Z → res Z := answer_byte.
Definition GetMuteState (m_pModemData : option (list Z)) : res Z := when_id [SIT_GET_MUTE] 0 m_pModemData (λ raw, rdi32 raw 12).
Definition RIL_E_OEM_ERROR_1 : Z := 501.
(** [ProtocolExitEmergencyCbModeRespAdapter::GetRilErrorCode]: another table than that of the other answers *)
Definition GetRilErrorCode (m_pModemData : option (list Z)) : res Z :=
  match m_pModemData with
  | None => Ok RIL_E_MODEM_ERR
  | Some raw =>
    if sizeof_RCM_HEADER <=? lenZ raw
    then
      type ← raw.[off_type];
      if type =? RCM_TYPE_RESPONSE
      then e ← raw.[off_error];
           let errorCode := Z.land e 255 in
           Ok (if errorCode <=? RIL_E_NO_SUCH_ELEMENT then errorCode
               else if errorCode =? RCM_E_UNDEFINED_CMD then RIL_E_REQUEST_NOT_SUPPORTED
               else if errorCode <? RCM_E_MAX then errorCode - 17 + RIL_E_OEM_ERROR_1 - 1
               else RIL_E_MODEM_ERR)
      else Ok RIL_E_MODEM_ERR
    else Ok RIL_E_MODEM_ERR
  end.

(** ** Indications *)

(** [sit_snd_ringback_tone_with_flag_ind]: ringback_state 8, flag 12 *)
Definition RIL_SND_RINGBACK_TONE_END : Z := 0.
Definition RIL_SND_RINGBACK_TONE_START : Z := 1.
Definition RINGBACK_FLAG_PLAY_INBAND_BY_NW : Z := 1.
Definition ConvertSITToRingbackToneType (type : Z) : Z := if type =? 0 then RIL_SND_RINGBACK_TONE_END else RIL_SND_RINGBACK_TONE_START.
Definition GetRingbackToneState (m_pModemData : option (list Z)) : res Z :=
  when_id [SIT_IND_RINGBACK_TONE] RIL_SND_RINGBACK_TONE_END m_pModemData (λ raw, n ← rdi32 raw 8; Ok (ConvertSITToRingbackToneType n)).
Definition GetFlag (m_pModemData : option (list Z)) : res Z :=
  when_id [SIT_IND_RINGBACK_TONE] (-1) m_pModemData (λ raw, if 16 <=? lenZ raw then n ← rdi32 raw 12; Ok (Z.land n 255) else Ok (-1)).
Definition GetSupportRatMode (m_pModemData : option (list Z)) : res Z := when_id [SIT_IND_EMERGENCY_SUPPORT_RAT_MODE] 0 m_pModemData (λ raw, raw.[8]).
(** [sit_ota_provision_status_ind]: otaType 8, otaStatus 9 *)
Definition otasp_status (otaStatus : Z) : Z :=
  match otaStatus with
  | 1 => 0 | 2 => 2 | 3 => 3 | 4 => 4 | 5 => 5 | 6 => 6 | 7 => 7 | 8 => 8 | 9 => 8 | 10 => 8 | 11 => 0 | 14 => 1 | _ => -1
  end.
Definition otapa_status (otaStatus : Z) : Z := match otaStatus with 0 => 10 | 1 => 9 | _ => -1 end.
Definition GetOtaProvisionStatus (raw : list Z) : res Z :=
  otaType ← raw.[8]; otaStatus ← raw.[9];
  Ok (if otaType =? 1 then otasp_status otaStatus else if otaType =? 2 then otapa_status otaStatus else -1).

(** *** A second call of a CDMA network *)

Record RIL_CDMA_SignalInfoRecord := { isPresent : Z; signalType : Z; alertPitch : Z; signal : Z }.
(** the texts are those of the frame, from their first byte on *)
Record RIL_CDMA_CallWaiting_v6 := {
  cw_number : option (list Z); cw_numberPresentation : Z; cw_name : option (list Z); cw_signal : RIL_CDMA_SignalInfoRecord;
  cw_number_type : Z; cw_number_plan : Z }.
(** [sit_ss_cdma_call_waiting_ind]: num_len 8, number 9, number_presentation 91, name_len 92, name 93, signal_info 175, number_type 179,
    number_plan 180 *)
Definition GetCwInfo (raw : list Z) : res RIL_CDMA_CallWaiting_v6 :=
  presentation ← raw.[91]; num_len ← raw.[8];
  let presentation := ConvertSitDefineToRilDefine SIT_CALL_TB_IDX_PRESENTATION presentation in
  let num_len := if presentation =? RIL_CALL_NAME_PRESENTATION_ALLOW then num_len else 0 in
  name_len ← raw.[92];
  type ← raw.[176]; pitch ← raw.[177]; signal ← raw.[178]; ntype ← raw.[179]; nplan ← raw.[180];
  Ok {| cw_number := if 0 <? num_len then Some (drop 9 raw) else None;
        cw_numberPresentation := if 0 <? num_len then RIL_CALL_NAME_PRESENTATION_ALLOW else presentation;
        cw_name := if 0 <? name_len then Some (drop 93 raw) else None;
        cw_signal := {| isPresent := 1; signalType := type; alertPitch := pitch; signal := signal |};
        cw_number_type := ntype; cw_number_plan := nplan |}.

(** *** Records of a CDMA network *)

Definition CDMA_ALPHA_INFO_BUFFER_LENGTH : Z := 64.
Definition CDMA_NUMBER_INFO_BUFFER_LENGTH : Z := 81.
Record RIL_CDMA_NumberInfoRecord := { nr_buf : list Z; nr_number_type : Z; nr_number_plan : Z; nr_pi : Z; nr_si : Z }.
(** [RIL_CDMA_InformationRecord]: the name and the member of the union that was filled in; the length of a text is that of its list *)
Inductive InfoRec :=
| RecNone | RecDisplay (alpha : list Z) | RecNumber (n : RIL_CDMA_NumberInfoRecord) | RecSignal (r : RIL_CDMA_SignalInfoRecord)
| RecRedirecting (n : RIL_CDMA_NumberInfoRecord) (reason : Z) | RecLine (included toggle reverse denial : Z).
Record RIL_CDMA_InformationRecord := { ir_name : Z; ir_rec : InfoRec }.
(** [sit_cdma_information_records]: num_of_info_recs 8, info_rec 9; a record: cdma_info_name 0, the union 1.  A number: len 0, buf 1, number_type 82,
    number_plan 83, pi 84, si 85; behind it, the reason of a redirection 86. *)
Definition sizeof_sit_cdma_info_rec_ind : Z := 88.
Definition number_rec (raw : list Z) (at_ : Z) : res RIL_CDMA_NumberInfoRecord :=
  len ← raw.[at_];
  if CDMA_NUMBER_INFO_BUFFER_LENGTH <? len then UB
  else
    buf ← rdn raw (at_ + 1) len; type ← raw.[at_ + 82]; plan ← raw.[at_ + 83]; pi ← raw.[at_ + 84]; si ← raw.[at_ + 85];
    Ok {| nr_buf := buf; nr_number_type := type; nr_number_plan := plan; nr_pi := pi; nr_si := si |}.
Definition GetNumberOfInfoRecs (raw : list Z) : res Z := raw.[8].
Definition GetCdmaInfo (raw : list Z) (index : Z) : res RIL_CDMA_InformationRecord :=
  let at_ := 9 + sizeof_sit_cdma_info_rec_ind * index in
  name ← raw.[at_];
  rec ← (match name with
         | 0 | 7 =>
           len ← raw.[at_ + 1];
           if CDMA_ALPHA_INFO_BUFFER_LENGTH <? len then UB else b ← rdn raw (at_ + 2) len; Ok (RecDisplay b)
         | 1 | 2 | 3 => n ← number_rec raw (at_ + 1); Ok (RecNumber n)
         | 4 => present ← raw.[at_ + 1]; type ← raw.[at_ + 2]; pitch ← raw.[at_ + 3]; signal ← raw.[at_ + 4];
                Ok (RecSignal {| isPresent := present; signalType := type; alertPitch := pitch; signal := signal |})
         | 5 => n ← number_rec raw (at_ + 1); reason ← raw.[at_ + 87]; Ok (RecRedirecting n reason)
         | 6 => included ← raw.[at_ + 1]; toggle ← raw.[at_ + 2]; reverse ← raw.[at_ + 3]; denial ← raw.[at_ + 4]; Ok (RecLine included toggle reverse denial)
         | _ => Ok RecNone
         end);
  Ok {| ir_name := name; ir_rec := rec |}.

(** *** The emergency numbers of the network *)

Record EmcInfo := { e_mcc : list Z; e_mnc : list Z; e_number : list Z; e_number_len : Z; e_source : Z; e_category : Z; e_conditions : Z; e_urn_count : Z }.
Definition newEmcInfo : EmcInfo :=
  {| e_mcc := fill 4 0; e_mnc := fill 4 0; e_number := fill (MAX_EMERGENCY_NUMBER_LEN + 1) 0; e_number_len := 0; e_source := -1; e_category := -1;
     e_conditions := -1; e_urn_count := 0 |}.
Definition SIT_EMERGENCY_CONDITION_ALWAYS : Z := 1.
(** without resource names: the update of those does nothing.  [number_len] characters are written, those behind the text as zeros. *)
Definition EmcInfo_update (mcc mnc number : list Z) (number_len category conditions source : Z) (e : EmcInfo) : res EmcInfo :=
  c ← strncpy (e_mcc e) 0 mcc (Z.min (lenZ mcc) 3); n ← strncpy (e_mnc e) 0 mnc (Z.min (lenZ mnc) 3);
  t ← strncpy (e_number e) 0 number number_len;
  Ok {| e_mcc := c; e_mnc := n; e_number := t; e_number_len := number_len; e_source := source; e_category := category; e_conditions := conditions;
        e_urn_count := e_urn_count e |}.
(** [sit_call_emergency_call_list_ind]: mcc 8, mnc 11, num 14, number_info 15; an entry: category 0, emc_number_len 1, emc_number 2, source 34 *)
Definition sizeof_emergency_call_list_ind : Z := 715.
Definition emergency_HasValidLength (raw : list Z) : res bool := n ← rd16 raw off_length; Ok (n =? sizeof_emergency_call_list_ind).
Definition emergency_ids : list Z := [SIT_IND_EMERGENCY_CALL_LIST].
Definition GetMcc (m_pModemData : option (list Z)) : res (option (list Z)) :=
  when_id emergency_ids None m_pModemData (λ raw, b ← rdn raw 8 3; Ok (Some (cstr (b ++ [0])))).
Definition GetMnc (m_pModemData : option (list Z)) : res (option (list Z)) :=
  when_id emergency_ids None m_pModemData (λ raw,
    b ← rdn raw 11 3; Ok (Some (cstr ((match b with [x; y; 35] => [x; y; 0] | _ => b end) ++ [0])))).
Definition emergency_GetNum (m_pModemData : option (list Z)) : res Z := when_id emergency_ids 0 m_pModemData (λ raw, raw.[14]).
(** the category, the length, the number and the source of the entry [idx] *)
Definition GetEmcInfo (m_pModemData : option (list Z)) (idx : Z) : res (option (Z * Z * list Z * Z)) :=
  if (idx <? 0) || (MAX_EMERGENCY_CALL_NUM <=? idx) then Ok None
  else
    when_id emergency_ids None m_pModemData (λ raw,
      num ← raw.[14];
      if num <=? idx then Ok None
      else
        let at_ := 15 + 35 * idx in
        category ← raw.[at_]; len ← raw.[at_ + 1];
        b ← rdn raw (at_ + 2) (Z.min len MAX_EMERGENCY_NUMBER_LEN);
        source ← raw.[at_ + 34];
        Ok (Some (category, len, cstr (b ++ [0]), source))).
