(* ===== verification/Call.v ===== *)
(** Voice calls: [core/service/cscservice.cpp], [core/service/calldata.cpp].

    The modem numbers its calls; the framework is given numbers from a table of
    nine, so that a call keeps its number as long as the lists of the modem name
    it.  This file has the table, the state of the service, and the handlers of
    its requests, of their answers and of the indications.

    The handlers are those of [Handler.v].  The answers and the indications are
    noted with what they point to at that moment. *)
From stdpp Require Import gmap.
From S2P Require Import Prelude RilDef Text WaitList Network Rcm Layout Handler RilData MccTable CallPackets.

(** ** The numbers of the calls *)

Definition MAX_CALL_ID_COUNT : Z := 9.
Inductive CS_CALL_ID_STATE := CALL_ID_STATE_INACTIVE | CALL_ID_STATE_ACTIVE.
#[export] Instance CS_CALL_ID_STATE_eq_dec : EqDecision CS_CALL_ID_STATE.
Proof. solve_decision. Defined.
Record call_id_state := { call_id : Z; id_state : CS_CALL_ID_STATE }.
Definition no_call : call_id_state := {| call_id := -1; id_state := CALL_ID_STATE_INACTIVE |}.
Definition CallId_Init : list call_id_state := replicate (Z.to_nat MAX_CALL_ID_COUNT) no_call.
Definition GetCpIndex (ApId : Z) (t : list call_id_state) : Z :=
  if (0 <? ApId) && (ApId <=? MAX_CALL_ID_COUNT) then match t !! Z.to_nat (ApId - 1) with Some c => call_id c | None => -1 end else -1.
(** the first entry of a number, as the loops find it *)
Fixpoint find_call (CpId : Z) (t : list call_id_state) : option nat :=
  match t with [] => None | c :: t => if call_id c =? CpId then Some 0%nat else S <$> find_call CpId t end.
Definition GetApIndex (CpId : Z) (t : list call_id_state) : Z := match find_call CpId t with Some i => Z.of_nat i + 1 | None => -1 end.
Definition SyncReady (t : list call_id_state) : list call_id_state := (λ c, {| call_id := call_id c; id_state := CALL_ID_STATE_INACTIVE |}) <$> t.
Definition AddCallId (CpId : Z) (t : list call_id_state) : Z * list call_id_state :=
  let active := {| call_id := CpId; id_state := CALL_ID_STATE_ACTIVE |} in
  match find_call CpId t with
  | Some i => (Z.of_nat i + 1, <[i := active]> t)
  | None => match find_call (-1) t with Some i => (Z.of_nat i + 1, <[i := active]> t) | None => (-1, t) end
  end.
Definition SyncDone (t : list call_id_state) : list call_id_state :=
  (λ c, if decide (id_state c = CALL_ID_STATE_INACTIVE) then no_call else c) <$> t.

(** ** The service *)

Definition MAX_CALL_LIST_COUNT : Z := 9.
Record CallList := { m_nCount : Z; m_szCallInfo : list CallInfo }.
Definition newCallList : CallList := {| m_nCount := 0; m_szCallInfo := replicate (Z.to_nat MAX_CALL_LIST_COUNT) newCallInfo |}.
Record CscService := {
  mCardState : Z; mAppState : Z; m_aoc : Z; m_carrier : list Z; m_CallId : list call_id_state; m_currCallList : CallList;
  m_emcCount : Z; m_emcInfoList : list EmcInfo; m_bCallConfirm : bool; numberOfInfoRecs : Z; infoRec : list RIL_CDMA_InformationRecord;
  csc_properties : gmap (list Z) (list Z); csc_token : Z }.
(** the service behind [OnCreate]; the carrier is not initialised *)
Definition newCscService (m_carrier : list Z) (properties : gmap (list Z) (list Z)) (token : Z) : CscService :=
  {| mCardState := RIL_CARDSTATE_ABSENT; mAppState := 0; m_aoc := CLIR_DEFAULT; m_carrier := m_carrier; m_CallId := CallId_Init;
     m_currCallList := newCallList; m_emcCount := 0; m_emcInfoList := replicate (Z.to_nat MAX_EMERGENCY_NUMBER_LIST_COUNT) newEmcInfo;
     m_bCallConfirm := false; numberOfInfoRecs := 0; infoRec := replicate (Z.to_nat MAX_NUMBER_OF_INFO_RECS) {| ir_name := 0; ir_rec := RecNone |};
     csc_properties := properties; csc_token := token |}.
Definition set_sim_state (card app : Z) (s : CscService) : CscService :=
  {| mCardState := card; mAppState := app; m_aoc := m_aoc s; m_carrier := m_carrier s; m_CallId := m_CallId s; m_currCallList := m_currCallList s;
     m_emcCount := m_emcCount s; m_emcInfoList := m_emcInfoList s; m_bCallConfirm := m_bCallConfirm s; numberOfInfoRecs := numberOfInfoRecs s;
     infoRec := infoRec s; csc_properties := csc_properties s; csc_token := csc_token s |}.
Definition set_carrier (carrier : list Z) (s : CscService) : CscService :=
  {| mCardState := mCardState s; mAppState := mAppState s; m_aoc := m_aoc s; m_carrier := carrier; m_CallId := m_CallId s;
     m_currCallList := m_currCallList s; m_emcCount := m_emcCount s; m_emcInfoList := m_emcInfoList s; m_bCallConfirm := m_bCallConfirm s;
     numberOfInfoRecs := numberOfInfoRecs s; infoRec := infoRec s; csc_properties := csc_properties s; csc_token := csc_token s |}.
Definition set_clir (aoc : Z) (properties : gmap (list Z) (list Z)) (s : CscService) : CscService :=
  {| mCardState := mCardState s; mAppState := mAppState s; m_aoc := aoc; m_carrier := m_carrier s; m_CallId := m_CallId s;
     m_currCallList := m_currCallList s; m_emcCount := m_emcCount s; m_emcInfoList := m_emcInfoList s; m_bCallConfirm := m_bCallConfirm s;
     numberOfInfoRecs := numberOfInfoRecs s; infoRec := infoRec s; csc_properties := properties; csc_token := csc_token s |}.
Definition set_calls (ids : list call_id_state) (calls : CallList) (s : CscService) : CscService :=
  {| mCardState := mCardState s; mAppState := mAppState s; m_aoc := m_aoc s; m_carrier := m_carrier s; m_CallId := ids; m_currCallList := calls;
     m_emcCount := m_emcCount s; m_emcInfoList := m_emcInfoList s; m_bCallConfirm := m_bCallConfirm s; numberOfInfoRecs := numberOfInfoRecs s;
     infoRec := infoRec s; csc_properties := csc_properties s; csc_token := csc_token s |}.
Definition set_emc (count : Z) (l : list EmcInfo) (s : CscService) : CscService :=
  {| mCardState := mCardState s; mAppState := mAppState s; m_aoc := m_aoc s; m_carrier := m_carrier s; m_CallId := m_CallId s;
     m_currCallList := m_currCallList s; m_emcCount := count; m_emcInfoList := l; m_bCallConfirm := m_bCallConfirm s;
     numberOfInfoRecs := numberOfInfoRecs s; infoRec := infoRec s; csc_properties := csc_properties s; csc_token := csc_token s |}.
Definition set_confirm (b : bool) (s : CscService) : CscService :=
  {| mCardState := mCardState s; mAppState := mAppState s; m_aoc := m_aoc s; m_carrier := m_carrier s; m_CallId := m_CallId s;
     m_currCallList := m_currCallList s; m_emcCount := m_emcCount s; m_emcInfoList := m_emcInfoList s; m_bCallConfirm := b;
     numberOfInfoRecs := numberOfInfoRecs s; infoRec := infoRec s; csc_properties := csc_properties s; csc_token := csc_token s |}.
Definition set_records (n : Z) (l : list RIL_CDMA_InformationRecord) (s : CscService) : CscService :=
  {| mCardState := mCardState s; mAppState := mAppState s; m_aoc := m_aoc s; m_carrier := m_carrier s; m_CallId := m_CallId s;
     m_currCallList := m_currCallList s; m_emcCount := m_emcCount s; m_emcInfoList := m_emcInfoList s; m_bCallConfirm := m_bCallConfirm s;
     numberOfInfoRecs := n; infoRec := l; csc_properties := csc_properties s; csc_token := csc_token s |}.
Definition set_csc_token (token : Z) (s : CscService) : CscService :=
  {| mCardState := mCardState s; mAppState := mAppState s; m_aoc := m_aoc s; m_carrier := m_carrier s; m_CallId := m_CallId s;
     m_currCallList := m_currCallList s; m_emcCount := m_emcCount s; m_emcInfoList := m_emcInfoList s; m_bCallConfirm := m_bCallConfirm s;
     numberOfInfoRecs := numberOfInfoRecs s; infoRec := infoRec s; csc_properties := csc_properties s; csc_token := token |}.
Definition set_call_list (calls : CallList) (s : CscService) : CscService := set_calls (m_CallId s) calls s.

(** *** Effects *)

(** the message that brings an answer back *)
Inductive CscDone :=
| MSG_CS_CALL_LIST_DONE | MSG_CS_CALL_DIAL_DONE | MSG_CS_CALL_EMERGENCY_DIAL_DONE | MSG_CS_CALL_ANSWER_DONE | MSG_CS_SS_EXPLICIT_CALL_TRANSFER_DONE
| MSG_CS_CALL_HANGUP_DONE | MSG_CS_LAST_CALL_FAIL_CAUSE_DONE | MSG_CS_CDMA_BURST_DTMF_DONE | MSG_CS_CDMA_SET_PREFERRED_VOICE_PRIVACY_MODE_DONE
| MSG_CS_CDMA_QUERY_PREFERRED_VOICE_PRIVACY_MODE_DONE | MSG_CS_SS_UDUB_DONE | MSG_CS_SS_HANGUP_FOREGROUND_RESUME_BACKGROUND_DONE
| MSG_CS_SS_HANGUP_WAITING_OR_BACKGROUND_DONE | MSG_CS_SS_SWITCH_WAITING_OR_HOLDING_AND_ACTIVE_DONE | MSG_CS_SS_CONFERENCE_DONE
| MSG_CS_SS_CDMA_FLASH_DONE | MSG_CS_SS_SEPARATE_CONNECTION_DONE | MSG_CS_SOUND_SWITCH_VOICE_CALL_DONE | MSG_CS_SET_CALL_CONFIRM_DONE
| MSG_CS_SEND_CALL_CONFIRM_DONE | MSG_CS_EXIT_EMERGENCY_CB_MODE_DONE | MSG_CS_SOUND_SET_MUTE_DONE | MSG_CS_SOUND_GET_MUTE_DONE.
#[export] Instance CscDone_eq_dec : EqDecision CscDone.
Proof. solve_decision. Defined.
(** [RIL_Call], and [RIL_Call_V1_2] with the quality of the sound *)
Record RIL_Call := {
  rc_state : Z; rc_index : Z; rc_toa : Z; rc_isMpty : Z; rc_isMT : Z; rc_als : Z; rc_isVoice : Z; rc_isVoicePrivacy : Z; rc_number : list Z;
  rc_numberPresentation : Z; rc_name : option (list Z); rc_namePresentation : Z; rc_audioQuality : option Z }.
Inductive CscAnswer := CAnsNone | CAnsInt (n : Z) | CAnsCalls (l : list RIL_Call) (length : Z).
Inductive CscTold := ToldNothing | ToldInts (l : list Z) | ToldWaiting (w : RIL_CDMA_CallWaiting_v6) | ToldRecords (n : Z) (l : list RIL_CDMA_InformationRecord).
Inductive CscAct :=
(** a packet that was sent, and one that could not be *)
| CSend (packet : list Z) (timeout : Z) (msg : CscDone) | CUnsent (packet : list Z) (timeout : Z) (msg : CscDone)
| CComplete (code : Z) (a : CscAnswer) | CUnsol (id : Z) (t : CscTold)
(** a property of the context; the merge of the emergency numbers, which the network service does *)
| CProperty (key : list Z) (value : Z) | CMergeEmergencyNumbers.
(** whether a packet can be sent; the technology the context has, if there are properties; the socket; the version of the interface *)
Record CscEnv := { csc_send_ok : bool; context_voice_rat : option Z; csc_socket_id : Z; RIL_HalVersionCode : Z }.
Abbreviation CM := (HM CscEnv CscService CscAct).
(** [OnRequestComplete] *)
Definition csc_complete (code : Z) (a : CscAnswer) : CM Z := emit (CComplete code a);; mret 0.
(** [SendRequest] *)
Definition csc_send (packet : option (list Z)) (timeout : Z) (msg : CscDone) : CM Z := λ e s,
  match packet with
  | Some p => if csc_send_ok e then Ok (0, s, [CSend p timeout msg]) else Ok (-1, s, [CUnsent p timeout msg])
  | None => Ok (-1, s, [])
  end.
Definition csc_build (f : Z → res (option (list Z) * Z)) : CM (option (list Z)) :=
  t ← gets csc_token; r ← lift (f t); modify (set_csc_token r.2);; mret r.1.
Definition CALL_DEFAULT_TIMEOUT : Z := 5000.
Definition SUPPLEMENTARY_DEFAULT_TIMEOUT : Z := 60000.
(** a packet is built and sent *)
Definition ask (f : Z → res (option (list Z) * Z)) (timeout : Z) (msg : CscDone) : CM Z := p ← csc_build f; ret_code <$> csc_send p timeout msg.
(** [IsNullRequest] *)
Definition with_request {A} (r : option A) (f : A → CM Z) : CM Z := match r with Some r => f r | None => mret (-1) end.
(** [IsNullResponse] *)
Definition with_response (m_pModemData : option (list Z)) (f : list Z → CM Z) : CM Z := match m_pModemData with Some raw => f raw | None => mret (-1) end.
(** the code that is told for one that is not success *)
Definition told_error (errorCode other : Z) : Z := if errorCode =? RIL_E_RADIO_NOT_AVAILABLE then RIL_E_RADIO_NOT_AVAILABLE else other.
(** an answer that carries nothing but its code *)
Definition code_only (other : Z) (m_pModemData : option (list Z)) : CM Z :=
  with_response m_pModemData (λ _,
    errorCode ← lift (GetErrorCode m_pModemData);
    csc_complete (if errorCode =? RIL_E_SUCCESS then RIL_E_SUCCESS else told_error errorCode other) CAnsNone;; mret 0).
(** an answer that carries a number *)
Definition code_and_int (told : list Z → res Z) (m_pModemData : option (list Z)) : CM Z :=
  with_response m_pModemData (λ raw,
    errorCode ← lift (GetErrorCode m_pModemData);
    (if errorCode =? RIL_E_SUCCESS then n ← lift (told raw); csc_complete RIL_E_SUCCESS (CAnsInt n)
     else csc_complete (told_error errorCode RIL_E_INTERNAL_ERR) CAnsNone);; mret 0).

(** ** The list of the calls *)

Definition RIL_CONTEXT_CS_ACTIVE_CID : list Z := str "vendor.ril.context.cs.active_cid".
Definition put_active_cid (cid : Z) : CM () :=
  rat ← asks context_voice_rat; match rat with Some _ => emit (CProperty RIL_CONTEXT_CS_ACTIVE_CID cid) | None => mret () end.
Definition HAL_1_2 : Z := 0x12.
Definition z_of_bool (b : bool) : Z := if b then 1 else 0.
Definition call_response (hal : Z) (c : CallInfo) : RIL_Call :=
  {| rc_state := m_state c; rc_index := m_nIndex c; rc_toa := m_toa c; rc_isMpty := z_of_bool (m_isMParty c); rc_isMT := z_of_bool (m_isMt c);
     rc_als := m_als c; rc_isVoice := z_of_bool (m_isVoice c); rc_isVoicePrivacy := z_of_bool (m_isVoicePrivacy c); rc_number := cstr (ci_number c);
     rc_numberPresentation := m_numPresent c; rc_name := match cstr (m_name c) with [] => None | t => Some t end; rc_namePresentation := m_namePresent c;
     rc_audioQuality := if HAL_1_2 <=? hal then Some (m_audioQuality c) else None |}.
(** nothing, and no length, when there is no call; the length is that of the pointers *)
Definition BuildCallListResponse (hal : Z) (data : CallList) : CscAnswer :=
  if m_nCount data <=? 0 then CAnsNone
  else CAnsCalls (call_response hal <$> take (Z.to_nat (m_nCount data)) (m_szCallInfo data)) (m_nCount data * 8).
Definition DoGetCallList {A} (r : option A) : CM Z := with_request r (λ _, ask BuildGetCallList CALL_DEFAULT_TIMEOUT MSG_CS_CALL_LIST_DONE).
(** The list could not be used: without a card that is told as a success, without calls. *)
Definition call_list_failed (code : Z) : CM Z :=
  modify (set_call_list newCallList);;
  card ← gets mCardState;
  (if card =? RIL_CARDSTATE_ABSENT
   then l ← gets m_currCallList; hal ← asks RIL_HalVersionCode; csc_complete RIL_E_SUCCESS (BuildCallListResponse hal l)
   else csc_complete code CAnsNone);; mret 0.
Definition set_entry (i : nat) (c : CallInfo) (s : CscService) : CscService :=
  set_call_list {| m_nCount := m_nCount (m_currCallList s); m_szCallInfo := <[i := c]> (m_szCallInfo (m_currCallList s)) |} s.
(** the entries from [i] on; an entry that cannot be read ends the loop *)
Fixpoint read_calls (raw : list Z) (n i : nat) : CM () :=
  match n with
  | O => mret ()
  | S n =>
    c ← gets (λ s, m_szCallInfo (m_currCallList s) !! i);
    match c with
    | None => lift UB
    | Some c =>
      r ← lift (GetCallInfo raw c (Z.of_nat i));
      modify (set_entry i r.2);;
      if r.1 <? 0 then mret ()
      else (if m_state r.2 =? RIL_CALL_ACTIVE then put_active_cid (Z.of_nat i) else mret ());; read_calls raw n (S i)
    end
  end.
Definition with_index (i : Z) (c : CallInfo) : CallInfo :=
  {| m_state := m_state c; m_nIndex := i; m_toa := m_toa c; m_isMParty := m_isMParty c; m_isMt := m_isMt c; m_isVoice := m_isVoice c; m_isVideo := m_isVideo c;
     m_isVoicePrivacy := m_isVoicePrivacy c; m_numPresent := m_numPresent c; m_namePresent := m_namePresent c; m_als := m_als c; ci_number := ci_number c;
     m_name := m_name c; ci_uusInfo := ci_uusInfo c; m_audioQuality := m_audioQuality c |}.
(** each call gets its number for the framework *)
Fixpoint add_calls (l : list CallInfo) (t : list call_id_state) : list CallInfo * list call_id_state :=
  match l with
  | [] => ([], t)
  | c :: l => let r := AddCallId (m_nIndex c) t in let p := add_calls l r.2 in (with_index r.1 c :: p.1, p.2)
  end.
Definition sync_calls (n : nat) (s : CscService) : CscService :=
  let l := m_szCallInfo (m_currCallList s) in
  let p := add_calls (take n l) (SyncReady (m_CallId s)) in
  set_calls (SyncDone p.2) {| m_nCount := m_nCount (m_currCallList s); m_szCallInfo := p.1 ++ drop n l |} s.
Definition DoGetCallListDone (m_pModemData : option (list Z)) : CM Z :=
  with_response m_pModemData (λ raw,
    modify (set_call_list newCallList);;
    errorCode ← lift (GetErrorCode m_pModemData);
    put_active_cid (-1);;
    valid ← (if errorCode =? RIL_E_SUCCESS then lift (HasValidLength raw) else mret false);
    if negb valid then call_list_failed (told_error errorCode RIL_E_INTERNAL_ERR)
    else
      n ← lift (GetCallNum raw);
      modify (λ s, set_call_list {| m_nCount := n; m_szCallInfo := m_szCallInfo (m_currCallList s) |} s);;
      if MAX_CALL_LIST_COUNT <=? n then call_list_failed RIL_E_INVALID_ARGUMENTS
      else
        read_calls raw (Z.to_nat n) 0;;
        modify (sync_calls (Z.to_nat n));;
        l ← gets m_currCallList; hal ← asks RIL_HalVersionCode;
        csc_complete RIL_E_SUCCESS (BuildCallListResponse hal l);; mret 0).
Definition IsInCallState (s : CscService) : bool := negb (m_nCount (m_currCallList s) =? 0).

(** ** Dialing *)

(** [ClirInfo]; the property is written by [SetClirAoc] alone: one digit, and so is the socket *)
Definition clir_property (socketid : Z) : list Z := str "persist.radio.csc.clir_aoc_" ++ [48 + socketid].
Definition SetClirAoc (aoc socketid : Z) : CM () :=
  if (CLIR_DEFAULT <=? aoc) && (aoc <=? CLIR_SUPPRESSION)
  then modify (λ s, set_clir aoc (<[clir_property socketid := [48 + aoc]]> (csc_properties s)) s)
  else mret ().
Definition GetClirAoc (socketid : Z) : CM Z :=
  p ← gets csc_properties;
  let m_aoc := atoi (default (str "0") (p !! clir_property socketid)) in
  modify (set_clir m_aoc p);; mret m_aoc.
Definition isCdmaVoice (rat : Z) : bool :=
  bool_decide (rat ∈ [RADIO_TECH_IS95A; RADIO_TECH_IS95B; RADIO_TECH_1xRTT; RADIO_TECH_EVDO_0; RADIO_TECH_EVDO_A; RADIO_TECH_EVDO_B; RADIO_TECH_EHRPD]).
Definition dial (cType cdmaType eccCat : Z) (r : CallDialReqData) (msg : CscDone) : CM Z :=
  rat ← asks context_voice_rat;
  let cType := match rat with Some rat => if isCdmaVoice rat then cdmaType else cType | None => cType end in
  socket ← asks csc_socket_id;
  clir ← (if m_clirType r =? CLIR_DEFAULT then GetClirAoc socket else mret (m_clirType r));
  ask (λ t, BuildDial t (GetNumber r) clir cType eccCat) CALL_DEFAULT_TIMEOUT msg.
Definition DoDial (r : option CallDialReqData) : CM Z := with_request r (λ r, dial CALL_TYPE_VOICE CALL_TYPE_CDMA_VOICE 0 r MSG_CS_CALL_DIAL_DONE).
Definition DoDialDone : option (list Z) → CM Z := code_only RIL_E_INTERNAL_ERR.
Definition DoEmergencyDial (r : option CallEmergencyDialReqData) : CM Z :=
  with_request r (λ r, dial CALL_TYPE_EMERGENCY CALL_TYPE_CDMA_EMERGENCY (m_categories r) (edial r) MSG_CS_CALL_EMERGENCY_DIAL_DONE).
Definition DoEmergencyDialDone : option (list Z) → CM Z := code_only RIL_E_INTERNAL_ERR.
(** nothing calls it *)
Definition ReturnEmergencyCategory (pNumber : option (list Z)) (s : CscService) : Z :=
  let starts (n : list Z) (l : list Z) := bool_decide (take 3 l = n) in
  match pNumber with
  | None | Some [] => 0
  | Some n =>
    if starts (str "460") (cstr (m_carrier s))
    then if starts (str "110") n then 1 else if starts (str "120") n then 2 else if starts (str "119") n then 4 else 0
    else if starts (str "730") (cstr (m_carrier s))
    then if starts (str "131") n then 2 else if starts (str "132") n then 4 else if starts (str "133") n then 1 else 0
    else 0
  end.

(** ** Answering, and ending calls *)

Definition DoAnswer {A} (r : option A) : CM Z := with_request r (λ _, ask BuildAnswer CALL_DEFAULT_TIMEOUT MSG_CS_CALL_ANSWER_DONE).
Definition DoAnswerDone : option (list Z) → CM Z := code_only RIL_E_INTERNAL_ERR.
(** without a card the modem is not asked *)
Definition with_card (f : CM Z) : CM Z :=
  card ← gets mCardState; if card =? RIL_CARDSTATE_PRESENT then f else csc_complete RIL_E_INVALID_STATE CAnsNone;; mret 0.
Definition DoExplicitCallTransfer {A} (r : option A) : CM Z :=
  with_request r (λ _, with_card (ask BuildExplicitCallTransfer SUPPLEMENTARY_DEFAULT_TIMEOUT MSG_CS_SS_EXPLICIT_CALL_TRANSFER_DONE)).
Definition DoExplicitCallTransferDone : option (list Z) → CM Z := code_only RIL_E_INTERNAL_ERR.
Definition DoReleaseCall (callId : Z) : CM Z := ask (λ t, BuildHangup t callId) CALL_DEFAULT_TIMEOUT MSG_CS_CALL_HANGUP_DONE.
Definition DoReleaseCallMulti (callId : Z) : CM Z := ask (λ t, BuildHangupMulti t callId) CALL_DEFAULT_TIMEOUT MSG_CS_CALL_HANGUP_DONE.
Definition DoHangup (r : option IntRequestData) : CM Z :=
  with_request r (λ r,
    n ← gets (λ s, m_nCount (m_currCallList s));
    id ← gets (λ s, GetCpIndex (m_nInt r) (m_CallId s));
    if n <? 1 then csc_complete RIL_E_INTERNAL_ERR CAnsNone;; mret 0
    else if n =? 1 then DoReleaseCall id
    else DoReleaseCallMulti id).
(** [cur] is the current request: the number the framework gave is taken for a position in the list *)
Definition clear_released (cur : option IntRequestData) : CM () :=
  match cur with
  | Some r =>
    if m_nInt r =? - 2 ^ 31 then lift UB
    else
      let callIdex := m_nInt r - 1 in
      modify (λ s,
        let l := m_currCallList s in
        if (0 <=? callIdex) && (callIdex <? m_nCount l)
        then set_call_list {| m_nCount := m_nCount l - 1; m_szCallInfo := <[Z.to_nat callIdex := newCallInfo]> (m_szCallInfo l) |} s
        else s)
  | None => mret ()
  end.
Definition DoHangupDone (cur : option IntRequestData) (m_pModemData : option (list Z)) : CM Z :=
  with_response m_pModemData (λ _,
    errorCode ← lift (GetErrorCode m_pModemData);
    (if errorCode =? RIL_E_SUCCESS then clear_released cur;; csc_complete RIL_E_SUCCESS CAnsNone
     else csc_complete (told_error errorCode RIL_E_INTERNAL_ERR) CAnsNone);; mret 0).
Definition DoLastCallFailCause {A} (r : option A) : CM Z :=
  with_request r (λ _, ask BuildLastCallFailCause CALL_DEFAULT_TIMEOUT MSG_CS_LAST_CALL_FAIL_CAUSE_DONE).
Definition DoLastCallFailCauseDone : option (list Z) → CM Z := code_and_int GetLastCallFailCause.

(** ** Tones and privacy *)

(** a text that is missing is asked for its length *)
Definition DoCdmaBurstDtmf (r : option StringsRequestData) : CM Z :=
  with_request r (λ r, with_card (
    match GetString 0 r, GetString 1 r, GetString 2 r with
    | Some d, Some on, Some off =>
      ask (λ t, BuildCdmaBurstDtmf t (lenZ d) (Some d) (lenZ on) (Some on) (lenZ off) (Some off)) CALL_DEFAULT_TIMEOUT MSG_CS_CDMA_BURST_DTMF_DONE
    | _, _, _ => lift UB
    end)).
Definition DoCdmaBurstDtmfDone : option (list Z) → CM Z := code_only RIL_E_INTERNAL_ERR.
Definition DoCdmaSetPreferredVoicePrivacyMode (r : option IntRequestData) : CM Z :=
  with_request r (λ r, ask (λ t, BuildCdmaSetPreferredVoicePrivacyMode t (m_nInt r)) CALL_DEFAULT_TIMEOUT MSG_CS_CDMA_SET_PREFERRED_VOICE_PRIVACY_MODE_DONE).
Definition DoCdmaSetPreferredVoicePrivacyModeDone : option (list Z) → CM Z := code_only RIL_E_INTERNAL_ERR.
Definition DoCdmaQueryPreferredVoicePrivacyMode {A} (r : option A) : CM Z :=
  with_request r (λ _, ask BuildCdmaQueryPreferredVoicePrivacyMode CALL_DEFAULT_TIMEOUT MSG_CS_CDMA_QUERY_PREFERRED_VOICE_PRIVACY_MODE_DONE).
Definition DoCdmaQueryPreferredVoicePrivacyModeDone : option (list Z) → CM Z := code_and_int GetPreferredVoicePrivacyStatus.

(** ** Supplementary services of calls *)

Definition DoUdub {A} (r : option A) : CM Z := with_request r (λ _, ask BuildUdub SUPPLEMENTARY_DEFAULT_TIMEOUT MSG_CS_SS_UDUB_DONE).
Definition DoUdubDone : option (list Z) → CM Z := code_only RIL_E_INTERNAL_ERR.
Definition DoHangupFgResumeBg {A} (r : option A) : CM Z :=
  with_request r (λ _, ask BuildHangupForegroundResumeBackground CALL_DEFAULT_TIMEOUT MSG_CS_SS_HANGUP_FOREGROUND_RESUME_BACKGROUND_DONE).
Definition DoHangupFgResumeBgDone : option (list Z) → CM Z := code_only RIL_E_INTERNAL_ERR.
Definition DoHangupWaitOrBg {A} (r : option A) : CM Z :=
  with_request r (λ _, ask BuildHangupWaitingOrBackground CALL_DEFAULT_TIMEOUT MSG_CS_SS_HANGUP_WAITING_OR_BACKGROUND_DONE).
Definition DoHangupWaitOrBgDone : option (list Z) → CM Z := code_only RIL_E_INTERNAL_ERR.
Definition DoSwitchWaitOrHoldAndActive {A} (r : option A) : CM Z :=
  with_request r (λ _, ask BuildSwitchWaitingOrHoldingAndActive CALL_DEFAULT_TIMEOUT MSG_CS_SS_SWITCH_WAITING_OR_HOLDING_AND_ACTIVE_DONE).
Definition DoSwitchWaitOrHoldAndActiveDone : option (list Z) → CM Z := code_only RIL_E_INTERNAL_ERR.
Definition DoConference {A} (r : option A) : CM Z := with_request r (λ _, ask BuildConference SUPPLEMENTARY_DEFAULT_TIMEOUT MSG_CS_SS_CONFERENCE_DONE).
Definition DoConferenceDone : option (list Z) → CM Z := code_only RIL_E_INTERNAL_ERR.
Definition DoCdmaFlash (r : option StringRequestData) : CM Z :=
  with_request r (λ r, ask (λ t, BuildCdmaFlash t (m_szData r)) SUPPLEMENTARY_DEFAULT_TIMEOUT MSG_CS_SS_CDMA_FLASH_DONE).
Definition DoCdmaFlashDone : option (list Z) → CM Z := code_only RIL_E_INTERNAL_ERR.
Definition DoSeparateConnection (r : option IntRequestData) : CM Z :=
  match r with
  | None => csc_complete RIL_E_INVALID_ARGUMENTS CAnsNone;; mret 0
  | Some r =>
    n ← gets (λ s, m_nCount (m_currCallList s));
    if n <? 2 then csc_complete RIL_E_INVALID_ARGUMENTS CAnsNone;; mret 0
    else
      id ← gets (λ s, GetCpIndex (m_nInt r) (m_CallId s));
      v ← ask (λ t, BuildSeparateConnection t id) SUPPLEMENTARY_DEFAULT_TIMEOUT MSG_CS_SS_SEPARATE_CONNECTION_DONE;
      if v <? 0 then csc_complete RIL_E_MODEM_ERR CAnsNone;; mret 0 else mret 0
  end.
Definition DoSeparateConnectionDone : option (list Z) → CM Z := code_only RIL_E_MODEM_ERR.
Definition DoSwitchVoiceCallAudio (r : option IntRequestData) : CM Z :=
  with_request r (λ r, ask (λ t, BuildSwitchVoiceCallAudio t (m_nInt r)) CALL_DEFAULT_TIMEOUT MSG_CS_SOUND_SWITCH_VOICE_CALL_DONE).
(** nothing calls it *)
Definition DoSwitchVoiceCallAudioDone : option (list Z) → CM Z := code_only RIL_E_GENERIC_FAILURE.

(** ** Confirmation of a call that comes in *)

Definition DoSetCallConfirm (r : option IntRequestData) : CM Z :=
  with_request r (λ r, ask (λ t, BuildSetCallConfirm t (m_nInt r)) CALL_DEFAULT_TIMEOUT MSG_CS_SET_CALL_CONFIRM_DONE).
(** the result is read before the code is looked at *)
Definition DoSetCallConfirmDone (m_pModemData : option (list Z)) : CM Z :=
  with_response m_pModemData (λ raw,
    result ← lift (CallConfirm_GetResult raw);
    errorCode ← lift (GetErrorCode m_pModemData);
    (if errorCode =? RIL_E_SUCCESS then csc_complete RIL_E_SUCCESS (CAnsInt result);; modify (set_confirm true)
     else csc_complete (told_error errorCode RIL_E_GENERIC_FAILURE) CAnsNone;; modify (set_confirm false));; mret 0).
Definition DoSendCallConfirm {A} (r : option A) : CM Z := with_request r (λ _, ask BuildSendCallConfirm CALL_DEFAULT_TIMEOUT MSG_CS_SEND_CALL_CONFIRM_DONE).
Definition DoSendCallConfirmDone (m_pModemData : option (list Z)) : CM Z :=
  with_response m_pModemData (λ raw,
    result ← lift (CallConfirm_GetResult raw);
    errorCode ← lift (GetErrorCode m_pModemData);
    (if errorCode =? RIL_E_SUCCESS then csc_complete RIL_E_SUCCESS (CAnsInt result)
     else csc_complete (told_error errorCode RIL_E_GENERIC_FAILURE) CAnsNone);; mret 0).

(** ** Emergency callback mode, and the microphone *)

Definition DoExitEmergencyCbMode {A} (r : option A) : CM Z :=
  with_request r (λ _, ask BuildExitEmergencyCbMode CALL_DEFAULT_TIMEOUT MSG_CS_EXIT_EMERGENCY_CB_MODE_DONE).
Definition DoExitEmergencyCbModeDone (m_pModemData : option (list Z)) : CM Z :=
  with_response m_pModemData (λ _,
    errorCode ← lift (GetRilErrorCode m_pModemData);
    csc_complete (if bool_decide (errorCode ∈ [RIL_E_SUCCESS; RIL_E_REQUEST_NOT_SUPPORTED; RIL_E_RADIO_NOT_AVAILABLE]) then errorCode else RIL_E_INTERNAL_ERR)
      CAnsNone;; mret 0).
Definition DoSetMute (r : option IntRequestData) : CM Z :=
  with_request r (λ r, ask (λ t, BuildSetMute t (m_nInt r)) CALL_DEFAULT_TIMEOUT MSG_CS_SOUND_SET_MUTE_DONE).
Definition DoSetMuteDone : option (list Z) → CM Z := code_only RIL_E_GENERIC_FAILURE.
Definition DoGetMute {A} (r : option A) : CM Z := with_request r (λ _, ask BuildGetMute CALL_DEFAULT_TIMEOUT MSG_CS_SOUND_GET_MUTE_DONE).
(** without a card it always succeeds *)
Definition DoGetMuteDone (m_pModemData : option (list Z)) : CM Z :=
  with_response m_pModemData (λ _,
    errorCode ← lift (GetErrorCode m_pModemData);
    mute_state ← lift (GetMuteState m_pModemData);
    card ← gets mCardState;
    let errorCode := if card =? RIL_CARDSTATE_PRESENT then errorCode else RIL_E_SUCCESS in
    (if errorCode =? RIL_E_SUCCESS then csc_complete RIL_E_SUCCESS (CAnsInt mute_state)
     else csc_complete (told_error errorCode RIL_E_INTERNAL_ERR) CAnsNone);; mret 0).

(** ** Indications *)

Definition RIL_UNSOL_RESPONSE_CALL_STATE_CHANGED : Z := 1001.
Definition RIL_UNSOL_CALL_RING : Z := 1018.
Definition RIL_UNSOL_ENTER_EMERGENCY_CALLBACK_MODE : Z := 1024.
Definition RIL_UNSOL_CDMA_CALL_WAITING : Z := 1025.
Definition RIL_UNSOL_CDMA_OTA_PROVISION_STATUS : Z := 1026.
Definition RIL_UNSOL_CDMA_INFO_REC : Z := 1027.
Definition RIL_UNSOL_RINGBACK_TONE : Z := 1029.
Definition RIL_UNSOL_RESEND_INCALL_MUTE : Z := 1030.
Definition RIL_UNSOL_EXIT_EMERGENCY_CALLBACK_MODE : Z := 1033.
Definition RIL_UNSOL_EXTENSION_BASE : Z := 6000.
Definition RIL_OEM_UNSOL_RESPONSE_BASE : Z := 20000.
Definition RIL_UNSOL_CALL_PRESENT_IND : Z := RIL_UNSOL_EXTENSION_BASE + 3.
Definition RIL_UNSOL_EMERGENCY_SUPPORT_RAT_MODE : Z := RIL_UNSOL_EXTENSION_BASE + 11.
Definition RIL_UNSOL_OEM_RINGBACK_TONE_BY_NETWORK : Z := RIL_OEM_UNSOL_RESPONSE_BASE + 110.
Definition tell (id : Z) (t : CscTold) : CM Z := emit (CUnsol id t);; mret 0.
Definition OnRingbackTone (m_pModemData : option (list Z)) : CM Z :=
  with_response m_pModemData (λ _,
    state ← lift (GetRingbackToneState m_pModemData);
    flag ← lift (GetFlag m_pModemData);
    let by_network := flag =? RINGBACK_FLAG_PLAY_INBAND_BY_NW in
    (if by_network && (state =? RIL_SND_RINGBACK_TONE_START) then mret 0 else tell RIL_UNSOL_RINGBACK_TONE (ToldInts [state]));;
    (if by_network then tell RIL_UNSOL_OEM_RINGBACK_TONE_BY_NETWORK (ToldInts [state; flag]) else mret 0);; mret 0).
(** an indication that carries nothing *)
Definition plain_indication (id : Z) (m_pModemData : option (list Z)) : CM Z := with_response m_pModemData (λ _, tell id ToldNothing).
Definition OnCallStateChanged : option (list Z) → CM Z := plain_indication RIL_UNSOL_RESPONSE_CALL_STATE_CHANGED.
Definition OnCallRinging (m_pModemData : option (list Z)) : CM Z :=
  with_response m_pModemData (λ _, tell RIL_UNSOL_CALL_RING ToldNothing;; tell RIL_UNSOL_RESPONSE_CALL_STATE_CHANGED ToldNothing).
Definition OnCallPresent : option (list Z) → CM Z := plain_indication RIL_UNSOL_CALL_PRESENT_IND.
Definition OnEnterEmergencyCallbackModeChanged : option (list Z) → CM Z := plain_indication RIL_UNSOL_ENTER_EMERGENCY_CALLBACK_MODE.
Definition OnExitEmergencyCallbackModeChanged : option (list Z) → CM Z := plain_indication RIL_UNSOL_EXIT_EMERGENCY_CALLBACK_MODE.
Definition OnUnsolResendInCallMute : option (list Z) → CM Z := plain_indication RIL_UNSOL_RESEND_INCALL_MUTE.
Definition OnEmergencySupportRatModeNtf (m_pModemData : option (list Z)) : CM Z :=
  with_response m_pModemData (λ _, mode ← lift (GetSupportRatMode m_pModemData); tell RIL_UNSOL_EMERGENCY_SUPPORT_RAT_MODE (ToldInts [mode])).
Definition OnCdmaCallWaitingNtf (m_pModemData : option (list Z)) : CM Z :=
  with_response m_pModemData (λ raw, w ← lift (GetCwInfo raw); tell RIL_UNSOL_CDMA_CALL_WAITING (ToldWaiting w)).
Definition OnUnsolCdmaOtaProvisionStatus (m_pModemData : option (list Z)) : CM Z :=
  with_response m_pModemData (λ raw,
    status ← lift (GetOtaProvisionStatus raw);
    if status =? -1 then mret 0 else tell RIL_UNSOL_CDMA_OTA_PROVISION_STATUS (ToldInts [status])).
(** the records behind the last one are those of the indication before *)
Definition OnCdmaInfoRec (m_pModemData : option (list Z)) : CM Z :=
  with_response m_pModemData (λ raw,
    n ← lift (GetNumberOfInfoRecs raw);
    modify (λ s, set_records n (infoRec s) s);;
    if MAX_NUMBER_OF_INFO_RECS <? n then mret (-1)
    else
      l ← gets infoRec;
      l ← lift (for_up (Z.to_nat n) 0 (λ i l, r ← GetCdmaInfo raw i; l.[i <- r]) l);
      modify (set_records n l);; tell RIL_UNSOL_CDMA_INFO_REC (ToldRecords n l)).
(** The entries of the frame take the places of their positions; the count is that of the frame.  The codes of the network are asked for their
    lengths. *)
Definition OnNetEmergencyCallListReceived (m_pModemData : option (list Z)) : CM Z :=
  with_response m_pModemData (λ raw,
    modify (set_emc 0 (replicate (Z.to_nat MAX_EMERGENCY_NUMBER_LIST_COUNT) newEmcInfo));;
    valid ← lift (emergency_HasValidLength raw);
    if negb valid then mret (-1)
    else
      mcc ← lift (GetMcc m_pModemData); mnc ← lift (GetMnc m_pModemData); num ← lift (emergency_GetNum m_pModemData);
      l ← gets m_emcInfoList;
      l ← lift (for_up (Z.to_nat num) 0 (λ i l,
        t ← GetEmcInfo m_pModemData i;
        match t, mcc, mnc with
        | Some (category, len, number, source), Some mcc, Some mnc =>
          e ← l.[i]; e ← EmcInfo_update mcc mnc number len category SIT_EMERGENCY_CONDITION_ALWAYS source e; l.[i <- e]
        | Some _, _, _ => UB
        | None, _, _ => Ok l
        end) l);
      modify (set_emc num l);; emit CMergeEmergencyNumbers;; mret 0).
(** the text is written without an end over what is there *)
Definition OnImsiUpdated (imsi : option (list Z)) : CM () :=
  match imsi with
  | Some t =>
    if lenZ t <? 5 then mret ()
    else
      c ← gets m_carrier;
      r ← lift (FetchCarrierForImsi (Some t) (Some c) (MAX_PLMN_LEN + 1));
      modify (λ s, match r with
                   | (true, Some c) => set_carrier c s
                   | _ => set_carrier (<[0%nat := 0]> (m_carrier s)) s
                   end)
  | None => mret ()
  end.
Definition OnSimStatusChanged (cardState appState : Z) : CM () := modify (set_sim_state cardState appState).

(** ** The messages of the service *)

Inductive CscReq :=
| MSG_CS_CALL_LIST (r : option RequestData) | MSG_CS_CALL_DIAL (r : option CallDialReqData) | MSG_CS_CALL_EMERGENCY_DIAL (r : option CallEmergencyDialReqData)
| MSG_CS_CALL_ANSWER (r : option RequestData) | MSG_CS_SS_EXPLICIT_CALL_TRANSFER (r : option RequestData) | MSG_CS_CALL_HANGUP (r : option IntRequestData)
| MSG_CS_LAST_CALL_FAIL_CAUSE (r : option RequestData) | MSG_CS_CDMA_BURST_DTMF (r : option StringsRequestData)
| MSG_CS_CDMA_SET_PREFERRED_VOICE_PRIVACY_MODE (r : option IntRequestData) | MSG_CS_CDMA_QUERY_PREFERRED_VOICE_PRIVACY_MODE (r : option RequestData)
| MSG_CS_SS_UDUB (r : option RequestData) | MSG_CS_SS_HANGUP_FOREGROUND_RESUME_BACKGROUND (r : option RequestData)
| MSG_CS_SS_HANGUP_WAITING_OR_BACKGROUND (r : option RequestData) | MSG_CS_SS_SWITCH_WAITING_OR_HOLDING_AND_ACTIVE (r : option RequestData)
| MSG_CS_SS_CONFERENCE (r : option RequestData) | MSG_CS_SS_CDMA_FLASH (r : option StringRequestData) | MSG_CS_SS_SEPARATE_CONNECTION (r : option IntRequestData)
| MSG_CS_SOUND_SWITCH_VOICE_CALL (r : option IntRequestData) | MSG_CS_SET_CALL_CONFIRM (r : option IntRequestData) | MSG_CS_SEND_CALL_CONFIRM (r : option RequestData)
| MSG_CS_EXIT_EMERGENCY_CB_MODE (r : option RequestData) | MSG_CS_SOUND_SET_MUTE (r : option IntRequestData) | MSG_CS_SOUND_GET_MUTE (r : option RequestData).
Definition OnHandleRequest (q : CscReq) : CM Z :=
  match q with
  | MSG_CS_CALL_LIST r => DoGetCallList r
  | MSG_CS_CALL_DIAL r => DoDial r
  | MSG_CS_CALL_EMERGENCY_DIAL r => DoEmergencyDial r
  | MSG_CS_CALL_ANSWER r => DoAnswer r
  | MSG_CS_SS_EXPLICIT_CALL_TRANSFER r => DoExplicitCallTransfer r
  | MSG_CS_CALL_HANGUP r => DoHangup r
  | MSG_CS_LAST_CALL_FAIL_CAUSE r => DoLastCallFailCause r
  | MSG_CS_CDMA_BURST_DTMF r => DoCdmaBurstDtmf r
  | MSG_CS_CDMA_SET_PREFERRED_VOICE_PRIVACY_MODE r => DoCdmaSetPreferredVoicePrivacyMode r
  | MSG_CS_CDMA_QUERY_PREFERRED_VOICE_PRIVACY_MODE r => DoCdmaQueryPreferredVoicePrivacyMode r
  | MSG_CS_SS_UDUB r => DoUdub r
  | MSG_CS_SS_HANGUP_FOREGROUND_RESUME_BACKGROUND r => DoHangupFgResumeBg r
  | MSG_CS_SS_HANGUP_WAITING_OR_BACKGROUND r => DoHangupWaitOrBg r
  | MSG_CS_SS_SWITCH_WAITING_OR_HOLDING_AND_ACTIVE r => DoSwitchWaitOrHoldAndActive r
  | MSG_CS_SS_CONFERENCE r => DoConference r
  | MSG_CS_SS_CDMA_FLASH r => DoCdmaFlash r
  | MSG_CS_SS_SEPARATE_CONNECTION r => DoSeparateConnection r
  | MSG_CS_SOUND_SWITCH_VOICE_CALL r => DoSwitchVoiceCallAudio r
  | MSG_CS_SET_CALL_CONFIRM r => DoSetCallConfirm r
  | MSG_CS_SEND_CALL_CONFIRM r => DoSendCallConfirm r
  | MSG_CS_EXIT_EMERGENCY_CB_MODE r => DoExitEmergencyCbMode r
  | MSG_CS_SOUND_SET_MUTE r => DoSetMute r
  | MSG_CS_SOUND_GET_MUTE r => DoGetMute r
  end.
(** [cur] is the current request when it carries a number *)
Definition OnHandleSolicitedResponse (m : CscDone) (cur : option IntRequestData) (m_pModemData : option (list Z)) : CM Z :=
  match m with
  | MSG_CS_CALL_LIST_DONE => DoGetCallListDone m_pModemData
  | MSG_CS_CALL_DIAL_DONE => DoDialDone m_pModemData
  | MSG_CS_CALL_EMERGENCY_DIAL_DONE => DoEmergencyDialDone m_pModemData
  | MSG_CS_CALL_ANSWER_DONE => DoAnswerDone m_pModemData
  | MSG_CS_SS_EXPLICIT_CALL_TRANSFER_DONE => DoExplicitCallTransferDone m_pModemData
  | MSG_CS_CALL_HANGUP_DONE => DoHangupDone cur m_pModemData
  | MSG_CS_LAST_CALL_FAIL_CAUSE_DONE => DoLastCallFailCauseDone m_pModemData
  | MSG_CS_CDMA_BURST_DTMF_DONE => DoCdmaBurstDtmfDone m_pModemData
  | MSG_CS_CDMA_SET_PREFERRED_VOICE_PRIVACY_MODE_DONE => DoCdmaSetPreferredVoicePrivacyModeDone m_pModemData
  | MSG_CS_CDMA_QUERY_PREFERRED_VOICE_PRIVACY_MODE_DONE => DoCdmaQueryPreferredVoicePrivacyModeDone m_pModemData
  | MSG_CS_SS_UDUB_DONE => DoUdubDone m_pModemData
  | MSG_CS_SS_HANGUP_FOREGROUND_RESUME_BACKGROUND_DONE => DoHangupFgResumeBgDone m_pModemData
  | MSG_CS_SS_HANGUP_WAITING_OR_BACKGROUND_DONE => DoHangupWaitOrBgDone m_pModemData
  | MSG_CS_SS_SWITCH_WAITING_OR_HOLDING_AND_ACTIVE_DONE => DoSwitchWaitOrHoldAndActiveDone m_pModemData
  | MSG_CS_SS_CONFERENCE_DONE => DoConferenceDone m_pModemData
  | MSG_CS_SS_CDMA_FLASH_DONE => DoCdmaFlashDone m_pModemData
  | MSG_CS_SS_SEPARATE_CONNECTION_DONE => DoSeparateConnectionDone m_pModemData
  | MSG_CS_SET_CALL_CONFIRM_DONE => DoSetCallConfirmDone m_pModemData
  | MSG_CS_SEND_CALL_CONFIRM_DONE => DoSendCallConfirmDone m_pModemData
  | MSG_CS_EXIT_EMERGENCY_CB_MODE_DONE => DoExitEmergencyCbModeDone m_pModemData
  | MSG_CS_SOUND_SET_MUTE_DONE => DoSetMuteDone m_pModemData
  | MSG_CS_SOUND_GET_MUTE_DONE => DoGetMuteDone m_pModemData
  | MSG_CS_SOUND_SWITCH_VOICE_CALL_DONE => mret (-1)
  end.
Inductive CscInd :=
| MSG_CS_SOUND_RINGBACKTONE_NTF | MSG_CS_CALL_STATE_CHANGE_NTF | MSG_CS_CALL_RINGING_NTF | MSG_NET_EMERGENCY_CALL_LIST_RECEIVED
| MSG_CS_IND_EMERGENCY_SUPPORT_RAT_MODE | MSG_CS_IND_CDMA_INFO_REC | MSG_CS_CALL_PRESENT_NTF | MSG_CS_SS_IND_CDMA_CALL_WAITING
| MSG_CS_IND_CDMA_OTA_PROVISION_STATUS | MSG_CS_IND_ENTER_EMERGENCY_CB_MODE_CHANGED | MSG_CS_IND_EXIT_EMERGENCY_CB_MODE_CHANGED
| MSG_CS_IND_RESEND_IN_CALL_MUTE.
(** whatever the handler gives, an indication is dealt with *)
Definition OnHandleUnsolicitedResponse (m : CscInd) (m_pModemData : option (list Z)) : CM Z :=
  match m with
  | MSG_CS_SOUND_RINGBACKTONE_NTF => OnRingbackTone m_pModemData
  | MSG_CS_CALL_STATE_CHANGE_NTF => OnCallStateChanged m_pModemData
  | MSG_CS_CALL_RINGING_NTF => OnCallRinging m_pModemData
  | MSG_NET_EMERGENCY_CALL_LIST_RECEIVED => OnNetEmergencyCallListReceived m_pModemData
  | MSG_CS_IND_EMERGENCY_SUPPORT_RAT_MODE => OnEmergencySupportRatModeNtf m_pModemData
  | MSG_CS_IND_CDMA_INFO_REC => OnCdmaInfoRec m_pModemData
  | MSG_CS_CALL_PRESENT_NTF => OnCallPresent m_pModemData
  | MSG_CS_SS_IND_CDMA_CALL_WAITING => OnCdmaCallWaitingNtf m_pModemData
  | MSG_CS_IND_CDMA_OTA_PROVISION_STATUS => OnUnsolCdmaOtaProvisionStatus m_pModemData
  | MSG_CS_IND_ENTER_EMERGENCY_CB_MODE_CHANGED => OnEnterEmergencyCallbackModeChanged m_pModemData
  | MSG_CS_IND_EXIT_EMERGENCY_CB_MODE_CHANGED => OnExitEmergencyCallbackModeChanged m_pModemData
  | MSG_CS_IND_RESEND_IN_CALL_MUTE => OnUnsolResendInCallMute m_pModemData
  end;; mret 0.
Inductive CscEvent :=
| CscRequest (q : CscReq) | CscResponse (m : CscDone) (cur : option IntRequestData) (m_pModemData : option (list Z))
| CscIndication (m : CscInd) (m_pModemData : option (list Z)) | CscImsi (imsi : option (list Z)) | CscSimStatus (cardState appState : Z).
Definition csc_handle (ev : CscEvent) : CM Z :=
  match ev with
  | CscRequest q => OnHandleRequest q
  | CscResponse m cur frame => OnHandleSolicitedResponse m cur frame
  | CscIndication m frame => OnHandleUnsolicitedResponse m frame
  | CscImsi imsi => OnImsiUpdated imsi;; mret 0
  | CscSimStatus card app => OnSimStatusChanged card app;; mret 0
  end.
Definition RIL_REQUEST_SET_MUTE : Z := 53.
Definition RIL_REQUEST_GET_MUTE : Z := 54.
Definition IsPossibleToPassInRadioOffState (request_id : Z) : bool := (request_id =? RIL_REQUEST_GET_MUTE) || (request_id =? RIL_REQUEST_SET_MUTE).

(** ** Automation *)

(** the handlers of the requests, of the answers and of the indications, for [autounfold] *)
Create HintDb csc_requests.
Create HintDb csc_answers.
Create HintDb csc_indications.
#[export] Hint Unfold DoGetCallList DoDial DoEmergencyDial dial GetClirAoc DoAnswer DoExplicitCallTransfer DoHangup DoReleaseCall DoReleaseCallMulti
  DoLastCallFailCause DoCdmaBurstDtmf DoCdmaSetPreferredVoicePrivacyMode DoCdmaQueryPreferredVoicePrivacyMode DoUdub DoHangupFgResumeBg
  DoHangupWaitOrBg DoSwitchWaitOrHoldAndActive DoConference DoCdmaFlash DoSeparateConnection DoSwitchVoiceCallAudio DoSetCallConfirm
  DoSendCallConfirm DoExitEmergencyCbMode DoSetMute DoGetMute with_request with_card : csc_requests.
#[export] Hint Unfold DoDialDone DoEmergencyDialDone DoAnswerDone DoExplicitCallTransferDone DoHangupDone clear_released DoLastCallFailCauseDone
  DoCdmaBurstDtmfDone DoCdmaSetPreferredVoicePrivacyModeDone DoCdmaQueryPreferredVoicePrivacyModeDone DoUdubDone DoHangupFgResumeBgDone
  DoHangupWaitOrBgDone DoSwitchWaitOrHoldAndActiveDone DoConferenceDone DoCdmaFlashDone DoSeparateConnectionDone DoSetCallConfirmDone
  DoSendCallConfirmDone DoExitEmergencyCbModeDone DoSetMuteDone DoGetMuteDone code_only code_and_int with_response : csc_answers.
#[export] Hint Unfold OnRingbackTone OnCallStateChanged OnCallRinging OnCallPresent OnEnterEmergencyCallbackModeChanged
  OnExitEmergencyCallbackModeChanged OnUnsolResendInCallMute OnEmergencySupportRatModeNtf OnCdmaCallWaitingNtf OnUnsolCdmaOtaProvisionStatus
  OnCdmaInfoRec OnNetEmergencyCallListReceived OnImsiUpdated OnSimStatusChanged plain_indication with_response : csc_indications.
