(* ===== verification/CallTheorems.v ===== *)
(** Voice calls: the numbers of the calls, and the list that is told. *)
From stdpp Require Import gmap.
From S2P Require Import Prelude RilDef Text WaitList Network Rcm Layout Handler RilData MccTable CallPackets Call.

(** ** The table of the numbers *)

Definition ids_wf (t : list call_id_state) : Prop :=
  lenZ t = MAX_CALL_ID_COUNT ∧ ∀ i j c d, t !! i = Some c → t !! j = Some d → call_id c = call_id d → call_id c ≠ -1 → i = j.
Definition active (cp : Z) : call_id_state := {| call_id := cp; id_state := CALL_ID_STATE_ACTIVE |}.
Definition listed (cp : Z) (t : list call_id_state) : Prop := ∃ i c, t !! i = Some c ∧ call_id c = cp.
(** the entries that are free *)
Definition free_ids (t : list call_id_state) : nat := length (filter (λ c, call_id c = -1) t).

Lemma find_call_Some cp t i : find_call cp t = Some i → ∃ c, t !! i = Some c ∧ call_id c = cp.
Proof.
  revert i. induction t as [|c t IH]; intros i; cbn; [done|]. destruct (Z.eqb_spec (call_id c) cp); [intros [= <-]; by exists c|].
  destruct (find_call cp t) as [j|]; [|done]. intros [= <-]. by apply IH.
Qed.
Lemma find_call_None cp t : find_call cp t = None ↔ ¬ listed cp t.
Proof.
  induction t as [|c t IH]; cbn; [split; [by intros _ (i & d & Hi & _)|done]|]. destruct (Z.eqb_spec (call_id c) cp) as [E|E].
  - split; [done|]. intros H. destruct H. by exists 0%nat, c.
  - destruct (find_call cp t) as [j|] eqn:Ef; cbn.
    + split; [done|]. intros H. destruct H. destruct (find_call_Some _ _ _ Ef) as (d & Hd & Ed). by exists (S j), d.
    + split; [|done]. intros _ (i & d & Hi & Ed). destruct i as [|i]; [by injection Hi as ->|]. apply (proj1 IH eq_refl). by exists i, d.
Qed.
Lemma find_call_wf cp t i c : ids_wf t → t !! i = Some c → call_id c = cp → cp ≠ -1 → find_call cp t = Some i.
Proof.
  intros [_ Hw] Hi Ec Hc. destruct (find_call cp t) as [j|] eqn:Ef.
  - destruct (find_call_Some _ _ _ Ef) as (d & Hd & Ed). f_equal. apply (Hw j i d c); congruence.
  - apply find_call_None in Ef. destruct Ef. by exists i, c.
Qed.
Lemma CallId_Init_wf : ids_wf CallId_Init.
Proof. split; [done|]. intros i j c d [-> _]%lookup_replicate _ _. done. Qed.
Lemma active_wf cp t i : ids_wf t → (∃ c, t !! i = Some c ∧ call_id c = cp) ∨ ¬ listed cp t → ids_wf (<[i := active cp]> t).
Proof.
  intros [Hl Hw] Hi. split; [by rewrite lenZ_insert|].
  assert (∀ j k c d, <[i := active cp]> t !! j = Some c → t !! k = Some d → k ≠ i → call_id c = call_id d → call_id c ≠ -1 → j = k) as H1.
  { intros j k c d Hj Hk Hne E Hc. destruct (decide (j = i)) as [-> |].
    - rewrite list_lookup_insert_eq in Hj by (apply lookup_lt_Some in Hj; by rewrite length_insert in Hj). injection Hj as <-. cbn in *.
      destruct Hi as [(b & Hb & Eb)|Hn]; [|by destruct Hn; exists k, d]. destruct Hne. apply (Hw k i d b); congruence.
    - rewrite list_lookup_insert_ne in Hj by done. by apply (Hw j k c d). }
  intros j k c d Hj Hk E Hc. destruct (decide (k = i)) as [-> |].
  - destruct (decide (j = i)) as [|Hne]; [done|]. rewrite list_lookup_insert_ne in Hj by done. symmetry. apply (H1 i j d c); congruence.
  - apply (H1 j k c d); try done. by rewrite list_lookup_insert_ne in Hk by done.
Qed.
(** whatever is added *)
Lemma AddCallId_wf cp t : ids_wf t → ids_wf (AddCallId cp t).2.
Proof.
  intros Hw. unfold AddCallId. destruct (find_call cp t) as [i|] eqn:E; [apply active_wf; [done|left; by apply find_call_Some]|].
  destruct (find_call (-1) t) as [i|]; [|done]. apply active_wf; [done|right; by apply find_call_None].
Qed.
Lemma add_calls_wf l t : ids_wf t → ids_wf (add_calls l t).2.
Proof. revert t. induction l as [|c l IH]; intros t Hw; [done|]. cbn. by apply IH, AddCallId_wf. Qed.
Lemma SyncReady_wf t : ids_wf t → ids_wf (SyncReady t).
Proof.
  intros [Hl Hw]. split; [unfold SyncReady, lenZ in *; by rewrite length_fmap|]. intros i j c d Hi Hj. unfold SyncReady in *.
  apply list_lookup_fmap_Some in Hi as (c' & -> & Hi). apply list_lookup_fmap_Some in Hj as (d' & -> & Hj). by apply (Hw i j c' d').
Qed.
Lemma SyncDone_wf t : ids_wf t → ids_wf (SyncDone t).
Proof.
  intros [Hl Hw]. split; [unfold SyncDone, lenZ in *; by rewrite length_fmap|]. intros i j c d Hi Hj. unfold SyncDone in *.
  apply list_lookup_fmap_Some in Hi as (c' & -> & Hi). apply list_lookup_fmap_Some in Hj as (d' & -> & Hj).
  repeat case_decide; try done. by apply (Hw i j c' d').
Qed.

(** ** A list of calls and the table *)

(** the number is in the table, or there is a place for it *)
Lemma AddCallId_placed cp t : cp ≠ -1 → listed cp t ∨ (0 < free_ids t)%nat →
  ∃ i c, AddCallId cp t = (Z.of_nat i + 1, <[i := active cp]> t) ∧ t !! i = Some c ∧ (call_id c = cp ∨ call_id c = -1 ∧ ¬ listed cp t).
Proof.
  intros Hc Hp. unfold AddCallId. destruct (find_call cp t) as [i|] eqn:E.
  - destruct (find_call_Some _ _ _ E) as (c & Hi & Ec). exists i, c. auto.
  - apply find_call_None in E as Hn. destruct Hp as [|Hf]; [done|]. destruct (find_call (-1) t) as [i|] eqn:E'.
    + destruct (find_call_Some _ _ _ E') as (c & Hi & Ec). exists i, c. auto.
    + apply find_call_None in E'. unfold free_ids in Hf. destruct (filter _ t) as [|c r] eqn:Ef; [cbn in Hf; lia|].
      destruct E'. assert (c ∈ filter (λ c, call_id c = -1) t) as [H1 H2]%list_elem_of_filter by (rewrite Ef; by left).
      apply list_elem_of_lookup in H2 as [i Hi]. by exists i, c.
Qed.
Lemma free_insert t i c cp : t !! i = Some c → cp ≠ -1 →
  free_ids (<[i := active cp]> t) = (free_ids t - Nat.b2n (bool_decide (call_id c = (-1)%Z)))%nat ∧ (call_id c = -1 → (0 < free_ids t)%nat).
Proof.
  intros Hi Hc. rewrite (insert_take_drop t i) by by eapply lookup_lt_Some. assert (free_ids t = free_ids (take i t ++ c :: drop (S i) t)) as -> by by rewrite (take_drop_middle t i c Hi). unfold free_ids.
  rewrite !filter_app, !filter_cons, !length_app. destruct (decide (call_id (active cp) = -1)) as [E|_]; [done|]. case_bool_decide; [rewrite decide_True by done|rewrite decide_False by done]; cbn; split; intros; lia.
Qed.
Lemma listed_insert t i c cp x : t !! i = Some c → (call_id c = cp ∨ call_id c = -1) → x ≠ cp → x ≠ -1 → listed x (<[i := active cp]> t) ↔ listed x t.
Proof.
  intros Hi Hc Hx Hm. split; intros (j & d & Hj & Ed); destruct (decide (j = i)) as [-> |].
  - rewrite list_lookup_insert_eq in Hj by by eapply lookup_lt_Some. injection Hj as <-. cbn in Ed. done.
  - rewrite list_lookup_insert_ne in Hj by done. by exists j, d.
  - assert (d = c) as -> by congruence. destruct Hc; congruence.
  - exists j, d. by rewrite list_lookup_insert_ne by done.
Qed.
#[export] Instance listed_dec cp t : Decision (listed cp t).
Proof. destruct (find_call cp t) as [i|] eqn:E; [left|right; by apply find_call_None]. destruct (find_call_Some _ _ _ E) as (c & ? & ?). by exists i, c. Defined.
(** the calls the table has no number for *)
Definition new_ids (t : list call_id_state) (cps : list Z) : list Z := filter (λ cp, ¬ listed cp t) cps.
Lemma new_ids_insert t i c cp cps : t !! i = Some c → (call_id c = cp ∨ call_id c = -1) → cp ∉ cps → -1 ∉ cps →
  new_ids (<[i := active cp]> t) cps = new_ids t cps.
Proof.
  intros Hi Hc Hn Hm. unfold new_ids. induction cps as [|x cps IH]; [done|]. apply not_elem_of_cons in Hn as [Hx Hn]. apply not_elem_of_cons in Hm as [Hx' Hm].
  pose proof (listed_insert t i c cp x Hi Hc (not_eq_sym Hx) (not_eq_sym Hx')) as Hl. rewrite !filter_cons, IH by done.
  by destruct (decide (¬ listed x (<[i:=active cp]> t))), (decide (¬ listed x t)); tauto || done.
Qed.
Definition ids_of (l : list CallInfo) : list Z := m_nIndex <$> l.
Lemma add_calls_spec l t : ids_wf t → NoDup (ids_of l) → -1 ∉ ids_of l → (length (new_ids t (ids_of l)) <= free_ids t)%nat →
  let p := add_calls l t in
  (∀ i c, t !! i = Some c → call_id c ≠ -1 → p.2 !! i = Some (if decide (call_id c ∈ ids_of l) then active (call_id c) else c)) ∧
  (∀ i c, p.2 !! i = Some c → c = active (call_id c) ∧ call_id c ∈ ids_of l ∨ t !! i = Some c) ∧
  (∀ k c, l !! k = Some c → ∃ i, p.1 !! k = Some (with_index (Z.of_nat i + 1) c) ∧ p.2 !! i = Some (active (m_nIndex c))).
Proof.
  revert t. induction l as [|c l IH]; intros t Hw Hd Hm Hf.
  { cbn. split_and!; [done|by right|]. intros k c Hk. by destruct k. }
  cbn [ids_of fmap list_fmap] in *. fold (ids_of l) in *. apply NoDup_cons in Hd as [Hc Hd]. apply not_elem_of_cons in Hm as [Hcm Hm]. set (cp := m_nIndex c) in *.
  assert (listed cp t ∨ (0 < free_ids t)%nat) as Hp.
  { destruct (decide (listed cp t)) as [|Hn]; [by left|right]. unfold new_ids in Hf. rewrite filter_cons, decide_True in Hf by done. cbn in Hf. lia. }
  destruct (AddCallId_placed cp t) as (i & d & E & Hi & Hcase); [done|done|]. assert (call_id d = cp ∨ call_id d = -1) as Hcase' by tauto.
  assert (ids_wf (<[i := active cp]> t)) as Hw' by (pose proof (AddCallId_wf cp t Hw) as H; by rewrite E in H).
  destruct (free_insert t i d cp Hi (not_eq_sym Hcm)) as [Ef Ef0].
  assert ((length (new_ids (<[i:=active cp]> t) (ids_of l)) <= free_ids (<[i:=active cp]> t))%nat) as Hf'.
  { rewrite (new_ids_insert t i d cp) by done. rewrite Ef. unfold new_ids in Hf. rewrite filter_cons in Hf. fold (new_ids t (ids_of l)) in Hf.
    destruct Hcase as [E1|[E1 Hn]].
    - rewrite decide_False in Hf by (intros H; apply H; by exists i, d). rewrite bool_decide_eq_false_2 by congruence. cbn. lia.
    - rewrite decide_True in Hf by done. rewrite bool_decide_eq_true_2 by done. cbn in Hf |- *. lia. }
  destruct (IH (<[i:=active cp]> t) Hw' Hd Hm Hf') as (H1 & H2 & H3). cbn [add_calls fst snd]. fold cp. rewrite E. cbn [fst snd].
  assert (<[i:=active cp]> t !! i = Some (active cp)) as Hia by (apply list_lookup_insert_eq; by eapply lookup_lt_Some).
  assert ((add_calls l (<[i:=active cp]> t)).2 !! i = Some (active cp)) as Hat.
  { rewrite (H1 i (active cp)) by done. by destruct (decide _). }
  split_and!.
  - intros j b Hj Hb. destruct (decide (j = i)) as [-> |].
    + assert (b = d) as -> by congruence. destruct Hcase' as [E1|]; [|done]. rewrite E1, decide_True by by left. done.
    + rewrite (H1 j b) by (done || by rewrite list_lookup_insert_ne by done).
      assert (call_id b ≠ cp) as Hne.
      { intros Eb. destruct Hcase as [E1|[_ Hn]]; [|destruct Hn; by exists j, b]. destruct Hw as [_ Hw]. assert (j = i); [|done]. apply (Hw j i b d); congruence. }
      f_equal. by destruct (decide (call_id b ∈ ids_of l)), (decide (call_id b ∈ cp :: ids_of l)) as [ [Hx|Hx]%elem_of_cons|Hx]; try done; destruct Hx; right.
  - intros j b Hj. destruct (H2 j b Hj) as [ [Ea Hb]|Hb]; [left; split; [done|by right]|]. destruct (decide (j = i)) as [-> |].
    + assert (b = active cp) as -> by congruence. left. split; [done|by left].
    + right. by rewrite list_lookup_insert_ne in Hb by done.
  - intros [|k] b Hk; [injection Hk as <-; by exists i|]. by apply H3.
Qed.

Lemma ready_lookup t i c : SyncReady t !! i = Some c ↔ ∃ d, t !! i = Some d ∧ c = {| call_id := call_id d; id_state := CALL_ID_STATE_INACTIVE |}.
Proof. unfold SyncReady. rewrite list_lookup_fmap_Some. split; intros (d & H1 & H2); by exists d. Qed.
Lemma ready_listed t cp : listed cp (SyncReady t) ↔ listed cp t.
Proof.
  split; intros (i & c & Hi & Ec).
  - apply ready_lookup in Hi as (d & Hi & ->). by exists i, d.
  - exists i, {| call_id := call_id c; id_state := CALL_ID_STATE_INACTIVE |}. split; [apply ready_lookup; by exists c|done].
Qed.
Lemma ready_new_ids t cps : new_ids (SyncReady t) cps = new_ids t cps.
Proof.
  unfold new_ids. induction cps as [|x cps IH]; [done|]. rewrite !filter_cons, IH. pose proof (ready_listed t x).
  by destruct (decide (¬ listed x (SyncReady t))), (decide (¬ listed x t)); tauto || done.
Qed.
Lemma ready_free_ids t : free_ids (SyncReady t) = free_ids t.
Proof.
  unfold free_ids, SyncReady. induction t as [|c t IH]; [done|]. rewrite fmap_cons, !filter_cons. cbn [call_id].
  destruct (decide (call_id c = -1)); cbn; by rewrite IH.
Qed.
Lemma GetCpIndex_at t i c : lenZ t = MAX_CALL_ID_COUNT → t !! i = Some c → GetCpIndex (Z.of_nat i + 1) t = call_id c.
Proof.
  intros Hl Hi. pose proof (lookup_lt_Some _ _ _ Hi). unfold GetCpIndex, lenZ in *.
  replace ((0 <? Z.of_nat i + 1) && (Z.of_nat i + 1 <=? MAX_CALL_ID_COUNT)) with true by lia. replace (Z.to_nat (Z.of_nat i + 1 - 1)) with i by lia. by rewrite Hi.
Qed.
Lemma GetCpIndex_inv t ap cp : GetCpIndex ap t = cp → cp ≠ -1 → ∃ i c, ap = Z.of_nat i + 1 ∧ t !! i = Some c ∧ call_id c = cp.
Proof.
  unfold GetCpIndex. destruct ((0 <? ap) && (ap <=? MAX_CALL_ID_COUNT)) eqn:E; [|congruence]. destruct (t !! Z.to_nat (ap - 1)) as [c|] eqn:Hi; [|congruence].
  intros Ec _. exists (Z.to_nat (ap - 1)), c. split_and!; [lia|done..].
Qed.
(** what a list of calls makes of the table: every call has a number, those it had before among them, and nothing else has one *)
Definition numbers_follow (l : list CallInfo) (t : list call_id_state) : Prop :=
  let p := add_calls l (SyncReady t) in
  let t' := SyncDone p.2 in
  ids_wf t' ∧
  (∀ k c, l !! k = Some c → ∃ ap, p.1 !! k = Some (with_index ap c) ∧ 1 <= ap <= MAX_CALL_ID_COUNT ∧
     GetCpIndex ap t' = m_nIndex c ∧ GetApIndex (m_nIndex c) t' = ap ∧ (∀ ap0, GetCpIndex ap0 t = m_nIndex c → ap0 = ap)) ∧
  (∀ ap, GetCpIndex ap t' ≠ -1 → GetCpIndex ap t' ∈ ids_of l).
(** the calls of a list have different numbers, and there are places for the new ones *)
Definition placeable (cps : list Z) (t : list call_id_state) : Prop := NoDup cps ∧ ¬ (-1 ∈ cps) ∧ (length (new_ids t cps) <= free_ids t)%nat.
Lemma placed l t : ids_wf t → placeable (ids_of l) t → numbers_follow l t.
Proof.
  intros Hw (Hd & Hm & Hf). unfold numbers_follow. set (p := add_calls l (SyncReady t)). set (t' := SyncDone p.2). destruct (add_calls_spec l (SyncReady t)) as (H1 & H2 & H3);
    [by apply SyncReady_wf|done|done|by rewrite ready_new_ids, ready_free_ids|]. fold p in H1, H2, H3.
  assert (ids_wf t') as Hw' by by apply SyncDone_wf, add_calls_wf, SyncReady_wf. split; [done|]. split.
  - intros k c Hk. destruct (H3 k c Hk) as (i & Hi & Ha). exists (Z.of_nat i + 1). split; [done|].
    assert (m_nIndex c ∈ ids_of l) as Hc by (apply list_elem_of_fmap; exists c; split; [done|by eapply list_elem_of_lookup_2]).
    assert (m_nIndex c ≠ -1) as Hc1 by congruence.
    assert (t' !! i = Some (active (m_nIndex c))) as Ht' by (unfold t', SyncDone; rewrite list_lookup_fmap, Ha; done).
    pose proof (lookup_lt_Some _ _ _ Ht') as Hlt. destruct Hw' as [Hl' Hw'']. unfold lenZ in Hl'. split; [lia|].
    split; [by rewrite (GetCpIndex_at t' i (active (m_nIndex c)))|]. split.
    + unfold GetApIndex. by rewrite (find_call_wf _ t' i (active (m_nIndex c))) by done.
    + intros ap0 E. destruct (GetCpIndex_inv _ _ _ E Hc1) as (j & d & -> & Hj & Ed). f_equal. f_equal.
      pose proof (H1 j {| call_id := call_id d; id_state := CALL_ID_STATE_INACTIVE |}) as Hp2. cbn [call_id] in Hp2. rewrite Ed, decide_True in Hp2 by done.
      assert (p.2 !! j = Some (active (m_nIndex c))) as Hp by (apply Hp2; [apply ready_lookup; exists d; by rewrite Ed|done]).
      pose proof (add_calls_wf l (SyncReady t) (SyncReady_wf _ Hw)) as [_ Hpw]. by apply (Hpw j i (active (m_nIndex c)) (active (m_nIndex c))).
  - intros ap Hap. destruct (GetCpIndex_inv t' ap _ eq_refl Hap) as (i & c & -> & Hi & Ec). rewrite <- Ec. rewrite <- Ec in Hap.
    unfold t', SyncDone in Hi. apply list_lookup_fmap_Some in Hi as (d & -> & Hi). case_decide as Hs; [done|].
    destruct (H2 i d Hi) as [ [_ Hx]|Hx]; [done|]. apply ready_lookup in Hx as (b & _ & ->). done.
Qed.
(** C29: The framework's numbers follow the calls of the modem.  Whatever the table
    was before, behind a list of calls with different numbers of the modem, none of
    them -1, for whose new calls the table has free places ([placeable]): every
    call has one of the numbers 1 to 9; the two
    translations of the table are inverse to each other on the calls of the list;
    a call the table knew before has the number it had; and a number that is
    translated at all is that of a call of the list.  Without a free place a new
    call gets the number -1 ([new_call_without_number]). *)
Theorem call_numbers_kept (l : list CallInfo) (t : list call_id_state) : ids_wf t → placeable (ids_of l) t → numbers_follow l t.
Proof. apply placed. Qed.
Definition call_of (cp : Z) : CallInfo := with_index cp newCallInfo.
Lemma call_numbers_kept_witness : numbers_follow [call_of 7; call_of 2] (SyncDone (add_calls [call_of 4; call_of 7] CallId_Init).2).
Proof.
  apply call_numbers_kept; [apply SyncDone_wf, add_calls_wf, CallId_Init_wf|]. split_and!; [by_eval..|by apply Nat.leb_le; vm_compute].
Defined.
(** Eight calls leave one place: of two new calls beside them, the second has no number. *)
Lemma new_call_without_number :
  let t := SyncDone (add_calls (call_of <$> [1; 2; 3; 4; 5; 6; 7; 8]) CallId_Init).2 in
  m_nIndex <$> (add_calls [call_of 20; call_of 21] (SyncReady t)).1 = [9; -1].
Proof. vm_compute. reflexivity. Qed.

(** ** The list that is told *)

(** a call of the modem, without a name that is shown *)
Record CallRec := {
  cr_state : Z; cr_index : Z; cr_toa : Z; cr_mpty : Z; cr_mt : Z; cr_als : Z; cr_type : Z; cr_privacy : Z; cr_num : list Z; cr_num_present : Z;
  cr_name_len : Z; cr_name : list Z; cr_name_present : Z; cr_name_dcs : Z; cr_uus_type : Z; cr_uus_dcs : Z; cr_uus : list Z; cr_srvcc : Z }.
Definition record_fields (r : CallRec) : list (list Z) :=
  [ [cr_state r]; le32 (u32 (cr_index r)); le32 (u32 (cr_toa r)); [cr_mpty r]; [cr_mt r]; [cr_als r]; [cr_type r]; [cr_privacy r]; [lenZ (cr_num r)];
    padded MAX_DIAL_NUM (cr_num r); le32 (cr_num_present r); [cr_name_len r]; cr_name r; le32 (cr_name_present r); [cr_name_dcs r]; le32 (cr_uus_type r);
    le32 (cr_uus_dcs r); [lenZ (cr_uus r)]; padded MAX_UUS_DATA_LEN (cr_uus r); [cr_srvcc r] ].
Definition record_bytes (r : CallRec) : list Z := concat (record_fields r).
Definition int_ok (n : Z) : Prop := - 2 ^ 31 <= n < 2 ^ 31.
Record rec_wf (r : CallRec) : Prop := {
  wf_state : 0 <= cr_state r <= 5; wf_index : int_ok (cr_index r); wf_toa : int_ok (cr_toa r);
  wf_type : is_voice_type (cr_type r) = true ∨ cr_type r = SIT_CALL_CALL_TYPE_VIDEO;
  wf_num : lenZ (cr_num r) <= MAX_DIAL_NUM; wf_nonul : nonul (cr_num r); wf_num_present : 0 <= cr_num_present r <= 3;
  wf_name : lenZ (cr_name r) = MAX_DIAL_NAME; wf_name_present : 0 <= cr_name_present r <= 3;
  wf_hidden : cr_name_len r = 0 ∨ shown (cr_name_present r) = false;
  wf_uus_type : 0 <= cr_uus_type r < 2 ^ 31; wf_uus_dcs : 0 <= cr_uus_dcs r < 2 ^ 31; wf_uus : lenZ (cr_uus r) <= MAX_UUS_DATA_LEN }.
Lemma lenZ_record r : rec_wf r → lenZ (record_bytes r) = sizeof_sit_call_info_type.
Proof.
  intros []. unfold record_bytes. rewrite lenZ_concat. unfold record_fields, size_of. cbn [foldr]. rewrite !lenZ_padded, wf_name0 by done. done.
Qed.
(** the number the framework is shown, and whether it may be *)
Definition shown_number (r : CallRec) : list Z := if shown (cr_num_present r) then cr_num r else [].
Definition shown_presentation (r : CallRec) : Z := match shown_number r with [] => cr_num_present r | _ => RIL_CALL_NAME_PRESENTATION_ALLOW end.
Definition call_info (r : CallRec) : CallInfo :=
  {| m_state := cr_state r; m_nIndex := cr_index r; m_toa := if cr_toa r =? RIL_TOA_INTERNATIONAL then RIL_TOA_INTERNATIONAL else RIL_TOA_UNKNOWN;
     m_isMParty := cr_mpty r =? 1; m_isMt := cr_mt r =? 1; m_isVoice := is_voice_type (cr_type r); m_isVideo := cr_type r =? SIT_CALL_CALL_TYPE_VIDEO;
     m_isVoicePrivacy := negb (cr_privacy r =? 0); m_numPresent := shown_presentation r; m_namePresent := cr_name_present r; m_als := cr_als r;
     ci_number := padded (MAX_DIAL_NUM + 1) (shown_number r); m_name := fill (MAX_DIAL_NAME + 1) 0;
     ci_uusInfo := {| m_uusType := ConvertSitDefineToRilDefine SIT_CALL_TB_IDX_UUS_TYPE (cr_uus_type r);
                      m_uusDcs := ConvertSitDefineToRilDefine SIT_CALL_TB_IDX_UUS_DCS (cr_uus_dcs r); m_uusLength := lenZ (cr_uus r);
                      m_uusData := padded MAX_UUS_DATA_LEN (cr_uus r) |};
     m_audioQuality := 0 |}.
Lemma states_same n : 0 <= n <= 5 → ConvertSitDefineToRilDefine SIT_CALL_TB_IDX_STATE n = n.
Proof.
  intros Hn. apply Z.eqb_eq. assert (0 <= n < 6) as Hn' by lia. clear Hn. revert n Hn'.
  apply (small_forall 6 (λ n, ConvertSitDefineToRilDefine SIT_CALL_TB_IDX_STATE n =? n)). vm_compute. reflexivity.
Qed.
Lemma presentations_same n : 0 <= n <= 3 → ConvertSitDefineToRilDefine SIT_CALL_TB_IDX_PRESENTATION n = n.
Proof.
  intros Hn. apply Z.eqb_eq. assert (0 <= n < 4) as Hn' by lia. clear Hn. revert n Hn'.
  apply (small_forall 4 (λ n, ConvertSitDefineToRilDefine SIT_CALL_TB_IDX_PRESENTATION n =? n)). vm_compute. reflexivity.
Qed.
(** where the fields of a record lie *)
Definition record_offsets : list Z := [0; 1; 5; 9; 10; 11; 12; 13; 14; 15; 97; 101; 102; 184; 188; 189; 193; 197; 198; 326].
Lemma record_offset r k off : rec_wf r → record_offsets !! k = Some off → off = size_of (take k (record_fields r)).
Proof.
  intros [] Hk. do 20 (destruct k as [|k];
    [injection Hk as <-; cbn [take record_fields size_of foldr]; rewrite ?lenZ_padded, ?wf_name0 by done; reflexivity|cbn in Hk]). done.
Qed.
Section record.
Variables (pre post : list Z) (r : CallRec) (at_ : Z).
Hypotheses (Hpre : lenZ pre = at_) (Hr : rec_wf r).
Abbreviation raw := (pre ++ record_bytes r ++ post).
Lemma record_room k off b : record_offsets !! k = Some off → record_fields r !! k = Some b → off + lenZ b <= lenZ (record_bytes r).
Proof.
  intros Ho Hk. rewrite (record_offset r k off) by done. unfold record_bytes. destruct (concat_at (record_fields r) k b Hk) as [-> <-].
  rewrite !lenZ_app. pose proof (lenZ_nonneg (concat (drop (S k) (record_fields r)))). lia.
Qed.
Lemma offset_nonneg k off : record_offsets !! k = Some off → 0 <= off.
Proof. intros Hk. apply (Forall_lookup_1 (λ n, 0 <= n) record_offsets k); [by_eval|done]. Qed.
Lemma record_byte k v off : record_offsets !! k = Some off → record_fields r !! k = Some [v] → raw.[at_ + off] = Ok v.
Proof.
  intros Ho Hk. pose proof (record_room k off _ Ho Hk) as Hl. pose proof (offset_nonneg _ _ Ho). change (lenZ [v]) with 1 in Hl.
  rewrite (rd_local pre (record_bytes r)) by (done || lia). apply (rd_chunk _ k); [done|by apply record_offset].
Qed.
Lemma record_int k n off : record_offsets !! k = Some off → record_fields r !! k = Some (le32 n) → 0 <= n < 2 ^ 32 → rdi32 raw (at_ + off) = Ok (i32 n).
Proof.
  intros Ho Hk Hn. pose proof (record_room k off _ Ho Hk) as Hl. pose proof (offset_nonneg _ _ Ho). change (lenZ (le32 n)) with 4 in Hl.
  unfold rdi32. rewrite (rd32_local pre (record_bytes r)) by (done || lia). unfold record_bytes. rewrite (rd32_chunk _ k n) by (done || by apply record_offset). done.
Qed.
Lemma record_part k b off n : record_offsets !! k = Some off → record_fields r !! k = Some b → 0 <= n <= lenZ b → rdn raw (at_ + off) n = Ok (take (Z.to_nat n) b).
Proof.
  intros Ho Hk Hn. pose proof (record_room k off _ Ho Hk) as Hl. pose proof (offset_nonneg _ _ Ho).
  rewrite (rdn_local pre (record_bytes r)) by (done || lia). unfold record_bytes.
  rewrite (rdn_chunk _ k b _ 0) by (done || lia || (rewrite (record_offset r k off) by done; lia)). done.
Qed.
Lemma take_padded n (s : list Z) : take (Z.to_nat (lenZ s)) (padded n s) = s.
Proof. unfold padded, lenZ. rewrite Nat2Z.id. by rewrite take_app_length. Qed.
Lemma wrn_zeros n (s : list Z) : lenZ s <= n → wrn (fill n 0) 0 s = Ok (padded n s).
Proof. intros Hs. pose proof (wrn_padded [fill n 0] 0%nat s n 0 eq_refl Hs eq_refl) as H. cbn [concat insert list_insert] in H. by rewrite !app_nil_r in H. Qed.
Lemma record_uus : ConvertSitToUusInfo raw at_ newUusInfo = Ok (ci_uusInfo (call_info r)).
Proof.
  unfold ConvertSitToUusInfo. pose proof (lenZ_nonneg (cr_uus r)). pose proof Hr as [].
  rewrite (record_int 15 (cr_uus_type r) 189) by (done || lia). cbn [mbind res_bind]. rewrite (record_int 16 (cr_uus_dcs r) 193) by (done || lia). cbn [mbind res_bind].
  rewrite (record_byte 17 (lenZ (cr_uus r)) 197) by done. cbn [mbind res_bind]. rewrite Z.min_l by done.
  rewrite (record_part 18 (padded MAX_UUS_DATA_LEN (cr_uus r)) 198) by (done || rewrite lenZ_padded by done; lia). cbn [mbind res_bind].
  rewrite take_padded. cbn [m_uusData newUusInfo]. rewrite wrn_zeros by done. cbn [mbind res_bind]. unfold call_info. cbn [ci_uusInfo].
  by rewrite !i32_id by lia.
Qed.
Lemma record_number : 0 < lenZ (cr_num r) → call_number raw at_ (lenZ (cr_num r)) = Ok (padded (MAX_DIAL_NUM + 1) (cr_num r)).
Proof.
  intros Hp. unfold call_number. pose proof Hr as []. rewrite Z.min_l by done.
  rewrite (record_part 9 (padded MAX_DIAL_NUM (cr_num r)) 15) by (done || rewrite lenZ_padded by done; lia). cbn [mbind res_bind].
  rewrite take_padded. apply wrn_zeros. unfold MAX_DIAL_NUM in *. lia.
Qed.
(** a record is read into a cleared entry *)
Lemma record_read n k : 0 <= k < n → n <= MAX_CALL_LIST_NUM → at_ = 16 + sizeof_sit_call_info_type * k → GetCallNum raw = Ok n →
  GetCallInfo raw newCallInfo k = Ok (0, call_info r).
Proof.
  intros Hk Hn Ha Hc. unfold GetCallInfo. rewrite Hc. cbn [mbind res_bind]. replace ((k <? 0) || (MAX_CALL_LIST_NUM <=? k) || (n <=? k)) with false by lia.
  rewrite <- Ha. pose proof Hr as []. pose proof (lenZ_nonneg (cr_num r)) as Hnn.
  pose proof (record_byte 0 (cr_state r) 0 eq_refl eq_refl) as E0. rewrite Z.add_0_r in E0. rewrite E0. cbn [mbind res_bind].
  rewrite (record_int 1 (u32 (cr_index r)) 1) by (done || apply u32_range). cbn [mbind res_bind].
  rewrite (record_int 2 (u32 (cr_toa r)) 5) by (done || apply u32_range). cbn [mbind res_bind].
  rewrite (record_byte 3 (cr_mpty r) 9) by done. cbn [mbind res_bind]. rewrite (record_byte 4 (cr_mt r) 10) by done. cbn [mbind res_bind].
  rewrite (record_byte 6 (cr_type r) 12) by done. cbn [mbind res_bind m_isVoice m_isVideo].
  replace (negb (is_voice_type (cr_type r)) && negb (cr_type r =? SIT_CALL_CALL_TYPE_VIDEO)) with false
    by (destruct wf_type0 as [-> | ->]; [done|by rewrite Z.eqb_refl, andb_false_r]).
  rewrite (record_byte 7 (cr_privacy r) 13) by done. cbn [mbind res_bind]. rewrite (record_int 10 (cr_num_present r) 97) by (done || lia). cbn [mbind res_bind].
  rewrite (record_byte 8 (lenZ (cr_num r)) 14) by done. cbn [mbind res_bind]. rewrite (record_int 13 (cr_name_present r) 184) by (done || lia). cbn [mbind res_bind].
  rewrite (record_byte 11 (cr_name_len r) 101) by done. cbn [mbind res_bind]. rewrite (record_byte 5 (cr_als r) 11) by done. cbn [mbind res_bind].
  rewrite !i32_u32 by done. rewrite (i32_id (cr_num_present r)), (i32_id (cr_name_present r)) by lia. rewrite !presentations_same, states_same by done.
  replace (if shown (cr_name_present r) then cr_name_len r else 0) with 0 by (destruct wf_hidden0 as [-> | ->]; by destruct (shown (cr_name_present r))).
  cbn [Z.ltb Z.compare ci_number m_name newCallInfo ci_uusInfo].
  assert ((if 0 <? (if shown (cr_num_present r) then lenZ (cr_num r) else 0)
           then call_number raw at_ (if shown (cr_num_present r) then lenZ (cr_num r) else 0)
           else Ok (if shown (cr_num_present r) then fill (MAX_DIAL_NUM + 1) 0 else fill (MAX_DIAL_NUM + 1) 0)) = Ok (padded (MAX_DIAL_NUM + 1) (shown_number r))) as ->.
  { unfold shown_number. destruct (shown (cr_num_present r)); [|done]. destruct (Z.ltb_spec 0 (lenZ (cr_num r))); [by apply record_number|].
    destruct (cr_num r); [done|rewrite lenZ_cons in *; pose proof (lenZ_nonneg l); lia]. }
  cbn [mbind res_bind]. change (ConvertSitToUusInfo raw at_ (ci_uusInfo newCallInfo)) with (ConvertSitToUusInfo raw at_ newUusInfo).
  rewrite record_uus. cbn [mbind res_bind]. unfold call_info. do 2 f_equal.
  replace (if 0 <? (if shown (cr_num_present r) then lenZ (cr_num r) else 0) then RIL_CALL_NAME_PRESENTATION_ALLOW else cr_num_present r) with (shown_presentation r).
  2: { unfold shown_presentation, shown_number. destruct (shown (cr_num_present r)); [|done]. destruct (cr_num r); [done|]. rewrite lenZ_cons.
       pose proof (lenZ_nonneg l). by replace (0 <? 1 + lenZ l) with true by lia. }
  cbn [m_state m_nIndex m_toa m_isMParty m_isMt m_isVoice m_isVideo m_audioQuality newCallInfo].
  f_equal. by destruct (shown (cr_name_present r)).
Qed.
End record.

(** the whole answer *)
Definition calls_frame (hdr : list Z) (l : list CallRec) : list Z := hdr ++ le32 (lenZ l) ++ concat (record_bytes <$> l).
Definition calls_header (hdr : list Z) (l : list CallRec) : Prop :=
  response_header hdr RIL_E_SUCCESS ∧ rd16 hdr off_length = Ok (sizeof_sit_call_info_type * lenZ l + 16).
Lemma lenZ_records l : Forall rec_wf l → lenZ (concat (record_bytes <$> l)) = sizeof_sit_call_info_type * lenZ l.
Proof.
  unfold sizeof_sit_call_info_type. induction 1 as [|r l Hr _ IH]; [done|]. rewrite fmap_cons. cbn [concat]. rewrite lenZ_app, IH, lenZ_record, lenZ_cons by done.
  unfold sizeof_sit_call_info_type. lia.
Qed.
Section frame.
Variables (hdr : list Z) (l : list CallRec).
Hypotheses (Hh : calls_header hdr l) (Hw : Forall rec_wf l) (Hl : lenZ l < MAX_CALL_LIST_COUNT).
Abbreviation frame := (calls_frame hdr l).
Lemma frame_count : GetCallNum frame = Ok (lenZ l).
Proof.
  destruct Hh as [ [Hlen _] _]. unfold GetCallNum, rdi32, calls_frame. pose proof (lenZ_nonneg l). unfold MAX_CALL_LIST_COUNT in Hl.
  rewrite (rd32_le32 hdr) by (done || lia). cbn [mbind res_bind]. by rewrite i32_id by lia.
Qed.
Lemma frame_valid : HasValidLength frame = Ok true.
Proof.
  unfold HasValidLength. pose proof Hh as [ [Hlen _] Hr]. pose proof (lenZ_nonneg l). unfold MAX_CALL_LIST_COUNT in Hl.
  replace (rd16 frame off_length) with (rd16 hdr off_length) by (unfold rd16, calls_frame; by rewrite !rd_app_l by (rewrite Hlen; done)).
  rewrite Hr. cbn [mbind res_bind]. unfold sizeof_sit_call_info_type. replace (327 * lenZ l + 16 <? 16) with false by lia. rewrite frame_count. cbn [mbind res_bind].
  replace ((327 * lenZ l + 16 <? - 2 ^ 31) || (2 ^ 31 <=? 327 * lenZ l + 16)) with false by lia. by rewrite Z.eqb_refl.
Qed.
Lemma frame_code : GetErrorCode (Some frame) = Ok RIL_E_SUCCESS.
Proof. destruct Hh as [Hr _]. unfold calls_frame. by rewrite (response_code _ _ _ Hr). Qed.
Lemma frame_record k r : l !! k = Some r → GetCallInfo frame newCallInfo (Z.of_nat k) = Ok (0, call_info r).
Proof.
  intros Hk. pose proof Hh as [ [Hlen _] _]. pose proof (lookup_lt_Some _ _ _ Hk).
  assert (frame = (hdr ++ le32 (lenZ l) ++ concat (record_bytes <$> take k l)) ++ record_bytes r ++ concat (record_bytes <$> drop (S k) l)) as E.
  { unfold calls_frame. rewrite <- (take_drop_middle l k r Hk) at 2. rewrite fmap_app, concat_app, fmap_cons. cbn [concat]. by rewrite <- !app_assoc. }
  assert (rec_wf r) as Hr by by eapply Forall_lookup_1. pose proof frame_count as Hc. rewrite E in Hc |- *.
  assert (lenZ (take k l) = Z.of_nat k) as Ek by (unfold lenZ; rewrite length_take; lia).
  apply (record_read _ _ r (16 + sizeof_sit_call_info_type * Z.of_nat k)) with (n := lenZ l); try done.
  - rewrite !lenZ_app, lenZ_records, Hlen by by apply Forall_take. rewrite Ek. change (lenZ (le32 (lenZ l))) with 4. unfold sizeof_RCM_HEADER. lia.
  - unfold lenZ. lia.
  - unfold MAX_CALL_LIST_COUNT, MAX_CALL_LIST_NUM in *. lia.
Qed.
End frame.
(** the property of the active call *)
Definition cid_note (e : CscEnv) (cid : Z) : list CscAct := match context_voice_rat e with Some _ => [CProperty RIL_CONTEXT_CS_ACTIVE_CID cid] | None => [] end.
Fixpoint active_notes (e : CscEnv) (i : Z) (l : list CallRec) : list CscAct :=
  match l with [] => [] | r :: l => (if cr_state r =? RIL_CALL_ACTIVE then cid_note e i else []) ++ active_notes e (i + 1) l end.
Lemma put_active_runs cid e s : put_active_cid cid e s = Ok ((), s, cid_note e cid).
Proof. unfold put_active_cid, cid_note. rewrite run_asks. by destruct (context_voice_rat e). Qed.
Lemma read_calls_run raw e rest (before : list CallInfo) m s :
  (∀ j r, rest !! j = Some r → GetCallInfo raw newCallInfo (Z.of_nat (length before + j)) = Ok (0, call_info r)) →
  m_szCallInfo (m_currCallList s) = before ++ replicate (length rest + m) newCallInfo →
  read_calls raw (length rest) (length before) e s =
    Ok ((), set_call_list {| m_nCount := m_nCount (m_currCallList s); m_szCallInfo := before ++ (call_info <$> rest) ++ replicate m newCallInfo |} s,
        active_notes e (lenZ before) rest).
Proof.
  revert before s. induction rest as [|r rest IH]; intros before s Hg Hs; cbn [length read_calls active_notes].
  { cbn [fmap list_fmap app]. change (before ++ replicate m newCallInfo) with (before ++ replicate (length (@nil CallRec) + m) newCallInfo). rewrite <- Hs. by destruct s as [? ? ? ? ? [] ? ? ? ? ? ? ?]. }
  cbn [length plus replicate] in Hs. rewrite run_gets, Hs, lookup_app_r, Nat.sub_diag by lia. cbn [lookup list_lookup].
  pose proof (Hg 0%nat r eq_refl) as Hr. rewrite Nat.add_0_r in Hr. rewrite (run_lift _ _ _ _ _ Hr), run_modify. cbn [fst snd Z.ltb Z.compare].
  set (s1 := set_entry (length before) (call_info r) s).
  assert (m_szCallInfo (m_currCallList s1) = (before ++ [call_info r]) ++ replicate (length rest + m) newCallInfo) as Hs1.
  { unfold s1, set_entry. cbn [m_currCallList m_szCallInfo set_call_list set_calls]. rewrite Hs, <- app_assoc. cbn [app].
    rewrite insert_app_r_alt, Nat.sub_diag by lia. done. }
  assert (((if m_state (call_info r) =? RIL_CALL_ACTIVE then put_active_cid (Z.of_nat (length before)) else mret ()) : CM ()) e s1 =
          Ok ((), s1, if cr_state r =? RIL_CALL_ACTIVE then cid_note e (lenZ before) else [])) as Hp.
  { cbn [m_state call_info]. destruct (cr_state r =? RIL_CALL_ACTIVE); [apply put_active_runs|done]. }
  pose proof (IH (before ++ [call_info r]) s1) as IH1. rewrite length_app, Nat.add_1_r in IH1. apply (run_bind _ _ e s1 _ _ _ _ _ _ Hp).
  rewrite IH1; [|intros j b Hj|done].
  - cbn [fmap list_fmap]. rewrite <- app_assoc. cbn [app]. rewrite lenZ_app. by destruct s.
  - change (S (length before) + j)%nat with (S (length before + j)). rewrite plus_n_Sm. by apply (Hg (S j)).
Qed.
Lemma length_add_calls l t : length (add_calls l t).1 = length l.
Proof. revert t. induction l as [|c l IH]; intros t; [done|]. cbn. by rewrite IH. Qed.
Definition told_call (hal ap : Z) (r : CallRec) : RIL_Call :=
  {| rc_state := cr_state r; rc_index := ap; rc_toa := if cr_toa r =? RIL_TOA_INTERNATIONAL then RIL_TOA_INTERNATIONAL else RIL_TOA_UNKNOWN;
     rc_isMpty := z_of_bool (cr_mpty r =? 1); rc_isMT := z_of_bool (cr_mt r =? 1); rc_als := cr_als r; rc_isVoice := z_of_bool (is_voice_type (cr_type r));
     rc_isVoicePrivacy := z_of_bool (negb (cr_privacy r =? 0)); rc_number := shown_number r; rc_numberPresentation := shown_presentation r; rc_name := None;
     rc_namePresentation := cr_name_present r; rc_audioQuality := if HAL_1_2 <=? hal then Some 0 else None |}.
Lemma cstr_padded n s : nonul s → lenZ s < n → cstr (padded n s) = s.
Proof.
  intros Hs Hn. unfold padded, fill. destruct (Z.to_nat (n - lenZ s)) as [|k] eqn:E; [lia|]. cbn [replicate]. by apply cstr_app.
Qed.
Lemma call_response_told hal ap r : rec_wf r → call_response hal (with_index ap (call_info r)) = told_call hal ap r.
Proof.
  intros []. unfold call_response, told_call. cbn [m_state m_nIndex m_toa m_isMParty m_isMt m_isVoice m_isVoicePrivacy m_numPresent m_namePresent m_als ci_number m_name
    m_audioQuality with_index call_info]. rewrite cstr_padded; [done| |].
  - unfold shown_number. by destruct (shown (cr_num_present r)).
  - unfold shown_number, MAX_DIAL_NUM in *. destruct (shown (cr_num_present r)); [lia|done].
Qed.
Definition told_calls (hal : Z) (aps : list Z) (l : list CallRec) : CscAnswer :=
  match l with [] => CAnsNone | _ => CAnsCalls (zip_with (told_call hal) aps l) (lenZ l * 8) end.
(** the service behind a list: the calls, and the number each has *)
Definition calls_synced (l : list CallRec) (s : CscService) : CscService :=
  let p := add_calls (call_info <$> l) (SyncReady (m_CallId s)) in
  set_calls (SyncDone p.2) {| m_nCount := lenZ l; m_szCallInfo := p.1 ++ replicate (9 - length l) newCallInfo |} s.
Definition numbers_of (l : list CallRec) (s : CscService) : list Z := m_nIndex <$> (add_calls (call_info <$> l) (SyncReady (m_CallId s))).1.
Lemma ids_call_info l : ids_of (call_info <$> l) = cr_index <$> l.
Proof. unfold ids_of. rewrite <- list_fmap_compose. done. Qed.
Lemma told_zip hal l s : Forall rec_wf l → ids_wf (m_CallId s) → placeable (cr_index <$> l) (m_CallId s) →
  call_response hal <$> (add_calls (call_info <$> l) (SyncReady (m_CallId s))).1 = zip_with (told_call hal) (numbers_of l s) l.
Proof.
  intros Hw Ht Hp. rewrite <- ids_call_info in Hp. destruct (placed _ _ Ht Hp) as (_ & Hn & _). set (p := add_calls _ _) in *.
  assert (length p.1 = length l) as Hlen by (unfold p; by rewrite length_add_calls, length_fmap).
  apply list_eq. intros k. rewrite list_lookup_fmap, lookup_zip_with. unfold numbers_of. fold p. rewrite list_lookup_fmap.
  destruct (l !! k) as [r|] eqn:Hk.
  - destruct (Hn k (call_info r)) as (ap & Hap & _); [by rewrite list_lookup_fmap, Hk|]. rewrite Hap. cbn [fmap option_fmap option_map mbind option_bind].
    f_equal. apply call_response_told. by eapply Forall_lookup_1.
  - assert (p.1 !! k = None) as -> by (apply lookup_ge_None; apply lookup_ge_None in Hk; lia). done.
Qed.
Lemma complete_runs code a e s : csc_complete code a e s = Ok (0, s, [CComplete code a]).
Proof. done. Qed.
Lemma call_list_runs hdr l e s : calls_header hdr l → Forall rec_wf l → lenZ l < MAX_CALL_LIST_COUNT → ids_wf (m_CallId s) →
  placeable (cr_index <$> l) (m_CallId s) →
  DoGetCallListDone (Some (calls_frame hdr l)) e s =
    Ok (0, calls_synced l s, cid_note e (-1) ++ active_notes e 0 l ++ [CComplete RIL_E_SUCCESS (told_calls (RIL_HalVersionCode e) (numbers_of l s) l)]).
Proof.
  intros Hh Hw Hl Ht Hp. unfold DoGetCallListDone, with_response. rewrite run_modify, (run_lift _ _ _ _ _ (frame_code hdr l Hh)).
  apply (run_bind _ _ _ _ _ _ _ _ _ _ (put_active_runs (-1) e _)). cbn [Z.eqb RIL_E_SUCCESS]. rewrite (run_lift _ _ _ _ _ (frame_valid hdr l Hh Hl)). cbn [negb].
  rewrite (run_lift _ _ _ _ _ (frame_count hdr l Hh Hl)), run_modify. replace (MAX_CALL_LIST_COUNT <=? lenZ l) with false by lia.
  cbn [m_currCallList set_call_list set_calls newCallList m_szCallInfo]. set (s1 := set_call_list _ _).
  assert (9 = length l + (9 - length l))%nat as Hnine by (unfold lenZ, MAX_CALL_LIST_COUNT in *; lia).
  pose proof (read_calls_run (calls_frame hdr l) e l [] (9 - length l) s1 (λ j r, frame_record hdr l Hh Hw Hl j r)) as Hr. cbn [app length] in Hr.
  replace (Z.to_nat (lenZ l)) with (length l) by (unfold lenZ; lia).
  apply (run_bind _ _ _ _ _ _ _ _ _ _ (Hr ltac:(rewrite <- Hnine; done))). rewrite run_modify. cbn [m_nCount m_currCallList s1 set_call_list set_calls].
  set (s2 := sync_calls _ _). assert (s2 = calls_synced l s) as ->.
  { unfold s2, sync_calls, calls_synced. cbn [m_szCallInfo m_nCount m_currCallList m_CallId set_call_list set_calls].
    rewrite take_app_length', drop_app_length' by by rewrite length_fmap. by destruct s. }
  rewrite run_gets, run_asks. apply (run_bind_zero _ 0). etrans; [apply complete_runs|]. do 4 f_equal.
  unfold BuildCallListResponse, calls_synced. cbn [m_nCount m_szCallInfo m_currCallList set_calls].
  replace (Z.to_nat (lenZ l)) with (length l) by (unfold lenZ; lia). rewrite take_app_length' by by rewrite length_add_calls, length_fmap.
  rewrite told_zip by done. unfold told_calls. destruct l as [|r l']; [done|]. rewrite lenZ_cons. pose proof (lenZ_nonneg l').
  by replace (1 + lenZ l' <=? 0) with false by lia.
Qed.
(** What is told of a list: each call with its number, which is the one it had, and by which the service knows it. *)
Definition list_told (l : list CallRec) (e : CscEnv) (s s' : CscService) (o : list CscAct) : Prop :=
  ∃ aps,
    o = cid_note e (-1) ++ active_notes e 0 l ++ [CComplete RIL_E_SUCCESS (told_calls (RIL_HalVersionCode e) aps l)] ∧
    length aps = length l ∧ m_nCount (m_currCallList s') = lenZ l ∧ ids_wf (m_CallId s') ∧
    ∀ k r, l !! k = Some r → ∃ ap, aps !! k = Some ap ∧ 1 <= ap <= MAX_CALL_ID_COUNT ∧ GetCpIndex ap (m_CallId s') = cr_index r ∧
      ∀ ap0, GetCpIndex ap0 (m_CallId s) = cr_index r → ap0 = ap.
Lemma list_is_told l e s : ids_wf (m_CallId s) → placeable (cr_index <$> l) (m_CallId s) →
  list_told l e s (calls_synced l s) (cid_note e (-1) ++ active_notes e 0 l ++ [CComplete RIL_E_SUCCESS (told_calls (RIL_HalVersionCode e) (numbers_of l s) l)]).
Proof.
  intros Ht Hp. rewrite <- ids_call_info in Hp. destruct (placed _ _ Ht Hp) as (Hw & Hn & _). exists (numbers_of l s).
  split; [done|]. split; [unfold numbers_of; by rewrite length_fmap, length_add_calls, length_fmap|]. split; [done|]. split; [done|].
  intros k r Hk. destruct (Hn k (call_info r)) as (ap & Hap & Hr & Hcp & _ & Hkeep); [by rewrite list_lookup_fmap, Hk|].
  exists ap. split; [|done]. unfold numbers_of. by rewrite list_lookup_fmap, Hap.
Qed.
(** C30: The list of the calls.  For a successful answer of fewer than nine calls, each as the modem
    writes a voice or video call whose name is empty or not shown ([rec_wf]), with different
    numbers of the modem for which the table has places ([placeable]),
    the framework is told the calls in the order of the frame, each with
    its state, the kind of its number, its flags, its number as far as it may be
    shown, and a number from 1 to 9 that is the one the call had before; behind the
    answer the service translates that number back to the modem's number of the
    call.  [later_calls_hidden] and [new_call_without_number] show lists that are
    not told so. *)
Theorem call_list_told hdr l cur e s : calls_header hdr l → Forall rec_wf l → lenZ l < MAX_CALL_LIST_COUNT → ids_wf (m_CallId s) →
  placeable (cr_index <$> l) (m_CallId s) →
  ∃ s' o, csc_handle (CscResponse MSG_CS_CALL_LIST_DONE cur (Some (calls_frame hdr l))) e s = Ok (0, s', o) ∧ list_told l e s s' o.
Proof.
  intros Hh Hw Hl Ht Hp. exists (calls_synced l s). eexists. split; [by apply call_list_runs|by apply list_is_told].
Qed.
Definition plain_call (cp state : Z) (number : list Z) : CallRec :=
  {| cr_state := state; cr_index := cp; cr_toa := 145; cr_mpty := 0; cr_mt := 1; cr_als := 0; cr_type := CALL_TYPE_VOICE; cr_privacy := 0; cr_num := number;
     cr_num_present := 0; cr_name_len := 0; cr_name := fill MAX_DIAL_NAME 0; cr_name_present := 2; cr_name_dcs := 0; cr_uus_type := 0; cr_uus_dcs := 0;
     cr_uus := []; cr_srvcc := 0 |}.
Lemma plain_call_wf cp state number : int_ok cp → 0 <= state <= 5 → lenZ number <= MAX_DIAL_NUM → nonul number → rec_wf (plain_call cp state number).
Proof. intros. by split; cbn; try done; try (by left); try lia; right. Qed.
Definition two_calls : list CallRec := [plain_call 7 RIL_CALL_ACTIVE (str "+49301234"); plain_call 2 1 (str "110")].
Definition list_header (n : Z) : list Z := [RCM_TYPE_RESPONSE; 0] ++ le16 SIT_GET_CURRENT_CALLS ++ le16 (sizeof_sit_call_info_type * n + 16) ++ [0; 0; 0; 0; 0; 0].
Lemma two_calls_header : calls_header (list_header 2) two_calls.
Proof. split; [split; [done|by split]|by vm_compute]. Qed.
Lemma two_calls_wf : Forall rec_wf two_calls.
Proof. repeat constructor; cbn; try done; try lia; try (by left); by right. Qed.
Lemma two_calls_placeable : placeable (cr_index <$> two_calls) CallId_Init.
Proof. split_and!; [by_eval..|by apply Nat.leb_le; vm_compute]. Qed.
Definition plain_csc_env : CscEnv := {| csc_send_ok := true; context_voice_rat := Some RADIO_TECH_LTE; csc_socket_id := 0; RIL_HalVersionCode := HAL_1_2 |}.
Lemma call_list_told_witness :
  ∃ s' o, csc_handle (CscResponse MSG_CS_CALL_LIST_DONE None (Some (calls_frame (list_header 2) two_calls))) plain_csc_env (newCscService [] ∅ 5) = Ok (0, s', o) ∧
    list_told two_calls plain_csc_env (newCscService [] ∅ 5) s' o.
Proof. apply call_list_told; [apply two_calls_header|apply two_calls_wf|done|apply CallId_Init_wf|apply two_calls_placeable]. Defined.

