(* ===== verification/CallTotal.v ===== *)
(** Voice calls: which handlers come to an end, and on which frames.

    Every packet of the call service can be built, so a request comes to an end
    unless a text it needs is missing.  An answer of the modem comes to an end
    when the bytes its handler reads are there ([readable]). *)
From stdpp Require Import gmap.
From S2P Require Import Prelude RilDef Text Ussd WaitList Network Rcm Layout Handler RilData CallPackets Call CallTheorems.

(** ** Reading and writing inside *)

Lemma rd_inside {A} (b : list A) i : 0 <= i < lenZ b → ∃ v, b.[i] = Ok v.
Proof. intros H. destruct (rd_ok b i H) as (v & E & _). by exists v. Qed.
Lemma wr_inside {A} (b : list A) i v : 0 <= i < lenZ b → ∃ b', b.[i <- v] = Ok b' ∧ lenZ b' = lenZ b.
Proof. intros H. rewrite wr_ok by done. eexists. split; [done|apply lenZ_insert]. Qed.
Lemma wrn_inside {A} (b src : list A) off : 0 <= off → off + lenZ src <= lenZ b → ∃ b', wrn b off src = Ok b' ∧ lenZ b' = lenZ b.
Proof. intros H1 H2. pose proof (wrn_ok b off src H1 H2) as E. eexists. split; [exact E|]. by apply (lenZ_wrn b off src). Qed.
Lemma rdn_inside {A} (b : list A) off n : 0 <= off → 0 <= n → off + n <= lenZ b → ∃ r, rdn b off n = Ok r ∧ lenZ r = n.
Proof. intros H1 H2 H3. pose proof (rdn_ok b off n H1 H2 H3) as E. eexists. split; [exact E|]. by apply (lenZ_rdn b off n). Qed.
Lemma is_ok_ex {A} (r : res A) : is_ok r = true → ∃ a, r = Ok a.
Proof. destruct r; [eauto|done..]. Qed.
Lemma rd16_inside b off : 0 <= off → off + 2 <= lenZ b → ∃ v, rd16 b off = Ok v.
Proof. intros H1 H2. apply is_ok_ex. pose proof (rd16_spec b off H1) as H. by rewrite (proj2 (Z.leb_le _ _) H2) in H. Qed.
Lemma rdi32_inside b off : 0 <= off → off + 4 <= lenZ b → ∃ v, rdi32 b off = Ok v.
Proof.
  intros H1 H2. unfold rdi32. pose proof (rd32_spec b off H1) as H. rewrite (proj2 (Z.leb_le _ _) H2) in H. apply is_ok_ex in H as [v ->]. by eexists.
Qed.
Lemma error_code_reads frame : ∃ c, GetErrorCode frame = Ok c.
Proof.
  unfold GetErrorCode. destruct frame as [b|]; [|by eexists]. unfold sizeof_RCM_HEADER. destruct (Z.leb_spec 12 (lenZ b)); [|by eexists].
  destruct (rd_inside b off_type) as [t ->]; [unfold off_type; lia|]. cbn [mbind res_bind]. destruct (_ =? _); [|by eexists].
  destruct (rd_inside b off_error) as [c ->]; [unfold off_error; lia|]. by eexists.
Qed.
Lemma ril_error_code_reads frame : ∃ c, GetRilErrorCode frame = Ok c.
Proof.
  unfold GetRilErrorCode. destruct frame as [b|]; [|by eexists]. unfold sizeof_RCM_HEADER. destruct (Z.leb_spec 12 (lenZ b)); [|by eexists].
  destruct (rd_inside b off_type) as [t ->]; [unfold off_type; lia|]. cbn [mbind res_bind]. destruct (_ =? _); [|by eexists].
  destruct (rd_inside b off_error) as [c ->]; [unfold off_error; lia|]. by eexists.
Qed.

(** ** Packets *)

Definition builds (f : Z → res (option (list Z) * Z)) : Prop := ∀ t, ∃ p t', f t = Ok (Some p, t').
Lemma header_fill t n id len : 12 <= n → ∃ b t', InitRequestHeader t (fill n 0) id len = Ok (b, t') ∧ lenZ b = n.
Proof.
  intros Hn. pose proof (header_chunk t (fill 12 0) [fill (n - 12) 0] id len eq_refl) as E.
  assert (concat (fill 12 0 :: [fill (n - 12) 0]) = fill n 0) as Hf.
  { cbn [concat]. rewrite app_nil_r. unfold fill. rewrite <- replicate_add. f_equal. lia. }
  rewrite Hf in E. do 2 eexists. split; [exact E|]. cbn [concat]. rewrite app_nil_r, lenZ_app, lenZ_fill by lia.
  assert (lenZ (header_bytes id len (GetNext t).1) = 12) as -> by done. lia.
Qed.
Lemma builds_null id : builds (null_request id).
Proof. intros t. unfold null_request. destruct (header_fill t 12 id 12 ltac:(done)) as (b & t' & -> & _). by exists b, t'. Qed.
Lemma builds_byte id v : builds (λ t, byte_request id t v).
Proof.
  intros t. unfold byte_request. destruct (header_fill t 13 id 13 ltac:(done)) as (b & t' & -> & Hl). cbn [mbind res_bind fst snd].
  destruct (wr_inside b 12 (Z.land v 255)) as (b1 & -> & _); [lia|]. by exists b1, t'.
Qed.
Lemma builds_int id v : builds (λ t, int_request id t v).
Proof.
  intros t. unfold int_request. destruct (header_fill t 16 id 16 ltac:(done)) as (b & t' & -> & Hl). cbn [mbind res_bind fst snd].
  destruct (wrn_inside b (le32 (u32 v)) 12) as (b1 & -> & _); [done|by rewrite Hl|]. by exists b1, t'.
Qed.
Lemma builds_hangup ct v : builds (λ t, hangup_request ct t v).
Proof.
  intros t. unfold hangup_request. destruct (header_fill t 20 SIT_HANGUP 20 ltac:(done)) as (b & t' & -> & Hl). cbn [mbind res_bind fst snd].
  destruct (wrn_inside b (le32 (u32 v)) 12) as (b1 & -> & Hl1); [done|by rewrite Hl|]. cbn [mbind res_bind].
  destruct (wrn_inside b1 (le32 ct) 16) as (b2 & -> & _); [done|by rewrite Hl1, Hl|]. by exists b2, t'.
Qed.
Ltac put_one b i v b' H := destruct (wr_inside b i v) as (b' & -> & H); [lia|]; cbn [mbind res_bind].
Lemma builds_dial n c ct ec : builds (λ t, BuildDial t n c ct ec).
Proof.
  intros t. unfold BuildDial. destruct (header_fill t sizeof_dial_req SIT_DIAL sizeof_dial_req ltac:(done)) as (b & t' & -> & Hl). cbn [mbind res_bind fst snd].
  unfold sizeof_dial_req in Hl. cbv zeta. pose proof (lenZ_nonneg n) as Hn.
  destruct (wr_inside b 12 (Z.land (ConvertRilDefineToSitDefine SIT_CALL_TB_IDX_TYPE ct) 255)) as (b1 & -> & H1); [lia|]. cbn [mbind res_bind].
  put_one b1 13 (Z.land ec 255) b2 H2. put_one b2 14 (Z.min (lenZ n) MAX_DIAL_NUM) b3 H3.
  destruct (rdn_inside n 0 (Z.min (lenZ n) MAX_DIAL_NUM)) as (num & -> & Hnum); [done|unfold MAX_DIAL_NUM; lia|lia|]. cbn [mbind res_bind].
  destruct (wrn_inside b3 num 15) as (b4 & -> & H4); [done|rewrite Hnum; unfold MAX_DIAL_NUM; lia|]. cbn [mbind res_bind].
  put_one b4 97 (number_type n) b5 H5. put_one b5 98 SIT_CALL_NUMBER_PLAN_ISDN b6 H6.
  put_one b6 99 (Z.land (ConvertRilDefineToSitDefine SIT_CALL_TB_IDX_CLIR c) 255) b7 H7.
  put_one b7 100 0 b8 H8. put_one b8 101 0 b9 H9. put_one b9 102 0 b10 H10. by exists b10, t'.
Qed.
Lemma put_counted_inside req off max s : 0 <= off → 0 <= max → off + 1 + max <= lenZ req → ∃ r, put_counted req off max (lenZ s) (Some s) = Ok r ∧ lenZ r = lenZ req.
Proof.
  intros Ho Hm Hl. unfold put_counted. cbv zeta. set (n := if max <=? lenZ s then max else lenZ s). pose proof (lenZ_nonneg s).
  assert (0 <= n <= max ∧ n <= lenZ s) as [Hn Hs] by (unfold n; destruct (Z.leb_spec max (lenZ s)); lia).
  destruct (wr_inside req off (Z.land n 255)) as (r1 & -> & H1); [lia|]. cbn [mbind res_bind].
  destruct (rdn_inside (s ++ [0]) 0 n) as (b & -> & Hb); [done|lia|rewrite lenZ_app; change (lenZ [0]) with 1; lia|]. cbn [mbind res_bind].
  destruct (wrn_inside r1 b (off + 1)) as (r2 & -> & H2); [lia|lia|]. exists r2. split; [done|]. by rewrite H2.
Qed.
Lemma builds_dtmf d on off : builds (λ t, BuildCdmaBurstDtmf t (lenZ d) (Some d) (lenZ on) (Some on) (lenZ off) (Some off)).
Proof.
  intros t. unfold BuildCdmaBurstDtmf. destruct (header_fill t sizeof_burst_dtmf_req SIT_CDMA_BURST_DTMF sizeof_burst_dtmf_req ltac:(done)) as (b & t' & -> & Hl).
  cbn [mbind res_bind fst snd]. unfold sizeof_burst_dtmf_req in Hl.
  destruct (put_counted_inside b 12 MAX_BURST_DTMF_LEN d) as (b1 & -> & H1); [done..|unfold MAX_BURST_DTMF_LEN; lia|]. cbn [mbind res_bind].
  destruct (put_counted_inside b1 45 MAX_BURST_DTMF_ON_OFF_LEN on) as (b2 & -> & H2); [done..|unfold MAX_BURST_DTMF_ON_OFF_LEN; lia|]. cbn [mbind res_bind].
  destruct (put_counted_inside b2 301 MAX_BURST_DTMF_ON_OFF_LEN off) as (b3 & -> & H3); [done..|unfold MAX_BURST_DTMF_ON_OFF_LEN; lia|]. by exists b3, t'.
Qed.
Lemma builds_flash x : builds (λ t, BuildCdmaFlash t x).
Proof.
  intros t. unfold BuildCdmaFlash. destruct (header_fill t sizeof_flash_req SIT_SET_CDMA_FLASH_INFO sizeof_flash_req ltac:(done)) as (b & t' & -> & Hl).
  cbn [mbind res_bind fst snd]. unfold sizeof_flash_req in Hl. destruct x as [s|]; [|by exists b, t'].
  destruct (put_counted_inside b 12 MAX_FLASH_LEN s) as (b1 & -> & _); [done..|unfold MAX_FLASH_LEN; lia|]. by exists b1, t'.
Qed.
Create HintDb builders.
#[export] Hint Resolve builds_null builds_byte builds_int builds_hangup builds_dial builds_dtmf builds_flash : builders.
Lemma ask_total f timeout msg e s : builds f → total (ask f timeout msg) e s.
Proof.
  intros Hf. unfold ask, csc_build. destruct (Hf (csc_token s)) as (p & t' & E).
  apply total_bind; [|intros o s' ? H; apply total_fmap; unfold csc_send, total; destruct o as [q|]; [destruct (csc_send_ok e)|]; eauto].
  apply total_bind_gets, total_bind_lift; [by eexists|]. intros r _. apply total_bind_modify, total_ret.
Qed.

(** ** Requests *)

(** the texts of a tone are there, or are not needed since there is no card *)
Definition texts_there (q : CscReq) (s : CscService) : bool :=
  match q with
  | MSG_CS_CDMA_BURST_DTMF (Some r) =>
    negb (mCardState s =? RIL_CARDSTATE_PRESENT) || forallb (λ i, bool_decide (is_Some (GetString i r))) [0; 1; 2]
  | _ => true
  end.
Lemma complete_total code a e s : total (csc_complete code a) e s.
Proof. by eexists _, _, _. Qed.
Lemma clir_total socket e s : total (GetClirAoc socket) e s.
Proof. unfold GetClirAoc. repeat total_step. Qed.
Ltac csc_total_step :=
  lazymatch goal with
  | |- total (ask _ _ _) _ _ => apply ask_total; eauto with builders
  | |- total (csc_complete _ _) _ _ => apply complete_total
  | |- total (GetClirAoc _) _ _ => apply clir_total
  | |- _ => total_step
  end.
Lemma request_total q e s : texts_there q s = true → total (OnHandleRequest q) e s.
Proof.
  intros Ht. destruct q as [r|r|r|r|r|r|r|r|r|r|r|r|r|r|r|r|r|r|r|r|r|r|r]; destruct r as [r|]; cbn [OnHandleRequest]; autounfold with csc_requests;
    repeat csc_total_step.
  all: exfalso; cbn [texts_there forallb] in Ht; rewrite Eb in Ht; cbn [negb orb] in Ht.
  all: rewrite ?Em, ?Em0, ?Em1 in Ht; rewrite ?(bool_decide_eq_false_2 (is_Some None)) in Ht by (by intros [? ?]); by rewrite ?andb_false_r in Ht.
Qed.
(** a text that is missing is read *)
Lemma text_missing q e s : texts_there q s = false → OnHandleRequest q e s = UB.
Proof.
  destruct q as [r|r|r|r|r|r|r|r|r|r|r|r|r|r|r|r|r|r|r|r|r|r|r]; try done. destruct r as [r|]; [|done]. cbn [texts_there forallb OnHandleRequest].
  intros [Hc Ht]%orb_false_iff. apply negb_false_iff in Hc. unfold DoCdmaBurstDtmf, with_request, with_card. rewrite run_gets, Hc.
  destruct (GetString 0 r), (GetString 1 r), (GetString 2 r); done.
Qed.

(** ** Answers *)

(** a name that is shown lies in the frame and is not too long for its coding *)
Definition name_inside (raw : list Z) (i : Z) : Prop :=
  let at_ := 16 + sizeof_sit_call_info_type * i in
  ∀ present len dcs, rdi32 raw (at_ + 184) = Ok present → raw.[at_ + 101] = Ok len → raw.[at_ + 188] = Ok dcs →
    shown (ConvertSitDefineToRilDefine SIT_CALL_TB_IDX_PRESENTATION present) = true → 0 < len →
    at_ + 102 + len <= lenZ raw ∧ decodable (GetUssdDcs dcs) len.
(** the answer to a list is an error, or says by its length that it is none, or has the calls it counts unless they are too many *)
Definition list_readable (raw : list Z) : Prop :=
  GetErrorCode (Some raw) = Ok RIL_E_SUCCESS → ∃ len, rd16 raw off_length = Ok len ∧
    (len < 16 ∨ ∃ n, rdi32 raw 12 = Ok n ∧ - 2 ^ 31 <= sizeof_sit_call_info_type * n + 16 < 2 ^ 31 ∧
       (len = sizeof_sit_call_info_type * n + 16 → n < MAX_CALL_LIST_COUNT → bytes_ok raw ∧ len <= lenZ raw < 2 ^ 31 ∧ ∀ i, 0 <= i < n → name_inside raw i)).
(** the bytes an answer's handler reads are there; [cur] is the current request when it carries a number *)
Definition readable (m : CscDone) (cur : option IntRequestData) (raw : list Z) : Prop :=
  match m with
  | MSG_CS_CALL_LIST_DONE => list_readable raw
  | MSG_CS_CALL_HANGUP_DONE => match cur with Some r => m_nInt r ≠ - 2 ^ 31 | None => True end
  | MSG_CS_LAST_CALL_FAIL_CAUSE_DONE => GetErrorCode (Some raw) = Ok RIL_E_SUCCESS → 16 <= lenZ raw
  | MSG_CS_CDMA_QUERY_PREFERRED_VOICE_PRIVACY_MODE_DONE => GetErrorCode (Some raw) = Ok RIL_E_SUCCESS → 13 <= lenZ raw
  | MSG_CS_SET_CALL_CONFIRM_DONE | MSG_CS_SEND_CALL_CONFIRM_DONE => 13 <= lenZ raw
  | MSG_CS_SOUND_GET_MUTE_DONE => 16 <= lenZ raw
  | _ => True
  end.

Section entry.
Variables (raw : list Z) (i : Z).
Hypotheses (Hraw : bytes_ok raw) (Hi : 0 <= i) (Hl : 16 + sizeof_sit_call_info_type * (i + 1) <= lenZ raw).
#[local] Abbreviation at_ := (16 + sizeof_sit_call_info_type * i).
Lemma byte_inside k : 0 <= k < sizeof_sit_call_info_type → ∃ v, raw.[at_ + k] = Ok v ∧ 0 <= v.
Proof.
  intros Hk. unfold sizeof_sit_call_info_type in *. destruct (rd_inside raw (16 + 327 * i + k)) as [v E]; [lia|]. exists v. split; [done|].
  apply rd_inv in E as [_ E]. by destruct (Forall_lookup_1 _ _ _ _ Hraw E).
Qed.
Lemma int_inside k : 0 <= k → k + 4 <= sizeof_sit_call_info_type → ∃ v, rdi32 raw (at_ + k) = Ok v.
Proof. intros H0 Hk. unfold sizeof_sit_call_info_type in *. apply rdi32_inside; lia. Qed.
Lemma number_inside len : 0 < len → ∃ b, call_number raw at_ len = Ok b.
Proof.
  intros Hp. unfold call_number, MAX_DIAL_NUM. unfold sizeof_sit_call_info_type in *.
  destruct (rdn_inside raw (16 + 327 * i + 15) (Z.min len 82)) as (b & -> & Hb); [lia..|]. cbn [mbind res_bind].
  destruct (wrn_inside (fill (82 + 1) 0) b 0) as (d & -> & _); [done|change (lenZ (fill (82 + 1) 0)) with 83; lia|]. by exists d.
Qed.
Lemma uus_inside u : lenZ (m_uusData u) = MAX_UUS_DATA_LEN → ∃ v, ConvertSitToUusInfo raw at_ u = Ok v.
Proof.
  intros Hu. unfold ConvertSitToUusInfo. destruct (int_inside 189) as [a ->]; [done..|]. cbn [mbind res_bind].
  destruct (int_inside 193) as [b ->]; [done..|]. cbn [mbind res_bind]. destruct (byte_inside 197) as (len & -> & Hlen); [done|]. cbn [mbind res_bind]. cbv zeta.
  unfold MAX_UUS_DATA_LEN, sizeof_sit_call_info_type in *.
  destruct (rdn_inside raw (16 + 327 * i + 198) (Z.min len 128)) as (d & -> & Hd); [lia..|]. cbn [mbind res_bind].
  destruct (wrn_inside (m_uusData u) d 0) as (r & -> & _); [done|lia|]. by eexists.
Qed.
Lemma name_reads len : lenZ raw < 2 ^ 31 → 0 < len → at_ + 102 + len <= lenZ raw → (∀ dcs, raw.[at_ + 188] = Ok dcs → decodable (GetUssdDcs dcs) len) →
  ∃ b, call_name raw at_ len = Ok b.
Proof.
  intros H31 Hp Hin Hd. unfold call_name. destruct (byte_inside 188) as (dcs & E & _); [done|]. rewrite E. cbn [mbind res_bind]. specialize (Hd dcs E).
  unfold sizeof_sit_call_info_type in *. set (src := drop _ raw). assert (lenZ src = lenZ raw - (16 + 327 * i + 102)) as Hs by (unfold src, lenZ in *; rewrite length_drop; lia).
  destruct (DecodingUssd_bounds dcs src (fill MAX_DIAL_NAME 0) len MAX_DIAL_NAME) as [Hok _];
    [by apply Forall_drop|lia|lia|by unfold MAX_DIAL_NAME|done|].
  destruct (Hok Hd) as (out & r & -> & Hr & Hout). cbn [mbind res_bind fst snd]. unfold MAX_DIAL_NAME in *. change (lenZ (fill 82 0)) with 82 in Hout.
  destruct (rdn_inside out 0 (Z.min r 82)) as (b & -> & Hb); [done|lia..|]. cbn [mbind res_bind].
  destruct (wrn_inside (fill (82 + 1) 0) b 0) as (d & -> & _); [done|change (lenZ (fill (82 + 1) 0)) with 83; lia|]. by exists d.
Qed.
Lemma entry_reads : lenZ raw < 2 ^ 31 → name_inside raw i → ∃ r, GetCallInfo raw newCallInfo i = Ok r.
Proof.
  intros H31 Hname. unfold GetCallInfo. destruct (rdi32_inside raw 12) as [n En]; [done|unfold sizeof_sit_call_info_type in *; lia|].
  unfold GetCallNum. rewrite En. cbn [mbind res_bind]. destruct (_ || _); [by eexists|]. cbv zeta.
  destruct (byte_inside 0) as (b0 & E0 & _); [done|]. rewrite Z.add_0_r in E0. rewrite E0. cbn [mbind res_bind].
  destruct (int_inside 1) as [b1 ->]; [done..|]. cbn [mbind res_bind]. destruct (int_inside 5) as [b5 ->]; [done..|]. cbn [mbind res_bind].
  destruct (byte_inside 9) as (b9 & -> & _); [done|]. cbn [mbind res_bind]. destruct (byte_inside 10) as (b10 & -> & _); [done|]. cbn [mbind res_bind].
  destruct (byte_inside 12) as (b12 & -> & _); [done|]. cbn [mbind res_bind]. destruct (_ && _); [by eexists|].
  destruct (byte_inside 13) as (b13 & -> & _); [done|]. cbn [mbind res_bind]. destruct (int_inside 97) as [b97 ->]; [done..|]. cbn [mbind res_bind].
  destruct (byte_inside 14) as (b14 & -> & _); [done|]. cbn [mbind res_bind]. destruct (int_inside 184) as [pr Epr]; [done..|]. rewrite Epr. cbn [mbind res_bind].
  destruct (byte_inside 101) as (nl & Enl & _); [done|]. rewrite Enl. cbn [mbind res_bind]. destruct (byte_inside 11) as (b11 & -> & _); [done|]. cbn [mbind res_bind].
  set (num_len := if shown _ then b14 else 0). set (np := ConvertSitDefineToRilDefine SIT_CALL_TB_IDX_PRESENTATION pr).
  assert (∀ d, ∃ v, (if 0 <? num_len then call_number raw at_ num_len else Ok d) = Ok v) as Hnum.
  { intros d. destruct (Z.ltb_spec 0 num_len); [by apply number_inside|by eexists]. }
  cbn [ci_number]. edestruct Hnum as [num ->]. cbn [mbind res_bind].
  assert (∀ d, ∃ v, (if 0 <? (if shown np then nl else 0) then call_name raw at_ (if shown np then nl else 0) else Ok d) = Ok v) as Hnm.
  { intros d. destruct (shown np) eqn:Es; [|by eexists]. destruct (Z.ltb_spec 0 nl); [|by eexists]. destruct (byte_inside 188) as (dcs & Ed & _); [done|].
    destruct (Hname pr nl dcs Epr Enl Ed Es ltac:(done)) as [Hin Hdec]. apply name_reads; [done..|]. intros dcs' E. rewrite Ed in E. by injection E as <-. }
  cbn [m_name]. edestruct Hnm as [nm ->]. cbn [mbind res_bind ci_uusInfo]. destruct (uus_inside (ci_uusInfo newCallInfo)) as [u ->]; [done|]. by eexists.
Qed.
End entry.

Lemma put_active_total cid e s : total (put_active_cid cid) e s.
Proof. eexists _, _, _. apply put_active_runs. Qed.
Lemma read_calls_total raw n i e s :
  (∀ j, (i <= j < i + n)%nat → m_szCallInfo (m_currCallList s) !! j = Some newCallInfo ∧ ∃ r, GetCallInfo raw newCallInfo (Z.of_nat j) = Ok r) →
  total (read_calls raw n i) e s.
Proof.
  revert i s. induction n as [|n IH]; intros i s H; cbn [read_calls]; [apply total_ret|].
  destruct (H i ltac:(lia)) as [Hi Hr]. apply total_bind_gets. rewrite Hi. apply total_bind_lift; [done|]. intros r _. apply total_bind_modify.
  destruct (r.1 <? 0); [apply total_ret|]. set (s1 := set_entry i r.2 s).
  assert (∀ s2, m_currCallList s2 = m_currCallList s1 → total (read_calls raw n (S i)) e s2) as Hrest.
  { intros s2 Es. apply IH. intros j Hj. destruct (H j ltac:(lia)) as [Hj1 Hj2]. split; [|done].
    rewrite Es. unfold s1, set_entry. cbn [m_currCallList m_szCallInfo set_call_list set_calls]. by rewrite list_lookup_insert_ne by lia. }
  destruct (_ =? RIL_CALL_ACTIVE); [|by apply total_bind_ret, Hrest].
  apply total_bind; [apply put_active_total|]. intros v s2 o E. apply Hrest. rewrite put_active_runs in E. by injection E as _ <- _.
Qed.
Lemma list_failed_total code e s : total (call_list_failed code) e s.
Proof. unfold call_list_failed. repeat csc_total_step. Qed.
Lemma list_done_total raw e s : list_readable raw → total (DoGetCallListDone (Some raw)) e s.
Proof.
  intros Hr. unfold DoGetCallListDone, with_response. apply total_bind_modify. destruct (error_code_reads (Some raw)) as [c Ec].
  apply total_bind_lift; [by exists c|]. intros c' E. rewrite Ec in E. injection E as <-.
  apply total_bind; [apply put_active_total|]. intros [] s1 o E. rewrite put_active_runs in E. injection E as <- _.
  destruct (Z.eqb_spec c RIL_E_SUCCESS) as [->|Hc]; [|apply total_bind_ret; apply list_failed_total].
  destruct (Hr Ec) as (len & Elen & Hlen). apply total_bind_lift.
  { unfold HasValidLength. rewrite Elen. cbn [mbind res_bind]. destruct (Z.ltb_spec len 16) as [|Hge]; [by eexists|].
    destruct Hlen as [Hlt|(n & En & Hn & _)]; [lia|]. unfold GetCallNum. rewrite En. cbn [mbind res_bind].
    replace ((sizeof_sit_call_info_type * n + 16 <? - 2 ^ 31) || (2 ^ 31 <=? sizeof_sit_call_info_type * n + 16)) with false by lia. by eexists. }
  intros valid Hv. unfold HasValidLength in Hv. rewrite Elen in Hv. cbn [mbind res_bind] in Hv.
  destruct (Z.ltb_spec len 16) as [|Hge]; [injection Hv as <-; apply list_failed_total|].
  destruct Hlen as [Hlt|(n & En & Hn & Hin)]; [lia|]. unfold GetCallNum in *. rewrite En in Hv. cbn [mbind res_bind] in Hv.
  replace ((sizeof_sit_call_info_type * n + 16 <? - 2 ^ 31) || (2 ^ 31 <=? sizeof_sit_call_info_type * n + 16)) with false in Hv by lia.
  injection Hv as <-. destruct (Z.eqb_spec len (sizeof_sit_call_info_type * n + 16)) as [El|]; cbn [negb]; [|apply list_failed_total].
  apply total_bind_lift; [by exists n|]. intros n' E. rewrite En in E. injection E as <-. apply total_bind_modify.
  destruct (Z.leb_spec MAX_CALL_LIST_COUNT n) as [|Hlt]; [apply list_failed_total|]. destruct (Hin El Hlt) as (Hb & [Hl H31] & Hnames).
  apply total_bind; [|intros; repeat csc_total_step].
  apply read_calls_total. cbn [m_currCallList m_szCallInfo set_call_list set_calls newCallList]. unfold MAX_CALL_LIST_COUNT, sizeof_sit_call_info_type in *.
  intros j Hj. split; [apply lookup_replicate; split; [done|lia]|].
  apply entry_reads; [done|lia|unfold sizeof_sit_call_info_type; lia|done|apply Hnames; lia].
Qed.
Lemma fail_cause_reads raw : 16 <= lenZ raw → ∃ v, GetLastCallFailCause raw = Ok v.
Proof. intros H. unfold GetLastCallFailCause. destruct (rdi32_inside raw 12) as [n ->]; [done|lia|]. by eexists. Qed.
Lemma mute_reads raw : 16 <= lenZ raw → ∃ v, GetMuteState (Some raw) = Ok v.
Proof.
  intros H. unfold GetMuteState, when_id. destruct (rd16_inside raw off_id) as [i ->]; [done|unfold off_id; lia|]. cbn [mbind res_bind].
  case_bool_decide; [apply rdi32_inside; [done|lia]|by eexists].
Qed.
Lemma answer_total m cur raw e s : m ≠ MSG_CS_SOUND_SWITCH_VOICE_CALL_DONE → readable m cur raw → total (OnHandleSolicitedResponse m cur (Some raw)) e s.
Proof.
  intros Hm Hr. assert (∀ k, 0 <= k → k + 1 <= lenZ raw → ∃ v, raw.[k] = Ok v) as Hbyte by (intros k H1 H2; apply rd_inside; lia).
  destruct m; try done; cbn [OnHandleSolicitedResponse readable] in *; [by apply list_done_total|..]; autounfold with csc_answers;
    repeat csc_total_step; try apply error_code_reads; try apply ril_error_code_reads.
  all: try (apply fail_cause_reads || apply mute_reads || (apply Hbyte; [done|])).
  all: repeat match goal with H : (?a =? RIL_E_SUCCESS) = true |- _ => apply Z.eqb_eq in H; subst a end.
  all: try (by_eval || lia).
Qed.
