(* ===== verification/CallHandlers.v ===== *)
(** The call service: hanging up and dialing, what the service keeps, and how its
    requests and answers end. *)
From stdpp Require Import gmap.
From S2P Require Import Prelude RilDef Text WaitList Network Rcm Layout Handler RilData MccTable CallPackets Call CallTheorems CallTotal.

(** ** Hanging up *)

Definition hangup_frame (token cp call_type : Z) : list Z := header_bytes SIT_HANGUP 20 token ++ le32 (u32 cp) ++ le32 call_type.
Lemma hangup_packet call_type t cp : 0 <= call_type < 2 ^ 32 → hangup_request call_type t cp = Ok (Some (hangup_frame (GetNext t).1 cp call_type), (GetNext t).2).
Proof.
  intros Hc. unfold hangup_request. change (fill 20 0) with (concat [fill 12 0; fill 4 0; fill 4 0]). rewrite header_chunk by done. cbn [mbind res_bind fst snd].
  rewrite (wrn_chunk _ 1%nat (fill 4 0)) by done. cbn [mbind res_bind]. rewrite (wrn_chunk _ 2%nat (fill 4 0)) by done. cbn [mbind res_bind list_insert insert].
  unfold hangup_frame. cbn [concat]. by rewrite app_nil_r.
Qed.
Lemma ask_runs f timeout msg p t e s : f (csc_token s) = Ok (Some p, t) → csc_send_ok e = true →
  ask f timeout msg e s = Ok (0, set_csc_token t s, [CSend p timeout msg]).
Proof.
  intros Hf He. unfold ask. rewrite (run_silent (csc_build f) _ (Some p) (set_csc_token t s)).
  - unfold fmap, HM_fmap, mbind, HM_bind, csc_send. by rewrite He.
  - unfold csc_build. by rewrite run_gets, (run_lift _ _ _ _ _ Hf), run_modify.
Qed.
(** a request for a call that has a number *)
Lemma hangup_runs r cp e s : csc_send_ok e = true → 1 <= m_nCount (m_currCallList s) → GetCpIndex (m_nInt r) (m_CallId s) = cp →
  ∃ s', OnHandleRequest (MSG_CS_CALL_HANGUP (Some r)) e s =
    Ok (0, s', [CSend (hangup_frame (GetNext (csc_token s)).1 cp (if m_nCount (m_currCallList s) =? 1 then SIT_CALL_HANGUP_CALL_TYPE_SINGLE else SIT_CALL_HANGUP_CALL_TYPE_MULTI))
                  CALL_DEFAULT_TIMEOUT MSG_CS_CALL_HANGUP_DONE]).
Proof.
  intros He Hn Hg. cbn [OnHandleRequest]. unfold DoHangup, with_request. rewrite !run_gets. rewrite Hg.
  replace (m_nCount (m_currCallList s) <? 1) with false by lia.
  exists (set_csc_token (GetNext (csc_token s)).2 s). destruct (m_nCount (m_currCallList s) =? 1); apply ask_runs; by try apply hangup_packet.
Qed.

(** ** What the service keeps *)

Record csc_wf (s : CscService) : Prop := {
  csc_ids : ids_wf (m_CallId s);
  csc_calls : lenZ (m_szCallInfo (m_currCallList s)) = MAX_CALL_LIST_COUNT;
  csc_count : 0 <= m_nCount (m_currCallList s) < MAX_CALL_LIST_COUNT;
  csc_emc : lenZ (m_emcInfoList s) = MAX_EMERGENCY_NUMBER_LIST_COUNT;
  csc_recs : lenZ (infoRec s) = MAX_NUMBER_OF_INFO_RECS }.
Lemma newCscService_wf carrier props token : csc_wf (newCscService carrier props token).
Proof. split; try done. apply CallId_Init_wf. Qed.
Definition keeps (s s' : CscService) : Prop := csc_wf s → csc_wf s'.
(** the events that may change the calls *)
Definition changes_calls (ev : CscEvent) : bool := match ev with CscResponse (MSG_CS_CALL_LIST_DONE | MSG_CS_CALL_HANGUP_DONE) _ _ => true | _ => false end.
Definition same_calls (s s' : CscService) : Prop := m_CallId s' = m_CallId s ∧ m_currCallList s' = m_currCallList s.
Definition calm (s s' : CscService) : Prop :=
  same_calls s s' ∧ lenZ (m_emcInfoList s') = MAX_EMERGENCY_NUMBER_LIST_COUNT ∧ lenZ (infoRec s') = MAX_NUMBER_OF_INFO_RECS.

Lemma ends_answer code a Q e s : Q 0 s [CComplete code a] → ends (csc_complete code a) Q e s.
Proof. intros HQ. apply ends_bind, ends_emit, ends_ret. done. Qed.
Lemma ends_told id t Q e s : Q 0 s [CUnsol id t] → ends (tell id t) Q e s.
Proof. intros HQ. apply ends_bind, ends_emit, ends_ret. done. Qed.
Lemma ends_cid cid Q e s : Q () s (cid_note e cid) → ends (put_active_cid cid) Q e s.
Proof. intros HQ v s' o H. rewrite put_active_runs in H. by injection H as <- <- <-. Qed.
Lemma ends_ask f timeout msg Q e s :
  (∀ p t, f (csc_token s) = Ok (p, t) →
     match p with
     | Some p => if csc_send_ok e then Q 0 (set_csc_token t s) [CSend p timeout msg] else Q (-1) (set_csc_token t s) [CUnsent p timeout msg]
     | None => Q (-1) (set_csc_token t s) []
     end) → ends (ask f timeout msg) Q e s.
Proof.
  intros HQ. unfold ask, csc_build. apply ends_bind, ends_bind, ends_gets, ends_bind, ends_lift. intros [p t] H. apply ends_bind, ends_modify, ends_ret, ends_fmap.
  intros v s' o Hs. cbn [fst snd app] in *. unfold csc_send in Hs. pose proof (HQ p t H) as HQ'. destruct p as [p|]; [destruct (csc_send_ok e)|]; by injection Hs as <- <- <-.
Qed.
(** a step of a handler of calls *)
Ltac csc_step :=
  lazymatch goal with
  | |- ends (csc_complete _ _) _ _ _ => apply ends_answer
  | |- ends (tell _ _) _ _ _ => apply ends_told
  | |- ends (put_active_cid _) _ _ _ => apply ends_cid
  | |- ends (ask _ _ _) _ _ _ => apply ends_ask; intros [p|] t Hask; [destruct (csc_send_ok _) eqn:Esend|]
  | |- ends (let _ := _ in _) _ _ _ => cbv zeta
  | |- _ => handler_step
  end; cbn [app].

Lemma lenZ_replicate_count {A} n (x : A) : 0 <= n → lenZ (replicate (Z.to_nat n) x) = n.
Proof. intros Hn. unfold lenZ. rewrite length_replicate. lia. Qed.
Lemma for_up_length {A} n lo (body : Z → list A → res (list A)) l l' :
  (∀ i l l', body i l = Ok l' → lenZ l' = lenZ l) → for_up n lo body l = Ok l' → lenZ l' = lenZ l.
Proof.
  intros Hb H. apply (for_up_ok_inv (λ _ x, lenZ x = lenZ l) n lo body l l'); [done| |done]. intros i x x' _ <- Hx. by apply (Hb i).
Qed.
Ltac calm_done := repeat split; cbn; done.
Lemma requests_calm q e s : csc_wf s → ends (OnHandleRequest q) (λ _ s' _, calm s s') e s.
Proof. intros []. destruct q; cbn [OnHandleRequest]; autounfold with csc_requests; repeat csc_step; calm_done. Qed.
Lemma wr_length {A} (l l' : list A) i v : l.[i <- v] = Ok l' → lenZ l' = lenZ l.
Proof. intros H. apply wr_inv in H as [_ ->]. by rewrite lenZ_insert. Qed.
Lemma indications_calm m frame e s : csc_wf s → ends (OnHandleUnsolicitedResponse m frame) (λ _ s' _, calm s s') e s.
Proof.
  intros []. unfold OnHandleUnsolicitedResponse. destruct m; autounfold with csc_indications; repeat csc_step; try calm_done.
  - split; [done|]. split; [|done]. apply for_up_length in Hr3; [etrans; [exact Hr3|by apply (lenZ_replicate_count MAX_EMERGENCY_NUMBER_LIST_COUNT)]|].
    intros i x x' H. apply bind_ok in H as (c & _ & H). destruct c as [ [ [ [category len] number] source]|]; [|by injection H as <-].
    destruct a0 as [mcc|]; [|done]. destruct a1 as [mnc|]; [|done]. apply bind_ok in H as (y & _ & H). apply bind_ok in H as (z & _ & H). by apply wr_length in H.
  - split; [done|]. split; [done|]. apply for_up_length in Hr0; [by etrans|].
    intros i x x' H. apply bind_ok in H as (c & _ & H). by apply wr_length in H.
Qed.
(** every event but the answers to a list and to hanging up *)
Lemma events_calm ev e s : changes_calls ev = false → csc_wf s → ends (csc_handle ev) (λ _ s' _, calm s s') e s.
Proof.
  intros Hc Hw. destruct ev as [q|m cur frame|m frame|imsi|card app]; cbn [csc_handle]; [by apply requests_calm| |by apply indications_calm| |]; destruct Hw.
  - destruct m; try discriminate Hc; cbn [OnHandleSolicitedResponse]; autounfold with csc_answers; repeat csc_step; calm_done.
  - autounfold with csc_indications; repeat csc_step; [calm_done| |calm_done]. by destruct a as [ [] [] ].
  - autounfold with csc_indications; repeat csc_step; calm_done.
Qed.
Lemma set_call_list_wf l s : csc_wf s → lenZ (m_szCallInfo l) = MAX_CALL_LIST_COUNT → 0 <= m_nCount l < MAX_CALL_LIST_COUNT → csc_wf (set_call_list l s).
Proof. by intros []. Qed.
Lemma newCallList_wf s : csc_wf s → csc_wf (set_call_list newCallList s).
Proof. intros Hw. by apply set_call_list_wf. Qed.
Lemma sync_calls_wf n s : csc_wf s → csc_wf (sync_calls n s).
Proof.
  intros []. unfold sync_calls. split; cbn [m_CallId set_calls m_currCallList m_szCallInfo m_nCount m_emcInfoList infoRec]; try done.
  - by apply SyncDone_wf, add_calls_wf, SyncReady_wf.
  - unfold lenZ in *. rewrite length_app, length_add_calls, length_take, length_drop. lia.
Qed.
Lemma set_entry_wf i c s : csc_wf s → csc_wf (set_entry i c s).
Proof. intros []. unfold set_entry. split; try done. cbn [m_szCallInfo m_currCallList set_call_list set_calls]. by rewrite lenZ_insert. Qed.
(** the entries are read, and the properties of active calls are put *)
Definition no_answer (a : CscAct) : bool := match a with CProperty _ _ => true | _ => false end.
Lemma cid_note_quiet e cid : forallb no_answer (cid_note e cid) = true.
Proof. unfold cid_note. by destruct (context_voice_rat e). Qed.
Lemma read_calls_wf raw n i e s : csc_wf s → ends (read_calls raw n i) (λ _ s' o, csc_wf s' ∧ forallb no_answer o = true) e s.
Proof.
  revert i s. induction n as [|n IH]; intros i s Hw; cbn [read_calls]; [by apply ends_ret|].
  repeat csc_step; try done; try (split; [by apply set_entry_wf|done]).
  all: eapply ends_weaken; [apply IH; by apply set_entry_wf|]; intros v s' o [Hs Ho]; split; [done|]; rewrite ?forallb_app, ?cid_note_quiet; done.
Qed.

(** ** How requests and answers end *)

(** one answer, and nothing else but properties *)
Definition ended (o : list CscAct) : Prop := ∃ pre code a, o = pre ++ [CComplete code a] ∧ forallb no_answer pre = true.
Lemma ended_one code a : ended [CComplete code a].
Proof. by exists [], code, a. Qed.
Lemma ended_app pre o : forallb no_answer pre = true → ended o → ended (pre ++ o).
Proof. intros Hp (pre' & code & a & -> & Hq). exists (pre ++ pre'), code, a. split; [by rewrite app_assoc|]. by rewrite forallb_app, Hp, Hq. Qed.
#[local] Hint Resolve ended_one cid_note_quiet newCallList_wf : core.
Lemma list_failed_ends code e s : csc_wf (set_call_list newCallList s) → ends (call_list_failed code) (λ v s' o, csc_wf s' ∧ v = 0 ∧ ended o) e s.
Proof. intros Hw. unfold call_list_failed. repeat csc_step; split_and!; auto. Qed.
Lemma valid_count raw n : HasValidLength raw = Ok true → GetCallNum raw = Ok n → 0 <= n.
Proof.
  unfold HasValidLength. intros H Hn. apply bind_ok in H as (len & _ & H). destruct (Z.ltb_spec len 16) as [|Hlen]; [done|]. rewrite Hn in H. cbn [mbind res_bind] in H.
  destruct (_ || _); [done|]. injection H as H. unfold sizeof_sit_call_info_type in H. lia.
Qed.
Lemma list_done_ends raw e s : csc_wf s → ends (DoGetCallListDone (Some raw)) (λ v s' o, csc_wf s' ∧ v = 0 ∧ ended o) e s.
Proof.
  intros Hw. unfold DoGetCallListDone, with_response. do 6 csc_step.
  assert (ends (if a =? RIL_E_SUCCESS then lift (HasValidLength raw) else mret false : CM bool)
    (λ b s' o, s' = set_call_list newCallList s ∧ o = [] ∧ (b = true → HasValidLength raw = Ok true)) e (set_call_list newCallList s)) as Hv.
  { repeat csc_step; split_and!; try done. congruence. }
  eapply ends_bind, ends_weaken; [exact Hv|]. cbn beta. intros valid s1 o (-> & -> & Hvalid). csc_step.
  - eapply ends_weaken; [apply list_failed_ends; auto|]. intros v s' o (Hs & -> & Ho). split_and!; [done..|]. cbn [app]. by apply ended_app.
  - do 4 csc_step. pose proof (valid_count raw a0 (Hvalid ltac:(by destruct valid)) Hr0) as Hn. csc_step.
    + eapply ends_weaken; [apply list_failed_ends; exact (newCallList_wf s Hw)|].
      intros v s' o (Hs & -> & Ho). split_and!; [done..|]. cbn [app]. by apply ended_app.
    + csc_step. eapply ends_weaken; [apply read_calls_wf, set_call_list_wf; [by auto|done|cbn; lia]|]. intros v s' o [Hs Ho].
      repeat csc_step. split; [by apply sync_calls_wf|]. split; [done|]. repeat apply ended_app; auto.
Qed.
Lemma hangup_done_ends cur raw e s : csc_wf s → ends (DoHangupDone cur (Some raw)) (λ v s' o, csc_wf s' ∧ v = 0 ∧ ended o) e s.
Proof.
  intros Hw. autounfold with csc_answers. repeat csc_step; (split; [|by auto]); try done.
  destruct (_ && _) eqn:Eb'; [|done]. destruct Hw. apply set_call_list_wf; [done| |cbn; lia]. cbn. by rewrite lenZ_insert.
Qed.
(** the answer of the sound switch has no handler; without a frame nothing is done *)
Definition answered (m : CscDone) (frame : option (list Z)) (s s' : CscService) (v : Z) (o : list CscAct) : Prop :=
  match m, frame with
  | MSG_CS_SOUND_SWITCH_VOICE_CALL_DONE, _ | _, None => v = -1 ∧ o = [] ∧ s' = s
  | _, Some _ => v = 0 ∧ ended o
  end.
Lemma answers_ended m cur frame e s : csc_wf s → ends (csc_handle (CscResponse m cur frame)) (λ v s' o, csc_wf s' ∧ answered m frame s s' v o) e s.
Proof.
  intros Hw. cbn [csc_handle]. destruct frame as [raw|]; [|by destruct m; cbn [OnHandleSolicitedResponse]; unfold DoGetCallListDone; autounfold with csc_answers; csc_step].
  destruct (changes_calls (CscResponse m cur (Some raw))) eqn:Hc; [destruct m; try discriminate Hc; [by apply list_done_ends|by apply hangup_done_ends]|].
  assert (ends (OnHandleSolicitedResponse m cur (Some raw)) (λ v s' o, answered m (Some raw) s s' v o) e s) as Ho.
  { destruct m; try discriminate Hc; cbn [OnHandleSolicitedResponse]; autounfold with csc_answers; repeat csc_step; split; auto. }
  intros v s' o H. split; [|by apply (Ho _ _ _ H)]. destruct (events_calm _ _ _ Hc Hw _ _ _ H) as ([Hi Hl] & He & Hr). destruct Hw. split; congruence.
Qed.
Lemma calm_wf s s' : csc_wf s → calm s s' → csc_wf s'.
Proof. intros [] ([Hi Hl] & He & Hr). split; congruence. Qed.
Lemma event_wf ev e s : csc_wf s → ends (csc_handle ev) (λ _ s' _, csc_wf s' ∧ (changes_calls ev = false → same_calls s s')) e s.
Proof.
  intros Hw v s' o H. split; [|intros Hc; by apply (events_calm _ _ _ Hc Hw _ _ _ H)]. destruct (changes_calls ev) eqn:Hc; [|by eapply calm_wf, (events_calm _ _ _ Hc Hw _ _ _ H)].
  destruct ev as [|m cur frame| | |]; try discriminate Hc. by apply (answers_ended m cur frame e s Hw v s' o).
Qed.
(** what the service does with one event after the other; an event whose handler comes to no end, because what it does is undefined, is not among them *)
Inductive csc_run : CscService → list CscEvent → list CscAct → CscService → Prop :=
| csc_run_end s : csc_run s [] [] s
| csc_run_step ev evs e s v s1 o s2 o' : csc_handle ev e s = Ok (v, s1, o) → csc_run s1 evs o' s2 → csc_run s (ev :: evs) (o ++ o') s2.
Lemma run_wf s evs o s' : csc_run s evs o s' → csc_wf s → csc_wf s' ∧ (forallb (λ ev, negb (changes_calls ev)) evs = true → same_calls s s').
Proof.
  induction 1 as [s|ev evs e s v s1 o s2 o' H Hr IH]; intros Hw; [done|]. destruct (event_wf ev e s Hw _ _ _ H) as [Hw1 Hs]. destruct (IH Hw1) as [Hw2 Hs2].
  split; [done|]. cbn [forallb]. intros [Hc Hcs]%andb_true_iff. apply negb_true_iff in Hc. destruct (Hs Hc) as [E1 E2]. destruct (Hs2 Hcs) as [E3 E4]. split; congruence.
Qed.
(** C32: In every run of the service whose handlers come to an end, whatever the events and
    their order, its calls stay in bounds: the
    table has nine entries and no number of the modem twice, the list has nine
    entries of which at most eight count, and the arrays of the emergency numbers
    and of the records keep their lengths.  An event that makes a handler overrun
    an array, like [long_emergency_number], has no result and ends no such run. *)
Theorem calls_in_bounds carrier props token evs o s : csc_run (newCscService carrier props token) evs o s → csc_wf s.
Proof. intros Hr. by apply (run_wf _ _ _ _ Hr), newCscService_wf. Qed.
Definition answer_frame (id err : Z) (body : list Z) : list Z := [RCM_TYPE_RESPONSE; 0] ++ le16 id ++ le16 (12 + lenZ body) ++ [0; 0; 0; 0; err; 0] ++ body.
Definition the_calls {A} (r : res (Z * CscService * A)) : CscService := match r with Ok (_, s, _) => s | _ => newCscService [] ∅ 0 end.
Definition list_event : CscEvent := CscResponse MSG_CS_CALL_LIST_DONE None (Some (calls_frame (list_header 2) two_calls)).
Definition two_known : CscService := Eval vm_compute in the_calls (csc_handle list_event plain_csc_env (newCscService [] ∅ 5)).
Lemma two_known_run : ∃ o, csc_run (newCscService [] ∅ 5) [list_event] o two_known.
Proof.
  assert (∃ v o, csc_handle list_event plain_csc_env (newCscService [] ∅ 5) = Ok (v, two_known, o)) as (v & o & H) by by vm_compute; eauto.
  eexists. by eapply csc_run_step, csc_run_end.
Qed.
Lemma calls_in_bounds_witness : ∃ s, csc_wf s ∧ m_nCount (m_currCallList s) = 2.
Proof. destruct two_known_run as [o Hr]. exists two_known. split; [by apply (calls_in_bounds [] ∅ 5 [list_event] o)|done]. Defined.
Lemma active_notes_quiet e i l : forallb no_answer (active_notes e i l) = true.
Proof. revert i. induction l as [|r l IH]; intros i; [done|]. cbn [active_notes]. rewrite forallb_app, IH. by destruct (cr_state r =? RIL_CALL_ACTIVE); rewrite ?cid_note_quiet. Qed.
Lemma quiet_answer pre a b c d : forallb no_answer pre = true → CComplete a b ∈ pre ++ [CComplete c d] → a = c ∧ b = d.
Proof.
  intros Hp [H|H]%elem_of_app; [|by apply list_elem_of_singleton in H as [= -> ->]]. rewrite forallb_forall in Hp. by apply list_elem_of_In, Hp in H.
Qed.
(** C31: Hanging up reaches the call that was told.  Behind a list of calls that is told
    (as in the theorem on the list: well-formed voice and video calls, fewer than
    nine, for which the table has places), and behind whatever other events whose
    handlers come to an end, as long as no further answer to a list and no answer
    to hanging up is among them, a request to hang up a call, by the number that
    was told for it, sends one packet, if packets can be sent, which carries the
    modem's number of that call and says whether it is the only one. *)
Theorem hangup_reaches_call hdr l cur e s v s0 o0 told n k c r evs o1 s1 q e1 :
  calls_header hdr l → Forall rec_wf l → lenZ l < MAX_CALL_LIST_COUNT → csc_wf s → placeable (cr_index <$> l) (m_CallId s) →
  csc_handle (CscResponse MSG_CS_CALL_LIST_DONE cur (Some (calls_frame hdr l))) e s = Ok (v, s0, o0) →
  CComplete RIL_E_SUCCESS (CAnsCalls told n) ∈ o0 → told !! k = Some c → l !! k = Some r →
  csc_run s0 evs o1 s1 → forallb (λ ev, negb (changes_calls ev)) evs = true → m_nInt q = rc_index c → csc_send_ok e1 = true →
  ∃ s2, csc_handle (CscRequest (MSG_CS_CALL_HANGUP (Some q))) e1 s1 =
    Ok (0, s2, [CSend (hangup_frame (GetNext (csc_token s1)).1 (cr_index r)
                         (if lenZ l =? 1 then SIT_CALL_HANGUP_CALL_TYPE_SINGLE else SIT_CALL_HANGUP_CALL_TYPE_MULTI)) CALL_DEFAULT_TIMEOUT MSG_CS_CALL_HANGUP_DONE]).
Proof.
  intros Hh Hw Hl Hs Hp H Ha Hc Hk Hr Hevs Hq He. pose proof (csc_ids _ Hs) as Ht. pose proof (call_list_runs hdr l e s Hh Hw Hl Ht Hp) as H'.
  pose proof (eq_trans (eq_sym H) H') as E. injection E as -> -> ->. destruct (list_is_told l e s Ht Hp) as (aps & Ho & _ & Hn & _ & Hap).
  rewrite Ho, app_assoc in Ha. apply quiet_answer in Ha as [_ Ha]; [|by rewrite forallb_app, cid_note_quiet, active_notes_quiet].
  destruct (Hap k r Hk) as (ap & Hak & _ & Hcp & _). assert (rc_index c = ap) as Hi.
  { destruct l as [|r0 l']; [done|]. cbn [told_calls] in Ha. injection Ha as -> _. rewrite lookup_zip_with, Hak in Hc. cbn [mbind option_bind] in Hc. rewrite Hk in Hc.
    by injection Hc as <-. }
  assert (csc_wf (calls_synced l s)) as Hw0 by exact (proj1 (event_wf _ e s Hs _ _ _ H)).
  destruct (run_wf _ _ _ _ Hr Hw0) as [_ Hsame]. destruct (Hsame Hevs) as [E1 E2]. rewrite <- Hi, <- Hq, <- E1 in Hcp.
  assert (1 <= lenZ l) as H1 by (destruct l as [|? l']; [done|rewrite lenZ_cons; pose proof (lenZ_nonneg l'); lia]).
  destruct (hangup_runs q (cr_index r) e1 s1 He ltac:(rewrite E2, Hn; lia) Hcp) as [s2 H2]. rewrite E2, Hn in H2. by exists s2.
Qed.
Definition mute_event : CscEvent := CscRequest (MSG_CS_SOUND_GET_MUTE (Some (newRequestData 2 7 0))).
Definition after_mute : CscService := Eval vm_compute in the_calls (csc_handle mute_event plain_csc_env two_known).
Lemma after_mute_run : ∃ o, csc_run two_known [mute_event] o after_mute.
Proof.
  assert (∃ v o, csc_handle mute_event plain_csc_env two_known = Ok (v, after_mute, o)) as (v & o & H) by by vm_compute; eauto.
  eexists. by eapply csc_run_step, csc_run_end.
Qed.
Lemma hangup_reaches_call_witness :
  ∃ s2, csc_handle (CscRequest (MSG_CS_CALL_HANGUP (Some {| ird_base := newRequestData 2 7 0; m_nInt := 2 |}))) plain_csc_env after_mute =
    Ok (0, s2, [CSend (hangup_frame (GetNext (csc_token after_mute)).1 2 SIT_CALL_HANGUP_CALL_TYPE_MULTI) CALL_DEFAULT_TIMEOUT MSG_CS_CALL_HANGUP_DONE]).
Proof.
  destruct after_mute_run as [o1 Hr]. assert (∃ v o, csc_handle list_event plain_csc_env (newCscService [] ∅ 5) = Ok (v, two_known, o) ∧
    CComplete RIL_E_SUCCESS (told_calls HAL_1_2 [1; 2] two_calls) ∈ o) as (v & o & H & Ho).
  { vm_compute. do 2 eexists. split; [reflexivity|]. do 2 right. by left. }
  exact (hangup_reaches_call (list_header 2) two_calls None plain_csc_env (newCscService [] ∅ 5) v two_known o _ _ 1%nat _ (plain_call 2 1 (str "110"))
    [mute_event] o1 after_mute {| ird_base := newRequestData 2 7 0; m_nInt := 2 |} plain_csc_env
    two_calls_header two_calls_wf eq_refl (newCscService_wf [] ∅ 5) two_calls_placeable H Ho eq_refl eq_refl Hr eq_refl eq_refl eq_refl).
Defined.

(** *** Requests *)

(** the request is not there *)
Definition missing (q : CscReq) : bool :=
  match q with
  | MSG_CS_CALL_LIST None | MSG_CS_CALL_DIAL None | MSG_CS_CALL_EMERGENCY_DIAL None | MSG_CS_CALL_ANSWER None | MSG_CS_SS_EXPLICIT_CALL_TRANSFER None
  | MSG_CS_CALL_HANGUP None | MSG_CS_LAST_CALL_FAIL_CAUSE None | MSG_CS_CDMA_BURST_DTMF None | MSG_CS_CDMA_SET_PREFERRED_VOICE_PRIVACY_MODE None
  | MSG_CS_CDMA_QUERY_PREFERRED_VOICE_PRIVACY_MODE None | MSG_CS_SS_UDUB None | MSG_CS_SS_HANGUP_FOREGROUND_RESUME_BACKGROUND None
  | MSG_CS_SS_HANGUP_WAITING_OR_BACKGROUND None | MSG_CS_SS_SWITCH_WAITING_OR_HOLDING_AND_ACTIVE None | MSG_CS_SS_CONFERENCE None | MSG_CS_SS_CDMA_FLASH None
  | MSG_CS_SS_SEPARATE_CONNECTION None | MSG_CS_SOUND_SWITCH_VOICE_CALL None | MSG_CS_SET_CALL_CONFIRM None | MSG_CS_SEND_CALL_CONFIRM None
  | MSG_CS_EXIT_EMERGENCY_CB_MODE None | MSG_CS_SOUND_SET_MUTE None | MSG_CS_SOUND_GET_MUTE None => true
  | _ => false
  end.
(** the message that brings the answer of a request *)
Definition done_of (q : CscReq) : CscDone :=
  match q with
  | MSG_CS_CALL_LIST _ => MSG_CS_CALL_LIST_DONE | MSG_CS_CALL_DIAL _ => MSG_CS_CALL_DIAL_DONE | MSG_CS_CALL_EMERGENCY_DIAL _ => MSG_CS_CALL_EMERGENCY_DIAL_DONE
  | MSG_CS_CALL_ANSWER _ => MSG_CS_CALL_ANSWER_DONE | MSG_CS_SS_EXPLICIT_CALL_TRANSFER _ => MSG_CS_SS_EXPLICIT_CALL_TRANSFER_DONE
  | MSG_CS_CALL_HANGUP _ => MSG_CS_CALL_HANGUP_DONE | MSG_CS_LAST_CALL_FAIL_CAUSE _ => MSG_CS_LAST_CALL_FAIL_CAUSE_DONE
  | MSG_CS_CDMA_BURST_DTMF _ => MSG_CS_CDMA_BURST_DTMF_DONE
  | MSG_CS_CDMA_SET_PREFERRED_VOICE_PRIVACY_MODE _ => MSG_CS_CDMA_SET_PREFERRED_VOICE_PRIVACY_MODE_DONE
  | MSG_CS_CDMA_QUERY_PREFERRED_VOICE_PRIVACY_MODE _ => MSG_CS_CDMA_QUERY_PREFERRED_VOICE_PRIVACY_MODE_DONE | MSG_CS_SS_UDUB _ => MSG_CS_SS_UDUB_DONE
  | MSG_CS_SS_HANGUP_FOREGROUND_RESUME_BACKGROUND _ => MSG_CS_SS_HANGUP_FOREGROUND_RESUME_BACKGROUND_DONE
  | MSG_CS_SS_HANGUP_WAITING_OR_BACKGROUND _ => MSG_CS_SS_HANGUP_WAITING_OR_BACKGROUND_DONE
  | MSG_CS_SS_SWITCH_WAITING_OR_HOLDING_AND_ACTIVE _ => MSG_CS_SS_SWITCH_WAITING_OR_HOLDING_AND_ACTIVE_DONE | MSG_CS_SS_CONFERENCE _ => MSG_CS_SS_CONFERENCE_DONE
  | MSG_CS_SS_CDMA_FLASH _ => MSG_CS_SS_CDMA_FLASH_DONE | MSG_CS_SS_SEPARATE_CONNECTION _ => MSG_CS_SS_SEPARATE_CONNECTION_DONE
  | MSG_CS_SOUND_SWITCH_VOICE_CALL _ => MSG_CS_SOUND_SWITCH_VOICE_CALL_DONE | MSG_CS_SET_CALL_CONFIRM _ => MSG_CS_SET_CALL_CONFIRM_DONE
  | MSG_CS_SEND_CALL_CONFIRM _ => MSG_CS_SEND_CALL_CONFIRM_DONE | MSG_CS_EXIT_EMERGENCY_CB_MODE _ => MSG_CS_EXIT_EMERGENCY_CB_MODE_DONE
  | MSG_CS_SOUND_SET_MUTE _ => MSG_CS_SOUND_SET_MUTE_DONE | MSG_CS_SOUND_GET_MUTE _ => MSG_CS_SOUND_GET_MUTE_DONE
  end.
(** the requests that the service may answer by itself *)
Definition may_answer (q : CscReq) : bool :=
  match q with
  | MSG_CS_SS_EXPLICIT_CALL_TRANSFER _ | MSG_CS_CALL_HANGUP _ | MSG_CS_CDMA_BURST_DTMF _ | MSG_CS_SS_SEPARATE_CONNECTION _ => true
  | _ => false
  end.
(** answered, or one packet sent, or refused: without the request, or since the packet could not be sent; a separation that cannot be sent is answered *)
Definition request_outcome (q : CscReq) (e : CscEnv) (v : Z) (o : list CscAct) : Prop :=
  (v = 0 ∧ may_answer q = true ∧ ∃ code, o = [CComplete code CAnsNone] ∧ code ≠ RIL_E_SUCCESS) ∨
  (v = 0 ∧ csc_send_ok e = true ∧ ∃ p t, o = [CSend p t (done_of q)]) ∨
  (v = -1 ∧ missing q = true ∧ o = []) ∨
  (csc_send_ok e = false ∧ ∃ p t, v = -1 ∧ o = [CUnsent p t (done_of q)] ∨
     v = 0 ∧ done_of q = MSG_CS_SS_SEPARATE_CONNECTION_DONE ∧ o = [CUnsent p t (done_of q); CComplete RIL_E_MODEM_ERR CAnsNone]).
Lemma ends_ask_built f timeout msg Q e s : builds f →
  (∀ p s', csc_send_ok e = true → Q 0 s' [CSend p timeout msg]) → (∀ p s', csc_send_ok e = false → Q (-1) s' [CUnsent p timeout msg]) → ends (ask f timeout msg) Q e s.
Proof.
  intros Hf H1 H2. apply ends_ask. intros p t H. destruct (Hf (csc_token s)) as (p' & t' & E). rewrite E in H. injection H as <- <-. destruct (csc_send_ok e) eqn:He; auto.
Qed.
Lemma request_ends q e s : ends (OnHandleRequest q) (λ v _ o, request_outcome q e v o) e s.
Proof.
  unfold request_outcome. destruct q as [r|r|r|r|r|r|r|r|r|r|r|r|r|r|r|r|r|r|r|r|r|r|r]; destruct r as [r|]; cbn [OnHandleRequest]; autounfold with csc_requests;
    repeat lazymatch goal with
    | |- ends (ask _ _ _) _ _ _ => apply ends_ask_built; [eauto with builders|intros p s' He|intros p s' He]
    | |- _ => csc_step
    end; try done; cbn [missing may_answer done_of]; try (right; right; left; done).
  all: first [ right; left; by eauto | right; right; right; split; [done|]; do 2 eexists; left; done | right; right; right; split; [done|]; do 2 eexists; right; done
    | left; split; [done|]; split; [done|]; by eexists | done ].
Qed.
(** C33: The one outcome of a request to the call service.  The handler of a request
    comes to an end, except that of a tone one of whose three texts is missing
    while there is a card: it reads the missing text.  A request that is there is
    sent to the modem as one packet, whose answer comes back as the message of
    that request; a transfer, an end of a call, a tone or a separation may be
    answered with an error at once; a packet that cannot be sent makes the handler
    fail, without an answer, except a separation, which is answered; a request
    without its data makes the handler fail, except again a separation, which is
    answered with an error.  No request is answered twice, or both
    answered and sent. *)
Theorem call_requests_end q e s :
  if texts_there q s
  then ∃ v s' o, csc_handle (CscRequest q) e s = Ok (v, s', o) ∧ request_outcome q e v o
  else csc_handle (CscRequest q) e s = UB.
Proof.
  cbn [csc_handle]. destruct (texts_there q s) eqn:Ht; [|by apply text_missing].
  apply (total_ends _ (λ v _ o, request_outcome q e v o)); [by apply request_total|apply request_ends].
Qed.
Lemma call_requests_end_witness :
  let q := MSG_CS_SS_SEPARATE_CONNECTION (Some {| ird_base := newRequestData 2 7 0; m_nInt := 1 |}) in
  ∃ v s' o, csc_handle (CscRequest q) plain_csc_env (newCscService [] ∅ 5) = Ok (v, s', o) ∧ request_outcome q plain_csc_env v o.
Proof. intros q. exact (call_requests_end q plain_csc_env (newCscService [] ∅ 5)). Defined.
(** C34: What an answer of the modem does to its request.  When the bytes its
    handler reads are there ([readable]: the code and its few bytes, for a list of
    calls those the frame counts), the handler comes to an end; and whenever it
    does, it has completed the request with one answer and told nothing else.
    Without a frame nothing is done and the handler fails, and so does the answer
    of the sound switch, which has no handler. *)
Theorem call_answers_end m cur frame e s : csc_wf s →
  (∀ v s' o, csc_handle (CscResponse m cur frame) e s = Ok (v, s', o) → answered m frame s s' v o) ∧
  ((∀ raw, frame = Some raw → readable m cur raw) →
   ∃ v s' o, csc_handle (CscResponse m cur frame) e s = Ok (v, s', o) ∧ answered m frame s s' v o).
Proof.
  intros Hw. assert (ends (csc_handle (CscResponse m cur frame)) (λ v s' o, answered m frame s s' v o) e s) as He
    by (intros v s' o H; by apply (answers_ended m cur frame e s Hw)). split; [exact He|].
  intros Hr. apply (total_ends _ (λ v s' o, answered m frame s s' v o)); [|exact He]. cbn [csc_handle].
  destruct (decide (m = MSG_CS_SOUND_SWITCH_VOICE_CALL_DONE)) as [->|Hm]; [apply total_ret|].
  destruct frame as [raw|]; [by apply answer_total, Hr|]. destruct m; cbn [OnHandleSolicitedResponse]; unfold DoGetCallListDone; autounfold with csc_answers; apply total_ret.
Qed.
Definition refused_dial : list Z := answer_frame SIT_DIAL 2 [].
Lemma call_answers_end_witness :
  answered MSG_CS_CALL_DIAL_DONE (Some refused_dial) two_known two_known 0 [CComplete RIL_E_INTERNAL_ERR CAnsNone] ∧
  ∃ v s' o, csc_handle list_event plain_csc_env two_known = Ok (v, s', o) ∧
    answered MSG_CS_CALL_LIST_DONE (Some (calls_frame (list_header 2) two_calls)) two_known s' v o.
Proof.
  assert (csc_wf two_known) as Hw by (destruct two_known_run as [o Hr]; by apply (run_wf _ _ _ _ Hr), newCscService_wf).
  split; [apply (call_answers_end MSG_CS_CALL_DIAL_DONE None _ plain_csc_env); [exact Hw|by vm_compute]|].
  apply (call_answers_end MSG_CS_CALL_LIST_DONE None (Some (calls_frame (list_header 2) two_calls)) plain_csc_env); [exact Hw|].
  intros raw [= <-] _. exists 670. split; [by vm_compute|]. right. exists 2. split; [by vm_compute|]. split; [done|]. intros _ _. split; [by_eval|]. split; [by_eval|].
  intros i Hi. assert (i = 0 ∨ i = 1) as [-> | ->] by lia; intros present len dcs _ E _ _ Hp; vm_compute in E; injection E as <-; done.
Defined.

(** *** Dialing *)

Definition dial_frame (token kind ecc clir : Z) (number : list Z) : list Z :=
  header_bytes SIT_DIAL sizeof_dial_req token ++ [Z.land kind 255; Z.land ecc 255; lenZ number] ++ padded MAX_DIAL_NUM number ++
  [number_type number; SIT_CALL_NUMBER_PLAN_ISDN; Z.land clir 255; 0; 0; 0].
Ltac put_byte_at k := rewrite (wr_chunk _ k 0) by (done || (unfold size_of; cbn [take foldr]; rewrite ?lenZ_padded by done; reflexivity)); cbn [mbind res_bind list_insert insert].
Lemma dial_packet t number clir cType ecc : lenZ number <= MAX_DIAL_NUM →
  BuildDial t number clir cType ecc =
    Ok (Some (dial_frame (GetNext t).1 (ConvertRilDefineToSitDefine SIT_CALL_TB_IDX_TYPE cType) ecc (ConvertRilDefineToSitDefine SIT_CALL_TB_IDX_CLIR clir) number), (GetNext t).2).
Proof.
  intros Hl. unfold BuildDial. set (kind := ConvertRilDefineToSitDefine SIT_CALL_TB_IDX_TYPE cType). set (cl := ConvertRilDefineToSitDefine SIT_CALL_TB_IDX_CLIR clir).
  change (fill sizeof_dial_req 0) with (concat [fill 12 0; [0]; [0]; [0]; fill MAX_DIAL_NUM 0; [0]; [0]; [0]; [0]; [0]; [0]]).
  rewrite header_chunk by done. cbn [mbind res_bind fst snd]. rewrite (wr_chunk _ 1%nat 0) by done. cbn [mbind res_bind]. rewrite (wr_chunk _ 2%nat 0) by done. cbn [mbind res_bind].
  rewrite Z.min_l by done. rewrite (wr_chunk _ 3%nat 0) by done. cbn [mbind res_bind]. rewrite rdn_ok by (unfold lenZ; lia). change (Z.to_nat 0) with 0%nat.
  rewrite drop_0, take_full by done. cbn [mbind res_bind]. rewrite (wrn_padded _ 4%nat number MAX_DIAL_NUM) by done. cbn [mbind res_bind list_insert insert].
  put_byte_at 5%nat. put_byte_at 6%nat. put_byte_at 7%nat. put_byte_at 8%nat. put_byte_at 9%nat. put_byte_at 10%nat. done.
Qed.
(** whether the caller's number is hidden: what the request says, or what was set *)
Definition clir_sent (clir socket : Z) (s : CscService) : Z :=
  if clir =? CLIR_DEFAULT then atoi (default (str "0") (csc_properties s !! clir_property socket)) else clir.
(** the kind of a call: that of the network the phone is in *)
Definition network_kind (e : CscEnv) (gsm cdma : Z) : Z := match context_voice_rat e with Some rat => if isCdmaVoice rat then cdma else gsm | None => gsm end.
Lemma dial_runs cType cdmaType ecc r msg e s : csc_send_ok e = true → lenZ (GetNumber r) <= MAX_DIAL_NUM →
  ∃ s', dial cType cdmaType ecc r msg e s =
    Ok (0, s', [CSend (dial_frame (GetNext (csc_token s)).1 (ConvertRilDefineToSitDefine SIT_CALL_TB_IDX_TYPE (network_kind e cType cdmaType)) ecc
                         (ConvertRilDefineToSitDefine SIT_CALL_TB_IDX_CLIR (clir_sent (m_clirType r) (csc_socket_id e) s)) (GetNumber r)) CALL_DEFAULT_TIMEOUT msg]).
Proof.
  intros He Hn. unfold dial. rewrite run_asks. change (match context_voice_rat e with Some rat => if isCdmaVoice rat then cdmaType else cType | None => cType end)
    with (network_kind e cType cdmaType). rewrite run_asks. unfold clir_sent. destruct (m_clirType r =? CLIR_DEFAULT).
  - set (s1 := set_clir (atoi (default (str "0") (csc_properties s !! clir_property (csc_socket_id e)))) (csc_properties s) s).
    rewrite (run_silent (GetClirAoc (csc_socket_id e)) _ (m_aoc s1) s1) by (unfold GetClirAoc; by rewrite run_gets, run_modify).
    eexists. by apply ask_runs; [apply dial_packet|].
  - rewrite run_ret. eexists. by apply ask_runs; [apply dial_packet|].
Qed.
Lemma encoded_number d : nonul (d_address d) → d_uusInfo d = None →
  ∃ q, CallDialReqData_encode (Some d) sizeof_RIL_Dial newCallDialReqData = Ok (0, q) ∧ GetNumber q = take (Z.to_nat MAX_DIAL_NUM) (d_address d) ∧
    m_clirType q = d_clir d.
Proof.
  intros Hn Hu. unfold CallDialReqData_encode. change (sizeof_RIL_Dial =? 0) with false. change (sizeof_RIL_Dial =? sizeof_RIL_Dial_Ext) with false. rewrite Hu.
  pose proof (strncpy_chunk [fill (MAX_DIAL_NUM + 1) 0] 0%nat _ (d_address d) (MAX_DIAL_NUM + 1) 0 eq_refl eq_refl ltac:(done) eq_refl) as H.
  cbn [concat list_insert insert] in H. rewrite !app_nil_r in H. cbn [m_number newCallDialReqData]. replace (MAX_DIAL_NUM + 1 - 1) with MAX_DIAL_NUM in H by lia. rewrite H.
  cbn [mbind res_bind]. eexists. split; [done|]. split; [|done]. unfold GetNumber. cbn [m_number]. by apply cstr_text.
Qed.
(** C35: A dial request reaches the modem.  The packet for a number carries its first 82
    characters with their count, the kind of the number by its sign, the kind of
    the call by the network the phone is in, and whether the caller's number is
    hidden, as the request says or, when it leaves that open, as it was set; an
    emergency number is sent with the kind and the category of an emergency. *)
Theorem dial_reaches_modem d cat routing e s : nonul (d_address d) → d_uusInfo d = None → csc_send_ok e = true →
  let number := take (Z.to_nat MAX_DIAL_NUM) (d_address d) in
  let clir := ConvertRilDefineToSitDefine SIT_CALL_TB_IDX_CLIR (clir_sent (d_clir d) (csc_socket_id e) s) in
  let token := (GetNext (csc_token s)).1 in
  (∃ q s', CallDialReqData_encode (Some d) sizeof_RIL_Dial newCallDialReqData = Ok (0, q) ∧
     csc_handle (CscRequest (MSG_CS_CALL_DIAL (Some q))) e s =
       Ok (0, s', [CSend (dial_frame token (network_kind e SIT_CALL_CALL_TYPE_VOICE SIT_CALL_CALL_TYPE_CDMA_VOICE) 0 clir number)
                     CALL_DEFAULT_TIMEOUT MSG_CS_CALL_DIAL_DONE])) ∧
  (∃ q s', CallEmergencyDialReqData_encode (Some {| dialInfo := d; ed_categories := cat; ed_routing := routing |}) sizeof_RIL_EmergencyDial
             {| edial := newCallDialReqData; m_categories := 0; m_routing := 0 |} = Ok (0, q) ∧
     csc_handle (CscRequest (MSG_CS_CALL_EMERGENCY_DIAL (Some q))) e s =
       Ok (0, s', [CSend (dial_frame token (network_kind e SIT_CALL_CALL_TYPE_EMERGENCY SIT_CALL_CALL_TYPE_CDMA_EMERGENCY) cat clir number)
                     CALL_DEFAULT_TIMEOUT MSG_CS_CALL_EMERGENCY_DIAL_DONE])).
Proof.
  intros Hn Hu He number clir token. destruct (encoded_number d Hn Hu) as (q & Hq & Hnum & Hclir).
  assert (lenZ (GetNumber q) <= MAX_DIAL_NUM) as Hl by (rewrite Hnum; unfold lenZ; rewrite length_take; unfold MAX_DIAL_NUM; lia).
  assert (∀ g c, ConvertRilDefineToSitDefine SIT_CALL_TB_IDX_TYPE (network_kind e g c) =
    network_kind e (ConvertRilDefineToSitDefine SIT_CALL_TB_IDX_TYPE g) (ConvertRilDefineToSitDefine SIT_CALL_TB_IDX_TYPE c)) as Hk
    by (intros g c; unfold network_kind; destruct (context_voice_rat e) as [rat|]; [by destruct (isCdmaVoice rat)|done]).
  split.
  - destruct (dial_runs CALL_TYPE_VOICE CALL_TYPE_CDMA_VOICE 0 q MSG_CS_CALL_DIAL_DONE e s He Hl) as [s' H]. rewrite Hk, Hnum, Hclir in H. exists q, s'. split; [done|exact H].
  - destruct (dial_runs CALL_TYPE_EMERGENCY CALL_TYPE_CDMA_EMERGENCY cat q MSG_CS_CALL_EMERGENCY_DIAL_DONE e s He Hl) as [s' H]. rewrite Hk, Hnum, Hclir in H.
    exists {| edial := q; m_categories := cat; m_routing := routing |}, s'. split; [|exact H].
    unfold CallEmergencyDialReqData_encode. cbn [dialInfo edial]. change ((sizeof_RIL_EmergencyDial =? 0) || (sizeof_RIL_EmergencyDial <? sizeof_RIL_EmergencyDial)) with false.
    cbv iota. rewrite Hq. done.
Qed.
Definition police : RIL_Dial := {| d_address := str "110"; d_clir := CLIR_SUPPRESSION; d_uusInfo := None; d_callType := None |}.
Lemma dial_reaches_modem_witness :
  ∃ q s', CallDialReqData_encode (Some police) sizeof_RIL_Dial newCallDialReqData = Ok (0, q) ∧
    csc_handle (CscRequest (MSG_CS_CALL_DIAL (Some q))) plain_csc_env (newCscService [] ∅ 5) =
      Ok (0, s', [CSend (dial_frame (GetNext 5).1 SIT_CALL_CALL_TYPE_VOICE 0 2 (str "110")) CALL_DEFAULT_TIMEOUT MSG_CS_CALL_DIAL_DONE]).
Proof. apply (dial_reaches_modem police 0 0 plain_csc_env (newCscService [] ∅ 5)); [by_eval|done|done]. Defined.

(** ** Flaws *)

(** A call that is neither voice nor video ends the reading of the list: the calls behind it are told as active calls without a number. *)
Definition held_call (type cp : Z) : CallRec :=
  {| cr_state := RIL_CALL_HOLDING; cr_index := cp; cr_toa := 145; cr_mpty := 0; cr_mt := 1; cr_als := 0; cr_type := type; cr_privacy := 0; cr_num := str "5";
     cr_num_present := 0; cr_name_len := 0; cr_name := fill MAX_DIAL_NAME 0; cr_name_present := 2; cr_name_dcs := 0; cr_uus_type := 0; cr_uus_dcs := 0;
     cr_uus := []; cr_srvcc := 0 |}.
Definition told_states {A} (r : res (Z * A * list CscAct)) : list (Z * list Z) :=
  match r with Ok (_, _, o) => match last o with Some (CComplete _ (CAnsCalls l _)) => (λ c, (rc_state c, rc_number c)) <$> l | _ => [] end | _ => [] end.
Lemma later_calls_hidden :
  let l := [held_call CALL_TYPE_VOICE 7; held_call 7 3; held_call CALL_TYPE_VOICE 2] in
  told_states (csc_handle (CscResponse MSG_CS_CALL_LIST_DONE None (Some (calls_frame (list_header 3) l))) plain_csc_env (newCscService [] ∅ 5)) =
    [(RIL_CALL_HOLDING, str "5"); (RIL_CALL_HOLDING, []); (RIL_CALL_ACTIVE, [])].
Proof. vm_compute. reflexivity. Qed.
Definition hangup_of (n : Z) : IntRequestData := {| ird_base := newRequestData 2 7 0; m_nInt := n |}.
(** A number that no call has is sent to the modem as the call -1. *)
Lemma unknown_call_hung_up :
  (λ r, r.2) <$> csc_handle (CscRequest (MSG_CS_CALL_HANGUP (Some (hangup_of 5)))) plain_csc_env two_known =
    Ok [CSend (hangup_frame (GetNext (csc_token two_known)).1 (-1) SIT_CALL_HANGUP_CALL_TYPE_MULTI) CALL_DEFAULT_TIMEOUT MSG_CS_CALL_HANGUP_DONE].
Proof. vm_compute. reflexivity. Qed.
(** Of two calls the second is left, with its number 2; when it is hung up the list, of one call, does not change: the number was taken for a position. *)
Lemma hung_up_call_stays :
  let one_left := the_calls (csc_handle (CscResponse MSG_CS_CALL_LIST_DONE None (Some (calls_frame (list_header 1) [plain_call 2 1 (str "110")]))) plain_csc_env two_known) in
  let after := the_calls (csc_handle (CscResponse MSG_CS_CALL_HANGUP_DONE (Some (hangup_of 2)) (Some (answer_frame SIT_HANGUP 0 []))) plain_csc_env one_left) in
  GetCpIndex 2 (m_CallId one_left) = 2 ∧ m_nCount (m_currCallList one_left) = 1 ∧ m_nCount (m_currCallList after) = 1 ∧ IsInCallState after = true.
Proof. vm_compute. repeat split. Qed.
(** Answers that are an error carry nothing but their header: these handlers read behind it. *)
Lemma error_answers_read_behind :
  csc_handle (CscResponse MSG_CS_SOUND_GET_MUTE_DONE None (Some (answer_frame SIT_GET_MUTE 2 []))) plain_csc_env two_known = UB ∧
  csc_handle (CscResponse MSG_CS_SET_CALL_CONFIRM_DONE None (Some (answer_frame SIT_CALL_CONFIRM_FEATURE_SET_REQ 2 []))) plain_csc_env two_known = UB ∧
  csc_handle (CscResponse MSG_CS_SEND_CALL_CONFIRM_DONE None (Some (answer_frame SIT_CALL_CONFIRM 2 []))) plain_csc_env two_known = UB.
Proof. vm_compute. repeat split. Qed.
(** The data of a user signal are copied whatever their length. *)
Lemma long_user_signal :
  CallDialReqData_encode (Some {| d_address := str "110"; d_clir := 0; d_uusInfo := Some {| uusType := 0; uusDcs := 0; uusLength := 129; uusData := fill 129 1 |}; d_callType := None |})
    sizeof_RIL_Dial newCallDialReqData = UB.
Proof. vm_compute. reflexivity. Qed.
(** The table of the causes for which a call failed translates each to itself. *)
Lemma fail_cause_same raw : GetLastCallFailCause raw = rdi32 raw 12.
Proof.
  unfold GetLastCallFailCause. destruct (rdi32 raw 12) as [n| |]; [|done..]. cbn [mbind res_bind]. f_equal.
  assert (∀ l, Forall (λ p, p.1 = p.2) l → default n (RilVal n l) = n) as H; [|by apply H; repeat constructor].
  induction 1 as [|[a b] l E _ IH]; [done|]. cbn in E |- *. subst b. by destruct (Z.eqb_spec a n) as [->|].
Qed.
(** An emergency number is written with the length the frame gives, up to 255, into an array of 33. *)
Lemma long_emergency_number : EmcInfo_update (str "262") (str "01") (str "112") 34 0 SIT_EMERGENCY_CONDITION_ALWAYS 0 newEmcInfo = UB.
Proof. vm_compute. reflexivity. Qed.
