(* ===== verification/SimPackets.v ===== *)
(** The packets of the SIM service: [protocol/sit/protocolsimbuilder.cpp],
    [protocol/sit/protocolsimadapter.cpp], and how a PIN is scrambled before it
    is kept ([core/service/simservice.cpp]).

    The requests for the PIN codes and the facility locks are laid out byte by
    byte, the answers read as the adapters read them; the status of the card is
    the packed structure of the frame.  [char] is unsigned. *)
From stdpp Require Import gmap.
From S2P Require Import Prelude RilDef Text WaitList Rcm RilData.

Definition MAX_SIM_AID_LEN : Z := 16.
Definition MAX_SIM_APP_LABEL_LEN : Z := 32.
Definition MAX_SIM_APPS_INFO_COUNT : Z := 100.
Definition MAX_SIM_PIN_LEN : Z := 8.
Definition MAX_SIM_PUK_LEN : Z := 8.
Definition MAX_SIM_FACILITY_PASSWORD_LEN : Z := 39.
Definition MAX_ATR_LEN_GET_SIM : Z := 33.
Definition MAX_ICCID_LEN : Z := 10.
Definition MAX_EID_LEN : Z := 16.
Definition INVALID_SLOT_ID : Z := 255.
Definition PROP_AUTO_VERIFY_PIN_0 : list Z := str "vendor.ril.context.rebirth".
Definition PROP_AUTO_VERIFY_PIN_1 : list Z := str "vendor.ril.context.again".
Definition PROP_AUTO_PIN_0_BY_PANIC : list Z := str "persist.vendor.ril.context.rebirth".
Definition PROP_AUTO_PIN_1_BY_PANIC : list Z := str "persist.vendor.ril.context.again".
Definition SYS_BOOT_REASON : list Z := str "sys.boot.reason".

(** ** Scrambling a PIN *)

Definition nScramble : list Z := [1; 2; 5; 9; 6; 3; 4; 7; 10; 13; 14; 11; 8; 12; 15; 16].
(** the byte with seven bits of [curr] and [next] from bit [r] *)
Definition pack7 (r curr next : Z) : Z :=
  u8 (Z.lor (Z.land (Z.shiftr curr r) (Z.shiftr 255 (r + 1))) (Z.shiftr (Z.land (Z.shiftl next 8) 0xFF00) (r + 1))).
(** what a byte gives to its own character and to the next *)
Definition unpack7 (r curr by_ : Z) : Z := u8 (Z.lor (Z.shiftl (Z.land curr (Z.shiftr 255 (r + 1))) r) by_).
Definition rest7 (r curr : Z) : Z := u8 (Z.shiftr (Z.land curr (Z.shiftr 0xFF00 (r + 1))) (7 - r)).

(** the loops, for any operation on the cells *)
Section loops.
Variables (pack xor : Z → Z → Z → Z) (unpack : Z → Z → Z → Z) (rest : Z → Z → Z).
Definition scramble (dst src : list Z) : res (list Z) :=
  for_up 16 0 (λ i b, s ← nScramble.[i]; c ← src.[s - 1]; b.[i <- c]) dst.
Definition unscramble (dst src : list Z) : res (list Z) :=
  for_up 16 0 (λ i b, s ← nScramble.[i]; c ← src.[i]; b.[s - 1 <- c]) dst.
Definition pin_pack_step (nHexLen : Z) (szBuffer : list Z) (t : Z * Z * list Z) : res (ctl (Z * Z * list Z) (list Z)) :=
  let '(nIdx, i, szHexStr) := t in
  if i <? nHexLen
  then
    curr ← szBuffer.[i];
    next ← (if i + 1 <? nHexLen then szBuffer.[i + 1] else Ok 0);
    szHexStr ← szHexStr.[nIdx <- pack (nIdx mod 7) curr next];
    let i := if (nIdx + 1) mod 7 =? 0 then i + 1 else i in
    Ok (Next (nIdx + 1, i + 1, szHexStr))
  else Ok (Stop szHexStr).
(** the key is read as often as needed; the remainder by the length of an empty key is undefined *)
Definition xor_key (key : list Z) (n : Z) (b : list Z) : res (list Z) :=
  for_up (Z.to_nat n) 0 (λ i b, if lenZ key =? 0 then UB else c ← b.[i]; k ← key.[i mod lenZ key]; b.[i <- xor i c k]) b.
Definition pin_unpack_step (src : list Z) (i : Z) (t : Z * Z * list Z) : res (Z * Z * list Z) :=
  let '(nIdx, by_, szBuffer) := t in
  curr ← src.[i];
  szBuffer ← szBuffer.[nIdx <- unpack (i mod 7) curr by_];
  let by_ := rest (i mod 7) curr in
  if (i + 1) mod 7 =? 0
  then szBuffer ← szBuffer.[nIdx + 1 <- by_]; Ok (nIdx + 2, 0, szBuffer)
  else Ok (nIdx + 1, by_, szBuffer).
End loops.
Definition xor2 (_ c k : Z) : Z := Z.lxor c k.

Definition as_buffer (b : option (list Z)) : list Z := default [] b.
(** the text left in [m_szTempPIN] *)
Definition EncryptAutoVerifyPin (m_szAutoPinPropertyKey pszPin : list Z) : res (list Z) :=
  szCode ← wrn (fill MAX_SIM_PIN_LEN 32) 0 pszPin;
  r ← Value2HexString (Some (fill 128 0)) (Some szCode) MAX_SIM_PIN_LEN;
  let '(szHexStr, nHexLen) := (as_buffer r.1, r.2) in
  szBuffer ← scramble (fill 128 0) szHexStr;
  szHexStr ← loop 17 (pin_pack_step pack7 nHexLen szBuffer) (0, 0, szHexStr);
  szHexStr ← xor_key xor2 m_szAutoPinPropertyKey nHexLen szHexStr;
  r ← Value2HexString (Some (fill 129 0)) (Some szHexStr) (nHexLen - nHexLen / 8);
  Ok (cstr (as_buffer r.1)).
Fixpoint drop_spaces (fuel : nat) (n : Z) (b : list Z) : Z :=
  match fuel with
  | S fuel => if 0 <? n then match b !! Z.to_nat (n - 1) with Some 32 => drop_spaces fuel (n - 1) b | _ => n end else n
  | O => n
  end.
(** the text left in [pszPin], an array of zeros *)
Definition DecryptAutoVerifyPin (m_szAutoPinPropertyKey m_szAutoPIN : list Z) : res (list Z) :=
  r ← HexString2Value (Some (fill 128 0)) (Some m_szAutoPIN);
  let '(szHexDec, nValLen) := (as_buffer r.1, r.2) in
  szHexDec ← xor_key xor2 m_szAutoPinPropertyKey nValLen szHexDec;
  t ← for_up (Z.to_nat nValLen) 0 (pin_unpack_step unpack7 rest7 szHexDec) (0, 0, fill 128 0);
  szHexDec ← unscramble (fill 128 0) t.2;
  r ← HexString2Value (Some (fill MAX_SIM_PIN_LEN 32)) (Some (cstr szHexDec));
  let '(szCode, nValLen) := (as_buffer r.1, r.2) in
  Ok (cstr (take (Z.to_nat (drop_spaces (Z.to_nat nValLen) nValLen szCode)) szCode)).

(** ** The packets *)

Definition SIT_GET_SIM_STATUS : Z := 0x200.
Definition SIT_VERIFY_SIM_PIN : Z := 0x201.
Definition SIT_VERIFY_SIM_PUK : Z := 0x202.
Definition SIT_VERIFY_SIM_PIN2 : Z := 0x203.
Definition SIT_VERIFY_SIM_PUK2 : Z := 0x204.
Definition SIT_CHG_SIM_PIN : Z := 0x205.
Definition SIT_CHG_SIM_PIN2 : Z := 0x206.
Definition SIT_VERIFY_NETWORK_LOCK : Z := 0x207.
Definition SIT_GET_FACILITY_LOCK : Z := 0x209.
Definition SIT_SET_FACILITY_LOCK : Z := 0x20A.
Definition SIT_SIM_FAC_SC : Z := 3.
Definition SIT_SIM_FAC_SC2 : Z := 21.
Definition SIT_SIM_FAC_MAX : Z := 22.
Definition FAC_PN : Z := 17.
Definition FAC_PU : Z := 18.
Definition FAC_PP : Z := 19.
Definition FAC_PC : Z := 20.
(** [sit_sim_verify_sim_pin_req]: pin_len 12, pin 13, aid_len 21, aid 22 *)
Definition sizeof_verify_sim_pin_req : Z := 38.
(** [sit_sim_verify_sim_puk_req]: puk_len 12, puk 13, new_pin_len 21, new_pin 22, aid_len 30, aid 31 *)
Definition sizeof_verify_sim_puk_req : Z := 47.
(** [sit_sim_change_sim_pin_req]: fac 12, old_pin_len 13, old_pin 14, new_pin_len 22, new_pin 23, aid_len 31, aid 32 *)
Definition sizeof_change_sim_pin_req : Z := 48.
(** [sit_sim_verify_network_lock_req]: fac 12, password_len 13, password 14, service_class 53, aid_len 54, aid 55; the same with code for
    [sit_sim_get_facility_lock_req] *)
Definition sizeof_verify_network_lock_req : Z := 71.
(** [sit_sim_set_facility_lock_req]: code 12, lock_mode 13, password_len 14, password 15, service_class 54, aid_len 55, aid 56 *)
Definition sizeof_set_facility_lock_req : Z := 72.

(** a text with its length before it, cut to the array *)
Definition put_text (req : list Z) (off : Z) (s : list Z) (max : Z) : res (list Z) :=
  let n := if lenZ s <=? max then lenZ s else max in
  req ← req.[off <- n]; wrn req (off + 1) (take (Z.to_nat n) s).
(** the application identifier, hexadecimal, is written to the end of the structure without a check *)
Definition put_aid (req : list Z) (off : Z) (aid : option (list Z)) : res (list Z) :=
  match aid with
  | Some s =>
    r ← HexString2Value (Some (drop (Z.to_nat (off + 1)) req)) (Some s);
    (take (Z.to_nat (off + 1)) req ++ as_buffer r.1).[off <- u8 r.2]
  | None => Ok req
  end.
Definition BuildSimGetStatus (m_nToken : Z) : res (option (list Z) * Z) := built <$> InitRequestHeader m_nToken (fill 12 0) SIT_GET_SIM_STATUS 12.
Definition BuildSimVerifyPin (m_nToken nPinIndex : Z) (pszPin pszAID : option (list Z)) : res (option (list Z) * Z) :=
  match (if nPinIndex =? 1 then Some SIT_VERIFY_SIM_PIN else if nPinIndex =? 2 then Some SIT_VERIFY_SIM_PIN2 else None), pszPin with
  | Some id, Some pin =>
    t ← InitRequestHeader m_nToken (fill sizeof_verify_sim_pin_req 0) id sizeof_verify_sim_pin_req;
    req ← put_text t.1 12 pin MAX_SIM_PIN_LEN; req ← put_aid req 21 pszAID; Ok (Some req, t.2)
  | _, _ => Ok (None, m_nToken)
  end.
Definition BuildSimVerifyPuk (m_nToken nPukIndex : Z) (pszPuk pszNewPin pszAID : option (list Z)) : res (option (list Z) * Z) :=
  match (if nPukIndex =? 1 then Some SIT_VERIFY_SIM_PUK else if nPukIndex =? 2 then Some SIT_VERIFY_SIM_PUK2 else None), pszPuk, pszNewPin with
  | Some id, Some puk, Some pin =>
    t ← InitRequestHeader m_nToken (fill sizeof_verify_sim_puk_req 0) id sizeof_verify_sim_puk_req;
    req ← put_text t.1 12 puk MAX_SIM_PUK_LEN; req ← put_text req 21 pin MAX_SIM_PIN_LEN; req ← put_aid req 30 pszAID; Ok (Some req, t.2)
  | _, _, _ => Ok (None, m_nToken)
  end.
Definition BuildSimChangePin (m_nToken nPinIndex : Z) (pszOldPin pszNewPin pszAID : option (list Z)) : res (option (list Z) * Z) :=
  match (if nPinIndex =? 1 then Some (SIT_CHG_SIM_PIN, SIT_SIM_FAC_SC) else if nPinIndex =? 2 then Some (SIT_CHG_SIM_PIN2, SIT_SIM_FAC_SC2) else None),
    pszOldPin, pszNewPin with
  | Some (id, fac), Some old, Some new =>
    t ← InitRequestHeader m_nToken (fill sizeof_change_sim_pin_req 0) id sizeof_change_sim_pin_req;
    req ← t.1.[12 <- fac];
    req ← put_text req 13 old MAX_SIM_PIN_LEN; req ← put_text req 22 new MAX_SIM_PIN_LEN; req ← put_aid req 31 pszAID; Ok (Some req, t.2)
  | _, _, _ => Ok (None, m_nToken)
  end.
Definition BuildSimVerifyNetworkLock (m_nToken nFac : Z) (pszPassword : option (list Z)) (nSvcClass : Z) (pszAID : option (list Z)) : res (option (list Z) * Z) :=
  match pszPassword with
  | Some pw =>
    t ← InitRequestHeader m_nToken (fill sizeof_verify_network_lock_req 0) SIT_VERIFY_NETWORK_LOCK sizeof_verify_network_lock_req;
    req ← t.1.[12 <- Z.land nFac 255]; req ← put_text req 13 pw MAX_SIM_FACILITY_PASSWORD_LEN; req ← req.[53 <- Z.land nSvcClass 255];
    req ← put_aid req 54 pszAID; Ok (Some req, t.2)
  | None => Ok (None, m_nToken)
  end.
Definition aszFacCode : list (list Z) :=
  [str "CS"; str "PS"; str "PF"; str "SC"; str "AO"; str "OI"; str "OX"; str "AI"; str "IR"; str "NT"; str "NM"; str "NS"; str "NA"; str "AB"; str "AG";
   str "AC"; str "FD"; str "PN"; str "PU"; str "PP"; str "PC"; str "SC2"].
Fixpoint fac_code (code : list Z) (l : list (list Z)) (i : Z) : Z :=
  match l with s :: l => if bool_decide (code = s) then i else fac_code code l (i + 1) | [] => SIT_SIM_FAC_MAX end.
Definition BuildSimGetFacilityLock (m_nToken : Z) (pszCode pszPassword : list Z) (nSvcClass : Z) (pszAID : list Z) : res (option (list Z) * Z) :=
  t ← InitRequestHeader m_nToken (fill sizeof_verify_network_lock_req 0) SIT_GET_FACILITY_LOCK sizeof_verify_network_lock_req;
  req ← t.1.[12 <- fac_code pszCode aszFacCode 0];
  req ← (if 0 <? lenZ pszPassword then put_text req 13 pszPassword MAX_SIM_FACILITY_PASSWORD_LEN else Ok req);
  req ← req.[53 <- Z.land nSvcClass 255]; req ← put_aid req 54 (Some pszAID); Ok (Some req, t.2).
Definition BuildSimSetFacilityLock (m_nToken : Z) (pszCode : list Z) (nLockMode : Z) (pszPassword : list Z) (nSvcClass : Z) (pszAID : list Z) : res (option (list Z) * Z) :=
  t ← InitRequestHeader m_nToken (fill sizeof_set_facility_lock_req 0) SIT_SET_FACILITY_LOCK sizeof_set_facility_lock_req;
  req ← t.1.[12 <- fac_code pszCode aszFacCode 0]; req ← req.[13 <- Z.land nLockMode 255];
  req ← put_text req 14 pszPassword MAX_SIM_FACILITY_PASSWORD_LEN;
  req ← req.[54 <- Z.land nSvcClass 255]; req ← put_aid req 55 (Some pszAID); Ok (Some req, t.2).

(** ** The answers *)

(** the remaining attempts of an answer whose identifier is one of [ids] *)
Definition remain_of (ids : list Z) (m_pModemData : option (list Z)) : res Z :=
  match m_pModemData with
  | Some raw => i ← rd16 raw off_id; if bool_decide (i ∈ ids) then n ← rd32 raw 12; Ok (i32 n) else Ok (-1)
  | None => Ok (-1)
  end.
Definition ProtocolSimVerifyPinAdapter : option (list Z) → res Z := remain_of [SIT_VERIFY_SIM_PIN; SIT_CHG_SIM_PIN; SIT_VERIFY_SIM_PIN2; SIT_CHG_SIM_PIN2].
Definition ProtocolSimVerifyPukAdapter : option (list Z) → res Z := remain_of [SIT_VERIFY_SIM_PUK; SIT_VERIFY_SIM_PUK2].
Definition ProtocolSimVerifyNetLockAdapter : option (list Z) → res Z := remain_of [SIT_VERIFY_NETWORK_LOCK].
Definition RCM_E_SUCCESS : Z := 0.
Definition RCM_E_GENERIC_FAILURE : Z := 2.
Definition RCM_E_PASSWORD_INCORRECT : Z := 3.
Definition RCM_E_SIM_PUK2 : Z := 5.
Definition ProtocolSimSetFacilityLockAdapter (m_pModemData : option (list Z)) : res Z :=
  match m_pModemData with
  | Some raw =>
    i ← rd16 raw off_id;
    if i =? SIT_SET_FACILITY_LOCK
    then
      e ← raw.[off_error];
      if (e =? RCM_E_SUCCESS) || (e =? RCM_E_GENERIC_FAILURE) || (e =? RCM_E_PASSWORD_INCORRECT) then n ← rd32 raw 12; Ok (i32 n)
      else Ok (if e =? RCM_E_SIM_PUK2 then 0 else -1)
    else Ok (-1)
  | None => Ok (-1)
  end.
Definition GetFacilityServiceClass (m_pModemData : option (list Z)) : res Z :=
  match m_pModemData with
  | Some raw => i ← rd16 raw off_id; if i =? SIT_GET_FACILITY_LOCK then raw.[13] else Ok 0
  | None => Ok 0
  end.

(** ** The status of the card *)

(** [sit_sim_apps_status_info]: type 0, state 1, perso 2, aid_len 3, AID 4, label_len 20, label 21, pin1_replaced 53, pin1 57, pin2 58,
    pin1 count 59, puk1 60, pin2 61, puk2 62 *)
Definition sizeof_apps_status_info : Z := 63.
(** [sit_sim_get_sim_status_rsp]: card_state 12, universal_pin_state 13, application_num 14, applications 15 *)
Definition sizeof_get_sim_status_rsp : Z := 15 + 63 * MAX_SIM_APPS_INFO_COUNT.
(** [sit_sim_get_sim_status_rsp_ext]: esim_no_profile 0, slot 1, atr_length 2, atr 3, iccid_length 36, iccid 37, eid_length 47, eid 48 *)
Definition sizeof_get_sim_status_rsp_ext : Z := 64.
Record SimStatusAdapter := { m_tSimStatusRsp : list Z; m_tSimStatusRspExt : list Z }.
Definition ProtocolSimStatusAdapter (m_pModemData : option (list Z)) : res SimStatusAdapter :=
  let empty := {| m_tSimStatusRsp := fill sizeof_get_sim_status_rsp 0; m_tSimStatusRspExt := fill sizeof_get_sim_status_rsp_ext 0 |} in
  match m_pModemData with
  | Some raw =>
    i ← rd16 raw off_id;
    if i =? SIT_GET_SIM_STATUS
    then
      n ← raw.[14];
      let nSimStatusLength := 15 + sizeof_apps_status_info * n in
      b ← rdn raw 0 nSimStatusLength; rsp ← wrn (m_tSimStatusRsp empty) 0 b;
      let params := GetParameterLength m_pModemData sizeof_RCM_HEADER in
      ext ← (if nSimStatusLength - sizeof_RCM_HEADER <? params
             then
               let sizefor_1_2 := sizeof_get_sim_status_rsp_ext - (MAX_EID_LEN + 1) in
               b ← rdn raw nSimStatusLength sizefor_1_2; ext ← wrn (m_tSimStatusRspExt empty) 0 b;
               if nSimStatusLength + sizefor_1_2 - sizeof_RCM_HEADER <? params
               then
                 l ← raw.[nSimStatusLength + 47]; ext ← ext.[47 <- l];
                 b ← rdn raw (nSimStatusLength + 48) l; wrn ext 48 b
               else Ok ext
             else Ok (m_tSimStatusRspExt empty));
      Ok {| m_tSimStatusRsp := rsp; m_tSimStatusRspExt := ext |}
    else Ok empty
  | None => Ok empty
  end.
Section getters.
Variable a : SimStatusAdapter.
Definition GetCardState : res Z := (m_tSimStatusRsp a).[12].
Definition GetUniversalPinState : res Z := (m_tSimStatusRsp a).[13].
Definition GetApplicationCount : res Z := (m_tSimStatusRsp a).[14].
(** the accessors of the type, the state and the substate do not check the index *)
Definition app_byte (nIndex off : Z) : res Z := (m_tSimStatusRsp a).[15 + 63 * nIndex + off].
Definition GetAppsType (nIndex : Z) : res Z := app_byte nIndex 0.
Definition GetAppsState (nIndex : Z) : res Z := app_byte nIndex 1.
Definition GetPersonalSubstate (nIndex : Z) : res Z := app_byte nIndex 2.
Definition GetPin1Replaced (nIndex : Z) : res Z := v ← rd32 (m_tSimStatusRsp a) (15 + 63 * nIndex + 53); Ok (i32 v).
Definition in_range {A} (nIndex : Z) (out : A) (f : res A) : res A := n ← GetApplicationCount; if (0 <=? nIndex) && (nIndex <? n) then f else Ok out.
Definition GetAID (nIndex : Z) : res (option (list Z)) :=
  in_range nIndex None
    (l ← app_byte nIndex 3;
     r ← Value2HexString (Some (fill (l * 2 + 1) 0)) (Some (drop (Z.to_nat (15 + 63 * nIndex + 4)) (m_tSimStatusRsp a))) l;
     Ok (if r.2 =? -1 then None else cstr <$> r.1)).
Definition GetPinState (nIndex nPinIndex : Z) : res Z :=
  in_range nIndex 0 (if nPinIndex =? 1 then app_byte nIndex 57 else if nPinIndex =? 2 then app_byte nIndex 58 else Ok 0).
Definition GetPinRemainCount (nIndex nPinIndex : Z) : res Z :=
  in_range nIndex (-1) (if nPinIndex =? 1 then app_byte nIndex 59 else if nPinIndex =? 2 then app_byte nIndex 61 else Ok (-1)).
Definition GetPukRemainCount (nIndex nPukIndex : Z) : res Z :=
  in_range nIndex (-1) (if nPukIndex =? 1 then app_byte nIndex 60 else if nPukIndex =? 2 then app_byte nIndex 62 else Ok (-1)).
End getters.

Definition RIL_CARD_MAX_APPS : Z := 8.
Definition RIL_APPTYPE_UNKNOWN : Z := 0.
Definition RIL_APPTYPE_SIM : Z := 1.
Definition RIL_APPTYPE_USIM : Z := 2.
Definition RIL_APPTYPE_RUIM : Z := 3.
Definition RIL_APPTYPE_CSIM : Z := 4.
Definition RIL_APPTYPE_ISIM : Z := 5.
Definition RIL_APPSTATE_UNKNOWN : Z := 0.
Definition RIL_APPSTATE_SUBSCRIPTION_PERSO : Z := 4.
Definition RIL_PERSOSUBSTATE_SIM_NETWORK : Z := 3.
Definition RIL_PERSOSUBSTATE_SIM_NETWORK_SUBSET : Z := 4.
Definition RIL_PERSOSUBSTATE_SIM_CORPORATE : Z := 5.
Definition RIL_PERSOSUBSTATE_SIM_SERVICE_PROVIDER : Z := 6.
Definition RIL_PINSTATE_UNKNOWN : Z := 0.
Definition RIL_PINSTATE_ENABLED_NOT_VERIFIED : Z := 1.
Record AppStatus := {
  app_type : Z; app_state : Z; perso_substate : Z; aid_ptr : option (list Z); pin1_replaced : Z; pin1 : Z; pin2 : Z }.
Record CardStatus := {
  card_state : Z; universal_pin_state : Z; gsm_umts_subscription_app_index : Z; cdma_subscription_app_index : Z; ims_subscription_app_index : Z;
  applications : list AppStatus; physicalSlotId : Z; cs_atr : list Z; cs_iccid : list Z; cs_eid : list Z }.
(** [num_applications]; the array behind it is zero *)
Definition num_applications (c : CardStatus) : Z := lenZ (applications c).
Definition card_of (state pin slot : Z) : CardStatus :=
  {| card_state := state; universal_pin_state := pin; gsm_umts_subscription_app_index := -1; cdma_subscription_app_index := -1;
     ims_subscription_app_index := -1; applications := []; physicalSlotId := slot; cs_atr := []; cs_iccid := []; cs_eid := [] |}.
