(* ===== verification/SimPin.v ===== *)
(** The PIN of the SIM and the status of the card: [core/service/simservice.cpp].

    The PIN a user entered is kept, scrambled, so that it can be verified again
    without the user after the daemon or the kernel restarted.  This file has the
    state of the service, the handlers of the PIN requests, the facility locks
    and the status request, and of their answers.

    A handler gives the new state of the service and what it did, in order: the
    packets it sent, the answers, the indications and the timeouts.  Whether a
    packet could be sent is an argument.  The property store belongs to the
    platform: a map from names to texts. *)
From stdpp Require Import gmap.
From S2P Require Import Prelude RilDef Text WaitList Rcm Handler RilData SimPackets.

(** ** The service *)

Inductive AutoPinState :=
| AUTO_PIN_STATE_UNKNOWN | AUTO_PIN_STATE_INIT | AUTO_PIN_STATE_EMPTY | AUTO_PIN_STATE_READY | AUTO_PIN_STATE_RECOVERY | AUTO_PIN_STATE_RECOVERED
| AUTO_PIN_STATE_VERIFY | AUTO_PIN_STATE_CHANGE | AUTO_PIN_STATE_DISABLE | AUTO_PIN_STATE_ENABLE | AUTO_PIN_STATE_UNLOCK.
Inductive BootState := BOOT_STATE_NORMAL | BOOT_STATE_KERNEL_PANIC | BOOT_STATE_UNKNOWN.
Inductive SimCardState := SIM_CARDSTATE_UNKNOWN | SIM_CARDSTATE_ABSENT | SIM_CARDSTATE_PRESENT | SIM_CARDSTATE_ERROR.
#[export] Instance AutoPinState_eq_dec : EqDecision AutoPinState.
Proof. solve_decision. Defined.
#[export] Instance BootState_eq_dec : EqDecision BootState.
Proof. solve_decision. Defined.
#[export] Instance SimCardState_eq_dec : EqDecision SimCardState.
Proof. solve_decision. Defined.
Inductive SimPinPuk := SIM_PIN | SIM_PUK.
(** the message that brings the answer to a packet back *)
Inductive DoneMsg :=
| MSG_SIM_GET_STATUS_DONE | MSG_SIM_VERIFY_PIN_DONE | MSG_SIM_VERIFY_PUK_DONE | MSG_SIM_VERIFY_PIN2_DONE | MSG_SIM_VERIFY_PUK2_DONE | MSG_SIM_CHANGE_PIN_DONE
| MSG_SIM_CHANGE_PIN2_DONE | MSG_SIM_VERIFY_NETWORK_LOCK_DONE | MSG_SIM_IO_DONE | MSG_SIM_GET_FACILITY_LOCK_DONE | MSG_SIM_SET_FACILITY_LOCK_DONE
| MSG_SIM_GET_ISIM_AUTH_DONE | MSG_SIM_TRANSMIT_APDU_BASIC_DONE | MSG_SIM_OPEN_CHANNEL_DONE | MSG_SIM_CLOSE_CHANNEL_DONE | MSG_SIM_TRANSMIT_APDU_CHANNEL_DONE
| MSG_SIM_GET_IMSI_DONE | MSG_SIM_GET_SIM_AUTH_DONE | MSG_SIM_GET_ATR_DONE | MSG_SIM_SET_CARRIER_RESTRICTIONS_DONE | MSG_SIM_GET_CARRIER_RESTRICTIONS_DONE
| MSG_SIM_SET_SIM_CARD_POWER_DONE | MSG_SIM_OEM_IMS_SIM_IO_DONE | MSG_SIM_OEM_OPEN_CHANNEL_DONE | MSG_SIM_OEM_TRANSMIT_APDU_LOGICAL_DONE
| MSG_SIM_OEM_TRNASMIT_APDU_BASIC_DONE | MSG_SIM_OEM_GET_CARD_PRESENT_DONE | MSG_SIM_GET_SIM_LOCK_INFO_DONE | MSG_SIM_GET_SLOT_STATUS_DONE
| MSG_SIM_SET_LOGICAL_TO_PHYSICAL_SLOT_MAPPING_DONE | MSG_SIM_OEM_ICC_DEPERSONALIZATION_DONE
| MSG_SIM_READ_PB_ENTRY_DONE | MSG_SIM_UPDATE_PB_ENTRY_DONE | MSG_SIM_GET_PB_STORAGE_INFO_DONE | MSG_SIM_GET_PB_STORAGE_LIST_DONE
| MSG_SIM_GET_PB_ENTRY_INFO_DONE | MSG_SIM_GET_3G_PB_CAPA_DONE.

Record SimService := {
  mRilCardStatus : CardStatus; m_aszAID : list Z; m_nSimCardState : SimCardState; m_nPinRemain : Z * Z; m_nPukRemain : Z * Z;
  m_pEnableFdnData : option (list Z); m_pSimIoData : option (list Z); m_pIccidInfo : option (list Z); m_nImsAppType : Z;
  m_nAutoPinState : AutoPinState; m_szTempPIN : list Z; m_szAutoPIN : list Z; m_nBootState : BootState;
  m_szAutoPinPropertyKey : list Z; m_szAutoPinPropertyKeyByPanic : list Z;
  mImsi : list Z; properties : gmap (list Z) (list Z); sim_token : Z }.
Definition newSimService (properties : gmap (list Z) (list Z)) (token : Z) : SimService :=
  {| mRilCardStatus := {| card_state := 0; universal_pin_state := 0; gsm_umts_subscription_app_index := 0; cdma_subscription_app_index := 0;
                          ims_subscription_app_index := 0; applications := []; physicalSlotId := 0; cs_atr := []; cs_iccid := []; cs_eid := [] |};
     m_aszAID := fill (RIL_CARD_MAX_APPS * 36) 0; m_nSimCardState := SIM_CARDSTATE_UNKNOWN; m_nPinRemain := (-1, -1); m_nPukRemain := (-1, -1);
     m_pEnableFdnData := None; m_pSimIoData := None; m_pIccidInfo := None; m_nImsAppType := -1;
     m_nAutoPinState := AUTO_PIN_STATE_UNKNOWN; m_szTempPIN := []; m_szAutoPIN := []; m_nBootState := BOOT_STATE_UNKNOWN;
     m_szAutoPinPropertyKey := []; m_szAutoPinPropertyKeyByPanic := []; mImsi := []; properties := properties; sim_token := token |}.
Definition set_card (c : CardStatus) (aid : list Z) (s : SimService) : SimService :=
  {| mRilCardStatus := c; m_aszAID := aid; m_nSimCardState := m_nSimCardState s; m_nPinRemain := m_nPinRemain s; m_nPukRemain := m_nPukRemain s;
     m_pEnableFdnData := m_pEnableFdnData s; m_pSimIoData := m_pSimIoData s; m_pIccidInfo := m_pIccidInfo s; m_nImsAppType := m_nImsAppType s;
     m_nAutoPinState := m_nAutoPinState s; m_szTempPIN := m_szTempPIN s; m_szAutoPIN := m_szAutoPIN s; m_nBootState := m_nBootState s;
     m_szAutoPinPropertyKey := m_szAutoPinPropertyKey s; m_szAutoPinPropertyKeyByPanic := m_szAutoPinPropertyKeyByPanic s;
     mImsi := mImsi s; properties := properties s; sim_token := sim_token s |}.
Definition set_sim (state : SimCardState) (pin puk : Z * Z) (iccid : option (list Z)) (ims token : Z) (s : SimService) : SimService :=
  {| mRilCardStatus := mRilCardStatus s; m_aszAID := m_aszAID s; m_nSimCardState := state; m_nPinRemain := pin; m_nPukRemain := puk;
     m_pEnableFdnData := m_pEnableFdnData s; m_pSimIoData := m_pSimIoData s; m_pIccidInfo := iccid; m_nImsAppType := ims;
     m_nAutoPinState := m_nAutoPinState s; m_szTempPIN := m_szTempPIN s; m_szAutoPIN := m_szAutoPIN s; m_nBootState := m_nBootState s;
     m_szAutoPinPropertyKey := m_szAutoPinPropertyKey s; m_szAutoPinPropertyKeyByPanic := m_szAutoPinPropertyKeyByPanic s;
     mImsi := mImsi s; properties := properties s; sim_token := token |}.
Definition set_pending (fdn io : option (list Z)) (s : SimService) : SimService :=
  {| mRilCardStatus := mRilCardStatus s; m_aszAID := m_aszAID s; m_nSimCardState := m_nSimCardState s; m_nPinRemain := m_nPinRemain s;
     m_nPukRemain := m_nPukRemain s; m_pEnableFdnData := fdn; m_pSimIoData := io; m_pIccidInfo := m_pIccidInfo s; m_nImsAppType := m_nImsAppType s;
     m_nAutoPinState := m_nAutoPinState s; m_szTempPIN := m_szTempPIN s; m_szAutoPIN := m_szAutoPIN s; m_nBootState := m_nBootState s;
     m_szAutoPinPropertyKey := m_szAutoPinPropertyKey s; m_szAutoPinPropertyKeyByPanic := m_szAutoPinPropertyKeyByPanic s;
     mImsi := mImsi s; properties := properties s; sim_token := sim_token s |}.
Definition set_auto (state : AutoPinState) (temp auto : list Z) (boot : BootState) (props : gmap (list Z) (list Z)) (s : SimService) : SimService :=
  {| mRilCardStatus := mRilCardStatus s; m_aszAID := m_aszAID s; m_nSimCardState := m_nSimCardState s; m_nPinRemain := m_nPinRemain s;
     m_nPukRemain := m_nPukRemain s; m_pEnableFdnData := m_pEnableFdnData s; m_pSimIoData := m_pSimIoData s; m_pIccidInfo := m_pIccidInfo s;
     m_nImsAppType := m_nImsAppType s; m_nAutoPinState := state; m_szTempPIN := temp; m_szAutoPIN := auto; m_nBootState := boot;
     m_szAutoPinPropertyKey := m_szAutoPinPropertyKey s; m_szAutoPinPropertyKeyByPanic := m_szAutoPinPropertyKeyByPanic s;
     mImsi := mImsi s; properties := props; sim_token := sim_token s |}.
Definition set_keys (key panic : list Z) (s : SimService) : SimService :=
  {| mRilCardStatus := mRilCardStatus s; m_aszAID := m_aszAID s; m_nSimCardState := m_nSimCardState s; m_nPinRemain := m_nPinRemain s;
     m_nPukRemain := m_nPukRemain s; m_pEnableFdnData := m_pEnableFdnData s; m_pSimIoData := m_pSimIoData s; m_pIccidInfo := m_pIccidInfo s;
     m_nImsAppType := m_nImsAppType s; m_nAutoPinState := m_nAutoPinState s; m_szTempPIN := m_szTempPIN s; m_szAutoPIN := m_szAutoPIN s;
     m_nBootState := m_nBootState s; m_szAutoPinPropertyKey := key; m_szAutoPinPropertyKeyByPanic := panic;
     mImsi := mImsi s; properties := properties s; sim_token := sim_token s |}.
Definition set_imsi (imsi : list Z) (s : SimService) : SimService :=
  {| mRilCardStatus := mRilCardStatus s; m_aszAID := m_aszAID s; m_nSimCardState := m_nSimCardState s; m_nPinRemain := m_nPinRemain s;
     m_nPukRemain := m_nPukRemain s; m_pEnableFdnData := m_pEnableFdnData s; m_pSimIoData := m_pSimIoData s; m_pIccidInfo := m_pIccidInfo s;
     m_nImsAppType := m_nImsAppType s; m_nAutoPinState := m_nAutoPinState s; m_szTempPIN := m_szTempPIN s; m_szAutoPIN := m_szAutoPIN s;
     m_nBootState := m_nBootState s; m_szAutoPinPropertyKey := m_szAutoPinPropertyKey s;
     m_szAutoPinPropertyKeyByPanic := m_szAutoPinPropertyKeyByPanic s; mImsi := imsi; properties := properties s; sim_token := sim_token s |}.
Definition set_state (a : AutoPinState) (s : SimService) : SimService := set_auto a (m_szTempPIN s) (m_szAutoPIN s) (m_nBootState s) (properties s) s.
Definition set_counts (pin puk : Z * Z) (s : SimService) : SimService := set_sim (m_nSimCardState s) pin puk (m_pIccidInfo s) (m_nImsAppType s) (sim_token s) s.
Definition set_token (t : Z) (s : SimService) : SimService := set_sim (m_nSimCardState s) (m_nPinRemain s) (m_nPukRemain s) (m_pIccidInfo s) (m_nImsAppType s) t s.

(** *** Effects *)

(** one entry of [RIL_SimSlotStatusResult_1_2], and [RIL_SimLockStatus] *)
Record SlotStatus := {
  cardState : Z; slotState : Z; logicalSlotId : Z; atr_size : Z; slot_atr : option (list Z); iccid_size : Z; slot_iccid : option (list Z);
  eid_size : Z; slot_eid : option (list Z) }.
Record SimLockStatus := {
  policy : Z; lock_status : Z; lockType : Z; maxRetryCount : Z; remainCount : Z; numOfLockCode : Z; lockCode : option (list (list Z)) }.
Inductive Answer :=
| AnsNone | AnsInts (l : list Z) | AnsCard (c : CardStatus) | AnsSimIo (sw1 sw2 : Z) (response : option (list Z))
| AnsText (t : option (list Z)) | AnsRaw (p : option (list Z)) (length : Z) | AnsSlots (l : list SlotStatus) | AnsLock (l : SimLockStatus)
(** an entry of a phone book: [length] bytes, of which only the two numbers are defined *)
| AnsPbEntry (type index length : Z).
Inductive Act :=
(** a packet that was sent, and one that could not be *)
| ActSend (packet : list Z) (msg : DoneMsg) | ActUnsent (packet : list Z) (msg : DoneMsg) | ActComplete (code : Z) (a : Answer) | ActUnsol (id : Z) (data : list Z) | ActTimeout (ms : Z)
| ActImsAppType (t : Z)
(** the status of the slots, a number *)
| ActUnsolSlots (id : Z) (l : list SlotStatus) | ActUnsolInt (id n : Z)
(** a property of the context, one of the platform that the service does not read; the open carrier; the message to the packet service *)
| ActProperty (key value : list Z) | ActSystemProperty (key value : list Z) | ActOpenCarrier (mccmnc : list Z) | ActOperator (imsi carrier : list Z).
(** what a handler is given: whether a packet could be sent, whether the radio is available, the socket, and the code of a network that the
    files of the device name in place of another *)
Record SimEnv := { send_ok : bool; radio_available : bool; socket_id : Z; changed_mccmnc : list Z → option (list Z) }.
Definition plain_env (send_ok radio_available : bool) : SimEnv :=
  {| send_ok := send_ok; radio_available := radio_available; socket_id := 0; changed_mccmnc := λ _, None |}.
Abbreviation SM := (HM SimEnv SimService Act).
(** [OnRequestComplete] for the request that is worked on *)
Definition complete (code : Z) (a : Answer) : SM Z := emit (ActComplete code a);; mret 0.
Definition send (packet : option (list Z)) (msg : DoneMsg) : SM Z := λ e s,
  match packet with
  | Some p => if send_ok e then Ok (0, s, [ActSend p msg]) else Ok (-1, s, [ActUnsent p msg])
  | None => Ok (-1, s, [])
  end.
(** a builder takes the tokens its header needs *)
Definition build (f : Z → res (option (list Z) * Z)) : SM (option (list Z)) :=
  t ← gets sim_token; r ← lift (f t); modify (set_token r.2);; mret r.1.

(** *** The kept PIN *)

Definition RIL_E_PASSWORD_INCORRECT : Z := 3.
Definition RIL_E_SIM_PIN2 : Z := 4.
Definition RIL_E_SIM_ABSENT : Z := 11.
Definition RIL_UNSOL_RESPONSE_SIM_STATUS_CHANGED : Z := 1019.
Definition RIL_UNSOL_ICCID_INFO : Z := 6008.
(** [SystemProperty]: a name that is empty is not written *)
Definition prop_get (key : list Z) (m : gmap (list Z) (list Z)) : list Z := default [] (m !! key).
Definition prop_set (key value : list Z) (m : gmap (list Z) (list Z)) : gmap (list Z) (list Z) := if IsEmpty (Some key) then m else <[key := value]> m.
Definition ClearAutoVerifyPin : SM () := modify (λ s, set_auto AUTO_PIN_STATE_EMPTY [] [] (m_nBootState s) (properties s) s).
Definition EmptyAutoVerifyPin : SM () :=
  modify (λ s, set_auto (m_nAutoPinState s) (m_szTempPIN s) (m_szAutoPIN s) (m_nBootState s) (prop_set (m_szAutoPinPropertyKey s) [] (properties s)) s).
Definition empty_panic : SM () :=
  modify (λ s, set_auto (m_nAutoPinState s) (m_szTempPIN s) (m_szAutoPIN s) (m_nBootState s) (prop_set (m_szAutoPinPropertyKeyByPanic s) [] (properties s)) s).
Definition SetAutoVerifyPin (pszPin : option (list Z)) : SM () :=
  ClearAutoVerifyPin;;
  match pszPin with
  | Some (c :: p) =>
    key ← gets m_szAutoPinPropertyKey;
    kept ← lift (EncryptAutoVerifyPin key (c :: p));
    modify (λ s, set_auto AUTO_PIN_STATE_RECOVERED kept (m_szAutoPIN s) (m_nBootState s) (properties s) s)
  | _ => mret ()
  end.
Definition SetAutoVerifyPinDone (bSuccess : bool) : SM () :=
  modify (λ s,
    if bSuccess && negb (IsEmpty (Some (m_szTempPIN s)))
    then set_auto (m_nAutoPinState s) [] (take 128 (m_szTempPIN s)) (m_nBootState s)
           (prop_set (m_szAutoPinPropertyKeyByPanic s) (take 128 (m_szTempPIN s)) (properties s)) s
    else set_auto (m_nAutoPinState s) [] (m_szAutoPIN s) (m_nBootState s) (properties s) s).
Definition GetAutoVerifyPin : SM (list Z) := key ← gets m_szAutoPinPropertyKey; kept ← gets m_szAutoPIN; lift (DecryptAutoVerifyPin key kept).
Definition SaveAutoVerifyPin : SM () :=
  modify (λ s,
    if IsEmpty (Some (m_szAutoPIN s)) then s
    else set_auto AUTO_PIN_STATE_READY (m_szTempPIN s) (m_szAutoPIN s) (m_nBootState s) (prop_set (m_szAutoPinPropertyKey s) (m_szAutoPIN s) (properties s)) s).
(** a text that does not fit the array of 129 is written behind it *)
Definition LoadAutoVerifyPin : SM () :=
  p ← gets (λ s, prop_get (m_szAutoPinPropertyKey s) (properties s));
  match p with
  | [] => modify (set_state AUTO_PIN_STATE_EMPTY)
  | _ => if 128 <? lenZ p then lift UB else modify (λ s, set_auto AUTO_PIN_STATE_READY (m_szTempPIN s) p (m_nBootState s) (properties s) s)
  end.
Fixpoint contains (needle s : list Z) : bool :=
  bool_decide (take (length needle) s = needle) || match s with [] => false | _ :: s => contains needle s end.
Definition CheckBootReason (s : SimService) : BootState :=
  let reason := prop_get SYS_BOOT_REASON (properties s) in
  if IsEmpty (Some reason) then BOOT_STATE_UNKNOWN else if contains (str "kernel_panic") reason then BOOT_STATE_KERNEL_PANIC else BOOT_STATE_NORMAL.
Definition OnCreate (socket : Z) : SM Z :=
  modify (if socket =? 0 then set_keys PROP_AUTO_VERIFY_PIN_0 PROP_AUTO_PIN_0_BY_PANIC
          else if socket =? 1 then set_keys PROP_AUTO_VERIFY_PIN_1 PROP_AUTO_PIN_1_BY_PANIC else id);;
  ClearAutoVerifyPin;; LoadAutoVerifyPin;; EmptyAutoVerifyPin;; mret 0.
Definition OnReset : SM () := SaveAutoVerifyPin.

(** *** The status *)

Definition NotifyIccidInfo : SM () := λ e s,
  match m_pIccidInfo s with
  | Some d => if radio_available e
              then Ok ((), set_sim (m_nSimCardState s) (m_nPinRemain s) (m_nPukRemain s) None (m_nImsAppType s) (sim_token s) s, [ActUnsol RIL_UNSOL_ICCID_INFO d])
              else Ok ((), s, [])
  | None => Ok ((), s, [])
  end.
Definition OnSimHotSwap (bRemoval : bool) : SM () :=
  if bRemoval then modify (set_counts (-1, -1) (-1, -1));; ClearAutoVerifyPin;; EmptyAutoVerifyPin;; empty_panic else mret ().
(** the entry [index] of the identifiers: copied without its zero, and read up to the next one *)
Definition put_entry (aids : list Z) (index : Z) (s : list Z) : res (list Z) :=
  b ← wrn aids (36 * index) (fill 36 0); if 36 <? lenZ s then UB else wrn b (36 * index) s.
Definition entry (aids : list Z) (index : Z) : list Z := cstr (drop (Z.to_nat (36 * index)) aids).
(** one application of the frame; the ninth does not fit *)
Definition add_application (a : SimStatusAdapter) (i : Z) : SM () :=
  t ← lift (GetAppsType a i);
  if t =? RIL_APPTYPE_UNKNOWN then lift (GetAID a i);; mret ()
  else
    perso ← lift (GetPersonalSubstate a i);
    c ← gets mRilCardStatus;
    let index := num_applications c in
    if RIL_CARD_MAX_APPS <=? index then lift UB
    else
      sim ← gets m_nSimCardState;
      st ← (if decide (sim = SIM_CARDSTATE_PRESENT) then lift (GetAppsState a i) else mret RIL_APPSTATE_UNKNOWN);
      aid ← lift (GetAID a i);
      aids ← gets m_aszAID;
      aids ← (match aid with Some t => lift (put_entry aids index t) | None => mret aids end);
      replaced ← lift (GetPin1Replaced a i);
      pin1 ← lift (GetPinState a i 1);
      pin2 ← lift (GetPinState a i 2);
      p1 ← lift (GetPinRemainCount a i 1);
      p2 ← lift (GetPinRemainCount a i 2);
      k1 ← lift (GetPukRemainCount a i 1);
      k2 ← lift (GetPukRemainCount a i 2);
      let app := {| app_type := t; app_state := st; perso_substate := perso; aid_ptr := (λ _, entry aids index) <$> aid; pin1_replaced := replaced;
                    pin1 := pin1; pin2 := pin2 |} in
      modify (set_card
        {| card_state := card_state c; universal_pin_state := universal_pin_state c;
           gsm_umts_subscription_app_index := if (t =? RIL_APPTYPE_SIM) || (t =? RIL_APPTYPE_USIM) then index else gsm_umts_subscription_app_index c;
           cdma_subscription_app_index := if (t =? RIL_APPTYPE_RUIM) || (t =? RIL_APPTYPE_CSIM) then index else cdma_subscription_app_index c;
           ims_subscription_app_index := if t =? RIL_APPTYPE_ISIM then index else ims_subscription_app_index c;
           applications := applications c ++ [app]; physicalSlotId := physicalSlotId c; cs_atr := cs_atr c; cs_iccid := cs_iccid c; cs_eid := cs_eid c |} aids);;
      modify (set_counts (p1, p2) (k1, k2));;
      auto ← gets m_nAutoPinState;
      if (pin1 =? RIL_PINSTATE_ENABLED_NOT_VERIFIED) && bool_decide (auto = AUTO_PIN_STATE_READY) then modify (set_state AUTO_PIN_STATE_RECOVERY) else mret ().
Fixpoint add_applications (a : SimStatusAdapter) (n : nat) (i : Z) : SM () :=
  match n with O => mret () | S n => add_application a i;; add_applications a n (i + 1) end.
Definition has_type (t : Z) (c : CardStatus) : bool := existsb (λ p, app_type p =? t) (applications c).
Definition ims_type (c : CardStatus) : Z :=
  if has_type RIL_APPTYPE_ISIM c then 0 else if has_type RIL_APPTYPE_USIM c then 2 else if has_type RIL_APPTYPE_SIM c then 1 else 0.
(** the texts of the extension, into the arrays of [n] characters *)
Definition hex_field (ext : list Z) (off len n : Z) : res (list Z) :=
  r ← Value2HexString (Some (fill n 0)) (Some (drop (Z.to_nat off) ext)) len; Ok (cstr (as_buffer r.1)).
Definition extension_texts (ext : list Z) : res (list Z * list Z * list Z) :=
  l ← ext.[2]; atr ← (if 0 <? l then hex_field ext 3 l (MAX_ATR_LEN_GET_SIM * 2 + 1) else Ok []);
  l ← ext.[36]; iccid ← (if 0 <? l then b ← rdn ext 37 l; let t := bchToString b in if MAX_ICCID_LEN * 2 + 1 <? lenZ t then UB else Ok t else Ok []);
  l ← ext.[47]; eid ← (if 0 <? l then hex_field ext 48 l (MAX_EID_LEN * 2 + 1) else Ok []);
  Ok (atr, iccid, eid).
Definition BuildSimStatus (m_pModemData : option (list Z)) : SM CardStatus :=
  a ← lift (ProtocolSimStatusAdapter m_pModemData);
  card ← lift (GetCardState a);
  let sim := if card =? RIL_CARDSTATE_PRESENT then SIM_CARDSTATE_PRESENT else if card =? RIL_CARDSTATE_ABSENT then SIM_CARDSTATE_ABSENT else SIM_CARDSTATE_ERROR in
  old ← gets m_nSimCardState;
  (if decide (old = SIM_CARDSTATE_ABSENT ∧ sim = SIM_CARDSTATE_PRESENT) then OnSimHotSwap false
   else if decide (old = SIM_CARDSTATE_PRESENT ∧ sim = SIM_CARDSTATE_ABSENT) then OnSimHotSwap true else mret ());;
  modify (λ s, set_sim sim (m_nPinRemain s) (m_nPukRemain s) (m_pIccidInfo s) (m_nImsAppType s) (sim_token s) s);;
  NotifyIccidInfo;;
  pin ← lift (GetUniversalPinState a);
  modify (λ s, set_card (card_of card pin 0) (m_aszAID s) s);;
  n ← lift (GetApplicationCount a);
  add_applications a (Z.to_nat n) 0;;
  c ← gets mRilCardStatus;
  ims ← gets m_nImsAppType;
  (if ims =? ims_type c then mret ()
   else emit (ActImsAppType (ims_type c));; modify (λ s, set_sim (m_nSimCardState s) (m_nPinRemain s) (m_nPukRemain s) (m_pIccidInfo s) (ims_type c) (sim_token s) s));;
  slot ← lift ((m_tSimStatusRspExt a).[1]);
  texts ← (if 0 <? num_applications c then lift (extension_texts (m_tSimStatusRspExt a)) else mret ([], [], []));
  let c := {| card_state := card_state c; universal_pin_state := universal_pin_state c; gsm_umts_subscription_app_index := gsm_umts_subscription_app_index c;
              cdma_subscription_app_index := cdma_subscription_app_index c; ims_subscription_app_index := ims_subscription_app_index c;
              applications := applications c; physicalSlotId := if slot =? INVALID_SLOT_ID then 0xFFFFFFFF else slot;
              cs_atr := texts.1.1; cs_iccid := texts.1.2; cs_eid := texts.2 |} in
  modify (λ s, set_card c (m_aszAID s) s);; mret c.

(** *** PIN requests *)

Definition SIM_FAC_LOCK_STATE_UNLOCK : Z := 0.
Definition SIM_FAC_LOCK_STATE_LOCK : Z := 1.
(** [SimPinPuk] *)
Definition IsValidPinPuk (nSimPinPuk : SimPinPuk) (pszPinPuk : option (list Z)) : bool :=
  match pszPinPuk with
  | None => false
  | Some s =>
    match nSimPinPuk with SIM_PIN => (4 <=? lenZ s) && (lenZ s <=? 8) | SIM_PUK => 8 <=? lenZ s end
    && forallb (λ c, (48 <=? c) && (c <=? 57)) s
  end.
(** the second of two counts for the index 1 *)
Definition count_of (i : Z) (p : Z * Z) : Z := if i =? 0 then p.1 else p.2.
Definition with_count (i v : Z) (p : Z * Z) : Z * Z := if i =? 0 then (v, p.2) else (p.1, v).
Definition BuildSimPinPukResponse (nRemainCount : Z) : Answer := AnsInts (SetInt 0 nRemainCount (newRilDataInts 1)).2.
Definition SendPasswordInvalid (nSimPinPuk : SimPinPuk) (nPinPukIndex : Z) : SM Z :=
  n ← gets (λ s, count_of nPinPukIndex (match nSimPinPuk with SIM_PIN => m_nPinRemain s | SIM_PUK => m_nPukRemain s end));
  r ← complete RIL_E_PASSWORD_INCORRECT (BuildSimPinPukResponse n); mret (ret_code r).
Definition NULL_REQ {A} (pMsg : option A) (f : A → SM Z) : SM Z := match pMsg with Some r => f r | None => mret (-1) end.
Definition is_text (s : option (list Z)) : bool := negb (IsEmpty s).
(** an empty code asks for the remaining attempts *)
Definition answer_remain (nSimPinPuk : SimPinPuk) (i : Z) : SM Z :=
  n ← gets (λ s, count_of i (match nSimPinPuk with SIM_PIN => m_nPinRemain s | SIM_PUK => m_nPukRemain s end));
  r ← complete RIL_E_SUCCESS (BuildSimPinPukResponse n); mret (ret_code r).
Definition DoVerifyPin (pMsg : option StringsRequestData) : SM Z :=
  NULL_REQ pMsg (λ rildata,
    let pszPIN := GetString 0 rildata in
    if is_text pszPIN
    then if IsValidPinPuk SIM_PIN pszPIN
         then packet ← build (λ t, BuildSimVerifyPin t 1 pszPIN (GetString 1 rildata));
              nResult ← send packet MSG_SIM_VERIFY_PIN_DONE;
              SetAutoVerifyPin pszPIN;; modify (set_state AUTO_PIN_STATE_VERIFY);; mret (ret_code nResult)
         else SendPasswordInvalid SIM_PIN 0
    else answer_remain SIM_PIN 0).
Definition DoVerifyPuk (pMsg : option StringsRequestData) : SM Z :=
  NULL_REQ pMsg (λ rildata,
    let pszPUK := GetString 0 rildata in
    let pszNewPIN := GetString 1 rildata in
    if is_text pszPUK && is_text pszNewPIN
    then if IsValidPinPuk SIM_PUK pszPUK && IsValidPinPuk SIM_PIN pszNewPIN
         then packet ← build (λ t, BuildSimVerifyPuk t 1 pszPUK pszNewPIN (GetString 2 rildata));
              nResult ← send packet MSG_SIM_VERIFY_PUK_DONE;
              SetAutoVerifyPin pszNewPIN;; modify (set_state AUTO_PIN_STATE_UNLOCK);; mret (ret_code nResult)
         else SendPasswordInvalid SIM_PUK 0
    else answer_remain SIM_PUK 0).
Definition DoVerifyPin2 (pMsg : option StringsRequestData) : SM Z :=
  NULL_REQ pMsg (λ rildata,
    let pszPIN := GetString 0 rildata in
    if is_text pszPIN
    then if IsValidPinPuk SIM_PIN pszPIN
         then packet ← build (λ t, BuildSimVerifyPin t 2 pszPIN (GetString 1 rildata)); ret_code <$> send packet MSG_SIM_VERIFY_PIN2_DONE
         else SendPasswordInvalid SIM_PIN 1
    else answer_remain SIM_PIN 1).
Definition DoVerifyPuk2 (pMsg : option StringsRequestData) : SM Z :=
  NULL_REQ pMsg (λ rildata,
    let pszPUK := GetString 0 rildata in
    let pszNewPIN := GetString 1 rildata in
    if is_text pszPUK && is_text pszNewPIN
    then if IsValidPinPuk SIM_PUK pszPUK && IsValidPinPuk SIM_PIN pszNewPIN
         then packet ← build (λ t, BuildSimVerifyPuk t 2 pszPUK pszNewPIN (GetString 2 rildata)); ret_code <$> send packet MSG_SIM_VERIFY_PUK2_DONE
         else SendPasswordInvalid SIM_PUK 1
    else answer_remain SIM_PUK 1).
Definition DoChangePin (pMsg : option StringsRequestData) : SM Z :=
  NULL_REQ pMsg (λ rildata,
    let pszOldPIN := GetString 0 rildata in
    let pszNewPIN := GetString 1 rildata in
    if is_text pszOldPIN && is_text pszNewPIN
    then if IsValidPinPuk SIM_PIN pszOldPIN && IsValidPinPuk SIM_PIN pszNewPIN
         then packet ← build (λ t, BuildSimChangePin t 1 pszOldPIN pszNewPIN (GetString 2 rildata));
              nResult ← send packet MSG_SIM_CHANGE_PIN_DONE;
              SetAutoVerifyPin pszNewPIN;; modify (set_state AUTO_PIN_STATE_CHANGE);; mret (ret_code nResult)
         else SendPasswordInvalid SIM_PIN 0
    else SendPasswordInvalid SIM_PIN 0).
Definition DoChangePin2 (pMsg : option StringsRequestData) : SM Z :=
  NULL_REQ pMsg (λ rildata,
    let pszOldPIN := GetString 0 rildata in
    let pszNewPIN := GetString 1 rildata in
    if is_text pszOldPIN && is_text pszNewPIN
    then if IsValidPinPuk SIM_PIN pszOldPIN && IsValidPinPuk SIM_PIN pszNewPIN
         then packet ← build (λ t, BuildSimChangePin t 2 pszOldPIN pszNewPIN (GetString 2 rildata)); ret_code <$> send packet MSG_SIM_CHANGE_PIN2_DONE
         else SendPasswordInvalid SIM_PIN 1
    else SendPasswordInvalid SIM_PIN 1).
(** the kind of lock the card is in *)
Fixpoint network_fac (apps : list AppStatus) : Z :=
  match apps with
  | a :: apps =>
    if app_state a =? RIL_APPSTATE_SUBSCRIPTION_PERSO
    then if perso_substate a =? RIL_PERSOSUBSTATE_SIM_NETWORK then FAC_PN
         else if perso_substate a =? RIL_PERSOSUBSTATE_SIM_NETWORK_SUBSET then FAC_PU
         else if perso_substate a =? RIL_PERSOSUBSTATE_SIM_CORPORATE then FAC_PP
         else if perso_substate a =? RIL_PERSOSUBSTATE_SIM_SERVICE_PROVIDER then FAC_PC
         else network_fac apps
    else network_fac apps
  | [] => -1
  end.
Definition DoVerifyNetworkLock (pMsg : option StringsRequestData) : SM Z :=
  NULL_REQ pMsg (λ rildata,
    nFac ← gets (λ s, network_fac (applications (mRilCardStatus s)));
    if nFac =? -1 then mret (-1)
    else if is_text (GetString 0 rildata)
    then packet ← build (λ t, BuildSimVerifyNetworkLock t FAC_PN (GetString 0 rildata) 0 None); ret_code <$> send packet MSG_SIM_VERIFY_NETWORK_LOCK_DONE
    else mret (-1)).

(** *** PIN answers *)

Definition take_count (nSimPinPuk : SimPinPuk) (i remain : Z) : SM () :=
  modify (λ s, match nSimPinPuk with
               | SIM_PIN => set_counts (with_count i remain (m_nPinRemain s)) (m_nPukRemain s) s
               | SIM_PUK => set_counts (m_nPinRemain s) (with_count i remain (m_nPukRemain s)) s
               end).
Definition DoGetSimStatus : SM Z := packet ← build BuildSimGetStatus; ret_code <$> send packet MSG_SIM_GET_STATUS_DONE.
Definition OnVerifyPinDone (m_pModemData : option (list Z)) : SM Z :=
  remain ← lift (ProtocolSimVerifyPinAdapter m_pModemData);
  take_count SIM_PIN 0 remain;;
  uErrCode ← lift (Rcm.GetErrorCode m_pModemData);
  auto ← gets m_nAutoPinState;
  (if uErrCode =? RIL_E_SUCCESS
   then match auto with
        | AUTO_PIN_STATE_RECOVERY => modify (set_state AUTO_PIN_STATE_RECOVERED);; DoGetSimStatus;; mret ()
        | AUTO_PIN_STATE_VERIFY =>
          modify (set_state AUTO_PIN_STATE_RECOVERED);; SetAutoVerifyPinDone true;; complete RIL_E_SUCCESS (BuildSimPinPukResponse remain);; mret ()
        | _ => complete RIL_E_SUCCESS (BuildSimPinPukResponse remain);; mret ()
        end
   else (match auto with
         | AUTO_PIN_STATE_RECOVERY => mret ()
         | _ => complete uErrCode (BuildSimPinPukResponse remain);; mret ()
         end);; SetAutoVerifyPinDone false;; ClearAutoVerifyPin);; mret 0.
(** the answer to a request that changes the PIN *)
Definition new_pin_done (uErrCode remain : Z) : SM Z :=
  (if uErrCode =? RIL_E_SUCCESS
   then modify (set_state AUTO_PIN_STATE_RECOVERED);; SetAutoVerifyPinDone true;; complete RIL_E_SUCCESS (BuildSimPinPukResponse remain);; mret ()
   else complete uErrCode (BuildSimPinPukResponse remain);; SetAutoVerifyPinDone false;; ClearAutoVerifyPin);; mret 0.
Definition OnVerifyPukDone (m_pModemData : option (list Z)) : SM Z :=
  remain ← lift (ProtocolSimVerifyPukAdapter m_pModemData);
  take_count SIM_PUK 0 remain;; uErrCode ← lift (Rcm.GetErrorCode m_pModemData); new_pin_done uErrCode remain.
Definition OnChangePinDone (m_pModemData : option (list Z)) : SM Z :=
  uErrCode ← lift (Rcm.GetErrorCode m_pModemData); remain ← lift (ProtocolSimVerifyPinAdapter m_pModemData); new_pin_done uErrCode remain.
Definition OnVerifyPuk2Done (m_pModemData : option (list Z)) : SM Z :=
  remain ← lift (ProtocolSimVerifyPukAdapter m_pModemData);
  take_count SIM_PUK 1 remain;; uErrCode ← lift (Rcm.GetErrorCode m_pModemData); complete uErrCode (BuildSimPinPukResponse remain);; mret 0.
Definition OnChangePin2Done (m_pModemData : option (list Z)) : SM Z :=
  uErrCode ← lift (Rcm.GetErrorCode m_pModemData); remain ← lift (ProtocolSimVerifyPinAdapter m_pModemData);
  complete uErrCode (BuildSimPinPukResponse remain);; mret 0.
Definition OnVerifyNetworkLockDone (m_pModemData : option (list Z)) : SM Z :=
  uErrCode ← lift (Rcm.GetErrorCode m_pModemData); remain ← lift (ProtocolSimVerifyNetLockAdapter m_pModemData);
  complete uErrCode (BuildSimPinPukResponse remain);; mret 0.
(** what waited for the PIN2: the lock of the fixed dialling numbers, or else the change of a file *)
Definition OnVerifyPin2Done (m_pModemData : option (list Z)) : SM Z :=
  remain ← lift (ProtocolSimVerifyPinAdapter m_pModemData);
  take_count SIM_PIN 1 remain;;
  uErrCode ← lift (Rcm.GetErrorCode m_pModemData);
  fdn ← gets m_pEnableFdnData;
  io ← gets m_pSimIoData;
  (if uErrCode =? RIL_E_SUCCESS
   then match fdn, io with
        | Some p, _ =>
          r ← send (Some p) MSG_SIM_SET_FACILITY_LOCK_DONE; (if r =? -1 then complete RIL_E_GENERIC_FAILURE AnsNone else mret 0);; modify (set_pending None io)
        | None, Some p =>
          r ← send (Some p) MSG_SIM_IO_DONE; (if r =? -1 then complete RIL_E_GENERIC_FAILURE AnsNone else mret 0);; modify (set_pending None None)
        | None, None => complete RIL_E_SUCCESS (BuildSimPinPukResponse remain);; mret ()
        end
   else match fdn, io with
        | Some _, _ => complete uErrCode (BuildSimPinPukResponse remain);; modify (set_pending None io)
        | None, Some _ => complete RIL_E_SIM_PIN2 AnsNone;; modify (set_pending None None)
        | None, None => complete uErrCode (BuildSimPinPukResponse remain);; mret ()
        end);; mret 0.

(** *** Facility locks *)

Definition MAX_FACILITY_CODE_LEN : Z := 3.
Definition MAX_PASSWORD_LEN : Z := 9.
Record FacilityLock := { m_szCode : list Z; m_nLockState : Z; m_szPassword : list Z; m_nServiceClass : Z; m_szAID : list Z }.
(** a text that does not fit its array with its zero is written or read behind it *)
Definition fits (n : Z) (s : option (list Z)) : res (list Z) :=
  match s with Some s => if lenZ s <=? n then Ok s else UB | None => Ok [] end.
Definition number (s : option (list Z)) : res Z := match s with Some s => to_int s | None => UB end.
Definition FacilityLock_Parse (strings : list (option (list Z))) (nStrCount : Z) : res (option FacilityLock) :=
  code ← strings.[0];
  code ← match code with Some c => fits MAX_FACILITY_CODE_LEN (Some c) | None => UB end;
  t ← (if nStrCount =? 4 then p ← strings.[1]; c ← strings.[2]; a ← strings.[3]; Ok (Some (SIM_FAC_LOCK_STATE_UNLOCK, p, c, a))
       else if nStrCount =? 5
       then l ← strings.[1]; l ← number l; p ← strings.[2]; c ← strings.[3]; a ← strings.[4]; Ok (Some (l, p, c, a))
       else Ok None);
  match t with
  | None => Ok None
  | Some (l, p, c, a) =>
    p ← fits MAX_PASSWORD_LEN p;
    c ← number c;
    a ← fits (MAX_SIM_AID_LEN * 2) a;
    Ok (Some {| m_szCode := code; m_nLockState := l; m_szPassword := p; m_nServiceClass := c; m_szAID := a |})
  end.
(** the guards of both requests *)
Definition with_facility (pMsg : option StringsRequestData) (f : FacilityLock → SM Z) : SM Z :=
  NULL_REQ pMsg (λ pReq,
    match m_ptrStrings pReq with
    | None => complete RIL_E_INVALID_ARGUMENTS AnsNone;; mret 0
    | Some strings =>
      first ← lift strings.[0];
      match first with
      | None => complete RIL_E_INVALID_ARGUMENTS AnsNone;; mret 0
      | Some _ =>
        r ← lift (FacilityLock_Parse strings (m_nStringCount pReq));
        match r with Some rildata => f rildata | None => complete RIL_E_INVALID_ARGUMENTS AnsNone;; mret 0 end
      end
    end).
Definition DoGetFacilityLock (pMsg : option StringsRequestData) : SM Z :=
  with_facility pMsg (λ rildata,
    packet ← build (λ t, BuildSimGetFacilityLock t (m_szCode rildata) (m_szPassword rildata) (m_nServiceClass rildata) (m_szAID rildata));
    ret_code <$> send packet MSG_SIM_GET_FACILITY_LOCK_DONE).
Definition DoSetFacilityLock (pMsg : option StringsRequestData) : SM Z :=
  with_facility pMsg (λ rildata,
    packet ← build (λ t, BuildSimSetFacilityLock t (m_szCode rildata) (m_nLockState rildata) (m_szPassword rildata) (m_nServiceClass rildata) (m_szAID rildata));
    (if decide (m_szCode rildata = str "SC")
     then SetAutoVerifyPin (Some (m_szPassword rildata));;
          (if m_nLockState rildata =? SIM_FAC_LOCK_STATE_UNLOCK then modify (set_state AUTO_PIN_STATE_DISABLE)
           else if m_nLockState rildata =? SIM_FAC_LOCK_STATE_LOCK then modify (set_state AUTO_PIN_STATE_ENABLE) else mret ())
     else mret ());;
    if decide (m_szCode rildata = str "FD")
    then if is_text (Some (m_szPassword rildata))
         then modify (λ s, set_pending packet (m_pSimIoData s) s);;
              verify ← build (λ t, BuildSimVerifyPin t 2 (Some (m_szPassword rildata)) (Some (m_szAID rildata)));
              match verify with Some _ => ret_code <$> send verify MSG_SIM_VERIFY_PIN2_DONE | None => mret (-1) end
         else mret (-1)
    else match packet with Some _ => ret_code <$> send packet MSG_SIM_SET_FACILITY_LOCK_DONE | None => mret (-1) end).
Definition OnGetFacilityLockDone (m_pModemData : option (list Z)) : SM Z :=
  uErrCode ← lift (Rcm.GetErrorCode m_pModemData);
  (if uErrCode =? RIL_E_SUCCESS
   then c ← lift (GetFacilityServiceClass m_pModemData); complete RIL_E_SUCCESS (BuildSimPinPukResponse c)
   else complete uErrCode AnsNone);; mret 0.
Definition OnSetFacilityLockDone (m_pModemData : option (list Z)) : SM Z :=
  uErrCode ← lift (Rcm.GetErrorCode m_pModemData);
  remain ← lift (ProtocolSimSetFacilityLockAdapter m_pModemData);
  complete uErrCode (BuildSimPinPukResponse remain);;
  (if uErrCode =? RIL_E_SUCCESS
   then auto ← gets m_nAutoPinState;
        match auto with
        | AUTO_PIN_STATE_ENABLE => modify (set_state AUTO_PIN_STATE_RECOVERED);; SetAutoVerifyPinDone true
        | AUTO_PIN_STATE_DISABLE => ClearAutoVerifyPin;; empty_panic
        | _ => mret ()
        end
   else SetAutoVerifyPinDone false;; ClearAutoVerifyPin);; mret 0.

(** *** The status request *)

Definition OnGetSimStatusDone (m_pModemData : option (list Z)) : SM Z :=
  match m_pModemData with
  | None => mret (-1)
  | Some raw =>
    uErrCode ← lift (Rcm.GetErrorCode m_pModemData);
    if uErrCode =? RIL_E_SUCCESS
    then
      c ← BuildSimStatus m_pModemData;
      auto ← gets m_nAutoPinState;
      if decide (auto = AUTO_PIN_STATE_RECOVERY)
      then
        szPin ← GetAutoVerifyPin;
        aids ← gets m_aszAID;
        packet ← build (λ t, BuildSimVerifyPin t 1 (Some szPin) (Some (entry aids 0)));
        nResult ← send packet MSG_SIM_VERIFY_PIN_DONE;
        (if nResult <? 0 then modify (set_state AUTO_PIN_STATE_READY) else mret ());; mret 0
      else
        boot ← gets m_nBootState;
        if bool_decide (boot = BOOT_STATE_UNKNOWN) && (card_state c =? RIL_CARDSTATE_PRESENT)
        then
          boot ← gets CheckBootReason;
          modify (λ s, set_auto (m_nAutoPinState s) (m_szTempPIN s) (m_szAutoPIN s) boot (properties s) s);;
          match boot with
          | BOOT_STATE_KERNEL_PANIC =>
            p ← gets (λ s, prop_get (m_szAutoPinPropertyKeyByPanic s) (properties s));
            if is_text (Some p)
            then modify (λ s, set_auto AUTO_PIN_STATE_READY (m_szTempPIN s) (take 128 p) (m_nBootState s) (properties s) s);; emit (ActTimeout 50);; mret 0
            else complete RIL_E_SUCCESS (AnsCard c);; mret 0
          | BOOT_STATE_UNKNOWN => emit (ActTimeout 2000);; mret 0
          | BOOT_STATE_NORMAL => complete RIL_E_SUCCESS (AnsCard c);; mret 0
          end
        else complete RIL_E_SUCCESS (AnsCard c);; mret 0
    else
      let c := card_of (if uErrCode =? RIL_E_SIM_ABSENT then RIL_CARDSTATE_ABSENT else RIL_CARDSTATE_ERROR) RIL_PINSTATE_UNKNOWN 0xFFFFFFFF in
      modify (λ s, set_card c (m_aszAID s) s);; complete RIL_E_SUCCESS (AnsCard c);; mret 0
  end.
Definition unknown_app (a : AppStatus) : AppStatus :=
  {| app_type := app_type a; app_state := RIL_APPSTATE_UNKNOWN; perso_substate := perso_substate a; aid_ptr := aid_ptr a; pin1_replaced := pin1_replaced a;
     pin1 := pin1 a; pin2 := pin2 a |}.
Definition OnGetSimStatusTimeout (m_pModemData : option (list Z)) : SM Z :=
  match m_pModemData with
  | None => mret (-1)
  | Some _ =>
    c ← gets mRilCardStatus;
    let c := {| card_state := card_state c; universal_pin_state := universal_pin_state c; gsm_umts_subscription_app_index := gsm_umts_subscription_app_index c;
                cdma_subscription_app_index := cdma_subscription_app_index c; ims_subscription_app_index := ims_subscription_app_index c;
                applications := unknown_app <$> applications c; physicalSlotId := physicalSlotId c; cs_atr := cs_atr c; cs_iccid := cs_iccid c; cs_eid := cs_eid c |} in
    modify (λ s, set_card c (m_aszAID s) s);;
    complete RIL_E_SUCCESS (AnsCard c);; emit (ActUnsol RIL_UNSOL_RESPONSE_SIM_STATUS_CHANGED []);; mret 0
  end.
