(* ===== verification/SimPinTheorems.v ===== *)
(** The PIN: what is kept of it, scrambled, comes back; and the rules for the steps
    of a SIM handler, beside those of [Handler.v]. *)
From stdpp Require Import gmap.
From S2P Require Import Prelude RilDef Text WaitList Rcm Handler Layout RilData SimPackets SimPin.

(** ** Scrambling *)

Lemma Value2HexString_zeros inp m n : 0 < n <= lenZ inp → 2 * n + 1 <= m →
  Value2HexString (Some (fill m 0)) (Some inp) n = Ok (Some (hex_of (take (Z.to_nat n) inp) ++ fill (m - 2 * n) 0), 2 * n).
Proof.
  intros Hn Hm. unfold Value2HexString. replace (0 <? n) with true by lia.
  destruct (for_up_inv (λ i st, st = (hex_of (take (Z.to_nat i) inp) ++ fill (m - 2 * i) 0, 2 * i)) (Z.to_nat n) 0
     (λ i '(out, off), d ← inp.[i]; out ← snprintf out off 3 (hex2 d); Ok (out, off + 2)) (fill m 0, 0)) as (r & -> & ->).
  - by rewrite Z.mul_0_r, Z.sub_0_r.
  - intros i st Hi ->. destruct (rd_ok inp i) as (d & -> & Ld); [lia|]. cbn [mbind res_bind]. unfold snprintf. cbn [Z.eqb Z.to_nat].
    change (take _ (hex2 d)) with (hex2 d).
    assert (lenZ (hex_of (take (Z.to_nat i) inp)) = 2 * i) as Hp by (rewrite lenZ_hex_of, take_lenZ; lia).
    rewrite wrn_at by (rewrite ?lenZ_fill by lia; done || (change (lenZ (hex2 d ++ [0])) with 3; lia)). cbn [mbind res_bind].
    eexists. split; [done|]. rewrite (take_Z_snoc _ _ d), hex_of_app by (done || lia). change (hex_of [d]) with (hex2 d). f_equal; [|lia].
    rewrite <- !app_assoc. do 2 f_equal. unfold fill. rewrite drop_replicate. change (Datatypes.length (hex2 d ++ [0])) with 3%nat.
    change [0] with (replicate 1 0). rewrite <- replicate_add. f_equal. lia.
  - rewrite Z2Nat.id, Z.add_0_l by lia. cbn [mbind res_bind fst snd].
    rewrite wr_at; [|rewrite lenZ_hex_of, take_lenZ; lia|rewrite lenZ_fill; lia]. cbn [mbind res_bind]. do 4 f_equal. unfold fill.
    rewrite drop_replicate. change (0 :: ?r) with (replicate 1 0 ++ r). rewrite <- replicate_add. f_equal. lia.
Qed.

(** the loops of both directions on sixteen characters, whatever is done with a cell *)
Section loops.
Variables (pack xor unpack : Z → Z → Z → Z) (rest : Z → Z → Z).
Lemma encrypt_loops h0 h1 h2 h3 h4 h5 h6 h7 h8 h9 h10 h11 h12 h13 h14 h15 :
  let h := [h0; h1; h2; h3; h4; h5; h6; h7; h8; h9; h10; h11; h12; h13; h14; h15] in
  (b ← scramble (fill 128 0) (h ++ fill 112 0); loop 17 (pin_pack_step pack 16 b) (0, 0, h ++ fill 112 0))
  = Ok ([pack 0 h0 h1; pack 1 h1 h4; pack 2 h4 h8; pack 3 h8 h5; pack 4 h5 h2; pack 5 h2 h3; pack 6 h3 h6;
         pack 0 h9 h12; pack 1 h12 h13; pack 2 h13 h10; pack 3 h10 h7; pack 4 h7 h11; pack 5 h11 h14; pack 6 h14 h15; h14; h15] ++ fill 112 0).
Proof. vm_compute. reflexivity. Qed.
Lemma xor_loop key m p0 p1 p2 p3 p4 p5 p6 p7 p8 p9 p10 p11 p12 p13 q0 q1 :
  key = PROP_AUTO_VERIFY_PIN_0 ∨ key = PROP_AUTO_VERIFY_PIN_1 → m = 14 ∨ m = 16 →
  xor_key xor key m ([p0; p1; p2; p3; p4; p5; p6; p7; p8; p9; p10; p11; p12; p13; q0; q1] ++ fill 112 0)
  = Ok (imap (λ i c, if Z.of_nat i <? m then xor (Z.of_nat i) c (key !!! i) else c)
          [p0; p1; p2; p3; p4; p5; p6; p7; p8; p9; p10; p11; p12; p13; q0; q1] ++ fill 112 0).
Proof. intros [-> | ->] [-> | ->]; vm_compute; reflexivity. Qed.
Lemma decrypt_loops b0 b1 b2 b3 b4 b5 b6 b7 b8 b9 b10 b11 b12 b13 :
  (t ← for_up 14 0 (pin_unpack_step unpack rest ([b0; b1; b2; b3; b4; b5; b6; b7; b8; b9; b10; b11; b12; b13] ++ fill 114 0)) (0, 0, fill 128 0);
   unscramble (fill 128 0) t.2)
  = Ok ([unpack 0 b0 0; unpack 1 b1 (rest 0 b0); unpack 5 b5 (rest 4 b4); unpack 6 b6 (rest 5 b5); unpack 2 b2 (rest 1 b1);
         unpack 4 b4 (rest 3 b3); rest 6 b6; unpack 4 b11 (rest 3 b10); unpack 3 b3 (rest 2 b2); unpack 0 b7 0; unpack 3 b10 (rest 2 b9);
         unpack 5 b12 (rest 4 b11); unpack 1 b8 (rest 0 b7); unpack 2 b9 (rest 1 b8); unpack 6 b13 (rest 5 b12); rest 6 b13] ++ fill 112 0).
Proof. vm_compute. reflexivity. Qed.
End loops.
(** seven bits of two characters in a byte, and back *)
Lemma rest7_pack7 r z a : 0 <= r < 7 → 0 <= z < 128 → 0 <= a < 128 → rest7 r (pack7 r z a) = Z.land a (Z.ones (r + 1)).
Proof.
  intros Hr Hz Ha. apply Z.eqb_eq. revert r Hr.
  apply (small_forall 7 (λ r, rest7 r (pack7 r z a) =? Z.land a (Z.ones (r + 1)))). revert z a Hz Ha.
  apply (small_forall2 128 128 (λ z a, forallb (λ r, rest7 r (pack7 r z a) =? Z.land a (Z.ones (r + 1))) (seqZ 0 7))). vm_compute. reflexivity.
Qed.
Lemma unpack7_pack7 r a b : 0 <= r < 7 → 0 <= a < 128 → 0 <= b < 128 → unpack7 r (pack7 r a b) (Z.land a (Z.ones r)) = a.
Proof.
  intros Hr Ha Hb. apply Z.eqb_eq. revert r Hr.
  apply (small_forall 7 (λ r, unpack7 r (pack7 r a b) (Z.land a (Z.ones r)) =? a)). revert a b Ha Hb.
  apply (small_forall2 128 128 (λ a b, forallb (λ r, unpack7 r (pack7 r a b) (Z.land a (Z.ones r)) =? a) (seqZ 0 7))). vm_compute. reflexivity.
Qed.
Lemma unpack7_first a b : 0 <= a < 128 → 0 <= b < 128 → unpack7 0 (pack7 0 a b) 0 = a.
Proof. intros Ha Hb. rewrite <- (unpack7_pack7 0 a b) at 2 by done. by rewrite Z.land_0_r. Qed.
Lemma unpack7_next r z a b : 0 <= r < 6 → 0 <= z < 128 → 0 <= a < 128 → 0 <= b < 128 → unpack7 (r + 1) (pack7 (r + 1) a b) (rest7 r (pack7 r z a)) = a.
Proof. intros Hr Hz Ha Hb. rewrite rest7_pack7 by (done || lia). apply unpack7_pack7; lia. Qed.
Lemma rest7_last a b : 0 <= a < 128 → 0 <= b < 128 → rest7 6 (pack7 6 a b) = b.
Proof. intros Ha Hb. rewrite rest7_pack7 by done. change (Z.ones (6 + 1)) with (Z.ones 7). rewrite Z.land_ones by done. by apply Z.mod_small. Qed.
Lemma lxor_byte a b : is_byte a → is_byte b → is_byte (Z.lxor a b).
Proof.
  intros Ha Hb. assert (Z.lxor a b = Z.lor (Z.ldiff a b) (Z.ldiff b a)) as ->.
  { apply Z.bits_inj'. intros k _. rewrite Z.lxor_spec, Z.lor_spec, !Z.ldiff_spec. by destruct (Z.testbit a k), (Z.testbit b k). }
  unfold is_byte in *. rewrite !Z.ldiff_land. apply (lor_range _ _ 8); [done| |]; by apply land_range_l.
Qed.
Lemma lxor_twice a k : Z.lxor (Z.lxor a k) k = a.
Proof. by rewrite Z.lxor_assoc, Z.lxor_nilpotent, Z.lxor_0_r. Qed.
Definition is_key (key : list Z) : Prop := key = PROP_AUTO_VERIFY_PIN_0 ∨ key = PROP_AUTO_VERIFY_PIN_1.
Lemma key_byte key i : is_key key → (i < 16)%nat → is_byte (key !!! i).
Proof.
  intros Hk Hi. assert (bytes_ok key ∧ (16 <= length key)%nat) as [Hb Hl] by by destruct Hk as [-> | ->]; split; [by_eval|cbn; lia|by_eval|cbn; lia].
  apply (Forall_lookup_1 _ key i); [done|]. by apply list_lookup_lookup_total_lt; lia.
Qed.
(** what is kept of a code of eight characters, and that the code comes back *)
Lemma scrambled key h : is_key key → length h = 16%nat → Forall (λ c, 0 <= c < 128) h →
  ∃ data, bytes_ok data ∧ lenZ data = 14 ∧
    (szBuffer ← scramble (fill 128 0) (h ++ fill 112 0);
     szHexStr ← loop 17 (pin_pack_step pack7 16 szBuffer) (0, 0, h ++ fill 112 0);
     szHexStr ← xor_key xor2 key 16 szHexStr;
     r ← Value2HexString (Some (fill 129 0)) (Some szHexStr) 14;
     Ok (cstr (as_buffer r.1))) = Ok (hex_of data) ∧
    (szHexDec ← xor_key xor2 key 14 (data ++ fill 114 0);
     t ← for_up 14 0 (pin_unpack_step unpack7 rest7 szHexDec) (0, 0, fill 128 0);
     unscramble (fill 128 0) t.2) = Ok (h ++ fill 112 0).
Proof.
  intros Hk Hl Hf. do 16 (destruct h as [|? h]; [done|]). destruct h; [|done]. clear Hl.
  repeat (apply Forall_cons in Hf as [? Hf]). clear Hf.
  match goal with |- context [[?h0; ?h1; ?h2; ?h3; ?h4; ?h5; ?h6; ?h7; ?h8; ?h9; ?h10; ?h11; ?h12; ?h13; ?h14; ?h15] ++ _] =>
    pose proof (encrypt_loops pack7 h0 h1 h2 h3 h4 h5 h6 h7 h8 h9 h10 h11 h12 h13 h14 h15) as E; cbv zeta in E;
    apply bind_ok in E as (b & E1 & E2); rewrite E1; cbn [mbind res_bind]; rewrite E2; cbn [mbind res_bind]; clear E1 E2;
    set (p := [pack7 0 h0 h1; pack7 1 h1 h4; pack7 2 h4 h8; pack7 3 h8 h5; pack7 4 h5 h2; pack7 5 h2 h3; pack7 6 h3 h6;
         pack7 0 h9 h12; pack7 1 h12 h13; pack7 2 h13 h10; pack7 3 h10 h7; pack7 4 h7 h11; pack7 5 h11 h14; pack7 6 h14 h15])
  end.
  exists (imap (λ i c, Z.lxor c (key !!! i)) p). assert (bytes_ok (imap (λ i c, Z.lxor c (key !!! i)) p)) as Hb.
  { apply Forall_lookup_2. intros i c Hi. rewrite list_lookup_imap in Hi. destruct (p !! i) as [q|] eqn:Eq; [|done]. injection Hi as <-.
    pose proof (lookup_lt_Some _ _ _ Eq) as Hlt. apply lxor_byte; [|apply key_byte; [done|change (length p) with 14%nat in Hlt; lia] ].
    unfold p in Eq. do 14 (destruct i as [|i]; [injection Eq as <-; apply u8_byte|]). done. }
  split; [exact Hb|]. split; [done|]. split.
  - unfold p. cbn [app]. match goal with |- context [xor_key xor2 key 16 ?l] => idtac end.
    etrans; [apply (bind_eq _ _ _ (xor_loop xor2 key 16 _ _ _ _ _ _ _ _ _ _ _ _ _ _ _ _ Hk ltac:(by right)))|]. cbv beta.
    rewrite Value2HexString_zeros; [|done|done]. cbn [mbind res_bind fst as_buffer default from_option].
    unfold id. change (fill (129 - 2 * 14) 0) with (0 :: fill 100 0). rewrite cstr_app; [reflexivity|]. apply nonul_hex_of. exact Hb.
  - assert (imap (λ i c, Z.lxor c (key !!! i)) p ++ fill 114 0 = [] ++ (imap (λ i c, Z.lxor c (key !!! i)) p ++ [0; 0]) ++ fill 112 0) as -> by done.
    cbn [app]. etrans; [apply (bind_eq _ _ _ (xor_loop xor2 key 14 _ _ _ _ _ _ _ _ _ _ _ _ _ _ _ _ Hk ltac:(by left)))|]. cbv beta.
    etrans; [apply (decrypt_loops unpack7 rest7)|]. cbn. unfold xor2. rewrite !lxor_twice.
    repeat match goal with |- context [Z.of_nat ?n <? 14] => change (Z.of_nat n <? 14) with true end. cbv iota.
    rewrite !unpack7_first, !rest7_last by done.
    repeat match goal with |- context [unpack7 ?r (pack7 ?r ?a ?b) (rest7 ?q (pack7 ?q ?z ?a))] =>
      change (unpack7 r (pack7 r a b) (rest7 q (pack7 q z a))) with (unpack7 (q + 1) (pack7 (q + 1) a b) (rest7 q (pack7 q z a))); rewrite (unpack7_next q z a b) by (done || lia) end.
    done.
Qed.
Lemma hex_of_ascii l : bytes_ok l → Forall (λ c, 0 <= c < 128) (hex_of l).
Proof.
  unfold hex_of. induction 1 as [|b l Hb _ IH]; [constructor|]. rewrite bind_cons. apply Forall_app. split; [|done].
  destruct (hex2_spec b Hb) as (h & l' & -> & _ & _ & _ & _ & _ & _ & ? & ?). by do 2 (apply Forall_cons_2; [done|]); apply Forall_nil_2.
Qed.
Lemma drop_spaces_fill f n (s b : list Z) : lenZ s = n → n <= lenZ (s ++ fill (Z.of_nat f) 32) → (∀ c, last s = Some c → c ≠ 32) →
  drop_spaces (length s + f) (n + Z.of_nat f) (s ++ fill (Z.of_nat f) 32 ++ b) = n.
Proof.
  intros Hn _ Hs. revert b. induction f as [|f IH]; intros b.
  - rewrite Z.add_0_r, Nat.add_0_r. change (fill (Z.of_nat 0) 32) with (@nil Z). cbn [app]. destruct s as [|x s _] using rev_ind; [by subst n|].
    rewrite length_app. cbn [Datatypes.length]. rewrite Nat.add_comm. cbn [drop_spaces Nat.add]. subst n. rewrite lenZ_app. change (lenZ [x]) with 1.
    pose proof (lenZ_nonneg s). replace (0 <? lenZ s + 1) with true by lia. replace (Z.to_nat (lenZ s + 1 - 1)) with (length s) by (unfold lenZ; lia).
    rewrite <- app_assoc; cbn [app]; rewrite list_lookup_middle by done. assert (x ≠ 32) by (apply Hs; by rewrite last_snoc).
    by destruct x as [|q|q]; [|do 6 (try destruct q as [q|q|])|].
  - rewrite Nat.add_succ_r. cbn [drop_spaces]. pose proof (lenZ_nonneg s). replace (0 <? n + Z.of_nat (S f)) with true by lia.
    assert (fill (Z.of_nat (S f)) 32 = fill (Z.of_nat f) 32 ++ [32]) as -> by (unfold fill; rewrite !Nat2Z.id; apply (replicate_S_end f 32)).
    replace (Z.to_nat (n + Z.of_nat (S f) - 1)) with (length (s ++ fill (Z.of_nat f) 32)) by (unfold fill; rewrite length_app, length_replicate; unfold lenZ in *; lia).
    rewrite <- app_assoc. cbn [app]. rewrite (app_assoc s), list_lookup_middle by done. rewrite <- app_assoc.
    replace (n + Z.of_nat (S f) - 1) with (n + Z.of_nat f) by lia. apply IH.
Qed.
Lemma kept_pin key pin : is_key key → lenZ pin <= MAX_SIM_PIN_LEN → Forall (λ c, 0 < c < 256 ∧ c ≠ 32) pin →
  ∃ kept, EncryptAutoVerifyPin key pin = Ok kept ∧ nonul kept ∧ lenZ kept = 28 ∧ DecryptAutoVerifyPin key kept = Ok pin.
Proof.
  intros Hk Hl Hp. change MAX_SIM_PIN_LEN with 8 in Hl. pose proof (lenZ_nonneg pin).
  set (code := pin ++ fill (8 - lenZ pin) 32). assert (lenZ code = 8) as Hc by (unfold code; rewrite lenZ_app, lenZ_fill by lia; lia).
  assert (bytes_ok code) as Hb.
  { apply Forall_app. split; [eapply Forall_impl; [exact Hp|]; unfold is_byte; cbn; lia|]. apply Forall_replicate. by_eval. }
  destruct (scrambled key (hex_of code) Hk) as (data & Hd & Hl14 & E & D); [rewrite length_hex_of; unfold lenZ in Hc; lia|by apply hex_of_ascii|].
  exists (hex_of data). split; [|split; [by apply nonul_hex_of|split; [rewrite lenZ_hex_of; lia|] ] ].
  - unfold EncryptAutoVerifyPin. change MAX_SIM_PIN_LEN with 8. rewrite wrn_ok by (rewrite ?lenZ_fill by done; lia). cbn [mbind res_bind].
    assert (take (Z.to_nat 0) (fill 8 32) ++ pin ++ drop (Z.to_nat 0 + length pin) (fill 8 32) = code) as ->.
    { cbn [Z.to_nat take Nat.add app]. unfold code, fill. rewrite drop_replicate.
      assert (Z.to_nat 8 - (Z.to_nat 0 + length pin) = Z.to_nat (8 - lenZ pin))%nat as E8 by (unfold lenZ; lia). cbn [Z.to_nat Nat.add] in E8 |- *. by rewrite E8. }
    rewrite (Value2HexString_zeros code 128 8) by lia. rewrite take_ge by (unfold lenZ in Hc; lia). exact E.
  - unfold DecryptAutoVerifyPin. rewrite HexString2Value_hex_of by (done || (rewrite Hl14; done)). cbn [mbind res_bind fst snd as_buffer default from_option]. unfold id.
    rewrite Hl14. assert (drop (length data) (fill 128 0) = fill 114 0) as -> by (assert (length data = 14%nat) as -> by (unfold lenZ in Hl14; lia); done).
    apply bind_ok in D as (b & -> & D). cbn [mbind res_bind]. apply bind_ok in D as (t & Dt & D). change (Z.to_nat 14) with 14%nat.
    rewrite Dt. cbn [mbind res_bind]. rewrite D. cbn [mbind res_bind].
    change (fill 112 0) with (0 :: fill 111 0). rewrite cstr_app by by apply nonul_hex_of. rewrite HexString2Value_hex_of by (done || (rewrite lenZ_fill by done; change MAX_SIM_PIN_LEN with 8; lia)).
    cbn [mbind res_bind fst snd as_buffer default from_option]. unfold id. rewrite Hc. f_equal.
    assert (drop (length code) (fill MAX_SIM_PIN_LEN 32) = []) as -> by (assert (length code = 8%nat) as -> by (unfold lenZ in Hc; lia); done). rewrite app_nil_r.
    assert (drop_spaces (Z.to_nat 8) 8 code = lenZ pin) as ->.
    { pose proof (drop_spaces_fill (Z.to_nat (8 - lenZ pin)) (lenZ pin) pin [] eq_refl) as S. rewrite Z2Nat.id in S by lia. rewrite app_nil_r in S.
      replace (lenZ pin + (8 - lenZ pin)) with 8 in S by lia. replace (length pin + Z.to_nat (8 - lenZ pin))%nat with (Z.to_nat 8) in S by (unfold lenZ in *; lia).
      apply S; [rewrite lenZ_app, lenZ_fill; lia|]. intros c Hlast. apply last_Some_elem_of in Hlast. rewrite Forall_forall in Hp. by apply Hp. }
    unfold code. rewrite take_app_le by (unfold lenZ; lia). rewrite take_ge by (unfold lenZ; lia). apply cstr_id. eapply Forall_impl; [exact Hp|]. cbn. lia.
Qed.
(** The PIN that is kept comes back: what is written for a PIN of at most eight
    characters without spaces is a text of 28 characters, and from it and the
    same key exactly that PIN is restored. *)
Theorem pin_kept key pin : is_key key → lenZ pin <= MAX_SIM_PIN_LEN → Forall (λ c, 0 < c < 256 ∧ c ≠ 32) pin →
  ∃ kept, EncryptAutoVerifyPin key pin = Ok kept ∧ nonul kept ∧ lenZ kept = 28 ∧ DecryptAutoVerifyPin key kept = Ok pin.
Proof. apply kept_pin. Qed.
Lemma pin_kept_witness : ∃ kept, EncryptAutoVerifyPin PROP_AUTO_VERIFY_PIN_1 (str "00001234") = Ok kept ∧ nonul kept ∧ lenZ kept = 28 ∧
  DecryptAutoVerifyPin PROP_AUTO_VERIFY_PIN_1 kept = Ok (str "00001234").
Proof. apply (pin_kept PROP_AUTO_VERIFY_PIN_1 (str "00001234")); [by right|done|by_eval]. Defined.
(** nine characters do not fit the array that is scrambled *)
Lemma nine_characters key : EncryptAutoVerifyPin key (str "123456789") = UB.
Proof. done. Qed.

(** ** Running a handler *)

Lemma ends_send p msg Q e s :
  (∀ d, p = Some d → send_ok e = true → Q 0 s [ActSend d msg]) → (∀ d, p = Some d → send_ok e = false → Q (-1) s [ActUnsent d msg]) → (p = None → Q (-1) s []) →
  ends (send p msg) Q e s.
Proof.
  intros H1 H2 H3 v s' o H. unfold send in H. destruct p as [d|]; [destruct (send_ok e) eqn:E|]; injection H as <- <- <-; auto.
Qed.
Lemma ends_complete c a Q e s : Q 0 s [ActComplete c a] → ends (complete c a) Q e s.
Proof. intros HQ. apply ends_bind, ends_emit. by apply ends_ret. Qed.
Lemma ends_build f Q e s : (∀ r, f (sim_token s) = Ok r → Q r.1 (set_token r.2 s) []) → ends (build f) Q e s.
Proof. intros HQ. apply ends_bind, ends_gets, ends_bind, ends_lift. intros r Hr. apply ends_bind, ends_modify, ends_ret. by apply HQ. Qed.

(** a step of a handler *)
Ltac sm_step :=
  lazymatch goal with
  | |- ends (send _ _) _ _ _ => apply ends_send; [intros ? ? ?|intros ? ? ?|intros ?]; cbn [app]
  | |- ends (complete _ _) _ _ _ => apply ends_complete; cbn [app]
  | |- ends (build _) _ _ _ => apply ends_build; intros [? ?] ?; cbn [fst snd app]
  | |- _ => handler_step
  end.

Lemma ends_SetAutoVerifyPin pin (Q : () → SimService → list Act → Prop) e s : (∀ s', Q () s' []) → ends (SetAutoVerifyPin pin) Q e s.
Proof. intros HQ. unfold SetAutoVerifyPin, ClearAutoVerifyPin. repeat sm_step; apply HQ. Qed.

(** the same forwards *)
Lemma run_build f e s r : f (sim_token s) = Ok r → build f e s = Ok (r.1, set_token r.2 s, []).
Proof.
  intros H. unfold build. apply (run_bind _ _ _ _ (sim_token s) s [] _ _ []); [done|]. apply (run_bind _ _ _ _ r s [] _ _ []); [unfold lift; by rewrite H|]. done.
Qed.
