(* ===== verification/SimIo.v ===== *)
(** Files of the SIM: [core/service/simservice.cpp], [fw/simdata.cpp],
    [fw/simdatabuilder.cpp], [protocol/sit/protocolsimbuilder.cpp].

    A request reads or changes a file of the card.  The description of a file
    that a newer card gives, a list of tags, is turned into the fifteen bytes of
    the older specification.  A change of the fixed dialling numbers waits for
    the PIN2. *)
From stdpp Require Import gmap.
From S2P Require Import Prelude RilDef Text WaitList Network Rcm Handler Layout RilData MccTable SimPackets SimPin.

Definition MAX_SIM_IO_PATH_LEN : Z := 12.
Definition MAX_SIM_IO_DATA_LEN : Z := 512.
Definition MAX_SIM_PATH_LEN : Z := 50.
Definition MAX_SIM_DATA_LEN : Z := 512.
Definition COMMAND_READ_BINARY : Z := 0xB0.
Definition COMMAND_STATUS : Z := 0xF2.
Definition EF_AD : Z := 0x6FAD.
Definition SIM_EFID_FDN : Z := 0x6F3B.
Definition SIT_SIM_IO : Z := 0x208.
Definition SIT_TRANSMIT_SIM_APDU_BASIC : Z := 0x20C.
Definition SIT_TRANSMIT_SIM_APDU_CHANNEL : Z := 0x20F.

(** ** The request *)

(** what the framework hands over *)
Record RIL_SIM_IO_v6 := {
  command : Z; fileid : Z; path : option (list Z); p1 : Z; p2 : Z; p3 : Z; data : option (list Z); pin2_text : option (list Z); aidPtr : option (list Z) }.
Record SimIoData := {
  m_nCmd : Z; m_nFileId : Z; m_strPath : list Z; m_nP1 : Z; m_nP2 : Z; m_nP3 : Z; m_nDataLen : Z; m_strData : list Z; m_strPin2 : list Z; m_strAid : list Z }.
Definition newSimIoData : SimIoData :=
  {| m_nCmd := 0; m_nFileId := 0; m_strPath := []; m_nP1 := 0; m_nP2 := 0; m_nP3 := 0; m_nDataLen := 0; m_strData := []; m_strPin2 := []; m_strAid := [] |}.
(** [if(s && strlen(s)) strncpy(field, s, n)]: the last byte of the field stays zero *)
Definition keep_text (n : Z) (s : option (list Z)) (field : list Z) : list Z := match s with Some (c :: t) => take (Z.to_nat n) (c :: t) | _ => field end.
Definition SimIoData_encode (pSimIo : option RIL_SIM_IO_v6) (length : Z) (r : SimIoData) : Z * SimIoData :=
  match pSimIo with
  | Some d =>
    if length =? 0 then (-1, r)
    else
      let text := keep_text MAX_SIM_DATA_LEN (data d) (m_strData r) in
      (0, {| m_nCmd := command d; m_nFileId := fileid d; m_strPath := keep_text MAX_SIM_PATH_LEN (path d) (m_strPath r); m_nP1 := p1 d; m_nP2 := p2 d;
             m_nP3 := p3 d; m_nDataLen := lenZ text; m_strData := text; m_strPin2 := keep_text MAX_SIM_PIN_LEN (pin2_text d) (m_strPin2 r);
             m_strAid := keep_text (MAX_SIM_AID_LEN * 2) (aidPtr d) (m_strAid r) |})
  | None => (-1, r)
  end.

(** ** The packet *)

(** [sit_sim_sim_io_req]: command 12, app_type 13, file_id 14, path_len 16, path 17, p1 29, p2 30, p3 31, data_len 32, data 34, pin2_len 546, pin2 547,
    aid_len 555, aid 556 *)
Definition sizeof_sim_io_req : Z := 572.
Fixpoint swap_words (fuel : nat) (i n : Z) (arPath : list Z) : res (list Z) :=
  match fuel with
  | O => OutOfFuel
  | S fuel =>
    if i <? n
    then a ← arPath.[i]; b ← arPath.[i + 1]; arPath ← arPath.[i <- b]; arPath ← arPath.[i + 1 <- a]; swap_words fuel (i + 2) n arPath
    else Ok arPath
  end.
(** the length and the bytes of a path in hexadecimal *)
Definition path_bytes (pPath : list Z) : res (Z * list Z) :=
  r ← HexString2Value (Some (fill MAX_SIM_IO_PATH_LEN 0)) (Some pPath);
  let path_len := u8 r.2 in
  arPath ← swap_words 200 0 path_len (as_buffer r.1); Ok (path_len, arPath).
Definition BuildSimIO (m_nToken nCmd nAppType nFileID : Z) (pPath : option (list Z)) (p1 p2 p3 nDataLen : Z) (pData pszPin2 pszAID : option (list Z)) :
  res (option (list Z) * Z) :=
  match pPath, pData with
  | Some pPath, Some pData =>
    t ← InitRequestHeader m_nToken (fill sizeof_sim_io_req 0) SIT_SIM_IO sizeof_sim_io_req;
    req ← t.1.[12 <- Z.land nCmd 255]; req ← req.[13 <- Z.land nAppType 255]; req ← wrn req 14 (le16 (u16 nFileID));
    req ← (match pPath with
           | [] => Ok (Some req)
           | _ => r ← path_bytes pPath;
                  if r.1 <=? 0 then Ok None
                  else req ← req.[16 <- r.1]; b ← rdn r.2 0 r.1; req ← wrn req 17 b; Ok (Some req)
           end);
    match req with
    | None => Ok (None, t.2)
    | Some req =>
      req ← req.[29 <- Z.land p1 255]; req ← req.[30 <- Z.land p2 255]; req ← req.[31 <- Z.land p3 255];
      r ← HexString2Value (Some (drop 34 req)) (Some pData);
      req ← wrn (take 34 req ++ as_buffer r.1) 32 (le16 (u16 r.2));
      req ← (match pszPin2 with Some pin => put_text req 546 pin MAX_SIM_PIN_LEN | None => Ok req end);
      req ← put_aid req 555 pszAID; Ok (Some req, t.2)
    end
  | _, _ => Ok (None, m_nToken)
  end.

(** ** The answer *)

Section adapter.
Variable m_pModemData : option (list Z).
Definition sim_io_rsp {A} (out : A) (f : list Z → res A) : res A :=
  match m_pModemData with
  | Some raw =>
    i ← rd16 raw off_id;
    if bool_decide (i ∈ [SIT_SIM_IO; SIT_TRANSMIT_SIM_APDU_CHANNEL; SIT_TRANSMIT_SIM_APDU_BASIC]) then f raw else Ok out
  | None => Ok out
  end.
Definition GetSw1 : res Z := sim_io_rsp 0 (λ raw, raw.[12]).
Definition GetSw2 : res Z := sim_io_rsp 0 (λ raw, raw.[13]).
(** a pointer into the frame *)
Definition GetResponse : res (option (list Z)) := sim_io_rsp None (λ raw, Ok (Some (drop 16 raw))).
Definition GetResponseLength : res Z :=
  n ← sim_io_rsp 0 (λ raw, n ← rd16 raw 14; Ok (i16 n)); Ok (if MAX_SIM_IO_DATA_LEN <? n then MAX_SIM_IO_DATA_LEN else n).
End adapter.

(** ** The answer for the framework *)

Definition EF_TYPE_TRANSPARENT : Z := 0.
Definition EF_TYPE_LINEAR_FIXED : Z := 1.
Definition EF_TYPE_CYCLIC : Z := 3.
Definition BYTEBIT (byte idx : Z) : Z := Z.land (Z.shiftr byte (8 - idx)) 1.
Definition file_struct (b : Z) : Z :=
  if (BYTEBIT b 8 =? 1) && (BYTEBIT b 7 =? 0) && (BYTEBIT b 6 =? 0) then EF_TYPE_TRANSPARENT
  else if (BYTEBIT b 8 =? 0) && (BYTEBIT b 7 =? 1) && (BYTEBIT b 6 =? 0) then EF_TYPE_LINEAR_FIXED
  else if (BYTEBIT b 8 =? 0) && (BYTEBIT b 7 =? 1) && (BYTEBIT b 6 =? 1) then EF_TYPE_CYCLIC
  else b.
(** one tag *)
Definition fcp_tag (pResponse : list Z) (nOffset : Z) (acSimRsp : list Z) : res (list Z) :=
  tag ← pResponse.[nOffset];
  if tag =? 0x80
  then h ← pResponse.[nOffset + 2]; r ← acSimRsp.[2 <- h]; l ← pResponse.[nOffset + 3]; r.[3 <- l]
  else if tag =? 0x82
  then
    b ← pResponse.[nOffset + 2];
    r ← acSimRsp.[13 <- file_struct b];
    n ← pResponse.[nOffset + 1];
    if 2 <? n
    then if file_struct b =? EF_TYPE_TRANSPARENT then Ok r
         else h ← pResponse.[nOffset + 4]; if 0 <? h then r.[14 <- 0xFF] else l ← pResponse.[nOffset + 5]; r.[14 <- l]
    else r.[14 <- 2]
  else if tag =? 0x83
  then h ← pResponse.[nOffset + 2]; r ← acSimRsp.[4 <- h]; l ← pResponse.[nOffset + 3]; r.[5 <- l]
  else Ok acSimRsp.
Definition fcp_step (pResponse : list Z) (nFcpLength : Z) (t : Z * Z * list Z) : res (ctl (Z * Z * list Z) (list Z)) :=
  let '(nLimit, nOffset, acSimRsp) := t in
  if (nOffset - 2 <? nFcpLength) && (nLimit <? 200)
  then acSimRsp ← fcp_tag pResponse nOffset acSimRsp; n ← pResponse.[nOffset + 1]; Ok (Next (nLimit + 1, nOffset + n + 2, acSimRsp))
  else Ok (Stop acSimRsp).
Definition acSimRsp0 : list Z := [0; 0; 0; 0; 0; 0; 0x04; 0; 0x00; 0xFF; 0xFF; 0x01; 0x02; 0; 0].
(** the bytes that are told and how many *)
Definition sim_response (nLength : Z) (pResponse : option (list Z)) : res (option (list Z) * Z) :=
  match pResponse with
  | Some p =>
    if 0 <? nLength
    then
      l ← p.[1]; t ← p.[0];
      let nFcpLength := Z.land l 0xFF in
      if (t =? 0x62) && (nFcpLength + 2 =? nLength)
      then r ← loop 201 (fcp_step p nFcpLength) (0, 2, acSimRsp0); Ok (Some r, 15)
      else Ok (pResponse, nLength)
    else Ok (pResponse, nLength)
  | None => Ok (None, nLength)
  end.
Record SimIoResponse := { io_sw1 : Z; io_sw2 : Z; simResponse : option (list Z) }.
(** [SetSimResponse]: an empty text is none *)
Definition newSimIoResponse (sw1 sw2 : Z) (s : option (list Z)) : SimIoResponse :=
  {| io_sw1 := sw1; io_sw2 := sw2; simResponse := match s with Some (c :: t) => Some (c :: t) | _ => None end |}.
Definition BuildSimIoFcpTemplateResponse (sw1 sw2 nLength : Z) (pResponse : option (list Z)) : res (option SimIoResponse) :=
  match pResponse with
  | Some p =>
    if 0 <? nLength
    then r ← Value2HexString (Some (fill (nLength * 2 + 1) 0)) (Some p) nLength;
         Ok (if r.2 =? -1 then None else Some (newSimIoResponse sw1 sw2 (cstr <$> r.1)))
    else Ok (Some (newSimIoResponse sw1 sw2 None))
  | None => Ok (Some (newSimIoResponse sw1 sw2 None))
  end.
Definition BuildSimIoResponse (sw1 sw2 nLength : Z) (pResponse : option (list Z)) : res (option SimIoResponse) :=
  r ← sim_response nLength pResponse; BuildSimIoFcpTemplateResponse sw1 sw2 r.2 r.1.

(** ** The operator of the card *)

(** [IccIoResult] *)
Record IccIoResult := { mSw1 : Z; mSw2 : Z; icc_data : option (list Z) }.
Definition newIccIoResult (sw1 sw2 : Z) (data : option (list Z)) (dataLen : Z) : res IccIoResult :=
  d ← (if 0 <? dataLen
       then match data with
            | Some p => b ← rdn p 0 (if dataLen <? MAX_SIM_IO_DATA_LEN then dataLen else MAX_SIM_IO_DATA_LEN); Ok (Some b)
            | None => UB
            end
       else Ok None);
  Ok {| mSw1 := sw1; mSw2 := sw2; icc_data := d |}.
Definition sw_success (sw1 : Z) : bool := (sw1 =? 0x90) || (sw1 =? 0x91) || (sw1 =? 0x9e) || (sw1 =? 0x9f).
Definition IsSuccess (r : IccIoResult) : bool := sw_success (mSw1 r).
(** the code of the network in a subscriber's number; [iccioresult] is the contents of EF_AD *)
Definition FetchSimOperator (mImsi : list Z) (iccioresult : IccIoResult) : res (list Z) :=
  if IsSuccess iccioresult
  then
    mncLength ← match icc_data iccioresult with Some d => if 3 <? lenZ d then v ← d.[3]; Ok (Z.land v 0xF) else Ok (-1) | None => Ok (-1) end;
    mncLength ← (if ((mncLength <? 0) || (mncLength =? 0xF) || (mncLength =? 2)) && (6 <=? lenZ mImsi)
                 then
                   let n := GetSmallestDigitsMccForImsi (Some mImsi) in
                   let mncLength := if 0 <? n then n else mncLength in
                   if (mncLength <? 0) || (mncLength =? 0xF) then GetSmallestDigitsMccForMccText (take 3 mImsi) else Ok mncLength
                 else Ok mncLength);
    Ok (if 2 <=? mncLength then take (Z.to_nat (3 + mncLength)) (take 6 mImsi) else [])
  else Ok [].

(** ** The handlers *)

Definition RIL_CONTEXT_SIM_OPERATOR : list Z := str "vendor.ril.context.sim.carrier".

(** the kind of the application a request names *)
Fixpoint app_type_of (aid : list Z) (apps : list AppStatus) : Z :=
  match apps with
  | a :: apps => if decide (aid_ptr a = Some aid) then app_type a else app_type_of aid apps
  | [] => RIL_APPTYPE_UNKNOWN
  end.
Definition DoSimIo (pMsg : option SimIoData) : SM Z :=
  NULL_REQ pMsg (λ rildata,
    apps ← gets (λ s, applications (mRilCardStatus s));
    let nAppType := if 0 <? lenZ (m_strAid rildata) then app_type_of (m_strAid rildata) apps else RIL_APPTYPE_UNKNOWN in
    packet ← build (λ t, BuildSimIO t (m_nCmd rildata) nAppType (m_nFileId rildata) (Some (m_strPath rildata)) (m_nP1 rildata) (m_nP2 rildata) (m_nP3 rildata)
                           (m_nDataLen rildata) (Some (m_strData rildata)) (Some (m_strPin2 rildata)) (Some (m_strAid rildata)));
    if (m_nFileId rildata =? SIM_EFID_FDN) && ((m_nCmd rildata =? 0xD6) || (m_nCmd rildata =? 0xDC)) && (0 <? lenZ (m_strPin2 rildata))
    then modify (λ s, set_pending (m_pEnableFdnData s) packet s);;
         verify ← build (λ t, BuildSimVerifyPin t 2 (Some (m_strPin2 rildata)) (Some (m_strAid rildata)));
         ret_code <$> send verify MSG_SIM_VERIFY_PIN2_DONE
    else ret_code <$> send packet MSG_SIM_IO_DONE).
(** the property of the operator, the open carrier and the packet service *)
Definition tell_operator (mImsi carrier : list Z) : SM () :=
  (if 5 <=? lenZ carrier then emit (ActProperty RIL_CONTEXT_SIM_OPERATOR carrier) else mret ());;
  emit (ActOpenCarrier carrier);; emit (ActOperator mImsi carrier).
(** [cur] is the request that is worked on; without one a null pointer is followed, and one of another class is read as if it were a file
    request: both are undefined *)
Definition OnSimIoDone (cur : res (option SimIoData)) (m_pModemData : option (list Z)) : SM Z :=
  uErrCode ← lift (Rcm.GetErrorCode m_pModemData);
  if uErrCode =? RIL_E_SUCCESS
  then
    sw1 ← lift (GetSw1 m_pModemData);
    sw2 ← lift (GetSw2 m_pModemData);
    response ← lift (GetResponse m_pModemData);
    n ← lift (GetResponseLength m_pModemData);
    rildata ← lift cur;
    (match rildata with
     | Some r =>
       if (m_nCmd r =? COMMAND_READ_BINARY) && (m_nFileId r =? EF_AD)
       then iccioResult ← lift (newIccIoResult sw1 sw2 response n); imsi ← gets mImsi; carrier ← lift (FetchSimOperator imsi iccioResult); tell_operator imsi carrier
       else mret ()
     | None => mret ()
     end);;
    pRilData ← lift (match rildata with
                     | Some r => if m_nCmd r =? COMMAND_STATUS then BuildSimIoFcpTemplateResponse sw1 sw2 n response else BuildSimIoResponse sw1 sw2 n response
                     | None => BuildSimIoResponse sw1 sw2 n response
                     end);
    (match pRilData with
     | Some d => complete (if sw_success sw1 then RIL_E_SUCCESS else RIL_E_GENERIC_FAILURE) (AnsSimIo (io_sw1 d) (io_sw2 d) (simResponse d))
     | None => complete RIL_E_GENERIC_FAILURE AnsNone
     end)
  else complete uErrCode AnsNone;; mret 0.

(** ** Indications *)

Definition SIT_IND_ICCID_INFO : Z := 0x248.
Definition RIL_CONTEXT_SIM_ICC_ID : list Z := str "vendor.ril.context.sim.icc.id".
(** the length, and the identifier in an array with a zero behind it *)
Definition ProtocolSimIccidInfoAdapter (m_pModemData : option (list Z)) : res (Z * option (list Z)) :=
  match m_pModemData with
  | Some raw =>
    i ← rd16 raw off_id;
    if i =? SIT_IND_ICCID_INFO
    then n ← raw.[sizeof_RCM_IND_HEADER];
         if 0 <? n then b ← rdn raw (sizeof_RCM_IND_HEADER + 1) MAX_ICCID_LEN; Ok (n, Some (b ++ [0])) else Ok (n, None)
    else Ok (-1, None)
  | None => Ok (-1, None)
  end.
Definition BuildIccidInfoIndicate (nLength : Z) (pIccId : option (list Z)) : res (option (list Z)) :=
  match pIccId with
  | Some id => if nLength =? 0 then Ok None
               else r ← Value2HexString (Some (fill (nLength * 2 + 1) 0)) (Some id) nLength; Ok (if r.2 =? -1 then None else cstr <$> r.1)
  | None => Ok None
  end.
Definition OnIccidInfo (m_pModemData : option (list Z)) : SM Z :=
  match m_pModemData with
  | None => mret (-1)
  | Some _ =>
    a ← lift (ProtocolSimIccidInfoAdapter m_pModemData);
    ordered ← lift (if a.1 <? 0 then UB else b ← rdn (default [] a.2) 0 a.1; Ok (bchToString b));
    emit (ActProperty RIL_CONTEXT_SIM_ICC_ID ordered);;
    d ← lift (BuildIccidInfoIndicate a.1 a.2);
    modify (λ s, set_sim (m_nSimCardState s) (m_nPinRemain s) (m_nPukRemain s) d (m_nImsAppType s) (sim_token s) s);;
    NotifyIccidInfo;; mret 0
  end.
Definition OnSimStatusChanged : SM Z := emit (ActUnsol RIL_UNSOL_RESPONSE_SIM_STATUS_CHANGED []);; mret 0.
