(* ===== verification/SimCardPackets.v ===== *)
(** What is exchanged with the card beyond its files: commands on the basic
    and the logical channels, authentication, the number of the subscriber, the
    slots and the locks: [protocol/sit/protocolsimbuilder.cpp],
    [protocol/sit/protocolsimadapter.cpp], [fw/simdata.cpp],
    [fw/simdatabuilder.cpp].

    The data classes of the requests, the packets byte by byte, what the
    adapters read of an answer, and the answer for the framework.  A pointer
    into a frame is what is left of the frame from there. *)
From stdpp Require Import gmap.
From S2P Require Import Prelude RilDef Text Base64 WaitList Network Rcm Handler Layout RilData MccTable SimPackets SimPin SimIo.

Definition MAX_SIM_AUTH_REQ_LEN : Z := 68.
Definition MAX_OPEN_CHANNEL_RSP_LEN : Z := 256.
Definition MAX_APDU_LEN : Z := 16384.
Definition MAX_ATR_LEN : Z := 512.
Definition MAX_SLOT_NUM : Z := 4.
Definition MAX_ATR_LEN_FOR_SLOT_STATUS : Z := 33.
Definition DEFAULT_LOCK_CODE_SIZE : Z := 2.
Definition PN_LOCK_CODE_SIZE : Z := 6.
Definition MAX_LOCK_CODE_SIZE : Z := 1008.
Definition LOCK_TYPE_PN : Z := 1.
Definition RIL_CARDSTATE_RESTRICTED : Z := 3.
Definition SIT_GET_SIM_AUTH : Z := 0x20B.
Definition SIT_OPEN_SIM_CHANNEL : Z := 0x20D.
Definition SIT_CLOSE_SIM_CHANNEL : Z := 0x20E.
Definition SIT_GET_ATR : Z := 0x212.
Definition SIT_OPEN_SIM_CHANNEL_WITH_P2 : Z := 0x247.
Definition SIT_IND_UICC_SUBSCRIPTION_STATE_CHANGED : Z := 0x24A.
Definition SIT_SET_SIM_CARD_POWER : Z := 0x24C.
Definition SIT_GET_SLOT_STATUS : Z := 0x24D.
Definition SIT_IND_SIM_SLOT_STATUS_CHANGED : Z := 0x24E.
Definition SIT_SET_LOGICAL_TO_PHYSICAL_SLOT_MAPPING : Z := 0x250.
Definition SIT_GET_IMSI : Z := 0x400.
Definition SIT_SET_CARRIER_RESTRICTIONS : Z := 0x72E.
Definition SIT_GET_CARRIER_RESTRICTIONS : Z := 0x72F.
Definition SIT_OEM_GET_SIM_LOCK_INFO : Z := 0x4104.
Definition SIT_SIM_AUTH_IMS : Z := 0.
Definition SIT_SIM_AUTH_GSM : Z := 1.
Definition SIT_SIM_AUTH_3G : Z := 2.
Definition RIL_REQUEST_SIM_IO : Z := 28.
Definition RIL_REQUEST_SIM_TRANSMIT_APDU_BASIC : Z := 114.
Definition RIL_REQUEST_SIM_OPEN_CHANNEL : Z := 115.
Definition RIL_REQUEST_SIM_TRANSMIT_APDU_CHANNEL : Z := 117.

(** ** The requests *)

Record RIL_SIM_APDU := { sessionid : Z; cla : Z; instruction : Z; apdu_p1 : Z; apdu_p2 : Z; apdu_p3 : Z; apdu_data : option (list Z) }.
Record SimAPDU := { m_nSessionid : Z; m_nCla : Z; m_nInstruction : Z; m_apduP1 : Z; m_apduP2 : Z; m_apduP3 : Z; m_apduLength : Z; m_pData : option (list Z) }.
Definition newSimAPDU : SimAPDU :=
  {| m_nSessionid := -1; m_nCla := -1; m_nInstruction := -1; m_apduP1 := -1; m_apduP2 := -1; m_apduP3 := -1; m_apduLength := -1; m_pData := None |}.
Definition SimAPDU_encode (data : option RIL_SIM_APDU) (length : Z) (r : SimAPDU) : Z * SimAPDU :=
  match data with
  | Some d =>
    if length =? 0 then (-1, r)
    else
      let n := match apdu_data d with Some s => lenZ s | None => 0 end in
      (0, {| m_nSessionid := sessionid d; m_nCla := cla d; m_nInstruction := instruction d; m_apduP1 := apdu_p1 d; m_apduP2 := apdu_p2 d;
             m_apduP3 := apdu_p3 d; m_apduLength := n; m_pData := if 0 <? n then apdu_data d else None |})
  | None => (-1, r)
  end.
Definition SetP3 (p3 : Z) (r : SimAPDU) : SimAPDU :=
  {| m_nSessionid := m_nSessionid r; m_nCla := m_nCla r; m_nInstruction := m_nInstruction r; m_apduP1 := m_apduP1 r; m_apduP2 := m_apduP2 r;
     m_apduP3 := p3; m_apduLength := m_apduLength r; m_pData := m_pData r |}.
(** what opens a channel: the parameters, or only the text; the copy of a text has no zero at its end *)
Inductive OpenChannelData := OpenParams (aidPtr : option (list Z)) (p2 : Z) | OpenText (t : list Z).
Record SimOpenChannel := { m_aid : option (list Z); m_p2 : Z; m_ended : bool }.
Definition newSimOpenChannel : SimOpenChannel := {| m_aid := None; m_p2 := 0; m_ended := true |}.
Definition SimOpenChannel_encode (sizeof_params : Z) (data : option OpenChannelData) (length : Z) (r : SimOpenChannel) : res (Z * SimOpenChannel) :=
  match data with
  | Some d =>
    if length =? 0 then Ok (-1, r)
    else if sizeof_params <=? length
    then match d with
         | OpenParams aid p2 => Ok (0, {| m_aid := match aid with Some (c :: t) => Some (c :: t) | _ => m_aid r end; m_p2 := p2; m_ended := m_ended r |})
         | OpenText _ => UB
         end
    else match d with OpenText t => Ok (0, {| m_aid := Some t; m_p2 := m_p2 r; m_ended := false |}) | OpenParams _ _ => UB end
  | None => Ok (-1, r)
  end.
(** the pointers of the caller are kept *)
Record SimAuthentication := { m_nAuthContext : Z; m_pAuth : option (list Z); auth_aid : option (list Z) }.
Definition SimAuthentication_encode (data : option SimAuthentication) (length : Z) (r : SimAuthentication) : Z * SimAuthentication :=
  match data with Some d => if length =? 0 then (-1, r) else (1, d) | None => (-1, r) end.
(** [IsimAuth::Parse]: sixteen bytes and sixteen bytes of the decoded text, which has a zero behind it, each with its length before it *)
Definition IsimAuth_Parse (pString : option StringRequestData) : res (option (list Z)) :=
  match pString with
  | Some r =>
    match m_szData r with
    | Some s =>
      d ← Base64_Decode s; let pszNonce := d.1 ++ [0] in
      pRand ← rdn pszNonce 0 16; pAutn ← rdn pszNonce 16 16; Ok (Some ([16] ++ pRand ++ [16] ++ pAutn))
    | None => Ok None
    end
  | None => Ok None
  end.

(** ** The packets *)

Definition BuildSimGetATR : Z → res (option (list Z) * Z) := null_request SIT_GET_ATR.
Definition BuildGetCarrierRestrictions : Z → res (option (list Z) * Z) := null_request SIT_GET_CARRIER_RESTRICTIONS.
Definition BuildGetSimLockInfo : Z → res (option (list Z) * Z) := null_request SIT_OEM_GET_SIM_LOCK_INFO.
Definition BuildSimGetSlotStatus : Z → res (option (list Z) * Z) := null_request SIT_GET_SLOT_STATUS.
(** [sit_sim_get_sim_auth_req]: auth_type 12, auth_len 13, auth 14 *)
Definition sizeof_get_sim_auth_req : Z := 82.
Definition BuildSimGetIsimAuth (m_nToken nAuthType : Z) (pAuth : option (list Z)) (nAuthLengh : Z) : res (option (list Z) * Z) :=
  let length := 14 + nAuthLengh in
  if sizeof_get_sim_auth_req <? length then UB
  else
    t ← InitRequestHeader m_nToken (fill length 0) SIT_GET_SIM_AUTH length;
    req ← t.1.[12 <- Z.land nAuthType 255];
    req ← (match pAuth with
           | Some a => req ← req.[13 <- Z.land nAuthLengh 255]; b ← rdn a 0 nAuthLengh; wrn req 14 b
           | None => Ok req
           end);
    Ok (Some req, t.2).
(** the kind of authentication for the context of the request; other contexts are not supported *)
Definition auth_type_of (nAuthContext nAppType : Z) : option Z :=
  if nAppType =? RIL_APPTYPE_ISIM then Some SIT_SIM_AUTH_IMS
  else if Z.land nAuthContext 7 =? 0 then Some SIT_SIM_AUTH_GSM
  else if Z.land nAuthContext 7 =? 1 then Some SIT_SIM_AUTH_3G
  else None.
Definition BuildSimGetSimAuth (m_nToken nAuthContext : Z) (pAuth : option (list Z)) (nAuthLengh nAppType : Z) : res (option (list Z) * Z) :=
  match auth_type_of nAuthContext nAppType with
  | None => Ok (None, m_nToken)
  | Some nAuthType =>
    t ← InitRequestHeader m_nToken (fill sizeof_get_sim_auth_req 0) SIT_GET_SIM_AUTH sizeof_get_sim_auth_req;
    req ← t.1.[12 <- nAuthType];
    req ← (match pAuth with
           | Some a => if 0 <? nAuthLengh then req ← req.[13 <- Z.land nAuthLengh 255]; b ← rdn a 0 nAuthLengh; wrn req 14 b else Ok req
           | None => Ok req
           end);
    Ok (Some req, t.2)
  end.
(** the bytes of a text of hexadecimal digits, in a buffer as long as the text *)
Definition apdu_bytes (s : list Z) : res (list Z * Z) := r ← HexString2Value (Some (fill (lenZ s) 0)) (Some s); Ok (as_buffer r.1, r.2).
(** [sit_sim_transmit_sim_apdu_basic_req]: session_id 12, apdu_len 16, cla 18, instruction 19, p1 20, p2 21, p3 22, data 23 *)
Definition sizeof_apdu_basic_req : Z := 23.
Definition sizeof_sim_apdu : Z := 5.
Definition BuildSimTransmitApduBasic (m_nToken nSessionID cla instruction p1 p2 p3 : Z) (pszApduData : option (list Z)) : res (option (list Z) * Z) :=
  let nLength := sizeof_apdu_basic_req + match pszApduData with Some s => lenZ s | None => 0 end in
  t ← InitRequestHeader m_nToken (fill nLength 0) SIT_TRANSMIT_SIM_APDU_BASIC nLength;
  req ← wrn t.1 12 (le32 (u32 nSessionID)); req ← wrn req 16 (le16 sizeof_sim_apdu);
  req ← req.[18 <- Z.land cla 255]; req ← req.[19 <- Z.land instruction 255]; req ← req.[20 <- Z.land p1 255]; req ← req.[21 <- Z.land p2 255];
  req ← req.[22 <- Z.land p3 255];
  r ← (match pszApduData with
       | Some (c :: s) =>
         d ← apdu_bytes (c :: s);
         let nDataLen := if MAX_APDU_LEN <? d.2 + sizeof_sim_apdu then MAX_APDU_LEN - sizeof_sim_apdu else d.2 in
         b ← rdn d.1 0 nDataLen; req ← wrn req 23 b; Ok (req, nDataLen)
       | _ => Ok (req, 0)
       end);
  req ← wrn r.1 16 (le16 (u16 (sizeof_sim_apdu + r.2))); Ok (Some req, t.2).
(** [sit_sim_transmit_sim_apdu_channel_req]: session_id 12, cla 16, instruction 20, p1 24, p2 28, p3 32, data_len 36, data 38 *)
Definition sizeof_apdu_channel_req : Z := 38.
Definition BuildSimTransmitApduChannel (m_nToken nSessionID cla instruction p1 p2 p3 : Z) (pszApduData : option (list Z)) : res (option (list Z) * Z) :=
  let nLength := sizeof_apdu_channel_req + match pszApduData with Some s => lenZ s | None => 0 end in
  t ← InitRequestHeader m_nToken (fill nLength 0) SIT_TRANSMIT_SIM_APDU_CHANNEL nLength;
  req ← wrn t.1 12 (le32 (u32 nSessionID)); req ← wrn req 16 (le32 (u32 cla)); req ← wrn req 20 (le32 (u32 instruction));
  req ← wrn req 24 (le32 (u32 p1)); req ← wrn req 28 (le32 (u32 p2)); req ← wrn req 32 (le32 (u32 p3));
  req ← (match pszApduData with
         | Some (c :: s) =>
           d ← apdu_bytes (c :: s);
           let data_len := if d.2 <=? MAX_APDU_LEN then d.2 else MAX_APDU_LEN in
           req ← wrn req 36 (le16 data_len); b ← rdn d.1 0 data_len; wrn req 38 b
         | _ => Ok req
         end);
  Ok (Some req, t.2).
(** [sit_sim_open_sim_channel_req]: aid_len 12, aid 13; with a p2 behind them *)
Definition sizeof_open_channel_req : Z := 29.
Definition BuildSimOpenChannel (m_nToken : Z) (pszAID : option (list Z)) : res (option (list Z) * Z) :=
  t ← InitRequestHeader m_nToken (fill sizeof_open_channel_req 0) SIT_OPEN_SIM_CHANNEL sizeof_open_channel_req;
  req ← put_aid t.1 12 pszAID; Ok (Some req, t.2).
Definition BuildSimOpenChannelWithP2 (m_nToken : Z) (pszAID : option (list Z)) (p2 : Z) : res (option (list Z) * Z) :=
  t ← InitRequestHeader m_nToken (fill (sizeof_open_channel_req + 1) 0) SIT_OPEN_SIM_CHANNEL_WITH_P2 (sizeof_open_channel_req + 1);
  req ← put_aid t.1 12 pszAID; req ← req.[29 <- Z.land p2 255]; Ok (Some req, t.2).
(** [sit_sim_close_sim_channel_req]: session_id 12 *)
Definition BuildSimCloseChannel (m_nToken nSessionID : Z) : res (option (list Z) * Z) :=
  t ← InitRequestHeader m_nToken (fill 16 0) SIT_CLOSE_SIM_CHANNEL 16; req ← wrn t.1 12 (le32 (u32 nSessionID)); Ok (Some req, t.2).
(** [sit_id_get_imsi_req]: aid_len 12, aid 13 *)
Definition BuildGetImsi (m_nToken : Z) (pszAID : option (list Z)) : res (option (list Z) * Z) :=
  t ← InitRequestHeader m_nToken (fill 29 0) SIT_GET_IMSI 29;
  req ← (if IsEmpty pszAID then Ok t.1 else put_aid t.1 12 pszAID); Ok (Some req, t.2).
Definition BuildSetSimCardPower (m_nToken isPowerUp : Z) : res (option (list Z) * Z) :=
  t ← InitRequestHeader m_nToken (fill 13 0) SIT_SET_SIM_CARD_POWER 13; req ← t.1.[12 <- Z.land isPowerUp 255]; Ok (Some req, t.2).
(** the data of the application, as they are, behind the header *)
Definition oem_id (msgId : Z) : option Z :=
  if msgId =? RIL_REQUEST_SIM_IO then Some SIT_SIM_IO
  else if msgId =? RIL_REQUEST_SIM_OPEN_CHANNEL then Some SIT_OPEN_SIM_CHANNEL_WITH_P2
  else if msgId =? RIL_REQUEST_SIM_TRANSMIT_APDU_CHANNEL then Some SIT_TRANSMIT_SIM_APDU_CHANNEL
  else if msgId =? RIL_REQUEST_SIM_TRANSMIT_APDU_BASIC then Some SIT_TRANSMIT_SIM_APDU_BASIC
  else None.
Definition BuildOemSimRequest (m_nToken msgId : Z) (pData : option (list Z)) (nDataLength : Z) : res (option (list Z) * Z) :=
  match oem_id msgId with
  | None => Ok (None, m_nToken)
  | Some nSitMsg =>
    let length := 12 + nDataLength in
    t ← InitRequestHeader m_nToken (fill length 0) nSitMsg length;
    b ← (match pData with Some p => rdn p 0 nDataLength | None => if nDataLength =? 0 then Ok [] else UB end);
    req ← wrn t.1 12 b; Ok (Some req, t.2)
  end.
(** [sit_sim_set_logical_to_physical_slot_mapping_req]: slotMaplen 12, slotMap 13 *)
Definition BuildSimSetLogicalSlotMapping (m_nToken : Z) (pData : list Z) (nDataLength : Z) : res (option (list Z) * Z) :=
  if (MAX_SLOT_NUM <? nDataLength) || (nDataLength <=? 0) then Ok (None, m_nToken)
  else
    t ← InitRequestHeader m_nToken (fill 17 0) SIT_SET_LOGICAL_TO_PHYSICAL_SLOT_MAPPING 17;
    req ← t.1.[12 <- Z.land nDataLength 255];
    req ← for_up (Z.to_nat nDataLength) 0 (λ i req, v ← pData.[i]; req.[13 + i <- Z.land v 255]) req; Ok (Some req, t.2).

(** ** The answers *)

(** the bytes behind the header of an answer; there is no null check *)
Definition param_length (m_pModemData : option (list Z)) : res Z :=
  match m_pModemData with Some _ => Ok (Rcm.GetParameterLength m_pModemData sizeof_RCM_HEADER) | None => UB end.
(** a length that is told, cut to [max] and to the frame without two bytes *)
Definition told_length (m_pModemData : option (list Z)) (max n : Z) : res Z :=
  let n := if max <? n then max else n in
  pl ← param_length m_pModemData; Ok (if pl - 2 <? n then pl - 2 else n).
Section adapters.
Variable m_pModemData : option (list Z).
Definition GetAuthType : res Z := when_id [SIT_GET_SIM_AUTH] 0 m_pModemData (λ raw, raw.[12]).
Definition GetAuthLength : res Z := when_id [SIT_GET_SIM_AUTH] 0 m_pModemData (λ raw, raw.[13]).
Definition GetAuth : res (option (list Z)) := when_id [SIT_GET_SIM_AUTH] None m_pModemData (λ raw, Ok (Some (drop 14 raw))).
(** the basic channel: the status words are the last two bytes *)
Definition basic_GetApduLength : res Z :=
  when_id [SIT_TRANSMIT_SIM_APDU_BASIC] 0 m_pModemData (λ raw, n ← rd16 raw 12; told_length m_pModemData MAX_APDU_LEN n).
Definition basic_word (k : Z) : res Z :=
  when_id [SIT_TRANSMIT_SIM_APDU_BASIC] 0 m_pModemData (λ raw, n ← basic_GetApduLength; if 2 <=? n then raw.[14 + n - k] else Ok 0).
Definition basic_GetSw1 : res Z := basic_word 2.
Definition basic_GetSw2 : res Z := basic_word 1.
(** opening a channel *)
Definition open_ids : list Z := [SIT_OPEN_SIM_CHANNEL; SIT_OPEN_SIM_CHANNEL_WITH_P2].
Definition open_GetSessionID : res Z := when_id open_ids 0 m_pModemData (λ raw, n ← rd32 raw 12; Ok (i32 n)).
Definition open_GetSw1 : res Z := when_id open_ids 0 m_pModemData (λ raw, raw.[16]).
Definition open_GetSw2 : res Z := when_id open_ids 0 m_pModemData (λ raw, raw.[17]).
Definition open_GetResponse : res (option (list Z)) := when_id open_ids None m_pModemData (λ raw, Ok (Some (drop 20 raw))).
Definition open_GetResponseLength : res Z :=
  when_id open_ids 0 m_pModemData (λ raw, n ← rd16 raw 18; told_length m_pModemData MAX_OPEN_CHANNEL_RSP_LEN (i16 n)).
(** a logical channel *)
Definition channel_GetSw1 : res Z := when_id [SIT_TRANSMIT_SIM_APDU_CHANNEL] 0 m_pModemData (λ raw, raw.[12]).
Definition channel_GetSw2 : res Z := when_id [SIT_TRANSMIT_SIM_APDU_CHANNEL] 0 m_pModemData (λ raw, raw.[13]).
Definition channel_GetApduLength : res Z :=
  when_id [SIT_TRANSMIT_SIM_APDU_CHANNEL] 0 m_pModemData (λ raw, n ← rd16 raw 14; told_length m_pModemData MAX_APDU_LEN (i16 n)).
Definition channel_GetApdu : res (option (list Z)) := when_id [SIT_TRANSMIT_SIM_APDU_CHANNEL] None m_pModemData (λ raw, Ok (Some (drop 16 raw))).
(** [ProtocolSimImsiAdapter]: a number that does not fit its array is written behind it; no digits are no number *)
Definition non_empty (t : list Z) : option (list Z) := match t with [] => None | _ => Some t end.
Definition ProtocolSimImsiAdapter : res (option (list Z)) :=
  e ← Rcm.GetErrorCode m_pModemData;
  if e =? RIL_E_SUCCESS
  then when_id [SIT_GET_IMSI] None m_pModemData (λ raw,
         n ← raw.[12]; if MAX_IMSI_LEN <? n then UB else b ← rdn raw 13 n; Ok (non_empty (cstr (b ++ [0]))))
  else Ok None.
(** [ProtocolSimATRAdapter]: the result, the length and the array; another frame leaves them undefined *)
Definition ProtocolSimATRAdapter : res (option (Z * Z * list Z)) :=
  e ← Rcm.GetErrorCode m_pModemData;
  if e =? RIL_E_SUCCESS
  then when_id [SIT_GET_ATR] None m_pModemData (λ raw,
         r ← raw.[12]; n ← raw.[13]; b ← rdn raw 14 n; Ok (Some (r, n, b ++ fill (MAX_ATR_LEN - n) 0)))
  else Ok None.
Definition GetLenAllowedCarriers : res Z := when_id [SIT_SET_CARRIER_RESTRICTIONS] 0 m_pModemData (λ raw, raw.[12]).
(** the lists themselves are not read *)
Definition ProtocolSimGetCarrierRestrictionsAdapter : res (Z * Z) :=
  when_id [SIT_GET_CARRIER_RESTRICTIONS] (0, 0) m_pModemData (λ raw, a ← rd32 raw 12; x ← rd32 raw 16; Ok (i32 a, i32 x)).
(** an indication *)
Definition ProtocolUiccSubStatusChangeAdapter : res Z :=
  when_id [SIT_IND_UICC_SUBSCRIPTION_STATE_CHANGED] 0 m_pModemData (λ raw, n ← rd32 raw sizeof_RCM_IND_HEADER; Ok (i32 n)).
(** [sit_sim_get_sim_lock_info_rsp]: policy 12, status 13, lockType 14, maxRetryCount 15, reaminCount 16, lockCodeCount 17, lockCode 19 *)
Definition lock_ids : list Z := [SIT_OEM_GET_SIM_LOCK_INFO].
Definition GetPolicy : res Z := when_id lock_ids (-1) m_pModemData (λ raw, v ← raw.[12]; Ok (Z.land v 15)).
Definition GetStatus : res Z := when_id lock_ids (-1) m_pModemData (λ raw, v ← raw.[13]; Ok (Z.land v 15)).
Definition GetLockType : res Z := when_id lock_ids (-1) m_pModemData (λ raw, v ← raw.[14]; Ok (Z.land v 15)).
Definition GetMaxRetryCount : res Z := when_id lock_ids 0 m_pModemData (λ raw, v ← raw.[15]; Ok (Z.land v 255)).
Definition GetRemainCount : res Z := when_id lock_ids 0 m_pModemData (λ raw, v ← raw.[16]; Ok (Z.land v 255)).
Definition GetLockCodeCount : res Z := when_id lock_ids 0 m_pModemData (λ raw, v ← rd16 raw 17; Ok (Z.land v 65535)).
Definition GetLockCode : res (option (list Z)) := when_id lock_ids None m_pModemData (λ raw, Ok (Some (drop 19 raw))).
End adapters.

(** ** The answers for the framework *)

(** the text of [n] bytes, in a buffer of its size; none for no bytes *)
Definition hex_text (p : list Z) (n : Z) : res (option (list Z)) :=
  r ← Value2HexString (Some (fill (n * 2 + 1) 0)) (Some p) n; Ok (if r.2 =? -1 then None else cstr <$> r.1).
Definition BuildSimGetIsimAuthResponse (nAuthLen : Z) (pAuthResp : option (list Z)) : res (option (list Z)) :=
  match pAuthResp with Some p => if nAuthLen =? 0 then Ok None else hex_text p nAuthLen | None => Ok None end.
(** the result of the authentication as the card would have given it *)
Definition auth_result (b : Z) : Z := if b =? 0 then 0xDB else if b =? 5 then 0xDC else b.
Definition BuildSimGetSimAuthResponse (nAuthType nParameterLength nAuthLen : Z) (pAuthResp : option (list Z)) : res (option SimIoResponse) :=
  match pAuthResp with
  | Some p =>
    if nAuthLen =? 0 then Ok None
    else if nAuthLen + 4 <=? nParameterLength
    then
      pResponse ← (if nAuthType =? SIT_SIM_AUTH_GSM
                   then if 0 <? nAuthLen - 1 then b ← rdn p 1 (nAuthLen - 1); t ← Base64_Encode b; Ok (Some t) else Ok None
                   else b ← rdn p 0 nAuthLen; r ← b.[0]; b ← b.[0 <- auth_result r]; t ← Base64_Encode b; Ok (Some t));
      sw1 ← p.[nAuthLen]; sw2 ← p.[nAuthLen + 1];
      Ok (Some (newSimIoResponse sw1 sw2 pResponse))
    else Ok None
  | None => Ok None
  end.
(** the session, the bytes, the status words; with a negative length the words come over the session *)
Definition BuildSimOpenChannelResponse (session sw1 sw2 nLength : Z) (pResponse : option (list Z)) : res RilDataInts :=
  let d := (SetInt 0 session (newRilDataInts (3 + nLength))).2 in
  d ← (match pResponse with
       | Some p => if 0 <? nLength then for_up (Z.to_nat nLength) 0 (λ i d, b ← p.[i]; Ok (SetInt (i + 1) b d).2) d else Ok d
       | None => Ok d
       end);
  Ok (SetInt (nLength + 2) sw2 (SetInt (nLength + 1) sw1 d).2).2.
(** with two bytes or fewer the status words are read where the last two would be, before the data too *)
Definition BuildSimTransmitApduBasicResponse (nLength : Z) (m_pModemData : option (list Z)) : res (option SimIoResponse) :=
  p ← when_id [SIT_TRANSMIT_SIM_APDU_BASIC] None m_pModemData (λ raw, Ok (Some raw));
  match p with
  | Some raw =>
    t ← (if 2 <? nLength then t ← hex_text (drop 14 raw) (nLength - 2); Ok (match t with Some t => Some (Some t) | None => None end) else Ok (Some None));
    match t with
    | Some t => sw1 ← raw.[14 + nLength - 2]; sw2 ← raw.[14 + nLength - 1]; Ok (Some {| io_sw1 := sw1; io_sw2 := sw2; simResponse := t |})
    | None => Ok None
    end
  | None => UB
  end.
Definition BuildSimTransmitApduChannelResponse (sw1 sw2 nLength : Z) (pResponse : option (list Z)) : res (option SimIoResponse) :=
  match pResponse with
  | Some p => if 0 <? nLength then t ← hex_text p nLength; Ok (match t with Some t => Some {| io_sw1 := sw1; io_sw2 := sw2; simResponse := Some t |} | None => None end)
              else Ok (Some {| io_sw1 := sw1; io_sw2 := sw2; simResponse := None |})
  | None => Ok (Some {| io_sw1 := sw1; io_sw2 := sw2; simResponse := None |})
  end.
Definition BuildGetImsiResponse (imsi : option (list Z)) : option (list Z) := match imsi with Some (c :: t) => Some (c :: t) | _ => None end.
(** [atr] is the array; one that begins with a zero is none *)
Definition BuildGetATRResponse (atr : list Z) (nLength : Z) : res (option (list Z)) :=
  match cstr atr with [] => Ok None | _ => hex_text atr nLength end.
(** [RilDataSimLockStatus] *)
Definition lock_entry (entrySize : Z) (lockCode : list Z) (i : Z) : res (list Z) :=
  b ← rdn lockCode (i * entrySize) entrySize;
  b ← (if PN_LOCK_CODE_SIZE <=? entrySize then c ← b.[5]; if c =? 35 then b.[5 <- 0] else Ok b else Ok b);
  Ok (cstr (b ++ [0])).
Definition RilDataSimLockStatus (policy status type maxRetry remain lockCodeCount : Z) (code : option (list Z)) : res SimLockStatus :=
  let none := {| policy := policy; lock_status := status; lockType := type; maxRetryCount := maxRetry; remainCount := remain; numOfLockCode := 0; lockCode := None |} in
  match code with
  | Some p =>
    let entrySize := if type =? LOCK_TYPE_PN then PN_LOCK_CODE_SIZE else DEFAULT_LOCK_CODE_SIZE in
    if (0 <? lockCodeCount) && (entrySize * lockCodeCount <=? MAX_LOCK_CODE_SIZE)
    then l ← for_up (Z.to_nat lockCodeCount) 0 (λ i l, t ← lock_entry entrySize p i; Ok (l ++ [t])) [];
         Ok {| policy := policy; lock_status := status; lockType := type; maxRetryCount := maxRetry; remainCount := remain; numOfLockCode := lockCodeCount; lockCode := Some l |}
    else Ok none
  | None => Ok none
  end.

(** ** The slots *)

(** [sit_sim_get_slot_status_info]: card_state 0, slot_state 1, atr_len 2, atr 3, logicalSlotId 36, iccid_len 37, iccid 38, eid_len 48, eid 49 *)
Definition sizeof_slot_info : Z := 65.
Section slots.
(** where the number of the slots is: behind the header of an answer or of an indication *)
Variables (hdr : Z) (m_pModemData : option (list Z)).
Definition slot_ids : list Z := [SIT_GET_SLOT_STATUS; SIT_IND_SIM_SLOT_STATUS_CHANGED].
Definition GetNumOfSlotStatus : res Z := when_id slot_ids 0 m_pModemData (λ raw, raw.[hdr]).
Definition slot_byte (phy_slotId off : Z) : res Z := when_id slot_ids 0 m_pModemData (λ raw, raw.[hdr + 1 + sizeof_slot_info * phy_slotId + off]).
Definition GetCardState (phy_slotId : Z) : res Z := slot_byte phy_slotId 0.
Definition GetSlotState (phy_slotId : Z) : res Z := slot_byte phy_slotId 1.
Definition GetLogicalSlotId (phy_slotId : Z) : res Z := slot_byte phy_slotId 36.
(** twice a length of the frame and one; none in another frame *)
Definition text_size (phy_slotId off : Z) : res Z :=
  when_id slot_ids 0 m_pModemData (λ raw, n ← raw.[hdr + 1 + sizeof_slot_info * phy_slotId + off]; Ok (n * 2 + 1)).
Definition GetAtrSize (phy_slotId : Z) : res Z := text_size phy_slotId 2.
Definition GetIccIdSize (phy_slotId : Z) : res Z := text_size phy_slotId 37.
Definition GetEidSize (phy_slotId : Z) : res Z := text_size phy_slotId 48.
Definition slot_hex (phy_slotId off : Z) : res (option (list Z)) :=
  when_id slot_ids None m_pModemData (λ raw,
    let p := hdr + 1 + sizeof_slot_info * phy_slotId + off in n ← raw.[p]; hex_text (drop (Z.to_nat (p + 1)) raw) n).
Definition GetAtr (phy_slotId : Z) : res (option (list Z)) := slot_hex phy_slotId 2.
Definition GetEid (phy_slotId : Z) : res (option (list Z)) := slot_hex phy_slotId 48.
(** a text of another frame would be made of a null pointer *)
Definition GetIccId (phy_slotId : Z) : res (list Z) :=
  t ← when_id slot_ids None m_pModemData (λ raw,
        let p := hdr + 1 + sizeof_slot_info * phy_slotId + 37 in n ← raw.[p]; b ← rdn raw (p + 1) n; Ok (Some (bchToString b)));
  match t with Some t => Ok t | None => UB end.
(** a text copied to a row of [size] characters: behind the row is another slot's *)
Definition in_row (size : Z) (t : list Z) : res (list Z) := if lenZ t <? size then Ok t else UB.
Definition in_row_opt (size : Z) (t : option (list Z)) : res (option (list Z)) := match t with Some t => t ← in_row size t; Ok (Some t) | None => Ok None end.
(** [strncpy] writes as many characters as the size says *)
Definition iccid_row (size : Z) (t : list Z) : res (list Z) := if MAX_ICCID_LEN * 2 + 1 <? size then UB else in_row (MAX_ICCID_LEN * 2 + 1) t.
Definition slot_status (i : Z) : res SlotStatus :=
  card ← GetCardState i; slot ← GetSlotState i; logical ← GetLogicalSlotId i;
  if (card =? RIL_CARDSTATE_PRESENT) || (card =? RIL_CARDSTATE_RESTRICTED)
  then
    na ← GetAtrSize i;
    atr ← (if 0 <? na then t ← GetAtr i; in_row_opt (MAX_ATR_LEN_FOR_SLOT_STATUS * 2 + 1) t else Ok None);
    ni ← GetIccIdSize i;
    iccid ← (if 0 <? ni then t ← GetIccId i; t ← iccid_row ni t; Ok (Some (take (Z.to_nat ni) t)) else Ok None);
    ne ← GetEidSize i;
    eid ← (if 0 <? ne then t ← GetEid i; in_row_opt (MAX_EID_LEN * 2 + 1) t else Ok None);
    Ok {| cardState := card; slotState := slot; logicalSlotId := logical; atr_size := na; slot_atr := atr; iccid_size := ni; slot_iccid := iccid;
          eid_size := ne; slot_eid := eid |}
  else
    Ok {| cardState := card; slotState := slot; logicalSlotId := logical; atr_size := 0; slot_atr := None; iccid_size := 0; slot_iccid := None;
          eid_size := 0; slot_eid := None |}.
(** the array of the result has four entries *)
Definition slot_statuses : res (list SlotStatus) :=
  n ← GetNumOfSlotStatus;
  if MAX_SLOT_NUM <? n then UB else for_up (Z.to_nat n) 0 (λ i l, s ← slot_status i; Ok (l ++ [s])) [].
End slots.
