(* ===== verification/SimPhoneBook.v ===== *)
(** The phone book of the SIM: [core/service/simservice.cpp],
    [fw/simdata.cpp], [fw/simdatabuilder.cpp],
    [protocol/sit/protocolsimbuilder.cpp],
    [protocol/sit/protocolsimadapter.cpp].

    An entry of the framework is flattened into the bytes of a packet when it is
    written, and an entry of the card is taken apart when it is read.  The
    entries of a 3G phone book are lists of fields, each with its tag and its
    length.  Pointers have eight bytes. *)
From stdpp Require Import gmap.
From S2P Require Import Prelude RilDef Text Base64 WaitList Network Rcm Handler Layout RilData MccTable SimPackets SimPin SimIo SimCardPackets.

Definition MAX_PB_ENTRY_NUM : Z := 13.
Definition MAX_PB_ENTRY_LEN : Z := 512.
Definition SIT_READ_PB_ENTRY : Z := 0x240.
Definition SIT_UPDATE_PB_ENTRY : Z := 0x241.
Definition SIT_GET_PB_STORAGE_INFO : Z := 0x242.
Definition SIT_GET_PB_STORAGE_LIST : Z := 0x243.
Definition SIT_GET_PB_ENTRY_INFO : Z := 0x244.
Definition SIT_GET_3G_PB_CAPA : Z := 0x245.
Definition SIT_IND_SIM_PB_READY : Z := 0x246.
Definition PB_EN : Z := 0.
Definition PB_ADN_2G : Z := 1.
Definition PB_FDN : Z := 2.
Definition PB_SDN : Z := 4.
Definition PB_LDN : Z := 5.
Definition PB_MSISDN : Z := 8.
Definition PB_ADN_3G : Z := 9.
Definition PB_AAS : Z := 10.
Definition PB_GAS : Z := 11.
(** the phone books whose entries are a number and a text, and those that are a text *)
Definition number_and_text : list Z := [PB_EN; PB_ADN_2G; PB_FDN; PB_SDN; PB_LDN; PB_MSISDN].
Definition only_text : list Z := [PB_AAS; PB_GAS].

(** ** An entry to write *)

Record RIL_3GPb := { type3g : Z; data_len : Z; data_type : Z; data_3g : list Z }.
(** the union of [RIL_UpdatePbEntry]: the member that was set *)
Inductive PbEntryData :=
| Pb1 (num_len num_type : Z) (number : list Z) (text_len text_type : Z) (text : list Z)
| Pb2 (text_len text_type : Z) (text : list Z)
| Pb3g (l : list RIL_3GPb).
Record RIL_UpdatePbEntry := { pb_mode : Z; pb_kind : Z; pb_index : Z; pb_length : Z; pb_entry : PbEntryData }.
Record SimUpdatePbEntry := { m_mode : Z; m_type : Z; m_index : Z; m_length : Z; m_entry : list Z }.
Definition newSimUpdatePbEntry : SimUpdatePbEntry :=
  {| m_mode := -1; m_type := -1; m_index := -1; m_length := 0; m_entry := fill MAX_PB_ENTRY_LEN 0 |}.
(** a length, a kind and as many bytes, from [offset] on *)
Definition put_part (m_entry : list Z) (offset len kind : Z) (bytes : list Z) : res (list Z) :=
  e ← m_entry.[offset <- Z.land len 255]; e ← e.[offset + 1 <- Z.land kind 255]; b ← rdn bytes 0 len; wrn e (offset + 2) b.
(** the fields of a 3G entry: [tlen] is the size of what is left in the structure of the framework *)
Fixpoint put_fields (tlen : Z) (p : list RIL_3GPb) (m_entry : list Z) (offset m_length : Z) : res (list Z * Z * Z) :=
  if 0 <? tlen
  then match p with
       | [] => UB
       | f :: p =>
         let n := data_len f + 1 in
         e ← m_entry.[offset <- Z.land (type3g f) 255];
         e ← e.[offset + 1 <- Z.land n 255]; e ← e.[offset + 2 <- Z.land (Z.shiftr n 8) 255];
         e ← e.[offset + 3 <- Z.land (data_type f) 255];
         b ← rdn (data_3g f) 0 (data_len f); e ← wrn e (offset + 4) b;
         put_fields (i32 (tlen - data_len f - 12)) p e (offset + 4 + data_len f) (m_length + n + 3)
       end
  else Ok (m_entry, offset, m_length).
Definition SimUpdatePbEntry_encode (data : option RIL_UpdatePbEntry) (length : Z) (r : SimUpdatePbEntry) : res (Z * SimUpdatePbEntry) :=
  match data with
  | None => Ok (-1, r)
  | Some pb =>
    if length =? 0 then Ok (-1, r)
    else if pb_mode pb =? 4 then Ok (-1, {| m_mode := 4; m_type := m_type r; m_index := m_index r; m_length := m_length r; m_entry := m_entry r |})
    else
      let r := {| m_mode := pb_mode pb; m_type := pb_kind pb; m_index := pb_index pb; m_length := m_length r; m_entry := m_entry r |} in
      let filled n e := {| m_mode := m_mode r; m_type := m_type r; m_index := m_index r; m_length := n; m_entry := e |} in
      if (pb_mode pb =? 2) || (pb_length pb =? 0) then Ok (0, r)
      else if bool_decide (pb_kind pb ∈ number_and_text)
      then match pb_entry pb with
           | Pb1 num_len num_type number text_len text_type text =>
             e ← put_part (m_entry r) 0 num_len num_type number; e ← put_part e (2 + num_len) text_len text_type text;
             Ok (0, filled (num_len + text_len + 4) e)
           | _ => UB
           end
      else if pb_kind pb =? PB_ADN_3G
      then match pb_entry pb with
           | Pb3g l => t ← put_fields (pb_length pb) l (m_entry r) 0 (m_length r); e ← t.1.1.[t.1.2 <- 255]; Ok (0, filled (t.2 + 1) e)
           | _ => UB
           end
      else if bool_decide (pb_kind pb ∈ only_text)
      then match pb_entry pb with
           | Pb2 text_len text_type text => e ← put_part (m_entry r) 0 text_len text_type text; Ok (0, filled (m_length r + text_len + 2) e)
           | _ => UB
           end
      else Ok (0, r)
  end.

(** ** The packets *)

(** [sit_read_pb_entry_req]: pb_type 12, index 13 *)
Definition BuildSimReadPbEntry (m_nToken pb_type index : Z) : res (option (list Z) * Z) :=
  t ← InitRequestHeader m_nToken (fill 15 0) SIT_READ_PB_ENTRY 15;
  req ← t.1.[12 <- Z.land pb_type 255]; req ← wrn req 13 (le16 (Z.land index 65535)); Ok (Some req, t.2).
(** [sit_update_pb_entry_req]: mode 12, pb_type 13, index 14, entry_len 15, entry 17 *)
Definition sizeof_update_pb_entry_req : Z := 37.
Definition BuildSimUpdatePbDelete (m_nToken mode type index : Z) : res (option (list Z) * Z) :=
  req ← (fill sizeof_update_pb_entry_req 0).[12 <- Z.land mode 255]; req ← req.[13 <- Z.land type 255]; req ← req.[14 <- Z.land index 255];
  t ← InitRequestHeader m_nToken req SIT_UPDATE_PB_ENTRY 17;
  b ← rdn t.1 0 17; Ok (Some b, t.2).
Definition BuildSimUpdatePbEntry1 (m_nToken mode type index length : Z) (pb : list Z) : res (option (list Z) * Z) :=
  req ← (fill MAX_PB_ENTRY_LEN 0).[12 <- Z.land mode 255]; req ← req.[13 <- Z.land type 255]; req ← req.[14 <- Z.land index 255];
  req ← wrn req 15 (le16 (Z.land length 65535));
  b ← rdn pb 0 length; req ← wrn req 17 b;
  t ← InitRequestHeader m_nToken req SIT_UPDATE_PB_ENTRY (17 + length);
  b ← rdn t.1 0 (17 + length); Ok (Some b, t.2).
(** the same code twice more *)
Definition BuildSimUpdatePbEntry2 : Z → Z → Z → Z → Z → list Z → res (option (list Z) * Z) := BuildSimUpdatePbEntry1.
Definition BuildSimUpdatePb3gEntry : Z → Z → Z → Z → Z → list Z → res (option (list Z) * Z) := BuildSimUpdatePbEntry1.
(** [sit_sim_pb_entry_info]: pb_type 12 *)
Definition pb_type_request (id m_nToken pbType : Z) : res (option (list Z) * Z) :=
  t ← InitRequestHeader m_nToken (fill 13 0) id 13; req ← t.1.[12 <- Z.land pbType 255]; Ok (Some req, t.2).
Definition BuildSimGetPbStorageInfo : Z → Z → res (option (list Z) * Z) := pb_type_request SIT_GET_PB_STORAGE_INFO.
Definition BuildSimGetPbEntryInfo : Z → Z → res (option (list Z) * Z) := pb_type_request SIT_GET_PB_ENTRY_INFO.
Definition BuildSimPbStorageList : Z → res (option (list Z) * Z) := null_request SIT_GET_PB_STORAGE_LIST.
Definition BuildSim3GPbCapa : Z → res (option (list Z) * Z) := null_request SIT_GET_3G_PB_CAPA.

(** ** The answers *)

(** The members of an adapter are undefined ([None]) when the frame is another.  [sit_read_pb_resp]: pb_type 12, index 13, data_len 15,
    entry_data 17; the array of the adapter is undefined behind what was copied. *)
Definition ProtocolSimReadPbEntry (m_pModemData : option (list Z)) : res (option (Z * Z * list Z)) :=
  when_id [SIT_READ_PB_ENTRY] None m_pModemData (λ raw,
    type ← raw.[12]; index ← rd16 raw 13; n ← rd16 raw 15;
    if MAX_PB_ENTRY_LEN <? n then UB else b ← rdn raw 17 n; Ok (Some (type, index, b))).
Definition ProtocolSimUpdatePbEntry (m_pModemData : option (list Z)) : res (option (Z * Z * Z)) :=
  when_id [SIT_UPDATE_PB_ENTRY] None m_pModemData (λ raw, mode ← raw.[12]; type ← raw.[13]; index ← raw.[14]; Ok (Some (mode, type, index))).
(** pb_type 12, total_count 13, used_count 15 *)
Definition ProtocolSimPbStorageInfoAdapter (m_pModemData : option (list Z)) : res (option (Z * Z * Z)) :=
  when_id [SIT_GET_PB_STORAGE_INFO] None m_pModemData (λ raw, type ← raw.[12]; total ← rd16 raw 13; used ← rd16 raw 15; Ok (Some (type, total, used))).
Definition GetPbList (m_pModemData : option (list Z)) : res Z :=
  when_id [SIT_GET_PB_STORAGE_LIST] (-1) m_pModemData (λ raw, n ← rd32 raw 12; Ok (i32 n)).
(** pb_type 12, index_min 13, index_max 15, num_max 17, text_max 19 *)
Definition ProtocolSimPbEntryInfoAdapter (m_pModemData : option (list Z)) : res (option (list Z)) :=
  when_id [SIT_GET_PB_ENTRY_INFO] None m_pModemData (λ raw,
    type ← raw.[12]; max ← rd16 raw 15; min ← rd16 raw 13; num ← rd16 raw 17; text ← rd16 raw 19; Ok (Some [type; min; max; num; text])).
(** entry_num 12, pb_list 13: pb_type 0, index_max 1, entry_max 3, used_count 5 *)
Definition GetEntryNum (m_pModemData : option (list Z)) : res Z := when_id [SIT_GET_3G_PB_CAPA] 0 m_pModemData (λ raw, raw.[12]).
Definition GetPbCapa (m_pModemData : option (list Z)) (pb : list Z) (entryNum : Z) : res (list Z) :=
  when_id [SIT_GET_3G_PB_CAPA] pb m_pModemData (λ raw,
    for_up (Z.to_nat entryNum) 0 (λ i pb,
      type ← raw.[13 + 7 * i]; index ← rd16 raw (14 + 7 * i); entry ← rd16 raw (16 + 7 * i); used ← rd16 raw (18 + 7 * i);
      wrn pb (4 * i) [type; index; entry; used]) pb).
Definition BuildGet3GPbCapaResponse (entryNum : Z) (pb : list Z) : res (option RilDataInts) :=
  if entryNum =? 0 then Ok None
  else d ← for_up (Z.to_nat (entryNum * 4)) 0 (λ i d, v ← pb.[i]; Ok (SetInt i v d).2) (newRilDataInts (entryNum * 4)); Ok (Some d).

(** ** The requests *)

Definition DoReadPbEntry (pMsg : option IntsRequestData) : SM Z :=
  NULL_REQ pMsg (λ r,
    packet ← build (λ t, BuildSimReadPbEntry t (IntsRequestData_GetInt 0 r) (IntsRequestData_GetInt 1 r)); ret_code <$> send packet MSG_SIM_READ_PB_ENTRY_DONE).
Definition DoUpdatePbEntry (pMsg : option SimUpdatePbEntry) : SM Z :=
  NULL_REQ pMsg (λ r,
    let mode := m_mode r in let type := m_type r in let index := m_index r in
    if mode =? 2
    then packet ← build (λ t, BuildSimUpdatePbDelete t mode type index); ret_code <$> send packet MSG_SIM_UPDATE_PB_ENTRY_DONE
    else if m_length r =? 0 then mret (-1)
    else
      packet ← (if bool_decide (type ∈ number_and_text) then build (λ t, BuildSimUpdatePbEntry1 t mode type index (m_length r) (m_entry r))
                else if type =? PB_ADN_3G then build (λ t, BuildSimUpdatePb3gEntry t mode type index (m_length r) (m_entry r))
                else if bool_decide (type ∈ only_text) then build (λ t, BuildSimUpdatePbEntry2 t mode type index (m_length r) (m_entry r))
                else mret None);
      ret_code <$> send packet MSG_SIM_UPDATE_PB_ENTRY_DONE).
Definition DoGetPbStorageInfo (pMsg : option IntRequestData) : SM Z :=
  NULL_REQ pMsg (λ r, packet ← build (λ t, BuildSimGetPbStorageInfo t (m_nInt r)); ret_code <$> send packet MSG_SIM_GET_PB_STORAGE_INFO_DONE).
Definition DoGetPbStorageList {A} (pMsg : option A) : SM Z :=
  NULL_REQ pMsg (λ _, packet ← build BuildSimPbStorageList; ret_code <$> send packet MSG_SIM_GET_PB_STORAGE_LIST_DONE).
Definition DoGetPbEntryInfo (pMsg : option IntRequestData) : SM Z :=
  NULL_REQ pMsg (λ r, packet ← build (λ t, BuildSimGetPbEntryInfo t (m_nInt r)); ret_code <$> send packet MSG_SIM_GET_PB_ENTRY_INFO_DONE).
Definition DoGet3GPbCapa {A} (pMsg : option A) : SM Z :=
  NULL_REQ pMsg (λ _, packet ← build BuildSim3GPbCapa; ret_code <$> send packet MSG_SIM_GET_3G_PB_CAPA_DONE).

(** ** Reading an entry *)

(** a length, a kind and as many bytes, from [at_] on *)
Definition get_part (entry : list Z) (at_ : Z) : res (Z * Z * list Z) :=
  len ← entry.[at_]; kind ← entry.[at_ + 1]; b ← rdn entry (at_ + 2) len; Ok (len, kind, b).
Definition sizeof_RIL_3GPb : Z := 24.
Definition room_3g (n : Z) : bool := (n + 1) * sizeof_RIL_3GPb <=? MAX_PB_ENTRY_LEN.
Record FieldLoop := { fl_entry : Z; fl_length : Z; fl_fields : list RIL_3GPb; fl_pbLen : Z }.
(** One round over the fields.  The structures are laid out in the 512 bytes of [entry_data]; a field of no bytes at all asks for an array of
    a negative size. *)
Definition field_step (entry : list Z) (l : FieldLoop) : res (ctl FieldLoop FieldLoop) :=
  if fl_length l <=? 0 then Ok (Stop l)
  else
    tag ← entry.[fl_entry l];
    if tag =? 255 then Ok (Stop l)
    else if negb (room_3g (lenZ (fl_fields l))) then UB
    else
      lo ← entry.[fl_entry l + 1]; hi ← entry.[fl_entry l + 2]; kind ← entry.[fl_entry l + 3];
      let n := Z.lor (Z.land lo 255) (Z.shiftl hi 8) in
      if kind =? 255 then Ok (Stop l)
      else if n <=? 0 then UB
      else
        b ← rdn entry (fl_entry l + 4) (n - 1);
        Ok (Next {| fl_entry := fl_entry l + n + 3; fl_length := fl_length l - n - 3;
                    fl_fields := fl_fields l ++ [ {| type3g := tag; data_len := n; data_type := kind; data_3g := b |} ]; fl_pbLen := fl_pbLen l + 12 + n |}).
Definition read_fields (entry : list Z) (length : Z) : res FieldLoop :=
  loop (S (Z.to_nat length)) (field_step entry) {| fl_entry := 0; fl_length := length; fl_fields := []; fl_pbLen := 0 |}.
(** the pointers that are freed are those of the structures behind the last one: null as long as they lie in [entry_data] *)
Definition free_fields (cnt : Z) : res () := if (cnt =? 0) || room_3g (2 * cnt) then Ok () else UB.
(** The answer is the structure [pb], of which only the type and the index were set, with the size of what was read. *)
Definition OnReadPbEntryDone (m_pModemData : option (list Z)) : SM Z :=
  match m_pModemData with
  | None => mret (-1)
  | Some _ =>
    uErrCode ← lift (Rcm.GetErrorCode m_pModemData);
    (if uErrCode =? RIL_E_SUCCESS
     then
       d ← lift (ProtocolSimReadPbEntry m_pModemData);
       match d with
       | None => lift UB
       | Some (type, index, entry) =>
         if bool_decide (type ∈ number_and_text)
         then
           num ← lift (get_part entry 0); text ← lift (get_part entry (2 + num.1.1));
           complete uErrCode (AnsPbEntry type index (num.1.1 + text.1.1 + 24))
         else if type =? PB_ADN_3G
         then
           l ← lift (read_fields entry (lenZ entry)); complete uErrCode (AnsPbEntry type index (fl_pbLen l + 8));; lift (free_fields (lenZ (fl_fields l)));; mret 0
         else if bool_decide (type ∈ only_text)
         then text ← lift (get_part entry 0); complete uErrCode (AnsPbEntry type index (text.1.1 + 16))
         else mret 0
       end
     else complete uErrCode AnsNone);; mret 0
  end.

(** ** The other answers *)

(** the code of an answer, and what is told of one that succeeded *)
Definition pb_answer (m_pModemData : option (list Z)) (told : res (option (list Z))) : SM Z :=
  match m_pModemData with
  | None => mret (-1)
  | Some _ =>
    uErrCode ← lift (Rcm.GetErrorCode m_pModemData);
    (if uErrCode =? RIL_E_SUCCESS
     then l ← lift told; match l with Some l => complete RIL_E_SUCCESS (AnsInts l) | None => lift UB end
     else complete uErrCode AnsNone);; mret 0
  end.
Definition three (t : option (Z * Z * Z)) : option (list Z) := match t with Some (a, b, c) => Some [a; b; c] | None => None end.
Definition OnUpdatePbEntryDone (m_pModemData : option (list Z)) : SM Z := pb_answer m_pModemData (three <$> ProtocolSimUpdatePbEntry m_pModemData).
Definition OnGetPbStorageInfoDone (m_pModemData : option (list Z)) : SM Z := pb_answer m_pModemData (three <$> ProtocolSimPbStorageInfoAdapter m_pModemData).
Definition OnGetPbStorageListDone (m_pModemData : option (list Z)) : SM Z :=
  pb_answer m_pModemData (n ← GetPbList m_pModemData; Ok (Some [n])).
Definition OnGetPbEntryInfoDone (m_pModemData : option (list Z)) : SM Z := pb_answer m_pModemData (ProtocolSimPbEntryInfoAdapter m_pModemData).
(** the result of the builder is not checked *)
Definition OnGet3GPbCapaDone (m_pModemData : option (list Z)) : SM Z :=
  pb_answer m_pModemData
    (entry_num ← GetEntryNum m_pModemData; pb_capa ← GetPbCapa m_pModemData (fill (MAX_PB_ENTRY_NUM * 4) 0) entry_num;
     BuildGet3GPbCapaResponse entry_num pb_capa).
(** the indication is not told on: the macro that would is not defined *)
Definition OnPbReady (m_pModemData : option (list Z)) : SM Z :=
  match m_pModemData with
  | None => mret (-1)
  | Some _ => lift (when_id [SIT_IND_SIM_PB_READY] 0 m_pModemData (λ raw, raw.[sizeof_RCM_IND_HEADER]));; mret 0
  end.
