(* ===== verification/SimCard.v ===== *)
(** The rest of the SIM service, and its messages:
    [core/service/simservice.cpp].

    Commands for the card, channels, authentication, the number of the
    subscriber, the slots, the locks and the raw requests of applications; and
    the three functions that take a message to its handler; the phone book is in
    [SimPhoneBook.v].  The request that is worked on is an argument of an answer's handler.

    The arrays of the last slot status live in the service; every answer and
    every indication writes what it sends, so they are not kept here.  The
    third parameter of a command that is repeated is changed in the request,
    from where only the repetition reads it. *)
From stdpp Require Import gmap.
From S2P Require Import Prelude RilDef Text Base64 WaitList Network Rcm Handler Layout RilData MccTable SimPackets SimPin SimIo SimCardPackets SimPhoneBook.

Definition RIL_E_NO_MEMORY : Z := 37.
Definition RIL_E_SIM_ERR : Z := 43.
Definition RIL_UNSOL_UICC_SUBSCRIPTION_STATUS_CHANGED : Z := 1038.
Definition RIL_UNSOL_ICC_SLOT_STATUS : Z := 1100.
Definition RIL_CONTEXT_SIM_IMSI : list Z := str "vendor.ril.context.sim.imsi".
Definition RIL_CONTEXT_GSM_SIM_IMSI : list Z := str "gsm.sim.imsi".
Definition RIL_CONTEXT_GSM_SIM_AID : list Z := str "gsm.sim.aid".
Definition RIL_CONTEXT_CDMA_SIM_IMSI : list Z := str "cdma.sim.imsi".
Definition RIL_CONTEXT_CDMA_SIM_AID : list Z := str "cdma.sim.aid".

(** the request that is worked on *)
Inductive Current :=
| CurSimIo (r : SimIoData) | CurApdu (r : SimAPDU) | CurStrings (r : StringsRequestData) | CurRaw (r : RawRequestData) | CurOther.
(** a null pointer, or one to another class, is followed *)
Definition cur_apdu (c : option Current) : res SimAPDU := match c with Some (CurApdu r) => Ok r | _ => UB end.
Definition cur_strings (c : option Current) : res (option StringsRequestData) :=
  match c with Some (CurStrings r) => Ok (Some r) | None => Ok None | _ => UB end.
Definition cur_raw (c : option Current) : res (option RawRequestData) := match c with Some (CurRaw r) => Ok (Some r) | None => Ok None | _ => UB end.
Definition cur_sim_io (c : option Current) : res (option SimIoData) := match c with Some (CurSimIo r) => Ok (Some r) | _ => UB end.

(** ** The number of the subscriber *)

(** the application at an index has the identifier of the request *)
Definition names_app (aid : option (list Z)) (index : Z) (apps : list AppStatus) : bool :=
  (0 <=? index) && (index <? RIL_CARD_MAX_APPS)
  && match aid with Some _ => Equals aid (match apps !! Z.to_nat index with Some a => aid_ptr a | None => None end) | None => false end.
Definition imsi_property (name : list Z) (socket : Z) : list Z := str "vendor.ril." ++ name ++ str "_" ++ dec socket.
Definition tell_imsi (key_aid key_imsi : list Z) (aid imsi : list Z) : SM () :=
  emit (ActProperty key_aid aid);; emit (ActProperty key_imsi imsi);;
  socket ← asks socket_id; emit (ActSystemProperty (imsi_property key_imsi socket) imsi).
Definition UpdateImsi (aid : option (list Z)) (imsi : list Z) : SM () :=
  c ← gets mRilCardStatus;
  let gsm := names_app aid (gsm_umts_subscription_app_index c) (applications c) in
  let cdma := negb gsm && names_app aid (cdma_subscription_app_index c) (applications c) in
  (if gsm then emit (ActProperty RIL_CONTEXT_SIM_IMSI imsi);; tell_imsi RIL_CONTEXT_GSM_SIM_AID RIL_CONTEXT_GSM_SIM_IMSI (default [] aid) imsi else mret ());;
  (if cdma then tell_imsi RIL_CONTEXT_CDMA_SIM_AID RIL_CONTEXT_CDMA_SIM_IMSI (default [] aid) imsi else mret ());;
  match aid with
  | None => modify (set_imsi imsi)
  | Some _ => if gsm then modify (set_imsi imsi) else mret ()
  end.
(** the code of the network may be replaced: the new code is copied with six characters, its final zero among them; six digits do not fit the
    buffer of six *)
Definition checkMmcMnc (changed : list Z → option (list Z)) (pImsi : option (list Z)) : res (list Z) :=
  match pImsi with
  | Some imsi =>
    match changed (take 6 imsi) with
    | Some code => if 5 <? lenZ code then UB else Ok (if decide (take 6 imsi = code) then imsi else code)
    | None => Ok imsi
    end
  | None => UB
  end.
Definition DoGetImsi (pMsg : option StringsRequestData) : SM Z :=
  NULL_REQ pMsg (λ rildata, packet ← build (λ t, BuildGetImsi t (GetString 0 rildata)); ret_code <$> send packet MSG_SIM_GET_IMSI_DONE).
Definition OnGetImsiDone (cur : option Current) (m_pModemData : option (list Z)) : SM Z :=
  match m_pModemData with
  | None => mret (-1)
  | Some _ =>
    uErrCode ← lift (Rcm.GetErrorCode m_pModemData);
    (if uErrCode =? RIL_E_SUCCESS
     then
       told ← lift (ProtocolSimImsiAdapter m_pModemData);
       changed ← asks changed_mccmnc;
       imsi ← lift (checkMmcMnc changed told);
       r ← lift (cur_strings cur);
       (match r with Some r => UpdateImsi (GetString 0 r) imsi | None => mret () end);;
       match BuildGetImsiResponse (Some imsi) with Some t => complete RIL_E_SUCCESS (AnsText (Some t)) | None => mret 0 end
     else complete uErrCode AnsNone);; mret 0
  end.
(** the state of the card changed, a message of the system *)
Definition OnSimStateChanged (cardState : Z) : SM Z := (if cardState =? RIL_CARDSTATE_PRESENT then mret () else UpdateImsi None []);; mret 0.

(** ** Authentication *)

Definition DoGetIsimAuth (pMsg : option StringRequestData) : SM Z :=
  sim ← gets m_nSimCardState;
  if decide (sim = SIM_CARDSTATE_ABSENT) then complete RIL_E_SIM_ABSENT AnsNone;; mret (-1)
  else
    auth ← lift (IsimAuth_Parse pMsg);
    match auth with
    | None => mret (-1)
    | Some auth =>
      nAuthType ← gets (λ s, ims_type (mRilCardStatus s));
      packet ← build (λ t, BuildSimGetIsimAuth t nAuthType (Some auth) (lenZ auth)); ret_code <$> send packet MSG_SIM_GET_ISIM_AUTH_DONE
    end.
Definition OnGetIsimAuthDone (m_pModemData : option (list Z)) : SM Z :=
  uErrCode ← lift (Rcm.GetErrorCode m_pModemData);
  (if uErrCode =? RIL_E_SUCCESS
   then n ← lift (GetAuthLength m_pModemData); p ← lift (GetAuth m_pModemData); t ← lift (BuildSimGetIsimAuthResponse n p);
        match t with Some t => complete RIL_E_SUCCESS (AnsText (Some t)) | None => lift UB end
   else complete uErrCode AnsNone);; mret 0.
Definition DoGetSimAuth (pMsg : option SimAuthentication) : SM Z :=
  match pMsg with
  | None => lift UB
  | Some rildata =>
    aid ← lift (match auth_aid rildata with Some a => Ok a | None => UB end);
    apps ← gets (λ s, applications (mRilCardStatus s));
    let nAppType := if 0 <? lenZ aid then app_type_of aid apps else RIL_APPTYPE_UNKNOWN in
    match m_pAuth rildata with
    | Some text =>
      if lenZ text mod 4 =? 0
      then
        d ← lift (Base64_Decode text);
        packet ← build (λ t, BuildSimGetSimAuth t (m_nAuthContext rildata) (Some (d.1 ++ [0])) d.2 nAppType);
        match packet with Some _ => ret_code <$> send packet MSG_SIM_GET_SIM_AUTH_DONE | None => complete RIL_E_NO_MEMORY AnsNone;; mret (-1) end
      else complete RIL_E_INVALID_ARGUMENTS AnsNone;; mret 0
    | None =>
      packet ← build (λ t, BuildSimGetSimAuth t (m_nAuthContext rildata) None 0 nAppType);
      match packet with Some _ => ret_code <$> send packet MSG_SIM_GET_SIM_AUTH_DONE | None => complete RIL_E_NO_MEMORY AnsNone;; mret (-1) end
    end
  end.
Definition OnGetSimAuthDone (m_pModemData : option (list Z)) : SM Z :=
  uErrCode ← lift (Rcm.GetErrorCode m_pModemData);
  (if uErrCode =? RIL_E_SUCCESS
   then
     t ← lift (GetAuthType m_pModemData); pl ← lift (param_length m_pModemData); n ← lift (GetAuthLength m_pModemData); p ← lift (GetAuth m_pModemData);
     r ← lift (BuildSimGetSimAuthResponse t pl n p);
     match r with Some d => complete RIL_E_SUCCESS (AnsSimIo (io_sw1 d) (io_sw2 d) (simResponse d)) | None => complete RIL_E_INTERNAL_ERR AnsNone end
   else if uErrCode =? RIL_E_GENERIC_FAILURE then complete RIL_E_INVALID_ARGUMENTS AnsNone
   else complete uErrCode AnsNone);; mret 0.
Definition DoSimGetATR {A} (pMsg : option A) : SM Z := NULL_REQ pMsg (λ _, packet ← build BuildSimGetATR; ret_code <$> send packet MSG_SIM_GET_ATR_DONE).
Definition OnSimGetATRDone (m_pModemData : option (list Z)) : SM Z :=
  match m_pModemData with
  | None => mret (-1)
  | Some _ =>
    uErrCode ← lift (Rcm.GetErrorCode m_pModemData);
    (if uErrCode =? RIL_E_SUCCESS
     then
       a ← lift (ProtocolSimATRAdapter m_pModemData);
       match a with
       | None => lift UB
       | Some (result, length, atr) =>
         if result =? 1
         then t ← lift (BuildGetATRResponse atr length); match t with Some t => complete RIL_E_SUCCESS (AnsText (Some t)) | None => mret 0 end
         else complete RIL_E_GENERIC_FAILURE AnsNone
       end
     else complete uErrCode AnsNone);; mret 0
  end.

(** ** Commands and channels *)

(** the class byte carries the number of the channel *)
Definition apdu_class (r : SimAPDU) : Z := Z.lor (m_nCla r) (Z.land 3 (m_nSessionid r)).
Definition apdu_text (r : SimAPDU) : option (list Z) := if m_apduLength r =? 0 then None else m_pData r.
Definition DoTransmitSimApduBasic (pMsg : option SimAPDU) : SM Z :=
  NULL_REQ pMsg (λ r,
    packet ← build (λ t, BuildSimTransmitApduBasic t (m_nSessionid r) (apdu_class r) (m_nInstruction r) (m_apduP1 r) (m_apduP2 r) (m_apduP3 r) (apdu_text r));
    ret_code <$> send packet MSG_SIM_TRANSMIT_APDU_BASIC_DONE).
Definition answer_io (code : Z) (d : SimIoResponse) : SM Z := complete code (AnsSimIo (io_sw1 d) (io_sw2 d) (simResponse d)).
(** the card names the right length: the command once more with it *)
Definition repeat_command (cur : option Current) (sw2 code : Z) (Do : option SimAPDU → SM Z) : SM Z :=
  r ← lift (cur_apdu cur); v ← Do (Some (SetP3 sw2 r)); if v =? -1 then complete code AnsNone else mret 0.
Definition OnTransmitSimApduBasicDone (cur : option Current) (m_pModemData : option (list Z)) : SM Z :=
  uErrCode ← lift (Rcm.GetErrorCode m_pModemData);
  (if uErrCode =? RIL_E_SUCCESS
   then
     n ← lift (basic_GetApduLength m_pModemData);
     d ← lift (BuildSimTransmitApduBasicResponse n m_pModemData);
     match d with
     | Some d =>
       sw1 ← lift (basic_GetSw1 m_pModemData); sw2 ← lift (basic_GetSw2 m_pModemData);
       if sw1 =? 0x6C then repeat_command cur sw2 RIL_E_INTERNAL_ERR DoTransmitSimApduBasic else answer_io RIL_E_SUCCESS d
     | None => mret 0
     end
   else complete RIL_E_SIM_ERR AnsNone);; mret 0.
Definition DoTransmitSimApduChannel (pMsg : option SimAPDU) : SM Z :=
  NULL_REQ pMsg (λ r,
    packet ← build (λ t, BuildSimTransmitApduChannel t (m_nSessionid r) (apdu_class r) (m_nInstruction r) (m_apduP1 r) (m_apduP2 r) (m_apduP3 r) (apdu_text r));
    ret_code <$> send packet MSG_SIM_TRANSMIT_APDU_CHANNEL_DONE).
Definition OnTransmitSimApduChannelDone (cur : option Current) (m_pModemData : option (list Z)) : SM Z :=
  uErrCode ← lift (Rcm.GetErrorCode m_pModemData);
  (if uErrCode =? RIL_E_SUCCESS
   then
     sw1 ← lift (channel_GetSw1 m_pModemData); sw2 ← lift (channel_GetSw2 m_pModemData);
     n ← lift (channel_GetApduLength m_pModemData); p ← lift (channel_GetApdu m_pModemData);
     d ← lift (BuildSimTransmitApduChannelResponse sw1 sw2 n p);
     match d with
     | Some d => if sw1 =? 0x6C then repeat_command cur sw2 RIL_E_GENERIC_FAILURE DoTransmitSimApduChannel else answer_io uErrCode d
     | None => complete RIL_E_GENERIC_FAILURE AnsNone
     end
   else complete uErrCode AnsNone);; mret 0.
Definition DoOpenSimChannel (pMsg : option SimOpenChannel) : SM Z :=
  NULL_REQ pMsg (λ r,
    aid ← lift (if m_ended r then Ok (m_aid r) else UB);
    packet ← build (λ t, if m_p2 r =? -1 then BuildSimOpenChannel t aid else BuildSimOpenChannelWithP2 t aid (m_p2 r));
    ret_code <$> send packet MSG_SIM_OPEN_CHANNEL_DONE).
(** the session is told with an error too, so that the framework closes it *)
Definition OnOpenSimChannelDone (m_pModemData : option (list Z)) : SM Z :=
  uErrCode ← lift (Rcm.GetErrorCode m_pModemData);
  session ← lift (open_GetSessionID m_pModemData); sw1 ← lift (open_GetSw1 m_pModemData); sw2 ← lift (open_GetSw2 m_pModemData);
  n ← lift (open_GetResponseLength m_pModemData); p ← lift (open_GetResponse m_pModemData);
  d ← lift (BuildSimOpenChannelResponse session sw1 sw2 n p);
  complete (if (uErrCode =? RIL_E_GENERIC_FAILURE) && (sw1 =? 0x69) && ((sw2 =? 0x85) || (sw2 =? 0x99)) then RIL_E_NO_SUCH_ELEMENT else uErrCode) (AnsInts d);; mret 0.
Definition DoCloseSimChannel (pMsg : option IntRequestData) : SM Z :=
  NULL_REQ pMsg (λ r,
    if m_nInt r =? 0 then complete RIL_E_INVALID_ARGUMENTS AnsNone;; mret 0
    else packet ← build (λ t, BuildSimCloseChannel t (m_nInt r)); ret_code <$> send packet MSG_SIM_CLOSE_CHANNEL_DONE).
Definition OnCloseSimChannelDone (m_pModemData : option (list Z)) : SM Z :=
  match m_pModemData with
  | None => mret (-1)
  | Some _ => errorCode ← lift (Rcm.GetErrorCode m_pModemData); complete errorCode AnsNone;; mret 0
  end.

(** ** Carrier restrictions and the power of the card *)

(** a handler for an answer that only succeeds or is not supported *)
Definition supported_or_not (m_pModemData : option (list Z)) (success : SM Z) : SM Z :=
  match m_pModemData with
  | None => mret (-1)
  | Some _ =>
    uErrCode ← lift (Rcm.GetErrorCode m_pModemData);
    (if uErrCode =? RIL_E_SUCCESS then success else complete RIL_E_REQUEST_NOT_SUPPORTED AnsNone);; mret 0
  end.
Definition DoSetCarrierRestrictions {A} (pMsg : option A) : SM Z := NULL_REQ pMsg (λ _, complete RIL_E_REQUEST_NOT_SUPPORTED AnsNone;; mret (-1)).
Definition OnSetCarrierRestrictionsDone (m_pModemData : option (list Z)) : SM Z :=
  supported_or_not m_pModemData (n ← lift (GetLenAllowedCarriers m_pModemData); complete RIL_E_SUCCESS (AnsInts [n])).
Definition DoGetCarrierRestrictions {A} (pMsg : option A) : SM Z :=
  NULL_REQ pMsg (λ _, packet ← build BuildGetCarrierRestrictions; ret_code <$> send packet MSG_SIM_GET_CARRIER_RESTRICTIONS_DONE).
(** the answer is not built yet *)
Definition OnGetCarrierRestrictionsDone (m_pModemData : option (list Z)) : SM Z :=
  supported_or_not m_pModemData (lift (ProtocolSimGetCarrierRestrictionsAdapter m_pModemData);; complete RIL_E_INTERNAL_ERR AnsNone).
Definition DoSetSimCardPower (pMsg : option IntRequestData) : SM Z :=
  NULL_REQ pMsg (λ r, packet ← build (λ t, BuildSetSimCardPower t (m_nInt r)); ret_code <$> send packet MSG_SIM_SET_SIM_CARD_POWER_DONE).
Definition OnSetSimCardPowerDone (m_pModemData : option (list Z)) : SM Z := supported_or_not m_pModemData (complete RIL_E_SUCCESS AnsNone).
Definition OnUnsolUiccSubscriptionStatusChanged (m_pModemData : option (list Z)) : SM Z :=
  match m_pModemData with
  | None => mret (-1)
  | Some _ => state ← lift (ProtocolUiccSubStatusChangeAdapter m_pModemData); emit (ActUnsolInt RIL_UNSOL_UICC_SUBSCRIPTION_STATUS_CHANGED state);; mret 0
  end.

(** ** Raw requests of applications *)

Definition oem_request (pMsg : option RawRequestData) (msgId : Z) (msg : DoneMsg) : SM Z :=
  NULL_REQ pMsg (λ r, packet ← build (λ t, BuildOemSimRequest t msgId (m_pRawReq r) (m_nRawSize r)); send packet msg).
Definition DoOemImsSimIo (pMsg : option RawRequestData) : SM Z := oem_request pMsg RIL_REQUEST_SIM_IO MSG_SIM_OEM_IMS_SIM_IO_DONE.
(** whether the packet could be sent is not looked at *)
Definition sent_or_not (pMsg : option RawRequestData) (m : SM Z) : SM Z := match pMsg with Some _ => m;; mret 0 | None => mret (-1) end.
Definition DoOemOpenChannel (pMsg : option RawRequestData) : SM Z :=
  sent_or_not pMsg (oem_request pMsg RIL_REQUEST_SIM_OPEN_CHANNEL MSG_SIM_OEM_OPEN_CHANNEL_DONE).
Definition DoOemTransmitApduLogical (pMsg : option RawRequestData) : SM Z :=
  sent_or_not pMsg (oem_request pMsg RIL_REQUEST_SIM_TRANSMIT_APDU_CHANNEL MSG_SIM_OEM_TRANSMIT_APDU_LOGICAL_DONE).
Definition DoOemTransmitApduBasic (pMsg : option RawRequestData) : SM Z :=
  sent_or_not pMsg (oem_request pMsg RIL_REQUEST_SIM_TRANSMIT_APDU_BASIC MSG_SIM_OEM_TRNASMIT_APDU_BASIC_DONE).
(** everything behind the header *)
Definition answer_raw (code : Z) (m_pModemData : option (list Z)) : SM Z :=
  n ← lift (param_length m_pModemData); complete code (AnsRaw (Rcm.GetParameter m_pModemData sizeof_RCM_HEADER) n).
Definition OnOemImsSimIoDone (m_pModemData : option (list Z)) : SM Z :=
  uErrCode ← lift (Rcm.GetErrorCode m_pModemData); answer_raw uErrCode m_pModemData;; mret 0.
Definition OnOemOpenChannelDone (m_pModemData : option (list Z)) : SM Z :=
  match m_pModemData with None => mret (-1) | Some _ => OnOemImsSimIoDone m_pModemData end.
Definition OnOemTransmitApduLogicalDone (cur : option Current) (m_pModemData : option (list Z)) : SM Z :=
  match m_pModemData with
  | None => mret (-1)
  | Some _ =>
    uErrCode ← lift (Rcm.GetErrorCode m_pModemData);
    (if uErrCode =? RIL_E_SUCCESS
     then
       sw1 ← lift (channel_GetSw1 m_pModemData); sw2 ← lift (channel_GetSw2 m_pModemData);
       if sw1 =? 0x6C
       then
         r ← lift (cur_raw cur);
         match r with
         | Some r =>
           raw ← lift (match m_pRawReq r with Some b => wrn b 20 (le32 sw2) | None => UB end);
           v ← DoOemTransmitApduLogical (Some {| rrd_base := rrd_base r; m_pRawReq := Some raw; m_nRawSize := m_nRawSize r |});
           if v =? -1 then complete RIL_E_GENERIC_FAILURE AnsNone else mret 0
         | None => mret 0
         end
       else answer_raw RIL_E_SUCCESS m_pModemData
     else complete RIL_E_GENERIC_FAILURE AnsNone);; mret 0
  end.
Definition OnOemTransmitApduBasicDone (m_pModemData : option (list Z)) : SM Z :=
  match m_pModemData with
  | None => mret (-1)
  | Some _ =>
    uErrCode ← lift (Rcm.GetErrorCode m_pModemData);
    (if uErrCode =? RIL_E_SUCCESS then answer_raw RIL_E_SUCCESS m_pModemData else complete RIL_E_GENERIC_FAILURE AnsNone);; mret 0
  end.
Definition DoOemGetSimCardPresent {A} (pMsg : option A) : SM Z :=
  NULL_REQ pMsg (λ _,
    card ← gets (λ s, card_state (mRilCardStatus s));
    if card =? RIL_CARDSTATE_PRESENT then complete RIL_E_SUCCESS (AnsInts [RIL_CARDSTATE_PRESENT]);; mret 0
    else packet ← build BuildSimGetStatus; ret_code <$> send packet MSG_SIM_OEM_GET_CARD_PRESENT_DONE).
Definition OnOemGetCardPresentDone (m_pModemData : option (list Z)) : SM Z :=
  match m_pModemData with
  | None => mret (-1)
  | Some _ =>
    uErrCode ← lift (Rcm.GetErrorCode m_pModemData);
    (if uErrCode =? RIL_E_SUCCESS
     then
       a ← lift (ProtocolSimStatusAdapter m_pModemData); card ← lift (SimPackets.GetCardState a);
       complete RIL_E_SUCCESS (AnsInts [if card =? RIL_CARDSTATE_PRESENT then RIL_CARDSTATE_PRESENT else RIL_CARDSTATE_ABSENT])
     else complete RIL_E_GENERIC_FAILURE AnsNone);; mret 0
  end.
(** the kind of the lock, the length of the code and the code; lengths are compared in 64 bits *)
Definition DoOemIccDepersonalization (pMsg : option RawRequestData) : SM Z :=
  NULL_REQ pMsg (λ r,
    match m_pRawReq r with
    | None => mret (-1)
    | Some data =>
      if m_nRawSize r <? 8 then mret (-1)
      else
        nFac ← lift (rd32 data 0);
        size ← lift (rd32 data 4);
        if m_nRawSize r <? size + 8 then mret (-1)
        else
          pszCode ← lift (b ← rdn data 8 size; Ok (cstr (b ++ [0])));
          match pszCode with
          | [] => mret (-1)
          | _ => packet ← build (λ t, BuildSimVerifyNetworkLock t (i32 nFac) (Some pszCode) 0 None); ret_code <$> send packet MSG_SIM_OEM_ICC_DEPERSONALIZATION_DONE
          end
    end).
Definition OnOemIccDepersonalizationDone (m_pModemData : option (list Z)) : SM Z :=
  uErrCode ← lift (Rcm.GetErrorCode m_pModemData); remain ← lift (ProtocolSimVerifyNetLockAdapter m_pModemData);
  complete uErrCode (BuildSimPinPukResponse remain);; mret 0.

(** ** Locks and slots *)

Definition DoGetSimLockInfo : SM Z := packet ← build BuildGetSimLockInfo; ret_code <$> send packet MSG_SIM_GET_SIM_LOCK_INFO_DONE.
Definition OnGetSimLockInfoDone (m_pModemData : option (list Z)) : SM Z :=
  match m_pModemData with
  | None => mret (-1)
  | Some _ =>
    policy ← lift (GetPolicy m_pModemData); status ← lift (GetStatus m_pModemData); type ← lift (GetLockType m_pModemData);
    maxRetry ← lift (GetMaxRetryCount m_pModemData); remain ← lift (GetRemainCount m_pModemData);
    count ← lift (GetLockCodeCount m_pModemData); code ← lift (GetLockCode m_pModemData);
    errorCode ← lift (Rcm.GetErrorCode m_pModemData);
    (if errorCode =? RIL_E_SUCCESS
     then l ← lift (RilDataSimLockStatus policy status type maxRetry remain count code); complete RIL_E_SUCCESS (AnsLock l)
     else complete RIL_E_INTERNAL_ERR AnsNone);; mret 0
  end.
Definition DoGetSlotStatus : SM Z := packet ← build BuildSimGetSlotStatus; ret_code <$> send packet MSG_SIM_GET_SLOT_STATUS_DONE.
Definition OnGetSlotStatusDone (m_pModemData : option (list Z)) : SM Z :=
  match m_pModemData with
  | None => mret (-1)
  | Some _ =>
    uErrCode ← lift (Rcm.GetErrorCode m_pModemData);
    (if uErrCode =? RIL_E_SUCCESS
     then l ← lift (slot_statuses sizeof_RCM_HEADER m_pModemData); complete RIL_E_SUCCESS (AnsSlots l)
     else complete uErrCode AnsNone);; mret 0
  end.
Definition DoSetSlotMapping (pMsg : option IntsRequestData) : SM Z :=
  NULL_REQ pMsg (λ r,
    let data_size := IntsRequestData_GetSize r in
    let tmpData := (λ i, IntsRequestData_GetInt i r) <$> seqZ 0 data_size in
    packet ← build (λ t, BuildSimSetLogicalSlotMapping t tmpData data_size);
    match packet with
    | None => complete RIL_E_INVALID_ARGUMENTS AnsNone;; mret (-1)
    | Some _ => ret_code <$> send packet MSG_SIM_SET_LOGICAL_TO_PHYSICAL_SLOT_MAPPING_DONE
    end).
Definition OnSetSlotMappingDone (m_pModemData : option (list Z)) : SM Z := supported_or_not m_pModemData (complete RIL_E_SUCCESS AnsNone).
Definition OnUnsolSimSlotsStatusChanged (m_pModemData : option (list Z)) : SM Z :=
  l ← lift (slot_statuses sizeof_RCM_IND_HEADER m_pModemData); emit (ActUnsolSlots RIL_UNSOL_ICC_SLOT_STATUS l);; mret 0.

(** ** The messages *)

Inductive SimReq :=
| MSG_SIM_GET_STATUS | MSG_SIM_VERIFY_PIN | MSG_SIM_VERIFY_PUK | MSG_SIM_VERIFY_PIN2 | MSG_SIM_VERIFY_PUK2 | MSG_SIM_CHANGE_PIN | MSG_SIM_CHANGE_PIN2
| MSG_SIM_VERIFY_NETWORK_LOCK | MSG_SIM_GET_FACILITY_LOCK | MSG_SIM_SET_FACILITY_LOCK.
(** the other requests, with their data; [MSG_SIM_GET_ISIM_GBA_AUTH] has no handler *)
Inductive CardReq :=
| MSG_SIM_IO (r : option SimIoData) | MSG_SIM_GET_ISIM_AUTH (r : option StringRequestData) | MSG_SIM_GET_ISIM_GBA_AUTH
| MSG_SIM_TRANSMIT_APDU_BASIC (r : option SimAPDU) | MSG_SIM_OPEN_CHANNEL (r : option SimOpenChannel) | MSG_SIM_CLOSE_CHANNEL (r : option IntRequestData)
| MSG_SIM_TRANSMIT_APDU_CHANNEL (r : option SimAPDU) | MSG_SIM_GET_IMSI (r : option StringsRequestData) | MSG_SIM_GET_SIM_AUTH (r : option SimAuthentication)
| MSG_SIM_GET_ATR (r : option RequestData) | MSG_SIM_SET_CARRIER_RESTRICTIONS (r : option RequestData) | MSG_SIM_GET_CARRIER_RESTRICTIONS (r : option RequestData)
| MSG_SIM_SET_SIM_CARD_POWER (r : option IntRequestData) | MSG_SIM_OEM_IMS_SIM_IO (r : option RawRequestData) | MSG_SIM_OEM_OPEN_CHANNEL (r : option RawRequestData)
| MSG_SIM_OEM_TRANSMIT_APDU_LOGICAL (r : option RawRequestData) | MSG_SIM_OEM_TRNASMIT_APDU_BASIC (r : option RawRequestData)
| MSG_SIM_OEM_GET_CARD_PRESENT (r : option RequestData) | MSG_SIM_GET_SIM_LOCK_INFO | MSG_SIM_GET_SLOT_STATUS
| MSG_SIM_SET_LOGICAL_TO_PHYSICAL_SLOT_MAPPING (r : option IntsRequestData) | MSG_SIM_OEM_ICC_DEPERSONALIZATION (r : option RawRequestData)
| MSG_SIM_READ_PB_ENTRY (r : option IntsRequestData) | MSG_SIM_UPDATE_PB_ENTRY (r : option SimUpdatePbEntry) | MSG_SIM_GET_PB_STORAGE_INFO (r : option IntRequestData)
| MSG_SIM_GET_PB_STORAGE_LIST (r : option RequestData) | MSG_SIM_GET_PB_ENTRY_INFO (r : option IntRequestData) | MSG_SIM_GET_3G_PB_CAPA (r : option RequestData).
Inductive SimEvent :=
| EvRequest (m : SimReq) (r : option StringsRequestData) | EvCard (q : CardReq)
| EvDone (m : DoneMsg) (cur : option Current) (frame : option (list Z))
| EvStatusTimeout (packet : option (list Z)) | EvReset | EvCardState (cardState : Z) | EvRadioState
| EvStatusChanged | EvIccidInfo (frame : option (list Z)) | EvSubscription (frame : option (list Z)) | EvSlots (frame : option (list Z))
| EvPbReady (frame : option (list Z)).
Definition OnHandleRequest (m : SimReq) (r : option StringsRequestData) : SM Z :=
  match m with
  | MSG_SIM_GET_STATUS => DoGetSimStatus
  | MSG_SIM_VERIFY_PIN => DoVerifyPin r
  | MSG_SIM_VERIFY_PUK => DoVerifyPuk r
  | MSG_SIM_VERIFY_PIN2 => DoVerifyPin2 r
  | MSG_SIM_VERIFY_PUK2 => DoVerifyPuk2 r
  | MSG_SIM_CHANGE_PIN => DoChangePin r
  | MSG_SIM_CHANGE_PIN2 => DoChangePin2 r
  | MSG_SIM_VERIFY_NETWORK_LOCK => DoVerifyNetworkLock r
  | MSG_SIM_GET_FACILITY_LOCK => DoGetFacilityLock r
  | MSG_SIM_SET_FACILITY_LOCK => DoSetFacilityLock r
  end.
Definition OnHandleCardRequest (q : CardReq) : SM Z :=
  match q with
  | MSG_SIM_IO r => DoSimIo r
  | MSG_SIM_GET_ISIM_AUTH r => DoGetIsimAuth r
  | MSG_SIM_GET_ISIM_GBA_AUTH => mret (-1)
  | MSG_SIM_TRANSMIT_APDU_BASIC r => DoTransmitSimApduBasic r
  | MSG_SIM_OPEN_CHANNEL r => DoOpenSimChannel r
  | MSG_SIM_CLOSE_CHANNEL r => DoCloseSimChannel r
  | MSG_SIM_TRANSMIT_APDU_CHANNEL r => DoTransmitSimApduChannel r
  | MSG_SIM_GET_IMSI r => DoGetImsi r
  | MSG_SIM_GET_SIM_AUTH r => DoGetSimAuth r
  | MSG_SIM_GET_ATR r => DoSimGetATR r
  | MSG_SIM_SET_CARRIER_RESTRICTIONS r => DoSetCarrierRestrictions r
  | MSG_SIM_GET_CARRIER_RESTRICTIONS r => DoGetCarrierRestrictions r
  | MSG_SIM_SET_SIM_CARD_POWER r => DoSetSimCardPower r
  | MSG_SIM_OEM_IMS_SIM_IO r => DoOemImsSimIo r
  | MSG_SIM_OEM_OPEN_CHANNEL r => DoOemOpenChannel r
  | MSG_SIM_OEM_TRANSMIT_APDU_LOGICAL r => DoOemTransmitApduLogical r
  | MSG_SIM_OEM_TRNASMIT_APDU_BASIC r => DoOemTransmitApduBasic r
  | MSG_SIM_OEM_GET_CARD_PRESENT r => DoOemGetSimCardPresent r
  | MSG_SIM_GET_SIM_LOCK_INFO => DoGetSimLockInfo
  | MSG_SIM_GET_SLOT_STATUS => DoGetSlotStatus
  | MSG_SIM_SET_LOGICAL_TO_PHYSICAL_SLOT_MAPPING r => DoSetSlotMapping r
  | MSG_SIM_OEM_ICC_DEPERSONALIZATION r => DoOemIccDepersonalization r
  | MSG_SIM_READ_PB_ENTRY r => DoReadPbEntry r
  | MSG_SIM_UPDATE_PB_ENTRY r => DoUpdatePbEntry r
  | MSG_SIM_GET_PB_STORAGE_INFO r => DoGetPbStorageInfo r
  | MSG_SIM_GET_PB_STORAGE_LIST r => DoGetPbStorageList r
  | MSG_SIM_GET_PB_ENTRY_INFO r => DoGetPbEntryInfo r
  | MSG_SIM_GET_3G_PB_CAPA r => DoGet3GPbCapa r
  end.
Definition OnHandleSolicitedResponse (m : DoneMsg) (cur : option Current) (frame : option (list Z)) : SM Z :=
  match m with
  | MSG_SIM_GET_STATUS_DONE => OnGetSimStatusDone frame
  | MSG_SIM_VERIFY_PIN_DONE => OnVerifyPinDone frame
  | MSG_SIM_VERIFY_PUK_DONE => OnVerifyPukDone frame
  | MSG_SIM_VERIFY_PIN2_DONE => OnVerifyPin2Done frame
  | MSG_SIM_VERIFY_PUK2_DONE => OnVerifyPuk2Done frame
  | MSG_SIM_CHANGE_PIN_DONE => OnChangePinDone frame
  | MSG_SIM_CHANGE_PIN2_DONE => OnChangePin2Done frame
  | MSG_SIM_VERIFY_NETWORK_LOCK_DONE => OnVerifyNetworkLockDone frame
  | MSG_SIM_IO_DONE => OnSimIoDone (cur_sim_io cur) frame
  | MSG_SIM_GET_FACILITY_LOCK_DONE => OnGetFacilityLockDone frame
  | MSG_SIM_SET_FACILITY_LOCK_DONE => OnSetFacilityLockDone frame
  | MSG_SIM_GET_ISIM_AUTH_DONE => OnGetIsimAuthDone frame
  | MSG_SIM_TRANSMIT_APDU_BASIC_DONE => OnTransmitSimApduBasicDone cur frame
  | MSG_SIM_OPEN_CHANNEL_DONE => OnOpenSimChannelDone frame
  | MSG_SIM_CLOSE_CHANNEL_DONE => OnCloseSimChannelDone frame
  | MSG_SIM_TRANSMIT_APDU_CHANNEL_DONE => OnTransmitSimApduChannelDone cur frame
  | MSG_SIM_GET_IMSI_DONE => OnGetImsiDone cur frame
  | MSG_SIM_GET_SIM_AUTH_DONE => OnGetSimAuthDone frame
  | MSG_SIM_GET_ATR_DONE => OnSimGetATRDone frame
  | MSG_SIM_SET_CARRIER_RESTRICTIONS_DONE => OnSetCarrierRestrictionsDone frame
  | MSG_SIM_GET_CARRIER_RESTRICTIONS_DONE => OnGetCarrierRestrictionsDone frame
  | MSG_SIM_SET_SIM_CARD_POWER_DONE => OnSetSimCardPowerDone frame
  | MSG_SIM_OEM_IMS_SIM_IO_DONE => OnOemImsSimIoDone frame
  | MSG_SIM_OEM_OPEN_CHANNEL_DONE => OnOemOpenChannelDone frame
  | MSG_SIM_OEM_TRANSMIT_APDU_LOGICAL_DONE => OnOemTransmitApduLogicalDone cur frame
  | MSG_SIM_OEM_TRNASMIT_APDU_BASIC_DONE => OnOemTransmitApduBasicDone frame
  | MSG_SIM_OEM_GET_CARD_PRESENT_DONE => OnOemGetCardPresentDone frame
  | MSG_SIM_GET_SIM_LOCK_INFO_DONE => OnGetSimLockInfoDone frame
  | MSG_SIM_GET_SLOT_STATUS_DONE => OnGetSlotStatusDone frame
  | MSG_SIM_SET_LOGICAL_TO_PHYSICAL_SLOT_MAPPING_DONE => OnSetSlotMappingDone frame
  | MSG_SIM_OEM_ICC_DEPERSONALIZATION_DONE => OnOemIccDepersonalizationDone frame
  | MSG_SIM_READ_PB_ENTRY_DONE => OnReadPbEntryDone frame
  | MSG_SIM_UPDATE_PB_ENTRY_DONE => OnUpdatePbEntryDone frame
  | MSG_SIM_GET_PB_STORAGE_INFO_DONE => OnGetPbStorageInfoDone frame
  | MSG_SIM_GET_PB_STORAGE_LIST_DONE => OnGetPbStorageListDone frame
  | MSG_SIM_GET_PB_ENTRY_INFO_DONE => OnGetPbEntryInfoDone frame
  | MSG_SIM_GET_3G_PB_CAPA_DONE => OnGet3GPbCapaDone frame
  end.
Definition handle (ev : SimEvent) : SM Z :=
  match ev with
  | EvRequest m r => OnHandleRequest m r
  | EvCard q => OnHandleCardRequest q
  | EvDone m cur frame => OnHandleSolicitedResponse m cur frame
  | EvStatusTimeout packet => OnGetSimStatusTimeout packet
  | EvReset => OnReset;; mret 0
  | EvCardState cardState => OnSimStateChanged cardState
  | EvRadioState => NotifyIccidInfo;; mret 0
  | EvStatusChanged => OnSimStatusChanged
  | EvIccidInfo frame => OnIccidInfo frame
  | EvSubscription frame => OnUnsolUiccSubscriptionStatusChanged frame
  | EvSlots frame => OnUnsolSimSlotsStatusChanged frame
  | EvPbReady frame => OnPbReady frame
  end.

(** ** Which requests may pass without the radio *)

Definition RIL_REQUEST_GET_SIM_STATUS : Z := 1.
Definition RIL_REQUEST_GET_IMSI : Z := 11.
Definition RIL_REQUEST_ENTER_SIM_PIN : Z := 2.
Definition RIL_REQUEST_ENTER_SIM_PIN2 : Z := 4.
Definition RIL_REQUEST_ENTER_SIM_PUK : Z := 3.
Definition RIL_REQUEST_ENTER_SIM_PUK2 : Z := 5.
Definition RIL_REQUEST_CHANGE_SIM_PIN : Z := 6.
Definition RIL_REQUEST_CHANGE_SIM_PIN2 : Z := 7.
Definition RIL_REQUEST_SET_FACILITY_LOCK : Z := 43.
Definition RIL_REQUEST_QUERY_FACILITY_LOCK : Z := 42.
Definition RIL_REQUEST_ISIM_AUTHENTICATION : Z := 105.
Definition RIL_REQUEST_SIM_CLOSE_CHANNEL : Z := 116.
Definition RIL_REQUEST_SIM_AUTHENTICATION : Z := 125.
Definition RIL_REQUEST_SIM_GET_ATR : Z := 5005.
Definition RIL_REQUEST_OEM_SIM_OPEN_CHANNEL : Z := 10401.
Definition RIL_REQUEST_OEM_SIM_TRANSMIT_APDU_LOGICAL : Z := 10402.
Definition RIL_REQUEST_OEM_SIM_TRANSMIT_APDU_BASIC : Z := 10403.
Definition RIL_REQUEST_OEM_SIM_PRESENT : Z := 10404.
Definition RIL_REQUEST_GET_SIM_LOCK_STATUS : Z := 5040.
Definition RIL_REQUEST_GET_SLOT_STATUS : Z := 200.
Definition RIL_REQUEST_SET_LOGICAL_TO_PHYSICAL_SLOT_MAPPING : Z := 201.
Definition RIL_REQUEST_OEM_IMS_SIM_IO : Z := 10123.
Definition RIL_REQUEST_OEM_ICC_DEPERSONALIZATION : Z := 11014.
Definition passing_requests : list Z :=
  [RIL_REQUEST_GET_SIM_STATUS; RIL_REQUEST_SIM_IO; RIL_REQUEST_GET_IMSI; RIL_REQUEST_ENTER_SIM_PIN; RIL_REQUEST_ENTER_SIM_PIN2;
   RIL_REQUEST_ENTER_SIM_PUK; RIL_REQUEST_ENTER_SIM_PUK2; RIL_REQUEST_CHANGE_SIM_PIN; RIL_REQUEST_CHANGE_SIM_PIN2;
   RIL_REQUEST_SET_FACILITY_LOCK; RIL_REQUEST_QUERY_FACILITY_LOCK; RIL_REQUEST_ISIM_AUTHENTICATION; RIL_REQUEST_SIM_OPEN_CHANNEL;
   RIL_REQUEST_SIM_TRANSMIT_APDU_BASIC; RIL_REQUEST_SIM_TRANSMIT_APDU_CHANNEL; RIL_REQUEST_SIM_CLOSE_CHANNEL;
   RIL_REQUEST_SIM_AUTHENTICATION; RIL_REQUEST_SIM_GET_ATR; RIL_REQUEST_OEM_SIM_OPEN_CHANNEL; RIL_REQUEST_OEM_SIM_TRANSMIT_APDU_LOGICAL;
   RIL_REQUEST_OEM_SIM_TRANSMIT_APDU_BASIC; RIL_REQUEST_OEM_SIM_PRESENT; RIL_REQUEST_GET_SIM_LOCK_STATUS; RIL_REQUEST_GET_SLOT_STATUS;
   RIL_REQUEST_SET_LOGICAL_TO_PHYSICAL_SLOT_MAPPING; RIL_REQUEST_OEM_IMS_SIM_IO; RIL_REQUEST_OEM_ICC_DEPERSONALIZATION].
Definition IsPossibleToPassInRadioOffState (request_id : Z) : bool := bool_decide (request_id ∈ passing_requests).
Definition IsPossibleToPassInRadioUnavailableState (request_id : Z) : bool := IsPossibleToPassInRadioOffState request_id.

(** ** Automation *)

(** the handlers of the requests, of the answers and of the indications, for [autounfold] *)
Create HintDb sim_requests.
Create HintDb sim_answers.
#[export] Hint Unfold DoGetSimStatus DoVerifyPin DoVerifyPuk DoVerifyPin2 DoVerifyPuk2 DoChangePin DoChangePin2 DoVerifyNetworkLock DoGetFacilityLock
  DoSetFacilityLock DoSimIo DoGetIsimAuth DoTransmitSimApduBasic DoOpenSimChannel DoCloseSimChannel DoTransmitSimApduChannel DoGetImsi DoGetSimAuth DoSimGetATR
  DoSetCarrierRestrictions DoGetCarrierRestrictions DoSetSimCardPower DoOemImsSimIo DoOemOpenChannel DoOemTransmitApduLogical DoOemTransmitApduBasic
  DoOemGetSimCardPresent DoGetSimLockInfo DoGetSlotStatus DoSetSlotMapping DoOemIccDepersonalization oem_request sent_or_not DoReadPbEntry DoUpdatePbEntry DoGetPbStorageInfo DoGetPbStorageList DoGetPbEntryInfo
  DoGet3GPbCapa : sim_requests.
#[export] Hint Unfold OnVerifyPinDone OnVerifyPukDone OnVerifyPin2Done OnVerifyPuk2Done OnChangePinDone OnChangePin2Done OnVerifyNetworkLockDone OnSimIoDone
  tell_operator OnGetFacilityLockDone OnSetFacilityLockDone OnGetIsimAuthDone OnTransmitSimApduBasicDone OnOpenSimChannelDone OnCloseSimChannelDone
  OnTransmitSimApduChannelDone OnGetImsiDone OnGetSimAuthDone OnSimGetATRDone OnSetCarrierRestrictionsDone OnGetCarrierRestrictionsDone OnSetSimCardPowerDone
  OnOemImsSimIoDone OnOemOpenChannelDone OnOemTransmitApduLogicalDone OnOemTransmitApduBasicDone OnOemGetCardPresentDone OnGetSimLockInfoDone OnGetSlotStatusDone
  OnSetSlotMappingDone OnOemIccDepersonalizationDone OnReadPbEntryDone OnUpdatePbEntryDone OnGetPbStorageInfoDone OnGetPbStorageListDone OnGetPbEntryInfoDone
  OnGet3GPbCapaDone pb_answer OnPbReady repeat_command answer_io answer_raw supported_or_not UpdateImsi tell_imsi : sim_answers.
