(* ===== verification/SimTheorems.v ===== *)
(** The requests of the SIM service: one reaction to each, and the packet that
    verifies a PIN. *)
From stdpp Require Import gmap.
From S2P Require Import Prelude RilDef Text WaitList Network Rcm Handler Layout RilData MccTable SimPackets SimPin SimPinTheorems SimIo SimCardPackets SimCard.

(** ** One reaction per request *)

Definition sim_request (texts : list (option (list Z))) : option StringsRequestData :=
  Some {| ssrd_base := newRequestData 2 7 0; m_nStringCount := lenZ texts; m_ptrStrings := Some texts |}.
(** a request is answered, or sent to the modem, or refused without an answer or a packet that was sent *)
Definition one_reaction (e : SimEnv) (v : Z) (o : list Act) : Prop :=
  (v = 0 ∧ ∃ code a, o = [ActComplete code a]) ∨ (v = 0 ∧ send_ok e = true ∧ ∃ p msg, o = [ActSend p msg]) ∨
  (v = -1 ∧ (o = [] ∨ send_ok e = false ∧ ∃ p msg, o = [ActUnsent p msg])).
Ltac request_step :=
  lazymatch goal with
  | |- ends (SetAutoVerifyPin _) _ _ _ => apply ends_SetAutoVerifyPin; intros ?
  | |- ends (NULL_REQ _ _) _ _ _ => unfold NULL_REQ
  | |- ends (with_facility _ _) _ _ _ => unfold with_facility
  | |- ends (SendPasswordInvalid _ _) _ _ _ => unfold SendPasswordInvalid
  | |- ends (answer_remain _ _) _ _ _ => unfold answer_remain
  | |- ends (let _ := _ in _) _ _ _ => cbv zeta
  | |- _ => sm_step
  end; cbn [app].
Ltac one_reaction_done := unfold one_reaction, ret_code; cbn; first [left; by eauto | right; left; by eauto | right; right; done].
Definition is_request (ev : SimEvent) : bool := match ev with EvRequest _ _ | EvCard _ => true | _ => false end.
(** the requests whose handler answers an error and fails as well *)
Definition spoiled (s : SimService) (ev : SimEvent) : bool :=
  match ev with
  | EvCard (MSG_SIM_GET_ISIM_AUTH _) => bool_decide (m_nSimCardState s = SIM_CARDSTATE_ABSENT)
  | EvCard (MSG_SIM_GET_SIM_AUTH (Some r)) =>
    let aid := default [] (auth_aid r) in
    let nAppType := if 0 <? lenZ aid then app_type_of aid (applications (mRilCardStatus s)) else RIL_APPTYPE_UNKNOWN in
    bool_decide (auth_type_of (m_nAuthContext r) nAppType = None) && match m_pAuth r with Some t => lenZ t mod 4 =? 0 | None => true end
  | EvCard (MSG_SIM_SET_CARRIER_RESTRICTIONS (Some _)) => true
  | EvCard (MSG_SIM_SET_LOGICAL_TO_PHYSICAL_SLOT_MAPPING (Some r)) => (MAX_SLOT_NUM <? IntsRequestData_GetSize r) || (IntsRequestData_GetSize r <=? 0)
  | _ => false
  end.
(** a request that is not spoiled has one reaction; three do not look whether their packet was sent *)
Definition reaction (s : SimService) (ev : SimEvent) (e : SimEnv) (v : Z) (o : list Act) : Prop :=
  if spoiled s ev then v = -1 ∧ ∃ code, o = [ActComplete code AnsNone]
  else one_reaction e v o ∨
    match ev with
    | EvCard (MSG_SIM_OEM_OPEN_CHANNEL _ | MSG_SIM_OEM_TRANSMIT_APDU_LOGICAL _ | MSG_SIM_OEM_TRNASMIT_APDU_BASIC _) =>
      v = 0 ∧ send_ok e = false ∧ ∃ p msg, o = [ActUnsent p msg]
    | _ => False
    end.
Lemma oem_built t msgId p n r : oem_id msgId ≠ None → BuildOemSimRequest t msgId p n = Ok r → r.1 ≠ None.
Proof.
  unfold BuildOemSimRequest. destruct (oem_id msgId); [intros _ H|done].
  apply bind_ok in H as (x & _ & H). apply bind_ok in H as (b & _ & H). apply bind_ok in H as (q & _ & H). by injection H as <-.
Qed.
Lemma sim_auth_built t c p n ty r : BuildSimGetSimAuth t c p n ty = Ok r → (r.1 = None ↔ auth_type_of c ty = None).
Proof.
  unfold BuildSimGetSimAuth. destruct (auth_type_of c ty); [|by intros [= <-]]. intros H. split; [|done].
  apply bind_ok in H as (x & _ & H). apply bind_ok in H as (b & _ & H). apply bind_ok in H as (q & _ & H). by injection H as <-.
Qed.
Lemma slot_mapping_built t l n r : BuildSimSetLogicalSlotMapping t l n = Ok r → (r.1 = None ↔ (MAX_SLOT_NUM <? n) || (n <=? 0) = true).
Proof.
  unfold BuildSimSetLogicalSlotMapping. destruct (_ || _); [by intros [= <-]|]. intros H. split; [|done].
  apply bind_ok in H as (x & _ & H). apply bind_ok in H as (b & _ & H). apply bind_ok in H as (q & _ & H). by injection H as <-.
Qed.
Ltac reaction_done :=
  unfold reaction, one_reaction, ret_code; cbn [spoiled];
  repeat match goal with
  | H : BuildSimGetSimAuth _ _ _ _ _ = Ok (?p, _) |- _ => apply sim_auth_built in H; cbn [fst] in H
  | H : BuildSimSetLogicalSlotMapping _ _ _ = Ok (?p, _) |- _ => apply slot_mapping_built in H; cbn [fst] in H
  end.
Lemma reacts ev e s : is_request ev = true → ends (handle ev) (λ v _ o, reaction s ev e v o) e s.
Proof.
  intros Hq. destruct ev as [m r|q|?|?| |?| | |?|?|?|?]; try discriminate Hq; [destruct m|destruct q]; cbn [handle OnHandleRequest OnHandleCardRequest];
    autounfold with sim_requests; repeat request_step; reaction_done.
  all: cbn [Z.ltb Z.compare]; repeat match goal with |- if ?b then _ else _ => let E := fresh "Es" in destruct b eqn:E end.
  all: try solve [ first [split; by eauto | left; left; by eauto | left; right; left; by eauto | left; right; right; by eauto 6 | right; by eauto 6
    | match goal with H : BuildOemSimRequest _ _ _ _ = Ok _ |- _ => by apply oem_built in H end
    | by apply bool_decide_eq_false_1 in Es | by apply bool_decide_eq_true_1 in Es] ].
  all: try match goal with H : match auth_aid ?r with Some _ => _ | None => _ end = Ok _ |- _ => destruct (auth_aid r); [injection H as ->|discriminate H] end.
  all: cbn [default from_option] in *; unfold id in *; simplify_eq; rewrite ?andb_true_iff, ?andb_false_iff, ?bool_decide_eq_true, ?bool_decide_eq_false in *.
  all: try match goal with E : m_pAuth _ = _ |- _ => rewrite E in Es end.
  all: exfalso; intuition congruence.
Qed.
(** C24: When the handler of a request comes to an end, the request has one reaction: it is
    answered once; or exactly one packet is sent for it; or the handler fails with
    neither an answer nor a packet that was sent, so that the caller answers it (what
    it put into its own state before may stay there).  The exceptions are exactly
    these: a spoiled request (four kinds, see [spoiled]) is answered with an error
    and fails as well; and three requests of applications end without a failure
    although their packet could not be sent. *)
Theorem requests_one_reaction ev e s v s' o : is_request ev = true → handle ev e s = Ok (v, s', o) → reaction s ev e v o.
Proof. intros Hq. by apply (reacts ev e s Hq). Qed.
Lemma requests_one_reaction_witness :
  let e := plain_env false true in
  let s := set_keys PROP_AUTO_VERIFY_PIN_0 PROP_AUTO_PIN_0_BY_PANIC (newSimService ∅ 5) in
  let ev := EvRequest MSG_SIM_VERIFY_PIN (sim_request [Some (str "12"); None]) in
  ∃ s' o, handle ev e s = Ok (0, s', o) ∧ reaction s ev e 0 o.
Proof.
  intros e s ev. assert (H : handle ev e s = Ok (0, s, [ActComplete RIL_E_PASSWORD_INCORRECT (AnsInts (SetInt 0 (-1) (newRilDataInts 1)).2)])) by by vm_compute.
  exists s. eexists. split; [exact H|]. by apply (requests_one_reaction ev e s 0 s).
Defined.

(** ** The packet of a PIN *)

Lemma put_text_chunk fs k s max off : fs !! k = Some [0] → fs !! (S k) = Some (fill max 0) → lenZ s <= max → off = size_of (take k fs) →
  put_text (concat fs) off s max = Ok (concat (<[S k:=padded max s]> (<[k:=[lenZ s]]> fs))).
Proof.
  intros Hk Hk' Hs ->. unfold put_text. replace (lenZ s <=? max) with true by lia. rewrite (wr_chunk fs k 0) by done. cbn [mbind res_bind].
  rewrite (take_ge s) by (unfold lenZ in *; lia). apply (wrn_padded _ (S k)); [by rewrite list_lookup_insert_ne by lia|done|].
  pose proof (lookup_lt_Some _ _ _ Hk). rewrite (take_S_r _ k [lenZ s]) by by apply list_lookup_insert_eq. rewrite take_insert_ge by lia.
  unfold size_of. rewrite foldr_app. cbn [foldr]. change (lenZ [lenZ s] + 0) with 1. generalize (take k fs). intros l. induction l as [|x l IH]; cbn [foldr]; lia.
Qed.
Lemma put_aid_chunk pre aid off : lenZ pre = off → bytes_ok aid → lenZ aid <= MAX_SIM_AID_LEN →
  put_aid (pre ++ 0 :: fill MAX_SIM_AID_LEN 0) off (Some (hex_of aid)) = Ok (pre ++ [lenZ aid] ++ padded MAX_SIM_AID_LEN aid).
Proof.
  intros <- Ha Hl. change MAX_SIM_AID_LEN with 16 in *. unfold put_aid. pose proof (lenZ_nonneg aid).
  assert (Z.to_nat (lenZ pre + 1) = S (length pre)) as -> by (unfold lenZ; lia).
  assert (take (S (length pre)) (pre ++ 0 :: fill 16 0) = pre ++ [0]) as -> by (rewrite take_app_ge by lia; by replace (S (length pre) - length pre)%nat with 1%nat by lia).
  assert (drop (S (length pre)) (pre ++ 0 :: fill 16 0) = fill 16 0) as -> by (rewrite drop_app_ge by lia; by replace (S (length pre) - length pre)%nat with 1%nat by lia).
  rewrite HexString2Value_hex_of by (done || (rewrite lenZ_fill by done; lia)). cbn [mbind res_bind fst snd as_buffer default from_option]. unfold id.
  rewrite <- app_assoc. cbn [app]. rewrite (wr_at _ _ _ _ eq_refl) by (rewrite lenZ_cons; pose proof (lenZ_nonneg (aid ++ drop (length aid) (fill 16 0))); lia).
  rewrite u8_id by (unfold is_byte; lia). do 3 f_equal. unfold padded, fill. cbn [drop]. rewrite drop_replicate, drop_0. do 2 f_equal. unfold lenZ in *. lia.
Qed.
(** the bytes of the request to verify a PIN *)
Definition verify_pin_frame (id token : Z) (pin aid : list Z) : list Z :=
  header_bytes id sizeof_verify_sim_pin_req token ++ [lenZ pin] ++ padded MAX_SIM_PIN_LEN pin ++ [lenZ aid] ++ padded MAX_SIM_AID_LEN aid.
Lemma verify_pin_bytes m_nToken i id pin aid : (i, id) ∈ [(1, SIT_VERIFY_SIM_PIN); (2, SIT_VERIFY_SIM_PIN2)] → lenZ pin <= MAX_SIM_PIN_LEN →
  bytes_ok aid → lenZ aid <= MAX_SIM_AID_LEN →
  BuildSimVerifyPin m_nToken i (Some pin) (Some (hex_of aid)) = Ok (Some (verify_pin_frame id (GetNext m_nToken).1 pin aid), (GetNext m_nToken).2).
Proof.
  intros Hi Hp Ha Hl. unfold BuildSimVerifyPin.
  assert ((if i =? 1 then Some SIT_VERIFY_SIM_PIN else if i =? 2 then Some SIT_VERIFY_SIM_PIN2 else None) = Some id) as ->
    by (repeat (apply elem_of_cons in Hi as [ [= -> ->]|Hi]; [done|]); by apply elem_of_nil in Hi).
  change (fill sizeof_verify_sim_pin_req 0) with (concat [fill 12 0; [0]; fill MAX_SIM_PIN_LEN 0; 0 :: fill MAX_SIM_AID_LEN 0]).
  rewrite header_chunk by done. cbn [mbind res_bind fst snd].
  rewrite (put_text_chunk _ 1%nat) by done. cbn [mbind res_bind].
  change (concat _) with ((header_bytes id sizeof_verify_sim_pin_req (GetNext m_nToken).1 ++ [lenZ pin] ++ padded MAX_SIM_PIN_LEN pin) ++ 0 :: fill MAX_SIM_AID_LEN 0).
  rewrite put_aid_chunk; [|rewrite !lenZ_app, lenZ_header, lenZ_padded by done; done|done|done]. cbn [mbind res_bind]. unfold verify_pin_frame. by rewrite <- !app_assoc.
Qed.
Lemma valid_pin_text pin : IsValidPinPuk SIM_PIN (Some pin) = true → pin ≠ [] ∧ lenZ pin <= MAX_SIM_PIN_LEN ∧ Forall (λ c, 0 < c < 256 ∧ c ≠ 32) pin.
Proof.
  unfold IsValidPinPuk. rewrite !andb_true_iff, !Z.leb_le. intros [ [Hl Hu] Hd]. split; [by intros ->|]. split; [done|].
  apply forallb_True, Forall_forall in Hd || rewrite forallb_forall in Hd. apply Forall_forall. intros c Hc. apply list_elem_of_In in Hc.
  apply Hd in Hc. lia.
Qed.
Lemma SetAutoVerifyPin_keeps pin e s : is_key (m_szAutoPinPropertyKey s) → pin ≠ [] → lenZ pin <= MAX_SIM_PIN_LEN → Forall (λ c, 0 < c < 256 ∧ c ≠ 32) pin →
  ∃ kept, EncryptAutoVerifyPin (m_szAutoPinPropertyKey s) pin = Ok kept ∧ DecryptAutoVerifyPin (m_szAutoPinPropertyKey s) kept = Ok pin ∧
    SetAutoVerifyPin (Some pin) e s = Ok ((), set_auto AUTO_PIN_STATE_RECOVERED kept [] (m_nBootState s) (properties s) s, []).
Proof.
  intros Hk Hp Hl Hf. destruct (kept_pin _ pin Hk Hl Hf) as (kept & E & _ & _ & D). exists kept. split; [done|]. split; [done|].
  destruct pin as [|c pin]; [done|]. unfold SetAutoVerifyPin, ClearAutoVerifyPin, mbind, HM_bind, modify, gets, lift.
  cbn [m_szAutoPinPropertyKey set_auto]. by rewrite E.
Qed.
(** a PIN as the specification of the card has it: four to eight digits *)
Definition is_pin (pin : list Z) : Prop := 4 <= lenZ pin <= MAX_SIM_PIN_LEN ∧ Forall (λ c, 48 <= c <= 57) pin.
Lemma valid_pin pin : IsValidPinPuk SIM_PIN (Some pin) = true ↔ is_pin pin.
Proof.
  unfold IsValidPinPuk, is_pin. change MAX_SIM_PIN_LEN with 8. rewrite !andb_true_iff, !Z.leb_le, forallb_forall, Forall_forall.
  split; intros [Hl Hd]; (split; [lia|]); intros c Hc; [apply list_elem_of_In, Hd in Hc; lia|apply list_elem_of_In, Hd in Hc; lia].
Qed.
(** A request to verify the PIN, on every branch.  Without a PIN it tells the
    attempts that remain.  A PIN that is not four to eight digits is never sent:
    the answer is that the password is incorrect.  A valid PIN is sent in the
    packet with exactly its bytes and those of the application, and is kept
    scrambled, such that it can be restored, until the card has decided; when the
    packet cannot be sent the handler fails. *)
Theorem verify_pin_request r e s pin aid :
  GetString 0 r = Some pin → GetString 1 r = Some (hex_of aid) → bytes_ok aid → lenZ aid <= MAX_SIM_AID_LEN → is_key (m_szAutoPinPropertyKey s) →
  (pin = [] → DoVerifyPin (Some r) e s = Ok (0, s, [ActComplete RIL_E_SUCCESS (AnsInts [ (m_nPinRemain s).1])])) ∧
  (pin ≠ [] → ¬ is_pin pin →
     DoVerifyPin (Some r) e s = Ok (0, s, [ActComplete RIL_E_PASSWORD_INCORRECT (AnsInts [ (m_nPinRemain s).1])])) ∧
  (is_pin pin →
     ∃ kept, DecryptAutoVerifyPin (m_szAutoPinPropertyKey s) kept = Ok pin ∧
       let token := GetNext (sim_token s) in
       let s' := set_auto AUTO_PIN_STATE_VERIFY kept [] (m_nBootState s) (properties s) (set_token token.2 s) in
       DoVerifyPin (Some r) e s =
         Ok (if send_ok e then (0, s', [ActSend (verify_pin_frame SIT_VERIFY_SIM_PIN token.1 pin aid) MSG_SIM_VERIFY_PIN_DONE])
             else (-1, s', [ActUnsent (verify_pin_frame SIT_VERIFY_SIM_PIN token.1 pin aid) MSG_SIM_VERIFY_PIN_DONE]))).
Proof.
  intros Hp Ha Hb Hl Hk. unfold DoVerifyPin, NULL_REQ. rewrite Hp, Ha. split; [|split].
  - intros ->. done.
  - intros Hne Hv. cbv zeta. rewrite <- valid_pin in Hv. apply not_true_is_false in Hv. rewrite Hv. destruct pin; [done|]. done.
  - intros Hv. apply valid_pin in Hv. destruct (valid_pin_text _ Hv) as (Hne & H8 & Hf).
    destruct (SetAutoVerifyPin_keeps pin e (set_token (GetNext (sim_token s)).2 s)) as (kept & _ & D & S); [done|done|done|done|].
    exists kept. split; [done|]. cbv zeta. rewrite Hv. destruct pin as [|c pin]; [done|]. unfold is_text. cbn [IsEmpty negb].
    pose proof (run_build (λ t, BuildSimVerifyPin t 1 (Some (c :: pin)) (Some (hex_of aid))) e s _ (verify_pin_bytes (sim_token s) 1 SIT_VERIFY_SIM_PIN (c :: pin) aid ltac:(by_eval) H8 Hb Hl)) as B.
    destruct (send_ok e) eqn:Es; apply (run_bind _ _ _ _ _ _ [] _ _ _ B); cbn [fst snd].
    + apply (run_bind _ _ _ _ 0 (set_token (GetNext (sim_token s)).2 s) [_] _ _ []); [unfold send; by rewrite Es|]. by apply (run_bind _ _ _ _ _ _ [] _ _ [] S).
    + apply (run_bind _ _ _ _ (-1) (set_token (GetNext (sim_token s)).2 s) [_] _ _ []); [unfold send; by rewrite Es|].
      by apply (run_bind _ _ _ _ _ _ [] _ _ [] S).
Qed.
Lemma verify_pin_request_witness :
  let r := {| ssrd_base := newRequestData 2 7 0; m_nStringCount := 2; m_ptrStrings := Some [Some (str "1234"); Some (hex_of [160; 0; 0])] |} in
  let s := set_keys PROP_AUTO_VERIFY_PIN_0 PROP_AUTO_PIN_0_BY_PANIC (newSimService ∅ 5) in
  let e := plain_env true true in
  ∃ kept, DecryptAutoVerifyPin (m_szAutoPinPropertyKey s) kept = Ok (str "1234") ∧
    DoVerifyPin (Some r) e s =
      Ok (0, set_auto AUTO_PIN_STATE_VERIFY kept [] (m_nBootState s) (properties s) (set_token (GetNext 5).2 s),
          [ActSend (verify_pin_frame SIT_VERIFY_SIM_PIN (GetNext 5).1 (str "1234") [160; 0; 0]) MSG_SIM_VERIFY_PIN_DONE]).
Proof.
  intros r s e. refine (proj2 (proj2 (verify_pin_request r e s (str "1234") [160; 0; 0] eq_refl eq_refl _ _ _)) _); [by_eval|done|by left|by_eval].
Defined.

(** ** Flaws *)

(** the kind of lock is found out and not used: a corporate lock is opened with the code of the network lock *)
Lemma network_lock_kind :
  let app := {| app_type := RIL_APPTYPE_USIM; app_state := RIL_APPSTATE_SUBSCRIPTION_PERSO; perso_substate := RIL_PERSOSUBSTATE_SIM_CORPORATE; aid_ptr := None;
                pin1_replaced := 0; pin1 := 0; pin2 := 0 |} in
  let c := card_of RIL_CARDSTATE_PRESENT 0 0 in
  let s := set_card {| card_state := card_state c; universal_pin_state := 0; gsm_umts_subscription_app_index := 0; cdma_subscription_app_index := -1;
                       ims_subscription_app_index := -1; applications := [app]; physicalSlotId := 0; cs_atr := []; cs_iccid := []; cs_eid := [] |}
             (fill 288 0) (newSimService ∅ 5) in
  network_fac (applications (mRilCardStatus s)) = FAC_PP ∧
  match DoVerifyNetworkLock (sim_request [Some (str "12345678")]) (plain_env true true) s with
  | Ok (0, _, [ActSend p _]) => p.[12] = Ok FAC_PN
  | _ => False
  end.
Proof. by vm_compute. Qed.
(** a lock of the fixed dialling numbers that could not be sent stays; a PIN2 that is verified later for its own sake sends it *)
Lemma stale_fixed_dialling_lock :
  let no := plain_env false true in
  let yes := plain_env true true in
  match DoSetFacilityLock (sim_request [Some (str "FD"); Some (str "1"); Some (str "1234"); Some (str "0"); None]) no (newSimService ∅ 5) with
  | Ok (-1, s1, [ActUnsent _ _]) =>
    match DoVerifyPin2 (sim_request [Some (str "1234")]) yes s1 with
    | Ok (0, s2, [ActSend _ MSG_SIM_VERIFY_PIN2_DONE]) =>
      match OnVerifyPin2Done (Some [1; 0; 3; 2; 16; 0; 0; 0; 0; 0; 0; 0; 3; 0; 0; 0]) yes s2 with
      | Ok (0, s3, [ActSend p MSG_SIM_SET_FACILITY_LOCK_DONE]) => Some p = m_pEnableFdnData s1
      | _ => False
      end
    | _ => False
    end
  | _ => False
  end.
Proof. by vm_compute. Qed.
(** the password of a facility lock is not checked; nine characters overflow the code that is scrambled *)
Lemma long_facility_password :
  DoSetFacilityLock (sim_request [Some (str "SC"); Some (str "1"); Some (str "123456789"); Some (str "0"); None]) (plain_env true true)
    (set_keys PROP_AUTO_VERIFY_PIN_0 PROP_AUTO_PIN_0_BY_PANIC (newSimService ∅ 5)) = UB.
Proof. by vm_compute. Qed.
(** a facility lock that could not be sent leaves its PIN to be kept by the next one that succeeds, here for another facility *)
Lemma unverified_pin_kept :
  let no := plain_env false true in
  let yes := plain_env true true in
  let s := set_keys PROP_AUTO_VERIFY_PIN_0 PROP_AUTO_PIN_0_BY_PANIC (newSimService ∅ 5) in
  match DoSetFacilityLock (sim_request [Some (str "SC"); Some (str "1"); Some (str "9999"); Some (str "0"); None]) no s with
  | Ok (-1, s1, [ActUnsent _ _]) =>
    match DoSetFacilityLock (sim_request [Some (str "AO"); Some (str "1"); Some (str "0000"); Some (str "0"); None]) yes s1 with
    | Ok (0, s2, [ActSend _ MSG_SIM_SET_FACILITY_LOCK_DONE]) =>
      match OnSetFacilityLockDone (Some [1; 0; 10; 2; 16; 0; 0; 0; 0; 0; 0; 0; 3; 0; 0; 0]) yes s2 with
      | Ok (0, s3, _) => EncryptAutoVerifyPin PROP_AUTO_VERIFY_PIN_0 (str "9999") = Ok (m_szAutoPIN s3)
      | _ => False
      end
    | _ => False
    end
  | _ => False
  end.
Proof. by vm_compute. Qed.
