(* ===== verification/SimAutoPin.v ===== *)
(** The life of a kept PIN: the steps it can take, that the handlers take no
    others, which PIN the daemon verifies by itself, and that a PIN that failed is
    not tried again. *)
From stdpp Require Import gmap.
From S2P Require Import Prelude RilDef Text WaitList Network Rcm Handler Layout RilData MccTable SimPackets SimPin SimPinTheorems SimIo SimCardPackets SimCard.

(** ** The machine

    The part of the state that concerns the kept PIN, and what may happen to it:
    a machine of its own, of which every handler makes some steps. *)

Record PinPart := { pp_state : AutoPinState; pp_temp : list Z; pp_kept : list Z; pp_boot : BootState; pp_key : list Z; pp_panic : list Z; pp_props : gmap (list Z) (list Z) }.
Definition pin_part (s : SimService) : PinPart :=
  {| pp_state := m_nAutoPinState s; pp_temp := m_szTempPIN s; pp_kept := m_szAutoPIN s; pp_boot := m_nBootState s; pp_key := m_szAutoPinPropertyKey s;
     pp_panic := m_szAutoPinPropertyKeyByPanic s; pp_props := properties s |}.
Definition pp_with (st : AutoPinState) (temp kept : list Z) (boot : BootState) (props : gmap (list Z) (list Z)) (p : PinPart) : PinPart :=
  {| pp_state := st; pp_temp := temp; pp_kept := kept; pp_boot := boot; pp_key := pp_key p; pp_panic := pp_panic p; pp_props := props |}.
Definition pp_mark (st : AutoPinState) (p : PinPart) : PinPart := pp_with st (pp_temp p) (pp_kept p) (pp_boot p) (pp_props p) p.
Section machine.
(** the PINs the user entered with the request, and whether the card accepted one *)
Variables (entered : list Z → Prop) (accepted : Prop).
Inductive pin_step : PinPart → PinPart → Prop :=
| step_forget p : pin_step p (pp_with AUTO_PIN_STATE_EMPTY [] [] (pp_boot p) (pp_props p) p)
| step_drop p : pin_step p (pp_with (pp_state p) [] (pp_kept p) (pp_boot p) (pp_props p) p)
| step_mark st p : st ≠ AUTO_PIN_STATE_READY → st ≠ AUTO_PIN_STATE_RECOVERY → pin_step p (pp_mark st p)
| step_enter pin temp p : entered pin → EncryptAutoVerifyPin (pp_key p) pin = Ok temp →
    pin_step p (pp_with AUTO_PIN_STATE_RECOVERED temp (pp_kept p) (pp_boot p) (pp_props p) p)
| step_accept p : accepted → pp_temp p ≠ [] →
    pin_step p (pp_with (pp_state p) [] (take 128 (pp_temp p)) (pp_boot p) (prop_set (pp_panic p) (take 128 (pp_temp p)) (pp_props p)) p)
| step_erase k p : pin_step p (pp_with (pp_state p) (pp_temp p) (pp_kept p) (pp_boot p) (prop_set k [] (pp_props p)) p)
| step_recover p : pp_state p = AUTO_PIN_STATE_READY → pin_step p (pp_mark AUTO_PIN_STATE_RECOVERY p)
| step_unsent p : pp_state p = AUTO_PIN_STATE_RECOVERY → pin_step p (pp_mark AUTO_PIN_STATE_READY p)
| step_save p : pp_kept p ≠ [] →
    pin_step p (pp_with AUTO_PIN_STATE_READY (pp_temp p) (pp_kept p) (pp_boot p) (prop_set (pp_key p) (pp_kept p) (pp_props p)) p)
| step_boot b p : pp_boot p = BOOT_STATE_UNKNOWN → pin_step p (pp_with (pp_state p) (pp_temp p) (pp_kept p) b (pp_props p) p)
| step_panic p : pp_boot p = BOOT_STATE_UNKNOWN → prop_get (pp_panic p) (pp_props p) ≠ [] →
    pin_step p (pp_with AUTO_PIN_STATE_READY (pp_temp p) (take 128 (prop_get (pp_panic p) (pp_props p))) BOOT_STATE_KERNEL_PANIC (pp_props p) p).
Definition pin_steps (s s' : SimService) : Prop := rtc pin_step (pin_part s) (pin_part s').
Lemma pin_steps_refl s : pin_steps s s.
Proof. apply rtc_refl. Qed.
Lemma pin_steps_trans s1 s2 s3 : pin_steps s1 s2 → pin_steps s2 s3 → pin_steps s1 s3.
Proof. unfold pin_steps. intros. by etrans. Qed.
Lemma pin_steps_same s1 s2 s3 : pin_part s2 = pin_part s3 → pin_steps s1 s2 → pin_steps s1 s3.
Proof. unfold pin_steps. by intros ->. Qed.
Lemma pin_steps_mark st s1 s2 : st ≠ AUTO_PIN_STATE_READY → st ≠ AUTO_PIN_STATE_RECOVERY → pin_steps s1 s2 → pin_steps s1 (set_state st s2).
Proof. intros H1 H2 Hs. eapply rtc_r; [exact Hs|]. exact (step_mark st (pin_part s2) H1 H2). Qed.
Lemma pin_steps_once s1 s2 p : pin_step (pin_part s1) p → p = pin_part s2 → pin_steps s1 s2.
Proof. intros H ->. by apply rtc_once. Qed.

(** the operations on the kept PIN *)
Lemma steps_Clear Q e s : (∀ s', pin_steps s s' → Q () s' []) → ends ClearAutoVerifyPin Q e s.
Proof. intros HQ. apply ends_modify, HQ. by eapply pin_steps_once; [apply step_forget|]. Qed.
Lemma steps_Empty Q e s : (∀ s', pin_steps s s' → Q () s' []) → ends EmptyAutoVerifyPin Q e s.
Proof. intros HQ. apply ends_modify, HQ. by eapply pin_steps_once; [apply (step_erase (m_szAutoPinPropertyKey s))|]. Qed.
Lemma steps_panic Q e s : (∀ s', pin_steps s s' → Q () s' []) → ends empty_panic Q e s.
Proof. intros HQ. apply ends_modify, HQ. by eapply pin_steps_once; [apply (step_erase (m_szAutoPinPropertyKeyByPanic s))|]. Qed.
Lemma steps_Set pin Q e s : (∀ p, pin = Some p → p ≠ [] → entered p) → (∀ s', pin_steps s s' → Q () s' []) → ends (SetAutoVerifyPin pin) Q e s.
Proof.
  intros He HQ. unfold SetAutoVerifyPin. apply ends_bind, steps_Clear. intros s1 H1. cbn [app].
  destruct pin as [ [|c p]|]; [apply ends_ret; by apply HQ| |apply ends_ret; by apply HQ].
  apply ends_bind, ends_gets, ends_bind, ends_lift. intros kept Hk. apply ends_modify. cbn [app]. apply HQ.
  eapply pin_steps_trans; [exact H1|]. by eapply pin_steps_once; [eapply (step_enter (c :: p) kept (pin_part s1)); [by apply He|exact Hk]|].
Qed.
Lemma steps_Done ok Q e s : (ok = true → accepted) → (∀ s', pin_steps s s' → Q () s' []) → ends (SetAutoVerifyPinDone ok) Q e s.
Proof.
  intros Ha HQ. unfold SetAutoVerifyPinDone. apply ends_modify, HQ. destruct (ok && negb (IsEmpty (Some (m_szTempPIN s)))) eqn:E.
  - apply andb_true_iff in E as [-> E]. eapply pin_steps_once; [apply step_accept; [by apply Ha|]|done]. intros Et. cbn in Et. by rewrite Et in E.
  - by eapply pin_steps_once; [apply step_drop|].
Qed.
Lemma steps_Save Q e s : (∀ s', pin_steps s s' → Q () s' []) → ends SaveAutoVerifyPin Q e s.
Proof.
  intros HQ. unfold SaveAutoVerifyPin. apply ends_modify, HQ. destruct (IsEmpty (Some (m_szAutoPIN s))) eqn:E; [apply pin_steps_refl|].
  eapply pin_steps_once; [apply step_save|done]. intros Et. cbn in Et. by rewrite Et in E.
Qed.
End machine.

(** ** The handlers *)

(** the PINs of a request that are kept *)
Definition entered_by (ev : SimEvent) (pin : list Z) : Prop :=
  match ev with
  | EvRequest MSG_SIM_VERIFY_PIN (Some r) => GetString 0 r = Some pin ∧ IsValidPinPuk SIM_PIN (Some pin) = true
  | EvRequest MSG_SIM_VERIFY_PUK (Some r) | EvRequest MSG_SIM_CHANGE_PIN (Some r) => GetString 1 r = Some pin ∧ IsValidPinPuk SIM_PIN (Some pin) = true
  | EvRequest MSG_SIM_SET_FACILITY_LOCK (Some r) =>
    ∃ strings f, m_ptrStrings r = Some strings ∧ FacilityLock_Parse strings (m_nStringCount r) = Ok (Some f) ∧ m_szCode f = str "SC" ∧ m_szPassword f = pin
  | _ => False
  end.
(** the answers that say that the card accepted a PIN *)
Definition accepted_by (ev : SimEvent) : Prop :=
  match ev with
  | EvDone (MSG_SIM_VERIFY_PIN_DONE | MSG_SIM_VERIFY_PUK_DONE | MSG_SIM_CHANGE_PIN_DONE | MSG_SIM_SET_FACILITY_LOCK_DONE) _ frame =>
    Rcm.GetErrorCode frame = Ok RIL_E_SUCCESS
  | _ => False
  end.
Ltac life_step E A :=
  lazymatch goal with
  | |- ends ClearAutoVerifyPin _ _ _ => apply (steps_Clear E A); intros ? ?
  | |- ends EmptyAutoVerifyPin _ _ _ => apply (steps_Empty E A); intros ? ?
  | |- ends empty_panic _ _ _ => apply (steps_panic E A); intros ? ?
  | |- ends SaveAutoVerifyPin _ _ _ => apply (steps_Save E A); intros ? ?
  | |- ends (SetAutoVerifyPin _) _ _ _ => apply (steps_Set E A); [|intros ? ?]
  | |- ends (SetAutoVerifyPinDone _) _ _ _ => apply (steps_Done E A); [|intros ? ?]
  | |- ends (NULL_REQ _ _) _ _ _ => unfold NULL_REQ
  | |- ends (with_facility _ _) _ _ _ => unfold with_facility
  | |- ends (SendPasswordInvalid _ _) _ _ _ => unfold SendPasswordInvalid
  | |- ends (answer_remain _ _) _ _ _ => unfold answer_remain
  | |- ends (take_count _ _ _) _ _ _ => unfold take_count
  | |- ends (new_pin_done _ _) _ _ _ => unfold new_pin_done
  | |- ends (let _ := _ in _) _ _ _ => cbv zeta
  | |- _ => sm_step
  end; cbn [app].
Ltac life_same x := apply (pin_steps_same _ _ _ x); [reflexivity|].
Ltac life_done :=
  repeat lazymatch goal with
  | |- pin_steps _ _ ?x ?x => apply pin_steps_refl
  | |- pin_steps _ _ _ (set_state _ _) => apply pin_steps_mark; [discriminate|discriminate|]
  | |- pin_steps _ _ _ (set_token _ ?x) => life_same x
  | |- pin_steps _ _ _ (set_counts _ _ ?x) => life_same x
  | |- pin_steps _ _ _ (set_card _ _ ?x) => life_same x
  | |- pin_steps _ _ _ (set_sim _ _ _ _ _ _ ?x) => life_same x
  | |- pin_steps _ _ _ (set_pending _ _ ?x) => life_same x
  | |- pin_steps _ _ _ (set_imsi _ ?x) => life_same x
  | H : pin_steps _ _ ?x ?y |- pin_steps _ _ _ ?y => apply (pin_steps_trans _ _ _ x); [|exact H]
  end.
Lemma request_steps m r e s : ends (OnHandleRequest m r) (λ _ s' _, pin_steps (entered_by (EvRequest m r)) False s s') e s.
Proof.
  set (E := entered_by (EvRequest m r)). destruct m; cbn [OnHandleRequest];
    autounfold with sim_requests; repeat life_step E False; life_done.
  all: intros p Hp _; subst E; cbn [entered_by]; simplify_eq.
  all: repeat match goal with H : _ && _ = true |- _ => apply andb_true_iff in H as [? ?] end.
  all: first [split; [exact Hp|congruence] | by repeat esplit].
Qed.
Section status.
Variables (E : list Z → Prop) (A : Prop).
(** nothing was sent *)
Definition quiet (o : list Act) : Prop := Forall (λ a, match a with ActSend _ _ => False | _ => True end) o.
Lemma quiet_app o o' : quiet o → quiet o' → quiet (o ++ o').
Proof. apply Forall_app_2. Qed.
Lemma steps_add_application a i Q e s : (∀ s', pin_steps E A s s' → Q () s' []) → ends (add_application a i) Q e s.
Proof.
  intros HQ. unfold add_application. repeat life_step E A; apply HQ; life_done.
  all: match goal with H : _ && bool_decide (_ = AUTO_PIN_STATE_READY) = true |- _ => apply andb_true_iff in H as [_ H%bool_decide_eq_true_1];
    apply rtc_once; exact (step_recover E A (pin_part s) H) end.
Qed.
Lemma steps_add_applications a n i Q e s : (∀ s', pin_steps E A s s' → Q () s' []) → ends (add_applications a n i) Q e s.
Proof.
  revert i s Q. induction n as [|n IH]; intros i s Q HQ; cbn [add_applications]; [apply ends_ret, HQ, pin_steps_refl|].
  apply ends_bind, steps_add_application. intros s1 H1. cbn [app]. apply IH. intros s2 H2. apply HQ. by eapply pin_steps_trans.
Qed.
Lemma steps_NotifyIccidInfo Q e s : (∀ s' o, pin_steps E A s s' → quiet o → Q () s' o) → ends NotifyIccidInfo Q e s.
Proof.
  intros HQ v s' o H. unfold NotifyIccidInfo in H. destruct (m_pIccidInfo s) as [d|]; [destruct (radio_available e)|]; injection H as <- <- <-; apply HQ.
  1: life_done. 1: by apply Forall_singleton. all: first [apply pin_steps_refl|by apply Forall_nil_2].
Qed.
Lemma steps_BuildSimStatus frame Q e s : (∀ c s' o, pin_steps E A s s' → quiet o → Q c s' o) → ends (BuildSimStatus frame) Q e s.
Proof.
  intros HQ. unfold BuildSimStatus, OnSimHotSwap.
  repeat lazymatch goal with
  | |- ends (add_applications _ _ _) _ _ _ => apply steps_add_applications; intros ? ?; cbn [app]
  | |- ends NotifyIccidInfo _ _ _ => apply steps_NotifyIccidInfo; intros ? ? ? ?; cbn [app]
  | |- _ => life_step E A
  end; apply HQ; life_done; rewrite ?app_nil_r; try done; apply quiet_app; try done; by apply Forall_singleton.
Qed.
End status.
(** the answers *)
Lemma pin_steps_weaken (E E' : list Z → Prop) (A A' : Prop) s s' : (∀ p, E p → E' p) → (A → A') → pin_steps E A s s' → pin_steps E' A' s s'.
Proof.
  intros HE HA H. eapply rtc_subrel; [|exact H]. intros p q [ ].
  - apply step_forget.
  - apply step_drop.
  - by apply step_mark.
  - eapply step_enter; eauto.
  - apply step_accept; auto.
  - apply step_erase.
  - by apply step_recover.
  - by apply step_unsent.
  - by apply step_save.
  - by apply step_boot.
  - by apply step_panic.
Qed.
Lemma ends_error_code frame (Q : Z → SimService → list Act → Prop) (e : SimEnv) s : (∀ c, Rcm.GetErrorCode frame = Ok c → Q c s []) → ends (lift (Rcm.GetErrorCode frame)) Q e s.
Proof. apply ends_lift. Qed.
Definition no_pin : list Z → Prop := λ _, False.
Lemma accepts_code frame c : Rcm.GetErrorCode frame = Ok c → (c =? RIL_E_SUCCESS) = true → Rcm.GetErrorCode frame = Ok RIL_E_SUCCESS.
Proof. by intros -> ->%Z.eqb_eq. Qed.
Ltac answer_steps E A :=
  repeat lazymatch goal with
  | |- ends DoGetSimStatus _ _ _ => unfold DoGetSimStatus
  | |- ends (BuildSimStatus _) _ _ _ => apply (steps_BuildSimStatus E A); intros ? ? ? ? ?; cbn [app]
  | |- ends NotifyIccidInfo _ _ _ => apply (steps_NotifyIccidInfo E A); intros ? ? ? ?; cbn [app]
  | |- _ => life_step E A
  end.
(** the status: when a PIN is sent, it is the kept one, restored *)
Definition sends_kept (s : SimService) (o : list Act) : Prop :=
  ∀ p, ActSend p MSG_SIM_VERIFY_PIN_DONE ∈ o →
    ∃ m, rtc (pin_step no_pin False) (pin_part s) m ∧ pp_state m = AUTO_PIN_STATE_RECOVERY ∧
      ∃ pin aid t t', DecryptAutoVerifyPin (pp_key m) (pp_kept m) = Ok pin ∧ BuildSimVerifyPin t 1 (Some pin) aid = Ok (Some p, t').
Lemma quiet_no_send o p msg : quiet o → ActSend p msg ∉ o.
Proof. intros Hq Hp. unfold quiet in Hq. rewrite Forall_forall in Hq. by apply Hq in Hp. Qed.
Lemma quiet_kept s o : quiet o → sends_kept s o.
Proof. intros Hq p Hp. by apply quiet_no_send in Hp. Qed.
Lemma status_steps frame e s : ends (OnGetSimStatusDone frame) (λ _ s' o, pin_steps no_pin False s s' ∧ sends_kept s o) e s.
Proof.
  unfold OnGetSimStatusDone, GetAutoVerifyPin.
  repeat lazymatch goal with
  | |- ends (BuildSimStatus _) _ _ _ => apply (steps_BuildSimStatus no_pin False); intros ? s1 o ? ?; cbn [app]
  | |- _ => life_step no_pin False
  end.
  all: split; [life_done|rewrite ?app_nil_r;
    try (solve [apply quiet_kept; repeat first [by apply Forall_nil_2|done|apply Forall_cons_2|apply quiet_app] ])].
  1: { intros p Hp. apply elem_of_app in Hp as [Hp|Hp%list_elem_of_singleton]; [by apply quiet_no_send in Hp|]. injection Hp as ->. simplify_eq.
    exists (pin_part s1). split; [done|]. split; [done|]. by repeat esplit. }
  all: eapply pin_steps_trans; [eassumption|]; apply rtc_once.
  all: try match goal with H : m_nAutoPinState ?x = _ |- _ => exact (step_unsent no_pin False (pin_part x) H) end.
  all: match goal with s1 : SimService, E : _ && _ = true |- _ => apply andb_true_iff in E as [E%bool_decide_eq_true_1 _];
         try exact (step_boot no_pin False _ (pin_part s1) E) end.
  apply (step_panic no_pin False (pin_part s1) Eb1). intros Hn. cbn in Hn, Eb2. by rewrite Hn in Eb2.
Qed.
Lemma card_steps q e s : ends (OnHandleCardRequest q) (λ _ s' _, pin_steps no_pin False s s') e s.
Proof. destruct q; cbn [OnHandleCardRequest]; autounfold with sim_requests; repeat life_step no_pin False; life_done. Qed.
Lemma response_steps m cur frame e s :
  ends (OnHandleSolicitedResponse m cur frame) (λ _ s' _, pin_steps no_pin (accepted_by (EvDone m cur frame)) s s') e s.
Proof.
  destruct m; cbn [OnHandleSolicitedResponse].
  1: { eapply ends_weaken; [apply status_steps|]. intros v s' o [H _]. eapply pin_steps_weaken; [by intros ? | |exact H]. done. }
  all: set (A := accepted_by _); autounfold with sim_answers; autounfold with sim_requests.
  all: repeat life_step no_pin A; life_done.
  all: first [by intros [=]|intros _; by eapply accepts_code].
Qed.
Ltac indication_steps E A :=
  autounfold with sim_answers;
  repeat lazymatch goal with
  | |- ends NotifyIccidInfo _ _ _ => apply (steps_NotifyIccidInfo E A); intros ? ? ? ?; cbn [app]
  | |- _ => life_step E A
  end; life_done.
Lemma handle_steps ev e s : ends (handle ev) (λ _ s' _, pin_steps (entered_by ev) (accepted_by ev) s s') e s.
Proof.
  set (E := entered_by ev). set (A := accepted_by ev). destruct ev as [m r|q|m cur frame|packet| |card| | |frame|frame|frame|frame]; cbn [handle].
  - eapply ends_weaken; [apply request_steps|]. intros v s' o H. by eapply pin_steps_weaken; [done| |exact H].
  - eapply ends_weaken; [apply card_steps|]. intros v s' o H. by eapply pin_steps_weaken; [ | |exact H].
  - eapply ends_weaken; [apply response_steps|]. intros v s' o H. by eapply pin_steps_weaken; [ | |exact H].
  - unfold OnGetSimStatusTimeout. indication_steps E A.
  - unfold OnReset. indication_steps E A.
  - unfold OnSimStateChanged. indication_steps E A.
  - indication_steps E A.
  - unfold OnSimStatusChanged. indication_steps E A.
  - unfold OnIccidInfo. indication_steps E A.
  - unfold OnUnsolUiccSubscriptionStatusChanged. indication_steps E A.
  - unfold OnUnsolSimSlotsStatusChanged. indication_steps E A.
  - indication_steps E A.
Qed.
(** only a request and the status send a PIN *)
Definition pin_sends (ev : SimEvent) (s : SimService) (o : list Act) : Prop :=
  match ev with EvRequest MSG_SIM_VERIFY_PIN _ => True | _ => sends_kept s o end.
Lemma no_sends_kept s o : (∀ p, ActSend p MSG_SIM_VERIFY_PIN_DONE ∉ o) → sends_kept s o.
Proof. intros Ho p Hp. by apply Ho in Hp. Qed.
Ltac no_send := intros ? Hsend; repeat (apply elem_of_cons in Hsend as [Hsend|Hsend]; [discriminate Hsend|]); by apply elem_of_nil in Hsend.
Ltac send_step :=
  lazymatch goal with
  | |- ends (SetAutoVerifyPin _) _ _ _ => apply ends_SetAutoVerifyPin; intros ?
  | |- ends (SetAutoVerifyPinDone _) _ _ _ => unfold SetAutoVerifyPinDone; apply ends_modify
  | |- ends NotifyIccidInfo _ _ _ => apply (steps_NotifyIccidInfo no_pin False); intros ? ? ? ?; cbn [app]
  | |- _ => life_step no_pin False
  end; cbn [app].
Ltac sends_none := unfold pin_sends; autounfold with sim_answers; repeat send_step; first [apply no_sends_kept; no_send|apply quiet_kept; rewrite ?app_nil_r; first [done|by apply Forall_cons_2] ].
Lemma handle_sends ev e s : ends (handle ev) (λ _ _ o, pin_sends ev s o) e s.
Proof.
  destruct ev as [m r|q|m cur frame|packet| |card| | |frame|frame|frame|frame]; cbn [handle].
  - destruct m; cbn [OnHandleRequest pin_sends]; try (by intros ? ? ? ?); autounfold with sim_requests; sends_none.
  - destruct q; cbn [OnHandleCardRequest]; autounfold with sim_requests; sends_none.
  - destruct m; cbn [OnHandleSolicitedResponse].
    1: { eapply ends_weaken; [apply status_steps|]. by intros v s' o [_ H]. }
    all: unfold SetAutoVerifyPinDone, ClearAutoVerifyPin, empty_panic; autounfold with sim_answers; autounfold with sim_requests; sends_none.
  - unfold OnGetSimStatusTimeout. sends_none.
  - unfold OnReset, SaveAutoVerifyPin. sends_none.
  - unfold OnSimStateChanged. sends_none.
  - sends_none.
  - unfold OnSimStatusChanged. sends_none.
  - unfold OnIccidInfo. sends_none.
  - unfold OnUnsolUiccSubscriptionStatusChanged. sends_none.
  - unfold OnUnsolSimSlotsStatusChanged. sends_none.
  - sends_none.
Qed.

(** ** Runs *)

(** what every message did *)
Fixpoint run (evs : list (SimEnv * SimEvent)) (s : SimService) : res (list (SimEvent * list Act) * SimService) :=
  match evs with
  | [] => Ok ([], s)
  | (e, ev) :: evs => t ← handle ev e s; r ← run evs t.1.2; Ok ((ev, t.2) :: r.1, r.2)
  end.
Lemma run_invariant (J : PinPart → Prop) (ok : SimEvent → Prop) (P : SimEvent → list Act → Prop) evs s tr s' :
  (∀ ev p q, ok ev → pin_step (entered_by ev) (accepted_by ev) p q → J p → J q) →
  (∀ ev s o, ok ev → J (pin_part s) → pin_sends ev s o → P ev o) →
  (∀ e ev, (e, ev) ∈ evs → ok ev) → J (pin_part s) → run evs s = Ok (tr, s') → ∀ ev o, (ev, o) ∈ tr → P ev o.
Proof.
  intros HJ HP. revert s tr s'. induction evs as [|[e ev] evs IH]; intros s tr s' Hok Hs Hr; cbn [run] in Hr.
  - injection Hr as <- <-. intros ev o []%elem_of_nil.
  - apply bind_ok in Hr as ([ [v s1] o1] & H1 & Hr). cbn [fst snd] in Hr. apply bind_ok in Hr as ([tr1 s2] & H2 & Hr). injection Hr as <- <-. cbn [fst].
    assert (ok ev) as Hev by (eapply Hok; by apply elem_of_cons; left).
    intros ev' o' [ [= -> ->]|Hin]%elem_of_cons; [eapply HP; [done|exact Hs|by apply (handle_sends _ _ _ _ _ _ H1)]|].
    eapply (IH s1); [| |exact H2|exact Hin]; [intros e2 ev2 Hin2; eapply Hok; by apply elem_of_cons; right|].
    pose proof (handle_steps _ _ _ _ _ _ H1) as Hst. unfold pin_steps in Hst. cbn beta in Hst.
    clear - HJ Hev Hs Hst. induction Hst as [|p q r Hpq _ IH]; [done|]. apply IH. by eapply HJ.
Qed.

(** ** Whose PIN it is *)

Section whose.
(** the PINs of the user, and the names under which they are stored *)
Variables (U : list Z → Prop) (key panic : list Z).
Hypothesis U_text : ∀ pin, U pin → lenZ pin <= MAX_SIM_PIN_LEN ∧ Forall (λ c, 0 < c < 256 ∧ c ≠ 32) pin.
Hypothesis Hkey : is_key key.
(** nothing, or a PIN of the user, scrambled *)
Definition kept_text (t : list Z) : Prop := t = [] ∨ ∃ pin, U pin ∧ EncryptAutoVerifyPin key pin = Ok t.
Record of_user (p : PinPart) : Prop := {
  ou_key : pp_key p = key; ou_panic : pp_panic p = panic; ou_temp : kept_text (pp_temp p); ou_kept : kept_text (pp_kept p);
  ou_stored : kept_text (prop_get key (pp_props p)); ou_stored_panic : kept_text (prop_get panic (pp_props p)) }.
Lemma take_kept t : kept_text t → take 128 t = t.
Proof.
  intros [->|(pin & Hp & E)]; [done|]. destruct (U_text _ Hp) as [H8 Hf]. destruct (kept_pin key pin Hkey H8 Hf) as (t' & E' & _ & Hl & _).
  rewrite E in E'. injection E' as <-. apply take_ge. unfold lenZ in Hl. lia.
Qed.
Lemma kept_prop_set k k' v m : kept_text v → kept_text (prop_get k m) → kept_text (prop_get k (prop_set k' v m)).
Proof.
  intros Hv Hm. unfold prop_set. destruct (IsEmpty (Some k')); [done|]. unfold prop_get.
  destruct (decide (k = k')) as [->|]; [by rewrite lookup_insert_eq|by rewrite lookup_insert_ne].
Qed.
Lemma of_user_step (entered : list Z → Prop) (A : Prop) p q : (∀ pin, entered pin → U pin) → pin_step entered A p q → of_user p → of_user q.
Proof.
  intros HE Hpq [Hk Hp Ht Hkept Hs Hsp]. assert (kept_text []) as H0 by by left. destruct Hpq; cbn in *.
  all: try match goal with H : EncryptAutoVerifyPin _ _ = _ |- _ => rewrite Hk in H end.
  all: constructor; cbn; rewrite ?(take_kept _ Ht), ?Hp, ?(take_kept _ Hsp); try done; try (by apply kept_prop_set).
  right. eexists. by split; [apply HE|].
Qed.
Lemma of_user_sends p pin : of_user p → pp_state p = AUTO_PIN_STATE_RECOVERY → pp_kept p ≠ [] → DecryptAutoVerifyPin (pp_key p) (pp_kept p) = Ok pin → U pin.
Proof.
  intros [Hk _ _ [?|(u & Hu & E)] _ _] _ Hne D; [done|]. destruct (U_text _ Hu) as [H8 Hf]. destruct (kept_pin key u Hkey H8 Hf) as (t & E' & _ & _ & D').
  rewrite E in E'. injection E' as <-. rewrite Hk, D' in D. by injection D as <-.
Qed.
End whose.
(** a PIN is only restored when there is one *)
Definition restores (p : PinPart) : Prop := pp_state p = AUTO_PIN_STATE_READY ∨ pp_state p = AUTO_PIN_STATE_RECOVERY → pp_kept p ≠ [].
Lemma restores_step (entered : list Z → Prop) (A : Prop) p q : pin_step entered A p q → restores p → restores q.
Proof.
  unfold restores. intros Hpq Hr. destruct Hpq; cbn; try (by intros [?|?]); try done; try (by intros _; apply Hr; auto).
  - intros Hst Ht. apply (f_equal lenZ) in Ht. destruct (pp_temp p); [done|]. done.
  - intros _ Ht. by destruct (prop_get (pp_panic p) (pp_props p)).
Qed.
(** the status of a card with one application whose PIN was not verified, and two answers to the verification of a PIN *)
Definition example_status : list Z :=
  [1; 0; 0; 2; 78; 0; 0; 0; 0; 0; 0; 0; 1; 0; 1] ++ [2; 2; 0; 2; 160; 0] ++ fill 14 0 ++ fill 33 0 ++ fill 4 0 ++ [1; 1; 3; 10; 3; 10].
Definition example_pin_answer (error : Z) : list Z := [1; 0; 1; 2; 16; 0; 0; 0; 0; 0; error; 0; 2; 0; 0; 0].
Definition example_env : SimEnv := plain_env true true.
Definition example_kept : list Z := match EncryptAutoVerifyPin PROP_AUTO_VERIFY_PIN_0 (str "1234") with Ok t => t | _ => [] end.
Definition example_props : gmap (list Z) (list Z) := {[PROP_AUTO_VERIFY_PIN_0 := example_kept]}.
Definition example_created : SimService := match OnCreate 0 example_env (newSimService example_props 5) with Ok (_, s, _) => s | _ => newSimService ∅ 0 end.
Definition example_events : list (SimEnv * SimEvent) := [(example_env, EvDone MSG_SIM_GET_STATUS_DONE None (Some example_status))].
Definition example_run (s : SimService) : list (SimEvent * list Act) * SimService := match run example_events s with Ok t => t | _ => ([], s) end.
(** a service that was just created *)
Lemma created socket e props token v s0 o0 : socket = 0 ∨ socket = 1 → OnCreate socket e (newSimService props token) = Ok (v, s0, o0) →
  is_key (m_szAutoPinPropertyKey s0) ∧
  ∀ U, kept_text U (m_szAutoPinPropertyKey s0) (prop_get (m_szAutoPinPropertyKey s0) props) →
    kept_text U (m_szAutoPinPropertyKey s0) (prop_get (m_szAutoPinPropertyKeyByPanic s0) props) →
    of_user U (m_szAutoPinPropertyKey s0) (m_szAutoPinPropertyKeyByPanic s0) (pin_part s0) ∧ restores (pin_part s0).
Proof.
  intros Hso H. set (key := if socket =? 0 then PROP_AUTO_VERIFY_PIN_0 else PROP_AUTO_VERIFY_PIN_1).
  assert (is_key key ∧ m_szAutoPinPropertyKey s0 = key ∧ properties s0 = prop_set key [] props ∧ m_szTempPIN s0 = [] ∧
    m_szAutoPIN s0 = prop_get key props ∧ (m_nAutoPinState s0 = AUTO_PIN_STATE_READY → prop_get key props ≠ []) ∧ m_nAutoPinState s0 ≠ AUTO_PIN_STATE_RECOVERY)
    as (Hk & Ek & Ep & Et & Ea & Hready & Hrec).
  { revert v s0 o0 H. change (ends (OnCreate socket) (λ _ s0 _, is_key key ∧ m_szAutoPinPropertyKey s0 = key ∧ properties s0 = prop_set key [] props ∧ m_szTempPIN s0 = [] ∧
      m_szAutoPIN s0 = prop_get key props ∧ (m_nAutoPinState s0 = AUTO_PIN_STATE_READY → prop_get key props ≠ []) ∧ m_nAutoPinState s0 ≠ AUTO_PIN_STATE_RECOVERY)
      e (newSimService props token)).
    unfold OnCreate, ClearAutoVerifyPin, LoadAutoVerifyPin, EmptyAutoVerifyPin.
    destruct Hso as [-> | ->]; subst key; cbn [Z.eqb Pos.eqb]; repeat sm_step; cbn [m_szAutoPinPropertyKey properties set_auto set_state set_keys newSimService
      m_szTempPIN m_szAutoPIN m_nAutoPinState] in *.
    all: match goal with H : prop_get _ _ = _ |- _ => rewrite H end; split; [first [by left|by right]|done]. }
  split; [by rewrite Ek|]. intros U HU HUp. assert (kept_text U (m_szAutoPinPropertyKey s0) []) as H0 by by left. split.
  - constructor; cbn; rewrite ?Et, ?Ea, ?Ep; try done; rewrite <- Ek; [done|by apply kept_prop_set|by apply kept_prop_set].
  - intros [Hst|Hst]; cbn in *; [rewrite Ea; by apply Hready|done].
Qed.
Lemma decide_pin_request ev : (∃ r, ev = EvRequest MSG_SIM_VERIFY_PIN r) ∨ ¬ ∃ r, ev = EvRequest MSG_SIM_VERIFY_PIN r.
Proof. destruct ev as [ [ ] r|?|? ? ?|?| |?| | |?|?|?|?]; try (by right; intros [? [=] ]). left. by exists r. Qed.

(** C23: The daemon verifies by itself only PINs of the user.  From the creation of the
    service, through any messages: every packet that verifies the PIN is either
    the one of a request of the user, or carries a PIN that the user entered
    before, or that was kept from an earlier run, unchanged by the scrambling, the
    property store and the restart. *)
Theorem auto_pin_of_user (U : list Z → Prop) props token socket e v s0 o0 evs tr s' :
  socket = 0 ∨ socket = 1 → (∀ pin, U pin → lenZ pin <= MAX_SIM_PIN_LEN ∧ Forall (λ c, 0 < c < 256 ∧ c ≠ 32) pin) →
  OnCreate socket e (newSimService props token) = Ok (v, s0, o0) →
  kept_text U (m_szAutoPinPropertyKey s0) (prop_get (m_szAutoPinPropertyKey s0) props) →
  kept_text U (m_szAutoPinPropertyKey s0) (prop_get (m_szAutoPinPropertyKeyByPanic s0) props) →
  (∀ e ev pin, (e, ev) ∈ evs → entered_by ev pin → U pin) →
  run evs s0 = Ok (tr, s') →
  ∀ ev o p, (ev, o) ∈ tr → ActSend p MSG_SIM_VERIFY_PIN_DONE ∈ o →
    (∃ r, ev = EvRequest MSG_SIM_VERIFY_PIN r) ∨
    ∃ pin aid t t', U pin ∧ BuildSimVerifyPin t 1 (Some pin) aid = Ok (Some p, t').
Proof.
  intros Hso HU Hc Hk Hp He Hr ev o p Hin Hs. destruct (created _ _ _ _ _ _ _ Hso Hc) as (Hkey & Hs0).
  revert ev o Hin p Hs. refine (run_invariant (λ p, of_user U (m_szAutoPinPropertyKey s0) (m_szAutoPinPropertyKeyByPanic s0) p ∧ restores p)
    (λ ev, ∀ pin, entered_by ev pin → U pin) (λ ev o, ∀ p, ActSend p MSG_SIM_VERIFY_PIN_DONE ∈ o → (∃ r, ev = EvRequest MSG_SIM_VERIFY_PIN r) ∨ _)
    _ _ _ _ _ _ _ _ Hr).
  - intros ev p q Hev Hpq [Ho Hre]. split; [by eapply of_user_step|by eapply restores_step].
  - intros ev s o Hev [Ho Hre] Hs p Hp'. destruct (decide_pin_request ev) as [ [r ->]|Hn]; [by left; exists r|right].
    assert (sends_kept s o) as Hsk by (by destruct ev as [ [ ] ?|?|? ? ?|?| |?| | |?|?|?|?]; first [exact Hs|exfalso; apply Hn; by eexists]).
    destruct (Hsk _ Hp') as (m & Hst & Em & pin & aid & t & t' & D & B). exists pin, aid, t, t'. split; [|exact B].
    assert (of_user U (m_szAutoPinPropertyKey s0) (m_szAutoPinPropertyKeyByPanic s0) m ∧ restores m) as [Hom Hrm].
    { clear - HU Hkey Ho Hre Hst. induction Hst as [|p q r Hpq _ IH]; [done|]. apply IH; [|by eapply restores_step].
      eapply (of_user_step _ _ _ HU Hkey no_pin); [by intros ? []|exact Hpq|exact Ho]. }
    eapply of_user_sends; [exact HU|exact Hkey|exact Hom|exact Em|by apply Hrm; right|exact D].
  - intros e' ev Hin pin. by apply (He e').
  - by apply Hs0.
Qed.
Lemma auto_pin_of_user_witness :
  let t := example_run example_created in
  (λ x, length x.2) <$> t.1 = [2%nat] ∧
  ∀ ev o p, (ev, o) ∈ t.1 → ActSend p MSG_SIM_VERIFY_PIN_DONE ∈ o →
    (∃ r, ev = EvRequest MSG_SIM_VERIFY_PIN r) ∨
    ∃ pin aid t t', pin = str "1234" ∧ BuildSimVerifyPin t 1 (Some pin) aid = Ok (Some p, t').
Proof.
  intros t. split; [by vm_compute|].
  apply (auto_pin_of_user (λ pin, pin = str "1234") example_props 5 0 example_env 0 example_created [] example_events t.1 t.2).
  - by left.
  - intros pin ->. split; [done|by_eval].
  - by vm_compute.
  - right. exists (str "1234"). split; [done|]. by vm_compute.
  - left. by vm_compute.
  - intros e ev pin Hin. apply list_elem_of_singleton in Hin as [= -> ->]. by intros [].
  - by vm_compute.
Defined.

(** ** A PIN that failed *)

(** nothing to restore, and no boot reason to wait for *)
Definition forgotten (p : PinPart) : Prop :=
  pp_kept p = [] ∧ pp_state p ≠ AUTO_PIN_STATE_READY ∧ pp_state p ≠ AUTO_PIN_STATE_RECOVERY ∧ pp_boot p ≠ BOOT_STATE_UNKNOWN.
Lemma forgotten_step (entered : list Z → Prop) p q : pin_step entered False p q → forgotten p → forgotten q.
Proof. unfold forgotten. intros Hpq (Hk & H1 & H2 & Hb). by destruct Hpq; cbn. Qed.
Lemma failed_forgets frame e s v s1 o c : OnVerifyPinDone frame e s = Ok (v, s1, o) → Rcm.GetErrorCode frame = Ok c → c ≠ RIL_E_SUCCESS →
  m_nBootState s ≠ BOOT_STATE_UNKNOWN → forgotten (pin_part s1).
Proof.
  intros H Hc Hne Hb. revert v s1 o H. change (ends (OnVerifyPinDone frame) (λ _ s1 _, forgotten (pin_part s1)) e s).
  unfold OnVerifyPinDone, SetAutoVerifyPinDone, ClearAutoVerifyPin, DoGetSimStatus.
  repeat send_step; try (unfold forgotten; by cbn).
  all: match goal with Hr : Rcm.GetErrorCode ?f = Ok ?a, E : (?a =? _) = true |- _ => apply Z.eqb_eq in E; exfalso; apply Hne; congruence end.
Qed.
(** C22: A PIN that the card refused is not tried again.  After an answer that the PIN
    is wrong, once the reason of the boot is known, the daemon verifies no PIN by
    itself, whatever messages follow, until the card has accepted a PIN again:
    the only packets that verify a PIN are those of requests of the user. *)
Theorem failed_pin_not_retried frame c e s v s1 o1 evs tr s' :
  OnVerifyPinDone frame e s = Ok (v, s1, o1) → Rcm.GetErrorCode frame = Ok c → c ≠ RIL_E_SUCCESS → m_nBootState s ≠ BOOT_STATE_UNKNOWN →
  (∀ e ev, (e, ev) ∈ evs → ¬ accepted_by ev) → run evs s1 = Ok (tr, s') →
  ∀ ev o p, (ev, o) ∈ tr → ActSend p MSG_SIM_VERIFY_PIN_DONE ∈ o → ∃ r, ev = EvRequest MSG_SIM_VERIFY_PIN r.
Proof.
  intros H Hc Hne Hb Ha Hr ev o p Hin Hs. revert ev o Hin p Hs.
  refine (run_invariant forgotten (λ ev, ¬ accepted_by ev) (λ ev o, ∀ p, ActSend p MSG_SIM_VERIFY_PIN_DONE ∈ o → ∃ r, ev = EvRequest MSG_SIM_VERIFY_PIN r)
    _ _ _ _ _ _ Ha _ Hr).
  - intros ev p q Hev Hpq. apply (forgotten_step (entered_by ev)). clear -Hev Hpq. destruct Hpq; try done; by econstructor.
  - intros ev s2 o Hev Hf Hs p Hp. destruct (decide_pin_request ev) as [Hreq|Hn]; [done|exfalso].
    assert (sends_kept s2 o) as Hsk by (by destruct ev as [ [ ] ?|?|? ? ?|?| |?| | |?|?|?|?]; first [exact Hs|exfalso; apply Hn; by eexists]).
    destruct (Hsk _ Hp) as (m & Hst & Em & _). assert (forgotten m) as (_ & _ & Hr' & _); [|done].
    clear - Hf Hst. induction Hst as [|p q r Hpq _ IH]; [done|]. apply IH. by eapply forgotten_step.
  - by eapply failed_forgets.
Qed.
Lemma failed_pin_not_retried_witness :
  let s := set_auto AUTO_PIN_STATE_RECOVERY [] example_kept BOOT_STATE_NORMAL ∅ example_created in
  let s1 := match OnVerifyPinDone (Some (example_pin_answer 3)) example_env s with Ok (_, s1, _) => s1 | _ => s end in
  let t := example_run s1 in
  (λ x, length x.2) <$> t.1 = [2%nat] ∧
  ∀ ev o p, (ev, o) ∈ t.1 → ActSend p MSG_SIM_VERIFY_PIN_DONE ∈ o → ∃ r, ev = EvRequest MSG_SIM_VERIFY_PIN r.
Proof.
  intros s s1 t. split; [by vm_compute|].
  apply (failed_pin_not_retried (Some (example_pin_answer 3)) 3 example_env s 0 s1 [] example_events t.1 t.2); try by vm_compute.
  intros e ev Hin. apply list_elem_of_singleton in Hin as [= -> ->]. by intros [].
Defined.
(** that the boot reason is known matters: otherwise the PIN kept for a panic is tried although it failed before *)
Lemma panic_pin_retried :
  let s := set_auto AUTO_PIN_STATE_EMPTY [] [] BOOT_STATE_UNKNOWN {[PROP_AUTO_PIN_0_BY_PANIC := example_kept; SYS_BOOT_REASON := str "kernel_panic"]} example_created in
  let ev := EvDone MSG_SIM_GET_STATUS_DONE None (Some example_status) in
  match handle ev example_env s with
  | Ok (_, s1, _) => match handle ev example_env s1 with Ok (_, _, [ActSend _ MSG_SIM_VERIFY_PIN_DONE]) => True | _ => False end
  | _ => False
  end.
Proof. by vm_compute. Qed.
