(* ===== verification/SimStatusTheorems.v ===== *)
(** The status of the card: what a well-formed answer of the modem tells comes over
    to the framework, application by application. *)
From stdpp Require Import gmap.
From S2P Require Import Prelude RilDef Text WaitList Network Rcm Handler Layout RilData SimPackets SimPin SimPinTheorems SimIo SimTheorems.

(** ** The frame *)

Record AppInfo := {
  ai_type : Z; ai_state : Z; ai_perso : Z; ai_aid : list Z; ai_label : list Z; ai_replaced : Z; ai_pin1 : Z; ai_pin2 : Z;
  ai_counts : Z * Z; ai_puk_counts : Z * Z }.
Definition app_bytes (a : AppInfo) : list Z :=
  [ai_type a; ai_state a; ai_perso a; lenZ (ai_aid a)] ++ padded MAX_SIM_AID_LEN (ai_aid a) ++ ai_label a ++ le32 (ai_replaced a) ++
  [ai_pin1 a; ai_pin2 a; (ai_counts a).1; (ai_puk_counts a).1; (ai_counts a).2; (ai_puk_counts a).2].
Definition app_wf (a : AppInfo) : Prop := bytes_ok (ai_aid a) ∧ lenZ (ai_aid a) <= MAX_SIM_AID_LEN ∧ lenZ (ai_label a) = 33 ∧ 0 <= ai_replaced a < 2 ^ 31.
Definition status_frame (hdr : list Z) (card pin : Z) (l : list AppInfo) : list Z := hdr ++ [card; pin; lenZ l] ++ concat (app_bytes <$> l).
Lemma lenZ_app_bytes a : app_wf a → lenZ (app_bytes a) = sizeof_apps_status_info.
Proof. intros (_ & Ha & Hl & _). unfold app_bytes. rewrite !lenZ_app, lenZ_padded, Hl by done. done. Qed.
Lemma lenZ_apps l : Forall app_wf l → lenZ (concat (app_bytes <$> l)) = sizeof_apps_status_info * lenZ l.
Proof.
  unfold sizeof_apps_status_info. induction 1 as [|a l Ha _ IH]; [done|]. rewrite fmap_cons. cbn [concat]. rewrite lenZ_app, IH, lenZ_app_bytes, lenZ_cons by done.
  unfold sizeof_apps_status_info. lia.
Qed.
(** what the adapter keeps of it *)
Definition status_kept (hdr : list Z) (card pin : Z) (l : list AppInfo) : SimStatusAdapter :=
  {| m_tSimStatusRsp := status_frame hdr card pin l ++ fill (sizeof_get_sim_status_rsp - (15 + 63 * lenZ l)) 0;
     m_tSimStatusRspExt := fill sizeof_get_sim_status_rsp_ext 0 |}.
Section frame.
Context (hdr : list Z) (card pin : Z) (l : list AppInfo).
Hypothesis Hh : lenZ hdr = sizeof_RCM_HEADER.
Hypothesis Hw : Forall app_wf l.
Hypothesis Hn : lenZ l <= MAX_SIM_APPS_INFO_COUNT.
Lemma status_frame_len : lenZ (status_frame hdr card pin l) = 15 + 63 * lenZ l.
Proof. unfold status_frame. rewrite !lenZ_app, lenZ_apps, Hh by done. unfold sizeof_RCM_HEADER, sizeof_apps_status_info. change (lenZ [card; pin; lenZ l]) with 3. lia. Qed.
Lemma status_adapter : rd16 hdr off_id = Ok SIT_GET_SIM_STATUS → ProtocolSimStatusAdapter (Some (status_frame hdr card pin l)) = Ok (status_kept hdr card pin l).
Proof.
  intros Hid. pose proof status_frame_len as E. pose proof (lenZ_nonneg l). change MAX_SIM_APPS_INFO_COUNT with 100 in Hn. unfold ProtocolSimStatusAdapter.
  assert (rd16 (status_frame hdr card pin l) off_id = Ok SIT_GET_SIM_STATUS) as ->.
  { unfold status_frame, rd16 in *. rewrite !rd_app_l by (rewrite Hh; done). exact Hid. }
  cbn [mbind res_bind]. rewrite Z.eqb_refl.
  assert ((status_frame hdr card pin l).[14] = Ok (lenZ l)) as ->.
  { unfold status_frame. change (hdr ++ [card; pin; lenZ l] ++ ?r) with (hdr ++ [card; pin] ++ lenZ l :: r). rewrite app_assoc. apply rd_at. rewrite lenZ_app, Hh. done. }
  cbn [mbind res_bind]. cbv zeta. unfold sizeof_apps_status_info. rewrite (rdn_ok (status_frame hdr card pin l) 0 (15 + 63 * lenZ l)) by lia. cbn [mbind res_bind]. cbn [Z.to_nat drop m_tSimStatusRsp m_tSimStatusRspExt].
  rewrite (take_ge (status_frame hdr card pin l)) by (unfold lenZ in *; lia).
  assert (wrn (fill sizeof_get_sim_status_rsp 0) 0 (status_frame hdr card pin l) = Ok (m_tSimStatusRsp (status_kept hdr card pin l))) as ->.
  { change (fill sizeof_get_sim_status_rsp 0) with (@nil Z ++ fill sizeof_get_sim_status_rsp 0).
    rewrite (wrn_at [] _ _ 0) by (done || (rewrite lenZ_fill by done; rewrite E; unfold sizeof_get_sim_status_rsp, MAX_SIM_APPS_INFO_COUNT; lia)).
    cbn [app]. unfold status_kept, fill. cbn [m_tSimStatusRsp]. rewrite drop_replicate. do 4 f_equal. unfold lenZ in E |- *. lia. }
  cbn [mbind res_bind]. unfold GetParameterLength. rewrite E. unfold sizeof_RCM_HEADER. replace (12 <? 15 + 63 * lenZ l) with true by lia.
  replace (15 + 63 * lenZ l - 12 <? 15 + 63 * lenZ l - 12) with false by lia. done.
Qed.
End frame.

(** ** One application *)

Section app.
Context (hdr : list Z) (card pin : Z) (l1 : list AppInfo) (a : AppInfo) (l2 : list AppInfo).
Hypothesis Hh : lenZ hdr = sizeof_RCM_HEADER.
Hypothesis Hw : Forall app_wf (l1 ++ a :: l2).
Hypothesis Hn : lenZ (l1 ++ a :: l2) <= MAX_SIM_APPS_INFO_COUNT.
Local Abbreviation ad := (status_kept hdr card pin (l1 ++ a :: l2)).
Lemma app_wf_here : app_wf a.
Proof. apply Forall_app in Hw as [_ H]. by apply Forall_cons in H as [? _]. Qed.
(** the application inside what is kept *)
Lemma kept_split : ∃ pre post, m_tSimStatusRsp ad = pre ++ app_bytes a ++ post ∧ lenZ pre = 15 + 63 * lenZ l1.
Proof.
  exists (hdr ++ [card; pin; lenZ (l1 ++ a :: l2)] ++ concat (app_bytes <$> l1)). eexists. split.
  - unfold status_kept, status_frame. cbn [m_tSimStatusRsp]. rewrite fmap_app, concat_app, fmap_cons. cbn [concat]. rewrite <- !app_assoc. reflexivity.
  - apply Forall_app in Hw as [Hw1 _]. generalize (lenZ (l1 ++ a :: l2)). intros m. rewrite !lenZ_app, lenZ_apps, Hh by done.
    unfold sizeof_RCM_HEADER, sizeof_apps_status_info. change (lenZ [card; pin; m]) with 3. lia.
Qed.
Lemma app_byte_at off v : (app_bytes a).[off] = Ok v → app_byte ad (lenZ l1) off = Ok v.
Proof.
  intros Hv. destruct (rd_inv _ _ _ Hv) as [Hr _]. destruct kept_split as (pre & post & E & El). unfold app_byte. rewrite E. by rewrite (rd_local pre _ post _ off El).
Qed.
Lemma app_fields : app_bytes a = concat [ [ai_type a]; [ai_state a]; [ai_perso a]; [lenZ (ai_aid a)]; padded MAX_SIM_AID_LEN (ai_aid a); ai_label a; le32 (ai_replaced a);
  [ai_pin1 a]; [ai_pin2 a]; [ (ai_counts a).1]; [ (ai_puk_counts a).1]; [ (ai_counts a).2]; [ (ai_puk_counts a).2] ].
Proof. unfold app_bytes. cbn [concat]. by rewrite app_nil_r. Qed.
Lemma field_at k v off : [ [ai_type a]; [ai_state a]; [ai_perso a]; [lenZ (ai_aid a)]; padded MAX_SIM_AID_LEN (ai_aid a); ai_label a; le32 (ai_replaced a);
  [ai_pin1 a]; [ai_pin2 a]; [ (ai_counts a).1]; [ (ai_puk_counts a).1]; [ (ai_counts a).2]; [ (ai_puk_counts a).2] ] !! k = Some [v] →
  (k < 4)%nat ∧ off = Z.of_nat k ∨ (6 < k)%nat ∧ off = Z.of_nat k + 50 → app_byte ad (lenZ l1) off = Ok v.
Proof.
  intros Hk Ho. apply app_byte_at. rewrite app_fields. apply (rd_chunk _ k v off Hk).
  destruct app_wf_here as (_ & Ha & Hl & _). pose proof (lookup_lt_Some _ _ _ Hk) as Hlt. cbn in Hlt.
  do 13 (destruct k as [|k]; [cbn [take size_of foldr]; rewrite ?lenZ_padded, ?Hl by done; unfold MAX_SIM_AID_LEN;
    change (lenZ (le32 (ai_replaced a))) with 4; repeat match goal with |- context [lenZ [?x] ] => change (lenZ [x]) with 1 end; lia|]). lia.
Qed.
Lemma count_here {A} (out : A) f : in_range ad (lenZ l1) out f = f.
Proof.
  unfold in_range, GetApplicationCount. assert ((m_tSimStatusRsp ad).[14] = Ok (lenZ (l1 ++ a :: l2))) as ->.
  { unfold status_kept, status_frame. cbn [m_tSimStatusRsp]. rewrite <- app_assoc.
    change (hdr ++ ([card; pin; ?n] ++ ?r) ++ ?z) with (hdr ++ [card; pin] ++ n :: (r ++ z)). rewrite app_assoc. apply rd_at. rewrite lenZ_app, Hh. done. }
  cbn [mbind res_bind]. rewrite lenZ_app, lenZ_cons. pose proof (lenZ_nonneg l1). pose proof (lenZ_nonneg l2). by replace (_ && _) with true by lia.
Qed.
Lemma replaced_here : GetPin1Replaced ad (lenZ l1) = Ok (ai_replaced a).
Proof.
  destruct app_wf_here as (_ & Ha & Hl & Hr). destruct kept_split as (pre & post & E & El). unfold GetPin1Replaced. rewrite E, (rd32_local pre _ post _ 53 El);
    [|done|rewrite lenZ_app_bytes by apply app_wf_here; done].
  rewrite app_fields, (rd32_chunk _ 6 (ai_replaced a)); [|done| |lia].
  - cbn [mbind res_bind]. rewrite i32_id by lia. done.
  - cbn [take size_of foldr]. rewrite lenZ_padded, Hl by done. done.
Qed.
Lemma aid_here : GetAID ad (lenZ l1) = Ok (if decide (ai_aid a = []) then None else Some (hex_of (ai_aid a))).
Proof.
  destruct app_wf_here as (Hb & Ha & _ & _). unfold GetAID. rewrite count_here, (field_at 3 (lenZ (ai_aid a)) 3) by (done || (left; split; [lia|done])).
  cbn [mbind res_bind]. destruct kept_split as (pre & post & E & El). rewrite E. change MAX_SIM_AID_LEN with 16 in Ha. pose proof (lenZ_nonneg (ai_aid a)).
  destruct (decide (ai_aid a = [])) as [->|Hne]; [done|]. assert (0 < lenZ (ai_aid a)) as Hpos by (destruct (ai_aid a); [done|rewrite lenZ_cons; pose proof (lenZ_nonneg l); lia]).
  assert (drop (Z.to_nat (15 + 63 * lenZ l1 + 4)) (pre ++ app_bytes a ++ post) = ai_aid a ++ fill (16 - lenZ (ai_aid a)) 0 ++ drop 20 (app_bytes a) ++ post) as ->.
  { rewrite <- El. rewrite drop_app_ge by (unfold lenZ; lia). replace (Z.to_nat (lenZ pre + 4) - length pre)%nat with 4%nat by (unfold lenZ; lia).
    unfold app_bytes at 1 2. change (drop 4 (([ai_type a; ai_state a; ai_perso a; lenZ (ai_aid a)] ++ ?r) ++ post)) with (r ++ post).
    change (drop 20 ([ai_type a; ai_state a; ai_perso a; lenZ (ai_aid a)] ++ ?r)) with (drop 16 r). rewrite <- app_assoc. unfold padded at 1. rewrite <- app_assoc.
    do 3 f_equal. rewrite drop_app_ge by (pose proof (lenZ_padded 16 (ai_aid a) Ha); unfold lenZ in *; unfold MAX_SIM_AID_LEN; lia).
    replace (16 - length (padded MAX_SIM_AID_LEN (ai_aid a)))%nat with 0%nat by (pose proof (lenZ_padded 16 (ai_aid a) Ha); unfold lenZ in *; unfold MAX_SIM_AID_LEN; lia). done. }
  rewrite Value2HexString_zeros; [|rewrite lenZ_app; pose proof (lenZ_nonneg (fill (16 - lenZ (ai_aid a)) 0 ++ drop 20 (app_bytes a) ++ post)); lia|lia].
  cbn [mbind res_bind fst snd fmap option_fmap option_map]. replace (2 * lenZ (ai_aid a) =? -1) with false by lia.
  rewrite take_app_le by (unfold lenZ; lia). rewrite take_ge by (unfold lenZ; lia). replace (lenZ (ai_aid a) * 2 + 1 - 2 * lenZ (ai_aid a)) with 1 by lia.
  change (fill 1 0) with [0]. by rewrite cstr_app by by apply nonul_hex_of.
Qed.
End app.

(** ** What is told *)

Definition known (a : AppInfo) : bool := negb (ai_type a =? RIL_APPTYPE_UNKNOWN).
Definition told_app (present : bool) (a : AppInfo) : AppStatus :=
  {| app_type := ai_type a; app_state := if present then ai_state a else RIL_APPSTATE_UNKNOWN; perso_substate := ai_perso a;
     aid_ptr := if decide (ai_aid a = []) then None else Some (hex_of (ai_aid a)); pin1_replaced := ai_replaced a; pin1 := ai_pin1 a; pin2 := ai_pin2 a |}.
(** the effect of one application on the service *)
Definition put_aids (aids : list Z) (index : Z) (a : AppInfo) : list Z :=
  if decide (ai_aid a = []) then aids
  else take (Z.to_nat (36 * index)) aids ++ padded 36 (hex_of (ai_aid a)) ++ drop (Z.to_nat (36 * index + 36)) aids.
Definition put_card (present : bool) (a : AppInfo) (c : CardStatus) : CardStatus :=
  let index := num_applications c in
  let t := ai_type a in
  {| card_state := card_state c; universal_pin_state := universal_pin_state c;
     gsm_umts_subscription_app_index := if (t =? RIL_APPTYPE_SIM) || (t =? RIL_APPTYPE_USIM) then index else gsm_umts_subscription_app_index c;
     cdma_subscription_app_index := if (t =? RIL_APPTYPE_RUIM) || (t =? RIL_APPTYPE_CSIM) then index else cdma_subscription_app_index c;
     ims_subscription_app_index := if t =? RIL_APPTYPE_ISIM then index else ims_subscription_app_index c;
     applications := applications c ++ [told_app present a]; physicalSlotId := physicalSlotId c; cs_atr := cs_atr c; cs_iccid := cs_iccid c; cs_eid := cs_eid c |}.
Definition put_app (a : AppInfo) (s : SimService) : SimService :=
  if known a
  then
    let c := mRilCardStatus s in
    let s := set_counts (ai_counts a) (ai_puk_counts a)
               (set_card (put_card (bool_decide (m_nSimCardState s = SIM_CARDSTATE_PRESENT)) a c) (put_aids (m_aszAID s) (num_applications c) a) s) in
    if (ai_pin1 a =? RIL_PINSTATE_ENABLED_NOT_VERIFIED) && bool_decide (m_nAutoPinState s = AUTO_PIN_STATE_READY) then set_state AUTO_PIN_STATE_RECOVERY s else s
  else s.
Lemma lenZ_put_aids aids index a : app_wf a → 0 <= index < 8 → lenZ aids = 288 → lenZ (put_aids aids index a) = 288.
Proof.
  intros (_ & Ha & _) Hi Hl. unfold put_aids. destruct (decide _); [done|]. rewrite !lenZ_app, lenZ_padded by (rewrite lenZ_hex_of; unfold MAX_SIM_AID_LEN in Ha; lia).
  rewrite take_lenZ by lia. unfold lenZ in *. rewrite length_drop. lia.
Qed.
Lemma put_entry_told aids index a : app_wf a → ai_aid a ≠ [] → 0 <= index < 8 → lenZ aids = 288 →
  put_entry aids index (hex_of (ai_aid a)) = Ok (put_aids aids index a) ∧ entry (put_aids aids index a) index = hex_of (ai_aid a).
Proof.
  intros (Hb & Ha & _) Hne Hi Hl. unfold MAX_SIM_AID_LEN in Ha. pose proof (lenZ_hex_of (ai_aid a)) as Eh. pose proof (lenZ_nonneg (ai_aid a)). split.
  - unfold put_entry. rewrite wrn_ok by (rewrite ?lenZ_fill by done; lia). cbn [mbind res_bind].
    replace (36 <? lenZ (hex_of (ai_aid a))) with false by lia. assert (length (fill 36 (0 : Z)) = 36%nat) as -> by done.
    assert (lenZ (take (Z.to_nat (36 * index)) aids) = 36 * index) as Et by (apply take_lenZ; lia).
    rewrite (wrn_at (take (Z.to_nat (36 * index)) aids)); [|done|rewrite lenZ_app, lenZ_fill by done; pose proof (lenZ_nonneg (drop (Z.to_nat (36 * index) + 36) aids)); lia].
    unfold put_aids. rewrite decide_False by done. do 2 f_equal. unfold padded. rewrite <- app_assoc. f_equal.
    rewrite drop_app_le by (unfold fill; rewrite length_replicate; unfold lenZ in *; lia). f_equal.
    + unfold fill. rewrite drop_replicate. f_equal. unfold lenZ in *. lia.
    + f_equal. lia.
  - unfold entry, put_aids. rewrite decide_False by done. assert (lenZ (take (Z.to_nat (36 * index)) aids) = 36 * index) as Et by (apply take_lenZ; lia).
    rewrite drop_app_ge by (unfold lenZ in Et; lia). replace (Z.to_nat (36 * index) - length (take (Z.to_nat (36 * index)) aids))%nat with 0%nat by (unfold lenZ in Et; lia).
    rewrite drop_0. unfold padded. rewrite <- app_assoc. unfold fill. destruct (Z.to_nat (36 - lenZ (hex_of (ai_aid a)))) as [|m] eqn:Em; [lia|].
    cbn [replicate]. cbn [app]. by apply cstr_app, nonul_hex_of.
Qed.
Lemma put_app_aids a s : app_wf a → num_applications (mRilCardStatus s) < 8 → lenZ (m_aszAID s) = 288 → lenZ (m_aszAID (put_app a s)) = 288.
Proof.
  intros Ha Hi Hl. unfold put_app. destruct (known a); [|done].
  assert (lenZ (put_aids (m_aszAID s) (num_applications (mRilCardStatus s)) a) = 288) by (apply lenZ_put_aids; [done|split; [apply lenZ_nonneg|done]|done]).
  by destruct (_ && _).
Qed.
Lemma add_application_told hdr card pin l1 a l2 e s : lenZ hdr = sizeof_RCM_HEADER → Forall app_wf (l1 ++ a :: l2) →
  lenZ (l1 ++ a :: l2) <= MAX_SIM_APPS_INFO_COUNT → num_applications (mRilCardStatus s) < 8 → lenZ (m_aszAID s) = 288 →
  add_application (status_kept hdr card pin (l1 ++ a :: l2)) (lenZ l1) e s = Ok ((), put_app a s, []).
Proof.
  intros Hh Hw Hn Hi Hl. pose proof (app_wf_here _ _ _ Hw) as Ha. pose proof (field_at hdr card pin l1 a l2 Hh Hw) as F.
  assert (0 <= num_applications (mRilCardStatus s) < 8) as Hi' by (split; [apply lenZ_nonneg|done]). unfold add_application.
  assert (GetAppsType (status_kept hdr card pin (l1 ++ a :: l2)) (lenZ l1) = Ok (ai_type a)) as Et by (apply (F 0%nat); [done|left; split; [lia|done] ]).
  rewrite (run_lift _ _ _ _ _ Et). unfold put_app, known. destruct (ai_type a =? RIL_APPTYPE_UNKNOWN) eqn:Eu; cbn [negb].
  - by rewrite (run_lift _ _ _ _ _ (aid_here hdr card pin l1 a l2 Hh Hw)).
  - assert (GetPersonalSubstate (status_kept hdr card pin (l1 ++ a :: l2)) (lenZ l1) = Ok (ai_perso a)) as Ep by (apply (F 2%nat); [done|left; split; [lia|done] ]).
    rewrite (run_lift _ _ _ _ _ Ep), run_gets. replace (RIL_CARD_MAX_APPS <=? num_applications (mRilCardStatus s)) with false by (unfold RIL_CARD_MAX_APPS; lia).
    rewrite run_gets.
    set (st := if bool_decide (m_nSimCardState s = SIM_CARDSTATE_PRESENT) then ai_state a else RIL_APPSTATE_UNKNOWN).
    rewrite (run_silent _ _ st s).
    2: { unfold st. destruct (decide (m_nSimCardState s = SIM_CARDSTATE_PRESENT)) as [Hp|Hp];
           [rewrite bool_decide_eq_true_2 by done|rewrite bool_decide_eq_false_2 by done]; [|done].
         unfold lift. assert (GetAppsState (status_kept hdr card pin (l1 ++ a :: l2)) (lenZ l1) = Ok (ai_state a)) as -> by
           (apply (F 1%nat); [done|left; split; [lia|done] ]). done. }
    rewrite (run_lift _ _ _ _ _ (aid_here hdr card pin l1 a l2 Hh Hw)), run_gets.
    rewrite (run_silent _ _ (put_aids (m_aszAID s) (num_applications (mRilCardStatus s)) a) s).
    2: { destruct (decide (ai_aid a = [])) as [E0|E0]; [unfold put_aids; by rewrite decide_True by done|]. unfold lift.
         by rewrite (proj1 (put_entry_told _ _ a Ha E0 Hi' Hl)). }
    rewrite (run_lift _ _ _ _ _ (replaced_here hdr card pin l1 a l2 Hh Hw)).
    assert (∀ k v off, [ [ai_type a]; [ai_state a]; [ai_perso a]; [lenZ (ai_aid a)]; padded MAX_SIM_AID_LEN (ai_aid a); ai_label a; le32 (ai_replaced a);
      [ai_pin1 a]; [ai_pin2 a]; [ (ai_counts a).1]; [ (ai_puk_counts a).1]; [ (ai_counts a).2]; [ (ai_puk_counts a).2] ] !! k = Some [v] →
      (6 < k)%nat → off = Z.of_nat k + 50 → app_byte (status_kept hdr card pin (l1 ++ a :: l2)) (lenZ l1) off = Ok v) as F' by (intros; eapply F; eauto).
    do 6 (match goal with |- (lift ?r ≫= _) _ _ = _ => erewrite (run_lift r); [|unfold GetPinState, GetPinRemainCount, GetPukRemainCount;
      rewrite (count_here hdr card pin l1 a l2 Hh); cbn [Z.eqb Pos.eqb];
      first [eapply (F' 7%nat); [reflexivity|lia|reflexivity] | eapply (F' 8%nat); [reflexivity|lia|reflexivity] | eapply (F' 9%nat); [reflexivity|lia|reflexivity]
        | eapply (F' 10%nat); [reflexivity|lia|reflexivity] | eapply (F' 11%nat); [reflexivity|lia|reflexivity] | eapply (F' 12%nat); [reflexivity|lia|reflexivity] ] ] end).
    rewrite !run_modify, run_gets.
    assert ((λ _ : list Z, entry (put_aids (m_aszAID s) (num_applications (mRilCardStatus s)) a) (num_applications (mRilCardStatus s))) <$>
            (if decide (ai_aid a = []) then None else Some (hex_of (ai_aid a))) = if decide (ai_aid a = []) then None else Some (hex_of (ai_aid a))) as Ep2.
    { destruct (decide (ai_aid a = [])) as [E0|E0]; [done|]. cbn [fmap option_fmap option_map]. f_equal. by apply (put_entry_told _ _ a Ha E0 Hi' Hl). }
    rewrite Ep2. destruct (ai_counts a), (ai_puk_counts a). by destruct (_ && _).
Qed.
Lemma put_app_count a s : num_applications (mRilCardStatus (put_app a s)) = num_applications (mRilCardStatus s) + (if known a then 1 else 0).
Proof.
  unfold put_app. destruct (known a); [|lia]. unfold num_applications.
  assert (lenZ (applications (mRilCardStatus s) ++ [told_app (bool_decide (m_nSimCardState s = SIM_CARDSTATE_PRESENT)) a]) = lenZ (applications (mRilCardStatus s)) + 1)
    as <- by by rewrite lenZ_app. by destruct (_ && _).
Qed.
Lemma add_applications_told hdr card pin l e l1 l2 s : lenZ hdr = sizeof_RCM_HEADER → l = l1 ++ l2 → Forall app_wf l → lenZ l <= MAX_SIM_APPS_INFO_COUNT →
  num_applications (mRilCardStatus s) + lenZ (filter known l2) <= 8 → lenZ (m_aszAID s) = 288 →
  add_applications (status_kept hdr card pin l) (length l2) (lenZ l1) e s = Ok ((), foldl (λ s a, put_app a s) s l2, []).
Proof.
  intros Hh -> Hw Hn. revert l1 s Hw Hn. induction l2 as [|a l2 IH]; intros l1 s Hw Hn Hc Hl; [done|]. cbn [length add_applications foldl].
  rewrite filter_cons in Hc. pose proof (lenZ_nonneg (filter known l2)). pose proof (app_wf_here _ _ _ Hw) as Ha.
  destruct (decide (known a)) as [Hk|Hk].
  - rewrite lenZ_cons in Hc.
    rewrite (run_silent _ _ () (put_app a s)) by (by apply add_application_told; first [done|lia]).
    replace (lenZ l1 + 1) with (lenZ (l1 ++ [a])) by by rewrite lenZ_app. rewrite (app_assoc l1 [a] l2 : l1 ++ a :: l2 = _) in Hw, Hn |- *.
    apply IH; [done|done| |]. + rewrite put_app_count. destruct (known a); [lia|done]. + apply put_app_aids; [done|lia|done].
  - assert (put_app a s = s) as E by (unfold put_app; by destruct (known a)). rewrite E.
    rewrite (run_silent _ _ () s).
    + replace (lenZ l1 + 1) with (lenZ (l1 ++ [a])) by by rewrite lenZ_app. rewrite (app_assoc l1 [a] l2 : l1 ++ a :: l2 = _) in Hw, Hn |- *. by apply IH.
    + unfold add_application.
      assert (GetAppsType (status_kept hdr card pin (l1 ++ a :: l2)) (lenZ l1) = Ok (ai_type a)) as Et by
        (apply (field_at hdr card pin l1 a l2 Hh Hw 0%nat); [done|left; split; [lia|done] ]).
      rewrite (run_lift _ _ _ _ _ Et). unfold known in Hk. destruct (ai_type a =? RIL_APPTYPE_UNKNOWN); [|done].
      by rewrite (run_lift _ _ _ _ _ (aid_here hdr card pin l1 a l2 Hh Hw)).
Qed.

(** ** The card *)

(** the place of the last application of a kind *)
Definition last_step (p : AppInfo → bool) (acc : Z * Z) (x : AppInfo) : Z * Z := (if p x then acc.2 else acc.1, acc.2 + 1).
Definition last_index (p : AppInfo → bool) (l : list AppInfo) : Z := (foldl (last_step p) (-1, 0) l).1.
Definition gsm_app (a : AppInfo) : bool := (ai_type a =? RIL_APPTYPE_SIM) || (ai_type a =? RIL_APPTYPE_USIM).
Definition cdma_app (a : AppInfo) : bool := (ai_type a =? RIL_APPTYPE_RUIM) || (ai_type a =? RIL_APPTYPE_CSIM).
Definition ims_app (a : AppInfo) : bool := ai_type a =? RIL_APPTYPE_ISIM.
Definition told_card (pin : Z) (l : list AppInfo) : CardStatus :=
  let l := filter known l in
  {| card_state := RIL_CARDSTATE_PRESENT; universal_pin_state := pin; gsm_umts_subscription_app_index := last_index gsm_app l;
     cdma_subscription_app_index := last_index cdma_app l; ims_subscription_app_index := last_index ims_app l;
     applications := told_app true <$> l; physicalSlotId := 0; cs_atr := []; cs_iccid := []; cs_eid := [] |}.
Lemma last_index_fold p l : foldl (last_step p) (-1, 0) l = (last_index p l, lenZ l).
Proof.
  induction l as [|x l IH] using rev_ind; [done|]. unfold last_index. rewrite !foldl_app. cbn [foldl]. rewrite IH. unfold last_step. cbn [fst snd]. by rewrite lenZ_app.
Qed.
Lemma last_index_snoc p l x : last_index p (l ++ [x]) = if p x then lenZ l else last_index p l.
Proof. unfold last_index at 1. rewrite foldl_app. cbn [foldl]. by rewrite last_index_fold; unfold last_step; destruct (p x). Qed.
(** it names an application of the kind, and none of the kind comes later; without one it is -1 *)
Lemma last_index_spec p l :
  (last_index p l = -1 ∧ Forall (λ a, p a = false) l) ∨
  (∃ a, 0 <= last_index p l ∧ l !! Z.to_nat (last_index p l) = Some a ∧ p a = true ∧ Forall (λ a, p a = false) (drop (S (Z.to_nat (last_index p l))) l)).
Proof.
  induction l as [|x l IH] using rev_ind; [by left|]. rewrite last_index_snoc. destruct (p x) eqn:Ex.
  - right. exists x. pose proof (lenZ_nonneg l). split; [done|]. replace (Z.to_nat (lenZ l)) with (length l) by (unfold lenZ; lia).
    rewrite lookup_app_r by lia. rewrite Nat.sub_diag. split; [done|]. split; [done|]. rewrite drop_ge by (rewrite length_app; cbn; lia). apply Forall_nil_2.
  - destruct IH as [ [-> H]|(a & H0 & Ha & Hp & H)].
    + left. split; [done|]. apply Forall_app. split; [done|by apply Forall_singleton].
    + right. exists a. split; [done|]. pose proof (lookup_lt_Some _ _ _ Ha). rewrite lookup_app_l by done. split; [done|]. split; [done|].
      rewrite drop_app_le by lia. apply Forall_app. split; [done|by apply Forall_singleton].
Qed.
Lemma filter_known_snoc l a : filter known (l ++ [a]) = if known a then filter known l ++ [a] else filter known l.
Proof. rewrite filter_app, filter_cons, filter_nil. case_decide as H; destruct (known a); try done. apply app_nil_r. Qed.
(** the service after the applications *)
Definition put_apps (l : list AppInfo) (s : SimService) : SimService := foldl (λ s a, put_app a s) s l.
Definition asks_pin (a : AppInfo) : bool := known a && (ai_pin1 a =? RIL_PINSTATE_ENABLED_NOT_VERIFIED).
Lemma put_apps_told pin l s : m_nSimCardState s = SIM_CARDSTATE_PRESENT → mRilCardStatus s = card_of RIL_CARDSTATE_PRESENT pin 0 →
  let s' := put_apps l s in
  mRilCardStatus s' = told_card pin l ∧ m_nSimCardState s' = m_nSimCardState s ∧ m_nImsAppType s' = m_nImsAppType s ∧
  (m_nPinRemain s', m_nPukRemain s') = foldl (λ _ a, (ai_counts a, ai_puk_counts a)) (m_nPinRemain s, m_nPukRemain s) (filter known l) ∧
  m_nAutoPinState s' = (if existsb asks_pin l && bool_decide (m_nAutoPinState s = AUTO_PIN_STATE_READY) then AUTO_PIN_STATE_RECOVERY else m_nAutoPinState s).
Proof.
  intros Hp Hc. cbv zeta. unfold put_apps. induction l as [|a l IH] using rev_ind; [by cbn [foldl existsb andb]; rewrite Hc|]. rewrite foldl_app. cbn [foldl].
  destruct IH as (I1 & I2 & I3 & I4 & I5). generalize dependent (foldl (λ s a, put_app a s) s l). intros s1 I1 I2 I3 I4 I5.
  rewrite existsb_app. cbn [existsb]. rewrite orb_false_r. unfold told_card. rewrite filter_known_snoc. unfold put_app, asks_pin at 2.
  destruct (known a) eqn:Ek; [|by rewrite I5; cbn [andb]; rewrite orb_false_r].
  rewrite fmap_app, !last_index_snoc, foldl_app. cbn [fmap list_fmap foldl andb].
  set (s2 := set_counts _ _ _). assert (m_nAutoPinState s2 = m_nAutoPinState s1) as -> by done.
  assert (mRilCardStatus s2 = put_card true a (told_card pin l)) as E2 by (unfold s2; cbn; by rewrite I1, I2, Hp).
  assert (put_card true a (told_card pin l) =
    {| card_state := RIL_CARDSTATE_PRESENT; universal_pin_state := pin;
       gsm_umts_subscription_app_index := if gsm_app a then lenZ (filter known l) else last_index gsm_app (filter known l);
       cdma_subscription_app_index := if cdma_app a then lenZ (filter known l) else last_index cdma_app (filter known l);
       ims_subscription_app_index := if ims_app a then lenZ (filter known l) else last_index ims_app (filter known l);
       applications := (told_app true <$> filter known l) ++ [told_app true a]; physicalSlotId := 0; cs_atr := []; cs_iccid := []; cs_eid := [] |}) as E3.
  { unfold put_card, told_card, num_applications. cbn. unfold lenZ. rewrite length_fmap. done. }
  rewrite I5 in *. destruct (ai_pin1 a =? RIL_PINSTATE_ENABLED_NOT_VERIFIED) eqn:Epin.
  - rewrite orb_true_r. cbn [andb]. destruct (existsb _ l) eqn:Ex, (bool_decide (m_nAutoPinState s = AUTO_PIN_STATE_READY)) eqn:Er; cbn [andb] in *.
    all: first [rewrite Er|rewrite (bool_decide_eq_false_2 (AUTO_PIN_STATE_RECOVERY = _)) by done|idtac].
    all: cbn [m_nAutoPinState mRilCardStatus set_state set_auto m_nSimCardState m_nImsAppType m_nPinRemain m_nPukRemain]; rewrite ?E2, ?E3; repeat split; try done; cbn; try done.
  - rewrite orb_false_r. cbn [andb]. rewrite E2, E3. repeat split; try done.
Qed.
Lemma put_apps_boot l s : m_nBootState (put_apps l s) = m_nBootState s.
Proof.
  unfold put_apps. revert s. induction l as [|a l IH]; intros s; [done|]. cbn [foldl]. rewrite IH. unfold put_app. destruct (known a); [|done]. cbv zeta.
  by destruct (_ && _).
Qed.
(** what the modem's description of a card that is present comes to *)
Lemma status_built hdr pin l e s : lenZ hdr = sizeof_RCM_HEADER → rd16 hdr off_id = Ok SIT_GET_SIM_STATUS → Forall app_wf l →
  lenZ l <= MAX_SIM_APPS_INFO_COUNT → lenZ (filter known l) <= RIL_CARD_MAX_APPS → lenZ (m_aszAID s) = RIL_CARD_MAX_APPS * 36 → m_pIccidInfo s = None →
  let c := told_card pin l in
  ∃ s', BuildSimStatus (Some (status_frame hdr RIL_CARDSTATE_PRESENT pin l)) e s =
          Ok (c, s', if m_nImsAppType s =? ims_type c then [] else [ActImsAppType (ims_type c)]) ∧
    mRilCardStatus s' = c ∧
    (m_nPinRemain s', m_nPukRemain s') = foldl (λ _ a, (ai_counts a, ai_puk_counts a)) (m_nPinRemain s, m_nPukRemain s) (filter known l) ∧
    m_nAutoPinState s' = (if existsb asks_pin l && bool_decide (m_nAutoPinState s = AUTO_PIN_STATE_READY) then AUTO_PIN_STATE_RECOVERY else m_nAutoPinState s) ∧
    m_nBootState s' = m_nBootState s.
Proof.
  intros Hh Hid Hw Hn H8 Hl Hi c. change (RIL_CARD_MAX_APPS * 36) with 288 in Hl. change RIL_CARD_MAX_APPS with 8 in H8.
  unfold BuildSimStatus. rewrite (run_lift _ _ _ _ _ (status_adapter hdr RIL_CARDSTATE_PRESENT pin l Hh Hw Hn Hid)).
  set (ad := status_kept hdr RIL_CARDSTATE_PRESENT pin l).
  assert (∀ k v, [RIL_CARDSTATE_PRESENT; pin; lenZ l] !! k = Some v → (m_tSimStatusRsp ad).[12 + Z.of_nat k] = Ok v) as Hk.
  { intros k v Hv. unfold ad, status_kept, status_frame. cbn [m_tSimStatusRsp]. rewrite <- !app_assoc, rd_app_r by (rewrite Hh; unfold sizeof_RCM_HEADER; lia).
    rewrite Hh. apply rd_lookup; [unfold sizeof_RCM_HEADER; lia|]. replace (Z.to_nat (12 + Z.of_nat k - sizeof_RCM_HEADER)) with k by (unfold sizeof_RCM_HEADER; lia).
    rewrite lookup_app_l by by eapply lookup_lt_Some. exact Hv. }
  rewrite (run_lift (GetCardState ad) _ RIL_CARDSTATE_PRESENT) by apply (Hk 0%nat _ eq_refl). change (RIL_CARDSTATE_PRESENT =? RIL_CARDSTATE_PRESENT) with true.
  cbv iota zeta. rewrite run_gets. rewrite (run_silent _ _ () s).
  2: { destruct (decide _) as [?|?]; [done|]. by rewrite decide_False by by intros [_ [=] ]. }
  rewrite run_modify. rewrite (run_silent NotifyIccidInfo _ () (set_sim SIM_CARDSTATE_PRESENT (m_nPinRemain s) (m_nPukRemain s) (m_pIccidInfo s) (m_nImsAppType s) (sim_token s) s))
    by (unfold NotifyIccidInfo; cbn [m_pIccidInfo set_sim]; by rewrite Hi).
  rewrite (run_lift (GetUniversalPinState ad) _ pin) by apply (Hk 1%nat _ eq_refl). rewrite run_modify.
  rewrite (run_lift (GetApplicationCount ad) _ (lenZ l)) by apply (Hk 2%nat _ eq_refl).
  set (s1 := set_card (card_of RIL_CARDSTATE_PRESENT pin 0) _ _).
  rewrite (run_silent _ _ () (put_apps l s1)).
  2: { pose proof (add_applications_told hdr RIL_CARDSTATE_PRESENT pin l e [] l s1 Hh eq_refl Hw Hn) as E. change (lenZ []) with 0 in E.
       replace (Z.to_nat (lenZ l)) with (length l) by (unfold lenZ; lia). apply E; [exact H8|exact Hl]. }
  destruct (put_apps_told pin l s1 eq_refl eq_refl) as (I1 & _ & I3 & I4 & I5). fold c in I1. rewrite !run_gets, I1, I3.
  change (m_nImsAppType s1) with (m_nImsAppType s).
  assert ((m_tSimStatusRspExt ad).[1] = Ok 0) as Hslot by done.
  assert (extension_texts (m_tSimStatusRspExt ad) = Ok ([], [], [])) as Hext.
  { change (m_tSimStatusRspExt ad) with (fill sizeof_get_sim_status_rsp_ext (0 : Z)). by vm_compute. }
  assert (∀ s2, mRilCardStatus s2 = c → ((slot ← lift ((m_tSimStatusRspExt ad).[1]);
    texts ← (if 0 <? num_applications c then lift (extension_texts (m_tSimStatusRspExt ad)) else mret ([], [], []));
    let c := {| card_state := card_state c; universal_pin_state := universal_pin_state c; gsm_umts_subscription_app_index := gsm_umts_subscription_app_index c;
                cdma_subscription_app_index := cdma_subscription_app_index c; ims_subscription_app_index := ims_subscription_app_index c;
                applications := applications c; physicalSlotId := if slot =? INVALID_SLOT_ID then 0xFFFFFFFF else slot;
                cs_atr := texts.1.1; cs_iccid := texts.1.2; cs_eid := texts.2 |} in
    modify (λ s, set_card c (m_aszAID s) s);; mret c) : SM CardStatus) e s2 = Ok (c, set_card c (m_aszAID s2) s2, [])) as Hend.
  { intros s2 Hs2. rewrite (run_lift _ _ _ _ _ Hslot).
    rewrite (run_silent _ _ ([], [], []) s2) by (destruct (0 <? num_applications c); [|done]; unfold lift; by rewrite Hext). done. }
  exists (set_card c (m_aszAID (put_apps l s1))
           (if m_nImsAppType s =? ims_type c then put_apps l s1
            else set_sim (m_nSimCardState (put_apps l s1)) (m_nPinRemain (put_apps l s1)) (m_nPukRemain (put_apps l s1)) (m_pIccidInfo (put_apps l s1)) (ims_type c)
                   (sim_token (put_apps l s1)) (put_apps l s1))).
  split; [|destruct (m_nImsAppType s =? ims_type c); cbn [m_nPinRemain m_nPukRemain m_nAutoPinState m_nBootState mRilCardStatus set_card set_sim]; by rewrite ?I4, ?I5, ?put_apps_boot].
  destruct (m_nImsAppType s =? ims_type c).
  - rewrite run_ret. by apply Hend.
  - unfold mbind at 1. unfold HM_bind at 1. rewrite (run_bind (emit (ActImsAppType (ims_type c))) _ _ _ () (put_apps l s1) [ActImsAppType (ims_type c)] _ _ [] eq_refl eq_refl).
    rewrite Hend by done. done.
Qed.
(** what is noted when the kind of the IMS application changes *)
Definition ims_note (c : CardStatus) (s : SimService) : list Act := if m_nImsAppType s =? ims_type c then [] else [ActImsAppType (ims_type c)].
(** the service verifies the kept PIN: it is ready to, and an application asks for it; or it was about to before *)
Definition verifies_pin (l : list AppInfo) (s : SimService) : bool :=
  (existsb asks_pin l && bool_decide (m_nAutoPinState s = AUTO_PIN_STATE_READY)) || bool_decide (m_nAutoPinState s = AUTO_PIN_STATE_RECOVERY).
Definition is_answer (a : Act) : bool := match a with ActComplete _ _ => true | _ => false end.
Lemma verifying_is_silent e s (rest : Z → SM Z) :
  (∀ n e s, ends (rest n) (λ _ _ o, existsb is_answer o = false) e s) →
  ends (szPin ← GetAutoVerifyPin; aids ← gets m_aszAID; packet ← build (λ t, BuildSimVerifyPin t 1 (Some szPin) (Some (entry aids 0)));
   nResult ← send packet MSG_SIM_VERIFY_PIN_DONE; rest nResult) (λ _ _ o, existsb is_answer o = false) e s.
Proof.
  intros Hr. unfold GetAutoVerifyPin. repeat sm_step; try done.
  all: eapply ends_weaken; [apply Hr|]; intros ? ? o' Ho; cbn; by rewrite ?existsb_app.
Qed.
(** C25: The answer to a status request.  The frame is an answer without an error and
    without the extension, of a card that is present, with a whole and well-formed
    record for each of its applications, at most eight of which are of a known
    type.  When no indication of a card's number is pending and the reason of the
    boot is known, the request is completed with the status the frame describes:
    the known applications in their order, every field unchanged and the
    identifiers in hexadecimal, each subscription index naming the last
    application of its kind, or none; the attempts that remain are those of the
    last application.  Only when an application asks for a PIN and the service
    keeps one that it may verify, or was about to, the request is not completed
    yet. *)
Theorem card_status_told hdr pin l e s :
  response_header hdr RIL_E_SUCCESS → rd16 hdr off_id = Ok SIT_GET_SIM_STATUS → Forall app_wf l → lenZ l <= MAX_SIM_APPS_INFO_COUNT →
  lenZ (filter known l) <= RIL_CARD_MAX_APPS → lenZ (m_aszAID s) = RIL_CARD_MAX_APPS * 36 → m_pIccidInfo s = None → m_nBootState s ≠ BOOT_STATE_UNKNOWN →
  let c := told_card pin l in let frame := status_frame hdr RIL_CARDSTATE_PRESENT pin l in
  if verifies_pin l s
  then ∀ v s' o, OnGetSimStatusDone (Some frame) e s = Ok (v, s', o) → existsb is_answer o = false
  else ∃ s', OnGetSimStatusDone (Some frame) e s = Ok (0, s', ims_note c s ++ [ActComplete RIL_E_SUCCESS (AnsCard c)]) ∧ mRilCardStatus s' = c ∧
    (m_nPinRemain s', m_nPukRemain s') = foldl (λ _ a, (ai_counts a, ai_puk_counts a)) (m_nPinRemain s, m_nPukRemain s) (filter known l).
Proof.
  intros Hh Hid Hw Hn H8 Hl Hi Hb c frame. pose proof Hh as [Hh12 _].
  destruct (status_built hdr pin l e s Hh12 Hid Hw Hn H8 Hl Hi) as (s1 & E & Ec & Er & Ea & Eb). fold c frame in E, Ec. change (if m_nImsAppType s =? ims_type c then _ else _) with (ims_note c s) in E.
  assert (Rcm.GetErrorCode (Some frame) = Ok RIL_E_SUCCESS) as Ecode by (unfold frame, status_frame; by rewrite (response_code _ _ _ Hh)).
  unfold OnGetSimStatusDone. rewrite (run_lift _ _ _ _ _ Ecode), Z.eqb_refl. unfold verifies_pin. destruct (_ || _) eqn:Ev.
  - lazymatch goal with |- ∀ v s' o, ?m e s = _ → _ => change (ends m (λ _ _ o, existsb is_answer o = false) e s) end.
    apply ends_bind. intros c' s1' o' E'. rewrite E in E'. injection E' as <- <- <-. apply ends_bind, ends_gets. rewrite Ea, decide_True.
    2: { apply orb_true_iff in Ev as [->|Ev]; [done|]. apply bool_decide_eq_true in Ev. rewrite Ev. generalize (existsb asks_pin l && bool_decide (AUTO_PIN_STATE_RECOVERY = AUTO_PIN_STATE_READY)). intros b. by case b. }
    eapply ends_weaken; [apply verifying_is_silent; intros n e0 s0; repeat sm_step; done|]. intros v s2 o Ho. cbn beta. cbn [app]. rewrite existsb_app, Ho. unfold ims_note. by destruct (_ =? _).
  - apply orb_false_iff in Ev as [Ev1 Ev2]. rewrite Ev1 in Ea. apply bool_decide_eq_false in Ev2. exists s1. split; [|done].
    apply (run_bind _ _ _ _ _ _ _ _ _ _ E). rewrite run_gets, decide_False by by rewrite Ea. rewrite run_gets, Eb, bool_decide_eq_false_2 by done. done.
Qed.
Lemma card_status_told_witness :
  let usim := {| ai_type := RIL_APPTYPE_USIM; ai_state := 2; ai_perso := 0; ai_aid := [160; 0; 0; 0; 135]; ai_label := fill 33 0; ai_replaced := 0;
                 ai_pin1 := 1; ai_pin2 := 1; ai_counts := (3, 3); ai_puk_counts := (10, 10) |} in
  let isim := {| ai_type := RIL_APPTYPE_ISIM; ai_state := 5; ai_perso := 0; ai_aid := []; ai_label := fill 33 0; ai_replaced := 1;
                 ai_pin1 := 3; ai_pin2 := 0; ai_counts := (2, 1); ai_puk_counts := (9, 8) |} in
  let s := set_auto AUTO_PIN_STATE_UNKNOWN [] [] BOOT_STATE_NORMAL ∅ (newSimService ∅ 5) in
  let c := told_card 4 [usim; isim] in
  ∃ s', OnGetSimStatusDone (Some (status_frame [1; 0; 0; 2; 141; 0; 0; 0; 0; 0; 0; 0] RIL_CARDSTATE_PRESENT 4 [usim; isim])) (plain_env true true) s =
          Ok (0, s', [ActImsAppType 0; ActComplete RIL_E_SUCCESS (AnsCard c)]) ∧
    mRilCardStatus s' = c ∧ (m_nPinRemain s', m_nPukRemain s') = ((2, 1), (9, 8)).
Proof.
  intros usim isim s c. apply (card_status_told [1; 0; 0; 2; 141; 0; 0; 0; 0; 0; 0; 0] 4 [usim; isim] (plain_env true true) s); try done.
  unfold usim, isim, app_wf. by repeat (apply Forall_cons_2 || apply Forall_nil_2); (split; [by_eval|]).
Defined.
(** the ninth known application does not fit *)
Lemma nine_applications :
  let usim := {| ai_type := RIL_APPTYPE_USIM; ai_state := 2; ai_perso := 0; ai_aid := []; ai_label := fill 33 0; ai_replaced := 0;
                 ai_pin1 := 1; ai_pin2 := 1; ai_counts := (3, 3); ai_puk_counts := (10, 10) |} in
  BuildSimStatus (Some (status_frame [1; 0; 0; 2; 141; 0; 0; 0; 0; 0; 0; 0] RIL_CARDSTATE_PRESENT 4 (replicate 9 usim))) (plain_env true true)
    (newSimService ∅ 5) = UB.
Proof. by vm_compute. Qed.
