(* ===== verification/SimIoTheorems.v ===== *)
(** Files of the SIM and the operator they tell: the description of a file comes
    over into the older form, and both ways to find the operator agree. *)
From stdpp Require Import gmap.
From S2P Require Import Prelude RilDef Text WaitList Network Rcm Handler Layout RilData RilDataTheorems MccTable SimPackets SimPin SimPinTheorems SimIo SimCardPackets SimCard.

(** ** The description of a file *)

(** the tags one after the other *)
Definition tlv_bytes (x : Z * list Z) : list Z := x.1 :: lenZ x.2 :: x.2.
Definition tlvs (l : list (Z * list Z)) : list Z := concat (tlv_bytes <$> l).
(** what the conversion reads is there *)
Definition tlv_wf (x : Z * list Z) : Prop :=
  is_byte x.1 ∧ bytes_ok x.2 ∧ lenZ x.2 < 256 ∧
  (x.1 = 0x80 ∨ x.1 = 0x83 → 2 <= lenZ x.2) ∧
  (x.1 = 0x82 → 1 <= lenZ x.2 ∧ (2 < lenZ x.2 → 4 <= lenZ x.2)).
(** the value of a tag *)
Definition tag_value (t : Z) (l : list (Z * list Z)) : option (list Z) := foldl (λ a x, if x.1 =? t then Some x.2 else a) None l.
Definition two_bytes (v : option (list Z)) : list Z := match v with Some v => [v !!! 0%nat; v !!! 1%nat] | None => [0; 0] end.
(** the structure of the file, and the size of its records *)
Definition record_size (v : list Z) : Z :=
  if 2 <? lenZ v then if file_struct (v !!! 0%nat) =? EF_TYPE_TRANSPARENT then 0 else if 0 <? v !!! 2%nat then 0xFF else v !!! 3%nat else 2.
(** the fifteen bytes of the older specification: size, identifier, type, access, status, structure, record size *)
Definition file_description (l : list (Z * list Z)) : list Z :=
  [0; 0] ++ two_bytes (tag_value 0x80 l) ++ two_bytes (tag_value 0x83 l) ++ [0x04; 0; 0; 0xFF; 0xFF; 0x01; 0x02] ++
  match tag_value 0x82 l with Some v => [file_struct (v !!! 0%nat); record_size v] | None => [0; 0] end.
Lemma tag_value_snoc t l x : tag_value t (l ++ [x]) = if x.1 =? t then Some x.2 else tag_value t l.
Proof. unfold tag_value. by rewrite foldl_app. Qed.
Lemma tag_value_absent t l : t ∉ l.*1 → tag_value t l = None.
Proof.
  induction l as [|x l IH] using rev_ind; [done|]. rewrite tag_value_snoc, fmap_app. intros Hn.
  destruct (Z.eqb_spec x.1 t) as [<-|]; [exfalso; apply Hn; apply elem_of_app; right; by apply list_elem_of_singleton|].
  apply IH. intros H. apply Hn. apply elem_of_app. by left.
Qed.
Lemma description_length l : length (file_description l) = 15%nat.
Proof. unfold file_description. by destruct (tag_value 0x80 l), (tag_value 0x83 l), (tag_value 0x82 l). Qed.
(** a byte of a value in the answer *)
Lemma value_at pre x post off i v : lenZ pre = off → x.2 !! i = Some v → (pre ++ tlv_bytes x ++ post).[off + 2 + Z.of_nat i] = Ok v.
Proof.
  intros <- Hi. apply rd_lookup; [pose proof (lenZ_nonneg pre); lia|].
  replace (Z.to_nat (lenZ pre + 2 + Z.of_nat i)) with (length pre + S (S i))%nat by (unfold lenZ; lia).
  rewrite lookup_app_r by lia. replace (length pre + S (S i) - length pre)%nat with (S (S i)) by lia.
  change ((tlv_bytes x ++ post) !! S (S i)) with ((x.2 ++ post) !! i). rewrite lookup_app_l by by eapply lookup_lt_Some. done.
Qed.
Lemma tag_at pre x post off : lenZ pre = off → (pre ++ tlv_bytes x ++ post).[off] = Ok x.1 ∧ (pre ++ tlv_bytes x ++ post).[off + 1] = Ok (lenZ x.2).
Proof.
  intros <-. split; [by apply rd_at|]. change (pre ++ tlv_bytes x ++ post) with (pre ++ [x.1] ++ lenZ x.2 :: (x.2 ++ post)). rewrite app_assoc.
  apply rd_at. by rewrite lenZ_app.
Qed.
Lemma value_lookup (v : list Z) (i : nat) : Z.of_nat i < lenZ v → v !! i = Some (v !!! i).
Proof. intros Hi. apply list_lookup_lookup_total_lt. unfold lenZ in Hi. lia. Qed.
Lemma two_bytes_shape v : ∃ a b, two_bytes v = [a; b].
Proof. destruct v; by eexists _, _. Qed.
Lemma tag_step pre x post off l : lenZ pre = off → tlv_wf x → x.1 ∉ l.*1 →
  fcp_tag (pre ++ tlv_bytes x ++ post) off (file_description l) = Ok (file_description (l ++ [x])).
Proof.
  intros Hoff (_ & _ & _ & H2 & H82) Hn. pose proof (tag_at pre x post off Hoff) as [Ht Hl]. pose proof (tag_value_absent _ _ Hn) as Hnone.
  assert (∀ (j : Z) (i : nat), j = 2 + Z.of_nat i → Z.of_nat i < lenZ x.2 → (pre ++ tlv_bytes x ++ post).[off + j] = Ok (x.2 !!! i)) as Hv.
  { intros j i -> Hi. rewrite Z.add_assoc. apply value_at; [done|by apply value_lookup]. }
  unfold fcp_tag. rewrite Ht. cbn [mbind res_bind]. unfold file_description. rewrite !tag_value_snoc.
  destruct (Z.eqb_spec x.1 0x80) as [E|]; [|destruct (Z.eqb_spec x.1 0x82) as [E|]; [|destruct (Z.eqb_spec x.1 0x83) as [E|]; [|done] ] ].
  - rewrite E in Hnone. rewrite ?E, Hnone. cbn [Z.eqb Pos.eqb]. pose proof (H2 (or_introl E)). rewrite (Hv 2 0%nat), (Hv 3 1%nat) by lia.
    destruct (two_bytes_shape (tag_value 0x83 l)) as (a & b & ->). by destruct (tag_value 0x82 l).
  - rewrite E in Hnone. rewrite ?E, Hnone. cbn [Z.eqb Pos.eqb]. destruct (H82 E) as [H1 H4]. rewrite (Hv 2 0%nat) by lia. rewrite Hl. unfold record_size.
    destruct (two_bytes_shape (tag_value 0x80 l)) as (a & b & ->), (two_bytes_shape (tag_value 0x83 l)) as (c & d & ->).
    cbn [mbind res_bind]. generalize (file_struct (x.2 !!! 0%nat)). intros st. cbn [mbind res_bind Z.eqb Pos.eqb app].
    change ([_; _; _; _; _; _; _; _; _; _; _; _; _; _; _].[13 <- st]) with (Ok [0; 0; a; b; c; d; 4; 0; 0; 255; 255; 1; 2; st; 0]). cbn [mbind res_bind].
    destruct (2 <? lenZ x.2) eqn:E3; [|done]. apply Z.ltb_lt in E3. specialize (H4 E3). destruct (st =? EF_TYPE_TRANSPARENT); [done|].
    rewrite (Hv 4 2%nat) by lia. cbn [mbind res_bind]. destruct (0 <? x.2 !!! 2%nat); [done|]. by rewrite (Hv 5 3%nat) by lia.
  - rewrite E in Hnone. rewrite ?E, Hnone. cbn [Z.eqb Pos.eqb]. pose proof (H2 (or_intror E)). rewrite (Hv 2 0%nat), (Hv 3 1%nat) by lia.
    destruct (two_bytes_shape (tag_value 0x80 l)) as (a & b & ->). by destruct (tag_value 0x82 l).
Qed.
Lemma tlvs_cons x l : tlvs (x :: l) = tlv_bytes x ++ tlvs l.
Proof. done. Qed.
Lemma tlvs_length l : 2 * Z.of_nat (length l) <= lenZ (tlvs l).
Proof.
  induction l as [|x l IH]; [done|]. rewrite tlvs_cons, lenZ_app. unfold tlv_bytes. rewrite !lenZ_cons. pose proof (lenZ_nonneg x.2). cbn [length]. lia.
Qed.
Lemma fcp_step_eq p n k off r : fcp_step p n (k, off, r) =
  (if (off - 2 <? n) && (k <? 200) then r ← fcp_tag p off r; m ← p.[off + 1]; Ok (Next (k + 1, off + m + 2, r)) else Ok (Stop r)).
Proof. done. Qed.
(** the loop over the tags that are left *)
Lemma fcp_loop pre l post done_ k fuel n : Forall tlv_wf l → NoDup ((done_ ++ l).*1) → lenZ pre - 2 + lenZ (tlvs l) = n → 0 <= k →
  k + Z.of_nat (length l) < 200 → (length l < fuel)%nat →
  loop fuel (fcp_step (pre ++ tlvs l ++ post) n) (k, lenZ pre, file_description done_) = Ok (file_description (done_ ++ l)).
Proof.
  intros Hw. revert pre done_ k fuel. induction Hw as [|x l Hx _ IH]; intros pre done_ k fuel Hnd Hn Hk Hkl Hf; (destruct fuel as [|fuel]; [lia|]).
  - cbn [loop]. rewrite fcp_step_eq. change (lenZ (tlvs [])) with 0 in Hn. replace (lenZ pre - 2 <? n) with false by lia. by rewrite (app_nil_r done_).
  - cbn [loop]. rewrite fcp_step_eq. rewrite tlvs_cons in Hn |- *. rewrite lenZ_app in Hn. unfold tlv_bytes in Hn at 1. rewrite !lenZ_cons in Hn.
    pose proof (lenZ_nonneg x.2). pose proof (lenZ_nonneg (tlvs l)). cbn [length] in Hkl, Hf. replace ((lenZ pre - 2 <? n) && (k <? 200)) with true by lia.
    rewrite <- app_assoc, (tag_step pre x _ _ done_ eq_refl Hx); [|rewrite fmap_app in Hnd; apply NoDup_app in Hnd as (_ & Hd & _);
      intros Hin; apply (Hd _ Hin); rewrite fmap_cons; apply elem_of_cons; by left].
    cbn [mbind res_bind]. rewrite (proj2 (tag_at pre x _ _ eq_refl)). cbn [mbind res_bind].
    replace (lenZ pre + lenZ x.2 + 2) with (lenZ (pre ++ tlv_bytes x)) by (rewrite lenZ_app; unfold tlv_bytes; rewrite !lenZ_cons; lia).
    rewrite (app_assoc pre). replace (done_ ++ x :: l) with ((done_ ++ [x]) ++ l) by by rewrite <- app_assoc.
    apply IH; [by rewrite <- app_assoc| |lia|lia|lia]. rewrite lenZ_app. unfold tlv_bytes. rewrite !lenZ_cons. lia.
Qed.
Lemma tag_value_in t l v : tag_value t l = Some v → ∃ x, x ∈ l ∧ x.1 = t ∧ x.2 = v.
Proof.
  induction l as [|x l IH] using rev_ind; [done|]. rewrite tag_value_snoc. destruct (Z.eqb_spec x.1 t) as [<-|].
  - intros [= <-]. exists x. split; [apply elem_of_app; right; by apply list_elem_of_singleton|done].
  - intros H. destruct (IH H) as (y & Hy & ?). exists y. split; [apply elem_of_app; by left|done].
Qed.
Lemma lookup_total_byte v (i : nat) : bytes_ok v → is_byte (v !!! i).
Proof.
  intros Hv. rewrite list_lookup_total_alt. destruct (v !! i) as [b|] eqn:E; [by eapply Forall_lookup_1|]. by_eval.
Qed.
Lemma description_bytes l : Forall tlv_wf l → bytes_ok (file_description l).
Proof.
  intros Hw. assert (∀ t v, tag_value t l = Some v → bytes_ok v) as Hv.
  { intros t v Ht. destruct (tag_value_in _ _ _ Ht) as (x & Hx & _ & <-). rewrite Forall_forall in Hw. by destruct (Hw _ Hx) as (_ & ? & _). }
  assert (∀ t, bytes_ok (two_bytes (tag_value t l))) as H2.
  { intros t. unfold two_bytes. destruct (tag_value t l) as [v|] eqn:E; [|by_eval]. pose proof (Hv _ _ E).
    repeat (apply Forall_cons_2; [by apply lookup_total_byte|]). apply Forall_nil_2. }
  unfold file_description. rewrite !Forall_app. split; [by_eval|]. split; [apply H2|]. split; [apply H2|]. split; [by_eval|].
  destruct (tag_value 0x82 l) as [v|] eqn:E; [|by_eval]. pose proof (Hv _ _ E) as Hb. pose proof (lookup_total_byte v 0 Hb).
  apply Forall_cons_2; [|apply Forall_cons_2; [|apply Forall_nil_2] ].
  - unfold file_struct. repeat match goal with |- context [if ?b then _ else _] => destruct b end; done || by_eval.
  - unfold record_size. pose proof (lookup_total_byte v 3 Hb). repeat match goal with |- context [if ?b then _ else _] => destruct b end; done || by_eval.
Qed.
(** C26: The description of a file that a newer card gives, tags in any order of which
    none is repeated, is told as the fifteen bytes of the older specification, in
    hexadecimal: the size and the identifier of the file, its structure and the
    size of its records stand where they belong, a record that is too long for
    one byte is told as 255, and the status words come over unchanged. *)
Theorem file_description_told sw1 sw2 l rest : Forall tlv_wf l → NoDup l.*1 → lenZ (tlvs l) < 256 →
  BuildSimIoResponse sw1 sw2 (lenZ (tlvs l) + 2) (Some (0x62 :: lenZ (tlvs l) :: tlvs l ++ rest)) =
    Ok (Some {| io_sw1 := sw1; io_sw2 := sw2; simResponse := Some (hex_of (file_description l)) |}).
Proof.
  intros Hw Hnd Hl. pose proof (lenZ_nonneg (tlvs l)) as Hn. pose proof (tlvs_length l) as Hlen.
  unfold BuildSimIoResponse, sim_response. replace (0 <? lenZ (tlvs l) + 2) with true by lia.
  change ((0x62 :: lenZ (tlvs l) :: tlvs l ++ rest).[1]) with (Ok (lenZ (tlvs l))). change ((0x62 :: lenZ (tlvs l) :: tlvs l ++ rest).[0]) with (Ok 0x62).
  cbn [mbind res_bind]. change 0xFF with (Z.ones 8). rewrite Z.land_ones by done. rewrite Z.mod_small by (change (2 ^ 8) with 256; lia). rewrite !Z.eqb_refl. cbn [andb].
  pose proof (fcp_loop [0x62; lenZ (tlvs l)] l rest [] 0 201 (lenZ (tlvs l)) Hw Hnd) as E. cbn [app] in E. change (lenZ [0x62; lenZ (tlvs l)]) with 2 in E.
  change acSimRsp0 with (file_description []). rewrite E by lia. cbn [mbind res_bind fst snd]. clear E.
  unfold BuildSimIoFcpTemplateResponse. cbn [Z.ltb Z.compare Z.mul Z.add Pos.mul Pos.add Pos.compare Pos.compare_cont].
  change (15 * 2 + 1) with 31. rewrite (Value2HexString_zeros _ 31 15) by (unfold lenZ; rewrite ?description_length; lia). cbn [mbind res_bind fst snd fmap option_fmap option_map].
  change (2 * 15 =? -1) with false. cbv iota. rewrite (take_ge (file_description l)) by (rewrite description_length; done). change (fill (31 - 2 * 15) 0) with [0].
  rewrite cstr_app by (apply nonul_hex_of; by apply description_bytes). destruct (hex_of (file_description l)) as [|c t] eqn:Eh; [|done].
  apply (f_equal length) in Eh. rewrite length_hex_of, description_length in Eh. done.
Qed.
Lemma file_description_told_witness :
  let l := [(0x82, [0x42; 0x21; 0; 0x1C; 5]); (0x83, [0x6F; 0x3B]); (0x8A, [5]); (0x80, [0; 140])] in
  BuildSimIoResponse 0x90 0 20 (Some (0x62 :: lenZ (tlvs l) :: tlvs l ++ [7])) =
    Ok (Some {| io_sw1 := 0x90; io_sw2 := 0; simResponse := Some (hex_of [0; 0; 0; 140; 0x6F; 0x3B; 4; 0; 0; 0xFF; 0xFF; 1; 2; 1; 0x1C]) |}).
Proof.
  intros l. apply (file_description_told 0x90 0 l [7]); [|by_eval|done].
  unfold l, tlv_wf. repeat (apply Forall_cons_2 || apply Forall_nil_2); (split; [by_eval|]; split; [by_eval|]; split; [done|]; split; [intros [?|?]; done|done]).
Defined.

(** ** The operator *)

Lemma smallest_digits mcc : GetSmallestDigitsMccForMcc mcc = 2 ∨ GetSmallestDigitsMccForMcc mcc = 3.
Proof.
  unfold GetSmallestDigitsMccForMcc, GetEntryForMcc. destruct (m_mcctable !! mcc) as [entry|] eqn:E; [|by left].
  assert (map_Forall (λ _ e, smallestDigitsMcc e = 2 ∨ smallestDigitsMcc e = 3) m_mcctable) as H; [|exact (H _ _ E)].
  apply (bool_decide_eq_true_1 _). vm_compute. reflexivity.
Qed.
(** how many digits the network of a subscriber has *)
Definition network_digits (imsi : list Z) : Z := if 0 <? GetSmallestDigitsMccForImsi (Some imsi) then 3 else GetSmallestDigitsMccForMcc (digits_value (take 3 imsi)).
Lemma network_digits_range imsi : network_digits imsi = 2 ∨ network_digits imsi = 3.
Proof. unfold network_digits. destruct (0 <? _); [by right|apply smallest_digits]. Qed.
Lemma listed_digits imsi : GetSmallestDigitsMccForImsi (Some imsi) = 3 ∨ GetSmallestDigitsMccForImsi (Some imsi) = -1.
Proof. unfold GetSmallestDigitsMccForImsi. repeat case_match; auto. Qed.
Lemma country_digits imsi : 6 <= lenZ imsi → all_digits imsi → to_int (take 3 imsi) = Ok (digits_value (take 3 imsi)) .
Proof.
  intros Hl Hd. unfold lenZ in Hl. destruct imsi as [|a [|b [|c imsi] ] ]; cbn in Hl; try lia. cbn [take].
  pose proof Hd as Hd'. repeat (apply Forall_cons in Hd' as [? Hd']). cbv beta in *. rewrite to_int_digits; [|done|rewrite take_0; cbn [forallb]; unfold is_digit; lia]. rewrite take_0. cbv zeta.
  assert (0 <= digits_value [a; b; c] < 1000) as Hv by (cbn; lia). change (- 2 ^ 31) with (-2147483648). change (2 ^ 31) with 2147483648.
  by replace ((-2147483648 <=? digits_value [a; b; c]) && (digits_value [a; b; c] <? 2147483648)) with true by lia.
Qed.
(** the length of the network's code that EF_AD tells *)
Definition told_digits (r : IccIoResult) : option Z :=
  match icc_data r with Some d => if 3 <? lenZ d then Some (Z.land (d !!! 3%nat) 0xF) else None | None => None end.
Lemma told_digits_read r :
  match icc_data r with Some d => if 3 <? lenZ d then v ← d.[3]; Ok (Z.land v 0xF) else Ok (-1) | None => Ok (-1) end = Ok (default (-1) (told_digits r)).
Proof.
  unfold told_digits. destruct (icc_data r) as [d|]; [|done]. destruct (Z.ltb_spec 3 (lenZ d)) as [H|]; [|done].
  rewrite (rd_lookup d 3 (d !!! 3%nat)); [done|done|]. apply list_lookup_lookup_total_lt. unfold lenZ in H. change (Z.to_nat 3) with 3%nat. lia.
Qed.
(** C36: Both ways to the operator of a subscriber agree.  For a number of six to
    fifteen digits, the code the context works with and the one that is fetched
    when the card is read are the same first five or six digits when the card
    does not tell how many; a card that tells three digits gets six, and one that
    tells two gets five unless the network is listed as one with three. *)
Theorem operator_agrees imsi buf size r : all_digits imsi → 6 <= lenZ imsi <= 15 → 6 <= size → 6 <= lenZ buf → IsSuccess r = true →
  let n := Z.to_nat (3 + network_digits imsi) in
  (n = 5%nat ∨ n = 6%nat) ∧
  FetchCarrierForImsi (Some imsi) (Some buf) size = Ok (true, Some (take n imsi ++ drop n buf)) ∧
  (told_digits r = None ∨ told_digits r = Some 0xF → FetchSimOperator imsi r = Ok (take n imsi)) ∧
  (told_digits r = Some 3 → FetchSimOperator imsi r = Ok (take 6 imsi)) ∧
  (told_digits r = Some 2 → FetchSimOperator imsi r = Ok (take (if 0 <? GetSmallestDigitsMccForImsi (Some imsi) then 6 else 5) imsi)).
Proof.
  intros Hd Hl Hs Hb Hr n. pose proof (country_digits imsi (proj1 Hl) Hd) as Hc. pose proof (network_digits_range imsi) as Hn.
  split; [unfold n; destruct Hn as [-> | ->]; auto|]. split.
  { unfold FetchCarrierForImsi. replace ((lenZ imsi <? 6) || (15 <? lenZ imsi)) with false by lia. cbv zeta. unfold network_digits in n, Hn.
    change (Z.to_nat MCC_LENGTH) with 3%nat. change MCC_LENGTH with 3. rewrite Hc.
    assert ((if GetSmallestDigitsMccForImsi (Some imsi) <? 0
             then mcc ← Ok (digits_value (take 3 imsi)); Ok (if size <? 3 + GetSmallestDigitsMccForMcc mcc then None else Some (GetSmallestDigitsMccForMcc mcc))
             else Ok (Some (GetSmallestDigitsMccForImsi (Some imsi)))) = Ok (Some (network_digits imsi))) as E.
    { unfold network_digits. destruct (listed_digits imsi) as [-> | ->]; [done|]. cbn [Z.ltb Z.compare mbind res_bind].
      destruct (smallest_digits (digits_value (take 3 imsi))) as [-> | ->]; by replace (size <? _) with false by lia. }
    cbn [mbind res_bind] in E |- *. rewrite E. cbn [mbind res_bind]. fold (network_digits imsi) in n, Hn. unfold strncpy. fold n.
    replace (fill (3 + network_digits imsi - lenZ imsi) 0) with (@nil Z) by (unfold fill; by replace (Z.to_nat _) with 0%nat by lia). rewrite app_nil_r.
    assert (length (take n imsi) = n) as Et by (rewrite length_take; unfold lenZ in Hl; lia).
    rewrite wrn_ok by (unfold lenZ in *; rewrite ?Et; lia). cbn [Z.to_nat take Nat.add app]. by rewrite Et. }
  unfold FetchSimOperator. rewrite Hr, told_digits_read. cbn [mbind res_bind]. replace (6 <=? lenZ imsi) with true by lia.
  unfold GetSmallestDigitsMccForMccText. assert (lenZ (take 3 imsi) = 3) as E3 by (unfold lenZ in *; rewrite length_take; lia). rewrite E3, take_take.
  change (3 `min` 3)%nat with 3%nat. rewrite Hc.
  unfold n, network_digits. split; [|split].
  - intros [-> | ->]; cbn [default from_option]; unfold id; destruct (listed_digits imsi) as [-> | ->]; cbn -[GetSmallestDigitsMccForMcc];
      [by rewrite take_take|destruct (smallest_digits (digits_value (take 3 imsi))) as [-> | ->]; cbn; by rewrite take_take|
       by rewrite take_take|destruct (smallest_digits (digits_value (take 3 imsi))) as [-> | ->]; cbn; by rewrite take_take].
  - intros ->. cbn. by rewrite take_take.
  - intros ->. cbn [default from_option]; unfold id. destruct (listed_digits imsi) as [-> | ->]; cbn; by rewrite take_take.
Qed.
Lemma operator_agrees_witness :
  let r := {| mSw1 := 0x90; mSw2 := 0; icc_data := Some [0; 0; 0; 2] |} in
  FetchCarrierForImsi (Some (str "310260123456789")) (Some (fill 7 0)) 7 = Ok (true, Some (str "310260" ++ [0])) ∧
  FetchSimOperator (str "310260123456789") r = Ok (str "310260").
Proof.
  intros r. pose proof (operator_agrees (str "310260123456789") (fill 7 0) 7 r) as H.
  destruct H as (_ & H1 & _ & _ & H2); [by_eval|done|done|done|done|]. split; [exact H1|by apply H2].
Defined.
