(* ===== verification/SimCardTheorems.v ===== *)
(** The commands for the card, the channels, the number of the subscriber and
    the slots: what is sent, byte by byte, and what is told of the answers. *)
From stdpp Require Import gmap.
From S2P Require Import Prelude RilDef Text Base64 WaitList Network Rcm Handler Layout RilData MccTable SimPackets SimPin SimPinTheorems SimIo SimCardPackets SimCard SimTheorems SimStatusTheorems.

(** ** What an answer is *)

(** an answer with the identifier [id] and the error [e] of the modem *)
Definition answer_header (hdr : list Z) (id e : Z) : Prop := response_header hdr e ∧ rd16 hdr off_id = Ok id.
Lemma when_id_here {A} ids (out : A) hdr id body f : lenZ hdr = 4 ∨ 4 < lenZ hdr → rd16 hdr off_id = Ok id → id ∈ ids → when_id ids out (Some (hdr ++ body)) f = f (hdr ++ body).
Proof.
  intros Hl Hid Hin. unfold when_id. assert (rd16 (hdr ++ body) off_id = Ok id) as ->.
  { unfold rd16, off_id in *. rewrite !rd_app_l by lia. exact Hid. }
  cbn [mbind res_bind]. by rewrite bool_decide_eq_true_2.
Qed.
Lemma success_code hdr id body : answer_header hdr id 0 → Rcm.GetErrorCode (Some (hdr ++ body)) = Ok RIL_E_SUCCESS.
Proof. intros [H _]. by rewrite (response_code _ _ _ H). Qed.
Lemma parameters hdr body : lenZ hdr = sizeof_RCM_HEADER → param_length (Some (hdr ++ body)) = Ok (lenZ body).
Proof.
  intros Hh. unfold param_length, Rcm.GetParameterLength. rewrite lenZ_app, Hh. pose proof (lenZ_nonneg body).
  destruct (Z.ltb_spec sizeof_RCM_HEADER (sizeof_RCM_HEADER + lenZ body)); f_equal; lia.
Qed.
(** a length that is true is told *)
Lemma told_here hdr body max n : lenZ hdr = sizeof_RCM_HEADER → n <= max → n + 2 <= lenZ body → told_length (Some (hdr ++ body)) max n = Ok n.
Proof.
  intros Hh Hm Hn. unfold told_length. rewrite (parameters _ _ Hh). cbn [mbind res_bind]. replace (max <? n) with false by lia.
  by replace (lenZ body - 2 <? n) with false by lia.
Qed.
Lemma hex_text_of p n : 0 < n <= lenZ p → bytes_ok p → hex_text p n = Ok (Some (hex_of (take (Z.to_nat n) p))).
Proof.
  intros Hn Hp. unfold hex_text. rewrite Value2HexString_zeros by lia. cbn [mbind res_bind fst snd]. replace (2 * n =? -1) with false by lia.
  replace (n * 2 + 1 - 2 * n) with 1 by lia. cbn [fmap option_fmap option_map]. do 2 f_equal. change (fill 1 0) with [0]. apply cstr_app.
  apply nonul_hex_of. by apply Forall_take.
Qed.
Lemma drop_hdr (hdr x : list Z) (n : nat) : length hdr = n → drop n (hdr ++ x) = x.
Proof. intros <-. by rewrite drop_app_length. Qed.

(** ** Commands on the basic channel *)

(** the packet of a command: the class carries the channel, the data are followed by as many zeros *)
Definition apdu_frame (token : Z) (r : SimAPDU) (data : list Z) : list Z :=
  header_bytes SIT_TRANSMIT_SIM_APDU_BASIC (sizeof_apdu_basic_req + 2 * lenZ data) token ++ le32 (u32 (m_nSessionid r)) ++ le16 (sizeof_sim_apdu + lenZ data) ++
  [Z.land (apdu_class r) 255; Z.land (m_nInstruction r) 255; Z.land (m_apduP1 r) 255; Z.land (m_apduP2 r) 255; Z.land (m_apduP3 r) 255] ++ padded (2 * lenZ data) data.
(** a command with [data] *)
Definition apdu_command (r : SimAPDU) (data : list Z) : Prop :=
  bytes_ok data ∧ sizeof_sim_apdu + lenZ data <= MAX_APDU_LEN ∧ apdu_text r = match data with [] => None | _ => Some (hex_of data) end.
Lemma apdu_packet t r data : apdu_command r data →
  BuildSimTransmitApduBasic t (m_nSessionid r) (apdu_class r) (m_nInstruction r) (m_apduP1 r) (m_apduP2 r) (m_apduP3 r) (apdu_text r) =
    Ok (Some (apdu_frame (GetNext t).1 r data), (GetNext t).2).
Proof.
  intros (Hb & Hl & Ht). unfold sizeof_sim_apdu, MAX_APDU_LEN in Hl. pose proof (lenZ_nonneg data) as Hn. unfold BuildSimTransmitApduBasic. rewrite Ht. clear Ht.
  assert (sizeof_apdu_basic_req + match match data with [] => None | _ => Some (hex_of data) end with Some s => lenZ s | None => 0 end = 23 + 2 * lenZ data) as ->
    by (destruct data; [done|by rewrite lenZ_hex_of]).
  assert (fill (23 + 2 * lenZ data) 0 = concat [fill 12 0; fill 4 0; fill 2 0; [0]; [0]; [0]; [0]; [0]; fill (2 * lenZ data) 0]) as ->.
  { cbn [concat]. rewrite app_nil_r. unfold fill. rewrite Z2Nat.inj_add, replicate_add by lia. done. }
  rewrite header_chunk by done. cbn [mbind res_bind fst snd].
  rewrite (wrn_chunk _ 1%nat (fill 4 0)) by done. cbn [mbind res_bind]. rewrite (wrn_chunk _ 2%nat (fill 2 0)) by done. cbn [mbind res_bind].
  rewrite (wr_chunk _ 3%nat 0) by done. cbn [mbind res_bind]. rewrite (wr_chunk _ 4%nat 0) by done. cbn [mbind res_bind].
  rewrite (wr_chunk _ 5%nat 0) by done. cbn [mbind res_bind]. rewrite (wr_chunk _ 6%nat 0) by done. cbn [mbind res_bind].
  rewrite (wr_chunk _ 7%nat 0) by done. cbn [mbind res_bind]. cbn [list_insert insert].
  unfold apdu_frame. change sizeof_apdu_basic_req with 23.
  destruct data as [|b data].
  - cbn [mbind res_bind fst snd]. rewrite (wrn_chunk _ 2%nat (le16 sizeof_sim_apdu)) by done. cbn [mbind res_bind]. done.
  - set (d := b :: data) in *. destruct (hex_of d) as [|c s] eqn:Eh; [by apply (f_equal length) in Eh|]. rewrite <- Eh.
    assert (apdu_bytes (hex_of d) = Ok (padded (2 * lenZ d) d, lenZ d)) as ->.
    { unfold apdu_bytes. rewrite lenZ_hex_of. rewrite HexString2Value_hex_of by (done || (rewrite lenZ_fill by lia; lia)). cbn [mbind res_bind fst snd as_buffer default from_option].
      unfold id, padded, fill. rewrite drop_replicate. do 5 f_equal. unfold lenZ. lia. }
    cbn [mbind res_bind fst snd]. unfold MAX_APDU_LEN, sizeof_sim_apdu. replace (16384 <? lenZ d + 5) with false by lia.
    assert (rdn (padded (2 * lenZ d) d) 0 (lenZ d) = Ok d) as ->.
    { rewrite rdn_ok by (try rewrite lenZ_padded; lia). unfold padded. change (Z.to_nat 0) with 0%nat. rewrite drop_0, take_app_length' by (unfold lenZ; lia). done. }
    cbn [mbind res_bind]. rewrite (wrn_padded _ 8%nat d (2 * lenZ d)) by (done || lia). cbn [mbind res_bind list_insert insert fst snd].
    rewrite (wrn_chunk _ 2%nat (le16 5)) by done. cbn [mbind res_bind list_insert insert]. unfold u16. rewrite Z.mod_small by (change (2 ^ 16) with 65536; lia).
    cbn [concat]. rewrite app_nil_r. done.
Qed.

(** no data, or their text *)
Lemma text_or_none (data : list Z) :
  data = [] ∧ match data with [] => None | _ => Some (hex_of data) end = None ∨ 0 < lenZ data ∧ match data with [] => None | _ => Some (hex_of data) end = Some (hex_of data).
Proof. destruct data as [|b d]; [by left|right]. split; [|done]. rewrite lenZ_cons. pose proof (lenZ_nonneg d). lia. Qed.
Section basic.
Context (hdr data : list Z) (sw1 sw2 : Z).
Hypothesis Hh : answer_header hdr SIT_TRANSMIT_SIM_APDU_BASIC 0.
Hypothesis Hb : bytes_ok data.
Hypothesis Hl : lenZ data + 2 <= MAX_APDU_LEN.
Let body := le16 (lenZ data + 2) ++ data ++ [sw1; sw2].
Local Abbreviation frame := (hdr ++ body).
Lemma basic_hdr : lenZ hdr = 12.
Proof. destruct Hh as [ [H _] _]. exact H. Qed.
Lemma basic_here {A} (out : A) f : when_id [SIT_TRANSMIT_SIM_APDU_BASIC] out (Some frame) f = f frame.
Proof. destruct Hh as [_ Hid]. apply (when_id_here _ _ _ SIT_TRANSMIT_SIM_APDU_BASIC); [rewrite basic_hdr; lia|exact Hid|by left]. Qed.
Lemma basic_length : basic_GetApduLength (Some frame) = Ok (lenZ data + 2).
Proof.
  pose proof (lenZ_nonneg data). unfold MAX_APDU_LEN in Hl. unfold basic_GetApduLength. rewrite basic_here. unfold body.
  rewrite (rd16_le16 hdr (lenZ data + 2) _ 12) by (apply basic_hdr || lia). cbn [mbind res_bind]. apply (told_here hdr body); [apply basic_hdr|done|].
  unfold body. rewrite !lenZ_app. change (lenZ (le16 (lenZ data + 2))) with 2. change (lenZ [sw1; sw2]) with 2. lia.
Qed.
Lemma basic_words : frame.[14 + lenZ data] = Ok sw1 ∧ frame.[14 + lenZ data + 1] = Ok sw2.
Proof.
  unfold body. split.
  - replace (hdr ++ le16 (lenZ data + 2) ++ data ++ [sw1; sw2]) with ((hdr ++ le16 (lenZ data + 2) ++ data) ++ sw1 :: [sw2]) by by rewrite <- !app_assoc.
    apply rd_at. rewrite !lenZ_app, basic_hdr. change (lenZ (le16 (lenZ data + 2))) with 2. lia.
  - replace (hdr ++ le16 (lenZ data + 2) ++ data ++ [sw1; sw2]) with ((hdr ++ le16 (lenZ data + 2) ++ data ++ [sw1]) ++ sw2 :: []) by by rewrite <- !app_assoc.
    apply rd_at. rewrite !lenZ_app, basic_hdr. change (lenZ (le16 (lenZ data + 2))) with 2. change (lenZ [sw1]) with 1. lia.
Qed.
Lemma basic_word_here k v : frame.[14 + (lenZ data + 2) - k] = Ok v → basic_word (Some frame) k = Ok v.
Proof. intros Hv. unfold basic_word. rewrite basic_here, basic_length. cbn [mbind res_bind]. pose proof (lenZ_nonneg data). by replace (2 <=? lenZ data + 2) with true by lia. Qed.
Lemma basic_response : BuildSimTransmitApduBasicResponse (lenZ data + 2) (Some frame) =
  Ok (Some {| io_sw1 := sw1; io_sw2 := sw2; simResponse := match data with [] => None | _ => Some (hex_of data) end |}).
Proof.
  unfold BuildSimTransmitApduBasicResponse. rewrite basic_here. cbn [mbind res_bind].
  assert ((if 2 <? lenZ data + 2 then t ← hex_text (drop 14 frame) (lenZ data + 2 - 2); Ok (match t with Some t => Some (Some t) | None => None end) else Ok (Some None))
    = Ok (Some (match data with [] => None | _ => Some (hex_of data) end))) as ->.
  { destruct (text_or_none data) as [ [E ->]|[Hpos ->] ]; [by rewrite E|].
    replace (2 <? lenZ data + 2) with true by lia. replace (lenZ data + 2 - 2) with (lenZ data) by lia.
    assert (drop 14 frame = data ++ [sw1; sw2]) as ->.
    { unfold body. rewrite app_assoc. apply drop_hdr. rewrite length_app. pose proof basic_hdr as E. unfold lenZ in E. cbn. lia. }
    unfold hex_text. rewrite Value2HexString_zeros by (rewrite ?lenZ_app; change (lenZ [sw1; sw2]) with 2; lia). cbn [mbind res_bind fst snd].
    replace (2 * lenZ data =? -1) with false by lia. replace (lenZ data * 2 + 1 - 2 * lenZ data) with 1 by lia. cbn [fmap option_fmap option_map mbind res_bind].
    rewrite take_app_length' by (unfold lenZ; lia). change (fill 1 0) with [0]. rewrite cstr_app by by apply nonul_hex_of. done. }
  cbn [mbind res_bind]. destruct basic_words as [H1 H2]. replace (14 + (lenZ data + 2) - 2) with (14 + lenZ data) by lia.
  replace (14 + (lenZ data + 2) - 1) with (14 + lenZ data + 1) by lia. by rewrite H1, H2.
Qed.
End basic.

(** C27: A command to the card on the basic channel.  Its packet has the session, the
    class with the number of the channel in it, the four parameters and the data,
    byte by byte.  When the card answers that the length is wrong and names the
    right one, the same command is sent again with that length and nothing is
    told; otherwise the data of the answer are told in hexadecimal with both
    status words; and when the repetition cannot be sent the command fails. *)
Theorem apdu_basic_exchange r sent e s hdr data sw1 sw2 :
  apdu_command r sent → answer_header hdr SIT_TRANSMIT_SIM_APDU_BASIC 0 → bytes_ok data → lenZ data + 2 <= MAX_APDU_LEN →
  let t := GetNext (sim_token s) in
  let command r := (apdu_frame t.1 r sent) in
  (∀ ok, send_ok e = ok → DoTransmitSimApduBasic (Some r) e s =
    Ok (if ok then 0 else -1, set_token t.2 s, [ (if ok then ActSend else ActUnsent) (command r) MSG_SIM_TRANSMIT_APDU_BASIC_DONE])) ∧
  OnTransmitSimApduBasicDone (Some (CurApdu r)) (Some (hdr ++ le16 (lenZ data + 2) ++ data ++ [sw1; sw2])) e s =
    Ok (if sw1 =? 0x6C
        then (0, set_token t.2 s,
              if send_ok e then [ActSend (command (SetP3 sw2 r)) MSG_SIM_TRANSMIT_APDU_BASIC_DONE]
              else [ActUnsent (command (SetP3 sw2 r)) MSG_SIM_TRANSMIT_APDU_BASIC_DONE; ActComplete RIL_E_INTERNAL_ERR AnsNone])
        else (0, s, [ActComplete RIL_E_SUCCESS (AnsSimIo sw1 sw2 (match data with [] => None | _ => Some (hex_of data) end))])).
Proof.
  intros Hr Hh Hb Hl t command.
  assert (∀ r, apdu_command r sent → ∀ ok, send_ok e = ok → DoTransmitSimApduBasic (Some r) e s =
    Ok (if ok then 0 else -1, set_token t.2 s, [ (if ok then ActSend else ActUnsent) (command r) MSG_SIM_TRANSMIT_APDU_BASIC_DONE])) as Hdo.
  { intros r' Hr' ok Hok. unfold DoTransmitSimApduBasic, NULL_REQ.
    pose proof (run_build (λ t, BuildSimTransmitApduBasic t (m_nSessionid r') (apdu_class r') (m_nInstruction r') (m_apduP1 r') (m_apduP2 r') (m_apduP3 r') (apdu_text r')) e s _
      (apdu_packet (sim_token s) r' sent Hr')) as B.
    apply (run_bind _ _ _ _ _ _ [] _ _ _ B). cbn [fst snd]. destruct ok; apply (run_bind _ _ _ _ (if send_ok e then 0 else -1) (set_token t.2 s) [_] _ _ []);
      unfold send; rewrite ?Hok; done. }
  split; [by apply Hdo|]. unfold OnTransmitSimApduBasicDone.
  assert (apdu_command (SetP3 sw2 r) sent) as Hr2 by exact Hr.
  rewrite (run_lift _ _ _ _ _ (success_code hdr _ _ Hh)). rewrite Z.eqb_refl. pose proof (lenZ_nonneg data) as Hn.
  rewrite (run_bind_zero _ (0) _ _ (if sw1 =? 0x6C then set_token t.2 s else s) (if sw1 =? 0x6C
    then if send_ok e then [ActSend (command (SetP3 sw2 r)) MSG_SIM_TRANSMIT_APDU_BASIC_DONE]
         else [ActUnsent (command (SetP3 sw2 r)) MSG_SIM_TRANSMIT_APDU_BASIC_DONE; ActComplete RIL_E_INTERNAL_ERR AnsNone]
    else [ActComplete RIL_E_SUCCESS (AnsSimIo sw1 sw2 (match data with [] => None | _ => Some (hex_of data) end))])); [by destruct (sw1 =? 0x6C)|].
  rewrite (run_lift _ _ _ _ _ (basic_length hdr data sw1 sw2 Hh Hl)), (run_lift _ _ _ _ _ (basic_response hdr data sw1 sw2 Hh Hb)). cbv iota.
  destruct (basic_words hdr data sw1 sw2 Hh) as [W1 W2].
  rewrite (run_lift (basic_GetSw1 _) _ sw1) by (apply basic_word_here; [done..|]; rewrite <- W1; f_equal; lia).
  rewrite (run_lift (basic_GetSw2 _) _ sw2) by (apply basic_word_here; [done..|]; rewrite <- W2; f_equal; lia).
  destruct (sw1 =? 0x6C); [|done]. unfold repeat_command. rewrite (run_lift _ _ r) by done.
  pose proof (Hdo _ Hr2 (send_ok e) eq_refl) as D. destruct (send_ok e).
  - exact (run_bind _ _ _ _ _ _ _ _ _ [] D eq_refl).
  - exact (run_bind _ _ _ _ _ _ _ _ _ [ActComplete RIL_E_INTERNAL_ERR AnsNone] D eq_refl).
Qed.
Lemma apdu_basic_exchange_witness :
  let r := {| m_nSessionid := 1; m_nCla := 0; m_nInstruction := 0xC0; m_apduP1 := 0; m_apduP2 := 0; m_apduP3 := 0; m_apduLength := 0; m_pData := None |} in
  let e := plain_env true true in
  let s := newSimService ∅ 5 in
  let hdr := [1; 0; 0x0C; 2; 0; 0; 0; 0; 0; 0; 0; 0] in
  rd16 hdr off_id = Ok 0x20C ∧
  OnTransmitSimApduBasicDone (Some (CurApdu r)) (Some (hdr ++ le16 2 ++ [] ++ [0x6C; 0x1A])) e s =
    Ok (0, set_token (GetNext 5).2 s, [ActSend (apdu_frame (GetNext 5).1 (SetP3 0x1A r) []) MSG_SIM_TRANSMIT_APDU_BASIC_DONE]).
Proof.
  intros r e s hdr. split; [by vm_compute|].
  destruct (apdu_basic_exchange r [] e s hdr [] 0x6C 0x1A) as [_ H]; [|split; [|by vm_compute]|by_eval|done|exact H].
  - split; [by_eval|]. split; [|done]. by vm_compute.
  - split; [done|]. split; by vm_compute.
Defined.

(** ** The slots *)

Record SlotInfo := { sl_card : Z; sl_state : Z; sl_atr : list Z; sl_logical : Z; sl_iccid : list Z; sl_eid : list Z }.
(** a slot in a frame *)
Definition slot_fields (i : SlotInfo) : list (list Z) :=
  [ [sl_card i]; [sl_state i]; [lenZ (sl_atr i)]; padded MAX_ATR_LEN_FOR_SLOT_STATUS (sl_atr i); [sl_logical i]; [lenZ (sl_iccid i)]; padded MAX_ICCID_LEN (sl_iccid i);
    [lenZ (sl_eid i)]; padded MAX_EID_LEN (sl_eid i) ].
Definition slot_bytes (i : SlotInfo) : list Z := concat (slot_fields i).
Definition slot_wf (i : SlotInfo) : Prop :=
  bytes_ok (sl_atr i) ∧ lenZ (sl_atr i) <= MAX_ATR_LEN_FOR_SLOT_STATUS ∧ bytes_ok (sl_iccid i) ∧ lenZ (sl_iccid i) <= MAX_ICCID_LEN ∧
  bytes_ok (sl_eid i) ∧ lenZ (sl_eid i) <= MAX_EID_LEN.
(** what the framework is told of it: the texts of a card that is there *)
Definition text_of (l : list Z) : option (list Z) := match l with [] => None | _ => Some (hex_of l) end.
Definition told_slot (i : SlotInfo) : SlotStatus :=
  if (sl_card i =? RIL_CARDSTATE_PRESENT) || (sl_card i =? RIL_CARDSTATE_RESTRICTED)
  then {| cardState := sl_card i; slotState := sl_state i; logicalSlotId := sl_logical i; atr_size := lenZ (sl_atr i) * 2 + 1; slot_atr := text_of (sl_atr i);
          iccid_size := lenZ (sl_iccid i) * 2 + 1; slot_iccid := Some (bchToString (sl_iccid i)); eid_size := lenZ (sl_eid i) * 2 + 1; slot_eid := text_of (sl_eid i) |}
  else {| cardState := sl_card i; slotState := sl_state i; logicalSlotId := sl_logical i; atr_size := 0; slot_atr := None; iccid_size := 0; slot_iccid := None;
          eid_size := 0; slot_eid := None |}.
Lemma lenZ_slot_bytes i : slot_wf i → lenZ (slot_bytes i) = sizeof_slot_info.
Proof. intros (_ & H1 & _ & H2 & _ & H3). unfold slot_bytes. rewrite lenZ_concat. unfold slot_fields, size_of. cbn [foldr]. by rewrite !lenZ_padded by done. Qed.
Lemma lenZ_slots l : Forall slot_wf l → lenZ (concat (slot_bytes <$> l)) = sizeof_slot_info * lenZ l.
Proof.
  induction 1 as [|i l Hi _ IH]; [done|]. rewrite fmap_cons. cbn [concat]. rewrite lenZ_app, IH, lenZ_slot_bytes, lenZ_cons by done. unfold sizeof_slot_info. lia.
Qed.
Lemma lenZ_bch l : lenZ (bchToString l) = 2 * lenZ l.
Proof. unfold lenZ, bchToString. induction l as [|b l IH]; [done|]. rewrite bind_cons, length_app. cbn [length]. lia. Qed.
Lemma hex_text_prefix (s post : list Z) : bytes_ok s → hex_text (s ++ post) (lenZ s) = Ok (text_of s).
Proof.
  intros Hs. destruct s as [|b s]; [done|]. unfold text_of. set (d := b :: s) in *. assert (0 < lenZ d) by (unfold d; rewrite lenZ_cons; pose proof (lenZ_nonneg s); lia).
  unfold hex_text. rewrite Value2HexString_zeros by (rewrite ?lenZ_app; pose proof (lenZ_nonneg post); lia). cbn [mbind res_bind fst snd].
  replace (2 * lenZ d =? -1) with false by lia. replace (lenZ d * 2 + 1 - 2 * lenZ d) with 1 by lia. cbn [fmap option_fmap option_map].
  rewrite take_app_length' by (unfold lenZ; lia). change (fill 1 0) with [0]. by rewrite cstr_app by by apply nonul_hex_of.
Qed.
Section one_slot.
Context (h0 : Z) (hdr : list Z) (l1 : list SlotInfo) (i : SlotInfo) (l2 : list SlotInfo) (rest : list Z) (id : Z).
Hypothesis Hh : lenZ hdr = h0.
Hypothesis Hlen : 4 <= h0.
Hypothesis Hid : rd16 hdr off_id = Ok id.
Hypothesis Hin : id ∈ slot_ids.
Hypothesis Hw : Forall slot_wf (l1 ++ i :: l2).
Local Abbreviation frame := (hdr ++ [lenZ (l1 ++ i :: l2)] ++ concat (slot_bytes <$> l1 ++ i :: l2) ++ rest).
Lemma slot_here {A} (out : A) f : when_id slot_ids out (Some frame) f = f frame.
Proof. apply (when_id_here _ _ _ id); [lia|done|done]. Qed.
Lemma slot_wf_here : slot_wf i ∧ Forall slot_wf l1.
Proof. apply Forall_app in Hw as [? H]. by apply Forall_cons in H as [? _]. Qed.
Lemma slot_split : ∃ pre post, frame = pre ++ slot_bytes i ++ post ∧ lenZ pre = h0 + 1 + sizeof_slot_info * lenZ l1.
Proof.
  exists (hdr ++ [lenZ (l1 ++ i :: l2)] ++ concat (slot_bytes <$> l1)). eexists. split.
  - rewrite fmap_app, concat_app, fmap_cons. cbn [concat]. rewrite <- !app_assoc. reflexivity.
  - destruct slot_wf_here as [_ H1]. generalize (lenZ (l1 ++ i :: l2)). intros m. rewrite !lenZ_app, lenZ_slots, Hh by done. change (lenZ [m]) with 1. lia.
Qed.
Lemma slot_field k v off : slot_fields i !! k = Some [v] → off = size_of (take k (slot_fields i)) → frame.[h0 + 1 + sizeof_slot_info * lenZ l1 + off] = Ok v.
Proof.
  intros Hk Ho. destruct slot_split as (pre & post & -> & El). pose proof (rd_chunk _ _ _ _ Hk Ho) as Hv. fold (slot_bytes i) in Hv.
  destruct (rd_inv _ _ _ Hv) as [Hr _]. by rewrite (rd_local pre _ post _ off El).
Qed.
(** the offsets of the fields *)
Lemma slot_offsets : (λ k, size_of (take k (slot_fields i))) <$> [0; 1; 2; 3; 4; 5; 6; 7; 8]%nat = [0; 1; 2; 3; 36; 37; 38; 48; 49].
Proof.
  destruct slot_wf_here as [(_ & H1 & _ & H2 & _ & H3) _]. cbn [fmap list_fmap slot_fields take size_of foldr]. rewrite !lenZ_padded by done. done.
Qed.
Lemma slot_offset (k : nat) off : [0; 1; 2; 3; 36; 37; 38; 48; 49] !! k = Some off → off = size_of (take k (slot_fields i)).
Proof.
  rewrite <- slot_offsets. do 9 (destruct k as [|k]; [intros H; by injection H|]). intros H. done.
Qed.
Lemma slot_byte_here k off v : slot_fields i !! k = Some [v] → [0; 1; 2; 3; 36; 37; 38; 48; 49] !! k = Some off → slot_byte h0 (Some frame) (lenZ l1) off = Ok v.
Proof. intros Hk Ho. unfold slot_byte. rewrite slot_here. apply (slot_field k); [done|by apply slot_offset]. Qed.
Lemma text_size_here k off (s : list Z) : slot_fields i !! k = Some [lenZ s] → [0; 1; 2; 3; 36; 37; 38; 48; 49] !! k = Some off → text_size h0 (Some frame) (lenZ l1) off = Ok (lenZ s * 2 + 1).
Proof. intros Hk Ho. unfold text_size. rewrite slot_here. rewrite (slot_field k _ off Hk) by by apply slot_offset. done. Qed.
(** what lies behind the length of a text *)
Lemma slot_text k off n s : slot_fields i !! S k = Some (padded n s) → lenZ s <= n → [0; 1; 2; 3; 36; 37; 38; 48; 49] !! S k = Some off →
  ∃ post, drop (Z.to_nat (h0 + 1 + sizeof_slot_info * lenZ l1 + off)) frame = s ++ post.
Proof.
  intros Hk Hs Ho. apply slot_offset in Ho. destruct slot_split as (pre & post & -> & El). destruct (concat_at _ _ _ Hk) as [E Et]. fold (slot_bytes i) in E. rewrite E.
  unfold padded. exists (fill (n - lenZ s) 0 ++ concat (drop (S (S k)) (slot_fields i)) ++ post).
  rewrite !app_assoc. rewrite <- (app_assoc pre). rewrite <- Et in Ho. rewrite <- !app_assoc. rewrite app_assoc.
  rewrite drop_app_length'; [done|]. rewrite length_app. unfold lenZ in *. lia.
Qed.
Lemma slot_read k off n (s : list Z) : slot_fields i !! k = Some (padded n s) → lenZ s <= n → [0; 1; 2; 3; 36; 37; 38; 48; 49] !! k = Some off →
  rdn frame (h0 + 1 + sizeof_slot_info * lenZ l1 + off) (lenZ s) = Ok s.
Proof.
  intros Hk Hs Ho. apply slot_offset in Ho. destruct slot_split as (pre & post & -> & El). pose proof (lenZ_nonneg s).
  pose proof (rdn_chunk _ k _ off 0 (lenZ s) Hk) as R. rewrite lenZ_padded in R by done. specialize (R ltac:(lia) ltac:(lia) ltac:(lia) ltac:(lia)). fold (slot_bytes i) in R.
  change (Z.to_nat 0) with 0%nat in R. unfold padded in R. rewrite drop_0, take_app_length' in R by (unfold lenZ; lia).
  rewrite (rdn_local pre _ post _ off (lenZ s) El); [exact R| |done|].
  - subst off. unfold size_of. generalize (take k (slot_fields i)). intros l. induction l as [|x l IH]; cbn [foldr]; [done|]. pose proof (lenZ_nonneg x). lia.
  - destruct (concat_at _ _ _ Hk) as [E Et]. fold (slot_bytes i) in E. rewrite E, lenZ_app, Et, lenZ_app, lenZ_padded by done.
    pose proof (lenZ_nonneg (concat (drop (S k) (slot_fields i)))). lia.
Qed.
Lemma slot_hex_here k off n (s : list Z) : slot_fields i !! k = Some [lenZ s] → slot_fields i !! S k = Some (padded n s) → bytes_ok s → lenZ s <= n →
  [0; 1; 2; 3; 36; 37; 38; 48; 49] !! k = Some off → [0; 1; 2; 3; 36; 37; 38; 48; 49] !! S k = Some (off + 1) → slot_hex h0 (Some frame) (lenZ l1) off = Ok (text_of s).
Proof.
  intros Hk Hk' Hb Hs Ho Ho'. unfold slot_hex. rewrite slot_here. cbv zeta. rewrite (slot_field k _ off Hk) by by apply slot_offset. cbn [mbind res_bind].
  destruct (slot_text k (off + 1) n s Hk' Hs Ho') as [post E]. rewrite <- Z.add_assoc, E. by apply hex_text_prefix.
Qed.
Lemma in_row_text size (s : list Z) : 2 * lenZ s < size → in_row_opt size (text_of s) = Ok (text_of s).
Proof.
  intros Hs. unfold text_of, in_row_opt, in_row. destruct s as [|b s]; [done|]. set (d := b :: s) in *. rewrite lenZ_hex_of. by replace (2 * lenZ d <? size) with true by lia.
Qed.
Lemma slot_told_here : slot_status h0 (Some frame) (lenZ l1) = Ok (told_slot i).
Proof.
  destruct slot_wf_here as [(Ha & Hal & Hi & Hil & He & Hel) _]. change MAX_ATR_LEN_FOR_SLOT_STATUS with 33 in *. change MAX_ICCID_LEN with 10 in *. change MAX_EID_LEN with 16 in *.
  pose proof (lenZ_nonneg (sl_atr i)). pose proof (lenZ_nonneg (sl_iccid i)). pose proof (lenZ_nonneg (sl_eid i)).
  unfold slot_status, GetCardState, GetSlotState, GetLogicalSlotId. rewrite (slot_byte_here 0 0 (sl_card i)), (slot_byte_here 1 1 (sl_state i)), (slot_byte_here 4 36 (sl_logical i)) by done.
  cbn [mbind res_bind]. unfold told_slot. destruct (_ || _); [|done]. unfold GetAtrSize, GetIccIdSize, GetEidSize, GetAtr, GetEid.
  rewrite (text_size_here 2 2 (sl_atr i)) by done. cbn [mbind res_bind]. replace (0 <? lenZ (sl_atr i) * 2 + 1) with true by lia.
  rewrite (slot_hex_here 2 2 33 (sl_atr i)) by done. cbn [mbind res_bind]. rewrite in_row_text by (unfold MAX_ATR_LEN_FOR_SLOT_STATUS; lia). cbn [mbind res_bind].
  rewrite (text_size_here 5 37 (sl_iccid i)) by done. cbn [mbind res_bind]. replace (0 <? lenZ (sl_iccid i) * 2 + 1) with true by lia.
  assert (GetIccId h0 (Some frame) (lenZ l1) = Ok (bchToString (sl_iccid i))) as ->.
  { unfold GetIccId. rewrite slot_here. cbv zeta. rewrite (slot_field 5 _ 37 eq_refl) by by apply slot_offset. cbn [mbind res_bind].
    replace (h0 + 1 + sizeof_slot_info * lenZ l1 + 37 + 1) with (h0 + 1 + sizeof_slot_info * lenZ l1 + 38) by lia. by rewrite (slot_read 6 38 10 (sl_iccid i)) by done. }
  cbn [mbind res_bind]. unfold iccid_row, in_row. rewrite lenZ_bch. change (MAX_ICCID_LEN * 2 + 1) with 21.
  replace (21 <? lenZ (sl_iccid i) * 2 + 1) with false by lia. replace (2 * lenZ (sl_iccid i) <? 21) with true by lia. cbn [mbind res_bind].
  rewrite (take_ge (bchToString (sl_iccid i))) by (pose proof (lenZ_bch (sl_iccid i)) as E; unfold lenZ in *; lia).
  rewrite (text_size_here 7 48 (sl_eid i)) by done. cbn [mbind res_bind]. replace (0 <? lenZ (sl_eid i) * 2 + 1) with true by lia.
  rewrite (slot_hex_here 7 48 16 (sl_eid i)) by done. cbn [mbind res_bind]. rewrite in_row_text by (unfold MAX_EID_LEN; lia). done.
Qed.
End one_slot.
Lemma slots_loop h0 hdr rest id n (l1 l2 : list SlotInfo) out : lenZ hdr = h0 → 4 <= h0 → rd16 hdr off_id = Ok id → id ∈ slot_ids → Forall slot_wf (l1 ++ l2) → n = length l2 →
  for_up n (lenZ l1) (λ i l, s ← slot_status h0 (Some (hdr ++ [lenZ (l1 ++ l2)] ++ concat (slot_bytes <$> l1 ++ l2) ++ rest)) i; Ok (l ++ [s])) out = Ok (out ++ (told_slot <$> l2)).
Proof.
  intros Hh Hlen Hid Hin. revert n l1 out. induction l2 as [|i l2 IH]; intros n l1 out Hw ->; cbn [length for_up fmap list_fmap]; [by rewrite app_nil_r|].
  rewrite (slot_told_here h0 hdr l1 i l2 rest id) by done. cbn [mbind res_bind]. replace (lenZ l1 + 1) with (lenZ (l1 ++ [i])) by by rewrite lenZ_app.
  replace (l1 ++ i :: l2) with ((l1 ++ [i]) ++ l2) in * by by rewrite <- app_assoc. rewrite (IH (length l2)) by done. by rewrite <- app_assoc.
Qed.
(** The status of the slots.  For a well-formed answer or indication of at most
    four slots the framework is told, slot by slot and in order, what the frame
    says: the states and the logical slot, and for a card that is there its ATR
    and its EID in hexadecimal and the identifier of the card with the digits of
    each byte in the order of the card. *)
Theorem slot_statuses_told h0 hdr rest id l : lenZ hdr = h0 → 4 <= h0 → rd16 hdr off_id = Ok id → id ∈ slot_ids → Forall slot_wf l → lenZ l <= MAX_SLOT_NUM →
  slot_statuses h0 (Some (hdr ++ [lenZ l] ++ concat (slot_bytes <$> l) ++ rest)) = Ok (told_slot <$> l).
Proof.
  intros Hh Hlen Hid Hin Hw Hn. unfold slot_statuses, GetNumOfSlotStatus. rewrite (when_id_here _ _ _ id) by (done || lia).
  etrans; [apply (bind_eq _ (lenZ l)); by apply (rd_at hdr (lenZ l))|]. replace (MAX_SLOT_NUM <? lenZ l) with false by lia.
  rewrite (slots_loop h0 hdr rest id _ [] l []) by (done || (unfold lenZ; lia)). done.
Qed.
Lemma slot_statuses_told_witness :
  let i := {| sl_card := 1; sl_state := 1; sl_atr := [0x3B; 0x9F]; sl_logical := 0; sl_iccid := [0x98; 0x10]; sl_eid := [] |} in
  let j := {| sl_card := 0; sl_state := 0; sl_atr := []; sl_logical := 1; sl_iccid := []; sl_eid := [] |} in
  slot_statuses sizeof_RCM_HEADER (Some ([1; 0; 0x4D; 2; 0; 0; 0; 0; 0; 0; 0; 0] ++ [2] ++ concat (slot_bytes <$> [i; j]) ++ [])) =
    Ok [ {| cardState := 1; slotState := 1; logicalSlotId := 0; atr_size := 5; slot_atr := Some (str "3B9F"); iccid_size := 5; slot_iccid := Some (str "8901");
            eid_size := 1; slot_eid := None |};
         {| cardState := 0; slotState := 0; logicalSlotId := 1; atr_size := 0; slot_atr := None; iccid_size := 0; slot_iccid := None; eid_size := 0; slot_eid := None |} ].
Proof.
  intros i j. refine (slot_statuses_told sizeof_RCM_HEADER [1; 0; 0x4D; 2; 0; 0; 0; 0; 0; 0; 0; 0] [] SIT_GET_SLOT_STATUS [i; j] _ _ _ _ _ _); [done|done|by vm_compute|by left| |done].
  apply Forall_cons_2; [|apply Forall_cons_2; [|apply Forall_nil_2] ]; unfold slot_wf; cbn; (split; [by_eval|]; split; [by vm_compute|]; split; [by_eval|]; split; [by vm_compute|]; split; [by_eval|by vm_compute]).
Defined.

(** ** Opening a channel *)

Lemma SetInt_at (pre : list Z) x post v : SetInt (lenZ pre) v (pre ++ x :: post) = (true, pre ++ v :: post).
Proof.
  unfold SetInt. pose proof (lenZ_nonneg pre). rewrite lenZ_app, lenZ_cons. pose proof (lenZ_nonneg post).
  replace ((lenZ pre <? 0) || (lenZ pre + (1 + lenZ post) <=? lenZ pre)) with false by lia. unfold lenZ. rewrite Nat2Z.id. f_equal.
  etrans; [exact (insert_app_r_alt pre (x :: post) (length pre) v (Nat.le_refl _))|by rewrite Nat.sub_diag].
Qed.
Lemma ints_loop x (sofar data rest tail : list Z) :
  for_up (length data) (lenZ sofar) (λ i d, b ← (sofar ++ data ++ rest).[i]; Ok (SetInt (i + 1) b d).2) (x :: sofar ++ fill (lenZ data) 0 ++ tail) =
    Ok (x :: sofar ++ data ++ tail).
Proof.
  revert sofar. induction data as [|b data IH]; intros sofar; [done|]. cbn [length for_up]. cbn [app]. rewrite (rd_at sofar b) by done. cbn [mbind res_bind].
  replace (fill (lenZ (b :: data)) 0) with (0 :: fill (lenZ data) 0) by (unfold fill, lenZ; by rewrite !Nat2Z.id).
  pose proof (SetInt_at (x :: sofar) 0 (fill (lenZ data) 0 ++ tail) b) as E. rewrite lenZ_cons in E. replace (1 + lenZ sofar) with (lenZ sofar + 1) in E by lia.
  cbn [app] in E |- *. rewrite E. cbn [snd]. specialize (IH (sofar ++ [b])). rewrite lenZ_app in IH. change (lenZ [b]) with 1 in IH. rewrite <- !app_assoc in IH. cbn [app] in IH. exact IH.
Qed.
(** the session, the bytes of the answer, the status words *)
Lemma open_response session sw1 sw2 data rest : BuildSimOpenChannelResponse session sw1 sw2 (lenZ data) (Some (data ++ rest)) = Ok (session :: data ++ [sw1; sw2]).
Proof.
  unfold BuildSimOpenChannelResponse. pose proof (lenZ_nonneg data) as Hn.
  assert ((SetInt 0 session (newRilDataInts (3 + lenZ data))).2 = session :: fill (lenZ data) 0 ++ [0; 0]) as ->.
  { unfold newRilDataInts. assert (fill (3 + lenZ data) 0 = 0 :: fill (lenZ data) 0 ++ [0; 0]) as ->; [|exact (f_equal snd (SetInt_at [] 0 _ session))].
    change [0; 0] with (replicate 2 0). unfold fill. rewrite <- replicate_add. replace (Z.to_nat (3 + lenZ data)) with (S (Z.to_nat (lenZ data) + 2)) by lia. done. }
  etrans; [apply (bind_eq _ (session :: data ++ [0; 0] : RilDataInts))|].
  { destruct (Z.ltb_spec 0 (lenZ data)) as [_|H0]; [unfold lenZ at 1; rewrite Nat2Z.id; exact (ints_loop session [] data rest [0; 0])|].
    destruct data; [done|]. rewrite lenZ_cons in *. pose proof (lenZ_nonneg data). lia. }
  pose proof (SetInt_at (session :: data) 0 [0] sw1) as E. rewrite lenZ_cons in E. replace (1 + lenZ data) with (lenZ data + 1) in E by lia. cbn [app] in E. rewrite E. cbn [snd].
  pose proof (SetInt_at (session :: data ++ [sw1]) 0 [] sw2) as E2. rewrite lenZ_cons, lenZ_app in E2. change (lenZ [sw1]) with 1 in E2.
  replace (1 + (lenZ data + 1)) with (lenZ data + 2) in E2 by lia. cbn [app] in E2. rewrite <- !app_assoc in E2. cbn [app] in E2. by rewrite E2.
Qed.
(** The answer to the opening of a channel.  Whether it succeeded or not, the
    framework is told the session, the bytes of the application's answer, one
    number each, and the two status words after them; a general failure because
    the application is not there is told as such. *)
Theorem open_channel_told hdr id err session sw1 sw2 data e s :
  answer_header hdr id err → id ∈ open_ids → - 2 ^ 31 <= session < 2 ^ 31 → lenZ data <= MAX_OPEN_CHANNEL_RSP_LEN →
  let code := ConvertProtocolErrorCodeToRilErrorCode (Z.land err 255) in
  OnOpenSimChannelDone (Some (hdr ++ le32 (u32 session) ++ [sw1; sw2] ++ le16 (lenZ data) ++ data)) e s =
    Ok (0, s, [ActComplete (if (code =? RIL_E_GENERIC_FAILURE) && (sw1 =? 0x69) && ((sw2 =? 0x85) || (sw2 =? 0x99)) then RIL_E_NO_SUCH_ELEMENT else code)
                 (AnsInts (session :: data ++ [sw1; sw2]))]).
Proof.
  intros [Hh Hid] Hin Hs Hl code. unfold MAX_OPEN_CHANNEL_RSP_LEN in Hl. pose proof (lenZ_nonneg data) as Hn. destruct Hh as (H12 & Ht & He) eqn:E. clear E.
  assert (response_header hdr err) as Hr by done. set (body := le32 (u32 session) ++ [sw1; sw2] ++ le16 (lenZ data) ++ data).
  assert (∀ A (out : A) f, when_id open_ids out (Some (hdr ++ body)) f = f (hdr ++ body)) as Hhere.
  { intros A out f. apply (when_id_here _ _ _ id); [rewrite H12; unfold sizeof_RCM_HEADER; lia|done|done]. }
  unfold OnOpenSimChannelDone. rewrite (run_lift _ _ _ _ _ (response_code _ _ _ Hr)). fold code.
  rewrite (run_lift (open_GetSessionID _) _ session).
  2: { unfold open_GetSessionID. rewrite Hhere. unfold body. rewrite (rd32_le32 hdr (u32 session) _ 12) by (done || (unfold u32; apply Z.mod_pos_bound; done)).
       cbn [mbind res_bind]. by rewrite i32_u32. }
  rewrite (run_lift (open_GetSw1 _) _ sw1).
  2: { unfold open_GetSw1. rewrite Hhere. unfold body. rewrite app_assoc. apply rd_at. by rewrite lenZ_app, H12. }
  rewrite (run_lift (open_GetSw2 _) _ sw2).
  2: { unfold open_GetSw2. rewrite Hhere. unfold body. change ([sw1; sw2] ++ ?x) with ([sw1] ++ sw2 :: x). rewrite !app_assoc. apply rd_at. by rewrite !lenZ_app, H12. }
  rewrite (run_lift (open_GetResponseLength _) _ (lenZ data)).
  2: { unfold open_GetResponseLength. rewrite Hhere. assert (rd16 (hdr ++ body) 18 = Ok (lenZ data)) as ->.
       { unfold body. rewrite !app_assoc, <- (app_assoc _ (le16 _)). apply rd16_le16; [by rewrite !lenZ_app, H12|lia]. }
       cbn [mbind res_bind]. assert (i16 (lenZ data) = lenZ data) as -> by (unfold i16; change (2 ^ 15) with 32768; change (2 ^ 16) with 65536; lia). apply told_here; [done|done|]. unfold body. rewrite !lenZ_app. change (lenZ (le32 (u32 session))) with 4.
       change (lenZ [sw1; sw2]) with 2. change (lenZ (le16 (lenZ data))) with 2. lia. }
  rewrite (run_lift (open_GetResponse _) _ (Some data)).
  2: { unfold open_GetResponse. rewrite Hhere. unfold body. rewrite !app_assoc. rewrite drop_hdr; [done|]. rewrite !length_app. unfold lenZ in H12. change sizeof_RCM_HEADER with 12 in H12. cbn. lia. }
  pose proof (open_response session sw1 sw2 data []) as R. rewrite app_nil_r in R. rewrite (run_lift _ _ _ _ _ R). done.
Qed.
Lemma open_channel_told_witness :
  OnOpenSimChannelDone (Some ([1; 0; 0x0D; 2; 0; 0; 0; 0; 0; 0; 0; 0] ++ le32 (u32 3) ++ [0x90; 0] ++ le16 2 ++ [0x6F; 0x10])) (plain_env true true) (newSimService ∅ 5) =
    Ok (0, newSimService ∅ 5, [ActComplete RIL_E_SUCCESS (AnsInts [3; 0x6F; 0x10; 0x90; 0])]).
Proof.
  apply (open_channel_told [1; 0; 0x0D; 2; 0; 0; 0; 0; 0; 0; 0; 0] SIT_OPEN_SIM_CHANNEL 0 3 0x90 0 [0x6F; 0x10]); [|by left|done|done].
  split; [|by vm_compute]. split; [done|]. split; by vm_compute.
Defined.

(** ** The number of the subscriber *)

(** the properties that are set for an application, under the names of its kind *)
Definition told_imsi (socket : Z) (key_aid key_imsi aid imsi : list Z) : list Act :=
  [ActProperty key_aid aid; ActProperty key_imsi imsi; ActSystemProperty (imsi_property key_imsi socket) imsi].
(** The number of the subscriber, when no file of the device replaces its network.
    It is told to the framework as the modem told it; for the application of the
    card that the request names, the properties of its kind are set to it; and the
    service keeps it when the request names no application or the one of the
    GSM subscription. *)
Theorem imsi_told hdr imsi rest r e s :
  answer_header hdr SIT_GET_IMSI 0 → nonul imsi → 0 < lenZ imsi <= MAX_IMSI_LEN → changed_mccmnc e (take 6 imsi) = None →
  let aid := GetString 0 r in
  let c := mRilCardStatus s in
  let gsm := names_app aid (gsm_umts_subscription_app_index c) (applications c) in
  let cdma := names_app aid (cdma_subscription_app_index c) (applications c) in
  OnGetImsiDone (Some (CurStrings r)) (Some (hdr ++ [lenZ imsi] ++ imsi ++ rest)) e s =
    Ok (0, if bool_decide (aid = None) || gsm then set_imsi imsi s else s,
        (if gsm then ActProperty RIL_CONTEXT_SIM_IMSI imsi :: told_imsi (socket_id e) RIL_CONTEXT_GSM_SIM_AID RIL_CONTEXT_GSM_SIM_IMSI (default [] aid) imsi
         else if cdma then told_imsi (socket_id e) RIL_CONTEXT_CDMA_SIM_AID RIL_CONTEXT_CDMA_SIM_IMSI (default [] aid) imsi else []) ++
        [ActComplete RIL_E_SUCCESS (AnsText (Some imsi))]).
Proof.
  intros Hh Hn Hl Hch aid c gsm cdma. destruct Hh as [Hr Hid]. pose proof Hr as (H12 & _). unfold OnGetImsiDone.
  rewrite (run_lift _ _ RIL_E_SUCCESS) by (by rewrite (response_code _ _ _ Hr)). rewrite Z.eqb_refl.
  assert (ProtocolSimImsiAdapter (Some (hdr ++ [lenZ imsi] ++ imsi ++ rest)) = Ok (Some imsi)) as Had.
  { unfold ProtocolSimImsiAdapter. rewrite (response_code _ _ _ Hr). cbn [mbind res_bind]. rewrite (when_id_here _ _ _ SIT_GET_IMSI) by (done || (rewrite H12; right; done) || by left).
    etrans; [apply (bind_eq _ (lenZ imsi)); apply (rd_at hdr (lenZ imsi)); exact H12|]. replace (MAX_IMSI_LEN <? lenZ imsi) with false by lia.
    etrans; [apply (bind_eq _ imsi)|].
    { rewrite app_assoc, rdn_ok by (rewrite ?lenZ_app, ?H12; change (lenZ [lenZ imsi]) with 1; pose proof (lenZ_nonneg rest); unfold sizeof_RCM_HEADER; lia).
      f_equal. rewrite drop_hdr by (rewrite length_app; unfold lenZ in H12; change sizeof_RCM_HEADER with 12 in H12; cbn; lia). apply take_app_length'. unfold lenZ. lia. }
    rewrite cstr_app by done. unfold non_empty. destruct imsi; [by destruct Hl|done]. }
  assert (∀ m : SM (), ∀ st' o, m e s = Ok ((), st', o) → (m;; match BuildGetImsiResponse (Some imsi) with Some t => complete RIL_E_SUCCESS (AnsText (Some t)) | None => mret 0 end) e s =
    Ok (0, st', o ++ [ActComplete RIL_E_SUCCESS (AnsText (Some imsi))])) as Hend.
  { intros m st' o Hm. apply (run_bind _ _ _ _ _ _ _ _ _ _ Hm). destruct imsi; [by destruct Hl|done]. }
  apply run_bind_zero with (v := 0). rewrite (run_lift _ _ _ _ _ Had).
  etrans; [apply run_skip|]. cbv beta. rewrite (run_lift _ _ imsi) by (cbn [checkMmcMnc]; by rewrite Hch). rewrite (run_lift _ _ (Some r)) by done.
  apply Hend. unfold UpdateImsi. fold aid. rewrite run_gets. fold c. fold gsm. fold cdma.
  assert (gsm = true → aid ≠ None) as Hg by (unfold gsm, names_app; destruct aid; [done|by rewrite andb_false_r]).
  assert (cdma = true → aid ≠ None) as Hcd by (unfold cdma, names_app; destruct aid; [done|by rewrite andb_false_r]).
  destruct gsm eqn:Eg, cdma eqn:Ec, aid as [a|] eqn:Ea; try (by exfalso; auto); reflexivity.
Qed.
Lemma imsi_told_witness :
  let r := {| ssrd_base := newRequestData 2 7 0; m_nStringCount := 1; m_ptrStrings := Some [None] |} in
  let s := newSimService ∅ 5 in
  let imsi := str "450051234567890" in
  OnGetImsiDone (Some (CurStrings r)) (Some ([1; 0; 0; 4; 0; 0; 0; 0; 0; 0; 0; 0] ++ [15] ++ imsi ++ [7])) (plain_env true true) s =
    Ok (0, set_imsi imsi s, [ActComplete RIL_E_SUCCESS (AnsText (Some imsi))]).
Proof.
  intros r s imsi. refine (imsi_told [1; 0; 0; 4; 0; 0; 0; 0; 0; 0; 0; 0] imsi [7] r (plain_env true true) s _ _ _ _); [|by_eval|done|done].
  split; [|by vm_compute]. split; [done|]. split; by vm_compute.
Defined.

(** ** Flaws *)

(** a replaced code leaves no number: a code of five digits takes its place, one of six overflows the buffer it is written to *)
Lemma replaced_code_loses_number changed imsi code : changed (take 6 imsi) = Some code → take 6 imsi ≠ code →
  checkMmcMnc changed (Some imsi) = if 5 <? lenZ code then UB else Ok code.
Proof. intros Hc Hne. unfold checkMmcMnc. rewrite Hc. destruct (5 <? lenZ code); [done|]. by rewrite decide_False. Qed.
(** the number of another answer, or none, is followed as a null pointer *)
Lemma missing_number_followed changed : checkMmcMnc changed None = UB.
Proof. done. Qed.
(** an authentication whose answer is empty *)
Lemma empty_isim_authentication e s :
  OnGetIsimAuthDone (Some [1; 0; 0x0B; 2; 14; 0; 0; 0; 0; 0; 0; 0; 0; 0]) e s = UB.
Proof. by vm_compute. Qed.
(** the answer to an opening that failed, without a body *)
Lemma short_open_answer e s : OnOpenSimChannelDone (Some [1; 0; 0x0D; 2; 12; 0; 0; 0; 0; 0; 1; 0]) e s = UB.
Proof. by vm_compute. Qed.
(** carrier restrictions are never told *)
Lemma restrictions_never_told frame e s v s' o : OnGetCarrierRestrictionsDone frame e s = Ok (v, s', o) → ∀ a, ActComplete RIL_E_SUCCESS a ∉ o.
Proof.
  revert v s' o. change (ends (OnGetCarrierRestrictionsDone frame) (λ v s' o, ∀ a, ActComplete RIL_E_SUCCESS a ∉ o) e s).
  unfold OnGetCarrierRestrictionsDone, supported_or_not. repeat sm_step; intros ? Ha;
    repeat (apply elem_of_cons in Ha as [Ha|Ha]; [by discriminate Ha|]); by apply elem_of_nil in Ha.
Qed.
(** a file request that was left behind is sent for a request of another class, whose data are then read as those of a file request *)
Lemma stale_file_request_confused :
  let yes := plain_env true true in
  let r := {| ssrd_base := newRequestData 2 7 0; m_nStringCount := 2; m_ptrStrings := Some [Some (str "1234"); None] |} in
  let s := set_pending None (Some (fill 14 0)) (newSimService ∅ 5) in
  match OnVerifyPin2Done (Some [1; 0; 3; 2; 16; 0; 0; 0; 0; 0; 0; 0; 3; 0; 0; 0]) yes s with
  | Ok (0, s1, [ActSend p MSG_SIM_IO_DONE]) =>
    OnSimIoDone (cur_sim_io (Some (CurStrings r))) (Some ([1; 0; 8; 2; 16; 0; 0; 0; 0; 0; 0; 0] ++ [0x90; 0; 0; 0])) yes s1 = UB
  | _ => False
  end.
Proof. by vm_compute. Qed.
