(* ===== verification/SimPhoneBookTheorems.v ===== *)
(** The phone book of the SIM: what is written to an entry of a 3G phone book is
    what is read from it, byte by byte, and what the application is told of it;
    and the answers that overrun the arrays of their handlers. *)
From stdpp Require Import gmap.
From S2P Require Import Prelude RilDef Text Base64 WaitList Network Rcm Handler Layout RilData MccTable SimPackets SimPin SimPinTheorems SimIo SimCardPackets SimPhoneBook SimCard SimTheorems SimStatusTheorems SimCardTheorems.

(** ** The fields of an entry *)

(** a field in a packet: its tag, its length with the byte of its kind, its kind, its bytes; the list ends with the byte 255 *)
Definition field_bytes (f : RIL_3GPb) : list Z := [type3g f] ++ le16 (data_len f + 1) ++ [data_type f] ++ data_3g f.
Definition entry_bytes (l : list RIL_3GPb) : list Z := concat (field_bytes <$> l) ++ [255].
Definition field_wf (f : RIL_3GPb) : Prop := data_len f = lenZ (data_3g f) ∧ 0 <= type3g f < 255 ∧ 0 <= data_type f < 255.
(** the size the framework gives with the fields: three numbers and the bytes of each *)
Fixpoint struct_size (l : list RIL_3GPb) : Z := match l with [] => 0 | f :: l => data_len f + 12 + struct_size l end.
(** a field as it is read: its length is that of the packet *)
Definition as_read (f : RIL_3GPb) : RIL_3GPb := {| type3g := type3g f; data_len := data_len f + 1; data_type := data_type f; data_3g := data_3g f |}.

Lemma lenZ_field f : field_wf f → lenZ (field_bytes f) = data_len f + 4.
Proof. intros [Hl _]. unfold field_bytes. rewrite !lenZ_app. change (lenZ [type3g f]) with 1. change (lenZ (le16 (data_len f + 1))) with 2. change (lenZ [data_type f]) with 1. lia. Qed.
Lemma lenZ_fields l : Forall field_wf l → lenZ (concat (field_bytes <$> l)) + 8 * lenZ l = struct_size l.
Proof.
  induction 1 as [|f l Hf _ IH]; [done|]. cbn [fmap list_fmap concat struct_size]. rewrite lenZ_app, lenZ_cons, (lenZ_field f Hf), <- IH. lia.
Qed.
Lemma struct_size_pos l : Forall field_wf l → 12 * lenZ l <= struct_size l.
Proof.
  intros H. induction H as [|f l [Hf _] _ IH]; [done|]. cbn [struct_size]. rewrite lenZ_cons. pose proof (lenZ_nonneg (data_3g f)). lia.
Qed.
Lemma byte_land v : 0 <= v < 256 → Z.land v 255 = v.
Proof. intros H. change 255 with (Z.ones 8). rewrite Z.land_ones by done. by apply Z.mod_small. Qed.
Lemma rdn_all (b : list Z) n : n = lenZ b → rdn b 0 n = Ok b.
Proof. intros ->. pose proof (rdn_mid [] b []) as E. by rewrite app_nil_r in E. Qed.

(** ** Writing *)

Ltac at_chunk := cbn; unfold le16; rewrite ?lenZ_cons, ?lenZ_fill by lia; change (lenZ (@nil Z)) with 0; lia.
Lemma put_field f (pre : list Z) n : field_wf f → data_len f + 4 <= n →
  ∃ e1 e2 e3 e4, (pre ++ fill n 0).[lenZ pre <- Z.land (type3g f) 255] = Ok e1 ∧ e1.[lenZ pre + 1 <- Z.land (data_len f + 1) 255] = Ok e2 ∧
    e2.[lenZ pre + 2 <- Z.land (Z.shiftr (data_len f + 1) 8) 255] = Ok e3 ∧ e3.[lenZ pre + 3 <- Z.land (data_type f) 255] = Ok e4 ∧
    wrn e4 (lenZ pre + 4) (data_3g f) = Ok (pre ++ field_bytes f ++ fill (n - (data_len f + 4)) 0).
Proof.
  intros (Hl & Ht & Hk) Hn. set (m := n - (data_len f + 4)). pose proof (lenZ_nonneg (data_3g f)) as Hd.
  assert (pre ++ fill n 0 = concat [pre; [0]; [0]; [0]; [0]; fill (data_len f) 0; fill m 0]) as ->.
  { cbn [concat]. rewrite app_nil_r. f_equal. change ([0] ++ [0] ++ [0] ++ [0] ++ fill (data_len f) 0 ++ fill m 0) with (replicate 4 0 ++ fill (data_len f) 0 ++ fill m 0).
    unfold fill. rewrite <- !replicate_add. f_equal. lia. }
  do 4 eexists. split; [apply (wr_chunk _ 1%nat 0); [done|at_chunk]|]. split; [apply (wr_chunk _ 2%nat 0); [done|at_chunk]|].
  split; [apply (wr_chunk _ 3%nat 0); [done|at_chunk]|]. split; [apply (wr_chunk _ 4%nat 0); [done|at_chunk]|].
  etrans; [apply (wrn_chunk _ 5%nat (fill (data_len f) 0)); [done|rewrite lenZ_fill; lia|at_chunk]|].
  cbn [list_insert insert concat]. unfold field_bytes, le16. cbn [app]. rewrite app_nil_r.
  rewrite (byte_land (type3g f)), (byte_land (data_type f)) by lia.
  change 255 with (Z.ones 8). rewrite !Z.land_ones, Z.shiftr_div_pow2 by done. change (2 ^ 8) with 256. by rewrite <- ?app_assoc.
Qed.
Lemma fields_put l (pre : list Z) n m : Forall field_wf l → lenZ (concat (field_bytes <$> l)) <= n → struct_size l < 2 ^ 31 →
  put_fields (struct_size l) l (pre ++ fill n 0) (lenZ pre) m =
    let b := concat (field_bytes <$> l) in Ok (pre ++ b ++ fill (n - lenZ b) 0, lenZ pre + lenZ b, m + lenZ b).
Proof.
  intros Hw. revert pre n m. induction Hw as [|f l Hf Hw IH]; intros pre n m Hn Hs; cbn [put_fields struct_size fmap list_fmap concat].
  - cbn [Z.ltb Z.compare]. change (lenZ (@nil Z)) with 0. cbn [app]. by rewrite Z.sub_0_r, !Z.add_0_r.
  - cbn [fmap list_fmap concat struct_size] in Hn, Hs. pose proof (lenZ_field f Hf) as Hlf. pose proof Hf as [Hl _]. pose proof (lenZ_nonneg (data_3g f)) as Hd. rewrite lenZ_app in Hn.
    pose proof (lenZ_nonneg (concat (field_bytes <$> l))) as Hr. pose proof (struct_size_pos l Hw). pose proof (lenZ_nonneg l).
    replace (0 <? data_len f + 12 + struct_size l) with true by lia.
    destruct (put_field f pre n Hf) as (e1 & e2 & e3 & e4 & -> & E2 & E3 & E4 & E5); [lia|]. cbn [mbind res_bind]. rewrite E2. cbn [mbind res_bind]. rewrite E3. cbn [mbind res_bind].
    rewrite E4. cbn [mbind res_bind]. rewrite rdn_all by done. cbn [mbind res_bind]. rewrite E5. cbn [mbind res_bind].
    replace (data_len f + 12 + struct_size l - data_len f - 12) with (struct_size l) by lia. rewrite i32_id by lia. rewrite app_assoc.
    replace (lenZ pre + 4 + data_len f) with (lenZ (pre ++ field_bytes f)) by (rewrite lenZ_app; lia).
    rewrite IH by lia. cbv zeta. rewrite !lenZ_app, <- !app_assoc, Hlf.
    replace (n - (data_len f + 4) - lenZ (concat (field_bytes <$> l))) with (n - (data_len f + 4 + lenZ (concat (field_bytes <$> l)))) by lia.
    apply (f_equal Ok), (f_equal2 pair); [apply (f_equal2 pair); [done|]|]; lia.
Qed.

(** ** Reading *)

Lemma lor_bytes a b : 0 <= a < 256 → Z.lor a (Z.shiftl b 8) = a + 256 * b.
Proof.
  intros Ha. assert (Z.land a (Z.shiftl b 8) = 0) as E.
  { apply Z.bits_inj'. intros k Hk. rewrite Z.land_spec, Z.bits_0, Z.shiftl_spec by done. destruct (Z.ltb_spec k 8) as [Hk8|Hk8].
    - by rewrite (Z.testbit_neg_r b), andb_false_r by lia.
    - replace (Z.testbit a k) with false; [done|]. symmetry. destruct (Z.eq_dec a 0) as [->|]; [apply Z.bits_0|]. apply Z.bits_above_log2; [lia|].
      assert (Z.log2 a < 8); [apply Z.log2_lt_pow2; lia|lia]. }
  pose proof (Z.add_lor_land a (Z.shiftl b 8)) as H. rewrite E, Z.shiftl_mul_pow2 in * by done. change (2 ^ 8) with 256 in *. lia.
Qed.
Lemma field_read f pre rest acc k n : field_wf f → room_3g (lenZ acc) = true → data_len f + 4 <= n → n < 65536 →
  field_step (pre ++ field_bytes f ++ rest) {| fl_entry := lenZ pre; fl_length := n; fl_fields := acc; fl_pbLen := k |} =
    Ok (Next {| fl_entry := lenZ pre + (data_len f + 4); fl_length := n - (data_len f + 4); fl_fields := acc ++ [as_read f]; fl_pbLen := k + 12 + (data_len f + 1) |}).
Proof.
  intros (Hl & Ht & Hk) Hr Hn Hmax. pose proof (lenZ_nonneg (data_3g f)) as Hd. unfold field_step. cbn [fl_entry fl_length fl_fields fl_pbLen]. rewrite Hr. cbn [negb].
  replace (n <=? 0) with false by lia.
  assert (pre ++ field_bytes f ++ rest = concat [pre; [type3g f]; [(data_len f + 1) mod 256]; [(data_len f + 1) / 256 mod 256]; [data_type f]; data_3g f; rest]) as ->.
  { cbn [concat]. unfold field_bytes, le16. by rewrite app_nil_r, <- !app_assoc. }
  rewrite (rd_chunk _ 1%nat (type3g f) (lenZ pre)) by (done || at_chunk). cbn [mbind res_bind]. replace (type3g f =? 255) with false by lia.
  rewrite (rd_chunk _ 2%nat ((data_len f + 1) mod 256) (lenZ pre + 1)) by (done || at_chunk). cbn [mbind res_bind].
  rewrite (rd_chunk _ 3%nat ((data_len f + 1) / 256 mod 256) (lenZ pre + 2)) by (done || at_chunk). cbn [mbind res_bind].
  rewrite (rd_chunk _ 4%nat (data_type f) (lenZ pre + 3)) by (done || at_chunk). cbn [mbind res_bind].
  rewrite byte_land, (Z.mod_small ((data_len f + 1) / 256)), lor_bytes by lia. replace ((data_len f + 1) mod 256 + 256 * ((data_len f + 1) / 256)) with (data_len f + 1) by lia.
  replace (data_type f =? 255) with false by lia. replace (data_len f + 1 <=? 0) with false by lia. replace (data_len f + 1 - 1) with (data_len f) by lia.
  rewrite (rdn_chunk _ 5%nat (data_3g f) (lenZ pre + 4) 0) by (done || at_chunk || lia). cbn [mbind res_bind]. change (Z.to_nat 0) with 0%nat.
  rewrite drop_0, take_ge by (unfold lenZ in Hl; lia). unfold as_read. do 2 f_equal. f_equal; lia.
Qed.
Lemma fields_read l pre acc k n fuel : Forall field_wf l → (length acc + length l <= 21)%nat → (length l < fuel)%nat → n = lenZ (entry_bytes l) → n < 65536 →
  loop fuel (field_step (pre ++ entry_bytes l)) {| fl_entry := lenZ pre; fl_length := n; fl_fields := acc; fl_pbLen := k |} =
    Ok {| fl_entry := lenZ pre + (n - 1); fl_length := 1; fl_fields := acc ++ (as_read <$> l); fl_pbLen := k + struct_size l + lenZ l |}.
Proof.
  intros Hw. revert pre acc k n fuel. induction Hw as [|f l Hf Hw IH]; intros pre acc k n fuel Hroom Hfuel Hn Hmax; (destruct fuel as [|fuel]; [cbn in Hfuel; lia|]); cbn [loop].
  - unfold entry_bytes in *. cbn in Hn. change (lenZ [255]) with 1 in Hn. subst n. unfold field_step. cbn [fl_entry fl_length fl_fields fl_pbLen fmap list_fmap concat app]. change (1 <=? 0) with false. cbv iota.
    rewrite rd_snoc. cbn [mbind res_bind]. rewrite app_nil_r. change (lenZ (@nil RIL_3GPb)) with 0. cbn. f_equal. f_equal; lia.
  - pose proof (lenZ_field f Hf) as Hlf. unfold entry_bytes in *. cbn [fmap list_fmap concat] in *. rewrite <- !app_assoc in *. rewrite lenZ_app, Hlf in Hn.
    pose proof (lenZ_nonneg (concat (field_bytes <$> l) ++ [255])). pose proof (proj1 Hf) as Hl. pose proof (lenZ_nonneg (data_3g f)). cbn [length] in Hroom, Hfuel.
    rewrite (field_read f pre _ acc k n Hf); [|by unfold room_3g, lenZ, sizeof_RIL_3GPb, MAX_PB_ENTRY_LEN; lia|lia|lia]. cbn [mbind res_bind].
    replace (lenZ pre + (data_len f + 4)) with (lenZ (pre ++ field_bytes f)) by (rewrite lenZ_app; lia). rewrite app_assoc.
    rewrite IH; [|rewrite length_app; cbn; lia|lia|lia|lia]. rewrite <- app_assoc. cbn [app struct_size]. rewrite lenZ_cons, lenZ_app. f_equal. f_equal; lia.
Qed.

(** ** An entry from the application to the card and back *)

(** the packet that writes [entry] *)
Definition update_frame (token mode type index : Z) (entry : list Z) : list Z :=
  header_bytes SIT_UPDATE_PB_ENTRY (17 + lenZ entry) token ++ [mode; type; index] ++ le16 (lenZ entry) ++ entry.
(** an entry whose bytes are [b] *)
Definition entry_data (mode type index : Z) (b : list Z) : SimUpdatePbEntry :=
  {| m_mode := mode; m_type := type; m_index := index; m_length := lenZ b; m_entry := b ++ fill (MAX_PB_ENTRY_LEN - lenZ b) 0 |}.
Lemma update_packet t mode type index b z : 0 <= mode < 256 → 0 <= type < 256 → 0 <= index < 256 → lenZ b <= 495 →
  BuildSimUpdatePbEntry1 t mode type index (lenZ b) (b ++ z) = Ok (Some (update_frame (GetNext t).1 mode type index b), (GetNext t).2).
Proof.
  intros Hm Ht Hi Hb. pose proof (lenZ_nonneg b) as Hn. unfold BuildSimUpdatePbEntry1, MAX_PB_ENTRY_LEN. rewrite !byte_land by done.
  assert (fill 512 0 = concat [fill 12 0; [0]; [0]; [0]; fill 2 0; fill (lenZ b) 0; fill (495 - lenZ b) 0]) as ->.
  { cbn [concat]. rewrite app_nil_r. change (fill 12 0 ++ [0] ++ [0] ++ [0] ++ fill 2 0 ++ fill (lenZ b) 0 ++ fill (495 - lenZ b) 0) with (replicate 17 0 ++ fill (lenZ b) 0 ++ fill (495 - lenZ b) 0).
    unfold fill. rewrite <- !replicate_add. f_equal. lia. }
  rewrite (wr_chunk _ 1%nat 0) by done. cbn [mbind res_bind]. rewrite (wr_chunk _ 2%nat 0) by done. cbn [mbind res_bind]. rewrite (wr_chunk _ 3%nat 0) by done. cbn [mbind res_bind].
  rewrite (wrn_chunk _ 4%nat (fill 2 0)) by done. cbn [mbind res_bind]. pose proof (rdn_mid [] b z) as E. change (lenZ (@nil Z)) with 0 in E. cbn [app] in E. rewrite E. clear E. cbn [mbind res_bind].
  rewrite (wrn_chunk _ 5%nat (fill (lenZ b) 0)) by (done || (rewrite lenZ_fill; lia)). cbn [mbind res_bind list_insert insert].
  rewrite header_chunk by done. cbn [mbind res_bind fst snd]. set (h := header_bytes _ _ _). unfold update_frame. fold h.
  assert (Z.land (lenZ b) 65535 = lenZ b) as ->. { change 65535 with (Z.ones 16). rewrite Z.land_ones by done. apply Z.mod_small. change (2 ^ 16) with 65536. lia. }
  set (p := h ++ [mode; type; index] ++ le16 (lenZ b) ++ b).
  assert (concat [h; [mode]; [type]; [index]; le16 (lenZ b); b; fill (495 - lenZ b) 0] = [] ++ p ++ fill (495 - lenZ b) 0) as ->.
  { unfold p. cbn [concat app]. by rewrite app_nil_r, <- !app_assoc. }
  assert (17 + lenZ b = lenZ p) as ->. { unfold p. rewrite !lenZ_app. change (lenZ h) with 12. change (lenZ [mode; type; index]) with 3. change (lenZ (le16 (lenZ b))) with 2. lia. }
  pose proof (rdn_mid [] p (fill (495 - lenZ b) 0)) as E. change (lenZ (@nil Z)) with 0 in E. by rewrite E.
Qed.
Lemma fields_encoded l mode index n : Forall field_wf l → l ≠ [] → lenZ (entry_bytes l) <= 495 → mode = 1 ∨ mode = 3 → n ≠ 0 →
  SimUpdatePbEntry_encode (Some {| pb_mode := mode; pb_kind := PB_ADN_3G; pb_index := index; pb_length := struct_size l; pb_entry := Pb3g l |}) n newSimUpdatePbEntry =
    Ok (0, entry_data mode PB_ADN_3G index (entry_bytes l)).
Proof.
  intros Hw Hne Hlen Hmode Hn. pose proof (lenZ_fields l Hw) as Hs. pose proof (struct_size_pos l Hw) as Hp. set (b := concat (field_bytes <$> l)) in *.
  assert (lenZ (entry_bytes l) = lenZ b + 1) as El by (unfold entry_bytes; by rewrite lenZ_app). rewrite El in Hlen. pose proof (lenZ_nonneg b) as Hb.
  assert (0 < lenZ l) as Hl by (destruct l; [done|]; rewrite lenZ_cons; pose proof (lenZ_nonneg l); lia).
  unfold SimUpdatePbEntry_encode. cbn [pb_mode pb_kind pb_index pb_length pb_entry]. replace (n =? 0) with false by lia. replace (mode =? 4) with false by lia.
  replace ((mode =? 2) || (struct_size l =? 0)) with false by lia. change (bool_decide (PB_ADN_3G ∈ number_and_text)) with false. change (PB_ADN_3G =? PB_ADN_3G) with true. cbv iota.
  unfold newSimUpdatePbEntry. cbn [m_entry m_length m_mode m_type m_index]. unfold MAX_PB_ENTRY_LEN.
  pose proof (fields_put l [] 512 0 Hw ltac:(fold b; lia) ltac:(change (2 ^ 31) with 2147483648; lia)) as E. change (lenZ (@nil Z)) with 0 in E. cbn [app] in E. rewrite E. clear E. fold b.
  cbv zeta. cbn [mbind res_bind fst snd]. rewrite !Z.add_0_l. rewrite wr_app by (rewrite lenZ_fill; lia). cbn [mbind res_bind]. unfold entry_data, entry_bytes, MAX_PB_ENTRY_LEN. fold b.
  rewrite lenZ_app. change (lenZ [255]) with 1. f_equal. f_equal. f_equal. rewrite <- app_assoc. cbn [app]. f_equal. f_equal. unfold fill. rewrite drop_replicate. f_equal. lia.
Qed.
(** C28: An entry of a 3G phone book, from the application to the card and back.  Its
    fields, in the packet that writes it, stand one after the other with tag,
    length and kind; the handler that reads such an entry takes the same fields
    from it, with the same bytes; but what it answers has their size and none of
    them. *)
Theorem phone_book_entry l mode index e s hdr rest :
  Forall field_wf l → l ≠ [] → lenZ l <= 10 → lenZ (entry_bytes l) <= 495 → mode = 1 ∨ mode = 3 → 0 <= index < 256 → answer_header hdr SIT_READ_PB_ENTRY 0 →
  let t := GetNext (sim_token s) in
  (∃ r, SimUpdatePbEntry_encode (Some {| pb_mode := mode; pb_kind := PB_ADN_3G; pb_index := index; pb_length := struct_size l; pb_entry := Pb3g l |}) 1 newSimUpdatePbEntry = Ok (0, r) ∧
     DoUpdatePbEntry (Some r) e s = Ok (if send_ok e then 0 else -1, set_token t.2 s,
       [ (if send_ok e then ActSend else ActUnsent) (update_frame t.1 mode PB_ADN_3G index (entry_bytes l)) MSG_SIM_UPDATE_PB_ENTRY_DONE])) ∧
  fl_fields <$> read_fields (entry_bytes l) (lenZ (entry_bytes l)) = Ok (as_read <$> l) ∧
  OnReadPbEntryDone (Some (hdr ++ [PB_ADN_3G] ++ le16 index ++ le16 (lenZ (entry_bytes l)) ++ entry_bytes l ++ rest)) e s =
    Ok (0, s, [ActComplete RIL_E_SUCCESS (AnsPbEntry PB_ADN_3G index (struct_size l + lenZ l + 8))]).
Proof.
  intros Hw Hne Hmax Hlen Hmode Hi Hh t. pose proof (lenZ_nonneg (entry_bytes l)) as Hn.
  assert (read_fields (entry_bytes l) (lenZ (entry_bytes l)) = Ok {| fl_entry := lenZ (entry_bytes l) - 1; fl_length := 1; fl_fields := as_read <$> l; fl_pbLen := struct_size l + lenZ l |}) as Er.
  { assert (lenZ l < lenZ (entry_bytes l)). { unfold entry_bytes. rewrite lenZ_app. change (lenZ [255]) with 1. pose proof (lenZ_fields l Hw). pose proof (struct_size_pos l Hw). pose proof (lenZ_nonneg l). lia. }
    pose proof (fields_read l [] [] 0 (lenZ (entry_bytes l)) (S (Z.to_nat (lenZ (entry_bytes l)))) Hw) as E. change (lenZ (@nil Z)) with 0 in E. cbn [app] in E. unfold read_fields.
    rewrite E by (try done; unfold lenZ in *; cbn; lia). f_equal; f_equal; lia. }
  split; [|split].
  - eexists. split; [by apply fields_encoded|]. unfold DoUpdatePbEntry, NULL_REQ, entry_data. cbn [m_mode m_type m_index m_length m_entry]. replace (mode =? 2) with false by lia.
    assert ((lenZ (entry_bytes l) =? 0) = false) as -> by (unfold entry_bytes; rewrite lenZ_app; change (lenZ [255]) with 1; pose proof (lenZ_nonneg (concat (field_bytes <$> l))); lia).
    change (bool_decide (PB_ADN_3G ∈ number_and_text)) with false. change (PB_ADN_3G =? PB_ADN_3G) with true. cbv iota zeta.
    rewrite (run_silent _ _ (Some (update_frame t.1 mode PB_ADN_3G index (entry_bytes l))) (set_token t.2 s)).
    + apply (run_bind _ _ _ _ (if send_ok e then 0 else -1) (set_token t.2 s) [_] _ _ []); [unfold send; by destruct (send_ok e)|by destruct (send_ok e)].
    + apply (run_build _ e s (Some _, _)). apply update_packet; (done || lia).
  - by rewrite Er.
  - unfold OnReadPbEntryDone. rewrite (run_lift _ _ _ _ _ (success_code hdr _ _ Hh)). rewrite Z.eqb_refl. apply (run_bind_zero _ 0).
    rewrite (run_lift _ _ (Some (PB_ADN_3G, index, entry_bytes l))).
    + cbv iota. change (bool_decide (PB_ADN_3G ∈ number_and_text)) with false. change (PB_ADN_3G =? PB_ADN_3G) with true. cbv iota. rewrite (run_lift _ _ _ _ _ Er). cbn [fl_pbLen fl_fields].
      apply (run_bind _ _ _ _ 0 s [_] _ _ []); [done|]. rewrite (run_lift _ _ ()); [done|]. unfold free_fields, room_3g, sizeof_RIL_3GPb, MAX_PB_ENTRY_LEN.
      replace (lenZ (as_read <$> l)) with (lenZ l) by (unfold lenZ; by rewrite length_fmap). pose proof (lenZ_nonneg l). replace ((2 * lenZ l + 1) * 24 <=? 512) with true by lia. by rewrite orb_true_r.
    + destruct Hh as [ [Hl _] Hid]. unfold sizeof_RCM_HEADER in Hl. unfold ProtocolSimReadPbEntry. rewrite (when_id_here _ _ hdr SIT_READ_PB_ENTRY) by (done || lia || by left).
      assert (hdr ++ [PB_ADN_3G] ++ le16 index ++ le16 (lenZ (entry_bytes l)) ++ entry_bytes l ++ rest = concat [hdr; [PB_ADN_3G]; le16 index; le16 (lenZ (entry_bytes l)); entry_bytes l; rest]) as ->
        by (cbn [concat]; by rewrite app_nil_r).
      rewrite (rd_chunk _ 1%nat PB_ADN_3G 12) by (done || at_chunk). cbn [mbind res_bind].
      rewrite (rd16_chunk _ 2%nat index 13) by (done || at_chunk || lia). cbn [mbind res_bind].
      rewrite (rd16_chunk _ 3%nat (lenZ (entry_bytes l)) 15) by (done || at_chunk || lia). cbn [mbind res_bind].
      replace (MAX_PB_ENTRY_LEN <? lenZ (entry_bytes l)) with false by (unfold MAX_PB_ENTRY_LEN; lia).
      rewrite (rdn_chunk _ 4%nat (entry_bytes l) _ 0) by (done || at_chunk || lia). cbn [mbind res_bind]. change (Z.to_nat 0) with 0%nat. by rewrite drop_0, take_ge by (unfold lenZ; lia).
Qed.
(** the name and the number of an entry *)
Definition name_and_number : list RIL_3GPb :=
  [ {| type3g := 1; data_len := 3; data_type := 1; data_3g := str "Ann" |}; {| type3g := 2; data_len := 2; data_type := 0; data_3g := str "11" |} ].
Definition read_header : list Z := [1; 0; 0x40; 2; 0; 0; 0; 0; 0; 0; 0; 0].
Lemma read_header_ok : answer_header read_header SIT_READ_PB_ENTRY 0.
Proof. split; [|by vm_compute]. split; [done|]. split; by vm_compute. Qed.
Lemma phone_book_entry_witness :
  let l := name_and_number in
  fl_fields <$> read_fields (entry_bytes l) (lenZ (entry_bytes l)) = Ok (as_read <$> l) ∧
  OnReadPbEntryDone (Some (read_header ++ [PB_ADN_3G] ++ le16 7 ++ le16 (lenZ (entry_bytes l)) ++ entry_bytes l ++ [])) (plain_env true true) (newSimService ∅ 5) =
    Ok (0, newSimService ∅ 5, [ActComplete RIL_E_SUCCESS (AnsPbEntry PB_ADN_3G 7 39)]).
Proof.
  intros l. destruct (phone_book_entry l 1 7 (plain_env true true) (newSimService ∅ 5) read_header []) as (_ & H1 & H2); [|done|done|done|by left|done|apply read_header_ok|by split].
  by repeat constructor.
Defined.

(** ** Answers that overrun their arrays *)

Definition book_frame (book : Z) (entry : list Z) : option (list Z) := Some (read_header ++ [book] ++ le16 1 ++ le16 (lenZ entry) ++ entry).
(** the answers for the entries of two people are the same: the entry is never in them *)
Lemma entry_not_told :
  let e := plain_env true true in let s := newSimService ∅ 5 in
  OnReadPbEntryDone (book_frame PB_ADN_2G ([2; 0] ++ str "11" ++ [3; 1] ++ str "Ann")) e s = OnReadPbEntryDone (book_frame PB_ADN_2G ([2; 0] ++ str "22" ++ [3; 1] ++ str "Bob")) e s.
Proof. by vm_compute. Qed.
(** the entries of the other phone books are not answered at all *)
Lemma other_books_unanswered book entry e s : book ∈ [3; 6; 7; 12] → lenZ entry <= 100 → OnReadPbEntryDone (book_frame book entry) e s = Ok (0, s, []).
Proof.
  intros Hb Hl. pose proof (lenZ_nonneg entry) as Hn. unfold OnReadPbEntryDone, book_frame. rewrite (run_lift _ _ _ _ _ (success_code read_header _ _ read_header_ok)). rewrite Z.eqb_refl.
  apply (run_bind_zero _ 0). rewrite (run_lift _ _ (Some (book, 1, entry))).
  - apply elem_of_cons in Hb as [-> |Hb]; [by vm_compute|]. repeat (apply elem_of_cons in Hb as [-> |Hb]; [by vm_compute|]). by apply elem_of_nil in Hb.
  - unfold ProtocolSimReadPbEntry. rewrite (when_id_here _ _ read_header SIT_READ_PB_ENTRY) by (done || (by right) || by left).
    assert (read_header ++ [book] ++ le16 1 ++ le16 (lenZ entry) ++ entry = concat [read_header; [book]; le16 1; le16 (lenZ entry); entry]) as -> by (cbn [concat]; by rewrite app_nil_r).
    rewrite (rd_chunk _ 1%nat book 12) by done. cbn [mbind res_bind]. rewrite (rd16_chunk _ 2%nat 1 13) by done. cbn [mbind res_bind].
    rewrite (rd16_chunk _ 3%nat (lenZ entry) 15) by (done || lia). cbn [mbind res_bind]. replace (MAX_PB_ENTRY_LEN <? lenZ entry) with false by (unfold MAX_PB_ENTRY_LEN; lia).
    rewrite (rdn_chunk _ 4%nat entry _ 0) by (done || lia). cbn [mbind res_bind]. change (Z.to_nat 0) with 0%nat. by rewrite drop_0, take_ge by (unfold lenZ; lia).
Qed.
(** eleven fields: the pointer that is freed for the last one lies behind the array *)
Lemma eleven_fields_freed :
  OnReadPbEntryDone (book_frame PB_ADN_3G (concat (replicate 11 [1; 2; 0; 1; 65]) ++ [255])) (plain_env true true) (newSimService ∅ 5) = UB.
Proof. by vm_compute. Qed.
(** a field of no bytes *)
Lemma empty_field_allocated : OnReadPbEntryDone (book_frame PB_ADN_3G [1; 0; 0; 1; 255]) (plain_env true true) (newSimService ∅ 5) = UB.
Proof. by vm_compute. Qed.
Definition capa_frame (n : Z) (l : list Z) : option (list Z) := Some ([1; 0; 0x45; 2; 0; 0; 0; 0; 0; 0; 0; 0] ++ [n] ++ l).
(** a card without a 3G phone book; and fourteen capacities *)
Lemma no_capacity_followed : OnGet3GPbCapaDone (capa_frame 0 []) (plain_env true true) (newSimService ∅ 5) = UB.
Proof. by vm_compute. Qed.
Lemma fourteen_capacities : OnGet3GPbCapaDone (capa_frame 14 (fill 98 0)) (plain_env true true) (newSimService ∅ 5) = UB.
Proof. by vm_compute. Qed.
(** an entry too long for its packet *)
Lemma long_entry_overruns : 
  DoUpdatePbEntry (Some {| m_mode := 1; m_type := PB_ADN_2G; m_index := 1; m_length := 496; m_entry := fill MAX_PB_ENTRY_LEN 0 |}) (plain_env true true) (newSimService ∅ 5) = UB.
Proof. by vm_compute. Qed.
