(* ===== verification/NetState.v ===== *)
(** The registration state of the device, [core/servicestate.cpp], and how the
    answers to network requests change it (the [Process...Result] methods of
    [rilcontextwrapper.cpp]).

    The fields that no operation changes after [setNullState] (the CDMA
    indicators, network and system identifiers, emergency flag, channel number
    and NR frequency range) are left out.  The size of an answer selects one of
    the response structures; the model has a constructor for each. *)
From S2P Require Import Prelude Network.

Definition RIL_NOT_REG_AND_NOT_SEARCHING : Z := 0.
Definition NR_STATUS_NONE : Z := 0.
Definition NR_STATUS_RESTRICTED : Z := 1.
Definition NR_STATUS_NOT_RESTRICTED : Z := 2.

Record ServiceState := {
  mVoiceRegState : Z; mDataRegState : Z;
  mOperatorNumeric : list Z; mOperatorAlphaLong : list Z; mOperatorAlphaShort : list Z;
  mIsManualNetworkSelection : bool;
  mVoiceRadioTechnology : Z; mDataRadioTechnology : Z; mIsUsingCarrierAggregation : bool;
  isVopsSupported : bool; isEmcBearerSupported : bool;
  isEndcAvailable : bool; isDcNrRestricted : bool; isNrAvailable : bool;
  mNrStatus : Z
}.
#[export] Instance ServiceState_eq_dec : EqDecision ServiceState.
Proof. solve_decision. Defined.

Definition nullState : ServiceState :=
  {| mVoiceRegState := RIL_NOT_REG_AND_NOT_SEARCHING; mDataRegState := RIL_NOT_REG_AND_NOT_SEARCHING;
     mOperatorNumeric := []; mOperatorAlphaLong := []; mOperatorAlphaShort := []; mIsManualNetworkSelection := false;
     mVoiceRadioTechnology := RADIO_TECH_UNKNOWN; mDataRadioTechnology := RADIO_TECH_UNKNOWN; mIsUsingCarrierAggregation := false;
     isVopsSupported := false; isEmcBearerSupported := false; isEndcAvailable := false; isDcNrRestricted := false;
     isNrAvailable := false; mNrStatus := NR_STATUS_NONE |}.

(** the labels of the [switch] of the two registration setters *)
Definition reg_states : list Z := [0; 1; 2; 3; 4; 5; 10; 12; 13; 14].
Definition check_reg_state (r : Z) : Z := if decide (r ∈ reg_states) then r else RIL_NOT_REG_AND_NOT_SEARCHING.

Definition set_reg v d vt dt ca (s : ServiceState) : ServiceState :=
  {| mVoiceRegState := v; mDataRegState := d;
     mOperatorNumeric := mOperatorNumeric s; mOperatorAlphaLong := mOperatorAlphaLong s; mOperatorAlphaShort := mOperatorAlphaShort s;
     mIsManualNetworkSelection := mIsManualNetworkSelection s;
     mVoiceRadioTechnology := vt; mDataRadioTechnology := dt; mIsUsingCarrierAggregation := ca;
     isVopsSupported := isVopsSupported s; isEmcBearerSupported := isEmcBearerSupported s;
     isEndcAvailable := isEndcAvailable s; isDcNrRestricted := isDcNrRestricted s; isNrAvailable := isNrAvailable s; mNrStatus := mNrStatus s |}.
Definition set_operator n l sh m (s : ServiceState) : ServiceState :=
  {| mVoiceRegState := mVoiceRegState s; mDataRegState := mDataRegState s;
     mOperatorNumeric := n; mOperatorAlphaLong := l; mOperatorAlphaShort := sh; mIsManualNetworkSelection := m;
     mVoiceRadioTechnology := mVoiceRadioTechnology s; mDataRadioTechnology := mDataRadioTechnology s;
     mIsUsingCarrierAggregation := mIsUsingCarrierAggregation s;
     isVopsSupported := isVopsSupported s; isEmcBearerSupported := isEmcBearerSupported s;
     isEndcAvailable := isEndcAvailable s; isDcNrRestricted := isDcNrRestricted s; isNrAvailable := isNrAvailable s; mNrStatus := mNrStatus s |}.
Definition set_lte_nr vops emc e r n st (s : ServiceState) : ServiceState :=
  {| mVoiceRegState := mVoiceRegState s; mDataRegState := mDataRegState s;
     mOperatorNumeric := mOperatorNumeric s; mOperatorAlphaLong := mOperatorAlphaLong s; mOperatorAlphaShort := mOperatorAlphaShort s;
     mIsManualNetworkSelection := mIsManualNetworkSelection s;
     mVoiceRadioTechnology := mVoiceRadioTechnology s; mDataRadioTechnology := mDataRadioTechnology s;
     mIsUsingCarrierAggregation := mIsUsingCarrierAggregation s;
     isVopsSupported := vops; isEmcBearerSupported := emc;
     isEndcAvailable := e; isDcNrRestricted := r; isNrAvailable := n; mNrStatus := st |}.

Definition setVoiceRegState (r : Z) (s : ServiceState) : ServiceState :=
  set_reg (check_reg_state r) (mDataRegState s) (mVoiceRadioTechnology s) (mDataRadioTechnology s) (mIsUsingCarrierAggregation s) s.
Definition setDataRegState (r : Z) (s : ServiceState) : ServiceState :=
  set_reg (mVoiceRegState s) (check_reg_state r) (mVoiceRadioTechnology s) (mDataRadioTechnology s) (mIsUsingCarrierAggregation s) s.
Definition setVoiceRadioTechnology (rt : Z) (s : ServiceState) : ServiceState :=
  set_reg (mVoiceRegState s) (mDataRegState s) (if (rt <? 0) || (RADIO_TECH_NR <? rt) then RADIO_TECH_UNKNOWN else rt)
    (mDataRadioTechnology s) (mIsUsingCarrierAggregation s) s.
(** what the range check stores is overwritten *)
Definition setDataRadioTechnology (rt : Z) (s : ServiceState) : ServiceState :=
  let s := if (rt <? 0) || (RADIO_TECH_NR <? rt)
           then set_reg (mVoiceRegState s) (mDataRegState s) (mVoiceRadioTechnology s) RADIO_TECH_UNKNOWN (mIsUsingCarrierAggregation s) s
           else s in
  let s := set_reg (mVoiceRegState s) (mDataRegState s) (mVoiceRadioTechnology s) rt (mIsUsingCarrierAggregation s) s in
  if mDataRadioTechnology s =? RADIO_TECH_LTE_CA
  then set_reg (mVoiceRegState s) (mDataRegState s) (mVoiceRadioTechnology s) RADIO_TECH_LTE true s
  else set_reg (mVoiceRegState s) (mDataRegState s) (mVoiceRadioTechnology s) (mDataRadioTechnology s) false s.
Definition setOperatorNumeric (n : list Z) (s : ServiceState) : ServiceState :=
  set_operator n (mOperatorAlphaLong s) (mOperatorAlphaShort s) (mIsManualNetworkSelection s) s.
Definition setOperatorName (l sh : list Z) (s : ServiceState) : ServiceState :=
  set_operator (mOperatorNumeric s) l sh (mIsManualNetworkSelection s) s.
Definition setIsManualSelection (m : bool) (s : ServiceState) : ServiceState :=
  set_operator (mOperatorNumeric s) (mOperatorAlphaLong s) (mOperatorAlphaShort s) m s.
Definition setLteVopsSupport (v : bool) (s : ServiceState) : ServiceState :=
  set_lte_nr v (isEmcBearerSupported s) (isEndcAvailable s) (isDcNrRestricted s) (isNrAvailable s) (mNrStatus s) s.
Definition setLteEmcBearerSupport (e : bool) (s : ServiceState) : ServiceState :=
  set_lte_nr (isVopsSupported s) e (isEndcAvailable s) (isDcNrRestricted s) (isNrAvailable s) (mNrStatus s) s.
Definition updateNrStatus (endc restricted available : bool) (s : ServiceState) : ServiceState :=
  set_lte_nr (isVopsSupported s) (isEmcBearerSupported s) endc restricted available
    (if endc then (if negb restricted && available then NR_STATUS_NOT_RESTRICTED else NR_STATUS_RESTRICTED) else NR_STATUS_NONE) s.

(** [operator==]: the operator names are not compared *)
Definition state_equal (a b : ServiceState) : bool :=
  (mVoiceRegState a =? mVoiceRegState b) && (mDataRegState a =? mDataRegState b)
  && bool_decide (mOperatorNumeric a = mOperatorNumeric b) && eqb (mIsManualNetworkSelection a) (mIsManualNetworkSelection b)
  && (mVoiceRadioTechnology a =? mVoiceRadioTechnology b) && (mDataRadioTechnology a =? mDataRadioTechnology b)
  && eqb (mIsUsingCarrierAggregation a) (mIsUsingCarrierAggregation b) && (mNrStatus a =? mNrStatus b)
  && eqb (isVopsSupported a) (isVopsSupported b) && eqb (isEmcBearerSupported a) (isEmcBearerSupported b)
  && eqb (isEndcAvailable a) (isEndcAvailable b) && eqb (isDcNrRestricted a) (isDcNrRestricted b) && eqb (isNrAvailable a) (isNrAvailable b).

(** ** Answers to network requests *)

(** the answer to the request, by the structure its size selects *)
Inductive NetAnswer :=
| AOperator (alphaLong alphaShort numeric : list Z)
| AVoiceReg (regState rat : Z)
| ADataReg (regState rat : Z)
| ADataReg14 (regState rat : Z) (vops emc endc restricted available : bool)
| ASelectionMode (mode : Z)
| AOther.

Definition ProcessVoiceRegStateResult (regState rat : Z) (s : ServiceState) : ServiceState :=
  setVoiceRadioTechnology rat (setVoiceRegState regState s).
Definition ProcessDataRegStateResult (regState rat : Z) (s : ServiceState) : ServiceState :=
  setDataRadioTechnology rat (setDataRegState regState s).
Definition ProcessDataRegStateResult14 (regState rat : Z) (vops emc endc restricted available : bool) (s : ServiceState) : ServiceState :=
  let s := ProcessDataRegStateResult regState rat s in
  let s := setLteVopsSupport vops s in
  let s := setLteEmcBearerSupport emc s in
  updateNrStatus endc restricted available s.
Definition ProcessOperatorInfo (alphaLong alphaShort numeric : list Z) (s : ServiceState) : ServiceState :=
  setOperatorName alphaLong alphaShort (setOperatorNumeric numeric s).
Definition ProcessNetworkSelectionMode (mode : Z) (s : ServiceState) : ServiceState := setIsManualSelection (mode =? 1) s.

Definition RIL_REQUEST_VOICE_REGISTRATION_STATE : Z := 20.
Definition RIL_REQUEST_DATA_REGISTRATION_STATE : Z := 21.
Definition RIL_REQUEST_OPERATOR : Z := 22.
Definition RIL_REQUEST_QUERY_NETWORK_SELECTION_MODE : Z := 45.

(** the new state; an answer of another size leaves it as it is *)
Definition newServiceState (requestId : Z) (a : NetAnswer) (s : ServiceState) : ServiceState :=
  if requestId =? RIL_REQUEST_OPERATOR then
    match a with AOperator l sh n => ProcessOperatorInfo l sh n s | _ => s end
  else if requestId =? RIL_REQUEST_DATA_REGISTRATION_STATE then
    match a with
    | ADataReg r t => ProcessDataRegStateResult r t s
    | ADataReg14 r t v e en re av => ProcessDataRegStateResult14 r t v e en re av s
    | _ => s
    end
  else if requestId =? RIL_REQUEST_VOICE_REGISTRATION_STATE then
    match a with AVoiceReg r t => ProcessVoiceRegStateResult r t s | _ => s end
  else match a with ASelectionMode m => ProcessNetworkSelectionMode m s | _ => s end.

(** what [ProcessNetworkServiceState] reports: voice registration, data
    registration, and any change at all *)
Definition changes (requestId : Z) (state new : ServiceState) : bool * bool * bool :=
  if requestId =? RIL_REQUEST_OPERATOR then
    (false, false, negb (bool_decide (mOperatorNumeric state = mOperatorNumeric new)))
  else if requestId =? RIL_REQUEST_DATA_REGISTRATION_STATE then
    let hasDataRegStateChanged := negb (mDataRegState state =? mDataRegState new) in
    let hasDataRadioTechChanged := negb (mDataRadioTechnology state =? mDataRadioTechnology new)
                                   || negb (eqb (mIsUsingCarrierAggregation state) (mIsUsingCarrierAggregation new)) in
    let hasLteVopsStatusChanged := negb (eqb (isVopsSupported state) (isVopsSupported new))
                                   || negb (eqb (isEmcBearerSupported state) (isEmcBearerSupported new)) in
    let hasNrStatusChanged := negb (mNrStatus state =? mNrStatus new) in
    (false, hasDataRegStateChanged, hasDataRegStateChanged || hasDataRadioTechChanged || hasLteVopsStatusChanged || hasNrStatusChanged)
  else if requestId =? RIL_REQUEST_VOICE_REGISTRATION_STATE then
    let hasVoiceRegStateChanged := negb (mVoiceRegState state =? mVoiceRegState new) in
    (hasVoiceRegStateChanged, false, hasVoiceRegStateChanged || negb (mVoiceRadioTechnology state =? mVoiceRadioTechnology new))
  else (false, false, false).

(** ** Facts *)

(** the values the fields may hold *)
Record state_wf (s : ServiceState) : Prop := {
  wf_voice : mVoiceRegState s ∈ reg_states;
  wf_data : mDataRegState s ∈ reg_states;
  wf_voice_tech : 0 <= mVoiceRadioTechnology s <= RADIO_TECH_NR;
  wf_data_tech : mDataRadioTechnology s ≠ RADIO_TECH_LTE_CA;
  wf_ca : mIsUsingCarrierAggregation s = true → mDataRadioTechnology s = RADIO_TECH_LTE;
  wf_nr : mNrStatus s = if isEndcAvailable s
                        then (if negb (isDcNrRestricted s) && isNrAvailable s then NR_STATUS_NOT_RESTRICTED else NR_STATUS_RESTRICTED)
                        else NR_STATUS_NONE
}.
Create HintDb netstate.

Lemma check_reg_state_in r : check_reg_state r ∈ reg_states.
Proof. unfold check_reg_state. destruct (decide (r ∈ reg_states)); [done|by left]. Qed.
Lemma state_wf_null : state_wf nullState.
Proof. split; cbn; try done; by left. Qed.
Lemma wf_setVoiceRegState r s : state_wf s → state_wf (setVoiceRegState r s).
Proof. intros []. split; cbn; try done. apply check_reg_state_in. Qed.
Lemma wf_setDataRegState r s : state_wf s → state_wf (setDataRegState r s).
Proof. intros []. split; cbn; try done. apply check_reg_state_in. Qed.
Lemma wf_setVoiceRadioTechnology r s : state_wf s → state_wf (setVoiceRadioTechnology r s).
Proof.
  intros []. split; cbn; try done. unfold RADIO_TECH_NR, RADIO_TECH_UNKNOWN in *. destruct (Z.ltb_spec r 0), (Z.ltb_spec 20 r); cbn; lia.
Qed.
Lemma wf_setDataRadioTechnology r s : state_wf s → state_wf (setDataRadioTechnology r s).
Proof.
  intros []. unfold setDataRadioTechnology. cbn [mDataRadioTechnology set_reg]. destruct (Z.eqb_spec r RADIO_TECH_LTE_CA) as [->|Hr].
  - split; by cbn.
  - by split; destruct ((r <? 0) || (RADIO_TECH_NR <? r)).
Qed.
Lemma wf_set_operator n l sh m s : state_wf s → state_wf (set_operator n l sh m s).
Proof. intros []. by split. Qed.
Lemma wf_lte v e s : state_wf s → state_wf (setLteVopsSupport v (setLteEmcBearerSupport e s)).
Proof. intros []. by split. Qed.
Lemma wf_setLteVopsSupport v s : state_wf s → state_wf (setLteVopsSupport v s).
Proof. intros []. by split. Qed.
Lemma wf_setLteEmcBearerSupport e s : state_wf s → state_wf (setLteEmcBearerSupport e s).
Proof. intros []. by split. Qed.
Lemma wf_updateNrStatus e r a s : state_wf s → state_wf (updateNrStatus e r a s).
Proof. intros []. by split. Qed.
#[export] Hint Resolve state_wf_null wf_setVoiceRegState wf_setDataRegState wf_setVoiceRadioTechnology wf_setDataRadioTechnology
  wf_set_operator wf_setLteVopsSupport wf_setLteEmcBearerSupport wf_updateNrStatus : netstate.

Lemma wf_newServiceState requestId a s : state_wf s → state_wf (newServiceState requestId a s).
Proof.
  intros Hs. unfold newServiceState, ProcessVoiceRegStateResult, ProcessDataRegStateResult14, ProcessDataRegStateResult,
    ProcessOperatorInfo, ProcessNetworkSelectionMode, setOperatorName, setOperatorNumeric, setIsManualSelection.
  repeat case_match; auto 8 with netstate.
Qed.

(** a run of answers *)
Fixpoint after_answers (l : list (Z * NetAnswer)) (s : ServiceState) : ServiceState :=
  match l with [] => s | (id, a) :: l => after_answers l (newServiceState id a s) end.

(** the registration state is well formed.  Whatever answers the modem gives, out-of-range values included, the
    registration states are ones the framework knows, the voice technology is in range, carrier aggregation is recorded
    as a flag on LTE and never as a technology of its own, and the NR status agrees with the three NR indicators. *)
Theorem ServiceState_wf (answers : list (Z * NetAnswer)) : state_wf (after_answers answers nullState).
Proof.
  assert (∀ s, state_wf s → state_wf (after_answers answers s)) as H; [|by apply H, state_wf_null].
  induction answers as [|[id a] l IH]; intros s Hs; cbn; [done|]. by apply IH, wf_newServiceState.
Qed.

(** the range check of the data technology has no effect *)
Lemma data_technology_unchecked s : mDataRadioTechnology (setDataRadioTechnology 77 s) = 77.
Proof. reflexivity. Qed.
(** states that differ in the operator's name only are equal *)
Lemma names_not_compared l sh s : state_equal s (setOperatorName l sh s) = true.
Proof.
  unfold state_equal. cbn. rewrite !Z.eqb_refl, !eqb_reflx, !andb_true_r. cbn. by apply bool_decide_eq_true_2.
Qed.
