(* ===== verification/Pdp.v ===== *)
(** Data calls: the access point settings of [core/service/apnsetting.cpp], the
    PDP contexts of [core/service/pdpcontext.cpp], and the responses
    [fw/psdatabuilder.cpp] builds from them.

    A [char] array is the text in it, a possibly null [const char *] an
    [option]; an access point setting belongs to one context, so the pointer to
    it is an [option] as well.  [inet_ntop] of the C library is the argument
    [ntop] (version 6 or not, bytes); what the system calls of
    [NetIfController] did is the argument [link]. *)
From stdpp Require Import pretty.
From S2P Require Import Prelude RilDef Text.

Definition MAX_PDP_APN_LEN : Z := 101.
Definition MAX_AUTH_USER_NAME_LEN : Z := 50.
Definition MAX_AUTH_PASSWORD_LEN : Z := 50.

(** ** Access point settings *)

Definition DATA_PROTOCOL_IP : list Z := str "IP".
Definition DATA_PROTOCOL_IPV6 : list Z := str "IPV6".
Definition DATA_PROTOCOL_IPV4V6 : list Z := str "IPV4V6".
Definition DATA_PROTOCOL_PPP : list Z := str "PPP".
Definition APN_TYPE_ALL : list Z := str "*".
Definition APN_TYPE_EMERGENCY : list Z := str "emergency".
Definition APN_TYPE_IMS : list Z := str "ims".
Definition APN_TYPE_DEFAULT : list Z := str "default".
(** in the order of their bits *)
Definition apn_types : list (list Z) :=
  str <$> ["default"; "mms"; "supl"; "dun"; "hipri"; "fota"; "ims"; "cbs"; "ia"; "emergency"]%string.
Definition APN_TYPE_BIT_ALL : Z := 1023.
Definition SETUP_DATA_AUTH_NONE : Z := 0.
Definition SETUP_DATA_AUTH_PAP_CHAP : Z := 3.

Record ApnSetting := {
  m_id : Z; m_carrier : list Z; m_apn : list Z; m_type : list Z; m_username : list Z; m_password : list Z;
  m_protocol : list Z; m_authType : Z; m_roaming_protocol : list Z; mSupportedTypesBitmask : Z
}.
#[export] Instance ApnSetting_eq_dec : EqDecision ApnSetting.
Proof. solve_decision. Defined.
Definition newApnSetting : ApnSetting :=
  {| m_id := -1; m_carrier := []; m_apn := []; m_type := []; m_username := []; m_password := [];
     m_protocol := DATA_PROTOCOL_IP; m_authType := SETUP_DATA_AUTH_NONE; m_roaming_protocol := DATA_PROTOCOL_IP;
     mSupportedTypesBitmask := 0 |}.

(** [strcasecmp] and [strcasestr] *)
Definition to_lower (c : Z) : Z := if (65 <=? c) && (c <=? 90) then c + 32 else c.
Definition same_text (l r : list Z) : bool := bool_decide (to_lower <$> l = to_lower <$> r).
Fixpoint is_prefix (w l : list Z) : bool :=
  match w, l with
  | [], _ => true
  | a :: w, b :: l => (a =? b) && is_prefix w l
  | _ :: _, [] => false
  end.
Fixpoint has_word (w l : list Z) : bool :=
  is_prefix w l || match l with [] => false | _ :: l => has_word w l end.
Definition strcasestr (l w : list Z) : bool := has_word (to_lower <$> w) (to_lower <$> l).

Definition SetProtocol (from : option (list Z)) : list Z :=
  match from with
  | None => DATA_PROTOCOL_IP
  | Some f =>
    if same_text DATA_PROTOCOL_IP f then DATA_PROTOCOL_IP
    else if same_text DATA_PROTOCOL_IPV6 f then DATA_PROTOCOL_IPV6
    else if same_text DATA_PROTOCOL_IPV4V6 f then DATA_PROTOCOL_IPV4V6
    else DATA_PROTOCOL_IP
  end.
Definition CanHandleType (apnType : option (list Z)) (a : ApnSetting) : bool :=
  if bool_decide (m_type a = APN_TYPE_ALL) then true
  else match apnType with None => false | Some t => strcasestr (m_type a) t end.

(** the loop over the types: bit, [match], the stream *)
Fixpoint type_names (i : Z) (mask : Z) (found : bool) (types : list (list Z)) (ss : list Z) : bool * list Z :=
  match types with
  | [] => (found, ss)
  | t :: types =>
    if Z.testbit mask i
    then type_names (i + 1) mask true types ((if found then ss ++ str "," else ss) ++ t)
    else type_names (i + 1) mask found types ss
  end.
Definition SetSupportedTypesBitmask (bitmask : Z) (a : ApnSetting) : ApnSetting :=
  let mask := Z.land bitmask APN_TYPE_BIT_ALL in
  {| m_id := m_id a; m_carrier := m_carrier a; m_apn := m_apn a;
     m_type := if mask =? APN_TYPE_BIT_ALL then APN_TYPE_ALL
               else let '(found, ss) := type_names 0 mask false apn_types [] in
                    if found then take (Z.to_nat (MAX_PDP_APN_LEN - 1)) ss else [];
     m_username := m_username a; m_password := m_password a; m_protocol := m_protocol a; m_authType := m_authType a;
     m_roaming_protocol := m_roaming_protocol a; mSupportedTypesBitmask := mask |}.
Definition UpdateProtocol (from : option (list Z)) (a : ApnSetting) : ApnSetting :=
  {| m_id := m_id a; m_carrier := m_carrier a; m_apn := m_apn a; m_type := m_type a; m_username := m_username a;
     m_password := m_password a; m_protocol := SetProtocol from; m_authType := m_authType a;
     m_roaming_protocol := m_roaming_protocol a; mSupportedTypesBitmask := mSupportedTypesBitmask a |}.

(** [strncpy] of a text that is not empty, into an array of zeros *)
Definition copy_text (n : Z) (s : option (list Z)) : list Z :=
  match s with Some s => take (Z.to_nat n) s | None => [] end.
Definition NewInstance (carrier apn : option (list Z)) (supportedTypesBitmask : Z) (username password protocol roaming_protocol : option (list Z))
    (authType : Z) : ApnSetting :=
  let a := SetSupportedTypesBitmask supportedTypesBitmask newApnSetting in
  {| m_id := m_id a; m_carrier := copy_text MAX_PLMN_LEN carrier; m_apn := copy_text (MAX_PDP_APN_LEN - 1) apn; m_type := m_type a;
     m_username := copy_text (MAX_AUTH_USER_NAME_LEN - 1) username; m_password := copy_text (MAX_AUTH_PASSWORD_LEN - 1) password;
     m_protocol := SetProtocol protocol;
     m_authType := if (SETUP_DATA_AUTH_NONE <=? authType) && (authType <=? SETUP_DATA_AUTH_PAP_CHAP) then authType else SETUP_DATA_AUTH_NONE;
     m_roaming_protocol := SetProtocol roaming_protocol; mSupportedTypesBitmask := mSupportedTypesBitmask a |}.
(** [Equals] of settings: the roaming protocol is computed and not used *)
Definition EqualSettings (a : ApnSetting) (rhs : option ApnSetting) : bool :=
  match rhs with
  | None => false
  | Some b =>
    (m_authType a =? m_authType b) && Equals (Some (m_protocol a)) (Some (m_protocol b)) && Equals (Some (m_apn a)) (Some (m_apn b))
    && Equals (Some (m_username a)) (Some (m_username b)) && Equals (Some (m_password a)) (Some (m_password b))
  end.

(** ** Data calls *)

Definition MAX_PCSCF_NUM : Z := 3.
Definition MAX_PCSCF_EXT_NUM : Z := 5.
Record Address := { valid : bool; addr : list Z; dns1 : list Z; dns2 : list Z; gw : list Z; pcscf : list Z }.
#[export] Instance Address_eq_dec : EqDecision Address.
Proof. solve_decision. Defined.
Definition zero_address (n : Z) : Address :=
  {| valid := false; addr := fill n 0; dns1 := fill n 0; dns2 := fill n 0; gw := fill n 0; pcscf := fill (n * (MAX_PCSCF_NUM + MAX_PCSCF_EXT_NUM)) 0 |}.
Definition set_valid (v : bool) (a : Address) : Address :=
  {| valid := v; addr := addr a; dns1 := dns1 a; dns2 := dns2 a; gw := gw a; pcscf := pcscf a |}.
Definition set_addr (ad g : list Z) (a : Address) : Address :=
  {| valid := valid a; addr := ad; dns1 := dns1 a; dns2 := dns2 a; gw := g; pcscf := pcscf a |}.

Definition RETRY_NO_SUGGESTED : Z := -1.
Definition RETRY_ASAP : Z := 0.
Record DataCall := {
  dc_status : Z; suggestedRetryTime : Z; dc_cid : Z; dc_active : Z; pdpType : Z; ipv4 : Address; ipv6 : Address;
  mtu_size : Z; pco : Z; IPC_version : Z; pcscf_ext_count : Z; ambr : list Z
}.
#[export] Instance DataCall_eq_dec : EqDecision DataCall.
Proof. solve_decision. Defined.
(** [memset] and the retry time *)
Definition zero_call : DataCall :=
  {| dc_status := 0; suggestedRetryTime := RETRY_NO_SUGGESTED; dc_cid := 0; dc_active := 0; pdpType := 0;
     ipv4 := zero_address 4; ipv6 := zero_address 16; mtu_size := 0; pco := 0; IPC_version := 0; pcscf_ext_count := 0; ambr := fill 7 0 |}.
Definition set_active (a : Z) (d : DataCall) : DataCall :=
  {| dc_status := dc_status d; suggestedRetryTime := suggestedRetryTime d; dc_cid := dc_cid d; dc_active := a; pdpType := pdpType d;
     ipv4 := ipv4 d; ipv6 := ipv6 d; mtu_size := mtu_size d; pco := pco d; IPC_version := IPC_version d; pcscf_ext_count := pcscf_ext_count d; ambr := ambr d |}.
Definition set_addresses (t : Z) (v4 v6 : Address) (d : DataCall) : DataCall :=
  {| dc_status := dc_status d; suggestedRetryTime := suggestedRetryTime d; dc_cid := dc_cid d; dc_active := dc_active d; pdpType := t;
     ipv4 := v4; ipv6 := v6; mtu_size := mtu_size d; pco := pco d; IPC_version := IPC_version d; pcscf_ext_count := pcscf_ext_count d; ambr := ambr d |}.

(** ** PDP contexts *)

Definition PDP_CONTEXT_UNAVAILABLE : Z := 0.
Definition PDP_CONTEXT_DISCONNECTED : Z := 1.
Definition PDP_CONTEXT_CONNECTING : Z := 2.
Definition PDP_CONTEXT_CONNECTED : Z := 3.
Definition PDP_CONTEXT_DISCONNECTING : Z := 4.
Definition PDP_CONTEXT_IPV6_CONFIGURING : Z := 5.
Definition PDP_CONTEXT_STATE_MAX : Z := 6.
Definition INACTIVE : Z := 0.
Definition ACTIVE : Z := 1.
Definition ACTIVE_AND_LINKDOWN : Z := 1.
Definition ACTIVE_AND_LINKUP : Z := 2.
Definition ACTIVE_STATE_MAX : Z := 3.
Definition CP_DATA_CONNECTION_DORMANT : Z := 2.
Definition PH_LINK_DORMANT : Z := 1.
Definition PH_LINK_UP : Z := 2.
Definition PDP_TYPE_IPV4 : Z := 1.
Definition PDP_TYPE_IPV6 : Z := 2.
Definition PDP_TYPE_IPV4V6 : Z := 3.
Definition PDP_TYPE_PPP : Z := 4.
Definition DATA_PROFILE_DEFAULT : Z := 0.
Definition DATA_PROFILE_IMS : Z := 2.

Record PdpContext := {
  m_cid : Z; m_szIfname : list Z; m_pApnSetting : option ApnSetting; m_dataProfileId : Z; m_state : Z; m_dataCall : DataCall;
  m_pNetIfController : bool
}.
Definition set_pdp (a : option ApnSetting) (profile st : Z) (d : DataCall) (n : bool) (p : PdpContext) : PdpContext :=
  {| m_cid := m_cid p; m_szIfname := m_szIfname p; m_pApnSetting := a; m_dataProfileId := profile; m_state := st; m_dataCall := d;
     m_pNetIfController := n |}.
Definition SetApnSetting (a : option ApnSetting) (p : PdpContext) : PdpContext :=
  set_pdp a (m_dataProfileId p) (m_state p) (m_dataCall p) (m_pNetIfController p) p.
Definition SetDataProfileId (i : Z) (p : PdpContext) : PdpContext :=
  set_pdp (m_pApnSetting p) i (m_state p) (m_dataCall p) (m_pNetIfController p) p.
Definition set_call (d : DataCall) (p : PdpContext) : PdpContext :=
  set_pdp (m_pApnSetting p) (m_dataProfileId p) (m_state p) d (m_pNetIfController p) p.
Definition SetState (st : Z) (p : PdpContext) : PdpContext :=
  if (0 <=? st) && (st <? PDP_CONTEXT_STATE_MAX)
  then set_pdp (m_pApnSetting p) (m_dataProfileId p) st (m_dataCall p) (m_pNetIfController p) p else p.
Definition SetActive (active : Z) (p : PdpContext) : PdpContext :=
  if (0 <=? active) && (active <? ACTIVE_STATE_MAX) then set_call (set_active active (m_dataCall p)) p else p.
Definition GetActive (p : PdpContext) : Z := dc_active (m_dataCall p).
Definition IsAvailable (p : PdpContext) : bool := m_state p =? PDP_CONTEXT_DISCONNECTED.

Definition PREFIX_IFNAME : list Z := str "rmnet".
(** the name fits into 21 cells *)
Definition newPdpContext (cid : Z) (ifprefix : option (list Z)) (ifindex : Z) : PdpContext :=
  {| m_cid := if 0 <? cid then cid else 0;
     m_szIfname := if 0 <? cid
                   then take 20 (match ifprefix with Some ((_ :: _) as p) => p | _ => PREFIX_IFNAME end
                                 ++ str (pretty (if ifindex <? 0 then cid - 1 else ifindex)))
                   else [];
     m_pApnSetting := None; m_dataProfileId := DATA_PROFILE_DEFAULT; m_state := PDP_CONTEXT_UNAVAILABLE; m_dataCall := zero_call;
     m_pNetIfController := false |}.
Definition Init (p : PdpContext) : PdpContext :=
  if 0 <? m_cid p
  then SetState PDP_CONTEXT_DISCONNECTED (set_pdp (m_pApnSetting p) (m_dataProfileId p) (m_state p) (m_dataCall p) true p)
  else p.

(** a link-local address, and the same interface identifier *)
Definition link_local (a : Address) : bool :=
  (nth 0 (addr a) 0 =? 254) && (nth 1 (addr a) 0 =? 128).
Definition same_host (a b : Address) : bool := bool_decide (drop 8 (addr a) = drop 8 (addr b)).

Definition UpdateDataCallInfo (dc : option DataCall) (p : PdpContext) : bool * PdpContext :=
  match dc with
  | None => (false, p)
  | Some dc =>
    if negb (m_cid p =? dc_cid dc) then (false, p)
    else
      let old := m_dataCall p in
      let old_active := if negb (dc_active old =? INACTIVE) && negb (dc_active dc =? INACTIVE) then dc_active old else INACTIVE in
      let keep := negb (dc_active old =? INACTIVE) && negb (dc_active dc =? INACTIVE) && (m_state p =? PDP_CONTEXT_CONNECTED)
                  && valid (ipv6 old) && valid (ipv6 dc) && negb (link_local (ipv6 old)) && link_local (ipv6 dc)
                  && same_host (ipv6 old) (ipv6 dc) in
      let d := if keep then set_addresses (pdpType dc) (ipv4 dc) (ipv6 old) dc else dc in
      let d := if negb (old_active =? INACTIVE) && negb (dc_active dc =? INACTIVE)
               then set_active (if dc_active dc =? CP_DATA_CONNECTION_DORMANT then PH_LINK_DORMANT else PH_LINK_UP) d else d in
      let d := match m_pApnSetting p with
               | None => d
               | Some a =>
                 if Equals (Some (m_protocol a)) (Some DATA_PROTOCOL_IP) then set_addresses PDP_TYPE_IPV4 (ipv4 d) (set_valid false (ipv6 d)) d
                 else if Equals (Some (m_protocol a)) (Some DATA_PROTOCOL_IPV6) then set_addresses PDP_TYPE_IPV6 (set_valid false (ipv4 d)) (ipv6 d) d
                 else d
               end in
      (valid (ipv4 d) || valid (ipv6 d), set_call d p)
  end.

(** [NetIfController::BringUp]; what the system calls did is [link]: the two
    sockets are open, the address of each version could be set.  The flags of
    the interface are not modelled. *)
Record Link := { sockets : bool; set_if_addr : bool; set_if_addr_v6 : bool }.
Definition null_address (a : Address) : bool := forallb (λ b, b =? 0) (addr a).
Definition BringUp (link : Link) (p : PdpContext) : bool :=
  let dc := m_dataCall p in
  if negb (sockets link) then false
  else if ACTIVE_AND_LINKDOWN <=? dc_active dc
  then
    let ipset := valid (ipv4 dc) && negb (null_address (ipv4 dc)) && set_if_addr link in
    let ipv6set := valid (ipv6 dc) && negb (null_address (ipv6 dc)) && set_if_addr_v6 link in
    negb ((valid (ipv4 dc) && negb ipset) || (valid (ipv6 dc) && negb ipv6set))
  else true.
Definition OnActivated (link : Link) (dc : option DataCall) (p : PdpContext) : Z * PdpContext :=
  match dc with
  | None => (-1, p)
  | Some d =>
    if dc_active d =? 0 then (-1, p)
    else if negb (m_cid p =? dc_cid d) then (-1, p)
    else
      let '(b, p) := UpdateDataCallInfo dc p in
      if b && negb (m_pNetIfController p && BringUp link p) then (-1, SetActive ACTIVE_AND_LINKDOWN p)
      else
        let p := if b then SetActive ACTIVE_AND_LINKUP p else p in
        if valid (ipv6 (m_dataCall p)) && link_local (ipv6 (m_dataCall p))
        then (0, SetState PDP_CONTEXT_IPV6_CONFIGURING p)
        else (0, SetState PDP_CONTEXT_CONNECTED p)
  end.
(** [SetAddr] copies the addresses that are valid; a version 6 address is copied without its flag *)
Definition SetAddr (dc : DataCall) (p : PdpContext) : Z * PdpContext :=
  let d := m_dataCall p in
  if negb (dc_cid d =? dc_cid dc) then (-1, p)
  else
    let v4 := if valid (ipv4 dc) then set_valid true (set_addr (addr (ipv4 dc)) (gw (ipv4 d)) (ipv4 d)) else ipv4 d in
    let v6 := if valid (ipv6 dc) then set_addr (addr (ipv6 dc)) (gw (ipv6 d)) (ipv6 d) else ipv6 d in
    (0, set_call (set_active ACTIVE_AND_LINKDOWN (set_addresses (pdpType d) v4 v6 d)) p).
Definition ResetContext (p : PdpContext) : PdpContext := set_call zero_call (SetState PDP_CONTEXT_DISCONNECTED p).
(** [TearDown] takes the interface down *)
Definition OnDeactivated (p : PdpContext) : PdpContext := SetState PDP_CONTEXT_DISCONNECTED (ResetContext p).

(** ** Responses *)

Definition MAX_ADDRESS_STRING_LEN : Z := 256.
Definition MAX_IFNAME_LEN : Z := 256.
Definition PDP_FAIL_NONE : Z := 0.
Definition PDP_FAIL_ERROR_UNSPECIFIED : Z := 65535.

Record Response := {
  r_status : Z; r_suggestedRetryTime : Z; r_cid : Z; r_active : Z; r_type : list Z; r_ifname : list Z;
  r_addresses : list Z; r_dnses : list Z; r_gateways : list Z; r_pcscf : list Z; r_mtu : Z
}.
#[export] Instance Response_eq_dec : EqDecision Response.
Proof. solve_decision. Defined.

Definition FillPdpType (d : DataCall) : list Z :=
  if pdpType d =? PDP_TYPE_IPV4 then DATA_PROTOCOL_IP
  else if pdpType d =? PDP_TYPE_IPV6 then DATA_PROTOCOL_IPV6
  else if pdpType d =? PDP_TYPE_IPV4V6 then DATA_PROTOCOL_IPV4V6
  else if pdpType d =? PDP_TYPE_PPP then DATA_PROTOCOL_PPP
  else DATA_PROTOCOL_IP.
Definition FillInterfaceName (d : DataCall) (ifname : list Z) : list Z :=
  match ifname with
  | [] => take (Z.to_nat (MAX_IFNAME_LEN - 1)) (PREFIX_IFNAME ++ str (pretty (dc_cid d - 1)))
  | _ => take (Z.to_nat MAX_IFNAME_LEN) ifname
  end.

Section response.
Variable ntop : bool → list Z → option (list Z).
(** the properties of the product: a default name server, and the version that comes first *)
Variables default_dns v4_first : bool.

(** a space if there is text already, then the word: [strncpy(buf + len, word, size - len - 1)], and for an address
    [snprintf], which keeps a cell for the terminator.  A negative count is a write past the end. *)
Definition append_word (keep : Z) (size : Z) (word : option (list Z)) (buf : list Z) : res (list Z) :=
  let buf := match buf with [] => [] | _ => buf ++ [32] end in
  if lenZ buf <? size
  then Ok (buf ++ match word with Some w => take (Z.to_nat (size - lenZ buf - keep)) w | None => [] end)
  else UB.
Definition add_word : Z → option (list Z) → list Z → res (list Z) := append_word 1.
Definition add_address : Z → option (list Z) → list Z → res (list Z) := append_word 2.
Definition is_null (a : list Z) : bool := forallb (λ b, b =? 0) a.

(** the loop over the P-CSCF addresses of [n] bytes each *)
Definition FillPcscf (v6 : bool) (n : Z) (d : DataCall) (a : Address) (pcscf_text : list Z) : res (list Z) :=
  for_up (Z.to_nat (MAX_PCSCF_NUM + pcscf_ext_count d)) 0
    (λ i buf, w ← rdn (pcscf a) (n * i) n;
              if is_null w then Ok buf else add_word (MAX_ADDRESS_STRING_LEN * 2) (ntop v6 w) buf) pcscf_text.

(** the four texts: addresses, name servers, gateways, P-CSCF *)
Definition Texts : Type := list Z * list Z * list Z * list Z.
Definition FillIpv4Addresses (d : DataCall) (t : Texts) : res Texts :=
  let '(addresses, dnses, gateways, pcscf_text) := t in
  if valid (ipv4 d)
  then
    addresses ← add_address MAX_ADDRESS_STRING_LEN (ntop false (addr (ipv4 d))) addresses;
    dnses ← (if is_null (dns1 (ipv4 d)) then Ok dnses else add_word MAX_ADDRESS_STRING_LEN (ntop false (dns1 (ipv4 d))) dnses);
    dnses ← (if is_null (dns2 (ipv4 d)) then Ok dnses else add_word MAX_ADDRESS_STRING_LEN (ntop false (dns2 (ipv4 d))) dnses);
    gateways ← (if is_null (addr (ipv4 d)) then Ok gateways else add_word MAX_ADDRESS_STRING_LEN (Some (str "0.0.0.0")) gateways);
    pcscf_text ← FillPcscf false 4 d (ipv4 d) pcscf_text;
    Ok (addresses, dnses, gateways, pcscf_text)
  else Ok t.
Definition AddIpv6Dns (dns : list Z) (slot : Z) (dnses : list Z) : res (list Z) :=
  if is_null dns
  then if default_dns && (slot =? 0) then add_word MAX_ADDRESS_STRING_LEN (Some (str "2001:4860:4860::8888")) dnses else Ok dnses
  else add_word MAX_ADDRESS_STRING_LEN (ntop true dns) dnses.
Definition SetIpv6Gateway (d : DataCall) (gateways : list Z) : res (list Z) :=
  if is_null (addr (ipv6 d)) then Ok gateways else add_word MAX_ADDRESS_STRING_LEN (Some (str "::")) gateways.
Definition FillIpv6Addresses (d : DataCall) (t : Texts) : res Texts :=
  let '(addresses, dnses, gateways, pcscf_text) := t in
  if valid (ipv6 d)
  then
    addresses ← add_address MAX_ADDRESS_STRING_LEN ((λ w, w ++ str "/64") <$> ntop true (addr (ipv6 d))) addresses;
    dnses ← AddIpv6Dns (dns1 (ipv6 d)) 0 dnses;
    dnses ← AddIpv6Dns (dns2 (ipv6 d)) 1 dnses;
    gateways ← SetIpv6Gateway d gateways;
    pcscf_text ← FillPcscf true 16 d (ipv6 d) pcscf_text;
    Ok (addresses, dnses, gateways, pcscf_text)
  else Ok t.
(** the copies into the response are as long as the buffers *)
Definition TranslateToResponse (d : DataCall) (ifname : list Z) (r : Response) : res Response :=
  t ← (if v4_first then t ← FillIpv4Addresses d ([], [], [], []); FillIpv6Addresses d t
       else t ← FillIpv6Addresses d ([], [], [], []); FillIpv4Addresses d t);
  let '(addresses, dnses, gateways, pcscf_text) := t in
  Ok {| r_status := r_status r; r_suggestedRetryTime := r_suggestedRetryTime r; r_cid := r_cid r; r_active := r_active r;
        r_type := FillPdpType d; r_ifname := FillInterfaceName d ifname;
        r_addresses := take (Z.to_nat (MAX_ADDRESS_STRING_LEN - 1)) addresses;
        r_dnses := take (Z.to_nat (MAX_ADDRESS_STRING_LEN - 1)) dnses;
        r_gateways := take (Z.to_nat (MAX_ADDRESS_STRING_LEN - 1)) gateways;
        r_pcscf := take (Z.to_nat (MAX_ADDRESS_STRING_LEN * 2 - 1)) pcscf_text; r_mtu := mtu_size d |}.

Definition GetDataCallFailCause (errorCode status : Z) : Z :=
  if errorCode <? 0 then errorCode else if negb (errorCode =? 0) then PDP_FAIL_ERROR_UNSPECIFIED else status.
Definition init_response (st retry cid active : Z) : Response :=
  {| r_status := st; r_suggestedRetryTime := retry; r_cid := cid; r_active := active; r_type := DATA_PROTOCOL_IP;
     r_ifname := []; r_addresses := []; r_dnses := []; r_gateways := []; r_pcscf := []; r_mtu := 0 |}.
Definition set_status (st retry : Z) (r : Response) : Response :=
  {| r_status := st; r_suggestedRetryTime := retry; r_cid := r_cid r; r_active := r_active r; r_type := r_type r; r_ifname := r_ifname r;
     r_addresses := r_addresses r; r_dnses := r_dnses r; r_gateways := r_gateways r; r_pcscf := r_pcscf r; r_mtu := r_mtu r |}.

(** an entry of the data call list *)
Definition ListResponse (p : PdpContext) : res Response :=
  let d := m_dataCall p in
  TranslateToResponse d (m_szIfname p) (init_response (dc_status d) (suggestedRetryTime d) (dc_cid d) (dc_active d)).
(** the result of a setup, without and with a context *)
Definition ErrorResponse (errorCode : Z) : Response :=
  init_response (GetDataCallFailCause errorCode PDP_FAIL_ERROR_UNSPECIFIED) RETRY_NO_SUGGESTED 0 INACTIVE.
Definition SetupResponse (errorCode : Z) (p : option PdpContext) : res Response :=
  match p with
  | None => Ok (ErrorResponse errorCode)
  | Some p =>
    let d := m_dataCall p in
    let r := init_response (GetDataCallFailCause errorCode (dc_status d)) (suggestedRetryTime d) (dc_cid d) (dc_active d) in
    if r_status r =? PDP_FAIL_NONE
    then
      if r_active r =? ACTIVE_AND_LINKUP then TranslateToResponse d (m_szIfname p) r
      else if r_active r =? ACTIVE_AND_LINKDOWN then Ok (set_status PDP_FAIL_ERROR_UNSPECIFIED RETRY_ASAP r)
      else Ok (set_status PDP_FAIL_ERROR_UNSPECIFIED (r_suggestedRetryTime r) r)
    else Ok r
  end.
(** the second overload overrides the status *)
Definition PdpFailResponse (st : Z) : Response := set_status st RETRY_NO_SUGGESTED (ErrorResponse 2).
(** [PsDataCallListBuilder::Build] of at most [MAX_DATA_CALL_SIZE] contexts *)
Fixpoint BuildList (l : list PdpContext) : res (list Response) :=
  match l with [] => Ok [] | p :: l => r ← ListResponse p; rs ← BuildList l; Ok (r :: rs) end.
Definition BuildDataCallList (l : list PdpContext) : res (list Response) := BuildList (take (Z.to_nat MAX_DATA_CALL_SIZE) l).
End response.
