(* ===== verification/PdpTheorems.v ===== *)
(** What [Pdp] shows: the types of an access point setting and what it handles;
    the address of version 6 that is kept when the modem reports a data call;
    the texts of a response, which are the addresses separated by spaces and
    fit their buffers; and the lemmas [PsProofs] uses. *)
From S2P Require Import Prelude RilDef Text Pdp.

(** ** The texts of a response *)

(** words separated by spaces *)
Fixpoint spaced (l : list (list Z)) : list Z :=
  match l with [] => [] | [w] => w | w :: l => w ++ 32 :: spaced l end.
Definition words_ok (l : list (list Z)) : Prop := Forall (λ w, w ≠ []) l.
Definition room (l : list (list Z)) : Z := foldr (λ w n, lenZ w + 1 + n) 0 l.

Lemma spaced_nil l : words_ok l → spaced l = [] → l = [].
Proof. destruct l as [|w [|w' l]]; [done|..]; intros [Hw ?]%Forall_cons; cbn; [done|]. by destruct w. Qed.
Lemma spaced_snoc l w : l ≠ [] → spaced (l ++ [w]) = spaced l ++ 32 :: w.
Proof.
  induction l as [|x l IH]; [done|]. intros _. destruct l as [|y l]; [done|]. cbn [app spaced] in *.
  rewrite IH by done. by rewrite <- app_assoc.
Qed.
Lemma lenZ_spaced l : lenZ (spaced l) <= room l.
Proof.
  induction l as [|x l IH]; [done|]. destruct l as [|y l]; cbn [spaced room foldr] in *; [lia|].
  rewrite lenZ_app, lenZ_cons. fold (room (y :: l)) in *. cbn [room foldr] in *. lia.
Qed.
Lemma room_app l l' : room (l ++ l') = room l + room l'.
Proof. unfold room. induction l as [|x l IH]; cbn; [done|]. rewrite IH. lia. Qed.
Lemma room_bound m l : Forall (λ w, lenZ w <= m) l → room l <= lenZ l * (m + 1).
Proof. induction 1 as [|w l Hw _ IH]; [done|]. cbn [room foldr]. fold (room l). rewrite lenZ_cons. lia. Qed.

Lemma append_word_spaced keep size l w : words_ok l → room (l ++ [w]) < size - keep → 0 <= keep →
  append_word keep size (Some w) (spaced l) = Ok (spaced (l ++ [w])).
Proof.
  intros Hl Hr Hk. unfold append_word. rewrite room_app in Hr. cbn [room foldr] in Hr. fold (room l) in Hr.
  pose proof (lenZ_spaced l). pose proof (lenZ_nonneg w).
  destruct (decide (l = [])) as [->|Hne].
  - change (room []) with 0 in Hr. cbn [spaced app]. rewrite lenZ_nil in *. cmp_cases. by rewrite take_full by lia.
  - rewrite spaced_snoc by done. destruct (spaced l) as [|x b] eqn:E; [by apply spaced_nil in E|].
    rewrite <- E in *. rewrite lenZ_app, lenZ_cons, lenZ_nil. cmp_cases.
    rewrite take_full by lia. by rewrite <- app_assoc.
Qed.

Section texts.
Context (ntop : bool → list Z → option (list Z)) (default_dns v4_first : bool).
(** [inet_ntop]: the text of an address, of at most [INET_ADDRSTRLEN - 1] and [INET6_ADDRSTRLEN - 1] characters *)
Definition ntop_ok : Prop :=
  (∀ b, ∃ w, ntop false b = Some w ∧ 1 <= lenZ w <= 15) ∧ (∀ b, ∃ w, ntop true b = Some w ∧ 1 <= lenZ w <= 45).
Definition word (v6 : bool) (b : list Z) : list Z := default [] (ntop v6 b).

(** the [i]-th P-CSCF address *)
Definition pcscf_at (n : Z) (a : Address) (i : Z) : list Z := take (Z.to_nat n) (drop (Z.to_nat (n * i)) (pcscf a)).
Definition pcscf_words (v6 : bool) (n count : Z) (a : Address) : list (list Z) :=
  word v6 <$> filter (λ b, is_null b = false) (pcscf_at n a <$> seqZ 0 count).
Definition some_word (v6 : bool) (b : list Z) : list (list Z) := if is_null b then [] else [word v6 b].

(** the first name server of version 6, or the one the product falls back to *)
Definition first_dns (b : list Z) : list (list Z) :=
  if is_null b then if default_dns then [str "2001:4860:4860::8888"] else [] else [word true b].

Definition address_words (v6 : bool) (d : DataCall) : list (list Z) :=
  if v6 then if valid (ipv6 d) then [word true (addr (ipv6 d)) ++ str "/64"] else []
  else if valid (ipv4 d) then [word false (addr (ipv4 d))] else [].
Definition dns_words (v6 : bool) (d : DataCall) : list (list Z) :=
  if v6
  then if valid (ipv6 d)
       then first_dns (dns1 (ipv6 d)) ++ some_word true (dns2 (ipv6 d))
       else []
  else if valid (ipv4 d) then some_word false (dns1 (ipv4 d)) ++ some_word false (dns2 (ipv4 d)) else [].
Definition gateway_words (v6 : bool) (d : DataCall) : list (list Z) :=
  if v6 then if valid (ipv6 d) && negb (is_null (addr (ipv6 d))) then [str "::"] else []
  else if valid (ipv4 d) && negb (is_null (addr (ipv4 d))) then [str "0.0.0.0"] else [].
Definition server_words (v6 : bool) (d : DataCall) : list (list Z) :=
  let count := MAX_PCSCF_NUM + pcscf_ext_count d in
  if v6 then if valid (ipv6 d) then pcscf_words true 16 count (ipv6 d) else []
  else if valid (ipv4 d) then pcscf_words false 4 count (ipv4 d) else [].
Definition in_order (f : bool → list (list Z)) : list (list Z) := if v4_first then f false ++ f true else f true ++ f false.
Definition texts_of (d : DataCall) : Texts :=
  (spaced (in_order (λ v, address_words v d)), spaced (in_order (λ v, dns_words v d)),
   spaced (in_order (λ v, gateway_words v d)), spaced (in_order (λ v, server_words v d))).

(** a data call as the adapters and the contexts keep it *)
Definition address_wf (n : Z) (a : Address) : Prop :=
  lenZ (addr a) = n ∧ lenZ (pcscf a) = n * (MAX_PCSCF_NUM + MAX_PCSCF_EXT_NUM).
Definition call_wf (d : DataCall) : Prop :=
  address_wf 4 (ipv4 d) ∧ address_wf 16 (ipv6 d) ∧ 0 <= pcscf_ext_count d <= MAX_PCSCF_EXT_NUM.

Lemma word_ok v6 b : ntop_ok → ntop v6 b = Some (word v6 b) ∧ 1 <= lenZ (word v6 b) <= if v6 then 45 else 15.
Proof.
  intros [H4 H6]. unfold word. destruct v6; [destruct (H6 b) as (w & -> & H)|destruct (H4 b) as (w & -> & H)]; by cbn [default].
Qed.
Lemma word_nonempty v6 b : ntop_ok → word v6 b ≠ [].
Proof. intros H E. destruct (word_ok v6 b H) as [_ Hw]. rewrite E, lenZ_nil in Hw. lia. Qed.

Lemma pcscf_words_snoc v6 n i a :
  0 <= i → pcscf_words v6 n (i + 1) a = pcscf_words v6 n i a ++ (if is_null (pcscf_at n a i) then [] else [word v6 (pcscf_at n a i)]).
Proof.
  intros Hi. unfold pcscf_words. rewrite seqZ_app by lia. rewrite fmap_app, filter_app, fmap_app. f_equal. rewrite Z.add_0_l.
  rewrite seqZ_cons, seqZ_nil by lia. cbn [fmap list_fmap]. rewrite filter_cons. by destruct (is_null _) eqn:E.
Qed.
Lemma words_ok_fmap v6 l : ntop_ok → words_ok (word v6 <$> l).
Proof. intros H. apply Forall_fmap, Forall_forall. intros b _. by apply word_nonempty. Qed.
Lemma pcscf_room v6 n k a : ntop_ok → 0 <= k → room (pcscf_words v6 n k a) <= k * (if v6 then 46 else 16).
Proof.
  intros H Hk. unfold pcscf_words. set (l := filter _ _).
  assert (lenZ l <= k) as Hl.
  { unfold lenZ, l. pose proof (length_filter (λ b, is_null b = false) (pcscf_at n a <$> seqZ 0 k)) as Hf.
    rewrite length_fmap, length_seqZ in Hf. lia. }
  transitivity (lenZ (word v6 <$> l) * ((if v6 then 45 else 15) + 1)).
  - apply room_bound, Forall_fmap, Forall_forall. intros b _. cbn. destruct (word_ok v6 b H). destruct v6; lia.
  - unfold lenZ at 1. rewrite length_fmap. fold (lenZ l). destruct v6; lia.
Qed.

(** every buffer has room for what is put into it *)
Lemma add_some size (v6 : bool) b l : ntop_ok → words_ok l → room l + (if v6 then 46 else 16) < size - 1 →
  (if is_null b then Ok (spaced l) else add_word size (ntop v6 b) (spaced l)) = Ok (spaced (l ++ some_word v6 b)).
Proof.
  intros H Hl Hr. unfold some_word. destruct (is_null b); [by rewrite app_nil_r|].
  destruct (word_ok v6 b H) as [-> Hw]. apply append_word_spaced; [done| |done].
  rewrite room_app. cbn [room foldr]. destruct v6; lia.
Qed.
Lemma some_word_ok (v6 : bool) b : ntop_ok → words_ok (some_word v6 b) ∧ room (some_word v6 b) <= if v6 then 46 else 16.
Proof.
  intros H. unfold some_word. destruct (is_null b); [destruct v6; by split; [apply Forall_nil|]|].
  split; [apply Forall_cons; split; [by apply word_nonempty|done]|]. cbn [room foldr]. destruct (word_ok v6 b H). destruct v6; lia.
Qed.

Lemma FillPcscf_spec (v6 : bool) n d a l :
  ntop_ok → 0 < n → address_wf n a → 0 <= pcscf_ext_count d <= MAX_PCSCF_EXT_NUM → words_ok l →
  room l + (MAX_PCSCF_NUM + MAX_PCSCF_EXT_NUM) * (if v6 then 46 else 16) < MAX_ADDRESS_STRING_LEN * 2 - 1 →
  FillPcscf ntop v6 n d a (spaced l) = Ok (spaced (l ++ pcscf_words v6 n (MAX_PCSCF_NUM + pcscf_ext_count d) a)).
Proof.
  intros H Hn [_ Ha] Hc Hl Hr. unfold FillPcscf, MAX_PCSCF_NUM, MAX_PCSCF_EXT_NUM, MAX_ADDRESS_STRING_LEN in *.
  destruct (for_up_inv (λ i buf, buf = spaced (l ++ pcscf_words v6 n i a)) (Z.to_nat (3 + pcscf_ext_count d)) 0
    (λ i buf, w ← rdn (pcscf a) (n * i) n; if is_null w then Ok buf else add_word (256 * 2) (ntop v6 w) buf) (spaced l))
    as (buf & E & ->); [by rewrite app_nil_r| |].
  - intros i buf Hi ->. rewrite rdn_ok by (rewrite ?Ha; nia). cbn [mbind res_bind].
    change (take _ _) with (pcscf_at n a i). eexists. split; [|done].
    rewrite pcscf_words_snoc, app_assoc by lia. apply add_some; [done| |].
    + apply Forall_app. split; [done|]. by apply words_ok_fmap.
    + rewrite room_app. pose proof (pcscf_room v6 n i a H ltac:(lia)). destruct v6; lia.
  - rewrite E. by rewrite Z.add_0_l, Z2Nat.id by lia.
Qed.

(** one word into a buffer *)
Lemma add_one size w l : words_ok l → room l + lenZ w + 1 < size - 1 → add_word size (Some w) (spaced l) = Ok (spaced (l ++ [w])).
Proof. intros Hl Hr. apply append_word_spaced; [done| |done]. rewrite room_app. cbn [room foldr]. lia. Qed.
Lemma add_address_one size w l : words_ok l → room l + lenZ w + 1 < size - 2 → add_address size (Some w) (spaced l) = Ok (spaced (l ++ [w])).
Proof. intros Hl Hr. apply append_word_spaced; [done| |done]. rewrite room_app. cbn [room foldr]. lia. Qed.

Lemma AddIpv6Dns_first dns l : ntop_ok → words_ok l → room l <= 92 →
  AddIpv6Dns ntop default_dns dns 0 (spaced l) = Ok (spaced (l ++ first_dns dns)).
Proof.
  intros H Hl Hr. unfold AddIpv6Dns, first_dns, MAX_ADDRESS_STRING_LEN. destruct (is_null dns) eqn:En.
  - rewrite andb_true_r. destruct default_dns; [|by rewrite app_nil_r]. by apply add_one; [|change (lenZ (str _)) with 20; lia].
  - destruct (word_ok true dns H) as [-> Hw]. apply add_one; [done|lia].
Qed.
Lemma AddIpv6Dns_second dns l : ntop_ok → words_ok l → room l <= 138 →
  AddIpv6Dns ntop default_dns dns 1 (spaced l) = Ok (spaced (l ++ some_word true dns)).
Proof.
  intros H Hl Hr. unfold AddIpv6Dns, MAX_ADDRESS_STRING_LEN. rewrite andb_false_r. apply add_some; [done..|lia].
Qed.
Lemma first_dns_ok dns : ntop_ok → words_ok (first_dns dns) ∧ room (first_dns dns) <= 46.
Proof.
  intros H. unfold first_dns, words_ok. destruct (word_ok true dns H) as [_ ?]. pose proof (word_nonempty true dns H).
  destruct (is_null dns); [destruct default_dns|]; rewrite ?Forall_cons, ?Forall_nil; cbn [room foldr]; try done; split; [done|lia].
Qed.

(** how much each text can take for one version *)
Lemma words_small (v6 : bool) d : ntop_ok → call_wf d →
  (words_ok (address_words v6 d) ∧ room (address_words v6 d) <= 49) ∧
  (words_ok (dns_words v6 d) ∧ room (dns_words v6 d) <= 92) ∧
  (words_ok (gateway_words v6 d) ∧ room (gateway_words v6 d) <= 8) ∧
  (words_ok (server_words v6 d) ∧ room (server_words v6 d) <= 8 * (if v6 then 46 else 16)).
Proof.
  intros H (_ & _ & Hc). unfold MAX_PCSCF_EXT_NUM in *. pose proof (first_dns_ok (dns1 (ipv6 d)) H) as [? ?].
  pose proof (some_word_ok true (dns2 (ipv6 d)) H) as [? ?]. pose proof (some_word_ok false (dns2 (ipv4 d)) H) as [? ?].
  pose proof (some_word_ok false (dns1 (ipv4 d)) H) as [? ?]. pose proof (word_nonempty true (dns1 (ipv6 d)) H).
  pose proof (word_nonempty false (addr (ipv4 d)) H).
  destruct (word_ok true (dns1 (ipv6 d)) H) as [_ ?]. destruct (word_ok true (addr (ipv6 d)) H) as [_ ?].
  destruct (word_ok false (addr (ipv4 d)) H) as [_ ?].
  assert (word true (addr (ipv6 d)) ++ str "/64" ≠ []) by (intros E%app_nil; by destruct E).
  unfold address_words, dns_words, gateway_words, server_words, MAX_PCSCF_NUM.
  assert (∀ v n a, words_ok (pcscf_words v n (3 + pcscf_ext_count d) a)) by (intros; by apply words_ok_fmap).
  pose proof (pcscf_room true 16 (3 + pcscf_ext_count d) (ipv6 d) H ltac:(lia)). pose proof (pcscf_room false 4 (3 + pcscf_ext_count d) (ipv4 d) H ltac:(lia)).
  split_and!; destruct v6; repeat match goal with |- context [if ?b then _ else _] => destruct b end;
    rewrite ?room_app; unfold words_ok in *; rewrite ?Forall_app, ?Forall_cons, ?Forall_nil; cbn [room foldr andb negb]; rewrite ?lenZ_app;
    change (lenZ (str "/64")) with 3; change (lenZ (str "2001:4860:4860::8888")) with 20;
    try done; try lia; try (split_and!; done).
Qed.

(** the texts so far, with the words of one version added *)
Definition spaced4 (a s g p : list (list Z)) : Texts := (spaced a, spaced s, spaced g, spaced p).
Definition prior (v6 : bool) (a s g p : list (list Z)) : Prop :=
  (words_ok a ∧ room a <= 49) ∧ (words_ok s ∧ room s <= 92) ∧ (words_ok g ∧ room g <= 8) ∧ (words_ok p ∧ room p <= 8 * (if v6 then 16 else 46)).
Lemma FillIpv6Addresses_spec d a s g p : ntop_ok → call_wf d → prior true a s g p →
  FillIpv6Addresses ntop default_dns d (spaced4 a s g p)
  = Ok (spaced4 (a ++ address_words true d) (s ++ dns_words true d) (g ++ gateway_words true d) (p ++ server_words true d)).
Proof.
  intros H (_ & H6 & Hc) ([Ha1 Ha2] & [Hs1 Hs2] & [Hg1 Hg2] & [Hp1 Hp2]).
  unfold spaced4, address_words, dns_words, gateway_words, server_words, FillIpv6Addresses.
  destruct (valid (ipv6 d)); [|by rewrite !app_nil_r].
  destruct (word_ok true (addr (ipv6 d)) H) as [-> Hw]. cbn [fmap option_fmap option_map].
  etrans; [apply (bind_eq _ _ _ (add_address_one MAX_ADDRESS_STRING_LEN (word true (addr (ipv6 d)) ++ str "/64") a Ha1 ltac:(rewrite lenZ_app; change (lenZ (str "/64")) with 3; unfold MAX_ADDRESS_STRING_LEN; lia)))|].
  etrans; [apply (bind_eq _ _ _ (AddIpv6Dns_first (dns1 (ipv6 d)) s H Hs1 Hs2))|].
  destruct (first_dns_ok (dns1 (ipv6 d)) H) as [Hf1 Hf2].
  etrans; [apply (bind_eq _ _ _ (AddIpv6Dns_second (dns2 (ipv6 d)) (s ++ first_dns (dns1 (ipv6 d))) H (Forall_app_2 _ _ _ Hs1 Hf1) ltac:(rewrite room_app; lia)))|].
  rewrite <- app_assoc.
  assert (SetIpv6Gateway d (spaced g) = Ok (spaced (g ++ if true && negb (is_null (addr (ipv6 d))) then [str "::"] else []))) as ->.
  { unfold SetIpv6Gateway, MAX_ADDRESS_STRING_LEN. destruct (is_null _); [by rewrite app_nil_r|]. by apply add_one; [|change (lenZ (str _)) with 2; lia]. }
  cbn [mbind res_bind]. rewrite FillPcscf_spec; [done..|]. unfold MAX_PCSCF_NUM, MAX_PCSCF_EXT_NUM, MAX_ADDRESS_STRING_LEN. lia.
Qed.
Lemma FillIpv4Addresses_spec d a s g p : ntop_ok → call_wf d → prior false a s g p →
  FillIpv4Addresses ntop d (spaced4 a s g p)
  = Ok (spaced4 (a ++ address_words false d) (s ++ dns_words false d) (g ++ gateway_words false d) (p ++ server_words false d)).
Proof.
  intros H (H4 & _ & Hc) ([Ha1 Ha2] & [Hs1 Hs2] & [Hg1 Hg2] & [Hp1 Hp2]).
  unfold spaced4, address_words, dns_words, gateway_words, server_words, FillIpv4Addresses.
  destruct (valid (ipv4 d)); [|by rewrite !app_nil_r].
  destruct (word_ok false (addr (ipv4 d)) H) as [-> Hw].
  etrans; [apply (bind_eq _ _ _ (add_address_one MAX_ADDRESS_STRING_LEN (word false (addr (ipv4 d))) a Ha1 ltac:(unfold MAX_ADDRESS_STRING_LEN; lia)))|].
  etrans; [apply (bind_eq _ _ _ (add_some MAX_ADDRESS_STRING_LEN false (dns1 (ipv4 d)) s H Hs1 ltac:(unfold MAX_ADDRESS_STRING_LEN; lia)))|].
  destruct (some_word_ok false (dns1 (ipv4 d)) H) as [Hf1 Hf2].
  etrans; [apply (bind_eq _ _ _ (add_some MAX_ADDRESS_STRING_LEN false (dns2 (ipv4 d)) (s ++ some_word false (dns1 (ipv4 d))) H (Forall_app_2 _ _ _ Hs1 Hf1)
    ltac:(rewrite room_app; unfold MAX_ADDRESS_STRING_LEN; lia)))|].
  rewrite <- app_assoc.
  assert ((if is_null (addr (ipv4 d)) then Ok (spaced g) else add_word MAX_ADDRESS_STRING_LEN (Some (str "0.0.0.0")) (spaced g))
    = Ok (spaced (g ++ if true && negb (is_null (addr (ipv4 d))) then [str "0.0.0.0"] else []))) as ->.
  { unfold MAX_ADDRESS_STRING_LEN. destruct (is_null _); [by rewrite app_nil_r|]. by apply add_one; [|change (lenZ (str _)) with 7; lia]. }
  cbn [mbind res_bind]. rewrite FillPcscf_spec; [done..|]. unfold MAX_PCSCF_NUM, MAX_PCSCF_EXT_NUM, MAX_ADDRESS_STRING_LEN. lia.
Qed.

Lemma prior_nil v6 : prior v6 [] [] [] [].
Proof. unfold prior, words_ok. destruct v6; cbn [room foldr]; split_and!; try apply Forall_nil_2; lia. Qed.
Lemma prior_words (v6 : bool) d : ntop_ok → call_wf d → prior (negb v6) (address_words v6 d) (dns_words v6 d) (gateway_words v6 d) (server_words v6 d).
Proof. intros H Hd. pose proof (words_small v6 d H Hd). unfold prior. by destruct v6. Qed.

(** a response with the texts of a data call *)
Definition response_of (d : DataCall) (ifname : list Z) (r : Response) : Response :=
  let '(addresses, dnses, gateways, servers) := texts_of d in
  {| r_status := r_status r; r_suggestedRetryTime := r_suggestedRetryTime r; r_cid := r_cid r; r_active := r_active r;
     r_type := FillPdpType d; r_ifname := FillInterfaceName d ifname; r_addresses := addresses; r_dnses := dnses;
     r_gateways := gateways; r_pcscf := servers; r_mtu := mtu_size d |}.

Lemma in_order_room (f : bool → list (list Z)) n m : room (f true) <= n → room (f false) <= m → lenZ (spaced (in_order f)) <= n + m.
Proof. intros Hn Hm. pose proof (lenZ_spaced (in_order f)). unfold in_order in *. destruct v4_first; rewrite room_app in *; lia. Qed.

Lemma TranslateToResponse_spec d ifname r : ntop_ok → call_wf d →
  TranslateToResponse ntop default_dns v4_first d ifname r = Ok (response_of d ifname r).
Proof.
  intros H Hd. destruct (words_small true d H Hd) as ([? ?] & [? ?] & [? ?] & [? ?]).
  destruct (words_small false d H Hd) as ([? ?] & [? ?] & [? ?] & [? ?]).
  unfold TranslateToResponse.
  etrans; [apply (bind_eq _ (texts_of d))|].
  { unfold texts_of, in_order. destruct v4_first; change ([], [], [], []) with (spaced4 [] [] [] []).
    - etrans; [apply (bind_eq _ _ _ (FillIpv4Addresses_spec d [] [] [] [] H Hd (prior_nil false)))|].
      by apply FillIpv6Addresses_spec, (prior_words false).
    - etrans; [apply (bind_eq _ _ _ (FillIpv6Addresses_spec d [] [] [] [] H Hd (prior_nil true)))|].
      by apply FillIpv4Addresses_spec, (prior_words true). }
  unfold response_of, texts_of, MAX_ADDRESS_STRING_LEN.
  rewrite !take_full; [done|..].
  - pose proof (in_order_room (λ v, server_words v d) (8 * 46) (8 * 16)). cbn in *. lia.
  - pose proof (in_order_room (λ v, gateway_words v d) 8 8). lia.
  - pose proof (in_order_room (λ v, dns_words v d) 92 92). lia.
  - pose proof (in_order_room (λ v, address_words v d) 49 49). lia.
Qed.

(** the texts of a data call response.  For every data call with its arrays at their size and at most five extra
    P-CSCF addresses, and an [inet_ntop] that writes at most 15 characters for version 4 and 45 for version 6, building the
    response succeeds without a write past a buffer and without cutting anything: the address, name server, gateway and
    P-CSCF texts are exactly the words of the valid versions, in the product's order, separated by single spaces; null
    name servers and P-CSCF addresses are left out; and each text leaves a cell of its buffer for the terminator. *)
Theorem response_texts d ifname r (H : ntop_ok) (Hd : call_wf d) :
  TranslateToResponse ntop default_dns v4_first d ifname r = Ok (response_of d ifname r) ∧
  lenZ (r_addresses (response_of d ifname r)) < MAX_ADDRESS_STRING_LEN ∧
  lenZ (r_dnses (response_of d ifname r)) < MAX_ADDRESS_STRING_LEN ∧
  lenZ (r_gateways (response_of d ifname r)) < MAX_ADDRESS_STRING_LEN ∧
  lenZ (r_pcscf (response_of d ifname r)) < MAX_ADDRESS_STRING_LEN * 2.
Proof.
  split; [by apply TranslateToResponse_spec|]. unfold MAX_ADDRESS_STRING_LEN.
  destruct (words_small true d H Hd) as ([? ?] & [? ?] & [? ?] & [? ?]).
  destruct (words_small false d H Hd) as ([? ?] & [? ?] & [? ?] & [? ?]).
  pose proof (in_order_room (λ v, server_words v d) (8 * 46) (8 * 16)). pose proof (in_order_room (λ v, gateway_words v d) 8 8).
  pose proof (in_order_room (λ v, dns_words v d) 92 92). pose proof (in_order_room (λ v, address_words v d) 49 49).
  cbn [response_of texts_of r_addresses r_dnses r_gateways r_pcscf] in *. lia.
Qed.
End texts.

(** a two-version call with one name server and one P-CSCF address, and [inet_ntop] as two fixed texts *)
Definition sample_ntop (v6 : bool) (b : list Z) : option (list Z) := Some (if v6 then str "fe80::1" else str "10.0.0.1").
Definition sample_address (n : Z) (a : list Z) : Address :=
  {| valid := true; addr := a; dns1 := a; dns2 := fill n 0; gw := fill n 0; pcscf := a ++ fill (n * 7) 0 |}.
Definition sample_call : DataCall :=
  {| dc_status := 0; suggestedRetryTime := RETRY_NO_SUGGESTED; dc_cid := 2; dc_active := ACTIVE; pdpType := PDP_TYPE_IPV4V6;
     ipv4 := sample_address 4 [10; 0; 0; 1]; ipv6 := sample_address 16 ([254; 128] ++ fill 13 0 ++ [1]);
     mtu_size := 1500; pco := 0; IPC_version := 1; pcscf_ext_count := 0; ambr := fill 7 0 |}.
Lemma sample_ntop_ok : ntop_ok sample_ntop.
Proof. split; intros b; eexists; split; done. Qed.
Lemma sample_call_wf : call_wf sample_call.
Proof. by_eval. Qed.

Lemma response_texts_witness :
  r_addresses <$> TranslateToResponse sample_ntop false true sample_call [] (ErrorResponse 0) = Ok (str "10.0.0.1 fe80::1/64").
Proof.
  destruct (response_texts sample_ntop false true sample_call [] (ErrorResponse 0) sample_ntop_ok sample_call_wf) as [-> _].
  reflexivity.
Defined.

(** ** The types of an access point setting *)

Definition mask_type (mask : Z) : list Z := m_type (SetSupportedTypesBitmask mask newApnSetting).
Lemma mask_type_eq mask a : m_type (SetSupportedTypesBitmask mask a) = mask_type (Z.land mask APN_TYPE_BIT_ALL).
Proof. unfold mask_type, SetSupportedTypesBitmask. cbn [m_type]. by rewrite <- Z.land_assoc, Z.land_diag. Qed.
Definition handles (mask i : Z) : bool :=
  bool_decide (mask_type mask = APN_TYPE_ALL) || strcasestr (mask_type mask) (nth (Z.to_nat i) apn_types []).
Lemma handles_all : forallb (λ mask, forallb (λ i, eqb (handles mask i) (Z.testbit mask i)) (seqZ 0 10)) (seqZ 0 1024) = true.
Proof. vm_compute. reflexivity. Qed.
Lemma handles_bit mask i : 0 <= mask < 1024 → 0 <= i < 10 → handles mask i = Z.testbit mask i.
Proof. intros Hm Hi. by apply eqb_prop, (small_forall2 1024 10 (λ m i, eqb (handles m i) (Z.testbit m i)) handles_all). Qed.
Lemma land_types_range mask : 0 <= Z.land mask APN_TYPE_BIT_ALL < 1024.
Proof. apply (land_range_r mask APN_TYPE_BIT_ALL 10); [lia|unfold APN_TYPE_BIT_ALL; lia]. Qed.
Lemma land_types_bit mask i : 0 <= i < 10 → Z.testbit (Z.land mask APN_TYPE_BIT_ALL) i = Z.testbit mask i.
Proof.
  intros Hi. rewrite Z.land_spec. change APN_TYPE_BIT_ALL with (Z.ones 10). by rewrite Z.ones_spec_low, andb_true_r by lia.
Qed.

(** a setting handles exactly the types of its bit mask.  [SetSupportedTypesBitmask] turns the mask into a list of names
    and [CanHandleType] looks a name up in that text; for every mask and each of the ten types the answer is the bit of that
    type, so no name is found inside another or across a comma, none is cut off at the end of the buffer, and the star that
    stands for all of them is used only when every bit is set. *)
Theorem apn_types_handled mask a i (Hi : 0 <= i < 10) :
  CanHandleType (Some (nth (Z.to_nat i) apn_types [])) (SetSupportedTypesBitmask mask a) = Z.testbit mask i.
Proof.
  unfold CanHandleType. rewrite mask_type_eq. etrans; [|exact (land_types_bit mask i Hi)].
  rewrite <- (handles_bit _ i (land_types_range mask) Hi). unfold handles. by destruct (bool_decide _).
Qed.
Lemma apn_types_handled_witness :
  CanHandleType (Some (nth 6 apn_types [])) (SetSupportedTypesBitmask (64 + 512) newApnSetting) = true
  ∧ CanHandleType (Some (nth 8 apn_types [])) (SetSupportedTypesBitmask (64 + 512) newApnSetting) = false.
Proof.
  split; [apply (apn_types_handled (64 + 512) newApnSetting 6)|apply (apn_types_handled (64 + 512) newApnSetting 8)]; lia.
Defined.

(** ** A data call reported by the modem *)

Lemma UpdateDataCallInfo_state dc p : m_state (UpdateDataCallInfo dc p).2 = m_state p ∧ m_cid (UpdateDataCallInfo dc p).2 = m_cid p
  ∧ m_pApnSetting (UpdateDataCallInfo dc p).2 = m_pApnSetting p ∧ m_pNetIfController (UpdateDataCallInfo dc p).2 = m_pNetIfController p
  ∧ m_szIfname (UpdateDataCallInfo dc p).2 = m_szIfname p.
Proof. unfold UpdateDataCallInfo. destruct dc as [dc|]; [|done]. by destruct (negb (m_cid p =? dc_cid dc)). Qed.

Definition keeps_prefix (dc : DataCall) (p : PdpContext) : bool :=
  let old := m_dataCall p in
  negb (dc_active old =? INACTIVE) && negb (dc_active dc =? INACTIVE) && (m_state p =? PDP_CONTEXT_CONNECTED)
  && valid (ipv6 old) && valid (ipv6 dc) && negb (link_local (ipv6 old)) && link_local (ipv6 dc) && same_host (ipv6 old) (ipv6 dc).
(** the activity of the context after a report of its call *)
Definition reported_active (dc : DataCall) (p : PdpContext) : Z :=
  if negb (dc_active (m_dataCall p) =? INACTIVE) && negb (dc_active dc =? INACTIVE)
  then if dc_active dc =? CP_DATA_CONNECTION_DORMANT then PH_LINK_DORMANT else PH_LINK_UP
  else dc_active dc.
(** the versions the setting of the context asks for *)
Definition wants4 (p : PdpContext) : bool := match m_pApnSetting p with Some a => negb (Equals (Some (m_protocol a)) (Some DATA_PROTOCOL_IPV6)) | None => true end.
Definition wants6 (p : PdpContext) : bool := match m_pApnSetting p with Some a => negb (Equals (Some (m_protocol a)) (Some DATA_PROTOCOL_IP)) | None => true end.

Lemma protocols_differ a : Equals (Some (m_protocol a)) (Some DATA_PROTOCOL_IP) = true →
  Equals (Some (m_protocol a)) (Some DATA_PROTOCOL_IPV6) = true → False.
Proof.
  unfold Equals. rewrite !andb_false_r. intros H1%bool_decide_eq_true_1 H2%bool_decide_eq_true_1. rewrite H1 in H2.
  apply (f_equal lenZ) in H2. by vm_compute in H2.
Qed.

Lemma UpdateDataCallInfo_eq dc p : m_cid p = dc_cid dc →
  let d := m_dataCall (UpdateDataCallInfo (Some dc) p).2 in
  dc_active d = reported_active dc p ∧ dc_cid d = m_cid p ∧ dc_status d = dc_status dc ∧ pcscf_ext_count d = pcscf_ext_count dc ∧
  mtu_size d = mtu_size dc ∧ ambr d = ambr dc ∧
  ipv4 d = (if wants4 p then ipv4 dc else set_valid false (ipv4 dc)) ∧
  ipv6 d = (let v6 := if keeps_prefix dc p then ipv6 (m_dataCall p) else ipv6 dc in if wants6 p then v6 else set_valid false v6).
Proof.
  intros Hc. cbv zeta. unfold UpdateDataCallInfo. rewrite <- Hc, Z.eqb_refl. cbn [negb].
  change (_ && same_host _ _) with (keeps_prefix dc p). unfold reported_active, wants4, wants6.
  pose proof (protocols_differ) as Hd.
  destruct (dc_active (m_dataCall p) =? INACTIVE) eqn:E1, (dc_active dc =? INACTIVE) eqn:E2, (keeps_prefix dc p), (dc_active dc =? CP_DATA_CONNECTION_DORMANT);
    cbn [negb andb]; rewrite ?E1; cbn [negb andb]; (destruct (m_pApnSetting p) as [a|]; [|by split_and!]); specialize (Hd a);
    destruct (Equals (Some (m_protocol a)) (Some DATA_PROTOCOL_IP)), (Equals (Some (m_protocol a)) (Some DATA_PROTOCOL_IPV6));
    first [by exfalso; auto | by split_and!].
Qed.

(** a report of a call that has a global address, with its interface identifier *)
Definition repeats (p : PdpContext) (dc : DataCall) : Prop :=
  dc_cid dc = m_cid p ∧ dc_active dc ≠ INACTIVE ∧ valid (ipv6 dc) = true ∧ link_local (ipv6 dc) = true ∧
  drop 8 (addr (ipv6 dc)) = drop 8 (addr (ipv6 (m_dataCall p))).
Definition reports (l : list DataCall) (p : PdpContext) : PdpContext := foldl (λ p dc, (UpdateDataCallInfo (Some dc) p).2) p l.
(** connected, with a valid address of version 6 that is not link-local *)
Definition has_global (p : PdpContext) : Prop :=
  m_state p = PDP_CONTEXT_CONNECTED ∧ GetActive p ≠ INACTIVE ∧ valid (ipv6 (m_dataCall p)) = true ∧
  link_local (ipv6 (m_dataCall p)) = false ∧ wants6 p = true.

Lemma reported_live dc p : dc_active dc ≠ INACTIVE → reported_active dc p ≠ INACTIVE.
Proof.
  unfold reported_active, INACTIVE, PH_LINK_DORMANT, PH_LINK_UP. intros H. destruct (Z.eqb_spec (dc_active dc) 0); [done|].
  destruct (dc_active (m_dataCall p) =? 0); cbn [negb andb]; [done|]. by destruct (dc_active dc =? _).
Qed.
Lemma global_step dc p : has_global p → repeats p dc →
  has_global (UpdateDataCallInfo (Some dc) p).2 ∧ ipv6 (m_dataCall (UpdateDataCallInfo (Some dc) p).2) = ipv6 (m_dataCall p)
  ∧ m_cid (UpdateDataCallInfo (Some dc) p).2 = m_cid p.
Proof.
  intros (Hs & Ha & Hv & Hl & Hw) (Hc & Hda & Hdv & Hdl & Hh).
  destruct (UpdateDataCallInfo_eq dc p (eq_sym Hc)) as (Ea & _ & _ & _ & _ & _ & _ & E6).
  destruct (UpdateDataCallInfo_state (Some dc) p) as (Es & Ec & Eapn & _ & _).
  assert (keeps_prefix dc p = true) as Hk.
  { unfold keeps_prefix, same_host. unfold GetActive in Ha. rewrite Hs, Hv, Hdv, Hl, Hdl, Hh, bool_decide_eq_true_2 by done.
    by rewrite (proj2 (Z.eqb_neq _ _) Ha), (proj2 (Z.eqb_neq _ _) Hda). }
  rewrite Hk, Hw in E6. split; [|by split]. unfold has_global, GetActive. rewrite Es, E6, Ea.
  split_and!; [done|by apply reported_live|done..|]. unfold wants6. by rewrite Eapn.
Qed.

(** the global address of a data call is kept.  The modem reports only the link-local address; the prefix comes from a
    router advertisement.  Once a connected context has a global address of version 6, every sequence of reports of the call
    as active with the same interface identifier leaves that address, with its gateway and name servers, in place and the
    context connected and active, while the other fields (here the MTU and version 4) follow the last report. *)
Theorem ipv6_global_kept p l dc (Hp : has_global p) (Hl : Forall (repeats p) (l ++ [dc])) :
  has_global (reports (l ++ [dc]) p) ∧ ipv6 (m_dataCall (reports (l ++ [dc]) p)) = ipv6 (m_dataCall p) ∧
  mtu_size (m_dataCall (reports (l ++ [dc]) p)) = mtu_size dc ∧
  (wants4 p = true → ipv4 (m_dataCall (reports (l ++ [dc]) p)) = ipv4 dc).
Proof.
  assert (∀ l q, has_global q → Forall (repeats q) l →
    has_global (reports l q) ∧ ipv6 (m_dataCall (reports l q)) = ipv6 (m_dataCall q) ∧ m_cid (reports l q) = m_cid q ∧
    m_pApnSetting (reports l q) = m_pApnSetting q) as HI.
  { intros l0. induction l0 as [|x l0 IH]; intros q Hq; [done|]. intros [Hx Hr]%Forall_cons.
    destruct (global_step x q Hq Hx) as (H1 & H2 & H3). destruct (UpdateDataCallInfo_state (Some x) q) as (_ & _ & H4 & _ & _).
    destruct (IH (UpdateDataCallInfo (Some x) q).2 H1) as (J1 & J2 & J3 & J4).
    { eapply Forall_impl; [exact Hr|]. intros y. unfold repeats. by rewrite H2, H3. }
    change (reports (x :: l0) q) with (reports l0 (UpdateDataCallInfo (Some x) q).2). rewrite J2, J3, J4. by split_and!. }
  destruct (HI (l ++ [dc]) p Hp Hl) as (H1 & H2 & _). split; [done|]. split; [done|].
  apply Forall_app in Hl as [Hl [Hdc _]%Forall_cons]. destruct (HI l p Hp Hl) as (_ & _ & H3 & H4).
  unfold reports in *. rewrite foldl_app. cbn [foldl].
  destruct (UpdateDataCallInfo_eq dc (foldl (λ p dc, (UpdateDataCallInfo (Some dc) p).2) p l)) as (_ & _ & _ & _ & Em & _ & E4 & _).
  { by rewrite H3, (proj1 Hdc). }
  split; [done|]. intros Hw. rewrite E4. unfold wants4 in *. by rewrite H4, Hw.
Qed.
Lemma ipv6_global_kept_witness :
  let v6 a := {| valid := true; addr := a ++ fill 7 0 ++ [1]; dns1 := []; dns2 := []; gw := []; pcscf := [] |} in
  let call a := set_addresses PDP_TYPE_IPV6 (zero_address 4) (v6 a) (set_active ACTIVE sample_call) in
  let p := SetState PDP_CONTEXT_CONNECTED (set_call (call [32; 1; 13; 184; 0; 0; 0; 1]) (Init (newPdpContext 2 None 1))) in
  let dc := call [254; 128; 0; 0; 0; 0; 0; 0] in
  ipv6 (m_dataCall (reports [dc; dc] p)) = v6 [32; 1; 13; 184; 0; 0; 0; 1].
Proof.
  intros v6 call p dc. refine (proj1 (proj2 (ipv6_global_kept p [dc] dc _ _))); unfold has_global, repeats; by_eval.
Defined.

(** ** Bringing a context up *)

Lemma set_valid_wf v n a : address_wf n a → address_wf n (set_valid v a).
Proof. done. Qed.
Lemma UpdateDataCallInfo_wf dc p : call_wf dc → call_wf (m_dataCall p) → m_cid p = dc_cid dc → call_wf (m_dataCall (UpdateDataCallInfo (Some dc) p).2).
Proof.
  intros (H4 & H6 & Hn) (O4 & O6 & _) Hc. destruct (UpdateDataCallInfo_eq dc p Hc) as (_ & _ & _ & En & _ & _ & E4 & E6).
  unfold call_wf. rewrite En, E4, E6. split; [by destruct (wants4 p)|]. split; [by destruct (keeps_prefix dc p), (wants6 p)|done].
Qed.
Lemma reported_range dc p : 1 <= dc_active dc <= 2 → 1 <= reported_active dc p <= 2.
Proof. unfold reported_active, PH_LINK_DORMANT, PH_LINK_UP. intros H. destruct (_ && _); [destruct (_ =? _)|]; lia. Qed.

Lemma SetActive_eq a p : 0 <= a < 3 → SetActive a p = set_call (set_active a (m_dataCall p)) p.
Proof. intros H. unfold SetActive, ACTIVE_STATE_MAX. by rewrite (proj2 (Z.leb_le _ _) (proj1 H)), (proj2 (Z.ltb_lt _ _) (proj2 H)). Qed.
Lemma SetState_eq st p : 0 <= st < 6 → SetState st p = set_pdp (m_pApnSetting p) (m_dataProfileId p) st (m_dataCall p) (m_pNetIfController p) p.
Proof. intros H. unfold SetState, PDP_CONTEXT_STATE_MAX. by rewrite (proj2 (Z.leb_le _ _) (proj1 H)), (proj2 (Z.ltb_lt _ _) (proj2 H)). Qed.

(** a context that was given a call of its own that is active: the call is taken over, and the context is connected, waits
    for its prefix, or was left as it was because the interface did not come up *)
Lemma OnActivated_spec link dc p : m_cid p = dc_cid dc → 1 <= dc_active dc <= 2 → call_wf dc → call_wf (m_dataCall p) →
  let p' := (OnActivated link (Some dc) p).2 in
  m_cid p' = m_cid p ∧ m_szIfname p' = m_szIfname p ∧ m_pApnSetting p' = m_pApnSetting p ∧ call_wf (m_dataCall p') ∧ dc_cid (m_dataCall p') = m_cid p ∧
  1 <= GetActive p' <= 2 ∧
  ((m_state p' = m_state p ∧ GetActive p' = ACTIVE_AND_LINKDOWN) ∨ m_state p' = PDP_CONTEXT_CONNECTED ∨ m_state p' = PDP_CONTEXT_IPV6_CONFIGURING).
Proof.
  intros Hc Ha Hw Hp. cbv zeta. unfold OnActivated.
  rewrite (proj2 (Z.eqb_neq (dc_active dc) 0)) by lia. rewrite <- Hc, Z.eqb_refl. cbn [negb].
  destruct (UpdateDataCallInfo_eq dc p Hc) as (Ea & Ec & _). destruct (UpdateDataCallInfo_state (Some dc) p) as (Es & Em & Eapn & _ & Eif).
  pose proof (UpdateDataCallInfo_wf dc p Hw Hp Hc) as Hw'. pose proof (reported_range dc p Ha) as Hr. rewrite <- Ea in Hr.
  destruct (UpdateDataCallInfo (Some dc) p) as [b q]. cbn [fst snd] in *.
  rewrite !SetActive_eq by (unfold ACTIVE_AND_LINKDOWN, ACTIVE_AND_LINKUP; lia). unfold GetActive, ACTIVE_AND_LINKDOWN, ACTIVE_AND_LINKUP in *.
  destruct (b && _); [cbn; split_and!; try done; auto|].
  destruct b, (valid _ && link_local _); rewrite SetState_eq by (unfold PDP_CONTEXT_CONNECTED, PDP_CONTEXT_IPV6_CONFIGURING; lia);
    cbn; split_and!; try done; try lia; auto.
Qed.

(** ** Responses *)

Section responses.
Context (ntop : bool → list Z → option (list Z)) (default_dns v4_first : bool) (Hntop : ntop_ok ntop).

(** the entry of the data call list for a context *)
Definition list_entry (p : PdpContext) : Response :=
  let d := m_dataCall p in
  response_of ntop default_dns v4_first d (m_szIfname p) (init_response (dc_status d) (suggestedRetryTime d) (dc_cid d) (dc_active d)).
Lemma ListResponse_spec p : call_wf (m_dataCall p) → ListResponse ntop default_dns v4_first p = Ok (list_entry p).
Proof. intros Hp. by apply TranslateToResponse_spec. Qed.
Lemma BuildDataCallList_spec l : Forall (λ p, call_wf (m_dataCall p)) l →
  BuildDataCallList ntop default_dns v4_first l = Ok (list_entry <$> take (Z.to_nat MAX_DATA_CALL_SIZE) l).
Proof.
  intros H. unfold BuildDataCallList. apply (Forall_take _ (Z.to_nat MAX_DATA_CALL_SIZE)) in H. induction H as [|p l' Hp _ IH]; [done|].
  cbn [BuildList fmap list_fmap]. rewrite ListResponse_spec by done. cbn [mbind res_bind]. by rewrite IH.
Qed.

Lemma fail_cause_none e st : GetDataCallFailCause e st = PDP_FAIL_NONE ↔ e = 0 ∧ st = PDP_FAIL_NONE.
Proof.
  unfold GetDataCallFailCause, PDP_FAIL_NONE, PDP_FAIL_ERROR_UNSPECIFIED.
  destruct (Z.ltb_spec e 0); [split; lia|]. destruct (Z.eqb_spec e 0); cbn [negb]; lia.
Qed.
(** when the answer of a setup says that it succeeded *)
Lemma SetupResponse_spec e p : call_wf (m_dataCall p) →
  ∃ r, SetupResponse ntop default_dns v4_first e (Some p) = Ok r ∧ r_cid r = dc_cid (m_dataCall p) ∧
       (r_status r = PDP_FAIL_NONE ↔ e = 0 ∧ dc_status (m_dataCall p) = PDP_FAIL_NONE ∧ GetActive p = ACTIVE_AND_LINKUP) ∧
       (r_status r = PDP_FAIL_NONE → r = list_entry p).
Proof.
  intros Hp. unfold SetupResponse. cbv zeta. cbn [r_status init_response].
  destruct (Z.eqb_spec (GetDataCallFailCause e (dc_status (m_dataCall p))) PDP_FAIL_NONE) as [E|E].
  - pose proof E as [He Hs]%fail_cause_none. cbn [r_active init_response]. unfold GetActive. rewrite E.
    destruct (Z.eqb_spec (dc_active (m_dataCall p)) ACTIVE_AND_LINKUP) as [Ha|Ha].
    + rewrite TranslateToResponse_spec by done. eexists. split; [done|]. unfold list_entry. rewrite Hs. by split_and!.
    + destruct (dc_active (m_dataCall p) =? ACTIVE_AND_LINKDOWN); eexists; (split; [done|]); cbn; unfold PDP_FAIL_NONE, PDP_FAIL_ERROR_UNSPECIFIED;
        (split; [done|]); (split; [|lia]); (split; [lia|by intros (_ & _ & ?)]).
  - eexists. split; [done|]. cbn. split; [done|]. rewrite fail_cause_none in E. rewrite fail_cause_none.
    split; [tauto|]. intros ?. by destruct E.
Qed.
End responses.
