(* ===== verification/PsBuilder.v ===== *)
(** The packets of packet data as the daemon sends them:
    [protocol/sit/protocolpsbuilder.cpp] with the request structures of
    [protocol/sit/sitdef.h].

    A builder fills a block of memory of the size of its structure and returns a
    copy of it ([Some]) or a null pointer ([None]), and every header takes the
    next token.  The system properties and [inet_pton] belong to the platform
    and are arguments; [char] is unsigned. *)
From S2P Require Import Prelude RilDef Text WaitList Rcm Layout Network Pdp.

Definition SIT_SETUP_DATA_CALL : Z := 0x600.
Definition SIT_DEACT_DATA_CALL : Z := 0x601.
Definition SIT_GET_DATA_CALL_LIST : Z := 0x602.
Definition SIT_SET_INITIAL_ATTACH_APN : Z := 0x603.
Definition SIT_SET_FD_INFO : Z := 0x605.
Definition SIT_START_KEEPALIVE : Z := 0x60A.
Definition SIT_STOP_KEEPALIVE : Z := 0x60B.
Definition SIT_SET_DATA_PROFILE : Z := 0x613.
Definition SIT_SET_PREFERRED_DATA_MODEM : Z := 0x740.
Definition SIT_PDP_PDP_TYPE_UNKNOWN : Z := 0.
Definition SIT_PDP_PDP_TYPE_IPV4 : Z := 1.
Definition SIT_PDP_PDP_TYPE_IPV6 : Z := 2.
Definition SIT_PDP_PDP_TYPE_IPV4IPV6 : Z := 3.
Definition SIT_PDP_PDP_TYPE_PPP : Z := 4.
Definition SIT_PDP_DATA_PROFILE_DEFAULT : Z := 0.
Definition SIT_PDP_DATA_PROFILE_TETHERED : Z := 1.
Definition SIT_PDP_APN_TYPE_DEFAULT : Z := 0.
Definition SIT_PDP_APN_TYPE_IMS : Z := 1.
Definition SIT_PDP_APN_TYPE_EMERGENCY : Z := 2.
Definition SIT_PDP_AUTH_TYPE_NONE : Z := 0.
Definition SIT_PDP_AUTH_TYPE_PAP : Z := 1.
Definition SIT_PDP_AUTH_TYPE_CHAP : Z := 2.
Definition SIT_PDP_AUTH_TYPE_PAP_CHAP : Z := 3.
Definition SIT_PDP_PCSCF_REQ_NONE : Z := 0.
Definition SIT_PDP_PCSCF_REQ_IPV4 : Z := 1.
Definition SIT_PDP_PCSCF_REQ_IPV6 : Z := 2.
Definition SIT_PDP_PCSCF_REQ_IPV4V6 : Z := 3.
Definition SIT_RAT_TYPE_LTE : Z := 14.
Definition SIT_IA_PROFILE_ID_UNKNOWN : Z := 0.
Definition RIL_DATA_PROFILE_TETHERED : Z := 1.
Definition DATA_PROFILE_NULL_APN_IA : Z := 5.
Definition SETUP_DATA_AUTH_PAP : Z := 1.
Definition SETUP_DATA_AUTH_CHAP : Z := 2.
Definition APN_TYPE_IA : list Z := str "ia".
Definition STR_PDP_TYPE_IPV4 : list Z := str "IP".
Definition STR_PDP_TYPE_IPV6 : list Z := str "IPV6".
Definition STR_PDP_TYPE_IPV4V6 : list Z := str "IPV4V6".

(** ** Values of the fields *)

Definition ConvertDataProfileIdToProtocolDataProfile (dataProfileId : Z) : Z :=
  if dataProfileId =? RIL_DATA_PROFILE_TETHERED then SIT_PDP_DATA_PROFILE_TETHERED else SIT_PDP_DATA_PROFILE_DEFAULT.
Definition GetProtocolApnType (dataProfileId : Z) (a : ApnSetting) : Z :=
  let '(apntype, matched) := (SIT_PDP_APN_TYPE_DEFAULT, 0) in
  let '(apntype, matched) := if CanHandleType (Some APN_TYPE_EMERGENCY) a then (SIT_PDP_APN_TYPE_EMERGENCY, matched + 1) else (apntype, matched) in
  let '(apntype, matched) := if CanHandleType (Some APN_TYPE_IMS) a then (SIT_PDP_APN_TYPE_IMS, matched + 1) else (apntype, matched) in
  let '(apntype, matched) := if CanHandleType (Some APN_TYPE_DEFAULT) a then (SIT_PDP_APN_TYPE_DEFAULT, matched + 1) else (apntype, matched) in
  if 1 <? matched
  then if dataProfileId =? DATA_PROFILE_IMS then SIT_PDP_APN_TYPE_IMS else SIT_PDP_APN_TYPE_DEFAULT
  else apntype.
Definition ConvertAuthTypeToProtocolAuthType (authtype : Z) : Z :=
  if authtype =? SETUP_DATA_AUTH_NONE then SIT_PDP_AUTH_TYPE_NONE
  else if authtype =? SETUP_DATA_AUTH_PAP then SIT_PDP_AUTH_TYPE_PAP
  else if authtype =? SETUP_DATA_AUTH_CHAP then SIT_PDP_AUTH_TYPE_CHAP
  else if authtype =? SETUP_DATA_AUTH_PAP_CHAP then SIT_PDP_AUTH_TYPE_PAP_CHAP
  else SIT_PDP_AUTH_TYPE_NONE.
Definition strcmp_eq (a b : list Z) : bool := bool_decide (a = b).
Definition GetPdpType (protocol : option (list Z)) : Z :=
  if IsEmpty protocol then SIT_PDP_PDP_TYPE_IPV4
  else
    let p := default [] protocol in
    if strcmp_eq p STR_PDP_TYPE_IPV4 then SIT_PDP_PDP_TYPE_IPV4
    else if strcmp_eq p STR_PDP_TYPE_IPV6 then SIT_PDP_PDP_TYPE_IPV6
    else if strcmp_eq p STR_PDP_TYPE_IPV4V6 then SIT_PDP_PDP_TYPE_IPV4IPV6
    else SIT_PDP_PDP_TYPE_IPV4.
Definition ConvertPdpProtocolTypeToSitPdpType (protocol : Z) : Z :=
  if protocol =? 0 then SIT_PDP_PDP_TYPE_IPV4
  else if protocol =? 1 then SIT_PDP_PDP_TYPE_IPV6
  else if protocol =? 2 then SIT_PDP_PDP_TYPE_IPV4IPV6
  else if protocol =? 3 then SIT_PDP_PDP_TYPE_PPP
  else if (protocol =? -1) || (protocol =? 4) || (protocol =? 5) then SIT_PDP_PDP_TYPE_UNKNOWN
  else SIT_PDP_PDP_TYPE_IPV4.
Definition GetPcscfReqType (a : ApnSetting) (protocol : option (list Z)) : Z :=
  if IsEmpty (Some (m_apn a)) then SIT_PDP_PCSCF_REQ_IPV4V6
  else if CanHandleType (Some APN_TYPE_IMS) a || CanHandleType (Some APN_TYPE_EMERGENCY) a
  then
    if IsEmpty protocol then SIT_PDP_PCSCF_REQ_IPV4
    else
      let p := default [] protocol in
      if strcmp_eq p STR_PDP_TYPE_IPV4 then SIT_PDP_PCSCF_REQ_IPV4
      else if strcmp_eq p STR_PDP_TYPE_IPV6 then SIT_PDP_PCSCF_REQ_IPV6
      else if strcmp_eq p STR_PDP_TYPE_IPV4V6 then SIT_PDP_PCSCF_REQ_IPV4V6
      else SIT_PDP_PCSCF_REQ_IPV4
  else SIT_PDP_PCSCF_REQ_NONE.
Definition GetPcscfReqTypeforNullAPN (protocol : option (list Z)) : Z :=
  if negb (IsEmpty protocol)
  then
    let p := default [] protocol in
    if strcmp_eq p STR_PDP_TYPE_IPV4 then SIT_PDP_PCSCF_REQ_IPV4
    else if strcmp_eq p STR_PDP_TYPE_IPV6 then SIT_PDP_PCSCF_REQ_IPV6
    else if strcmp_eq p STR_PDP_TYPE_IPV4V6 then SIT_PDP_PCSCF_REQ_IPV4V6
    else SIT_PDP_PCSCF_REQ_NONE
  else SIT_PDP_PCSCF_REQ_IPV4V6.
Definition isRatForCDMA (rat : Z) : bool :=
  bool_decide (rat ∈ [RADIO_TECH_IS95A; RADIO_TECH_IS95B; RADIO_TECH_1xRTT; RADIO_TECH_EVDO_0; RADIO_TECH_EVDO_A; RADIO_TECH_EVDO_B]).

(** ** Setting up and attaching *)

(** [sit_pdp_setup_data_call_req]: cid 12, rat 13, data_profile 14, apn_type 15, apn 16, username 117, password 167, auth_type 217, pdp_type 218,
    pcscf_addr_req 219, IPv4Address 220, IPv6Address 224 *)
Definition sizeof_setup_data_call_req : Z := 240.
(** [sit_pdp_set_initial_attach_apn_req] goes on: profile_id 240, apn_disable_flag 241, three counters 242, roaming_pdp_type 248,
    roaming_pcscf_req_type 249 *)
Definition sizeof_set_initial_attach_apn_req : Z := 250.
Definition copy_unless_empty (req : list Z) (off : Z) (s : list Z) (n : Z) : res (list Z) :=
  if negb (IsEmpty (Some s)) then strncpy req off s n else Ok req.
(** the text of the access point; [None] where the code returns false *)
Definition fill_apn (req : list Z) (a : ApnSetting) (forInitialAttach : bool) : res (option (list Z)) :=
  if negb (IsEmpty (Some (m_apn a))) then req ← strncpy req 16 (m_apn a) (MAX_PDP_APN_LEN - 1); Ok (Some req)
  else if forInitialAttach
  then Ok (if negb (CanHandleType (Some APN_TYPE_IA) a) || CanHandleType (Some APN_TYPE_EMERGENCY) a then None else Some req)
  else
    rat ← req.[13];
    Ok (if isRatForCDMA rat then Some req else if negb (CanHandleType (Some APN_TYPE_EMERGENCY) a) then None else Some req).
Definition FillApnInfo (req : list Z) (p : PdpContext) (isEsmFlagZero forInitialAttach : bool) : res (option (list Z)) :=
  match m_pApnSetting p with
  | None => Ok None
  | Some a =>
    o ← (if negb isEsmFlagZero
         then
           o ← fill_apn req a forInitialAttach;
           match o with
           | None => Ok None
           | Some req =>
             req ← copy_unless_empty req 117 (m_username a) (MAX_AUTH_USER_NAME_LEN - 1);
             req ← copy_unless_empty req 167 (m_password a) (MAX_AUTH_PASSWORD_LEN - 1);
             req ← req.[217 <- ConvertAuthTypeToProtocolAuthType (m_authType a)];
             req ← req.[219 <- GetPcscfReqType a (Some (m_protocol a))];
             Ok (Some req)
           end
         else
           req ← req.[16 <- 0]; req ← req.[117 <- 0]; req ← req.[167 <- 0];
           req ← req.[217 <- SIT_PDP_AUTH_TYPE_NONE];
           req ← req.[219 <- GetPcscfReqTypeforNullAPN (Some (m_protocol a))];
           Ok (Some req));
    match o with
    | None => Ok None
    | Some req =>
      req ← req.[14 <- ConvertDataProfileIdToProtocolDataProfile (m_dataProfileId p)];
      req ← req.[15 <- GetProtocolApnType (m_dataProfileId p) a];
      req ← req.[218 <- GetPdpType (Some (m_protocol a))];
      Ok (Some req)
    end
  end.

Section properties.
(** [property_get] without a default; an unset property is the empty text *)
Variable property : list Z → list Z.
(** [inet_pton], [true] for version 6: the bytes it writes *)
Variable inet_pton : bool → list Z → option (list Z).

Definition PROPERTY_HANDOVER : list Z := str "vendor.ril.allow.handover".
Definition PROPERTY_HANDOVER_IPV4_ADDRESS : list Z := str "vendor.ril.ipv4.address".
Definition PROPERTY_HANDOVER_IPV6_ADDRESS : list Z := str "vendor.ril.ipv6.address".
Definition INVALID_IP : list Z := str "0.0.0.0".
Definition property_get (key default : list Z) : list Z := match property key with [] => default | t => t end.
(** [property_get(key, buf, NULL)] *)
Definition property_into (key buf : list Z) : res (list Z) := wrn buf 0 (property key ++ [0]).
(** [if (memcmp(buf, zeros, n) != 0) inet_pton(…, buf, req + off)] *)
Definition parse_address (v6 : bool) (n off : Z) (buf req : list Z) : res (list Z) :=
  b ← rdn buf 0 n;
  if bool_decide (b ≠ fill n 0) then match inet_pton v6 (cstr buf) with Some w => wrn req off w | None => Ok req end else Ok req.
Definition fill_handover (req : list Z) : res (list Z) :=
  req ← wrn req 220 (fill 4 0);
  req ← wrn req 224 (fill 16 0);
  if strcmp_eq (property_get PROPERTY_HANDOVER (str "0")) (str "1")
  then
    buf ← property_into PROPERTY_HANDOVER_IPV4_ADDRESS (fill MAX_ADDRESS_STRING_LEN 0);
    w ← rdn buf 0 (lenZ INVALID_IP + 1);
    req ← (if bool_decide (w = INVALID_IP ++ [0]) then req.[218 <- SIT_PDP_PDP_TYPE_IPV6] else Ok req);
    req ← parse_address false 4 220 buf req;
    buf ← property_into PROPERTY_HANDOVER_IPV6_ADDRESS buf;
    parse_address true 16 224 buf req
  else Ok req.
Definition BuildSetupDataCall (m_nToken rat : Z) (pPdpContext : option PdpContext) : res (option (list Z) * Z) :=
  match pPdpContext with
  | None => Ok (None, m_nToken)
  | Some p =>
    match m_pApnSetting p with
    | None => Ok (None, m_nToken)
    | Some _ =>
      t ← InitRequestHeader m_nToken (fill sizeof_setup_data_call_req 0) SIT_SETUP_DATA_CALL sizeof_setup_data_call_req;
      let '(req, m_nToken) := t in
      if m_cid p <? 0 then Ok (None, m_nToken)
      else
        req ← req.[12 <- Z.land (m_cid p) 255];
        req ← req.[13 <- Z.land rat 255];
        o ← FillApnInfo req p false false;
        match o with
        | None => Ok (None, m_nToken)
        | Some req => req ← fill_handover req; Ok (Some req, m_nToken)
        end
    end
  end.
End properties.

(** the context is changed by the builder *)
Definition FillDataProfileId (req : list Z) (p : PdpContext) : res (list Z * PdpContext) :=
  req ← req.[240 <- SIT_IA_PROFILE_ID_UNKNOWN];
  c ← req.[16];
  Ok (req, if c =? 0 then SetDataProfileId DATA_PROFILE_NULL_APN_IA p else p).
Definition BuildSetInitialAttachApn (m_nToken : Z) (p : PdpContext) (isEsmFlagZero : bool) : res (option (list Z) * PdpContext * Z) :=
  match m_pApnSetting p with
  | None => Ok (None, p, m_nToken)
  | Some a =>
    t ← InitRequestHeader m_nToken (fill sizeof_set_initial_attach_apn_req 0) SIT_SET_INITIAL_ATTACH_APN sizeof_set_initial_attach_apn_req;
    let '(req, m_nToken) := t in
    if m_cid p <? 0 then Ok (None, p, m_nToken)
    else
      req ← req.[12 <- Z.land (m_cid p) 255];
      req ← req.[13 <- SIT_RAT_TYPE_LTE];
      o ← FillApnInfo req p isEsmFlagZero true;
      match o with
      | None => Ok (None, p, m_nToken)
      | Some req =>
        t ← FillDataProfileId req p;
        let '(req, p) := t in
        req ← req.[248 <- GetPdpType (Some (m_roaming_protocol a))];
        req ← req.[249 <- if isEsmFlagZero || IsEmpty (Some (m_apn a)) then GetPcscfReqTypeforNullAPN (Some (m_roaming_protocol a))
                          else GetPcscfReqType a (Some (m_roaming_protocol a))];
        Ok (Some req, p, m_nToken)
      end
  end.

(** when [FillApnInfo] returns true: which access points may have no text *)
Definition may_build (esm ia : bool) (rat : Z) (a : ApnSetting) : bool :=
  esm || negb (IsEmpty (Some (m_apn a)))
  || (if ia then CanHandleType (Some APN_TYPE_IA) a && negb (CanHandleType (Some APN_TYPE_EMERGENCY) a)
      else isRatForCDMA rat || CanHandleType (Some APN_TYPE_EMERGENCY) a).
(** the context as [BuildSetInitialAttachApn] leaves it: an attach without a name takes a profile of its own *)
Definition attach_context (isEsmFlagZero : bool) (p : PdpContext) : PdpContext :=
  match m_pApnSetting p with
  | None => p
  | Some a =>
    if (0 <=? m_cid p) && may_build isEsmFlagZero true SIT_RAT_TYPE_LTE a && (isEsmFlagZero || IsEmpty (Some (m_apn a)))
    then SetDataProfileId DATA_PROFILE_NULL_APN_IA p else p
  end.

(** ** Data profiles *)

(** what the packet takes of [RIL_DataProfileInfo_v15] and [RIL_DataProfileInfo_V1_4], whose protocols are texts and numbers *)
Record DataProfileInfo (A : Type) := {
  profileId : Z; dpi_apn : option (list Z); dpi_protocol : A; roamingProtocol : A; dpi_authType : Z; user : option (list Z);
  password : option (list Z); enabled : Z; supportedTypes : Z; bearer : Z
}.
Arguments profileId {A}. Arguments dpi_apn {A}. Arguments dpi_protocol {A}. Arguments roamingProtocol {A}. Arguments dpi_authType {A}.
Arguments user {A}. Arguments password {A}. Arguments enabled {A}. Arguments supportedTypes {A}. Arguments bearer {A}.
(** [sit_pdp_set_data_profile_req]: profile_id 12, apn 16, pdp_type 117, roaming_pdp_type 118, auth_type 119, username 120, password 170,
    data_profile_info_type 220, max_conns_time 221, max_conns 225, wait_time 229, enabled 233, apn_type 234, radio_access_family 238, mtu 242 *)
Definition sizeof_set_data_profile_req : Z := 246.
Definition build_data_profile {A} (pdp_type : A → Z) (m_nToken : Z) (dpi : DataProfileInfo A) : res (option (list Z) * Z) :=
  t ← InitRequestHeader m_nToken (fill sizeof_set_data_profile_req 0) SIT_SET_DATA_PROFILE sizeof_set_data_profile_req;
  let '(req, m_nToken) := t in
  req ← wrn req 12 (le32 (profileId dpi));
  if negb (IsEmpty (dpi_apn dpi))
  then
    req ← strncpy req 16 (default [] (dpi_apn dpi)) (MAX_PDP_APN_LEN - 1);
    req ← req.[117 <- pdp_type (dpi_protocol dpi)];
    req ← req.[118 <- pdp_type (roamingProtocol dpi)];
    req ← req.[119 <- ConvertAuthTypeToProtocolAuthType (dpi_authType dpi)];
    req ← copy_unless_empty req 120 (default [] (user dpi)) (MAX_AUTH_USER_NAME_LEN - 1);
    req ← copy_unless_empty req 170 (default [] (password dpi)) (MAX_AUTH_PASSWORD_LEN - 1);
    req ← req.[233 <- Z.land (enabled dpi) 255];
    req ← wrn req 221 (le32 300);
    req ← wrn req 225 (le32 1023);
    req ← wrn req 229 (le32 0);
    req ← wrn req 238 (le32 (bearer dpi));
    req ← wrn req 234 (le32 (supportedTypes dpi));
    Ok (Some req, m_nToken)
  else Ok (None, m_nToken).
Definition BuildSetDataProfile_v15 (m_nToken : Z) (dpi : option (DataProfileInfo (option (list Z)))) : res (option (list Z) * Z) :=
  match dpi with Some d => build_data_profile GetPdpType m_nToken d | None => Ok (None, m_nToken) end.
Definition BuildSetDataProfile_V1_4 (m_nToken : Z) (dpi : option (DataProfileInfo Z)) : res (option (list Z) * Z) :=
  match dpi with Some d => build_data_profile ConvertPdpProtocolTypeToSitPdpType m_nToken d | None => Ok (None, m_nToken) end.

(** ** The other requests; [block] is what the stack held, which is not cleared first *)

Definition BuildDeactDataCall (block : list Z) (m_nToken cid reason : Z) : res (option (list Z) * Z) :=
  if cid <? 0 then Ok (None, m_nToken)
  else
    t ← InitRequestHeader m_nToken block SIT_DEACT_DATA_CALL 14;
    let '(req, m_nToken) := t in
    req ← req.[12 <- Z.land cid 255]; req ← req.[13 <- Z.land reason 255];
    Ok (Some req, m_nToken).
Definition BuildGetDataCallList (block : list Z) (m_nToken : Z) : res (list Z * Z) :=
  InitRequestHeader m_nToken block SIT_GET_DATA_CALL_LIST 12.
Definition BuildSetFastDormancyInfo (block : list Z) (m_nToken lcdOn lcdOff rel8LcdOn rel8LcdOff : Z) : res (list Z * Z) :=
  t ← InitRequestHeader m_nToken block SIT_SET_FD_INFO 16;
  let '(req, m_nToken) := t in
  req ← req.[12 <- Z.land lcdOn 255]; req ← req.[13 <- Z.land lcdOff 255];
  req ← req.[14 <- Z.land rel8LcdOn 255]; req ← req.[15 <- Z.land rel8LcdOff 255];
  Ok (req, m_nToken).
(** [sit_pdp_start_keepalive_req]: keepalive_type 12, src_addr 13, source_port 29, dst_addr 33, dst_port 49, max_interval 53, cid 57 *)
Record KeepaliveRequest := {
  ka_type : Z; sourceAddress : list Z; sourcePort : Z; destinationAddress : list Z; destinationPort : Z;
  maxKeepaliveIntervalMillis : Z; ka_cid : Z
}.
Definition BuildStartKeepAlive (m_nToken : Z) (q : KeepaliveRequest) : res (list Z * Z) :=
  t ← InitRequestHeader m_nToken (fill 61 0) SIT_START_KEEPALIVE 61;
  let '(req, m_nToken) := t in
  req ← req.[12 <- Z.land (ka_type q) 255];
  src ← rdn (sourceAddress q) 0 16; req ← wrn req 13 src;
  req ← wrn req 29 (le32 (sourcePort q));
  dst ← rdn (destinationAddress q) 0 16; req ← wrn req 33 dst;
  req ← wrn req 49 (le32 (destinationPort q));
  req ← wrn req 53 (le32 (maxKeepaliveIntervalMillis q));
  req ← wrn req 57 (le32 (ka_cid q));
  Ok (req, m_nToken).
Definition BuildStopKeepAlive (block : list Z) (m_nToken sessionHande : Z) : res (list Z * Z) :=
  t ← InitRequestHeader m_nToken block SIT_STOP_KEEPALIVE 16;
  let '(req, m_nToken) := t in
  req ← wrn req 12 (le32 sessionHande);
  Ok (req, m_nToken).
Definition BuildSetPreferredDataModem (block : list Z) (m_nToken stackId : Z) : res (option (list Z) * Z) :=
  if stackId <? 0 then Ok (None, m_nToken)
  else
    t ← InitRequestHeader m_nToken block SIT_SET_PREFERRED_DATA_MODEM 13;
    let '(req, m_nToken) := t in
    req ← req.[12 <- Z.land stackId 255];
    Ok (Some req, m_nToken).
