(* ===== verification/PsBuilderTheorems.v ===== *)
(** The request packets of packet data are the lists of their fields: what every
    byte of a setup, attach and data profile request is, when no packet is
    built, and that the texts read back. *)
From S2P Require Import Prelude RilDef Text WaitList Rcm Layout Network Pdp PsBuilder.

(** ** Writing the fields of a block one after the other *)

Lemma copy_text_chunk fs k s n off : fs !! k = Some (fill n 0) → 1 <= n → off = size_of (take k fs) →
  copy_unless_empty (concat fs) off s (n - 1) = Ok (concat (<[k:=text n s]> fs)).
Proof.
  intros Hk Hn Ho. unfold copy_unless_empty. destruct s as [|c s]; cbn [IsEmpty negb].
  - rewrite text_empty by done. by rewrite list_insert_id.
  - by apply (strncpy_chunk fs k (fill n 0)).
Qed.

(** the fields both requests share: the access point or, for an attach without one, nothing *)
Definition apn_fields (esm : bool) (p : PdpContext) (a : ApnSetting) : list (list Z) :=
  [[ConvertDataProfileIdToProtocolDataProfile (m_dataProfileId p)]; [GetProtocolApnType (m_dataProfileId p) a];
   if esm then fill 101 0 else text 101 (m_apn a); if esm then fill 50 0 else text 50 (m_username a); if esm then fill 50 0 else text 50 (m_password a);
   [if esm then SIT_PDP_AUTH_TYPE_NONE else ConvertAuthTypeToProtocolAuthType (m_authType a)]; [GetPdpType (Some (m_protocol a))];
   [if esm then GetPcscfReqTypeforNullAPN (Some (m_protocol a)) else GetPcscfReqType a (Some (m_protocol a))] ].
Definition no_fields : list (list Z) := [[0]; [0]; fill 101 0; fill 50 0; fill 50 0; [0]; [0]; [0]].
Ltac sizes :=
  repeat match goal with fs := _ : list (list Z) |- _ => unfold fs; clear fs end; unfold no_fields, apn_fields;
  cbn [take size_of foldr app]; change sizeof_RCM_HEADER with 12 in *; rewrite ?lenZ_text by done; unfold lenZ in *; unfold fill;
  rewrite ?length_replicate; unfold le32; cbn [length]; lia.
(** writing a zero at the start of a field of zeros *)
Lemma zero_chunk fs k n off : fs !! k = Some (fill n 0) → 1 <= n → off = size_of (take k fs) → (concat fs).[off <- 0] = Ok (concat fs).
Proof.
  intros Hk Hn ->. destruct (concat_at fs k _ Hk) as [E El]. rewrite E at 1. rewrite <- El.
  unfold fill in *. destruct (Z.to_nat n) as [|m] eqn:En; [lia|]. cbn [replicate] in *. rewrite (wr_at _ _ 0 _ eq_refl).
  - cbn [app drop]. by rewrite E.
  - cbn [app]. rewrite lenZ_cons. pose proof (lenZ_nonneg (replicate m 0 ++ concat (drop (S k) fs))). lia.
Qed.

(** the next write goes to field [k] *)
Ltac put k :=
  first [ match goal with |- context [wr (concat ?fs) ?off ?v] => rewrite (wr_chunk fs k _ v off eq_refl) by sizes end
        | match goal with |- context [wrn (concat ?fs) ?off ?x] => rewrite (wrn_chunk fs k _ x off eq_refl) by (sizes || reflexivity) end
        | match goal with |- context [copy_unless_empty (concat ?fs) ?off ?s (?n - 1)] => rewrite (copy_text_chunk fs k s n off eq_refl) by (done || sizes) end
        | match goal with |- context [strncpy (concat ?fs) ?off ?s (?n - 1)] => rewrite (strncpy_chunk fs k _ s n off eq_refl eq_refl) by (done || sizes) end ];
  cbn [mbind res_bind insert list_insert].
Ltac zero k n :=
  match goal with |- context [wr (concat ?fs) ?off 0] => rewrite (zero_chunk fs k n off eq_refl) by (done || sizes) end; cbn [mbind res_bind].
Ltac plain := unfold MAX_PDP_APN_LEN, MAX_AUTH_USER_NAME_LEN, MAX_AUTH_PASSWORD_LEN, no_fields; cbn [app insert list_insert].

Lemma fill_apn_spec h c rat rest a ia : lenZ h = sizeof_RCM_HEADER →
  fill_apn (concat (h :: [c] :: [rat] :: no_fields ++ rest)) a ia
  = Ok (if may_build false ia rat a then Some (concat (h :: [c] :: [rat] :: <[2%nat:=text 101 (m_apn a)]> no_fields ++ rest)) else None).
Proof.
  intros Hh. unfold fill_apn, may_build. destruct (m_apn a) as [|x s] eqn:Ea; cbn [IsEmpty negb orb].
  - rewrite text_empty by done. change (<[2%nat:=fill 101 0]> no_fields) with no_fields. set (fs := h :: _). destruct ia.
    + by destruct (CanHandleType (Some APN_TYPE_IA) a), (CanHandleType (Some APN_TYPE_EMERGENCY) a).
    + rewrite (rd_chunk fs 2 rat 13 eq_refl) by sizes. cbn [mbind res_bind]. by destruct (isRatForCDMA rat), (CanHandleType (Some APN_TYPE_EMERGENCY) a).
  - plain. put 5%nat. done.
Qed.
Lemma FillApnInfo_spec h c rat rest p a esm ia : lenZ h = sizeof_RCM_HEADER → m_pApnSetting p = Some a →
  FillApnInfo (concat (h :: [c] :: [rat] :: no_fields ++ rest)) p esm ia
  = Ok (if may_build esm ia rat a then Some (concat (h :: [c] :: [rat] :: apn_fields esm p a ++ rest)) else None).
Proof.
  intros Hh Ha. unfold FillApnInfo. rewrite Ha. destruct esm; cbn [negb].
  - plain. zero 5%nat 101. zero 6%nat 50. zero 7%nat 50. put 8%nat. put 10%nat. put 3%nat. put 4%nat. put 9%nat. done.
  - rewrite fill_apn_spec by done. cbn [mbind res_bind]. destruct (may_build false ia rat a); [|done]. plain.
    put 6%nat. put 7%nat. put 8%nat. put 10%nat. put 3%nat. put 4%nat. put 9%nat. done.
Qed.

(** ** The setup request *)

Section handover.
Context (property : list Z → list Z) (inet_pton : bool → list Z → option (list Z)).
(** what the platform documents: a property is a text of at most 91 characters, an address has four or sixteen bytes and the empty text
    is none *)
Definition property_ok : Prop := ∀ k, nonul (property k) ∧ lenZ (property k) <= 91.
Definition pton_ok : Prop := (∀ v6 t w, inet_pton v6 t = Some w → lenZ w = if v6 then 16 else 4) ∧ inet_pton true [] = None ∧ inet_pton false [] = None.
Context (Hprop : property_ok) (Hpton : pton_ok).

Definition handover : bool := strcmp_eq (property_get property PROPERTY_HANDOVER (str "0")) (str "1").
Definition address_of (v6 : bool) : list Z :=
  let n := if v6 then 16 else 4 in
  if handover then default (fill n 0) (inet_pton v6 (property (if v6 then PROPERTY_HANDOVER_IPV6_ADDRESS else PROPERTY_HANDOVER_IPV4_ADDRESS)))
  else fill n 0.
Definition only_v6 : bool := handover && bool_decide (property PROPERTY_HANDOVER_IPV4_ADDRESS = INVALID_IP).

Lemma property_into_ok key buf : lenZ buf = 256 → ∃ r, property_into property key buf = Ok (property key ++ 0 :: r) ∧ lenZ (property key ++ 0 :: r) = 256.
Proof.
  intros Hb. destruct (Hprop key) as [_ Hl]. unfold property_into. pose proof (lenZ_nonneg (property key)).
  rewrite wrn_ok; [|done|rewrite lenZ_app; change (lenZ [0]) with 1; lia]. cbn [take Z.to_nat]. rewrite take_0. cbn [app]. rewrite <- app_assoc. eexists. split; [done|].
  unfold lenZ in *. cbn [app]. rewrite length_app. cbn [length]. rewrite length_drop, ?length_app. cbn [length]. lia.
Qed.
(** an address is taken from the text that starts the buffer *)
Lemma parse_address_spec (v6 : bool) t r n off req : nonul t → lenZ (t ++ 0 :: r) = 256 → n = (if v6 then 16 else 4) →
  parse_address inet_pton v6 n off (t ++ 0 :: r) req = match inet_pton v6 t with Some w => wrn req off w | None => Ok req end.
Proof.
  intros Ht Hl Hn. assert (0 < n <= 256) as Hb by (destruct v6; lia). unfold parse_address. rewrite rdn_ok by lia. cbn [mbind res_bind].
  rewrite cstr_app by done. case_bool_decide as E; [done|]. change (Z.to_nat 0) with 0%nat in E. rewrite drop_0 in E.
  destruct t as [|c t].
  - destruct Hpton as (_ & H6 & H4). by destruct v6; [rewrite H6|rewrite H4].
  - exfalso. inversion_clear Ht as [|? ? Hc _]. unfold fill in E. destruct (Z.to_nat n) as [|m] eqn:Em; [lia|].
    cbn in E. injection E as E _. done.
Qed.
Lemma starts_invalid t r : lenZ (t ++ 0 :: r) = 256 → nonul t →
  (rdn (t ++ 0 :: r) 0 (lenZ INVALID_IP + 1)) = Ok (take 8 (t ++ 0 :: r)) ∧ (take 8 (t ++ 0 :: r) = INVALID_IP ++ [0] ↔ t = INVALID_IP).
Proof.
  intros Hl Ht. split; [rewrite rdn_ok; [done|done|done|rewrite Hl; done]|]. split; [|intros ->; done].
  intros E. pose proof (f_equal cstr E) as E1. rewrite (cstr_app INVALID_IP []) in E1 by by_eval.
  assert (length (t ++ 0 :: r) = 256%nat) as Hn by (unfold lenZ in Hl; lia).
  destruct (decide (length t < 8)%nat) as [H|H].
  - rewrite take_app_ge in E1 by lia. destruct (8 - length t)%nat as [|k] eqn:Ek; [lia|]. cbn [take] in E1. by rewrite cstr_app in E1.
  - rewrite take_app_le in E by lia. assert (nonul (take 8 t)) as Hf by by apply Forall_take. rewrite E in Hf. apply Forall_app in Hf as [_ Hf].
    by inversion_clear Hf.
Qed.
Definition setup_fields (token rat : Z) (p : PdpContext) (a : ApnSetting) : list (list Z) :=
  header_bytes SIT_SETUP_DATA_CALL sizeof_setup_data_call_req token :: [Z.land (m_cid p) 255] :: [Z.land rat 255]
  :: <[6%nat:=[if only_v6 then SIT_PDP_PDP_TYPE_IPV6 else GetPdpType (Some (m_protocol a))]]> (apn_fields false p a)
  ++ [address_of false; address_of true].
Lemma address_len v6 : lenZ (address_of v6) = if v6 then 16 else 4.
Proof.
  unfold address_of. cbv zeta. destruct handover; [|by destruct v6]. destruct (inet_pton v6 _) as [w|] eqn:E; cbn [default]; [by apply Hpton in E|by destruct v6].
Qed.
Lemma fill_handover_spec h c rat p a : lenZ h = sizeof_RCM_HEADER →
  fill_handover property inet_pton (concat (h :: [c] :: [rat] :: apn_fields false p a ++ [fill 4 0; fill 16 0]))
  = Ok (concat (h :: [c] :: [rat] :: <[6%nat:=[if only_v6 then SIT_PDP_PDP_TYPE_IPV6 else GetPdpType (Some (m_protocol a))]]> (apn_fields false p a)
                ++ [address_of false; address_of true])).
Proof.
  intros Hh. unfold fill_handover, apn_fields. plain. put 11%nat. put 12%nat. fold handover. unfold address_of, only_v6. destruct handover; cbn [andb]; [|done].
  destruct (Hprop PROPERTY_HANDOVER_IPV4_ADDRESS) as [T4 _]. destruct (Hprop PROPERTY_HANDOVER_IPV6_ADDRESS) as [T6 _].
  destruct (property_into_ok PROPERTY_HANDOVER_IPV4_ADDRESS (fill MAX_ADDRESS_STRING_LEN 0)) as (r & -> & Hl); [done|]. cbn [mbind res_bind].
  destruct (starts_invalid _ _ Hl T4) as [-> Hi]. cbn [mbind res_bind]. rewrite (bool_decide_ext _ _ Hi).
  set (invalid := bool_decide _).
  set (v6 := GetPdpType (Some (m_protocol a))). set (pt := if invalid then SIT_PDP_PDP_TYPE_IPV6 else v6).
  etrans; [apply (bind_eq _ (concat [h; [c]; [rat]; [ConvertDataProfileIdToProtocolDataProfile (m_dataProfileId p)]; [GetProtocolApnType (m_dataProfileId p) a];
    text 101 (m_apn a); text 50 (m_username a); text 50 (m_password a); [ConvertAuthTypeToProtocolAuthType (m_authType a)]; [pt];
    [GetPcscfReqType a (Some (m_protocol a))]; fill 4 0; fill 16 0])); unfold pt; destruct invalid; [put 9%nat; done|done]|].
  cbv beta. clearbody pt. rewrite parse_address_spec by done.
  destruct (property_into_ok PROPERTY_HANDOVER_IPV6_ADDRESS _ Hl) as (r' & -> & Hl'). cbn [mbind res_bind].
  destruct Hpton as [Hw _]. destruct (inet_pton false _) as [w4|] eqn:E4; [apply Hw in E4|]; [put 11%nat|cbn [mbind res_bind] ];
    rewrite parse_address_spec by done; (destruct (inet_pton true _) as [w6|] eqn:E6; [apply Hw in E6; put 12%nat|]); done.
Qed.
End handover.
(** the packet of a setup request, byte by byte: a context with a setting and an identifier gives the list of its fields in order, with the
    next token, unless its identifier is negative or its access point has no name and is neither for emergencies nor requested on CDMA;
    then there is no packet, but the token is used up.  During a handover the addresses are those the properties hold, and the protocol
    is IPv6 when the property of version 4 is the text 0.0.0.0. *)
Lemma setup_request_layout property inet_pton m_nToken rat p a
  (Hprop : property_ok property) (Hpton : pton_ok inet_pton) (Ha : m_pApnSetting p = Some a) :
  BuildSetupDataCall property inet_pton m_nToken rat (Some p)
  = Ok (if (0 <=? m_cid p) && may_build false false (Z.land rat 255) a
        then Some (concat (setup_fields property inet_pton (GetNext m_nToken).1 rat p a)) else None, (GetNext m_nToken).2).
Proof.
  unfold BuildSetupDataCall. rewrite Ha.
  change (fill sizeof_setup_data_call_req 0) with (concat (fill 12 0 :: [0] :: [0] :: no_fields ++ [fill 4 0; fill 16 0])).
  rewrite header_chunk by done. cbn [mbind res_bind]. destruct (Z.ltb_spec (m_cid p) 0) as [H|H]; destruct (Z.leb_spec 0 (m_cid p)); try lia; [done|].
  cbn [andb]. set (h := header_bytes _ _ _). assert (lenZ h = sizeof_RCM_HEADER) as Hh by done. unfold setup_fields. fold h. clearbody h.
  plain. put 1%nat. put 2%nat.
  pose proof (FillApnInfo_spec h (Z.land (m_cid p) 255) (Z.land rat 255) [fill 4 0; fill 16 0] p a false false Hh Ha) as E.
  unfold no_fields in E. cbn [app] in E. rewrite E. cbn [mbind res_bind]. destruct (may_build _ _ _ _); [|done].
  by rewrite fill_handover_spec.
Qed.

(** ** The attach request *)

Lemma first_chunk fs k v x off : fs !! k = Some (v :: x) → off = size_of (take k fs) → (concat fs).[off] = Ok v.
Proof. intros Hk ->. destruct (concat_at fs k _ Hk) as [-> El]. cbn [app]. by rewrite (rd_at _ _ _ _ El). Qed.
Ltac head k v x :=
  match goal with |- context [rd (concat ?fs) ?off] => rewrite (first_chunk fs k v x off eq_refl) by sizes end; cbn [mbind res_bind].

Definition attach_fields (token : Z) (esm : bool) (p : PdpContext) (a : ApnSetting) : list (list Z) :=
  header_bytes SIT_SET_INITIAL_ATTACH_APN sizeof_set_initial_attach_apn_req token :: [Z.land (m_cid p) 255] :: [SIT_RAT_TYPE_LTE]
  :: apn_fields esm p a
  ++ [fill 4 0; fill 16 0; [SIT_IA_PROFILE_ID_UNKNOWN]; [0]; fill 6 0; [GetPdpType (Some (m_roaming_protocol a))];
      [if esm || IsEmpty (Some (m_apn a)) then GetPcscfReqTypeforNullAPN (Some (m_roaming_protocol a))
       else GetPcscfReqType a (Some (m_roaming_protocol a))] ].
(** The packet of an attach request, byte by byte, with the roaming protocol and,
    where the operator wants an empty access point, nothing of the setting but
    its protocols; there is no packet for a negative identifier, nor for a
    setting without a name that is not for the initial attach or is for
    emergencies.  A packet without a name moves the context to the profile of a
    null access point, and nothing else changes the context. *)
Theorem attach_request_layout m_nToken p a esm (Ha : m_pApnSetting p = Some a) (Hn : nonul (m_apn a)) :
  BuildSetInitialAttachApn m_nToken p esm
  = Ok (if (0 <=? m_cid p) && may_build esm true SIT_RAT_TYPE_LTE a then Some (concat (attach_fields (GetNext m_nToken).1 esm p a)) else None,
        attach_context esm p, (GetNext m_nToken).2).
Proof.
  unfold BuildSetInitialAttachApn, attach_context. rewrite Ha.
  change (fill sizeof_set_initial_attach_apn_req 0)
    with (concat (fill 12 0 :: [0] :: [0] :: no_fields ++ [fill 4 0; fill 16 0; [0]; [0]; fill 6 0; [0]; [0] ])).
  rewrite header_chunk by done. cbn [mbind res_bind]. destruct (Z.ltb_spec (m_cid p) 0) as [H|H]; destruct (Z.leb_spec 0 (m_cid p)); try lia; [done|].
  cbn [andb]. set (h := header_bytes _ _ _). assert (lenZ h = sizeof_RCM_HEADER) as Hh by done. unfold attach_fields. fold h. clearbody h.
  plain. put 1%nat. put 2%nat.
  pose proof (FillApnInfo_spec h (Z.land (m_cid p) 255) SIT_RAT_TYPE_LTE [fill 4 0; fill 16 0; [0]; [0]; fill 6 0; [0]; [0] ] p a esm true Hh Ha) as E.
  unfold no_fields in E. cbn [app] in E. rewrite E. cbn [mbind res_bind]. destruct (may_build _ _ _ _); [|done]. cbn [andb].
  unfold FillDataProfileId, apn_fields. destruct esm; cbn [orb]; plain.
  - put 13%nat. head 5%nat 0 (fill 100 0). change (0 =? 0) with true. cbv iota. put 16%nat. put 17%nat. done.
  - destruct (m_apn a) as [|c s] eqn:Ea; cbn [IsEmpty].
    + put 13%nat. head 5%nat 0 (fill 100 0). change (0 =? 0) with true. cbv iota. put 16%nat. put 17%nat. done.
    + put 13%nat. head 5%nat c (take 99 s ++ fill (101 - Z.min (lenZ (c :: s)) 100) 0). inversion_clear Hn as [|? ? Hc _].
      apply Z.eqb_neq in Hc. rewrite Hc. put 16%nat. put 17%nat. done.
Qed.

(** ** Data profiles *)

Definition profile_fields {A} (pdp_type : A → Z) (token : Z) (dpi : DataProfileInfo A) : list (list Z) :=
  [header_bytes SIT_SET_DATA_PROFILE sizeof_set_data_profile_req token; le32 (profileId dpi); text 101 (default [] (dpi_apn dpi));
   [pdp_type (dpi_protocol dpi)]; [pdp_type (roamingProtocol dpi)]; [ConvertAuthTypeToProtocolAuthType (dpi_authType dpi)];
   text 50 (default [] (user dpi)); text 50 (default [] (password dpi)); [0]; le32 300; le32 1023; le32 0; [Z.land (enabled dpi) 255];
   le32 (supportedTypes dpi); le32 (bearer dpi); le32 0].
(** The packet of a data profile, byte by byte, for both forms of the request (with
    the protocols as texts and as numbers): 300 seconds, 1023 connections and no
    waiting time always, and no packet for a profile without a name. *)
Theorem profile_request_layout {A} (pdp_type : A → Z) m_nToken (dpi : DataProfileInfo A) :
  build_data_profile pdp_type m_nToken dpi
  = Ok (if IsEmpty (dpi_apn dpi) then None else Some (concat (profile_fields pdp_type (GetNext m_nToken).1 dpi)), (GetNext m_nToken).2).
Proof.
  unfold build_data_profile, profile_fields.
  change (fill sizeof_set_data_profile_req 0)
    with (concat [fill 12 0; fill 4 0; fill 101 0; [0]; [0]; [0]; fill 50 0; fill 50 0; [0]; fill 4 0; fill 4 0; fill 4 0; [0]; fill 4 0; fill 4 0; fill 4 0]).
  rewrite header_chunk by done. cbn [mbind res_bind]. set (h := header_bytes _ _ _). assert (lenZ h = sizeof_RCM_HEADER) as Hh by done. clearbody h.
  plain. put 1%nat. destruct (IsEmpty (dpi_apn dpi)); cbn [negb]; [done|].
  put 2%nat. put 3%nat. put 4%nat. put 5%nat. put 6%nat. put 7%nat. put 12%nat. put 9%nat. put 10%nat. put 11%nat. put 14%nat. put 13%nat. done.
Qed.

(** ** The short requests: every byte of the block is written *)

Lemma block_head (block : list Z) n : lenZ block = sizeof_RCM_HEADER + Z.of_nat n → ∃ h r, block = h ++ r ∧ lenZ h = sizeof_RCM_HEADER ∧ length r = n.
Proof.
  intros Hb. change sizeof_RCM_HEADER with 12 in *. unfold lenZ in Hb. exists (take 12 block), (drop 12 block). rewrite take_drop. split; [done|].
  unfold lenZ. rewrite length_take, length_drop. lia.
Qed.
(** What the short requests send depends on their arguments alone, though their
    structures are not cleared: whatever the stack held, the packet is the
    header and the fields, each cut to its width; a negative identifier or modem
    gives none. *)
Theorem short_requests m_nToken cid reason a b c d handle stack
  (b14 b16 b16' b13 b12 : list Z) (H14 : lenZ b14 = 14) (H16 : lenZ b16 = 16) (H16' : lenZ b16' = 16) (H13 : lenZ b13 = 13) (H12 : lenZ b12 = 12) :
  let t := (GetNext m_nToken).1 in let m := (GetNext m_nToken).2 in
  BuildDeactDataCall b14 m_nToken cid reason
    = Ok (if cid <? 0 then (None, m_nToken) else (Some (header_bytes SIT_DEACT_DATA_CALL 14 t ++ [Z.land cid 255; Z.land reason 255]), m)) ∧
  BuildSetFastDormancyInfo b16 m_nToken a b c d
    = Ok (header_bytes SIT_SET_FD_INFO 16 t ++ [Z.land a 255; Z.land b 255; Z.land c 255; Z.land d 255], m) ∧
  BuildStopKeepAlive b16' m_nToken handle = Ok (header_bytes SIT_STOP_KEEPALIVE 16 t ++ le32 handle, m) ∧
  BuildSetPreferredDataModem b13 m_nToken stack
    = Ok (if stack <? 0 then (None, m_nToken) else (Some (header_bytes SIT_SET_PREFERRED_DATA_MODEM 13 t ++ [Z.land stack 255]), m)) ∧
  BuildGetDataCallList b12 m_nToken = Ok (header_bytes SIT_GET_DATA_CALL_LIST 12 t, m).
Proof.
  cbv zeta.
  destruct (block_head b14 2) as (h1 & r1 & -> & L1 & R1); [done|]. destruct r1 as [|x1 [|x2 [|? ?] ] ]; try done.
  destruct (block_head b16 4) as (h2 & r2 & -> & L2 & R2); [done|]. destruct r2 as [|y1 [|y2 [|y3 [|y4 [|? ?] ] ] ] ]; try done.
  destruct (block_head b16' 4) as (h3 & r3 & -> & L3 & R3); [done|]. destruct (block_head b13 1) as (h4 & r4 & -> & L4 & R4); [done|].
  destruct r4 as [|z1 [|? ?] ]; try done. assert (lenZ r3 = 4) as L5 by (unfold lenZ; lia).
  unfold BuildDeactDataCall, BuildSetFastDormancyInfo, BuildStopKeepAlive, BuildSetPreferredDataModem, BuildGetDataCallList.
  replace (h1 ++ [x1; x2]) with (concat [h1; [x1]; [x2] ]) by done. replace (h2 ++ [y1; y2; y3; y4]) with (concat [h2; [y1]; [y2]; [y3]; [y4] ]) by done.
  replace (h3 ++ r3) with (concat [h3; r3]) by (cbn; by rewrite app_nil_r). replace (h4 ++ [z1]) with (concat [h4; [z1] ]) by done.
  replace b12 with (concat [b12]) by (cbn; by rewrite app_nil_r).
  rewrite !header_chunk by done. cbn [mbind res_bind].
  repeat match goal with |- context [header_bytes ?i ?n ?t] => let h := fresh "h" in set (h := header_bytes i n t); assert (lenZ h = sizeof_RCM_HEADER) by done; clearbody h end.
  split; [destruct (cid <? 0); [done|put 1%nat; put 2%nat; done]|]. split; [put 1%nat; put 2%nat; put 3%nat; put 4%nat; done|].
  split; [put 1%nat; cbn [concat]; by rewrite !app_nil_r|]. split; [destruct (stack <? 0); [done|put 1%nat; done]|].
  cbn [concat]. by rewrite app_nil_r.
Qed.
(** the keep-alive request: the low byte of the type, the whole of the other fields *)
Lemma keepalive_request_layout m_nToken q : lenZ (sourceAddress q) = 16 → lenZ (destinationAddress q) = 16 →
  BuildStartKeepAlive m_nToken q
  = Ok (concat [header_bytes SIT_START_KEEPALIVE 61 (GetNext m_nToken).1; [Z.land (ka_type q) 255]; sourceAddress q; le32 (sourcePort q);
                destinationAddress q; le32 (destinationPort q); le32 (maxKeepaliveIntervalMillis q); le32 (ka_cid q)], (GetNext m_nToken).2).
Proof.
  intros Hs Hd. unfold BuildStartKeepAlive. change (fill 61 0) with (concat [fill 12 0; [0]; fill 16 0; fill 4 0; fill 16 0; fill 4 0; fill 4 0; fill 4 0]).
  rewrite header_chunk by done. cbn [mbind res_bind]. set (h := header_bytes _ _ _). assert (lenZ h = sizeof_RCM_HEADER) as Hh by done. clearbody h.
  put 1%nat. rewrite !rdn_ok by lia. cbn [mbind res_bind]. rewrite !drop_0, !take_ge by (unfold lenZ in *; lia).
  put 2%nat. put 3%nat. put 4%nat. put 5%nat. put 6%nat. put 7%nat. done.
Qed.

(** ** What the modem reads *)

Definition read_text (frame : list Z) (off n : Z) : res (list Z) := b ← rdn frame off n; Ok (cstr b).
Lemma read_text_chunk fs k s n off : fs !! k = Some (text n s) → 1 <= n → off = size_of (take k fs) → nonul s → lenZ s < n →
  read_text (concat fs) off n = Ok s.
Proof.
  intros Hk Hn Ho Hs Hl. unfold read_text. rewrite (rdn_chunk fs k (text n s) off 0 n Hk) by (rewrite ?lenZ_text by done; lia).
  cbn [mbind res_bind]. rewrite drop_0, take_ge by (pose proof (lenZ_text n s Hn) as H; unfold lenZ in H; lia).
  rewrite cstr_text by done. rewrite take_ge; [done|]. unfold lenZ in Hl. lia.
Qed.
(** the texts of a setting fit their arrays *)
Definition setting_ok (a : ApnSetting) : Prop :=
  nonul (m_apn a) ∧ lenZ (m_apn a) < 101 ∧ nonul (m_username a) ∧ lenZ (m_username a) < 50 ∧ nonul (m_password a) ∧ lenZ (m_password a) < 50.
Lemma NewInstance_ok carrier apn types user password protocol roaming auth :
  nonul (default [] apn) → nonul (default [] user) → nonul (default [] password) → setting_ok (NewInstance carrier apn types user password protocol roaming auth).
Proof.
  assert (∀ n s, 0 <= n → nonul (default [] s) → nonul (copy_text n s) ∧ lenZ (copy_text n s) < n + 1) as H.
  { intros n s Hn Hs. destruct s as [s|]; cbn in *; [|split; [constructor|unfold lenZ; cbn; lia] ]. split; [by apply Forall_take|].
    unfold lenZ. rewrite length_take. lia. }
  intros Ha Hu Hp. unfold setting_ok, NewInstance. cbn [m_apn m_username m_password].
  destruct (H (MAX_PDP_APN_LEN - 1) apn ltac:(done) Ha), (H (MAX_AUTH_USER_NAME_LEN - 1) user ltac:(done) Hu), (H (MAX_AUTH_PASSWORD_LEN - 1) password ltac:(done) Hp).
  done.
Qed.

(** C15: What the framework asks for is what the modem reads: a setup request made from
    a setting of the framework whose texts have no zero is built whenever it
    names an access point and its context is one of the table, and in the packet
    the identifier, length and token of the header, the connection, the name of
    the access point, the user and the password read back as the context, the
    request and the token generator have them, each text cut to its array. *)
Theorem setup_request_reads_back property inet_pton m_nToken rat p carrier apn types user password protocol roaming auth
  (Hprop : property_ok property) (Hpton : pton_ok inet_pton) (Hcid : 0 <= m_cid p < 256)
  (Hn : nonul (default [] apn)) (Hu : nonul (default [] user)) (Hp : nonul (default [] password)) (Hne : IsEmpty apn = false)
  (Ht : 0 <= m_nToken < TOKEN_INVALID) :
  ∃ frame, let a := NewInstance carrier apn types user password protocol roaming auth in
    BuildSetupDataCall property inet_pton m_nToken rat (Some (SetApnSetting (Some a) p)) = Ok (Some frame, (GetNext m_nToken).2) ∧
    Rcm.GetId (Some frame) = Ok SIT_SETUP_DATA_CALL ∧ Rcm.GetLength (Some frame) = Ok (lenZ frame) ∧ Rcm.GetToken (Some frame) = Ok m_nToken ∧
    frame.[12] = Ok (m_cid p) ∧
    read_text frame 16 101 = Ok (copy_text 100 apn) ∧ read_text frame 117 50 = Ok (copy_text 49 user) ∧ read_text frame 167 50 = Ok (copy_text 49 password).
Proof.
  set (a := NewInstance _ _ _ _ _ _ _ _). set (q := SetApnSetting (Some a) p).
  destruct (NewInstance_ok carrier apn types user password protocol roaming auth Hn Hu Hp) as (A1 & A2 & U1 & U2 & P1 & P2). fold a in A1, A2, U1, U2, P1, P2.
  assert (IsEmpty (Some (m_apn a)) = false) as Ea by (destruct apn as [ [|? ?]|]; done).
  exists (concat (setup_fields property inet_pton (GetNext m_nToken).1 rat q a)). cbv zeta. change (SetApnSetting (Some a) p) with q.
  split.
  { rewrite (setup_request_layout property inet_pton m_nToken rat q a Hprop Hpton eq_refl). change (m_cid q) with (m_cid p).
    unfold may_build. rewrite Ea. cbn [negb orb]. destruct (Z.leb_spec 0 (m_cid p)); [done|lia]. }
  pose proof (address_len property inet_pton Hpton false) as L4. pose proof (address_len property inet_pton Hpton true) as L6. cbv iota in L4, L6.
  change (GetNext m_nToken).1 with m_nToken. unfold TOKEN_INVALID in Ht.
  pose proof (frame_fields RCM_TYPE_REQUEST 0 SIT_SETUP_DATA_CALL 240 m_nToken 0 0 (concat (drop 1 (setup_fields property inet_pton m_nToken rat q a)))
    ltac:(done) ltac:(done) ltac:(done) ltac:(lia)) as (_ & F2 & F3 & F4).
  split; [exact F2|]. split; [etrans; [exact F3|]; f_equal|split; [exact F4|] ].
  { rewrite lenZ_concat. unfold setup_fields, apn_fields. cbn [insert list_insert app size_of foldr]. rewrite !lenZ_text, L4, L6 by done. done. }
  unfold setup_fields. set (h := header_bytes _ _ _). assert (lenZ h = sizeof_RCM_HEADER) as Hh by done. clearbody h. unfold apn_fields. plain.
  set (fs := h :: _). split.
  { rewrite (rd_chunk fs 1 (Z.land (m_cid p) 255) 12 eq_refl) by sizes. f_equal. change 255 with (Z.ones 8). rewrite Z.land_ones by lia. by apply Z.mod_small. }
  split; [|split].
  - apply (read_text_chunk fs 5 (m_apn a) 101 16 eq_refl); [done|sizes|done|done].
  - apply (read_text_chunk fs 6 (m_username a) 50 117 eq_refl); [done|sizes|done|done].
  - apply (read_text_chunk fs 7 (m_password a) 50 167 eq_refl); [done|sizes|done|done].
Qed.

(** ** Samples *)

Definition sample_property (k : list Z) : list Z :=
  if strcmp_eq k PROPERTY_HANDOVER then str "1"
  else if strcmp_eq k PROPERTY_HANDOVER_IPV4_ADDRESS then INVALID_IP
  else if strcmp_eq k PROPERTY_HANDOVER_IPV6_ADDRESS then str "::1" else [].
Definition sample_pton (v6 : bool) (t : list Z) : option (list Z) :=
  if v6 then if strcmp_eq t (str "::1") then Some (fill 15 0 ++ [1]) else None
  else if strcmp_eq t INVALID_IP then Some (fill 4 0) else None.
Lemma sample_property_ok : property_ok sample_property.
Proof. intros k. unfold sample_property. repeat destruct (strcmp_eq _ _); split; by_eval. Qed.
Lemma sample_pton_ok : pton_ok sample_pton.
Proof.
  split; [|split; reflexivity]. intros [|] t w; unfold sample_pton; destruct (strcmp_eq _ _); intros [= <-]; reflexivity.
Qed.
Definition sample_pdp (cid profile : Z) (a : option ApnSetting) : PdpContext := SetDataProfileId profile (SetApnSetting a (newPdpContext cid (Some (str "rmnet")) 0)).
Definition sample_setting (apn : option (list Z)) (types : Z) : ApnSetting :=
  NewInstance (Some (str "45005")) apn types (Some (str "me")) (Some (str "secret")) (Some (str "IPV4V6")) (Some (str "IP")) 3.

Lemma setup_request_reads_back_witness :
  ∃ frame, let a := NewInstance (Some (str "45005")) (Some (str "web.sktelecom.com")) 1 (Some (str "me")) None (Some (str "IPV4V6")) (Some (str "IP")) 3 in
    BuildSetupDataCall sample_property sample_pton 7 14 (Some (SetApnSetting (Some a) (sample_pdp 2 0 None))) = Ok (Some frame, (GetNext 7).2) ∧
    Rcm.GetId (Some frame) = Ok SIT_SETUP_DATA_CALL ∧ Rcm.GetLength (Some frame) = Ok (lenZ frame) ∧ Rcm.GetToken (Some frame) = Ok 7 ∧
    frame.[12] = Ok 2 ∧
    read_text frame 16 101 = Ok (copy_text 100 (Some (str "web.sktelecom.com"))) ∧ read_text frame 117 50 = Ok (copy_text 49 (Some (str "me")))
    ∧ read_text frame 167 50 = Ok (copy_text 49 None).
Proof.
  apply (setup_request_reads_back sample_property sample_pton 7 14 (sample_pdp 2 0 None));
    [apply sample_property_ok|apply sample_pton_ok|by_eval|by_eval|by_eval|by_eval|reflexivity|by_eval].
Defined.
Lemma attach_request_layout_witness : let a := sample_setting None 256 in
  BuildSetInitialAttachApn 7 (sample_pdp 1 0 (Some a)) false
  = Ok (if (0 <=? 1) && may_build false true SIT_RAT_TYPE_LTE a then Some (concat (attach_fields 7 false (sample_pdp 1 0 (Some a)) a)) else None,
        attach_context false (sample_pdp 1 0 (Some a)), (GetNext 7).2).
Proof. apply (attach_request_layout 7 (sample_pdp 1 0 (Some (sample_setting None 256))) (sample_setting None 256) false); [reflexivity|by_eval]. Defined.
Lemma short_requests_witness : BuildDeactDataCall (fill 14 99) 7 2 1 = Ok (Some (header_bytes SIT_DEACT_DATA_CALL 14 7 ++ [2; 1]), 8).
Proof.
  apply (short_requests 7 2 1 1 2 3 4 5 0 (fill 14 99) (fill 16 99) (fill 16 99) (fill 13 99) (fill 12 99)); reflexivity.
Defined.

(** the handover of the sample: version 6 only, with the address of the property *)
Example sample_handover :
  address_of sample_property sample_pton true = fill 15 0 ++ [1] ∧ address_of sample_property sample_pton false = fill 4 0 ∧ only_v6 sample_property = true.
Proof. split; [|split]; reflexivity. Qed.
(** an attach without a name moves the context to the profile of its own, so the context no longer has the profile it was made with *)
Lemma null_apn_profile : m_dataProfileId (attach_context false (sample_pdp 1 0 (Some (sample_setting None 256)))) = DATA_PROFILE_NULL_APN_IA.
Proof. reflexivity. Qed.
