(* ===== verification/Ps.v ===== *)
(** The packet data service, [core/service/psservice.cpp]: the requests for data
    calls, the answers and indications of the modem, the router advertisement
    of the kernel, and the changes of radio, card and IMSI.

    The contexts are a list; [m_pActivatingPdpContext] and
    [m_pDeactivatingPdpContext] point into it, so they are positions of the
    list and a context reached through them is the one the list holds.  What
    the service tells the framework and the modem is collected in [m_log].
    The request engine of [Service] is seen from the service: [m_current] is
    the request it works on, [OnRequestComplete] ends it, and an answer of the
    modem or a timeout reaches the service only while its request is current.

    What the code asks the rest of the system is the record [Env] that comes
    with an event; [inet_ntop] and the product's properties are the arguments
    of [Pdp]. *)
From S2P Require Import Prelude RilDef Text Pdp PsBuilder.

(** ** State *)

Inductive Kind := SETUP | DEACT | GET_LIST | ATTACH | PROFILE | START_KEEPALIVE | STOP_KEEPALIVE | PREFERRED_MODEM.
#[export] Instance Kind_eq_dec : EqDecision Kind.
Proof. solve_decision. Defined.

(** the packets [ProtocolPsBuilder] is asked for *)
Inductive Sent :=
| SetupDataCall (rat : Z) (p : PdpContext)
| DeactDataCall (cid reason : Z)
| GetDataCallList
| SetInitialAttachApn (p : PdpContext)
| SetDataProfile (apn : option (list Z))
| StartKeepAlive | StopKeepAlive (handle : Z)
| SetPreferredDataModem (id : Z)
| SetFastDormancyInfo (lcdOn lcdOff : Z).
(** the data of an answer to the framework *)
Inductive Data := NoData | Calls (l : list Response) | Keepalive (handle code : Z).
Inductive Out :=
| Completed (k : Kind) (result : Z) (data : Data)
| DataCallList (l : list Response)
| Ambr (octets : list Z)
| PdpActive (b : bool)
| Send (m : Sent).

Record Ps := {
  m_PdpContext : list PdpContext; m_nAttachCid : Z; m_bIsAttachDone : bool; m_imsi : list Z;
  m_pActivatingPdpContext : option nat; m_pDeactivatingPdpContext : option nat;
  map_timer_id : list Z; m_radio : Z; m_current : option Kind; m_log : list Out
}.
Definition set_pdps (l : list PdpContext) (s : Ps) : Ps :=
  {| m_PdpContext := l; m_nAttachCid := m_nAttachCid s; m_bIsAttachDone := m_bIsAttachDone s; m_imsi := m_imsi s;
     m_pActivatingPdpContext := m_pActivatingPdpContext s; m_pDeactivatingPdpContext := m_pDeactivatingPdpContext s;
     map_timer_id := map_timer_id s; m_radio := m_radio s; m_current := m_current s; m_log := m_log s |}.
Definition set_pointers (a d : option nat) (s : Ps) : Ps :=
  {| m_PdpContext := m_PdpContext s; m_nAttachCid := m_nAttachCid s; m_bIsAttachDone := m_bIsAttachDone s; m_imsi := m_imsi s;
     m_pActivatingPdpContext := a; m_pDeactivatingPdpContext := d;
     map_timer_id := map_timer_id s; m_radio := m_radio s; m_current := m_current s; m_log := m_log s |}.
Definition set_engine (c : option Kind) (log : list Out) (s : Ps) : Ps :=
  {| m_PdpContext := m_PdpContext s; m_nAttachCid := m_nAttachCid s; m_bIsAttachDone := m_bIsAttachDone s; m_imsi := m_imsi s;
     m_pActivatingPdpContext := m_pActivatingPdpContext s; m_pDeactivatingPdpContext := m_pDeactivatingPdpContext s;
     map_timer_id := map_timer_id s; m_radio := m_radio s; m_current := c; m_log := log |}.
Definition set_device (attach : bool) (imsi timers : list Z) (radio : Z) (s : Ps) : Ps :=
  {| m_PdpContext := m_PdpContext s; m_nAttachCid := m_nAttachCid s; m_bIsAttachDone := attach; m_imsi := imsi;
     m_pActivatingPdpContext := m_pActivatingPdpContext s; m_pDeactivatingPdpContext := m_pDeactivatingPdpContext s;
     map_timer_id := timers; m_radio := radio; m_current := m_current s; m_log := m_log s |}.
Definition set_attach_done (b : bool) (s : Ps) : Ps := set_device b (m_imsi s) (map_timer_id s) (m_radio s) s.
Definition set_timer_ids (l : list Z) (s : Ps) : Ps := set_device (m_bIsAttachDone s) (m_imsi s) l (m_radio s) s.
Definition set_activating (a : option nat) (s : Ps) : Ps := set_pointers a (m_pDeactivatingPdpContext s) s.
Definition set_deactivating (d : option nat) (s : Ps) : Ps := set_pointers (m_pActivatingPdpContext s) d s.
(** a write through a [PdpContext *] *)
Definition upd (i : nat) (f : PdpContext → PdpContext) (s : Ps) : Ps := set_pdps (alter f i (m_PdpContext s)) s.
Definition emit (o : Out) (s : Ps) : Ps := set_engine (m_current s) (m_log s ++ [o]) s.
(** reading through a [PdpContext *] *)
Definition context (i : nat) (s : Ps) : res PdpContext :=
  match m_PdpContext s !! i with Some p => Ok p | None => UB end.

(** ** What a request and the system bring *)

Record SetupDataCallRequest := {
  q_rat : Z; q_apn : option (list Z); q_username : option (list Z); q_password : option (list Z); q_authType : Z;
  q_protocol : option (list Z); q_roaming_protocol : option (list Z); q_dataProfileId : Z; q_supportedApnTypesBitmap : Z
}.
(** the SIM operator, the attach type of the provider, roaming, the radio state of the context, the outcome of
    [SendRequest] and of bringing the interface up, and whether the operator attaches without a name *)
Record Env := {
  carrier : list Z; attach_type : option (list Z); roaming : bool; radio_state : Z; sent : bool; link : Link; target_oper : Z;
  esm_flag_zero : bool
}.

Definition DEACT_REASON_NORMAL : Z := 0.
Definition DEACT_REASON_PDP_RESET : Z := 2.
Definition DEACT_REASON_RSRA_FAIL : Z := 3.
Definition PDP_FAIL_SIGNAL_LOST : Z := -3.
Definition PDP_FAIL_RADIO_POWER_OFF : Z := -5.
Definition APN_TYPE_BIT_DEFAULT : Z := 1.
Definition APN_TYPE_BIT_IA : Z := 256.
Definition APN_TYPE_BIT_EMERGENCY : Z := 512.
Definition TARGET_OPER_ATT : Z := 200.
Definition TARGET_OPER_TMO : Z := 201.

(** ** The request engine, as the service uses it *)

(** without a current request nothing is answered: the engine's own [OnRequestComplete] then only looks for the next request *)
Definition OnRequestComplete (result : Z) (data : Data) (s : Ps) : Ps :=
  match m_current s with
  | Some k => set_engine None (m_log s ++ [Completed k result data]) s
  | None => s
  end.
(** [SendRequest] is handed a packet; of the packets that are answered the outcome counts *)
Definition SendRequest (e : Env) (m : Sent) (s : Ps) : Z * Ps := (if sent e then 0 else -1, emit (Send m) s).

(** ** Contexts *)

Definition GetPdpContext (cid : Z) (s : Ps) : option nat := fst <$> list_find (λ p, m_cid p = cid) (m_PdpContext s).
Definition GetAttachPdpContext (s : Ps) : option nat := GetPdpContext (m_nAttachCid s) s.

Definition InitPdpContext (param : option (list Z * Z * Z)) : Ps :=
  let '(ifprefix, istart, size) :=
    match param with
    | Some (prefix, ifstart, ifmaxsize) => (Some prefix, ifstart, Z.min MAX_DATA_CALL_SIZE ifmaxsize)
    | None => (None, 0, MAX_DATA_CALL_SIZE)
    end in
  {| m_PdpContext := (λ i, Init (newPdpContext (i + 1) ifprefix i)) <$> seqZ istart size;
     m_nAttachCid := match param with Some _ => istart + 1 | None => 0 end;
     m_bIsAttachDone := false; m_imsi := []; m_pActivatingPdpContext := None; m_pDeactivatingPdpContext := None;
     map_timer_id := []; m_radio := RADIO_STATE_UNAVAILABLE; m_current := None; m_log := [] |}.

(** the body of the loop of [ResetPdpContext] *)
Definition reset_context (bKeepAttachApn attachDone : bool) (attachCid : Z) (p : PdpContext) : PdpContext :=
  let emergency := match m_pApnSetting p with Some a => Equals (Some (m_type a)) (Some APN_TYPE_EMERGENCY) | None => false end in
  let p := if emergency && negb bKeepAttachApn && negb attachDone then p else OnDeactivated p in
  if negb bKeepAttachApn || negb (m_cid p =? attachCid) then SetApnSetting None p else p.
Definition ResetPdpContext (bKeepAttachApn : bool) (s : Ps) : Ps :=
  set_pdps (reset_context bKeepAttachApn (m_bIsAttachDone s) (m_nAttachCid s) <$> m_PdpContext s) s.

(** the first context with the same profile and name; the access point setting of the attach context is kept *)
Definition reusable (a : ApnSetting) (dataProfileId : Z) (p : PdpContext) : bool :=
  match m_pApnSetting p with
  | Some b => (m_dataProfileId p =? dataProfileId) && Equals (Some (m_apn b)) (Some (m_apn a))
  | None => false
  end.
Definition GetAvailablePdpContext (a : ApnSetting) (dataProfileId : Z) (s : Ps) : option nat * Ps :=
  match list_find (λ p, reusable a dataProfileId p) (m_PdpContext s) with
  | Some (i, _) =>
    (Some i, if bool_decide (GetAttachPdpContext s = Some i) then s else upd i (SetApnSetting (Some a)) s)
  | None =>
    match list_find (λ p, negb (m_cid p =? m_nAttachCid s) && IsAvailable p) (m_PdpContext s) with
    | Some (i, _) => (Some i, upd i (SetDataProfileId dataProfileId ∘ SetApnSetting (Some a)) s)
    | None => (None, s)
    end
  end.
(** the overload that gives the attach context a setting *)
Definition SetAttachPdpContext (e : Env) (a : ApnSetting) (s : Ps) : option nat * Ps :=
  let ims := CanHandleType (Some APN_TYPE_IMS) a in
  let dataProfileId :=
    if (negb (Equals (Some (m_type a)) (Some APN_TYPE_ALL)) && ims) || (Equals (attach_type e) (Some APN_TYPE_IMS) && ims)
    then DATA_PROFILE_IMS else DATA_PROFILE_DEFAULT in
  match GetAttachPdpContext s with
  | Some i => (Some i, upd i (SetDataProfileId dataProfileId ∘ SetApnSetting (Some a)) s)
  | None => (None, s)
  end.

Definition isRejectRatForIMS (rat : Z) : bool := rat =? RADIO_TECH_GPRS.
Definition ambr_octet (d : DataCall) (i : nat) : Z := nth (i - 2) (ambr d) 0.
Definition notifyAMBR (d : DataCall) (s : Ps) : Ps := if negb (ambr_octet d 2 =? 0) then emit (Ambr (ambr d)) s else s.
(** after the [if] on the setting, at both call sites *)
Definition notify_default (p : PdpContext) (s : Ps) : Ps :=
  match m_pApnSetting p with
  | Some a => if CanHandleType (Some APN_TYPE_DEFAULT) a then notifyAMBR (m_dataCall p) s else s
  | None => s
  end.

(** the rates in kbit/s that [decodeAMBR] logs: one direction from its three octets *)
Definition ambr_extended (o : Z) : Z :=
  if o <=? 74 then 8600 + o * 100 else if o <=? 186 then 16000 + (o - 74) * 1000
  else if o <=? 250 then 128000 + (o - 186) * 2000 else 128000 + 250 * 2000.
Definition ambr_basic (o : Z) : Z :=
  if o <=? 63 then o else if o <=? 127 then 64 + (o - 64) * 8 else if o <=? 254 then 576 + (o - 128) * 64 else 0.
Definition ambr_rate (length basic extended extended2 : Z) : Z :=
  let rate := if (length =? 6) && negb (extended =? 0) then ambr_extended extended
              else if (length =? 6) || (length =? 4) then ambr_basic basic else 0 in
  if (length =? 8) && (0 <? extended2) && (extended2 <? 255) then rate + extended2 * 256000 else rate.
Definition decodeAMBR (d : DataCall) : Z * Z :=
  (ambr_rate (ambr_octet d 2) (ambr_octet d 3) (ambr_octet d 5) (ambr_octet d 7),
   ambr_rate (ambr_octet d 2) (ambr_octet d 4) (ambr_octet d 6) (ambr_octet d 8)).

(** [map_timer_id] of the contexts whose timer is armed *)
Definition SetRSRATimeoutTimer (cid : Z) (s : Ps) : Ps :=
  if bool_decide (cid ∈ map_timer_id s) then s else set_timer_ids (cid :: map_timer_id s) s.

(** the two overloads *)
Definition OnRequestDeactContext (p : PdpContext) (reason : Z) (s : Ps) : Ps :=
  if (m_state p =? PDP_CONTEXT_CONNECTING) || (m_state p =? PDP_CONTEXT_CONNECTED) || (m_state p =? PDP_CONTEXT_IPV6_CONFIGURING)
  then emit (Send (DeactDataCall (m_cid p) reason)) s else s.
Definition OnRequestDeactDataCall (cid reason : Z) (s : Ps) : Ps := emit (Send (DeactDataCall cid reason)) s.
Definition DoSetFastDormancy (e : Env) (s : Ps) : Ps :=
  let lcdOn := if (target_oper e =? TARGET_OPER_ATT) || (target_oper e =? TARGET_OPER_TMO) then 0 else 10 in
  emit (Send (SetFastDormancyInfo lcdOn 10)) s.

Section service.
Variable ntop : bool → list Z → option (list Z).
Variables default_dns v4_first : bool.
#[local] Abbreviation BuildSetup := (SetupResponse ntop default_dns v4_first).
#[local] Abbreviation BuildList := (BuildDataCallList ntop default_dns v4_first).

Definition connected (s : Ps) : list PdpContext := filter (λ p, m_state p = PDP_CONTEXT_CONNECTED) (m_PdpContext s).
Definition OnNotifyDataCallList (s : Ps) : res Ps :=
  let s := foldl (λ s p, notify_default p s) s (m_PdpContext s) in
  l ← BuildList (connected s);
  Ok (emit (DataCallList l) s).

(** ** Setting up *)

(** the answer of a setup that did not succeed, and the context left disconnected *)
Definition setup_failed (errorCode : Z) (pc : option nat) (s : Ps) : res Ps :=
  p ← match pc with Some i => p ← context i s; Ok (Some p) | None => Ok None end;
  r ← BuildSetup errorCode p;
  let s := OnRequestComplete RIL_E_SUCCESS (Calls [r]) s in
  match pc, p with
  | Some i, Some p =>
    let d := m_dataCall p in
    let deact := (m_state p =? PDP_CONTEXT_CONNECTING) && ((ACTIVE_AND_LINKDOWN <=? GetActive p) || negb (errorCode =? RIL_E_SUCCESS))
                 || (m_state p =? PDP_CONTEXT_CONNECTED) || (m_state p =? PDP_CONTEXT_IPV6_CONFIGURING) in
    let reason := if m_state p =? PDP_CONTEXT_IPV6_CONFIGURING then DEACT_REASON_RSRA_FAIL else DEACT_REASON_NORMAL in
    let reason := if negb (pdpType d =? PDP_TYPE_IPV6) && null_address (ipv4 d) then DEACT_REASON_PDP_RESET else reason in
    let s := if deact then OnRequestDeactContext p reason s else s in
    Ok (set_activating None (upd i OnDeactivated s))
  | _, _ => Ok (set_activating None s)
  end.
Definition OnSetupDataCallComplete (errorCode : Z) (pc : option nat) (s : Ps) : res Ps :=
  match pc with
  | Some i =>
    p ← context i s;
    if negb (errorCode =? RIL_E_SUCCESS) then setup_failed errorCode pc s
    else if m_state p =? PDP_CONTEXT_IPV6_CONFIGURING then Ok (SetRSRATimeoutTimer (m_cid p) s)
    else if (m_state p =? PDP_CONTEXT_CONNECTED) && (GetActive p =? ACTIVE_AND_LINKUP)
    then
      r ← BuildSetup errorCode (Some p);
      let s := OnRequestComplete RIL_E_SUCCESS (Calls [r]) (notify_default p s) in
      s ← OnNotifyDataCallList s;
      Ok (set_activating None s)
    else setup_failed errorCode pc s
  | None => setup_failed errorCode None s
  end.
Definition OnSetupDataCallCompletePdpFail (status : Z) (s : Ps) : Ps :=
  OnRequestComplete RIL_E_SUCCESS (Calls [PdpFailResponse status]) s.

Definition DoSetDataProfileDirect (apn : option (list Z)) (s : Ps) : Ps := emit (Send (SetDataProfile apn)) s.
(** from the point where the context has been found available *)
Definition setup_available (e : Env) (q : SetupDataCallRequest) (i : nat) (s : Ps) : res Ps :=
  p ← context i s;
  if radio_state e =? RADIO_STATE_UNAVAILABLE then Ok (OnSetupDataCallCompletePdpFail PDP_FAIL_SIGNAL_LOST s)
  else if radio_state e =? RADIO_STATE_OFF then Ok (OnSetupDataCallCompletePdpFail PDP_FAIL_RADIO_POWER_OFF s)
  else
    match m_pApnSetting p with
    | None => OnSetupDataCallComplete RIL_E_GENERIC_FAILURE None s
    | Some a =>
      let a := UpdateProtocol (if roaming e then q_roaming_protocol q else q_protocol q) a in
      let s := upd i (SetApnSetting (Some a)) s in
      if Equals (Some (m_type a)) (Some APN_TYPE_IMS) && isRejectRatForIMS (q_rat q)
      then Ok (OnSetupDataCallCompletePdpFail PDP_FAIL_ERROR_UNSPECIFIED s)
      else
        let '(ret, s) := SendRequest e (SetupDataCall (q_rat q) (SetApnSetting (Some a) p)) s in
        if ret <? 0 then Ok (OnRequestComplete RIL_E_INVALID_ARGUMENTS NoData s)
        else Ok (set_activating (Some i) (upd i (SetState PDP_CONTEXT_CONNECTING) s))
    end.
Definition DoSetupDataCall (e : Env) (q : SetupDataCallRequest) (s : Ps) : res (Z * Ps) :=
  let s := if negb (Z.land (q_supportedApnTypesBitmap q) APN_TYPE_BIT_DEFAULT =? 0) then DoSetDataProfileDirect (q_apn q) s else s in
  let a := NewInstance (Some (carrier e)) (q_apn q) (q_supportedApnTypesBitmap q) (q_username q) (q_password q)
                       (q_protocol q) (q_roaming_protocol q) (q_authType q) in
  let '(pc, s) := GetAvailablePdpContext a (q_dataProfileId q) s in
  s ← match pc with
      | None => OnSetupDataCallComplete RIL_E_GENERIC_FAILURE None s
      | Some i =>
        p ← context i s;
        if IsAvailable p then setup_available e q i s
        else if m_state p =? PDP_CONTEXT_CONNECTED
        then r ← ListResponse ntop default_dns v4_first p; Ok (OnRequestComplete RIL_E_SUCCESS (Calls [r]) s)
        else OnSetupDataCallComplete RIL_E_GENERIC_FAILURE pc s
      end;
  Ok (0, s).

Definition with_context (pc : option nat) (f : PdpContext → PdpContext) (s : Ps) : Ps :=
  match pc with Some i => upd i f s | None => s end.
Definition OnSetupDataCallDone (e : Env) (errorCode : Z) (dc : DataCall) (s : Ps) : res (Z * Ps) :=
  s ← (if errorCode =? RIL_E_SUCCESS
       then
         let pc := GetPdpContext (dc_cid dc) s in
         s ← (if dc_active dc =? ACTIVE then Ok (with_context pc (λ p, (OnActivated (link e) (Some dc) p).2) s)
              else match pc with
                   | Some i => Ok (upd i (λ p, (UpdateDataCallInfo (Some dc) p).2) s)
                   | None => UB
                   end);
         OnSetupDataCallComplete RIL_E_SUCCESS pc s
       else OnSetupDataCallComplete errorCode (m_pActivatingPdpContext s) s);
  Ok (0, DoSetFastDormancy e s).

(** the address of version 6 is cleared and version 4 kept *)
Definition drop_ipv6 (p : PdpContext) : PdpContext :=
  SetState PDP_CONTEXT_CONNECTED (set_call (set_addresses (pdpType (m_dataCall p)) (ipv4 (m_dataCall p)) (zero_address 16) (m_dataCall p)) p).
Definition OnSetupDataCallTimeout (s : Ps) : res (Z * Ps) :=
  s ← match m_pActivatingPdpContext s with
      | Some i =>
        p ← context i s;
        if (m_state p =? PDP_CONTEXT_IPV6_CONFIGURING) && valid (ipv4 (m_dataCall p))
        then OnSetupDataCallComplete RIL_E_SUCCESS (Some i) (upd i drop_ipv6 s)
        else OnSetupDataCallComplete RIL_E_GENERIC_FAILURE (Some i) s
      | None => OnSetupDataCallComplete RIL_E_GENERIC_FAILURE None s
      end;
  Ok (0, s).

(** the router advertisement: [ifindex] is the system's index of each interface; the new prefix goes in front of the
    interface identifier, in the data call [OnActivated] is then given *)
Definition add_prefix (prefix gateway : list Z) (p : PdpContext) : PdpContext :=
  let d := m_dataCall p in
  set_call (set_addresses (pdpType d) (ipv4 d) (set_addr (take 8 prefix ++ drop 8 (addr (ipv6 d))) gateway (ipv6 d)) d) p.
Definition configure (l : Link) (prefix gateway : list Z) (p : PdpContext) : PdpContext :=
  let p := add_prefix prefix gateway p in (OnActivated l (Some (m_dataCall p)) p).2.
Definition OnSetupDataCallIPv6Configured (e : Env) (ifindex : list Z → Z) (index : Z) (prefix gateway : list Z) (s : Ps) : res Ps :=
  match list_find (λ p, ifindex (m_szIfname p) = index) (m_PdpContext s) with
  | Some (i, p) =>
    if (m_state p =? PDP_CONTEXT_IPV6_CONFIGURING) && valid (ipv6 (m_dataCall p))
    then OnSetupDataCallComplete RIL_E_SUCCESS (Some i) (upd i (configure (link e) prefix gateway) s)
    else Ok s
  | None => Ok s
  end.

(** the timer of the router advertisement *)
Definition ipv4_only (p : PdpContext) : PdpContext :=
  let d := m_dataCall p in set_call (set_addresses PDP_TYPE_IPV4 (ipv4 d) (set_valid false (ipv6 d)) d) p.
Definition RSRATimeoutCallback (cid : Z) (s : Ps) : res Ps :=
  if negb (bool_decide (cid ∈ map_timer_id s)) then UB
  else
    let s := set_timer_ids (filter (λ c, c ≠ cid) (map_timer_id s)) s in
    if negb ((0 <? cid) && (cid <? 9)) then Ok s
    else
      match GetPdpContext cid s with
      | None => UB
      | Some i =>
        p ← context i s;
        let d := m_dataCall p in
        if negb (valid (ipv6 d) && link_local (ipv6 d)) then Ok s
        else if negb (valid (ipv4 d)) then OnSetupDataCallComplete RIL_E_GENERIC_FAILURE (Some i) s
        else if m_state p =? PDP_CONTEXT_IPV6_CONFIGURING
        then OnSetupDataCallComplete RIL_E_SUCCESS (Some i) (upd i (SetState PDP_CONTEXT_CONNECTED ∘ ipv4_only) s)
        else if m_state p =? PDP_CONTEXT_CONNECTED then OnNotifyDataCallList (upd i ipv4_only s)
        else Ok s
      end.

(** ** Deactivating and listing *)

Definition DoDeactDataCall (e : Env) (cid reason : Z) (s : Ps) : res (Z * Ps) :=
  match GetPdpContext cid s with
  | None => Ok (0, OnRequestComplete RIL_E_INVALID_CALL_ID NoData s)
  | Some i =>
    p ← context i s;
    if negb (m_state p =? PDP_CONTEXT_CONNECTED) then Ok (0, OnRequestComplete RIL_E_INVALID_CALL_ID NoData s)
    else
      let '(ret, s) := SendRequest e (DeactDataCall cid reason) s in
      if ret <? 0 then Ok (-1, s) else Ok (0, set_deactivating (Some i) (upd i (SetState PDP_CONTEXT_DISCONNECTING) s))
  end.
Definition OnDeactDataCallComplete (pc : option nat) (s : Ps) : res Ps :=
  s ← match pc with Some i => _ ← context i s; Ok (upd i OnDeactivated s) | None => Ok s end;
  s ← OnNotifyDataCallList (OnRequestComplete RIL_E_SUCCESS NoData s);
  Ok (set_deactivating None s).
Definition OnDeactDataCallDone (s : Ps) : res (Z * Ps) := s ← OnDeactDataCallComplete (m_pDeactivatingPdpContext s) s; Ok (0, s).
Definition OnDeactDataCallTimeout (s : Ps) : res (Z * Ps) := s ← OnDeactDataCallComplete (m_pDeactivatingPdpContext s) s; Ok (0, s).

Definition DoGetDataCallList (e : Env) (s : Ps) : Z * Ps := SendRequest e GetDataCallList s.
Definition GetDataCallByCid (cid : Z) (l : list DataCall) : option DataCall := snd <$> list_find (λ d, dc_cid d = cid) l.
(** one context against the list of the modem *)
Definition align (l : list DataCall) (i : nat) (s : Ps) : res Ps :=
  p ← context i s;
  match GetDataCallByCid (m_cid p) l with
  | Some dc =>
    let deact := (GetActive p =? INACTIVE) && (dc_active dc =? ACTIVE) in
    let reset := (ACTIVE_AND_LINKDOWN <=? GetActive p) && (dc_active dc =? INACTIVE) in
    let s := if deact then OnRequestDeactDataCall (m_cid p) DEACT_REASON_NORMAL s else s in
    Ok (if deact || reset then upd i OnDeactivated s else s)
  | None => Ok s
  end.
Definition each_context (f : nat → Ps → res Ps) (s : Ps) : res Ps :=
  for_up (length (m_PdpContext s)) 0 (λ i, f (Z.to_nat i)) s.
Definition OnGetDataCallListDone (errorCode : Z) (l : list DataCall) (s : Ps) : res (Z * Ps) :=
  if errorCode =? RIL_E_SUCCESS
  then
    s ← each_context (align l) s;
    r ← BuildList (connected s);
    Ok (0, OnRequestComplete RIL_E_SUCCESS (Calls r) s)
  else Ok (0, OnRequestComplete RIL_E_GENERIC_FAILURE NoData s).

(** the first loop of [OnDataCallListChanged]: [DataCallInformedArray], and whether some call is active *)
Definition inform (dc : DataCall) (t : list bool * bool * Ps) : res (list bool * bool * Ps) :=
  let '(informed, bPdpActive, s) := t in
  informed ← wr informed (dc_cid dc) true;
  if dc_active dc =? INACTIVE
  then
    match GetPdpContext (dc_cid dc) s with
    | None => Ok (informed, bPdpActive, s)
    | Some i =>
      p ← context i s;
      if (m_state p =? PDP_CONTEXT_CONNECTED) || (1 <=? GetActive p)
      then
        a ← match m_pActivatingPdpContext s with Some a => q ← context a s; Ok (Some q) | None => Ok None end;
        s ← (if match a with Some q => m_state q =? PDP_CONTEXT_IPV6_CONFIGURING | None => false end
             then OnSetupDataCallComplete RIL_E_GENERIC_FAILURE (m_pActivatingPdpContext s) s
             else Ok (upd i OnDeactivated s));
        Ok (informed, bPdpActive, s)
      else Ok (informed, bPdpActive, s)
    end
  else
    let active := if dc_active dc =? CP_DATA_CONNECTION_DORMANT then PH_LINK_DORMANT else PH_LINK_UP in
    Ok (informed, true, with_context (GetPdpContext (dc_cid dc) s) (λ p, (UpdateDataCallInfo (Some dc) (SetActive active p)).2) s).
(** the second loop *)
Definition cleanup (informed : list bool) (i : nat) (s : Ps) : res Ps :=
  p ← context i s;
  b ← rd informed (m_cid p);
  Ok (if negb b && (ACTIVE <=? GetActive p) then upd i OnDeactivated s else s).
Fixpoint inform_all (l : list DataCall) (t : list bool * bool * Ps) : res (list bool * bool * Ps) :=
  match l with [] => Ok t | dc :: l => t ← inform dc t; inform_all l t end.
Definition OnDataCallListChanged (l : list DataCall) (s : Ps) : res Ps :=
  t ← inform_all l (fill (MAX_DATA_CALL_SIZE * 2 + 1) false, false, s);
  let '(informed, bPdpActive, s) := t in
  s ← each_context (cleanup informed) s;
  let s := match l with [] => ResetPdpContext true s | _ => s end in
  OnNotifyDataCallList (emit (PdpActive bPdpActive) s).

(** ** Attaching, profiles, keep-alive, the preferred modem *)

Definition RequestSetInitialAttachApn (e : Env) (a : ApnSetting) (s : Ps) : res (Z * Ps) :=
  let '(pc, s) := SetAttachPdpContext e a s in
  match pc with
  | None => Ok (-1, s)
  | Some i =>
    p ← context i s;
    let s := upd i (attach_context (esm_flag_zero e)) s in
    let '(ret, s) := SendRequest e (SetInitialAttachApn p) s in
    if ret <? 0 then Ok (-1, upd i (SetApnSetting None) s) else Ok (0, s)
  end.
Definition DoSetInitialAttachApn (e : Env) (q : SetupDataCallRequest) (s : Ps) : res (Z * Ps) :=
  let types := q_supportedApnTypesBitmap q in
  if negb (Z.land types APN_TYPE_BIT_EMERGENCY =? 0) && (Z.land types APN_TYPE_BIT_IA =? 0)
  then Ok (0, OnRequestComplete RIL_E_REQUEST_NOT_SUPPORTED NoData s)
  else
    r ← RequestSetInitialAttachApn e (NewInstance (Some (carrier e)) (q_apn q) types (q_username q) (q_password q)
                                                  (q_protocol q) (q_roaming_protocol q) (q_authType q)) s;
    let '(ret, s) := r in
    Ok (0, if ret <? 0 then OnRequestComplete RIL_E_INTERNAL_ERR NoData s else s).
(** the same but for its log *)
Definition DoRefreshInitialAttachApn (e : Env) (q : SetupDataCallRequest) (s : Ps) : res (Z * Ps) := DoSetInitialAttachApn e q s.
Definition OnSetInitialAttachApnDone (errorCode : Z) (s : Ps) : Z * Ps :=
  (0, OnRequestComplete errorCode NoData (if errorCode =? RIL_E_SUCCESS then set_attach_done true s else s)).
Definition OnSetDataProfileDone (errorCode : Z) (s : Ps) : Z * Ps :=
  (0, OnRequestComplete errorCode NoData (if errorCode =? RIL_E_SUCCESS then set_attach_done true s else s)).

(** each profile: its name, whether it is persistent, whether its packet could be sent *)
Fixpoint send_profiles (l : list (option (list Z) * bool * bool)) (s : Ps) : Z * Ps :=
  match l with
  | [] => (0, s)
  | (apn, persistent, written) :: l =>
    if persistent
    then let s := emit (Send (SetDataProfile apn)) s in if written then send_profiles l s else (-1, s)
    else send_profiles l s
  end.
Definition DoSetDataProfile (l : list (option (list Z) * bool * bool)) (s : Ps) : Z * Ps :=
  let '(ret, s) := send_profiles l s in
  if ret <? 0 then (-1, s) else (0, OnRequestComplete RIL_E_SUCCESS NoData s).

Definition DoStartKeepAlive (e : Env) (s : Ps) : Z * Ps := SendRequest e StartKeepAlive s.
Definition OnStartKeepAliveDone (errorCode handle code : Z) (s : Ps) : Z * Ps :=
  (0, if errorCode =? RIL_E_SUCCESS then OnRequestComplete RIL_E_SUCCESS (Keepalive handle code) s
      else OnRequestComplete RIL_E_REQUEST_NOT_SUPPORTED NoData s).
Definition DoStopKeepAlive (e : Env) (handle : Z) (s : Ps) : Z * Ps := SendRequest e (StopKeepAlive handle) s.
Definition OnStopKeepAliveDone (errorCode : Z) (s : Ps) : Z * Ps :=
  (0, OnRequestComplete (if errorCode =? RIL_E_SUCCESS then RIL_E_SUCCESS else RIL_E_REQUEST_NOT_SUPPORTED) NoData s).
Definition DoSetPreferredDataModem (e : Env) (dataModemId : Z) (s : Ps) : Z * Ps :=
  if (dataModemId <? 0) || (2 <? dataModemId) then (0, OnRequestComplete RIL_E_INVALID_ARGUMENTS NoData s)
  else SendRequest e (SetPreferredDataModem dataModemId) s.
Definition OnSetPreferredDataModemDone (errorCode : Z) (s : Ps) : Z * Ps := (0, OnRequestComplete errorCode NoData s).

(** ** Radio, card and IMSI *)

Definition OnRadioStateChanged (radioState : Z) (s : Ps) : Ps :=
  if (radioState =? RADIO_STATE_OFF) || (radioState =? RADIO_STATE_UNAVAILABLE)
  then ResetPdpContext true (set_attach_done false (set_pointers None None s)) else s.
Definition OnSimStatusChanged (cardState : Z) (s : Ps) : res Ps :=
  if cardState =? RIL_CARDSTATE_ABSENT
  then
    s ← match m_pActivatingPdpContext s with
        | Some i => s ← OnSetupDataCallComplete RIL_E_GENERIC_FAILURE (Some i) s; Ok (set_activating None s)
        | None => Ok s
        end;
    s ← match m_pDeactivatingPdpContext s with
        | Some i => s ← OnDeactDataCallComplete (Some i) s; Ok (set_deactivating None s)
        | None => Ok s
        end;
    OnNotifyDataCallList (ResetPdpContext false (set_attach_done false s))
  else Ok s.
Definition OnImsiUpdated (imsi : option (list Z)) (s : Ps) : Ps :=
  match imsi with
  | Some t =>
    if lenZ t <? 5 then s
    else
      let old := m_imsi s in
      let s := set_device (m_bIsAttachDone s) (take (Z.to_nat MAX_IMSI_LEN) t) (map_timer_id s) (m_radio s) s in
      if negb (bool_decide (old = [])) && negb (bool_decide (old = t))
      then with_context (GetAttachPdpContext s) (SetApnSetting None) s else s
  | None => s
  end.
Definition IsPossibleToPassInRadioOffState (k : Kind) : bool :=
  match k with ATTACH | PROFILE | PREFERRED_MODEM => true | _ => false end.

(** ** Events *)

Inductive Request :=
| RSetup (q : SetupDataCallRequest) | RDeact (cid reason : Z) | RList
| RAttach (q : SetupDataCallRequest) | RRefresh (q : SetupDataCallRequest)
| RProfile (l : list (option (list Z) * bool * bool))
| RStartKeepAlive | RStopKeepAlive (handle : Z) | RPreferred (id : Z).
Definition kind_of (r : Request) : Kind :=
  match r with
  | RSetup _ => SETUP | RDeact _ _ => DEACT | RList => GET_LIST | RAttach _ | RRefresh _ => ATTACH | RProfile _ => PROFILE
  | RStartKeepAlive => START_KEEPALIVE | RStopKeepAlive _ => STOP_KEEPALIVE | RPreferred _ => PREFERRED_MODEM
  end.
(** what an answer of the modem says; which handler it reaches follows from the request *)
Record Answer := { a_error : Z; a_calls : list DataCall; a_handle : Z; a_code : Z }.
Inductive Event :=
| EvRequest (r : Request)
| EvAnswer (a : Answer)
| EvTimeout
| EvListChanged (l : list DataCall)
| EvIpv6 (ifindex : list Z → Z) (index : Z) (prefix gateway : list Z)
| EvRsra (cid : Z)
| EvRadio (radioState : Z)
| EvSim (cardState : Z)
| EvImsi (imsi : option (list Z)).

Definition OnHandleRequest (e : Env) (r : Request) (s : Ps) : res (Z * Ps) :=
  match r with
  | RSetup q => DoSetupDataCall e q s
  | RDeact cid reason => DoDeactDataCall e cid reason s
  | RList => Ok (DoGetDataCallList e s)
  | RAttach q => DoSetInitialAttachApn e q s
  | RRefresh q => DoRefreshInitialAttachApn e q s
  | RProfile l => Ok (DoSetDataProfile l s)
  | RStartKeepAlive => Ok (DoStartKeepAlive e s)
  | RStopKeepAlive h => Ok (DoStopKeepAlive e h s)
  | RPreferred i => Ok (DoSetPreferredDataModem e i s)
  end.
Definition OnHandleSolicitedResponse (e : Env) (k : Kind) (a : Answer) (s : Ps) : res (Z * Ps) :=
  match k with
  | SETUP => OnSetupDataCallDone e (a_error a) (default zero_call (head (a_calls a))) s
  | DEACT => OnDeactDataCallDone s
  | GET_LIST => OnGetDataCallListDone (a_error a) (a_calls a) s
  | ATTACH => Ok (OnSetInitialAttachApnDone (a_error a) s)
  | PROFILE => Ok (OnSetDataProfileDone (a_error a) s)
  | START_KEEPALIVE => Ok (OnStartKeepAliveDone (a_error a) (a_handle a) (a_code a) s)
  | STOP_KEEPALIVE => Ok (OnStopKeepAliveDone (a_error a) s)
  | PREFERRED_MODEM => Ok (OnSetPreferredDataModemDone (a_error a) s)
  end.
(** a negative result: nothing was done, and the engine ends the request itself *)
Definition OnHandleRequestTimeout (k : Kind) (s : Ps) : res (Z * Ps) :=
  match k with SETUP => OnSetupDataCallTimeout s | DEACT => OnDeactDataCallTimeout s | _ => Ok (-1, s) end.
Definition otherwise (result : Z) (r : Z * Ps) : Ps := if r.1 <? 0 then OnRequestComplete result NoData r.2 else r.2.

(** the engine ends a request that may not pass while the radio is off or unavailable *)
Definition end_stopped (r : Z) (s : Ps) : Ps :=
  match m_current s with
  | Some k => if ((r =? RADIO_STATE_OFF) && negb (IsPossibleToPassInRadioOffState k)) || (r =? RADIO_STATE_UNAVAILABLE)
              then OnRequestComplete RIL_E_RADIO_NOT_AVAILABLE NoData s else s
  | None => s
  end.
(** the engine: one request at a time, an answer or a timeout only for the current one; a change of the radio ends
    a request that may not pass *)
Definition step (e : Env) (ev : Event) (s : Ps) : res Ps :=
  match ev with
  | EvRequest r =>
    match m_current s with
    | Some _ => Ok s
    | None => t ← OnHandleRequest e r (set_engine (Some (kind_of r)) (m_log s) s); Ok (otherwise RIL_E_GENERIC_FAILURE t)
    end
  | EvAnswer a =>
    match m_current s with
    | Some k => t ← OnHandleSolicitedResponse e k a s; Ok (otherwise RIL_E_GENERIC_FAILURE t)
    | None => Ok s
    end
  | EvTimeout =>
    match m_current s with
    | Some k => t ← OnHandleRequestTimeout k s; Ok (otherwise RIL_E_INTERNAL_ERR t)
    | None => Ok s
    end
  | EvListChanged l => OnDataCallListChanged l s
  | EvIpv6 f index prefix gateway => OnSetupDataCallIPv6Configured e f index prefix gateway s
  | EvRsra cid => RSRATimeoutCallback cid s
  | EvRadio r =>
    let changed := negb (r =? m_radio s) in
    let s := set_device (m_bIsAttachDone s) (m_imsi s) (map_timer_id s) r s in
    let s := if changed then OnRadioStateChanged r s else s in
    Ok (OnRadioStateChanged r (end_stopped r s))
  | EvSim c => OnSimStatusChanged c s
  | EvImsi i => Ok (OnImsiUpdated i s)
  end.
Fixpoint run (l : list (Env * Event)) (s : Ps) : res Ps :=
  match l with [] => Ok s | (e, ev) :: l => s ← step e ev s; run l s end.
End service.
