(* ===== verification/PsProofs.v ===== *)
(** The invariant of the packet data service and what each handler of [Ps] does
    to it.

    [core]: the identifiers of the contexts differ; a context that is being set
    up is the one [m_pActivatingPdpContext] points to, one that is being taken
    down the one [m_pDeactivatingPdpContext] points to; a connected context has
    an active call of its own.  [post]: a handler keeps [core] and the
    identifiers, moves contexts only along [may], and ends the current request
    at most once. *)
From S2P Require Import Prelude RilDef Text Pdp PdpTheorems PsBuilder Ps.

(** ** The invariant *)

Abbreviation ctxs := m_PdpContext.
Abbreviation act := m_pActivatingPdpContext.
Abbreviation deact := m_pDeactivatingPdpContext.
Definition cids (s : Ps) : list Z := m_cid <$> ctxs s.

Definition busy (p : PdpContext) : Prop := m_state p = PDP_CONTEXT_CONNECTING ∨ m_state p = PDP_CONTEXT_IPV6_CONFIGURING.
Definition live (p : PdpContext) : Prop := m_state p = PDP_CONTEXT_CONNECTED ∨ m_state p = PDP_CONTEXT_IPV6_CONFIGURING.
Record pdp_ok (a d : option nat) (i : nat) (p : PdpContext) : Prop := {
  po_cid : 0 < m_cid p <= MAX_DATA_CALL_SIZE * 2;
  po_state : PDP_CONTEXT_DISCONNECTED <= m_state p <= PDP_CONTEXT_IPV6_CONFIGURING;
  po_call : call_wf (m_dataCall p);
  po_active : 0 <= GetActive p <= ACTIVE_AND_LINKUP;
  po_mine : GetActive p ≠ INACTIVE → dc_cid (m_dataCall p) = m_cid p;
  po_live : live p → GetActive p ≠ INACTIVE;
  po_busy : busy p → a = Some i;
  po_leaving : m_state p = PDP_CONTEXT_DISCONNECTING → d = Some i
}.
Record core (s : Ps) : Prop := {
  c_nodup : NoDup (cids s);
  c_ctx : ∀ i p, ctxs s !! i = Some p → pdp_ok (act s) (deact s) i p;
  c_act : ∀ i, act s = Some i → (i < length (ctxs s))%nat;
  c_deact : ∀ i, deact s = Some i → (i < length (ctxs s))%nat;
  c_timers : ∀ c, c ∈ map_timer_id s → c ∈ cids s
}.

(** ** What a handler may do *)

(** the answers to the framework *)
Definition answers_of (l : list Out) : list (Kind * Z * Data) :=
  omap (λ o, match o with Completed k r d => Some (k, r, d) | _ => None end) l.
Definition answers (s : Ps) : list (Kind * Z * Data) := answers_of (m_log s).
Definition answered (s s' : Ps) : Prop :=
  (m_current s' = m_current s ∧ answers s' = answers s) ∨
  (∃ k r d, m_current s = Some k ∧ m_current s' = None ∧ answers s' = answers s ++ [(k, r, d)]).

(** the ways a context goes without a request of the framework: towards disconnected, or forward through a setup *)
Definition may (a b : Z) : Prop :=
  a = b ∨ b = PDP_CONTEXT_DISCONNECTED ∨
  (a = PDP_CONTEXT_CONNECTING ∧ (b = PDP_CONTEXT_IPV6_CONFIGURING ∨ b = PDP_CONTEXT_CONNECTED)) ∨
  (a = PDP_CONTEXT_IPV6_CONFIGURING ∧ b = PDP_CONTEXT_CONNECTED).
(** [ex] is the context a handler treats in its own way *)
Record post (ex : option nat) (s s' : Ps) : Prop := {
  q_core : core s';
  q_cids : cids s' = cids s;
  q_moves : ∀ i p p', ex ≠ Some i → ctxs s !! i = Some p → ctxs s' !! i = Some p' → may (m_state p) (m_state p');
  q_answered : answered s s'
}.

Lemma cids_length s s' : cids s' = cids s → length (ctxs s') = length (ctxs s).
Proof. intros H%(f_equal length). unfold cids in H. by rewrite !length_fmap in H. Qed.
Lemma may_refl a : may a a.
Proof. by left. Qed.
Lemma may_trans a b c : may a b → may b c → may a c.
Proof. unfold may, PDP_CONTEXT_DISCONNECTED, PDP_CONTEXT_CONNECTING, PDP_CONTEXT_CONNECTED, PDP_CONTEXT_IPV6_CONFIGURING. lia. Qed.
Lemma answered_refl s s' : m_current s' = m_current s → answers s' = answers s → answered s s'.
Proof. by left. Qed.
Lemma answered_trans s s1 s2 : answered s s1 → answered s1 s2 → answered s s2.
Proof.
  intros [[E1 A1]|(k & r & d & E1 & E1' & A1)] [[E2 A2]|(k' & r' & d' & E2 & E2' & A2)].
  - left. by rewrite E2, A2.
  - right. exists k', r', d'. by rewrite A2, <- E1, A1.
  - right. exists k, r, d. by rewrite E2, A2.
  - congruence.
Qed.
Lemma post_refl ex s : core s → post ex s s.
Proof. intros H. split; [done|done| |by left]. intros i p p' _ E E'. rewrite E in E'. injection E' as ->. apply may_refl. Qed.
Lemma post_trans ex s s1 s2 : post ex s s1 → post ex s1 s2 → post ex s s2.
Proof.
  intros [C1 I1 M1 A1] [C2 I2 M2 A2]. split; [done|congruence| |by eapply answered_trans].
  intros i p p' Hex E E'. destruct (ctxs s1 !! i) as [q|] eqn:Eq; [by eapply may_trans; [eapply M1|eapply M2]|].
  apply lookup_ge_None in Eq. apply cids_length in I1. apply lookup_lt_Some in E. lia.
Qed.
Lemma post_any ex s s' : post None s s' → post ex s s'.
Proof. intros [C I M A]. split; [done..| |done]. intros. by eapply M. Qed.

Lemma core_same s s' : core s → ctxs s' = ctxs s → act s' = act s → deact s' = deact s →
  (∀ c, c ∈ map_timer_id s' → c ∈ map_timer_id s) → core s'.
Proof.
  intros [H1 H2 H3 H4 H5] E Ea Ed Et. split; unfold cids in *; rewrite E, ?Ea, ?Ed; auto.
Qed.
(** a change that leaves the contexts alone *)
Lemma post_same ex s s' : core s → ctxs s' = ctxs s → act s' = act s → deact s' = deact s →
  (∀ c, c ∈ map_timer_id s' → c ∈ map_timer_id s) → answered s s' → post ex s s'.
Proof.
  intros H E Ea Ed Et Han. split; [by eapply core_same|by unfold cids; rewrite E| |done].
  intros i p p' _ Hp Hp'. rewrite E, Hp in Hp'. injection Hp' as ->. apply may_refl.
Qed.

(** ** Single changes *)

Lemma answers_app s l : answers_of (m_log s ++ l) = answers s ++ answers_of l.
Proof. apply omap_app. Qed.
Lemma emit_post ex o s : core s → answers_of [o] = [] → post ex s (emit o s).
Proof.
  intros H Ho. apply post_same; try done. apply answered_refl; [done|]. unfold answers at 1. cbn [emit m_log set_engine].
  by rewrite answers_app, Ho, app_nil_r.
Qed.
Lemma OnRequestComplete_post ex r d s : core s → post ex s (OnRequestComplete r d s).
Proof.
  intros H. unfold OnRequestComplete. destruct (m_current s) as [k|] eqn:E; [|by apply post_refl].
  apply post_same; try done. right. exists k, r, d. split; [done|]. split; [done|]. apply answers_app.
Qed.
Lemma OnRequestComplete_current r d s : m_current (OnRequestComplete r d s) = None.
Proof. unfold OnRequestComplete. by destruct (m_current s) eqn:E. Qed.
Lemma OnRequestComplete_same r d s : ctxs (OnRequestComplete r d s) = ctxs s ∧ act (OnRequestComplete r d s) = act s
  ∧ deact (OnRequestComplete r d s) = deact s ∧ map_timer_id (OnRequestComplete r d s) = map_timer_id s.
Proof. unfold OnRequestComplete. by destruct (m_current s). Qed.

Lemma OnRequestComplete_answer r d s k : m_current s = Some k → answers (OnRequestComplete r d s) = answers s ++ [(k, r, d)].
Proof. unfold OnRequestComplete. intros ->. apply answers_app. Qed.

Lemma upd_lookup i f s j : ctxs (upd i f s) !! j = if decide (i = j) then f <$> ctxs s !! j else ctxs s !! j.
Proof.
  cbn [upd set_pdps ctxs]. destruct (decide (i = j)) as [->|Hne]; [by rewrite list_lookup_alter_eq|by rewrite list_lookup_alter_ne].
Qed.
Lemma upd_cids i f s : (∀ p, ctxs s !! i = Some p → m_cid (f p) = m_cid p) → cids (upd i f s) = cids s.
Proof.
  intros H. apply list_eq. intros j. unfold cids. rewrite !list_lookup_fmap, upd_lookup.
  destruct (decide (i = j)) as [->|]; [|done]. destruct (ctxs s !! j) as [p|] eqn:E; [|done]. cbn. by rewrite H.
Qed.
Lemma upd_post ex i f s p : core s → ctxs s !! i = Some p → m_cid (f p) = m_cid p → pdp_ok (act s) (deact s) i (f p) →
  (ex = Some i ∨ may (m_state p) (m_state (f p))) → post ex s (upd i f s).
Proof.
  intros [H1 H2 H3 H4 H5] Hp Hc Hok Hm.
  assert (cids (upd i f s) = cids s) as Hcids by (apply upd_cids; intros q Hq; rewrite Hp in Hq; by injection Hq as <-).
  split; [split|done| |by left].
  - by rewrite Hcids.
  - intros j q. rewrite upd_lookup. destruct (decide (i = j)) as [<-|]; [|apply H2].
    rewrite Hp. cbn. by intros [= <-].
  - intros j Hj. rewrite (cids_length _ _ Hcids). by apply H3.
  - intros j Hj. rewrite (cids_length _ _ Hcids). by apply H4.
  - intros c Hin. rewrite Hcids. by apply H5.
  - intros j q q' Hex Hq. rewrite upd_lookup. destruct (decide (i = j)) as [<-|].
    + rewrite Hp in *. injection Hq as <-. cbn. intros [= <-]. by destruct Hm as [->|].
    + rewrite Hq. intros [= <-]. apply may_refl.
Qed.

Lemma zero_call_wf : call_wf zero_call.
Proof. by_eval. Qed.
Lemma OnDeactivated_eq p : OnDeactivated p = set_pdp (m_pApnSetting p) (m_dataProfileId p) PDP_CONTEXT_DISCONNECTED zero_call (m_pNetIfController p) p.
Proof. reflexivity. Qed.
(** a context at rest does not depend on the pointers *)
Lemma disconnected_ok a d a' d' i p : pdp_ok a d i p → pdp_ok a' d' i (OnDeactivated p).
Proof.
  intros [H1 H2 H3 H4 H5 H6 H7 H8]. rewrite OnDeactivated_eq.
  unfold PDP_CONTEXT_DISCONNECTED, PDP_CONTEXT_IPV6_CONFIGURING in *.
  split; unfold live, busy, GetActive, PDP_CONTEXT_CONNECTED, PDP_CONTEXT_CONNECTING, PDP_CONTEXT_IPV6_CONFIGURING, PDP_CONTEXT_DISCONNECTING,
    PDP_CONTEXT_DISCONNECTED in *; cbn; try done; try lia; try apply zero_call_wf; intros; lia.
Qed.
Lemma deactivate_post ex i s : core s → post ex s (upd i OnDeactivated s).
Proof.
  intros H. destruct (ctxs s !! i) as [p|] eqn:E.
  - eapply upd_post; [done..| |right; right; by left]. eapply disconnected_ok, c_ctx; done.
  - assert (ctxs (upd i OnDeactivated s) = ctxs s) as Es.
    { apply list_eq. intros j. rewrite upd_lookup. destruct (decide (i = j)) as [<-|]; [by rewrite E|done]. }
    by apply post_same; [done|done|..|left].
Qed.

Lemma set_pointers_core a d s : core s →
  (∀ i p, ctxs s !! i = Some p → busy p → a = Some i) → (∀ i p, ctxs s !! i = Some p → m_state p = PDP_CONTEXT_DISCONNECTING → d = Some i) →
  (∀ i, a = Some i → (i < length (ctxs s))%nat) → (∀ i, d = Some i → (i < length (ctxs s))%nat) → core (set_pointers a d s).
Proof.
  intros [H1 H2 H3 H4 H5] Ha Hd Hal Hdl. split; [done| |done..]. intros i p Hp. destruct (H2 i p Hp) as [? ? ? ? ? ? _ _].
  split; try done; intros ?; by eauto.
Qed.
Lemma set_pointers_post ex a d s : core (set_pointers a d s) → post ex s (set_pointers a d s).
Proof. intros H. split; [done|done| |by left]. intros i p p' _ Hp Hp'. cbn in Hp'. rewrite Hp in Hp'. injection Hp' as ->. apply may_refl. Qed.

(** no context is being set up *)
Definition calm (s : Ps) : Prop := ∀ i p, ctxs s !! i = Some p → ¬ busy p.
Lemma clear_activating ex s : core s → calm s → post ex s (set_activating None s).
Proof.
  intros H Hc. apply set_pointers_post, set_pointers_core; [done| | |done|apply H].
  - intros i p Hp Hb. by apply Hc in Hp.
  - intros i p Hp. by eapply po_leaving, c_ctx.
Qed.
Definition none_leaving (s : Ps) : Prop := ∀ i p, ctxs s !! i = Some p → m_state p ≠ PDP_CONTEXT_DISCONNECTING.
Lemma clear_deactivating ex s : core s → none_leaving s → post ex s (set_deactivating None s).
Proof.
  intros H Hc. apply set_pointers_post, set_pointers_core; [done| | |apply H|done].
  - intros i p Hp. by eapply po_busy, c_ctx.
  - intros i p Hp Hb. by apply Hc in Hp.
Qed.
(** after the context that is pointed to is disconnected *)
Lemma calm_after ex i s s' : core s → post ex s s' → (act s = Some i ∨ act s = None) →
  (∀ j p p', j ≠ i → ctxs s !! j = Some p → ctxs s' !! j = Some p' → m_state p' = m_state p) →
  (∀ p, ctxs s' !! i = Some p → ¬ busy p) → calm s'.
Proof.
  intros H Hp Ha Hsame Hi j p' Hj Hb. destruct (decide (j = i)) as [->|Hne]; [by eapply Hi|].
  destruct (lookup_lt_is_Some_2 (ctxs s) j) as [p Hjp].
  { rewrite <- (cids_length _ _ (q_cids _ _ _ Hp)). by eapply lookup_lt_Some. }
  assert (busy p) as Hbp by (unfold busy in *; by rewrite <- (Hsame j p p')).
  apply (po_busy _ _ _ _ (c_ctx _ H _ _ Hjp)) in Hbp. destruct Ha as [Ha|Ha]; congruence.
Qed.

Lemma context_ok i s : (i < length (ctxs s))%nat → ∃ p, ctxs s !! i = Some p ∧ context i s = Ok p.
Proof. intros [p E]%lookup_lt_is_Some_2. exists p. split; [done|]. unfold context. by rewrite E. Qed.
Lemma context_eq i s p : ctxs s !! i = Some p → context i s = Ok p.
Proof. intros E. unfold context. by rewrite E. Qed.

Lemma GetPdpContext_Some cid s i : GetPdpContext cid s = Some i → ∃ p, ctxs s !! i = Some p ∧ m_cid p = cid.
Proof.
  unfold GetPdpContext. destruct (list_find _ _) as [[j p]|] eqn:E; [|done]. intros [= <-]. apply list_find_Some in E as (E & Hc & _). by exists p.
Qed.
Lemma GetPdpContext_None cid s : GetPdpContext cid s = None → ∀ i p, ctxs s !! i = Some p → m_cid p ≠ cid.
Proof.
  unfold GetPdpContext. destruct (list_find _ _) as [[j p]|] eqn:E; [done|]. intros _ i p Hp. apply list_find_None in E.
  rewrite Forall_lookup in E. by eapply E.
Qed.
Lemma cids_unique s i j p q : core s → ctxs s !! i = Some p → ctxs s !! j = Some q → m_cid p = m_cid q → i = j.
Proof.
  intros H Hp Hq Hc. eapply (NoDup_lookup (cids s)); [apply H|..]; unfold cids; rewrite list_lookup_fmap.
  - by rewrite Hp.
  - by rewrite Hq, Hc.
Qed.
Lemma GetPdpContext_self s i p : core s → ctxs s !! i = Some p → GetPdpContext (m_cid p) s = Some i.
Proof.
  intros H Hp. destruct (GetPdpContext (m_cid p) s) as [j|] eqn:E.
  - apply GetPdpContext_Some in E as (q & Hq & Hc). f_equal. by eapply cids_unique.
  - exfalso. by eapply GetPdpContext_None.
Qed.

(** ** Notifying the framework *)

Lemma set_engine_id s : set_engine (m_current s) (m_log s) s = s.
Proof. by destruct s. Qed.
Lemma notify_default_spec p s : ∃ l, notify_default p s = set_engine (m_current s) (m_log s ++ l) s ∧ answers_of l = [].
Proof.
  unfold notify_default, notifyAMBR. destruct (m_pApnSetting p) as [a|]; [|exists []; by rewrite app_nil_r, set_engine_id].
  destruct (CanHandleType _ a); [|exists []; by rewrite app_nil_r, set_engine_id].
  destruct (negb _); [by eexists|exists []; by rewrite app_nil_r, set_engine_id].
Qed.
Lemma notify_all_spec ps s : ∃ l, foldl (λ s p, notify_default p s) s ps = set_engine (m_current s) (m_log s ++ l) s ∧ answers_of l = [].
Proof.
  revert s. induction ps as [|p ps IH]; intros s; [exists []; by rewrite app_nil_r, set_engine_id|]. cbn [foldl].
  destruct (notify_default_spec p s) as (l & -> & Hl). destruct (IH (set_engine (m_current s) (m_log s ++ l) s)) as (l' & -> & Hl').
  exists (l ++ l'). cbn. rewrite app_assoc. split; [done|]. unfold answers_of in *. by rewrite omap_app, Hl, Hl'.
Qed.
Lemma set_engine_post ex l s : core s → answers_of l = [] → post ex s (set_engine (m_current s) (m_log s ++ l) s).
Proof.
  intros H Hl. apply post_same; try done. apply answered_refl; [done|]. unfold answers at 1. cbn [set_engine m_log].
  by rewrite answers_app, Hl, app_nil_r.
Qed.

Section service.
Context (ntop : bool → list Z → option (list Z)) (default_dns v4_first : bool) (Hntop : ntop_ok ntop).
#[local] Abbreviation notify := (OnNotifyDataCallList ntop default_dns v4_first).
#[local] Abbreviation complete := (OnSetupDataCallComplete ntop default_dns v4_first).
#[local] Abbreviation failed := (setup_failed ntop default_dns v4_first).

(** the list the framework is told *)
Definition data_call_list (s : Ps) : list Response :=
  list_entry ntop default_dns v4_first <$> take (Z.to_nat MAX_DATA_CALL_SIZE) (connected s).
Lemma connected_wf s : core s → Forall (λ p, call_wf (m_dataCall p)) (connected s).
Proof.
  intros H. apply Forall_forall. intros p [_ Hp]%list_elem_of_filter. apply list_elem_of_lookup in Hp as [i Hp]. eapply po_call, c_ctx; done.
Qed.
Lemma OnNotifyDataCallList_spec s : core s →
  ∃ l, notify s = Ok (set_engine (m_current s) (m_log s ++ l ++ [DataCallList (data_call_list s)]) s) ∧ answers_of l = [].
Proof.
  intros H. unfold OnNotifyDataCallList. cbv zeta. destruct (notify_all_spec (ctxs s) s) as (l & -> & Hl).
  change (connected (set_engine _ _ s)) with (connected s).
  rewrite BuildDataCallList_spec by (done || by apply connected_wf). cbn [mbind res_bind]. exists l. split; [|done].
  unfold emit. cbn. by rewrite <- app_assoc.
Qed.
Lemma OnNotifyDataCallList_post ex s : core s → ∃ s', notify s = Ok s' ∧ post ex s s' ∧
  (∃ l, s' = set_engine (m_current s) l s).
Proof.
  intros H. destruct (OnNotifyDataCallList_spec s H) as (l & -> & Hl). eexists. split; [done|]. split; [|by eexists].
  apply set_engine_post; [done|]. unfold answers_of in *. by rewrite omap_app, Hl.
Qed.

(** ** The end of a setup *)

Lemma timer_post ex i p s : core s → ctxs s !! i = Some p → post ex s (SetRSRATimeoutTimer (m_cid p) s).
Proof.
  intros H Hp. unfold SetRSRATimeoutTimer. destruct (bool_decide _); [by apply post_refl|].
  destruct H as [H1 H2 H3 H4 H5]. split; [split; try done|done| |by left].
  - intros c Hc. cbn in Hc. apply elem_of_cons in Hc as [->|Hc]; [|by apply H5]. apply list_elem_of_fmap. exists p. split; [done|]. by eapply list_elem_of_lookup_2.
  - intros j q q' _ Hq Hq'. cbn in Hq'. rewrite Hq in Hq'. injection Hq' as ->. apply may_refl.
Qed.
Lemma OnRequestDeactContext_post ex p r s : core s → post ex s (OnRequestDeactContext p r s).
Proof. intros H. unfold OnRequestDeactContext. destruct (_ || _); [by apply emit_post|by apply post_refl]. Qed.
Lemma OnRequestDeactContext_answers p r s : answers (OnRequestDeactContext p r s) = answers s.
Proof.
  unfold OnRequestDeactContext. destruct (_ || _); [|done]. unfold answers at 1. cbn [emit m_log set_engine]. rewrite answers_app. apply app_nil_r.
Qed.
Lemma OnRequestDeactContext_same p r s : ctxs (OnRequestDeactContext p r s) = ctxs s ∧ act (OnRequestDeactContext p r s) = act s
  ∧ deact (OnRequestDeactContext p r s) = deact s ∧ m_current (OnRequestDeactContext p r s) = m_current s.
Proof. unfold OnRequestDeactContext. by destruct (_ || _). Qed.

(** the context a setup ends with, if any, is the only one being set up *)
Definition ends (pc : option nat) (s : Ps) : Prop :=
  (∀ i, pc = Some i → (i < length (ctxs s))%nat ∧ (act s = Some i ∨ act s = None)) ∧ (pc = None → calm s).
Record ended (s s' : Ps) : Prop := {
  e_act : act s' = None; e_deact : deact s' = deact s; e_current : m_current s' = None; e_calm : calm s'
}.
(** the answer says success only if the context has a call whose link is up *)
Definition failed_answer (e : Z) (pc : option nat) (s s' : Ps) : Prop :=
  ∀ k, m_current s = Some k → ∃ r, answers s' = answers s ++ [(k, RIL_E_SUCCESS, Calls [r])] ∧
    (r_status r = PDP_FAIL_NONE → e = 0 ∧ ∃ i p, pc = Some i ∧ ctxs s !! i = Some p ∧ GetActive p = ACTIVE_AND_LINKUP).
Record failed_post (e : Z) (pc : option nat) (s s' : Ps) : Prop := {
  f_post : post None s s';
  f_ended : ended s s';
  f_answer : failed_answer e pc s s';
  f_gone : ∀ i p, pc = Some i → ctxs s' !! i = Some p → m_state p = PDP_CONTEXT_DISCONNECTED;
  f_others : ∀ j, pc ≠ Some j → ctxs s' !! j = ctxs s !! j
}.
(** the request is answered with [r], perhaps the modem is asked to take the call down *)
Lemma answer_failure r (b : bool) p x s : core s →
  let s' := if b then OnRequestDeactContext p x (OnRequestComplete RIL_E_SUCCESS (Calls [r]) s) else OnRequestComplete RIL_E_SUCCESS (Calls [r]) s in
  post None s s' ∧ ctxs s' = ctxs s ∧ act s' = act s ∧ deact s' = deact s ∧ m_current s' = None ∧
  (∀ k, m_current s = Some k → answers s' = answers s ++ [(k, RIL_E_SUCCESS, Calls [r])]).
Proof.
  intros H. cbv zeta. set (s1 := OnRequestComplete _ _ s). assert (post None s s1) as P1 by by apply OnRequestComplete_post.
  destruct (OnRequestComplete_same RIL_E_SUCCESS (Calls [r]) s) as (E1 & E2 & E3 & _). fold s1 in E1, E2, E3.
  pose proof (OnRequestComplete_current RIL_E_SUCCESS (Calls [r]) s) as E4. fold s1 in E4.
  pose proof (OnRequestComplete_answer RIL_E_SUCCESS (Calls [r]) s) as E5. fold s1 in E5.
  destruct b; [|by split_and!]. destruct (OnRequestDeactContext_same p x s1) as (F1 & F2 & F3 & F4).
  rewrite F1, F2, F3, F4, OnRequestDeactContext_answers. split_and!; try done.
  eapply post_trans; [exact P1|]. apply OnRequestDeactContext_post, P1.
Qed.
Lemma failed_none e s : core s → calm s → ∃ s', failed e None s = Ok s' ∧ failed_post e None s s'.
Proof.
  intros H Hc. unfold setup_failed. cbn [mbind res_bind SetupResponse]. eexists. split; [reflexivity|].
  destruct (answer_failure (ErrorResponse e) false (newPdpContext 0 None 0) 0 s H) as (P & Ec & Ea & Ed & Ecur & Ean). cbn [negb] in *.
  set (s1 := OnRequestComplete _ _ s) in *. assert (calm s1) as Hc1 by (intros j q; rewrite Ec; by apply Hc).
  split; [eapply post_trans; [exact P|apply clear_activating; [apply P|done]]|by split| |done|by intros j _; exact (f_equal (.!! j) Ec)].
  intros k Hk. eexists. split; [by apply Ean|]. cbn. unfold GetDataCallFailCause, PDP_FAIL_NONE, PDP_FAIL_ERROR_UNSPECIFIED.
  destruct (Z.ltb_spec e 0); [lia|]. by destruct (negb (e =? 0)).
Qed.
Lemma failed_some e i s : core s → (i < length (ctxs s))%nat → (act s = Some i ∨ act s = None) →
  ∃ s', failed e (Some i) s = Ok s' ∧ failed_post e (Some i) s s'.
Proof.
  intros H Hi Ha. destruct (context_ok i s Hi) as (p & Hp & Ep). unfold setup_failed. rewrite Ep. cbn [mbind res_bind].
  pose proof (c_ctx _ H _ _ Hp) as Hok.
  destruct (SetupResponse_spec ntop default_dns v4_first Hntop e p (po_call _ _ _ _ Hok)) as (r & -> & _ & Hr & _). cbn [mbind res_bind].
  eexists. split; [reflexivity|]. cbv zeta. match goal with |- context [if ?b then OnRequestDeactContext p ?x ?y else _] =>
    destruct (answer_failure r b p x s H) as (P & Ec & Eact & Ed & Ecur & Ean); set (s2 := if b then OnRequestDeactContext p x y else _) in * end.
  assert (post None s (upd i OnDeactivated s2)) as P2 by (eapply post_trans; [exact P|apply deactivate_post, P]).
  assert (∀ q, ctxs (upd i OnDeactivated s2) !! i = Some q → m_state q = PDP_CONTEXT_DISCONNECTED) as Hgone.
  { intros q. rewrite upd_lookup, decide_True, Ec, Hp by done. by intros [= <-]. }
  assert (∀ j, j ≠ i → ctxs (upd i OnDeactivated s2) !! j = ctxs s !! j) as Hoth by (intros j Hj; by rewrite upd_lookup, decide_False, Ec by congruence).
  assert (calm (upd i OnDeactivated s2)) as Hcalm.
  { eapply calm_after; [exact H|exact P2|exact Ha|..].
    - intros j q q' Hj Hq. rewrite Hoth, Hq by done. by intros [= <-].
    - intros q Hq%Hgone. unfold busy. rewrite Hq. by intros [?|?]. }
  split; [eapply post_trans; [exact P2|apply clear_activating; [apply P2|done]]|by split| |intros j q [= <-]; apply Hgone|].
  - intros k Hk. exists r. split; [by apply Ean|]. intros (He & _ & Hl)%Hr. split; [done|]. by exists i, p.
  - intros j Hj. apply Hoth. congruence.
Qed.
Lemma setup_failed_spec e pc s : core s → ends pc s → ∃ s', failed e pc s = Ok s' ∧ failed_post e pc s s'.
Proof.
  intros H [Hs Hn]. destruct pc as [i|]; [|by apply failed_none; [|apply Hn]]. destruct (Hs i eq_refl). by apply failed_some.
Qed.

(** the setup waits for the router advertisement, or it has ended *)
Definition waits (e : Z) (pc : option nat) (s : Ps) : Prop :=
  e = 0 ∧ ∃ i p, pc = Some i ∧ ctxs s !! i = Some p ∧ m_state p = PDP_CONTEXT_IPV6_CONFIGURING.
Definition honest_end (e : Z) (pc : option nat) (s s' : Ps) : Prop :=
  ∀ k, m_current s = Some k → ∃ r, answers s' = answers s ++ [(k, RIL_E_SUCCESS, Calls [r])] ∧
    (r_status r = PDP_FAIL_NONE → e = 0 ∧ ∃ i p, pc = Some i ∧ ctxs s !! i = Some p ∧ GetActive p = ACTIVE_AND_LINKUP ∧
       (m_state p = PDP_CONTEXT_CONNECTED → ctxs s' !! i = Some p ∧ r = list_entry ntop default_dns v4_first p)).
(** the context the setup ended with is connected, or was disconnected; the others are as they were *)
Definition settles (pc : option nat) (s s' : Ps) : Prop :=
  (∀ i p, pc = Some i → ctxs s' !! i = Some p → m_state p = PDP_CONTEXT_DISCONNECTED ∨ (m_state p = PDP_CONTEXT_CONNECTED ∧ ctxs s !! i = Some p)) ∧
  (∀ j, pc ≠ Some j → ctxs s' !! j = ctxs s !! j).
Record complete_post (e : Z) (pc : option nat) (s s' : Ps) : Prop := {
  k_post : post None s s'; k_ended : ended s s'; k_answer : honest_end e pc s s'; k_settles : settles pc s s'
}.
Lemma failed_complete e pc s s' : (∀ i p, pc = Some i → ctxs s !! i = Some p → e = 0 → m_state p = PDP_CONTEXT_CONNECTED → GetActive p ≠ ACTIVE_AND_LINKUP) →
  failed_post e pc s s' → complete_post e pc s s'.
Proof.
  intros Hl [P En An Go Ot]. split; [done|done| |split; [|done]].
  - intros k Hk. destruct (An k Hk) as (r & Hr & Hst). exists r. split; [done|]. intros (He & i & p & Hpc & Hp & Ha)%Hst.
    split; [done|]. exists i, p. split_and!; try done. intros Hc. by destruct (Hl i p Hpc Hp He Hc).
  - intros i p Hpc Hp. left. by eapply Go.
Qed.

(** the setup succeeded: the answer, the data call list, and no context is pointed to any more *)
Lemma succeed i p r s : core s → ctxs s !! i = Some p → m_state p = PDP_CONTEXT_CONNECTED → (act s = Some i ∨ act s = None) →
  (r_status r = PDP_FAIL_NONE → r = list_entry ntop default_dns v4_first p) → GetActive p = ACTIVE_AND_LINKUP →
  ∃ s', (s ← notify (OnRequestComplete RIL_E_SUCCESS (Calls [r]) (notify_default p s)); Ok (set_activating None s)) = Ok s' ∧
    complete_post 0 (Some i) s s'.
Proof.
  intros H Hp Hst Ha Hr Hl. destruct (notify_default_spec p s) as (l & -> & Hnl). set (s1 := set_engine _ _ s).
  assert (post None s s1) as P1 by by apply set_engine_post.
  assert (answers s1 = answers s) as An1 by (unfold s1, answers at 1; cbn [set_engine m_log]; by rewrite answers_app, Hnl, app_nil_r).
  set (s2 := OnRequestComplete _ _ s1). assert (post None s1 s2) as P2 by (apply OnRequestComplete_post, P1).
  destruct (OnRequestComplete_same RIL_E_SUCCESS (Calls [r]) s1) as (E1 & E2 & E3 & _). fold s2 in E1, E2, E3.
  pose proof (OnRequestComplete_current RIL_E_SUCCESS (Calls [r]) s1) as E4. fold s2 in E4.
  destruct (OnNotifyDataCallList_spec s2 (q_core _ _ _ P2)) as (l' & -> & Hl'). cbn [mbind res_bind]. eexists. split; [reflexivity|].
  set (s3 := set_engine _ _ s2). assert (answers_of (l' ++ [DataCallList (data_call_list s2)]) = []) as Hl3 by (unfold answers_of in *; by rewrite omap_app, Hl').
  assert (post None s2 s3) as P3 by (apply set_engine_post; [apply P2|done]).
  assert (post None s s3) as P by (eapply post_trans; [eapply post_trans|]; done).
  assert (ctxs s3 = ctxs s) as Ec by exact E1.
  assert (calm s3) as Hc.
  { eapply calm_after; [exact H|exact P|exact Ha|..].
    - intros j q q' _ Hq. rewrite Ec, Hq. by intros [= <-].
    - intros q. rewrite Ec, Hp. intros [= <-]. unfold busy. rewrite Hst. by intros [?|?]. }
  split; [eapply post_trans; [exact P|by apply clear_activating; [apply P|]]|split; try done; exact E3|..].
  - intros k Hk. exists r. split.
    + unfold answers at 1. cbn [set_activating set_pointers m_log s3 set_engine]. rewrite answers_app, Hl3, app_nil_r.
      unfold s2. rewrite (OnRequestComplete_answer _ _ s1 k Hk). by rewrite An1.
    + intros ->%Hr. split; [done|]. exists i, p. by rewrite <- Ec in Hp |- *.
  - split; [|intros j _; exact (f_equal (.!! j) Ec)]. intros j q [= <-] Hq. right. change (ctxs s3 !! i = Some q) in Hq.
    rewrite Ec, Hp in Hq. injection Hq as <-. done.
Qed.
Lemma complete_spec e pc s : core s → ends pc s → ∃ s', complete e pc s = Ok s' ∧
  ((waits e pc s ∧ post None s s' ∧ ctxs s' = ctxs s ∧ act s' = act s ∧ deact s' = deact s ∧ m_current s' = m_current s ∧ answers s' = answers s)
   ∨ (¬ waits e pc s ∧ complete_post e pc s s')).
Proof.
  intros H He. unfold OnSetupDataCallComplete. destruct pc as [i|].
  2: { destruct (setup_failed_spec e None s H He) as (s' & -> & F). exists s'. split; [done|]. right. split; [by intros (_ & ? & ? & ? & _)|]. by apply failed_complete. }
  destruct He as [Hs Hn]. destruct (Hs i eq_refl) as [Hi Ha]. destruct (context_ok i s Hi) as (p & Hp & ->). cbn [mbind res_bind].
  destruct (failed_some e i s H Hi Ha) as (s' & Ef & F).
  destruct (Z.eqb_spec e RIL_E_SUCCESS) as [->|Hne]; cbn [negb].
  2: { exists s'. split; [done|]. right. split; [by intros [? _]|]. eapply failed_complete; [|done]. intros ???? ->. by destruct Hne. }
  destruct (Z.eqb_spec (m_state p) PDP_CONTEXT_IPV6_CONFIGURING) as [Hw|Hw].
  - eexists. split; [reflexivity|]. left. split; [split; [done|by exists i, p]|]. split; [by eapply timer_post|].
    unfold SetRSRATimeoutTimer. by destruct (bool_decide _).
  - assert (¬ waits RIL_E_SUCCESS (Some i) s) as Hnw.
    { intros (_ & j & q & Hj & Hjq & Hst). injection Hj as <-. rewrite Hp in Hjq. by injection Hjq as <-. }
    destruct (_ && _) eqn:E.
    + apply andb_true_iff in E as [Hst Hl]. apply Z.eqb_eq in Hst, Hl.
      destruct (SetupResponse_spec ntop default_dns v4_first Hntop RIL_E_SUCCESS p (po_call _ _ _ _ (c_ctx _ H _ _ Hp))) as (r & -> & _ & _ & Hr).
      cbn [mbind res_bind]. destruct (succeed i p r s H Hp Hst Ha Hr Hl) as (s1 & E1 & K). cbv zeta. rewrite E1. exists s1. split; [done|]. by right.
    + exists s'. split; [done|]. right. split; [done|]. eapply failed_complete; [|done]. intros j q Hj Hjq _ Hst Hl.
      injection Hj as <-. rewrite Hp in Hjq. injection Hjq as <-. by rewrite Hst, Hl in E.
Qed.

(** ** Between requests *)

Definition settled (s : Ps) : Prop :=
  match m_current s with
  | Some SETUP => act s ≠ None ∧ deact s = None
  | Some DEACT => act s = None ∧ deact s ≠ None
  | _ => act s = None ∧ deact s = None
  end.
Definition wf (s : Ps) : Prop := core s ∧ settled s.

(** an answer that reports success reports a context that is connected *)
Definition honest (s s' : Ps) : Prop :=
  ∀ res r, answers s' = answers s ++ [(SETUP, res, Calls [r])] → r_status r = PDP_FAIL_NONE →
    ∃ i p, ctxs s' !! i = Some p ∧ m_state p = PDP_CONTEXT_CONNECTED ∧ r = list_entry ntop default_dns v4_first p.
Lemma honest_none s s' : answers s' = answers s → honest s s'.
Proof. intros E res r H. rewrite E in H. apply (f_equal length) in H. rewrite length_app in H. cbn in H. lia. Qed.
Lemma honest_answer s s' k res d : answers s' = answers s ++ [(k, res, d)] → (∀ r, k = SETUP → d = Calls [r] → r_status r ≠ PDP_FAIL_NONE) → honest s s'.
Proof. intros E Hd res' r H Hr. rewrite E in H. apply app_inv_head in H. injection H as -> -> ->. by destruct (Hd r eq_refl eq_refl). Qed.
Lemma honest_complete e pc s s' k : m_current s = Some k → complete_post e pc s s' →
  (∀ i p, pc = Some i → ctxs s !! i = Some p → e = 0 → GetActive p = ACTIVE_AND_LINKUP → m_state p = PDP_CONTEXT_CONNECTED) → honest s s'.
Proof.
  intros Hk K Hc res r Han Hr. destruct (k_answer _ _ _ _ K k Hk) as (x & Hx & Hst). rewrite Hx in Han. apply app_inv_head in Han.
  injection Han as _ _ ->. destruct (Hst Hr) as (He & i & p & Hpc & Hp & Ha & Hin). pose proof (Hc i p Hpc Hp He Ha) as Hcon.
  destruct (Hin Hcon) as [Hp' ->]. by exists i, p.
Qed.
Lemma honest_from s s1 s' : answers s1 = answers s → honest s1 s' → honest s s'.
Proof. unfold honest. by intros ->. Qed.

Lemma ended_settled s s' : ended s s' → deact s = None → settled s'.
Proof. intros [Ha Hd Hc _] Hn. unfold settled. by rewrite Hc, Ha, Hd. Qed.

(** changes of the setting and the profile of a context *)
Definition meta (f : PdpContext → PdpContext) : Prop :=
  ∀ p, m_cid (f p) = m_cid p ∧ m_state (f p) = m_state p ∧ m_dataCall (f p) = m_dataCall p ∧ m_szIfname (f p) = m_szIfname p.
Lemma pdp_ok_meta a d i p q : m_cid q = m_cid p → m_state q = m_state p → m_dataCall q = m_dataCall p → pdp_ok a d i p → pdp_ok a d i q.
Proof.
  intros Ec Es Ed [H1 H2 H3 H4 H5 H6 H7 H8]. split; unfold live, busy, GetActive in *; rewrite ?Ec, ?Es, ?Ed; done.
Qed.
Lemma meta_post ex i f s : core s → meta f → post ex s (upd i f s).
Proof.
  intros H Hf. destruct (ctxs s !! i) as [p|] eqn:E.
  - destruct (Hf p) as (Ec & Es & Ed & _). eapply upd_post; [done..| |right; left; done]. by eapply pdp_ok_meta; [..|eapply c_ctx].
  - assert (ctxs (upd i f s) = ctxs s) as Es.
    { apply list_eq. intros j. rewrite upd_lookup. destruct (decide (i = j)) as [<-|]; [by rewrite E|done]. }
    by apply post_same; [done|done|..|left].
Qed.
Lemma meta_states i f s j p : meta f → ctxs s !! j = Some p → ∃ q, ctxs (upd i f s) !! j = Some q ∧ m_state q = m_state p ∧ m_cid q = m_cid p ∧ m_dataCall q = m_dataCall p.
Proof.
  intros Hf Hp. rewrite upd_lookup, Hp. destruct (decide (i = j)); [|by exists p]. exists (f p). by destruct (Hf p) as (? & ? & ? & ?).
Qed.
Lemma SetApn_meta a : meta (SetApnSetting a).
Proof. done. Qed.
Lemma SetProfile_meta n a : meta (SetDataProfileId n ∘ SetApnSetting a).
Proof. done. Qed.
Lemma attach_context_meta b : meta (attach_context b).
Proof. intros p. unfold attach_context. destruct (m_pApnSetting p); [|done]. by destruct (_ && _ && _). Qed.

(** only settings and profiles changed *)
Definition only_meta (s s' : Ps) : Prop :=
  s' = set_pdps (ctxs s') s ∧ post None s s' ∧
  (∀ j p', ctxs s' !! j = Some p' → ∃ p, ctxs s !! j = Some p ∧ m_state p' = m_state p ∧ m_cid p' = m_cid p ∧ m_dataCall p' = m_dataCall p).
Lemma only_meta_refl s : core s → only_meta s s.
Proof. intros H. split; [by destruct s|]. split; [by apply post_refl|]. intros j p ?. by exists p. Qed.
Lemma only_meta_upd i f s : core s → meta f → only_meta s (upd i f s).
Proof.
  intros H Hf. split; [done|]. split; [by apply meta_post|]. intros j q. rewrite upd_lookup. destruct (decide (i = j)); [|by exists q].
  destruct (ctxs s !! j) as [p|]; [|done]. intros [= <-]. exists p. by destruct (Hf p) as (? & ? & ? & ?).
Qed.
Lemma only_meta_calm s s' : only_meta s s' → calm s → calm s'.
Proof. intros (_ & _ & Hm) Hc j q Hq. destruct (Hm j q Hq) as (p & Hp & E & _). unfold busy. rewrite E. by eapply Hc. Qed.

Lemma list_find_lt {A} (P : A → Prop) `{∀ x, Decision (P x)} (l : list A) i x : list_find P l = Some (i, x) → l !! i = Some x ∧ (i < length l)%nat.
Proof. intros (E & _ & _)%list_find_Some. split; [done|]. by eapply lookup_lt_Some. Qed.
Lemma GetAvailablePdpContext_spec a n s : core s → ∃ pc s', GetAvailablePdpContext a n s = (pc, s') ∧ only_meta s s' ∧
  (∀ i, pc = Some i → (i < length (ctxs s'))%nat).
Proof.
  intros H. unfold GetAvailablePdpContext.
  destruct (list_find _ (ctxs s)) as [[i p]|] eqn:E.
  - apply list_find_lt in E as [_ Hi]. eexists _, _. split; [reflexivity|].
    destruct (bool_decide _); (split; [first [by apply only_meta_refl | by apply only_meta_upd]|]); intros j [= <-]; [done|].
    cbn. by rewrite length_alter.
  - destruct (list_find (λ p, negb (m_cid p =? m_nAttachCid s) && IsAvailable p) (ctxs s)) as [[i p]|] eqn:E2.
    + apply list_find_lt in E2 as [_ Hi]. eexists _, _. split; [reflexivity|]. split; [by apply only_meta_upd|]. intros j [= <-].
      cbn. by rewrite length_alter.
    + eexists _, _. split; [reflexivity|]. split; [by apply only_meta_refl|done].
Qed.

(** ** Requests *)

(** what a handler that runs for request [k] leaves behind; [started] is the context it gave a new state of its own *)
Record handled (ex : option nat) (s s' : Ps) : Prop := {
  h_post : post ex s s'; h_settled : settled s'; h_honest : honest s s'
}.
Definition fresh (k : Kind) (s : Ps) : Prop := core s ∧ m_current s = Some k ∧ act s = None ∧ deact s = None.
Lemma fresh_calm k s : fresh k s → calm s ∧ none_leaving s.
Proof.
  intros (H & _ & Ha & Hd). split; intros i p Hp Hb.
  - apply (po_busy _ _ _ _ (c_ctx _ H _ _ Hp)) in Hb. congruence.
  - apply (po_leaving _ _ _ _ (c_ctx _ H _ _ Hp)) in Hb. congruence.
Qed.
Lemma handled_trans s s1 s' : post None s s1 → answers s1 = answers s → handled None s1 s' → handled None s s'.
Proof. intros P E [P' S Ho]. split; [by eapply post_trans|done|by eapply honest_from]. Qed.
(** ending the request at once *)
Lemma handled_complete r d s : core s → act s = None → deact s = None →
  (∀ x, d = Calls [x] → r_status x = PDP_FAIL_NONE → ∃ i p, ctxs s !! i = Some p ∧ m_state p = PDP_CONTEXT_CONNECTED ∧ x = list_entry ntop default_dns v4_first p) →
  handled None s (OnRequestComplete r d s).
Proof.
  intros H Ha Hd Hx. destruct (OnRequestComplete_same r d s) as (E1 & E2 & E3 & _). split; [by apply OnRequestComplete_post| |].
  - unfold settled. by rewrite OnRequestComplete_current, E2, E3.
  - destruct (m_current s) as [k|] eqn:Ek; [|apply honest_none; unfold OnRequestComplete; by rewrite Ek].
    intros res x Han Hr. rewrite (OnRequestComplete_answer _ _ _ k Ek) in Han. apply app_inv_head in Han. injection Han as _ _ ->.
    rewrite E1. by apply Hx.
Qed.
Lemma handled_fail e pc s : e ≠ 0 → core s → deact s = None → m_current s ≠ None → ends pc s →
  ∃ s', complete e pc s = Ok s' ∧ handled None s s'.
Proof.
  intros He H Hd Hc Hends. destruct (complete_spec e pc s H Hends) as (s' & -> & [[[? _] _]|[_ K]]); [done|].
  exists s'. split; [done|]. split; [apply K|by eapply ended_settled; [apply K|]|].
  destruct (m_current s) as [k|] eqn:Ek; [|done]. eapply honest_complete; [exact Ek|exact K|]. by intros.
Qed.
Lemma calm_ends pc k s : fresh k s → (∀ i, pc = Some i → (i < length (ctxs s))%nat) → ends pc s.
Proof. intros Hf Hi. split; [|by intros; eapply fresh_calm]. intros i Hpc. split; [by apply Hi|]. right. apply Hf. Qed.
Lemma fresh_meta k s s' : fresh k s → only_meta s s' → fresh k s'.
Proof. intros (H & Hk & Ha & Hd) (E & P & _). rewrite E in *. split; [apply P|done]. Qed.
Lemma fresh_emit k s o : fresh k s → fresh k (emit o s).
Proof. intros (H & Hk & Ha & Hd). split; [by eapply core_same|done]. Qed.
Lemma pdp_fail_status st r : Calls [PdpFailResponse st] = Calls [r] → r_status r = st.
Proof. by intros [= <-]. Qed.

(** the context whose setup was sent *)
Definition started (ex : option nat) (s s' : Ps) : Prop :=
  ∀ i, ex = Some i → ∃ p p', ctxs s !! i = Some p ∧ m_state p = PDP_CONTEXT_DISCONNECTED ∧
    ctxs s' !! i = Some p' ∧ m_state p' = PDP_CONTEXT_CONNECTING ∧ act s' = Some i.
Lemma handled_none s s' : handled None s s' → ∃ ex, handled ex s s' ∧ started ex s s'.
Proof. intros H. by exists None. Qed.
Lemma SetState_connecting p : SetState PDP_CONTEXT_CONNECTING p = set_pdp (m_pApnSetting p) (m_dataProfileId p) PDP_CONTEXT_CONNECTING (m_dataCall p) (m_pNetIfController p) p.
Proof. done. Qed.

(** a context moves to a state of its own and is pointed to, while no other is on its way *)
Lemma repoint_core a d i f p s : core s → calm s → none_leaving s → ctxs s !! i = Some p → m_cid (f p) = m_cid p →
  pdp_ok a d i (f p) → (∀ j, a = Some j → j = i) → (∀ j, d = Some j → j = i) → core (set_pointers a d (upd i f s)).
Proof.
  intros H Hcalm Hleave Hp Hc Hok Ha Hd.
  assert (cids (upd i f s) = cids s) as Ec by (apply upd_cids; intros q Hq; rewrite Hp in Hq; by injection Hq as <-).
  assert ((i < length (ctxs (upd i f s)))%nat) as Hi by (rewrite (cids_length _ _ Ec); by eapply lookup_lt_Some).
  destruct H as [H1 H2 H3 H4 H5]. split.
  - change (NoDup (cids (upd i f s))). by rewrite Ec.
  - intros j q. change (ctxs (set_pointers a d (upd i f s))) with (ctxs (upd i f s)). rewrite upd_lookup. destruct (decide (i = j)) as [<-|Hne].
    + rewrite Hp. by intros [= <-].
    + intros Hq. destruct (H2 j q Hq) as [P1 P2 P3 P4 P5 P6 _ _]. split; try done; intros Hb; [by destruct (Hcalm j q Hq)|by destruct (Hleave j q Hq)].
  - intros j Hj%Ha. by subst.
  - intros j Hj%Hd. by subst.
  - intros c Hin. change (c ∈ cids (upd i f s)). rewrite Ec. by apply H5.
Qed.
Lemma repoint_post a d i f p s : core (set_pointers a d (upd i f s)) → ctxs s !! i = Some p → m_cid (f p) = m_cid p →
  post (Some i) s (set_pointers a d (upd i f s)).
Proof.
  intros H Hp Hc. split; [done| | |by left].
  - change (cids (upd i f s) = cids s). apply upd_cids. intros q Hq. rewrite Hp in Hq. by injection Hq as <-.
  - intros j q q' Hj Hq. change (ctxs (set_pointers a d (upd i f s))) with (ctxs (upd i f s)).
    rewrite upd_lookup, decide_False, Hq by congruence. intros [= <-]. apply may_refl.
Qed.
Lemma lookup_repoint a d i f s p : ctxs s !! i = Some p → ctxs (set_pointers a d (upd i f s)) !! i = Some (f p).
Proof. intros Hp. change (ctxs (set_pointers a d (upd i f s))) with (ctxs (upd i f s)). by rewrite upd_lookup, decide_True, Hp. Qed.

Ltac state_ok := split; unfold live, busy, GetActive, ACTIVE_AND_LINKUP, INACTIVE, PDP_CONTEXT_DISCONNECTED, PDP_CONTEXT_CONNECTING,
  PDP_CONTEXT_CONNECTED, PDP_CONTEXT_IPV6_CONFIGURING, PDP_CONTEXT_DISCONNECTING in *; cbn in *; try done; try lia; try (intros; lia); auto.
(** the packet is sent: the context is connecting and pointed to *)
Lemma start_setup i p s : fresh SETUP s → ctxs s !! i = Some p → m_state p = PDP_CONTEXT_DISCONNECTED →
  let s' := set_activating (Some i) (upd i (SetState PDP_CONTEXT_CONNECTING) s) in handled (Some i) s s' ∧ started (Some i) s s'.
Proof.
  intros Hf Hp Hst. pose proof Hf as (H & Hk & Ha & Hd). destruct (fresh_calm _ _ Hf) as [Hcalm Hleave]. cbv zeta.
  unfold set_activating. change (deact (upd _ _ _)) with (deact s). rewrite Hd.
  assert (pdp_ok (Some i) None i (SetState PDP_CONTEXT_CONNECTING p)) as Hok.
  { destruct (c_ctx _ H _ _ Hp) as [P1 P2 P3 P4 P5 P6 P7 P8]. rewrite SetState_connecting. state_ok. }
  split; [split|].
  - eapply repoint_post; [|exact Hp|done]. eapply repoint_core; try done. by intros j [= <-].
  - unfold settled. cbn. by rewrite Hk.
  - by apply honest_none.
  - intros j [= <-]. exists p, (SetState PDP_CONTEXT_CONNECTING p). rewrite (lookup_repoint _ _ _ _ _ _ Hp). by split_and!.
Qed.
(** the packet is sent: the context is disconnecting and pointed to *)
Definition stopped (cid : Z) (ex : option nat) (s s' : Ps) : Prop :=
  ∀ i, ex = Some i → ∃ p p', ctxs s !! i = Some p ∧ m_cid p = cid ∧ m_state p = PDP_CONTEXT_CONNECTED ∧
    ctxs s' !! i = Some p' ∧ m_state p' = PDP_CONTEXT_DISCONNECTING ∧ deact s' = Some i.
Lemma stop_call i p s : fresh DEACT s → ctxs s !! i = Some p → m_state p = PDP_CONTEXT_CONNECTED →
  let s' := set_deactivating (Some i) (upd i (SetState PDP_CONTEXT_DISCONNECTING) s) in handled (Some i) s s' ∧ stopped (m_cid p) (Some i) s s'.
Proof.
  intros Hf Hp Hst. pose proof Hf as (H & Hk & Ha & Hd). destruct (fresh_calm _ _ Hf) as [Hcalm Hleave]. cbv zeta.
  unfold set_deactivating. change (act (upd _ _ _)) with (act s). rewrite Ha.
  assert (SetState PDP_CONTEXT_DISCONNECTING p = set_pdp (m_pApnSetting p) (m_dataProfileId p) PDP_CONTEXT_DISCONNECTING (m_dataCall p) (m_pNetIfController p) p) as Es by done.
  assert (pdp_ok None (Some i) i (SetState PDP_CONTEXT_DISCONNECTING p)) as Hok.
  { destruct (c_ctx _ H _ _ Hp) as [P1 P2 P3 P4 P5 P6 P7 P8]. rewrite Es. state_ok. }
  split; [split|].
  - eapply repoint_post; [|exact Hp|done]. eapply repoint_core; try done. by intros j [= <-].
  - unfold settled. cbn. by rewrite Hk.
  - by apply honest_none.
  - intros j [= <-]. exists p, (SetState PDP_CONTEXT_DISCONNECTING p). rewrite (lookup_repoint _ _ _ _ _ _ Hp). by split_and!.
Qed.

Lemma fresh_end k s r d : fresh k s → (∀ x, d = Calls [x] → r_status x ≠ PDP_FAIL_NONE) → handled None s (OnRequestComplete r d s).
Proof. intros (H & _ & Ha & Hd) Hx. apply handled_complete; try done. intros x E Hn. by destruct (Hx x E). Qed.
Lemma fresh_pdp_fail k s st : fresh k s → st ≠ PDP_FAIL_NONE → handled None s (OnSetupDataCallCompletePdpFail st s).
Proof. intros Hf Hst. eapply fresh_end; [exact Hf|]. intros x E. by rewrite (pdp_fail_status _ _ E). Qed.
Lemma fresh_fail e pc k s : e ≠ 0 → fresh k s → (∀ i, pc = Some i → (i < length (ctxs s))%nat) → ∃ s', complete e pc s = Ok s' ∧ handled None s s'.
Proof.
  intros He Hf Hi. pose proof Hf as (H & Hk & Ha & Hd). apply handled_fail; try done; [congruence|by eapply calm_ends].
Qed.
Lemma only_meta_handled ex s s1 s' : only_meta s s1 → handled ex s1 s' ∧ started ex s1 s' → handled ex s s' ∧ started ex s s'.
Proof.
  intros (Es & P & Hm) [[P' S Ho] St]. split.
  - split; [eapply post_trans; [by apply post_any|done]|done|]. eapply honest_from; [|done]. by rewrite Es.
  - intros i Hi. destruct (St i Hi) as (q & q' & Hq & Hst & Hr). destruct (Hm i q Hq) as (p & Hp & E & _). exists p, q'. by rewrite <- E.
Qed.
Lemma emit_handled ex o s s' : core s → answers_of [o] = [] → handled ex (emit o s) s' ∧ started ex (emit o s) s' → handled ex s s' ∧ started ex s s'.
Proof.
  intros H Ho [[P S Hn] St]. split; [split|done]; [eapply post_trans; [by apply emit_post|done]|done|].
  eapply honest_from; [|done]. unfold answers at 1. cbn [emit m_log set_engine]. by rewrite answers_app, Ho, app_nil_r.
Qed.

Lemma setup_available_spec e q i s : fresh SETUP s → (∃ p, ctxs s !! i = Some p ∧ m_state p = PDP_CONTEXT_DISCONNECTED) →
  ∃ s' ex, setup_available ntop default_dns v4_first e q i s = Ok s' ∧ handled ex s s' ∧ started ex s s'.
Proof.
  intros Hf (p & Hp & Hst). pose proof Hf as (H & Hk & Ha & Hd). unfold setup_available. rewrite (context_eq _ _ _ Hp). cbn [mbind res_bind].
  destruct (_ =? RADIO_STATE_UNAVAILABLE); [eexists _, None; split; [done|]; split; [eapply fresh_pdp_fail; [exact Hf|done]|done]|].
  destruct (_ =? RADIO_STATE_OFF); [eexists _, None; split; [done|]; split; [eapply fresh_pdp_fail; [exact Hf|done]|done]|].
  destruct (m_pApnSetting p) as [a|] eqn:Eapn.
  2: { destruct (fresh_fail RIL_E_GENERIC_FAILURE None SETUP s) as (s' & -> & Hh); [done..|]. by exists s', None. }
  cbv zeta. set (a' := UpdateProtocol _ a). set (s1 := upd i (SetApnSetting (Some a')) s).
  assert (only_meta s s1) as Hm by by apply only_meta_upd. pose proof (fresh_meta _ _ _ Hf Hm) as Hf1.
  destruct (_ && _).
  { eexists _, None. split; [done|]. eapply only_meta_handled; [exact Hm|]. split; [eapply fresh_pdp_fail; [exact Hf1|done]|done]. }
  unfold SendRequest. set (s2 := emit _ s1). pose proof (fresh_emit SETUP s1 (Send (SetupDataCall (q_rat q) (SetApnSetting (Some a') p))) Hf1) as Hf2. fold s2 in Hf2.
  assert (ctxs s2 !! i = Some (SetApnSetting (Some a') p)) as Hp2.
  { change (ctxs s2) with (ctxs s1). unfold s1. by rewrite upd_lookup, decide_True, Hp. }
  destruct (sent e); cbn [Z.ltb].
  - eexists _, (Some i). split; [done|]. eapply only_meta_handled; [exact Hm|]. eapply (emit_handled _ (Send (SetupDataCall (q_rat q) (SetApnSetting (Some a') p)))); [apply Hf1|done|].
    by apply (start_setup i _ s2 Hf2 Hp2).
  - eexists _, None. split; [done|]. eapply only_meta_handled; [exact Hm|]. eapply (emit_handled _ (Send (SetupDataCall (q_rat q) (SetApnSetting (Some a') p)))); [apply Hf1|done|].
    split; [by eapply fresh_end|done].
Qed.
Lemma DoSetupDataCall_spec e q s : fresh SETUP s →
  ∃ s' ex, DoSetupDataCall ntop default_dns v4_first e q s = Ok (0, s') ∧ handled ex s s' ∧ started ex s s'.
Proof.
  intros Hf. unfold DoSetupDataCall. cbv zeta.
  assert (∀ s0, fresh SETUP s0 → ∃ s' ex,
    (let '(pc, s1) := GetAvailablePdpContext (NewInstance (Some (carrier e)) (q_apn q) (q_supportedApnTypesBitmap q) (q_username q) (q_password q)
       (q_protocol q) (q_roaming_protocol q) (q_authType q)) (q_dataProfileId q) s0 in
     s1 ← match pc with
      | None => complete RIL_E_GENERIC_FAILURE None s1
      | Some i => p ← context i s1;
        if IsAvailable p then setup_available ntop default_dns v4_first e q i s1
        else if m_state p =? PDP_CONTEXT_CONNECTED
        then r ← ListResponse ntop default_dns v4_first p; Ok (OnRequestComplete RIL_E_SUCCESS (Calls [r]) s1)
        else complete RIL_E_GENERIC_FAILURE pc s1
      end; Ok (0, s1)) = Ok (0, s') ∧ handled ex s0 s' ∧ started ex s0 s') as Hgo.
  { intros s0 Hf0. destruct (GetAvailablePdpContext_spec (NewInstance (Some (carrier e)) (q_apn q) (q_supportedApnTypesBitmap q) (q_username q) (q_password q)
       (q_protocol q) (q_roaming_protocol q) (q_authType q)) (q_dataProfileId q) s0) as (pc & s1 & -> & Hm & Hlt); [apply Hf0|].
    pose proof (fresh_meta _ _ _ Hf0 Hm) as Hf1. pose proof Hf1 as (H & Hk & Ha & Hd). destruct pc as [i|].
    2: { destruct (fresh_fail RIL_E_GENERIC_FAILURE None SETUP s1) as (s' & -> & Hh); [done..|]. exists s', None. split; [done|].
         by eapply only_meta_handled. }
    destruct (context_ok i s1 (Hlt i eq_refl)) as (p & Hp & ->). cbn [mbind res_bind].
    unfold IsAvailable. destruct (Z.eqb_spec (m_state p) PDP_CONTEXT_DISCONNECTED) as [Hst|Hst].
    { destruct (setup_available_spec e q i s1 Hf1) as (s' & ex & -> & Hh & Hsd); [by exists p|]. exists s', ex. split; [done|]. by eapply only_meta_handled. }
    destruct (Z.eqb_spec (m_state p) PDP_CONTEXT_CONNECTED) as [Hcon|Hcon].
    - rewrite ListResponse_spec by (done || by eapply po_call, c_ctx). cbn [mbind res_bind]. eexists _, None. split; [done|].
      eapply only_meta_handled; [exact Hm|]. split; [|done]. apply handled_complete; try done. intros x [= <-] _. by exists i, p.
    - destruct (fresh_fail RIL_E_GENERIC_FAILURE (Some i) SETUP s1) as (s' & -> & Hh); [done..| |]. { intros j [= <-]. by apply Hlt. }
      exists s', None. split; [done|]. by eapply only_meta_handled. }
  destruct (negb _); [|by apply Hgo]. unfold DoSetDataProfileDirect.
  destruct (Hgo (emit (Send (SetDataProfile (q_apn q))) s)) as (s' & ex & E & Hh); [by apply fresh_emit|].
  exists s', ex. split; [exact E|]. eapply (emit_handled _ (Send (SetDataProfile (q_apn q)))); [apply Hf|done|exact Hh].
Qed.

(** a request the service only passes on to the modem *)
Definition passed_on (k : Kind) : Prop := k ≠ SETUP ∧ k ≠ DEACT.
Lemma fresh_settled k s : fresh k s → passed_on k → settled s.
Proof. intros (_ & Hk & Ha & Hd) [H1 H2]. unfold settled. rewrite Hk. by destruct k. Qed.
Lemma fresh_pending k s : fresh k s → passed_on k → handled None s s.
Proof. intros Hf Hk. split; [apply post_refl, Hf|by eapply fresh_settled|by apply honest_none]. Qed.
Lemma emit_trans s o s' : core s → answers_of [o] = [] → handled None (emit o s) s' → handled None s s'.
Proof. intros H Ho Hh. by apply (emit_handled None o s s' H Ho). Qed.
Lemma send_handled k m e s : fresh k s → passed_on k → handled None s (otherwise RIL_E_GENERIC_FAILURE (SendRequest e m s)).
Proof.
  intros Hf Hk. apply (emit_trans s (Send m)); [apply Hf|done|]. pose proof (fresh_emit k s (Send m) Hf) as Hf'.
  unfold otherwise, SendRequest. destruct (sent e); cbn [fst snd Z.ltb Z.compare]; [by eapply fresh_pending|by eapply fresh_end].
Qed.
Lemma only_meta_trans s s1 s' : only_meta s s1 → handled None s1 s' → handled None s s'.
Proof. intros Hm Hh. by apply (only_meta_handled None s s1 s' Hm). Qed.

Lemma DoSetInitialAttachApn_spec e q s : fresh ATTACH s →
  ∃ t, DoSetInitialAttachApn e q s = Ok t ∧ handled None s (otherwise RIL_E_GENERIC_FAILURE t).
Proof.
  intros Hf. unfold DoSetInitialAttachApn. cbv zeta. destruct (_ && _); [eexists; split; [done|]; by eapply fresh_end|].
  unfold RequestSetInitialAttachApn, SetAttachPdpContext. cbv zeta. destruct (GetAttachPdpContext s) as [i|] eqn:Ei.
  2: { eexists. split; [done|]. by eapply fresh_end. }
  apply GetPdpContext_Some in Ei as (p & Hp & _). set (a := NewInstance _ _ _ _ _ _ _ _). set (n := if _ || _ then _ else _).
  set (s1 := upd i _ s). assert (only_meta s s1) as Hm by by apply only_meta_upd; [apply Hf|].
  pose proof (fresh_meta _ _ _ Hf Hm) as Hf1.
  assert (ctxs s1 !! i = Some (SetDataProfileId n (SetApnSetting (Some a) p))) as Hp1 by (unfold s1; by rewrite upd_lookup, decide_True, Hp).
  rewrite (context_eq _ _ _ Hp1). cbn [mbind res_bind]. unfold SendRequest. set (s0 := upd i (attach_context _) s1).
  assert (only_meta s1 s0) as Hm0 by (apply only_meta_upd; [apply Hf1|apply attach_context_meta]).
  set (o := Send _). pose proof (fresh_meta _ _ _ Hf1 Hm0) as Hf0. pose proof (fresh_emit ATTACH s0 o Hf0) as Hf2.
  destruct (sent e); cbn [Z.ltb Z.compare mbind res_bind]; eexists; (split; [done|]); eapply only_meta_trans; try exact Hm; eapply only_meta_trans; try exact Hm0; apply (emit_trans s0 o); try (apply Hf0); try done.
  - by eapply fresh_pending.
  - assert (only_meta (emit o s0) (upd i (SetApnSetting None) (emit o s0))) as Hm2 by by apply only_meta_upd; [apply Hf2|].
    eapply only_meta_trans; [exact Hm2|]. eapply fresh_end; [by eapply fresh_meta|done].
Qed.
Lemma send_profiles_spec l s : ∃ n l', send_profiles l s = (n, set_engine (m_current s) (m_log s ++ l') s) ∧ answers_of l' = [].
Proof.
  revert s. induction l as [|[[apn persistent] written] l IH]; intros s; [exists 0, []; by rewrite app_nil_r, set_engine_id|]. cbn [send_profiles].
  destruct persistent; [|apply IH]. cbv zeta. destruct written; [|by eexists _, [_]].
  destruct (IH (emit (Send (SetDataProfile apn)) s)) as (n & l' & -> & Hl'). exists n, (Send (SetDataProfile apn) :: l').
  cbn. rewrite <- app_assoc. by split.
Qed.
Lemma quiet_trans s l s' : core s → answers_of l = [] → handled None (set_engine (m_current s) (m_log s ++ l) s) s' → handled None s s'.
Proof.
  intros H Hl Hh. eapply handled_trans; [by apply set_engine_post| |exact Hh]. unfold answers at 1. cbn [set_engine m_log].
  by rewrite answers_app, Hl, app_nil_r.
Qed.
Lemma DoSetDataProfile_spec l s : fresh PROFILE s → handled None s (otherwise RIL_E_GENERIC_FAILURE (DoSetDataProfile l s)).
Proof.
  intros Hf. unfold DoSetDataProfile. destruct (send_profiles_spec l s) as (n & l' & -> & Hl').
  assert (fresh PROFILE (set_engine (m_current s) (m_log s ++ l') s)) as Hf'.
  { destruct Hf as (H & Hk & Ha & Hd). split; [by eapply core_same|done]. }
  apply (quiet_trans s l'); [apply Hf|done|]. destruct (n <? 0); by eapply fresh_end.
Qed.
Lemma DoDeactDataCall_spec e cid reason s : fresh DEACT s →
  ∃ t ex, DoDeactDataCall e cid reason s = Ok t ∧ handled ex s (otherwise RIL_E_GENERIC_FAILURE t) ∧ stopped cid ex s (otherwise RIL_E_GENERIC_FAILURE t).
Proof.
  intros Hf. unfold DoDeactDataCall. destruct (GetPdpContext cid s) as [i|] eqn:Ei; [|eexists _, None; split; [done|]; split; [by eapply fresh_end|done]].
  apply GetPdpContext_Some in Ei as (p & Hp & <-). rewrite (context_eq _ _ _ Hp). cbn [mbind res_bind].
  destruct (Z.eqb_spec (m_state p) PDP_CONTEXT_CONNECTED) as [Hst|]; cbn [negb]; [|eexists _, None; split; [done|]; split; [by eapply fresh_end|done]].
  unfold SendRequest. set (o := Send _). pose proof (fresh_emit DEACT s o Hf) as Hf1. destruct (sent e); cbn [Z.ltb Z.compare].
  - eexists _, (Some i). split; [done|]. destruct (stop_call i p (emit o s) Hf1 Hp Hst) as [[P S Hn] St]. split; [|done].
    split; [eapply post_trans; [apply (emit_post _ o); [apply Hf|done]|done]|done|]. eapply honest_from; [|exact Hn].
    unfold answers at 1. cbn [emit m_log set_engine]. rewrite answers_app. apply app_nil_r.
  - eexists _, None. split; [done|]. split; [|done]. apply (emit_trans s o); [apply Hf|done|]. by eapply fresh_end.
Qed.

Lemma OnHandleRequest_spec e r s : fresh (kind_of r) s →
  ∃ t ex, OnHandleRequest ntop default_dns v4_first e r s = Ok t ∧ handled ex s (otherwise RIL_E_GENERIC_FAILURE t) ∧
    (ex ≠ None → match r with RSetup _ => started ex s (otherwise RIL_E_GENERIC_FAILURE t)
                          | RDeact cid _ => stopped cid ex s (otherwise RIL_E_GENERIC_FAILURE t) | _ => False end).
Proof.
  intros Hf. destruct r as [q|cid reason| |q|q|l| |h|n]; cbn [OnHandleRequest kind_of] in *.
  - destruct (DoSetupDataCall_spec e q s Hf) as (s' & ex & -> & Hh & Hst). by exists (0, s'), ex.
  - destruct (DoDeactDataCall_spec e cid reason s Hf) as (t & ex & -> & Hh & Hst). by exists t, ex.
  - eexists _, None. split; [done|]. split; [by eapply send_handled|done].
  - destruct (DoSetInitialAttachApn_spec e q s Hf) as (t & -> & Hh). by exists t, None.
  - unfold DoRefreshInitialAttachApn. destruct (DoSetInitialAttachApn_spec e q s Hf) as (t & -> & Hh). by exists t, None.
  - eexists _, None. split; [done|]. split; [by apply DoSetDataProfile_spec|done].
  - eexists _, None. split; [done|]. split; [by eapply send_handled|done].
  - eexists _, None. split; [done|]. split; [by eapply send_handled|done].
  - eexists _, None. split; [done|]. split; [|done]. unfold DoSetPreferredDataModem.
    destruct (_ || _); [by eapply fresh_end|by eapply send_handled].
Qed.

(** ** Answers of the modem *)

(** an answer to a setup is for the context being set up, which is not connected yet *)
Definition setup_answer_ok (s : Ps) (e : Z) (dc : DataCall) : Prop :=
  e = RIL_E_SUCCESS → call_wf dc ∧ 0 <= dc_active dc <= ACTIVE ∧
    ∃ i p, act s = Some i ∧ ctxs s !! i = Some p ∧ dc_cid dc = m_cid p ∧ ¬ live p.
Definition pending (k : Kind) (s : Ps) : Prop := wf s ∧ m_current s = Some k.
Lemma pending_setup s : pending SETUP s → core s ∧ (∃ i, act s = Some i) ∧ deact s = None.
Proof.
  intros [[H S] Hk]. unfold settled in S. rewrite Hk in S. destruct S as [Ha Hd]. split; [done|]. split; [|done].
  destruct (act s) as [i|]; [by exists i|done].
Qed.
Lemma pending_deact s : pending DEACT s → core s ∧ (∃ i, deact s = Some i) ∧ act s = None.
Proof.
  intros [[H S] Hk]. unfold settled in S. rewrite Hk in S. destruct S as [Ha Hd]. split; [done|]. split; [|done].
  destruct (deact s) as [i|]; [by exists i|done].
Qed.
Lemma act_ends i s : core s → act s = Some i → ends (Some i) s.
Proof. intros H Ha. split; [|done]. intros j [= <-]. split; [by apply (c_act _ H)|by left]. Qed.

(** a setup that ends, or waits for its prefix *)
Lemma complete_handled e i s : core s → m_current s = Some SETUP → act s = Some i → deact s = None →
  (∀ p, ctxs s !! i = Some p → e = 0 → GetActive p = ACTIVE_AND_LINKUP → live p) →
  ∃ s', complete e (Some i) s = Ok s' ∧ handled None s s'.
Proof.
  intros H Hk Ha Hd Hl. destruct (complete_spec e (Some i) s H (act_ends i s H Ha)) as (s' & -> & [(Hw & P & Ec & Ea & Ed & Ek & An)|[Hw K]]);
    exists s'; (split; [done|]).
  - split; [done| |by apply honest_none]. unfold settled. rewrite Ek, Hk, Ea, Ed, Ha, Hd. done.
  - split; [apply K|by eapply ended_settled; [apply K|]|]. eapply honest_complete; [exact Hk|exact K|].
    intros j p [= <-] Hp He Hl'. destruct (Hl p Hp He Hl') as [?|Hw']; [done|]. destruct Hw. split; [done|]. by exists i, p.
Qed.
Lemma SetFastDormancy_handled ex e s s' : handled ex s s' → handled ex s (DoSetFastDormancy e s').
Proof.
  intros [P S Hn]. unfold DoSetFastDormancy. cbv zeta. set (o := Send _).
  assert (answers (emit o s') = answers s') as Ea by (unfold answers at 1; cbn [emit m_log set_engine]; rewrite answers_app; apply app_nil_r).
  split; [eapply post_trans; [exact P|apply (emit_post _ o); [apply P|done]]|done|]. intros res r Han. rewrite Ea in Han. by eapply Hn.
Qed.

Lemma activated_ok link dc a d i p : pdp_ok a d i p → m_cid p = dc_cid dc → 1 <= dc_active dc <= 2 → call_wf dc → a = Some i → m_state p ≠ PDP_CONTEXT_DISCONNECTING →
  let p' := (OnActivated link (Some dc) p).2 in
  pdp_ok a d i p' ∧ m_cid p' = m_cid p ∧ (GetActive p' = ACTIVE_AND_LINKUP → live p') ∧ (m_state p' = m_state p ∨ live p').
Proof.
  intros [P1 P2 P3 P4 P5 P6 P7 P8] Hc Ha Hw Hact Hst. cbv zeta.
  destruct (OnActivated_spec link dc p Hc Ha Hw P3) as (E1 & _ & _ & E2 & E3 & E4 & E5).
  set (p' := (OnActivated link (Some dc) p).2) in *. unfold PDP_CONTEXT_DISCONNECTED, PDP_CONTEXT_IPV6_CONFIGURING in P2.
  assert (m_state p' = m_state p ∨ live p') as Hs by (unfold live; tauto).
  split; [|split; [done|split; [|done]]].
  - split; rewrite ?E1; try done.
    + destruct Hs as [->|[->| ->]]; unfold PDP_CONTEXT_DISCONNECTED, PDP_CONTEXT_IPV6_CONFIGURING, PDP_CONTEXT_CONNECTED; lia.
    + unfold ACTIVE_AND_LINKUP. lia.
    + intros _. unfold INACTIVE. lia.
    + intros Hd. destruct Hs as [Hs|[Hs|Hs]]; rewrite Hs in Hd; [by apply P8|discriminate Hd..].
  - intros Hl. destruct E5 as [[_ E5]|[E5|E5]]; [|by left|by right]. rewrite E5 in Hl. discriminate Hl.
Qed.
Lemma inactive_ok dc a d i p : pdp_ok a d i p → m_cid p = dc_cid dc → dc_active dc = 0 → call_wf dc → ¬ live p →
  let p' := (UpdateDataCallInfo (Some dc) p).2 in pdp_ok a d i p' ∧ m_cid p' = m_cid p ∧ GetActive p' = 0.
Proof.
  intros [P1 P2 P3 P4 P5 P6 P7 P8] Hc Ha Hw Hl. cbv zeta.
  destruct (UpdateDataCallInfo_eq dc p Hc) as (Ea & Em & _). destruct (UpdateDataCallInfo_state (Some dc) p) as (Es & Ec & _).
  pose proof (UpdateDataCallInfo_wf dc p Hw P3 Hc) as Hw'.
  assert (reported_active dc p = 0) as E0 by (unfold reported_active; rewrite Ha; by rewrite andb_false_r). rewrite E0 in Ea.
  split; [|by split]. split; unfold live, busy, GetActive, ACTIVE_AND_LINKUP in *; rewrite ?Ec, ?Es, ?Ea; try done.
Qed.
(** the setup's own context is changed, and the setup ends or waits *)
Lemma done_context ex f i p s : pending SETUP s → act s = Some i → ctxs s !! i = Some p → m_cid (f p) = m_cid p →
  pdp_ok (act s) (deact s) i (f p) → (GetActive (f p) = ACTIVE_AND_LINKUP → live (f p)) → (ex = Some i ∨ may (m_state p) (m_state (f p))) →
  ∃ s', complete RIL_E_SUCCESS (Some i) (upd i f s) = Ok s' ∧ handled ex s s'.
Proof.
  intros Hpd Ha Hp Hc Hok Hl Hex. pose proof Hpd as [_ Hk]. destruct (pending_setup s Hpd) as (H & _ & Hd).
  assert (post ex s (upd i f s)) as P by by eapply upd_post.
  destruct (complete_handled RIL_E_SUCCESS i (upd i f s) (q_core _ _ _ P) Hk Ha Hd) as (s' & E & Hh).
  - intros q Hq _. rewrite upd_lookup, decide_True, Hp in Hq by done. injection Hq as <-. done.
  - exists s'. split; [done|]. destruct Hh as [P' S Hn]. split; [eapply post_trans; [exact P|by apply post_any]|done|done].
Qed.
Lemma OnSetupDataCallDone_spec e errorCode dc s : pending SETUP s → setup_answer_ok s errorCode dc →
  ∃ s', OnSetupDataCallDone ntop default_dns v4_first e errorCode dc s = Ok (0, s') ∧ handled (act s) s s'.
Proof.
  intros Hpd Hok. pose proof Hpd as [_ Hk]. destruct (pending_setup s Hpd) as (H & [i Ha] & Hd). unfold OnSetupDataCallDone.
  destruct (Z.eqb_spec errorCode RIL_E_SUCCESS) as [He|He].
  - destruct (Hok He) as (Hw & Hact & j & p & Hj & Hp & Hc & Hl). rewrite Ha in Hj. injection Hj as <-. cbv zeta.
    rewrite Hc, (GetPdpContext_self s i p H Hp). pose proof (c_ctx _ H _ _ Hp) as Hpok.
    unfold ACTIVE in *. destruct (Z.eqb_spec (dc_active dc) 1) as [E1|E1]; cbn [with_context mbind res_bind].
    + assert (m_state p ≠ PDP_CONTEXT_DISCONNECTING) as Hnd by (intros Hs%(po_leaving _ _ _ _ Hpok); congruence).
      destruct (activated_ok (link e) dc (act s) (deact s) i p) as (Q1 & Q2 & Q3 & _); [done|by symmetry|lia|done..|].
      destruct (done_context (Some i) (λ p, (OnActivated (link e) (Some dc) p).2) i p s) as (s' & -> & Hh); [done..|by left|].
      exists (DoSetFastDormancy e s'). split; [done|]. rewrite Ha. by apply SetFastDormancy_handled.
    + destruct (inactive_ok dc (act s) (deact s) i p) as (Q1 & Q2 & Q3); [done|by symmetry|lia|done..|].
      destruct (done_context (Some i) (λ p, (UpdateDataCallInfo (Some dc) p).2) i p s) as (s' & -> & Hh); [done..| |by left|].
      { rewrite Q3. intros ?. discriminate. }
      exists (DoSetFastDormancy e s'). split; [done|]. rewrite Ha. by apply SetFastDormancy_handled.
  - cbn [mbind res_bind]. rewrite Ha. destruct (complete_handled errorCode i s H Hk Ha Hd) as (s' & -> & Hh); [by intros ???%He|].
    exists (DoSetFastDormancy e s'). split; [done|]. apply SetFastDormancy_handled. destruct Hh as [P S Hn]. split; [by apply post_any|done|done].
Qed.

(** a context that gives up version 6 is connected *)
Lemma connected_ok f i p s : core s → deact s = None → ctxs s !! i = Some p → live p → call_wf (m_dataCall (f p)) →
  m_cid (f p) = m_cid p → m_state (f p) = PDP_CONTEXT_CONNECTED → GetActive (f p) = GetActive p → dc_cid (m_dataCall (f p)) = dc_cid (m_dataCall p) →
  pdp_ok (act s) (deact s) i (f p).
Proof.
  intros H Hd Hp Hl Hw Hc Hs Ha Hm. destruct (c_ctx _ H _ _ Hp) as [P1 P2 P3 P4 P5 P6 P7 P8].
  split; unfold live, busy in *; rewrite ?Hc, ?Hs, ?Ha, ?Hm; try done.
  - by intros _; apply P6.
  - by intros [?|?].
Qed.
Lemma without_ipv6_wf d t v6 : call_wf d → address_wf 16 v6 → call_wf (set_addresses t (ipv4 d) v6 d).
Proof. by intros (H4 & H6 & Hn) Hv. Qed.
Lemma settle_setup f i p s : pending SETUP s → act s = Some i → ctxs s !! i = Some p → m_state p = PDP_CONTEXT_IPV6_CONFIGURING →
  call_wf (m_dataCall (f p)) → m_cid (f p) = m_cid p → m_state (f p) = PDP_CONTEXT_CONNECTED → GetActive (f p) = GetActive p →
  dc_cid (m_dataCall (f p)) = dc_cid (m_dataCall p) →
  ∃ s', complete RIL_E_SUCCESS (Some i) (upd i f s) = Ok s' ∧ handled None s s'.
Proof.
  intros Hpd Ha Hp Hst Hw Hc Hs Hact Hm. pose proof Hpd as [_ Hk]. destruct (pending_setup s Hpd) as (H & _ & Hd).
  assert (post None s (upd i f s)) as P.
  { eapply upd_post; [done..| |]; [by apply connected_ok; try done; right|]. right. unfold may. rewrite Hst, Hs. auto. }
  destruct (complete_handled RIL_E_SUCCESS i (upd i f s) (q_core _ _ _ P) Hk Ha Hd) as (s' & E & Hh).
  - intros q Hq _ _. rewrite upd_lookup, decide_True, Hp in Hq by done. injection Hq as <-. by left.
  - exists s'. split; [done|]. by eapply handled_trans.
Qed.
Lemma OnSetupDataCallTimeout_spec s : pending SETUP s → ∃ s', OnSetupDataCallTimeout ntop default_dns v4_first s = Ok (0, s') ∧ handled None s s'.
Proof.
  intros Hpd. pose proof Hpd as [_ Hk]. destruct (pending_setup s Hpd) as (H & [i Ha] & Hd). unfold OnSetupDataCallTimeout. rewrite Ha.
  destruct (context_ok i s (c_act _ H i Ha)) as (p & Hp & ->). cbn [mbind res_bind].
  destruct (_ && _) eqn:E.
  - apply andb_true_iff in E as [Hst%Z.eqb_eq _].
    destruct (settle_setup drop_ipv6 i p s) as (s' & -> & Hh); try done; [|by exists s'].
    apply without_ipv6_wf; [eapply po_call, c_ctx; done|by_eval].
  - destruct (complete_handled RIL_E_GENERIC_FAILURE i s H Hk Ha Hd) as (s' & -> & Hh); [by intros|by exists s'].
Qed.

(** ** The end of a deactivation *)

Lemma leaving_after i s s' : core s → post None s s' → deact s = Some i →
  (∀ j p p', j ≠ i → ctxs s !! j = Some p → ctxs s' !! j = Some p' → m_state p' = m_state p) →
  (∀ p, ctxs s' !! i = Some p → m_state p ≠ PDP_CONTEXT_DISCONNECTING) → none_leaving s'.
Proof.
  intros H Hp Hd Hsame Hi j p' Hj Hb. destruct (decide (j = i)) as [->|Hne]; [by eapply Hi|].
  destruct (lookup_lt_is_Some_2 (ctxs s) j) as [p Hjp].
  { rewrite <- (cids_length _ _ (q_cids _ _ _ Hp)). by eapply lookup_lt_Some. }
  rewrite (Hsame j p p') in Hb by done. apply (po_leaving _ _ _ _ (c_ctx _ H _ _ Hjp)) in Hb. congruence.
Qed.
Lemma OnDeactDataCallComplete_spec s i : core s → deact s = Some i → act s = None →
  ∃ s', OnDeactDataCallComplete ntop default_dns v4_first (Some i) s = Ok s' ∧ post None s s' ∧ deact s' = None ∧ act s' = None ∧
    m_current s' = None ∧ (∀ k, m_current s = Some k → answers s' = answers s ++ [(k, RIL_E_SUCCESS, NoData)]) ∧
    (m_current s = None → answers s' = answers s).
Proof.
  intros H Hd Ha. unfold OnDeactDataCallComplete. destruct (context_ok i s (c_deact _ H i Hd)) as (p & Hp & ->). cbn [mbind res_bind].
  set (s1 := upd i OnDeactivated s). assert (post None s s1) as P1 by by apply deactivate_post.
  set (s2 := OnRequestComplete RIL_E_SUCCESS NoData s1). assert (post None s1 s2) as P2 by apply OnRequestComplete_post, P1.
  destruct (OnRequestComplete_same RIL_E_SUCCESS NoData s1) as (E1 & E2 & E3 & _). fold s2 in E1, E2, E3.
  destruct (OnNotifyDataCallList_spec s2 (q_core _ _ _ P2)) as (l & -> & Hl). cbn [mbind res_bind]. eexists. split; [reflexivity|].
  set (s3 := set_engine _ _ s2). assert (answers_of (l ++ [DataCallList (data_call_list s2)]) = []) as Hl3 by (unfold answers_of in *; by rewrite omap_app, Hl).
  assert (post None s s3) as P by (eapply post_trans; [eapply post_trans; [exact P1|exact P2]|apply set_engine_post; [apply P2|done]]).
  assert (answers s3 = answers s2) as An3.
  { unfold answers at 1. cbn [s3 set_engine m_log]. by rewrite answers_app, Hl3, app_nil_r. }
  split; [|split; [done|split; [by transitivity (act s1)|split; [apply OnRequestComplete_current|split]]]].
  - eapply post_trans; [exact P|apply clear_deactivating; [apply P|]]. eapply (leaving_after i s s3); try done.
    + intros j q q' Hj Hq. change (ctxs s3) with (ctxs s2). rewrite E1. unfold s1. rewrite upd_lookup, decide_False, Hq by congruence. by intros [= <-].
    + intros q. change (ctxs s3) with (ctxs s2). rewrite E1. unfold s1. rewrite upd_lookup, decide_True, Hp by done. by intros [= <-].
  - intros k Hk. change (answers (set_deactivating None s3)) with (answers s3). rewrite An3. exact (OnRequestComplete_answer RIL_E_SUCCESS NoData s1 k Hk).
  - intros Hk. change (answers (set_deactivating None s3)) with (answers s3). rewrite An3. unfold s2, OnRequestComplete.
    change (m_current s1) with (m_current s). by rewrite Hk.
Qed.
Lemma OnDeactDataCallDone_spec s : pending DEACT s → ∃ s', OnDeactDataCallDone ntop default_dns v4_first s = Ok (0, s') ∧ handled None s s'.
Proof.
  intros Hpd. pose proof Hpd as [_ Hk]. destruct (pending_deact s Hpd) as (H & [i Hd] & Ha). unfold OnDeactDataCallDone. rewrite Hd.
  destruct (OnDeactDataCallComplete_spec s i H Hd Ha) as (s' & -> & P & Hd' & Ha' & Hc & An & _). exists s'. split; [done|].
  split; [done|unfold settled; by rewrite Hc|]. eapply honest_answer; [by apply An|done].
Qed.

(** ** Changes of single contexts *)

Lemma for_contexts (I : Ps → Prop) (f : nat → Ps → res Ps) s : I s →
  (∀ i s1, (i < length (ctxs s))%nat → I s1 → ∃ s2, f i s1 = Ok s2 ∧ I s2) → ∃ s', each_context f s = Ok s' ∧ I s'.
Proof.
  intros H0 Hf. unfold each_context.
  destruct (for_up_inv (λ _ s1, I s1) (length (ctxs s)) 0 (λ i, f (Z.to_nat i)) s) as (s' & E & HI); [done| |by exists s'].
  intros i s1 Hi HI. apply Hf; [lia|done].
Qed.
(** contexts are only disconnected, the pointers stay and nothing is answered *)
Record calmer (s s' : Ps) : Prop := {
  m_post : post None s s'; m_act : act s' = act s; m_deact : deact s' = deact s; m_cur : m_current s' = m_current s; m_ans : answers s' = answers s
}.
Lemma calmer_refl s : core s → calmer s s.
Proof. intros H. split; [by apply post_refl|done..]. Qed.
Lemma calmer_trans s s1 s2 : calmer s s1 → calmer s1 s2 → calmer s s2.
Proof. intros [P1 A1 D1 C1 N1] [P2 A2 D2 C2 N2]. split; [by eapply post_trans|congruence..]. Qed.
Lemma calmer_upd i s : core s → calmer s (upd i OnDeactivated s).
Proof. intros H. split; [by apply deactivate_post|done..]. Qed.
Lemma calmer_emit o s : core s → answers_of [o] = [] → calmer s (emit o s).
Proof.
  intros H Ho. split; [by apply emit_post|done..|]. unfold answers at 1. cbn [emit m_log set_engine]. by rewrite answers_app, Ho, app_nil_r.
Qed.
Lemma calmer_settled s s' : calmer s s' → settled s → settled s'.
Proof. intros [_ Ha Hd Hc _]. unfold settled. by rewrite Ha, Hd, Hc. Qed.
Lemma calmer_notify s : core s → ∃ s', notify s = Ok s' ∧ calmer s s'.
Proof.
  intros H. destruct (OnNotifyDataCallList_spec s H) as (l & -> & Hl). eexists. split; [done|].
  assert (answers_of (l ++ [DataCallList (data_call_list s)]) = []) as Hl3 by (unfold answers_of in *; by rewrite omap_app, Hl).
  split; [by apply set_engine_post|done..|]. unfold answers at 1. cbn [set_engine m_log]. by rewrite answers_app, Hl3, app_nil_r.
Qed.
Lemma calmer_handled s s1 s' : calmer s s1 → handled None s1 s' → handled None s s'.
Proof. intros [P _ _ _ N] Hh. by eapply handled_trans. Qed.

Lemma align_spec l s : core s → ∃ s', each_context (align l) s = Ok s' ∧ calmer s s'.
Proof.
  intros H. apply (for_contexts (calmer s)); [by apply calmer_refl|]. intros i s1 Hi Hc.
  assert ((i < length (ctxs s1))%nat) as Hi1 by (rewrite (cids_length s s1); [done|apply Hc]).
  destruct (context_ok i s1 Hi1) as (p & Hp & Ep). unfold align. rewrite Ep. cbn [mbind res_bind].
  destruct (GetDataCallByCid _ _) as [dc|]; [|by exists s1]. eexists. split; [reflexivity|]. cbv zeta.
  match goal with |- context [if ?b then OnRequestDeactDataCall ?c ?r s1 else s1] => set (s2 := if b then OnRequestDeactDataCall c r s1 else s1) end.
  assert (calmer s s2) as Hc2.
  { unfold s2. destruct (_ && _); [|done]. eapply calmer_trans; [exact Hc|]. apply calmer_emit; [apply Hc|done]. }
  destruct (_ || _); [|done]. eapply calmer_trans; [exact Hc2|]. apply calmer_upd, Hc2.
Qed.
Lemma OnGetDataCallListDone_spec e l s : pending GET_LIST s →
  ∃ s', OnGetDataCallListDone ntop default_dns v4_first e l s = Ok (0, s') ∧ handled None s s'.
Proof.
  intros [[H S] Hk]. unfold settled in S. rewrite Hk in S. destruct S as [Ha Hd]. unfold OnGetDataCallListDone.
  destruct (e =? RIL_E_SUCCESS); [|eexists; split; [done|]; by eapply fresh_end].
  destruct (align_spec l s H) as (s1 & -> & Hc). cbn [mbind res_bind]. pose proof Hc as [P Ea Ed Ek En].
  rewrite BuildDataCallList_spec by (done || apply connected_wf, P). cbn [mbind res_bind]. eexists. split; [done|].
  eapply calmer_handled; [exact Hc|]. rewrite Hk in Ek. rewrite Ha in Ea. rewrite Hd in Ed.
  split; [apply OnRequestComplete_post, P| |].
  - destruct (OnRequestComplete_same RIL_E_SUCCESS (Calls (list_entry ntop default_dns v4_first <$> take (Z.to_nat MAX_DATA_CALL_SIZE) (connected s1))) s1) as (_ & E2 & E3 & _).
    unfold settled. by rewrite OnRequestComplete_current, E2, E3.
  - eapply honest_answer; [by apply OnRequestComplete_answer|done].
Qed.

(** ** The router advertisement and its timer *)

Lemma busy_pending s i p : wf s → ctxs s !! i = Some p → m_state p = PDP_CONTEXT_IPV6_CONFIGURING → pending SETUP s ∧ act s = Some i.
Proof.
  intros [H S] Hp Hst. assert (act s = Some i) as Ha by (eapply po_busy; [by eapply c_ctx|by right]). split; [|done]. split; [by split|].
  unfold settled in S. rewrite Ha in S. destruct (m_current s) as [[]|]; by destruct S as [? ?].
Qed.
Lemma add_prefix_ok prefix gateway a d i p : pdp_ok a d i p → 8 <= lenZ prefix → pdp_ok a d i (add_prefix prefix gateway p).
Proof.
  intros [P1 P2 P3 P4 P5 P6 P7 P8] Hl. split; try done. destruct P3 as (H4 & [Ha Hs] & Hn). split; [done|]. split; [|done]. split; [|done].
  cbn. rewrite lenZ_app. unfold lenZ in *. rewrite length_take, length_drop. lia.
Qed.
Lemma OnSetupDataCallIPv6Configured_spec e ifindex index prefix gateway s : wf s → 8 <= lenZ prefix →
  ∃ s', OnSetupDataCallIPv6Configured ntop default_dns v4_first e ifindex index prefix gateway s = Ok s' ∧ handled None s s'.
Proof.
  intros Hwf Hl. pose proof Hwf as [H S]. unfold OnSetupDataCallIPv6Configured.
  assert (handled None s s) as Hid by (split; [by apply post_refl|done|by apply honest_none]).
  destruct (list_find _ _) as [[i p]|] eqn:E; [|by exists s]. apply list_find_lt in E as [Hp _].
  destruct (_ && _) eqn:E; [|by exists s]. apply andb_true_iff in E as [Hst%Z.eqb_eq _].
  destruct (busy_pending s i p Hwf Hp Hst) as [Hpd Ha]. pose proof (c_ctx _ H _ _ Hp) as Hok.
  pose proof (add_prefix_ok prefix gateway _ _ _ _ Hok Hl) as Hok'.
  assert (GetActive p ≠ INACTIVE) as Hact by (apply (po_live _ _ _ _ Hok); by right).
  destruct (activated_ok (link e) (m_dataCall (add_prefix prefix gateway p)) (act s) (deact s) i (add_prefix prefix gateway p)) as (Q1 & Q2 & Q3 & Q4);
    [done|symmetry; by apply (po_mine _ _ _ _ Hok)| |apply Hok'|done| |].
  { pose proof (po_active _ _ _ _ Hok) as Hr. unfold GetActive, INACTIVE, ACTIVE_AND_LINKUP in *. cbn. lia. }
  { cbn. rewrite Hst. done. }
  apply (done_context None (configure (link e) prefix gateway) i p s); try done. right.
  unfold may. change (m_state (add_prefix prefix gateway p)) with (m_state p) in Q4. rewrite Hst in *. destruct Q4 as [Q4|[Q4|Q4]]; [by left|right; right; by right|by left].
Qed.

(** the timer fires while its context still waits, or finds nothing to do *)
Definition timely (s : Ps) (cid : Z) : Prop :=
  cid ∈ map_timer_id s ∧ ∀ i p, ctxs s !! i = Some p → m_cid p = cid →
    m_state p = PDP_CONTEXT_IPV6_CONFIGURING ∨ valid (ipv4 (m_dataCall p)) = true ∨ valid (ipv6 (m_dataCall p)) && link_local (ipv6 (m_dataCall p)) = false.
Lemma ipv4_only_ok a d i p : pdp_ok a d i p → pdp_ok a d i (ipv4_only p).
Proof. intros [P1 P2 P3 P4 P5 P6 P7 P8]. split; try done. Qed.
Lemma calmer_same f i p s : core s → ctxs s !! i = Some p → m_cid (f p) = m_cid p → m_state (f p) = m_state p → pdp_ok (act s) (deact s) i (f p) → calmer s (upd i f s).
Proof. intros H Hp Hc Hs Hok. split; [|done..]. eapply upd_post; try done. right. by left. Qed.
Lemma RSRATimeoutCallback_spec cid s : wf s → timely s cid →
  ∃ s', RSRATimeoutCallback ntop default_dns v4_first cid s = Ok s' ∧ handled None s s'.
Proof.
  intros Hwf [Hin Ht]. pose proof Hwf as [H S]. unfold RSRATimeoutCallback. rewrite (bool_decide_eq_true_2 _ Hin). cbn [negb]. cbv zeta.
  set (s1 := set_timer_ids _ s).
  assert (calmer s s1) as C1.
  { split; [|done..]. apply post_same; try done; [|by left]. intros c Hc. cbn in Hc. by apply list_elem_of_filter in Hc as [_ Hc]. }
  assert (wf s1) as Hwf1 by (split; [apply C1|by apply (calmer_settled s)]). pose proof Hwf1 as [H1 S1].
  assert (handled None s s1) as Hid by (split; [apply C1|done|apply honest_none; apply C1]).
  destruct (negb ((0 <? cid) && (cid <? 9))); [by exists s1|].
  pose proof (c_timers _ H cid Hin) as Hc. apply list_elem_of_fmap in Hc as (p & -> & Hp). apply list_elem_of_lookup in Hp as [i Hp].
  change (ctxs s !! i = Some p) with (ctxs s1 !! i = Some p) in Hp.
  rewrite (GetPdpContext_self s1 i p H1 Hp), (context_eq _ _ _ Hp). cbn [mbind res_bind]. specialize (Ht i p Hp eq_refl).
  destruct (valid _ && link_local _) eqn:El; cbn [negb]; [|by exists s1].
  destruct (valid (ipv4 (m_dataCall p))) eqn:E4; cbn [negb].
  - destruct (Z.eqb_spec (m_state p) PDP_CONTEXT_IPV6_CONFIGURING) as [Hst|_].
    + destruct (busy_pending s1 i p Hwf1 Hp Hst) as [Hpd Ha].
      destruct (settle_setup (SetState PDP_CONTEXT_CONNECTED ∘ ipv4_only) i p s1) as (s' & E & Hh); try done.
      { change (call_wf (m_dataCall (ipv4_only p))). eapply po_call, ipv4_only_ok, c_ctx; done. }
      exists s'. split; [done|]. by eapply calmer_handled.
    + destruct (Z.eqb_spec (m_state p) PDP_CONTEXT_CONNECTED) as [Hst|_]; [|by exists s1].
      assert (calmer s1 (upd i ipv4_only s1)) as C2 by (eapply calmer_same; try done; by eapply ipv4_only_ok, c_ctx).
      destruct (calmer_notify (upd i ipv4_only s1)) as (s' & E & C3); [apply C2|]. exists s'. split; [done|].
      assert (calmer s s') as C by (eapply calmer_trans; [exact C1|by eapply calmer_trans]).
      split; [apply C|by eapply calmer_settled|apply honest_none; apply C].
  - destruct Ht as [Hst|[?|?]]; [|done..]. destruct (busy_pending s1 i p Hwf1 Hp Hst) as [Hpd Ha].
    destruct (complete_handled RIL_E_GENERIC_FAILURE i s1 H1 (proj2 Hpd) Ha) as (s' & E & Hh); [apply (pending_setup s1 Hpd)|done|].
    exists s'. split; [done|]. by eapply calmer_handled.
Qed.

(** ** The list of the modem *)

(** a call as the modem reports it in a list *)
Definition reported_ok (dc : DataCall) : Prop := call_wf dc ∧ 0 <= dc_cid dc <= MAX_DATA_CALL_SIZE * 2.
(** a setup may have failed meanwhile, none succeeded *)
Record listed (s s' : Ps) : Prop := {
  l_post : post None s s'; l_settled : settled s';
  l_answer : answers s' = answers s ∨
    ∃ k res d, answers s' = answers s ++ [(k, res, d)] ∧ (∀ r, d = Calls [r] → r_status r ≠ PDP_FAIL_NONE) ∧ m_current s' = None
}.
Lemma listed_calmer s s' : calmer s s' → settled s → listed s s'.
Proof. intros C S. split; [apply C|by eapply calmer_settled|left; apply C]. Qed.
Lemma listed_trans s s1 s2 : listed s s1 → listed s1 s2 → listed s s2.
Proof.
  intros [P1 S1 A1] [P2 S2 A2]. split; [by eapply post_trans|done|]. destruct A1 as [E1|(k & res & d & E1 & Hr & Hc)]; [by rewrite E1 in A2|].
  right. exists k, res, d. destruct (q_answered _ _ _ P2) as [[Ec Ea]|(k' & ? & ? & Ek & _)]; [|congruence]. by rewrite Ea, Ec.
Qed.
Lemma listed_handled s s' : listed s s' → handled None s s'.
Proof.
  intros [P S A]. split; [done|done|]. destruct A as [E|(k & res & d & E & Hr & _)]; [by apply honest_none|].
  eapply honest_answer; [exact E|]. intros r _. apply Hr.
Qed.
Lemma listed_fail s i : pending SETUP s → act s = Some i → ∃ s', complete RIL_E_GENERIC_FAILURE (Some i) s = Ok s' ∧ listed s s'.
Proof.
  intros Hpd Ha. pose proof Hpd as [_ Hk]. destruct (pending_setup s Hpd) as (H & _ & Hd).
  destruct (complete_spec RIL_E_GENERIC_FAILURE (Some i) s H (act_ends i s H Ha)) as (s' & E & [[[? _] _]|[_ K]]); [done|].
  exists s'. split; [done|]. split; [apply K|by eapply ended_settled; [apply K|]|]. right.
  destruct (k_answer _ _ _ _ K SETUP Hk) as (r & Hr & Hst). exists SETUP, RIL_E_SUCCESS, (Calls [r]).
  split_and!; [done| |apply K]. by intros x [= <-] [? _]%Hst.
Qed.

Lemma live_report_ok dc active a d i p : pdp_ok a d i p → m_cid p = dc_cid dc → call_wf dc → dc_active dc ≠ INACTIVE → 1 <= active <= 2 →
  let p' := (UpdateDataCallInfo (Some dc) (SetActive active p)).2 in pdp_ok a d i p' ∧ m_cid p' = m_cid p ∧ m_state p' = m_state p.
Proof.
  intros [P1 P2 P3 P4 P5 P6 P7 P8] Hc Hw Hact Ha. cbv zeta. rewrite SetActive_eq by lia. set (q := set_call _ p).
  destruct (UpdateDataCallInfo_eq dc q Hc) as (Ea & Em & _). destruct (UpdateDataCallInfo_state (Some dc) q) as (Es & Ec & _).
  pose proof (UpdateDataCallInfo_wf dc q Hw P3 Hc) as Hw'.
  assert (1 <= reported_active dc q <= 2) as Hr.
  { unfold reported_active. change (dc_active (m_dataCall q)) with active. unfold INACTIVE, PH_LINK_DORMANT, PH_LINK_UP in *.
    rewrite (proj2 (Z.eqb_neq active 0)), (proj2 (Z.eqb_neq (dc_active dc) 0)) by lia. cbn [negb andb]. destruct (_ =? _); lia. }
  split; [|done]. rewrite <- Ea in Hr. split; unfold live, busy, GetActive, ACTIVE_AND_LINKUP, INACTIVE in *; rewrite ?Ec, ?Es; try done; lia.
Qed.
Definition told (t t' : list bool * bool * Ps) : Prop := lenZ t'.1.1 = MAX_DATA_CALL_SIZE * 2 + 1 ∧ listed t.2 t'.2.
Lemma inform_spec dc informed b s : reported_ok dc → lenZ informed = MAX_DATA_CALL_SIZE * 2 + 1 → wf s →
  ∃ t, inform ntop default_dns v4_first dc (informed, b, s) = Ok t ∧ told (informed, b, s) t.
Proof.
  intros [Hw Hcid] Hlen [H S]. unfold inform, MAX_DATA_CALL_SIZE in *. rewrite wr_ok by lia. cbn [mbind res_bind].
  assert (∀ b' s', listed s s' → told (informed, b, s) (<[Z.to_nat (dc_cid dc) := true]> informed, b', s')) as Ht.
  { intros b' s' Hl. split; [cbn; by rewrite lenZ_insert|done]. }
  assert (listed s s) as Hid by (by apply listed_calmer; [apply calmer_refl|]).
  destruct (Z.eqb_spec (dc_active dc) INACTIVE) as [Hin|Hact].
  - destruct (GetPdpContext (dc_cid dc) s) as [i|] eqn:Ei; [|by eexists; split; [done|]; apply Ht].
    apply GetPdpContext_Some in Ei as (p & Hp & _). rewrite (context_eq _ _ _ Hp). cbn [mbind res_bind].
    destruct (_ || _); [|by eexists; split; [done|]; apply Ht].
    assert (listed s (upd i OnDeactivated s)) as Hdown by (by apply listed_calmer; [apply calmer_upd|]).
    destruct (act s) as [a|] eqn:Ea; [|by cbn [mbind res_bind]; eexists; split; [done|]; apply Ht].
    destruct (context_ok a s (c_act _ H a Ea)) as (q & Hq & ->). cbn [mbind res_bind].
    destruct (Z.eqb_spec (m_state q) PDP_CONTEXT_IPV6_CONFIGURING) as [Hst|_]; [|by eexists; split; [done|]; apply Ht].
    destruct (busy_pending s a q (conj H S) Hq Hst) as [Hpd _].
    destruct (listed_fail s a Hpd Ea) as (s' & -> & Hl). cbn [mbind res_bind]. eexists. split; [done|]. by apply Ht.
  - cbv zeta. eexists. split; [done|]. apply Ht. apply listed_calmer; [|done].
    destruct (GetPdpContext (dc_cid dc) s) as [i|] eqn:Ei; [|by apply calmer_refl]. cbn [with_context].
    apply GetPdpContext_Some in Ei as (p & Hp & Hc).
    destruct (live_report_ok dc (if dc_active dc =? CP_DATA_CONNECTION_DORMANT then PH_LINK_DORMANT else PH_LINK_UP) (act s) (deact s) i p) as (Q1 & Q2 & Q3); try done.
    { by eapply c_ctx. } { unfold PH_LINK_DORMANT, PH_LINK_UP. destruct (_ =? _); lia. }
    eapply (calmer_same (λ p, (UpdateDataCallInfo (Some dc) (SetActive _ p)).2)); done.
Qed.
Lemma inform_all_spec l informed b s : Forall reported_ok l → lenZ informed = MAX_DATA_CALL_SIZE * 2 + 1 → wf s →
  ∃ t, inform_all ntop default_dns v4_first l (informed, b, s) = Ok t ∧ told (informed, b, s) t.
Proof.
  intros Hl. revert informed b s. induction Hl as [|dc l Hdc Hl IH]; intros informed b s Hlen Hwf; cbn [inform_all].
  - eexists. split; [done|]. split; [done|]. apply listed_calmer; [|apply Hwf]. apply calmer_refl, Hwf.
  - destruct (inform_spec dc informed b s Hdc Hlen Hwf) as ([[informed1 b1] s1] & -> & Hlen1 & L1). cbn [mbind res_bind fst snd] in *.
    destruct (IH informed1 b1 s1 Hlen1) as (t & -> & Hlen2 & L2); [split; [apply L1|apply L1]|]. exists t. split; [done|].
    split; [done|]. by eapply listed_trans.
Qed.
Lemma cleanup_spec informed s : lenZ informed = MAX_DATA_CALL_SIZE * 2 + 1 → core s → ∃ s', each_context (cleanup informed) s = Ok s' ∧ calmer s s'.
Proof.
  intros Hlen H. apply (for_contexts (calmer s)); [by apply calmer_refl|]. intros i s1 Hi Hc.
  assert ((i < length (ctxs s1))%nat) as Hi1 by (rewrite (cids_length s s1); [done|apply Hc]).
  destruct (context_ok i s1 Hi1) as (p & Hp & Ep). unfold cleanup. rewrite Ep. cbn [mbind res_bind].
  pose proof (po_cid _ _ _ _ (c_ctx _ (q_core _ _ _ (m_post _ _ Hc)) _ _ Hp)) as Hcid.
  destruct (rd_ok informed (m_cid p)) as (b & -> & _); [lia|]. cbn [mbind res_bind]. eexists. split; [done|].
  destruct (_ && _); [|done]. eapply calmer_trans; [exact Hc|]. apply calmer_upd, Hc.
Qed.

(** all contexts at once *)
Lemma map_post g s : core s → (∀ i p, ctxs s !! i = Some p → m_cid (g p) = m_cid p ∧ pdp_ok (act s) (deact s) i (g p) ∧ may (m_state p) (m_state (g p))) →
  calmer s (set_pdps (g <$> ctxs s) s).
Proof.
  intros H Hg. set (s' := set_pdps _ s).
  assert (cids s' = cids s) as Ec.
  { unfold cids, s'. cbn [ctxs set_pdps]. rewrite <- list_fmap_compose. apply list_fmap_ext. intros i p Hp. cbn. by apply (Hg i p). }
  split; [|done..]. destruct H as [H1 H2 H3 H4 H5]. split; [split|done| |by left].
  - by rewrite Ec.
  - intros i q Hq. cbn in Hq. rewrite list_lookup_fmap in Hq. destruct (ctxs s !! i) as [p|] eqn:Hp; [|done]. injection Hq as <-. by apply (Hg i p).
  - intros i Hi%H3. by rewrite (cids_length _ _ Ec).
  - intros i Hi%H4. by rewrite (cids_length _ _ Ec).
  - intros c Hin. rewrite Ec. by apply H5.
  - intros i p q _ Hp Hq. cbn in Hq. rewrite list_lookup_fmap, Hp in Hq. injection Hq as <-. by apply (Hg i p).
Qed.
Lemma reset_context_cases b at_ cid p : ∃ q, (q = p ∨ q = OnDeactivated p) ∧ m_cid (reset_context b at_ cid p) = m_cid q ∧
  m_state (reset_context b at_ cid p) = m_state q ∧ m_dataCall (reset_context b at_ cid p) = m_dataCall q ∧ (b = true → q = OnDeactivated p).
Proof.
  unfold reset_context. cbv zeta. destruct (_ && _ && _) eqn:E.
  - exists p. split; [by left|]. apply andb_true_iff in E as [E _]. apply andb_true_iff in E as [_ E]. destruct b; [done|]. cbn [negb orb]. by split_and!.
  - exists (OnDeactivated p). split; [by right|]. by destruct (negb b || negb (m_cid (OnDeactivated p) =? cid)).
Qed.
Lemma ResetPdpContext_spec b s : core s → calmer s (ResetPdpContext b s) ∧
  (b = true → ∀ i p, ctxs (ResetPdpContext b s) !! i = Some p → m_state p = PDP_CONTEXT_DISCONNECTED).
Proof.
  intros H. split.
  - apply map_post; [done|]. intros i p Hp. destruct (reset_context_cases b (m_bIsAttachDone s) (m_nAttachCid s) p) as (q & Hq & Ec & Es & Ed & _).
    pose proof (c_ctx _ H _ _ Hp) as Hok. rewrite Ec, Es. destruct Hq as [->| ->].
    + split; [done|]. split; [|by left]. by eapply pdp_ok_meta.
    + split; [done|]. split; [|by right; left]. eapply pdp_ok_meta; [done..|]. by eapply disconnected_ok.
  - intros -> i p Hp. cbn in Hp. rewrite list_lookup_fmap in Hp. destruct (ctxs s !! i) as [p0|]; [|done]. injection Hp as <-.
    destruct (reset_context_cases true (m_bIsAttachDone s) (m_nAttachCid s) p0) as (q & _ & _ & Es & _ & Hq). by rewrite Es, Hq.
Qed.
Lemma OnDataCallListChanged_spec l s : wf s → Forall reported_ok l → ∃ s', OnDataCallListChanged ntop default_dns v4_first l s = Ok s' ∧ listed s s'.
Proof.
  intros Hwf Hl. unfold OnDataCallListChanged.
  destruct (inform_all_spec l (fill (MAX_DATA_CALL_SIZE * 2 + 1) false) false s) as ([[informed b] s1] & -> & Hlen & L1); [done..|].
  cbn [mbind res_bind fst snd] in *. destruct (cleanup_spec informed s1 Hlen) as (s2 & -> & C2); [apply L1|]. cbn [mbind res_bind]. cbv zeta.
  set (s3 := match l with [] => _ | _ => s2 end).
  assert (calmer s1 s3) as C3.
  { unfold s3. destruct l; [|done]. eapply calmer_trans; [exact C2|]. apply ResetPdpContext_spec, C2. }
  assert (calmer s1 (emit (PdpActive b) s3)) as C4 by (eapply calmer_trans; [exact C3|]; by apply calmer_emit; [apply C3|]).
  destruct (calmer_notify (emit (PdpActive b) s3)) as (s' & -> & C5); [apply C4|]. exists s'. split; [done|].
  eapply listed_trans; [exact L1|]. apply listed_calmer; [|apply L1]. by eapply calmer_trans.
Qed.

(** ** Radio, card and IMSI *)

Lemma OnRadioStateChanged_off r s : core s → (r =? RADIO_STATE_OFF) || (r =? RADIO_STATE_UNAVAILABLE) = true →
  post None s (OnRadioStateChanged r s) ∧ act (OnRadioStateChanged r s) = None ∧ deact (OnRadioStateChanged r s) = None ∧
  m_current (OnRadioStateChanged r s) = m_current s ∧ answers (OnRadioStateChanged r s) = answers s.
Proof.
  intros H Hr. unfold OnRadioStateChanged. rewrite Hr. destruct (ResetPdpContext_spec true (set_attach_done false s)) as [C Hd]; [by eapply core_same|].
  set (s1 := ResetPdpContext true (set_attach_done false s)) in *. pose proof (m_post _ _ C) as P.
  assert (core (set_pointers None None s1)) as Hc.
  { apply set_pointers_core; [apply P| | |done|done]; intros i p Hp.
    - unfold busy. rewrite (Hd eq_refl i p Hp). by intros [?|?].
    - by rewrite (Hd eq_refl i p Hp). }
  split; [|done]. change (post None s (set_pointers None None s1)). eapply post_trans; [|by apply set_pointers_post].
  eapply post_trans; [|exact P]. by apply post_same; [done|done|..|left].
Qed.
Lemma end_stopped_spec r s : core s → (r =? RADIO_STATE_OFF) || (r =? RADIO_STATE_UNAVAILABLE) = true →
  post None s (end_stopped r s) ∧ m_current (end_stopped r s) ≠ Some SETUP ∧ m_current (end_stopped r s) ≠ Some DEACT ∧
  (answers (end_stopped r s) = answers s ∨
   ∃ k, answers (end_stopped r s) = answers s ++ [(k, RIL_E_RADIO_NOT_AVAILABLE, NoData)] ∧ m_current (end_stopped r s) = None).
Proof.
  intros H Hr. unfold end_stopped. destruct (m_current s) as [k|] eqn:Ek; [|split_and!; [by apply post_refl|by rewrite Ek..|by left]].
  destruct ((r =? RADIO_STATE_OFF) && negb (IsPossibleToPassInRadioOffState k) || (r =? RADIO_STATE_UNAVAILABLE)) eqn:Eb.
  - rewrite OnRequestComplete_current. split_and!; [by apply OnRequestComplete_post|done..|]. right. exists k.
    split; [by apply OnRequestComplete_answer|done].
  - split; [by apply post_refl|]. apply orb_false_iff in Eb as [Eb Eu]. rewrite Eu, orb_false_r in Hr. rewrite Hr in Eb.
    rewrite Ek. split_and!; [by destruct k..|by left].
Qed.
Lemma radio_step_spec e r s : wf s → ∃ s', step ntop default_dns v4_first e (EvRadio r) s = Ok s' ∧ listed s s'.
Proof.
  intros [H S]. cbn [step]. cbv zeta. eexists. split; [reflexivity|]. set (s0 := set_device _ _ _ r s).
  assert (calmer s s0) as C0 by (split; [by apply post_same; [done|done|..|left]|done..]).
  eapply listed_trans; [by apply listed_calmer|]. clearbody s0. assert (settled s0) as S0 by by eapply calmer_settled.
  pose proof (q_core _ _ _ (m_post _ _ C0)) as H0.
  destruct ((r =? RADIO_STATE_OFF) || (r =? RADIO_STATE_UNAVAILABLE)) eqn:Er.
  - set (s1 := if negb (r =? m_radio s) then OnRadioStateChanged r s0 else s0).
    assert (post None s0 s1 ∧ answers s1 = answers s0) as (P1 & N1).
    { unfold s1. destruct (negb _); [|by split; [by apply post_refl|]]. by destruct (OnRadioStateChanged_off r s0 H0 Er) as (? & _ & _ & ? & ?). }
    destruct (end_stopped_spec r s1 (q_core _ _ _ P1) Er) as (P2 & Hk1 & Hk2 & An). set (s2 := end_stopped r s1) in *.
    destruct (OnRadioStateChanged_off r s2 (q_core _ _ _ P2) Er) as (P3 & Ea & Ed & Ek & En).
    split; [eapply post_trans; [exact P1|]; by eapply post_trans| |].
    + unfold settled. rewrite Ea, Ed, Ek. by destruct (m_current s2) as [[]|].
    + rewrite En, Ek, <- N1. destruct An as [An|(k & An & Hc)]; [by left|]. right. by exists k, RIL_E_RADIO_NOT_AVAILABLE, NoData.
  - assert (∀ t, OnRadioStateChanged r t = t) as Eq by (intros t; unfold OnRadioStateChanged; by rewrite Er).
    rewrite !Eq. apply orb_false_iff in Er as [E1 E2].
    assert (∀ t, end_stopped r t = t) as Es by (intros t; unfold end_stopped; rewrite E1, E2; by destruct (m_current t)).
    rewrite Es. destruct (negb _); by apply listed_calmer; [apply calmer_refl|].
Qed.

(** the card is removed: what is under way ends *)
Lemma sim_setup s : wf s → ∃ s', match act s with
    | Some i => s ← complete RIL_E_GENERIC_FAILURE (Some i) s; Ok (set_activating None s) | None => Ok s end = Ok s' ∧ listed s s' ∧ act s' = None.
Proof.
  intros [H S]. destruct (act s) as [i|] eqn:Ea; [|exists s; split; [done|]; split; [|done]; by apply listed_calmer; [apply calmer_refl|]].
  assert (pending SETUP s) as Hpd.
  { split; [by split|]. unfold settled in S. rewrite Ea in S. destruct (m_current s) as [[]|]; by destruct S as [? ?]. }
  destruct (complete_spec RIL_E_GENERIC_FAILURE (Some i) s H (act_ends i s H Ea)) as (s' & E & [[[? _] _]|[_ K]]); [done|].
  destruct (listed_fail s i Hpd Ea) as (s1 & E1 & [P Sd An]). rewrite E in E1. injection E1 as <-. rewrite E. cbn [mbind res_bind].
  pose proof (k_ended _ _ _ _ K) as [Ha Hd Hc Hcalm]. eexists. split; [done|]. split; [|done].
  split; [eapply post_trans; [exact P|apply clear_activating; [apply P|done]]|unfold settled; cbn; by rewrite Hc, Hd, (proj2 (proj2 (pending_setup s Hpd)))|done].
Qed.
Lemma sim_deactivation s : wf s → act s = None → ∃ s', match deact s with
    | Some i => s ← OnDeactDataCallComplete ntop default_dns v4_first (Some i) s; Ok (set_deactivating None s) | None => Ok s end = Ok s'
    ∧ listed s s'.
Proof.
  intros [H S] Ha. destruct (deact s) as [i|] eqn:Ed; [|exists s; split; [done|]; by apply listed_calmer; [apply calmer_refl|]].
  destruct (OnDeactDataCallComplete_spec s i H Ed Ha) as (s' & -> & P & Hd' & Ha' & Hc & An & An0). cbn [mbind res_bind]. eexists. split; [done|].
  assert (set_deactivating None s' = s') as -> by (destruct s'; cbn in *; by subst).
  split; [done|unfold settled; by rewrite Hc|]. destruct (m_current s) as [k|]; [|left; by apply An0].
  right. exists k, RIL_E_SUCCESS, NoData. by split; [apply An|].
Qed.
Lemma OnSimStatusChanged_spec c s : wf s → ∃ s', OnSimStatusChanged ntop default_dns v4_first c s = Ok s' ∧ listed s s'.
Proof.
  intros Hwf. unfold OnSimStatusChanged. destruct (c =? RIL_CARDSTATE_ABSENT); [|exists s; split; [done|]; apply listed_calmer; [apply calmer_refl|]; apply Hwf].
  destruct (sim_setup s Hwf) as (s1 & E1 & L1 & Ha1). rewrite E1. cbn [mbind res_bind].
  destruct (sim_deactivation s1) as (s2 & E2 & L2); [split; apply L1|done|]. rewrite E2. cbn [mbind res_bind].
  assert (core (set_attach_done false s2)) as H2 by (eapply core_same; [apply L2|done..]).
  destruct (ResetPdpContext_spec false (set_attach_done false s2) H2) as [C _].
  destruct (calmer_notify (ResetPdpContext false (set_attach_done false s2))) as (s' & -> & C'); [apply C|]. exists s'. split; [done|].
  eapply listed_trans; [exact L1|]. eapply listed_trans; [exact L2|]. apply listed_calmer; [|apply L2].
  eapply calmer_trans; [|exact C']. eapply calmer_trans; [|exact C]. split; [by apply post_same; [apply L2|done|..|left]|done..].
Qed.
Lemma OnImsiUpdated_spec i s : wf s → listed s (OnImsiUpdated i s).
Proof.
  intros [H S]. assert (listed s s) as Hid by by apply listed_calmer; [apply calmer_refl|].
  unfold OnImsiUpdated. destruct i as [t|]; [|done]. destruct (lenZ t <? 5); [done|]. cbv zeta. set (s1 := set_device _ _ _ _ s).
  assert (calmer s s1) as C1 by (split; [by apply post_same; [done|done|..|left]|done..]).
  apply listed_calmer; [|done]. destruct (_ && _); [|done]. destruct (GetAttachPdpContext s1) as [j|]; [|done]. cbn [with_context].
  eapply calmer_trans; [exact C1|]. split; [|done..]. by apply meta_post; [apply C1|].
Qed.

(** ** Every event *)

Definition event_ok (s : Ps) (ev : Event) : Prop :=
  match ev with
  | EvAnswer a => m_current s = Some SETUP → setup_answer_ok s (a_error a) (default zero_call (head (a_calls a)))
  | EvListChanged l => Forall reported_ok l
  | EvIpv6 _ _ prefix _ => 8 <= lenZ prefix
  | EvRsra cid => timely s cid
  | _ => True
  end.
(** the request an event starts *)
Definition accepted (s : Ps) (ev : Event) : list Kind :=
  match ev, m_current s with EvRequest r, None => [kind_of r] | _, _ => [] end.
(** the requests answered so far and the one that is not *)
Definition kinds (s : Ps) : list Kind := (λ x, x.1.1) <$> answers s.
Definition account (s : Ps) : list Kind := kinds s ++ option_list (m_current s).
(** the ways a context goes by a request of the framework and its answer *)
Definition turn (s s' : Ps) (ev : Event) (i : nat) (p p' : PdpContext) : Prop :=
  match ev with
  | EvRequest (RSetup _) => m_state p = PDP_CONTEXT_DISCONNECTED ∧ m_state p' = PDP_CONTEXT_CONNECTING ∧ act s' = Some i
  | EvRequest (RDeact cid _) => m_cid p = cid ∧ m_state p = PDP_CONTEXT_CONNECTED ∧ m_state p' = PDP_CONTEXT_DISCONNECTING ∧ deact s' = Some i
  | EvAnswer _ => m_current s = Some SETUP ∧ act s = Some i
  | _ => False
  end.
Record stepped (ev : Event) (s s' : Ps) : Prop := {
  s_wf : wf s';
  s_cids : cids s' = cids s;
  s_moves : ∀ i p p', ctxs s !! i = Some p → ctxs s' !! i = Some p' → may (m_state p) (m_state p') ∨ turn s s' ev i p p';
  s_account : account s' = account s ++ accepted s ev;
  s_honest : honest s s'
}.
Lemma answered_account s s' : answered s s' → account s' = account s.
Proof.
  unfold account, kinds. intros [[-> ->]|(k & r & d & -> & -> & ->)]; [done|]. rewrite fmap_app. cbn. by rewrite app_nil_r.
Qed.
Lemma handled_stepped ev s s' : accepted s ev = [] → handled None s s' → stepped ev s s'.
Proof.
  intros Ha [P S Hn]. split; [by split; [apply P|]|apply P| |rewrite Ha, app_nil_r; apply answered_account, P|done].
  intros i p p' Hp Hp'. left. by eapply (q_moves _ _ _ P).
Qed.
Lemma otherwise_pending k s r t : pending k s → passed_on k → t.1 < 0 → t.2 = s → listed s (otherwise r t).
Proof.
  intros [[H S] Hk] [H1 H2] Ht Et. unfold otherwise. rewrite (proj2 (Z.ltb_lt _ _) Ht), Et.
  unfold settled in S. rewrite Hk in S. assert (act s = None ∧ deact s = None) as [Ha Hd] by by destruct k.
  destruct (OnRequestComplete_same r NoData s) as (_ & E2 & E3 & _).
  split; [by apply OnRequestComplete_post|unfold settled; by rewrite OnRequestComplete_current, E2, E3|].
  right. exists k, r, NoData. split; [by apply OnRequestComplete_answer|]. split; [done|apply OnRequestComplete_current].
Qed.
Lemma answer_simple k r d s : pending k s → passed_on k → (∀ x, d = Calls [x] → r_status x ≠ PDP_FAIL_NONE) → handled None s (OnRequestComplete r d s).
Proof.
  intros [[H S] Hk] [H1 H2] Hx. unfold settled in S. rewrite Hk in S. assert (act s = None ∧ deact s = None) as [Ha Hd] by by destruct k.
  by apply (fresh_end k).
Qed.
Lemma attach_done_pending k s : pending k s → pending k (set_attach_done true s).
Proof. intros [[H S] Hk]. split; [|done]. split; [by eapply core_same|done]. Qed.
Lemma attach_done_answer k e d s : pending k s → passed_on k → (∀ x, d = Calls [x] → r_status x ≠ PDP_FAIL_NONE) →
  handled None s (OnRequestComplete e d (if e =? RIL_E_SUCCESS then set_attach_done true s else s)).
Proof.
  intros Hp Hk Hd. destruct (e =? RIL_E_SUCCESS); [|by eapply answer_simple].
  eapply (calmer_handled _ (set_attach_done true s)); [split; [by apply post_same; [apply Hp|done|..|left]|done..]|].
  eapply answer_simple; [by apply attach_done_pending|done|done].
Qed.
Lemma OnHandleSolicitedResponse_spec e k a s : pending k s → event_ok s (EvAnswer a) →
  ∃ t ex, OnHandleSolicitedResponse ntop default_dns v4_first e k a s = Ok t ∧ handled ex s (otherwise RIL_E_GENERIC_FAILURE t) ∧
    (∀ i, ex = Some i → k = SETUP ∧ act s = Some i).
Proof.
  intros Hp Hok. pose proof Hp as [_ Hk]. destruct k; cbn [OnHandleSolicitedResponse].
  - destruct (OnSetupDataCallDone_spec e (a_error a) (default zero_call (head (a_calls a))) s Hp (Hok Hk)) as (s' & -> & Hh).
    exists (0, s'), (act s). split; [done|]. by split.
  - destruct (OnDeactDataCallDone_spec s Hp) as (s' & -> & Hh). by exists (0, s'), None.
  - destruct (OnGetDataCallListDone_spec (a_error a) (a_calls a) s Hp) as (s' & -> & Hh). by exists (0, s'), None.
  - eexists _, None. split; [done|]. split; [by eapply attach_done_answer|done].
  - eexists _, None. split; [done|]. split; [by eapply attach_done_answer|done].
  - eexists _, None. split; [done|]. split; [|done]. cbn [otherwise OnStartKeepAliveDone fst snd Z.ltb Z.compare].
    destruct (_ =? _); by eapply answer_simple.
  - eexists _, None. split; [done|]. split; [by eapply answer_simple|done].
  - eexists _, None. split; [done|]. split; [by eapply answer_simple|done].
Qed.
Lemma step_spec e ev s : wf s → event_ok s ev → ∃ s', step ntop default_dns v4_first e ev s = Ok s' ∧ stepped ev s s'.
Proof.
  intros Hwf Hok. pose proof Hwf as [H S]. assert (listed s s) as Hid by by apply listed_calmer; [apply calmer_refl|].
  destruct ev as [r|a| |l|f index prefix gateway|cid|r|c|i].
  - cbn [step]. destruct (m_current s) as [k|] eqn:Ek.
    { exists s. split; [done|]. apply handled_stepped; [cbn; by rewrite Ek|by apply listed_handled]. }
    set (s0 := set_engine (Some (kind_of r)) (m_log s) s).
    assert (fresh (kind_of r) s0) as Hf.
    { unfold settled in S. rewrite Ek in S. split; [by eapply core_same|done]. }
    destruct (OnHandleRequest_spec e r s0 Hf) as (t & ex & -> & [P S' Hn] & Hex). cbn [mbind res_bind]. eexists. split; [done|].
    set (s' := otherwise _ t) in *. split; [by split; [apply P|]|apply P| | |done].
    + intros i p p' Hp Hp'. destruct (decide (ex = Some i)) as [->|Hne]; [|left; by eapply (q_moves _ _ _ P)]. right.
      specialize (Hex ltac:(done)). destruct r; try done; destruct (Hex i eq_refl) as (q1 & q2 & Hq & Hrest).
      all: change (ctxs s !! i = Some q1) in Hq; rewrite Hp in Hq; injection Hq as <-.
      * destruct Hrest as (? & Hq' & ? & ?). rewrite Hp' in Hq'. by injection Hq' as <-.
      * destruct Hrest as (? & ? & Hq' & ? & ?). rewrite Hp' in Hq'. by injection Hq' as <-.
    + rewrite (answered_account _ _ (q_answered _ _ _ P)). unfold account, accepted. rewrite Ek. cbn. by rewrite app_nil_r.
  - cbn [step]. destruct (m_current s) as [k|] eqn:Ek.
    2: { exists s. split; [done|]. apply handled_stepped; [done|by apply listed_handled]. }
    destruct (OnHandleSolicitedResponse_spec e k a s (conj Hwf Ek) Hok) as (t & ex & -> & [P S' Hn] & Hex). cbn [mbind res_bind]. eexists. split; [done|].
    split; [by split; [apply P|]|apply P| |cbn; rewrite app_nil_r; apply answered_account, P|done].
    intros i p p' Hp Hp'. destruct (decide (ex = Some i)) as [->|Hne]; [|left; by eapply (q_moves _ _ _ P)].
    right. destruct (Hex i eq_refl) as [-> ?]. by split.
  - cbn [step]. destruct (m_current s) as [k|] eqn:Ek.
    2: { exists s. split; [done|]. apply handled_stepped; [done|by apply listed_handled]. }
    assert (∃ t, OnHandleRequestTimeout ntop default_dns v4_first k s = Ok t ∧ handled None s (otherwise RIL_E_INTERNAL_ERR t)) as (t & -> & Hh).
    { destruct k; cbn [OnHandleRequestTimeout].
      1: destruct (OnSetupDataCallTimeout_spec s (conj Hwf Ek)) as (s' & -> & Hh); by exists (0, s').
      1: unfold OnDeactDataCallTimeout; destruct (OnDeactDataCallDone_spec s (conj Hwf Ek)) as (s' & E & Hh); unfold OnDeactDataCallDone in E; rewrite E; by exists (0, s').
      all: eexists; split; [done|]; apply listed_handled; eapply otherwise_pending; [by split|done|done|done]. }
    cbn [mbind res_bind]. eexists. split; [done|]. by apply handled_stepped.
  - destruct (OnDataCallListChanged_spec l s Hwf Hok) as (s' & E & L). exists s'. split; [done|]. by apply handled_stepped, listed_handled.
  - destruct (OnSetupDataCallIPv6Configured_spec e f index prefix gateway s Hwf Hok) as (s' & E & Hh). exists s'. split; [done|]. by apply handled_stepped.
  - destruct (RSRATimeoutCallback_spec cid s Hwf Hok) as (s' & E & Hh). exists s'. split; [done|]. by apply handled_stepped.
  - destruct (radio_step_spec e r s Hwf) as (s' & -> & L). exists s'. split; [done|]. by apply handled_stepped, listed_handled.
  - destruct (OnSimStatusChanged_spec c s Hwf) as (s' & E & L). exists s'. split; [done|]. by apply handled_stepped, listed_handled.
  - eexists. split; [done|]. apply handled_stepped; [done|]. by apply listed_handled, OnImsiUpdated_spec.
Qed.
End service.
