(* ===== verification/PsTheorems.v ===== *)
(** What the packet data service of [Ps] guarantees over a run of events, and
    the runs on which it does not do what it is meant to.

    The events of a run are those a modem and a kernel that keep their side
    bring ([event_ok]): an answer to a setup names the context being set up and
    reports it inactive or active, a list names calls by identifiers the table
    of the service has, a prefix has eight octets, and a timer of the router
    advertisement does not outlive the setup it was armed for.  The last section
    shows what happens without them. *)
From S2P Require Import Prelude RilDef Text Pdp PdpTheorems Ps PsProofs.

(** ** Runs *)

(** the interfaces of the product leave the identifiers within the table of the calls *)
Definition param_ok (param : option (list Z * Z * Z)) : Prop :=
  match param with Some (_, ifstart, _) => 0 <= ifstart <= MAX_DATA_CALL_SIZE | None => True end.
Lemma InitPdpContext_wf param : param_ok param → wf (InitPdpContext param).
Proof.
  intros Hp. split; [|by destruct param as [[[? ?] ?]|]].
  assert (∃ prefix start size, ctxs (InitPdpContext param) = (λ i, Init (newPdpContext (i + 1) prefix i)) <$> seqZ start size ∧
    0 <= start <= MAX_DATA_CALL_SIZE ∧ size <= MAX_DATA_CALL_SIZE) as (prefix & start & size & E & Hs & Hn).
  { destruct param as [[[t a] n]|]; eexists _, _, _; (split; [reflexivity|]); unfold param_ok, MAX_DATA_CALL_SIZE in *; lia. }
  assert (∀ i, 0 <= i → m_cid (Init (newPdpContext (i + 1) prefix i)) = i + 1 ∧ m_state (Init (newPdpContext (i + 1) prefix i)) = PDP_CONTEXT_DISCONNECTED
    ∧ m_dataCall (Init (newPdpContext (i + 1) prefix i)) = zero_call) as Hi.
  { intros i Hi. unfold Init, newPdpContext. rewrite !(proj2 (Z.ltb_lt 0 (i + 1))) by lia. cbn [m_cid]. by rewrite (proj2 (Z.ltb_lt 0 (i + 1))) by lia. }
  split; [| |by destruct param as [[[? ?] ?]|]..|].
  - unfold cids. rewrite E, <- list_fmap_compose.
    rewrite (list_fmap_ext _ (λ i, i + 1) (seqZ start size)); [apply NoDup_fmap_2; [intros x y H; lia|apply NoDup_seqZ]|].
    intros j i (-> & Hj)%lookup_seqZ. cbn. apply Hi. lia.
  - intros j p Hj. rewrite E, list_lookup_fmap in Hj. destruct (seqZ start size !! j) as [i|] eqn:Ej; [|done]. injection Hj as <-.
    apply lookup_seqZ in Ej as (-> & Hj). destruct (Hi (start + Z.of_nat j)) as (H1 & H2 & H3); [lia|].
    unfold MAX_DATA_CALL_SIZE in *. split; unfold GetActive, live, busy; rewrite ?H1, ?H2, ?H3; try done; try apply zero_call_wf;
      [unfold MAX_DATA_CALL_SIZE; lia|by intros [Hl|Hl]..].
  - intros c Hc. destruct param as [[[? ?] ?]|]; by apply not_elem_of_nil in Hc.
Qed.

Section service.
Context (ntop : bool → list Z → option (list Z)) (default_dns v4_first : bool).
#[local] Abbreviation step := (step ntop default_dns v4_first).
#[local] Abbreviation run := (run ntop default_dns v4_first).

(** every event of the run is acceptable in the state it finds *)
Fixpoint events_ok (l : list (Env * Event)) (s : Ps) : Prop :=
  match l with [] => True | (e, ev) :: l => event_ok s ev ∧ match step e ev s with Ok s' => events_ok l s' | _ => True end end.
(** the requests the service takes on during the run *)
Fixpoint taken (l : list (Env * Event)) (s : Ps) : list Kind :=
  match l with [] => [] | (e, ev) :: l => accepted s ev ++ match step e ev s with Ok s' => taken l s' | _ => [] end end.

Lemma run_spec l s (Hntop : ntop_ok ntop) : wf s → events_ok l s → ∃ s', run l s = Ok s' ∧ wf s' ∧ cids s' = cids s ∧ account s' = account s ++ taken l s.
Proof.
  revert s. induction l as [|[e ev] l IH]; intros s Hs Hl.
  - exists s. by rewrite app_nil_r.
  - destruct Hl as [Hev Hl]. destruct (step_spec ntop default_dns v4_first Hntop e ev s Hs Hev) as (s1 & E & [W C _ A _]).
    cbn [Ps.run taken]. rewrite E in *. cbn [mbind res_bind]. destruct (IH s1 W Hl) as (s' & -> & W' & C' & A'). exists s'.
    split; [done|]. split; [done|]. split; [congruence|]. by rewrite A', A, app_assoc.
Qed.

(** C9: memory safety of the packet data service.  It is started as the product configures it, with identifiers
    that fit its table ([param_ok]); [inet_ntop] writes texts of its documented lengths ([ntop_ok]); and every event is
    acceptable in the state it finds ([events_ok]): a successful answer to a setup is for the context being set up and
    reports it inactive or active, a list names identifiers up to eight and well-formed addresses, a prefix has eight
    octets, and a timer of the router advertisement was armed and finds its context waiting or with nothing to do.
    Then, in whatever order requests, answers, lists, router advertisements, timeouts, radio, card and IMSI changes
    come, the service reads and writes inside its tables and follows no null pointer ([run] is [Ok]).  At every moment
    the identifiers of its contexts are those it started with and differ, a context being set up or taken down is the
    one the pointer of the current request points to, and a context that is connected has an active data call of its
    own.  [setup_answer_unknown] is a run that is not acceptable and undefined. *)
Theorem packet_data_safe param l (Hp : param_ok param) (Hntop : ntop_ok ntop) (Hl : events_ok l (InitPdpContext param)) :
  ∃ s, run l (InitPdpContext param) = Ok s ∧ cids s = cids (InitPdpContext param) ∧ wf s.
Proof. destruct (run_spec l _ Hntop (InitPdpContext_wf _ Hp) Hl) as (s & E & W & C & _). by exists s. Qed.

(** C13: the life of a context.  An event moves a context to DISCONNECTED, or
    forward from CONNECTING to IPV6_CONFIGURING or CONNECTED and from
    IPV6_CONFIGURING to CONNECTED; out of DISCONNECTED it goes only when a setup
    request takes it, into DISCONNECTING only when a request to deactivate
    names it while it is connected, and the answer to a setup moves, beyond
    that, only the context being set up. *)
Theorem context_life_cycle e ev s i p (Hs : wf s) (Hev : event_ok s ev) (Hntop : ntop_ok ntop) (Hi : ctxs s !! i = Some p) :
  ∃ s' p', step e ev s = Ok s' ∧ ctxs s' !! i = Some p' ∧ m_cid p' = m_cid p ∧ (may (m_state p) (m_state p') ∨ turn s s' ev i p p').
Proof.
  destruct (step_spec ntop default_dns v4_first Hntop e ev s Hs Hev) as (s' & E & [_ C M _ _]).
  assert (cids s' !! i = Some (m_cid p)) as Hc by (rewrite C; unfold cids; by rewrite list_lookup_fmap, Hi).
  unfold cids in Hc. rewrite list_lookup_fmap in Hc. destruct (ctxs s' !! i) as [p'|] eqn:Hi'; [|done]. injection Hc as Hc.
  exists s', p'. split; [done|]. split; [done|]. split; [done|]. by apply M.
Qed.

(** C14: a setup answered as a success is one: when an event has the service
    answer a setup request with a response of status 0, the response describes
    a context that is connected now. *)
Theorem success_is_connected e ev s s' result r (Hs : wf s) (Hev : event_ok s ev) (Hntop : ntop_ok ntop) (Hstep : step e ev s = Ok s')
  (Hans : answers s' = answers s ++ [(SETUP, result, Calls [r])]) (Hr : r_status r = PDP_FAIL_NONE) :
  ∃ i p, ctxs s' !! i = Some p ∧ m_state p = PDP_CONTEXT_CONNECTED ∧ r = list_entry ntop default_dns v4_first p.
Proof.
  destruct (step_spec ntop default_dns v4_first Hntop e ev s Hs Hev) as (s1 & E & [_ _ _ _ H]). rewrite Hstep in E. injection E as <-.
  by apply (H result r).
Qed.

(** ** The end of every request *)

Definition resting (s : Ps) : Prop :=
  ∀ i p, ctxs s !! i = Some p → m_state p = PDP_CONTEXT_DISCONNECTED ∨ (m_state p = PDP_CONTEXT_CONNECTED ∧ GetActive p ≠ INACTIVE).
Lemma idle_resting s : wf s → m_current s = None → resting s.
Proof.
  intros [H S] Hn i p Hp. unfold settled in S. rewrite Hn in S. destruct S as [Ha Hd].
  pose proof (c_ctx _ H _ _ Hp) as [_ P2 _ _ _ P6 P7 P8]. rewrite Ha, Hd in *.
  unfold live, busy, PDP_CONTEXT_DISCONNECTED, PDP_CONTEXT_CONNECTING, PDP_CONTEXT_CONNECTED, PDP_CONTEXT_DISCONNECTING, PDP_CONTEXT_IPV6_CONFIGURING in *.
  destruct (decide (m_state p = 1)) as [|N1]; [by left|]. destruct (decide (m_state p = 3)) as [E|N3]; [right; split; [done|]; apply P6; by left|].
  destruct (decide (m_state p = 4)) as [E|N4]; [by specialize (P8 E)|]. assert (m_state p = 2 ∨ m_state p = 5) as Hb by lia. by specialize (P7 Hb).
Qed.
Lemma failed_current e pc s s' : setup_failed ntop default_dns v4_first e pc s = Ok s' → m_current s' = None.
Proof.
  unfold setup_failed. intros (p & _ & (r & _ & E)%bind_ok)%bind_ok. cbv zeta in E.
  assert (∀ (b : bool) q n t, m_current (if b then OnRequestDeactContext q n t else t) = m_current t) as Hd.
  { intros [] q n t; [|done]. unfold OnRequestDeactContext. by destruct (_ || _). }
  destruct pc as [i|], p as [p|]; injection E as <-; cbn [set_activating set_pointers m_current upd set_pdps]; rewrite ?Hd; apply OnRequestComplete_current.
Qed.
Lemma notify_current s s' : OnNotifyDataCallList ntop default_dns v4_first s = Ok s' → m_current s' = m_current s.
Proof.
  unfold OnNotifyDataCallList. cbv zeta. destruct (notify_all_spec (ctxs s) s) as (l & -> & _). intros (r & _ & [= <-])%bind_ok. done.
Qed.
(** the setup ends unless it has just begun to wait for the router advertisement *)
Lemma complete_current e i s s' : OnSetupDataCallComplete ntop default_dns v4_first e (Some i) s = Ok s' →
  e ≠ RIL_E_SUCCESS ∨ (∀ p, ctxs s !! i = Some p → m_state p ≠ PDP_CONTEXT_IPV6_CONFIGURING) → m_current s' = None.
Proof.
  cbn [OnSetupDataCallComplete]. intros (p & Ep & E)%bind_ok Hor.
  destruct (Z.eqb_spec e RIL_E_SUCCESS) as [He|He]; cbn [negb] in E; [|by eapply failed_current].
  assert (ctxs s !! i = Some p) as Hp by (unfold context in Ep; destruct (ctxs s !! i); [by injection Ep as ->|done]).
  destruct Hor as [|Hst]; [done|]. rewrite (proj2 (Z.eqb_neq _ _) (Hst p Hp)) in E.
  destruct (_ && _); [|by eapply failed_current]. apply bind_ok in E as (r & _ & E). cbv zeta in E. apply bind_ok in E as (s1 & E1 & [= <-]).
  apply notify_current in E1. cbn. by rewrite E1, OnRequestComplete_current.
Qed.

(** ** How a request begins and ends *)

(** the packet a request is sent as *)
Definition asks_for (r : Request) (m : Sent) : Prop :=
  match r, m with
  | RSetup q, SetupDataCall rat _ => rat = q_rat q
  | RDeact cid reason, DeactDataCall c w => c = cid ∧ w = reason
  | RList, GetDataCallList | RAttach _, SetInitialAttachApn _ | RRefresh _, SetInitialAttachApn _ | RStartKeepAlive, StartKeepAlive => True
  | RStopKeepAlive h, StopKeepAlive h' => h' = h
  | RPreferred i, SetPreferredDataModem j => j = i
  | _, _ => False
  end.
Definition packet_sent (e : Env) (r : Request) (s s' : Ps) : Prop :=
  sent e = true ∧ ∃ l m, m_log s' = m_log s ++ l ++ [Send m] ∧ asks_for r m.
(** the request is answered now; it is worked on, since its packet is the last thing that was sent; a setup waits for its router advertisement *)
Definition answered_now (k : Kind) (s s' : Ps) : Prop := m_current s' = None ∧ kinds s' = kinds s ++ [k].
Definition worked_on (e : Env) (r : Request) (s s' : Ps) : Prop := m_current s' = Some (kind_of r) ∧ kinds s' = kinds s ∧ packet_sent e r s s'.
Definition awaits_prefix (s s' : Ps) : Prop :=
  m_current s' = Some SETUP ∧ kinds s' = kinds s ∧
  ∃ i p, act s' = Some i ∧ ctxs s' !! i = Some p ∧ m_state p = PDP_CONTEXT_IPV6_CONFIGURING ∧ m_cid p ∈ map_timer_id s'.

Lemma answered_at_once k s s' : account s' = kinds s ++ [k] → m_current s' = None → answered_now k s s'.
Proof. unfold account. intros A Hn. rewrite Hn, app_nil_r in A. by split. Qed.
Lemma answered_later k s s' c : account s' = kinds s ++ [k] → m_current s' = Some c → c = k ∧ kinds s' = kinds s.
Proof. unfold account. intros A Hc. rewrite Hc in A. by apply app_inj_tail in A as [-> ->]. Qed.

Lemma available_log a n s pc s' : GetAvailablePdpContext a n s = (pc, s') → m_log s' = m_log s.
Proof.
  unfold GetAvailablePdpContext. destruct (list_find _ _) as [[i ?]|]; [|destruct (list_find _ _) as [[i ?]|] ]; intros [= <- <-]; [|done..]. by case_bool_decide.
Qed.
Lemma setup_sent e q s z t : DoSetupDataCall ntop default_dns v4_first e q s = Ok (z, t) → m_current t = None ∨ packet_sent e (RSetup q) s t.
Proof.
  unfold DoSetupDataCall. cbv zeta. set (s1 := if negb _ then _ else s). assert (∃ l, m_log s1 = m_log s ++ l) as [l El].
  { unfold s1. destruct (negb _); [by eexists|]. exists []. by rewrite app_nil_r. }
  destruct (GetAvailablePdpContext _ _ s1) as [pc s2] eqn:Ea. apply available_log in Ea. clearbody s1. intros (s3 & E & [= _ <-])%bind_ok.
  destruct pc as [i|]; [|left; by apply (failed_current RIL_E_GENERIC_FAILURE None s2)]. apply bind_ok in E as (p & _ & E). destruct (IsAvailable p).
  - unfold setup_available in E. apply bind_ok in E as (p' & _ & E).
    repeat (destruct (_ =? _) in E; [injection E as <-; left; apply OnRequestComplete_current|]).
    destruct (m_pApnSetting p') as [a|]; [|left; by apply (failed_current RIL_E_GENERIC_FAILURE None s2)]. destruct (_ && _) in E; [injection E as <-; left; apply OnRequestComplete_current|].
    unfold SendRequest in E. destruct (sent e) eqn:Es; cbn [Z.ltb Z.compare] in E; injection E as <-; [|left; apply OnRequestComplete_current].
    right. split; [done|]. eexists l, _. cbn [m_log set_activating set_pointers upd set_pdps emit set_engine]. by rewrite Ea, El, <- app_assoc.
  - destruct (_ =? _) in E; [apply bind_ok in E as (r & _ & [= <-]); left; apply OnRequestComplete_current|]. left.
    eapply complete_current; [exact E|by left].
Qed.
Lemma attach_sent e q s z t : DoSetInitialAttachApn e q s = Ok (z, t) → z = 0 ∧ (m_current t = None ∨ ∃ p, sent e = true ∧ m_log t = m_log s ++ [Send (SetInitialAttachApn p)]).
Proof.
  unfold DoSetInitialAttachApn. cbv zeta. destruct (_ && _); [intros [= <- <-]; split; [done|left; apply OnRequestComplete_current]|].
  intros ([n s1] & E & [= <- <-])%bind_ok. split; [done|]. destruct (Z.ltb_spec n 0); [left; apply OnRequestComplete_current|]. right.
  unfold RequestSetInitialAttachApn, SetAttachPdpContext in E. cbv zeta in E. destruct (GetAttachPdpContext s) as [i|]; [|injection E as <- _; lia].
  apply bind_ok in E as (p & _ & E). unfold SendRequest in E. destruct (sent e); cbn [Z.ltb Z.compare] in E; injection E as <- <-; [|lia]. by exists p.
Qed.
Lemma request_sent e r s z t : OnHandleRequest ntop default_dns v4_first e r s = Ok (z, t) → z < 0 ∨ m_current t = None ∨ packet_sent e r s t.
Proof.
  assert (∀ m, asks_for r m → Ok (SendRequest e m s) = Ok (z, t) → z < 0 ∨ m_current t = None ∨ packet_sent e r s t) as Hsend.
  { intros m Hm [= <- <-]. destruct (sent e) eqn:Es; [|by left]. right; right. split; [done|]. by exists [], m. }
  destruct r as [q|cid reason| |q|q|l| |h|i]; cbn [OnHandleRequest].
  - intros H%setup_sent. by right.
  - unfold DoDeactDataCall. destruct (GetPdpContext cid s) as [i|]; [|intros [= _ <-]; right; left; apply OnRequestComplete_current].
    intros (p & _ & H)%bind_ok. destruct (negb _); [injection H as _ <-; right; left; apply OnRequestComplete_current|].
    unfold SendRequest in H. destruct (sent e) eqn:Es; cbn [Z.ltb Z.compare] in H; injection H as <- <-; [|by left]. right; right. split; [done|]. by eexists [], _.
  - by apply Hsend.
  - intros [_ [H|(p & Hs & H)] ]%attach_sent; right; [by left|right]. split; [done|]. by eexists [], _.
  - intros [_ [H|(p & Hs & H)] ]%attach_sent; right; [by left|right]. split; [done|]. by eexists [], _.
  - unfold DoSetDataProfile. destruct (send_profiles l s) as [n s1]. destruct (n <? 0); intros [= <- <-]; [by left|]. right; left. apply OnRequestComplete_current.
  - by apply Hsend.
  - by apply Hsend.
  - unfold DoSetPreferredDataModem. destruct (_ || _); [intros [= _ <-]; right; left; apply OnRequestComplete_current|]. by apply Hsend.
Qed.

(** an answer to a setup leaves it waiting only in the context the answer is for *)
Lemma complete_waits i s s' : OnSetupDataCallComplete ntop default_dns v4_first RIL_E_SUCCESS (Some i) s = Ok s' → act s = Some i →
  m_current s' = None ∨ ∃ p, act s' = Some i ∧ ctxs s' !! i = Some p ∧ m_state p = PDP_CONTEXT_IPV6_CONFIGURING ∧ m_cid p ∈ map_timer_id s'.
Proof.
  intros E Ha. destruct (ctxs s !! i) as [p|] eqn:Hp; [|by cbn [OnSetupDataCallComplete] in E; unfold context in E; rewrite Hp in E].
  destruct (decide (m_state p = PDP_CONTEXT_IPV6_CONFIGURING)) as [Hst|Hst].
  - right. cbn [OnSetupDataCallComplete] in E. rewrite (context_eq _ _ _ Hp) in E. cbn [mbind res_bind] in E. rewrite Hst in E. injection E as <-.
    exists p. unfold SetRSRATimeoutTimer. case_bool_decide as Hin; [done|]. split; [done|]. split; [done|]. split; [done|]. by left.
  - left. eapply complete_current; [exact E|]. right. intros q. rewrite Hp. by intros [= <-].
Qed.
Lemma setup_done_waits e errorCode dc s z t : core s → setup_answer_ok s errorCode dc → OnSetupDataCallDone ntop default_dns v4_first e errorCode dc s = Ok (z, t) →
  z = 0 ∧ (m_current t = None ∨ errorCode = RIL_E_SUCCESS ∧
    ∃ i p, act t = Some i ∧ ctxs t !! i = Some p ∧ m_state p = PDP_CONTEXT_IPV6_CONFIGURING ∧ m_cid p ∈ map_timer_id t).
Proof.
  intros H Hok. unfold OnSetupDataCallDone. intros (s1 & E & [= <- <-])%bind_ok. split; [done|]. cbn [DoSetFastDormancy emit m_current set_engine].
  destruct (Z.eqb_spec errorCode RIL_E_SUCCESS) as [He|He].
  - destruct (Hok He) as (_ & _ & i & p & Ha & Hp & Hc & _). rewrite Hc, (GetPdpContext_self s i p H Hp) in E. apply bind_ok in E as (s2 & E2 & E).
    assert (act s2 = Some i) as Ha2 by (destruct (_ =? ACTIVE) in E2; injection E2 as <-; exact Ha).
    destruct (complete_waits i s2 s1 E Ha2) as [Hn|(q & Hq)]; [by left|]. right. split; [done|]. by exists i, q.
  - left. destruct (act s) as [i|]; [eapply complete_current; [exact E|by left]|by apply (failed_current errorCode None s)].
Qed.
Lemma answer_ends e k a s z t : core s → (k = SETUP → setup_answer_ok s (a_error a) (default zero_call (head (a_calls a)))) →
  OnHandleSolicitedResponse ntop default_dns v4_first e k a s = Ok (z, t) →
  m_current t = None ∨ z = 0 ∧ k = SETUP ∧ a_error a = RIL_E_SUCCESS ∧
    ∃ i p, act t = Some i ∧ ctxs t !! i = Some p ∧ m_state p = PDP_CONTEXT_IPV6_CONFIGURING ∧ m_cid p ∈ map_timer_id t.
Proof.
  intros H Hok. destruct k; cbn [OnHandleSolicitedResponse].
  - intros E. destruct (setup_done_waits e _ _ s z t H (Hok eq_refl) E) as (-> & [Hn|[He Hw] ]); [by left|by right].
  - unfold OnDeactDataCallDone, OnDeactDataCallComplete. intros (s1 & (s2 & _ & (s3 & E3 & [= <-])%bind_ok)%bind_ok & [= _ <-])%bind_ok. left.
    apply notify_current in E3. cbn. by rewrite E3, OnRequestComplete_current.
  - unfold OnGetDataCallListDone. destruct (_ =? _); [|intros [= _ <-]; left; apply OnRequestComplete_current].
    intros (s1 & _ & (r & _ & [= _ <-])%bind_ok)%bind_ok. left. apply OnRequestComplete_current.
  - intros [= _ <-]. left. apply OnRequestComplete_current.
  - intros [= _ <-]. left. apply OnRequestComplete_current.
  - intros [= _ <-]. left. destruct (_ =? _); apply OnRequestComplete_current.
  - intros [= _ <-]. left. apply OnRequestComplete_current.
  - intros [= _ <-]. left. apply OnRequestComplete_current.
Qed.
Lemma otherwise_current c z t : z < 0 ∨ m_current t = None → m_current (otherwise c (z, t)) = None.
Proof.
  unfold otherwise. cbn [fst snd]. intros [Hz|Hn]; [rewrite (proj2 (Z.ltb_lt _ _) Hz); apply OnRequestComplete_current|].
  destruct (z <? 0); [apply OnRequestComplete_current|done].
Qed.
Lemma otherwise_kept c z t : m_current (otherwise c (z, t)) ≠ None → otherwise c (z, t) = t.
Proof. unfold otherwise. cbn [fst snd]. destruct (z <? 0); [by rewrite OnRequestComplete_current|done]. Qed.

(** C11: how a request to the packet data service begins and ends, from every
    well-formed state.  When the service is free, a request is either
    answered at once, or its packet has been sent, last of all, and it is worked
    on; a handler that gives up without an answer is answered for.  When a
    request is worked on, the answer of the modem to it, which for a setup
    describes the context being set up, ends it with exactly one answer; the one
    exception is the successful answer to a setup whose context then waits for
    a router advertisement: it is still worked on, and the timer of the
    advertisement is armed. *)
Theorem packet_request_reaction e s (Hs : wf s) (Hntop : ntop_ok ntop) :
  (∀ r, m_current s = None → ∃ s', step e (EvRequest r) s = Ok s' ∧ (answered_now (kind_of r) s s' ∨ worked_on e r s s')) ∧
  (∀ k a, m_current s = Some k → event_ok s (EvAnswer a) →
     ∃ s', step e (EvAnswer a) s = Ok s' ∧ (answered_now k s s' ∨ k = SETUP ∧ a_error a = RIL_E_SUCCESS ∧ awaits_prefix s s')).
Proof.
  split.
  - intros r Hn. destruct (step_spec ntop default_dns v4_first Hntop e (EvRequest r) s Hs I) as (s' & E & [_ _ _ A _]). exists s'. split; [done|].
    unfold accepted in A. rewrite Hn in A. unfold account at 2 in A. rewrite Hn in A. cbn [option_list] in A. rewrite app_nil_r in A.
    cbn [Ps.step] in E. rewrite Hn in E. apply bind_ok in E as ([z t] & Et & [= <-]). apply request_sent in Et.
    destruct (m_current (otherwise RIL_E_GENERIC_FAILURE (z, t))) as [c|] eqn:Ec; [right|left; by apply answered_at_once].
    destruct (answered_later _ _ _ _ A Ec) as [-> Hk]. split; [done|]. split; [done|]. rewrite otherwise_kept by by rewrite Ec.
    destruct Et as [Hz|[Hc|Hp] ]; [by rewrite otherwise_current in Ec by by left|by rewrite otherwise_current in Ec by by right|exact Hp].
  - intros k a Hk Hev. destruct (step_spec ntop default_dns v4_first Hntop e (EvAnswer a) s Hs Hev) as (s' & E & [_ _ _ A _]). exists s'. split; [done|].
    unfold accepted in A. rewrite app_nil_r in A. unfold account at 2 in A. rewrite Hk in A. cbn [option_list] in A.
    cbn [Ps.step] in E. rewrite Hk in E. apply bind_ok in E as ([z t] & Et & [= <-]).
    apply answer_ends in Et; [|apply Hs|intros ->; by apply Hev].
    destruct (m_current (otherwise RIL_E_GENERIC_FAILURE (z, t))) as [c|] eqn:Ec; [right|left; by apply answered_at_once].
    destruct (answered_later _ _ _ _ A Ec) as [-> Hkn].
    destruct Et as [Hc|(-> & -> & He & Hw)]; [by rewrite otherwise_current in Ec by by right|]. split; [done|]. split; [done|]. by split.
Qed.

(** C10: no request hangs.  If nothing else ends it, the timeout of the request
    ends the request the service works on, with an answer, and then every
    context is either disconnected or connected with an active data call:
    none is left half way. *)
Theorem request_timeout_ends e s k (Hs : wf s) (Hk : m_current s = Some k) (Hntop : ntop_ok ntop) :
  ∃ s', step e EvTimeout s = Ok s' ∧ m_current s' = None ∧ kinds s' = kinds s ++ [k] ∧ resting s'.
Proof.
  destruct (step_spec ntop default_dns v4_first Hntop e EvTimeout s Hs I) as (s' & E & [W _ _ A _]).
  assert (m_current s' = None) as Hn.
  { cbn [Ps.step] in E. rewrite Hk in E. apply bind_ok in E as ([z t] & Et & [= <-]).
    destruct (decide (k = SETUP ∨ k = DEACT)) as [[->| ->]|Hne].
    - cbn [OnHandleRequestTimeout] in Et. destruct (pending_setup s (conj Hs Hk)) as (H & [i Hi] & _).
      unfold OnSetupDataCallTimeout in Et. rewrite Hi in Et. apply bind_ok in Et as (s1 & E1 & [= <- <-]).
      apply bind_ok in E1 as (p & Ep & E1). destruct (_ && _) eqn:Ec; [|by apply complete_current in E1; [|left]].
      apply complete_current in E1; [done|]. right. intros q. rewrite upd_lookup, decide_True by done.
      destruct (ctxs s !! i); [|done]. by intros [= <-].
    - cbn [OnHandleRequestTimeout] in Et. apply bind_ok in Et as (s1 & E1 & [= <- <-]).
      unfold OnDeactDataCallComplete in E1. apply bind_ok in E1 as (s2 & _ & (s3 & E3 & [= <-])%bind_ok). cbn.
      apply notify_current in E3. by rewrite E3, OnRequestComplete_current.
    - assert (Ok (z, t) = Ok (-1, s)) as [= -> ->] by (rewrite <- Et; destruct k; tauto || done). apply OnRequestComplete_current. }
  exists s'. split; [done|]. split; [done|]. split; [|by apply idle_resting].
  unfold account in A. rewrite Hn, Hk in A. cbn in A. by rewrite !app_nil_r in A.
Qed.

(** ** The list of the modem, context by context *)

(** a call of the list against its context *)
Definition reported (dc : DataCall) (p : PdpContext) : PdpContext :=
  if dc_active dc =? INACTIVE
  then if (m_state p =? PDP_CONTEXT_CONNECTED) || (1 <=? GetActive p) then OnDeactivated p else p
  else (UpdateDataCallInfo (Some dc) (SetActive (if dc_active dc =? CP_DATA_CONNECTION_DORMANT then PH_LINK_DORMANT else PH_LINK_UP) p)).2.
(** a context against the list *)
Definition synced (l : list DataCall) (p : PdpContext) : PdpContext :=
  match GetDataCallByCid (m_cid p) l with
  | Some dc => reported dc p
  | None => if ACTIVE <=? GetActive p then OnDeactivated p else p
  end.
Definition each (g : PdpContext → PdpContext) (s : Ps) : Ps := set_pdps (g <$> ctxs s) s.

Lemma each_id g s : (∀ p, p ∈ ctxs s → g p = p) → each g s = s.
Proof.
  intros H. unfold each. replace (g <$> ctxs s) with (ctxs s); [by destruct s|]. symmetry.
  rewrite <- (list_fmap_id (ctxs s)) at 2. apply list_fmap_ext. intros i p Hp. apply H. by eapply list_elem_of_lookup_2.
Qed.
Lemma each_compose g h s : each g (each h s) = each (g ∘ h) s.
Proof. unfold each. cbn [ctxs set_pdps]. by rewrite <- list_fmap_compose. Qed.
(** only one context has the identifier *)
Lemma upd_each i g s p cid : core s → ctxs s !! i = Some p → m_cid p = cid →
  upd i g s = each (λ q, if m_cid q =? cid then g q else q) s.
Proof.
  intros H Hp Hc. unfold upd, each. f_equal. apply list_eq. intros j. rewrite list_lookup_fmap.
  destruct (decide (i = j)) as [->|Hne].
  - rewrite list_lookup_alter_eq, Hp. cbn. by rewrite (proj2 (Z.eqb_eq _ _) Hc).
  - rewrite list_lookup_alter_ne by done. destruct (ctxs s !! j) as [q|] eqn:Hq; [|done]. cbn.
    destruct (Z.eqb_spec (m_cid q) cid) as [E|]; [|done]. destruct Hne. eapply cids_unique; [done..|congruence].
Qed.
Lemma reported_facts dc p : m_cid (reported dc p) = m_cid p ∧ (m_state (reported dc p) = m_state p ∨ m_state (reported dc p) = PDP_CONTEXT_DISCONNECTED).
Proof.
  unfold reported. destruct (_ =? INACTIVE).
  - destruct (_ || _); [|by auto]. rewrite OnDeactivated_eq. by auto.
  - set (q := SetActive _ p). assert (m_cid q = m_cid p ∧ m_state q = m_state p) as [Ec Es] by (unfold q, SetActive; by destruct (_ && _)).
    destruct (UpdateDataCallInfo_state (Some dc) q) as (-> & -> & _). rewrite Ec, Es. by auto.
Qed.
Lemma each_cids g s : (∀ p, m_cid (g p) = m_cid p) → cids (each g s) = cids s.
Proof. intros H. unfold cids, each. cbn [ctxs set_pdps]. rewrite <- list_fmap_compose. apply list_fmap_ext. intros i p _. apply H. Qed.

Definition no_waiting (s : Ps) : Prop := ∀ i p, ctxs s !! i = Some p → m_state p ≠ PDP_CONTEXT_IPV6_CONFIGURING.
Definition told_one (dc : DataCall) (p : PdpContext) : PdpContext := if m_cid p =? dc_cid dc then reported dc p else p.
Lemma told_one_facts dc p : m_cid (told_one dc p) = m_cid p ∧ (m_state (told_one dc p) = m_state p ∨ m_state (told_one dc p) = PDP_CONTEXT_DISCONNECTED).
Proof. unfold told_one. destruct (_ =? _); [apply reported_facts|by auto]. Qed.
Lemma told_one_waiting dc s : no_waiting s → no_waiting (each (told_one dc) s).
Proof.
  intros H i p Hp. unfold each in Hp. cbn [ctxs set_pdps] in Hp. rewrite list_lookup_fmap in Hp.
  destruct (ctxs s !! i) as [q|] eqn:Hq; [|done]. injection Hp as <-. destruct (told_one_facts dc q) as [_ [->| ->]]; [by eapply H|done].
Qed.
Lemma no_context dc s : GetPdpContext (dc_cid dc) s = None → each (told_one dc) s = s.
Proof.
  intros E. apply each_id. intros p [i Hi]%list_elem_of_lookup. pose proof (GetPdpContext_None _ _ E i p Hi) as Hne.
  unfold told_one. by rewrite (proj2 (Z.eqb_neq _ _) Hne).
Qed.
Lemma inform_each dc informed b s : wf s → no_waiting s → reported_ok dc → lenZ informed = MAX_DATA_CALL_SIZE * 2 + 1 →
  inform ntop default_dns v4_first dc (informed, b, s)
  = Ok (<[Z.to_nat (dc_cid dc) := true]> informed, b || negb (dc_active dc =? INACTIVE), each (told_one dc) s).
Proof.
  intros [H S] Hw [_ Hcid] Hlen. unfold inform. rewrite wr_ok by (unfold MAX_DATA_CALL_SIZE in *; lia). cbn [mbind res_bind].
  destruct (GetPdpContext (dc_cid dc) s) as [i|] eqn:Ei.
  2: { rewrite (no_context dc s Ei). destruct (_ =? INACTIVE); cbn [negb with_context]; by rewrite ?orb_false_r, ?orb_true_r. }
  apply GetPdpContext_Some in Ei as (p & Hp & Hc). rewrite (context_eq _ _ _ Hp).
  assert (upd i (reported dc) s = each (told_one dc) s) as Ee by by eapply upd_each. rewrite <- Ee.
  assert (∀ g : PdpContext → PdpContext, g p = reported dc p → upd i g s = upd i (reported dc) s) as Hg.
  { intros g Eg. unfold upd. f_equal. apply list_alter_ext; [|done]. intros q Hq. rewrite Hp in Hq. by injection Hq as <-. }
  assert (reported dc p = p → s = upd i (reported dc) s) as Hid.
  { intros Er. rewrite <- (Hg id) by done. unfold upd. rewrite list_alter_id by done. by destruct s. }
  destruct (dc_active dc =? INACTIVE) eqn:Ea; cbn [mbind res_bind negb]; rewrite ?orb_false_r, ?orb_true_r.
  - destruct (_ || _) eqn:Ed; [|by rewrite <- Hid by (unfold reported; by rewrite Ea, Ed)].
    assert (∀ a q, act s = Some a → ctxs s !! a = Some q → (m_state q =? PDP_CONTEXT_IPV6_CONFIGURING) = false) as Hno.
    { intros a q _ Hq. by apply Z.eqb_neq, (Hw a). }
    rewrite <- (Hg OnDeactivated) by (unfold reported; by rewrite Ea, Ed).
    destruct (act s) as [a|] eqn:Eact; cbn [mbind res_bind]; [|done].
    destruct (context_ok a s (c_act _ H a Eact)) as (q & Hq & ->). cbn [mbind res_bind]. by rewrite (Hno a q).
  - cbn [with_context]. do 2 f_equal. apply Hg. unfold reported. by rewrite Ea.
Qed.
Definition told_all (l : list DataCall) (p : PdpContext) : PdpContext := foldl (λ p dc, told_one dc p) p l.
Lemma each_told_wf dc s : wf s → no_waiting s → reported_ok dc → ntop_ok ntop → wf (each (told_one dc) s).
Proof.
  intros Hs Hw Hdc Hntop. destruct (inform_spec ntop default_dns v4_first Hntop dc (fill (MAX_DATA_CALL_SIZE * 2 + 1) false) false s Hdc) as (t & E & [_ L]); [by_eval|done|].
  rewrite inform_each in E by done || by_eval. injection E as <-. cbn [snd] in L. split; [apply L|apply L].
Qed.
Lemma inform_all_each l informed b s : wf s → no_waiting s → Forall reported_ok l → ntop_ok ntop → lenZ informed = MAX_DATA_CALL_SIZE * 2 + 1 →
  inform_all ntop default_dns v4_first l (informed, b, s)
  = Ok (foldl (λ t dc, <[Z.to_nat (dc_cid dc) := true]> t) informed l, b || existsb (λ dc, negb (dc_active dc =? INACTIVE)) l, each (told_all l) s).
Proof.
  intros Hs Hw Hl Hntop. revert informed b s Hs Hw. induction Hl as [|dc l Hdc Hl IH]; intros informed b s Hs Hw Hlen; cbn [inform_all foldl existsb].
  - by rewrite orb_false_r, each_id.
  - rewrite inform_each by done. cbn [mbind res_bind].
    rewrite IH by (by apply each_told_wf || apply told_one_waiting || rewrite ?lenZ_insert). by rewrite each_compose, orb_assoc.
Qed.
(** the second pass *)
Lemma each_context_each (f : nat → Ps → res Ps) g s :
  (∀ pre p post, p ∈ ctxs s → f (length pre) (set_pdps (pre ++ p :: post) s) = Ok (set_pdps (pre ++ g p :: post) s)) →
  each_context f s = Ok (each g s).
Proof.
  intros Hf. assert (∀ post pre, (∀ p, p ∈ post → p ∈ ctxs s) →
    for_up (length post) (lenZ pre) (λ i, f (Z.to_nat i)) (set_pdps (pre ++ post) s) = Ok (set_pdps (pre ++ (g <$> post)) s)) as Hrec.
  { induction post as [|p post IH]; intros pre Hin; cbn [length for_up]; [done|].
    replace (Z.to_nat (lenZ pre)) with (length pre) by (unfold lenZ; lia). rewrite Hf by (apply Hin; by left). cbn [mbind res_bind fmap list_fmap].
    replace (lenZ pre + 1) with (lenZ (pre ++ [g p])) by (rewrite lenZ_app; done).
    pose proof (IH (pre ++ [g p])) as E. rewrite <- !app_assoc in E. apply E. intros q Hq. apply Hin. by right. }
  specialize (Hrec (ctxs s) [] ltac:(done)). unfold each_context. cbn [app] in Hrec. change (lenZ []) with 0 in Hrec.
  by destruct s.
Qed.
Lemma upd_middle g pre p post s : upd (length pre) g (set_pdps (pre ++ p :: post) s) = set_pdps (pre ++ g p :: post) s.
Proof. unfold upd. cbn [ctxs set_pdps]. unfold set_pdps at 1. cbn. unfold set_pdps. f_equal. induction pre as [|q pre IH]; cbn; [done|]. by f_equal. Qed.
Definition marked (c : Z) (l : list DataCall) : bool := existsb (λ dc, dc_cid dc =? c) l.
Lemma marked_find c l : marked c l = match GetDataCallByCid c l with Some _ => true | None => false end.
Proof.
  unfold marked, GetDataCallByCid. induction l as [|dc l IH]; cbn; [done|].
  destruct (Z.eqb_spec (dc_cid dc) c) as [E|E]; [by rewrite decide_True|]. rewrite decide_False by done. cbn. rewrite IH.
  by destruct (list_find _ l) as [[? ?]|].
Qed.
Lemma informed_lookup l informed c : Forall reported_ok l → lenZ informed = MAX_DATA_CALL_SIZE * 2 + 1 → 0 <= c <= MAX_DATA_CALL_SIZE * 2 →
  nth (Z.to_nat c) (foldl (λ t dc, <[Z.to_nat (dc_cid dc) := true]> t) informed l) false = marked c l || nth (Z.to_nat c) informed false
  ∧ lenZ (foldl (λ t dc, <[Z.to_nat (dc_cid dc) := true]> t) informed l) = MAX_DATA_CALL_SIZE * 2 + 1.
Proof.
  intros Hl Hlen Hc. revert informed Hlen. induction Hl as [|dc l [_ Hdc] Hl IH]; intros informed Hlen; cbn [foldl marked existsb]; [done|].
  destruct (IH (<[Z.to_nat (dc_cid dc) := true]> informed)) as [-> ->]; [by rewrite lenZ_insert|]. split; [|done].
  change (existsb (λ dc, dc_cid dc =? c) l) with (marked c l). rewrite !nth_lookup. destruct (Z.eqb_spec (dc_cid dc) c) as [->|Hne].
  - rewrite list_lookup_insert_eq by (unfold lenZ, MAX_DATA_CALL_SIZE in *; lia). cbn. by rewrite orb_true_r.
  - by rewrite list_lookup_insert_ne by lia.
Qed.
Definition clean (l : list DataCall) (p : PdpContext) : PdpContext := if negb (marked (m_cid p) l) && (ACTIVE <=? GetActive p) then OnDeactivated p else p.
Lemma cleanup_each l s : core s → Forall reported_ok l →
  each_context (cleanup (foldl (λ t dc, <[Z.to_nat (dc_cid dc) := true]> t) (fill (MAX_DATA_CALL_SIZE * 2 + 1) false) l)) s = Ok (each (clean l) s).
Proof.
  intros H Hl. apply each_context_each. intros pre p post [i Hp]%list_elem_of_lookup.
  pose proof (po_cid _ _ _ _ (c_ctx _ H _ _ Hp)) as Hcid. unfold cleanup.
  rewrite (context_eq _ _ p) by (cbn; by rewrite list_lookup_middle). cbn [mbind res_bind].
  destruct (informed_lookup l (fill (MAX_DATA_CALL_SIZE * 2 + 1) false) (m_cid p) Hl) as [E Elen]; [done|lia|].
  destruct (rd_ok (foldl (λ t dc, <[Z.to_nat (dc_cid dc) := true]> t) (fill (MAX_DATA_CALL_SIZE * 2 + 1) false) l) (m_cid p)) as (b & -> & Eb); [lia|].
  rewrite nth_lookup, Eb in E. cbn [mbind res_bind default] in *. unfold id in E.
  assert (b = marked (m_cid p) l) as ->.
  { rewrite E, nth_lookup. unfold fill. destruct (replicate _ _ !! _) as [x|] eqn:Ex; [|by rewrite orb_false_r].
    apply lookup_replicate in Ex as [-> _]. by rewrite orb_false_r. }
  f_equal. unfold clean. destruct (negb _ && _); [apply upd_middle|done].
Qed.
Lemma told_all_spec l p : NoDup (dc_cid <$> l) → told_all l p = match GetDataCallByCid (m_cid p) l with Some dc => reported dc p | None => p end.
Proof.
  revert p. induction l as [|dc l IH]; intros p Hnd; [done|]. cbn [fmap list_fmap] in Hnd. apply NoDup_cons in Hnd as [Hnin Hnd].
  unfold told_all in *. cbn [foldl]. rewrite IH by done. destruct (told_one_facts dc p) as [-> _]. unfold told_one, GetDataCallByCid. cbn [list_find].
  destruct (Z.eqb_spec (m_cid p) (dc_cid dc)) as [E|E].
  - rewrite decide_True by done. cbn. destruct (list_find _ l) as [[i d]|] eqn:Ed; [|done]. exfalso. apply Hnin.
    apply list_find_Some in Ed as (Ed & Hd & _). rewrite <- E, <- Hd. apply list_elem_of_fmap_2. by eapply list_elem_of_lookup_2.
  - rewrite decide_False by congruence. by destruct (list_find _ l) as [[i d]|].
Qed.
Lemma clean_told l p : NoDup (dc_cid <$> l) → clean l (told_all l p) = synced l p.
Proof.
  intros Hnd. rewrite told_all_spec by done. unfold clean, synced. rewrite !marked_find.
  destruct (GetDataCallByCid (m_cid p) l) as [dc|] eqn:E; [|by rewrite E]. destruct (reported_facts dc p) as [-> _]. by rewrite E.
Qed.

(** C12: the list of the modem and the contexts.  While no context waits for a
    router advertisement, a list whose calls have different identifiers leaves
    every context as its own call says, whatever the order of the list: the
    context of a call that is reported down is disconnected if it was up,
    the context of a call that is reported up takes its data over, and a
    context the list does not name is disconnected if it was active; an empty
    list resets the contexts, keeping the setting of the attach context.  The
    framework is told whether some call is up and then the list of the calls
    that are connected now, and no request is answered. *)
Theorem list_changed_refines l s (Hs : wf s) (Hw : no_waiting s) (Hl : Forall reported_ok l) (Hnd : NoDup (dc_cid <$> l)) (Hntop : ntop_ok ntop) :
  ∃ s' ambrs, OnDataCallListChanged ntop default_dns v4_first l s = Ok s'
  ∧ ctxs s' = match l with [] => reset_context true (m_bIsAttachDone s) (m_nAttachCid s) ∘ synced [] | _ => synced l end <$> ctxs s
  ∧ m_log s' = m_log s ++ PdpActive (existsb (λ dc, negb (dc_active dc =? INACTIVE)) l) :: ambrs ++ [DataCallList (data_call_list ntop default_dns v4_first s')]
  ∧ answers_of ambrs = [] ∧ m_current s' = m_current s ∧ wf s'.
Proof.
  destruct (OnDataCallListChanged_spec ntop default_dns v4_first Hntop l s Hs Hl) as (s' & E & L). exists s'.
  assert (wf s') as W by (split; [apply L|apply L]). unfold OnDataCallListChanged in *. rewrite inform_all_each in * by done. cbn [mbind res_bind orb] in *.
  set (s1 := each (told_all l) s) in *. assert (cids s1 = cids s) as Hc1.
  { apply each_cids. intros p. rewrite told_all_spec by done. destruct (GetDataCallByCid _ _) as [dc|]; [apply reported_facts|done]. }
  destruct (inform_all_spec ntop default_dns v4_first Hntop l (fill (MAX_DATA_CALL_SIZE * 2 + 1) false) false s Hl) as (t & Et & [_ Lt]); [done..|].
  rewrite inform_all_each in Et by done. injection Et as <-. cbn [snd] in Lt. fold s1 in Lt.
  rewrite cleanup_each in * by (done || apply Lt). cbn [mbind res_bind] in *. cbv zeta in *.
  set (s3 := match l with [] => _ | _ => _ end) in *.
  assert (ctxs s3 = match l with [] => reset_context true (m_bIsAttachDone s) (m_nAttachCid s) ∘ synced [] | _ => synced l end <$> ctxs s) as E3.
  { assert (ctxs (each (clean l) s1) = synced l <$> ctxs s) as Ec.
    { unfold s1. rewrite each_compose. apply list_fmap_ext. intros i p _. by apply clean_told. }
    unfold s3. destruct l; [|done]. cbn [ctxs ResetPdpContext set_pdps]. rewrite Ec. by rewrite <- list_fmap_compose. }
  assert (m_log s3 = m_log s ∧ m_current s3 = m_current s) as [Elog Ecur] by by destruct l.
  destruct (OnNotifyDataCallList_spec ntop default_dns v4_first Hntop (emit (PdpActive (existsb (λ dc, negb (dc_active dc =? INACTIVE)) l)) s3)) as (ambrs & En & Ha).
  { apply (emit_post None); [|done]. assert (core (each (clean l) s1)) as Hc.
    { destruct (cleanup_spec (foldl (λ t dc, <[Z.to_nat (dc_cid dc) := true]> t) (fill (MAX_DATA_CALL_SIZE * 2 + 1) false) l) s1) as (s2 & E2 & C2); [by eapply (informed_lookup l _ 0)|apply Lt|].
      rewrite cleanup_each in E2 by (done || apply Lt). injection E2 as <-. apply C2. }
    unfold s3. destruct l; [|done]. by apply ResetPdpContext_spec. }
  rewrite En in E. injection E as <-. exists ambrs. rewrite En. split; [done|]. split; [done|]. split; [|by split; [done|]].
  cbn [m_log set_engine emit m_current]. rewrite Elog, <- app_assoc. done.
Qed.
End service.

(** ** A run, and the theorems on it *)

Definition sample_env : Env :=
  {| carrier := str "45001"; attach_type := None; roaming := false; radio_state := RADIO_STATE_ON; sent := true;
     link := {| sockets := true; set_if_addr := true; set_if_addr_v6 := true |}; target_oper := 0; esm_flag_zero := false |}.
Definition sample_setup : SetupDataCallRequest :=
  {| q_rat := 14; q_apn := Some (str "internet"); q_username := None; q_password := None; q_authType := 0;
     q_protocol := Some (str "IPV4V6"); q_roaming_protocol := Some (str "IP"); q_dataProfileId := 0; q_supportedApnTypesBitmap := 1 |}.
Definition sample_start : Ps := InitPdpContext (Some (str "rmnet", 0, 4)).
Definition answer (e : Z) (l : list DataCall) : Event := EvAnswer {| a_error := e; a_calls := l; a_handle := 0; a_code := 0 |}.
Definition advertised : Event := EvIpv6 (λ name, if bool_decide (name = str "rmnet1") then 5 else 0) 5 (fill 8 32) (fill 16 1).
Definition with_env (l : list Event) : list (Env * Event) := pair sample_env <$> l.
(** a call of both versions is set up, its prefix is advertised, it is listed, and taken down *)
Definition sample_events : list (Env * Event) :=
  with_env [EvRequest (RSetup sample_setup); answer 0 [sample_call]; advertised; EvListChanged [sample_call];
            EvRequest (RDeact 2 DEACT_REASON_NORMAL); EvTimeout].
Abbreviation sample_step := (step sample_ntop false true).
Abbreviation sample_run := (run sample_ntop false true).

Lemma events_ok_cons ntop d v e ev l s s' : step ntop d v e ev s = Ok s' → event_ok s ev → events_ok ntop d v l s' → events_ok ntop d v ((e, ev) :: l) s.
Proof. intros E Hev Hl. split; [done|]. by rewrite E. Qed.
Lemma sample_answer_ok s e i p : act s = Some i → ctxs s !! i = Some p → m_cid p = dc_cid sample_call → m_state p = PDP_CONTEXT_CONNECTING →
  event_ok s (answer e [sample_call]).
Proof.
  intros Ha Hp Hc Hst _ _. split; [apply sample_call_wf|]. split; [done|]. exists i, p. split; [done|]. split; [done|]. split; [done|].
  unfold live. rewrite Hst. by intros [?|?].
Qed.
Lemma sample_list_ok s : event_ok s (EvListChanged [sample_call]).
Proof. repeat constructor; try apply sample_call_wf; done. Qed.
Lemma sample_events_ok : events_ok sample_ntop false true sample_events sample_start.
Proof.
  eapply events_ok_cons; [vm_compute; reflexivity|done|].
  eapply events_ok_cons; [vm_compute; reflexivity|eapply (sample_answer_ok _ 0 1); reflexivity|].
  eapply events_ok_cons; [vm_compute; reflexivity|done|].
  eapply events_ok_cons; [vm_compute; reflexivity|apply sample_list_ok|].
  do 2 (eapply events_ok_cons; [vm_compute; reflexivity|done|]). done.
Qed.
(** the service while the call of the sample is being set up, and once it is connected *)
Definition sample_setting : Ps := default sample_start (match sample_run (take 1 sample_events) sample_start with Ok s => Some s | _ => None end).
Definition sample_connected : Ps := default sample_start (match sample_run (take 3 sample_events) sample_start with Ok s => Some s | _ => None end).
Lemma sample_param_ok : param_ok (Some (str "rmnet", 0, 4)).
Proof. by split. Qed.
Lemma sample_reached n s : sample_run (take n sample_events) sample_start = Ok s → events_ok sample_ntop false true (take n sample_events) sample_start → wf s.
Proof.
  intros E Hl. destruct (run_spec sample_ntop false true _ sample_start sample_ntop_ok (InitPdpContext_wf _ sample_param_ok) Hl) as (s' & E' & W & _).
  rewrite E in E'. by injection E' as <-.
Qed.
Lemma events_ok_take ntop d v n l s : events_ok ntop d v l s → events_ok ntop d v (take n l) s.
Proof.
  revert n s. induction l as [|[e ev] l IH]; intros [|n] s; try done. intros [Hev Hl]. split; [done|]. cbn [take]. fold (take (A:=Env * Event)).
  destruct (step _ _ _ _ _ _); [by apply IH|done..].
Qed.
Lemma sample_setting_wf : wf sample_setting.
Proof. apply (sample_reached 1); [vm_compute; reflexivity|apply events_ok_take, sample_events_ok]. Qed.
Lemma sample_connected_wf : wf sample_connected.
Proof. apply (sample_reached 3); [vm_compute; reflexivity|apply events_ok_take, sample_events_ok]. Qed.

Lemma packet_data_safe_witness : ∃ s, sample_run sample_events sample_start = Ok s ∧ cids s = cids sample_start ∧ wf s.
Proof. apply (packet_data_safe sample_ntop false true (Some (str "rmnet", 0, 4)) sample_events); [apply sample_param_ok|apply sample_ntop_ok|apply sample_events_ok]. Defined.
Lemma packet_request_reaction_witness :
  (∃ s', sample_step sample_env (EvRequest (RSetup sample_setup)) sample_start = Ok s' ∧
     (answered_now SETUP sample_start s' ∨ worked_on sample_env (RSetup sample_setup) sample_start s')) ∧
  ∃ s', sample_step sample_env (answer 0 [sample_call]) sample_setting = Ok s' ∧
     (answered_now SETUP sample_setting s' ∨ SETUP = SETUP ∧ RIL_E_SUCCESS = RIL_E_SUCCESS ∧ awaits_prefix sample_setting s').
Proof.
  split.
  - by apply (packet_request_reaction sample_ntop false true sample_env sample_start (InitPdpContext_wf _ sample_param_ok) sample_ntop_ok).
  - apply (packet_request_reaction sample_ntop false true sample_env sample_setting sample_setting_wf sample_ntop_ok); [done|].
    eapply (sample_answer_ok _ 0 1); reflexivity.
Defined.
Lemma context_life_cycle_witness : ∃ s' p', sample_step sample_env (EvRequest (RDeact 2 DEACT_REASON_NORMAL)) sample_connected = Ok s'
  ∧ ctxs s' !! 1%nat = Some p' ∧ m_cid p' = 2
  ∧ (may PDP_CONTEXT_CONNECTED (m_state p') ∨ turn sample_connected s' (EvRequest (RDeact 2 DEACT_REASON_NORMAL)) 1 (nth 1 (ctxs sample_connected) (newPdpContext 0 None 0)) p').
Proof.
  apply (context_life_cycle sample_ntop false true sample_env (EvRequest (RDeact 2 DEACT_REASON_NORMAL)) sample_connected 1 (nth 1 (ctxs sample_connected) (newPdpContext 0 None 0)));
    [apply sample_connected_wf|done|apply sample_ntop_ok|vm_compute; reflexivity].
Defined.
(** the answer of the modem has a call of version 4, which is connected at once *)
Definition sample_call_v4 : DataCall := set_addresses PDP_TYPE_IPV4 (ipv4 sample_call) (zero_address 16) sample_call.
Definition sample_after : Ps := match sample_step sample_env (answer 0 [sample_call_v4]) sample_setting with Ok s => s | _ => sample_start end.
Definition sample_response : Response := match answers sample_after with [(_, _, Calls [r])] => r | _ => ErrorResponse 0 end.
Lemma success_is_connected_witness : r_status sample_response = PDP_FAIL_NONE ∧
  ∃ i p, ctxs sample_after !! i = Some p ∧ m_state p = PDP_CONTEXT_CONNECTED ∧ sample_response = list_entry sample_ntop false true p.
Proof.
  split; [by_eval|].
  apply (success_is_connected sample_ntop false true sample_env (answer 0 [sample_call_v4]) sample_setting sample_after 0 sample_response).
  - apply sample_setting_wf.
  - intros _ _. split; [by_eval|]. split; [done|]. eexists 1%nat, _. split; [reflexivity|]. split; [reflexivity|]. split; [reflexivity|].
    by intros [?|?].
  - apply sample_ntop_ok.
  - vm_compute. reflexivity.
  - vm_compute. reflexivity.
  - by_eval.
Defined.
Lemma request_timeout_ends_witness : ∃ s', sample_step sample_env EvTimeout sample_setting = Ok s' ∧ m_current s' = None ∧ kinds s' = [SETUP] ∧ resting s'.
Proof.
  apply (request_timeout_ends sample_ntop false true sample_env sample_setting SETUP); [apply sample_setting_wf|vm_compute; reflexivity|apply sample_ntop_ok].
Defined.
Definition sample_down : DataCall := set_active INACTIVE sample_call.
Lemma list_changed_refines_witness : ∃ s' ambrs, OnDataCallListChanged sample_ntop false true [sample_down] sample_connected = Ok s'
  ∧ ctxs s' = synced [sample_down] <$> ctxs sample_connected
  ∧ m_log s' = m_log sample_connected ++ PdpActive false :: ambrs ++ [DataCallList (data_call_list sample_ntop false true s')]
  ∧ answers_of ambrs = [] ∧ m_current s' = None ∧ wf s'.
Proof.
  apply (list_changed_refines sample_ntop false true [sample_down] sample_connected); [apply sample_connected_wf|..|apply sample_ntop_ok].
  - intros i p Hp. assert (Forall (λ q, m_state q ≠ PDP_CONTEXT_IPV6_CONFIGURING) (ctxs sample_connected)) as Hf by by_eval.
    by apply (Forall_lookup_1 _ _ _ _ Hf Hp).
  - repeat constructor; by_eval.
  - by_eval.
Defined.

(** ** Without a side of the bargain

    Each lemma is a run from the start in which one event is not [event_ok], or
    a list comes while a context waits for its prefix. *)

Definition sample_ims : SetupDataCallRequest :=
  {| q_rat := 14; q_apn := Some (str "ims"); q_username := None; q_password := None; q_authType := 0;
     q_protocol := Some (str "IPV4V6"); q_roaming_protocol := Some (str "IP"); q_dataProfileId := DATA_PROFILE_IMS; q_supportedApnTypesBitmap := 64 |}.
Definition call_of (cid active : Z) (d : DataCall) : DataCall :=
  {| dc_status := dc_status d; suggestedRetryTime := suggestedRetryTime d; dc_cid := cid; dc_active := active; pdpType := pdpType d;
     ipv4 := ipv4 d; ipv6 := ipv6 d; mtu_size := mtu_size d; pco := pco d; IPC_version := IPC_version d;
     pcscf_ext_count := pcscf_ext_count d; ambr := ambr d |}.
(** the states of the contexts and the answers, each with the states of the response *)
Definition view (s : Ps) : list Z * list (Kind * Z * list Z) :=
  (m_state <$> ctxs s, (λ x, (x.1, match x.2 with Calls l => r_status <$> l | _ => [] end)) <$> answers s).
Definition after (l : list Event) : option (list Z * list (Kind * Z * list Z)) :=
  match sample_run (with_env l) sample_start with Ok s => Some (view s) | _ => None end.
(** an answer that names no context and is not active is followed through a null pointer *)
Lemma setup_answer_unknown : sample_run (with_env [EvRequest (RSetup sample_setup); answer 0 []]) sample_start = UB.
Proof. vm_compute. reflexivity. Qed.
(** an answer for another context ends the request and leaves the context that was being set up in CONNECTING *)
Lemma setup_answer_elsewhere : after [EvRequest (RSetup sample_setup); answer 0 [call_of 3 ACTIVE sample_call_v4]]
  = Some ([PDP_CONTEXT_DISCONNECTED; PDP_CONTEXT_CONNECTING; PDP_CONTEXT_CONNECTED; PDP_CONTEXT_DISCONNECTED], [(SETUP, 0, [PDP_FAIL_NONE])]).
Proof. vm_compute. reflexivity. Qed.
(** the first call goes down while the second waits for its prefix: the second is given up and the first stays connected *)
Lemma report_down_elsewhere : after [EvRequest (RSetup sample_setup); answer 0 [sample_call_v4]; EvRequest (RSetup sample_ims); answer 0 [call_of 3 ACTIVE sample_call];
    EvListChanged [call_of 2 INACTIVE sample_call_v4; call_of 3 ACTIVE sample_call]]
  = Some ([PDP_CONTEXT_DISCONNECTED; PDP_CONTEXT_CONNECTED; PDP_CONTEXT_DISCONNECTED; PDP_CONTEXT_DISCONNECTED],
          [(SETUP, 0, [PDP_FAIL_NONE]); (SETUP, 0, [PDP_FAIL_ERROR_UNSPECIFIED])]).
Proof. vm_compute. reflexivity. Qed.
(** the timer outlives the setup: a request to deactivate the call is answered by the failure of a setup *)
Definition sample_call_v6 : DataCall := set_addresses PDP_TYPE_IPV6 (zero_address 4) (ipv6 sample_call) sample_call.
Lemma timer_answers_deactivation : after [EvRequest (RSetup sample_setup); answer 0 [sample_call_v6]; advertised; EvRequest (RDeact 2 DEACT_REASON_NORMAL);
    EvListChanged [sample_call_v6]; EvRsra 2]
  = Some ([PDP_CONTEXT_DISCONNECTED; PDP_CONTEXT_DISCONNECTED; PDP_CONTEXT_DISCONNECTED; PDP_CONTEXT_DISCONNECTED],
          [(SETUP, 0, [PDP_FAIL_NONE]); (DEACT, 0, [PDP_FAIL_ERROR_UNSPECIFIED])]).
Proof. vm_compute. reflexivity. Qed.
