(* ===== verification/PsAdapter.v ===== *)
(** The packets of packet data as the modem sends them:
    [protocol/sit/protocolpsadapter.cpp] with the structures of
    [protocol/sit/sitdef.h], and the handlers of [core/service/psservice.cpp]
    that pass an indication on.

    A frame is the list of its bytes.  The structures are packed, so a field is
    read at its offset; reading past the frame is [UB].  [char] is unsigned, as
    on ARM. *)
From S2P Require Import Prelude RilDef Text Rcm Layout Pdp PsBuilder Ps.

(** ** Layouts *)

Definition SIT_IND_DATA_CALL_LIST_CHANGED : Z := 0x604.
Definition SIT_IND_DEDICATED_BEARER_INFO : Z := 0x606.
Definition SIT_IND_NAS_TIMER_STATUS : Z := 0x607.
Definition MAX_IPV4_ADDR_LEN : Z := 4.
Definition MAX_IPV6_ADDR_LEN : Z := 16.
Definition MAX_PDP_ADDRESS_LEN : Z := 20.
Definition MAX_PCSCF_ADDRESS_LEN : Z := MAX_IPV4_ADDR_LEN * 3 + MAX_IPV6_ADDR_LEN * 3.
(** [sit_pdp_data_call_item]: status 0, cid 2, active 3, pdp_type 4, address 5, dns_type 25, primary_dns 26,
    secondary_dns 46, pcscf_type 66, pcscf 67, mtu_size 127, pco 131 *)
Definition LEN_DC_V11 : Z := 132.
(** [sit_pdp_data_call_item_old]: status 0, cid 2, active 3, pdp_type 4, address 5, primary_dns 25, secondary_dns 45, pcscf 65 *)
Definition LEN_DC_V10 : Z := 125.
(** [sit_pdp_data_call_item_pcscf_ext]: IPC_version 0, NextHeaderType 1, pcscf_ipv4_ext 2, pcscf_ipv6_ext 22 *)
Definition sizeof_pcscf_ext : Z := 102.
(** [sit_pdp_data_call_item_ext_lp_retrytime]: low_priority 0, suggestedRetryTime 1 *)
Definition sizeof_lp_retrytime : Z := 5.
(** [sit_pdp_data_call_item_ext_ambr] *)
Definition sizeof_ambr : Z := 7.
Definition LEN_DC_V11_IND_HDR : Z := sizeof_RCM_IND_HEADER + 1.
Definition LEN_DC_V11_PCSCF_EXT : Z := LEN_DC_V11 + sizeof_pcscf_ext.
Definition LEN_DC_V11_LP_RETRY : Z := LEN_DC_V11_PCSCF_EXT + sizeof_lp_retrytime.
Definition LEN_DC_V11_AMBR : Z := LEN_DC_V11_LP_RETRY + sizeof_ambr.
Inductive dc_type := DC_V10 | DC_V11 | DC_EXTENSION | DC_RETRYTIME | DC_AMBR.
#[export] Instance dc_type_eq_dec : EqDecision dc_type.
Proof. solve_decision. Defined.
Definition dc_item_size (t : dc_type) : Z :=
  match t with
  | DC_V10 => LEN_DC_V10 | DC_V11 => LEN_DC_V11 | DC_EXTENSION => LEN_DC_V11_PCSCF_EXT
  | DC_RETRYTIME => LEN_DC_V11_LP_RETRY | DC_AMBR => LEN_DC_V11_AMBR
  end.

(** [memset(&call, 0, sizeof(call))] *)
Definition cleared : DataCall :=
  {| dc_status := 0; suggestedRetryTime := 0; dc_cid := 0; dc_active := 0; pdpType := 0; ipv4 := zero_address 4; ipv6 := zero_address 16;
     mtu_size := 0; pco := 0; IPC_version := 0; pcscf_ext_count := 0; ambr := fill 7 0 |}.
Definition set_ext (version count : Z) (v4 v6 : list Z) (d : DataCall) : DataCall :=
  {| dc_status := dc_status d; suggestedRetryTime := suggestedRetryTime d; dc_cid := dc_cid d; dc_active := dc_active d; pdpType := pdpType d;
     ipv4 := {| valid := valid (ipv4 d); addr := addr (ipv4 d); dns1 := dns1 (ipv4 d); dns2 := dns2 (ipv4 d); gw := gw (ipv4 d); pcscf := v4 |};
     ipv6 := {| valid := valid (ipv6 d); addr := addr (ipv6 d); dns1 := dns1 (ipv6 d); dns2 := dns2 (ipv6 d); gw := gw (ipv6 d); pcscf := v6 |};
     mtu_size := mtu_size d; pco := pco d; IPC_version := version; pcscf_ext_count := count; ambr := ambr d |}.
Definition set_retry (retry : Z) (octets : list Z) (d : DataCall) : DataCall :=
  {| dc_status := dc_status d; suggestedRetryTime := retry; dc_cid := dc_cid d; dc_active := dc_active d; pdpType := pdpType d;
     ipv4 := ipv4 d; ipv6 := ipv6 d; mtu_size := mtu_size d; pco := pco d; IPC_version := IPC_version d; pcscf_ext_count := pcscf_ext_count d;
     ambr := octets |}.

(** ** One call of a frame *)
Section frame.
Variable raw : list Z.

(** [if (c) memcpy(dst + at, raw + off, n)] *)
Definition copy_if (c : bool) (off n at_ : Z) (dst : list Z) : res (list Z) :=
  if c then b ← rdn raw off n; wrn dst at_ b else Ok dst.
Definition has4 (t : Z) : bool := (t =? SIT_PDP_PDP_TYPE_IPV4) || (t =? SIT_PDP_PDP_TYPE_IPV4IPV6).
Definition has6 (t : Z) : bool := (t =? SIT_PDP_PDP_TYPE_IPV6) || (t =? SIT_PDP_PDP_TYPE_IPV4IPV6).

(** the item at [p] *)
Definition GetDataCallFromDataCallList_v11 (p : Z) (out : DataCall) : res DataCall :=
  st ← rd16 raw p; cid ← raw.[p + 2]; active ← raw.[p + 3]; pdp_type ← raw.[p + 4];
  mtu ← rd32 raw (p + 127); pco ← raw.[p + 131];
  addr4 ← copy_if (has4 pdp_type) (p + 5) 4 0 (fill 4 0);
  addr6 ← copy_if (has6 pdp_type) (p + 5 + 4) 16 0 (fill 16 0);
  dns_type ← raw.[p + 25];
  dns41 ← copy_if (has4 dns_type) (p + 26) 4 0 (fill 4 0);
  dns42 ← copy_if (has4 dns_type) (p + 46) 4 0 (fill 4 0);
  dns61 ← copy_if (has6 dns_type) (p + 26 + 4) 16 0 (fill 16 0);
  dns62 ← copy_if (has6 dns_type) (p + 46 + 4) 16 0 (fill 16 0);
  pcscf_type ← raw.[p + 66];
  pcscf4 ← copy_if (has4 pcscf_type) (p + 67) (MAX_IPV4_ADDR_LEN * MAX_PCSCF_NUM) 0 (fill (4 * (MAX_PCSCF_NUM + MAX_PCSCF_EXT_NUM)) 0);
  pcscf6 ← copy_if (has6 pcscf_type) (p + 67 + MAX_IPV4_ADDR_LEN * MAX_PCSCF_NUM) (MAX_IPV6_ADDR_LEN * MAX_PCSCF_NUM) 0
                   (fill (16 * (MAX_PCSCF_NUM + MAX_PCSCF_EXT_NUM)) 0);
  Ok {| dc_status := i16 st; suggestedRetryTime := suggestedRetryTime out; dc_cid := cid; dc_active := active; pdpType := pdp_type;
        ipv4 := {| valid := has4 pdp_type; addr := addr4; dns1 := dns41; dns2 := dns42; gw := fill 4 0; pcscf := pcscf4 |};
        ipv6 := {| valid := has6 pdp_type; addr := addr6; dns1 := dns61; dns2 := dns62; gw := fill 16 0; pcscf := pcscf6 |};
        mtu_size := i32 mtu; pco := pco; IPC_version := IPC_version out; pcscf_ext_count := pcscf_ext_count out; ambr := ambr out |}.

(** the [index]-th item of the old layout from [p]; where both versions come, that of version 6 follows the four bytes of version 4 *)
Definition GetDataCallFromDataCallList_v10 (out : DataCall) (index p listSize : Z) : res (bool * DataCall) :=
  if (index <? 0) || (listSize <? 0) || (listSize <=? index) then Ok (false, out)
  else
    let p := p + LEN_DC_V10 * index in
    st ← rd16 raw p; cid ← raw.[p + 2]; active ← raw.[p + 3]; pdp_type ← raw.[p + 4];
    let o := if pdp_type =? SIT_PDP_PDP_TYPE_IPV4IPV6 then 4 else 0 in
    addr4 ← copy_if (has4 pdp_type) (p + 5) 4 0 (fill 4 0);
    dns41 ← copy_if (has4 pdp_type) (p + 25) 4 0 (fill 4 0);
    dns42 ← copy_if (has4 pdp_type) (p + 45) 4 0 (fill 4 0);
    pcscf4 ← copy_if (has4 pdp_type) (p + 65) (MAX_IPV4_ADDR_LEN * MAX_PCSCF_NUM) 0 (fill (4 * (MAX_PCSCF_NUM + MAX_PCSCF_EXT_NUM)) 0);
    addr6 ← copy_if (has6 pdp_type) (p + 5 + o) 16 0 (fill 16 0);
    dns61 ← copy_if (has6 pdp_type) (p + 25 + o) 16 0 (fill 16 0);
    dns62 ← copy_if (has6 pdp_type) (p + 45 + o) 16 0 (fill 16 0);
    pcscf6 ← copy_if (has6 pdp_type) (p + 65 + 3 * o) (MAX_IPV6_ADDR_LEN * MAX_PCSCF_NUM) 0 (fill (16 * (MAX_PCSCF_NUM + MAX_PCSCF_EXT_NUM)) 0);
    Ok (true, {| dc_status := i16 st; suggestedRetryTime := suggestedRetryTime out; dc_cid := cid; dc_active := active; pdpType := pdp_type;
        ipv4 := {| valid := has4 pdp_type; addr := addr4; dns1 := dns41; dns2 := dns42; gw := fill 4 0; pcscf := pcscf4 |};
        ipv6 := {| valid := has6 pdp_type; addr := addr6; dns1 := dns61; dns2 := dns62; gw := fill 16 0; pcscf := pcscf6 |};
        mtu_size := mtu_size out; pco := pco out; IPC_version := IPC_version out; pcscf_ext_count := pcscf_ext_count out; ambr := ambr out |}).

Definition fillPcscfExtInfoForLegacy (out : DataCall) : DataCall := set_ext 1 0 (pcscf (ipv4 out)) (pcscf (ipv6 out)) out.
Definition getExtensionPayload (p : Z) : res (option Z) :=
  IPC_version ← raw.[p + LEN_DC_V11]; Ok (if 2 <=? IPC_version then Some (p + LEN_DC_V11) else None).
Definition FillPcscfExt (out : DataCall) (data pcscf_type : Z) : res DataCall :=
  v4 ← copy_if (negb (Z.land (Z.land pcscf_type SIT_PDP_PDP_TYPE_IPV4IPV6) SIT_PDP_PDP_TYPE_IPV4 =? 0)) (data + 2)
               (MAX_IPV4_ADDR_LEN * MAX_PCSCF_EXT_NUM) (MAX_IPV4_ADDR_LEN * MAX_PCSCF_NUM) (pcscf (ipv4 out));
  v6 ← copy_if (negb (Z.land (Z.land pcscf_type SIT_PDP_PDP_TYPE_IPV4IPV6) SIT_PDP_PDP_TYPE_IPV6 =? 0)) (data + 22)
               (MAX_IPV6_ADDR_LEN * MAX_PCSCF_EXT_NUM) (MAX_IPV6_ADDR_LEN * MAX_PCSCF_NUM) (pcscf (ipv6 out));
  version ← raw.[data];
  Ok (set_ext version 5 v4 v6 out).
Definition processPcscfExtension (out : DataCall) (p : Z) : res (Z * DataCall) :=
  data ← getExtensionPayload p;
  match data with
  | None => Ok (1, fillPcscfExtInfoForLegacy out)
  | Some data => pcscf_type ← raw.[p + 66]; out ← FillPcscfExt out data pcscf_type; Ok (IPC_version out, out)
  end.
(** the retry time and the bit rates end the [payload_size] bytes of the item *)
Definition fillExtInfoForLpRetryTime (out : DataCall) (p payload_size : Z) : res DataCall :=
  t ← rd32 raw (p + payload_size - sizeof_lp_retrytime + 1); Ok (set_retry (i32 t) (ambr out) out).
Definition fillAMBR (out : DataCall) (p payload_size : Z) : res DataCall :=
  b ← rdn raw (p + payload_size - sizeof_ambr) sizeof_ambr; Ok (set_retry (suggestedRetryTime out) b out).

(** ** A list of calls *)

(** the layout follows from the length of the frame *)
Definition list_type (num : Z) : dc_type :=
  if num * LEN_DC_V11 + LEN_DC_V11_IND_HDR =? lenZ raw then DC_V11
  else if num * LEN_DC_V11_PCSCF_EXT + LEN_DC_V11_IND_HDR =? lenZ raw then DC_EXTENSION
  else if num * LEN_DC_V11_LP_RETRY + LEN_DC_V11_IND_HDR =? lenZ raw then DC_RETRYTIME
  else if num * LEN_DC_V11_AMBR + LEN_DC_V11_IND_HDR =? lenZ raw then DC_AMBR
  else DC_V10.
(** one round of [FillDataCallListFromModemPayload]; [base] is where the items start *)
Definition fill_item (dct : dc_type) (base num i : Z) : res DataCall :=
  let p := base + dc_item_size dct * i in
  match dct with
  | DC_AMBR =>
    out ← GetDataCallFromDataCallList_v11 p cleared;
    t ← processPcscfExtension out p; let '(IPC_version, out) := t in
    out ← fillExtInfoForLpRetryTime out p LEN_DC_V11_AMBR;
    if IPC_version =? 4 then fillAMBR out p LEN_DC_V11_AMBR else Ok out
  | DC_RETRYTIME =>
    out ← GetDataCallFromDataCallList_v11 p cleared;
    t ← processPcscfExtension out p; let '(_, out) := t in
    fillExtInfoForLpRetryTime out p LEN_DC_V11_LP_RETRY
  | DC_EXTENSION =>
    out ← GetDataCallFromDataCallList_v11 p cleared;
    t ← processPcscfExtension out p; Ok t.2
  | DC_V11 =>
    out ← GetDataCallFromDataCallList_v11 p cleared;
    Ok (fillPcscfExtInfoForLegacy out)
  | DC_V10 =>
    t ← GetDataCallFromDataCallList_v10 cleared i base num;
    let '(ok, out) := t in
    Ok (fillPcscfExtInfoForLegacy (if ok : bool then out else cleared))
  end.
Definition FillDataCallListFromModemPayload (dct : dc_type) (base num : Z) : res (list DataCall) :=
  for_up (Z.to_nat num) 0 (λ i l, d ← fill_item dct base num i; Ok (l ++ [d])) [].
(** after the checks of [Init]: the number is cut to the size of the array once the layout is known *)
Definition InitList (hdr : Z) : res (list DataCall) :=
  num ← raw.[hdr];
  let dct := list_type num in
  FillDataCallListFromModemPayload dct (hdr + 1) (Z.min num MAX_DATA_CALL_SIZE).

(** ** PCO data *)

(** [GetPcoData]: the identifier, the length of the contents and where they start; the state of the adapter is the number of blocks that
    remain and the position after the header *)
Definition sizeof_pco_data_ind : Z := 11.
Definition GetPcoData (remain pos : Z) : res (Z * (Z * Z * Z) * (Z * Z)) :=
  if remain =? 0 then Ok (-1, (0, 0, 0), (remain, pos))
  else
    let pco_block := sizeof_pco_data_ind + pos in
    pco_id ← rd32 raw pco_block;
    contents_len ← raw.[pco_block + 4];
    Ok (remain - 1, (i32 pco_id, contents_len, pco_block + 5), (remain - 1, pos + (5 + contents_len))).
Definition ConvertPdpType (t : Z) : list Z :=
  if t =? PDP_TYPE_IPV4 then DATA_PROTOCOL_IP
  else if t =? PDP_TYPE_IPV6 then DATA_PROTOCOL_IPV6
  else if t =? PDP_TYPE_IPV4V6 then DATA_PROTOCOL_IPV4V6
  else if t =? PDP_TYPE_PPP then DATA_PROTOCOL_PPP
  else DATA_PROTOCOL_IP.
(** [RIL_PCO_Data]; the pointer to the contents is a position in the frame *)
Record PcoData := { pco_cid : Z; bearer_proto : list Z; pco_id : Z; contents_length : Z; contents : Z }.
Fixpoint pco_loop (n : nat) (cid nPdpType remain pos : Z) (out : list PcoData) : res (list PcoData) :=
  match n with
  | O => Ok out
  | Datatypes.S n =>
    t ← GetPcoData remain pos;
    let '(r, (i, len, c), (remain, pos)) := t in
    if r <? 0 then Ok out
    else pco_loop n cid nPdpType remain pos
           (out ++ [{| pco_cid := cid; bearer_proto := ConvertPdpType nPdpType; pco_id := i; contents_length := len; contents := c |}])
  end.
Definition OnUnsolPcoData : res (list PcoData) :=
  num ← raw.[sizeof_RCM_IND_HEADER + 2];
  cid ← raw.[sizeof_RCM_IND_HEADER];
  t ← raw.[sizeof_RCM_IND_HEADER + 1];
  pco_loop (Z.to_nat num) cid t num 0 [].
End frame.

(** ** The adapters *)

Section adapters.
Variable m_pModemData : option (list Z).

(** [ProtocolPsSetupDataCallAdapter::GetErrorCode] *)
Definition RIL_E_OP_NOT_ALLOWED_DURING_VOICE_CALL : Z := 8.
Definition RIL_E_OP_NOT_ALLOWED_BEFORE_REG_TO_NW : Z := 9.
Definition SetupErrorCode : res Z :=
  errorCode ← Rcm.GetErrorCode m_pModemData;
  Ok (if bool_decide (errorCode ∈ [RIL_E_SUCCESS; RIL_E_RADIO_NOT_AVAILABLE; RIL_E_GENERIC_FAILURE; RIL_E_REQUEST_NOT_SUPPORTED;
                                    RIL_E_OP_NOT_ALLOWED_DURING_VOICE_CALL; RIL_E_OP_NOT_ALLOWED_BEFORE_REG_TO_NW])
      then errorCode else RIL_E_GENERIC_FAILURE).
Definition ProtocolPsSetupDataCallAdapter : res DataCall :=
  match m_pModemData with
  | None => Ok cleared
  | Some raw =>
    e ← SetupErrorCode;
    if negb (e =? RIL_E_SUCCESS) then Ok cleared
    else
      i ← rd16 raw off_id;
      if negb (i =? SIT_SETUP_DATA_CALL) then Ok cleared
      else
        let p := sizeof_RCM_HEADER in
        if sizeof_RCM_HEADER + LEN_DC_V11 <=? lenZ raw
        then
          out ← GetDataCallFromDataCallList_v11 raw p cleared;
          if sizeof_RCM_HEADER + LEN_DC_V11 + sizeof_pcscf_ext <=? lenZ raw
          then
            t ← processPcscfExtension raw out p;
            let '(IPC_version, out) := t in
            out ← (if 3 <=? IPC_version then fillExtInfoForLpRetryTime raw out p LEN_DC_V11_LP_RETRY else Ok out);
            if IPC_version =? 4 then fillAMBR raw out p LEN_DC_V11_AMBR else Ok out
          else Ok (fillPcscfExtInfoForLegacy out)
        else
          t ← GetDataCallFromDataCallList_v10 raw cleared 0 p 1;
          let '(ok, out) := t in
          Ok (fillPcscfExtInfoForLegacy (if ok : bool then out else cleared))
  end.

(** the response to a list request, and the indication that the list has changed *)
Definition ProtocolPsDataCallListAdapter : res (list DataCall) :=
  match m_pModemData with
  | None => Ok []
  | Some raw =>
    e ← Rcm.GetErrorCode m_pModemData;
    if e =? RIL_E_SUCCESS then InitList raw sizeof_RCM_HEADER else Ok []
  end.
Definition ProtocolPsDataCallListChangedAdapter : res (list DataCall) :=
  match m_pModemData with
  | None => Ok []
  | Some raw => i ← rd16 raw off_id; if i =? SIT_IND_DATA_CALL_LIST_CHANGED then InitList raw sizeof_RCM_IND_HEADER else Ok []
  end.

(** the indication if it has the identifier and the size: where its fields start *)
Definition sizeof_dedicated_bearer_info_ind : Z := sizeof_RCM_IND_HEADER + 19.
Definition sizeof_nas_timer_status_ind : Z := sizeof_RCM_IND_HEADER + 107.
Definition indication (id size : Z) : res (option (list Z * Z)) :=
  match m_pModemData with
  | None => Ok None
  | Some raw =>
    i ← rd16 raw off_id;
    Ok (if (i =? id) && (size <=? lenZ raw) then Some (raw, sizeof_RCM_IND_HEADER) else None)
  end.
Definition GetDedicatedBearerInfo : res (option (list Z * Z)) := indication SIT_IND_DEDICATED_BEARER_INFO sizeof_dedicated_bearer_info_ind.
Definition GetNasTimerStatus : res (option (list Z * Z)) := indication SIT_IND_NAS_TIMER_STATUS sizeof_nas_timer_status_ind.
(** what is passed on is read as a [DedicatedBearerInfo], which is not packed: twenty bytes with the integers at 4, 8, 12 and 16 *)
Definition sizeof_DedicatedBearerInfo : Z := 20.
Record DedicatedBearerInfo := {
  db_status : Z; db_type : Z; db_qci : Z; ul_gbr : Z; dl_gbr : Z; ul_max_gbr : Z; dl_max_gbr : Z
}.
Definition OnDedicatedBearerInfoUpdated : res (option DedicatedBearerInfo) :=
  o ← GetDedicatedBearerInfo;
  match o with
  | None => Ok None
  | Some (raw, p) =>
    b ← rdn raw p sizeof_DedicatedBearerInfo;
    st ← b.[0]; t ← b.[1]; q ← b.[2]; ul ← rd32 b 4; dl ← rd32 b 8; um ← rd32 b 12; dm ← rd32 b 16;
    Ok (Some {| db_status := st; db_type := t; db_qci := q; ul_gbr := i32 ul; dl_gbr := i32 dl; ul_max_gbr := i32 um; dl_max_gbr := i32 dm |})
  end.
(** type, status, value and the access point of [BuildNasTimerStatus] *)
Definition OnNasTimerStatusChanged : res (option (Z * Z * Z * list Z)) :=
  o ← GetNasTimerStatus;
  match o with
  | None => Ok None
  | Some (raw, p) =>
    t ← raw.[p]; s ← raw.[p + 1]; v ← rd32 raw (p + 2); apn ← rdn raw (p + 6) (MAX_PDP_APN_LEN - 1);
    Ok (Some (t, s, i32 v, cstr apn))
  end.

(** the handle and the code of a keep-alive, [hdr] the size of the header *)
Definition KEEPALIVE_INACTIVE : Z := 1.
Definition getSessionHandle (hdr : Z) : res Z := match m_pModemData with Some raw => rd32 raw hdr | None => Ok 0 end.
Definition getCode (hdr : Z) : res Z :=
  match m_pModemData with Some raw => c ← rd32 raw (hdr + 4); Ok (i32 c) | None => Ok KEEPALIVE_INACTIVE end.
Definition OnUnsolKeepaliveStatus : res (Z * Z) :=
  h ← getSessionHandle sizeof_RCM_IND_HEADER; c ← getCode sizeof_RCM_IND_HEADER; Ok (h, c).
End adapters.
