(* ===== verification/PsAdapterTheorems.v ===== *)
(** Decoding the packets of packet data: every call a frame gives is well
    formed, the five layouts of a list are told apart and read field by field,
    a setup answer likewise, and what an indication with too few bytes does.
    With it the assumptions of [PsTheorems] on the lists of the modem come down
    to the range of their identifiers. *)
From S2P Require Import Prelude RilDef Rcm Layout Pdp PdpTheorems PsBuilder Ps PsProofs PsTheorems PsAdapter.

(** ** Well-formed calls *)

Lemma lenZ_copy_if raw c off n at_ dst r : copy_if raw c off n at_ dst = Ok r → lenZ r = lenZ dst.
Proof. unfold copy_if. destruct c; [|by intros [= ->]]. intros (b & _ & H)%bind_ok. by eapply lenZ_wrn. Qed.
Lemma rd_byte raw i b : bytes_ok raw → raw.[i] = Ok b → is_byte b.
Proof. intros H (_ & Hb)%rd_inv. by eapply Forall_lookup_1. Qed.

(** what decoding promises of a call *)
Definition decoded_ok (d : DataCall) : Prop := call_wf d ∧ is_byte (dc_cid d) ∧ is_byte (dc_active d).
Definition count_ok (d : DataCall) : Prop := 0 <= pcscf_ext_count d <= MAX_PCSCF_EXT_NUM.

Ltac binds H := repeat (let v := fresh "v" in let E := fresh "E" in apply bind_ok in H as (v & E & H)).
Ltac copied := repeat match goal with H : copy_if _ _ _ _ _ _ = Ok _ |- _ => apply lenZ_copy_if in H end.

Lemma v11_ok raw p out d : bytes_ok raw → count_ok out → GetDataCallFromDataCallList_v11 raw p out = Ok d → decoded_ok d.
Proof.
  intros Hraw Hc H. unfold GetDataCallFromDataCallList_v11 in H. binds H. injection H as <-. copied.
  split; [split; [|split]|split]; [split..| | |]; cbn; try done; by eapply rd_byte.
Qed.
Lemma v10_ok raw out i p n ok d : bytes_ok raw → count_ok out → GetDataCallFromDataCallList_v10 raw out i p n = Ok (ok, d) → ok = true → decoded_ok d.
Proof.
  intros Hraw Hc H Hok. unfold GetDataCallFromDataCallList_v10 in H. destruct (_ || _ || _); [injection H as <- _; done|]. cbv zeta in H. binds H.
  injection H as <- <-. copied. split; [split; [|split]|split]; [split..| | |]; cbn; try done; by eapply rd_byte.
Qed.
Lemma cleared_ok : decoded_ok cleared.
Proof. split; [by_eval|by_eval]. Qed.
Lemma set_ext_ok v n v4 v6 d : decoded_ok d → 0 <= n <= MAX_PCSCF_EXT_NUM → lenZ v4 = lenZ (pcscf (ipv4 d)) → lenZ v6 = lenZ (pcscf (ipv6 d)) → decoded_ok (set_ext v n v4 v6 d).
Proof. intros (([A1 A2] & [B1 B2] & _) & Hb) Hn H4 H6. split; [split; [|split]|done]; [split..|]; cbn; congruence || done. Qed.
Lemma set_retry_ok t o d : decoded_ok d → decoded_ok (set_retry t o d).
Proof. done. Qed.
Lemma legacy_ok d : decoded_ok d → decoded_ok (fillPcscfExtInfoForLegacy d).
Proof. intros H. by apply set_ext_ok. Qed.
Lemma ext_ok raw out p t : decoded_ok out → processPcscfExtension raw out p = Ok t → decoded_ok t.2.
Proof.
  intros Hd H. unfold processPcscfExtension in H. apply bind_ok in H as ([data|] & _ & H).
  - apply bind_ok in H as (pt & _ & H). apply bind_ok in H as (o & Ho & [= <-]). unfold FillPcscfExt in Ho. binds Ho. injection Ho as <-. copied.
    by apply set_ext_ok.
  - injection H as <-. by apply legacy_ok.
Qed.
Lemma retry_ok raw out p n d : decoded_ok out → fillExtInfoForLpRetryTime raw out p n = Ok d → decoded_ok d.
Proof. intros Hd (t & _ & [= <-])%bind_ok. by apply set_retry_ok. Qed.
Lemma ambr_ok raw out p n d : decoded_ok out → fillAMBR raw out p n = Ok d → decoded_ok d.
Proof. intros Hd (t & _ & [= <-])%bind_ok. by apply set_retry_ok. Qed.
Lemma if_ok (b : bool) (f : res DataCall) x d : (f = Ok d → decoded_ok d) → decoded_ok x → (if b then f else Ok x) = Ok d → decoded_ok d.
Proof. destruct b; [done|]. by intros _ Hx [= <-]. Qed.

Lemma fill_item_ok raw dct base num i d : bytes_ok raw → fill_item raw dct base num i = Ok d → decoded_ok d.
Proof.
  intros Hraw H. assert (count_ok cleared) as Hc by by_eval. destruct dct; cbn [fill_item] in H; cbv zeta in H; apply bind_ok in H as (o & Eo & H).
  1: { destruct o as [ok o]. injection H as <-. destruct ok; apply legacy_ok; [by eapply v10_ok|apply cleared_ok]. }
  all: apply v11_ok in Eo; [|done..].
  - injection H as <-. by apply legacy_ok.
  - apply bind_ok in H as (t & Et & [= <-]). by eapply ext_ok.
  - apply bind_ok in H as ([w o'] & Et & H). apply ext_ok in Et; [|done]. by eapply retry_ok.
  - apply bind_ok in H as ([w o'] & Et & H). apply ext_ok in Et; [|done]. apply bind_ok in H as (o2 & E2 & H). apply retry_ok in E2; [|done].
    eapply if_ok; [|exact E2|exact H]. by eapply ambr_ok.
Qed.
Lemma Fill_ok raw dct base num l : bytes_ok raw → 0 <= num → FillDataCallListFromModemPayload raw dct base num = Ok l → Forall decoded_ok l ∧ lenZ l = num.
Proof.
  intros Hraw Hn H. unfold FillDataCallListFromModemPayload in H.
  assert (Forall decoded_ok l ∧ lenZ l = 0 + Z.of_nat (Z.to_nat num)) as [? ?]; [|split; [done|lia] ].
  eapply (for_up_ok_inv (λ i l, Forall decoded_ok l ∧ lenZ l = i)); [done| |exact H].
  intros i l1 l2 _ [Hl Hi] (d & Ed & [= <-])%bind_ok. split; [apply Forall_app; split; [done|constructor; [by eapply fill_item_ok|done] ]|].
  rewrite lenZ_app, Hi. done.
Qed.
Lemma InitList_ok raw hdr l : bytes_ok raw → InitList raw hdr = Ok l → Forall decoded_ok l ∧ lenZ l <= MAX_DATA_CALL_SIZE.
Proof.
  intros Hraw (num & Hnum & H)%bind_ok. cbv zeta in H. apply rd_byte in Hnum as [Hb _]; [|done]. apply Fill_ok in H as [? ->]; [|done|unfold MAX_DATA_CALL_SIZE; lia].
  split; [done|]. lia.
Qed.
Lemma setup_ok raw d : bytes_ok raw → ProtocolPsSetupDataCallAdapter (Some raw) = Ok d → decoded_ok d.
Proof.
  intros Hraw H. assert (count_ok cleared) as Hc by by_eval. unfold ProtocolPsSetupDataCallAdapter in H. apply bind_ok in H as (e & _ & H).
  destruct (negb _); [injection H as <-; apply cleared_ok|]. apply bind_ok in H as (i & _ & H).
  destruct (negb _); [injection H as <-; apply cleared_ok|]. cbv zeta in H. destruct (_ <=? _).
  - apply bind_ok in H as (o & Eo & H). apply v11_ok in Eo; [|done..]. destruct (_ <=? _); [|injection H as <-; by apply legacy_ok].
    apply bind_ok in H as ([w o'] & Et & H). apply ext_ok in Et; [|done]. apply bind_ok in H as (o2 & E2 & H).
    assert (decoded_ok o2) by (eapply if_ok; [|exact Et|exact E2]; by eapply retry_ok). eapply if_ok; [|done|exact H]. by eapply ambr_ok.
  - apply bind_ok in H as ([ok o] & Eo & [= <-]). destruct ok; apply legacy_ok; [by eapply v10_ok|apply cleared_ok].
Qed.

(** ** The layouts, field by field *)

(** an item as the modem means it; the old layout has the first fields only *)
Record Item := {
  it_status : Z; it_cid : Z; it_active : Z; it_type : Z; it_address : list Z; it_dns_type : Z; it_dns1 : list Z; it_dns2 : list Z;
  it_pcscf_type : Z; it_pcscf : list Z; it_mtu : Z; it_pco : Z;
  it_version : Z; it_next : Z; it_pcscf4 : list Z; it_pcscf6 : list Z; it_low : Z; it_retry : Z; it_ambr : list Z
}.
Record item_wf (it : Item) : Prop := {
  iw_status : - 2 ^ 15 <= it_status it < 2 ^ 15; iw_mtu : - 2 ^ 31 <= it_mtu it < 2 ^ 31; iw_retry : - 2 ^ 31 <= it_retry it < 2 ^ 31;
  iw_address : lenZ (it_address it) = 20; iw_dns1 : lenZ (it_dns1 it) = 20; iw_dns2 : lenZ (it_dns2 it) = 20;
  iw_pcscf : lenZ (it_pcscf it) = 60; iw_pcscf4 : lenZ (it_pcscf4 it) = 20; iw_pcscf6 : lenZ (it_pcscf6 it) = 80; iw_ambr : lenZ (it_ambr it) = 7;
  iw_ambr_bytes : bytes_ok (it_ambr it)
}.
Definition head_fields (it : Item) : list (list Z) :=
  [le16 (u16 (it_status it)); [it_cid it]; [it_active it]; [it_type it]; it_address it].
Definition base_fields (it : Item) : list (list Z) :=
  head_fields it ++ [[it_dns_type it]; it_dns1 it; it_dns2 it; [it_pcscf_type it]; it_pcscf it; le32 (u32 (it_mtu it)); [it_pco it]].
Definition ext_fields (it : Item) : list (list Z) := [[it_version it]; [it_next it]; it_pcscf4 it; it_pcscf6 it].
Definition retry_fields (it : Item) : list (list Z) := [[it_low it]; le32 (u32 (it_retry it))].
Definition item_fields (t : dc_type) (it : Item) : list (list Z) :=
  match t with
  | DC_V10 => head_fields it ++ [it_dns1 it; it_dns2 it; it_pcscf it]
  | DC_V11 => base_fields it
  | DC_EXTENSION => base_fields it ++ ext_fields it
  | DC_RETRYTIME => base_fields it ++ ext_fields it ++ retry_fields it
  | DC_AMBR => base_fields it ++ ext_fields it ++ retry_fields it ++ [it_ambr it]
  end.
Definition item_bytes (t : dc_type) (it : Item) : list Z := concat (item_fields t it).

(** a field of both versions: four bytes, then sixteen *)
Definition part4 (c : bool) (b : list Z) : list Z := if c then take 4 b else fill 4 0.
Definition part6 (c : bool) (b : list Z) : list Z := if c then take 16 (drop 4 b) else fill 16 0.
Definition servers4 (c : bool) (b : list Z) : list Z := (if c then take 12 b else fill 12 0) ++ fill 20 0.
Definition servers6 (c : bool) (b : list Z) : list Z := (if c then take 48 (drop 12 b) else fill 48 0) ++ fill 80 0.
Definition base_call (it : Item) (out : DataCall) : DataCall :=
  {| dc_status := it_status it; suggestedRetryTime := suggestedRetryTime out; dc_cid := it_cid it; dc_active := it_active it; pdpType := it_type it;
     ipv4 := {| valid := has4 (it_type it); addr := part4 (has4 (it_type it)) (it_address it);
                dns1 := part4 (has4 (it_dns_type it)) (it_dns1 it); dns2 := part4 (has4 (it_dns_type it)) (it_dns2 it); gw := fill 4 0;
                pcscf := servers4 (has4 (it_pcscf_type it)) (it_pcscf it) |};
     ipv6 := {| valid := has6 (it_type it); addr := part6 (has6 (it_type it)) (it_address it);
                dns1 := part6 (has6 (it_dns_type it)) (it_dns1 it); dns2 := part6 (has6 (it_dns_type it)) (it_dns2 it); gw := fill 16 0;
                pcscf := servers6 (has6 (it_pcscf_type it)) (it_pcscf it) |};
     mtu_size := it_mtu it; pco := it_pco it; IPC_version := IPC_version out; pcscf_ext_count := pcscf_ext_count out; ambr := ambr out |}.

(** [memcpy] of a field that lies in a chunk *)
Lemma copy_chunk fs k x c off o n at_ dst : fs !! k = Some x → off = size_of (take k fs) + o → 0 <= o → 0 <= n → o + n <= lenZ x →
  0 <= at_ → at_ + n <= lenZ dst →
  copy_if (concat fs) c off n at_ dst
  = Ok (if c then take (Z.to_nat at_) dst ++ take (Z.to_nat n) (drop (Z.to_nat o) x) ++ drop (Z.to_nat (at_ + n)) dst else dst).
Proof.
  intros Hk Hoff Ho Hn Hx Ha Hd. unfold copy_if. destruct c; [|done]. rewrite (rdn_chunk fs k x off o n) by done. cbn [mbind res_bind].
  assert (lenZ (take (Z.to_nat n) (drop (Z.to_nat o) x)) = n) as Hl by (unfold lenZ in *; rewrite length_take, length_drop; lia).
  rewrite wrn_ok by lia. do 3 f_equal. unfold lenZ in Hl. f_equal. lia.
Qed.

Ltac sizes :=
  repeat match goal with fs := _ : list (list Z) |- _ => unfold fs; clear fs end;
  cbn [take size_of foldr base_fields head_fields ext_fields retry_fields item_fields app]; unfold lenZ in *; unfold le16, le32; cbn [length app]; lia.
(** one step of a decoder: the field [k] of the block *)
Ltac field lem := etrans; [apply (bind_eq _ _ _ lem)|]; cbn beta.

Lemma base_decode pre it rest out p fs : item_wf it → lenZ pre = p → fs = pre :: base_fields it ++ rest →
  GetDataCallFromDataCallList_v11 (concat fs) p out = Ok (base_call it out).
Proof.
  intros [H1 H2 _ H3 H4 H5 H6 _ _ _ _] Hp ->. unfold GetDataCallFromDataCallList_v11. set (fs := pre :: base_fields it ++ rest).
  field (rd16_chunk fs 1 _ p eq_refl ltac:(sizes) (u16_range _)).
  field (rd_chunk fs 2 _ (p + 2) eq_refl ltac:(sizes)).
  field (rd_chunk fs 3 _ (p + 3) eq_refl ltac:(sizes)).
  field (rd_chunk fs 4 _ (p + 4) eq_refl ltac:(sizes)).
  field (rd32_chunk fs 11 _ (p + 127) eq_refl ltac:(sizes) (u32_range _)).
  field (rd_chunk fs 12 _ (p + 131) eq_refl ltac:(sizes)).
  field (copy_chunk fs 5 _ (has4 (it_type it)) (p + 5) 0 4 0 (fill 4 0) eq_refl ltac:(sizes) ltac:(lia) ltac:(lia) ltac:(lia) ltac:(lia) ltac:(done)).
  field (copy_chunk fs 5 _ (has6 (it_type it)) (p + 5 + 4) 4 16 0 (fill 16 0) eq_refl ltac:(sizes) ltac:(lia) ltac:(lia) ltac:(lia) ltac:(lia) ltac:(done)).
  field (rd_chunk fs 6 _ (p + 25) eq_refl ltac:(sizes)).
  field (copy_chunk fs 7 _ (has4 (it_dns_type it)) (p + 26) 0 4 0 (fill 4 0) eq_refl ltac:(sizes) ltac:(lia) ltac:(lia) ltac:(lia) ltac:(lia) ltac:(done)).
  field (copy_chunk fs 8 _ (has4 (it_dns_type it)) (p + 46) 0 4 0 (fill 4 0) eq_refl ltac:(sizes) ltac:(lia) ltac:(lia) ltac:(lia) ltac:(lia) ltac:(done)).
  field (copy_chunk fs 7 _ (has6 (it_dns_type it)) (p + 26 + 4) 4 16 0 (fill 16 0) eq_refl ltac:(sizes) ltac:(lia) ltac:(lia) ltac:(lia) ltac:(lia) ltac:(done)).
  field (copy_chunk fs 8 _ (has6 (it_dns_type it)) (p + 46 + 4) 4 16 0 (fill 16 0) eq_refl ltac:(sizes) ltac:(lia) ltac:(lia) ltac:(lia) ltac:(lia) ltac:(done)).
  field (rd_chunk fs 9 _ (p + 66) eq_refl ltac:(sizes)).
  field (copy_chunk fs 10 _ (has4 (it_pcscf_type it)) (p + 67) 0 12 0 (fill 32 0) eq_refl ltac:(sizes) ltac:(lia) ltac:(lia) ltac:(lia) ltac:(lia) ltac:(done)).
  field (copy_chunk fs 10 _ (has6 (it_pcscf_type it)) (p + 67 + 12) 12 48 0 (fill 128 0) eq_refl ltac:(sizes) ltac:(lia) ltac:(lia) ltac:(lia) ltac:(lia) ltac:(done)).
  unfold base_call, part4, part6, servers4, servers6. rewrite i16_u16, i32_u32 by done.
  destruct (has4 (it_type it)), (has6 (it_type it)), (has4 (it_dns_type it)), (has6 (it_dns_type it)), (has4 (it_pcscf_type it)), (has6 (it_pcscf_type it));
    do 2 f_equal; cbn; rewrite ?app_nil_r; reflexivity.
Qed.

(** the calls of the layouts *)
Definition both (t : Z) : nat := if t =? SIT_PDP_PDP_TYPE_IPV4IPV6 then 4%nat else 0%nat.
Definition old_call (it : Item) : DataCall :=
  let t := it_type it in
  {| dc_status := it_status it; suggestedRetryTime := 0; dc_cid := it_cid it; dc_active := it_active it; pdpType := t;
     ipv4 := {| valid := has4 t; addr := part4 (has4 t) (it_address it); dns1 := part4 (has4 t) (it_dns1 it); dns2 := part4 (has4 t) (it_dns2 it);
                gw := fill 4 0; pcscf := servers4 (has4 t) (it_pcscf it) |};
     ipv6 := {| valid := has6 t; addr := if has6 t then take 16 (drop (both t) (it_address it)) else fill 16 0;
                dns1 := if has6 t then take 16 (drop (both t) (it_dns1 it)) else fill 16 0;
                dns2 := if has6 t then take 16 (drop (both t) (it_dns2 it)) else fill 16 0; gw := fill 16 0;
                pcscf := (if has6 t then take 48 (drop (3 * both t) (it_pcscf it)) else fill 48 0) ++ fill 80 0 |};
     mtu_size := 0; pco := 0; IPC_version := 0; pcscf_ext_count := 0; ambr := fill 7 0 |}.
(** with a version of 2 or more the five further servers follow the three of the item *)
Definition ext_call (it : Item) : DataCall :=
  let d := base_call it cleared in
  if 2 <=? it_version it
  then set_ext (it_version it) 5
         (if Z.testbit (it_pcscf_type it) 0 then take 12 (pcscf (ipv4 d)) ++ it_pcscf4 it else pcscf (ipv4 d))
         (if Z.testbit (it_pcscf_type it) 1 then take 48 (pcscf (ipv6 d)) ++ it_pcscf6 it else pcscf (ipv6 d)) d
  else fillPcscfExtInfoForLegacy d.
(** in the longest layout the retry time is taken from the last four octets of the bit rates *)
Definition octets_retry (it : Item) : Z :=
  match it_ambr it with [_; _; _; a; b; c; d] => i32 (a + 256 * b + 65536 * (c + 256 * d)) | _ => 0 end.
Definition item_call (t : dc_type) (it : Item) : DataCall :=
  match t with
  | DC_V10 => fillPcscfExtInfoForLegacy (old_call it)
  | DC_V11 => fillPcscfExtInfoForLegacy (base_call it cleared)
  | DC_EXTENSION => ext_call it
  | DC_RETRYTIME => set_retry (it_retry it) (fill 7 0) (ext_call it)
  | DC_AMBR => set_retry (octets_retry it) (if it_version it =? 4 then it_ambr it else fill 7 0) (ext_call it)
  end.

Lemma bit_set t k : 0 <= k → negb (Z.land t (2 ^ k) =? 0) = Z.testbit t k.
Proof.
  intros Hk. destruct (Z.testbit t k) eqn:E.
  - destruct (Z.eqb_spec (Z.land t (2 ^ k)) 0) as [H|]; [|done]. apply (f_equal (λ z, Z.testbit z k)) in H.
    by rewrite Z.land_spec, E, Z.pow2_bits_true, Z.bits_0 in H.
  - replace (Z.land t (2 ^ k)) with 0; [done|]. symmetry. apply Z.bits_inj'. intros n Hn. rewrite Z.land_spec, Z.bits_0, Z.pow2_bits_eqb by done.
    destruct (Z.eqb_spec k n) as [<-|]; [by rewrite E|by rewrite andb_false_r].
Qed.
Lemma type4_bit t : negb (Z.land (Z.land t SIT_PDP_PDP_TYPE_IPV4IPV6) SIT_PDP_PDP_TYPE_IPV4 =? 0) = Z.testbit t 0.
Proof. rewrite <- Z.land_assoc. by apply (bit_set t 0). Qed.
Lemma type6_bit t : negb (Z.land (Z.land t SIT_PDP_PDP_TYPE_IPV4IPV6) SIT_PDP_PDP_TYPE_IPV6 =? 0) = Z.testbit t 1.
Proof. rewrite <- Z.land_assoc. by apply (bit_set t 1). Qed.

Lemma lenZ_servers4 c b : lenZ b = 60 → lenZ (servers4 c b) = 32.
Proof. intros H. unfold servers4, lenZ in *. rewrite length_app. destruct c; rewrite ?length_take; cbn [fill length]; vm_compute fill; cbn [length]; lia. Qed.
Lemma lenZ_servers6 c b : lenZ b = 60 → lenZ (servers6 c b) = 128.
Proof. intros H. unfold servers6, lenZ in *. rewrite length_app. destruct c; rewrite ?length_take, ?length_drop; vm_compute fill; cbn [length]; lia. Qed.
(** a copy that fills the cells behind the first ones *)
Lemma copy_tail fs k x c off o n at_ dst : fs !! k = Some x → off = size_of (take k fs) + o → 0 <= o → 0 <= n → o + n <= lenZ x →
  0 <= at_ → lenZ dst = at_ + n →
  copy_if (concat fs) c off n at_ dst = Ok (if c then take (Z.to_nat at_) dst ++ take (Z.to_nat n) (drop (Z.to_nat o) x) else dst).
Proof.
  intros Hk Ho H1 H2 H3 H4 H5. rewrite (copy_chunk fs k x c off o n at_ dst) by (done || lia). destruct c; [|done].
  rewrite (drop_ge dst) by (unfold lenZ in H5; lia). by rewrite app_nil_r.
Qed.

Lemma ext_decode pre it rest p fs : item_wf it → lenZ pre = p → fs = pre :: base_fields it ++ ext_fields it ++ rest →
  processPcscfExtension (concat fs) (base_call it cleared) p = Ok (if 2 <=? it_version it then it_version it else 1, ext_call it).
Proof.
  intros Hw Hp ->. set (fs := pre :: base_fields it ++ ext_fields it ++ rest). destruct Hw as [_ _ _ H3 H4 H5 H6 H7 H8 _ _].
  unfold processPcscfExtension, getExtensionPayload, ext_call.
  rewrite (rd_chunk fs 13 (it_version it) (p + LEN_DC_V11) eq_refl) by (unfold LEN_DC_V11; sizes). cbn [mbind res_bind].
  destruct (2 <=? it_version it); [|done]. unfold FillPcscfExt.
  rewrite (rd_chunk fs 9 (it_pcscf_type it) (p + 66) eq_refl) by sizes. cbn [mbind res_bind]. rewrite type4_bit, type6_bit.
  rewrite (copy_tail fs 15 (it_pcscf4 it) _ (p + LEN_DC_V11 + 2) 0 20 12 _ eq_refl);
    [|unfold LEN_DC_V11; sizes|lia|lia|lia|lia|by apply lenZ_servers4]. cbn [mbind res_bind].
  rewrite (copy_tail fs 16 (it_pcscf6 it) _ (p + LEN_DC_V11 + 22) 0 80 48 _ eq_refl);
    [|unfold LEN_DC_V11; sizes|lia|lia|lia|lia|by apply lenZ_servers6]. cbn [mbind res_bind].
  rewrite (rd_chunk fs 13 (it_version it) (p + LEN_DC_V11) eq_refl) by (unfold LEN_DC_V11; sizes). cbn [mbind res_bind].
  change (Z.to_nat 0) with 0%nat. rewrite !drop_0, (take_ge (it_pcscf4 it)), (take_ge (it_pcscf6 it)) by (unfold lenZ in *; lia). done.
Qed.
Lemma retry_decode pre it rest p d fs : item_wf it → lenZ pre = p → fs = pre :: base_fields it ++ ext_fields it ++ retry_fields it ++ rest →
  fillExtInfoForLpRetryTime (concat fs) d p LEN_DC_V11_LP_RETRY = Ok (set_retry (it_retry it) (ambr d) d).
Proof.
  intros [_ _ Hr H3 H4 H5 H6 H7 H8 _ _] Hp ->. set (fs := pre :: base_fields it ++ ext_fields it ++ retry_fields it ++ rest). unfold fillExtInfoForLpRetryTime.
  rewrite (rd32_chunk fs 18 (u32 (it_retry it)) _ eq_refl); [|change LEN_DC_V11_LP_RETRY with 239; unfold sizeof_lp_retrytime; sizes|apply u32_range].
  cbn [mbind res_bind]. by rewrite i32_u32.
Qed.
Lemma ambr_decode pre it rest p d fs : item_wf it → lenZ pre = p → fs = pre :: base_fields it ++ ext_fields it ++ retry_fields it ++ it_ambr it :: rest →
  fillExtInfoForLpRetryTime (concat fs) d p LEN_DC_V11_AMBR = Ok (set_retry (octets_retry it) (ambr d) d) ∧
  fillAMBR (concat fs) d p LEN_DC_V11_AMBR = Ok (set_retry (suggestedRetryTime d) (it_ambr it) d).
Proof.
  intros [_ _ Hr H3 H4 H5 H6 H7 H8 H9 _] Hp ->. set (fs := pre :: base_fields it ++ ext_fields it ++ retry_fields it ++ it_ambr it :: rest).
  split; unfold fillExtInfoForLpRetryTime, fillAMBR.
  - assert (size_of (take 19 fs) = p + 239) as Es by sizes. destruct (concat_at fs 19 (it_ambr it) eq_refl) as [Ec El]. rewrite Ec.
    replace (p + LEN_DC_V11_AMBR - sizeof_lp_retrytime + 1) with (p + 239 + 3) by (change LEN_DC_V11_AMBR with 246; unfold sizeof_lp_retrytime; lia).
    rewrite rd32_local by lia. unfold octets_retry. clear - H9. revert H9.
    destruct (it_ambr it) as [|? [|? [|? [|? [|? [|? [|? [|? ?] ] ] ] ] ] ] ]; try done; intros H9; unfold lenZ in H9; cbn [length] in H9; lia.
  - rewrite (rdn_chunk fs 19 (it_ambr it) _ 0 sizeof_ambr eq_refl); [|change LEN_DC_V11_AMBR with 246; unfold sizeof_ambr; sizes|lia|done|by rewrite H9].
    cbn [mbind res_bind]. rewrite drop_0, take_ge; [done|]. unfold lenZ in H9. change sizeof_ambr with 7. lia.
Qed.
(** the old layout: item [i] of a list whose first [i] items are in [pre] *)
Lemma old_decode pre it rest base i n fs : item_wf it → lenZ pre = base + LEN_DC_V10 * i → 0 <= i < n → fs = pre :: item_fields DC_V10 it ++ rest →
  GetDataCallFromDataCallList_v10 (concat fs) cleared i base n = Ok (true, old_call it).
Proof.
  intros [H1 _ _ H3 H4 H5 H6 _ _ _ _] Hp Hi ->. unfold GetDataCallFromDataCallList_v10. set (fs := pre :: item_fields DC_V10 it ++ rest).
  replace ((i <? 0) || (n <? 0) || (n <=? i)) with false by lia. cbv zeta. set (p := base + LEN_DC_V10 * i) in *.
  remember (both (it_type it)) as o eqn:Eo.
  assert ((if it_type it =? SIT_PDP_PDP_TYPE_IPV4IPV6 then 4 else 0) = Z.of_nat o) as Eif by (rewrite Eo; unfold both; by destruct (_ =? _)).
  assert (o <= 4)%nat as Ho by (rewrite Eo; unfold both; destruct (_ =? _); lia). clearbody p.
  field (rd16_chunk fs 1 _ p eq_refl ltac:(sizes) (u16_range _)).
  field (rd_chunk fs 2 _ (p + 2) eq_refl ltac:(sizes)).
  field (rd_chunk fs 3 _ (p + 3) eq_refl ltac:(sizes)).
  field (rd_chunk fs 4 _ (p + 4) eq_refl ltac:(sizes)). cbv zeta. rewrite Eif.
  field (copy_chunk fs 5 _ (has4 (it_type it)) (p + 5) 0 4 0 (fill 4 0) eq_refl ltac:(sizes) ltac:(lia) ltac:(lia) ltac:(lia) ltac:(lia) ltac:(done)).
  field (copy_chunk fs 6 _ (has4 (it_type it)) (p + 25) 0 4 0 (fill 4 0) eq_refl ltac:(sizes) ltac:(lia) ltac:(lia) ltac:(lia) ltac:(lia) ltac:(done)).
  field (copy_chunk fs 7 _ (has4 (it_type it)) (p + 45) 0 4 0 (fill 4 0) eq_refl ltac:(sizes) ltac:(lia) ltac:(lia) ltac:(lia) ltac:(lia) ltac:(done)).
  field (copy_chunk fs 8 _ (has4 (it_type it)) (p + 65) 0 12 0 (fill 32 0) eq_refl ltac:(sizes) ltac:(lia) ltac:(lia) ltac:(lia) ltac:(lia) ltac:(done)).
  field (copy_chunk fs 5 _ (has6 (it_type it)) (p + 5 + Z.of_nat o) (Z.of_nat o) 16 0 (fill 16 0) eq_refl ltac:(sizes) ltac:(lia) ltac:(lia) ltac:(lia) ltac:(lia) ltac:(done)).
  field (copy_chunk fs 6 _ (has6 (it_type it)) (p + 25 + Z.of_nat o) (Z.of_nat o) 16 0 (fill 16 0) eq_refl ltac:(sizes) ltac:(lia) ltac:(lia) ltac:(lia) ltac:(lia) ltac:(done)).
  field (copy_chunk fs 7 _ (has6 (it_type it)) (p + 45 + Z.of_nat o) (Z.of_nat o) 16 0 (fill 16 0) eq_refl ltac:(sizes) ltac:(lia) ltac:(lia) ltac:(lia) ltac:(lia) ltac:(done)).
  field (copy_chunk fs 8 _ (has6 (it_type it)) (p + 65 + 3 * Z.of_nat o) (3 * Z.of_nat o) 48 0 (fill 128 0) eq_refl ltac:(sizes) ltac:(lia) ltac:(lia) ltac:(lia) ltac:(lia) ltac:(done)).
  unfold old_call, part4, part6, servers4. rewrite <- Eo, i16_u16 by done. rewrite !Nat2Z.id. replace (Z.to_nat (3 * Z.of_nat o)) with (3 * o)%nat by lia.
  destruct (has4 (it_type it)), (has6 (it_type it)); do 3 f_equal; cbn -[drop Nat.mul]; rewrite ?app_nil_r; reflexivity.
Qed.

Lemma length_item t it : item_wf it → lenZ (item_bytes t it) = dc_item_size t.
Proof.
  intros [_ _ _ H3 H4 H5 H6 H7 H8 H9 _]. unfold item_bytes. rewrite lenZ_concat.
  destruct t; [change (dc_item_size _) with 125|change (dc_item_size _) with 132|change (dc_item_size _) with 234|change (dc_item_size _) with 239|change (dc_item_size _) with 246]; sizes.
Qed.
Lemma fill_item_decode t pre it post base n i : item_wf it → lenZ pre = base + dc_item_size t * i → 0 <= i < n →
  fill_item (pre ++ item_bytes t it ++ post) t base n i = Ok (item_call t it).
Proof.
  intros Hw Hp Hi. unfold fill_item. set (p := base + dc_item_size t * i). fold p in Hp.
  assert (pre ++ item_bytes t it ++ post = concat (pre :: item_fields t it ++ [post])) as ->
    by (cbn [concat]; rewrite concat_app; unfold item_bytes; cbn [concat]; by rewrite app_nil_r).
  destruct t; cbn [item_fields].
  - rewrite (old_decode pre it [post]) by done. done.
  - rewrite (base_decode pre it [post]) by done. done.
  - rewrite (base_decode pre it (ext_fields it ++ [post])) by (done || by rewrite <- app_assoc). cbn [mbind res_bind].
    rewrite (ext_decode pre it [post]) by (done || by rewrite <- app_assoc). done.
  - rewrite (base_decode pre it ((ext_fields it ++ retry_fields it) ++ [post])) by (done || by rewrite <- app_assoc). cbn [mbind res_bind].
    rewrite (ext_decode pre it (retry_fields it ++ [post])) by (done || by rewrite <- !app_assoc). cbn [mbind res_bind].
    rewrite (retry_decode pre it [post]) by (done || by rewrite <- !app_assoc). cbn [item_call].
    unfold ext_call. by destruct (2 <=? _).
  - set (fs := pre :: _ ++ [post]).
    assert (fs = pre :: base_fields it ++ ext_fields it ++ retry_fields it ++ it_ambr it :: [post]) as Hfs by (unfold fs; by rewrite <- !app_assoc). clearbody fs.
    rewrite (base_decode pre it (ext_fields it ++ retry_fields it ++ it_ambr it :: [post])) by done. cbn [mbind res_bind].
    rewrite (ext_decode pre it (retry_fields it ++ it_ambr it :: [post])) by done. cbn [mbind res_bind].
    destruct (ambr_decode pre it [post] p (ext_call it) fs Hw Hp Hfs) as [-> _]. cbn [mbind res_bind].
    set (d := set_retry _ _ _). destruct (ambr_decode pre it [post] p d fs Hw Hp Hfs) as [_ ->]. subst d. cbn [item_call]. unfold ext_call.
    destruct (Z.leb_spec 2 (it_version it)) as [Hv|Hv].
    + by destruct (it_version it =? 4).
    + replace (it_version it =? 4) with false by lia. done.
Qed.

Definition list_frame (hdr : list Z) (t : dc_type) (l : list Item) : list Z := hdr ++ [lenZ l] ++ concat (item_bytes t <$> l).

Lemma length_items t l : Forall item_wf l → lenZ (concat (item_bytes t <$> l)) = lenZ l * dc_item_size t.
Proof.
  induction 1 as [|it l Hw _ IH]; [done|]. rewrite fmap_cons. cbn [concat]. rewrite lenZ_app, lenZ_cons, IH, length_item by done. lia.
Qed.
Lemma list_type_frame hdr t l : lenZ hdr = sizeof_RCM_IND_HEADER → Forall item_wf l → 0 < lenZ l → list_type (list_frame hdr t l) (lenZ l) = t.
Proof.
  intros Hh Hw Hl. unfold list_type, list_frame. rewrite !lenZ_app, lenZ_cons, (length_items t l Hw), Hh.
  change LEN_DC_V11_IND_HDR with 9. change sizeof_RCM_IND_HEADER with 8. change LEN_DC_V11_PCSCF_EXT with 234. change LEN_DC_V11_LP_RETRY with 239.
  change LEN_DC_V11_AMBR with 246. unfold LEN_DC_V11. change (lenZ (@nil Z)) with 0.
  destruct t; cbn [dc_item_size]; [unfold LEN_DC_V10|unfold LEN_DC_V11|change LEN_DC_V11_PCSCF_EXT with 234|change LEN_DC_V11_LP_RETRY with 239|change LEN_DC_V11_AMBR with 246].
  all: repeat match goal with |- context [if ?a =? ?b then _ else _] => destruct (Z.eqb_spec a b); [first [done|exfalso; lia]|] end; first [done|exfalso; lia].
Qed.
Lemma list_frame_at hdr t l i it : Forall item_wf l → l !! i = Some it →
  ∃ pre post, list_frame hdr t l = pre ++ item_bytes t it ++ post ∧ lenZ pre = lenZ hdr + 1 + dc_item_size t * Z.of_nat i.
Proof.
  intros Hw Hi. exists (hdr ++ [lenZ l] ++ concat (item_bytes t <$> take i l)), (concat (item_bytes t <$> drop (S i) l)). split.
  - unfold list_frame. rewrite <- (take_drop_middle l i it Hi) at 2. rewrite fmap_app, fmap_cons, concat_app. cbn [concat]. by rewrite <- !app_assoc.
  - rewrite !lenZ_app, length_items by by apply Forall_take. apply lookup_lt_Some in Hi. unfold lenZ. rewrite length_take_le by lia. cbn [length]. lia.
Qed.
Lemma Fill_decode hdr t l n : Forall item_wf l → 0 <= n <= lenZ l →
  FillDataCallListFromModemPayload (list_frame hdr t l) t (lenZ hdr + 1) n = Ok (item_call t <$> take (Z.to_nat n) l).
Proof.
  intros Hw Hn. unfold FillDataCallListFromModemPayload.
  destruct (for_up_inv (λ i r, r = item_call t <$> take (Z.to_nat i) l) (Z.to_nat n) 0
    (λ i r, d ← fill_item (list_frame hdr t l) t (lenZ hdr + 1) n i; Ok (r ++ [d])) []) as (r & Er & Hr).
  - done.
  - intros i r Hi ->. destruct (lookup_lt_is_Some_2 l (Z.to_nat i)) as [it Hit]; [unfold lenZ in Hn; lia|].
    destruct (list_frame_at hdr t l _ it Hw Hit) as (pre & post & -> & Hp). exists (item_call t <$> take (Z.to_nat (i + 1)) l).
    rewrite Z2Nat.id in Hp by lia. rewrite fill_item_decode; [|by eapply Forall_lookup_1|lia|lia]. cbn [mbind res_bind]. split; [|done].
    replace (Z.to_nat (i + 1)) with (S (Z.to_nat i)) by lia. by rewrite (take_S_r _ _ it Hit), fmap_app.
  - rewrite Er, Hr. do 3 f_equal. lia.
Qed.

(** C17: The list of data calls of an indication is read back: in each of the five
    layouts (old, plain, with the further P-CSCF servers, with the retry time,
    with the bit rates) the frame built from the well-formed fields of any
    number of calls is recognised by its length and gives, for the first four,
    the calls with those fields.  The addresses a type does not use are zero, and
    the further servers follow when the version is 2 or more.  The exception is
    the retry time of the longest layout: it is what the last four octets of the
    bit rates read as, not the field that was sent ([ambr_layout_retry]).  The
    answer to a list request, whose header is longer, is another adapter. *)
Theorem list_frame_decodes hdr t l :
  lenZ hdr = sizeof_RCM_IND_HEADER → rd16 hdr off_id = Ok SIT_IND_DATA_CALL_LIST_CHANGED → Forall item_wf l →
  ProtocolPsDataCallListChangedAdapter (Some (list_frame hdr t l)) = Ok (item_call t <$> take 4 l).
Proof.
  intros Hh Hid Hw. unfold ProtocolPsDataCallListChangedAdapter, InitList.
  pose proof (rd16_local [] hdr ([lenZ l] ++ concat (item_bytes t <$> l)) 0 off_id eq_refl ltac:(done) ltac:(by rewrite Hh)) as Hi.
  change ([] ++ hdr ++ _) with (list_frame hdr t l) in Hi. change (0 + off_id) with off_id in Hi. rewrite Hi, Hid. cbn [mbind res_bind]. rewrite Z.eqb_refl.
  pose proof (rd_local hdr [lenZ l] (concat (item_bytes t <$> l)) _ 0 Hh ltac:(done)) as Hn. rewrite Z.add_0_r in Hn. change (hdr ++ _ ++ _) with (list_frame hdr t l) in Hn. change ([lenZ l].[0]) with (Ok (lenZ l)) in Hn. rewrite Hn. cbn [mbind res_bind]. cbv zeta.
  assert (0 <= lenZ l) as H0 by (unfold lenZ; lia). destruct (decide (0 < lenZ l)) as [Hl|Hl].
  - rewrite (list_type_frame hdr t l Hh Hw Hl). rewrite <- Hh, (Fill_decode hdr t l _ Hw) by (unfold MAX_DATA_CALL_SIZE; lia).
    do 2 f_equal. unfold MAX_DATA_CALL_SIZE, lenZ. destruct (decide (length l <= 4)%nat); [|f_equal; lia].
    rewrite !take_ge by lia. done.
  - destruct l as [|x l]; [done|]. exfalso. apply Hl. unfold lenZ. cbn [length]. lia.
Qed.

(** ** Nothing is read behind the frame *)

Section inside.
Context (raw : list Z).
Implicit Types d out : DataCall.

Lemma copy_if_total c off n at_ dst : 0 <= off → 0 <= n → off + n <= lenZ raw → 0 <= at_ → at_ + n <= lenZ dst → ∃ r, copy_if raw c off n at_ dst = Ok r.
Proof.
  intros H1 H2 H3 H4 H5. unfold copy_if. destruct c; [|eauto]. rewrite rdn_ok by done. cbn [mbind res_bind]. rewrite wrn_ok; [eauto|done|].
  unfold lenZ in *. rewrite length_take, length_drop. lia.
Qed.
Lemma rd16_total off : 0 <= off → off + 2 <= lenZ raw → ∃ v, rd16 raw off = Ok v.
Proof. intros H1 H2. pose proof (rd16_spec raw off H1) as H. destruct (Z.leb_spec (off + 2) (lenZ raw)); [|lia]. destruct (rd16 raw off); eauto; done. Qed.
Lemma rd32_total off : 0 <= off → off + 4 <= lenZ raw → ∃ v, rd32 raw off = Ok v.
Proof. intros H1 H2. pose proof (rd32_spec raw off H1) as H. destruct (Z.leb_spec (off + 4) (lenZ raw)); [|lia]. destruct (rd32 raw off); eauto; done. Qed.
Lemma rd_total off : 0 <= off < lenZ raw → ∃ v, raw.[off] = Ok v.
Proof. intros H. destruct (rd_ok raw off H) as (v & E & _). eauto. Qed.
Lemma bind_total {A B} (x : res A) (f : A → res B) : (∃ v, x = Ok v) → (∀ v, x = Ok v → ∃ w, f v = Ok w) → ∃ w, x ≫= f = Ok w.
Proof. intros [v Hv] H. destruct (H v Hv) as [w Hw]. exists w. by rewrite Hv. Qed.
Ltac total :=
  repeat (apply bind_total; [first [apply rd_total; lia|apply rd16_total; lia|apply rd32_total; lia|apply copy_if_total; first [lia|done] ]|intros ? ?]); eauto.

Lemma v11_total p out : 0 <= p → p + LEN_DC_V11 <= lenZ raw → ∃ d, GetDataCallFromDataCallList_v11 raw p out = Ok d.
Proof. unfold LEN_DC_V11. intros Hp Hl. unfold GetDataCallFromDataCallList_v11, MAX_IPV4_ADDR_LEN, MAX_IPV6_ADDR_LEN, MAX_PCSCF_NUM, MAX_PCSCF_EXT_NUM. total. Qed.
Lemma v10_total base out i n : 0 <= base → base + LEN_DC_V10 * n <= lenZ raw → ∃ t, GetDataCallFromDataCallList_v10 raw out i base n = Ok t.
Proof.
  unfold LEN_DC_V10. intros Hp Hl. unfold GetDataCallFromDataCallList_v10, MAX_IPV4_ADDR_LEN, MAX_IPV6_ADDR_LEN, MAX_PCSCF_NUM, MAX_PCSCF_EXT_NUM, LEN_DC_V10.
  destruct (_ || _ || _) eqn:E; [eauto|]. assert (0 <= i < n) as Hi by lia. cbv zeta. assert (0 <= base + 125 * i ∧ base + 125 * i + 125 <= lenZ raw) as [H1 H2] by lia.
  set (p := base + 125 * i) in *. clearbody p. total; match goal with |- context [if ?c then 4 else 0] => destruct c end; total.
Qed.
Lemma ext_total p out : decoded_ok out → 0 <= p → p + LEN_DC_V11_PCSCF_EXT <= lenZ raw → ∃ t, processPcscfExtension raw out p = Ok t.
Proof.
  change LEN_DC_V11_PCSCF_EXT with 234. intros (([_ H4] & [_ H6] & _) & _) Hp Hl. cbn in H4, H6. unfold processPcscfExtension, getExtensionPayload, LEN_DC_V11.
  apply bind_total; [total|]. intros [data|] Hd; [|eauto]. apply bind_ok in Hd as (v & _ & Hd). destruct (2 <=? v); [|done]. injection Hd as <-.
  unfold FillPcscfExt, MAX_IPV4_ADDR_LEN, MAX_IPV6_ADDR_LEN, MAX_PCSCF_NUM, MAX_PCSCF_EXT_NUM in *.
  apply bind_total; [apply rd_total; lia|]. intros pt _. apply bind_total; [total|eauto].
Qed.
Lemma retry_total p out n : 5 <= n → 0 <= p → p + n <= lenZ raw → ∃ d, fillExtInfoForLpRetryTime raw out p n = Ok d.
Proof. intros. unfold fillExtInfoForLpRetryTime, sizeof_lp_retrytime. total. Qed.
Lemma ambr_total p out n : 7 <= n → 0 <= p → p + n <= lenZ raw → ∃ d, fillAMBR raw out p n = Ok d.
Proof. intros. unfold fillAMBR. change sizeof_ambr with 7. rewrite rdn_ok by lia. cbn [mbind res_bind]. eauto. Qed.
Context (Hraw : bytes_ok raw).
Lemma fill_item_total t base n i : 0 <= base → 0 <= i < n → base + dc_item_size t * n <= lenZ raw → ∃ d, fill_item raw t base n i = Ok d.
Proof.
  intros Hb Hi Hl. assert (count_ok cleared) as Hc by by_eval.
  assert (∀ p, p = base + dc_item_size t * i → 0 <= p ∧ p + dc_item_size t <= lenZ raw) as Hp.
  { intros p ->. assert (0 <= dc_item_size t) by by destruct t. nia. }
  unfold fill_item. specialize (Hp _ eq_refl). cbv zeta. set (p := base + dc_item_size t * i) in *. destruct Hp as [Hp Hpl]. clearbody p. destruct t.
  1: { destruct (v10_total base cleared i n) as ([ok o] & ->); [done..|]. cbn [mbind res_bind]. eauto. }
  all: change (dc_item_size DC_V11) with 132 in *; change (dc_item_size DC_EXTENSION) with 234 in *; change (dc_item_size DC_RETRYTIME) with 239 in *;
       change (dc_item_size DC_AMBR) with 246 in *.
  all: destruct (v11_total p cleared) as (o & Eo); [lia|unfold LEN_DC_V11; lia|]; rewrite Eo; apply v11_ok in Eo; [|done..]; cbn [mbind res_bind]; [eauto|..].
  all: destruct (ext_total p o Eo) as ([w o'] & ->); [lia|change LEN_DC_V11_PCSCF_EXT with 234; lia|]; cbn [mbind res_bind]; [eauto|..].
  - by apply retry_total.
  - destruct (retry_total p o' LEN_DC_V11_AMBR) as (o2 & ->); [done|lia|change LEN_DC_V11_AMBR with 246; lia|]. cbn [mbind res_bind].
    destruct (w =? 4); [|eauto]. by apply ambr_total.
Qed.
Lemma Fill_total t base n : 0 <= base → 0 <= n → base + dc_item_size t * n <= lenZ raw → ∃ l, FillDataCallListFromModemPayload raw t base n = Ok l.
Proof.
  intros Hb Hn Hl. unfold FillDataCallListFromModemPayload.
  destruct (for_up_inv (λ _ _, True) (Z.to_nat n) 0 (λ i l, d ← fill_item raw t base n i; Ok (l ++ [d])) []) as (l & El & _); [done| |eauto].
  intros i l Hi _. destruct (fill_item_total t base n i) as (d & ->); [lia..|]. cbn [mbind res_bind]. eauto.
Qed.
End inside.

(** ** The data call list of an indication, from its bytes to the contexts *)

Lemma list_type_inside raw n t : list_type raw n = t → t ≠ DC_V10 → lenZ raw = n * dc_item_size t + LEN_DC_V11_IND_HDR.
Proof.
  intros <-. unfold list_type.
  repeat match goal with |- context [if ?a =? ?b then _ else _] => destruct (Z.eqb_spec a b) as [?|_]; [intros _; cbn [dc_item_size]; congruence|] end. done.
Qed.

(** what a reading comes to: a value, or bytes that are not there *)
Definition reads {A} (r : res A) : Prop := r = UB ∨ ∃ a, r = Ok a.
Lemma reads_ok {A} (a : A) : reads (Ok a).
Proof. right. by exists a. Qed.
Lemma reads_bind {A B} (r : res A) (f : A → res B) : reads r → (∀ a, reads (f a)) → reads (r ≫= f).
Proof. intros [->|[a ->] ] H; [by left|apply H]. Qed.
Lemma reads_rd {A} (l : list A) i : reads (rd l i).
Proof. unfold rd. repeat case_match; first [by left|apply reads_ok]. Qed.
Lemma reads_rd16 raw i : reads (rd16 raw i).
Proof. unfold rd16. repeat (apply reads_bind; [apply reads_rd|intros ?]). apply reads_ok. Qed.
Lemma reads_copy_if raw c off n at_ dst : reads (copy_if raw c off n at_ dst).
Proof.
  unfold copy_if. destruct c; [|apply reads_ok]. apply reads_bind; [unfold rdn; repeat case_match; first [by left|apply reads_ok]|].
  intros b. unfold wrn. repeat case_match; first [by left|apply reads_ok].
Qed.
Lemma reads_v10 raw out i base n : reads (GetDataCallFromDataCallList_v10 raw out i base n).
Proof.
  unfold GetDataCallFromDataCallList_v10. destruct (_ || _); [apply reads_ok|]. cbv zeta.
  repeat (apply reads_bind; [first [apply reads_rd|apply reads_rd16|apply reads_copy_if]|intros ?]). apply reads_ok.
Qed.
Lemma bind_behind {A B} (r : res A) (f : A → res B) : reads r → (∀ a, f a = UB) → r ≫= f = UB.
Proof. intros [->|[a ->] ] H; [done|apply H]. Qed.
(** the fixed fields of an item of the old layout are read whatever they say *)
Lemma v10_behind raw out i base n : 0 <= i < n → 0 <= base → lenZ raw < base + LEN_DC_V10 * i + 5 → GetDataCallFromDataCallList_v10 raw out i base n = UB.
Proof.
  intros Hi Hb Hl. unfold GetDataCallFromDataCallList_v10. replace ((i <? 0) || (n <? 0) || (n <=? i)) with false by lia. cbv zeta.
  apply bind_behind; [apply reads_rd16|intros ?]. do 2 (apply bind_behind; [apply reads_rd|intros ?]).
  rewrite rd_oob by lia. done.
Qed.
Lemma for_up_behind {A} k lo (body : Z → A → res A) x :
  (∀ i y, reads (body i y)) → (∀ y, body (lo + Z.of_nat k) y = UB) → for_up (S k) lo body x = UB.
Proof.
  revert lo x. induction k as [|k IH]; intros lo x Hr Hu; cbn [for_up].
  - replace lo with (lo + Z.of_nat 0) by lia. by rewrite Hu.
  - apply bind_behind; [apply Hr|]. intros y. apply (IH (lo + 1) y Hr). intros z. by replace (lo + 1 + Z.of_nat k) with (lo + Z.of_nat (S k)) by lia.
Qed.
Lemma Fill_behind raw base n : 0 < n → 0 <= base → lenZ raw < base + LEN_DC_V10 * (n - 1) + 5 → FillDataCallListFromModemPayload raw DC_V10 base n = UB.
Proof.
  intros Hn Hb Hl. unfold FillDataCallListFromModemPayload. replace (Z.to_nat n) with (S (Z.to_nat (n - 1))) by lia. apply for_up_behind.
  - intros i l. apply reads_bind; [|intros ?; apply reads_ok]. unfold fill_item. apply reads_bind; [apply reads_v10|]. intros [ok out]. apply reads_ok.
  - intros l. rewrite Z2Nat.id by lia. unfold fill_item. by rewrite v10_behind by lia.
Qed.
(** a call whose identifier is behind the table *)
Lemma inform_all_behind ntop default_dns v4_first (Hntop : ntop_ok ntop) l informed b s :
  Forall (λ d, call_wf d ∧ 0 <= dc_cid d) l → forallb (λ d, dc_cid d <=? MAX_DATA_CALL_SIZE * 2) l = false →
  lenZ informed = MAX_DATA_CALL_SIZE * 2 + 1 → wf s → inform_all ntop default_dns v4_first l (informed, b, s) = UB.
Proof.
  intros Hl. revert informed b s. induction Hl as [|d l [Hw Hd] Hl IH]; intros informed b s Hb Hlen Hs; [done|]. cbn [forallb inform_all] in *.
  destruct (Z.leb_spec (dc_cid d) (MAX_DATA_CALL_SIZE * 2)) as [Hin|Hout].
  - destruct (inform_spec ntop default_dns v4_first Hntop d informed b s) as ([[informed1 b1] s1] & -> & Hlen1 & L1); [by split|done..|].
    cbn [mbind res_bind fst snd] in *. apply IH; [done|done|]. split; apply L1.
  - unfold inform. rewrite wr_oob by lia. done.
Qed.

(** the frame has the calls it counts, unless one of the four newer layouts was recognised by its length *)
Definition holds_calls (raw : list Z) (n : Z) : Prop :=
  list_type raw n = DC_V10 → LEN_DC_V11_IND_HDR + LEN_DC_V10 * Z.min n MAX_DATA_CALL_SIZE <= lenZ raw.
(** C16: From the bytes to the contexts, for a list-changed indication of any bytes that
    counts [n] calls.  A frame whose length is that of one of the four newer
    layouts is decoded without reading behind it, whatever it contains; any other
    frame is taken for the old layout, and is decoded without reading behind it
    if it has the calls it counts.  The result is as many calls as are counted
    but at most four, every one of them well formed.  A frame taken for the old
    layout that ends before the fixed fields of the last call it counts is
    read behind.  When the connection identifiers of the decoded calls are at
    most eight, the packet data service handles the list in every well-formed
    state, ends in a well-formed state and keeps the identifiers of the
    contexts; when one is larger, it writes behind its table. *)
Theorem list_indication_handled ntop default_dns v4_first e s raw n
  (Hs : wf s) (Hntop : ntop_ok ntop) (Hraw : bytes_ok raw) (Hid : rd16 raw off_id = Ok SIT_IND_DATA_CALL_LIST_CHANGED)
  (Hn : raw.[sizeof_RCM_IND_HEADER] = Ok n) :
  (holds_calls raw n →
   ∃ l, ProtocolPsDataCallListChangedAdapter (Some raw) = Ok l ∧ lenZ l = Z.min n MAX_DATA_CALL_SIZE ∧ Forall call_wf l ∧
     if forallb (λ d, dc_cid d <=? MAX_DATA_CALL_SIZE * 2) l
     then ∃ s', step ntop default_dns v4_first e (EvListChanged l) s = Ok s' ∧ wf s' ∧ cids s' = cids s
     else step ntop default_dns v4_first e (EvListChanged l) s = UB) ∧
  (list_type raw n = DC_V10 → 0 < n → lenZ raw < LEN_DC_V11_IND_HDR + LEN_DC_V10 * (Z.min n MAX_DATA_CALL_SIZE - 1) + 5 →
   ProtocolPsDataCallListChangedAdapter (Some raw) = UB).
Proof.
  assert (0 <= n) as Hn0 by (by apply rd_byte in Hn as [? _]).
  unfold ProtocolPsDataCallListChangedAdapter. rewrite Hid. cbn [mbind res_bind]. rewrite Z.eqb_refl. unfold InitList. rewrite Hn. cbn [mbind res_bind]. cbv zeta.
  split; [intros Hold|intros -> Hp Hshort; apply Fill_behind; [unfold MAX_DATA_CALL_SIZE; lia|done|exact Hshort] ].
  destruct (Fill_total raw Hraw (list_type raw n) (sizeof_RCM_IND_HEADER + 1) (Z.min n MAX_DATA_CALL_SIZE)) as (l & El); [done|unfold MAX_DATA_CALL_SIZE; lia|..].
  { change (sizeof_RCM_IND_HEADER + 1) with LEN_DC_V11_IND_HDR. destruct (decide (list_type raw n = DC_V10)) as [E|E]; [rewrite E; by apply Hold|].
    rewrite (list_type_inside raw n _ eq_refl E). set (w := dc_item_size (list_type raw n)).
    assert (0 <= w) by (unfold w; by destruct (list_type raw n)).
    assert (w * Z.min n MAX_DATA_CALL_SIZE <= w * n) by (apply Z.mul_le_mono_nonneg_l; lia). rewrite (Z.mul_comm n w), Z.add_comm.
    by apply Z.add_le_mono_r. }
  exists l. destruct (Fill_ok raw _ _ (Z.min n MAX_DATA_CALL_SIZE) l Hraw ltac:(unfold MAX_DATA_CALL_SIZE; lia) El) as [Hf Hl]. split; [done|]. split; [done|].
  split; [eapply Forall_impl; [exact Hf|by intros d [? _] ]|]. destruct (forallb _ l) eqn:Hc.
  - destruct (step_spec ntop default_dns v4_first Hntop e (EvListChanged l) s Hs) as (s' & Es & [W C _ _ _]); [|by exists s'].
    apply Forall_forall. intros d Hd. rewrite Forall_forall in Hf. rewrite forallb_forall in Hc. destruct (Hf d Hd) as (H1 & [H2 _] & _).
    apply list_elem_of_In, Hc in Hd. split; [done|]. split; [done|lia].
  - cbn [step]. unfold OnDataCallListChanged. rewrite inform_all_behind; [done|done| |done|by_eval|done].
    eapply Forall_impl; [exact Hf|]. by intros d (H1 & [H2 _] & _).
Qed.

(** ** Setup answers *)

(** the layouts with a version are complete for that version *)
Definition version_fits (t : dc_type) (it : Item) : Prop :=
  match t with DC_EXTENSION => it_version it <= 2 | DC_RETRYTIME => it_version it ≠ 4 | _ => True end.
Definition setup_call (t : dc_type) (it : Item) : DataCall :=
  match t with
  | DC_V10 | DC_V11 => item_call t it
  | _ => set_retry (if 3 <=? it_version it then it_retry it else 0) (if it_version it =? 4 then it_ambr it else fill 7 0) (ext_call it)
  end.

Definition error_of (c : Z) : Z :=
  if bool_decide (c ∈ [0; 1; 2; 6; 8; 9]) then c else if c =? 22 then 6 else 2.
Lemma error_table : forallb (λ c, (if bool_decide (ConvertProtocolErrorCodeToRilErrorCode (Z.land c 255) ∈ [0; 1; 2; 6; 8; 9]) then ConvertProtocolErrorCodeToRilErrorCode (Z.land c 255) else 2) =? error_of c)
   (seqZ 0 256) = true.
Proof. vm_compute. reflexivity. Qed.
(** C18: Errors of a setup answer: a successful code is 0 only for the byte 0, the six
    codes the adapter knows are kept, an undefined command is "not supported"
    and every other code, a frame shorter than a header or of another type is a
    generic failure; whenever the code is not a success, the call of the setup
    answer is all zeros and the list of a list answer is empty, whatever bytes
    follow. *)
Theorem setup_errors raw (Hraw : bytes_ok raw) :
  SetupErrorCode None = Ok RIL_E_GENERIC_FAILURE ∧
  ∃ e, SetupErrorCode (Some raw) = Ok e ∧
    (e ≠ RIL_E_SUCCESS → ProtocolPsSetupDataCallAdapter (Some raw) = Ok cleared ∧ ProtocolPsDataCallListAdapter (Some raw) = Ok []) ∧
    (if sizeof_RCM_HEADER <=? lenZ raw
     then ∀ t c, raw.[off_type] = Ok t → raw.[off_error] = Ok c → e = if t =? RCM_TYPE_RESPONSE then error_of c else RIL_E_GENERIC_FAILURE
     else e = RIL_E_GENERIC_FAILURE).
Proof.
  split; [done|]. unfold ProtocolPsSetupDataCallAdapter, ProtocolPsDataCallListAdapter, SetupErrorCode, Rcm.GetErrorCode.
  destruct (Z.leb_spec sizeof_RCM_HEADER (lenZ raw)) as [Hl|Hl]; [|by eexists].
  change sizeof_RCM_HEADER with 12 in Hl. unfold off_type, off_error.
  destruct (rd_ok raw 0) as (t & -> & _); [lia|]. destruct (rd_ok raw 10) as (c & Ec & _); [lia|]. rewrite Ec. cbn [mbind res_bind].
  destruct (t =? RCM_TYPE_RESPONSE) eqn:Et; cbn [mbind res_bind].
  2: { eexists. split; [done|]. split; [done|]. intros t' c' [= <-] _. by rewrite Et. }
  eexists. split; [done|]. split.
  - set (x := ConvertProtocolErrorCodeToRilErrorCode _). intros He. split.
    + apply Z.eqb_neq in He. by rewrite He.
    + destruct (Z.eqb_spec x RIL_E_SUCCESS) as [E|]; [|done]. by rewrite E in He.
  - intros t' c' [= <-] [= <-]. rewrite Et. apply rd_byte in Ec as [H1 H2]; [|done].
    pose proof error_table as T. rewrite forallb_forall in T. specialize (T c).
    apply Z.eqb_eq in T; [done|]. apply list_elem_of_In, elem_of_seqZ. lia.
Qed.

(** A setup answer is read back: the frame with the fields of a call, in any of the
    five layouts, complete for the version it names, gives the call with those
    fields; here the retry time comes from its own field, and only with a
    version of 3 or more, the bit rates with version 4. *)
Theorem setup_frame_decodes hdr t it :
  response_header hdr RIL_E_SUCCESS → rd16 hdr off_id = Ok SIT_SETUP_DATA_CALL → item_wf it → version_fits t it →
  ProtocolPsSetupDataCallAdapter (Some (hdr ++ item_bytes t it)) = Ok (setup_call t it).
Proof.
  intros Hh Hid Hw Hv. assert (lenZ hdr = sizeof_RCM_HEADER) as Hp by apply Hh. unfold ProtocolPsSetupDataCallAdapter, SetupErrorCode.
  rewrite (response_code hdr _ _ Hh). change (Z.land RIL_E_SUCCESS 255) with 0. cbn [mbind res_bind].
  change (negb _) with false at 1. cbv iota.
  pose proof (rd16_local [] hdr (item_bytes t it) 0 off_id eq_refl ltac:(done) ltac:(by rewrite Hp)) as Hi. cbn [app] in Hi. change (0 + off_id) with off_id in Hi.
  rewrite Hi, Hid. cbn [mbind res_bind]. change (negb _) with false at 1. cbv iota zeta. rewrite lenZ_app, length_item, Hp by done.
  change sizeof_RCM_HEADER with 12 in *. unfold LEN_DC_V11, sizeof_pcscf_ext.
  assert (hdr ++ item_bytes t it = concat (hdr :: item_fields t it ++ [])) as -> by (cbn [concat]; by rewrite app_nil_r).
  destruct t; cbn [dc_item_size item_fields].
  - change (12 + 132 <=? 12 + LEN_DC_V10) with false. cbv iota. rewrite (old_decode hdr it [] 12 0 1) by done. done.
  - change (12 + 132 <=? 12 + LEN_DC_V11) with true. change (12 + 132 + 102 <=? _) with false. cbv iota. by rewrite (base_decode hdr it []).
  - change (12 + 132 <=? _) with true. change (12 + 132 + 102 <=? _) with true. cbv iota. rewrite app_nil_r.
    rewrite (base_decode hdr it (ext_fields it)) by done. cbn [mbind res_bind]. rewrite (ext_decode hdr it []) by (done || by rewrite app_nil_r). cbn [mbind res_bind].
    cbn in Hv. unfold setup_call. replace (3 <=? it_version it) with false by lia. replace (it_version it =? 4) with false by lia.
    unfold ext_call. by destruct (Z.leb_spec 2 (it_version it)); [replace (3 <=? it_version it) with false by lia; replace (it_version it =? 4) with false by lia|].
  - change (12 + 132 <=? _) with true. change (12 + 132 + 102 <=? _) with true. cbv iota. rewrite app_nil_r.
    set (fs := hdr :: _). assert (fs = hdr :: base_fields it ++ ext_fields it ++ retry_fields it ++ []) as Hfs by (unfold fs; by rewrite app_nil_r). clearbody fs.
    rewrite (base_decode hdr it (ext_fields it ++ retry_fields it ++ []) _ _ fs) by done. cbn [mbind res_bind].
    rewrite (ext_decode hdr it (retry_fields it ++ []) _ fs) by done. cbn [mbind res_bind].
    cbn in Hv. unfold setup_call. replace (it_version it =? 4) with false by lia.
    rewrite (retry_decode hdr it [] 12 (ext_call it) fs) by done. unfold ext_call.
    destruct (Z.leb_spec 2 (it_version it)), (Z.leb_spec 3 (it_version it)); try lia; cbn [mbind res_bind]; try done.
    + replace (it_version it =? 4) with false by lia. done.
    + replace (it_version it =? 4) with false by lia. done.
  - change (12 + 132 <=? _) with true. change (12 + 132 + 102 <=? _) with true. cbv iota. rewrite app_nil_r.
    set (fs := hdr :: _). assert (fs = hdr :: base_fields it ++ ext_fields it ++ retry_fields it ++ it_ambr it :: []) as Hfs by done. clearbody fs.
    rewrite (base_decode hdr it (ext_fields it ++ retry_fields it ++ [it_ambr it]) _ _ fs) by done. cbn [mbind res_bind].
    rewrite (ext_decode hdr it (retry_fields it ++ [it_ambr it]) _ fs) by done. cbn [mbind res_bind].
    rewrite (retry_decode hdr it [it_ambr it] 12 (ext_call it) fs) by done.
    unfold setup_call, ext_call. destruct (Z.leb_spec 2 (it_version it)) as [H2|H2].
    + destruct (Z.leb_spec 3 (it_version it)) as [H3|H3]; cbn [mbind res_bind].
      * destruct (it_version it =? 4); [|done]. set (d := set_retry _ _ _). by destruct (ambr_decode hdr it [] 12 d fs Hw Hp Hfs) as [_ ->].
      * replace (it_version it =? 4) with false by lia. done.
    + replace (3 <=? it_version it) with false by lia. replace (it_version it =? 4) with false by lia. done.
Qed.

(** ** PCO blocks *)

Definition pco_block (b : Z * list Z) : list Z := le32 (u32 b.1) ++ [lenZ b.2] ++ b.2.
Definition pco_frame (hdr : list Z) (cid pdp_type : Z) (blocks : list (Z * list Z)) : list Z :=
  hdr ++ [cid; pdp_type; lenZ blocks] ++ concat (pco_block <$> blocks).
(** what is told of the blocks that start at [pos] behind the header *)
Fixpoint pco_told (cid pdp_type pos : Z) (blocks : list (Z * list Z)) : list PcoData :=
  match blocks with
  | [] => []
  | b :: blocks =>
    {| pco_cid := cid; bearer_proto := ConvertPdpType pdp_type; pco_id := b.1; contents_length := lenZ b.2; contents := sizeof_pco_data_ind + pos + 5 |}
    :: pco_told cid pdp_type (pos + (5 + lenZ b.2)) blocks
  end.
Definition pco_ok (b : Z * list Z) : Prop := - 2 ^ 31 <= b.1 < 2 ^ 31.
Lemma pco_loop_spec pre cid t blocks pos out post : lenZ pre = sizeof_pco_data_ind + pos → Forall pco_ok blocks →
  pco_loop (pre ++ concat (pco_block <$> blocks) ++ post) (length blocks) cid t (lenZ blocks) pos out = Ok (out ++ pco_told cid t pos blocks).
Proof.
  intros Hp Hb. revert pre pos out Hp. induction Hb as [|[i c] blocks Hi Hb IH]; intros pre pos out Hp; [by rewrite app_nil_r|].
  rewrite fmap_cons. cbn [concat length pco_loop pco_told].
  change (pco_block (i, c)) with (le32 (u32 i) ++ [lenZ c] ++ c). cbn [fst snd]. set (rest := concat _). rewrite <- !app_assoc.
  unfold GetPcoData. rewrite lenZ_cons. pose proof (lenZ_nonneg blocks). replace (1 + lenZ blocks =? 0) with false by lia. cbv zeta.
  rewrite (rd32_le32 pre (u32 i)) by (done || apply u32_range). cbn [mbind res_bind]. rewrite i32_u32 by done.
  assert (∀ y : list Z, (pre ++ le32 (u32 i) ++ [lenZ c] ++ y).[sizeof_pco_data_ind + pos + 4] = Ok (lenZ c)) as ->.
  { intros y. rewrite (app_assoc pre). rewrite <- Hp. replace (lenZ pre + 4) with (lenZ (pre ++ le32 (u32 i)) + 0) by (rewrite lenZ_app; unfold lenZ, le32; cbn [length]; lia).
    by rewrite (rd_local _ [lenZ c] y _ 0 eq_refl) by done. }
  cbn [mbind res_bind]. replace (1 + lenZ blocks - 1 <? 0) with false by lia. replace (1 + lenZ blocks - 1) with (lenZ blocks) by lia.
  specialize (IH (pre ++ le32 (u32 i) ++ [lenZ c] ++ c) (pos + (5 + lenZ c))). rewrite <- !app_assoc in IH. rewrite IH; [by rewrite <- app_assoc|].
  rewrite !lenZ_app, Hp. unfold lenZ at 1 2, le32. cbn [length]. lia.
Qed.
(** the contents are where they are said to be *)
Lemma pco_told_contents pre cid t blocks pos post : lenZ pre = sizeof_pco_data_ind + pos →
  Forall2 (λ d b, rdn (pre ++ concat (pco_block <$> blocks) ++ post) (contents d) (contents_length d) = Ok b.2) (pco_told cid t pos blocks) blocks.
Proof.
  revert pre pos. induction blocks as [|[i c] blocks IH]; intros pre pos Hp; [constructor|]. rewrite fmap_cons. cbn [concat pco_told]. constructor.
  - cbn [contents contents_length snd]. change (pco_block (i, c)) with (le32 (u32 i) ++ [lenZ c] ++ c).
    pose proof (rdn_local (pre ++ le32 (u32 i) ++ [lenZ c]) c (concat (pco_block <$> blocks) ++ post) (sizeof_pco_data_ind + pos + 5) 0 (lenZ c)) as H.
    rewrite <- !app_assoc in H. rewrite <- !app_assoc. rewrite (Z.add_0_r (_ + 5)) in H. rewrite H.
    + rewrite rdn_ok by (pose proof (lenZ_nonneg c); lia). rewrite drop_0, take_ge; [done|]. unfold lenZ. lia.
    + rewrite !lenZ_app, Hp. unfold lenZ, le32. cbn [length]. lia.
    + done.
    + apply lenZ_nonneg.
    + lia.
  - specialize (IH (pre ++ pco_block (i, c)) (pos + (5 + lenZ c))). rewrite <- !app_assoc in IH. rewrite <- !app_assoc. apply IH.
    unfold pco_block. cbn [fst snd]. rewrite !lenZ_app, Hp. unfold lenZ, le32. cbn [length]. lia.
Qed.

(** The blocks of a PCO indication are read back: the frame made of any number of
    blocks, each an identifier and contents, is told as those identifiers, in
    order, each with the connection and the protocol of the frame and with a
    position from which the frame has exactly the contents of its block. *)
Theorem pco_frame_decodes hdr cid t blocks :
  lenZ hdr = sizeof_RCM_IND_HEADER → Forall pco_ok blocks →
  ∃ out, OnUnsolPcoData (pco_frame hdr cid t blocks) = Ok out ∧
    Forall2 (λ d b, pco_cid d = cid ∧ bearer_proto d = ConvertPdpType t ∧ pco_id d = b.1 ∧
                    rdn (pco_frame hdr cid t blocks) (contents d) (contents_length d) = Ok b.2) out blocks.
Proof.
  intros Hh Hb. exists (pco_told cid t 0 blocks). unfold pco_frame.
  assert (lenZ (hdr ++ [cid; t; lenZ blocks]) = sizeof_pco_data_ind + 0) as Hp by (rewrite lenZ_app, Hh; done).
  split.
  - unfold OnUnsolPcoData. set (n := lenZ blocks).
    rewrite (rd_local hdr [cid; t; n] _ _ 2 Hh) by done. pose proof (rd_local hdr [cid; t; n] (concat (pco_block <$> blocks)) _ 0 Hh ltac:(done)) as H0.
    rewrite Z.add_0_r in H0. rewrite H0. rewrite (rd_local hdr [cid; t; n] _ _ 1 Hh) by done. cbn [mbind res_bind]. change ([cid; t; n].[2]) with (Ok n).
    change ([cid; t; n].[0]) with (Ok cid). change ([cid; t; n].[1]) with (Ok t). cbn [mbind res_bind]. unfold n. unfold lenZ at 2. rewrite Nat2Z.id.
    pose proof (pco_loop_spec _ cid t blocks 0 [] [] Hp Hb) as H. rewrite app_nil_r in H. rewrite <- app_assoc in H. exact H.
  - pose proof (pco_told_contents _ cid t blocks 0 [] Hp) as H. rewrite app_nil_r, <- app_assoc in H. clear Hp Hb. revert H.
    generalize (hdr ++ [cid; t; lenZ blocks] ++ concat (pco_block <$> blocks)). generalize 0. induction blocks as [|b blocks IH]; intros z raw H; [constructor|].
    cbn [pco_told] in *. inversion_clear H as [|? ? ? ? H1 H2]. constructor; [done|by apply IH].
Qed.

(** ** Samples *)

Definition sample_item (cid version : Z) : Item :=
  {| it_status := 0; it_cid := cid; it_active := 2; it_type := 3; it_address := seqZ 10 20; it_dns_type := 1; it_dns1 := seqZ 40 20; it_dns2 := seqZ 60 20;
     it_pcscf_type := 2; it_pcscf := seqZ 80 60; it_mtu := 1500; it_pco := 0; it_version := version; it_next := 0; it_pcscf4 := seqZ 150 20;
     it_pcscf6 := seqZ 100 80; it_low := 0; it_retry := -2; it_ambr := [6; 1; 2; 3; 0; 0; 0] |}.
Lemma sample_item_wf cid version : item_wf (sample_item cid version).
Proof. split; by_eval || (cbn; lia) || reflexivity. Qed.
Definition sample_ind (id : Z) : list Z := [2; 0] ++ le16 id ++ [0; 0; 0; 0].
Definition sample_rsp (id e : Z) : list Z := [1; 0] ++ le16 id ++ [0; 0; 7; 0; 0; 0; e; 0].
Definition sample_list (t : dc_type) : list Z := list_frame (sample_ind SIT_IND_DATA_CALL_LIST_CHANGED) t [sample_item 1 4; sample_item 2 3].

Lemma list_frame_decodes_witness :
  ProtocolPsDataCallListChangedAdapter (Some (sample_list DC_RETRYTIME)) = Ok (item_call DC_RETRYTIME <$> take 4 [sample_item 1 4; sample_item 2 3]).
Proof. apply (list_frame_decodes (sample_ind SIT_IND_DATA_CALL_LIST_CHANGED)); [reflexivity|reflexivity|do 2 (apply Forall_cons_2; [apply sample_item_wf|]); constructor]. Defined.
Lemma list_indication_handled_witness :
  (∃ l, ProtocolPsDataCallListChangedAdapter (Some (sample_list DC_V10)) = Ok l ∧ lenZ l = Z.min 2 MAX_DATA_CALL_SIZE ∧ Forall call_wf l ∧
    if forallb (λ d, dc_cid d <=? MAX_DATA_CALL_SIZE * 2) l
    then ∃ s', sample_step sample_env (EvListChanged l) sample_connected = Ok s' ∧ wf s' ∧ cids s' = cids sample_connected
    else sample_step sample_env (EvListChanged l) sample_connected = UB) ∧
  ProtocolPsDataCallListChangedAdapter (Some (sample_ind SIT_IND_DATA_CALL_LIST_CHANGED ++ [1])) = UB.
Proof.
  split.
  - apply (list_indication_handled sample_ntop false true sample_env sample_connected (sample_list DC_V10) 2);
      [apply sample_connected_wf|apply sample_ntop_ok|by_eval|reflexivity|reflexivity|intros _; by_eval].
  - apply (list_indication_handled sample_ntop false true sample_env sample_connected (sample_ind SIT_IND_DATA_CALL_LIST_CHANGED ++ [1]) 1);
      [apply sample_connected_wf|apply sample_ntop_ok|by_eval|reflexivity|reflexivity|reflexivity|done|by_eval].
Defined.
Lemma setup_errors_witness : bytes_ok (sample_rsp SIT_SETUP_DATA_CALL 22) ∧ SetupErrorCode None = Ok RIL_E_GENERIC_FAILURE ∧
  ∃ e, SetupErrorCode (Some (sample_rsp SIT_SETUP_DATA_CALL 22)) = Ok e ∧
    (e ≠ RIL_E_SUCCESS → ProtocolPsSetupDataCallAdapter (Some (sample_rsp SIT_SETUP_DATA_CALL 22)) = Ok cleared
                         ∧ ProtocolPsDataCallListAdapter (Some (sample_rsp SIT_SETUP_DATA_CALL 22)) = Ok []) ∧
    (if sizeof_RCM_HEADER <=? lenZ (sample_rsp SIT_SETUP_DATA_CALL 22)
     then ∀ t c, (sample_rsp SIT_SETUP_DATA_CALL 22).[off_type] = Ok t → (sample_rsp SIT_SETUP_DATA_CALL 22).[off_error] = Ok c →
          e = if t =? RCM_TYPE_RESPONSE then error_of c else RIL_E_GENERIC_FAILURE
     else e = RIL_E_GENERIC_FAILURE).
Proof. split; [by_eval|]. apply (setup_errors (sample_rsp SIT_SETUP_DATA_CALL 22)). by_eval. Defined.
Lemma setup_frame_decodes_witness :
  ProtocolPsSetupDataCallAdapter (Some (sample_rsp SIT_SETUP_DATA_CALL 0 ++ item_bytes DC_AMBR (sample_item 1 4))) = Ok (setup_call DC_AMBR (sample_item 1 4)).
Proof. apply (setup_frame_decodes (sample_rsp SIT_SETUP_DATA_CALL 0)); [repeat split; reflexivity|reflexivity|apply sample_item_wf|done]. Defined.
Lemma pco_frame_decodes_witness :
  ∃ out, OnUnsolPcoData (pco_frame (sample_ind 0x60D) 1 3 [(65280, [1; 2; 3]); (65281, [])]) = Ok out ∧
    Forall2 (λ d b, pco_cid d = 1 ∧ bearer_proto d = ConvertPdpType 3 ∧ pco_id d = b.1 ∧
                    rdn (pco_frame (sample_ind 0x60D) 1 3 [(65280, [1; 2; 3]); (65281, [])]) (contents d) (contents_length d) = Ok b.2)
            out [(65280, [1; 2; 3]); (65281, [])].
Proof. apply (pco_frame_decodes (sample_ind 0x60D)); [reflexivity|do 2 (apply Forall_cons_2; [split; by_eval|]); constructor]. Defined.

(** ** What the frames of the modem can do *)

(** the retry time of the longest layout is not the one that was sent *)
Lemma ambr_layout_retry : suggestedRetryTime (item_call DC_AMBR (sample_item 1 4)) = 3 ∧ it_retry (sample_item 1 4) = -2.
Proof. split; vm_compute; reflexivity. Qed.
(** the answer to a list request, whose header is four bytes longer, is read as the old layout: the second byte pair of an item of
    today is then the addresses shifted by one *)
Lemma list_answer_layout :
  list_type (list_frame (sample_rsp 0x605 0) DC_V11 [sample_item 1 1]) 1 = DC_V10 ∧
  (l ← ProtocolPsDataCallListAdapter (Some (list_frame (sample_rsp 0x605 0) DC_V11 [sample_item 1 1])); Ok (map (λ d, dns1 (ipv4 d)) l)) = Ok [[1; 40; 41; 42]] ∧
  it_dns1 (sample_item 1 1) = seqZ 40 20.
Proof. split; [|split]; vm_compute; reflexivity. Qed.
(** a setup answer that ends with the further servers but names version 3 is read behind its end *)
Lemma setup_reads_behind :
  ProtocolPsSetupDataCallAdapter (Some (sample_rsp SIT_SETUP_DATA_CALL 0 ++ item_bytes DC_EXTENSION (sample_item 1 3))) = UB.
Proof. vm_compute. reflexivity. Qed.
(** an indication that counts a call it does not have is read behind its end *)
Lemma list_reads_behind : ProtocolPsDataCallListChangedAdapter (Some (sample_ind SIT_IND_DATA_CALL_LIST_CHANGED ++ [1])) = UB.
Proof. vm_compute. reflexivity. Qed.
(** a dedicated bearer indication of exactly its own size is read one byte behind its end, and of a longer one the integers are taken
    one byte late, the unpacked structure being aligned: 0x00000100 is told as 1 *)
Definition sample_bearer : list Z := sample_ind SIT_IND_DEDICATED_BEARER_INFO ++ [1; 0; 9] ++ le32 0x100 ++ le32 0x200 ++ le32 0x300 ++ le32 0x400.
Lemma dedicated_bearer_shifted :
  OnDedicatedBearerInfoUpdated (Some sample_bearer) = UB ∧
  (o ← OnDedicatedBearerInfoUpdated (Some (sample_bearer ++ [0])); Ok (option_map ul_gbr o)) = Ok (Some 1).
Proof. split; vm_compute; reflexivity. Qed.
(** a block whose contents are longer than the frame is told all the same *)
Lemma pco_contents_behind :
  (l ← OnUnsolPcoData (sample_ind 0x60D ++ [1; 1; 1] ++ le32 65280 ++ [200]); Ok (map contents_length l)) = Ok [200].
Proof. vm_compute. reflexivity. Qed.
