(* ===== verification/Service.v ===== *)
(** The request engine every RIL service runs on: [core/service.cpp] with the
    loop of [core/servicemonitorrunnable.cpp] and [ServiceMgr::SendMessage].

    Messages live in a heap: a [Message *] is an address, [delete] removes it,
    and reading a deleted message is [UB].  The state holds the three queues,
    the current request, the timer list, the bytes waiting in the pipe that
    wakes the monitor thread, and the history of requests sent to the modem.
    What the service tells the RIL application is collected in [completed].

    The virtual methods of a service are the class [ServiceHandlers]: a
    handler looks at the state and answers with the calls it makes to the
    protected methods, in order, and its result.

    Asynchronous requests ([ASYNC_REQUEST]) are not modelled.
    [gettimeofday] is read once per round of the monitor loop, and [write] to
    the pipe succeeds.  The proofs are in [ServiceProofs]. *)
From stdpp Require Import gmap.
From S2P Require Import Prelude RilDef Timers WaitList.

(** ** Messages *)

Inductive MsgDirection := REQUEST | RESPONSE | INTERNAL.
#[export] Instance MsgDirection_eq_dec : EqDecision MsgDirection.
Proof. solve_decision. Defined.

Record ModemData := { md_token : Z; md_solicited : bool; md_unsolicited : bool }.
#[export] Instance ModemData_eq_dec : EqDecision ModemData.
Proof. solve_decision. Defined.
(** [m_pReqData] is known by its request identifier; [m_pUserData] of a system
    message is the array of its integers *)
Record Message := {
  m_nMsgId : Z; m_nTimeout : Z; m_nDirection : MsgDirection;
  m_pReqData : option Z; m_pModemData : option ModemData; m_pUserData : option (list Z)
}.
Definition GetToken (m : Message) : Z :=
  match m_pModemData m with None => TOKEN_INVALID | Some d => md_token d end.
Definition SetTimeout (t : Z) (m : Message) : Message :=
  {| m_nMsgId := m_nMsgId m; m_nTimeout := t; m_nDirection := m_nDirection m; m_pReqData := m_pReqData m;
     m_pModemData := m_pModemData m; m_pUserData := m_pUserData m |}.
Definition SetModemData (d : option ModemData) (m : Message) : Message :=
  {| m_nMsgId := m_nMsgId m; m_nTimeout := m_nTimeout m; m_nDirection := m_nDirection m; m_pReqData := m_pReqData m;
     m_pModemData := d; m_pUserData := m_pUserData m |}.
(** [ObtainMessage] for a request, for modem data, and for a system message *)
Definition RequestMessage (msgId req : Z) : Message :=
  {| m_nMsgId := msgId; m_nTimeout := 0; m_nDirection := REQUEST; m_pReqData := Some req; m_pModemData := None; m_pUserData := None |}.
Definition ModemMessage (msgId : Z) (d : option ModemData) : Message :=
  {| m_nMsgId := msgId; m_nTimeout := 0; m_nDirection := RESPONSE; m_pReqData := None; m_pModemData := d; m_pUserData := None |}.
Definition SystemMessage (msgId : Z) (user : option (list Z)) : Message :=
  {| m_nMsgId := msgId; m_nTimeout := 0; m_nDirection := INTERNAL; m_pReqData := None; m_pModemData := None; m_pUserData := user |}.

Definition MSG_SYSTEM_RADIO_STATE_CHANGED : Z := 257.
Definition MSG_SYSTEM_VOICE_REGISTRTION_STATE_CHANGED : Z := 258.
Definition MSG_SYSTEM_DATA_REGISTRTION_STATE_CHANGED : Z := 259.
Definition MSG_SYSTEM_SERVICE_TATE_CHANGED : Z := 260.
Definition MSG_SYSTEM_SIM_STATUS_CHANGED : Z := 261.
Definition MSG_SYSTEM_IMSI_UPDATED : Z := 262.
Definition MSG_SYSTEM_RESET : Z := 263.
Definition MSG_SYSTEM_DATA_CALL_STATE_CHANGED : Z := 264.
Definition MSG_SYSTEM_MODEM_STATE_CHANGED : Z := 265.
Definition NOT_REGISTERED : Z := 0.
Definition MAX_NR_COUNT : Z := 3.
Definition MS_OFFLINE : Z := 0.
Definition MS_ONLINE : Z := 4.

(** ** The state of a service *)

(** one answer to the RIL application: message, request identifier, result *)
Record completion := { c_msg : Z; c_req : Z; c_result : Z }.

Record Service := {
  heap : gmap Z Message;
  m_requestQueue : list Z; m_responseQueue : list Z; m_internalQueue : list Z;
  m_pCurReqMsg : option Z;
  mTimerList : list TimerEvent;
  m_pipe : list MsgDirection;
  m_nOverallRadioState : Z; m_nVoiceNetworkState : Z; m_nDataNetworkState : Z; mModemState : Z;
  m_nCurrentReqId : Z; m_nr_count : Z;
  m_RequestWaitList : WaitList;
  completed : list completion;
  crash_requests : Z
}.

Definition set_heap h s := {| heap := h; m_requestQueue := m_requestQueue s; m_responseQueue := m_responseQueue s;
  m_internalQueue := m_internalQueue s; m_pCurReqMsg := m_pCurReqMsg s; mTimerList := mTimerList s; m_pipe := m_pipe s;
  m_nOverallRadioState := m_nOverallRadioState s; m_nVoiceNetworkState := m_nVoiceNetworkState s; m_nDataNetworkState := m_nDataNetworkState s;
  mModemState := mModemState s; m_nCurrentReqId := m_nCurrentReqId s; m_nr_count := m_nr_count s; m_RequestWaitList := m_RequestWaitList s;
  completed := completed s; crash_requests := crash_requests s |}.
Definition set_queues q r i s := {| heap := heap s; m_requestQueue := q; m_responseQueue := r;
  m_internalQueue := i; m_pCurReqMsg := m_pCurReqMsg s; mTimerList := mTimerList s; m_pipe := m_pipe s;
  m_nOverallRadioState := m_nOverallRadioState s; m_nVoiceNetworkState := m_nVoiceNetworkState s; m_nDataNetworkState := m_nDataNetworkState s;
  mModemState := mModemState s; m_nCurrentReqId := m_nCurrentReqId s; m_nr_count := m_nr_count s; m_RequestWaitList := m_RequestWaitList s;
  completed := completed s; crash_requests := crash_requests s |}.
Definition set_cur c s := {| heap := heap s; m_requestQueue := m_requestQueue s; m_responseQueue := m_responseQueue s;
  m_internalQueue := m_internalQueue s; m_pCurReqMsg := c; mTimerList := mTimerList s; m_pipe := m_pipe s;
  m_nOverallRadioState := m_nOverallRadioState s; m_nVoiceNetworkState := m_nVoiceNetworkState s; m_nDataNetworkState := m_nDataNetworkState s;
  mModemState := mModemState s; m_nCurrentReqId := m_nCurrentReqId s; m_nr_count := m_nr_count s; m_RequestWaitList := m_RequestWaitList s;
  completed := completed s; crash_requests := crash_requests s |}.
Definition set_timers t s := {| heap := heap s; m_requestQueue := m_requestQueue s; m_responseQueue := m_responseQueue s;
  m_internalQueue := m_internalQueue s; m_pCurReqMsg := m_pCurReqMsg s; mTimerList := t; m_pipe := m_pipe s;
  m_nOverallRadioState := m_nOverallRadioState s; m_nVoiceNetworkState := m_nVoiceNetworkState s; m_nDataNetworkState := m_nDataNetworkState s;
  mModemState := mModemState s; m_nCurrentReqId := m_nCurrentReqId s; m_nr_count := m_nr_count s; m_RequestWaitList := m_RequestWaitList s;
  completed := completed s; crash_requests := crash_requests s |}.
Definition set_pipe p s := {| heap := heap s; m_requestQueue := m_requestQueue s; m_responseQueue := m_responseQueue s;
  m_internalQueue := m_internalQueue s; m_pCurReqMsg := m_pCurReqMsg s; mTimerList := mTimerList s; m_pipe := p;
  m_nOverallRadioState := m_nOverallRadioState s; m_nVoiceNetworkState := m_nVoiceNetworkState s; m_nDataNetworkState := m_nDataNetworkState s;
  mModemState := mModemState s; m_nCurrentReqId := m_nCurrentReqId s; m_nr_count := m_nr_count s; m_RequestWaitList := m_RequestWaitList s;
  completed := completed s; crash_requests := crash_requests s |}.
Definition set_radio r v d m s := {| heap := heap s; m_requestQueue := m_requestQueue s; m_responseQueue := m_responseQueue s;
  m_internalQueue := m_internalQueue s; m_pCurReqMsg := m_pCurReqMsg s; mTimerList := mTimerList s; m_pipe := m_pipe s;
  m_nOverallRadioState := r; m_nVoiceNetworkState := v; m_nDataNetworkState := d; mModemState := m;
  m_nCurrentReqId := m_nCurrentReqId s; m_nr_count := m_nr_count s; m_RequestWaitList := m_RequestWaitList s;
  completed := completed s; crash_requests := crash_requests s |}.
(** the fields nothing else depends on: transaction, no-response count, history, crash requests *)
Definition set_misc t n w c s := {| heap := heap s; m_requestQueue := m_requestQueue s; m_responseQueue := m_responseQueue s;
  m_internalQueue := m_internalQueue s; m_pCurReqMsg := m_pCurReqMsg s; mTimerList := mTimerList s; m_pipe := m_pipe s;
  m_nOverallRadioState := m_nOverallRadioState s; m_nVoiceNetworkState := m_nVoiceNetworkState s; m_nDataNetworkState := m_nDataNetworkState s;
  mModemState := mModemState s; m_nCurrentReqId := t; m_nr_count := n; m_RequestWaitList := w;
  completed := completed s; crash_requests := c |}.
Definition set_completed c s := {| heap := heap s; m_requestQueue := m_requestQueue s; m_responseQueue := m_responseQueue s;
  m_internalQueue := m_internalQueue s; m_pCurReqMsg := m_pCurReqMsg s; mTimerList := mTimerList s; m_pipe := m_pipe s;
  m_nOverallRadioState := m_nOverallRadioState s; m_nVoiceNetworkState := m_nVoiceNetworkState s; m_nDataNetworkState := m_nDataNetworkState s;
  mModemState := mModemState s; m_nCurrentReqId := m_nCurrentReqId s; m_nr_count := m_nr_count s; m_RequestWaitList := m_RequestWaitList s;
  completed := c; crash_requests := crash_requests s |}.

Definition SetTransaction (id : Z) (s : Service) : Service := set_misc id (m_nr_count s) (m_RequestWaitList s) (crash_requests s) s.
Definition UnsetTransaction (s : Service) : Service := SetTransaction 0 s.
Definition set_nr (n : Z) (s : Service) : Service := set_misc (m_nCurrentReqId s) n (m_RequestWaitList s) (crash_requests s) s.
Definition set_wait (w : WaitList) (s : Service) : Service := set_misc (m_nCurrentReqId s) (m_nr_count s) w (crash_requests s) s.

(** [p->...] *)
Definition deref (p : Z) (s : Service) : res Message := match heap s !! p with Some m => Ok m | None => UB end.
Definition modify (p : Z) (f : Message → Message) (s : Service) : res Service :=
  m ← deref p s; Ok (set_heap (<[p := f m]> (heap s)) s).
(** [delete p] *)
Definition delete_msg (p : Z) (s : Service) : res Service := _ ← deref p s; Ok (set_heap (delete p (heap s)) s).

(** [RilContextWrapper::OnRequestComplete(RequestData *, ...)] *)
Definition ContextComplete (p : Z) (req : option Z) (result : Z) (s : Service) : Service :=
  match req with
  | None => s
  | Some id => set_completed (completed s ++ [{| c_msg := p; c_req := id; c_result := result |}]) s
  end.

(** ** Protected methods of [Service] *)

Definition EnQueue (p : Z) (s : Service) : res Service :=
  m ← deref p s;
  Ok (match m_nDirection m with
      | REQUEST => set_queues (m_requestQueue s ++ [p]) (m_responseQueue s) (m_internalQueue s) s
      | RESPONSE => set_queues (m_requestQueue s) (m_responseQueue s ++ [p]) (m_internalQueue s) s
      | INTERNAL => set_queues (m_requestQueue s) (m_responseQueue s) (m_internalQueue s ++ [p]) s
      end).
Definition NotifyNewMessage (d : MsgDirection) (s : Service) : Service := set_pipe (m_pipe s ++ [d]) s.

Definition reqDeQ (s : Service) : option Z * Service :=
  match m_requestQueue s with
  | [] => (None, s)
  | p :: q => (Some p, set_queues q (m_responseQueue s) (m_internalQueue s) s)
  end.
Definition respDeQ (s : Service) : option Z * Service :=
  match m_responseQueue s with
  | [] => (None, s)
  | p :: q => (Some p, set_queues (m_requestQueue s) q (m_internalQueue s) s)
  end.
Definition internalDeQ (s : Service) : option Z * Service :=
  match m_internalQueue s with
  | [] => (None, s)
  | p :: q => (Some p, set_queues (m_requestQueue s) (m_responseQueue s) q s)
  end.

Definition NotifyNextRequestMessage (s : Service) : res Service :=
  s ← match m_pCurReqMsg s with
      | Some p => s ← delete_msg p s; Ok (set_cur None s)
      | None => Ok s
      end;
  Ok (NotifyNewMessage REQUEST s).

Definition PostponeRequestMessage (now : timeval) (millis : Z) (s : Service) : res Service :=
  s ← match m_pCurReqMsg s with
      | Some p =>
        let s := set_cur None s in
        s ← modify p (SetModemData None) s;
        s ← modify p (SetTimeout 0) s;
        m ← deref p s;
        let s := set_wait (ClearGarbage (GetToken m) (m_RequestWaitList s)) s in
        let s := UnsetTransaction s in
        Ok (set_timers (put now (Some p) millis (erase (Some p) (mTimerList s))) s)
      | None => Ok s
      end;
  NotifyNextRequestMessage s.

Definition StartRequestTimeout (now : timeval) (s : Service) : res Service :=
  match m_pCurReqMsg s with
  | Some p =>
    m ← deref p s;
    s ← (if m_nTimeout m <=? 0 then modify p (SetTimeout 60000) s else Ok s);
    m ← deref p s;
    Ok (set_timers (put now (Some p) (u32 (m_nTimeout m)) (erase (Some p) (mTimerList s))) s)
  | None => Ok s
  end.
(** the timeout is a [UINT] that is kept in an [int] *)
Definition SetRequestTimeout (timeout : Z) (s : Service) : res (Z * Service) :=
  match m_pCurReqMsg s with
  | None => Ok (-1, s)
  | Some p => s ← modify p (SetTimeout (i32 timeout)) s; Ok (0, s)
  end.
Definition ResetRequestTimeout (now : timeval) (timeout : Z) (s : Service) : res (Z * Service) :=
  '(r, s) ← SetRequestTimeout timeout s;
  if r <? 0 then Ok (-1, s) else s ← StartRequestTimeout now s; Ok (0, s).

(** [SendRequest(pModemData, nTimeout, nResult)] for modem data with [token] *)
Definition SendRequest (serviceId token timeout nResult : Z) (written : bool) (s : Service) : res (Z * Service) :=
  match m_pCurReqMsg s with
  | None => Ok (-1, s)
  | Some p =>
    s ← modify p (SetModemData (Some {| md_token := token; md_solicited := false; md_unsolicited := false |})) s;
    s ← modify p (SetTimeout (i32 timeout)) s;
    let '(r, w) := ContextSend token serviceId nResult written (m_RequestWaitList s) in
    Ok (if r <? 0 then -1 else 0, set_wait w s)
  end.

(** [OnRequestComplete(result)] of a request that is not asynchronous *)
Definition OnRequestComplete (result : Z) (s : Service) : res Service :=
  s ← match m_pCurReqMsg s with
      | Some p =>
        m ← deref p s;
        let s := ContextComplete p (m_pReqData m) result s in
        let s := set_wait (ClearGarbage (GetToken m) (m_RequestWaitList s)) s in
        Ok (set_timers (erase (Some p) (mTimerList s)) s)
      | None => Ok s
      end;
  NotifyNextRequestMessage (UnsetTransaction s).

Definition CalcNextTimeout (now : timeval) (s : Service) : option timeval :=
  match mTimerList s with
  | [] => None
  | _ => let te := front (mTimerList s) in
         Some (match msg te with None => {| tv_sec := 0; tv_usec := 0 |} | Some _ => sub (timeout te) now end)
  end.

(** the modem data [d] of the message at [p], taken before the handler ran; it
    is read when the count is exceeded, and a message that has got other modem
    data since then has deleted it *)
Definition CheckCountsForTimeOut (p : Z) (d : option ModemData) (s : Service) : res Service :=
  match d with
  | None => Ok s
  | Some _ =>
    let s := set_nr (u32 (m_nr_count s + 1)) s in
    if MAX_NR_COUNT <? m_nr_count s
    then
      m ← deref p s;
      if decide (m_pModemData m = d)
      then Ok (set_misc (m_nCurrentReqId s) (m_nr_count s) (m_RequestWaitList s) (crash_requests s + 1) s)
      else UB
    else Ok s
  end.

(** ** The virtual methods *)

(** what a handler calls *)
Inductive action :=
| ASendRequest (token timeout nResult : Z) (written : bool)
| AOnRequestComplete (result : Z)
| APostponeRequestMessage (millis : Z)
| ASetRequestTimeout (timeout : Z)
| AResetRequestTimeout (timeout : Z).

Inductive callback :=
| CRadioStateChanged (state : Z) | CRadioAvailable | CRadioNotAvailable | CRadioOn | CRadioOffOrNotAvailable
| CSimStatusChanged (card app : Z) | CImsiUpdated (imsi : Z) | CImsiUpdatedAid (aid imsi : Z) | CReset
| CVoiceRegistrationStateChanged (state : Z) | CDataRegistrationStateChanged (state : Z)
| CDataCallStateChanged (cid : Z) (active : bool) | CServiceStateChanged
| CModemStateChanged (state : Z) | CModemOnline | CModemOffline
| CUnsolicitedResponse (p : Z) | CInternalMessage (p : Z).

(** the overriding methods of one service, and what it asks the context *)
Class ServiceHandlers := {
  m_nServiceId : Z;
  OnHandleRequest : Z → Service → bool * list action;
  OnHandleSolicitedResponse : Z → Service → bool * list action;
  OnHandleRequestTimeout : Z → Service → bool * list action;
  OnCallback : callback → Service → list action;
  IsPossibleToPassInRadioOffState : Z → bool;
  IsPossibleToPassInRadioUnavailableState : Z → bool;
  GetCurrentRadioState : Service → Z;
  UiccStatus : Service → Z
}.

Section engine.
Context `{ServiceHandlers}.

Definition run_action (now : timeval) (a : action) (s : Service) : res Service :=
  match a with
  | ASendRequest token timeout nResult written => '(_, s) ← SendRequest m_nServiceId token timeout nResult written s; Ok s
  | AOnRequestComplete result => OnRequestComplete result s
  | APostponeRequestMessage millis => PostponeRequestMessage now millis s
  | ASetRequestTimeout timeout => '(_, s) ← SetRequestTimeout timeout s; Ok s
  | AResetRequestTimeout timeout => '(_, s) ← ResetRequestTimeout now timeout s; Ok s
  end.
Fixpoint run_actions (now : timeval) (l : list action) (s : Service) : res Service :=
  match l with [] => Ok s | a :: l => s ← run_action now a s; run_actions now l s end.
Definition call_back (now : timeval) (c : callback) (s : Service) : res Service := run_actions now (OnCallback c s) s.

(** ** The handlers of the monitor loop *)

Definition HandleRequest (now : timeval) (s : Service) : res Service :=
  match m_pCurReqMsg s with
  | Some _ => Ok s
  | None =>
    match reqDeQ s with
    | (None, s) => Ok s
    | (Some p, s) =>
      m ← deref p s;
      match m_pReqData m with
      | None => delete_msg p s
      | Some requestId =>
        let allowedRadioUnavailable := IsPossibleToPassInRadioUnavailableState requestId in
        let allowedRadioOff := IsPossibleToPassInRadioOffState requestId in
        if (m_nOverallRadioState s =? RADIO_STATE_UNAVAILABLE) && negb allowedRadioUnavailable
        then NotifyNextRequestMessage (ContextComplete p (Some requestId) RIL_E_RADIO_NOT_AVAILABLE s)
        else if (m_nOverallRadioState s =? RADIO_STATE_OFF) && negb (allowedRadioUnavailable || allowedRadioOff)
        then NotifyNextRequestMessage (ContextComplete p (Some requestId) RIL_E_RADIO_NOT_AVAILABLE s)
        else
          let s := set_cur (Some p) (SetTransaction (u32 requestId) s) in
          let '(ret, acts) := OnHandleRequest p s in
          s ← run_actions now acts s;
          if negb ret
          then
            m ← deref p s;
            NotifyNextRequestMessage (UnsetTransaction (ContextComplete p (m_pReqData m) RIL_E_GENERIC_FAILURE s))
          else StartRequestTimeout now s
      end
    end
  end.

Definition HandleResponse (now : timeval) (s : Service) : res Service :=
  match respDeQ (set_nr 0 s) with
  | (None, s) => Ok s
  | (Some p, s) =>
    m ← deref p s;
    match m_pModemData m with
    | None => delete_msg p s
    | Some modemData =>
      if md_solicited modemData
      then
        isReqRspMatched ← match m_pCurReqMsg s with
                          | Some c => mc ← deref c s; Ok (GetToken mc =? GetToken m)
                          | None => Ok false
                          end;
        if negb isReqRspMatched then delete_msg p s
        else
          let '(handled, acts) := OnHandleSolicitedResponse p s in
          s ← run_actions now acts s;
          s ← (if negb handled then OnRequestComplete RIL_E_GENERIC_FAILURE s else Ok s);
          delete_msg p s
      else
        s ← (if md_unsolicited modemData then call_back now (CUnsolicitedResponse p) s else Ok s);
        delete_msg p s
    end
  end.

Definition HandleRequestTimeout (now : timeval) (s : Service) : res Service :=
  let '(te, l) := pop (mTimerList s) in
  let s := set_timers l s in
  match msg te with
  | None => Ok s
  | Some p =>
    if decide (m_pCurReqMsg s = Some p)
    then
      m ← deref p s;
      match m_pReqData m with
      | None => Ok s
      | Some _ =>
        let token := GetToken m in
        let '(ret, acts) := OnHandleRequestTimeout p s in
        s ← run_actions now acts s;
        if ret : bool then Ok s
        else
          s ← CheckCountsForTimeOut p (m_pModemData m) s;
          let s := set_wait (TimeoutHistory token (m_RequestWaitList s)) s in
          m ← deref p s;
          NotifyNextRequestMessage (ContextComplete p (m_pReqData m) RIL_E_INTERNAL_ERR s)
      end
    else
      s ← EnQueue p s;
      Ok (NotifyNewMessage REQUEST s)
  end.

Definition SetRadioStateUnavailable (s : Service) : Service :=
  set_radio RADIO_STATE_UNAVAILABLE NOT_REGISTERED NOT_REGISTERED (mModemState s) s.
Definition set_radio_state (r : Z) (s : Service) : Service :=
  set_radio r (m_nVoiceNetworkState s) (m_nDataNetworkState s) (mModemState s) s.

Definition when (b : bool) (f : Service → res Service) (s : Service) : res Service := if b then f s else Ok s.

Definition SetRadioState (now : timeval) (radioState : Z) (forceNotify : bool) (s : Service) : res Service :=
  let oldRadioState := m_nOverallRadioState s in
  let s := set_radio_state radioState s in
  let s := if radioState =? RADIO_STATE_UNAVAILABLE then SetRadioStateUnavailable s else s in
  s ← when (negb (oldRadioState =? radioState) && forceNotify) (call_back now (CRadioStateChanged radioState)) s;
  s ← when (negb (radioState =? RADIO_STATE_UNAVAILABLE) && (oldRadioState =? RADIO_STATE_UNAVAILABLE))
           (call_back now CRadioAvailable) s;
  s ← when ((radioState =? RADIO_STATE_UNAVAILABLE) && negb (oldRadioState =? RADIO_STATE_UNAVAILABLE))
           (call_back now CRadioNotAvailable) s;
  s ← when ((radioState =? RADIO_STATE_ON) && negb (oldRadioState =? RADIO_STATE_ON)) (call_back now CRadioOn) s;
  when (((radioState =? RADIO_STATE_OFF) || (radioState =? RADIO_STATE_ON)) && (oldRadioState =? RADIO_STATE_UNAVAILABLE))
       (call_back now CRadioOffOrNotAvailable) s.

(** the case [MSG_SYSTEM_RADIO_STATE_CHANGED] *)
Definition RadioStateChanged (now : timeval) (user : option (list Z)) (s : Service) : res Service :=
  radioState ← match user with
               | Some ints => ints.[0]
               | None => Ok (if UiccStatus s =? 0 then RADIO_STATE_OFF else GetCurrentRadioState s)
               end;
  s ← SetRadioState now radioState true s;
  s ← match m_pCurReqMsg s with
      | None => Ok s
      | Some c =>
        if m_nOverallRadioState s =? RADIO_STATE_OFF
        then
          m ← deref c s;
          match m_pReqData m with
          | None => UB
          | Some id => when (negb (IsPossibleToPassInRadioOffState id)) (OnRequestComplete RIL_E_RADIO_NOT_AVAILABLE) s
          end
        else if m_nOverallRadioState s =? RADIO_STATE_UNAVAILABLE
        then
          m ← deref c s;
          match m_pReqData m with
          | None => UB
          | Some id => when (negb (IsPossibleToPassInRadioUnavailableState id)) (OnRequestComplete RIL_E_RADIO_NOT_AVAILABLE) s
          end
        else Ok s
      end;
  call_back now (CRadioStateChanged (m_nOverallRadioState s)) s.

(** the case [MSG_SYSTEM_MODEM_STATE_CHANGED] *)
Definition ModemStateChanged (now : timeval) (ints : list Z) (s : Service) : res Service :=
  state ← ints.[0];
  let oldModemState := mModemState s in
  let s := set_radio (m_nOverallRadioState s) (m_nVoiceNetworkState s) (m_nDataNetworkState s) state s in
  when (negb (oldModemState =? state))
    (λ s, s ← call_back now (CModemStateChanged state) s;
          s ← when (state =? MS_ONLINE) (call_back now CModemOnline) s;
          when (negb (state =? MS_ONLINE)) (call_back now CModemOffline) s) s.

Definition internal_case (now : timeval) (p : Z) (m : Message) (s : Service) : res Service :=
  let id := m_nMsgId m in
  if id =? MSG_SYSTEM_RADIO_STATE_CHANGED then RadioStateChanged now (m_pUserData m) s
  else if id =? MSG_SYSTEM_RESET then call_back now CReset s
  else if id =? MSG_SYSTEM_SERVICE_TATE_CHANGED then call_back now CServiceStateChanged s
  else if negb (bool_decide (id ∈ [MSG_SYSTEM_SIM_STATUS_CHANGED; MSG_SYSTEM_IMSI_UPDATED;
                                   MSG_SYSTEM_VOICE_REGISTRTION_STATE_CHANGED; MSG_SYSTEM_DATA_REGISTRTION_STATE_CHANGED;
                                   MSG_SYSTEM_DATA_CALL_STATE_CHANGED; MSG_SYSTEM_MODEM_STATE_CHANGED]))
  then call_back now (CInternalMessage p) s
  else
    match m_pUserData m with
    | None => Ok s
    | Some ints =>
      if id =? MSG_SYSTEM_SIM_STATUS_CHANGED then
        card ← ints.[0]; app ← ints.[1]; call_back now (CSimStatusChanged card app) s
      else if id =? MSG_SYSTEM_IMSI_UPDATED then
        aid ← ints.[0]; imsi ← ints.[1];
        s ← call_back now (CImsiUpdated imsi) s;
        call_back now (CImsiUpdatedAid aid imsi) s
      else if id =? MSG_SYSTEM_VOICE_REGISTRTION_STATE_CHANGED then
        v ← ints.[0];
        let s := set_radio (m_nOverallRadioState s) v (m_nDataNetworkState s) (mModemState s) s in
        call_back now (CVoiceRegistrationStateChanged v) s
      else if id =? MSG_SYSTEM_DATA_REGISTRTION_STATE_CHANGED then
        v ← ints.[0];
        let s := set_radio (m_nOverallRadioState s) (m_nVoiceNetworkState s) v (mModemState s) s in
        call_back now (CDataRegistrationStateChanged v) s
      else if id =? MSG_SYSTEM_DATA_CALL_STATE_CHANGED then
        cid ← ints.[0]; active ← ints.[1];
        call_back now (CDataCallStateChanged cid (negb (active =? 0))) s
      else ModemStateChanged now ints s
    end.

Definition HandleInternalMessage (now : timeval) (s : Service) : res Service :=
  match internalDeQ s with
  | (None, s) => Ok s
  | (Some p, s) =>
    m ← deref p s;
    s ← internal_case now p m s;
    delete_msg p s
  end.

(** ** The monitor loop and the senders *)

(** the [switch] on the byte that was read *)
Definition dispatch (now : timeval) (d : MsgDirection) (s : Service) : res Service :=
  match d with
  | REQUEST => HandleRequest now s
  | RESPONSE => HandleResponse now s
  | INTERNAL => HandleInternalMessage now s
  end.

(** one round of [ServiceMonitorRunnable::Run] while nobody writes to the pipe:
    [select] finds a byte, or waits out the next timeout; [None]: it waits for ever *)
Definition monitor_round (now : timeval) (s : Service) : res (option Service) :=
  match m_pipe s with
  | d :: rest => Some <$> dispatch now d (set_pipe rest s)
  | [] => match CalcNextTimeout now s with
          | None => Ok None
          | Some _ => Some <$> HandleRequestTimeout now s
          end
  end.

(** [ServiceMgr::SendMessage] to this service of a new message at address [p], by a sender that is not interrupted: the message is put on its
    queue, read for its direction, and the pipe written.  What happens when the monitor runs between the first two is in [ServiceFindings]. *)
Definition SendMessage (p : Z) (m : Message) (s : Service) : res Service :=
  s ← EnQueue p (set_heap (<[p := m]> (heap s)) s);
  m ← deref p s;
  Ok (NotifyNewMessage (m_nDirection m) s).
End engine.

(** a service whose pipe has been opened *)
Definition newService : Service :=
  {| heap := ∅; m_requestQueue := []; m_responseQueue := []; m_internalQueue := []; m_pCurReqMsg := None;
     mTimerList := []; m_pipe := []; m_nOverallRadioState := RADIO_STATE_UNAVAILABLE;
     m_nVoiceNetworkState := NOT_REGISTERED; m_nDataNetworkState := NOT_REGISTERED; mModemState := MS_OFFLINE;
     m_nCurrentReqId := 0; m_nr_count := 0; m_RequestWaitList := newWaitList; completed := []; crash_requests := 0 |}.
