(* ===== verification/ServiceProofs.v ===== *)
(** What the request engine of [Service.v] guarantees to the RIL application,
    for every service whose handlers keep the contract the comments of
    [core/service.cpp] state. *)
From stdpp Require Import gmap.
From S2P Require Import Prelude RilDef Timers WaitList Service.

(** ** The contract of a service's handlers

    [service.cpp:622]: a handler that has completed or postponed the request
    returns [TRUE].  [service.cpp:1072]: a timeout handler returns [TRUE]
    exactly when it has dealt with the request.  A handler that returns
    [FALSE] has not restarted the timer either, since the engine deletes the
    message next, and a timeout handler that does has not replaced the modem
    data the engine still reads. *)
Definition quiet (a : action) : bool :=
  match a with ASendRequest _ _ _ _ | ASetRequestTimeout _ => true | _ => false end.
Definition silent (a : action) : bool := match a with ASetRequestTimeout _ => true | _ => false end.
(** the request is answered, put off, or waits for its timer again *)
Definition closing (a : action) : bool :=
  match a with AOnRequestComplete _ | APostponeRequestMessage _ | AResetRequestTimeout _ => true | _ => false end.

Class HandlerContract `{ServiceHandlers} := {
  request_false : ∀ p s, (OnHandleRequest p s).1 = false → Forall (λ a, quiet a = true) (OnHandleRequest p s).2;
  timeout_false : ∀ p s, (OnHandleRequestTimeout p s).1 = false → Forall (λ a, silent a = true) (OnHandleRequestTimeout p s).2;
  timeout_true : ∀ p s, (OnHandleRequestTimeout p s).1 = true → Exists (λ a, closing a = true) (OnHandleRequestTimeout p s).2
}.

(** what a sender gives the service: a message at a new address, a request
    with its data, a system message with the integers its kind has *)
Definition ints_needed (id : Z) : Z :=
  if bool_decide (id ∈ [MSG_SYSTEM_SIM_STATUS_CHANGED; MSG_SYSTEM_IMSI_UPDATED; MSG_SYSTEM_DATA_CALL_STATE_CHANGED]) then 2
  else if bool_decide (id ∈ [MSG_SYSTEM_RADIO_STATE_CHANGED; MSG_SYSTEM_VOICE_REGISTRTION_STATE_CHANGED;
                             MSG_SYSTEM_DATA_REGISTRTION_STATE_CHANGED; MSG_SYSTEM_MODEM_STATE_CHANGED]) then 1
  else 0.
Definition message_ok (m : Message) : Prop :=
  match m_nDirection m with
  | REQUEST => is_Some (m_pReqData m)
  | RESPONSE => True
  | INTERNAL => match m_pUserData m with None => True | Some ints => ints_needed (m_nMsgId m) <= lenZ ints end
  end.

(** ** The invariant

    [q], [r], [i] are the queues, [cur] the current request, [t] the messages
    of the timer list, [c] the messages answered so far. *)
Definition tq (l : list TimerEvent) : list Z := omap msg l.
Definition pending (q : list Z) (cur : option Z) (t : list Z) (p : Z) : Prop := p ∈ q ∨ cur = Some p ∨ p ∈ t.
Definition holds (h : gmap Z Message) (d : MsgDirection) (p : Z) : Prop :=
  ∃ m, h !! p = Some m ∧ m_nDirection m = d ∧ message_ok m.

(** a heap [h], a set [P] of pending requests, and what is done *)
Record ledger (acc : list Z) (h : gmap Z Message) (P : Z → Prop) (r i c : list Z) : Prop := {
  led_req : ∀ p, P p → holds h REQUEST p;
  led_resp : NoDup r ∧ ∀ p, p ∈ r → holds h RESPONSE p;
  led_int : NoDup i ∧ ∀ p, p ∈ i → holds h INTERNAL p;
  led_once : NoDup c;
  led_done : ∀ p, p ∈ c → ¬ P p;
  led_acc : ∀ p, p ∈ acc ↔ p ∈ c ∨ P p
}.
Definition shape (q : list Z) (cur : option Z) (t : list Z) : Prop := NoDup (q ++ t) ∧ ∀ p, cur = Some p → p ∉ q.
Definition core (acc : list Z) (h : gmap Z Message) (q r i : list Z) (cur : option Z) (t c : list Z) : Prop :=
  shape q cur t ∧ ledger acc h (pending q cur t) r i c.

#[export] Instance ledger_iff acc h : Proper (pointwise_relation _ iff ==> (=) ==> (=) ==> (=) ==> impl) (ledger acc h).
Proof.
  intros P P' HP r ? <- i ? <- c ? <- []. split; try done; intros p; rewrite <- HP; auto.
Qed.
#[export] Instance core_perm acc h q r i cur : Proper ((≡ₚ) ==> (=) ==> impl) (core acc h q r i cur).
Proof.
  intros t t' Ht c ? <- [[Hn Hc] Hl]. split; [split; [by rewrite <- Ht|done]|].
  eapply ledger_iff; [|done..|apply Hl]. intros p. unfold pending. by rewrite Ht.
Qed.

(** the pending set is the same *)
Ltac same_pending :=
  let x := fresh "x" in let Hx := fresh "Hx" in intros x; unfold pending;
  rewrite ?elem_of_app, ?elem_of_cons, ?list_elem_of_filter, ?elem_of_nil;
  split; intros Hx; destruct_or? Hx; destruct_and? Hx; simplify_eq; tauto.

Section core_lemmas.
Context (acc : list Z) (h : gmap Z Message) (r i c : list Z).

Lemma holds_dir d d' p : holds h d p → holds h d' p → d = d'.
Proof. intros (m & Hm & <- & _) (m' & Hm' & <- & _). congruence. Qed.

Lemma ledger_answer p P P' :
  ledger acc h P r i c → P p → (∀ x, P' x ↔ P x ∧ x ≠ p) → ledger acc h P' r i (c ++ [p]).
Proof.
  intros [Hreq Hresp Hint Honce Hdone Hacc] Hp HP. split; try done.
  - intros x Hx. apply Hreq. by apply HP in Hx as [? _].
  - apply NoDup_app. split_and!; [done| |apply NoDup_singleton].
    intros x Hx ->%list_elem_of_singleton. by apply (Hdone p).
  - intros x [Hx|Hx]%elem_of_app [HPx Hne]%HP; [by apply (Hdone x)|]. apply list_elem_of_singleton in Hx. tauto.
  - intros x. rewrite (Hacc x), elem_of_app, list_elem_of_singleton, (HP x). destruct (decide (x = p)) as [->|]; tauto.
Qed.

Lemma core_take p q t : core acc h (p :: q) r i None t c → core acc h q r i (Some p) t c.
Proof.
  intros [[Hn Hc] Hl]. cbn in Hn. apply NoDup_cons in Hn as [Hp Hn]. split.
  - split; [done|]. intros ? [= <-] Hq. apply Hp, elem_of_app. by left.
  - eapply ledger_iff; [|done..|apply Hl]. same_pending.
Qed.

(** the current request is answered and goes away *)
Lemma core_answer p q t : core acc h q r i (Some p) t c → p ∉ t → core acc h q r i None t (c ++ [p]).
Proof.
  intros [[Hn Hc] Hl] Ht. split; [done|]. eapply ledger_answer; [apply Hl|by right; left|].
  assert (Hq := Hc p eq_refl). intros x. unfold pending. split.
  - intros [?|[?|?]]; [|done|]; (split; [tauto|]); by intros ->.
  - intros [Hx Hne]. destruct_or? Hx; simplify_eq; tauto.
Qed.

Lemma core_arm p q t : core acc h q r i (Some p) t c → core acc h q r i (Some p) (p :: filter (λ x, x ≠ p) t) c.
Proof.
  intros [[Hn Hc] Hl]. split.
  - split; [|done]. apply NoDup_app in Hn as (Hnq & Hd & Hnt). apply NoDup_app. split_and!; [done| |].
    + intros x Hx [->|Hx']%elem_of_cons; [by apply (Hc p)|]. apply list_elem_of_filter in Hx' as [_ Hx']. by apply (Hd x).
    + apply NoDup_cons. split; [rewrite list_elem_of_filter; tauto|by apply NoDup_filter].
  - eapply ledger_iff; [|done..|apply Hl]. intros x. unfold pending. rewrite elem_of_cons, list_elem_of_filter.
    split; intros Hx; destruct (decide (x = p)) as [->|]; destruct_or? Hx; simplify_eq; tauto.
Qed.

(** a request whose timer keeps it need not be the current one *)
Lemma core_release p q t : core acc h q r i (Some p) t c → p ∈ t → core acc h q r i None t c.
Proof.
  intros [[Hn Hc] Hl] Ht. split; [done|]. eapply ledger_iff; [|done..|apply Hl].
  intros x. unfold pending. split; [intros [?|[[= <-]|?]]; tauto|intros [?|[?|?]]; [tauto|done|tauto] ].
Qed.

Lemma core_pop_cur p q t : core acc h q r i (Some p) (p :: t) c → core acc h q r i (Some p) t c ∧ p ∉ t.
Proof.
  intros [[Hn Hc] Hl]. apply NoDup_app in Hn as (Hnq & Hd & [Hp Hnt]%NoDup_cons). split; [|done]. split.
  - split; [|done]. apply NoDup_app. split_and!; [done| |done]. intros x Hx Hx'. apply (Hd x); [done|by right].
  - eapply ledger_iff; [|done..|apply Hl]. same_pending.
Qed.

Lemma core_requeue p q cur t : cur ≠ Some p → core acc h q r i cur (p :: t) c → core acc h (q ++ [p]) r i cur t c.
Proof.
  intros Hcp [[Hn Hc] Hl]. split.
  - split; [by rewrite <- app_assoc|]. intros x Hx [Hq|Hq]%elem_of_app; [by apply (Hc x)|].
    apply list_elem_of_singleton in Hq. congruence.
  - eapply ledger_iff; [|done..|apply Hl]. same_pending.
Qed.

(** a new request *)
Lemma core_new p m q cur t :
  core acc h q r i cur t c → h !! p = None → p ∉ acc → m_nDirection m = REQUEST → message_ok m →
  core (p :: acc) (<[p:=m]> h) (q ++ [p]) r i cur t c.
Proof.
  intros [[Hn Hc] [Hreq Hresp Hint Honce Hdone Hacc]] Hp Hnew Hd Hok.
  assert (Hh : ∀ d x, holds h d x → holds (<[p:=m]> h) d x ∧ x ≠ p).
  { intros d x (mx & Hmx & ?). assert (x ≠ p) by congruence. split; [|done]. exists mx. by rewrite lookup_insert_ne. }
  assert (Hnp : ¬ pending q cur t p) by (intros Hx; apply Hnew, Hacc; by right). split.
  - split.
    + rewrite <- app_assoc. cbn. rewrite <- Permutation_middle. apply NoDup_cons. split; [|done].
      intros [?|?]%elem_of_app; apply Hnp; unfold pending; tauto.
    + intros x Hx [Hq|Hq]%elem_of_app; [by apply (Hc x)|]. apply list_elem_of_singleton in Hq as ->. apply Hnp. unfold pending. tauto.
  - assert (HP : ∀ x, pending (q ++ [p]) cur t x ↔ pending q cur t x ∨ x = p) by same_pending. split; try done.
    + intros x [Hx| ->]%HP; [by apply Hh, Hreq|]. exists m. by rewrite lookup_insert_eq.
    + split; [apply Hresp|]. intros x Hx. by apply Hh, Hresp.
    + split; [apply Hint|]. intros x Hx. by apply Hh, Hint.
    + intros x Hx [Hx'| ->]%HP; [by apply (Hdone x)|]. apply Hnew, Hacc. by left.
    + intros x. rewrite elem_of_cons, (Hacc x), (HP x). tauto.
Qed.

(** a change of the heap that keeps what every live message is *)
Lemma core_heap h' q r' i' cur t :
  core acc h q r i cur t c → NoDup r' → NoDup i' →
  (∀ p, pending q cur t p → holds h' REQUEST p) → (∀ p, p ∈ r' → holds h' RESPONSE p) → (∀ p, p ∈ i' → holds h' INTERNAL p) →
  core acc h' q r' i' cur t c.
Proof. intros [Hs []] Hr Hi Hh1 Hh2 Hh3. by split. Qed.

Lemma core_modify p m m' q cur t :
  core acc h q r i cur t c → h !! p = Some m → m_nDirection m' = m_nDirection m → (message_ok m → message_ok m') →
  core acc (<[p:=m']> h) q r i cur t c.
Proof.
  intros Hcore Hm Hd Hok.
  assert (Hh : ∀ d x, holds h d x → holds (<[p:=m']> h) d x).
  { intros d x (mx & Hx & Hdx & Hokx). destruct (decide (x = p)) as [->|].
    - exists m'. rewrite lookup_insert_eq. split; [done|]. replace mx with m in * by congruence. split; [congruence|auto].
    - exists mx. by rewrite lookup_insert_ne. }
  pose proof Hcore as [_ [Hreq [Hr Hresp] [Hi Hint] _ _ _]]. eapply core_heap; [done..| | |]; auto.
Qed.

(** deleting a message that is in no queue *)
Lemma core_delete p q cur t :
  core acc h q r i cur t c → ¬ pending q cur t p → p ∉ r → p ∉ i → core acc (delete p h) q r i cur t c.
Proof.
  intros Hcore Hq Hr Hi. assert (Hh : ∀ d x, x ≠ p → holds h d x → holds (delete p h) d x).
  { intros d x Hx (mx & Hmx & ?). exists mx. by rewrite lookup_delete_ne. }
  pose proof Hcore as [_ [Hreq [Hr' Hresp] [Hi' Hint] _ _ _]].
  eapply core_heap; [done..| | |]; intros x Hx; (apply Hh; [by intros ->|auto]).
Qed.

(** the current request is answered and deleted *)
Lemma core_finish p q t :
  core acc h q r i (Some p) t c → p ∉ t → holds h REQUEST p → core acc (delete p h) q r i None t (c ++ [p]).
Proof.
  intros HI Hp Hh. apply core_answer in HI; [|done]. destruct HI as [Hs HI]. pose proof HI as [Hreq Hresp Hint Honce Hdone Hacc].
  pose proof (Hdone p ltac:(apply elem_of_app; right; by left)) as Hnp. split; [done|].
  assert (Hh' : ∀ d x, x ≠ p → holds h d x → holds (delete p h) d x).
  { intros d x Hx (mx & Hmx & ?). exists mx. by rewrite lookup_delete_ne. }
  split; try done.
  - intros x Hx. apply Hh'; [by intros ->|auto].
  - split; [apply Hresp|]. intros x Hx. apply Hh'; [|by apply Hresp]. intros ->.
    by pose proof (holds_dir _ _ _ Hh (proj2 Hresp _ Hx)).
  - split; [apply Hint|]. intros x Hx. apply Hh'; [|by apply Hint]. intros ->.
    by pose proof (holds_dir _ _ _ Hh (proj2 Hint _ Hx)).
Qed.

Lemma core_not_pending p q cur t d : core acc h q r i cur t c → holds h d p → d ≠ REQUEST → ¬ pending q cur t p.
Proof. intros [_ []] Hd Hne Hp. apply Hne. eapply holds_dir; [done|by apply led_req0]. Qed.
End core_lemmas.

(** ** The timer list as a list of messages *)

Definition all_some (l : list TimerEvent) : Prop := Forall (λ te, is_Some (msg te)) l.

Lemma tq_insert te l : tq (insert_event te l) ≡ₚ tq (te :: l).
Proof. unfold tq. by rewrite insert_event_perm. Qed.
Lemma tq_put now p millis l : tq (put now (Some p) millis l) ≡ₚ p :: tq l.
Proof. unfold put. by rewrite tq_insert. Qed.
Lemma filter_absent p (l : list Z) : p ∉ l → filter (λ x, x ≠ p) l = l.
Proof.
  induction l as [|y l IH]; intros Hp; [done|]. apply not_elem_of_cons in Hp as [Hy Hp].
  rewrite filter_cons_True by congruence. by rewrite IH.
Qed.
Lemma tq_cons te l : tq (te :: l) = match msg te with Some x => x :: tq l | None => tq l end.
Proof. done. Qed.
Lemma tq_erase p l : NoDup (tq l) → tq (erase (Some p) l) = filter (λ x, x ≠ p) (tq l).
Proof.
  induction l as [|te l IH]; intros Hn; [done|]. cbn [erase]. rewrite tq_cons in *. destruct (msg te) as [x|] eqn:E.
  - apply NoDup_cons in Hn as [Hx Hn]. destruct (decide (Some x = Some p)) as [ [= ->]|Hne].
    + rewrite filter_cons_False by tauto. by rewrite filter_absent.
    + rewrite tq_cons, E, IH by done. by rewrite filter_cons_True by congruence.
  - rewrite decide_False by done. rewrite tq_cons, E. by apply IH.
Qed.
Lemma all_some_erase m l : all_some l → all_some (erase m l).
Proof.
  unfold all_some. induction 1 as [|te l Hte Hl IH]; [done|]. cbn [erase]. destruct (decide (msg te = m)); [done|by constructor].
Qed.
Lemma all_some_put now p millis l : all_some l → all_some (put now (Some p) millis l).
Proof. unfold all_some, put. intros H. rewrite insert_event_perm. constructor; [by eexists|done]. Qed.

(** ** The state of a service *)

Definition Inv (acc : list Z) (s : Service) : Prop :=
  core acc (heap s) (m_requestQueue s) (m_responseQueue s) (m_internalQueue s) (m_pCurReqMsg s) (tq (mTimerList s))
    (c_msg <$> completed s) ∧ all_some (mTimerList s).
(** the current request has a timer *)
Definition armed (s : Service) : Prop := ∀ p, m_pCurReqMsg s = Some p → p ∈ tq (mTimerList s).

(** the request data belongs to the message for good: [rid] gives the request
    identifier of every message that was sent *)
Definition Ids (rid : gmap Z Z) (s : Service) : Prop :=
  (∀ p m, heap s !! p = Some m → m_nDirection m = REQUEST → m_pReqData m = rid !! p) ∧
  Forall (λ c, rid !! c_msg c = Some (c_req c)) (completed s).
(** answers are only added, each for the request its message carries, and no message appears *)
Definition log (s s' : Service) : Prop :=
  (∃ l, completed s' = completed s ++ l) ∧ (∀ rid, Ids rid s → Ids rid s') ∧ ∀ x, heap s !! x = None → heap s' !! x = None.
#[export] Instance log_preorder : PreOrder log.
Proof.
  unfold log. split; [intros s; split; [exists []; by rewrite app_nil_r|done]|].
  intros s1 s2 s3 [[l Hl] [H12 D12] ] [[l' Hl'] [H23 D23] ]. split; [|auto]. exists (l ++ l'). by rewrite Hl', Hl, app_assoc.
Qed.
Lemma log_sub s s' l :
  (∀ x m', heap s' !! x = Some m' → ∃ m, heap s !! x = Some m ∧ m_nDirection m' = m_nDirection m ∧ m_pReqData m' = m_pReqData m) →
  completed s' = completed s ++ l →
  Forall (λ c, ∃ m, heap s !! c_msg c = Some m ∧ m_nDirection m = REQUEST ∧ m_pReqData m = Some (c_req c)) l → log s s'.
Proof.
  intros Hh Hc Hl. split; [by exists l|]. split.
  2:{ intros x Hx. destruct (heap s' !! x) as [m'|] eqn:E; [|done]. destruct (Hh x m' E) as (m & Hm & _). congruence. }
  intros rid [Hr Hd]. split.
  - intros x m' Hx Hdir. destruct (Hh x m' Hx) as (m & Hm & Hd' & ->). apply Hr; congruence.
  - rewrite Hc. apply Forall_app. split; [done|]. eapply Forall_impl; [exact Hl|].
    intros c (m & Hm & Hdir & <-). symmetry. by apply Hr.
Qed.
Lemma log_same s s' : heap s' = heap s → completed s' = completed s → log s s'.
Proof. intros Hh Hc. apply (log_sub s s' []); [intros x m'; rewrite Hh; eauto|by rewrite Hc, app_nil_r|constructor]. Qed.
Lemma log_insert s s' p m m' :
  heap s !! p = Some m → m_nDirection m' = m_nDirection m → m_pReqData m' = m_pReqData m →
  heap s' = <[p:=m']> (heap s) → completed s' = completed s → log s s'.
Proof.
  intros Hm Hd Hr Hh Hc. apply (log_sub s s' []); [|by rewrite Hc, app_nil_r|constructor]. intros x mx. rewrite Hh.
  destruct (decide (x = p)) as [->|]; [rewrite lookup_insert_eq; intros [= <-]; eauto|rewrite lookup_insert_ne by done; eauto].
Qed.
Lemma log_delete s s' p : heap s' = delete p (heap s) → completed s' = completed s → log s s'.
Proof.
  intros Hh Hc. apply (log_sub s s' []); [|by rewrite Hc, app_nil_r|constructor].
  intros x m'. rewrite Hh, lookup_delete_Some. intros [_ ?]. eauto.
Qed.
Lemma log_answer s s' p m id r :
  heap s !! p = Some m → m_nDirection m = REQUEST → m_pReqData m = Some id → (heap s' = heap s ∨ heap s' = delete p (heap s)) →
  completed s' = completed s ++ [{| c_msg := p; c_req := id; c_result := r |}] → log s s'.
Proof.
  intros Hm Hd Hr Hh Hc. eapply log_sub; [|exact Hc|repeat constructor; by exists m].
  intros x m'. destruct Hh as [->| ->]; [eauto|]. rewrite lookup_delete_Some. intros [_ ?]. eauto.
Qed.

(** what a call of a protected method keeps *)
Record frame (s s' : Service) : Prop := {
  fr_req : m_requestQueue s' = m_requestQueue s;
  fr_resp : m_responseQueue s' = m_responseQueue s;
  fr_int : m_internalQueue s' = m_internalQueue s;
  fr_heap : ∀ p m, heap s !! p = Some m → m_nDirection m ≠ REQUEST → heap s' !! p = Some m;
  fr_cur : m_pCurReqMsg s' = m_pCurReqMsg s ∨ m_pCurReqMsg s' = None;
  fr_pipe : ∃ k, m_pipe s' = m_pipe s ++ replicate k REQUEST;
  fr_wake : m_pCurReqMsg s ≠ None → m_pCurReqMsg s' = None → REQUEST ∈ m_pipe s';
  fr_armed : armed s → armed s';
  fr_log : log s s'
}.
#[export] Instance frame_preorder : PreOrder frame.
Proof.
  split.
  - intros s. split; try done; [by left|]. exists O. by rewrite app_nil_r.
  - intros s1 s2 s3 [] []. split; try congruence; auto.
    + destruct fr_cur1 as [->| ->]; auto.
    + destruct fr_pipe1 as [k' ->], fr_pipe0 as [k ->]. exists (k + k')%nat. by rewrite replicate_add, app_assoc.
    + intros H1 H3. destruct (m_pCurReqMsg s2) as [c|] eqn:E2; [by apply fr_wake1|].
      destruct fr_pipe1 as [k' ->]. apply elem_of_app. left. by apply fr_wake0.
    + by etrans.
Qed.

(** what a call keeps that neither ends nor restarts the request *)
Definition still (s s' : Service) : Prop :=
  m_requestQueue s' = m_requestQueue s ∧ m_pCurReqMsg s' = m_pCurReqMsg s ∧ mTimerList s' = mTimerList s ∧
  completed s' = completed s ∧ m_pipe s' = m_pipe s.
#[export] Instance still_preorder : PreOrder still.
Proof. unfold still. split; [done|]. intros s1 s2 s3 ??. intuition congruence. Qed.

Lemma Inv_req acc s p :
  Inv acc s → pending (m_requestQueue s) (m_pCurReqMsg s) (tq (mTimerList s)) p →
  ∃ m id, heap s !! p = Some m ∧ m_nDirection m = REQUEST ∧ m_pReqData m = Some id.
Proof.
  intros [[_ Hl] _] Hp. apply (led_req _ _ _ _ _ _ Hl) in Hp as (m & Hm & Hd & Hok).
  unfold message_ok in Hok. rewrite Hd in Hok. destruct Hok as [id Hid]. by exists m, id.
Qed.
Lemma Inv_cur acc s p :
  Inv acc s → m_pCurReqMsg s = Some p → ∃ m id, heap s !! p = Some m ∧ m_nDirection m = REQUEST ∧ m_pReqData m = Some id.
Proof. intros HI Hc. eapply Inv_req; [done|]. right; by left. Qed.
Lemma Inv_tq_nodup acc s : Inv acc s → NoDup (tq (mTimerList s)).
Proof. intros [[[Hn _] _] _]. by apply NoDup_app in Hn as (_ & _ & ?). Qed.

Lemma deref_ok p m s : heap s !! p = Some m → deref p s = Ok m.
Proof. unfold deref. by intros ->. Qed.

Lemma tq_rearm acc s now p millis :
  Inv acc s → tq (put now (Some p) millis (erase (Some p) (mTimerList s))) ≡ₚ p :: filter (λ x, x ≠ p) (tq (mTimerList s)).
Proof. intros HI. rewrite tq_put, tq_erase; [done|by eapply Inv_tq_nodup]. Qed.

(** run the calls whose arguments are known *)
Ltac eval_with H := repeat (rewrite (deref_ok _ _ _ H) || cbn [mbind res_bind fst snd]).

Section methods.
Context (acc : list Z).

Lemma NotifyNext_none s : m_pCurReqMsg s = None → NotifyNextRequestMessage s = Ok (NotifyNewMessage REQUEST s).
Proof. unfold NotifyNextRequestMessage. by intros ->. Qed.
Lemma NotifyNext_some s p m :
  m_pCurReqMsg s = Some p → heap s !! p = Some m →
  NotifyNextRequestMessage s = Ok (NotifyNewMessage REQUEST (set_cur None (set_heap (delete p (heap s)) s))).
Proof. unfold NotifyNextRequestMessage, delete_msg. intros -> Hm. by eval_with Hm. Qed.

Lemma frame_notify s : m_pCurReqMsg s = None → frame s (NotifyNewMessage REQUEST s).
Proof. intros Hc. split; cbn; try done; [by left|by exists 1%nat|by apply log_same]. Qed.

Lemma modify_ok p f s m : heap s !! p = Some m → modify p f s = Ok (set_heap (<[p := f m]> (heap s)) s).
Proof. intros Hm. unfold modify. by eval_with Hm. Qed.

(** the request's message changes, the rest of the state stays *)
Lemma touch_ok s s' p m m' :
  Inv acc s → m_pCurReqMsg s = Some p → heap s !! p = Some m → m_nDirection m' = m_nDirection m →
  m_pReqData m' = m_pReqData m → heap s' = <[p := m']> (heap s) →
  m_responseQueue s' = m_responseQueue s → m_internalQueue s' = m_internalQueue s → still s s' → Inv acc s' ∧ frame s s'.
Proof.
  intros HI Hc Hm Hd Hr Hh Hrq Hiq (Hq & Hc' & Ht & Hcm & Hp).
  destruct (Inv_cur _ _ _ HI Hc) as (m0 & id & Hm0 & Hd0 & _). assert (m0 = m) as -> by congruence. destruct HI as [HI Ha].
  split; [split; [|by rewrite Ht]|split; rewrite ?Hh, ?Hp; try done].
  - rewrite Hh, Hq, Hrq, Hiq, Hc', Ht, Hcm. eapply core_modify; try done. unfold message_ok. by rewrite Hd, Hd0, Hr.
  - intros x mx Hx Hdx. rewrite lookup_insert_ne; [done|]. intros <-. congruence.
  - by left.
  - exists O. by rewrite app_nil_r.
  - congruence.
  - unfold armed. by rewrite Hc', Ht.
  - by eapply log_insert.
Qed.

Lemma OnRequestComplete_effect s result :
  Inv acc s → ∃ s', OnRequestComplete result s = Ok s' ∧ Inv acc s' ∧ frame s s' ∧ m_pCurReqMsg s' = None ∧
    m_pipe s' = m_pipe s ++ [REQUEST] ∧
    tq (mTimerList s') = match m_pCurReqMsg s with Some p => filter (λ x, x ≠ p) (tq (mTimerList s)) | None => tq (mTimerList s) end.
Proof.
  intros HI. unfold OnRequestComplete. destruct (m_pCurReqMsg s) as [p|] eqn:Hc.
  - destruct (Inv_cur _ _ _ HI Hc) as (m & id & Hm & Hd & Hid). eval_with Hm. rewrite Hid. cbn [ContextComplete].
    erewrite NotifyNext_some by (cbn; done). eexists. split; [done|]. pose proof HI as HInv. destruct HI as [HI Ha]. split; [split|split]; cbn.
    + rewrite tq_erase by (by destruct HI as [[Hn _] _]; apply NoDup_app in Hn as (_ & _ & ?)). rewrite fmap_app. rewrite Hc in HI.
      apply core_arm, core_pop_cur in HI as [HI Hp]. apply core_finish; [done..|].
      exists m. unfold message_ok. by rewrite Hd, Hid.
    + by apply all_some_erase.
    + split; cbn; try done; [|by right|by exists 1%nat|intros _ _; apply elem_of_app; right; by left|eapply log_answer; try done; by right].
      intros x mx Hx Hdx. rewrite lookup_delete_ne; [done|]. intros <-. congruence.
    + split; [done|]. split; [done|]. apply tq_erase. by eapply Inv_tq_nodup.
  - cbn [mbind res_bind]. rewrite NotifyNext_none by done. eexists. split; [done|]. split; [exact HI|]. split; [|done].
    split; cbn; try done; [by left|by exists 1%nat|by apply log_same].
Qed.
Lemma OnRequestComplete_ok s result :
  Inv acc s → ∃ s', OnRequestComplete result s = Ok s' ∧ Inv acc s' ∧ frame s s' ∧ m_pCurReqMsg s' = None.
Proof. intros HI. destruct (OnRequestComplete_effect s result HI) as (s' & ? & ? & ? & ? & _). by exists s'. Qed.

Lemma PostponeRequestMessage_ok s now millis :
  Inv acc s → ∃ s', PostponeRequestMessage now millis s = Ok s' ∧ Inv acc s' ∧ frame s s' ∧ m_pCurReqMsg s' = None.
Proof.
  intros HI. unfold PostponeRequestMessage. destruct (m_pCurReqMsg s) as [p|] eqn:Hc.
  - destruct (Inv_cur _ _ _ HI Hc) as (m & id & Hm & Hd & Hid).
    rewrite (modify_ok p _ (set_cur None s) m) by done. cbn [mbind res_bind].
    erewrite modify_ok by (cbn; apply lookup_insert_eq). cbn [mbind res_bind].
    erewrite deref_ok by (cbn; apply lookup_insert_eq). cbn [mbind res_bind].
    rewrite NotifyNext_none by done. eexists. split; [done|]. pose proof (tq_rearm _ _ now p millis HI) as Hperm.
    destruct HI as [HI Ha]. rewrite Hc in HI. split; [split|split]; cbn.
    + rewrite Hperm, insert_insert_eq. eapply core_modify; [|done|done|by unfold message_ok; cbn; rewrite Hd].
      eapply core_release; [by apply core_arm|by left].
    + by apply all_some_put, all_some_erase.
    + split; cbn; try done; [|by right|by exists 1%nat|intros _ _; apply elem_of_app; right; by left|].
      2: by eapply (log_insert _ _ p m _ Hm); [| |cbn; apply insert_insert_eq|].
      intros x mx Hx Hdx. rewrite insert_insert_eq, lookup_insert_ne; [done|]. intros <-. congruence.
    + done.
  - cbn [mbind res_bind]. rewrite NotifyNext_none by done. eexists. split; [done|]. split; [exact HI|]. split; [|done].
    split; cbn; try done; [by left|by exists 1%nat|by apply log_same].
Qed.

Lemma SetRequestTimeout_ok s timeout :
  Inv acc s → ∃ r s', SetRequestTimeout timeout s = Ok (r, s') ∧ Inv acc s' ∧ frame s s' ∧ still s s' ∧
    ∀ p m, heap s !! p = Some m → ∃ m', heap s' !! p = Some m' ∧ m_pModemData m' = m_pModemData m.
Proof.
  intros HI. unfold SetRequestTimeout. destruct (m_pCurReqMsg s) as [p|] eqn:Hc.
  - destruct (Inv_cur _ _ _ HI Hc) as (m & id & Hm & Hd & Hid). rewrite (modify_ok p _ _ m) by done. cbn [mbind res_bind].
    eexists _, _. split; [done|].
    destruct (touch_ok s (set_heap (<[p:=SetTimeout (i32 timeout) m]> (heap s)) s) p m (SetTimeout (i32 timeout) m)) as [HI' Hf];
      try done. split_and!; try done. cbn. intros x mx Hx. destruct (decide (x = p)) as [->|].
    + rewrite lookup_insert_eq. eexists. split; [done|]. replace mx with m by congruence. done.
    + rewrite lookup_insert_ne by done. by eexists.
  - eexists _, _. split; [done|]. split_and!; try done. intros x mx Hx. by eexists.
Qed.

Lemma StartRequestTimeout_effect s now :
  Inv acc s → ∃ s', StartRequestTimeout now s = Ok s' ∧ Inv acc s' ∧ frame s s' ∧ armed s' ∧ m_pCurReqMsg s' = m_pCurReqMsg s ∧
    m_pipe s' = m_pipe s ∧
    match m_pCurReqMsg s with Some p => tq (mTimerList s') ≡ₚ p :: filter (λ x, x ≠ p) (tq (mTimerList s)) | None => s' = s end.
Proof.
  intros HI. unfold StartRequestTimeout. destruct (m_pCurReqMsg s) as [p|] eqn:Hc.
  - destruct (Inv_cur _ _ _ HI Hc) as (m & id & Hm & Hd & Hid). eval_with Hm.
    assert (∃ s1, (if m_nTimeout m <=? 0 then modify p (SetTimeout 60000) s else Ok s) = Ok s1 ∧ Inv acc s1 ∧ frame s s1 ∧ still s s1)
      as (s1 & -> & HI1 & Hf & Hs).
    { destruct (m_nTimeout m <=? 0); [|by exists s]. rewrite (modify_ok p _ _ m) by done. eexists. split; [done|].
      destruct (touch_ok s (set_heap (<[p:=SetTimeout 60000 m]> (heap s)) s) p m (SetTimeout 60000 m)) as [HI' Hf']; done. }
    cbn [mbind res_bind]. assert (Hc1 : m_pCurReqMsg s1 = Some p) by (destruct Hs as (_ & -> & _); done).
    destruct (Inv_cur _ _ _ HI1 Hc1) as (m1 & id1 & Hm1 & Hd1 & Hid1). eval_with Hm1. eexists. split; [done|].
    pose proof (tq_rearm _ _ now p (u32 (m_nTimeout m1)) HI1) as Hperm. destruct HI1 as [HI1 Ha].
    assert (Harm : ∀ s2, m_pCurReqMsg s2 = Some p → tq (mTimerList s2) ≡ₚ p :: filter (λ x, x ≠ p) (tq (mTimerList s1)) → armed s2).
    { intros s2 H1 H2 x Hx. rewrite H2. assert (x = p) as -> by congruence. by left. }
    split_and!.
    + split; cbn; [|by apply all_some_put, all_some_erase]. rewrite Hperm, Hc1. apply core_arm. by rewrite <- Hc1.
    + etrans; [done|]. split; cbn; try done; [by left|exists O; by rewrite app_nil_r| |by apply log_same]. intros _. by apply Harm.
    + by apply Harm.
    + exact Hc1.
    + by destruct Hs as (_ & _ & _ & _ & ?).
    + destruct Hs as (_ & _ & <- & _). exact Hperm.
  - eexists. split; [done|]. split_and!; try done. intros p Hp. congruence.
Qed.
Lemma StartRequestTimeout_ok s now :
  Inv acc s → ∃ s', StartRequestTimeout now s = Ok s' ∧ Inv acc s' ∧ frame s s' ∧ armed s' ∧ m_pCurReqMsg s' = m_pCurReqMsg s.
Proof. intros HI. destruct (StartRequestTimeout_effect s now HI) as (s' & ? & ? & ? & ? & ? & _). by exists s'. Qed.

Lemma SendRequest_ok s dest token timeout result written :
  Inv acc s → ∃ r s', SendRequest dest token timeout result written s = Ok (r, s') ∧ Inv acc s' ∧ frame s s' ∧ still s s'.
Proof.
  intros HI. unfold SendRequest. destruct (m_pCurReqMsg s) as [p|] eqn:Hc.
  - destruct (Inv_cur _ _ _ HI Hc) as (m & id & Hm & Hd & Hid). rewrite (modify_ok p _ _ m) by done. cbn [mbind res_bind].
    erewrite modify_ok by (cbn; apply lookup_insert_eq). cbn [mbind res_bind].
    destruct (ContextSend _ _ _ _ _) as [r w]. eexists _, _. split; [done|].
    match goal with |- Inv _ ?s' ∧ _ =>
      destruct (touch_ok s s' p m (SetTimeout (i32 timeout)
        (SetModemData (Some {| md_token := token; md_solicited := false; md_unsolicited := false |}) m))); try done
    end. cbn. apply insert_insert_eq.
  - eexists _, _. split; [done|]. by split_and!.
Qed.

Context `{ServiceHandlers}.

Lemma run_action_ok now a s :
  Inv acc s → ∃ s', run_action now a s = Ok s' ∧ Inv acc s' ∧ frame s s' ∧
    (closing a = true → armed s') ∧ (quiet a = true → still s s') ∧
    (silent a = true → ∀ p m, heap s !! p = Some m → ∃ m', heap s' !! p = Some m' ∧ m_pModemData m' = m_pModemData m).
Proof.
  intros HI. assert (Hnone : ∀ s', m_pCurReqMsg s' = None → armed s') by (intros s' Hs' ?; by rewrite Hs').
  destruct a as [token timeout result written|result|millis|timeout|timeout]; cbn [run_action].
  - destruct (SendRequest_ok s m_nServiceId token timeout result written HI) as (r & s' & -> & HI' & Hf & Hs).
    exists s'. by split_and!.
  - destruct (OnRequestComplete_ok s result HI) as (s' & -> & HI' & Hf & Hs). exists s'. split_and!; auto; done.
  - destruct (PostponeRequestMessage_ok s now millis HI) as (s' & -> & HI' & Hf & Hs). exists s'. split_and!; auto; done.
  - destruct (SetRequestTimeout_ok s timeout HI) as (r & s' & -> & HI' & Hf & Hs & Hm). exists s'. by split_and!.
  - unfold ResetRequestTimeout. destruct (SetRequestTimeout_ok s timeout HI) as (r & s1 & E & HI1 & Hf1 & Hs & _). rewrite E. cbn.
    destruct (r <? 0) eqn:Er.
    + exists s1. split_and!; try done. intros _. apply Hnone. revert E. unfold SetRequestTimeout.
      destruct (m_pCurReqMsg s) as [p|] eqn:Hc; [|by intros [= <- <-] ]. destruct (modify _ _ s); cbn; [|done..]. intros [= <- <-]. done.
    + destruct (StartRequestTimeout_ok s1 now HI1) as (s' & -> & HI' & Hf & Ha & _). exists s'. split_and!; try done. by etrans.
Qed.

Lemma run_actions_ok now l s :
  Inv acc s → ∃ s', run_actions now l s = Ok s' ∧ Inv acc s' ∧ frame s s' ∧
    (Exists (λ a, closing a = true) l → armed s') ∧ (Forall (λ a, quiet a = true) l → still s s') ∧
    (Forall (λ a, silent a = true) l →
     ∀ p m, heap s !! p = Some m → ∃ m', heap s' !! p = Some m' ∧ m_pModemData m' = m_pModemData m).
Proof.
  revert s. induction l as [|a l IH]; intros s HI.
  - exists s. split_and!; try done; [by intros ?%Exists_nil|]. intros _ p m Hm. by exists m.
  - cbn [run_actions]. destruct (run_action_ok now a s HI) as (s1 & -> & HI1 & Hf1 & Ha1 & Hs1 & Hm1). cbn [mbind res_bind].
    destruct (IH s1 HI1) as (s' & -> & HI' & Hf & Ha & Hs & Hm). exists s'. split_and!; try done.
    + by etrans.
    + intros [Hx|Hx]%Exists_cons; [|by apply Ha]. apply (fr_armed _ _ Hf). by apply Ha1.
    + intros [Hx Hl]%Forall_cons. etrans; [by apply Hs1|by apply Hs].
    + intros [Hx Hl]%Forall_cons p m Hp. destruct (Hm1 Hx p m Hp) as (m1 & Hp1 & <-). by apply (Hm Hl).
Qed.

Lemma call_back_ok now c s : Inv acc s → ∃ s', call_back now c s = Ok s' ∧ Inv acc s' ∧ frame s s'.
Proof. intros HI. destruct (run_actions_ok now (OnCallback c s) s HI) as (s' & ? & ? & ? & _). by exists s'. Qed.
End methods.

(** ** Between two rounds of the monitor *)

(** no lost wake-up: a queued request that can be taken has a byte in the pipe *)
Definition wake (s : Service) : Prop := m_pCurReqMsg s = None → m_requestQueue s ≠ [] → REQUEST ∈ m_pipe s.
Definition count_of (d : MsgDirection) (l : list MsgDirection) : nat := length (filter (λ x, x = d) l).
(** a byte for every queued response and internal message *)
Definition bytes (s : Service) : Prop :=
  count_of RESPONSE (m_pipe s) = length (m_responseQueue s) ∧ count_of INTERNAL (m_pipe s) = length (m_internalQueue s).
Definition Sys (acc : list Z) (s : Service) : Prop := Inv acc s ∧ armed s ∧ wake s ∧ bytes s.

(** what a whole handler keeps of the state it starts from *)
Definition post (s s' : Service) : Prop :=
  (armed s → armed s') ∧ (wake s → wake s') ∧ (bytes s → bytes s') ∧ log s s'.

#[export] Instance post_preorder : PreOrder post.
Proof.
  split.
  - intros s. refine (conj (λ H, H) (conj (λ H, H) (conj (λ H, H) _))). reflexivity.
  - intros s1 s2 s3 (Ha1 & Hw1 & Hb1 & Hl1) (Ha2 & Hw2 & Hb2 & Hl2). split; [exact (λ H, Ha2 (Ha1 H))|].
    split; [exact (λ H, Hw2 (Hw1 H))|]. split; [exact (λ H, Hb2 (Hb1 H))|by etrans].
Qed.

Lemma count_of_app d l l' : count_of d (l ++ l') = (count_of d l + count_of d l')%nat.
Proof. unfold count_of. by rewrite filter_app, length_app. Qed.
Lemma count_of_requests d k : d ≠ REQUEST → count_of d (replicate k REQUEST) = O.
Proof. intros Hd. induction k as [|k IH]; [done|]. unfold count_of in *. cbn [replicate]. by rewrite filter_cons_False. Qed.

Lemma bytes_frame s s' :
  m_responseQueue s' = m_responseQueue s → m_internalQueue s' = m_internalQueue s →
  (∃ k, m_pipe s' = m_pipe s ++ replicate k REQUEST) → bytes s → bytes s'.
Proof. unfold bytes. intros -> -> [k ->]. rewrite !count_of_app, !count_of_requests by done. by rewrite !Nat.add_0_r. Qed.

Lemma frame_post s s' : frame s s' → post s s'.
Proof.
  intros Hf. split; [apply Hf|]. split; [|split; [apply bytes_frame; apply Hf|apply Hf] ]. intros Hw Hc Hq. destruct (m_pCurReqMsg s) as [c|] eqn:E.
  - apply (fr_wake _ _ Hf); [by rewrite E|done].
  - destruct (fr_pipe _ _ Hf) as [k ->]. apply elem_of_app. left. apply Hw; [done|]. by rewrite <- (fr_req _ _ Hf).
Qed.

(** a message taken from the response or the internal queue *)
Definition loose (s : Service) (p : Z) : Prop :=
  (∃ m, heap s !! p = Some m ∧ m_nDirection m ≠ REQUEST) ∧ p ∉ m_responseQueue s ∧ p ∉ m_internalQueue s.
Lemma loose_frame s s' p : loose s p → frame s s' → loose s' p.
Proof.
  intros [(m & Hm & Hd) [Hr Hi]] Hf. split_and!; [|by rewrite (fr_resp _ _ Hf)|by rewrite (fr_int _ _ Hf)].
  exists m. split; [by apply (fr_heap _ _ Hf)|done].
Qed.
Lemma delete_loose acc s p :
  Inv acc s → loose s p → ∃ s', delete_msg p s = Ok s' ∧ Inv acc s' ∧ post s s'.
Proof.
  intros [HI Ha] [(m & Hm & Hd) [Hr Hi]]. unfold delete_msg. eval_with Hm. eexists. split; [done|].
  split; [|split; [done|]; split; [done|]; split; [done|by eapply log_delete] ].
  split; [|done]. cbn. apply core_delete; [done| |done..]. intros Hp. apply Hd.
  destruct HI as [_ HI]. apply (led_req _ _ _ _ _ _ HI) in Hp as (m' & Hm' & <- & _). congruence.
Qed.

Section handlers.
Context `{ServiceHandlers} (acc : list Z) (now : timeval).

Lemma HandleResponse_ok s :
  Inv acc s → armed s → ∃ s', HandleResponse now s = Ok s' ∧ Inv acc s' ∧ post (respDeQ (set_nr 0 s)).2 s'.
Proof.
  intros HI Har. unfold HandleResponse. destruct (respDeQ (set_nr 0 s)) as [o s1] eqn:E. unfold respDeQ in E. cbn in E.
  destruct (m_responseQueue s) as [|p q] eqn:Eq; injection E as <- <-; [by eexists|].
  assert (∃ m, heap s !! p = Some m ∧ m_nDirection m = RESPONSE) as (m & Hm & Hd).
  { destruct HI as [[_ HI] _]. rewrite Eq in HI. destruct (led_resp _ _ _ _ _ _ HI) as [_ Hr].
    destruct (Hr p) as (m & ? & ? & _); [by left|]. by exists m. }
  rewrite (deref_ok p m) by done. cbn [mbind res_bind snd]. set (s1 := set_queues _ _ _ _).
  assert (HI1 : Inv acc s1).
  { destruct HI as [HI Ha]. split; [|done]. rewrite Eq in HI. pose proof HI as [_ [Hreq [Hn Hresp] [Hni Hint] _ _ _]].
    apply NoDup_cons in Hn as [Hp Hn]. eapply core_heap; try done. intros x Hx. apply Hresp. by right. }
  assert (Hl : loose s1 p).
  { destruct HI as [[_ HI] _]. rewrite Eq in HI. destruct HI as [_ [Hn _] [_ Hint] _ _ _]. apply NoDup_cons in Hn as [Hp Hn].
    split_and!; [by exists m; rewrite Hd|done|]. intros Hpi. destruct (Hint p Hpi) as (m' & Hm' & Hd' & _). congruence. }
  assert (Hend : ∀ s2, Inv acc s2 → frame s1 s2 → ∃ s', delete_msg p s2 = Ok s' ∧ Inv acc s' ∧ post s1 s').
  { intros s2 HI2 Hf. destruct (delete_loose acc s2 p HI2) as (s' & ? & ? & Hp2); [by eapply loose_frame|].
    exists s'. split; [done|]. split; [done|]. etrans; [by apply frame_post|done]. }
  destruct (m_pModemData m) as [d|]; [|by apply Hend]. destruct (md_solicited d).
  - assert (∃ b, match m_pCurReqMsg s1 with Some c => mc ← deref c s1; Ok (GetToken mc =? GetToken m) | None => Ok false end = Ok b)
      as [b ->].
    { destruct (m_pCurReqMsg s1) as [c|] eqn:Hc; [|by eexists]. destruct (Inv_cur _ _ _ HI1 Hc) as (mc & ? & Hmc & _).
      eval_with Hmc. by eexists. }
    cbn [mbind res_bind]. destruct (negb b); [by apply Hend|]. destruct (OnHandleSolicitedResponse p s1) as [handled acts].
    destruct (run_actions_ok acc now acts s1 HI1) as (s2 & -> & HI2 & Hf2 & _). cbn [mbind res_bind].
    destruct handled; cbn [negb mbind res_bind]; [by apply Hend|].
    destruct (OnRequestComplete_ok acc s2 RIL_E_GENERIC_FAILURE HI2) as (s3 & -> & HI3 & Hf3 & _). cbn [mbind res_bind].
    apply Hend; [done|by etrans].
  - destruct (md_unsolicited d); [|by apply Hend].
    destruct (call_back_ok acc now (CUnsolicitedResponse p) s1 HI1) as (s2 & -> & HI2 & Hf2). cbn [mbind res_bind]. by apply Hend.
Qed.

(** system messages *)
Definition keeps (f : Service → res Service) : Prop :=
  ∀ s, Inv acc s → ∃ s', f s = Ok s' ∧ Inv acc s' ∧ frame s s'.

Lemma keeps_bind f g s :
  (∃ s', f = Ok s' ∧ Inv acc s' ∧ frame s s') → keeps g → ∃ s', (s1 ← f; g s1) = Ok s' ∧ Inv acc s' ∧ frame s s'.
Proof.
  intros (s1 & -> & HI1 & Hf1) Hg. destruct (Hg s1 HI1) as (s2 & E & HI2 & Hf2). exists s2. split; [exact E|].
  split; [done|by etrans].
Qed.
Lemma keeps_start s s1 e :
  frame s s1 → (∃ s', e = Ok s' ∧ Inv acc s' ∧ frame s1 s') → ∃ s' : Service, e = Ok s' ∧ Inv acc s' ∧ frame s s'.
Proof. intros Hf (s' & ? & ? & ?). exists s'. split; [done|]. split; [done|by etrans]. Qed.
Lemma keeps_when b f : keeps f → keeps (when b f).
Proof. intros Hf s HI. unfold when. destruct b; [by apply Hf|by exists s]. Qed.
Lemma keeps_call_back c : keeps (call_back now c).
Proof. intros s HI. by apply call_back_ok. Qed.
Lemma keeps_complete result : keeps (OnRequestComplete result).
Proof. intros s HI. destruct (OnRequestComplete_ok acc s result HI) as (s' & ? & ? & ? & _). by exists s'. Qed.
Lemma frame_radio r v d m s : frame s (set_radio r v d m s).
Proof. split; cbn; try done; [by left|exists O; by rewrite app_nil_r|by apply log_same]. Qed.
Lemma keeps_radio r v d m f s :
  keeps f → Inv acc s → ∃ s', f (set_radio r v d m s) = Ok s' ∧ Inv acc s' ∧ frame s s'.
Proof.
  intros Hf HI. destruct (Hf (set_radio r v d m s) HI) as (s' & ? & ? & Hfr). exists s'. split_and!; try done.
  etrans; [apply frame_radio|done].
Qed.

Lemma keeps_SetRadioState r force : keeps (SetRadioState now r force).
Proof.
  intros s HI. unfold SetRadioState, set_radio_state.
  set (s1 := if r =? RADIO_STATE_UNAVAILABLE then _ else _).
  assert (Inv acc s1 ∧ frame s s1) as [HI1 Hf1].
  { subst s1. destruct (r =? RADIO_STATE_UNAVAILABLE); (split; [done|]); [|apply frame_radio].
    unfold SetRadioStateUnavailable. etrans; apply frame_radio. }
  eapply keeps_start; [done|].
  repeat (apply keeps_bind; [by (apply keeps_when; [apply keeps_call_back|])|intros ? ?]).
  by apply keeps_when; [apply keeps_call_back|].
Qed.

Lemma keeps_RadioStateChanged user : (∀ ints, user = Some ints → 1 <= lenZ ints) → keeps (RadioStateChanged now user).
Proof.
  intros Hu s HI. unfold RadioStateChanged.
  assert (∃ v, match user with Some ints => ints.[0] | None => Ok (if UiccStatus s =? 0 then RADIO_STATE_OFF else GetCurrentRadioState s) end = Ok v)
    as [v ->].
  { destruct user as [ints|]; [|by eexists]. destruct (rd_ok ints 0) as (v & -> & _); [|by eexists]. specialize (Hu _ eq_refl). lia. }
  cbn [mbind res_bind]. apply keeps_bind; [by apply keeps_SetRadioState|]. intros s1 HI1. apply keeps_bind.
  - destruct (m_pCurReqMsg s1) as [c|] eqn:Hc; [|by exists s1]. destruct (Inv_cur _ _ _ HI1 Hc) as (m & id & Hm & Hd & Hid).
    destruct (_ =? RADIO_STATE_OFF); [|destruct (_ =? RADIO_STATE_UNAVAILABLE); [|by exists s1] ];
      (eval_with Hm; rewrite Hid; by apply keeps_when; [apply keeps_complete|]).
  - intros s2 HI2. by apply keeps_call_back.
Qed.

Lemma keeps_ModemStateChanged ints : 1 <= lenZ ints → keeps (ModemStateChanged now ints).
Proof.
  intros Hl s HI. unfold ModemStateChanged. destruct (rd_ok ints 0) as (v & -> & _); [lia|]. cbn [mbind res_bind].
  apply keeps_radio; [|done]. apply keeps_when. intros s1 HI1.
  repeat (apply keeps_bind; [by (apply keeps_call_back || (apply keeps_when; [apply keeps_call_back|]))|intros ? ?]).
  by apply keeps_when; [apply keeps_call_back|].
Qed.

Lemma keeps_internal p m : m_nDirection m = INTERNAL → message_ok m → keeps (internal_case now p m).
Proof.
  intros Hd Hok s HI. unfold message_ok in Hok. rewrite Hd in Hok. unfold internal_case. cbv zeta.
  destruct (Z.eqb_spec (m_nMsgId m) MSG_SYSTEM_RADIO_STATE_CHANGED) as [E|_].
  { apply keeps_RadioStateChanged; [|done]. intros ints Hi. rewrite Hi, E in Hok. exact Hok. }
  destruct (Z.eqb_spec (m_nMsgId m) MSG_SYSTEM_RESET); [by apply keeps_call_back|].
  destruct (Z.eqb_spec (m_nMsgId m) MSG_SYSTEM_SERVICE_TATE_CHANGED); [by apply keeps_call_back|].
  destruct (bool_decide_reflect (m_nMsgId m ∈ [MSG_SYSTEM_SIM_STATUS_CHANGED; MSG_SYSTEM_IMSI_UPDATED;
    MSG_SYSTEM_VOICE_REGISTRTION_STATE_CHANGED; MSG_SYSTEM_DATA_REGISTRTION_STATE_CHANGED;
    MSG_SYSTEM_DATA_CALL_STATE_CHANGED; MSG_SYSTEM_MODEM_STATE_CHANGED])) as [Hin|]; [|by apply keeps_call_back].
  cbn [negb]. destruct (m_pUserData m) as [ints|]; [|by exists s].
  rewrite !elem_of_cons, elem_of_nil in Hin.
  destruct_or? Hin; try done; rewrite Hin in *; cbn -[rd];
    (match type of Hok with ints_needed ?k <= _ => let v := eval vm_compute in (ints_needed k) in change (ints_needed k) with v in Hok end);
    (destruct (rd_ok ints 0) as (v0 & E0 & _); [lia|]); try (destruct (rd_ok ints 1) as (v1 & E1 & _); [lia|]);
    rewrite ?E0, ?E1; cbn [mbind res_bind]; try (by apply keeps_call_back); try (by apply keeps_radio; [apply keeps_call_back|]).
  - apply keeps_bind; [by apply keeps_call_back|apply keeps_call_back].
  - by apply keeps_ModemStateChanged.
Qed.

Lemma HandleInternalMessage_ok s :
  Inv acc s → ∃ s', HandleInternalMessage now s = Ok s' ∧ Inv acc s' ∧ post (internalDeQ s).2 s'.
Proof.
  intros HI. unfold HandleInternalMessage. destruct (internalDeQ s) as [o s1] eqn:E. unfold internalDeQ in E.
  destruct (m_internalQueue s) as [|p q] eqn:Eq; injection E as <- <-; [by exists s|].
  assert (∃ m, heap s !! p = Some m ∧ m_nDirection m = INTERNAL ∧ message_ok m) as (m & Hm & Hd & Hok).
  { destruct HI as [[_ HI] _]. rewrite Eq in HI. destruct (led_int _ _ _ _ _ _ HI) as [_ Hr]. apply Hr. by left. }
  rewrite (deref_ok p m) by done. cbn [mbind res_bind snd]. set (s1 := set_queues _ _ _ _).
  destruct HI as [HI Ha]. rewrite Eq in HI. pose proof HI as [_ [Hreq [Hn Hresp] [Hni Hint] _ _ _]]. apply NoDup_cons in Hni as [Hp Hni].
  assert (HI1 : Inv acc s1).
  { split; [|done]. eapply core_heap; try done. intros x Hx. apply Hint. by right. }
  assert (Hl : loose s1 p).
  { split_and!; [by exists m; rewrite Hd| |done]. intros Hpi. destruct (Hresp p Hpi) as (m' & Hm' & Hd' & _). congruence. }
  destruct (keeps_internal p m Hd Hok s1 HI1) as (s2 & -> & HI2 & Hf). cbn [mbind res_bind].
  destruct (delete_loose acc s2 p HI2) as (s' & ? & ? & ?); [by eapply loose_frame|].
  exists s'. split; [done|]. split; [done|]. etrans; [by apply frame_post|done].
Qed.

(** what a round of requests leaves *)
Definition served (s s' : Service) : Prop :=
  Inv acc s' ∧ armed s' ∧ wake s' ∧ (bytes s → bytes s') ∧ log s s'.

Lemma cur_none_served s s' :
  Inv acc s' → m_pCurReqMsg s' = None → REQUEST ∈ m_pipe s' → (bytes s → bytes s') → log s s' → served s s'.
Proof. intros HI Hc Hp Hb Hl. split; [done|]. split; [intros ?; by rewrite Hc|]. split; [by intros ? ?|by split]. Qed.

(** the request is not answered by the handler: the engine answers it *)
Lemma engine_answers s0 s p m id result :
  Inv acc s → m_pCurReqMsg s = Some p → p ∉ tq (mTimerList s) → heap s !! p = Some m → m_pReqData m = Some id →
  (bytes s0 → bytes s) → log s0 s →
  ∃ s', NotifyNextRequestMessage (ContextComplete p (m_pReqData m) result s) = Ok s' ∧ served s0 s'.
Proof.
  intros [HI Ha] Hc Ht Hm Hid Hb Hl. rewrite Hid. cbn [ContextComplete]. erewrite NotifyNext_some by (cbn; done).
  eexists. split; [done|]. apply cur_none_served; cbn.
  - split; cbn; [|done]. rewrite fmap_app. rewrite Hc in HI. apply core_finish; [done..|].
    destruct HI as [_ HI]. apply (led_req _ _ _ _ _ _ HI). right. by left.
  - done.
  - apply elem_of_app. right. by left.
  - intros H0. apply Hb in H0. eapply bytes_frame; [..|exact H0]; try done. by exists 1%nat.
  - etrans; [exact Hl|]. destruct (Inv_cur acc s p (conj HI Ha) Hc) as (m' & id' & Hm' & Hd & _).
    eapply log_answer; try done; [congruence|by right].
Qed.

Lemma HandleRequest_ok s `{!HandlerContract} :
  Inv acc s → armed s → ∃ s', HandleRequest now s = Ok s' ∧ served s s'.
Proof.
  intros HI Har. unfold HandleRequest. destruct (m_pCurReqMsg s) as [c|] eqn:Hc.
  { exists s. split; [done|]. split; [done|]. split; [done|]. split; [|done]. intros Hc'. congruence. }
  unfold reqDeQ. destruct (m_requestQueue s) as [|p q] eqn:Eq.
  { exists s. split; [done|]. split; [done|]. split; [done|]. split; [|done]. intros _ Hq. congruence. }
  destruct (Inv_req acc s p HI) as (m & id & Hm & Hd & Hid); [left; rewrite Eq; by left|].
  rewrite (deref_ok p m) by done. cbn [mbind res_bind]. rewrite Hid.
  set (s0 := set_queues _ _ _ _).
  assert (HI1 : Inv acc (set_cur (Some p) s0)).
  { destruct HI as [HI Ha]. split; [|done]. rewrite Eq, Hc in HI. by apply core_take. }
  assert (Ht : p ∉ tq (mTimerList s)).
  { destruct HI as [[[Hn _] _] _]. rewrite Eq in Hn. cbn in Hn. apply NoDup_cons in Hn as [Hn _]. by intros ?; apply Hn, elem_of_app; right. }
  assert (Hrej : ∃ s', NotifyNextRequestMessage (ContextComplete p (Some id) RIL_E_RADIO_NOT_AVAILABLE s0) = Ok s' ∧ served s s').
  { rewrite NotifyNext_none by done. eexists. split; [done|]. destruct HI1 as [HI1 Ha1]. apply cur_none_served; cbn.
    - split; cbn; [|done]. rewrite fmap_app, Hc. by apply core_answer in HI1.
    - done.
    - apply elem_of_app. right. by left.
    - apply bytes_frame; try done. by exists 1%nat.
    - eapply (log_answer s _ p m); try done. by left. }
  destruct (_ && _); [done|]. destruct (_ && _); [done|]. clear Hrej.
  set (s1 := set_cur (Some p) _). change (Inv acc s1) in HI1. assert (Hb : bytes s → bytes s1) by done.
  assert (Hl1 : log s s1) by (by apply log_same).
  destruct (OnHandleRequest p s1) as [ret acts] eqn:Eh.
  destruct (run_actions_ok acc now acts s1 HI1) as (s2 & -> & HI2 & Hf & _ & Hst & _). cbn [mbind res_bind].
  pose proof (frame_post _ _ Hf) as (_ & Hw2 & Hb2 & Hl2).
  destruct ret; cbn [negb].
  - destruct (StartRequestTimeout_ok acc s2 now HI2) as (s' & -> & HI' & Hf' & Ha' & Hc'). exists s'. split; [done|].
    pose proof (frame_post _ _ Hf') as (_ & Hw' & Hb' & Hl'). split; [done|]. split; [done|].
    split; [by apply Hw', Hw2|]. split; [by auto|]. etrans; [exact Hl1|by etrans].
  - pose proof (request_false p s1) as Hq. rewrite Eh in Hq. destruct (Hst (Hq eq_refl)) as (_ & Hc2 & Ht2 & _).
    destruct (Inv_cur acc s2 p HI2) as (m2 & id2 & Hm2 & _ & Hid2); [by rewrite Hc2|]. rewrite (deref_ok p m2) by done. cbn [mbind res_bind].
    rewrite Hid2. change (UnsetTransaction (ContextComplete p (Some id2) RIL_E_GENERIC_FAILURE s2)) with (ContextComplete p (Some id2) RIL_E_GENERIC_FAILURE (UnsetTransaction s2)).
    rewrite <- Hid2. eapply engine_answers; [exact HI2|by cbn; rewrite Hc2|by cbn; rewrite Ht2|done|done|auto|].
    etrans; [exact Hl1|]. etrans; [exact Hl2|by apply log_same].
Qed.

Lemma HandleRequestTimeout_ok s `{!HandlerContract} :
  Inv acc s → armed s → wake s → ∃ s', HandleRequestTimeout now s = Ok s' ∧ served s s'.
Proof.
  intros HI Har Hw. unfold HandleRequestTimeout. destruct (mTimerList s) as [|te l] eqn:El; cbn [pop].
  { exists s. replace (set_timers [] s) with s by (rewrite <- El; by destruct s).
    split; [done|]. split; [done|]. split; [done|]. split; [done|]. by split. }
  pose proof HI as [HI0 Ha]. rewrite El in Ha. apply Forall_cons in Ha as [[p Hp] Ha]. rewrite Hp. rewrite El in HI0.
  rewrite tq_cons, Hp in HI0. set (s0 := set_timers l s).
  destruct (decide (m_pCurReqMsg s0 = Some p)) as [Hc|Hc].
  - change (m_pCurReqMsg s = Some p) in Hc. destruct (Inv_cur acc s p HI Hc) as (m & id & Hm & Hd & Hid).
    rewrite (deref_ok p m) by done. cbn [mbind res_bind]. rewrite Hid. rewrite Hc in HI0. apply core_pop_cur in HI0 as [HI0 Ht].
    assert (HI1 : Inv acc s0) by (split; [cbn; by rewrite Hc|done]).
    destruct (OnHandleRequestTimeout p s0) as [ret acts] eqn:Eh.
    destruct (run_actions_ok acc now acts s0 HI1) as (s2 & -> & HI2 & Hf & Hcl & Hst & Hsi). cbn [mbind res_bind].
    pose proof (frame_post _ _ Hf) as (_ & Hw2 & Hb2 & Hl2). destruct ret.
    + exists s2. split; [done|]. split; [done|]. pose proof (timeout_true p s0) as Hx. rewrite Eh in Hx.
      split; [by apply Hcl, Hx|]. split; [by apply Hw2|]. split; [done|]. etrans; [|exact Hl2]. by apply log_same.
    + pose proof (timeout_false p s0) as Hx. rewrite Eh in Hx. specialize (Hx eq_refl). cbn in Hx.
      destruct Hst as (_ & Hc2 & Ht2 & _); [eapply Forall_impl; [exact Hx|]; by intros []|].
      destruct (Hsi Hx p m) as (m2 & Hm2 & Hmd); [done|].
      destruct (Inv_cur acc s2 p HI2) as (m2' & id2 & Hm2' & _ & Hid2); [by rewrite Hc2|]. assert (m2' = m2) as -> by congruence.
      assert (∃ t n w c, CheckCountsForTimeOut p (m_pModemData m) s2 = Ok (set_misc t n w c s2)) as (t & n & w & c & ->).
      { unfold CheckCountsForTimeOut. destruct (m_pModemData m) as [d|] eqn:Ed.
        - destruct (_ <? _); [|by eexists _, _, _, _]. rewrite (deref_ok p m2) by done. cbn [mbind res_bind].
          rewrite decide_True by congruence. by eexists _, _, _, _.
        - exists (m_nCurrentReqId s2), (m_nr_count s2), (m_RequestWaitList s2), (crash_requests s2). by destruct s2. }
      cbn [mbind res_bind]. rewrite (deref_ok p m2) by done. cbn [mbind res_bind].
      match goal with |- context [ContextComplete p _ _ ?s3] =>
        apply (engine_answers s s3 p m2 id2 RIL_E_INTERNAL_ERR) end; [exact HI2|cbn; by rewrite Hc2|cbn; by rewrite Ht2|done|done|auto|].
      etrans; [|etrans; [exact Hl2|] ]; by apply log_same.
  - assert (Hh : holds (heap s) REQUEST p) by (destruct HI0 as [_ HI0]; apply (led_req _ _ _ _ _ _ HI0); right; right; by left).
    destruct Hh as (m & Hm & Hd & _). unfold EnQueue. rewrite (deref_ok p m) by done. cbn [mbind res_bind]. rewrite Hd.
    eexists. split; [done|]. split; [split; [cbn|done]|].
    + by apply core_requeue.
    + split; [|split; [intros _ _; apply elem_of_app; right; by left|split; [apply bytes_frame; try done; by exists 1%nat|by apply log_same] ] ].
      intros x Hx. specialize (Har x Hx). rewrite El, tq_cons, Hp in Har. apply elem_of_cons in Har as [->|]; [done|done].
Qed.
End handlers.
