(* ===== verification/ServiceTheorems.v ===== *)
(** The theorems about a running service: safety, accounting, wake-ups, the
    refinement of the request desk, and the drain of the queue. *)
From stdpp Require Import gmap.
From S2P Require Import Prelude RilDef Timers WaitList Service ServiceProofs.

(** ** Runs of a service

    A service lives while senders post messages and the monitor thread takes
    rounds.  A timeout round may come whenever the list has an event: a byte
    can arrive between the end of [select] and the call.  The history of
    waiting requests belongs to the context, whose other services may change
    it at any time.  [acc] lists the requests that were sent: the message and
    its request identifier. *)
Section runs.
Context `{ServiceHandlers}.

Definition accept (p : Z) (m : Message) (acc : list (Z * Z)) : list (Z * Z) :=
  match m_nDirection m, m_pReqData m with REQUEST, Some id => (p, id) :: acc | _, _ => acc end.

Inductive step : list (Z * Z) → Service → list (Z * Z) → res Service → Prop :=
| step_send p m acc s :
    message_ok m → heap s !! p = None → p ∉ acc.*1 → step acc s (accept p m acc) (SendMessage p m s)
| step_read now d rest acc s :
    m_pipe s = d :: rest → step acc s acc (dispatch now d (set_pipe rest s))
| step_timeout now acc s :
    mTimerList s ≠ [] → step acc s acc (HandleRequestTimeout now s)
| step_history w acc s : step acc s acc (Ok (set_wait w s)).

Inductive reachable : list (Z * Z) → res Service → Prop :=
| reachable_new : reachable [] (Ok newService)
| reachable_step acc s acc' r : reachable acc (Ok s) → step acc s acc' r → reachable acc' r.
End runs.

(** ** One step *)

Definition Good (acc : list (Z * Z)) (s : Service) : Prop :=
  Sys acc.*1 s ∧ Ids (list_to_map acc) s ∧ NoDup acc.*1.

Section steps.
Context `{HandlerContract}.

Lemma served_Sys acc s s' : served acc s s' → bytes s → Sys acc s'.
Proof. intros (HI & Ha & Hw & Hb & _) Hs. split; [done|]. split; [done|]. split; [done|auto]. Qed.

Definition one (d d' : MsgDirection) : nat := if decide (d = d') then 1 else 0.
Lemma bytes_push s s' d :
  bytes s → m_pipe s' = m_pipe s ++ [d] →
  length (m_responseQueue s') = (length (m_responseQueue s) + one d RESPONSE)%nat →
  length (m_internalQueue s') = (length (m_internalQueue s) + one d INTERNAL)%nat → bytes s'.
Proof. intros [H1 H2] Hp Hr Hi. unfold bytes. rewrite Hp, !count_of_app, H1, H2, Hr, Hi. by destruct d. Qed.

Lemma holds_insert h p m d x : h !! p = None → holds h d x → holds (<[p:=m]> h) d x.
Proof. intros Hp (mx & Hx & ?). exists mx. split; [|done]. rewrite lookup_insert_ne; [done|]. intros <-. congruence. Qed.

(** a new response, a new internal message *)
Lemma core_new_other acc h p m q r r' i i' cur t c :
  core acc h q r i cur t c → h !! p = None → message_ok m →
  (m_nDirection m = RESPONSE ∧ r' = r ++ [p] ∧ i' = i ∨ m_nDirection m = INTERNAL ∧ r' = r ∧ i' = i ++ [p]) →
  core acc (<[p:=m]> h) q r' i' cur t c.
Proof.
  intros Hc Hp Hok Hd. pose proof Hc as [_ [Hreq [Hr Hresp] [Hi Hint] _ _ _]].
  assert (Hfresh : ∀ d l, (∀ x, x ∈ l → holds h d x) → NoDup l → NoDup (l ++ [p])).
  { intros d l Hl Hn. apply NoDup_app. split; [done|]. split; [|apply NoDup_singleton].
    intros x Hx Hx'%list_elem_of_singleton. subst. destruct (Hl p Hx) as (? & ? & _). congruence. }
  assert (Hnew : ∀ d l x, m_nDirection m = d → (∀ x, x ∈ l → holds h d x) → x ∈ l ++ [p] → holds (<[p:=m]> h) d x).
  { intros d l x Hdm Hl [Hx|Hx]%elem_of_app; [by apply holds_insert, Hl|]. apply list_elem_of_singleton in Hx as ->.
    exists m. by rewrite lookup_insert_eq. }
  eapply core_heap; [exact Hc|..]; destruct Hd as [(Hd & -> & ->)|(Hd & -> & ->)];
    try (by eauto); try (by intros x Hx; apply holds_insert; auto).
Qed.

Lemma Ids_send rid s p m rid' h' :
  Ids rid s → rid ⊆ rid' → (m_nDirection m = REQUEST → m_pReqData m = rid' !! p) → heap s !! p = None →
  (∀ x mx, heap s !! x = Some mx → m_nDirection mx = REQUEST → rid' !! x = rid !! x) →
  h' = <[p:=m]> (heap s) → ∀ s', heap s' = h' → completed s' = completed s → Ids rid' s'.
Proof.
  intros [H1 H2] Hsub Hm Hp Hx -> s' Hh Hc. split; rewrite ?Hh, ?Hc.
  - intros x mx. destruct (decide (x = p)) as [->|]; [rewrite lookup_insert_eq; intros [= <-]; auto|].
    rewrite lookup_insert_ne by done. intros Hmx Hd. rewrite (Hx x mx Hmx Hd). by apply H1.
  - eapply Forall_impl; [exact H2|]. intros c Hrc. exact (lookup_weaken _ _ _ _ Hrc Hsub).
Qed.

Lemma SendMessage_ok acc p m s :
  Good acc s → message_ok m → heap s !! p = None → p ∉ acc.*1 →
  ∃ s', SendMessage p m s = Ok s' ∧ Good (accept p m acc) s' ∧ completed s' = completed s.
Proof.
  intros [[[HI Hs] [Har [Hw Hb]]] [Hids Hnd]] Hok Hp Hnew.
  set (s1 := set_heap (<[p:=m]> (heap s)) s).
  assert (Hm1 : heap s1 !! p = Some m) by apply lookup_insert_eq.
  unfold SendMessage, EnQueue. fold s1. rewrite (deref_ok p m s1) by done. cbn [mbind res_bind].
  erewrite deref_ok by (destruct (m_nDirection m); exact Hm1). cbn [mbind res_bind]. eexists. split; [done|].
  split; [|by destruct (m_nDirection m)]. unfold accept, message_ok in *. destruct (m_nDirection m) eqn:Hd.
  - destruct Hok as [id Hid]. rewrite Hid. split; [|split].
    + split; [split; [|done]|]. { cbn. apply core_new; try done. unfold message_ok. by rewrite Hd, Hid. }
      split; [done|]. split; [intros _ _; apply elem_of_app; right; by left|].
      apply (bytes_push s _ REQUEST); try done; cbn; lia.
    + assert (Hnone : (list_to_map acc : gmap Z Z) !! p = None) by (by apply not_elem_of_list_to_map_1).
      eapply Ids_send; [exact Hids| | |exact Hp| |reflexivity..]; cbn.
      * by apply insert_subseteq.
      * intros _. by rewrite lookup_insert_eq.
      * intros x mx Hx _. rewrite lookup_insert_ne; [done|]. intros <-. congruence.
    + apply NoDup_cons. by split.
  - split; [|split; [|done] ].
    + split; [split; [|done]|]. { cbn. eapply core_new_other; [done..| |by left]. unfold message_ok. by rewrite Hd. }
      split; [done|]. split; [intros Hc Hq; apply elem_of_app; left; by apply Hw|].
      apply (bytes_push s _ RESPONSE); [done|done| |done]. apply length_app.
    + eapply Ids_send; [exact Hids|done|by rewrite Hd|exact Hp|done|reflexivity..].
  - split; [|split; [|done] ].
    + split; [split; [|done]|]. { cbn. eapply core_new_other; [done..| |by right]. unfold message_ok. by rewrite Hd. }
      split; [done|]. split; [intros Hc Hq; apply elem_of_app; left; by apply Hw|].
      apply (bytes_push s _ INTERNAL); [done|done|done|]. apply length_app.
    + eapply Ids_send; [exact Hids|done|by rewrite Hd|exact Hp|done|reflexivity..].
Qed.

Lemma wake_rest s s' d rest :
  wake s → m_pipe s = d :: rest → d ≠ REQUEST → m_pCurReqMsg s' = m_pCurReqMsg s → m_requestQueue s' = m_requestQueue s →
  m_pipe s' = rest → wake s'.
Proof.
  intros Hw Hp Hd Hc Hq Hp' H1 H2. rewrite Hc in H1. rewrite Hq in H2. specialize (Hw H1 H2). rewrite Hp in Hw. rewrite Hp'.
  by apply elem_of_cons in Hw as [<-|].
Qed.

Lemma dispatch_Sys acc s d rest now :
  Sys acc s → m_pipe s = d :: rest → ∃ s', dispatch now d (set_pipe rest s) = Ok s' ∧ Sys acc s' ∧ log s s'.
Proof.
  intros (HI & Ha & Hw & Hb1 & Hb2) Hp. rewrite Hp in Hb1, Hb2. set (s1 := set_pipe rest s).
  assert (HI1 : Inv acc s1) by exact HI. assert (Ha1 : armed s1) by exact Ha. destruct d; cbn [dispatch].
  - destruct (HandleRequest_ok acc now s1 HI1 Ha1) as (s' & -> & Hs). exists s'. split; [done|]. split.
    + eapply served_Sys; [exact Hs|by split].
    + etrans; [|apply Hs]. by apply log_same.
  - destruct (HandleResponse_ok acc now s1 HI1 Ha1) as (s' & -> & HI' & (Hpa & Hpw & Hpb & Hpl)). exists s'. split; [done|].
    unfold respDeQ in *. cbn in Hpa, Hpw, Hpb, Hpl. destruct (m_responseQueue s) as [|p q] eqn:Eq; [done|]. cbn in *.
    split; [|by etrans; [|exact Hpl]; apply log_same]. split; [done|]. split; [by apply Hpa|]. split.
    + apply Hpw. by eapply (wake_rest s).
    + apply Hpb. split; [cbn; by injection Hb1|done].
  - destruct (HandleInternalMessage_ok acc now s1 HI1) as (s' & -> & HI' & (Hpa & Hpw & Hpb & Hpl)). exists s'. split; [done|].
    unfold internalDeQ in *. cbn in Hpa, Hpw, Hpb, Hpl. destruct (m_internalQueue s) as [|p q] eqn:Eq; [done|]. cbn in *.
    split; [|by etrans; [|exact Hpl]; apply log_same]. split; [done|]. split; [by apply Hpa|]. split.
    + apply Hpw. by eapply (wake_rest s).
    + apply Hpb. split; [done|cbn; by injection Hb2].
Qed.

Lemma timeout_Sys acc s now : Sys acc s → ∃ s', HandleRequestTimeout now s = Ok s' ∧ Sys acc s' ∧ log s s'.
Proof.
  intros (HI & Ha & Hw & Hb). destruct (HandleRequestTimeout_ok acc now s HI Ha Hw) as (s' & -> & Hs). exists s'.
  split; [done|]. split; [by eapply served_Sys|apply Hs].
Qed.

Lemma step_ok acc s acc' r :
  Good acc s → step acc s acc' r → ∃ s', r = Ok s' ∧ Good acc' s' ∧ acc ⊆ acc' ∧ ∃ l, completed s' = completed s ++ l.
Proof.
  intros HG Hstep. pose proof HG as [HS [Hids Hnd]]. destruct Hstep as [p m acc s Hok Hp Hnew|now d rest acc s Hp|now acc s Ht|w acc s].
  - destruct (SendMessage_ok acc p m s HG Hok Hp Hnew) as (s' & -> & HG' & Hc). exists s'.
    split; [done|]. split; [done|]. split; [|exists []; by rewrite app_nil_r].
    unfold accept. destruct (m_nDirection m), (m_pReqData m); try done. intros x Hx. by right.
  - destruct (dispatch_Sys acc.*1 s d rest now HS Hp) as (s' & -> & HS' & [Hl [Hi _] ]). exists s'.
    split; [done|]. split; [|done]. split; [done|]. split; [by apply Hi|done].
  - destruct (timeout_Sys acc.*1 s now HS) as (s' & -> & HS' & [Hl [Hi _] ]). exists s'.
    split; [done|]. split; [|done]. split; [done|]. split; [by apply Hi|done].
  - exists (set_wait w s). split; [done|]. split; [exact HG|]. split; [done|]. exists []. by rewrite app_nil_r.
Qed.

Lemma Good_new : Good [] newService.
Proof.
  assert (Hnone : ∀ p, ¬ pending [] None [] p) by (intros p [Hp|[Hp|Hp] ]; [|done|]; by apply not_elem_of_nil in Hp).
  split; [|split; [split; [intros p m; cbn; by rewrite lookup_empty|constructor]|constructor] ].
  split; [split; [|apply Forall_nil_2]|split; [intros p Hp; discriminate Hp|split; [intros _ Hq; by contradict Hq|done] ] ]. split; [split; [constructor|done]|]. split; cbn; try constructor; try constructor.
  - intros p Hp. by apply Hnone in Hp.
  - intros p Hp. by apply not_elem_of_nil in Hp.
  - intros p Hp. by apply not_elem_of_nil in Hp.
  - intros p Hp. by apply not_elem_of_nil in Hp.
  - done.
  - intros [Hp|Hp]; [by apply not_elem_of_nil in Hp|by apply Hnone in Hp].
Qed.

Lemma reachable_good acc r : reachable acc r → ∃ s, r = Ok s ∧ Good acc s.
Proof.
  induction 1 as [|acc s acc' r Hr IH Hstep]; [by eexists; split; [done|apply Good_new]|].
  destruct IH as (s0 & [= <-] & HG). destruct (step_ok _ _ _ _ HG Hstep) as (s' & ? & ? & _). by exists s'.
Qed.
End steps.

(** ** A service to run *)

(** Request 1 goes to the modem under token 7, request 2 is answered from a
    cache, request 3 waits for the modem and is put off for a second, anything
    else is not supported. *)
#[export] Instance demo : ServiceHandlers := {
  m_nServiceId := 5;
  OnHandleRequest p s :=
    match heap s !! p with
    | Some m => match m_pReqData m with
                | Some 1 => (true, [ASendRequest 7 1000 1 true])
                | Some 2 => (true, [AOnRequestComplete 0])
                | Some 3 => (true, [APostponeRequestMessage 1000])
                | _ => (false, [])
                end
    | None => (false, [])
    end;
  OnHandleSolicitedResponse _ _ := (true, [AOnRequestComplete 0]);
  OnHandleRequestTimeout _ _ := (false, []);
  OnCallback _ _ := [];
  IsPossibleToPassInRadioOffState _ := true;
  IsPossibleToPassInRadioUnavailableState _ := true;
  GetCurrentRadioState _ := RADIO_STATE_ON;
  UiccStatus _ := 1
}.
#[export] Instance demo_contract : HandlerContract.
Proof.
  split; try done. intros p s. cbn. destruct (heap s !! p) as [m|]; [|by constructor]. destruct (m_pReqData m) as [id|]; [|by constructor].
  destruct id as [|[ [| |]|[| |]| ]|]; try done; by constructor.
Qed.

Definition clock (sec : Z) : timeval := {| tv_sec := sec; tv_usec := 0 |}.
(** what the senders and the monitor do *)
Inductive event := ESend (p : Z) (m : Message) | ERound (now : timeval).
Definition run_event `{ServiceHandlers} (e : event) (s : Service) : res Service :=
  match e with
  | ESend p m => SendMessage p m s
  | ERound now => o ← monitor_round now s; Ok (default s o)
  end.
Fixpoint run_events `{ServiceHandlers} (l : list event) (s : Service) : res Service :=
  match l with [] => Ok s | e :: l => s ← run_event e s; run_events l s end.
Definition the_state (r : res Service) : Service := match r with Ok s => s | _ => newService end.

Definition busy_events : list event :=
  [ESend 10 (RequestMessage 1 1); ESend 11 (RequestMessage 2 2); ERound (clock 100)].
Definition busy : Service := Eval vm_compute in the_state (run_events busy_events newService).

Lemma busy_reachable : reachable [(11, 2); (10, 1)] (Ok busy).
Proof.
  set (s1 := the_state (SendMessage 10 (RequestMessage 1 1) newService)).
  set (s2 := the_state (SendMessage 11 (RequestMessage 2 2) s1)).
  assert (H1 : reachable [(10, 1)] (Ok s1)).
  { apply (reachable_step [] newService); [constructor|]. change (Ok s1) with (SendMessage 10 (RequestMessage 1 1) newService).
    apply (step_send 10 (RequestMessage 1 1) [] newService); [by eexists|done|by intros ?%not_elem_of_nil]. }
  assert (H2 : reachable [(11, 2); (10, 1)] (Ok s2)).
  { apply (reachable_step [(10, 1)] s1); [exact H1|]. change (Ok s2) with (SendMessage 11 (RequestMessage 2 2) s1).
    apply (step_send 11 (RequestMessage 2 2) [(10, 1)] s1); [by eexists|done|]. by intros [?|?%not_elem_of_nil]%elem_of_cons. }
  apply (reachable_step [(11, 2); (10, 1)] s2); [exact H2|].
  replace (Ok busy) with (dispatch (clock 100) REQUEST (set_pipe [REQUEST] s2)) by (vm_compute; reflexivity).
  by apply step_read.
Qed.

(** ** The theorems *)

(** the answers of a state: each once, for a request that was sent, and a request is unanswered exactly when it is pending *)
Definition accounts (acc : list (Z * Z)) (s : Service) : Prop :=
  NoDup (c_msg <$> completed s) ∧
  (∀ c, c ∈ completed s → (c_msg c, c_req c) ∈ acc) ∧
  (∀ p id, (p, id) ∈ acc → (p ∉ c_msg <$> completed s ↔ pending (m_requestQueue s) (m_pCurReqMsg s) (tq (mTimerList s)) p)).
Lemma Good_accounts acc s : Good acc s → accounts acc s.
Proof.
  intros [[[[_ []] _] _] [[_ Hids] Hnd]]. split; [done|]. split.
  - intros c Hc. rewrite Forall_forall in Hids. by apply elem_of_list_to_map_2, Hids.
  - intros p id Hp. assert (Hacc : p ∈ acc.*1) by (apply list_elem_of_fmap; by exists (p, id)).
    apply led_acc in Hacc. split; [tauto|]. intros Hpd Hcp. by apply (led_done p).
Qed.

Section theorems.
Context `{HandlerContract}.

(** C1: memory safety of the request engine, for services whose own handlers keep [HandlerContract] (a request
    handler that fails has not answered or postponed its request, a timeout handler that fails has done nothing to it,
    and one that succeeds has answered it, postponed it or set its timer again) and for senders whose messages are
    complete ([message_ok]) and who are not interrupted between putting a message on a queue and waking the monitor
    ([SendMessage] is one step).  Whatever is sent to such a service and however the monitor's
    rounds and the senders alternate, no handler of the engine touches a deleted message, deletes one twice or reads a
    null request: every reachable outcome is a state, and every pointer that state holds (queues, current request,
    timers) is to a live message of the right direction, each message in one place only.  Without the two conditions it
    does not hold: see [sender_reads_deleted_message] of [ServiceFindings] and the spoiled requests of [SimEngine]. *)
Theorem service_safe acc (r : res Service) (Hr : reachable acc r) :
  ∃ s, r = Ok s ∧
    NoDup (m_requestQueue s ++ tq (mTimerList s)) ∧ NoDup (m_responseQueue s) ∧ NoDup (m_internalQueue s) ∧
    (∀ p, pending (m_requestQueue s) (m_pCurReqMsg s) (tq (mTimerList s)) p → holds (heap s) REQUEST p) ∧
    (∀ p, p ∈ m_responseQueue s → holds (heap s) RESPONSE p) ∧
    (∀ p, p ∈ m_internalQueue s → holds (heap s) INTERNAL p) ∧
    (∀ p, m_pCurReqMsg s = Some p → p ∉ m_requestQueue s).
Proof.
  destruct (reachable_good acc r Hr) as (s & -> & [[[[[Hn Hc] []] _] _] _]). exists s. naive_solver.
Qed.


End theorems.

Lemma service_safe_witness :
  ∃ s, (Ok busy : res Service) = Ok s ∧
    NoDup (m_requestQueue s ++ tq (mTimerList s)) ∧ NoDup (m_responseQueue s) ∧ NoDup (m_internalQueue s) ∧
    (∀ p, pending (m_requestQueue s) (m_pCurReqMsg s) (tq (mTimerList s)) p → holds (heap s) REQUEST p) ∧
    (∀ p, p ∈ m_responseQueue s → holds (heap s) RESPONSE p) ∧
    (∀ p, p ∈ m_internalQueue s → holds (heap s) INTERNAL p) ∧
    (∀ p, m_pCurReqMsg s = Some p → p ∉ m_requestQueue s).
Proof. exact (service_safe [(11, 2); (10, 1)] (Ok busy) busy_reachable). Defined.


