(* ===== verification/ServiceDrain.v ===== *)
(** A service whose handlers answer promptly drains its queue: from any state
    it can be in, if nothing more is sent, the monitor answers every request
    within a number of rounds the state tells. *)
From stdpp Require Import gmap.
From S2P Require Import Prelude RilDef Timers WaitList Service ServiceProofs ServiceTheorems.

(** ** Prompt handlers

    A prompt handler neither postpones the request nor restarts its timer,
    and completes at most once. *)
Definition rearms (a : action) : bool :=
  match a with APostponeRequestMessage _ | AResetRequestTimeout _ => true | _ => false end.
Definition completes (a : action) : bool := match a with AOnRequestComplete _ => true | _ => false end.
Fixpoint ncompl (l : list action) : nat :=
  match l with [] => O | a :: l => (if completes a then 1 else 0) + ncompl l end.
Definition prompt (l : list action) : Prop := Forall (λ a, rearms a = false) l ∧ (ncompl l <= 1)%nat.

Class PromptHandlers `{ServiceHandlers} := {
  prompt_request : ∀ p s, prompt (OnHandleRequest p s).2;
  prompt_response : ∀ p s, prompt (OnHandleSolicitedResponse p s).2;
  prompt_timeout : ∀ p s, prompt (OnHandleRequestTimeout p s).2;
  prompt_callback : ∀ c s, prompt (OnCallback c s)
}.

(** ** The weight of a state

    A queued request costs its round, its turn as the current request, and
    the byte its answer writes; a postponed one goes through the queue again. *)
Definition byte_weight (d : MsgDirection) : nat := match d with REQUEST => 1 | RESPONSE => 3 | INTERNAL => 9 end.
Definition pipe_weight (l : list MsgDirection) : nat := sum_list (byte_weight <$> l).
Definition postponed (cur : option Z) (t : list Z) : list Z := filter (λ p, cur ≠ Some p) t.
Definition cur_weight (cur : option Z) : nat := match cur with Some _ => 2 | None => 0 end.
Definition weight (s : Service) : nat :=
  pipe_weight (m_pipe s) + 3 * length (m_requestQueue s) + cur_weight (m_pCurReqMsg s) +
  5 * length (postponed (m_pCurReqMsg s) (tq (mTimerList s))).

(** the rounds of the monitor while nobody writes: it stops when it would sleep for ever *)
Fixpoint run_monitor `{ServiceHandlers} (fuel : nat) (now : nat → timeval) (s : Service) : res Service :=
  match fuel with
  | O => OutOfFuel
  | S f => o ← monitor_round (now f) s; match o with Some s' => run_monitor f now s' | None => Ok s end
  end.

#[local] Arguments pipe_weight : simpl never.
#[local] Arguments postponed : simpl never.
#[local] Arguments tq : simpl never.

Lemma pipe_weight_cons d l : pipe_weight (d :: l) = (byte_weight d + pipe_weight l)%nat.
Proof. done. Qed.
Lemma pipe_weight_push l : pipe_weight (l ++ [REQUEST]) = S (pipe_weight l).
Proof. unfold pipe_weight. rewrite fmap_app. induction (byte_weight <$> l) as [|x xs IH]; cbn in *; lia. Qed.
Lemma postponed_perm cur t t' : t ≡ₚ t' → length (postponed cur t) = length (postponed cur t').
Proof. unfold postponed. by intros ->. Qed.
Lemma postponed_none t : postponed None t = t.
Proof. induction t as [|p t IH]; [done|]. unfold postponed in *. rewrite filter_cons_True by done. by rewrite IH. Qed.
Lemma postponed_cur p t : postponed (Some p) t = filter (λ x, x ≠ p) t.
Proof. unfold postponed. apply list_filter_iff. intros x. split; [intros ? ->|intros ? [= ->] ]; done. Qed.

Lemma weight_still s s' : still s s' → weight s' = weight s.
Proof. intros (Hq & Hc & Ht & _ & Hp). unfold weight. by rewrite Hq, Hc, Ht, Hp. Qed.

(** what the current request's departure saves *)
Definition drop (s s' : Service) : nat :=
  match m_pCurReqMsg s, m_pCurReqMsg s' with Some _, None => 2 | _, _ => 0 end.

Section weights.
Context `{ServiceHandlers} (acc : list Z) (now : timeval).

Lemma complete_weight s result :
  Inv acc s → ∃ s', OnRequestComplete result s = Ok s' ∧ Inv acc s' ∧ frame s s' ∧ m_pCurReqMsg s' = None ∧
    (weight s' + drop s s' = weight s + 1)%nat.
Proof.
  intros HI. destruct (OnRequestComplete_effect acc s result HI) as (s' & E & HI' & Hf & Hc & Hp & Ht).
  exists s'. split_and!; try done; [apply HI'..|]. unfold weight, drop. rewrite Hc, Hp, (fr_req _ _ Hf), pipe_weight_push, postponed_none, Ht.
  destruct (m_pCurReqMsg s) as [p|]; [rewrite postponed_cur|rewrite postponed_none]; cbn; lia.
Qed.

Lemma actions_weight l s :
  Inv acc s → Forall (λ a, rearms a = false) l →
  ∃ s', run_actions now l s = Ok s' ∧ Inv acc s' ∧ frame s s' ∧ (weight s' + drop s s' <= weight s + ncompl l)%nat ∧
    (Exists (λ a, closing a = true) l → m_pCurReqMsg s' = None).
Proof.
  revert s. induction l as [|a l IH]; intros s HI Hl.
  - exists s. split; [done|]. split; [done|]. split; [done|]. split; [unfold drop; destruct (m_pCurReqMsg s); cbn; lia|].
    by intros ?%Exists_nil.
  - apply Forall_cons in Hl as [Ha Hl]. cbn [run_actions ncompl].
    assert (∃ s1, run_action now a s = Ok s1 ∧ Inv acc s1 ∧ frame s s1 ∧
      (weight s1 + drop s s1 = weight s + (if completes a then 1 else 0))%nat ∧ (closing a = true → m_pCurReqMsg s1 = None))
      as (s1 & -> & HI1 & Hf1 & Hw1 & Hc1).
    { destruct (completes a) eqn:Ec.
      - destruct a; try done. destruct (complete_weight s result HI) as (s1 & ? & ? & ? & ? & ?). by exists s1.
      - assert (Hq : quiet a = true) by (by destruct a). destruct (run_action_ok acc now a s HI) as (s1 & E & HI1 & Hf1 & _ & Hst & _).
        specialize (Hst Hq). exists s1. split; [done|]. split; [done|]. split; [done|]. rewrite (weight_still s s1 Hst).
        destruct Hst as (_ & Hc & _). unfold drop. rewrite Hc. split; [destruct (m_pCurReqMsg s); lia|by destruct a]. }
    cbn [mbind res_bind]. destruct (IH s1 HI1 Hl) as (s' & -> & HI' & Hf & Hw & Hc). exists s'.
    split; [done|]. split; [done|]. split; [by etrans|]. split.
    + assert (drop s s' <= drop s s1 + drop s1 s')%nat; [|lia]. unfold drop.
      destruct (m_pCurReqMsg s), (m_pCurReqMsg s1), (m_pCurReqMsg s'); lia.
    + intros [Hx|Hx]%Exists_cons; [|by apply Hc]. destruct (fr_cur _ _ Hf) as [->|Hn]; [by apply Hc1|done].
Qed.

Lemma prompt_weight l s :
  Inv acc s → prompt l →
  ∃ s', run_actions now l s = Ok s' ∧ Inv acc s' ∧ frame s s' ∧ (weight s' + drop s s' <= weight s + 1)%nat ∧
    (Exists (λ a, closing a = true) l → m_pCurReqMsg s' = None).
Proof.
  intros HI [Hl Hn]. destruct (actions_weight l s HI Hl) as (s' & ? & ? & ? & ? & ?). exists s'. split_and!; try done; [apply H1..|lia].
Qed.

(** the weight of what is left when the engine answers the current request itself *)
Lemma notify_weight s p m result s' :
  m_pCurReqMsg s = Some p → p ∉ tq (mTimerList s) → heap s !! p = Some m →
  NotifyNextRequestMessage (ContextComplete p (m_pReqData m) result s) = Ok s' → (weight s' + 1 = weight s)%nat.
Proof.
  intros Hc Ht Hm. destruct (m_pReqData m) as [id|]; cbn [ContextComplete];
    erewrite NotifyNext_some by (cbn; done); intros [= <-];
    unfold weight; cbn; rewrite Hc, pipe_weight_push, postponed_none, postponed_cur, filter_absent by done; cbn; lia.
Qed.

Lemma HandleRequest_weight s s' `{!HandlerContract} `{!PromptHandlers} :
  Inv acc s → HandleRequest now s = Ok s' → (weight s' <= weight s)%nat.
Proof.
  intros HI. unfold HandleRequest. destruct (m_pCurReqMsg s) as [c|] eqn:Hc; [by intros [= <-] |].
  unfold reqDeQ. destruct (m_requestQueue s) as [|p q] eqn:Eq; [by intros [= <-] |].
  destruct (Inv_req acc s p HI) as (m & id & Hm & Hd & Hid); [left; rewrite Eq; by left|].
  rewrite (deref_ok p m) by done. cbn [mbind res_bind]. rewrite Hid. set (s0 := set_queues _ _ _ _).
  assert (Ht : p ∉ tq (mTimerList s)).
  { destruct HI as [[[Hn _] _] _]. rewrite Eq in Hn. cbn in Hn. apply NoDup_cons in Hn as [Hn _]. by intros ?; apply Hn, elem_of_app; right. }
  assert (Hrej : NotifyNextRequestMessage (ContextComplete p (Some id) RIL_E_RADIO_NOT_AVAILABLE s0) = Ok s' → (weight s' <= weight s)%nat).
  { rewrite NotifyNext_none by done. intros [= <-]. unfold weight. cbn. rewrite Hc, Eq, pipe_weight_push, postponed_none. cbn. lia. }
  destruct (_ && _); [done|]. destruct (_ && _); [done|]. clear Hrej.
  set (s1 := set_cur (Some p) _).
  assert (HI1 : Inv acc s1).
  { destruct HI as [HI Ha]. split; [|done]. rewrite Eq, Hc in HI. by apply core_take. }
  assert (Hw1 : (weight s1 + 1 = weight s)%nat).
  { unfold weight. cbn. rewrite Hc, Eq, postponed_none, postponed_cur, filter_absent by done. cbn. lia. }
  pose proof (prompt_request p s1) as Hp. pose proof (request_false p s1) as Hq.
  destruct (OnHandleRequest p s1) as [ret acts]. cbn in Hp, Hq.
  destruct (prompt_weight acts s1 HI1 Hp) as (s2 & E2 & HI2 & Hf & Hw2 & _).
  destruct (run_actions_ok acc now acts s1 HI1) as (s2' & E2' & _ & _ & _ & Hst & _). assert (s2' = s2) as -> by congruence.
  rewrite E2. cbn [mbind res_bind]. destruct ret; cbn [negb].
  - destruct (StartRequestTimeout_effect acc s2 now HI2) as (s3 & -> & _ & Hf3 & _ & Hc3 & Hp3 & Ht3). intros [= <-].
    assert (weight s3 = weight s2); [|lia]. unfold weight. rewrite Hc3, Hp3, (fr_req _ _ Hf3).
    destruct (m_pCurReqMsg s2) as [c|]; [|by subst]. rewrite (postponed_perm _ _ _ Ht3), !postponed_cur, filter_cons_False by tauto.
    do 2 f_equal. rewrite filter_absent; [done|]. rewrite list_elem_of_filter. tauto.
  - destruct (Hst (Hq eq_refl)) as (Hs1 & Hc2 & Ht2 & Hs2 & Hs3).
    destruct (Inv_cur acc s2 p HI2) as (m2 & id2 & Hm2 & _ & Hid2); [by rewrite Hc2|]. rewrite (deref_ok p m2) by done. cbn [mbind res_bind].
    intros E. rewrite Hid2 in E. change (UnsetTransaction (ContextComplete p (Some id2) RIL_E_GENERIC_FAILURE s2))
      with (ContextComplete p (Some id2) RIL_E_GENERIC_FAILURE (UnsetTransaction s2)) in E. rewrite <- Hid2 in E.
    apply (notify_weight (UnsetTransaction s2) p m2) in E; [|by cbn; rewrite Hc2|by cbn; rewrite Ht2|done].
    change (weight (UnsetTransaction s2)) with (weight s2) in E. pose proof (weight_still s1 s2 ltac:(by split_and!)). lia.
Qed.

(** a call that costs at most [k] *)
Definition costs (k : nat) (f : Service → res Service) : Prop :=
  ∀ s, Inv acc s → ∃ s', f s = Ok s' ∧ Inv acc s' ∧ (weight s' <= weight s + k)%nat.

Lemma costs_bind k k' f g s :
  (∃ s', f = Ok s' ∧ Inv acc s' ∧ (weight s' <= weight s + k)%nat) → costs k' g →
  ∃ s', (s1 ← f; g s1) = Ok s' ∧ Inv acc s' ∧ (weight s' <= weight s + (k + k'))%nat.
Proof.
  intros (s1 & -> & HI1 & Hw1) Hg. destruct (Hg s1 HI1) as (s2 & E & HI2 & Hw2). exists s2. split; [exact E|]. split; [done|lia].
Qed.
Lemma costs_when k b f : costs k f → costs k (when b f).
Proof. intros Hf s HI. unfold when. destruct b; [by apply Hf|]. exists s. split; [done|]. split; [done|lia]. Qed.
Lemma costs_call_back c `{!PromptHandlers} : costs 1 (call_back now c).
Proof.
  intros s HI. destruct (prompt_weight (OnCallback c s) s HI (prompt_callback c s)) as (s' & E & HI' & _ & Hw & _).
  exists s'. split; [exact E|]. split; [done|lia].
Qed.
Lemma costs_complete result : costs 1 (OnRequestComplete result).
Proof.
  intros s HI. destruct (complete_weight s result HI) as (s' & E & HI' & _ & _ & Hw). exists s'. split; [done|]. split; [done|lia].
Qed.
Lemma costs_le k k' s e :
  (k <= k')%nat → (∃ s', e = Ok s' ∧ Inv acc s' ∧ (weight s' <= weight s + k)%nat) →
  ∃ s' : Service, e = Ok s' ∧ Inv acc s' ∧ (weight s' <= weight s + k')%nat.
Proof. intros Hk (s' & ? & ? & ?). exists s'. split; [done|]. split; [done|lia]. Qed.

Context `{!PromptHandlers}.

Ltac cost_step := eapply costs_bind; [by (apply costs_when; [apply costs_call_back|]) || by apply costs_call_back|intros ? ?].

Lemma costs_SetRadioState r force : costs 5 (SetRadioState now r force).
Proof.
  intros s HI. unfold SetRadioState. set (s1 := if r =? RADIO_STATE_UNAVAILABLE then _ else _).
  assert (HI1 : Inv acc s1) by (subst s1; by destruct (r =? RADIO_STATE_UNAVAILABLE)).
  assert (weight s1 = weight s) as <- by (subst s1; by destruct (r =? RADIO_STATE_UNAVAILABLE)).
  eapply (costs_le (1 + (1 + (1 + (1 + 1))))); [lia|]. do 4 cost_step. by apply costs_when; [apply costs_call_back|].
Qed.

Lemma costs_RadioStateChanged user : (∀ ints, user = Some ints → 1 <= lenZ ints) → costs 7 (RadioStateChanged now user).
Proof.
  intros Hu s HI. unfold RadioStateChanged.
  assert (∃ v, match user with Some ints => ints.[0] | None => Ok (if UiccStatus s =? 0 then RADIO_STATE_OFF else GetCurrentRadioState s) end = Ok v)
    as [v ->].
  { destruct user as [ints|]; [|by eexists]. destruct (rd_ok ints 0) as (v & -> & _); [|by eexists]. specialize (Hu _ eq_refl). lia. }
  cbn [mbind res_bind]. eapply (costs_le (5 + (1 + 1))); [lia|]. eapply costs_bind; [by apply costs_SetRadioState|].
  intros s1 HI1. eapply costs_bind; [|by intros s2 HI2; apply costs_call_back].
  destruct (m_pCurReqMsg s1) as [c|] eqn:Hc; [|exists s1; split; [done|split; [done|lia] ] ].
  destruct (Inv_cur _ _ _ HI1 Hc) as (m & id & Hm & Hd & Hid).
  destruct (_ =? RADIO_STATE_OFF); [|destruct (_ =? RADIO_STATE_UNAVAILABLE); [|exists s1; split; [done|split; [done|lia] ] ] ];
    (eval_with Hm; rewrite Hid; by apply costs_when; [apply costs_complete|]).
Qed.

Lemma costs_ModemStateChanged ints : 1 <= lenZ ints → costs 3 (ModemStateChanged now ints).
Proof.
  intros Hl s HI. unfold ModemStateChanged. destruct (rd_ok ints 0) as (v & -> & _); [lia|]. cbn [mbind res_bind].
  set (s1 := set_radio _ _ _ _ _). change (weight s) with (weight s1). change (Inv acc s1) in HI. apply costs_when; [|done]. intros s2 HI2.
  eapply (costs_le (1 + (1 + 1))); [lia|]. do 2 cost_step. by apply costs_when; [apply costs_call_back|].
Qed.

Lemma costs_internal p m : m_nDirection m = INTERNAL → message_ok m → costs 7 (internal_case now p m).
Proof.
  intros Hd Hok s HI. unfold message_ok in Hok. rewrite Hd in Hok. unfold internal_case. cbv zeta.
  assert (Hcb : ∀ c, ∃ s', call_back now c s = Ok s' ∧ Inv acc s' ∧ (weight s' <= weight s + 7)%nat).
  { intros c. eapply (costs_le 1); [lia|]. by apply costs_call_back. }
  assert (Hra : ∀ c r v d ms, ∃ s', call_back now c (set_radio r v d ms s) = Ok s' ∧ Inv acc s' ∧ (weight s' <= weight s + 7)%nat).
  { intros c r v d ms. eapply (costs_le 1); [lia|]. change (weight s) with (weight (set_radio r v d ms s)). by apply costs_call_back. }
  destruct (Z.eqb_spec (m_nMsgId m) MSG_SYSTEM_RADIO_STATE_CHANGED) as [E|_].
  { apply costs_RadioStateChanged; [|done]. intros ints Hi. rewrite Hi, E in Hok. exact Hok. }
  destruct (Z.eqb_spec (m_nMsgId m) MSG_SYSTEM_RESET); [apply Hcb|].
  destruct (Z.eqb_spec (m_nMsgId m) MSG_SYSTEM_SERVICE_TATE_CHANGED); [apply Hcb|].
  destruct (bool_decide_reflect (m_nMsgId m ∈ [MSG_SYSTEM_SIM_STATUS_CHANGED; MSG_SYSTEM_IMSI_UPDATED;
    MSG_SYSTEM_VOICE_REGISTRTION_STATE_CHANGED; MSG_SYSTEM_DATA_REGISTRTION_STATE_CHANGED;
    MSG_SYSTEM_DATA_CALL_STATE_CHANGED; MSG_SYSTEM_MODEM_STATE_CHANGED])) as [Hin|]; [|apply Hcb].
  cbn [negb]. destruct (m_pUserData m) as [ints|]; [|exists s; split; [done|split; [done|lia] ] ].
  rewrite !elem_of_cons, elem_of_nil in Hin.
  destruct_or? Hin; try done; rewrite Hin in *; cbn -[rd];
    (match type of Hok with ints_needed ?k <= _ => let v := eval vm_compute in (ints_needed k) in change (ints_needed k) with v in Hok end);
    (destruct (rd_ok ints 0) as (v0 & E0 & _); [lia|]); try (destruct (rd_ok ints 1) as (v1 & E1 & _); [lia|]);
    rewrite ?E0, ?E1; cbn [mbind res_bind]; try apply Hcb; try apply Hra.
  - eapply (costs_le (1 + 1)); [lia|]. cost_step. by apply costs_call_back.
  - eapply (costs_le 3); [lia|]. by apply costs_ModemStateChanged.
Qed.

Lemma delete_weight p s s' : delete_msg p s = Ok s' → weight s' = weight s.
Proof. unfold delete_msg, deref. destruct (heap s !! p); [|done]. by intros [= <-]. Qed.
Lemma delete_costs k p s0 e s' :
  (∃ s1, e = Ok s1 ∧ Inv acc s1 ∧ (weight s1 <= weight s0 + k)%nat) → (s1 ← e; delete_msg p s1) = Ok s' →
  (weight s' <= weight s0 + k)%nat.
Proof. intros (s1 & -> & _ & Hw) E. apply delete_weight in E. lia. Qed.

Lemma HandleInternalMessage_weight s s' : Inv acc s → HandleInternalMessage now s = Ok s' → (weight s' <= weight s + 7)%nat.
Proof.
  intros HI. unfold HandleInternalMessage, internalDeQ. destruct (m_internalQueue s) as [|p q] eqn:Eq; [intros [= <-]; lia|].
  destruct HI as [HI Ha]. rewrite Eq in HI. pose proof HI as [_ [_ _ [Hni Hint] _ _ _]]. apply NoDup_cons in Hni as [Hp Hni].
  destruct (Hint p ltac:(by left)) as (m & Hm & Hd & Hok). rewrite (deref_ok p m) by done. cbn [mbind res_bind].
  apply delete_costs. set (s1 := set_queues _ _ _ _). change (weight s) with (weight s1). apply costs_internal; [done..|].
  split; [|done]. eapply core_heap; try done; [apply HI..|]. intros x Hx. apply Hint. by right.
Qed.

Lemma HandleResponse_weight s s' : Inv acc s → HandleResponse now s = Ok s' → (weight s' <= weight s + 2)%nat.
Proof.
  intros HI. unfold HandleResponse, respDeQ. cbn [m_responseQueue set_nr set_misc m_internalQueue m_requestQueue].
  destruct (m_responseQueue s) as [|p q] eqn:Eq; [intros [= <-]; change (weight (set_nr 0 s)) with (weight s); lia|].
  set (s1 := set_queues _ _ _ _). change (weight s) with (weight s1). destruct HI as [HI Ha]. rewrite Eq in HI.
  pose proof HI as [_ [_ [Hn Hresp] _ _ _ _]]. apply NoDup_cons in Hn as [Hp Hn].
  destruct (Hresp p ltac:(by left)) as (m & Hm & _). rewrite (deref_ok p m) by done. cbn [mbind res_bind].
  assert (HI1 : Inv acc s1).
  { split; [|done]. eapply core_heap; try done; [apply HI..| |apply HI]. intros x Hx. apply Hresp. by right. }
  assert (Hdel : ∀ s'', delete_msg p s1 = Ok s'' → (weight s'' <= weight s1 + 2)%nat) by (intros s'' E; apply delete_weight in E; lia).
  destruct (m_pModemData m) as [d|]; [|by apply Hdel]. destruct (md_solicited d).
  - assert (∃ b, match m_pCurReqMsg s1 with Some c => mc ← deref c s1; Ok (GetToken mc =? GetToken m) | None => Ok false end = Ok b)
      as [b ->].
    { destruct (m_pCurReqMsg s1) as [c|] eqn:Hc; [|by eexists]. destruct (Inv_cur _ _ _ HI1 Hc) as (mc & ? & Hmc & _).
      eval_with Hmc. by eexists. }
    cbn [mbind res_bind]. destruct (negb b); [by apply Hdel|]. pose proof (prompt_response p s1) as Hpr.
    destruct (OnHandleSolicitedResponse p s1) as [handled acts]. cbn in Hpr.
    destruct (prompt_weight acts s1 HI1 Hpr) as (s2 & -> & HI2 & _ & Hw2 & _). cbn [mbind res_bind].
    apply delete_costs. destruct handled; cbn [negb]; [exists s2; split; [done|split; [done|lia] ]|].
    destruct (costs_complete RIL_E_GENERIC_FAILURE s2 HI2) as (s3 & E & HI3 & Hw3). exists s3. split; [done|split; [done|lia] ].
  - apply delete_costs. destruct (md_unsolicited d); [|exists s1; split; [done|split; [done|lia] ] ].
    eapply (costs_le 1); [lia|]. by apply costs_call_back.
Qed.

Lemma HandleRequestTimeout_weight s s' `{!HandlerContract} :
  Inv acc s → mTimerList s ≠ [] → HandleRequestTimeout now s = Ok s' → (weight s' < weight s)%nat.
Proof.
  intros HI Hne. unfold HandleRequestTimeout. destruct (mTimerList s) as [|te l] eqn:El; [done|]. cbn [pop].
  pose proof HI as [HI0 Ha]. rewrite El in Ha. apply Forall_cons in Ha as [[p Hp] Ha]. rewrite Hp. rewrite El in HI0.
  rewrite tq_cons, Hp in HI0. set (s0 := set_timers l s).
  assert (Htq : tq (mTimerList s) = p :: tq l) by (by rewrite El, tq_cons, Hp).
  destruct (decide (m_pCurReqMsg s0 = Some p)) as [Hc|Hc].
  - change (m_pCurReqMsg s = Some p) in Hc. destruct (Inv_cur acc s p HI Hc) as (m & id & Hm & Hd & Hid).
    rewrite (deref_ok p m) by done. cbn [mbind res_bind]. rewrite Hid. rewrite Hc in HI0. apply core_pop_cur in HI0 as [HI0 Ht].
    assert (HI1 : Inv acc s0) by (split; [cbn; by rewrite Hc|done]).
    assert (Hw0 : weight s0 = weight s).
    { unfold weight. cbn. rewrite Hc, Htq, !postponed_cur, filter_cons_False by tauto. done. }
    pose proof (prompt_timeout p s0) as Hpr. pose proof (timeout_true p s0) as Htr. pose proof (timeout_false p s0) as Hfa.
    destruct (OnHandleRequestTimeout p s0) as [ret acts]. cbn in Hpr, Htr, Hfa.
    destruct (prompt_weight acts s0 HI1 Hpr) as (s2 & E2 & HI2 & Hf & Hw2 & Hcl).
    destruct (run_actions_ok acc now acts s0 HI1) as (s2' & E2' & _ & _ & _ & Hst & _). assert (s2' = s2) as -> by congruence.
    rewrite E2. cbn [mbind res_bind]. destruct ret.
    + intros [= <-]. specialize (Hcl (Htr eq_refl)). unfold drop in Hw2. change (m_pCurReqMsg s0) with (m_pCurReqMsg s) in Hw2.
      rewrite Hc, Hcl in Hw2. lia.
    + specialize (Hfa eq_refl). assert (Hs : still s0 s2) by (apply Hst; eapply Forall_impl; [exact Hfa|]; by intros []).
      pose proof (weight_still s0 s2 Hs) as Hws. destruct Hs as (_ & Hc2 & Ht2 & _).
      unfold CheckCountsForTimeOut. destruct (Inv_cur acc s2 p HI2) as (m2 & id2 & Hm2 & _ & Hid2); [by rewrite Hc2|].
      assert (Hend : ∀ t n w c s3, (m ← deref p (set_misc t n w c s2); NotifyNextRequestMessage
        (ContextComplete p (m_pReqData m) RIL_E_INTERNAL_ERR (set_misc t n w c s2))) = Ok s3 → (weight s3 < weight s)%nat).
      { intros t n w c s3. rewrite (deref_ok p m2) by done. cbn [mbind res_bind]. intros E.
        apply notify_weight in E; [|by cbn; rewrite Hc2|by cbn; rewrite Ht2|done].
        change (weight (set_misc t n w c s2)) with (weight s2) in E. lia. }
      destruct (m_pModemData m) as [d|]; cbn [mbind res_bind]; [|by apply Hend]. destruct (_ <? _); [|by apply Hend].
      rewrite (deref_ok p m2) by done. cbn [mbind res_bind]. destruct (decide _); [by apply Hend|done].
  - assert (Hh : holds (heap s) REQUEST p) by (destruct HI0 as [_ HI0]; apply (led_req _ _ _ _ _ _ HI0); right; right; by left).
    destruct Hh as (m & Hm & Hd & _). unfold EnQueue. rewrite (deref_ok p m) by done. cbn [mbind res_bind]. rewrite Hd.
    assert (Hpost : postponed (m_pCurReqMsg s) (p :: tq l) = p :: postponed (m_pCurReqMsg s) (tq l)).
    { unfold postponed. by rewrite filter_cons_True. }
    intros [= <-]. unfold weight. cbn. rewrite Htq, pipe_weight_push, length_app, Hpost. cbn. lia.
Qed.
End weights.

(** ** The drain *)

Section drain.
Context `{HandlerContract} `{!PromptHandlers}.

Lemma set_pipe_weight s d rest : m_pipe s = d :: rest → (weight (set_pipe rest s) + byte_weight d = weight s)%nat.
Proof. intros Hp. unfold weight. cbn. rewrite Hp, pipe_weight_cons. lia. Qed.

Lemma round_progress acc s now :
  Good acc s →
  (∃ s', monitor_round now s = Ok (Some s') ∧ Good acc s' ∧ (weight s' < weight s)%nat) ∨
  (monitor_round now s = Ok None ∧ m_pipe s = [] ∧ mTimerList s = []).
Proof.
  intros HG. pose proof HG as [HS [Hids Hnd]]. pose proof HS as (HI & _). unfold monitor_round.
  destruct (m_pipe s) as [|d rest] eqn:Hp.
  - unfold CalcNextTimeout. destruct (mTimerList s) as [|te l] eqn:El; [by right|left].
    destruct (timeout_Sys acc.*1 s now HS) as (s' & E & HS' & [_ Hi]). exists s'. rewrite E. split; [done|].
    split; [split; [done|split; [by apply Hi|done] ]|]. by eapply (HandleRequestTimeout_weight acc.*1); [..|exact E]; rewrite ?El.
  - left. destruct (dispatch_Sys acc.*1 s d rest now HS Hp) as (s' & E & HS' & [_ Hi]). exists s'. rewrite E. split; [done|].
    split; [split; [done|split; [by apply Hi|done] ]|]. pose proof (set_pipe_weight s d rest Hp) as Hw.
    assert (HI1 : Inv acc.*1 (set_pipe rest s)) by exact HI. destruct d; cbn [dispatch byte_weight] in *.
    + pose proof (HandleRequest_weight acc.*1 now _ _ HI1 E). lia.
    + pose proof (HandleResponse_weight acc.*1 now _ _ HI1 E). lia.
    + pose proof (HandleInternalMessage_weight acc.*1 now _ _ HI1 E). lia.
Qed.

Lemma run_monitor_drains acc now n s :
  Good acc s → (weight s < n)%nat →
  ∃ s', run_monitor n now s = Ok s' ∧ Good acc s' ∧ m_pipe s' = [] ∧ mTimerList s' = [].
Proof.
  revert s. induction n as [|n IH]; intros s HG Hn; [lia|]. cbn [run_monitor].
  destruct (round_progress acc s (now n) HG) as [(s1 & -> & HG1 & Hw)|(-> & Hp & Ht)]; cbn [mbind res_bind].
  - apply IH; [done|lia].
  - by exists s.
Qed.

(** C3: liveness of the request engine.  Take any reachable state of a service whose handlers keep the contract, complete
    at most once and neither postpone nor restart the timer.  If nothing more is sent, the monitor needs at most [weight s]
    rounds, whatever the clock reads, until it would sleep for ever, and by then every request that was ever sent has
    been answered (with its own identifier) and the queues, the timer list and the pipe are empty. *)
Theorem monitor_drains acc (s : Service) (now : nat → timeval) (Hr : reachable acc (Ok s)) :
  ∃ s', run_monitor (S (weight s)) now s = Ok s' ∧
    m_requestQueue s' = [] ∧ m_responseQueue s' = [] ∧ m_internalQueue s' = [] ∧ m_pCurReqMsg s' = None ∧
    mTimerList s' = [] ∧ m_pipe s' = [] ∧
    (∀ p id, (p, id) ∈ acc → ∃ r, {| c_msg := p; c_req := id; c_result := r |} ∈ completed s').
Proof.
  destruct (reachable_good _ _ Hr) as (s0 & [= <-] & HG).
  destruct (run_monitor_drains acc now (S (weight s)) s HG) as (s' & E & HG' & Hp & Ht); [lia|]. exists s'. split; [exact E|].
  destruct HG' as [[[[_ Hled] _] [Ha [Hw [Hb1 Hb2]]]] [[_ Hids] Hnd]]. unfold wake in Hw. rewrite Hp in Hb1, Hb2, Hw.
  assert (Hc : m_pCurReqMsg s' = None).
  { destruct (m_pCurReqMsg s') as [c|] eqn:Ec; [|done]. specialize (Ha c Ec). rewrite Ht in Ha. by apply not_elem_of_nil in Ha. }
  assert (Hq : m_requestQueue s' = []).
  { destruct (m_requestQueue s'); [done|]. by specialize (Hw Hc ltac:(done)); apply not_elem_of_nil in Hw. }
  split; [done|]. split; [by destruct (m_responseQueue s')|]. split; [by destruct (m_internalQueue s')|]. do 3 (split; [done|]).
  intros p id Hin. assert (Hacc : p ∈ acc.*1) by (apply list_elem_of_fmap; by exists (p, id)).
  apply (led_acc _ _ _ _ _ _ Hled) in Hacc as [Hd|Hd].
  - apply list_elem_of_fmap in Hd as (c & -> & Hcin). exists (c_result c). rewrite Forall_forall in Hids. specialize (Hids c Hcin).
    apply (elem_of_list_to_map_1 (M := gmap Z)) in Hin; [|done]. destruct c as [cm cr cx]. cbn in *. congruence || (assert (cr = id) as -> by congruence; done).
  - exfalso. rewrite Hq, Hc, Ht in Hd. destruct Hd as [Hd|[Hd|Hd] ]; [|done|]; by apply not_elem_of_nil in Hd.
Qed.
End drain.

(** [demo] without the requests it postpones *)
Definition demo_prompt : ServiceHandlers := {|
  m_nServiceId := 5;
  OnHandleRequest p s := (true, [ASendRequest p 1000 1 true]);
  OnHandleSolicitedResponse _ _ := (true, [AOnRequestComplete 0]);
  OnHandleRequestTimeout _ _ := (false, []);
  OnCallback _ _ := [];
  IsPossibleToPassInRadioOffState _ := true;
  IsPossibleToPassInRadioUnavailableState _ := true;
  GetCurrentRadioState _ := RADIO_STATE_ON;
  UiccStatus _ := 1
|}.
Lemma demo_prompt_contract : @HandlerContract demo_prompt.
Proof. split; done. Qed.
Lemma demo_prompt_prompt : @PromptHandlers demo_prompt.
Proof. split; intros; split; cbn; repeat constructor. Qed.

Definition sent_one : Service := Eval vm_compute in the_state (@SendMessage 10 (RequestMessage 1 1) newService).
Lemma sent_one_reachable : @reachable demo_prompt [(10, 1)] (Ok sent_one).
Proof.
  apply (@reachable_step demo_prompt [] newService); [constructor|].
  change (Ok sent_one) with (SendMessage 10 (RequestMessage 1 1) newService).
  apply (@step_send demo_prompt 10 (RequestMessage 1 1) [] newService); [by eexists|done|by intros ?%not_elem_of_nil].
Qed.

(** the modem never answers: the request times out *)
Lemma monitor_drains_witness :
  ∃ s', @run_monitor demo_prompt (S (weight sent_one)) (λ n, clock (100 - Z.of_nat n)) sent_one = Ok s' ∧
    mTimerList s' = [] ∧ completed s' = [{| c_msg := 10; c_req := 1; c_result := RIL_E_INTERNAL_ERR |}].
Proof.
  destruct (@monitor_drains demo_prompt demo_prompt_contract demo_prompt_prompt [(10, 1)] sent_one
    (λ n, clock (100 - Z.of_nat n)) sent_one_reachable) as (s' & E & _ & _ & _ & _ & Ht & _ & _).
  exists s'. split; [exact E|]. split; [exact Ht|]. vm_compute in E. injection E as <-. reflexivity.
Defined.
