(* ===== verification/ServiceFindings.v ===== *)
(** Places where the request engine does less than its comments say, as facts
    about [Service.v]; the manifest lists them as findings. *)
From stdpp Require Import gmap.
From S2P Require Import Prelude RilDef Timers WaitList Service ServiceProofs ServiceTheorems.

(** [PostponeRequestMessage] clears the modem data before it reads the token,
    so the history record the comment wants removed always stays. *)
Lemma postpone_keeps_history acc now millis s s' :
  Inv acc s → PostponeRequestMessage now millis s = Ok s' → m_RequestWaitList s' = m_RequestWaitList s.
Proof.
  intros HI. unfold PostponeRequestMessage. destruct (m_pCurReqMsg s) as [p|] eqn:Hc.
  - destruct (Inv_cur _ _ _ HI Hc) as (m & id & Hm & _).
    rewrite (modify_ok p _ (set_cur None s) m) by done. cbn [mbind res_bind].
    erewrite modify_ok by (cbn; apply lookup_insert_eq). cbn [mbind res_bind].
    erewrite deref_ok by (cbn; apply lookup_insert_eq). cbn [mbind res_bind].
    rewrite NotifyNext_none by done. by intros [= <-].
  - cbn [mbind res_bind]. rewrite NotifyNext_none by done. by intros [= <-].
Qed.

(** a service that lets no request pass while the radio is unavailable *)
Definition strict : ServiceHandlers := {|
  m_nServiceId := 5;
  OnHandleRequest _ _ := (true, [AOnRequestComplete 0]);
  OnHandleSolicitedResponse _ _ := (true, [AOnRequestComplete 0]);
  OnHandleRequestTimeout _ _ := (false, []);
  OnCallback _ _ := [];
  IsPossibleToPassInRadioOffState _ := false;
  IsPossibleToPassInRadioUnavailableState _ := false;
  GetCurrentRadioState _ := RADIO_STATE_ON;
  UiccStatus _ := 1
|}.

(** A request that is rejected because of the radio state is answered, leaves
    the queue, and is never deleted. *)
Lemma rejected_request_leaks :
  let s := the_state (@run_events strict [ESend 10 (RequestMessage 1 1); ERound (clock 0); ERound (clock 1)] newService) in
  c_result <$> completed s = [RIL_E_RADIO_NOT_AVAILABLE] ∧ m_requestQueue s = [] ∧ m_pCurReqMsg s = None ∧
  m_pipe s = [] ∧ is_Some (heap s !! 10).
Proof. vm_compute. repeat split; by eexists. Qed.

(** Requests without request data: the round that meets one at the head of the
    queue while the previous request is still current consumes its byte; the
    byte the answer writes is consumed by the broken request, which writes
    none, and the request behind it is left in the queue with an empty pipe. *)
Definition broken_request : Message :=
  {| m_nMsgId := 9; m_nTimeout := 0; m_nDirection := REQUEST; m_pReqData := None; m_pModemData := None; m_pUserData := None |}.
Lemma broken_request_loses_wakeup :
  let s := the_state (run_events
    [ESend 10 (RequestMessage 1 1); ERound (clock 0); ESend 11 broken_request; ERound (clock 1);
     ESend 12 (RequestMessage 2 2); ERound (clock 2);
     ESend 13 (ModemMessage 1 (Some {| md_token := 7; md_solicited := true; md_unsolicited := false |}));
     ERound (clock 3); ERound (clock 4)] newService) in
  m_requestQueue s = [12] ∧ m_pCurReqMsg s = None ∧ m_pipe s = [] ∧ mTimerList s = [] ∧ c_msg <$> completed s = [10].
Proof. vm_compute. repeat split. Qed.

(** [ServiceMgr::SendMessage] queues the message and then reads its direction.
    With a [REQUEST] byte left over from the previous answer, the monitor can
    take, answer and delete the message in between. *)
Lemma sender_reads_deleted_message :
  let s0 := the_state (run_events [ESend 10 (RequestMessage 2 2); ERound (clock 0)] newService) in
  let s1 := the_state (EnQueue 11 (set_heap (<[11 := RequestMessage 2 2]> (heap s0)) s0)) in
  ∃ s2, monitor_round (clock 1) s1 = Ok (Some s2) ∧ c_msg <$> completed s2 = [10; 11] ∧ deref 11 s2 = UB.
Proof. eexists. split; [vm_compute; reflexivity|]. split; vm_compute; reflexivity. Qed.

(** [HandleRequestTimeout] answers the request without [UnsetTransaction]. *)
Lemma timeout_keeps_transaction :
  let s := the_state (run_events [ESend 10 (RequestMessage 1 1); ERound (clock 0); ERound (clock 100)] newService) in
  c_result <$> completed s = [RIL_E_INTERNAL_ERR] ∧ m_pCurReqMsg s = None ∧ m_nCurrentReqId s = 1.
Proof. vm_compute. repeat split. Qed.
