(* ===== verification/SimEngine.v ===== *)
(** The SIM service in the request engine: [core/service.cpp] runs the
    handlers of [core/service/simservice.cpp].

    [Service.v] knows a message by its request identifier and its token, and a
    service by the calls its handlers make; [SimCard.v] knows the contents and
    nothing of queues.  Here the two run together: a process holds both states,
    what each message carries, and the packet of the current request; a round
    of the monitor thread hands the message it takes to the handler of the SIM
    service and gives the engine the calls that handler made. *)
From stdpp Require Import gmap.
From S2P Require Import Prelude RilDef Timers WaitList Network Rcm Handler Layout RilData SimPackets SimPin SimPinTheorems SimIo SimCardPackets SimCard SimTheorems SimAutoPin.
From S2P Require Import Service ServiceProofs ServiceTheorems.

Definition RIL_SERVICE_SIM : Z := 3.
Definition TIMEOUT_SIM_DEFAULT : Z := 30000.
Definition MSG_SIM_BASE : Z := 2000.

(** ** The process *)

Record SimProcess := { engine : Service; sim : SimService; contents : gmap Z SimEvent; cur_packet : option (list Z) }.
(** what a round finds outside: whether packets can be sent and more, the state of the radio and of the card as the context has them, the clock *)
Record EngineEnv := { ee_sim : SimEnv; ee_radio : Z; ee_uicc : Z; ee_now : timeval }.

(** the identifiers of the answers *)
Definition done_id (m : DoneMsg) : Z :=
  MSG_SIM_BASE +
  match m with
  | MSG_SIM_GET_STATUS_DONE => 2 | MSG_SIM_VERIFY_PIN_DONE => 4 | MSG_SIM_VERIFY_PUK_DONE => 6 | MSG_SIM_VERIFY_PIN2_DONE => 8
  | MSG_SIM_VERIFY_PUK2_DONE => 10 | MSG_SIM_CHANGE_PIN_DONE => 12 | MSG_SIM_CHANGE_PIN2_DONE => 14 | MSG_SIM_VERIFY_NETWORK_LOCK_DONE => 16
  | MSG_SIM_IO_DONE => 18 | MSG_SIM_GET_FACILITY_LOCK_DONE => 20 | MSG_SIM_SET_FACILITY_LOCK_DONE => 22 | MSG_SIM_GET_ISIM_AUTH_DONE => 24
  | MSG_SIM_TRANSMIT_APDU_BASIC_DONE => 28 | MSG_SIM_OPEN_CHANNEL_DONE => 30 | MSG_SIM_CLOSE_CHANNEL_DONE => 32 | MSG_SIM_TRANSMIT_APDU_CHANNEL_DONE => 34
  | MSG_SIM_GET_IMSI_DONE => 36 | MSG_SIM_GET_SIM_AUTH_DONE => 39 | MSG_SIM_GET_ATR_DONE => 41 | MSG_SIM_OEM_IMS_SIM_IO_DONE => 57
  | MSG_SIM_OEM_OPEN_CHANNEL_DONE => 59 | MSG_SIM_OEM_TRANSMIT_APDU_LOGICAL_DONE => 61 | MSG_SIM_OEM_TRNASMIT_APDU_BASIC_DONE => 63
  | MSG_SIM_OEM_GET_CARD_PRESENT_DONE => 65 | MSG_SIM_SET_CARRIER_RESTRICTIONS_DONE => 914 | MSG_SIM_GET_CARRIER_RESTRICTIONS_DONE => 916
  | MSG_SIM_SET_SIM_CARD_POWER_DONE => 918 | MSG_SIM_GET_SIM_LOCK_INFO_DONE => 921 | MSG_SIM_GET_SLOT_STATUS_DONE => 923
  | MSG_SIM_SET_LOGICAL_TO_PHYSICAL_SLOT_MAPPING_DONE => 925 | MSG_SIM_OEM_ICC_DEPERSONALIZATION_DONE => 928
  | MSG_SIM_READ_PB_ENTRY_DONE => 43 | MSG_SIM_UPDATE_PB_ENTRY_DONE => 45 | MSG_SIM_GET_PB_STORAGE_INFO_DONE => 47 | MSG_SIM_GET_PB_STORAGE_LIST_DONE => 49
  | MSG_SIM_GET_PB_ENTRY_INFO_DONE => 51 | MSG_SIM_GET_3G_PB_CAPA_DONE => 53
  end.
Definition token_of (packet : list Z) : Z := match Rcm.GetToken (Some packet) with Ok t => t | _ => TOKEN_INVALID end.
(** the calls to the engine among what a handler did *)
Definition engine_action (a : Act) : option action :=
  match a with
  | ActSend p m => Some (ASendRequest (token_of p) TIMEOUT_SIM_DEFAULT (done_id m) true)
  | ActUnsent p m => Some (ASendRequest (token_of p) TIMEOUT_SIM_DEFAULT (done_id m) false)
  | ActComplete code _ => Some (AOnRequestComplete code)
  | ActTimeout ms => Some (ASetRequestTimeout ms)
  | _ => None
  end.
(** the result of a handler: negative is FALSE *)
Definition calls (v : Z) (o : list Act) : bool * list action := (negb (v <? 0), omap engine_action o).
(** a message without a handler *)
Definition no_handler : bool * list action := (false, []).

(** the virtual methods with the result each has in this round *)
Definition sim_handlers (e : EngineEnv) (req resp late : bool * list action) : ServiceHandlers := {|
  m_nServiceId := RIL_SERVICE_SIM;
  OnHandleRequest _ _ := req;
  OnHandleSolicitedResponse _ _ := resp;
  OnHandleRequestTimeout _ _ := late;
  OnCallback _ _ := [];
  IsPossibleToPassInRadioOffState := SimCard.IsPossibleToPassInRadioOffState;
  IsPossibleToPassInRadioUnavailableState := SimCard.IsPossibleToPassInRadioUnavailableState;
  GetCurrentRadioState _ := ee_radio e;
  UiccStatus _ := ee_uicc e |}.

(** ** Which handler a round calls *)

(** the request [HandleRequest] hands over *)
Definition taken_request (s : Service) : option Z :=
  match m_pCurReqMsg s, m_requestQueue s with
  | None, p :: _ =>
    m ← heap s !! p; id ← m_pReqData m;
    if ((m_nOverallRadioState s =? RADIO_STATE_UNAVAILABLE) || (m_nOverallRadioState s =? RADIO_STATE_OFF))
       && negb (SimCard.IsPossibleToPassInRadioUnavailableState id) then None else Some p
  | _, _ => None
  end.
(** the answer or the indication [HandleResponse] hands over *)
Definition taken_response (s : Service) : option Z :=
  match m_responseQueue s with
  | p :: _ =>
    m ← heap s !! p; d ← m_pModemData m;
    if md_solicited d then c ← m_pCurReqMsg s; mc ← heap s !! c; if Service.GetToken mc =? Service.GetToken m then Some p else None
    else if md_unsolicited d then Some p else None
  | [] => None
  end.
(** the system message *)
Definition taken_internal (s : Service) : option SimEvent :=
  match m_internalQueue s with
  | p :: _ =>
    m ← heap s !! p;
    if m_nMsgId m =? MSG_SYSTEM_RADIO_STATE_CHANGED then Some EvRadioState
    else if m_nMsgId m =? MSG_SYSTEM_RESET then Some EvReset
    else if m_nMsgId m =? MSG_SYSTEM_SIM_STATUS_CHANGED then ints ← m_pUserData m; card ← ints !! 0%nat; Some (EvCardState card)
    else None
  | [] => None
  end.
(** the request whose time is over *)
Definition taken_late (s : Service) : option Z :=
  c ← m_pCurReqMsg s; p ← msg (pop (mTimerList s)).1; if decide (p = c) then m ← heap s !! p; _ ← m_pReqData m; Some p else None.
(** the request that is worked on, as the handler of an answer sees it *)
Definition current_of (ev : SimEvent) : Current :=
  match ev with
  | EvRequest _ (Some r) | EvCard (MSG_SIM_GET_IMSI (Some r)) => CurStrings r
  | EvCard (MSG_SIM_IO (Some r)) => CurSimIo r
  | EvCard (MSG_SIM_TRANSMIT_APDU_BASIC (Some r) | MSG_SIM_TRANSMIT_APDU_CHANNEL (Some r)) => CurApdu r
  | EvCard (MSG_SIM_OEM_IMS_SIM_IO (Some r) | MSG_SIM_OEM_OPEN_CHANNEL (Some r) | MSG_SIM_OEM_TRANSMIT_APDU_LOGICAL (Some r)
            | MSG_SIM_OEM_TRNASMIT_APDU_BASIC (Some r) | MSG_SIM_OEM_ICC_DEPERSONALIZATION (Some r)) => CurRaw r
  | _ => CurOther
  end.
Definition current (st : SimProcess) : option Current := c ← m_pCurReqMsg (engine st); ev ← contents st !! c; Some (current_of ev).
Definition with_current (cur : option Current) (ev : SimEvent) : SimEvent := match ev with EvDone m _ frame => EvDone m cur frame | ev => ev end.
Definition called (d : MsgDirection) (st : SimProcess) : option SimEvent :=
  match d with
  | REQUEST => p ← taken_request (engine st); contents st !! p
  | RESPONSE => p ← taken_response (engine st); ev ← contents st !! p; Some (with_current (current st) ev)
  | INTERNAL => taken_internal (engine st)
  end.
(** only the status of the card has a handler for its timeout *)
Definition called_late (st : SimProcess) : option SimEvent :=
  p ← taken_late (engine st);
  match contents st !! p with Some (EvRequest MSG_SIM_GET_STATUS _) => Some (EvStatusTimeout (cur_packet st)) | _ => None end.

(** ** A round *)

(** what the handler did: its result, the state behind it, its calls; nothing when there is none *)
Definition outcome (e : EngineEnv) (ev : option SimEvent) (s : SimService) : res (Z * SimService * list Act) :=
  match ev with Some ev => handle ev (ee_sim e) s | None => Ok (-1, s, []) end.
Definition packet_of (a : Act) : option (list Z) := match a with ActSend p _ | ActUnsent p _ => Some p | _ => None end.
(** the packet the current request holds after the calls of a handler *)
Definition held (before : option (list Z)) (o : list Act) : option (list Z) := match last (omap packet_of o) with Some p => Some p | None => before end.
Definition dispatch_sim (e : EngineEnv) (d : MsgDirection) (c : bool * list action) (s : Service) : res Service :=
  match d with
  | REQUEST => @dispatch (sim_handlers e c no_handler no_handler) (ee_now e) d s
  | _ => @dispatch (sim_handlers e no_handler c no_handler) (ee_now e) d s
  end.
(** the byte [d] was read and [rest] is left in the pipe *)
Definition read_round (e : EngineEnv) (d : MsgDirection) (rest : list MsgDirection) (st : SimProcess) : res SimProcess :=
  t ← outcome e (called d st) (sim st);
  s ← dispatch_sim e d (calls t.1.1 t.2) (set_pipe rest (engine st));
  Ok {| engine := s; sim := t.1.2; contents := contents st;
        cur_packet := match d, taken_request (engine st) with REQUEST, Some _ => held None t.2 | _, _ => held (cur_packet st) t.2 end |}.
Definition late_round (e : EngineEnv) (st : SimProcess) : res SimProcess :=
  t ← outcome e (called_late st) (sim st);
  s ← @HandleRequestTimeout (sim_handlers e no_handler no_handler (calls t.1.1 t.2)) (ee_now e) (engine st);
  Ok {| engine := s; sim := t.1.2; contents := contents st; cur_packet := held (cur_packet st) t.2 |}.
(** a message is put in the queue of the service *)
Definition post_message (p : Z) (m : Message) (ev : option SimEvent) (st : SimProcess) : res SimProcess :=
  s ← SendMessage p m (engine st);
  Ok {| engine := s; sim := sim st; contents := match ev with Some ev => <[p := ev]> (contents st) | None => delete p (contents st) end; cur_packet := cur_packet st |}.
(** an indication or a system message *)
Definition is_callback (ev : SimEvent) : bool := match ev with EvRequest _ _ | EvCard _ | EvDone _ _ _ | EvStatusTimeout _ => false | _ => true end.
(** what a message may carry *)
Definition carries (m : Message) (ev : option SimEvent) : Prop :=
  match m_nDirection m, ev with
  | _, None => True
  | REQUEST, Some ev => is_request ev = true
  | RESPONSE, Some ev => match m_pModemData m with
                         | Some d => if md_solicited d then (∃ msg frame, ev = EvDone msg None frame) else is_callback ev = true
                         | None => False
                         end
  | INTERNAL, Some _ => False
  end.

(** ** The contract of the handlers *)

(** a request that is not spoiled, and fails, has called nothing that ends it *)
Lemma request_calls ev e s v s' o : is_request ev = true → spoiled s ev = false → handle ev e s = Ok (v, s', o) →
  (calls v o).1 = false → Forall (λ a, quiet a = true) (calls v o).2.
Proof.
  intros Hq Hs H. pose proof (reacts ev e s Hq _ _ _ H) as Hr. unfold reaction in Hr. rewrite Hs in Hr. unfold calls, one_reaction in *.
  destruct Hr as [ [ [-> _]|[ [-> _]|[-> [->|(_ & p & m & ->)] ] ] ]|Hr]; cbn; try done.
  - intros _. by apply Forall_singleton.
  - destruct ev as [|q|?|?| |?| | |?|?|?|?]; try done. destruct q; try done; by destruct Hr as [-> _].
Qed.
(** a spoiled request has ended when its handler fails *)
Lemma spoiled_calls ev e s v s' o : is_request ev = true → spoiled s ev = true → handle ev e s = Ok (v, s', o) →
  ∃ code, calls v o = (false, [AOnRequestComplete code]).
Proof.
  intros Hq Hs H. pose proof (reacts ev e s Hq _ _ _ H) as Hr. unfold reaction in Hr. rewrite Hs in Hr. destruct Hr as (-> & code & ->). by exists code.
Qed.
Lemma late_calls p e s v s' o : handle (EvStatusTimeout p) e s = Ok (v, s', o) → calls v o = no_handler ∨ calls v o = (true, [AOnRequestComplete RIL_E_SUCCESS]).
Proof.
  revert v s' o. change (ends (handle (EvStatusTimeout p)) (λ v _ o, calls v o = no_handler ∨ calls v o = (true, [AOnRequestComplete RIL_E_SUCCESS])) e s).
  cbn [handle]. unfold OnGetSimStatusTimeout. repeat sm_step; [by right|by left].
Qed.
(** indications and system messages call nothing of the engine *)
Lemma omap_app_nil {A B} (f : A → option B) l l' : omap f l = [] → omap f l' = [] → omap f (l ++ l') = [].
Proof. intros H1 H2. by rewrite omap_app, H1, H2. Qed.
Lemma notify_calls Q e s : (∀ s' o, omap engine_action o = [] → Q () s' o) → ends NotifyIccidInfo Q e s.
Proof.
  intros HQ v s' o H. unfold NotifyIccidInfo in H. destruct (m_pIccidInfo s) as [d|]; [destruct (radio_available e)|]; injection H as <- <- <-; by apply HQ.
Qed.
Lemma callback_calls ev e s v s' o : is_callback ev = true → handle ev e s = Ok (v, s', o) → (calls v o).2 = [].
Proof.
  intros Hc. revert v s' o. change (ends (handle ev) (λ v _ o, omap engine_action o = []) e s).
  destruct ev as [m r|q|m cur frame|p| |card| | |frame|frame|frame|frame]; try discriminate Hc; cbn [handle];
    unfold OnReset, SaveAutoVerifyPin, OnSimStateChanged, OnSimStatusChanged, OnIccidInfo, OnUnsolUiccSubscriptionStatusChanged, OnUnsolSimSlotsStatusChanged;
    autounfold with sim_answers;
    repeat lazymatch goal with
    | |- ends NotifyIccidInfo _ _ _ => apply notify_calls; intros ? ? ?; cbn [app]
    | |- ends (let _ := _ in _) _ _ _ => cbv zeta
    | |- _ => sm_step
    end; try done; by apply omap_app_nil.
Qed.

(** the handlers of a round keep the contract of the engine, unless the request that is taken is spoiled *)
Lemma idle_contract e c : @HandlerContract (sim_handlers e no_handler c no_handler).
Proof. split; try done; intros; by apply Forall_nil_2. Qed.
Lemma request_contract e c : (c.1 = false → Forall (λ a, quiet a = true) c.2) → @HandlerContract (sim_handlers e c no_handler no_handler).
Proof. intros Hc. split; intros; first [by apply Hc|by apply Forall_nil_2|done]. Qed.
Lemma late_contract e c : c = no_handler ∨ c = (true, [AOnRequestComplete RIL_E_SUCCESS]) → @HandlerContract (sim_handlers e no_handler no_handler c).
Proof. intros [-> | ->]; split; try done; intros; try (by apply Forall_nil_2). by apply Exists_cons_hd. Qed.

(** ** Runs *)

(** the byte that was read makes the service take a spoiled request *)
Definition spoiled_round (d : MsgDirection) (st : SimProcess) : bool :=
  match d, called d st with REQUEST, Some ev => spoiled (sim st) ev | _, _ => false end.
(** One step.  A round in which the handler comes to no end, because what it does is undefined, is not among them; nor is one that takes a
    spoiled request. *)
Inductive sim_step : list (Z * Z) → SimProcess → list (Z * Z) → res SimProcess → Prop :=
| sim_post p m ev acc st : message_ok m → carries m ev → heap (engine st) !! p = None → p ∉ acc.*1 →
    sim_step acc st (accept p m acc) (post_message p m ev st)
| sim_read e d rest acc st t : m_pipe (engine st) = d :: rest → outcome e (called d st) (sim st) = Ok t → spoiled_round d st = false →
    sim_step acc st acc (read_round e d rest st)
| sim_late e acc st t : mTimerList (engine st) ≠ [] → outcome e (called_late st) (sim st) = Ok t → sim_step acc st acc (late_round e st)
| sim_history w acc st : sim_step acc st acc (Ok {| engine := set_wait w (engine st); sim := sim st; contents := contents st; cur_packet := cur_packet st |}).
Definition newSimProcess (s : SimService) : SimProcess := {| engine := newService; sim := s; contents := ∅; cur_packet := None |}.
Inductive sim_reachable (s0 : SimService) : list (Z * Z) → res SimProcess → Prop :=
| sim_new : sim_reachable s0 [] (Ok (newSimProcess s0))
| sim_more acc st acc' r : sim_reachable s0 acc (Ok st) → sim_step acc st acc' r → sim_reachable s0 acc' r.

(** the engine is in order, and requests carry requests *)
Definition SimGood (acc : list (Z * Z)) (st : SimProcess) : Prop :=
  Good acc (engine st) ∧ ∀ p ev, p ∈ acc.*1 → contents st !! p = Some ev → is_request ev = true.
Lemma taken_queued s p : taken_request s = Some p → m_pCurReqMsg s = None ∧ ∃ q, m_requestQueue s = p :: q.
Proof.
  unfold taken_request. destruct (m_pCurReqMsg s); [done|]. destruct (m_requestQueue s) as [|p' q]; [done|]. intros H. split; [done|]. exists q. f_equal.
  apply bind_Some in H as (m & _ & H). apply bind_Some in H as (id & _ & H). destruct (_ && _); [done|]. by injection H.
Qed.
Lemma queued_sent acc s p : Good acc s → p ∈ m_requestQueue s → p ∈ acc.*1.
Proof. intros [[[[_ HL] _] _] _] Hp. apply (led_acc _ _ _ _ _ _ HL). right. by left. Qed.
Lemma called_request acc st ev : SimGood acc st → called REQUEST st = Some ev → is_request ev = true.
Proof.
  intros [HG Hc] H. apply bind_Some in H as (p & Ht & H). apply taken_queued in Ht as (_ & q & Hq). apply (Hc p); [|done].
  eapply queued_sent; [exact HG|]. rewrite Hq. by left.
Qed.
Lemma no_handler_quiet : (no_handler.1 = false → Forall (λ a, quiet a = true) no_handler.2).
Proof. intros _. by apply Forall_nil_2. Qed.
Lemma round_contract acc e d st t : SimGood acc st → outcome e (called d st) (sim st) = Ok t → spoiled_round d st = false → d = REQUEST →
  (calls t.1.1 t.2).1 = false → Forall (λ a, quiet a = true) (calls t.1.1 t.2).2.
Proof.
  intros HG Ho Hs ->. unfold spoiled_round in Hs. destruct (called REQUEST st) as [ev|] eqn:E; cbn [outcome] in Ho.
  - destruct t as [ [v s'] o]. eapply request_calls; [by eapply called_request|exact Hs|exact Ho].
  - injection Ho as <-. intros _. by apply Forall_nil_2.
Qed.
Lemma sim_step_ok acc st acc' r : SimGood acc st → sim_step acc st acc' r →
  ∃ st', r = Ok st' ∧ SimGood acc' st' ∧ acc ⊆ acc' ∧ ∃ l, completed (engine st') = completed (engine st) ++ l.
Proof.
  intros HG Hst. pose proof HG as [HE Hc]. destruct Hst as [p m ev acc st Hok Hca Hp Hn|e d rest acc st t Hp Ho Hs|e acc st t Ht Ho|w acc st].
  - destruct (SendMessage_ok acc p m (engine st) HE Hok Hp Hn) as (s' & E & HG' & Hl). unfold post_message. rewrite E. cbn [mbind res_bind].
    eexists. split; [done|]. split; [split; [done|]|].
    + intros p' ev' Hp' Hev'. destruct (decide (p' = p)) as [->|Hne].
      * cbn in Hev'. destruct ev as [ev|]; [|by rewrite lookup_delete_eq in Hev']. rewrite lookup_insert_eq in Hev'. injection Hev' as ->.
        unfold accept in Hp'. unfold carries in Hca. destruct (m_nDirection m); [done| |]; by apply Hn in Hp'.
      * apply (Hc p'); [|cbn in Hev'; destruct ev; [by rewrite lookup_insert_ne in Hev'|by rewrite lookup_delete_ne in Hev'] ].
        unfold accept in Hp'. destruct (m_nDirection m), (m_pReqData m); try done. by apply elem_of_cons in Hp' as [?|?].
    + split; [|exists []; by rewrite app_nil_r]. unfold accept. destruct (m_nDirection m), (m_pReqData m); try done. intros x Hx. by right.
  - assert (∃ s', dispatch_sim e d (calls t.1.1 t.2) (set_pipe rest (engine st)) = Ok s' ∧ Good acc s' ∧ acc ⊆ acc ∧ ∃ l, completed s' = completed (engine st) ++ l) as (s' & E & H').
    { unfold dispatch_sim. destruct d.
      1: pose proof (request_contract e _ (round_contract _ _ _ _ _ HG Ho Hs eq_refl)) as HC.
      2-3: pose proof (idle_contract e (calls t.1.1 t.2)) as HC.
      all: refine (@step_ok _ HC acc (engine st) acc _ HE _); by apply step_read. }
    unfold read_round. rewrite Ho. cbn [mbind res_bind]. rewrite E. cbn [mbind res_bind]. eexists. split; [done|]. destruct H' as (HG' & Ha & Hl).
    by split.
  - assert (calls t.1.1 t.2 = no_handler ∨ calls t.1.1 t.2 = (true, [AOnRequestComplete RIL_E_SUCCESS])) as Hl.
    { destruct t as [ [v s'] o]. unfold outcome in Ho. destruct (called_late st) as [ev|] eqn:E; [|left; by injection Ho as <- <- <-].
      apply bind_Some in E as (p & _ & E). destruct (contents st !! p) as [ [ [] ?|?|?|?| |?| | |?|?|?|?]|]; try done. injection E as <-. by eapply late_calls. }
    pose proof (late_contract e _ Hl) as HC. destruct (@step_ok _ HC acc (engine st) acc _ HE (@step_timeout _ (ee_now e) acc (engine st) Ht)) as (s' & E & HG' & Ha & Hl').
    unfold late_round. rewrite Ho. cbn [mbind res_bind]. rewrite E. cbn [mbind res_bind]. eexists. split; [done|]. by split.
  - eexists. split; [done|]. split; [by split|]. split; [done|]. exists []. by rewrite app_nil_r.
Qed.
Lemma SimGood_new s : SimGood [] (newSimProcess s).
Proof. split; [apply Good_new|]. by intros p ev Hp%not_elem_of_nil. Qed.
Lemma sim_reachable_good s0 acc r : sim_reachable s0 acc r → ∃ st, r = Ok st ∧ SimGood acc st.
Proof.
  induction 1 as [|acc st acc' r Hr IH Hstep]; [by eexists; split; [done|apply SimGood_new]|].
  destruct IH as (st0 & [= <-] & HG). destruct (sim_step_ok _ _ _ _ HG Hstep) as (st' & ? & ? & _). by exists st'.
Qed.

(** ** A request, from the queue on *)

(** the state in which the handler of the request at [p] runs *)
Definition handed (p id : Z) (q : list Z) (rest : list MsgDirection) (s : Service) : Service :=
  set_cur (Some p) (Service.SetTransaction (u32 id) (set_queues q (m_responseQueue s) (m_internalQueue s) (set_pipe rest s))).
Lemma round_taken e c rest s p : taken_request s = Some p →
  ∃ m id q, heap s !! p = Some m ∧ m_pReqData m = Some id ∧ m_requestQueue s = p :: q ∧
    @HandleRequest (sim_handlers e c no_handler no_handler) (ee_now e) (set_pipe rest s) =
      (s' ← @run_actions (sim_handlers e c no_handler no_handler) (ee_now e) c.2 (handed p id q rest s);
       if negb c.1 then m ← deref p s'; NotifyNextRequestMessage (UnsetTransaction (ContextComplete p (m_pReqData m) RIL_E_GENERIC_FAILURE s'))
       else StartRequestTimeout (ee_now e) s').
Proof.
  unfold taken_request. destruct (m_pCurReqMsg s) eqn:Hc; [done|]. destruct (m_requestQueue s) as [|p' q] eqn:Hq; [done|]. intros H.
  apply bind_Some in H as (m & Hm & H). apply bind_Some in H as (id & Hid & H). destruct (_ && _) eqn:Hb; [done|]. injection H as <-.
  exists m, id, q. split_and!; try done. unfold HandleRequest, reqDeQ. cbn [m_pCurReqMsg set_pipe m_requestQueue]. rewrite Hc, Hq.
  erewrite deref_ok by (cbn; exact Hm). cbn [mbind res_bind]. rewrite Hid. cbn [m_nOverallRadioState set_queues set_pipe sim_handlers Service.IsPossibleToPassInRadioUnavailableState Service.IsPossibleToPassInRadioOffState].
  change SimCard.IsPossibleToPassInRadioOffState with SimCard.IsPossibleToPassInRadioUnavailableState. rewrite orb_diag.
  assert (∀ x, x = (m_nOverallRadioState s =? RADIO_STATE_UNAVAILABLE) ∨ x = (m_nOverallRadioState s =? RADIO_STATE_OFF) →
    x && negb (SimCard.IsPossibleToPassInRadioUnavailableState id) = false) as Hx.
  { intros x [-> | ->]; destruct (_ =? RADIO_STATE_UNAVAILABLE), (_ =? RADIO_STATE_OFF), (SimCard.IsPossibleToPassInRadioUnavailableState id); done. }
  rewrite !Hx by auto. cbn [Service.OnHandleRequest]. by destruct c.
Qed.
(** what the round of a request leaves behind, by what its handler did *)
Definition request_result (e : EngineEnv) (p id : Z) (v : Z) (o : list Act) (s s' : Service) : Prop :=
  let answered code := completed s' = completed s ++ [ {| c_msg := p; c_req := id; c_result := code |} ] ∧ m_pCurReqMsg s' = None ∧ heap s' = delete p (heap s) in
  let waits packet msg written :=
    completed s' = completed s ∧ m_pCurReqMsg s' = Some p ∧
    m_RequestWaitList s' = (ContextSend (token_of packet) RIL_SERVICE_SIM (done_id msg) written (m_RequestWaitList s)).2 ∧
    mTimerList s' = put (ee_now e) (Some p) TIMEOUT_SIM_DEFAULT (erase (Some p) (mTimerList s)) in
  match o with
  | [ActComplete code _] => answered code
  | [ActSend packet msg] => waits packet msg true
  | [ActUnsent packet msg] => if v <? 0 then answered RIL_E_GENERIC_FAILURE else waits packet msg false
  | [] => answered RIL_E_GENERIC_FAILURE
  | _ => False
  end.
Section handed.
Context (e : EngineEnv) (c : bool * list action) (p id : Z) (q : list Z) (rest : list MsgDirection) (s : Service) (m : Message).
Hypothesis Hm : heap s !! p = Some m.
Hypothesis Hid : m_pReqData m = Some id.
Lemma complete_handed code : ∃ s', @run_actions (sim_handlers e c no_handler no_handler) (ee_now e) [AOnRequestComplete code] (handed p id q rest s) = Ok s' ∧
  completed s' = completed s ++ [ {| c_msg := p; c_req := id; c_result := code |} ] ∧ m_pCurReqMsg s' = None ∧ heap s' = delete p (heap s).
Proof.
  cbn [run_actions run_action]. unfold OnRequestComplete, handed. cbn [m_pCurReqMsg set_cur]. erewrite deref_ok by (cbn; exact Hm). cbn [mbind res_bind].
  rewrite Hid. cbn [ContextComplete]. erewrite NotifyNext_some by (cbn; first [reflexivity|exact Hm]). cbn [mbind res_bind]. by eexists.
Qed.
Lemma fail_handed s' : (∃ m', heap s' !! p = Some m' ∧ m_pReqData m' = Some id ∧ <[p:=m']> (heap s) = heap s') → m_pCurReqMsg s' = Some p → completed s' = completed s →
  ∃ s2, (m' ← deref p s'; NotifyNextRequestMessage (UnsetTransaction (ContextComplete p (m_pReqData m') RIL_E_GENERIC_FAILURE s'))) = Ok s2 ∧
  completed s2 = completed s ++ [ {| c_msg := p; c_req := id; c_result := RIL_E_GENERIC_FAILURE |} ] ∧ m_pCurReqMsg s2 = None ∧ heap s2 = delete p (heap s).
Proof.
  intros (m' & Hm' & Hid' & Hh) Hc Hd. rewrite (deref_ok _ _ _ Hm'). cbn [mbind res_bind]. rewrite Hid'. cbn [ContextComplete].
  erewrite NotifyNext_some by (cbn; first [exact Hc|exact Hm']). eexists. split; [done|]. cbn. rewrite Hd, <- Hh, delete_insert_eq. done.
Qed.
(** the packet is held by the request, written or not *)
Lemma send_handed token result written : ∃ s' m', @run_actions (sim_handlers e c no_handler no_handler) (ee_now e) [ASendRequest token TIMEOUT_SIM_DEFAULT result written] (handed p id q rest s) = Ok s' ∧
  heap s' !! p = Some m' ∧ m_pReqData m' = Some id ∧ m_nTimeout m' = TIMEOUT_SIM_DEFAULT ∧ <[p:=m']> (heap s) = heap s' ∧ m_pCurReqMsg s' = Some p ∧
  completed s' = completed s ∧ mTimerList s' = mTimerList s ∧
  m_RequestWaitList s' = (ContextSend token RIL_SERVICE_SIM result written (m_RequestWaitList s)).2.
Proof.
  cbn [run_actions run_action]. unfold SendRequest, handed. cbn [m_pCurReqMsg set_cur]. erewrite modify_ok by (cbn; exact Hm). cbn [mbind res_bind].
  erewrite modify_ok by (cbn; apply lookup_insert_eq). cbn [mbind res_bind]. cbn [m_nServiceId sim_handlers set_heap set_cur Service.SetTransaction set_misc set_queues set_pipe m_RequestWaitList].
  destruct (ContextSend _ _ _ _ _) as [r w]. cbn [mbind res_bind]. eexists. eexists. split; [done|]. cbn. rewrite insert_insert_eq, lookup_insert_eq.
  split_and!; try done.
Qed.
Lemma start_handed s' m' : heap s' !! p = Some m' → m_nTimeout m' = TIMEOUT_SIM_DEFAULT → m_pCurReqMsg s' = Some p →
  StartRequestTimeout (ee_now e) s' = Ok (set_timers (put (ee_now e) (Some p) TIMEOUT_SIM_DEFAULT (erase (Some p) (mTimerList s'))) s').
Proof.
  intros Hm' Ht Hc. unfold StartRequestTimeout. rewrite Hc. rewrite (deref_ok _ _ _ Hm'). cbn [mbind res_bind]. rewrite Ht. cbn [Z.leb Z.compare TIMEOUT_SIM_DEFAULT mbind res_bind].
  rewrite (deref_ok _ _ _ Hm'). cbn [mbind res_bind]. by rewrite Ht.
Qed.
End handed.
Lemma sim_request_effect acc e rest st p ev v s1 o : SimGood acc st → taken_request (engine st) = Some p → contents st !! p = Some ev →
  spoiled (sim st) ev = false → handle ev (ee_sim e) (sim st) = Ok (v, s1, o) →
  ∃ st' id, read_round e REQUEST rest st = Ok st' ∧ (p, id) ∈ acc ∧ sim st' = s1 ∧ request_result e p id v o (engine st) (engine st').
Proof.
  intros HG Ht Hev Hs H. assert (called REQUEST st = Some ev) as Hc by (unfold called; by rewrite Ht). pose proof (called_request _ _ _ HG Hc) as Hq.
  pose proof (reacts ev (ee_sim e) (sim st) Hq _ _ _ H) as Hr. unfold reaction in Hr. rewrite Hs in Hr.
  destruct (round_taken e (calls v o) rest (engine st) p Ht) as (m & id & q & Hm & Hid & Hqu & E).
  assert ((p, id) ∈ acc) as Hacc.
  { destruct HG as [(HS & [Hids _] & Hnd) _]. destruct HS as [ [ [_ HL] _] _].
    destruct (led_req _ _ _ _ _ _ HL p) as (m0 & Hm0 & Hd & _); [left; rewrite Hqu; by left|]. rewrite Hm in Hm0. injection Hm0 as <-.
    apply elem_of_list_to_map_2. rewrite <- (Hids p m Hm Hd). exact Hid. }
  assert (∃ s', @HandleRequest (sim_handlers e (calls v o) no_handler no_handler) (ee_now e) (set_pipe rest (engine st)) = Ok s' ∧ request_result e p id v o (engine st) s') as (s' & E' & Hres).
  { rewrite E. clear E. unfold one_reaction in Hr. pose proof (λ x, complete_handed e (calls v o) p id q rest (engine st) m Hm Hid x) as HC.
    pose proof (λ pk msg w, send_handed e (calls v o) p id q rest (engine st) m Hm Hid (token_of pk) (done_id msg) w) as HS.
    assert (v = 0 ∧ (∃ code a, o = [ActComplete code a]) ∨ v = 0 ∧ (∃ pk msg w, o = [if w : bool then ActSend pk msg else ActUnsent pk msg]) ∨
      v = -1 ∧ (o = [] ∨ ∃ pk msg, o = [ActUnsent pk msg])) as Hr'.
    { destruct Hr as [ [?|[(-> & _ & pk & msg & ->)|(-> & [->|(_ & pk & msg & ->)])] ]|Hr]; [by left|right; left|right; right..|right; left].
      - split; [done|]. by exists pk, msg, true.
      - split; [done|by left].
      - split; [done|right; by eauto].
      - destruct ev as [|qq|?|?| |?| | |?|?|?|?]; try done. destruct qq; try done; destruct Hr as (-> & _ & pk & msg & ->); (split; [done|]); by exists pk, msg, false. }
    clear Hr. destruct Hr' as [(-> & code & a & ->)|[(-> & pk & msg & w & ->)|(-> & [->|(pk & msg & ->)])] ].
    - destruct (HC code) as (s' & Ea & Hd & Hcur & Hh). cbn [calls negb Z.ltb Z.compare fst snd omap list_omap engine_action] in *. rewrite Ea. cbn [mbind res_bind].
      exists s'. unfold StartRequestTimeout. by rewrite Hcur.
    - destruct (HS pk msg w) as (s' & m' & Ea & Hm' & Hid' & Ht' & Hh & Hcur & Hd & Htl & Hw).
      destruct w; cbn [calls negb Z.ltb Z.compare fst snd omap list_omap engine_action] in *; rewrite Ea; cbn [mbind res_bind];
        rewrite (start_handed e p s' m' Hm' Ht' Hcur); (eexists; split; [done|]); cbn; by rewrite Htl.
    - cbn [calls negb Z.ltb Z.compare fst snd omap list_omap run_actions mbind res_bind].
      destruct (fail_handed p id (engine st) (handed p id q rest (engine st))) as (s2 & E2 & H2); [|done|done|].
      + exists m. split; [done|]. split; [done|]. by rewrite insert_id.
      + exists s2. by split.
    - destruct (HS pk msg false) as (s' & m' & Ea & Hm' & Hid' & Ht' & Hh & Hcur & Hd & Htl & Hw).
      cbn [calls negb Z.ltb Z.compare fst snd omap list_omap engine_action] in *; rewrite Ea; cbn [mbind res_bind].
      destruct (fail_handed p id (engine st) s') as (s2 & E2 & H2); [by exists m'|done|done|]. exists s2. by split. }
  unfold read_round, outcome. rewrite Hc, H. cbn [mbind res_bind fst snd dispatch_sim dispatch]. rewrite E'. cbn [mbind res_bind]. by eexists _, id.
Qed.

(** ** The handler that is called is the one the engine calls *)

Lemma request_round_exact e c c' rest s : taken_request s = None →
  @HandleRequest (sim_handlers e c no_handler no_handler) (ee_now e) (set_pipe rest s) = @HandleRequest (sim_handlers e c' no_handler no_handler) (ee_now e) (set_pipe rest s).
Proof.
  unfold taken_request, HandleRequest, reqDeQ. cbn [m_pCurReqMsg set_pipe m_requestQueue]. destruct (m_pCurReqMsg s); [done|].
  destruct (m_requestQueue s) as [|p q]; [done|]. unfold deref. cbn [heap set_queues set_pipe]. destruct (heap s !! p) as [m|]; [|done]. cbn [mbind option_bind res_bind].
  destruct (m_pReqData m) as [id|]; [|done]. cbn [m_nOverallRadioState set_queues set_pipe sim_handlers Service.IsPossibleToPassInRadioUnavailableState Service.IsPossibleToPassInRadioOffState].
  change SimCard.IsPossibleToPassInRadioOffState with SimCard.IsPossibleToPassInRadioUnavailableState. rewrite orb_diag.
  destruct (m_nOverallRadioState s =? RADIO_STATE_UNAVAILABLE), (m_nOverallRadioState s =? RADIO_STATE_OFF); cbn [orb andb]; try done.
  all: cbn [mbind option_bind]; destruct (SimCard.IsPossibleToPassInRadioUnavailableState id); try done.
Qed.
Lemma response_round_exact e c c' rest s : taken_response s = None →
  @HandleResponse (sim_handlers e no_handler c no_handler) (ee_now e) (set_pipe rest s) = @HandleResponse (sim_handlers e no_handler c' no_handler) (ee_now e) (set_pipe rest s).
Proof.
  unfold taken_response, HandleResponse, respDeQ. cbn [set_nr set_misc m_responseQueue set_pipe]. destruct (m_responseQueue s) as [|p q]; [done|].
  unfold deref. cbn [heap set_queues set_pipe set_nr set_misc]. destruct (heap s !! p) as [m|]; [|done]. cbn [mbind option_bind res_bind].
  destruct (m_pModemData m) as [d|]; [|done]. cbn [mbind option_bind]. destruct (md_solicited d); [|intros _; reflexivity].
  cbn [m_pCurReqMsg set_queues set_pipe set_nr set_misc]. destruct (m_pCurReqMsg s) as [cu|]; [|done]. cbn [mbind option_bind res_bind].
  destruct (heap s !! cu) as [mc|]; [|done]. cbn [mbind option_bind res_bind]. by destruct (Service.GetToken mc =? Service.GetToken m).
Qed.
Lemma late_round_exact e c c' s : taken_late s = None →
  @HandleRequestTimeout (sim_handlers e no_handler no_handler c) (ee_now e) s = @HandleRequestTimeout (sim_handlers e no_handler no_handler c') (ee_now e) s.
Proof.
  unfold taken_late, HandleRequestTimeout. destruct (pop (mTimerList s)) as [te l]. cbn [fst]. destruct (msg te) as [p|]; [|by destruct (m_pCurReqMsg s)].
  cbn [m_pCurReqMsg set_timers]. destruct (m_pCurReqMsg s) as [cu|]; [|done]. cbn [mbind option_bind]. destruct (decide (p = cu)) as [->|Hne].
  - unfold deref. cbn [heap set_timers]. rewrite !decide_True by done. destruct (heap s !! cu) as [m|]; [|done]. cbn [mbind option_bind res_bind].
    by destruct (m_pReqData m).
  - by rewrite !decide_False by congruence.
Qed.
(** the two callbacks of a change of the radio state do what one does *)
Lemma notify_twice e s s1 o : NotifyIccidInfo e s = Ok ((), s1, o) → NotifyIccidInfo e s1 = Ok ((), s1, []) ∨ (s1 = s ∧ o = []).
Proof.
  unfold NotifyIccidInfo. destruct (m_pIccidInfo s) as [d|] eqn:E; [destruct (radio_available e) eqn:Er|]; intros [= <- <-]; [left; done|right; done|right; done].
Qed.

(** ** The theorems *)

(** C19: The SIM service in the request engine.  Whatever requests are sent to it,
    whatever the modem answers and however the rounds of the monitor alternate,
    as long as no spoiled request is taken: no round touches a deleted message,
    every request is answered once or still pending, every answer is for a
    request that was sent, and while a request is pending the monitor has a byte
    to read or a time to wait for. *)
Theorem sim_service_safe s0 acc r : sim_reachable s0 acc r →
  ∃ st, r = Ok st ∧ accounts acc (engine st) ∧
    (∀ p, pending (m_requestQueue (engine st)) (m_pCurReqMsg (engine st)) (tq (mTimerList (engine st))) p →
       holds (heap (engine st)) REQUEST p ∧ (m_pipe (engine st) ≠ [] ∨ mTimerList (engine st) ≠ [])).
Proof.
  intros Hr. destruct (sim_reachable_good _ _ _ Hr) as (st & -> & HG & _). exists st. split; [done|]. split; [by apply Good_accounts|].
  intros p Hp. pose proof HG as [ ( [ [_ HL] _] & Ha & Hw & _) _]. split; [by apply (led_req _ _ _ _ _ _ HL)|].
  assert (∀ x, x ∈ tq (mTimerList (engine st)) → mTimerList (engine st) ≠ []) as Hne by (intros x Hx E; rewrite E in Hx; by apply not_elem_of_nil in Hx).
  destruct Hp as [Hp|[Hp|Hp] ]; [|right; by eapply Hne, Ha|right; by eapply Hne].
  destruct (m_pCurReqMsg (engine st)) as [c|] eqn:Hc; [right; by eapply Hne, Ha|]. left. intros E.
  apply (not_elem_of_nil REQUEST). rewrite <- E. apply Hw; [done|]. intros Eq. rewrite Eq in Hp. by apply not_elem_of_nil in Hp.
Qed.

(** C20: A request to the SIM service that is not spoiled, from the queue to its reaction,
    when its handler comes to an end.  The round that
    takes it tells the application the answer of its handler, under the
    identifier of the request, and forgets the message; or keeps it as the
    current request, with the token of its packet in the history and thirty
    seconds in the timer list; or, when the handler failed, answers a general
    failure.  What becomes of a spoiled request is the next theorem. *)
Theorem sim_request_round s0 acc e rest st p ev v s1 o :
  sim_reachable s0 acc (Ok st) → m_pipe (engine st) = REQUEST :: rest → taken_request (engine st) = Some p → contents st !! p = Some ev →
  spoiled (sim st) ev = false → handle ev (ee_sim e) (sim st) = Ok (v, s1, o) →
  ∃ st' id, read_round e REQUEST rest st = Ok st' ∧ (p, id) ∈ acc ∧ sim st' = s1 ∧ request_result e p id v o (engine st) (engine st').
Proof.
  intros Hr _ Ht Hev Hs H. destruct (sim_reachable_good _ _ _ Hr) as (st1 & [= <-] & HG). by eapply sim_request_effect.
Qed.

(** C21: A spoiled request makes the engine read freed memory.  The handlers of the
    ISIM authentication without a card, of an authentication in a context that is
    not supported, of carrier restrictions and of a slot mapping of no or more
    than four entries answer the request, which deletes it, and fail, after which
    the engine reads it: no run survives the round. *)
Theorem spoiled_request_use_after_free s0 acc e rest st ev t :
  sim_reachable s0 acc (Ok st) → m_pipe (engine st) = REQUEST :: rest → called REQUEST st = Some ev → spoiled (sim st) ev = true →
  handle ev (ee_sim e) (sim st) = Ok t → read_round e REQUEST rest st = UB.
Proof.
  intros Hr _ Hc Hs H. destruct (sim_reachable_good _ _ _ Hr) as (st1 & [= <-] & HG). pose proof (called_request _ _ _ HG Hc) as Hq.
  destruct t as [ [v s1] o]. destruct (spoiled_calls _ _ _ _ _ _ Hq Hs H) as (code & Ec). unfold read_round, outcome. rewrite Hc, H. cbn [mbind res_bind fst snd].
  rewrite Ec. apply bind_Some in Hc as (p & Ht & Hev). destruct (round_taken e (false, [AOnRequestComplete code]) rest (engine st) p Ht) as (m & id & q & Hm & Hid & _ & E).
  cbn [dispatch_sim dispatch]. rewrite E. cbn [fst snd negb].
  destruct (complete_handed e (false, [AOnRequestComplete code]) p id q rest (engine st) m Hm Hid code) as (s' & Ea & _ & _ & Hh). rewrite Ea. cbn [mbind res_bind].
  unfold deref. by rewrite Hh, lookup_delete_eq.
Qed.

(** *** Runs *)

Definition sim_env : EngineEnv := {| ee_sim := plain_env true true; ee_radio := RADIO_STATE_ON; ee_uicc := 1; ee_now := clock 100 |}.
Definition pin_sim : SimService := set_keys PROP_AUTO_VERIFY_PIN_0 PROP_AUTO_PIN_0_BY_PANIC (newSimService ∅ 5).
Definition the_process (r : res SimProcess) : SimProcess := match r with Ok st => st | _ => newSimProcess pin_sim end.
(** a service, one request put in its queue *)
Definition with_request (s : SimService) (msgId req : Z) (ev : SimEvent) : SimProcess :=
  the_process (post_message 10 (RequestMessage msgId req) (Some ev) (newSimProcess s)).
Lemma with_request_reachable s msgId req ev : is_request ev = true → sim_reachable s [(10, req)] (Ok (with_request s msgId req ev)).
Proof.
  intros Hq. apply (sim_more s [] (newSimProcess s) [(10, req)]); [constructor|].
  change (Ok (with_request s msgId req ev)) with (post_message 10 (RequestMessage msgId req) (Some ev) (newSimProcess s)).
  apply (sim_post 10 (RequestMessage msgId req) (Some ev) [] (newSimProcess s)); [by eexists|exact Hq|done|]. by intros ?%not_elem_of_nil.
Qed.
Definition ends_well {A} (r : res A) : bool := match r with Ok _ => true | _ => false end.
Lemma ends_well_ok {A} (r : res A) : ends_well r = true → ∃ t, r = Ok t.
Proof. destruct r as [a| |]; [by exists a|done|done]. Qed.
Definition short_pin : SimEvent := EvRequest MSG_SIM_VERIFY_PIN (sim_request [Some (str "12"); None]).
Definition good_pin : SimEvent := EvRequest MSG_SIM_VERIFY_PIN (sim_request [Some (str "1234"); None]).
(** the state behind the round that sends the PIN *)
Definition pin_sent : SimProcess := Eval vm_compute in the_process (read_round sim_env REQUEST [] (with_request pin_sim 2003 RIL_REQUEST_ENTER_SIM_PIN good_pin)).
Lemma pin_sent_reachable : sim_reachable pin_sim [(10, RIL_REQUEST_ENTER_SIM_PIN)] (Ok pin_sent).
Proof.
  set (st := with_request pin_sim 2003 RIL_REQUEST_ENTER_SIM_PIN good_pin). apply (sim_more pin_sim [(10, RIL_REQUEST_ENTER_SIM_PIN)] st); [by apply with_request_reachable|].
  replace (Ok pin_sent) with (read_round sim_env REQUEST [] st) by (vm_compute; reflexivity).
  destruct (ends_well_ok (outcome sim_env (called REQUEST st) (sim st))) as [t E]; [by vm_compute|]. by apply (sim_read sim_env REQUEST [] _ st t).
Qed.
Lemma sim_service_safe_witness :
  ∃ st, (Ok pin_sent : res SimProcess) = Ok st ∧ accounts [(10, RIL_REQUEST_ENTER_SIM_PIN)] (engine st) ∧
    (∀ p, pending (m_requestQueue (engine st)) (m_pCurReqMsg (engine st)) (tq (mTimerList (engine st))) p →
       holds (heap (engine st)) REQUEST p ∧ (m_pipe (engine st) ≠ [] ∨ mTimerList (engine st) ≠ [])).
Proof. exact (sim_service_safe pin_sim [(10, RIL_REQUEST_ENTER_SIM_PIN)] (Ok pin_sent) pin_sent_reachable). Defined.
Lemma sim_request_round_witness :
  ∃ st' id, read_round sim_env REQUEST [] (with_request pin_sim 2003 RIL_REQUEST_ENTER_SIM_PIN short_pin) = Ok st' ∧ (10, id) ∈ [(10, RIL_REQUEST_ENTER_SIM_PIN)] ∧
    sim st' = pin_sim ∧
    request_result sim_env 10 id 0 [ActComplete RIL_E_PASSWORD_INCORRECT (AnsInts (SetInt 0 (-1) (newRilDataInts 1)).2)]
      (engine (with_request pin_sim 2003 RIL_REQUEST_ENTER_SIM_PIN short_pin)) (engine st').
Proof.
  apply (sim_request_round pin_sim [(10, RIL_REQUEST_ENTER_SIM_PIN)] sim_env [] (with_request pin_sim 2003 RIL_REQUEST_ENTER_SIM_PIN short_pin) 10 short_pin);
    [by apply with_request_reachable|by vm_compute..].
Defined.
Definition absent_card : SimService := set_sim SIM_CARDSTATE_ABSENT (-1, -1) (-1, -1) None (-1) 5 pin_sim.
Lemma spoiled_request_use_after_free_witness :
  let ev := EvCard (MSG_SIM_GET_ISIM_AUTH None) in
  read_round sim_env REQUEST [] (with_request absent_card 2023 RIL_REQUEST_ISIM_AUTHENTICATION ev) = UB.
Proof.
  intros ev. destruct (ends_well_ok (handle ev (ee_sim sim_env) (sim (with_request absent_card 2023 RIL_REQUEST_ISIM_AUTHENTICATION ev)))) as [t E]; [by vm_compute|].
  apply (spoiled_request_use_after_free absent_card [(10, RIL_REQUEST_ISIM_AUTHENTICATION)] sim_env [] _ ev t); [by apply with_request_reachable|done|done|done|exact E].
Defined.

(** ** A flaw *)

(** The times the status handler sets while the reason of the boot is not known, and before the PIN kept for a panic is tried, change the
    message and not the timer list, which was written when the packet was sent: nothing happens before the thirty seconds are over. *)
Definition status_sent : SimProcess := the_process (read_round sim_env REQUEST [] (with_request pin_sim 2001 RIL_REQUEST_GET_SIM_STATUS (EvRequest MSG_SIM_GET_STATUS None))).
Definition status_told (m : ModemData) : SimProcess :=
  the_process (post_message 11 (ModemMessage 2002 (Some m)) (Some (EvDone MSG_SIM_GET_STATUS_DONE None (Some example_status))) status_sent).
Lemma short_timeout_not_armed :
  let token := match heap (engine status_sent) !! 10 with Some m => Service.GetToken m | None => 0 end in
  let before := status_told {| md_token := token; md_solicited := true; md_unsolicited := false |} in
  let after := the_process (read_round sim_env RESPONSE [] before) in
  (m_nTimeout <$> heap (engine after) !! 10) = Some 2000 ∧ m_pCurReqMsg (engine after) = Some 10 ∧
  ((λ t, us (timeout t)) <$> mTimerList (engine after)) = [130 * 1000000] ∧ completed (engine after) = [].
Proof. vm_compute. repeat split. Qed.
