(* ===== verification/Context.v ===== *)
(** The RIL context, which connects the services with the modem and with the
    RIL application: [rilcontextwrapper.cpp] and the routing of
    [core/servicemgr.cpp].

    The context owns the services (a [std::map], here the list of its pairs in
    the order of the keys), the routing tables, the history of requests that
    wait for an answer, and the states of modem, radio, data calls and
    registration.  Every service is the state of [Service.v]; it works on the
    context's history, so the history is handed to it for each operation and
    taken back ([run_service]).

    Memory: every message gets an address that was never used before, and each
    service has its own heap; a message sent to all services has the same
    address in each.  The requests [IsAsyncMessage] selects are handed to the
    asynchronous part of the service, which is not modelled, and only counted.
    The property store of the context, which [SetCardStatus] and the
    registration results also write, is not modelled, nor is the log; what
    [ProcessImsi] reads of it comes with the answer. *)
From stdpp Require Import gmap.
From S2P Require Import Prelude RilDef Timers WaitList Rcm NetState Service.

(** ** Routing tables *)

(** identifier to service and message, both [UINT] *)
Abbreviation RouteMap := (gmap Z (Z * Z)).
Record Routes := {
  s_RilRequestServiceMap : RouteMap; s_RilOemRequestServiceMap : RouteMap; s_ProtocolServiceMap : RouteMap;
  s_AsyncMsgMap : gmap Z Z
}.
Definition RIL_REQUEST_OEM_HOOK_RAW : Z := 59.
Definition RIL_OEM_REQUEST_BASE : Z := 10000.

(** [find] and the two assignments; what is not found leaves -1 and 0 *)
Definition lookup_route (m : RouteMap) (id : Z) : Z * Z :=
  match m !! id with Some (svc, msg) => (i32 svc, i32 msg) | None => (-1, 0) end.
(** result, service, message *)
Definition routed (r : Z * Z) : Z * Z * Z := (if (0 <? r.1) && (0 <? r.2) then 0 else -1, r.1, r.2).
(** [OemHookRawRequestData] replaces its request identifier by the OEM identifier when it is parsed *)
Definition RouteOemRequest (requestId : Z) (r : Routes) : Z * Z * Z := routed (lookup_route (s_RilOemRequestServiceMap r) requestId).
Definition RouteRequest (requestId : Z) (r : Routes) : Z * Z * Z :=
  if requestId <=? 0 then (-1, -1, 0)
  else if requestId =? RIL_REQUEST_OEM_HOOK_RAW then RouteOemRequest requestId r
  else if RIL_OEM_REQUEST_BASE <=? requestId then routed (lookup_route (s_RilOemRequestServiceMap r) requestId)
  else routed (lookup_route (s_RilRequestServiceMap r) requestId).
(** the overload for an identifier does not check what it found *)
Definition RouteRequestId (requestId : Z) (r : Routes) : Z * Z * Z :=
  if requestId <=? 0 then (-1, -1, 0)
  else let '(svc, msg) := lookup_route (s_RilRequestServiceMap r) requestId in (0, svc, msg).
Definition RouteProtocolInd (nId : Z) (r : Routes) : Z * Z * Z := routed (lookup_route (s_ProtocolServiceMap r) nId).

Definition set_map (id svc msg : Z) (m : RouteMap) : RouteMap :=
  match m !! id with
  | None => <[id := (u32 svc, u32 msg)]> m
  | Some _ => <[id := (u32 svc, u32 msg)]> m
  end.
Definition SetRequestMap (id svc msg : Z) (r : Routes) : Routes :=
  {| s_RilRequestServiceMap := set_map id svc msg (s_RilRequestServiceMap r); s_RilOemRequestServiceMap := s_RilOemRequestServiceMap r;
     s_ProtocolServiceMap := s_ProtocolServiceMap r; s_AsyncMsgMap := s_AsyncMsgMap r |}.
Definition SetOemRequestMap (id svc msg : Z) (r : Routes) : Routes :=
  {| s_RilRequestServiceMap := s_RilRequestServiceMap r; s_RilOemRequestServiceMap := set_map id svc msg (s_RilOemRequestServiceMap r);
     s_ProtocolServiceMap := s_ProtocolServiceMap r; s_AsyncMsgMap := s_AsyncMsgMap r |}.
Definition SetProtocolIndMap (id svc msg : Z) (r : Routes) : Routes :=
  {| s_RilRequestServiceMap := s_RilRequestServiceMap r; s_RilOemRequestServiceMap := s_RilOemRequestServiceMap r;
     s_ProtocolServiceMap := set_map id svc msg (s_ProtocolServiceMap r); s_AsyncMsgMap := s_AsyncMsgMap r |}.
Definition IsAsyncMessage (nServiceId nMessageId : Z) (r : Routes) : bool :=
  match s_AsyncMsgMap r !! nMessageId with Some svc => svc =? u32 nServiceId | None => false end.

(** ** The context *)


Record Context := {
  m_mapServiceMap : list (Z * Service);
  routes : Routes;
  history : WaitList;
  modemState : Z;
  m_RadioState : Z;
  m_bDataCallStateArray : list bool;
  mServiceState : ServiceState;
  next_address : Z;
  (** requests the context answers itself (request, result), and those handed to the asynchronous part *)
  rejected : list (Z * Z);
  handed_async : list Z
}.

Definition set_services l c := {| m_mapServiceMap := l; routes := routes c; history := history c; modemState := modemState c;
  m_RadioState := m_RadioState c; m_bDataCallStateArray := m_bDataCallStateArray c; mServiceState := mServiceState c;
  next_address := next_address c; rejected := rejected c; handed_async := handed_async c |}.
Definition set_history w c := {| m_mapServiceMap := m_mapServiceMap c; routes := routes c; history := w; modemState := modemState c;
  m_RadioState := m_RadioState c; m_bDataCallStateArray := m_bDataCallStateArray c; mServiceState := mServiceState c;
  next_address := next_address c; rejected := rejected c; handed_async := handed_async c |}.
Definition set_states m r d ss c := {| m_mapServiceMap := m_mapServiceMap c; routes := routes c; history := history c; modemState := m;
  m_RadioState := r; m_bDataCallStateArray := d; mServiceState := ss;
  next_address := next_address c; rejected := rejected c; handed_async := handed_async c |}.
Definition set_log n r h c := {| m_mapServiceMap := m_mapServiceMap c; routes := routes c; history := history c; modemState := modemState c;
  m_RadioState := m_RadioState c; m_bDataCallStateArray := m_bDataCallStateArray c; mServiceState := mServiceState c;
  next_address := n; rejected := r; handed_async := h |}.
Definition set_modem m c := set_states m (m_RadioState c) (m_bDataCallStateArray c) (mServiceState c) c.
Definition set_calls d c := set_states (modemState c) (m_RadioState c) d (mServiceState c) c.
Definition set_service_state ss c := set_states (modemState c) (m_RadioState c) (m_bDataCallStateArray c) ss c.
(** [new Message] *)
Definition new_address (c : Context) : Z * Context := (next_address c, set_log (next_address c + 1) (rejected c) (handed_async c) c).

(** [std::map]: [find], and assignment through [operator[]] *)
Fixpoint find (id : Z) (l : list (Z * Service)) : option Service :=
  match l with [] => None | (i, s) :: l => if id =? i then Some s else find id l end.
Fixpoint assign (id : Z) (s : Service) (l : list (Z * Service)) : list (Z * Service) :=
  match l with
  | [] => [(id, s)]
  | (i, x) :: l => if id =? i then (id, s) :: l else if id <? i then (id, s) :: (i, x) :: l else (i, x) :: assign id s l
  end.
Definition FindService (nServiceId : Z) (c : Context) : option Service := find nServiceId (m_mapServiceMap c).
(** a service that was there is finalized and deleted *)
Definition AddService (nServiceId : Z) (s : Service) (c : Context) : Z * Context :=
  if nServiceId <=? 0 then (-1, c) else (0, set_services (assign nServiceId s (m_mapServiceMap c)) c).

(** an operation of service [id], on the history of the context *)
Definition run_service (id : Z) (f : Service → res Service) (c : Context) : res Context :=
  match FindService id c with
  | None => Ok c
  | Some s =>
    s' ← f (set_wait (history c) s);
    Ok (set_history (m_RequestWaitList s') (set_services (assign id s' (m_mapServiceMap c)) c))
  end.

(** ** Sending messages *)

(** [ServiceMgr::SendMessage] of the message [m] at address [p] for service [id] *)
Definition MgrSendMessage (id p : Z) (m : Message) (c : Context) : res (Z * Context) :=
  match FindService id c with
  | None => Ok (-1, c)
  | Some s => s' ← SendMessage p m s; Ok (0, set_services (assign id s' (m_mapServiceMap c)) c)
  end.

(** [BroadcastSystemMessage]: a clone for every service *)
Fixpoint send_all (p : Z) (m : Message) (l : list (Z * Service)) : res (list (Z * Service)) :=
  match l with
  | [] => Ok []
  | (id, s) :: l => s' ← SendMessage p m s; l' ← send_all p m l; Ok ((id, s') :: l')
  end.
Definition BroadcastSystemMessage (messageId : Z) (data : option (list Z)) (c : Context) : res Context :=
  let '(p, c) := new_address c in
  l ← send_all p (SystemMessage messageId data) (m_mapServiceMap c);
  Ok (set_services l c).

(** [SendMessage] of request data.  When the service is not there, the message
    is deleted with the request data, which [OnRequestComplete] then reads. *)
Definition SendRequestData (requestId : Z) (c : Context) : res (Z * Context) :=
  let '(ret, nServiceId, nMessageId) := RouteRequest requestId (routes c) in
  if ret <? 0 then Ok (-1, c)
  else
    let '(p, c) := new_address c in
    if IsAsyncMessage nServiceId nMessageId (routes c)
    then
      match FindService nServiceId c with
      | None => UB
      | Some _ => Ok (0, set_log (next_address c) (rejected c) (handed_async c ++ [requestId]) c)
      end
    else
      '(r, c) ← MgrSendMessage nServiceId p (RequestMessage nMessageId requestId) c;
      if r <? 0 then UB else Ok (0, c).

(** a response or an indication of the modem, as the message carries it *)
Definition modem_data (raw : list Z) : res ModemData :=
  token ← Rcm.GetToken (Some raw);
  sol ← IsSolicitedResponse (Some raw);
  unsol ← IsUnsolicitedResponse (Some raw);
  Ok {| md_token := token; md_solicited := sol; md_unsolicited := unsol |}.
(** [SendMessage] of modem data; a message no service takes is deleted *)
Definition SendModemData (raw : list Z) (c : Context) : res (Z * Context) :=
  d ← modem_data raw;
  '(ret, nServiceId, nMessageId, c) ←
    (if md_solicited d
     then
       let record := Find (md_token d) (history c) in
       let '(svc, msg) := if IsValid record then (i32 (m_nDestServiceId record), i32 (m_nResult record)) else (-1, 0) in
       Ok (0, svc, msg, set_history (Remove (md_token d) (history c)) c)
     else if md_unsolicited d
     then id ← GetId (Some raw); let '(ret, svc, msg) := RouteProtocolInd id (routes c) in Ok (ret, svc, msg, c)
     else Ok (-1, -1, 0, c));
  if ret <? 0 then Ok (-1, c)
  else
    let '(p, c) := new_address c in
    '(_, c) ← MgrSendMessage nServiceId p (ModemMessage nMessageId (Some d)) c;
    Ok (0, c).
(** the frame is freed when it is not taken *)
Definition ProcessModemData (data : list Z) (c : Context) : res Context :=
  match data with [] => Ok c | _ => '(_, c) ← SendModemData data c; Ok c end.

(** [OnRequest] for a request that [parse], the request parser, turns into request data *)
Definition OnRequest (parse : Z → list Z → option Z) (request : Z) (data : list Z) (c : Context) : res Context :=
  let reject c := set_log (next_address c) (rejected c ++ [(request, RIL_E_REQUEST_NOT_SUPPORTED)]) (handed_async c) c in
  if request <? 0 then Ok (reject c)
  else
    match parse request data with
    | None => Ok (reject c)
    | Some requestId => '(r, c) ← SendRequestData requestId c; Ok (if r <? 0 then reject c else c)
    end.

(** ** States *)

(** on [MS_CRASH_EXIT] the reader thread is stopped as well *)
Definition OnModemStateChanged (state : Z) (c : Context) : res Context :=
  let oldState := modemState c in
  let c := set_modem state c in
  if oldState =? state then Ok c
  else
    c ← BroadcastSystemMessage MSG_SYSTEM_MODEM_STATE_CHANGED (Some [state]) c;
    if (oldState =? MS_ONLINE) && negb (state =? MS_ONLINE)
    then BroadcastSystemMessage MSG_SYSTEM_RESET None c
    else Ok c.

Definition SetContextRadioState (radioState : Z) (c : Context) : Context :=
  if (radioState =? RADIO_STATE_UNAVAILABLE) || (radioState =? RADIO_STATE_OFF)
  then set_states (modemState c) radioState (m_bDataCallStateArray c) nullState c
  else if radioState =? RADIO_STATE_ON
  then set_states (modemState c) radioState (m_bDataCallStateArray c) (mServiceState c) c
  else c.

(** an unsolicited response of a service: the radio state, the data calls
    (identifier and activity of each), anything else *)
Inductive Unsolicited := URadioState (state : Z) | UDataCallList (calls : list (Z * Z)) | UOther.

(** [abDataState[pDataCall[i].cid] = ...], for every call *)
Fixpoint mark_calls (calls : list (Z * Z)) (ab : list bool) : res (list bool) :=
  match calls with
  | [] => Ok ab
  | (cid, active) :: calls => ab ← ab.[cid <- negb (active =? 0)]; mark_calls calls ab
  end.
(** compare and broadcast, for one identifier *)
Definition diff_call (ab : list bool) (i : Z) (c : Context) : res Context :=
  old ← (m_bDataCallStateArray c).[i];
  new ← ab.[i];
  if eqb old new then Ok c
  else
    arr ← (m_bDataCallStateArray c).[i <- new];
    BroadcastSystemMessage MSG_SYSTEM_DATA_CALL_STATE_CHANGED (Some [i; if new then 1 else 0]) (set_calls arr c).
Definition ProcessUnsolicitedResponse (u : Unsolicited) (c : Context) : res Context :=
  match u with
  | URadioState radioState => Ok (if m_RadioState c =? radioState then c else SetContextRadioState radioState c)
  | UDataCallList calls =>
    ab ← mark_calls calls (fill (MAX_DATA_CALL_SIZE * 2 + 1) false);
    for_up (Z.to_nat (MAX_DATA_CALL_SIZE * 2)) 1 (diff_call ab) c
  | UOther => Ok c
  end.

(** [ProcessNetworkServiceState]: the new state is stored after the broadcasts *)
Definition ProcessNetworkServiceState (requestId : Z) (a : NetAnswer) (c : Context) : res Context :=
  let newState := newServiceState requestId a (mServiceState c) in
  let '(hasVoiceRegStateChanged, hasDataRegStateChanged, hasChanged) := changes requestId (mServiceState c) newState in
  c ← (if hasVoiceRegStateChanged
       then BroadcastSystemMessage MSG_SYSTEM_VOICE_REGISTRTION_STATE_CHANGED (Some [mVoiceRegState newState]) c else Ok c);
  c ← (if hasDataRegStateChanged
       then BroadcastSystemMessage MSG_SYSTEM_DATA_REGISTRTION_STATE_CHANGED (Some [mDataRegState newState]) c else Ok c);
  c ← (if hasChanged : bool then BroadcastSystemMessage MSG_SYSTEM_SERVICE_TATE_CHANGED None c else Ok c);
  Ok (set_service_state newState c).

(** [ProcessIccCardStatus] of a card state, the index of the GSM/UMTS application, and the states of the eight applications *)
Definition RIL_CARD_MAX_APPS : Z := 8.
Definition ProcessIccCardStatus (card_state gsm_umts_index : Z) (app_states : list Z) (c : Context) : res Context :=
  app ← (if 0 <=? gsm_umts_index then app_states.[gsm_umts_index] else Ok (-1));
  BroadcastSystemMessage MSG_SYSTEM_SIM_STATUS_CHANGED (Some [card_state; app]) c.

(** [ProcessImsi] of an identity, with the identifier of the application and the identity that the property store has; [texts] are the numbers
    by which the message knows these two texts *)
Definition ProcessImsi (imsi gsmUmtsAid gsmUmtsImsi : list Z) (texts : Z * Z) (c : Context) : res Context :=
  if negb (bool_decide (gsmUmtsAid = [])) && negb (bool_decide (gsmUmtsImsi = [])) && bool_decide (gsmUmtsImsi = imsi)
  then BroadcastSystemMessage MSG_SYSTEM_IMSI_UPDATED (Some [texts.1; texts.2]) c
  else Ok c.

(** the data of a successful answer *)
Inductive Answer :=
| AnswerNet (requestId : Z) (a : NetAnswer)
| AnswerCard (card_state gsm_umts_index : Z) (app_states : list Z)
| AnswerImsi (imsi gsmUmtsAid gsmUmtsImsi : list Z) (texts : Z * Z)
| AnswerOther.
Definition ProcessSolicitedResponse (a : Answer) (c : Context) : res Context :=
  match a with
  | AnswerNet requestId n =>
    if decide (requestId ∈ [RIL_REQUEST_OPERATOR; RIL_REQUEST_DATA_REGISTRATION_STATE; RIL_REQUEST_VOICE_REGISTRATION_STATE;
                            RIL_REQUEST_QUERY_NETWORK_SELECTION_MODE])
    then ProcessNetworkServiceState requestId n c else Ok c
  | AnswerCard card gsm apps => ProcessIccCardStatus card gsm apps c
  | AnswerImsi imsi aid gsm texts => ProcessImsi imsi aid gsm texts c
  | AnswerOther => Ok c
  end.

(** a context whose services have been created, with its routing tables *)
Definition newContext (ids : list Z) (r : Routes) : Context :=
  {| m_mapServiceMap := foldr (λ id, assign id newService) [] ids; routes := r; history := newWaitList; modemState := MS_OFFLINE;
     m_RadioState := RADIO_STATE_UNAVAILABLE; m_bDataCallStateArray := fill (MAX_DATA_CALL_SIZE * 2 + 1) false;
     mServiceState := nullState; next_address := 0; rejected := []; handed_async := [] |}.
