(* ===== verification/ContextTheorems.v ===== *)
(** The theorems about a running context: the services inside it are the
    services of [ServiceTheorems.v], responses reach the service that asked,
    system messages reach every service once, and the states of the context
    and what is broadcast about them agree. *)
From stdpp Require Import gmap.
From S2P Require Import Prelude RilDef Timers WaitList Network Rcm NetState Service ServiceProofs ServiceTheorems Context.

(** ** The map of services *)

Lemma find_assign id id' s l : find id' (assign id s l) = if id' =? id then Some s else find id' l.
Proof.
  induction l as [|[i x] l IH]; cbn; [by destruct (id' =? id)|].
  destruct (Z.eqb_spec id i) as [->|Hi]; cbn.
  - by destruct (Z.eqb_spec id' i).
  - destruct (Z.ltb_spec id i); cbn; [by destruct (Z.eqb_spec id' id)|]. rewrite IH.
    destruct (Z.eqb_spec id' i), (Z.eqb_spec id' id); try done; congruence.
Qed.
Lemma find_foldr ids id : find id (foldr (λ id, assign id newService) [] ids) = if decide (id ∈ ids) then Some newService else None.
Proof.
  induction ids as [|i ids IH]; cbn [foldr].
  - by rewrite decide_False by apply not_elem_of_nil.
  - rewrite find_assign, IH. destruct (Z.eqb_spec id i) as [->|Hi].
    + by rewrite decide_True by left.
    + by destruct (decide (id ∈ ids)) as [Hin|Hin]; [rewrite decide_True by (by right)|rewrite decide_False by (by intros [?|?]%elem_of_cons)].
Qed.

(** ** Runs of a context

    [handlers] gives every service its virtual methods.  The environment does
    what it documents: frames hold a header, data call identifiers fit the
    table, the index of the SIM application is below [RIL_CARD_MAX_APPS]. *)
Definition call_ok (x : Z * Z) : Prop := 0 <= x.1 <= MAX_DATA_CALL_SIZE * 2.
Definition unsol_ok (u : Unsolicited) : Prop := match u with UDataCallList calls => Forall call_ok calls | _ => True end.
Definition answer_ok (a : Answer) : Prop :=
  match a with AnswerCard _ gsm apps => gsm < RIL_CARD_MAX_APPS ∧ lenZ apps = RIL_CARD_MAX_APPS | _ => True end.
(** every routed request has its service *)
Definition routes_ok (c : Context) : Prop :=
  ∀ requestId svc msg, RouteRequest requestId (routes c) = (0, svc, msg) → is_Some (FindService svc c).

Section runs.
Variable handlers : Z → ServiceHandlers.

Inductive cx_step : Context → res Context → Prop :=
| cx_request parse request data c : cx_step c (OnRequest parse request data c)
| cx_frame raw c : raw = [] ∨ sizeof_RCM_HEADER <= lenZ raw → cx_step c (ProcessModemData raw c)
| cx_read id now d rest s c :
    FindService id c = Some s → m_pipe s = d :: rest →
    cx_step c (run_service id (λ s, dispatch (H := handlers id) now d (set_pipe rest s)) c)
| cx_timeout id now s c :
    FindService id c = Some s → mTimerList s ≠ [] → cx_step c (run_service id (HandleRequestTimeout (H := handlers id) now) c)
| cx_modem state c : cx_step c (OnModemStateChanged state c)
| cx_unsolicited u c : unsol_ok u → cx_step c (ProcessUnsolicitedResponse u c)
| cx_answer a c : answer_ok a → cx_step c (ProcessSolicitedResponse a c).

Inductive cx_reachable (c0 : Context) : res Context → Prop :=
| cx_new : cx_reachable c0 (Ok c0)
| cx_next c r : cx_reachable c0 (Ok c) → cx_step c r → cx_reachable c0 r.
End runs.

(** ** The invariant *)

(** a service of a context: reachable on its own, and its messages at addresses that were given out *)
Definition lives `{ServiceHandlers} (acc : list (Z * Z)) (next : Z) (s : Service) : Prop :=
  reachable acc (Ok s) ∧ (∀ p, next <= p → heap s !! p = None) ∧ Forall (λ x, x.1 < next) acc.
Definition all_live (handlers : Z → ServiceHandlers) (next : Z) (l : list (Z * Service)) : Prop :=
  Forall (λ x, ∃ acc, lives (H := handlers x.1) acc next x.2) l.
Definition Cx (handlers : Z → ServiceHandlers) (c : Context) : Prop :=
  all_live handlers (next_address c) (m_mapServiceMap c) ∧
  routes_ok c ∧ lenZ (m_bDataCallStateArray c) = MAX_DATA_CALL_SIZE * 2 + 1 ∧ state_wf (mServiceState c).

Section living.
Context `{HandlerContract}.

Lemma lives_later acc n n' s : lives acc n s → n <= n' → lives acc n' s.
Proof.
  intros (Hr & Hh & Ha) Hn. split; [done|]. split; [intros p Hp; apply Hh; lia|]. eapply Forall_impl; [exact Ha|]. cbn. lia.
Qed.
Lemma lives_new n : lives [] n newService.
Proof. split; [constructor|]. split; [|constructor]. intros p _. apply lookup_empty. Qed.

(** a message is sent at the next address *)
Lemma lives_send acc p m s :
  lives acc p s → message_ok m → ∃ s', SendMessage p m s = Ok s' ∧ lives (accept p m acc) (p + 1) s' ∧
    heap s' = <[p := m]> (heap s) ∧ completed s' = completed s.
Proof.
  intros (Hr & Hh & Ha) Hm. assert (Hp : heap s !! p = None) by (apply Hh; lia).
  assert (Hnew : p ∉ acc.*1).
  { intros (x & -> & Hx)%list_elem_of_fmap. rewrite Forall_forall in Ha. specialize (Ha x Hx). lia. }
  destruct (reachable_good _ _ Hr) as (s0 & [= <-] & HG).
  destruct (SendMessage_ok acc p m s HG Hm Hp Hnew) as (s' & E & _ & Hc). exists s'. split; [done|].
  assert (Hheap : heap s' = <[p := m]> (heap s)).
  { revert E. unfold SendMessage, EnQueue. set (s1 := set_heap _ s). assert (heap s1 !! p = Some m) as E1 by apply lookup_insert_eq.
    rewrite (deref_ok p m s1) by done. cbn [mbind res_bind]. erewrite deref_ok by (destruct (m_nDirection m); exact E1).
    cbn [mbind res_bind]. intros [= <-]. by destruct (m_nDirection m). }
  split; [|done]. split; [|split].
  - eapply reachable_step; [exact Hr|]. rewrite <- E. by apply step_send.
  - intros q Hq. rewrite Hheap, lookup_insert_ne by lia. apply Hh. lia.
  - assert (Forall (λ x, x.1 < p + 1) acc) as Ha' by (eapply Forall_impl; [exact Ha|]; cbn; lia).
    unfold accept. destruct (m_nDirection m), (m_pReqData m); try done. constructor; [cbn; lia|done].
Qed.

(** an operation of the service itself *)
Lemma lives_step acc n s w s' :
  lives acc n s → step acc (set_wait w s) acc (Ok s') → log (set_wait w s) s' → lives acc n s'.
Proof.
  intros (Hr & Hh & Ha) Hs (_ & _ & Hd). split; [|split; [|done] ].
  - eapply reachable_step; [|exact Hs]. eapply reachable_step; [exact Hr|apply step_history].
  - intros p Hp. apply Hd. cbn. by apply Hh.
Qed.
End living.

Section invariant.
Variable handlers : Z → ServiceHandlers.
Hypothesis contracts : ∀ id, HandlerContract (H := handlers id).

Lemma all_live_find n l id s : all_live handlers n l → find id l = Some s → ∃ acc, lives (H := handlers id) acc n s.
Proof.
  induction 1 as [|[i x] l Hx Hl IH]; cbn; [done|]. destruct (Z.eqb_spec id i) as [->|]; [by intros [= <-]|done].
Qed.
Lemma all_live_assign n l id s acc : all_live handlers n l → lives (H := handlers id) acc n s → all_live handlers n (assign id s l).
Proof.
  intros Hl Hs. assert (∃ acc, lives (H := handlers id) acc n s) as Hx by eauto.
  induction Hl as [|[i x] l Hi Hl IH]; cbn; [by constructor|].
  destruct (id =? i); [by constructor|]. destruct (id <? i); [by repeat constructor|by constructor].
Qed.
Lemma all_live_later n n' l : all_live handlers n l → n <= n' → all_live handlers n' l.
Proof.
  intros Hl Hn. eapply Forall_impl; [exact Hl|]. intros [i x] (acc & Ha). exists acc. by eapply (lives_later (H := handlers i)).
Qed.
Lemma find_send_all p m l l' : send_all p m l = Ok l' → ∀ id,
  match find id l with None => find id l' = None | Some s => ∃ s', SendMessage p m s = Ok s' ∧ find id l' = Some s' end.
Proof.
  revert l'. induction l as [|[i s] l IH]; intros l' E id; cbn [send_all] in E; [by injection E as <-|].
  apply bind_ok in E as (s' & Es & E). apply bind_ok in E as (l1 & El & E). injection E as <-. cbn.
  destruct (id =? i); [by exists s'|]. by apply IH.
Qed.
Lemma send_all_ok p m l :
  message_ok m → all_live handlers p l → ∃ l', send_all p m l = Ok l' ∧ all_live handlers (p + 1) l'.
Proof.
  intros Hm. induction 1 as [|[i s] l (acc & Hi) Hl IH]; cbn [send_all]; [by exists []; split; [|constructor]|].
  destruct (lives_send (H := handlers i) acc p m s Hi Hm) as (s' & -> & Hs' & _). cbn [mbind res_bind].
  destruct IH as (l' & -> & Hl'). exists ((i, s') :: l'). split; [done|]. constructor; [|done]. by exists (accept p m acc).
Qed.
Lemma find_keys l l' p m : send_all p m l = Ok l' → ∀ id, is_Some (find id l) → is_Some (find id l').
Proof.
  intros E id [s Hs]. pose proof (find_send_all p m l l' E id) as H. rewrite Hs in H. destruct H as (s' & _ & ->). by eexists.
Qed.
Lemma find_assign_keys id s l id' : is_Some (find id' l) → is_Some (find id' (assign id s l)).
Proof. intros H. rewrite find_assign. destruct (id' =? id); [by eexists|done]. Qed.

(** the invariant only looks at four parts of the context *)
Lemma Cx_parts c c' :
  Cx handlers c → all_live handlers (next_address c') (m_mapServiceMap c') → routes c' = routes c →
  (∀ id, is_Some (FindService id c) → is_Some (FindService id c')) →
  lenZ (m_bDataCallStateArray c') = MAX_DATA_CALL_SIZE * 2 + 1 → state_wf (mServiceState c') → Cx handlers c'.
Proof.
  intros (_ & Hr & _ & _) Hl Er Hk Hd Hw. split; [done|]. split; [|done]. intros q svc msg. rewrite Er. intros E. apply Hk. by eapply Hr.
Qed.

(** *** Operations keep the invariant *)
Definition keeps_cx (f : Context → res Context) : Prop := ∀ c, Cx handlers c → ∃ c', f c = Ok c' ∧ Cx handlers c'.

Lemma broadcast_ok id data : message_ok (SystemMessage id data) → keeps_cx (BroadcastSystemMessage id data).
Proof.
  intros Hm c HC. pose proof HC as (Hs & Hr & Hd & Hw). unfold BroadcastSystemMessage, new_address. cbn [m_mapServiceMap set_log].
  destruct (send_all_ok (next_address c) (SystemMessage id data) (m_mapServiceMap c) Hm Hs) as (l & E & Hl). rewrite E. cbn [mbind res_bind].
  eexists. split; [done|]. eapply Cx_parts; [exact HC|exact Hl|done| |done..]. intros i. apply (find_keys _ _ _ _ E).
Qed.

Lemma MgrSendMessage_ok id p m c :
  Cx handlers c → message_ok m → next_address c = p + 1 → all_live handlers p (m_mapServiceMap c) →
  ∃ r c', MgrSendMessage id p m c = Ok (r, c') ∧ Cx handlers c' ∧ (r = 0 ∨ r = -1 ∧ FindService id c = None ∧ c' = c).
Proof.
  intros HC Hm Hn Hl. unfold MgrSendMessage. destruct (FindService id c) as [s|] eqn:Ef.
  - destruct (all_live_find _ _ _ _ Hl Ef) as (acc & Ha).
    destruct (lives_send (H := handlers id) acc p m s Ha Hm) as (s' & -> & Hs' & _). cbn [mbind res_bind].
    eexists _, _. split; [done|]. split; [|by left]. pose proof HC as (Hs & _ & Hd & Hw).
    eapply Cx_parts; [exact HC| |done| |done..].
    + eapply all_live_assign; [exact Hs|]. cbn. rewrite Hn. exact Hs'.
    + intros i. apply find_assign_keys.
  - exists (-1), c. split; [done|]. split; [done|]. by right.
Qed.

Lemma Cx_address c : Cx handlers c → Cx handlers (new_address c).2.
Proof.
  intros HC. pose proof HC as (Hs & _ & Hd & Hw). eapply Cx_parts; [exact HC| |done..]. cbn. eapply all_live_later; [exact Hs|lia].
Qed.

Lemma run_service_ok id f c :
  Cx handlers c →
  (∀ acc s, FindService id c = Some s → lives (H := handlers id) acc (next_address c) s →
     ∃ s', f (set_wait (history c) s) = Ok s' ∧ lives (H := handlers id) acc (next_address c) s') →
  ∃ c', run_service id f c = Ok c' ∧ Cx handlers c'.
Proof.
  intros HC Hf. unfold run_service. destruct (FindService id c) as [s|] eqn:Ef; [|by exists c].
  pose proof HC as (Hs & _ & Hd & Hw). destruct (all_live_find _ _ _ _ Hs Ef) as (acc & Ha).
  destruct (Hf acc s eq_refl Ha) as (s' & -> & Hs'). cbn [mbind res_bind]. eexists. split; [done|].
  eapply Cx_parts; [exact HC| |done| |done..].
  - by eapply all_live_assign.
  - intros i. apply find_assign_keys.
Qed.
End invariant.

(** ** Frames and tables *)

Lemma is_ok_inv {A} (r : res A) : is_ok r = true → ∃ a, r = Ok a.
Proof. destruct r; [by eexists|done..]. Qed.
Lemma frame_reads raw : sizeof_RCM_HEADER <= lenZ raw → (∃ d, modem_data raw = Ok d) ∧ ∃ id, GetId (Some raw) = Ok id.
Proof.
  unfold sizeof_RCM_HEADER. intros Hl. destruct raw as [|t b]; [by unfold lenZ in Hl|]. split.
  - unfold modem_data, Rcm.GetToken, IsSolicitedResponse, IsUnsolicitedResponse, GetType, off_type. rewrite !rd_cons_0. cbn [mbind res_bind].
    pose proof (rd32_spec (t :: b) off_token ltac:(done)) as Ht. change (off_token + 4) with 10 in Ht.
    destruct (Z.leb_spec 10 (lenZ (t :: b))); [|lia]. apply is_ok_inv in Ht as [tok Et].
    destruct ((t =? RCM_TYPE_REQUEST) || (t =? RCM_TYPE_RESPONSE)); rewrite ?Et; cbn [mbind res_bind]; by eexists.
  - unfold GetId. pose proof (rd16_spec (t :: b) off_id ltac:(done)) as Hi. change (off_id + 2) with 4 in Hi.
    destruct (Z.leb_spec 4 (lenZ (t :: b))); [|lia]. apply is_ok_inv in Hi as [id Ei]. rewrite Ei. cbn [mbind res_bind]. by eexists.
Qed.

Lemma mark_calls_ok calls ab :
  Forall call_ok calls → lenZ ab = MAX_DATA_CALL_SIZE * 2 + 1 → ∃ ab', mark_calls calls ab = Ok ab' ∧ lenZ ab' = MAX_DATA_CALL_SIZE * 2 + 1.
Proof.
  intros Hc. revert ab. induction Hc as [|[cid active] calls Hx Hc IH]; intros ab Hl; cbn [mark_calls]; [by exists ab|].
  unfold call_ok in Hx. cbn in Hx. rewrite wr_ok by (rewrite Hl; unfold MAX_DATA_CALL_SIZE in *; lia). cbn [mbind res_bind].
  apply IH. by rewrite lenZ_insert.
Qed.

Lemma RouteRequest_result requestId r : (RouteRequest requestId r).1.1 = 0 ∨ (RouteRequest requestId r).1.1 = -1.
Proof.
  unfold RouteRequest, RouteOemRequest, routed. repeat case_match; cbn; auto.
Qed.

(** ** Steps *)
Section steps.
Variable handlers : Z → ServiceHandlers.
Hypothesis contracts : ∀ id, HandlerContract (H := handlers id).
Abbreviation keeps := (keeps_cx handlers).

Lemma keeps_cx_bind f g : keeps f → keeps g → keeps (λ c, c ← f c; g c).
Proof. intros Hf Hg c HC. destruct (Hf c HC) as (c1 & -> & HC1). cbn [mbind res_bind]. by apply Hg. Qed.
Lemma keeps_if (b : bool) f g : keeps f → keeps g → keeps (λ c, if b then f c else g c).
Proof. by destruct b. Qed.
Lemma keeps_ret : keeps Ok.
Proof. intros c HC. by exists c. Qed.

Lemma Cx_states m r d ss c :
  Cx handlers c → lenZ d = MAX_DATA_CALL_SIZE * 2 + 1 → state_wf ss → Cx handlers (set_states m r d ss c).
Proof. intros (Hs & Hr & _) Hd Hw. done. Qed.
Lemma Cx_log r h c : Cx handlers c → Cx handlers (set_log (next_address c) r h c).
Proof. done. Qed.

Lemma SendRequestData_ok requestId c : Cx handlers c →
  ∃ r c', SendRequestData requestId c = Ok (r, c') ∧ Cx handlers c' ∧ (r = 0 ∨ r = -1).
Proof.
  intros HC. unfold SendRequestData. pose proof (RouteRequest_result requestId (routes c)) as Hret.
  destruct (RouteRequest requestId (routes c)) as [[ret svc] msg] eqn:Er. cbn in Hret.
  destruct Hret as [-> | -> ]; cbn [Z.ltb]; [|by exists (-1), c; split_and!; [|auto..]].
  change (0 <? 0) with false. cbv iota. destruct (new_address c) as [p c1] eqn:En.
  assert (HC1 : Cx handlers c1) by (change c1 with (p, c1).2; rewrite <- En; by apply Cx_address).
  assert (Hsvc : is_Some (FindService svc c1)).
  { unfold new_address in En. injection En as _ <-. pose proof HC as (_ & Hr & _). by apply (Hr requestId svc msg). }
  destruct Hsvc as [s Hs]. destruct (IsAsyncMessage svc msg (routes c1)).
  - rewrite Hs. eexists _, _. split; [done|]. split; [exact HC1|by left].
  - destruct (MgrSendMessage_ok handlers contracts svc p (RequestMessage msg requestId) c1) as (r & c' & -> & HC' & Hx).
    + done.
    + unfold message_ok. cbn. by eexists.
    + unfold new_address in En. by injection En as <- <-.
    + unfold new_address in En. injection En as <- <-. apply HC.
    + cbn [mbind res_bind]. destruct Hx as [-> |(_ & Hn & _)]; [|congruence]. change (0 <? 0) with false. cbv iota.
      exists 0, c'. split; [done|]. split; [done|by left].
Qed.

Lemma OnRequest_ok parse request data : keeps (OnRequest parse request data).
Proof.
  intros c HC. unfold OnRequest. destruct (request <? 0); [eexists; split; [done|by apply Cx_log]|].
  destruct (parse request data) as [id|]; [|eexists; split; [done|by apply Cx_log]].
  destruct (SendRequestData_ok id c HC) as (r & c' & -> & HC' & _). cbn [mbind res_bind]. eexists. split; [done|].
  destruct (r <? 0); [by apply Cx_log|done].
Qed.

Lemma ProcessModemData_ok raw : raw = [] ∨ sizeof_RCM_HEADER <= lenZ raw → keeps (ProcessModemData raw).
Proof.
  intros Hraw c HC. unfold ProcessModemData. destruct raw as [|t b] eqn:Eraw; [by exists c|].
  destruct Hraw as [?|Hl]; [done|]. rewrite <- Eraw in *. clear Eraw t b.
  assert (∃ r c', SendModemData raw c = Ok (r, c') ∧ Cx handlers c') as (r & c' & -> & HC'); [|by exists c'].
  unfold SendModemData. destruct (frame_reads raw Hl) as [[d ->] [id Eid]]. cbn [mbind res_bind].
  assert (∀ svc msg c1, Cx handlers c1 → ∃ r c',
    ('(p, c2) ← Ok (new_address c1); '(_, c3) ← MgrSendMessage svc p (ModemMessage msg (Some d)) c2; Ok (0, c3)) = Ok (r, c') ∧ Cx handlers c') as Hsend.
  { intros svc msg c1 HC1. unfold new_address. cbn [mbind res_bind].
    destruct (MgrSendMessage_ok handlers contracts svc (next_address c1) (ModemMessage msg (Some d)) (new_address c1).2)
      as (r & c' & E & HC' & _); [by apply Cx_address|done|done|apply HC1|].
    unfold new_address in E. cbn [snd] in E. rewrite E. cbn [mbind res_bind]. by eexists _, _. }
  destruct (md_solicited d).
  - destruct (if IsValid _ then _ else _) as [svc msg]. cbn [mbind res_bind]. apply (Hsend svc msg). exact HC.
  - destruct (md_unsolicited d).
    + rewrite Eid. cbn [mbind res_bind]. destruct (RouteProtocolInd id (routes c)) as [[ret svc] msg]. cbn [mbind res_bind].
      destruct (ret <? 0); [by eexists _, _|by apply (Hsend svc msg)].
    + cbn [mbind res_bind]. by eexists _, _.
Qed.

Lemma OnModemStateChanged_ok state : keeps (OnModemStateChanged state).
Proof.
  intros c HC. unfold OnModemStateChanged. assert (HC1 : Cx handlers (set_modem state c)) by exact HC.
  destruct (modemState c =? state); [by eexists|].
  destruct (broadcast_ok handlers contracts MSG_SYSTEM_MODEM_STATE_CHANGED (Some [state]) ltac:(by vm_compute) _ HC1) as (c1 & -> & HC2).
  cbn [mbind res_bind]. destruct (_ && _); [|by eexists]. by apply broadcast_ok.
Qed.

Lemma diff_call_ok ab i c : Cx handlers c → lenZ ab = MAX_DATA_CALL_SIZE * 2 + 1 → 1 <= i < 1 + MAX_DATA_CALL_SIZE * 2 →
  ∃ c', diff_call ab i c = Ok c' ∧ Cx handlers c'.
Proof.
  intros HC Hab Hi. pose proof HC as (_ & _ & Hd & Hw). unfold diff_call.
  destruct (rd_ok (m_bDataCallStateArray c) i) as (old & -> & _); [lia|]. destruct (rd_ok ab i) as (new & -> & _); [lia|].
  cbn [mbind res_bind]. destruct (eqb old new); [by eexists|]. rewrite wr_ok by lia. cbn [mbind res_bind].
  apply broadcast_ok; [done|by destruct new; vm_compute|]. apply Cx_states; [done|by rewrite lenZ_insert|done].
Qed.

Lemma ProcessUnsolicitedResponse_ok u : unsol_ok u → keeps (ProcessUnsolicitedResponse u).
Proof.
  intros Hu c HC. pose proof HC as (_ & _ & Hd & Hw). destruct u as [state|calls|]; cbn [ProcessUnsolicitedResponse]; [|cbn in Hu|by eexists].
  - eexists. split; [done|]. destruct (_ =? _); [done|]. unfold SetContextRadioState. destruct (_ || _).
    + apply Cx_states; [done..|apply state_wf_null].
    + destruct (state =? RADIO_STATE_ON); [by apply Cx_states|done].
  - destruct (mark_calls_ok calls (fill (MAX_DATA_CALL_SIZE * 2 + 1) false) Hu eq_refl) as (ab & -> & Hab). cbn [mbind res_bind].
    destruct (for_up_inv (λ _ c, Cx handlers c) (Z.to_nat (MAX_DATA_CALL_SIZE * 2)) 1 (diff_call ab) c) as (c' & E & HC'); [done| |by eexists].
    intros i c1 Hi HC1. by apply diff_call_ok.
Qed.

Lemma ProcessNetworkServiceState_ok requestId a : keeps (ProcessNetworkServiceState requestId a).
Proof.
  intros c HC. unfold ProcessNetworkServiceState. pose proof HC as (_ & _ & _ & Hw).
  set (ss := newServiceState requestId a (mServiceState c)). assert (Hss : state_wf ss) by by apply wf_newServiceState.
  destruct (changes requestId (mServiceState c) ss) as [[v d] any].
  refine (keeps_cx_bind (λ c, if v then _ else Ok c) _ _ _ c HC); [apply keeps_if; [by apply broadcast_ok|apply keeps_ret]|].
  refine (keeps_cx_bind (λ c, if d then _ else Ok c) _ _ _); [apply keeps_if; [by apply broadcast_ok|apply keeps_ret]|].
  refine (keeps_cx_bind (λ c, if any then _ else Ok c) _ _ _); [apply keeps_if; [by apply broadcast_ok|apply keeps_ret]|].
  intros c1 HC1. eexists. split; [done|]. apply Cx_states; [done|apply HC1|done].
Qed.

Lemma ProcessSolicitedResponse_ok a : answer_ok a → keeps (ProcessSolicitedResponse a).
Proof.
  intros Ha c HC. destruct a as [id n|card gsm apps|imsi aid gsm texts|]; unfold ProcessSolicitedResponse; [|cbn in Ha| |by eexists].
  - case_decide; [by apply ProcessNetworkServiceState_ok|by eexists].
  - unfold ProcessIccCardStatus. destruct Ha as [Hg Hl].
    assert (∃ app, (if 0 <=? gsm then apps.[gsm] else Ok (-1)) = Ok app) as [app ->].
    { destruct (Z.leb_spec 0 gsm); [|by eexists]. destruct (rd_ok apps gsm) as (v & -> & _); [lia|by eexists]. }
    cbn [mbind res_bind]. by apply broadcast_ok.
  - unfold ProcessImsi. destruct (_ && _); [by apply broadcast_ok|by eexists].
Qed.

Lemma cx_step_ok c r : Cx handlers c → cx_step handlers c r → ∃ c', r = Ok c' ∧ Cx handlers c'.
Proof.
  intros HC Hs. destruct Hs as [parse request data c|raw c Hraw|id now d rest s c Hf Hp|id now s c Hf Ht|state c|u c Hu|a c Ha].
  - by apply OnRequest_ok.
  - by apply ProcessModemData_ok.
  - apply run_service_ok; [done..|]. intros acc s1 Hf1 Hl. rewrite Hf in Hf1. injection Hf1 as <-.
    pose proof Hl as (Hr & _). destruct (reachable_good (H := handlers id) _ _ Hr) as (s0 & [= <-] & HG). destruct HG as [HS _].
    destruct (dispatch_Sys (H := handlers id) acc.*1 (set_wait (history c) s) d rest now HS Hp) as (s' & E & _ & Hlog).
    exists s'. split; [exact E|]. eapply (lives_step (H := handlers id)); [exact Hl| |exact Hlog]. rewrite <- E. by apply step_read.
  - apply run_service_ok; [done..|]. intros acc s1 Hf1 Hl. rewrite Hf in Hf1. injection Hf1 as <-.
    pose proof Hl as (Hr & _). destruct (reachable_good (H := handlers id) _ _ Hr) as (s0 & [= <-] & HG). destruct HG as [HS _].
    destruct (timeout_Sys (H := handlers id) acc.*1 (set_wait (history c) s) now HS) as (s' & E & _ & Hlog).
    exists s'. split; [exact E|]. eapply (lives_step (H := handlers id)); [exact Hl| |exact Hlog]. rewrite <- E. by apply step_timeout.
  - by apply OnModemStateChanged_ok.
  - by apply ProcessUnsolicitedResponse_ok.
  - by apply ProcessSolicitedResponse_ok.
Qed.
End steps.

(** ** What is sent *)

(** the state of a service after a message was sent to it *)
Definition posted (p : Z) (m : Message) (s : Service) : Service :=
  let s := set_heap (<[p := m]> (heap s)) s in
  let s := match m_nDirection m with
           | REQUEST => set_queues (m_requestQueue s ++ [p]) (m_responseQueue s) (m_internalQueue s) s
           | RESPONSE => set_queues (m_requestQueue s) (m_responseQueue s ++ [p]) (m_internalQueue s) s
           | INTERNAL => set_queues (m_requestQueue s) (m_responseQueue s) (m_internalQueue s ++ [p]) s
           end in
  NotifyNewMessage (m_nDirection m) s.
Lemma SendMessage_posted p m s : SendMessage p m s = Ok (posted p m s).
Proof.
  unfold SendMessage, EnQueue, posted. set (s1 := set_heap _ s). assert (heap s1 !! p = Some m) as E by apply lookup_insert_eq.
  rewrite (deref_ok p m s1) by done. cbn [mbind res_bind]. erewrite deref_ok by (destruct (m_nDirection m); exact E).
  done.
Qed.

(** a run of system messages (identifier and data), one address after the other *)
Fixpoint posts (l : list (Z * option (list Z))) (p : Z) (s : Service) : Service :=
  match l with [] => s | (id, data) :: l => posts l (p + 1) (posted p (SystemMessage id data) s) end.
(** every service has been sent the messages [l], in this order, and nothing else has changed in services and history *)
Definition told (l : list (Z * option (list Z))) (c c' : Context) : Prop :=
  m_mapServiceMap c' = (λ x, (x.1, posts l (next_address c) x.2)) <$> m_mapServiceMap c ∧
  next_address c' = next_address c + lenZ l ∧
  routes c' = routes c ∧ history c' = history c ∧ rejected c' = rejected c ∧ handed_async c' = handed_async c.

Lemma posts_app l k p s : posts (l ++ k) p s = posts k (p + lenZ l) (posts l p s).
Proof.
  revert p s. induction l as [|[id data] l IH]; intros p s; cbn [posts app]; [by rewrite lenZ_nil, Z.add_0_r|].
  rewrite IH, lenZ_cons. f_equal. lia.
Qed.
Lemma told_same c c' :
  m_mapServiceMap c' = m_mapServiceMap c → next_address c' = next_address c → routes c' = routes c → history c' = history c →
  rejected c' = rejected c → handed_async c' = handed_async c → told [] c c'.
Proof.
  intros Hm Hn. split; [|split; [by rewrite Hn, lenZ_nil, Z.add_0_r|done] ]. rewrite Hm. generalize (m_mapServiceMap c).
  intros l. induction l as [|[id s] l IH]; [done|]. cbn. f_equal. exact IH.
Qed.
Lemma told_app l k c1 c2 c3 : told l c1 c2 → told k c2 c3 → told (l ++ k) c1 c3.
Proof.
  intros (H1 & H2 & H3 & H4 & H5 & H6) (K1 & K2 & K3 & K4 & K5 & K6). split; [|split; [rewrite lenZ_app; lia|split_and!; congruence] ].
  rewrite K1, H1, <- list_fmap_compose. apply list_fmap_ext. intros i [id s] _. cbn. by rewrite posts_app, H2.
Qed.
Lemma send_all_posted p m l : send_all p m l = Ok ((λ x, (x.1, posted p m x.2)) <$> l).
Proof.
  induction l as [|[id s] l IH]; [done|]. cbn [send_all]. by rewrite SendMessage_posted, IH.
Qed.
Lemma broadcast_told id data c : ∃ c', BroadcastSystemMessage id data c = Ok c' ∧ told [(id, data)] c c' ∧
  modemState c' = modemState c ∧ m_RadioState c' = m_RadioState c ∧ m_bDataCallStateArray c' = m_bDataCallStateArray c ∧
  mServiceState c' = mServiceState c.
Proof.
  unfold BroadcastSystemMessage, new_address. rewrite send_all_posted. cbn [mbind res_bind]. eexists. split; [done|].
  split; [|done]. split; [done|]. by split_and!.
Qed.

(** broadcasting when something changed *)
Lemma broadcast_if_told (b : bool) id data c :
  ∃ c', (if b then BroadcastSystemMessage id data c else Ok c) = Ok c' ∧ told (if b then [(id, data)] else []) c c' ∧
    modemState c' = modemState c ∧ m_RadioState c' = m_RadioState c ∧ m_bDataCallStateArray c' = m_bDataCallStateArray c ∧
    mServiceState c' = mServiceState c.
Proof. destruct b; [apply broadcast_told|]. exists c. split; [done|]. split; [by apply told_same|done]. Qed.

(** the part of the registration state that services are told about *)
Definition view_equal (a b : ServiceState) : bool :=
  (mVoiceRegState a =? mVoiceRegState b) && (mDataRegState a =? mDataRegState b)
  && bool_decide (mOperatorNumeric a = mOperatorNumeric b)
  && (mVoiceRadioTechnology a =? mVoiceRadioTechnology b) && (mDataRadioTechnology a =? mDataRadioTechnology b)
  && eqb (mIsUsingCarrierAggregation a) (mIsUsingCarrierAggregation b)
  && eqb (isVopsSupported a) (isVopsSupported b) && eqb (isEmcBearerSupported a) (isEmcBearerSupported b)
  && (mNrStatus a =? mNrStatus b).
(** what services are told when the registration state changes *)
Definition net_messages (old new : ServiceState) : list (Z * option (list Z)) :=
  (if negb (mVoiceRegState old =? mVoiceRegState new)
   then [(MSG_SYSTEM_VOICE_REGISTRTION_STATE_CHANGED, Some [mVoiceRegState new])] else []) ++
  (if negb (mDataRegState old =? mDataRegState new)
   then [(MSG_SYSTEM_DATA_REGISTRTION_STATE_CHANGED, Some [mDataRegState new])] else []) ++
  (if negb (view_equal old new) then [(MSG_SYSTEM_SERVICE_TATE_CHANGED, None)] else []).
Definition modem_messages (old new : Z) : list (Z * option (list Z)) :=
  if old =? new then []
  else (MSG_SYSTEM_MODEM_STATE_CHANGED, Some [new])
       :: (if (old =? MS_ONLINE) && negb (new =? MS_ONLINE) then [(MSG_SYSTEM_RESET, None)] else []).
(** what services are told about the data call [i] *)
Definition call_messages (old new : list bool) (i : Z) : list (Z * option (list Z)) :=
  match old !! Z.to_nat i, new !! Z.to_nat i with
  | Some a, Some b => if eqb a b then [] else [(MSG_SYSTEM_DATA_CALL_STATE_CHANGED, Some [i; if b then 1 else 0])]
  | _, _ => []
  end.

(** the table of data calls that a list of calls describes: the last entry of an identifier counts *)
Definition call_table (calls : list (Z * Z)) : list bool :=
  foldl (λ t x, <[Z.to_nat x.1 := negb (x.2 =? 0)]> t) (fill (MAX_DATA_CALL_SIZE * 2 + 1) false) calls.
Lemma mark_calls_table calls ab : Forall call_ok calls → lenZ ab = MAX_DATA_CALL_SIZE * 2 + 1 →
  mark_calls calls ab = Ok (foldl (λ t x, <[Z.to_nat x.1 := negb (x.2 =? 0)]> t) ab calls).
Proof.
  intros Hc. revert ab. induction Hc as [|[cid active] calls Hx Hc IH]; intros ab Hl; [done|]. cbn [mark_calls foldl fst snd].
  unfold call_ok in Hx. cbn [fst] in Hx. rewrite wr_ok by (rewrite Hl; unfold MAX_DATA_CALL_SIZE in *; lia). cbn [mbind res_bind].
  apply IH. by rewrite lenZ_insert.
Qed.
Lemma lenZ_call_table calls : lenZ (call_table calls) = MAX_DATA_CALL_SIZE * 2 + 1.
Proof.
  unfold call_table. assert (lenZ (fill (MAX_DATA_CALL_SIZE * 2 + 1) false) = MAX_DATA_CALL_SIZE * 2 + 1) as H by done. revert H.
  generalize (fill (MAX_DATA_CALL_SIZE * 2 + 1) false). induction calls as [|x calls IH]; intros t Ht; [done|]. cbn. apply IH. by rewrite lenZ_insert.
Qed.

(** ** Registration *)
Definition network_requests : list Z :=
  [RIL_REQUEST_OPERATOR; RIL_REQUEST_DATA_REGISTRATION_STATE; RIL_REQUEST_VOICE_REGISTRATION_STATE; RIL_REQUEST_QUERY_NETWORK_SELECTION_MODE].

Lemma data_result_fields r t s : let d := ProcessDataRegStateResult r t s in
  mVoiceRegState d = mVoiceRegState s ∧ mOperatorNumeric d = mOperatorNumeric s ∧ mVoiceRadioTechnology d = mVoiceRadioTechnology s ∧
  isVopsSupported d = isVopsSupported s ∧ isEmcBearerSupported d = isEmcBearerSupported s ∧ mNrStatus d = mNrStatus s.
Proof. unfold ProcessDataRegStateResult, setDataRadioTechnology. cbn zeta. repeat case_match; done. Qed.
Lemma changes_view requestId a s : let new := newServiceState requestId a s in
  changes requestId s new = (negb (mVoiceRegState s =? mVoiceRegState new), negb (mDataRegState s =? mDataRegState new), negb (view_equal s new)).
Proof.
  unfold changes, newServiceState, view_equal. destruct (requestId =? _); [|destruct (requestId =? _); [|destruct (requestId =? _)] ];
    destruct a; cbn -[Z.eqb ProcessDataRegStateResult setDataRadioTechnology setVoiceRadioTechnology].
  all: repeat match goal with |- context [ProcessDataRegStateResult ?r ?t ?x] => pose proof (data_result_fields r t x); generalize dependent (ProcessDataRegStateResult r t x); intros d (E1 & E2 & E3 & E4 & E5 & E6);
    rewrite ?E1, ?E2, ?E3, ?E4, ?E5, ?E6 end.
  all: rewrite ?Z.eqb_refl, ?eqb_reflx, ?bool_decide_eq_true_2 by done.
  all: f_equal; cbn [negb]; rewrite ?negb_andb, ?andb_true_l, ?andb_true_r; cbn [negb]; rewrite ?orb_false_l, ?orb_false_r, <- ?orb_assoc; try done.
Qed.

Lemma newServiceState_again requestId a s : newServiceState requestId a (newServiceState requestId a s) = newServiceState requestId a s.
Proof.
  unfold newServiceState. destruct (requestId =? _); [|destruct (requestId =? _); [|destruct (requestId =? _)] ]; destruct a; try reflexivity.
  - unfold ProcessDataRegStateResult, setDataRadioTechnology. cbn. destruct (rat =? RADIO_TECH_LTE_CA) eqn:E; [|by repeat case_match].
    apply Z.eqb_eq in E as ->. reflexivity.
  - unfold ProcessDataRegStateResult14, ProcessDataRegStateResult, setDataRadioTechnology. cbn.
    destruct (rat =? RADIO_TECH_LTE_CA) eqn:E; [|by repeat case_match]. apply Z.eqb_eq in E as ->. reflexivity.
Qed.
Lemma net_messages_same s : net_messages s s = [].
Proof.
  unfold net_messages, view_equal. rewrite !Z.eqb_refl, !eqb_reflx, bool_decide_eq_true_2 by done. reflexivity.
Qed.

(** what else the states of the context are after a broadcast *)
Lemma ProcessNetworkServiceState_told requestId a c :
  let new := newServiceState requestId a (mServiceState c) in
  ∃ c', ProcessNetworkServiceState requestId a c = Ok c' ∧ told (net_messages (mServiceState c) new) c c' ∧
    mServiceState c' = new ∧ modemState c' = modemState c ∧ m_RadioState c' = m_RadioState c.
Proof.
  intros new. unfold ProcessNetworkServiceState. fold new.
  assert (changes requestId (mServiceState c) new = _) as -> by apply changes_view. fold new. clearbody new. cbv beta iota. unfold net_messages.
  destruct (broadcast_if_told (negb (mVoiceRegState (mServiceState c) =? mVoiceRegState new))
    MSG_SYSTEM_VOICE_REGISTRTION_STATE_CHANGED (Some [mVoiceRegState new]) c) as (c1 & -> & H1 & M1 & R1 & _).
  cbn [mbind res_bind].
  destruct (broadcast_if_told (negb (mDataRegState (mServiceState c) =? mDataRegState new))
    MSG_SYSTEM_DATA_REGISTRTION_STATE_CHANGED (Some [mDataRegState new]) c1) as (c2 & -> & H2 & M2 & R2 & _).
  cbn [mbind res_bind].
  destruct (broadcast_if_told (negb (view_equal (mServiceState c) new)) MSG_SYSTEM_SERVICE_TATE_CHANGED None c2)
    as (c3 & -> & H3 & M3 & R3 & _).
  cbn [mbind res_bind]. eexists. split; [done|]. split; [|cbn; by rewrite M3, M2, M1, R3, R2, R1].
  rewrite <- (app_nil_r (_ ++ _ ++ _)). eapply told_app; [|by apply (told_same c3)].
  eapply told_app; [exact H1|]. by eapply told_app.
Qed.

(** what services learn about modem and registration.  A change of the modem state is told to every service, with a
    reset when the modem goes offline, and a repeated state is not; a successful answer to a network request tells every
    service the new voice and data registration states exactly when they differ from the stored ones, and a change of
    service exactly when the part of the state services look at differs, in this order; afterwards the context holds the
    new state, the services and the history are otherwise as before, and the same answer again tells nothing. *)
Theorem state_broadcasts (c : Context) (state requestId : Z) (a : NetAnswer) (Hreq : requestId ∈ network_requests) :
  (∃ c', OnModemStateChanged state c = Ok c' ∧ told (modem_messages (modemState c) state) c c' ∧ modemState c' = state ∧
     mServiceState c' = mServiceState c) ∧
  (∃ c', ProcessSolicitedResponse (AnswerNet requestId a) c = Ok c' ∧
     mServiceState c' = newServiceState requestId a (mServiceState c) ∧
     told (net_messages (mServiceState c) (mServiceState c')) c c' ∧ modemState c' = modemState c ∧
     ∃ c'', ProcessSolicitedResponse (AnswerNet requestId a) c' = Ok c'' ∧ told [] c' c'' ∧ mServiceState c'' = mServiceState c').
Proof.
  split.
  - unfold OnModemStateChanged, modem_messages. destruct (modemState c =? state) eqn:E.
    + exists (set_modem state c). split; [done|]. split; [by apply told_same|done].
    + destruct (broadcast_told MSG_SYSTEM_MODEM_STATE_CHANGED (Some [state]) (set_modem state c)) as (c1 & -> & H1 & M1 & _ & _ & S1).
      cbn [mbind res_bind].
      destruct (broadcast_if_told ((modemState c =? MS_ONLINE) && negb (state =? MS_ONLINE)) MSG_SYSTEM_RESET None c1)
        as (c2 & -> & H2 & M2 & _ & _ & S2).
      exists c2. split; [done|]. split; [|by rewrite M2, M1, S2, S1]. change (?x :: ?l) with ([x] ++ l). eapply told_app; [exact H1|exact H2].
  - unfold ProcessSolicitedResponse. unfold network_requests in Hreq. rewrite !decide_True by done.
    destruct (ProcessNetworkServiceState_told requestId a c) as (c1 & E1 & H1 & S1 & M1 & _).
    destruct (ProcessNetworkServiceState_told requestId a c1) as (c2 & E2 & H2 & S2 & _).
    rewrite S1, newServiceState_again in S2, H2. rewrite net_messages_same in H2.
    exists c1. split; [exact E1|]. split; [exact S1|]. split; [by rewrite S1|]. split; [exact M1|].
    exists c2. rewrite decide_True by done. split; [exact E2|]. split; [exact H2|by rewrite S1].
Qed.

Definition demo_routes : Routes :=
  SetRequestMap 1 5 11 (SetProtocolIndMap 515 7 12
    {| s_RilRequestServiceMap := ∅; s_RilOemRequestServiceMap := ∅; s_ProtocolServiceMap := ∅; s_AsyncMsgMap := ∅ |}).
Definition demo_context : Context := newContext [7; 5] demo_routes.

(** an answer with a registered data state on an LTE carrier aggregation *)
Lemma state_broadcasts_witness :
  ∃ c', ProcessSolicitedResponse (AnswerNet RIL_REQUEST_DATA_REGISTRATION_STATE (ADataReg 1 RADIO_TECH_LTE_CA)) demo_context = Ok c' ∧
    told [(MSG_SYSTEM_DATA_REGISTRTION_STATE_CHANGED, Some [1]); (MSG_SYSTEM_SERVICE_TATE_CHANGED, None)] demo_context c'.
Proof.
  destruct (state_broadcasts demo_context MS_ONLINE RIL_REQUEST_DATA_REGISTRATION_STATE (ADataReg 1 RADIO_TECH_LTE_CA)) as [_ H]; [by_eval|].
  destruct H as (c' & E & S & H & _). exists c'. split; [exact E|]. rewrite S in H. exact H.
Defined.

(** ** Data calls *)

Lemma diff_calls ab n i c :
  0 <= i → i + Z.of_nat n <= lenZ ab → lenZ ab = lenZ (m_bDataCallStateArray c) →
  ∃ c', for_up n i (diff_call ab) c = Ok c' ∧
    told (mjoin (call_messages (m_bDataCallStateArray c) ab <$> seqZ i (Z.of_nat n))) c c' ∧
    lenZ (m_bDataCallStateArray c') = lenZ (m_bDataCallStateArray c) ∧
    (∀ j, m_bDataCallStateArray c' !! j = if decide (i <= Z.of_nat j < i + Z.of_nat n) then ab !! j else m_bDataCallStateArray c !! j) ∧
    mServiceState c' = mServiceState c ∧ modemState c' = modemState c ∧ m_RadioState c' = m_RadioState c.
Proof.
  revert i c. induction n as [|n IH]; intros i c Hi Hn Hl; cbn [for_up].
  - exists c. split; [done|]. split; [by apply told_same|]. split; [done|]. split; [|done]. intros j. by rewrite decide_False by lia.
  - destruct (rd_ok (m_bDataCallStateArray c) i) as (old & Eo & Lo); [lia|]. destruct (rd_ok ab i) as (new & En & Ln); [lia|].
    rewrite seqZ_cons by lia. replace (Z.pred (Z.of_nat (S n))) with (Z.of_nat n) by lia.
    set (d := if eqb old new then m_bDataCallStateArray c else <[Z.to_nat i := new]> (m_bDataCallStateArray c)).
    assert (∃ c1, diff_call ab i c = Ok c1 ∧ told (call_messages (m_bDataCallStateArray c) ab i) c c1 ∧ m_bDataCallStateArray c1 = d ∧
      mServiceState c1 = mServiceState c ∧ modemState c1 = modemState c ∧ m_RadioState c1 = m_RadioState c) as (c1 & -> & H1 & D1 & S1 & M1 & R1).
    { unfold diff_call, call_messages. rewrite Eo, En. cbn [mbind res_bind]. rewrite Lo, Ln. unfold d. destruct (eqb old new).
      - exists c. split; [done|]. split; [by apply told_same|done].
      - rewrite wr_ok by lia. cbn [mbind res_bind].
        destruct (broadcast_told MSG_SYSTEM_DATA_CALL_STATE_CHANGED (Some [i; if new then 1 else 0])
          (set_calls (<[Z.to_nat i := new]> (m_bDataCallStateArray c)) c)) as (c1 & E & H & M & R & D & S). exists c1. done. }
    cbn [mbind res_bind]. assert (lenZ d = lenZ (m_bDataCallStateArray c)) as Hd by (unfold d; destruct (eqb old new); [done|apply lenZ_insert]).
    destruct (IH (i + 1) c1) as (c2 & E2 & H2 & L2 & D2 & S2 & M2 & R2); [lia..|congruence|].
    exists c2. split; [exact E2|]. split; [|split; [congruence|split; [|split_and!; congruence] ] ].
    + cbn [fmap list_fmap mjoin list_join]. eapply told_app; [exact H1|]. replace (Z.succ i) with (i + 1) by lia.
      erewrite list_fmap_ext; [exact H2|]. intros k x Hx. apply list_elem_of_lookup_2, elem_of_seqZ in Hx. cbn. unfold call_messages.
      rewrite D1. unfold d. destruct (eqb old new); [done|]. by rewrite list_lookup_insert_ne by lia.
    + intros j. rewrite D2, D1. unfold d.
      assert (m_bDataCallStateArray c !! Z.to_nat i = Some old) as Lo' by exact Lo.
      destruct (decide (i = Z.of_nat j)) as [->|Hj].
      * rewrite decide_False, decide_True by lia. rewrite Nat2Z.id in *. rewrite Ln.
        destruct (eqb old new) eqn:Eb; [by apply eqb_prop in Eb as ->|]. apply list_lookup_insert_eq. apply lookup_lt_Some in Lo'. lia.
      * destruct (decide (i + 1 <= Z.of_nat j < i + 1 + Z.of_nat n)); [by rewrite decide_True by lia|]. rewrite decide_False by lia.
        destruct (eqb old new); [done|]. by rewrite list_lookup_insert_ne by lia.
Qed.

Lemma call_table_last calls cid : 0 <= cid <= MAX_DATA_CALL_SIZE * 2 → Forall call_ok calls →
  call_table calls !! Z.to_nat cid =
  Some (match filter (λ x, x.1 = cid) (reverse calls) with [] => false | (_, active) :: _ => negb (active =? 0) end).
Proof.
  intros Hcid. induction calls as [|[i active] calls IH] using rev_ind; intros Hc.
  - unfold call_table. cbn [foldl]. change (MAX_DATA_CALL_SIZE * 2) with 8 in *. apply lookup_replicate_2. lia.
  - apply Forall_app in Hc as [Hc Hi]. specialize (IH Hc). pose proof (lenZ_call_table calls) as Hl.
    apply Forall_cons in Hi as [Hi _]. unfold call_ok in Hi. cbn in Hi.
    unfold call_table in *. rewrite foldl_snoc, reverse_snoc. cbn [fst snd]. rewrite filter_cons. cbn [fst].
    change (MAX_DATA_CALL_SIZE * 2) with 8 in *. unfold lenZ in Hl. destruct (decide (i = cid)) as [->|Hne].
    + apply list_lookup_insert_eq. lia.
    + rewrite list_lookup_insert_ne by lia. exact IH.
Qed.
Lemma mjoin_nils {A B} (l : list A) : mjoin ((λ _, []) <$> l) = ([] : list B).
Proof. by induction l. Qed.
Lemma data_calls calls c : Forall call_ok calls → lenZ (m_bDataCallStateArray c) = MAX_DATA_CALL_SIZE * 2 + 1 →
  ∃ c', ProcessUnsolicitedResponse (UDataCallList calls) c = Ok c' ∧
    (∀ j, m_bDataCallStateArray c' !! j = (if decide (j = 0%nat) then m_bDataCallStateArray c else call_table calls) !! j) ∧
    lenZ (m_bDataCallStateArray c') = MAX_DATA_CALL_SIZE * 2 + 1 ∧
    told (mjoin (call_messages (m_bDataCallStateArray c) (call_table calls) <$> seqZ 1 (MAX_DATA_CALL_SIZE * 2))) c c' ∧
    mServiceState c' = mServiceState c ∧ modemState c' = modemState c ∧ m_RadioState c' = m_RadioState c.
Proof.
  intros Hc Hl. cbn [ProcessUnsolicitedResponse]. rewrite mark_calls_table by done. cbn [mbind res_bind]. fold (call_table calls).
  pose proof (lenZ_call_table calls) as Ht.
  destruct (diff_calls (call_table calls) (Z.to_nat (MAX_DATA_CALL_SIZE * 2)) 1 c) as (c' & E & H & L & D & R); [done|rewrite Ht; done|congruence|].
  exists c'. split; [exact E|]. split; [|split; [congruence|split; [exact H|exact R] ] ].
  intros j. rewrite D. change (1 + Z.of_nat (Z.to_nat (MAX_DATA_CALL_SIZE * 2))) with 9. destruct (decide (j = 0%nat)) as [->|Hj]; [done|].
  destruct (decide (1 <= Z.of_nat j < 9)); [done|].
  change (MAX_DATA_CALL_SIZE * 2 + 1) with 9 in *. unfold lenZ in *. rewrite !lookup_ge_None_2; [done|lia..].
Qed.

(** C8: what services learn about data calls.  For every list of calls with identifiers up to twice [MAX_DATA_CALL_SIZE],
    the context's table afterwards says for each identifier from 1 what the last entry of the list for it says, inactive
    if there is none; every service is told exactly the identifiers whose state changed, with the new state, in ascending
    order; nothing else of services, history and states changes; and the same list again tells nothing. *)
Theorem data_call_list (calls : list (Z * Z)) (c : Context) (Hc : Forall call_ok calls)
    (Hl : lenZ (m_bDataCallStateArray c) = MAX_DATA_CALL_SIZE * 2 + 1) :
  ∃ c', ProcessUnsolicitedResponse (UDataCallList calls) c = Ok c' ∧
    (∀ cid, 1 <= cid <= MAX_DATA_CALL_SIZE * 2 →
       m_bDataCallStateArray c' !! Z.to_nat cid =
       Some (match filter (λ x, x.1 = cid) (reverse calls) with [] => false | (_, active) :: _ => negb (active =? 0) end)) ∧
    told (mjoin (call_messages (m_bDataCallStateArray c) (m_bDataCallStateArray c') <$> seqZ 1 (MAX_DATA_CALL_SIZE * 2))) c c' ∧
    mServiceState c' = mServiceState c ∧ modemState c' = modemState c ∧
    ∃ c'', ProcessUnsolicitedResponse (UDataCallList calls) c' = Ok c'' ∧ told [] c' c''.
Proof.
  destruct (data_calls calls c Hc Hl) as (c1 & E1 & D1 & L1 & H1 & S1 & M1 & _).
  destruct (data_calls calls c1 Hc L1) as (c2 & E2 & D2 & L2 & H2 & _).
  assert (∀ i, i ∈ seqZ 1 (MAX_DATA_CALL_SIZE * 2) → m_bDataCallStateArray c1 !! Z.to_nat i = call_table calls !! Z.to_nat i) as HD.
  { intros i Hi. apply elem_of_seqZ in Hi. rewrite D1. by rewrite decide_False by lia. }
  exists c1. split; [exact E1|]. split; [|split; [|split; [exact S1|split; [exact M1|] ] ] ].
  - intros cid Hcid. rewrite HD by (apply elem_of_seqZ; lia). apply call_table_last; [lia|done].
  - erewrite list_fmap_ext; [exact H1|]. intros k i Hi. apply list_elem_of_lookup_2, HD in Hi. unfold call_messages. by rewrite Hi.
  - exists c2. split; [exact E2|]. replace [] with (mjoin (call_messages (m_bDataCallStateArray c1) (call_table calls) <$> seqZ 1 (MAX_DATA_CALL_SIZE * 2)));
      [exact H2|]. erewrite list_fmap_ext; [apply (mjoin_nils (seqZ 1 (MAX_DATA_CALL_SIZE * 2)))|]. intros k i Hi. apply list_elem_of_lookup_2, HD in Hi.
    unfold call_messages. rewrite Hi. destruct (call_table calls !! Z.to_nat i); [by rewrite eqb_reflx|done].
Qed.

(** two calls, and an entry for the first that overrides the one before *)
Lemma data_call_list_witness :
  ∃ c', ProcessUnsolicitedResponse (UDataCallList [(1, 0); (3, 1); (1, 2)]) demo_context = Ok c' ∧
    m_bDataCallStateArray c' !! 1%nat = Some true ∧
    ∃ c'', ProcessUnsolicitedResponse (UDataCallList [(1, 0); (3, 1); (1, 2)]) c' = Ok c'' ∧ told [] c' c''.
Proof.
  destruct (data_call_list [(1, 0); (3, 1); (1, 2)] demo_context) as (c' & E & D & _ & _ & _ & H);
    [repeat (apply Forall_cons; split; [by unfold call_ok, MAX_DATA_CALL_SIZE; cbn; lia|]); constructor|done|].
  exists c'. split; [exact E|]. split; [|exact H]. apply (D 1). unfold MAX_DATA_CALL_SIZE. lia.
Defined.

(** ** Safety of a running context *)

Lemma Cx_new handlers ids r : (∀ id, HandlerContract (H := handlers id)) → routes_ok (newContext ids r) → Cx handlers (newContext ids r).
Proof.
  intros Hc Hr. split; [|split; [exact Hr|split; [done|apply state_wf_null] ] ]. clear Hr. cbn. induction ids as [|id ids IH]; [constructor|]. cbn [foldr].
  eapply all_live_assign; [exact IH|]. apply (lives_new (H := handlers id)).
Qed.

(** C6: a running context is safe, under these conditions: the handlers of its services keep [HandlerContract], and
    every routed request has its service ([routes_ok]).  Let the application send any requests (whatever the request
    parser makes of them), let the modem send any frames that are empty or at least as long as a header, in any order
    with the rounds and timeouts of every service's monitor, with modem state changes, with data call lists whose
    identifiers are in the table ([unsol_ok]) and with answers to the context whose application index is in bounds
    ([answer_ok]): nothing reads past a frame or a table or touches a deleted message.  Every service inside is always
    in a state it could reach alone, so all theorems about one service hold of it; and the data call table and the
    registration state stay well formed.  [call_table_overflow], [card_index_overflow] and [missing_service] show what
    happens without the conditions. *)
Theorem context_safe (handlers : Z → ServiceHandlers) (contracts : ∀ id, HandlerContract (H := handlers id))
    (ids : list Z) (rt : Routes) (r : res Context)
    (Hroutes : routes_ok (newContext ids rt)) (Hr : cx_reachable handlers (newContext ids rt) r) :
  ∃ c, r = Ok c ∧
    (∀ id s, FindService id c = Some s → ∃ acc, reachable (H := handlers id) acc (Ok s)) ∧
    (∀ requestId svc msg, RouteRequest requestId (routes c) = (0, svc, msg) → is_Some (FindService svc c)) ∧
    lenZ (m_bDataCallStateArray c) = MAX_DATA_CALL_SIZE * 2 + 1 ∧ state_wf (mServiceState c).
Proof.
  assert (∃ c, r = Ok c ∧ Cx handlers c) as (c & -> & Hs & Hro & Hd & Hw).
  { induction Hr as [|c r Hr IH Hstep]; [eexists; split; [done|by apply Cx_new]|].
    destruct IH as (c' & [= <-] & HC). by eapply (cx_step_ok handlers contracts). }
  exists c. split; [done|]. split; [|done]. intros id s Hf. destruct (all_live_find _ _ _ _ _ Hs Hf) as (acc & Ha & _). by exists acc.
Qed.

Lemma demo_routes_ok : routes_ok demo_context.
Proof.
  intros q svc msg. unfold RouteRequest, RouteOemRequest, routed, lookup_route, demo_context, demo_routes, SetRequestMap, SetProtocolIndMap, set_map.
  cbn [routes newContext s_RilRequestServiceMap s_RilOemRequestServiceMap s_ProtocolServiceMap]. rewrite !lookup_empty.
  destruct (q <=? 0); [done|]. destruct (q =? _); [done|]. destruct (_ <=? q); [done|].
  rewrite lookup_insert. destruct (decide (1 = q)); [|done]. intros [= <- <-]. by eexists.
Qed.

(** the application sends a request, its service hands it to the modem, and the modem answers *)
Definition demo_frame : list Z := [RCM_TYPE_RESPONSE; 0; 3; 2; 12; 0; 7; 0; 0; 0; 0; 0].
Lemma context_safe_witness :
  ∃ c1 c2 c, OnRequest (λ r _, Some r) 1 [] demo_context = Ok c1 ∧
    run_service 5 (λ s, dispatch (H := demo) (clock 100) REQUEST (set_pipe [] s)) c1 = Ok c2 ∧
    ProcessModemData demo_frame c2 = Ok c ∧
    ∃ s, FindService 5 c = Some s ∧ m_responseQueue s = [1] ∧ ∃ acc, reachable (H := demo) acc (Ok s).
Proof.
  set (r1 := OnRequest (λ r _, Some r) 1 [] demo_context).
  assert (cx_reachable (λ _, demo) demo_context r1) as H1 by (eapply cx_next; [apply cx_new|apply cx_request]).
  pose (c1 := match r1 with Ok c => c | _ => demo_context end).
  assert (r1 = Ok c1) as E1 by (vm_compute; reflexivity). rewrite E1 in H1.
  set (r2 := run_service 5 (λ s, dispatch (H := demo) (clock 100) REQUEST (set_pipe [] s)) c1).
  assert (cx_reachable (λ _, demo) demo_context r2) as H2.
  { eapply cx_next; [exact H1|]. by eapply (cx_read (λ _, demo) 5 (clock 100) REQUEST [] (default newService (FindService 5 c1)) c1). }
  pose (c2 := match r2 with Ok c => c | _ => demo_context end).
  assert (r2 = Ok c2) as E2 by (vm_compute; reflexivity). rewrite E2 in H2.
  assert (cx_reachable (λ _, demo) demo_context (ProcessModemData demo_frame c2)) as H3.
  { eapply cx_next; [exact H2|]. apply cx_frame. by right. }
  destruct (context_safe (λ _, demo) (λ _, demo_contract) [7; 5] demo_routes _ demo_routes_ok H3) as (c & E & Hs & _).
  exists c1, c2, c. split; [exact E1|]. split; [exact E2|]. split; [exact E|]. assert (∃ s, FindService 5 c = Some s ∧ m_responseQueue s = [1]) as (s & Hf & Hq).
  { vm_compute in E. injection E as <-. eexists. split; reflexivity. }
  exists s. split; [exact Hf|]. split; [exact Hq|]. by eapply Hs.
Defined.

(** ** Responses find the service that asked *)

Lemma Find_Push r w t : m_nToken r ≠ TOKEN_INVALID → Find t (Push r w) = if t =? m_nToken r then r else Find t w.
Proof.
  intros Hr. unfold Find, Push. rewrite (proj2 (Z.eqb_neq _ _) Hr). cbn [m_history]. rewrite lookup_insert.
  destruct (decide (m_nToken r = t)) as [->|Hne]; [by rewrite Z.eqb_refl|]. by rewrite (proj2 (Z.eqb_neq _ _)) by congruence.
Qed.
Lemma Find_Remove t t' w : Find t (Remove t' w) = if t =? t' then newRecord else Find t w.
Proof.
  unfold Find, Remove. destruct (m_history w !! t') as [r|] eqn:E; cbn [m_history].
  - rewrite lookup_delete. destruct (decide (t' = t)) as [->|Hne]; [by rewrite Z.eqb_refl|]. by rewrite (proj2 (Z.eqb_neq _ _)) by congruence.
  - destruct (Z.eqb_spec t t') as [->|]; [by rewrite E|done].
Qed.

(** the routing of a solicited frame *)
Lemma ProcessModemData_solicited raw d c : modem_data raw = Ok d → md_solicited d = true →
  let record := Find (md_token d) (history c) in
  let '(svc, msg) := if IsValid record then (i32 (m_nDestServiceId record), i32 (m_nResult record)) else (-1, 0) in
  ∃ c', ProcessModemData raw c = Ok c' ∧ history c' = Remove (md_token d) (history c) ∧
    match FindService svc c with
    | Some s => m_mapServiceMap c' = assign svc (posted (next_address c) (ModemMessage msg (Some d)) s) (m_mapServiceMap c)
    | None => m_mapServiceMap c' = m_mapServiceMap c
    end.
Proof.
  intros Hd Hsol record. destruct raw as [|b raw]; [by vm_compute in Hd|]. unfold ProcessModemData, SendModemData. rewrite Hd. cbn [mbind res_bind].
  rewrite Hsol. fold record. destruct (if IsValid record then _ else _) as [svc msg]. cbn [mbind res_bind]. change (0 <? 0) with false. cbv iota.
  unfold new_address. cbn [mbind res_bind next_address set_history]. unfold MgrSendMessage, FindService. cbn [m_mapServiceMap set_log set_history].
  destruct (find svc (m_mapServiceMap c)) as [s|]; [rewrite SendMessage_posted|]; cbn [mbind res_bind]; eexists; by split_and!.
Qed.

(** C7: a response reaches the service that asked for it, once.  When a service sends its current request to the modem
    under a valid token, the history keeps the service and the message it expects, and no other record changes.  In
    every later context whose history still has that record of the token, and that has the service and none under -1:
    a response with this token is put as that message at the end of that service's queue and nowhere else, and the
    token is forgotten, so a second response with it reaches no service; and a response with another token leaves the
    record alone. *)
Theorem response_routing (svc tok timeout result p0 : Z) (s : Service) (m0 : Message) (c : Context)
    (Hs : FindService svc c = Some s) (Hp : m_pCurReqMsg s = Some p0) (Hm : heap s !! p0 = Some m0)
    (Ht : tok ≠ TOKEN_INVALID) (Hsvc : 0 < svc < 2 ^ 31) (Hres : 0 <= result < 2 ^ 31) :
  ∃ c1, run_service svc (λ s, '(_, s) ← SendRequest svc tok timeout result true s; Ok s) c = Ok c1 ∧
    (∀ id, id ≠ svc → FindService id c1 = FindService id c) ∧
    (∀ t, t ≠ tok → Find t (history c1) = Find t (history c)) ∧
    ∀ later s' raw d,
      Find tok (history later) = Find tok (history c1) → FindService svc later = Some s' → FindService (-1) later = None →
      modem_data raw = Ok d → md_solicited d = true →
      ∃ c2, ProcessModemData raw later = Ok c2 ∧
        if md_token d =? tok
        then (∀ id, FindService id c2 = if id =? svc then Some (posted (next_address later) (ModemMessage result (Some d)) s') else FindService id later) ∧
             IsInRequestWaitHistory tok (history c2) = false ∧
             ∃ c3, ProcessModemData raw c2 = Ok c3 ∧ m_mapServiceMap c3 = m_mapServiceMap c2
        else Find tok (history c2) = Find tok (history later).
Proof.
  set (r := {| m_nToken := tok; m_nSrcServiceId := svc; m_nDestServiceId := svc; m_nResult := result |}).
  assert (IsValid r = true) as Hr by (by apply negb_true_iff, Z.eqb_neq).
  unfold run_service. rewrite Hs. unfold SendRequest, modify, deref. cbn [m_pCurReqMsg set_wait set_misc heap]. rewrite Hp, Hm. cbn [mbind res_bind].
  cbn [heap set_heap]. rewrite lookup_insert_eq. cbn [mbind res_bind]. unfold ContextSend, RecordRequestHistory, newInstance.
  rewrite (proj2 (Z.eqb_neq _ _) Ht). fold r. rewrite Hr. cbn [mbind res_bind m_RequestWaitList set_heap set_wait set_misc].
  eexists. split; [done|]. cbn [m_mapServiceMap history set_history set_services]. split; [|split].
  - intros id Hid. unfold FindService. cbn [m_mapServiceMap set_history set_services]. rewrite find_assign. by rewrite (proj2 (Z.eqb_neq _ _)) by done.
  - intros t Htt. rewrite Find_Push by done. by rewrite (proj2 (Z.eqb_neq _ _)) by done.
  - intros later s' raw d. rewrite Find_Push by done. change (m_nToken r) with tok. rewrite Z.eqb_refl. intros Hf Hs' Hno Hd Hsol.
    pose proof (ProcessModemData_solicited raw d later Hd Hsol) as H. cbn zeta in H. destruct (Z.eqb_spec (md_token d) tok) as [Etok|Etok].
    + rewrite Etok, Hf, Hr in H. change (m_nDestServiceId r) with svc in H. change (m_nResult r) with result in H.
      replace (i32 svc) with svc in H by (unfold i32; rewrite Z.mod_small by lia; lia).
      replace (i32 result) with result in H by (unfold i32; rewrite Z.mod_small by lia; lia).
      destruct H as (c2 & E2 & Hh & Hmap). rewrite Hs' in Hmap. exists c2. split; [exact E2|].
      assert (∀ id, FindService id c2 = if id =? svc then Some (posted (next_address later) (ModemMessage result (Some d)) s') else FindService id later)
        as Hc2 by (intros id; unfold FindService; rewrite Hmap; apply find_assign).
      assert (Find tok (history c2) = newRecord) as Hn by (rewrite Hh, Find_Remove; by rewrite Z.eqb_refl).
      split; [exact Hc2|]. split; [unfold IsInRequestWaitHistory; by rewrite Hn|].
      pose proof (ProcessModemData_solicited raw d c2 Hd Hsol) as H. cbn zeta in H. rewrite Etok, Hn in H.
      change (IsValid newRecord) with false in H. cbv iota in H. destruct H as (c3 & E3 & _ & Hmap3).
      rewrite Hc2, (proj2 (Z.eqb_neq _ _)), Hno in Hmap3 by lia. by exists c3.
    + destruct (if IsValid _ then _ else _) as [svc' msg']. destruct H as (c2 & E2 & Hh & _). exists c2. split; [exact E2|].
      rewrite Hh, Find_Remove. by rewrite (proj2 (Z.eqb_neq _ _)) by done.
Qed.

(** service 5 of the demonstration sends request 10 under token 7, and the answer comes back *)
Definition busy_context : Context := set_services [(5, busy); (7, newService)] demo_context.
Lemma response_routing_witness :
  ∃ c1, run_service 5 (λ s, '(_, s) ← SendRequest 5 7 1000 1 true s; Ok s) busy_context = Ok c1 ∧
    ∃ c2, ProcessModemData demo_frame c1 = Ok c2 ∧ FindService 7 c2 = Some newService ∧
      IsInRequestWaitHistory 7 (history c2) = false.
Proof.
  destruct (response_routing 5 7 1000 1 10 busy (default (RequestMessage 0 0) (heap busy !! 10)) busy_context) as (c1 & E & Ho & _ & H);
    [done..|lia|lia|].
  exists c1. split; [exact E|].
  assert (∃ s', FindService 5 c1 = Some s') as [s' Hs'] by (vm_compute in E; injection E as <-; by eexists).
  destruct (H c1 s' demo_frame {| md_token := 7; md_solicited := true; md_unsolicited := false |}) as (c2 & E2 & Hc2 & Hh & _);
    [reflexivity|exact Hs'|rewrite Ho by done; reflexivity|vm_compute; reflexivity|reflexivity|].
  exists c2. split; [exact E2|]. split; [|exact Hh]. rewrite Hc2. exact (Ho 7 ltac:(done)).
Defined.

(** ** Where the hypotheses of [context_safe] matter *)

(** a routed request without a service is deleted, then read *)
Lemma missing_service requestId svc msg c :
  RouteRequest requestId (routes c) = (0, svc, msg) → FindService svc c = None → SendRequestData requestId c = UB.
Proof.
  intros Hr Hf. unfold SendRequestData, new_address, MgrSendMessage. rewrite Hr. change (0 <? 0) with false. cbv iota.
  unfold FindService in *. cbn [m_mapServiceMap set_log routes]. rewrite Hf. by destruct (IsAsyncMessage svc msg (routes c)).
Qed.
(** data call identifiers and the index of the SIM application are not checked against their tables *)
Lemma call_table_overflow c : ProcessUnsolicitedResponse (UDataCallList [(9, 1)]) c = UB.
Proof. reflexivity. Qed.
Lemma card_index_overflow c : ProcessIccCardStatus 1 8 (fill RIL_CARD_MAX_APPS 0) c = UB.
Proof. reflexivity. Qed.
